(* ===== verification/_CoqProject ===== *)
-Q . S2P
Prelude.v
Memory.v
Lib.v
Types.v
Filesystem.v
FsProofs.v
FsProps.v
Ports.v
I8259.v
RTC.v
Paging.v
PagingProps.v
Console.v
ConsoleProofs.v
ConsoleProps.v
Printf.v
Keyboard.v
KeyboardProofs.v
Isolation.v
LineProofs.v
KeyboardProps.v
TerminalProofs.v
Stores.v
Typing.v
TerminalProps.v
Idt.v
Kernel.v
KernelProps.v
KernelDemo.v
SyscallProps.v
Process.v
ParseProofs.v
Scheduler.v
Forest.v
System.v
SystemProps.v
Beside.v
ProcessProofs.v
ProcessProps.v
Exceptions.v
Faults.v
Boot.v
BootProofs.v
FsDebug.v
BootProps.v
User.v
Programs.v
Syserr.v
UserLogic.v
UserProps.v
InteractProps.v
SyserrProps.v
GrepProps.v
Guard.v
Shell.v
UserKernel.v
UserSystem.v
Sigtest.v
ShellKernel.v
Timeshare.v
Fish.v
FishProofs.v
FishFrames.v
FishSwim.v
FishKernel.v
FishLoop.v
Emulate.v
EmulateProofs.v
