(* ===== verification/Prelude.v ===== *)
(** * Verification of the bOSs kernel

    bOSs (src/student-distrib) is a kernel for 32-bit x86 PCs: three text
    terminals, up to six processes in 4 MB pages of their own, a read-only file
    system loaded by the boot loader, a round-robin scheduler on the timer
    interrupt, and ten system calls through INT 0x80.  This library models the
    C code of the kernel and its inline assembly, and the programs that run on
    it, as functions on explicit state, and proves what makes each part
    correct.

    ** How the code is modelled

    - C integers are [Z] with the conversions [u8], [u16], [u32], [s8], [s32]
      written where C converts; bit operations are those of [Z].
    - Memory is a class, [Memory.ByteMem]: bytes at 32-bit addresses, where
      different addresses may reach the same cell.  The code of lib.c,
      filesystem.c and the console is written for any instance; [FlatMem] is a
      plain map, [Paging.PagedMem] the machine with its page tables.  Their
      theorems speak of a set [P] of addresses that are mapped and do not alias
      ([safe]).
    - Devices are a class, [Ports.PortIO], that answers [inb] and [outb]; the
      chip behind the real-time clock has its own laws ([RTC.CmosRtc]).
    - A loop is a step function run by [while] with fuel 2^32, one unit for every
      value of a 32-bit counter.  [None] means that the fuel ran out; the theorems
      show that this does not happen ([while_total]: an invariant and a measure
      below the fuel), so that they state termination together with the result.
    - Structs are records (with an update notation), enumerations and tables of
      function pointers are inductive types, arrays are lists indexed by [Z]
      ([l.[i]], [l.[i <- v]]).
    - The state of the kernel is one record, [Kernel.kernel]: the terminals with
      the memory and the devices they draw on, the keyboard's flags, the masks
      of the interrupt controllers, the file system's bounds, the PCBs, the
      process table, the TSS fields the kernel uses.  System calls and interrupt
      handlers are functions on it.  An access to an unmapped byte inside a call
      is a fault: [read], [write] and the other calls end in [Fault] or [None]
      instead of a value when they touch one, also where the code copies a fixed
      number of bytes ([execute] copies 127 of the command).
    - What the linker chooses (addresses of the page tables, of string constants
      and buffers, of locals on a stack) is a parameter: [Paging.Layout],
      [Boot.boot_env] and arguments of the functions.

    ** Files and what they show

    - Prelude, Memory, Ports, Types: integers, loops, record update, memory,
      devices; types.h.
    - Lib (lib.c): strings, itoa, memset, memcpy, memmove.  The block operations
      equal their byte-by-byte specification for every alignment and, for
      memmove, every overlap; itoa is inverted by reading the digits.
    - Filesystem, FsProofs, FsProps (filesystem.c): [fs_rep] relates memory to an
      abstract image (entries and files).  Lookup, [read_data], [file_read] and
      [dir_read] answer from the image; reading to the end terminates and gives
      the whole file or directory.
    - I8259, RTC (i8259.c, RTC.c): interrupt masks and clock rate; blocking reads
      end at the next interrupt.
    - Paging, PagingProps (paging.c, the page tables of syscall.c): the address
      spaces at boot and in a process.
    - Isolation: after boot and any sequence of the kernel's paging operations
      (execute, vidmap, terminal switches, loads of a directory), a process
      reaches its own 4 MB and video pages, and nothing else.
    - Console, ConsoleProofs, ConsoleProps, Printf (lib.c): what a page shows after
      each routine; printf against a reference formatter.
    - Keyboard, KeyboardProofs, LineProofs, KeyboardProps, TerminalProofs, Typing,
      TerminalProps (keyboard.c): the line editor, the terminal driver and the
      switch of terminals; their invariant; a typed line is what is read.
    - Stores: the routines change memory by stores alone, so that a property which
      every store keeps is kept by each of them.
    - Idt (idt.c, x86_desc.h): descriptors bit by bit, and which handler the
      processor enters for each vector, against the vector numbers of IA-32 and
      of the interrupt lines.
    - Kernel, KernelProps, KernelDemo, SyscallProps (syscall.c,
      syscall_linkage.h): the file system calls; descriptor tables stay well
      formed (getargs with a kernel pointer, which can overwrite them, is left
      out); open, read and close; rejected arguments and the faults that the
      checks miss.
    - Process, ParseProofs, ProcessProofs, ProcessProps (syscall.c: execute, halt):
      the command parser against a reference parser; a program is loaded and
      entered, or refused with everything restored; halt continues the parent;
      a root shell is started again.
    - Scheduler (scheduler.c), Forest, System, SystemProps: the kernel refines an
      abstract machine with one stack of processes per terminal; execute pushes,
      halt pops, the timer goes round the tops; one process per terminal is
      active; the round robin is fair.
    - Beside: what the calls of a process leave alone: the pages, page directories
      and PCBs of the other processes.
    - Exceptions, Faults (idt.c): an exception prints its message and ends the
      process; the page-fault handler also prints the address.
    - FsDebug (filesystem.c: show_fs_info, test_read): what the two debugging
      printers print for a well-formed image.
    - Boot, BootProofs, BootProps (kernel.c, multiboot.h): from the loader's state
      to the first shell, with the text printed on the way, what the descriptors
      mean to the processor, and the devices.
    - User (src/syscalls: ece391support.c, ece391syscall.h): the support library,
      for any instance of the class [Syscalls], and the contracts of the system
      calls as a program sees them, [FileService].
    - Programs, Syserr (src/syscalls: cat, ls, testprint, hello, counter, grep,
      pingpong, syserr): the programs as functions from the state in which [main]
      is entered to the state and status with which it returns.
    - UserLogic: a logic for programs that run on the contracts; a [world] is what
      a program knows of the system, and each call moves it from one to another.
    - UserProps, InteractProps, SyserrProps, GrepProps: what each program prints,
      with the lines typed and the clock ticks it needs; all tests of syserr pass.
    - Shell (src/syscalls/ece391shell.c): the shell, against a contract for
      [execute]; its sessions as an inductive relation on worlds.
    - Guard: contracts with an invariant of the system added to them.
    - UserKernel, UserSystem: a process of the kernel, with the memory its page
      tables give it and the system calls of [Kernel], keeps the contracts; so the
      programs' theorems hold of the terminal of such a process, for instance that
      cat prints the file and ls the directory of the file system image.
    - ShellKernel: [execute] up to its return: the kernel loads the program, the
      program runs (what a program file does in user mode is a parameter, [code]),
      [halt] comes back.  The caller finds its memory, descriptors, arguments and
      the other processes as they were, and the terminal and the input as the
      program left them; so the shell runs its sessions on the kernel.
    - Timeshare: the processes of the terminals in turn.  A process that the timer
      interrupts finds itself as it was when it is continued, after any steps of
      the others: stores to their pages, system calls with pointers into their
      pages, [execute] and [halt], timer interrupts, a switch of terminals.
    - Sigtest (src/syscalls/ece391sigtest.c): the signal test without handlers; its
      store through the null pointer faults.
    - Fish, FishProofs, FishFrames, FishSwim, FishKernel, FishLoop (src/fish:
      fish.c, blink.S): the animation with its list of blinking characters in
      memory.  The list routines keep a list segment and its contents; the two
      pictures are read into it, and 2600 clock ticks later the terminal shows what
      a reference animation of the pictures says.  The theorem asks for pictures
      of fewer than 2000 characters at the locations 1 to 1999; FishLoop shows
      that location 0 makes the list circular and the clock routine endless.
    - Emulate, EmulateProofs (src/syscalls/ece391emulate.c): the system calls on
      Linux.  Linux and its C library are a parameter (registers that a call does
      not use are given as 0); getargs, the command parser of execute and the
      directory reads are shown against list functions, with the bytes they store
      beyond a buffer.

    Files named Proofs hold the lemmas of a component, files named Props its main
    theorems with runs on concrete states.  The theorems about system calls
    assume [KernelProps.kernel_ok]; [BootProps.entry_starts_shell] establishes it,
    and the theorems about execute and halt keep it.

    ** Granularity

    A system call or handler runs as one step.  Interrupts taken while a call
    waits (keyboard input, the clock) are an explicit sequence of events; other
    interleavings inside a call are not modelled, nor are the interrupt flag and
    the effects of an interrupt between [sti] and [execute] at boot.  The page
    tables, the PCBs, the process table and the other variables of the kernel are
    beside the byte memory: a store through a pointer to their addresses is not
    seen by them.  The calls check their pointers against the kernel's memory,
    except [getargs]; theorems about sequences of calls therefore ask that the
    pointer of getargs is no kernel pointer ([KernelProps.file_call]).  [execute]
    also writes the name and argument bytes of a PCB in memory, as its parser
    indexes them there.

    ** Not modelled

    boot.S and x86_desc.S (assembly: boot stack, table storage), the macros of
    debug.h (empty without a debugging build), and of the user side the entry
    stubs in assembly (ece391syscall.S and [_start]).  The endless loop of
    pingpong is modelled as its first [n] rounds.  The theorems about programs run
    one program at a time; Timeshare interleaves processes, but its steps are
    stores and calls, not the instructions of a program file. *)

From stdpp Require Export base numbers list gmap tactics.
From Stdlib Require Strings.String Strings.Ascii.
#[local] Open Scope Z_scope.

(** ** Machine integers

    A C integer of width [w] is a [Z]; the functions below are the C
    conversions to that width (unsigned ones wrap modulo [2^w], signed ones
    wrap into [-2^(w-1), 2^(w-1))). *)

Definition u8 (x : Z) : Z := x mod 256.
Definition u16 (x : Z) : Z := x mod 65536.
Definition u32 (x : Z) : Z := x mod 4294967296.
Definition s8 (x : Z) : Z := (x + 128) mod 256 - 128.
Definition s32 (x : Z) : Z := (x + 2147483648) mod 4294967296 - 2147483648.

(** [lia] with division and remainder by constants, and the conversions
    above unfolded. *)
Ltac unfold_int := unfold u8, u16, u32, s8, s32 in *.
Ltac mlia := unfold_int; Z.to_euclidean_division_equations; lia.

Lemma u8_range x : 0 ≤ u8 x < 256.
Proof. mlia. Qed.

Lemma u32_range x : 0 ≤ u32 x < 4294967296.
Proof. mlia. Qed.

Lemma u8_small x : 0 ≤ x < 256 → u8 x = x.
Proof. mlia. Qed.

Lemma u16_small x : 0 ≤ x < 65536 → u16 x = x.
Proof. mlia. Qed.

Lemma u32_small x : 0 ≤ x < 4294967296 → u32 x = x.
Proof. mlia. Qed.

Lemma s32_small x : -2147483648 ≤ x < 2147483648 → s32 x = x.
Proof. mlia. Qed.

Lemma u8_u8 x : u8 (u8 x) = u8 x.
Proof. mlia. Qed.

Lemma s32_u32 x : s32 (u32 x) = s32 x.
Proof. mlia. Qed.

Lemma u8_s8_inj x y : s8 x = s8 y → u8 x = u8 y.
Proof. mlia. Qed.

(** ** Loops

    A C loop is a step function on its local state: [inl s'] goes round
    again with [s'], [inr r] leaves the loop with [r].  [while] runs it with
    [2^32] units of fuel, one for each value of a 32-bit counter or pointer;
    the fuel is a binary number, so running out of the loop early costs
    nothing. *)

Section Loop.
Context {S R : Type} (step : S → S + R).

Fixpoint run (n : nat) (s : S) : S + R :=
  match n with
  | O => inl s
  | Datatypes.S n => match step s with inl s' => run n s' | inr r => inr r end
  end.

Fixpoint prun (p : positive) (s : S) : S + R :=
  match p with
  | xH => step s
  | xO p => match prun p s with inl s' => prun p s' | inr r => inr r end
  | xI p =>
      match step s with
      | inl s' => match prun p s' with inl s2 => prun p s2 | inr r => inr r end
      | inr r => inr r
      end
  end.

Lemma run_add n k s :
  run (n + k) s = match run n s with inl s' => run k s' | inr r => inr r end.
Proof.
  revert s; induction n as [|n IH]; intros s; [done|]; simpl.
  destruct (step s); [apply IH|done].
Qed.

Lemma prun_run p s : prun p s = run (Pos.to_nat p) s.
Proof.
  revert s; induction p as [p IH|p IH|]; intros s; cbn [prun].
  - rewrite Pos2Nat.inj_xI. simpl. destruct (step s) as [s'|]; [|done].
    rewrite Nat.add_0_r, run_add, IH. by destruct (run _ s').
  - rewrite Pos2Nat.inj_xO. simpl.
    rewrite Nat.add_0_r, run_add, IH. by destruct (run _ s).
  - simpl. by destruct (step s).
Qed.

Lemma run_total (Inv : S → Prop) (mu : S → Z) (Post : R → Prop) n s :
  (∀ s, Inv s → 0 ≤ mu s) →
  (∀ s, Inv s → match step s with
                | inl s' => Inv s' ∧ mu s' < mu s
                | inr r => Post r
                end) →
  Inv s → mu s < Z.of_nat n →
  ∃ r, run n s = inr r ∧ Post r.
Proof.
  intros Hpos Hstep. revert s.
  induction n as [|n IH]; intros s Hs Hmu.
  - specialize (Hpos s Hs). lia.
  - simpl. specialize (Hstep s Hs). destruct (step s) as [s'|r]; [|eauto].
    destruct Hstep as [Hs' Hlt]. apply IH; [done|lia].
Qed.

Definition loop_fuel : positive := 4294967296.

Definition while (s : S) : option R :=
  match prun loop_fuel s with inl _ => None | inr r => Some r end.

(** Total correctness: an invariant and a measure below the fuel. *)
Lemma while_total (Inv : S → Prop) (mu : S → Z) (Post : R → Prop) s :
  (∀ s, Inv s → 0 ≤ mu s) →
  (∀ s, Inv s → match step s with
                | inl s' => Inv s' ∧ mu s' < mu s
                | inr r => Post r
                end) →
  Inv s → mu s < 4294967296 →
  ∃ r, while s = Some r ∧ Post r.
Proof.
  intros Hpos Hstep Hs Hmu. unfold while. rewrite prun_run.
  destruct (run_total Inv mu Post (Pos.to_nat loop_fuel) s) as (r & -> & ?);
    [done..| |eauto].
  unfold loop_fuel. lia.
Qed.

(** Exact result: the same rule with a predicted value. *)
Lemma while_eq (Inv : S → Prop) (mu : S → Z) (res : R) s :
  (∀ s, Inv s → 0 ≤ mu s) →
  (∀ s, Inv s → match step s with
                | inl s' => Inv s' ∧ mu s' < mu s
                | inr r => r = res
                end) →
  Inv s → mu s < 4294967296 →
  while s = Some res.
Proof.
  intros. destruct (while_total Inv mu (λ r, r = res) s) as (r & ? & ->); done.
Qed.

Lemma while_exit s r : step s = inr r → while s = Some r.
Proof.
  intros Hs. unfold while. rewrite prun_run.
  destruct (Pos.to_nat loop_fuel) as [|n] eqn:E; [unfold loop_fuel in E; lia|].
  simpl. by rewrite Hs.
Qed.

(** A loop that is taken again from every state of an invariant. *)
Lemma while_diverges (Inv : S → Prop) s :
  (∀ s, Inv s → ∃ s', step s = inl s' ∧ Inv s') → Inv s → while s = None.
Proof.
  intros Hstep Hs. unfold while. rewrite prun_run.
  assert (∀ n s, Inv s → ∃ s', run n s = inl s') as Hrun.
  { clear s Hs. induction n as [|n IH]; intros s Hs; [by eexists|]. cbn.
    destruct (Hstep s Hs) as (s' & -> & Hs'). by apply IH. }
  by destruct (Hrun (Pos.to_nat loop_fuel) s Hs) as [s' ->].
Qed.

(** A loop that is known to end after [n] steps. *)
Lemma while_run n s r : run n s = inr r → Z.of_nat n ≤ 4294967296 → while s = Some r.
Proof.
  intros Hr Hn. unfold while. rewrite prun_run.
  replace (Pos.to_nat loop_fuel) with (n + (Pos.to_nat loop_fuel - n))%nat by (unfold loop_fuel; lia).
  by rewrite run_add, Hr.
Qed.

(** Partial correctness: what a loop that ends leaves, from an invariant alone. *)
Lemma while_post (Inv : S → Prop) (Post : R → Prop) s r :
  (∀ s, Inv s → match step s with inl s' => Inv s' | inr r => Post r end) →
  Inv s → while s = Some r → Post r.
Proof.
  intros Hstep Hs. unfold while. rewrite prun_run.
  assert (∀ n s, Inv s → match run n s with inl s' => Inv s' | inr r => Post r end) as Hrun.
  { induction n as [|n IH]; intros s1 H1; [done|]. cbn [run].
    specialize (Hstep s1 H1) as H. destruct (step s1); [by apply IH|done]. }
  specialize (Hrun (Pos.to_nat loop_fuel) s Hs).
  destruct (run (Pos.to_nat loop_fuel) s); [discriminate|]. by intros [= <-].
Qed.
End Loop.

(** Conversion never runs a loop by accident; [vm_compute] still does. *)
#[global] Opaque while.

(** [for (j = i; j < i + n; j++) s = body(j, s);] *)
Fixpoint for_loop {S} (n : nat) (i : Z) (body : Z → S → S) (s : S) : S :=
  match n with
  | O => s
  | Datatypes.S n => for_loop n (i + 1) body (body i s)
  end.

Lemma for_loop_inv {S} (P : Z → S → Prop) n i body s :
  P i s →
  (∀ j s, i ≤ j < i + Z.of_nat n → P j s → P (j + 1) (body j s)) →
  P (i + Z.of_nat n) (for_loop n i body s).
Proof.
  revert i s; induction n as [|n IH]; intros i s Hs Hstep; simpl.
  - by rewrite Z.add_0_r.
  - replace (i + Z.of_nat (Datatypes.S n)) with ((i + 1) + Z.of_nat n) by lia.
    apply IH.
    + apply Hstep; [lia|done].
    + intros j s' Hj. apply Hstep. lia.
Qed.

(** Steps of the option monad by rewriting, without evaluating the rest. *)
Lemma bind_some {A B} (f : A → option B) x : (Some x ≫= f) = f x.
Proof. done. Qed.

(** ** Arrays

    A C array in a record is a list; [l.[i]] reads it and [l.[i <- v]]
    writes it.  Outside the bounds a read gives the default and a write
    does nothing; the safety theorems show where the code stays inside. *)

Declare Scope c_scope.
Delimit Scope c_scope with c.
#[global] Open Scope c_scope.

(** The all-zero value of a type. *)
Class HasZero (A : Type) := zero_val : A.
#[export] Instance Z_zero : HasZero Z := 0.
#[export] Instance bool_zero : HasZero bool := false.
#[export] Instance list_zero {A} : HasZero (list A) := [].

Definition aget {A} `{!HasZero A} (l : list A) (i : Z) : A :=
  if 0 <=? i then default zero_val (l !! Z.to_nat i) else zero_val.

Definition aset {A} (l : list A) (i : Z) (v : A) : list A :=
  if 0 <=? i then <[Z.to_nat i := v]> l else l.

Notation "l .[ i ]" := (aget l i) (at level 1, left associativity, format "l .[ i ]") : c_scope.
Notation "l .[ i <- v ]" := (aset l i v) (at level 1, left associativity, format "l .[ i  <-  v ]") : c_scope.

Section Arrays.
Context {A : Type} `{!HasZero A}.
Implicit Types (l : list A) (i j : Z) (v : A).

Lemma length_aset l i v : length (aset l i v) = length l.
Proof. unfold aset. destruct (0 <=? i); [apply length_insert|done]. Qed.

Lemma aget_aset_eq l i v :
  0 ≤ i < Z.of_nat (length l) → aget (aset l i v) i = v.
Proof.
  intros Hi. unfold aget, aset. rewrite (proj2 (Z.leb_le 0 i)) by lia.
  rewrite list_lookup_insert_eq by lia. done.
Qed.

Lemma aget_aset_ne l i j v : i ≠ j → aget (aset l i v) j = aget l j.
Proof.
  intros Hij. unfold aget, aset.
  destruct (Z.leb_spec 0 i), (Z.leb_spec 0 j); try done.
  rewrite list_lookup_insert_ne by lia. done.
Qed.

Lemma aget_aset l i j v :
  0 ≤ i < Z.of_nat (length l) →
  aget (aset l i v) j = if decide (i = j) then v else aget l j.
Proof.
  intros. case_decide; subst; [by apply aget_aset_eq|by apply aget_aset_ne].
Qed.

Lemma aset_aset l i v w : aset (aset l i v) i w = aset l i w.
Proof. unfold aset. destruct (0 <=? i); [apply list_insert_insert_eq|done]. Qed.

Lemma aset_same l i : aset l i (aget l i) = l.
Proof.
  unfold aset, aget. destruct (0 <=? i); [|done].
  destruct (l !! Z.to_nat i) as [x|] eqn:E; simpl.
  - by apply list_insert_id.
  - by rewrite list_insert_ge by by apply lookup_ge_None.
Qed.

Lemma aget_lookup l i x :
  0 ≤ i → l !! Z.to_nat i = Some x → aget l i = x.
Proof.
  intros Hi Hx. unfold aget. rewrite (proj2 (Z.leb_le 0 i)) by lia.
  by rewrite Hx.
Qed.

Lemma lookup_aget l (n : nat) :
  (n < length l)%nat → l !! n = Some (aget l (Z.of_nat n)).
Proof.
  intros Hn. destruct (lookup_lt_is_Some_2 l n Hn) as [x Hx].
  rewrite Hx. f_equal. symmetry. apply aget_lookup; [lia|].
  by rewrite Nat2Z.id.
Qed.

Lemma aget_app_l l (r : list A) i : i < Z.of_nat (length l) → (l ++ r).[i] = l.[i].
Proof.
  intros Hi. unfold aget. destruct (Z.leb_spec 0 i); [|done]. by rewrite lookup_app_l by lia.
Qed.

Lemma aget_app_r l (r : list A) i :
  Z.of_nat (length l) ≤ i → (l ++ r).[i] = r.[i - Z.of_nat (length l)].
Proof.
  intros Hi. unfold aget. rewrite !(proj2 (Z.leb_le 0 _)) by lia.
  rewrite lookup_app_r by lia. do 3 f_equal. lia.
Qed.

Lemma aget_ext l1 l2 :
  length l1 = length l2 →
  (∀ i, 0 ≤ i < Z.of_nat (length l1) → aget l1 i = aget l2 i) → l1 = l2.
Proof.
  intros Hlen Heq. apply list_eq. intros n.
  destruct (decide (n < length l1)%nat) as [Hn|Hn].
  - rewrite !lookup_aget by lia. f_equal. apply Heq. lia.
  - rewrite !lookup_ge_None_2 by lia. done.
Qed.
End Arrays.

Create Rewrite HintDb arr.
#[export] Hint Rewrite @length_aset : arr.

(** The bytes of a C string constant, without its NUL. *)
Definition text (s : String.string) : list Z :=
  (λ c, Z.of_N (Ascii.N_of_ascii c)) <$> String.list_ascii_of_string s.

(** ** Record update

    [r <| p := v |>] is [r] with field [p] set to [v].  [Setter p] instances
    are built by [mk_setter]. *)

Class Setter {R E} (p : R → E) := set_field : (E → E) → R → R.

Ltac mk_setter :=
  match goal with
  | |- @Setter ?R ?E ?p =>
      let f := fresh "f" in let r := fresh "r" in let r0 := fresh "r0" in
      unfold Setter; intros f r; set (r0 := r); destruct r;
      let x := eval cbv in (p r0) in
      let c := eval cbv delta [r0] in r0 in
      match eval pattern x in c with ?F _ => exact (F (f x)) end
  end.

Notation "r <| p := v |>" := (set_field (p := p) (λ _, v) r)
  (at level 1, left associativity, p at level 0, v at level 200,
   format "r  <| p  :=  v |>") : c_scope.

(** ** Tactics *)

(** Case analysis on the boolean comparisons in the goal. *)
Ltac bool_cases :=
  repeat match goal with
  | |- context [?a =? ?b] => destruct (Z.eqb_spec a b)
  | |- context [?a <? ?b] => destruct (Z.ltb_spec a b)
  | |- context [?a <=? ?b] => destruct (Z.leb_spec a b)
  | |- context [?a >? ?b] => rewrite (Z.gtb_ltb a b)
  | |- context [?a >=? ?b] => rewrite (Z.geb_leb a b)
  end.

(** The same, one comparison or decision at a time, dropping the impossible
    branches as they appear. *)
Ltac case_one :=
  match goal with
  | |- context [?a =? ?b] => destruct (Z.eqb_spec a b)
  | |- context [?a <? ?b] => destruct (Z.ltb_spec a b)
  | |- context [?a <=? ?b] => destruct (Z.leb_spec a b)
  | |- context [decide ?P] => destruct (decide P)
  end.
Ltac cases_lia := repeat (case_one; try (exfalso; lia)).

(** A bounded check by computation. *)
Lemma forall_seqZ_true (p : Z → bool) n :
  forallb p (seqZ 0 n) = true → ∀ j, 0 ≤ j < n → p j = true.
Proof.
  rewrite forallb_forall. intros H j Hj. apply H.
  rewrite <- list_elem_of_In, elem_of_seqZ. lia.
Qed.

Lemma forall_seqZ (f g : Z → Z) n :
  forallb (λ j, f j =? g j) (seqZ 0 n) = true → ∀ j, 0 ≤ j < n → f j = g j.
Proof. intros H j Hj. apply Z.eqb_eq, (forall_seqZ_true _ _ H j Hj). Qed.
