(* ===== verification/Memory.v ===== *)
(** * Byte-addressed memory

    The interface through which the C code reads and writes bytes: the
    library routines, the file system and the console are written against
    [ByteMem] and their theorems use only its laws.  [cell m a] is the
    physical cell behind address [a] ([None] where nothing is mapped), so two
    addresses may alias; it is determined by [ctl m], the part of the state
    (mapping, control registers) that memory writes cannot change.  [FlatMem] (every address is its own cell) is the
    machine before paging is enabled; the paged machine is an instance in
    [Paging]. *)

From S2P Require Import Prelude.
#[local] Open Scope Z_scope.

Class ByteMem (M : Type) := {
  Ctl : Type;
  ctl : M → Ctl;
  cell : M → Z → option Z;
  rd : M → Z → Z;
  wr : M → Z → Z → M;
  cell_ctl : ∀ m m' a, ctl m' = ctl m → cell m' a = cell m a;
  ctl_wr : ∀ m a v, ctl (wr m a v) = ctl m;
  rd_range : ∀ m a, 0 ≤ rd m a < 256;
  rd_wr : ∀ m a v b,
    rd (wr m a v) b =
    if decide (is_Some (cell m a) ∧ cell m a = cell m b) then u8 v else rd m b
}.

(** ** Derived accesses and the vocabulary of memory specifications *)

Section Memory.
Context {M : Type} `{!ByteMem M}.
Implicit Types (m : M) (a b d n v : Z) (P : Z → Prop).

(** A little-endian 32-bit load and store. *)
Definition load32 m a : Z :=
  rd m a + 256 * rd m (a + 1) + 65536 * rd m (a + 2) + 16777216 * rd m (a + 3).

Definition store32 m a v : M :=
  wr (wr (wr (wr m a v) (a + 1) (Z.shiftr v 8)) (a + 2) (Z.shiftr v 16))
     (a + 3) (Z.shiftr v 24).

(** The addresses satisfying [P] are mapped and do not alias. *)
Definition safe m P : Prop :=
  ∀ a b, P a → P b → is_Some (cell m a) ∧ (cell m a = cell m b → a = b).

(** [m'] is [m] with the bytes [d .. d+n) set to [f 0 .. f (n-1)], as seen
    through the addresses of [P]. *)
Definition written P m m' d n (f : Z → Z) : Prop :=
  ctl m' = ctl m ∧
  (∀ b, P b → rd m' b = if decide (d ≤ b < d + n) then f (b - d) else rd m b).

(** The region [d .. d+n). *)
Definition region d n : Z → Prop := λ a, d ≤ a < d + n.

(** Whether an access to address [a], or to the [n] addresses from [a] on, reaches
    memory at all; otherwise the processor faults. *)
Definition mapped m a : bool := bool_decide (is_Some (cell m a)).
Definition all_mapped m a n : bool := forallb (λ i, mapped m (a + i)) (seqZ 0 n).

(** The NUL-terminated string at [s] has length [n]. *)
Definition str_at m s n : Prop :=
  0 ≤ n ∧ (∀ i, 0 ≤ i < n → rd m (s + i) ≠ 0) ∧ rd m (s + n) = 0.

Lemma rd_wr_safe m P a v b :
  safe m P → P a → P b →
  rd (wr m a v) b = if decide (a = b) then u8 v else rd m b.
Proof.
  intros Hs Ha Hb. rewrite rd_wr.
  destruct (Hs a b Ha Hb) as [Hsome Hinj].
  repeat case_decide; intuition congruence.
Qed.

Lemma cell_wr m a v b : cell (wr m a v) b = cell m b.
Proof. apply cell_ctl, ctl_wr. Qed.

Lemma mapped_safe m P a : safe m P → P a → mapped m a = true.
Proof. intros Hs Ha. apply bool_decide_eq_true. by apply (Hs a a). Qed.

Lemma all_mapped_safe m P a n : safe m P → (∀ b, region a n b → P b) → all_mapped m a n = true.
Proof.
  intros Hs HP. apply forallb_forall. intros i Hi. rewrite <- list_elem_of_In, elem_of_seqZ in Hi.
  apply (mapped_safe m P); [done|]. apply HP. unfold region. lia.
Qed.

Lemma mapped_ctl m m' a : ctl m' = ctl m → mapped m' a = mapped m a.
Proof. intros E. unfold mapped. by rewrite (cell_ctl m m') by done. Qed.

Lemma all_mapped_ctl m m' a n : ctl m' = ctl m → all_mapped m' a n = all_mapped m a n.
Proof.
  intros E. unfold all_mapped. induction (seqZ 0 n) as [|i l IH]; [done|]. cbn [forallb].
  by rewrite IH, (mapped_ctl m m').
Qed.

Lemma safe_cells m m' P : ctl m' = ctl m → safe m P → safe m' P.
Proof. intros Hc Hs a b Ha Hb. rewrite !(cell_ctl m m') by done. by apply Hs. Qed.

Lemma safe_sub m P Q : safe m P → (∀ a, Q a → P a) → safe m Q.
Proof. intros Hs Hsub a b Ha Hb. apply Hs; by apply Hsub. Qed.

Lemma safe_wr m P a v : safe m P → safe (wr m a v) P.
Proof. apply safe_cells, ctl_wr. Qed.

Lemma written_safe P m m' d n f : safe m P → written P m m' d n f → safe m' P.
Proof. intros Hs [Hc _]. by apply (safe_cells m). Qed.

Lemma written_0 P m d n f : n ≤ 0 → written P m m d n f.
Proof.
  intros. split; [done|]. intros. case_decide; [lia|done].
Qed.

Lemma written_snoc P m m' d n f v :
  safe m P → (∀ a, region d (n + 1) a → P a) → 0 ≤ n →
  written P m m' d n f → u8 v = f n →
  written P m (wr m' (d + n) v) d (n + 1) f.
Proof.
  intros Hs HP Hn [Hc Hr] Hv.
  assert (P (d + n)) by (apply HP; unfold region; lia).
  split; [by rewrite ctl_wr|]. intros b Hb.
  rewrite (rd_wr_safe m' P) by (done || by apply (safe_cells m)).
  case_decide; subst.
  - rewrite decide_True by lia. rewrite Hv. f_equal. lia.
  - rewrite Hr by done. do 2 case_decide; done || lia.
Qed.

Lemma written_in P m m' d n f a :
  written P m m' d n f → P a → d ≤ a < d + n → rd m' a = f (a - d).
Proof. intros [_ Hr] HP Ha. rewrite Hr, decide_True; done. Qed.

Lemma written_out P m m' d n f a :
  written P m m' d n f → P a → ¬ (d ≤ a < d + n) → rd m' a = rd m a.
Proof. intros [_ Hr] HP Ha. rewrite Hr, decide_False; done. Qed.

Lemma written_ext P m m' d n f g :
  (∀ i, 0 ≤ i < n → f i = g i) → written P m m' d n f → written P m m' d n g.
Proof.
  intros Hfg [Hc Hr]. split; [done|]. intros b Hb. rewrite Hr by done.
  case_decide; [apply Hfg; lia|done].
Qed.

(** Four bytes at once. *)
Lemma written_store32 P m m' d n f v :
  safe m P → (∀ a, region d (n + 4) a → P a) → 0 ≤ n →
  written P m m' d n f →
  (∀ k, 0 ≤ k < 4 → u8 (Z.shiftr v (8 * k)) = f (n + k)) →
  written P m (store32 m' (d + n) v) d (n + 4) f.
Proof.
  intros Hs HP Hn Hw Hv. unfold store32.
  assert (∀ k, 0 ≤ k < 4 → ∀ a, region d (n + k + 1) a → P a).
  { intros k Hk a Ha. apply HP. unfold region in *. lia. }
  rewrite <- !Z.add_assoc.
  replace (n + 4) with ((((n + 0 + 1) + 0 + 1) + 0 + 1) + 0 + 1) by lia.
  pose proof (Hv 0 ltac:(lia)) as V0. pose proof (Hv 1 ltac:(lia)) as V1.
  pose proof (Hv 2 ltac:(lia)) as V2. pose proof (Hv 3 ltac:(lia)) as V3.
  rewrite ?Z.add_0_r in *. simpl (8 * _) in *.
  rewrite Z.shiftr_0_r in V0.
  replace (n + 3) with (n + 1 + 1 + 1) in * by lia.
  replace (n + 2) with (n + 1 + 1) in * by lia.
  repeat (apply written_snoc; [done| |lia| |done]).
  5: done.
  all: intros a Ha; apply HP; unfold region in *; lia.
Qed.

Lemma load32_range m a : 0 ≤ load32 m a < 4294967296.
Proof.
  unfold load32.
  pose proof (rd_range m a). pose proof (rd_range m (a + 1)).
  pose proof (rd_range m (a + 2)). pose proof (rd_range m (a + 3)). lia.
Qed.

Lemma load32_ext m m' a :
  (∀ b, a ≤ b < a + 4 → rd m' b = rd m b) → load32 m' a = load32 m a.
Proof. intros Hr. unfold load32. rewrite !Hr by lia. done. Qed.

Lemma written_load32_out P m m' d n f a :
  written P m m' d n f → (∀ b, region a 4 b → P b) →
  (a + 4 ≤ d ∨ d + n ≤ a) → load32 m' a = load32 m a.
Proof.
  intros Hw HP Hd. apply load32_ext. intros b Hb.
  apply (written_out _ _ _ _ _ _ _ Hw); [by apply HP|lia].
Qed.

Lemma store32_written P m a v :
  safe m P → (∀ b, region a 4 b → P b) →
  written P m (store32 m a v) a 4 (λ k, u8 (Z.shiftr v (8 * k))).
Proof.
  intros Hs HP. rewrite <- (Z.add_0_r a) at 1.
  apply (written_store32 P m m a 0); try done. by apply written_0.
Qed.

Lemma load32_store32 P m a v :
  safe m P → (∀ b, region a 4 b → P b) → 0 ≤ v < 4294967296 →
  load32 (store32 m a v) a = v.
Proof.
  intros Hs HP Hv. pose proof (store32_written P m a v Hs HP) as Hw.
  assert (∀ k, 0 ≤ k < 4 → rd (store32 m a v) (a + k) = u8 (v / 2 ^ (8 * k))) as Hk.
  { intros k Hk. rewrite (written_in _ _ _ _ _ _ _ Hw); [|apply HP; unfold region; lia|lia].
    rewrite Z.shiftr_div_pow2 by lia. do 4 f_equal. lia. }
  unfold load32. pose proof (Hk 0 ltac:(lia)) as H0. rewrite Z.add_0_r in H0.
  rewrite H0, !Hk by lia.
  change (2 ^ (8 * 0)) with 1. change (2 ^ (8 * 1)) with 256.
  change (2 ^ (8 * 2)) with 65536. change (2 ^ (8 * 3)) with 16777216. mlia.
Qed.
End Memory.

(** The same across two machines. *)
Lemma load32_eq {M M' : Type} `{!ByteMem M, !ByteMem M'} (m : M) (m' : M') a :
  (∀ b, a ≤ b < a + 4 → rd m' b = rd m b) → load32 m' a = load32 m a.
Proof. intros Hr. unfold load32. rewrite !Hr by lia. done. Qed.

(** ** Memories that read alike

    [m1 ≃ m2] when they have the same mapping and every address reads alike;
    stores respect it, so a memory may be replaced by one it is equivalent
    to under any sequence of accesses. *)

Section Equivalence.
Context {M : Type} `{!ByteMem M}.

Definition meq (m1 m2 : M) : Prop :=
  ctl m1 = ctl m2 ∧ (∀ a, rd m1 a = rd m2 a).

#[export] Instance meq_equivalence : Equivalence meq.
Proof.
  split.
  - by split.
  - intros m1 m2 [H1 H2]. by split.
  - intros m1 m2 m3 [H1 H2] [H3 H4]. split; [by rewrite H1|intros a; by rewrite H2].
Qed.

#[export] Instance rd_proper : Proper (meq ==> eq ==> eq) rd.
Proof. intros m1 m2 [_ H] a ? <-. apply H. Qed.

#[export] Instance cell_proper : Proper (meq ==> eq ==> eq) cell.
Proof. intros m1 m2 [H _] a ? <-. by apply cell_ctl. Qed.

#[export] Instance wr_proper : Proper (meq ==> eq ==> eq ==> meq) wr.
Proof.
  intros m1 m2 [H1 H2] a ? <- v ? <-. split.
  - by rewrite !ctl_wr.
  - intros b. rewrite !rd_wr. by rewrite !(cell_ctl m2 m1), H2 by done.
Qed.

#[export] Instance load32_proper : Proper (meq ==> eq ==> eq) load32.
Proof. intros m1 m2 H a ? <-. unfold load32. by rewrite H. Qed.

#[export] Instance store32_proper : Proper (meq ==> eq ==> eq ==> meq) store32.
Proof. intros m1 m2 H a ? <- v ? <-. unfold store32. by rewrite H. Qed.

#[export] Instance written_proper P :
  Proper (meq ==> meq ==> eq ==> eq ==> eq ==> iff) (written P).
Proof.
  assert (∀ m1 m2 m1' m2' d n f, meq m1 m2 → meq m1' m2' →
            written P m1 m1' d n f → written P m2 m2' d n f) as Hw.
  { intros m1 m2 m1' m2' d n f [Hc Hr] [Hc' Hr'] [Hw1 Hw2]. split.
    - by rewrite <- Hc', <- Hc.
    - intros b Hb. by rewrite <- Hr', <- Hr, Hw2. }
  intros m1 m2 H m1' m2' H' d ? <- n ? <- f ? <-.
  by split; apply Hw.
Qed.
End Equivalence.

Notation "m1 ≃ m2" := (meq m1 m2) (at level 70, no associativity) : c_scope.

(** ** Flat memory *)

Definition flat_rd (m : gmap Z Z) (a : Z) : Z := u8 (default 0 (m !! a)).

Lemma flat_rd_wr (m : gmap Z Z) (a v b : Z) :
  flat_rd (<[a := v]> m) b =
  if decide (is_Some (Some a) ∧ Some a = Some b) then u8 v else flat_rd m b.
Proof.
  unfold flat_rd. destruct (decide (a = b)) as [->|Hne].
  - rewrite lookup_insert_eq, decide_True; [done|]. split; [by eexists|done].
  - rewrite lookup_insert_ne, decide_False; [done| |done]. by intros [_ [= ]].
Qed.

#[export] Instance FlatMem : ByteMem (gmap Z Z) := {
  Ctl := unit;
  ctl _ := tt;
  cell _ a := Some a;
  rd := flat_rd;
  wr m a v := <[a := v]> m;
  cell_ctl _ _ _ _ := eq_refl;
  ctl_wr _ _ _ := eq_refl;
  rd_range m a := u8_range _;
  rd_wr := flat_rd_wr
}.

Lemma flat_safe (m : gmap Z Z) P : safe m P.
Proof. intros a b _ _. split; [by eexists|by intros [= ->]]. Qed.

(** The flat memory holding [bytes] from address [a] on. *)
Fixpoint flat_of (a : Z) (bytes : list Z) : gmap Z Z :=
  match bytes with
  | [] => ∅
  | v :: bytes => <[a := v]> (flat_of (a + 1) bytes)
  end.
