(* ===== verification/Lib.v ===== *)
(** * Library routines of the kernel (student-distrib/lib.c)

    The string and block-memory routines, over any [ByteMem].  Routines that
    loop return an [option]: [None] only if the loop outlives the whole
    32-bit counter range, and the theorems show when it does not.  The inline
    assembly of [memset], [memcpy] and [memmove] is modelled instruction group
    by instruction group: the byte loop up to a dword boundary, the [rep]
    string instruction on dwords, the byte loop for the tail. *)

From S2P Require Import Prelude Memory.
#[local] Open Scope Z_scope.

Section Lib.
Context {M : Type} `{!ByteMem M}.
Implicit Types (m : M) (s d n c : Z).

(** ** Strings *)

Definition strlen m s : option Z :=
  while (λ len, if rd m (s + len) =? 0 then inr len else inl (u32 (len + 1))) 0.

(** [for (i = 0; i < n; i++)]: [i] is a signed int compared with an
    unsigned [n]. *)
Definition strncmp m s1 s2 n : option Z :=
  while (λ i,
    if u32 i <? n then
      if negb (rd m (s1 + i) =? rd m (s2 + i)) || (rd m (s1 + i) =? 0)
      then inr (s8 (rd m (s1 + i)) - s8 (rd m (s2 + i)))
      else inl (s32 (i + 1))
    else inr 0) 0.

Definition strcpy m d s : option M :=
  match
    while (λ '(m, i),
      if rd m (s + i) =? 0 then inr (m, i)
      else inl (wr m (d + i) (rd m (s + i)), s32 (i + 1))) (m, 0)
  with
  | Some (m, i) => Some (wr m (d + i) 0)
  | None => None
  end.

Definition strncpy m d s n : option M :=
  match
    while (λ '(m, i),
      if negb (rd m (s + i) =? 0) && (u32 i <? n)
      then inl (wr m (d + i) (rd m (s + i)), s32 (i + 1))
      else inr (m, i)) (m, 0)
  with
  | Some (m, i) =>
      while (λ '(m, i),
        if u32 i <? n then inl (wr m (d + i) 0, s32 (i + 1)) else inr m) (m, i)
  | None => None
  end.

Definition strrev m s : option M :=
  match strlen m s with
  | Some len =>
      while (λ '(m, beg, end_),
        if beg <? end_ then
          let tmp := rd m (s + end_) in
          let m := wr m (s + end_) (rd m (s + beg)) in
          let m := wr m (s + beg) tmp in
          inl (m, s32 (beg + 1), s32 (end_ - 1))
        else inr m) (m, 0, s32 (len - 1))
  | None => None
  end.

(** [static int8_t lookup[] = "0123456789ABCDEFGHIJKLMNOPQRSTUVWXYZ"], with
    its terminating NUL. *)
Definition lookup_digits : list Z :=
  [48; 49; 50; 51; 52; 53; 54; 55; 56; 57;
   65; 66; 67; 68; 69; 70; 71; 72; 73; 74; 75; 76; 77; 78; 79; 80; 81; 82;
   83; 84; 85; 86; 87; 88; 89; 90; 0].

Definition itoa m value buf radix : option M :=
  if value =? 0 then Some (wr (wr m buf 48) (buf + 1) 0)
  else
    match
      while (λ '(m, newbuf, newval),
        if newval >? 0 then
          let i := newval mod u32 radix in
          inl (wr m newbuf lookup_digits.[i], newbuf + 1, newval / u32 radix)
        else inr (m, newbuf)) (m, buf, value)
    with
    | Some (m, newbuf) => strrev (wr m newbuf 0) buf
    | None => None
    end.

(** ** Block memory *)

(** [rep stosl], [rep stosw]: direction flag clear; registers
    [edi], [ecx]; the value in [eax]. *)
Definition rep_stosl m edi ecx eax : option (M * Z) :=
  while (λ '(m, edi, ecx),
    if ecx =? 0 then inr (m, edi)
    else inl (store32 m edi eax, u32 (edi + 4), u32 (ecx - 1))) (m, edi, ecx).

Definition store16 m a v : M := wr (wr m a v) (a + 1) (Z.shiftr v 8).

Definition rep_stosw m edi ecx eax : option (M * Z) :=
  while (λ '(m, edi, ecx),
    if ecx =? 0 then inr (m, edi)
    else inl (store16 m edi eax, u32 (edi + 2), u32 (ecx - 1))) (m, edi, ecx).

(** The head loop of [memset] ([.memset_top]): bytes until [ecx] is 0 (done,
    [inl]) or [edi] is dword aligned ([inr]). *)
Definition memset_top m edi ecx al : option (M + M * Z * Z) :=
  while (λ '(m, edi, ecx),
    if ecx =? 0 then inr (inl m)
    else if Z.land edi 3 =? 0 then inr (inr (m, edi, ecx))
    else inl (wr m edi al, u32 (edi + 1), u32 (ecx - 1))) (m, edi, ecx).

(** [.memset_bottom]. *)
Definition memset_bottom m edi edx al : option M :=
  while (λ '(m, edi, edx),
    if edx =? 0 then inr m
    else inl (wr m edi al, u32 (edi + 1), u32 (edx - 1))) (m, edi, edx).

Definition memset m s c n : option M :=
  let c := Z.land c 255 in
  let eax := u32 (Z.lor (Z.lor (Z.lor (Z.shiftl c 24) (Z.shiftl c 16))
                               (Z.shiftl c 8)) c) in
  match memset_top m s n eax with
  | Some (inl m) => Some m
  | Some (inr (m, edi, ecx)) =>
      let edx := Z.land ecx 3 in
      match rep_stosl m edi (Z.shiftr ecx 2) eax with
      | Some (m, edi) => memset_bottom m edi edx eax
      | None => None
      end
  | None => None
  end.

Definition memset_word m s c n : option M := fst <$> rep_stosw m s n (u32 c).
Definition memset_dword m s c n : option M := fst <$> rep_stosl m s n (u32 c).

(** [rep movsl], direction flag clear: one dword is loaded, then stored. *)
Definition rep_movsl m esi edi ecx : option (M * Z * Z) :=
  while (λ '(m, esi, edi, ecx),
    if ecx =? 0 then inr (m, esi, edi)
    else inl (store32 m edi (load32 m esi), u32 (esi + 4), u32 (edi + 4),
              u32 (ecx - 1))) (m, esi, edi, ecx).

Definition memcpy_top m esi edi ecx : option (M + M * Z * Z * Z) :=
  while (λ '(m, esi, edi, ecx),
    if ecx =? 0 then inr (inl m)
    else if Z.land edi 3 =? 0 then inr (inr (m, esi, edi, ecx))
    else inl (wr m edi (rd m esi), u32 (esi + 1), u32 (edi + 1), u32 (ecx - 1)))
    (m, esi, edi, ecx).

Definition memcpy_bottom m esi edi edx : option M :=
  while (λ '(m, esi, edi, edx),
    if edx =? 0 then inr m
    else inl (wr m edi (rd m esi), u32 (esi + 1), u32 (edi + 1), u32 (edx - 1)))
    (m, esi, edi, edx).

Definition memcpy m d s n : option M :=
  match memcpy_top m s d n with
  | Some (inl m) => Some m
  | Some (inr (m, esi, edi, ecx)) =>
      let edx := Z.land ecx 3 in
      match rep_movsl m esi edi (Z.shiftr ecx 2) with
      | Some (m, esi, edi) => memcpy_bottom m esi edi edx
      | None => None
      end
  | None => None
  end.

(** [rep movsb] with the direction flag [df]. *)
Definition rep_movsb (df : bool) m esi edi ecx : option M :=
  let delta := if df then -1 else 1 in
  while (λ '(m, esi, edi, ecx),
    if ecx =? 0 then inr m
    else inl (wr m edi (rd m esi), u32 (esi + delta), u32 (edi + delta),
              u32 (ecx - 1))) (m, esi, edi, ecx).

(** [memmove]: forward when [esi >= edi], otherwise from the last byte down
    with the direction flag set.  The second component is the direction
    flag on return. *)
Definition memmove m d s n : option (M * bool) :=
  if s >=? d then (λ m, (m, false)) <$> rep_movsb false m s d n
  else (λ m, (m, true)) <$> rep_movsb true m (u32 (s + n - 1)) (u32 (d + n - 1)) n.
End Lib.

(** ** Correctness of the string routines *)

Section Strings.
Context {M : Type} `{!ByteMem M}.
Implicit Types (m : M) (s d n c : Z) (P : Z → Prop).

Lemma strlen_str_at m s n :
  str_at m s n → n < 4294967296 → strlen m s = Some n.
Proof.
  intros (Hn & Hnz & Hz) Hlt. unfold strlen.
  apply (while_eq _ (λ len, 0 ≤ len ≤ n) (λ len, n - len)); try lia.
  intros len Hlen. destruct (Z.eqb_spec (rd m (s + len)) 0) as [E|E].
  - destruct (decide (len = n)) as [->|]; [done|]. by destruct (Hnz len); [lia|].
  - assert (len ≠ n) by (intros ->; done). rewrite u32_small by lia. lia.
Qed.

(** The two outcomes of a comparison: the strings agree on their first [n]
    bytes (or up to a common NUL), or [i] is the first byte that differs. *)
Definition agree m s1 s2 n : Prop :=
  ∀ i, 0 ≤ i < n → (∀ j, 0 ≤ j < i → rd m (s1 + j) ≠ 0) →
       rd m (s1 + i) = rd m (s2 + i).

Definition differ_at m s1 s2 n i : Prop :=
  0 ≤ i < n ∧ rd m (s1 + i) ≠ rd m (s2 + i) ∧
  ∀ j, 0 ≤ j < i → rd m (s1 + j) = rd m (s2 + j) ∧ rd m (s1 + j) ≠ 0.

Lemma strncmp_cases m s1 s2 n :
  0 ≤ n < 2147483648 →
  ∃ r, strncmp m s1 s2 n = Some r ∧
       ((r = 0 ∧ agree m s1 s2 n) ∨
        (∃ i, differ_at m s1 s2 n i ∧
              r = s8 (rd m (s1 + i)) - s8 (rd m (s2 + i)))).
Proof.
  intros Hn. unfold strncmp.
  apply (while_total _
    (λ i, 0 ≤ i ≤ n ∧ ∀ j, 0 ≤ j < i → rd m (s1 + j) = rd m (s2 + j) ∧ rd m (s1 + j) ≠ 0)
    (λ i, n - i)); [lia| |split; lia|lia].
  intros i [Hi Heq]. rewrite u32_small by lia.
  destruct (Z.ltb_spec i n).
  - destruct (Z.eqb_spec (rd m (s1 + i)) (rd m (s2 + i))) as [E|E]; simpl.
    + destruct (Z.eqb_spec (rd m (s1 + i)) 0) as [E0|E0]; simpl.
      * left. split; [rewrite E; lia|].
        intros k Hk Hnz. destruct (decide (k < i)); [apply Heq; lia|].
        destruct (decide (k = i)) as [->|]; [done|]. by destruct (Hnz i); [lia|].
      * rewrite s32_small by lia. split; [split; [lia|]|lia].
        intros j Hj. destruct (decide (j = i)) as [->|]; [done|apply Heq; lia].
    + right. exists i. split; [|done]. repeat split; try lia; by apply Heq.
  - left. split; [done|]. intros k Hk _. apply Heq. lia.
Qed.

Lemma differ_at_not_agree m s1 s2 n i : differ_at m s1 s2 n i → ¬ agree m s1 s2 n.
Proof.
  intros (Hi & Hne & Hlt) Hag. apply Hne, Hag; [lia|]. intros; by apply Hlt.
Qed.

(** A zero result is agreement. *)
Lemma strncmp_zero m s1 s2 n :
  0 ≤ n < 2147483648 →
  ∃ r, strncmp m s1 s2 n = Some r ∧ (r = 0 ↔ agree m s1 s2 n).
Proof.
  intros Hn. destruct (strncmp_cases m s1 s2 n Hn) as (r & -> & Hr).
  exists r. split; [done|]. destruct Hr as [[-> Hag]|(i & Hd & ->)]; [done|].
  split; [|by intros ?%(differ_at_not_agree _ _ _ _ _ Hd)].
  intros Hz. destruct Hd as (_ & Hne & _). destruct Hne.
  pose proof (rd_range m (s1 + i)). pose proof (rd_range m (s2 + i)). mlia.
Qed.

(** The copying loop shared by [strcpy] and [strncpy]: after [i] rounds the
    first [i] bytes are the source's. *)
Definition copied P m m' d s i : Prop :=
  written P m m' d i (λ j, rd m (s + j)).

Lemma copied_step P m m' d s i n :
  safe m P → (∀ a, region d n a → P a) → 0 ≤ i < n →
  P (s + i) → ¬ (d ≤ s + i < d + i) →
  copied P m m' d s i → copied P m (wr m' (d + i) (rd m' (s + i))) d s (i + 1).
Proof.
  intros Hs HP Hi Hsi Hdis Hc. apply written_snoc; try done; try lia.
  - intros a Ha. apply HP. unfold region in *. lia.
  - rewrite (written_out _ _ _ _ _ _ _ Hc Hsi Hdis).
    pose proof (rd_range m (s + i)). apply u8_small. lia.
Qed.

Lemma strcpy_correct P m d s n :
  str_at m s n → n < 2147483647 → safe m P →
  (∀ a, region d (n + 1) a → P a) → (∀ a, region s (n + 1) a → P a) →
  (d + n < s ∨ s + n < d) →
  ∃ m', strcpy m d s = Some m' ∧ written P m m' d (n + 1) (λ i, rd m (s + i)).
Proof.
  intros (Hn & Hnz & Hz) Hlt Hs HPd HPs Hdis. unfold strcpy.
  destruct (while_total (λ '(m, i),
      if rd m (s + i) =? 0 then inr (m, i)
      else inl (wr m (d + i) (rd m (s + i)), s32 (i + 1)))
    (λ '(m', i), 0 ≤ i ≤ n ∧ copied P m m' d s i) (λ '(_, i), n - i)
    (λ '(m', i), i = n ∧ copied P m m' d s n) (m, 0)) as ([m' i] & -> & -> & Hc).
  - intros [m' i]. lia.
  - intros [m' i] [Hi Hc].
    assert (P (s + i)) by (apply HPs; unfold region; lia).
    assert (rd m' (s + i) = rd m (s + i)) as E.
    { apply (written_out _ _ _ _ _ _ _ Hc); [done|lia]. }
    destruct (Z.eqb_spec (rd m' (s + i)) 0).
    + destruct (decide (i = n)) as [->|]; [done|].
      by destruct (Hnz i); [lia|congruence].
    + assert (i ≠ n) by congruence. rewrite s32_small by lia.
      split; [split; [lia|]|lia]. eapply copied_step; eauto; lia.
  - split; [lia|]. by apply written_0.
  - lia.
  - eexists. split; [done|].
    replace 0 with (rd m (s + n)) at 1.
    apply written_snoc; try done. rewrite Hz. done.
Qed.

Lemma strncpy_correct P m d s n :
  0 ≤ n < 2147483648 → safe m P →
  (∀ a, region d n a → P a) → (∀ a, region s (n + 1) a → P a) →
  (d + n ≤ s ∨ s + n < d) →
  ∃ m' k, strncpy m d s n = Some m' ∧ 0 ≤ k ≤ n ∧
    (∀ j, 0 ≤ j < k → rd m (s + j) ≠ 0) ∧ (k < n → rd m (s + k) = 0) ∧
    written P m m' d n (λ i, if i <? k then rd m (s + i) else 0).
Proof.
  intros Hn Hs HPd HPs Hdis. unfold strncpy.
  destruct (while_total (λ '(m, i),
      if negb (rd m (s + i) =? 0) && (u32 i <? n)
      then inl (wr m (d + i) (rd m (s + i)), s32 (i + 1))
      else inr (m, i))
    (λ '(m', i), 0 ≤ i ≤ n ∧ copied P m m' d s i ∧ ∀ j, 0 ≤ j < i → rd m (s + j) ≠ 0)
    (λ '(_, i), n - i)
    (λ '(m', i), 0 ≤ i ≤ n ∧ copied P m m' d s i ∧
                 (∀ j, 0 ≤ j < i → rd m (s + j) ≠ 0) ∧ (i < n → rd m (s + i) = 0))
    (m, 0)) as ([m1 k] & -> & Hk & Hc & Hnz & Hz).
  - intros [m' i]. lia.
  - intros [m' i] (Hi & Hc & Hnz).
    assert (P (s + i)) by (apply HPs; unfold region; lia).
    assert (rd m' (s + i) = rd m (s + i)) as E.
    { apply (written_out _ _ _ _ _ _ _ Hc); [done|lia]. }
    rewrite u32_small by lia.
    destruct (Z.eqb_spec (rd m' (s + i)) 0); simpl.
    { split_and!; done || lia || congruence. }
    destruct (Z.ltb_spec i n); [|split_and!; done || lia].
    rewrite s32_small by lia. split; [split_and!; [lia..| |]|lia].
    + eapply copied_step; eauto; lia.
    + intros j Hj. destruct (decide (j = i)) as [->|]; [congruence|apply Hnz; lia].
  - split_and!; [lia..|by apply written_0|lia].
  - lia.
  - set (f := λ i, if i <? k then rd m (s + i) else 0).
    destruct (while_total (λ '(m, i),
        if u32 i <? n then inl (wr m (d + i) 0, s32 (i + 1)) else inr m)
      (λ '(m', i), k ≤ i ≤ n ∧ written P m m' d i f) (λ '(_, i), n - i)
      (λ m', written P m m' d n f) (m1, k)) as (m2 & -> & Hw); [..|by eauto 10].
    + intros [m' i]. lia.
    + intros [m' i] [Hi Hw]. rewrite u32_small by lia.
      destruct (Z.ltb_spec i n); [|by replace n with i by lia].
      rewrite s32_small by lia.
      split; [split; [lia|]|lia].
      apply written_snoc; try done; try lia.
      * intros a Ha. apply HPd. unfold region in *. lia.
      * unfold f. destruct (Z.ltb_spec i k); [lia|done].
    + split; [lia|]. eapply written_ext, Hc. intros i Hi. unfold f.
      destruct (Z.ltb_spec i k); [done|lia].
    + lia.
Qed.
End Strings.

(** ** Correctness of the block routines *)

Section Blocks.
Context {M : Type} `{!ByteMem M}.
Implicit Types (m : M) (s d n c : Z) (P : Z → Prop).

Lemma land3 x : Z.land x 3 = x mod 4.
Proof. change 3 with (Z.ones 2). by rewrite Z.land_ones by lia. Qed.

Lemma shiftr2 x : Z.shiftr x 2 = x / 4.
Proof. by rewrite Z.shiftr_div_pow2 by lia. Qed.

Lemma land255 x : Z.land x 255 = u8 x.
Proof. change 255 with (Z.ones 8). by rewrite Z.land_ones by lia. Qed.

(** The dword [c << 24 | c << 16 | c << 8 | c] consists of four bytes [c]. *)
Definition splat (c : Z) : Z :=
  u32 (Z.lor (Z.lor (Z.lor (Z.shiftl c 24) (Z.shiftl c 16)) (Z.shiftl c 8)) c).

Lemma splat_bytes c k :
  0 ≤ c < 256 → 0 ≤ k < 4 → u8 (Z.shiftr (splat c) (8 * k)) = c.
Proof.
  intros Hc Hk.
  assert (forallb (λ c, forallb (λ k, u8 (Z.shiftr (splat c) (8 * k)) =? c)
            (seqZ 0 4)) (seqZ 0 256) = true) as Hall by (vm_compute; reflexivity).
  pose proof (forall_seqZ_true _ _ Hall c Hc) as Hk'.
  exact (forall_seqZ (λ k, u8 (Z.shiftr (splat c) (8 * k))) (λ _, c) 4 Hk' k Hk).
Qed.

(** Progress of a forward fill: [k] of [n] bytes are in place, the pointer
    register is at [d + k] and [n - k] bytes are left. *)
Definition filling P m d n (f : Z → Z) (st : M * Z * Z) : Prop :=
  let '(m', edi, todo) := st in
  0 ≤ todo ≤ n ∧ edi = d + (n - todo) ∧ written P m m' d (n - todo) f.

Lemma filling_byte P m d n f m' edi todo v :
  safe m P → (∀ a, region d n a → P a) → 0 ≤ d → d + n < 4294967296 →
  filling P m d n f (m', edi, todo) → todo ≠ 0 → u8 v = f (n - todo) →
  filling P m d n f (wr m' edi v, u32 (edi + 1), u32 (todo - 1)).
Proof.
  intros Hs HP Hd Hdn (Hl & -> & Hw) Hne Hv. unfold filling.
  rewrite !u32_small by lia. split_and!; try lia.
  replace (n - (todo - 1)) with (n - todo + 1) by lia.
  apply written_snoc; try done; try lia.
  intros a Ha. apply HP. unfold region in *. lia.
Qed.

(** The byte loop of [memset_bottom], from any point of the fill. *)
Lemma memset_bottom_fill P m d n f al m' edi todo :
  safe m P → (∀ a, region d n a → P a) → 0 ≤ d → d + n < 4294967296 →
  (∀ i, 0 ≤ i < n → u8 al = f i) →
  filling P m d n f (m', edi, todo) →
  ∃ m2, memset_bottom m' edi todo al = Some m2 ∧ written P m m2 d n f.
Proof.
  intros Hs HP Hd Hdn Hf Hfill. unfold memset_bottom.
  apply (while_total _ (filling P m d n f) (λ '(_, _, todo), todo)).
  - intros [[? ?] ?] (? & _). lia.
  - intros [[m1 e] l] H1. destruct (Z.eqb_spec l 0) as [->|Hne].
    + destruct H1 as (_ & _ & Hw). by rewrite Z.sub_0_r in Hw.
    + split; [|destruct H1; rewrite u32_small by lia; lia].
      eapply filling_byte; eauto. apply Hf. destruct H1. lia.
  - done.
  - destruct Hfill. lia.
Qed.

(** [rep stosl] advances a fill by [4 * ecx] bytes. *)
Lemma rep_stosl_fill P m d n f eax m' edi todo ecx :
  safe m P → (∀ a, region d n a → P a) → 0 ≤ d → d + n < 4294967296 →
  (∀ j, 0 ≤ j < ecx → ∀ k, 0 ≤ k < 4 →
    u8 (Z.shiftr eax (8 * k)) = f (n - todo + 4 * j + k)) →
  filling P m d n f (m', edi, todo) → 0 ≤ 4 * ecx ≤ todo →
  ∃ m2 edi2, rep_stosl m' edi ecx eax = Some (m2, edi2) ∧
             filling P m d n f (m2, edi2, todo - 4 * ecx).
Proof.
  intros Hs HP Hd Hdn Hf Hfill Hecx. unfold rep_stosl.
  destruct (while_total (λ '(m, edi, ecx),
      if ecx =? 0 then inr (m, edi)
      else inl (store32 m edi eax, u32 (edi + 4), u32 (ecx - 1)))
    (λ '(m1, e, c), 0 ≤ c ≤ ecx ∧ filling P m d n f (m1, e, todo - 4 * (ecx - c)))
    (λ '(_, _, c), c)
    (λ '(m2, e2), filling P m d n f (m2, e2, todo - 4 * ecx))
    (m', edi, ecx)) as ([m2 e2] & -> & ?).
  - intros [[? ?] ?] (? & _). lia.
  - intros [[m1 e] c] [Hc H1]. destruct (Z.eqb_spec c 0) as [->|Hne].
    { by rewrite Z.sub_0_r in H1. }
    destruct H1 as (Hl & -> & Hw). unfold filling. rewrite !u32_small by lia.
    split_and!; try lia.
    replace (n - (todo - 4 * (ecx - (c - 1)))) with
      (n - (todo - 4 * (ecx - c)) + 4) by lia.
    apply written_store32; try done; try lia.
    + intros a Ha. apply HP. unfold region in *. lia.
    + intros k Hk. rewrite (Hf (ecx - c)) by lia. f_equal. lia.
  - split; [lia|]. by replace (todo - 4 * (ecx - ecx)) with todo by lia.
  - destruct Hfill. lia.
  - eauto.
Qed.

Lemma memset_correct P m d c n :
  safe m P → (∀ a, region d n a → P a) → 0 ≤ d → 0 ≤ n → d + n < 4294967296 →
  ∃ m', memset m d c n = Some m' ∧ written P m m' d n (λ _, u8 c).
Proof.
  intros Hs HP Hd Hn Hdn. unfold memset. rewrite land255.
  change (u32 (Z.lor _ _)) with (splat (u8 c)). set (eax := splat (u8 c)).
  assert (∀ k, 0 ≤ k < 4 → u8 (Z.shiftr eax (8 * k)) = u8 c) as Heax.
  { intros k Hk. apply splat_bytes; [apply u8_range|done]. }
  assert (u8 eax = u8 c) as Hal.
  { specialize (Heax 0). rewrite Z.shiftr_0_r in Heax. apply Heax. lia. }
  unfold memset_top.
  destruct (while_total (λ '(m, edi, ecx),
      if ecx =? 0 then inr (inl m)
      else if Z.land edi 3 =? 0 then inr (inr (m, edi, ecx))
      else inl (wr m edi eax, u32 (edi + 1), u32 (ecx - 1)))
    (filling P m d n (λ _, u8 c)) (λ '(_, _, todo), todo)
    (λ r, match r with
          | inl m' => written P m m' d n (λ _, u8 c)
          | inr st => filling P m d n (λ _, u8 c) st
          end) (m, d, n)) as (r & -> & Hr).
  - intros [[? ?] ?] (? & _). lia.
  - intros [[m1 e] l] H1. destruct (Z.eqb_spec l 0) as [->|Hne].
    + destruct H1 as (_ & _ & Hw). by rewrite Z.sub_0_r in Hw.
    + destruct (Z.land e 3 =? 0); [done|]. split; [|destruct H1; rewrite u32_small by lia; lia].
      by eapply filling_byte.
  - unfold filling. split_and!; try lia. apply written_0. lia.
  - lia.
  - destruct r as [m'|[[m1 e] l]]; [eauto|].
    rewrite land3, shiftr2.
    assert (0 ≤ l ≤ n) by (destruct Hr; lia).
    destruct (rep_stosl_fill P m d n (λ _, u8 c) eax m1 e l (l / 4))
      as (m2 & e2 & -> & H2); try done.
    { pose proof (Z.mul_div_le l 4). pose proof (Z.div_pos l 4). lia. }
    apply (memset_bottom_fill P m d n); try done.
    by replace (l mod 4) with (l - 4 * (l / 4)) by (Z.to_euclidean_division_equations; lia).
Qed.

(** [memset_dword] writes [n] dwords. *)
Lemma memset_dword_correct P m d c n :
  safe m P → (∀ a, region d (4 * n) a → P a) → 0 ≤ d → 0 ≤ n →
  d + 4 * n < 4294967296 →
  ∃ m', memset_dword m d c n = Some m' ∧
        written P m m' d (4 * n) (λ i, u8 (Z.shiftr (u32 c) (8 * (i mod 4)))).
Proof.
  intros Hs HP Hd Hn Hdn. unfold memset_dword.
  set (f := λ i, u8 (Z.shiftr (u32 c) (8 * (i mod 4)))).
  destruct (rep_stosl_fill P m d (4 * n) f (u32 c) m d (4 * n) n)
    as (m2 & e2 & -> & H2 & -> & Hw); try done; try lia.
  - intros j Hj k Hk. unfold f. do 3 f_equal. Z.to_euclidean_division_equations; lia.
  - split_and!; try lia. apply written_0. lia.
  - eexists. split; [done|]. by replace (4 * n - (4 * n - 4 * n)) with (4 * n) in Hw by lia.
Qed.

Lemma load32_byte m a k :
  0 ≤ k < 4 → u8 (Z.shiftr (load32 m a) (8 * k)) = rd m (a + k).
Proof.
  intros Hk. rewrite Z.shiftr_div_pow2 by lia. unfold load32.
  pose proof (rd_range m a). pose proof (rd_range m (a + 1)).
  pose proof (rd_range m (a + 2)). pose proof (rd_range m (a + 3)).
  assert (k = 0 ∨ k = 1 ∨ k = 2 ∨ k = 3) as [->|[->|[->| ->]]] by lia.
  all: simpl (2 ^ _); rewrite ?Z.add_0_r; mlia.
Qed.

(** Progress of a forward copy: like [filling], with the source pointer. *)
Definition copying P m d s n (st : M * Z * Z * Z) : Prop :=
  let '(m', esi, edi, todo) := st in
  esi = s + (n - todo) ∧ filling P m d n (λ i, rd m (s + i)) (m', edi, todo).

Section Forward.
Context (P : Z → Prop) (m : M) (d s n : Z).
Context (Hs : safe m P).
Context (HPd : ∀ a, region d n a → P a) (HPs : ∀ a, region s n a → P a).
Context (Hd : 0 ≤ d) (Hsrc : 0 ≤ s).
Context (Hdn : d + n < 4294967296) (Hsn : s + n < 4294967296).
(** a forward copy may overlap only if it moves down *)
Context (Hdis : d ≤ s ∨ s + n ≤ d).

(** The bytes still to be copied are those of the initial memory. *)
Lemma copying_src m' esi edi todo k :
  copying P m d s n (m', esi, edi, todo) → 0 ≤ k < todo →
  rd m' (esi + k) = rd m (s + (n - todo) + k).
Proof using Hdis HPs.
  intros (-> & Hl & _ & Hw) Hk.
  apply (written_out _ _ _ _ _ _ _ Hw); [apply HPs; unfold region; lia|lia].
Qed.

Lemma copying_byte m' esi edi todo :
  copying P m d s n (m', esi, edi, todo) → todo ≠ 0 →
  copying P m d s n
    (wr m' edi (rd m' esi), u32 (esi + 1), u32 (edi + 1), u32 (todo - 1)).
Proof using All.
  intros Hc Hne. assert (0 < todo) by (destruct Hc as (_ & ? & _); lia).
  pose proof (copying_src _ _ _ _ 0 Hc ltac:(lia)) as Hsrc0.
  rewrite !Z.add_0_r in Hsrc0. destruct Hc as (-> & Hf). split.
  - destruct Hf. rewrite !u32_small by lia. lia.
  - eapply filling_byte; eauto. rewrite Hsrc0. apply u8_small, rd_range.
Qed.

Lemma memcpy_bottom_copy m' esi edi todo :
  copying P m d s n (m', esi, edi, todo) →
  ∃ m2, memcpy_bottom m' esi edi todo = Some m2 ∧
        written P m m2 d n (λ i, rd m (s + i)).
Proof using All.
  intros Hc. unfold memcpy_bottom.
  apply (while_total _ (copying P m d s n) (λ '(_, _, _, todo), todo)).
  - intros [[[? ?] ?] ?] (_ & ? & _). lia.
  - intros [[[m1 si] di] t] H1. destruct (Z.eqb_spec t 0) as [->|Hne].
    + destruct H1 as (_ & _ & _ & Hw). by rewrite Z.sub_0_r in Hw.
    + split; [by apply copying_byte|].
      destruct H1 as (_ & ? & _). rewrite u32_small by lia. lia.
  - done.
  - destruct Hc as (_ & ? & _). lia.
Qed.

Lemma rep_movsl_copy m' esi edi todo ecx :
  copying P m d s n (m', esi, edi, todo) → 0 ≤ 4 * ecx ≤ todo →
  ∃ m2 esi2 edi2, rep_movsl m' esi edi ecx = Some (m2, esi2, edi2) ∧
    copying P m d s n (m2, esi2, edi2, todo - 4 * ecx).
Proof using All.
  intros Hc Hecx. unfold rep_movsl.
  destruct (while_total (λ '(m, esi, edi, ecx),
      if ecx =? 0 then inr (m, esi, edi)
      else inl (store32 m edi (load32 m esi), u32 (esi + 4), u32 (edi + 4),
                u32 (ecx - 1)))
    (λ '(m1, si, di, c), 0 ≤ c ≤ ecx ∧
       copying P m d s n (m1, si, di, todo - 4 * (ecx - c)))
    (λ '(_, _, _, c), c)
    (λ '(m2, si2, di2), copying P m d s n (m2, si2, di2, todo - 4 * ecx))
    (m', esi, edi, ecx)) as ([[m2 si2] di2] & -> & ?); [..|by eauto].
  - intros [[[? ?] ?] ?] (? & _). lia.
  - intros [[[m1 si] di] c] [Hcc H1]. destruct (Z.eqb_spec c 0) as [->|Hne].
    { by rewrite Z.sub_0_r in H1. }
    pose proof (λ k, copying_src _ _ _ _ k H1) as Hsrc1.
    destruct H1 as (-> & Hl & -> & Hw). unfold copying, filling.
    rewrite !u32_small by lia. split_and!; try lia.
    replace (n - (todo - 4 * (ecx - (c - 1)))) with
      (n - (todo - 4 * (ecx - c)) + 4) by lia.
    apply written_store32; try done; try lia.
    + intros a Ha. apply HPd. unfold region in *. lia.
    + intros k Hk. rewrite load32_byte by lia. rewrite Hsrc1 by lia. f_equal. lia.
  - split; [lia|]. by replace (todo - 4 * (ecx - ecx)) with todo by lia.
  - destruct Hc as (_ & ? & _). lia.
Qed.

Lemma memcpy_forward :
  0 ≤ n → ∃ m', memcpy m d s n = Some m' ∧ written P m m' d n (λ i, rd m (s + i)).
Proof using All.
  intros Hn. unfold memcpy, memcpy_top.
  destruct (while_total (λ '(m, esi, edi, ecx),
      if ecx =? 0 then inr (inl m)
      else if Z.land edi 3 =? 0 then inr (inr (m, esi, edi, ecx))
      else inl (wr m edi (rd m esi), u32 (esi + 1), u32 (edi + 1), u32 (ecx - 1)))
    (copying P m d s n) (λ '(_, _, _, todo), todo)
    (λ r, match r with
          | inl m' => written P m m' d n (λ i, rd m (s + i))
          | inr st => copying P m d s n st
          end) (m, s, d, n)) as (r & -> & Hr).
  - intros [[[? ?] ?] ?] (_ & ? & _). lia.
  - intros [[[m1 si] di] t] H1. destruct (Z.eqb_spec t 0) as [->|Hne].
    + destruct H1 as (_ & _ & _ & Hw). by rewrite Z.sub_0_r in Hw.
    + destruct (Z.land di 3 =? 0); [done|]. split; [by apply copying_byte|].
      destruct H1 as (_ & ? & _). rewrite u32_small by lia. lia.
  - unfold copying, filling. split_and!; try lia. apply written_0. lia.
  - lia.
  - destruct r as [m'|[[[m1 si] di] t]]; [eauto|]. rewrite land3, shiftr2.
    assert (0 ≤ t ≤ n) by (destruct Hr as (_ & ? & _); lia).
    destruct (rep_movsl_copy m1 si di t (t / 4)) as (m2 & s2 & d2 & -> & H2); try done.
    { pose proof (Z.mul_div_le t 4). pose proof (Z.div_pos t 4). lia. }
    apply memcpy_bottom_copy.
    by replace (t mod 4) with (t - 4 * (t / 4)) by (Z.to_euclidean_division_equations; lia).
Qed.

Lemma rep_movsb_forward :
  0 ≤ n → ∃ m', rep_movsb false m s d n = Some m' ∧
                written P m m' d n (λ i, rd m (s + i)).
Proof using All.
  intros Hn. assert (copying P m d s n (m, s, d, n)) as Hc.
  { unfold copying, filling. split_and!; try lia. apply written_0. lia. }
  apply memcpy_bottom_copy in Hc. unfold memcpy_bottom in Hc. exact Hc.
Qed.
End Forward.

(** A backward copy, from the last byte down: [todo] low bytes are left. *)
Lemma rep_movsb_backward P m d s n :
  safe m P → (∀ a, region d n a → P a) → (∀ a, region s n a → P a) →
  0 ≤ s < d → 0 < n → d + n < 4294967296 →
  ∃ m', rep_movsb true m (u32 (s + n - 1)) (u32 (d + n - 1)) n = Some m' ∧
        written P m m' d n (λ i, rd m (s + i)).
Proof.
  intros Hs HPd HPs Hsd Hn Hdn. unfold rep_movsb. rewrite !u32_small by lia.
  apply (while_total _
    (λ '(m', esi, edi, todo), 0 ≤ todo ≤ n ∧
       (0 < todo → esi = s + todo - 1 ∧ edi = d + todo - 1) ∧
       written P m m' (d + todo) (n - todo) (λ i, rd m (s + todo + i)))
    (λ '(_, _, _, todo), todo)).
  - intros [[[? ?] ?] ?] (? & _). lia.
  - intros [[[m1 si] di] t] (Ht & Hp & Hw). destruct (Z.eqb_spec t 0) as [->|Hne].
    { rewrite !Z.add_0_r, Z.sub_0_r in Hw. done. }
    destruct Hp as [-> ->]; [lia|]. rewrite (u32_small (t - 1)) by lia.
    split; [|lia]. split_and!; try lia; [intros; rewrite !u32_small by lia; lia|].
    assert (P (d + t - 1)) by (apply HPd; unfold region; lia).
    assert (P (s + t - 1)) by (apply HPs; unfold region; lia).
    destruct Hw as [Hc Hr]. split; [by rewrite ctl_wr|]. intros b Hb.
    rewrite (rd_wr_safe m1 P) by (done || by apply (safe_cells m)).
    rewrite Hr, u8_small by (done || (case_decide; apply rd_range)).
    rewrite Hr by done. case_decide as E; [|repeat case_decide; try lia].
    + subst b. rewrite decide_False, decide_True by lia. f_equal. lia.
    + f_equal. lia.
  - split_and!; try lia. apply written_0. lia.
  - lia.
Qed.

Lemma memmove_written P m d s n :
  safe m P → (∀ a, region d n a → P a) → (∀ a, region s n a → P a) →
  0 ≤ s → 0 ≤ d → 0 < n → s + n < 4294967296 → d + n < 4294967296 →
  ∃ m' df, memmove m d s n = Some (m', df) ∧ df = (s <? d) ∧
           written P m m' d n (λ i, rd m (s + i)).
Proof.
  intros Hs HPd HPs Hs0 Hd0 Hn Hsn Hdn. unfold memmove. rewrite Z.geb_leb.
  destruct (Z.leb_spec d s).
  - destruct (rep_movsb_forward P m d s n) as (m' & -> & Hw); try done; try lia.
    exists m', false. split_and!; [done| |done]. bool_cases; lia || done.
  - destruct (rep_movsb_backward P m d s n) as (m' & -> & Hw); try done; try lia.
    exists m', true. split_and!; [done| |done]. bool_cases; lia || done.
Qed.
End Blocks.

(** ** [strrev] and [itoa] *)

Section Itoa.
Context {M : Type} `{!ByteMem M}.
Implicit Types (m : M) (s n i k : Z) (P : Z → Prop).

(** [strrev] half way: the bytes outside [beg .. end_] are mirrored. *)
Definition reversing P m s n (st : M * Z * Z) : Prop :=
  let '(m', beg, end_) := st in
  0 ≤ beg ≤ end_ + 1 ∧ end_ = n - 1 - beg ∧ ctl m' = ctl m ∧
  ∀ b, P b → rd m' b =
    if decide (s ≤ b < s + n ∧ (b - s < beg ∨ end_ < b - s))
    then rd m (s + (n - 1 - (b - s))) else rd m b.

Lemma reversing_step P m s n m' beg end_ :
  safe m P → (∀ a, region s n a → P a) → n < 2147483648 →
  reversing P m s n (m', beg, end_) → beg < end_ →
  reversing P m s n
    (wr (wr m' (s + end_) (rd m' (s + beg))) (s + beg) (rd m' (s + end_)),
     s32 (beg + 1), s32 (end_ - 1)).
Proof.
  intros Hs HP Hn (Hb & -> & Hc & Hr) Hlt. unfold reversing.
  rewrite !s32_small by lia. split_and!; try lia.
  { by rewrite !ctl_wr. }
  assert (P (s + beg)) by (apply HP; unfold region; lia).
  assert (P (s + (n - 1 - beg))) by (apply HP; unfold region; lia).
  assert (safe m' P) by by apply (safe_cells m).
  intros b Pb.
  rewrite (rd_wr_safe _ P) by (done || by apply safe_wr).
  rewrite (rd_wr_safe _ P) by done.
  rewrite (Hr (s + beg)), (Hr (s + (n - 1 - beg))), (Hr b) by done.
  rewrite (decide_False (P := s ≤ s + beg < _ ∧ _)) by lia.
  rewrite (decide_False (P := s ≤ s + (n - 1 - beg) < _ ∧ _)) by lia.
  rewrite !u8_small by apply rd_range.
  repeat case_decide; try lia; f_equal; lia.
Qed.

(** A property of memories that every store to [A] keeps. *)
Definition wr_closed (A : Z → Prop) (I : M → Prop) : Prop := ∀ m a v, I m → A a → I (wr m a v).

Lemma wr_closed_sub (A A' : Z → Prop) I : (∀ a, A' a → A a) → wr_closed A I → wr_closed A' I.
Proof. intros H HI m a v Hm Ha. by apply HI, H. Qed.

Lemma strrev_loop_written P I m s n :
  0 ≤ n < 2147483648 → safe m P → (∀ a, region s n a → P a) → wr_closed (region s n) I → I m →
  ∃ m', while (λ '(m, beg, end_),
      if beg <? end_ then
        let tmp := rd m (s + end_) in
        let m := wr m (s + end_) (rd m (s + beg)) in
        let m := wr m (s + beg) tmp in
        inl (m, s32 (beg + 1), s32 (end_ - 1))
      else inr m) (m, 0, n - 1) = Some m' ∧
    written P m m' s n (λ i, rd m (s + (n - 1 - i))) ∧ I m'.
Proof.
  intros Hn Hs HP HI HIm.
  apply (while_total _ (λ st, reversing P m s n st ∧ I st.1.1) (λ '(_, b, e), e - b + 1)).
  - intros [[? ?] ?] ((? & _) & _). lia.
  - intros [[m1 b] e] [H1 HI1]. cbn [fst] in HI1. destruct (Z.ltb_spec b e).
    + split; [split; [by apply reversing_step; [| |lia| |]|]|].
      * destruct H1 as (? & ? & _). cbn [fst]. apply HI; [apply HI; [done|]|]; unfold region; lia.
      * destruct H1 as (? & ? & _). rewrite !s32_small by lia. lia.
    + destruct H1 as (Hb & -> & Hc & Hr). split; [|done]. split; [done|]. intros a Ha.
      rewrite Hr by done. repeat case_decide; try lia; try done. f_equal. lia.
  - split; [|done]. unfold reversing. split_and!; try lia; [done|]. intros b Hb.
    by rewrite decide_False by lia.
  - lia.
Qed.

Lemma strrev_written P I m s n :
  str_at m s n → n < 2147483648 → safe m P → (∀ a, region s n a → P a) →
  wr_closed (region s n) I → I m →
  ∃ m', strrev m s = Some m' ∧ written P m m' s n (λ i, rd m (s + (n - 1 - i))) ∧ I m'.
Proof.
  intros Hstr Hn Hs HP HI HIm. unfold strrev. assert (0 ≤ n) by apply Hstr.
  rewrite (strlen_str_at m s n Hstr) by lia. rewrite s32_small by lia.
  apply strrev_loop_written; [lia|done..].
Qed.

(** The digit of [value] with weight [r^j], and its character. *)
Definition digit_char value r j : Z := lookup_digits.[(value / r ^ j) mod r].

Lemma lookup_digits_char i :
  0 ≤ i < 36 → 0 < lookup_digits.[i] < 256 ∧
  (if lookup_digits.[i] <? 58 then lookup_digits.[i] - 48
   else lookup_digits.[i] - 55) = i.
Proof.
  intros Hi.
  assert (forallb (λ i, (0 <? lookup_digits.[i]) && (lookup_digits.[i] <? 256) &&
    ((if lookup_digits.[i] <? 58 then lookup_digits.[i] - 48
      else lookup_digits.[i] - 55) =? i)) (seqZ 0 36) = true)
    as Hall by (vm_compute; reflexivity).
  pose proof (forall_seqZ_true _ _ Hall i Hi) as Hi'. cbv beta in Hi'. lia.
Qed.

Lemma digit_char_range value r j :
  2 ≤ r ≤ 36 → 0 < digit_char value r j < 256.
Proof. intros Hr. apply lookup_digits_char. mlia. Qed.

Lemma div_pow_succ value r k : 2 ≤ r → 0 ≤ k → value / r ^ k / r = value / r ^ (k + 1).
Proof.
  intros. rewrite Z.pow_add_r, Z.pow_1_r by lia. rewrite Z.div_div by nia. done.
Qed.

(** The digit loop leaves [k] digits, lowest first, where [k] is the number
    of digits of [value]. *)
Definition itoa_loop radix (st : M * Z * Z) : (M * Z * Z) + (M * Z) :=
  let '(m, newbuf, newval) := st in
  if newval >? 0 then
    inl (wr m newbuf lookup_digits.[newval mod u32 radix], newbuf + 1,
         newval / u32 radix)
  else inr (m, newbuf).

Lemma itoa_loop_digits P I m value buf r :
  0 < value < 4294967296 → 2 ≤ r ≤ 36 → safe m P → (∀ a, region buf 33 a → P a) →
  wr_closed (region buf 33) I → I m →
  ∃ m' k, while (itoa_loop r) (m, buf, value) = Some (m', buf + k) ∧
    1 ≤ k ≤ 32 ∧ r ^ (k - 1) ≤ value < r ^ k ∧
    written P m m' buf k (digit_char value r) ∧ I m'.
Proof.
  intros Hv Hr Hs HP HI HIm.
  destruct (while_total (itoa_loop r)
    (λ '(m', nb, nv), ∃ k, nb = buf + k ∧ 0 ≤ k ≤ 32 ∧ nv = value / r ^ k ∧
       (0 < k → r ^ (k - 1) ≤ value) ∧ written P m m' buf k (digit_char value r) ∧ I m')
    (λ '(_, nb, nv), nv)
    (λ '(m', nb), ∃ k, nb = buf + k ∧ 1 ≤ k ≤ 32 ∧ r ^ (k - 1) ≤ value < r ^ k ∧
       written P m m' buf k (digit_char value r) ∧ I m') (m, buf, value))
    as ([m' nb] & -> & k & -> & ?); [..|by eauto 10].
  - intros [[m' nb] nv] (k & -> & Hk & -> & _). apply Z.div_pos; nia.
  - intros [[m' nb] nv] (k & -> & Hk & -> & Hlow & Hw & HI'). unfold itoa_loop.
    assert (0 < r ^ k) by nia. rewrite Z.gtb_ltb, (u32_small r) by lia.
    destruct (Z.ltb_spec 0 (value / r ^ k)) as [Hpos|Hz].
    + assert (r ^ k ≤ value) by (apply Z.nlt_ge; intros ?; rewrite Z.div_small in Hpos; lia).
      assert (k < 32).
      { destruct (decide (k = 32)) as [->|]; [|lia].
        assert (2 ^ 32 ≤ r ^ 32) by (apply Z.pow_le_mono_l; lia). lia. }
      split; [|apply Z.div_lt; lia].
      exists (k + 1). rewrite div_pow_succ by lia. split_and!; try lia.
      * intros _. by replace (k + 1 - 1) with k by lia.
      * apply written_snoc; try done; try lia.
        -- intros a Ha. apply HP. unfold region in *. lia.
        -- apply u8_small. pose proof (digit_char_range value r k Hr). unfold digit_char in *. lia.
      * apply HI; [done|]. unfold region. lia.
    + assert (value < r ^ k) by (apply Z.nle_gt; intros Hle;
        pose proof (Z.div_str_pos value (r ^ k)); lia).
      assert (0 < k) by (destruct (decide (k = 0)) as [->|]; [simpl in *; lia|lia]).
      exists k. split_and!; try done; try lia.
  - exists 0. rewrite Z.pow_0_r, Z.div_1_r. split_and!; try lia; [by apply written_0|done].
  - lia.
Qed.

(** After the loop the NUL ends a string of [k] digits. *)
Lemma itoa_loop_string P m m1 value buf r k :
  2 ≤ r ≤ 36 → safe m P → (∀ a, region buf 33 a → P a) → 1 ≤ k ≤ 32 →
  written P m m1 buf k (digit_char value r) →
  written P m1 (wr m1 (buf + k) 0) (buf + k) 1 (λ _, 0) ∧
  (∀ i, 0 ≤ i < k → rd (wr m1 (buf + k) 0) (buf + i) = digit_char value r i) ∧
  str_at (wr m1 (buf + k) 0) buf k.
Proof.
  intros Hr Hs HP Hk Hw. assert (safe m1 P) by by eapply written_safe.
  assert (written P m1 (wr m1 (buf + k) 0) (buf + k) 1 (λ _, 0)) as Hz.
  { rewrite <- (Z.add_0_r (buf + k)) at 1.
    apply (written_snoc P m1 m1 (buf + k) 0); try done; [|by apply written_0].
    intros a Ha. apply HP. unfold region in *. lia. }
  split; [done|]. set (m2 := wr m1 (buf + k) 0) in *.
  assert (∀ i, 0 ≤ i < k → rd m2 (buf + i) = digit_char value r i) as Hdig.
  { intros i Hi. assert (P (buf + i)) by (apply HP; unfold region; lia).
    rewrite (written_out _ _ _ _ _ _ _ Hz) by (done || lia).
    rewrite (written_in _ _ _ _ _ _ _ Hw) by (done || lia). f_equal. lia. }
  split; [done|]. assert (P (buf + k)) by (apply HP; unfold region; lia). split_and!; try lia.
  - intros i Hi. rewrite Hdig by lia. pose proof (digit_char_range value r i Hr). lia.
  - rewrite (written_in _ _ _ _ _ _ _ Hz); done || lia.
Qed.

Lemma itoa_written P I m value buf r :
  0 ≤ value < 4294967296 → 2 ≤ r ≤ 36 → safe m P → (∀ a, region buf 33 a → P a) →
  wr_closed (region buf 33) I → I m →
  ∃ m' k, itoa m value buf r = Some m' ∧
    1 ≤ k ≤ 32 ∧ value < r ^ k ∧ (k = 1 ∨ r ^ (k - 1) ≤ value) ∧
    written P m m' buf (k + 1)
      (λ i, if i <? k then digit_char value r (k - 1 - i) else 0) ∧ I m'.
Proof.
  intros Hv Hr Hs HP HI HIm. unfold itoa.
  assert (∀ n, n ≤ 33 → ∀ a, region buf n a → P a) as HPn.
  { intros n Hn a Ha. apply HP. unfold region in *. lia. }
  destruct (Z.eqb_spec value 0) as [->|Hnz].
  { exists (wr (wr m buf 48) (buf + 1) 0), 1. rewrite Z.pow_1_r.
    split_and!; try lia; try done; [|apply HI; [apply HI; [done|]|]; unfold region; lia].
    replace (wr m buf 48) with (wr m (buf + 0) 48) by by rewrite Z.add_0_r.
    apply written_snoc; try done; [by apply HPn|].
    apply (written_snoc P m m buf 0); try done; try (apply HPn; lia); try by apply written_0. }
  change (while _ (m, buf, value)) with (while (itoa_loop r) (m, buf, value)).
  destruct (itoa_loop_digits P I m value buf r) as (m1 & k & -> & Hk & Hpow & Hw & HI1);
    try done; try lia.
  assert (safe m1 P) by by eapply written_safe.
  destruct (itoa_loop_string P m m1 value buf r k Hr Hs HP Hk Hw) as (Hz & Hdig & Hstr).
  set (m2 := wr m1 (buf + k) 0) in *.
  destruct (strrev_written P I m2 buf k Hstr) as (m3 & -> & Hw3 & HI3);
    [lia|by apply safe_wr|by apply HPn; lia| |apply HI; [done|unfold region; lia]|].
  { apply (wr_closed_sub (region buf 33)); [|done]. intros a Ha. unfold region in *. lia. }
  exists m3, k. split_and!; try done; try lia.
  destruct Hw as [Hc Hr1], Hz as [Hcz Hrz], Hw3 as [Hc3 Hr3].
  split; [intros; by rewrite Hc3, Hcz, Hc|]. intros b Hb. rewrite Hr3 by done.
  case_decide; [rewrite decide_True, Hdig by lia; bool_cases; [done|lia]|].
  rewrite Hrz, Hr1 by done. repeat case_decide; try lia; try done.
  bool_cases; lia || done.
Qed.
End Itoa.

(** ** The string a routine leaves in memory, and the number it denotes *)

Section Parse.
Context {M : Type} `{!ByteMem M}.

Definition bytes (m : M) (a n : Z) : list Z := (λ i, rd m (a + i)) <$> seqZ 0 n.

(** Value of a digit character, and of a string of them in base [r]. *)
Definition digit_val (c : Z) : Z := if c <? 58 then c - 48 else c - 55.

Definition parse_num (r : Z) (l : list Z) : Z :=
  foldl (λ acc c, acc * r + digit_val c) 0 l.

Lemma digit_val_char value r j :
  2 ≤ r ≤ 36 → digit_val (digit_char value r j) = (value / r ^ j) mod r.
Proof.
  intros Hr. unfold digit_val, digit_char. apply lookup_digits_char. mlia.
Qed.

(** Parsing the first [i] of the [k] digits gives [value / r^(k-i)]. *)
Lemma parse_prefix value r k i :
  2 ≤ r ≤ 36 → 0 ≤ i ≤ k → 0 ≤ value < r ^ k →
  parse_num r ((λ j, digit_char value r (k - 1 - j)) <$> seqZ 0 i) = value / r ^ (k - i).
Proof.
  intros Hr Hi Hv. unfold parse_num.
  replace i with (Z.of_nat (Z.to_nat i)) in * by lia.
  set (n := Z.to_nat i) in *. clearbody n.
  induction n as [|n IH].
  - simpl. rewrite Z.sub_0_r, Z.div_small; lia.
  - replace (Z.of_nat (S n)) with (Z.of_nat n + 1) in * by lia.
    rewrite seqZ_app, fmap_app, foldl_app by lia. rewrite IH by lia. simpl.
    rewrite digit_val_char by done.
    replace (k - Z.of_nat n) with (k - (Z.of_nat n + 1) + 1) by lia.
    rewrite <- div_pow_succ by lia.
    replace (k - 1 - (Z.of_nat 0 + (0 + Z.of_nat n))) with (k - (Z.of_nat n + 1)) by lia.
    set (q := value / _). pose proof (Z.div_mod q r). lia.
Qed.

Lemma itoa_parse (P : Z → Prop) (m : M) value buf r :
  0 ≤ value < 4294967296 → 2 ≤ r ≤ 36 → safe m P → (∀ a, region buf 33 a → P a) →
  ∃ m' k, itoa m value buf r = Some m' ∧ 1 ≤ k ≤ 32 ∧
    str_at m' buf k ∧ parse_num r (bytes m' buf k) = value ∧
    (k = 1 ∨ rd m' buf ≠ 48) ∧
    (∀ b, P b → ¬ (buf ≤ b < buf + k + 1) → rd m' b = rd m b).
Proof.
  intros Hv Hr Hs HP.
  destruct (itoa_written P (λ _, True) m value buf r Hv Hr Hs HP) as (m' & k & -> & Hk & Hlt & Hge & Hw & _);
    [done|done|].
  exists m', k.
  assert (∀ i, 0 ≤ i < k → rd m' (buf + i) = digit_char value r (k - 1 - i)) as Hd.
  { intros i Hi. rewrite (written_in _ _ _ _ _ _ _ Hw).
    - bool_cases; [|lia]. f_equal. lia.
    - apply HP. unfold region. lia.
    - lia. }
  split_and!; try done; try lia.
  - split_and!; [lia| |].
    + intros i Hi. rewrite Hd by lia. pose proof (digit_char_range value r (k - 1 - i)). lia.
    + rewrite (written_in _ _ _ _ _ _ _ Hw); [bool_cases; [lia|done]| |lia].
      apply HP. unfold region. lia.
  - unfold bytes. rewrite (list_fmap_ext _ (λ i, digit_char value r (k - 1 - i))).
    + rewrite parse_prefix, Z.sub_diag, Z.div_1_r by lia. done.
    + intros n i Hn. apply lookup_seqZ in Hn. apply Hd. lia.
  - destruct Hge as [|Hge]; [by left|right]. rewrite <- (Z.add_0_r buf), Hd by lia.
    assert (0 < value / r ^ (k - 1) < r).
    { split; [apply Z.div_str_pos; nia|]. apply Z.div_lt_upper_bound; [nia|].
      replace k with (k - 1 + 1) in Hlt by lia.
      rewrite Z.pow_add_r, Z.pow_1_r in Hlt by lia. nia. }
    intros E. pose proof (digit_val_char value r (k - 1 - 0) Hr) as Hc.
    rewrite E, Z.sub_0_r, Z.mod_small in Hc by lia. unfold digit_val in Hc. simpl in Hc. lia.
  - intros b Hb Hout. apply (written_out _ _ _ _ _ _ _ Hw); [done|lia].
Qed.
End Parse.

(** ** Properties *)

Section LibProperties.
Context {M : Type} `{!ByteMem M}.
Implicit Types (m : M) (s d n c : Z) (P : Z → Prop).

(** (memset). On any alias-free range below 4 GiB, whatever the alignment
    of [d] and the length, [memset] terminates, every one of the [n] bytes
    from [d] on is the low byte of [c], and no other byte of [P] changes:
    the byte loop, the [rep stosl] and the tail loop together are a plain
    byte fill. *)
Theorem memset_fills P m d c n :
  safe m P → (∀ a, region d n a → P a) → 0 ≤ d → 0 ≤ n → d + n < 4294967296 →
  ∃ m', memset m d c n = Some m' ∧ written P m m' d n (λ _, u8 c).
Proof. apply memset_correct. Qed.

(** (memcpy). If the regions are disjoint, or overlap with the destination
    at or below the source, [memcpy] terminates and the destination holds
    exactly the [n] bytes the source held before the call; nothing else
    changes. *)
Theorem memcpy_copies P m d s n :
  safe m P → (∀ a, region d n a → P a) → (∀ a, region s n a → P a) →
  0 ≤ d → 0 ≤ s → 0 ≤ n → d + n < 4294967296 → s + n < 4294967296 →
  d ≤ s ∨ s + n ≤ d →
  ∃ m', memcpy m d s n = Some m' ∧ written P m m' d n (λ i, rd m (s + i)).
Proof. intros. by apply memcpy_forward. Qed.

(** C39 (memmove). For any overlap, [memmove] terminates and the destination
    holds exactly the bytes the source held before the call; it returns with
    the direction flag set precisely when it copied downwards ([s < d]). *)
Theorem memmove_moves P m d s n :
  safe m P → (∀ a, region d n a → P a) → (∀ a, region s n a → P a) →
  0 ≤ s → 0 ≤ d → 0 < n → s + n < 4294967296 → d + n < 4294967296 →
  ∃ m', memmove m d s n = Some (m', s <? d) ∧
        written P m m' d n (λ i, rd m (s + i)).
Proof.
  intros. destruct (memmove_written P m d s n) as (m' & df & E & -> & Hw); eauto.
Qed.

(** C40 (itoa). For every unsigned 32-bit value and base from 2 to 36, [itoa]
    terminates and leaves at [buf] a NUL-terminated string of at most 32
    characters that reads back as [value] in that base, has no leading zero
    (unless it is the single digit), and touches nothing beyond its own
    bytes. *)
Theorem itoa_roundtrip P m value buf r :
  0 ≤ value < 4294967296 → 2 ≤ r ≤ 36 → safe m P → (∀ a, region buf 33 a → P a) →
  ∃ m' k, itoa m value buf r = Some m' ∧ 1 ≤ k ≤ 32 ∧
    str_at m' buf k ∧ parse_num r (bytes m' buf k) = value ∧
    (k = 1 ∨ rd m' buf ≠ 48) ∧
    (∀ b, P b → ¬ (buf ≤ b < buf + k + 1) → rd m' b = rd m b).
Proof. apply itoa_parse. Qed.
End LibProperties.

(** *** Witnesses, on flat memory *)

Lemma memset_fills_witness :
  ∃ m', memset (∅ : gmap Z Z) 4097 (-1) 10 = Some m' ∧
        written (λ _, True) ∅ m' 4097 10 (λ _, 255).
Proof. apply (memset_fills (λ _, True) ∅ 4097 (-1) 10); [apply flat_safe|done|lia..]. Defined.

Lemma memcpy_copies_witness :
  ∃ m', memcpy (flat_of 100 [1; 2; 3; 4; 5; 6; 7; 8; 9]) 98 100 9 = Some m' ∧
        written (λ _, True) (flat_of 100 [1; 2; 3; 4; 5; 6; 7; 8; 9]) m' 98 9
          (λ i, rd (flat_of 100 [1; 2; 3; 4; 5; 6; 7; 8; 9]) (100 + i)).
Proof.
  apply (memcpy_copies (λ _, True)); [apply flat_safe|done|done|lia..].
Defined.

Lemma memmove_moves_witness :
  ∃ m', memmove (flat_of 100 [1; 2; 3; 4; 5]) 102 100 5 = Some (m', true) ∧
        written (λ _, True) (flat_of 100 [1; 2; 3; 4; 5]) m' 102 5
          (λ i, rd (flat_of 100 [1; 2; 3; 4; 5]) (100 + i)).
Proof.
  apply (memmove_moves (λ _, True)); [apply flat_safe|done|done|lia..].
Defined.

Lemma itoa_roundtrip_witness :
  ∃ m' k, itoa (∅ : gmap Z Z) 48879 1000 16 = Some m' ∧ 1 ≤ k ≤ 32 ∧
    str_at m' 1000 k ∧ parse_num 16 (bytes m' 1000 k) = 48879 ∧
    (k = 1 ∨ rd m' 1000 ≠ 48) ∧
    (∀ b, True → ¬ (1000 ≤ b < 1000 + k + 1) → rd m' b = rd (∅ : gmap Z Z) b).
Proof. apply (itoa_roundtrip (λ _, True)); [lia|lia|apply flat_safe|done]. Defined.

(** The model runs: [itoa] of 48879 in base 16 leaves "BEEF" and a NUL. *)
Example itoa_beef :
  (λ m, bytes m 1000 5) <$> itoa (∅ : gmap Z Z) 48879 1000 16 = Some [66; 69; 69; 70; 0].
Proof. vm_compute. reflexivity. Qed.

Example memmove_overlap :
  (λ '(m, _), bytes m 100 8) <$> memmove (flat_of 100 [1; 2; 3; 4; 5]) 102 100 5
  = Some [1; 2; 1; 2; 3; 4; 5; 0].
Proof. vm_compute. reflexivity. Qed.
