(* ===== verification/Types.v ===== *)
(** * Kernel data types (student-distrib/types.h)

    The structures shared by the drivers and the system calls.  Pointers to
    the driver tables ([struct file_operations *]) are the constructors of
    [fops]; [FOPS_NULL] is the null pointer. *)

From S2P Require Import Prelude.
#[local] Open Scope Z_scope.

Definition LINE_BUF_SIZE : Z := 128.
Definition PCB_MASK : Z := 0xFFFFE000.
Definition MAX_USER_PROG : Z := 6.

(** The [file_operations] tables the kernel defines: [stdin_ops] and
    [stdout_ops] (keyboard.h), [RTC_ops] (RTC.h), [dir_ops] and [file_ops]
    (filesystem.h). *)
Inductive fops :=
| FOPS_NULL
| stdin_ops
| stdout_ops
| RTC_ops
| dir_ops
| file_ops.

#[export] Instance fops_eq_dec : EqDecision fops.
Proof. solve_decision. Defined.

#[projections(primitive)] Record file := mk_file {
  f_op : fops;
  f_inode : Z;
  f_pos : Z;
  flags : Z;
  fd_index : Z
}.

#[export] Instance set_f_op : Setter f_op. Proof. mk_setter. Defined.
#[export] Instance set_f_inode : Setter f_inode. Proof. mk_setter. Defined.
#[export] Instance set_f_pos : Setter f_pos. Proof. mk_setter. Defined.
#[export] Instance set_flags : Setter flags. Proof. mk_setter. Defined.
#[export] Instance set_fd_index : Setter fd_index. Proof. mk_setter. Defined.

(** [struct PCB]; the parent pointer is kept as the parent's process id, -1 for
    the null pointer. *)
#[projections(primitive)] Record PCB := mk_PCB {
  p_name : list Z;
  p_args : list Z;
  p_pid : Z;
  p_esp0 : Z;
  p_ss0 : Z;
  p_esp : Z;
  p_ebp : Z;
  p_terminal_id : Z;
  p_fd : list file;
  p_parent : Z
}.

(** A PCB cleared by [memset(pcb, 0, sizeof(PCB_t))]. *)
Definition zero_file : file := mk_file FOPS_NULL 0 0 0 0.
Definition zero_PCB : PCB :=
  mk_PCB (replicate 128 0) (replicate 128 0) 0 0 0 0 0 0 (replicate 8 zero_file) (-1).

#[export] Instance file_zero : HasZero file := zero_file.
#[export] Instance PCB_zero : HasZero PCB := zero_PCB.
#[export] Instance set_p_name : Setter p_name. Proof. mk_setter. Defined.
#[export] Instance set_p_args : Setter p_args. Proof. mk_setter. Defined.
#[export] Instance set_p_pid : Setter p_pid. Proof. mk_setter. Defined.
#[export] Instance set_p_esp0 : Setter p_esp0. Proof. mk_setter. Defined.
#[export] Instance set_p_ss0 : Setter p_ss0. Proof. mk_setter. Defined.
#[export] Instance set_p_esp : Setter p_esp. Proof. mk_setter. Defined.
#[export] Instance set_p_ebp : Setter p_ebp. Proof. mk_setter. Defined.
#[export] Instance set_p_terminal_id : Setter p_terminal_id. Proof. mk_setter. Defined.
#[export] Instance set_p_fd : Setter p_fd. Proof. mk_setter. Defined.
#[export] Instance set_p_parent : Setter p_parent. Proof. mk_setter. Defined.
