(* ===== verification/Filesystem.v ===== *)
(** * The read-only file system (student-distrib/filesystem.c)

    The image is an array of 4096-byte blocks at [fs_base]: the boot block
    (three counters, then 64-byte directory entries), one block per inode,
    then the data blocks.  The functions read it from memory at the offsets
    of the C structures.  A [dentry_t] out-parameter is the address of a
    44-byte structure (name at 0, type at 36, inode at 40). *)

From S2P Require Import Prelude Memory Lib Types.
#[local] Open Scope Z_scope.

Definition FILE_NAME_LEN : Z := 32.
Definition BLOCK_BYTES : Z := 4096.
Definition DENTRY_SIZE : Z := 64.

(** The globals [fs_base] and [fs_end]. *)
#[projections(primitive)] Record fs_globals := mk_fs { fs_base : Z; fs_end : Z }.

Section Filesystem.
Context {M : Type} `{!ByteMem M}.
Implicit Types (m : M) (fs : fs_globals).

(** Fields of [boot_block_t], [dentry_int_t], [inode_t], [dentry_t]. *)
Definition bb_num_entries m fs : Z := load32 m (fs_base fs).
Definition bb_num_inodes m fs : Z := load32 m (fs_base fs + 4).
Definition dentry_int_addr fs (i : Z) : Z := fs_base fs + 64 + 64 * i.
Definition inode_addr fs (inode : Z) : Z := u32 (fs_base fs + 4096 * u32 (inode + 1)).
Definition inode_length m (node : Z) : Z := load32 m node.
Definition inode_data_block m (node b_num : Z) : Z := load32 m (node + 4 + 4 * b_num).
Definition dentry_type m (dentry : Z) : Z := load32 m (dentry + 36).
Definition dentry_inode m (dentry : Z) : Z := load32 m (dentry + 40).

(** The address [&fs_base[1 + fs_base->num_inodes + node->data_blocks[b_num]]]. *)
Definition data_block_addr m fs (node b_num : Z) : Z :=
  u32 (fs_base fs + 4096 * u32 (1 + bb_num_inodes m fs + inode_data_block m node b_num)).

(** The body of the copying loop of [read_data]; the state is
    [(m, read, f_pos, b_pos, b_num, addr)]. *)
Definition read_data_step fs (node buf length : Z)
    (st : M * Z * Z * Z * Z * Z) : (M * Z * Z * Z * Z * Z) + (M * Z) :=
  let '(m, read, f_pos, b_pos, b_num, addr) := st in
  if u32 read <? length then
    if f_pos >=? inode_length m node then inr (m, read)
    else if b_pos >=? BLOCK_BYTES then
      let b_num := u32 (b_num + 1) in
      let addr := data_block_addr m fs node b_num in
      if addr >=? fs_end fs then inr (m, -1)
      else inl (wr m (buf + read) (rd m addr), s32 (read + 1), u32 (f_pos + 1),
                1, b_num, u32 (addr + 1))
    else inl (wr m (buf + read) (rd m addr), s32 (read + 1), u32 (f_pos + 1),
              u32 (b_pos + 1), b_num, u32 (addr + 1))
  else inr (m, read).

Definition read_data m fs (inode offset buf length : Z) : option (M * Z) :=
  if inode >=? bb_num_inodes m fs then Some (m, -1)
  else
    let node := inode_addr fs inode in
    let f_pos := offset in
    let b_pos := f_pos mod BLOCK_BYTES in
    let b_num := f_pos / BLOCK_BYTES in
    let addr := u32 (data_block_addr m fs node b_num + b_pos) in
    while (read_data_step fs node buf length) (m, 0, f_pos, b_pos, b_num, addr).

(** The search loop of [read_dentry_by_name]. *)
Definition read_dentry_step fs (fname dentry fname_len : Z) (st : M * Z)
    : (M * Z) + option (M * Z) :=
  let '(m, i) := st in
  if u32 i <? bb_num_entries m fs then
    let d := dentry_int_addr fs i in
    match strncmp m fname d fname_len with
    | None => inr None
    | Some r =>
        if r =? 0 then
          if (fname_len <? FILE_NAME_LEN) && negb (rd m (d + fname_len) =? 0)
          then inr (Some (m, -1))
          else
            match strncpy m dentry d FILE_NAME_LEN with
            | None => inr None
            | Some m =>
                let m := wr m (dentry + 32) 0 in
                let m := store32 m (dentry + 36) (load32 m (d + 32)) in
                let m := store32 m (dentry + 40) (load32 m (d + 36)) in
                inr (Some (m, 0))
            end
        else inl (m, s32 (i + 1))
    end
  else inr (Some (m, -1)).

Definition read_dentry_by_name m fs (fname dentry : Z) : option (M * Z) :=
  match strlen m fname with
  | None => None
  | Some fname_len =>
      let fname_len :=
        if (fname_len =? FILE_NAME_LEN + 1) && (rd m (fname + FILE_NAME_LEN) =? 0)
        then fname_len - 1 else fname_len in
      if fname_len >? FILE_NAME_LEN then Some (m, -1)
      else
        match while (read_dentry_step fs fname dentry fname_len) (m, 0) with
        | Some r => r
        | None => None
        end
  end.

(** [strncpy] copies 33 bytes here and [name[33]] is the first padding byte. *)
Definition read_dentry_by_index m fs (index dentry : Z) : option (M * Z) :=
  if index >=? bb_num_entries m fs then Some (m, -1)
  else
    let d := dentry_int_addr fs index in
    match strncpy m dentry d (FILE_NAME_LEN + 1) with
    | None => None
    | Some m =>
        let m := wr m (dentry + 33) 0 in
        let m := store32 m (dentry + 36) (load32 m (d + 32)) in
        let m := store32 m (dentry + 40) (load32 m (d + 36)) in
        Some (m, 0)
    end.

(** ** The file and directory drivers *)

Definition file_read m fs (fp : file) (outbuff bytes : Z) : option (M * file * Z) :=
  match read_data m fs (f_inode fp) (f_pos fp) outbuff bytes with
  | None => None
  | Some (m, r) =>
      let read := u32 r in
      let fp := if read >? 0 then fp <| f_pos := u32 (f_pos fp + read) |> else fp in
      Some (m, fp, s32 read)
  end.

Definition file_write (fp : file) (inbuff bytes : Z) : Z := -1.
Definition file_open (fp : file) : file * Z := (fp, 0).
Definition file_close (fp : file) : file * Z := (fp, 0).

Definition dir_read m fs (fp : file) (outbuff bytes : Z) : option (M * file * Z) :=
  let bytes := if bytes >? FILE_NAME_LEN then FILE_NAME_LEN else bytes in
  if f_pos fp / DENTRY_SIZE >? bb_num_entries m fs then Some (m, fp, 0)
  else
    let name := fs_base fs + f_pos fp in
    match
      while (λ '(m, i),
        if (u32 i >=? bytes) || (rd m (name + i) =? 0) then inr (m, i)
        else inl (wr m (outbuff + i) (rd m (name + i)), s32 (i + 1))) (m, 0)
    with
    | None => None
    | Some (m, i) => Some (m, fp <| f_pos := u32 (f_pos fp + DENTRY_SIZE) |>, i)
    end.

Definition dir_write (fp : file) (inbuff bytes : Z) : Z := -1.
Definition dir_open (fp : file) : file * Z := (fp <| f_pos := DENTRY_SIZE |>, 0).
Definition dir_close (fp : file) : file * Z := (fp, 0).
End Filesystem.

(** ** Abstract file system and its representation

    What an image means: a list of directory entries and, for every inode,
    the contents of its file. *)

Record dent := mk_dent { d_name : list Z; d_type : Z; d_inode : Z }.
Record fs_image := mk_image { im_dents : list dent; im_files : list (list Z) }.

#[export] Instance dent_zero : HasZero dent := mk_dent [] 0 0.

(** A name is at most 32 bytes, none of them NUL; on disk it is padded with
    NULs. *)
Definition name_ok (d : dent) : Prop :=
  Z.of_nat (length (d_name d)) ≤ 32 ∧ ∀ j, 0 ≤ j < Z.of_nat (length (d_name d)) → 0 < (d_name d).[j] < 256.

Section Representation.
Context {M : Type} `{!ByteMem M}.
Implicit Types (m : M) (fs : fs_globals) (im : fs_image).

Definition num_inodes im : Z := Z.of_nat (length (im_files im)).
Definition num_entries im : Z := Z.of_nat (length (im_dents im)).

Record dent_rep m (d : Z) (e : dent) : Prop := {
  dr_ok : name_ok e;
  dr_name : ∀ j, 0 ≤ j < 32 → rd m (d + j) = (d_name e).[j];
  dr_type : load32 m (d + 32) = d_type e;
  dr_inode : load32 m (d + 36) = d_inode e
}.

(** Data block [b] of the image starts here. *)
Definition block_start fs im (b : Z) : Z := fs_base fs + 4096 * (1 + num_inodes im + b).

Record file_rep m fs im (j : Z) (c : list Z) : Prop := {
  fr_len : load32 m (fs_base fs + 4096 * (j + 1)) = Z.of_nat (length c);
  fr_block : ∀ p, 0 ≤ p < Z.of_nat (length c) →
    block_start fs im (load32 m (fs_base fs + 4096 * (j + 1) + 4 + 4 * (p / 4096))) + 4096
    ≤ fs_end fs;
  fr_data : ∀ p, 0 ≤ p < Z.of_nat (length c) →
    rd m (block_start fs im (load32 m (fs_base fs + 4096 * (j + 1) + 4 + 4 * (p / 4096)))
          + p mod 4096) = c.[p]
}.

(** The image [im] is stored at [fs_base .. fs_end). *)
Record fs_rep m fs im : Prop := {
  rep_lo : 0 ≤ fs_base fs;
  rep_hi : fs_end fs < 4294967296;
  rep_space : fs_base fs + 4096 * (1 + num_inodes im) ≤ fs_end fs;
  rep_maxent : num_entries im ≤ 63;
  rep_nent : load32 m (fs_base fs) = num_entries im;
  rep_nino : load32 m (fs_base fs + 4) = num_inodes im;
  rep_dents : ∀ i, 0 ≤ i < num_entries im →
    dent_rep m (fs_base fs + 64 + 64 * i) (im_dents im).[i];
  rep_files : ∀ j, 0 ≤ j < num_inodes im → file_rep m fs im j (im_files im).[j];
  rep_maxlen : ∀ j, 0 ≤ j < num_inodes im →
    Z.of_nat (length (im_files im).[j]) ≤ 4096 * 1023
}.
End Representation.
