(* ===== verification/FsProofs.v ===== *)
(** * The file system implements its abstract image

    [fs_rep m fs im] says that memory holds the image [im]; the theorems show
    that each operation answers from [im]: [read_data] and [file_read] deliver
    exactly the requested slice of a file, [dir_read] enumerates the entries,
    [read_dentry_by_name] and [read_dentry_by_index] return the entry they
    found.  None of them writes to the image. *)

From S2P Require Import Prelude Memory Lib Types Filesystem.
#[local] Open Scope Z_scope.

(** ** The representation only depends on the bytes of the image *)

Section Rep.
Context {M : Type} `{!ByteMem M}.
Implicit Types (m : M) (fs : fs_globals) (im : fs_image).

Lemma dent_rep_ext {M' : Type} `{!ByteMem M'} m (m' : M') d e :
  (∀ a, d ≤ a < d + 40 → rd m' a = rd m a) → dent_rep m d e → dent_rep m' d e.
Proof.
  intros Hr [Hok Hn Ht Hi]. split; [done|..].
  - intros j Hj. rewrite Hr by lia. by apply Hn.
  - rewrite (load32_eq m m'); [done|]. intros. apply Hr. lia.
  - rewrite (load32_eq m m'); [done|]. intros. apply Hr. lia.
Qed.

Lemma num_inodes_nonneg im : 0 ≤ num_inodes im.
Proof. unfold num_inodes. lia. Qed.

Lemma file_rep_ext {M' : Type} `{!ByteMem M'} m (m' : M') fs im j c :
  (∀ a, fs_base fs ≤ a < fs_end fs → rd m' a = rd m a) →
  fs_base fs + 4096 * (1 + num_inodes im) ≤ fs_end fs →
  0 ≤ j < num_inodes im → Z.of_nat (length c) ≤ 4096 * 1023 →
  file_rep m fs im j c → file_rep m' fs im j c.
Proof.
  intros Hr Hsp Hj Hlen [Hl Hb Hd].
  assert (∀ o, 0 ≤ o ≤ 4092 →
    load32 m' (fs_base fs + 4096 * (j + 1) + o) = load32 m (fs_base fs + 4096 * (j + 1) + o))
    as Hld.
  { intros o Ho. apply load32_eq. intros b Hb'. apply Hr. lia. }
  assert (∀ p, 0 ≤ p < Z.of_nat (length c) →
    load32 m' (fs_base fs + 4096 * (j + 1) + 4 + 4 * (p / 4096)) =
    load32 m (fs_base fs + 4096 * (j + 1) + 4 + 4 * (p / 4096))) as Hblk.
  { intros p Hp. rewrite <- !(Z.add_assoc _ 4). apply Hld. mlia. }
  split.
  - rewrite <- (Z.add_0_r (_ + _)), Hld, Z.add_0_r by lia. done.
  - intros p Hp. rewrite Hblk by done. by apply Hb.
  - intros p Hp. rewrite Hblk by done. rewrite Hr; [by apply Hd|].
    pose proof (Hb p Hp) as Hbp. unfold block_start in *.
    pose proof (load32_range m (fs_base fs + 4096 * (j + 1) + 4 + 4 * (p / 4096))).
    pose proof (num_inodes_nonneg im). mlia.
Qed.

Lemma fs_rep_ext {M' : Type} `{!ByteMem M'} m (m' : M') fs im :
  (∀ a, fs_base fs ≤ a < fs_end fs → rd m' a = rd m a) →
  fs_rep m fs im → fs_rep m' fs im.
Proof.
  intros Hr [Hlo Hhi Hsp Hme Hne Hni Hd Hf Hml].
  pose proof (num_inodes_nonneg im).
  split; try done.
  - rewrite (load32_eq m m'); [done|]. intros. apply Hr. lia.
  - rewrite (load32_eq m m'); [done|]. intros. apply Hr. lia.
  - intros i Hi. apply (dent_rep_ext m); [|by apply Hd]. intros. apply Hr. lia.
  - intros j Hj. apply (file_rep_ext m); auto.
Qed.

Lemma fs_rep_written m m' fs im P d n f :
  (∀ a, fs_base fs ≤ a < fs_end fs → P a) →
  (d + n ≤ fs_base fs ∨ fs_end fs ≤ d) →
  written P m m' d n f → fs_rep m fs im → fs_rep m' fs im.
Proof.
  intros HP Hdis Hw. apply fs_rep_ext. intros a Ha.
  apply (written_out _ _ _ _ _ _ _ Hw); [by apply HP|lia].
Qed.

(** Address computations of the code, on a well-formed image. *)
Lemma inode_addr_rep m fs im j :
  fs_rep m fs im → 0 ≤ j < num_inodes im →
  inode_addr fs j = fs_base fs + 4096 * (j + 1).
Proof.
  intros [Hlo Hhi Hsp _ _ _ _ _ _] Hj. unfold inode_addr.
  rewrite (u32_small (j + 1)) by lia. rewrite u32_small; lia.
Qed.

Lemma data_block_addr_rep m fs im j p :
  fs_rep m fs im → 0 ≤ j < num_inodes im →
  0 ≤ p < Z.of_nat (length (im_files im).[j]) →
  ∃ a, data_block_addr m fs (inode_addr fs j) (p / 4096) = a ∧
       fs_base fs ≤ a ∧ a + 4096 ≤ fs_end fs ∧
       rd m (a + p mod 4096) = (im_files im).[j].[p].
Proof.
  intros Hrep Hj Hp. rewrite (inode_addr_rep m fs im) by done.
  pose proof (num_inodes_nonneg im).
  destruct Hrep as [Hlo Hhi Hsp _ _ Hni _ Hf _].
  destruct (Hf j Hj) as [_ Hb Hd]. specialize (Hb p Hp). specialize (Hd p Hp).
  unfold data_block_addr, inode_data_block, bb_num_inodes.
  rewrite Hni. unfold block_start in *.
  set (b := load32 m (fs_base fs + 4096 * (j + 1) + 4 + 4 * (p / 4096))) in *.
  assert (0 ≤ b) by apply load32_range.
  rewrite (u32_small (1 + _ + _)) by lia. rewrite u32_small by lia.
  eexists. split_and!; [done|lia..|done].
Qed.
End Rep.

(** ** [read_data] *)

(** The number of bytes a read can deliver. *)
Definition deliver (size offset len : Z) : Z := Z.max 0 (Z.min len (size - offset)).

Section ReadData.
Context {M : Type} `{!ByteMem M}.
Context (P : Z → Prop) (m : M) (fs : fs_globals) (im : fs_image).
Context (inode offset buf len : Z).
Context (Hs : safe m P) (Hrep : fs_rep m fs im).
Context (HPfs : ∀ a, fs_base fs ≤ a < fs_end fs → P a).
Context (Hino : 0 ≤ inode < num_inodes im).
Context (Hoff : 0 ≤ offset < 4294967296) (Hlen : 0 ≤ len < 2147483648).

(** The file; only the bytes that it can deliver need room in the buffer. *)
Let c : list Z := (im_files im).[inode].
Let size : Z := Z.of_nat (length c).
Context (HPbuf : ∀ a, region buf (deliver size offset len) a → P a).
Context (Hdis : buf + deliver size offset len ≤ fs_base fs ∨ fs_end fs ≤ buf).

(** Loop invariant: [read] bytes are delivered and the block cursor points at
    byte [f_pos] of the file, or one past the end of the block before it. *)
Definition reading (st : M * Z * Z * Z * Z * Z) : Prop :=
  let '(m', read, f_pos, b_pos, b_num, addr) := st in
  0 ≤ read ≤ deliver size offset len ∧ f_pos = offset + read ∧
  written P m m' buf read (λ i, c.[offset + i]) ∧
  (f_pos < size →
   (b_pos < 4096 ∧ b_pos = f_pos mod 4096 ∧ b_num = f_pos / 4096 ∧
    addr = data_block_addr m fs (inode_addr fs inode) b_num + b_pos) ∨
   (b_pos = 4096 ∧ f_pos mod 4096 = 0 ∧ b_num + 1 = f_pos / 4096)).

Lemma reading_mem m' read f_pos b_pos b_num addr :
  reading (m', read, f_pos, b_pos, b_num, addr) →
  inode_length m' (inode_addr fs inode) = size ∧
  (∀ a, fs_base fs ≤ a < fs_end fs → rd m' a = rd m a) ∧
  (∀ b, 0 ≤ b ≤ 1022 → data_block_addr m' fs (inode_addr fs inode) b =
             data_block_addr m fs (inode_addr fs inode) b).
Proof using Hrep HPfs Hdis Hino Hlen.
  intros (Hr & _ & Hw & _).
  assert (∀ a, fs_base fs ≤ a < fs_end fs → rd m' a = rd m a) as Heq.
  { intros a Ha. apply (written_out _ _ _ _ _ _ _ Hw); [by apply HPfs|].
    lia. }
  assert (fs_rep m' fs im) as Hrep' by by apply (fs_rep_ext m).
  unfold data_block_addr, inode_data_block, bb_num_inodes, inode_length.
  rewrite (inode_addr_rep m fs im) by done.
  pose proof (num_inodes_nonneg im).
  destruct Hrep' as [_ _ Hsp _ _ Hni' _ Hf _], Hrep as [_ _ _ _ _ Hni _ _ _].
  split_and!.
  - apply (Hf inode Hino).
  - done.
  - intros b Hb. rewrite Hni, Hni', (load32_ext m m'); [done|].
    intros a Ha. apply Heq. lia.
Qed.

Lemma size_bound : 0 ≤ size ≤ 4096 * 1023.
Proof using Hrep Hino. unfold size. split; [lia|]. by apply Hrep. Qed.

Lemma reading_advance m' read f_pos b_pos b_num addr addr' b_num' b_pos' :
  reading (m', read, f_pos, b_pos, b_num, addr) →
  u32 read < len → f_pos < size →
  0 ≤ b_pos' < 4096 → b_pos' = f_pos mod 4096 → b_num' = f_pos / 4096 →
  addr' = data_block_addr m fs (inode_addr fs inode) b_num' + b_pos' →
  reading (wr m' (buf + read) (rd m' addr'), s32 (read + 1), u32 (f_pos + 1),
           u32 (b_pos' + 1), b_num', u32 (addr' + 1)) ∧
  deliver size offset len - s32 (read + 1) < deliver size offset len - read.
Proof using All.
  intros Hrd Hlt Hsz Hbp Hbe Hbn Ha.
  pose proof (reading_mem _ _ _ _ _ _ Hrd) as (_ & Hfs & _).
  destruct Hrd as (Hr & -> & Hw & _). pose proof size_bound as Hsb.
  assert (0 ≤ read < len).
  { revert Hlt. unfold deliver in Hr. rewrite u32_small by lia. lia. }
  destruct (data_block_addr_rep m fs im inode (offset + read)) as (a & Hblk & Ha1 & Ha2 & Hbyte);
    [done|done|unfold size, c in *; lia|].
  rewrite <- Hbn, <- Hbe in *. rewrite Hblk in Ha. subst addr'.
  assert (fs_end fs < 4294967296) by apply Hrep.
  assert (0 ≤ fs_base fs) by apply Hrep.
  assert (rd m' (a + b_pos') = c.[offset + read]) as Hv by (rewrite Hfs by lia; done).
  rewrite s32_small, !u32_small by lia. split; [|lia].
  unfold reading. split_and!.
  - lia.
  - unfold deliver in *. lia.
  - lia.
  - rewrite Hv. apply written_snoc; try done; try lia.
    + intros x Hx. apply HPbuf. unfold region, deliver in *. lia.
    + rewrite <- Hv. apply u8_small, rd_range.
  - intros Hsz'. destruct (decide (b_pos' = 4095)).
    + right. mlia.
    + left. split_and!; try lia; mlia.
Qed.

Lemma read_data_delivers :
  ∃ m', read_data m fs inode offset buf len = Some (m', deliver size offset len) ∧
        written P m m' buf (deliver size offset len) (λ i, c.[offset + i]).
Proof using All.
  unfold read_data, bb_num_inodes. rewrite (rep_nino _ _ _ Hrep), Z.geb_leb.
  destruct (Z.leb_spec (num_inodes im) inode); [lia|].
  destruct (while_total (read_data_step fs (inode_addr fs inode) buf len)
    reading (λ '(_, read, _, _, _, _), deliver size offset len - read)
    (λ '(m', r), r = deliver size offset len ∧
                 written P m m' buf (deliver size offset len) (λ i, c.[offset + i]))
    (m, 0, offset, offset mod BLOCK_BYTES, offset / BLOCK_BYTES,
     u32 (data_block_addr m fs (inode_addr fs inode) (offset / BLOCK_BYTES)
          + offset mod BLOCK_BYTES))) as ([m' r] & -> & -> & Hw); [..|by eauto].
  - intros [[[[[m' read] f] bp] bn] ad] (Hr & _). lia.
  - intros [[[[[m' read] f] bp] bn] ad] Hrd. unfold read_data_step.
    pose proof (reading_mem _ _ _ _ _ _ Hrd) as (-> & Hfs & Hblk).
    pose proof (λ ad' bn' bp', reading_advance _ _ _ _ _ _ ad' bn' bp' Hrd) as Hadv.
    destruct Hrd as (Hr & -> & Hw & Hcur). pose proof size_bound as Hsb.
    rewrite !Z.geb_leb. unfold BLOCK_BYTES in *.
    destruct (Z.ltb_spec (u32 read) len) as [Hlt|Hlt].
    2: { assert (read = deliver size offset len).
         { unfold deliver in *. rewrite u32_small in Hlt by lia. lia. } by subst. }
    destruct (Z.leb_spec size (offset + read)) as [Hend|Hin].
    { assert (read = deliver size offset len) by (unfold deliver in *; lia). by subst. }
    destruct (Hcur Hin) as [(Hbp & Hbe & Hbn & Had)|(-> & Hmod & Hbn)].
    + destruct (Z.leb_spec 4096 bp); [lia|]. apply Hadv; try done; mlia.
    + destruct (Z.leb_spec 4096 4096); [|lia].
      rewrite (u32_small (bn + 1)) by mlia. rewrite Hblk by mlia.
      destruct (data_block_addr_rep m fs im inode (offset + read))
        as (a & Ha & Ha1 & Ha2 & _); [done|done|unfold size, c in *; lia|].
      rewrite <- Hbn in Ha.
      destruct (Z.leb_spec (fs_end fs) (data_block_addr m fs (inode_addr fs inode) (bn + 1)));
        [rewrite Ha in *; lia|].
      apply (Hadv _ _ 0); try done; lia.
  - unfold reading, BLOCK_BYTES. split_and!; try lia; [unfold deliver; lia|by apply written_0|].
    intros Hin. left. split_and!; try done; [mlia|].
    destruct (data_block_addr_rep m fs im inode offset) as (a & -> & Ha1 & Ha2 & _);
      [done|done|unfold size, c in *; lia|].
    assert (fs_end fs < 4294967296) by apply Hrep. assert (0 ≤ fs_base fs) by apply Hrep.
    apply u32_small. mlia.
  - unfold deliver. lia.
Qed.
End ReadData.

(** ** Directory lookup

    The abstract lookup: the first entry whose name starts with [s] decides;
    the lookup succeeds if that name is [s] itself. *)

Fixpoint lookup_name (dents : list dent) (s : list Z) : option Z :=
  match dents with
  | [] => None
  | e :: r =>
      if decide (take (length s) (d_name e) = s) then
        if decide (d_name e = s) then Some 0 else None
      else Z.succ <$> lookup_name r s
  end.

Lemma take_aget (l s : list Z) :
  (∀ i, 0 ≤ i < Z.of_nat (length s) → s.[i] ≠ 0) →
  take (length s) l = s ↔ ∀ i, 0 ≤ i < Z.of_nat (length s) → l.[i] = s.[i].
Proof.
  intros Hnz. split.
  - intros Ht i Hi. rewrite <- Ht. unfold aget.
    destruct (0 <=? i); [|done]. rewrite lookup_take_lt; [done|lia].
  - intros Heq.
    assert (length s ≤ length l)%nat as Hle.
    { destruct (decide (length l < length s)%nat) as [Hlt|]; [|lia].
      destruct (Hnz (Z.of_nat (length l))); [lia|].
      rewrite <- Heq by lia. unfold aget.
      destruct (0 <=? _); [|done]. by rewrite Nat2Z.id, lookup_ge_None_2. }
    apply aget_ext.
    + rewrite length_take. lia.
    + intros i Hi. rewrite length_take in Hi. rewrite <- Heq by lia.
      unfold aget. destruct (0 <=? i); [|done]. by rewrite lookup_take_lt by lia.
Qed.

Lemma aget_past (l : list Z) i : Z.of_nat (length l) ≤ i → l.[i] = 0.
Proof.
  intros Hi. unfold aget. destruct (Z.leb_spec 0 i); [|done].
  rewrite lookup_ge_None_2; [done|lia].
Qed.

Lemma lookup_name_sound dents s i :
  lookup_name dents s = Some i → ∃ e, dents !! Z.to_nat i = Some e ∧ 0 ≤ i ∧ d_name e = s.
Proof.
  revert i. induction dents as [|e r IH]; intros i; [done|]. simpl.
  destruct (decide (take _ _ = s)).
  - destruct (decide (d_name e = s)); [|done]. intros [= <-]. by exists e.
  - intros (k & Hk & ->)%fmap_Some. destruct (IH k Hk) as (e' & Hl & Hk0 & Hn).
    exists e'. replace (Z.to_nat (Z.succ k)) with (S (Z.to_nat k)) by lia.
    split_and!; [done|lia|done].
Qed.

(** If the first entry that starts with [s] is [s], it is found. *)
Lemma lookup_name_complete dents s (i : nat) e :
  dents !! i = Some e → d_name e = s →
  (∀ k e', (k < i)%nat → dents !! k = Some e' → take (length s) (d_name e') ≠ s) →
  lookup_name dents s = Some (Z.of_nat i).
Proof.
  revert i. induction dents as [|e0 r IH]; intros i Hi Hn Hbefore; [done|]. simpl.
  destruct i as [|i].
  - simplify_eq/=. rewrite decide_True by by rewrite firstn_all. by rewrite decide_True.
  - rewrite decide_False by (apply (Hbefore 0%nat); [lia|done]).
    rewrite (IH i); [simpl; f_equal; lia|done..|].
    intros k e' Hk He'. apply (Hbefore (S k)); [lia|done].
Qed.

(** If the first entry that starts with [s] is longer, nothing is found. *)
Lemma lookup_name_shadowed dents s (i : nat) e :
  dents !! i = Some e → d_name e ≠ s → take (length s) (d_name e) = s →
  (∀ k e', (k < i)%nat → dents !! k = Some e' → take (length s) (d_name e') ≠ s) →
  lookup_name dents s = None.
Proof.
  revert i. induction dents as [|e0 r IH]; intros i Hi Hn Ht Hbefore; [done|]. simpl.
  destruct i as [|i].
  - simplify_eq/=. rewrite decide_True by done. by rewrite decide_False.
  - rewrite decide_False by (apply (Hbefore 0%nat); [lia|done]).
    rewrite (IH i); [done..|].
    intros k e' Hk He'. apply (Hbefore (S k)); [lia|done].
Qed.

Section Dentry.
Context {M : Type} `{!ByteMem M}.
Context (P : Z → Prop) (m : M) (fs : fs_globals) (im : fs_image).
Context (Hs : safe m P) (Hrep : fs_rep m fs im).
Context (HPfs : ∀ a, fs_base fs ≤ a < fs_end fs → P a).

(** The entry [e] is in the [dentry_t] at [dentry]. *)
Definition dentry_holds (m' : M) (dentry : Z) (e : dent) : Prop :=
  (∀ j, 0 ≤ j < 32 → rd m' (dentry + j) = (d_name e).[j]) ∧
  dentry_type m' dentry = d_type e ∧ dentry_inode m' dentry = d_inode e.

(** Only the 44 bytes of the structure may change. *)
Definition only_dentry (m' : M) (dentry : Z) : Prop :=
  ctl m' = ctl m ∧
  ∀ b, P b → ¬ (dentry ≤ b < dentry + 44) → rd m' b = rd m b.

(** Filling the structure from the entry at [d], with [k] name bytes copied
    by [strncpy] and byte [z] cleared. *)
Lemma fill_dentry dentry d e n z m1 :
  dent_rep m d e → (n = 32 ∨ n = 33) → z = n →
  (∀ a, region dentry 44 a → P a) →
  fs_base fs ≤ d → d + 64 ≤ fs_end fs →
  (dentry + 44 ≤ fs_base fs ∨ fs_end fs ≤ dentry) →
  strncpy m dentry d n = Some m1 →
  let m2 := wr m1 (dentry + z) 0 in
  let m3 := store32 m2 (dentry + 36) (load32 m2 (d + 32)) in
  let m4 := store32 m3 (dentry + 40) (load32 m3 (d + 36)) in
  dentry_holds m4 dentry e ∧ only_dentry m4 dentry.
Proof using Hs HPfs.
  intros Hd Hn -> HPd Hlo Hhi Hdis Hcpy m2 m3 m4.
  destruct (strncpy_correct P m dentry d n) as (m1' & k & E & Hk & Hnz & Hz & Hw1);
    [lia|done|..].
  { intros a Ha. apply HPd. unfold region in *. lia. }
  { intros a Ha. apply HPfs. unfold region in *. lia. }
  { lia. }
  rewrite Hcpy in E. injection E as <-.
  assert (safe m1 P) by by eapply written_safe.
  assert (∀ a k b, 0 ≤ a → a + k ≤ 44 → region (dentry + a) k b → P b) as HPr.
  { intros a k' b Ha Hk' Hb. apply HPd. unfold region in *. lia. }
  assert (written P m1 m2 (dentry + n) 1 (λ _, 0)) as Hw2.
  { unfold m2. rewrite <- (Z.add_0_r (dentry + n)) at 1.
    apply (written_snoc P m1 m1 (dentry + n) 0); try done; [|by apply written_0].
    intros b. apply HPr; lia. }
  assert (safe m2 P) by by eapply written_safe.
  pose proof (store32_written P m2 (dentry + 36) (load32 m2 (d + 32))) as Hw3.
  specialize (Hw3 ltac:(done) ltac:(intros b; apply HPr; lia)). fold m3 in Hw3.
  assert (safe m3 P) by by eapply written_safe.
  pose proof (store32_written P m3 (dentry + 40) (load32 m3 (d + 36))) as Hw4.
  specialize (Hw4 ltac:(done) ltac:(intros b; apply HPr; lia)). fold m4 in Hw4.
  assert (∀ a, fs_base fs ≤ a < fs_end fs → rd m3 a = rd m a ∧ rd m2 a = rd m a) as Hfs.
  { intros a Ha. assert (P a) by by apply HPfs.
    rewrite (written_out _ _ _ _ _ _ _ Hw3) by (done || lia).
    rewrite (written_out _ _ _ _ _ _ _ Hw2) by (done || lia).
    rewrite (written_out _ _ _ _ _ _ _ Hw1) by (done || lia). done. }
  destruct Hd as [Hok Hnm Hty Hin]. split; [split_and!|split].
  - intros j Hj. assert (P (dentry + j)) by (apply HPd; unfold region; lia).
    rewrite (written_out _ _ _ _ _ _ _ Hw4) by (done || lia).
    rewrite (written_out _ _ _ _ _ _ _ Hw3) by (done || lia).
    rewrite (written_out _ _ _ _ _ _ _ Hw2) by (done || lia).
    rewrite (written_in _ _ _ _ _ _ _ Hw1) by (done || lia).
    replace (dentry + j - dentry) with j by lia. rewrite <- Hnm by lia.
    destruct (Z.ltb_spec j k); [done|].
    destruct Hok as [Hlen Hbytes].
    rewrite Hnm by lia. symmetry. apply aget_past.
    assert (rd m (d + k) = 0) as Hk0 by (apply Hz; lia).
    rewrite Hnm in Hk0 by lia.
    destruct (decide (Z.of_nat (length (d_name e)) ≤ k)); [lia|].
    specialize (Hbytes k ltac:(lia)). lia.
  - unfold dentry_type.
    rewrite (written_load32_out _ _ _ _ _ _ _ Hw4); [|intros b; apply HPr; lia|lia].
    unfold m3. rewrite (load32_store32 P); [|done|intros b; apply HPr; lia|apply load32_range].
    rewrite (load32_ext m m2); [done|]. intros. apply Hfs. lia.
  - unfold dentry_inode, m4.
    rewrite (load32_store32 P); [|done|intros b; apply HPr; lia|apply load32_range].
    rewrite (load32_ext m m3); [done|]. intros. apply Hfs. lia.
  - rewrite (proj1 Hw4), (proj1 Hw3), (proj1 Hw2), (proj1 Hw1). done.
  - intros b Hb Hout.
    rewrite (written_out _ _ _ _ _ _ _ Hw4) by (done || lia).
    rewrite (written_out _ _ _ _ _ _ _ Hw3) by (done || lia).
    rewrite (written_out _ _ _ _ _ _ _ Hw2) by (done || lia).
    rewrite (written_out _ _ _ _ _ _ _ Hw1) by (done || lia). done.
Qed.

Lemma strncpy_total d n dentry :
  0 ≤ n < 2147483648 → (∀ a, region dentry n a → P a) → fs_base fs ≤ d →
  d + n < fs_end fs → (dentry + n ≤ fs_base fs ∨ fs_end fs ≤ dentry) →
  ∃ m1, strncpy m dentry d n = Some m1.
Proof using Hs HPfs.
  intros Hn HP Hlo Hhi Hdis.
  destruct (strncpy_correct P m dentry d n) as (m1 & k & E & _); eauto; [|lia].
  intros a Ha. apply HPfs. unfold region in *. lia.
Qed.

(** The comparison made by the search, in terms of the entry's name. *)
Lemma strncmp_entry fname n d e s :
  str_at m fname n → 0 ≤ n ≤ 32 → s = bytes m fname n → dent_rep m d e →
  ∃ r, strncmp m fname d n = Some r ∧ (r = 0 ↔ take (length s) (d_name e) = s).
Proof.
  intros Hstr Hn -> Hd. destruct (strncmp_zero m fname d n) as (r & -> & Hr); [lia|].
  exists r. split; [done|]. rewrite Hr.
  assert (Z.of_nat (length (bytes m fname n)) = n) as Hlen.
  { unfold bytes. rewrite length_fmap, length_seqZ. lia. }
  assert (∀ i, 0 ≤ i < n → (bytes m fname n).[i] = rd m (fname + i)) as Hb.
  { intros i Hi. apply aget_lookup; [lia|]. unfold bytes.
    rewrite list_lookup_fmap, lookup_seqZ_lt by lia. simpl. do 2 f_equal. lia. }
  destruct Hstr as (_ & Hnz & _).
  rewrite take_aget by (intros i Hi; rewrite Hb by lia; apply Hnz; lia).
  rewrite Hlen. split.
  - intros Hag i Hi. rewrite Hb by lia. rewrite Hag by (lia || intros; apply Hnz; lia).
    symmetry. apply (dr_name _ _ _ Hd). lia.
  - intros Heq i Hi _. rewrite <- Hb, <- Heq by lia. symmetry. apply (dr_name _ _ _ Hd). lia.
Qed.

(** The check of the byte after the name: it is NUL iff the whole name was
    compared. *)
Lemma name_end d e s :
  dent_rep m d e → Z.of_nat (length s) ≤ 32 → take (length s) (d_name e) = s →
  ((Z.of_nat (length s) <? FILE_NAME_LEN) && negb (rd m (d + Z.of_nat (length s)) =? 0)) =
  negb (bool_decide (d_name e = s)).
Proof.
  intros [[Hlen Hbytes] Hnm _ _] Hs32 Ht.
  assert (length s ≤ length (d_name e))%nat.
  { rewrite <- Ht at 1. rewrite length_take. lia. }
  unfold FILE_NAME_LEN.
  case_bool_decide as Heq; simpl.
  - destruct (Z.ltb_spec (Z.of_nat (length s)) 32); [|done]. simpl.
    rewrite Hnm, aget_past by (lia || (rewrite Heq; lia)). done.
  - assert (length s < length (d_name e))%nat.
    { destruct (decide (length s = length (d_name e))) as [E|]; [|lia].
      destruct Heq. by rewrite <- Ht, E, firstn_all. }
    destruct (Z.ltb_spec (Z.of_nat (length s)) 32); [|lia]. simpl.
    rewrite Hnm by lia. specialize (Hbytes (Z.of_nat (length s)) ltac:(lia)).
    destruct (Z.eqb_spec (d_name e).[Z.of_nat (length s)] 0); [lia|done].
Qed.

Lemma read_dentry_by_name_lookup fname n dentry :
  str_at m fname n → n < 4294967296 →
  (∀ a, region dentry 44 a → P a) → (dentry + 44 ≤ fs_base fs ∨ fs_end fs ≤ dentry) →
  match (if decide (n ≤ 32) then lookup_name (im_dents im) (bytes m fname n) else None) with
  | None => read_dentry_by_name m fs fname dentry = Some (m, -1)
  | Some i => ∃ m', read_dentry_by_name m fs fname dentry = Some (m', 0) ∧
                    dentry_holds m' dentry (im_dents im).[i] ∧ only_dentry m' dentry
  end.
Proof using All.
  intros Hstr Hn HPd Hdis. unfold read_dentry_by_name.
  assert (0 ≤ n) by apply Hstr. rewrite (strlen_str_at m fname n) by done.
  assert ((n =? FILE_NAME_LEN + 1) && (rd m (fname + FILE_NAME_LEN) =? 0) = false) as ->.
  { unfold FILE_NAME_LEN. destruct (Z.eqb_spec n (32 + 1)) as [->|]; [|done]. simpl.
    destruct Hstr as (_ & Hnz & _). specialize (Hnz 32 ltac:(lia)).
    by destruct (Z.eqb_spec (rd m (fname + 32)) 0). }
  assert ((n >? FILE_NAME_LEN) = negb (bool_decide (n ≤ 32))) as ->.
  { unfold FILE_NAME_LEN. case_bool_decide; bool_cases; simpl; lia. }
  case_decide as Hn32; [rewrite bool_decide_true by done|by rewrite bool_decide_false].
  cbn [negb].
  set (s := bytes m fname n).
  assert (Z.of_nat (length s) = n) as Hlen.
  { unfold s, bytes. rewrite length_fmap, length_seqZ. lia. }
  pose proof (rep_maxent _ _ _ Hrep) as Hmax. pose proof (num_inodes_nonneg im) as Hni.
  pose proof (rep_space _ _ _ Hrep) as Hsp.
  destruct (while_total (read_dentry_step fs fname dentry n)
    (λ '(m', i), m' = m ∧ 0 ≤ i ≤ num_entries im ∧
       lookup_name (im_dents im) s = Z.add i <$> lookup_name (drop (Z.to_nat i) (im_dents im)) s)
    (λ '(_, i), num_entries im - i)
    (λ r, match lookup_name (im_dents im) s with
          | None => r = Some (m, -1)
          | Some i => ∃ m', r = Some (m', 0) ∧
                            dentry_holds m' dentry (im_dents im).[i] ∧ only_dentry m' dentry
          end) (m, 0)) as (r & -> & Hr); [..|by destruct (lookup_name _ _)].
  - intros [m' i] (_ & Hi & _). lia.
  - intros [m' i] (-> & Hi & Hlk). unfold read_dentry_step, bb_num_entries.
    rewrite (rep_nent _ _ _ Hrep). rewrite u32_small by lia.
    destruct (Z.ltb_spec i (num_entries im)) as [Hlt|Hge].
    2: { rewrite drop_ge in Hlk by (unfold num_entries in *; lia). by rewrite Hlk. }
    pose proof (rep_dents _ _ _ Hrep i ltac:(lia)) as Hd.
    unfold dentry_int_addr.
    destruct (strncmp_entry fname n _ _ s Hstr ltac:(lia) eq_refl Hd) as (r & -> & Hr).
    assert (drop (Z.to_nat i) (im_dents im) =
            (im_dents im).[i] :: drop (Z.to_nat (i + 1)) (im_dents im)) as Hdrop.
    { replace (Z.to_nat (i + 1)) with (S (Z.to_nat i)) by lia.
      apply drop_S. rewrite lookup_aget by (unfold num_entries in *; lia).
      do 2 f_equal. lia. }
    rewrite Hdrop in Hlk. simpl in Hlk.
    destruct (Z.eqb_spec r 0) as [E|E].
    + apply Hr in E. rewrite (decide_True _ _ E) in Hlk.
      pose proof (name_end _ _ s Hd ltac:(lia) E) as Hend. rewrite Hlen in Hend.
      rewrite Hend. destruct (decide (d_name (im_dents im).[i] = s)) as [Hnm|Hnm].
      * rewrite bool_decide_true by done. simpl.
        destruct (strncpy_total (fs_base fs + 64 + 64 * i) 32 dentry) as [m1 Hm1];
          [lia|intros a Ha; apply HPd; unfold region in *; lia|lia|lia|lia|].
        unfold FILE_NAME_LEN. rewrite Hm1, Hlk. simpl. rewrite Z.add_0_r.
        pose proof (fill_dentry dentry _ _ 32 32 m1 Hd) as Hfill.
        eexists. split; [done|]. apply Hfill; eauto; lia.
      * rewrite bool_decide_false by done. simpl. by rewrite Hlk.
    + rewrite decide_False in Hlk by by rewrite <- Hr.
      rewrite s32_small by lia. split_and!; try lia; [done|]. rewrite Hlk.
      destruct (lookup_name (drop _ _) s); simpl; [f_equal; lia|done].
  - split_and!; try done; [unfold num_entries; lia|].
    rewrite drop_0. by destruct (lookup_name (im_dents im) s).
  - unfold num_entries in *. lia.
Qed.

(** The entry by index: the name is not NUL-terminated when it has 32 bytes;
    byte 32 is then the low byte of the entry's type. *)
Lemma read_dentry_by_index_entry index dentry :
  0 ≤ index → (∀ a, region dentry 44 a → P a) →
  (dentry + 44 ≤ fs_base fs ∨ fs_end fs ≤ dentry) →
  if decide (index < num_entries im) then
    ∃ m', read_dentry_by_index m fs index dentry = Some (m', 0) ∧
          dentry_holds m' dentry (im_dents im).[index] ∧ only_dentry m' dentry
  else read_dentry_by_index m fs index dentry = Some (m, -1).
Proof using All.
  intros Hi HPd Hdis. unfold read_dentry_by_index, bb_num_entries.
  rewrite (rep_nent _ _ _ Hrep), Z.geb_leb.
  pose proof (rep_maxent _ _ _ Hrep) as Hmax. pose proof (num_inodes_nonneg im) as Hni.
  pose proof (rep_space _ _ _ Hrep) as Hsp.
  case_decide; destruct (Z.leb_spec (num_entries im) index); try lia; [|done].
  pose proof (rep_dents _ _ _ Hrep index ltac:(lia)) as Hd. unfold dentry_int_addr.
  destruct (strncpy_total (fs_base fs + 64 + 64 * index) 33 dentry) as [m1 Hm1];
    [lia|intros a Ha; apply HPd; unfold region in *; lia|lia|lia|lia|].
  unfold FILE_NAME_LEN. change (32 + 1) with 33. rewrite Hm1.
  pose proof (fill_dentry dentry _ _ 33 33 m1 Hd) as Hfill.
  eexists. split; [done|]. apply Hfill; eauto; lia.
Qed.
End Dentry.

(** ** Files and directories as sequences of reads *)

(** The slice of a file that a read of [n] bytes at [pos] must deliver. *)
Definition slice (c : list Z) (pos n : Z) : list Z :=
  take (Z.to_nat n) (drop (Z.to_nat pos) c).

Lemma slice_seqZ (c : list Z) pos k :
  0 ≤ pos → 0 ≤ k → k = 0 ∨ pos + k ≤ Z.of_nat (length c) →
  ((λ i, c.[pos + i]) <$> seqZ 0 k) = slice c pos k.
Proof.
  intros Hp Hk Hlen. unfold slice.
  destruct (decide (k = 0)) as [->|]; [done|].
  apply list_eq. intros j. rewrite list_lookup_fmap.
  destruct (decide (Z.of_nat j < k)).
  - rewrite lookup_seqZ_lt by lia. rewrite lookup_take_lt by lia. rewrite lookup_drop. simpl.
    rewrite lookup_aget by lia. do 2 f_equal. lia.
  - rewrite lookup_seqZ_ge by lia. rewrite lookup_ge_None_2; [done|].
    rewrite length_take, length_drop. lia.
Qed.

Lemma slice_deliver (c : list Z) pos n :
  0 ≤ pos → 0 ≤ n →
  slice c pos (deliver (Z.of_nat (length c)) pos n) = slice c pos n.
Proof.
  intros Hp Hn. unfold slice, deliver.
  destruct (decide (pos ≤ Z.of_nat (length c))).
  - destruct (decide (n ≤ Z.of_nat (length c) - pos)).
    + by replace (Z.max 0 _) with n by lia.
    + rewrite !take_ge; [done|rewrite length_drop; lia..].
  - rewrite drop_ge by lia. by rewrite !take_nil.
Qed.

Lemma length_slice (c : list Z) pos n :
  0 ≤ pos → 0 ≤ n → Z.of_nat (length (slice c pos n)) = deliver (Z.of_nat (length c)) pos n.
Proof. intros. unfold slice, deliver. rewrite length_take, length_drop. lia. Qed.

Section Reads.
Context {M : Type} `{!ByteMem M}.
Implicit Types (m : M) (P : Z → Prop).

Lemma bytes_written P m m' buf k f :
  (∀ a, region buf k a → P a) → written P m m' buf k f →
  bytes m' buf k = f <$> seqZ 0 k.
Proof.
  intros HP Hw. unfold bytes. apply list_fmap_ext. intros n i Hi.
  apply lookup_seqZ in Hi. rewrite (written_in _ _ _ _ _ _ _ Hw).
  - f_equal. lia.
  - apply HP. unfold region. lia.
  - lia.
Qed.

(** What a file-system operation may touch: the [k] bytes it delivered. *)
Definition only_buf P m m' buf k : Prop :=
  ctl m' = ctl m ∧ ∀ b, P b → ¬ (buf ≤ b < buf + k) → rd m' b = rd m b.

Lemma only_buf_written P m m' buf k f : written P m m' buf k f → only_buf P m m' buf k.
Proof.
  intros Hw. split; [apply Hw|]. intros b Hb Hout.
  by apply (written_out _ _ _ _ _ _ _ Hw).
Qed.

Lemma fs_rep_only_buf P m m' fs im buf k n :
  (∀ a, fs_base fs ≤ a < fs_end fs → P a) →
  (buf + n ≤ fs_base fs ∨ fs_end fs ≤ buf) → k ≤ n →
  only_buf P m m' buf k → fs_rep m fs im → fs_rep m' fs im.
Proof.
  intros HP Hdis Hk [_ Ho]. apply fs_rep_ext. intros a Ha. apply Ho; [by apply HP|lia].
Qed.

(** A machine on which the image [im] and a buffer of [n] bytes are set up. *)
Record io_ready P m fs im buf n : Prop := {
  io_safe : safe m P;
  io_rep : fs_rep m fs im;
  io_fs : ∀ a, fs_base fs ≤ a < fs_end fs → P a;
  io_buf : ∀ a, region buf n a → P a;
  io_dis : buf + n ≤ fs_base fs ∨ fs_end fs ≤ buf;
  io_len : 0 ≤ n < 2147483648
}.

Lemma io_ready_only_buf P m m' fs im buf n k :
  io_ready P m fs im buf n → k ≤ n → only_buf P m m' buf k → io_ready P m' fs im buf n.
Proof.
  intros [Hs Hr Hf Hb Hd Hl] Hk Ho. split; try done.
  - apply (safe_cells m); [apply Ho|done].
  - by eapply fs_rep_only_buf.
Qed.

Lemma read_data_io P m fs im buf n inode offset :
  io_ready P m fs im buf n → 0 ≤ inode < num_inodes im → 0 ≤ offset < 4294967296 →
  let c := (im_files im).[inode] in
  let k := deliver (Z.of_nat (length c)) offset n in
  ∃ m', read_data m fs inode offset buf n = Some (m', k) ∧
        bytes m' buf k = slice c offset n ∧ only_buf P m m' buf k.
Proof.
  intros [Hs Hr Hf Hb Hd Hl] Hi Ho c k.
  destruct (read_data_delivers P m fs im inode offset buf n) as (m' & Hrd & Hw); try done;
    fold c k; [intros a Ha; apply Hb; unfold region, k, deliver in *; lia|unfold k, deliver; lia|].
  fold c k in Hrd, Hw. exists m'. split_and!; [done| |by eapply only_buf_written].
  rewrite (bytes_written P m m' buf k (λ i, c.[offset + i])); [|..|done].
  - rewrite slice_seqZ; [apply slice_deliver; lia|lia|unfold k, deliver; lia|].
    unfold k, deliver. lia.
  - intros a Ha. apply Hb. unfold region, k, deliver in *. lia.
Qed.

Lemma file_read_io P m fs im buf n fp :
  io_ready P m fs im buf n → 0 ≤ f_inode fp < num_inodes im →
  0 ≤ f_pos fp ≤ 2147483648 →
  let c := (im_files im).[f_inode fp] in
  let k := deliver (Z.of_nat (length c)) (f_pos fp) n in
  ∃ m', file_read m fs fp buf n = Some (m', fp <| f_pos := f_pos fp + k |>, k) ∧
        bytes m' buf k = slice c (f_pos fp) n ∧ only_buf P m m' buf k.
Proof.
  intros Hio Hi Hp c k. unfold file_read.
  destruct (read_data_io P m fs im buf n (f_inode fp) (f_pos fp)) as (m' & -> & Hb & Ho);
    try done; [lia|].
  fold c k in Hb, Ho |- *. exists m'. split_and!; try done.
  assert (0 ≤ k < 2147483648) by (destruct Hio; unfold k, deliver; lia).
  rewrite s32_u32, s32_small, (u32_small k) by lia. rewrite Z.gtb_ltb.
  destruct (Z.ltb_spec 0 k).
  - by rewrite u32_small by lia.
  - replace k with 0 by lia. rewrite Z.add_0_r. done.
Qed.

(** The read loop of [cat]: read until the file ends, in chunks of [n]. *)
Definition cat_loop fs buf n (st : M * file * list Z) : (M * file * list Z) + option (list Z) :=
  let '(m, fp, out) := st in
  match file_read m fs fp buf n with
  | None => inr None
  | Some (m, fp, cnt) =>
      if cnt =? 0 then inr (Some out)
      else if cnt =? -1 then inr None
      else inl (m, fp, out ++ bytes m buf cnt)
  end.

Lemma slice_app (c : list Z) a n :
  0 ≤ a → 0 ≤ n → slice c 0 a ++ slice c a n = slice c 0 (a + n).
Proof.
  intros Ha Hn. unfold slice. rewrite !drop_0.
  replace (Z.to_nat (a + n)) with (Z.to_nat a + Z.to_nat n)%nat by lia.
  by rewrite <- take_take_drop.
Qed.

Lemma cat_loop_all P m fs im buf n fp :
  io_ready P m fs im buf n → 0 < n → 0 ≤ f_inode fp < num_inodes im → f_pos fp = 0 →
  while (cat_loop fs buf n) (m, fp, []) = Some (Some (im_files im).[f_inode fp]).
Proof.
  intros Hio Hn Hi Hp. set (c := (im_files im).[f_inode fp]).
  set (size := Z.of_nat (length c)).
  assert (size ≤ 4096 * 1023) by (eapply rep_maxlen; [apply Hio|done]).
  apply (while_eq _
    (λ '(m', fp', out), io_ready P m' fs im buf n ∧ f_inode fp' = f_inode fp ∧
       0 ≤ f_pos fp' ≤ size ∧ out = slice c 0 (f_pos fp'))
    (λ '(_, fp', _), size - f_pos fp')).
  - intros [[m' fp'] out] (_ & _ & ? & _). lia.
  - intros [[m' fp'] out] (Hio' & Hin & Hpos & ->). unfold cat_loop.
    destruct (file_read_io P m' fs im buf n fp') as (m2 & -> & Hb & Ho); [done|..].
    { by rewrite Hin. } { lia. }
    rewrite Hin in *. fold c size in Hb, Ho |- *.
    set (k := deliver size (f_pos fp') n) in *.
    destruct (Z.eqb_spec k 0) as [E|E].
    + assert (f_pos fp' = size) by (unfold k, deliver in E; lia).
      f_equal. unfold slice. rewrite drop_0, take_ge; [done|]. unfold size in *. lia.
    + assert (0 < k ≤ size - f_pos fp' ∧ k ≤ n) by (unfold k, deliver in *; lia).
      destruct (Z.eqb_spec k (-1)); [lia|]. simpl. split_and!; try done; try lia.
      * eapply io_ready_only_buf; eauto. lia.
      * rewrite Hb, <- (slice_deliver c (f_pos fp') n) by lia. fold size k. rewrite slice_app by lia. done.
  - rewrite Hp. split_and!; try done; unfold size; lia.
  - lia.
Qed.

Lemma dir_read_end P m fs im buf n fp i :
  io_ready P m fs im buf n → f_pos fp = 64 * (i + 1) → num_entries im ≤ i →
  dir_read m fs fp buf n = Some (m, fp, 0).
Proof.
  intros Hio Hp Hi. unfold dir_read, bb_num_entries.
  rewrite (rep_nent _ _ _ (io_rep _ _ _ _ _ _ Hio)), Hp. unfold DENTRY_SIZE.
  rewrite Z.gtb_ltb. destruct (Z.ltb_spec (num_entries im) (64 * (i + 1) / 64)); [done|].
  mlia.
Qed.

Lemma dir_read_io P m fs im buf n fp i :
  io_ready P m fs im buf n → f_pos fp = 64 * (i + 1) → 0 ≤ i < num_entries im →
  let nm := d_name (im_dents im).[i] in
  let k := Z.min (Z.min n 32) (Z.of_nat (length nm)) in
  ∃ m', dir_read m fs fp buf n = Some (m', fp <| f_pos := 64 * (i + 2) |>, k) ∧
        bytes m' buf k = slice nm 0 k ∧ only_buf P m m' buf k.
Proof.
  intros Hio Hp Hi nm k. destruct Hio as [Hs Hrep Hf Hb Hd Hl].
  unfold dir_read, bb_num_entries. rewrite (rep_nent _ _ _ Hrep), Hp.
  unfold DENTRY_SIZE, FILE_NAME_LEN. rewrite !Z.gtb_ltb.
  destruct (Z.ltb_spec (num_entries im) (64 * (i + 1) / 64)); [mlia|].
  replace (if 32 <? n then 32 else n) with (Z.min n 32) by (bool_cases; lia).
  pose proof (rep_dents _ _ _ Hrep i Hi) as [[Hlen Hbytes] Hnm _ _]. fold nm in Hlen, Hbytes, Hnm.
  pose proof (rep_maxent _ _ _ Hrep). pose proof (rep_space _ _ _ Hrep).
  pose proof (num_inodes_nonneg im).
  set (name := fs_base fs + 64 * (i + 1)).
  replace (fs_base fs + 64 + 64 * i) with name in Hnm by (unfold name; lia).
  assert (∀ j, 0 ≤ j ≤ k → P (name + j)) as HPn.
  { intros j Hj. apply Hf. unfold name. lia. }
  assert (∀ j, 0 ≤ j < k → P (buf + j)) as HPb.
  { intros j Hj. apply Hb. unfold region. lia. }
  destruct (while_total (λ '(m, i),
      if (u32 i >=? Z.min n 32) || (rd m (name + i) =? 0) then inr (m, i)
      else inl (wr m (buf + i) (rd m (name + i)), s32 (i + 1)))
    (λ '(m', j), 0 ≤ j ≤ k ∧ written P m m' buf j (λ x, nm.[x])) (λ '(_, j), k - j)
    (λ '(m', j), j = k ∧ written P m m' buf k (λ x, nm.[x])) (m, 0))
    as ([m' j] & -> & -> & Hw).
  - intros [m' j] [Hj _]. lia.
  - intros [m' j] [Hj Hw].
    assert (rd m' (name + j) = rd m (name + j)) as E.
    { apply (written_out _ _ _ _ _ _ _ Hw); [by apply HPn|]. unfold name. lia. }
    rewrite E, u32_small, Z.geb_leb by lia.
    destruct (Z.leb_spec (Z.min n 32) j); simpl; [by replace k with j by lia|].
    rewrite Hnm by lia.
    destruct (Z.eqb_spec nm.[j] 0) as [Ez|Ez].
    + replace k with j; [done|].
      destruct (decide (j < Z.of_nat (length nm))); [specialize (Hbytes j); lia|lia].
    + assert (j < Z.of_nat (length nm)).
      { destruct (decide (j < Z.of_nat (length nm))); [done|]. rewrite aget_past in Ez; lia. }
      rewrite s32_small by lia. split; [split; [lia|]|lia].
      apply written_snoc; try done; try lia.
      * intros a Ha. replace a with (buf + (a - buf)) by lia. apply HPb. unfold region in *. lia.
      * apply u8_small. specialize (Hbytes j). lia.
  - split; [lia|]. by apply written_0.
  - lia.
  - exists m'. split_and!; [|rewrite (bytes_written P m m' buf k (λ x, nm.[x]))|]; try done.
    + by rewrite u32_small by lia; replace (64 * (i + 1) + 64) with (64 * (i + 2)) by lia.
    + refine (slice_seqZ nm 0 k _ _ _); lia.
    + intros a Ha. replace a with (buf + (a - buf)) by lia. apply HPb. unfold region in *. lia.
    + by eapply only_buf_written.
Qed.

(** The read loop of [ls], with the kernel's directory driver. *)
Definition ls_loop fs buf n (st : M * file * list (list Z))
    : (M * file * list (list Z)) + option (list (list Z)) :=
  let '(m, fp, out) := st in
  match dir_read m fs fp buf n with
  | None => inr None
  | Some (m, fp, cnt) =>
      if cnt =? 0 then inr (Some out)
      else if cnt =? -1 then inr None
      else inl (m, fp, out ++ [bytes m buf cnt])
  end.

Lemma ls_loop_all P m fs im buf n fp :
  io_ready P m fs im buf n → 32 ≤ n →
  (∀ i, 0 ≤ i < num_entries im → d_name (im_dents im).[i] ≠ []) →
  f_pos fp = 64 →
  while (ls_loop fs buf n) (m, fp, []) = Some (Some (d_name <$> im_dents im)).
Proof.
  intros Hio Hn Hne Hp.
  pose proof (rep_maxent _ _ _ (io_rep _ _ _ _ _ _ Hio)).
  apply (while_eq _
    (λ '(m', fp', out), io_ready P m' fs im buf n ∧
       ∃ i, 0 ≤ i ≤ num_entries im ∧ f_pos fp' = 64 * (i + 1) ∧
            out = d_name <$> take (Z.to_nat i) (im_dents im))
    (λ '(_, fp', _), num_entries im + 1 - f_pos fp' / 64)).
  - intros [[m' fp'] out] (_ & i & Hi & -> & _). mlia.
  - intros [[m' fp'] out] (Hio' & i & Hi & Hpos & ->). unfold ls_loop.
    destruct (decide (i = num_entries im)) as [->|].
    + rewrite (dir_read_end P m' fs im buf n fp' (num_entries im)) by (done || lia).
      simpl. do 2 f_equal. rewrite take_ge; [done|]. unfold num_entries. lia.
    + destruct (dir_read_io P m' fs im buf n fp' i) as (m2 & -> & Hb & Ho); [done|done|lia|].
      set (nm := d_name (im_dents im).[i]) in *.
      pose proof (Hne i ltac:(lia)) as Hnm. fold nm in Hnm.
      assert (0 < Z.of_nat (length nm) ≤ 32).
      { destruct (rep_dents _ _ _ (io_rep _ _ _ _ _ _ Hio) i ltac:(lia)) as [[Hlen _] _ _ _].
        fold nm in Hlen. clearbody nm. destruct nm; [done|]. simpl in *. lia. }
      replace (Z.min (Z.min n 32) (Z.of_nat (length nm))) with (Z.of_nat (length nm)) in * by lia.
      destruct (Z.eqb_spec (Z.of_nat (length nm)) 0); [lia|].
      destruct (Z.eqb_spec (Z.of_nat (length nm)) (-1)); [lia|].
      simpl. split; [|rewrite Hpos; mlia].
      split; [apply (io_ready_only_buf P m' m2 _ _ _ _ (Z.of_nat (length nm))); [done|lia|done]|].
      exists (i + 1). split_and!; try lia.
      replace (Z.to_nat (i + 1)) with (S (Z.to_nat i)) by lia.
      rewrite (take_S_r _ _ (im_dents im).[i]).
      * rewrite fmap_app. simpl. do 2 f_equal. rewrite Hb. unfold slice.
        rewrite drop_0, take_ge; [done|lia].
      * rewrite lookup_aget by (unfold num_entries in *; lia). do 2 f_equal. lia.
  - split; [done|]. exists 0. rewrite Hp. split_and!; done || (unfold num_entries; lia).
  - rewrite Hp. change (64 / 64) with 1. lia.
Qed.
End Reads.
