(* ===== verification/FsProps.v ===== *)
(** * Properties of the file system

    The theorems about [student-distrib/filesystem.c] that the rest of the
    kernel relies on, each with a run on a small concrete image. *)

From S2P Require Import Prelude Memory Lib Types Filesystem FsProofs.
#[local] Open Scope Z_scope.

(** ** A concrete image

    Three entries: ".", "frame0.txt" and "frame0" in this order; two files,
    the second one with bytes in two data blocks (blocks 2 and 0). *)

Definition nm_dot : list Z := [46].
Definition nm_frame0 : list Z := [102; 114; 97; 109; 101; 48].
Definition nm_frame0_txt : list Z := nm_frame0 ++ [46; 116; 120; 116].

Definition demo_long : list Z := replicate 4096 65 ++ [66; 67].
Definition demo_image : fs_image :=
  mk_image [mk_dent nm_dot 1 0; mk_dent nm_frame0_txt 2 0; mk_dent nm_frame0 2 1]
           [[104; 105; 10]; demo_long].

Definition demo_fs : fs_globals := mk_fs 8192 32768.

Definition le4 (v : Z) : list Z :=
  [v mod 256; (v / 256) mod 256; (v / 65536) mod 256; (v / 16777216) mod 256].
Definition dent_bytes (e : dent) : list Z :=
  d_name e ++ replicate (32 - length (d_name e)) 0 ++ le4 (d_type e) ++ le4 (d_inode e)
  ++ replicate 24 0.

Definition demo_mem : gmap Z Z :=
  flat_of 8192 (le4 3 ++ le4 2 ++ le4 3 ++ replicate 52 0 ++ (im_dents demo_image ≫= dent_bytes))
  ∪ flat_of 12288 (le4 3 ++ le4 1)
  ∪ flat_of 16384 (le4 4098 ++ le4 2 ++ le4 0)
  ∪ flat_of 20480 [66; 67]
  ∪ flat_of 24576 [104; 105; 10]
  ∪ flat_of 28672 (replicate 4096 65)
  ∪ flat_of 100 (nm_frame0 ++ [0])
  ∪ flat_of 200 (nm_frame0_txt ++ [0]).

Lemma name_ok_check e :
  (Z.of_nat (length (d_name e)) <=? 32) = true →
  forallb (λ j, (0 <? (d_name e).[j]) && ((d_name e).[j] <? 256))
    (seqZ 0 (Z.of_nat (length (d_name e)))) = true → name_ok e.
Proof.
  intros Hl Hb. split; [lia|]. intros j Hj.
  pose proof (forall_seqZ_true _ _ Hb j Hj) as Hj'. cbv beta in Hj'. lia.
Qed.

Lemma file_rep_check (m : gmap Z Z) fs im j c :
  load32 m (fs_base fs + 4096 * (j + 1)) = Z.of_nat (length c) →
  forallb (λ p,
    let b := block_start fs im (load32 m (fs_base fs + 4096 * (j + 1) + 4 + 4 * (p / 4096))) in
    (b + 4096 <=? fs_end fs) && (rd m (b + p mod 4096) =? c.[p]))
    (seqZ 0 (Z.of_nat (length c))) = true →
  file_rep m fs im j c.
Proof.
  intros Hl Hb. split; [done|..]; intros p Hp;
    pose proof (forall_seqZ_true _ _ Hb p Hp) as Hp'; cbv beta zeta in Hp'; lia.
Qed.

Lemma demo_dents i :
  0 ≤ i < 3 → dent_rep demo_mem (8192 + 64 + 64 * i) (im_dents demo_image).[i].
Proof.
  intros Hi. assert (i = 0 ∨ i = 1 ∨ i = 2) as [->|[->| ->]] by lia.
  all: split; [apply name_ok_check; vm_compute; reflexivity
              |apply forall_seqZ; vm_compute; reflexivity
              |vm_compute; reflexivity|vm_compute; reflexivity].
Qed.

Lemma demo_rep : fs_rep demo_mem demo_fs demo_image.
Proof.
  split.
  1-6: vm_compute; reflexivity || congruence.
  - exact demo_dents.
  - intros j Hj. change (num_inodes demo_image) with 2 in Hj.
    assert (j = 0 ∨ j = 1) as [->| ->] by lia;
      (apply file_rep_check; vm_compute; reflexivity).
  - intros j Hj. change (num_inodes demo_image) with 2 in Hj.
    assert (j = 0 ∨ j = 1) as [->| ->] by lia; vm_compute; congruence.
Qed.

(** A buffer of [n] bytes above the image. *)
Lemma demo_ready n :
  0 ≤ n < 2147483648 → io_ready (λ _, True) demo_mem demo_fs demo_image 65536 n.
Proof.
  intros Hn. split; [apply flat_safe|apply demo_rep|done|done|simpl; lia|done].
Qed.

(** ** Reading files *)

Section FileProperties.
Context {M : Type} `{!ByteMem M}.
Implicit Types (m : M) (P : Z → Prop).

(** C25 (read_data). On a well-formed image and a buffer that does not overlap
    it, [read_data] terminates; for a valid inode it returns the number of
    bytes of the file between [offset] and [offset + n], the buffer then holds
    exactly these bytes (whatever data blocks they lie in), and nothing beyond
    them is written; for an inode out of range it returns -1 and changes
    nothing. *)
Theorem read_data_slice P m fs im buf n inode offset :
  io_ready P m fs im buf n → 0 ≤ inode → 0 ≤ offset < 4294967296 →
  if decide (inode < num_inodes im) then
    let c := (im_files im).[inode] in
    ∃ m' k, read_data m fs inode offset buf n = Some (m', k) ∧
      k = Z.of_nat (length (slice c offset n)) ∧
      bytes m' buf k = slice c offset n ∧ only_buf P m m' buf k ∧ fs_rep m' fs im
  else read_data m fs inode offset buf n = Some (m, -1).
Proof.
  intros Hio Hi Ho. case_decide.
  - intros c. destruct (read_data_io P m fs im buf n inode offset) as (m' & E & Hb & Hbuf);
      [done..|]. fold c in E, Hb, Hbuf. assert (0 ≤ n) by apply Hio.
    exists m', (deliver (Z.of_nat (length c)) offset n). split_and!; try done.
    + by rewrite length_slice by lia.
    + apply (io_ready_only_buf P m m' fs im buf n) in Hbuf; [apply Hbuf|done|].
      unfold deliver. lia.
  - unfold read_data, bb_num_inodes.
    rewrite (rep_nino _ _ _ (io_rep _ _ _ _ _ _ Hio)), Z.geb_leb.
    destruct (Z.leb_spec (num_inodes im) inode); [done|lia].
Qed.

(** (reading to the end). Reading an open data file from position 0 in
    chunks of any size [n > 0] until a read returns 0, as [cat] does, always
    terminates, never fails, and the chunks put together are the file. *)
Theorem file_read_whole P m fs im buf n fp :
  io_ready P m fs im buf n → 0 < n → 0 ≤ f_inode fp < num_inodes im → f_pos fp = 0 →
  while (cat_loop fs buf n) (m, fp, []) = Some (Some (im_files im).[f_inode fp]).
Proof. apply cat_loop_all. Qed.

(** (a failed read moves the file position). If the inode of an open file
    is out of range, [file_read] returns -1, but because the return value is
    held in an unsigned variable it also moves the file position back by
    one. *)
Theorem file_read_error_rewinds m fs fp buf n :
  bb_num_inodes m fs ≤ f_inode fp → 0 < f_pos fp < 4294967296 →
  file_read m fs fp buf n = Some (m, fp <| f_pos := f_pos fp - 1 |>, -1).
Proof.
  intros Hi Hp. unfold file_read, read_data. rewrite Z.geb_leb.
  destruct (Z.leb_spec (bb_num_inodes m fs) (f_inode fp)); [|lia].
  change (u32 (-1)) with 4294967295. simpl.
  replace (u32 (f_pos fp + 4294967295)) with (f_pos fp - 1) by mlia. done.
Qed.

(** ** Reading directories *)

(** (listing a directory). After [dir_open], reading the directory with a
    buffer of at least 32 bytes until a read returns 0, as [ls] does,
    terminates and delivers the names of all entries in order, each once. *)
Theorem dir_read_lists P m fs im buf n fp :
  io_ready P m fs im buf n → 32 ≤ n →
  (∀ i, 0 ≤ i < num_entries im → d_name (im_dents im).[i] ≠ []) →
  while (ls_loop fs buf n) (m, (dir_open fp).1, []) = Some (Some (d_name <$> im_dents im)).
Proof. intros. by apply (ls_loop_all P m fs im). Qed.

(** ** Looking up names *)

(** C24 (name lookup refines the abstract one). On a well-formed image,
    [read_dentry_by_name] terminates and answers as the abstract
    [lookup_name]: 0 with the entry's name, type and inode in the out
    parameter when the first entry starting with the given string is that
    string, and -1 with memory untouched otherwise; strings longer than 32
    bytes are refused. *)
Theorem read_dentry_by_name_refines P m fs im fname n dentry :
  safe m P → fs_rep m fs im → (∀ a, fs_base fs ≤ a < fs_end fs → P a) →
  str_at m fname n → n < 4294967296 →
  (∀ a, region dentry 44 a → P a) → (dentry + 44 ≤ fs_base fs ∨ fs_end fs ≤ dentry) →
  match (if decide (n ≤ 32) then lookup_name (im_dents im) (bytes m fname n) else None) with
  | None => read_dentry_by_name m fs fname dentry = Some (m, -1)
  | Some i => ∃ m', read_dentry_by_name m fs fname dentry = Some (m', 0) ∧
                    dentry_holds m' dentry (im_dents im).[i] ∧ only_dentry P m m' dentry
  end.
Proof. intros. by apply read_dentry_by_name_lookup. Qed.

(** (a name is found, or shadowed). Suppose entry [i] is the first one
    whose name starts with the given string [s] of at most 32 bytes.  If that
    name is [s], the lookup returns this entry.  If the name is longer than
    [s], the lookup returns -1 at once, even when a later entry is named [s]
    exactly. *)
Theorem read_dentry_by_name_first P m fs im fname n dentry (i : nat) e :
  safe m P → fs_rep m fs im → (∀ a, fs_base fs ≤ a < fs_end fs → P a) →
  str_at m fname n → n ≤ 32 →
  (∀ a, region dentry 44 a → P a) → (dentry + 44 ≤ fs_base fs ∨ fs_end fs ≤ dentry) →
  let s := bytes m fname n in
  im_dents im !! i = Some e → take (length s) (d_name e) = s →
  (∀ k e', (k < i)%nat → im_dents im !! k = Some e' → take (length s) (d_name e') ≠ s) →
  if decide (d_name e = s) then
    ∃ m', read_dentry_by_name m fs fname dentry = Some (m', 0) ∧ dentry_holds m' dentry e
  else read_dentry_by_name m fs fname dentry = Some (m, -1).
Proof.
  intros Hs Hrep HP Hstr Hn HPd Hdis s Hi Ht Hbefore.
  pose proof (read_dentry_by_name_lookup P m fs im Hs Hrep HP fname n dentry Hstr
                ltac:(lia) HPd Hdis) as Hl.
  rewrite decide_True in Hl by done. fold s in Hl. case_decide as Hnm.
  - rewrite (lookup_name_complete _ _ i e) in Hl by done.
    destruct Hl as (m' & E & Hh & _). exists m'. split; [done|].
    by rewrite (aget_lookup (im_dents im) (Z.of_nat i) e) in Hh by (lia || by rewrite Nat2Z.id).
  - rewrite (lookup_name_shadowed _ _ i e) in Hl; done.
Qed.
End FileProperties.

(** ** Witnesses *)

(** Reading 10 bytes of the second file at 4090 crosses its two blocks. *)
Lemma read_data_slice_witness :
  ∃ m' k, read_data demo_mem demo_fs 1 4090 65536 10 = Some (m', k) ∧
    k = Z.of_nat (length (slice demo_long 4090 10)) ∧
    bytes m' 65536 k = slice demo_long 4090 10 ∧
    only_buf (λ _, True) demo_mem m' 65536 k ∧ fs_rep m' demo_fs demo_image.
Proof.
  apply (read_data_slice (λ _, True) demo_mem demo_fs demo_image 65536 10 1 4090);
    [apply demo_ready; lia|lia|lia].
Defined.

Definition demo_fp : file := mk_file file_ops 1 0 1 2.

Lemma file_read_whole_witness :
  while (cat_loop demo_fs 65536 1024) (demo_mem, demo_fp, []) = Some (Some demo_long).
Proof.
  apply (file_read_whole (λ _, True) demo_mem demo_fs demo_image 65536 1024 demo_fp);
    [apply demo_ready; lia|lia|vm_compute; by split|done].
Defined.

Lemma file_read_error_rewinds_witness :
  file_read demo_mem demo_fs (mk_file file_ops 7 100 1 2) 65536 10 =
  Some (demo_mem, mk_file file_ops 7 99 1 2, -1).
Proof.
  apply (file_read_error_rewinds demo_mem demo_fs (mk_file file_ops 7 100 1 2));
    [vm_compute; congruence|simpl; lia].
Defined.

Lemma dir_read_lists_witness :
  while (ls_loop demo_fs 65536 32) (demo_mem, (dir_open (mk_file dir_ops 0 0 1 2)).1, []) =
  Some (Some [nm_dot; nm_frame0_txt; nm_frame0]).
Proof.
  apply (dir_read_lists (λ _, True) demo_mem demo_fs demo_image 65536 32);
    [apply demo_ready; lia|lia|].
  intros i Hi. change (num_entries demo_image) with 3 in Hi.
  assert (i = 0 ∨ i = 1 ∨ i = 2) as [->|[->| ->]] by lia; done.
Defined.

Lemma demo_str_frame0 : str_at demo_mem 100 6.
Proof.
  split_and!; [lia| |vm_compute; reflexivity].
  intros i Hi E.
  assert (forallb (λ i, negb (rd demo_mem (100 + i) =? 0)) (seqZ 0 6) = true)
    as H by (vm_compute; reflexivity).
  pose proof (forall_seqZ_true _ _ H i Hi) as Hi'. cbv beta in Hi'. rewrite E in Hi'. done.
Qed.

Lemma demo_str_frame0_txt : str_at demo_mem 200 10.
Proof.
  split_and!; [lia| |vm_compute; reflexivity].
  intros i Hi E.
  assert (forallb (λ i, negb (rd demo_mem (200 + i) =? 0)) (seqZ 0 10) = true)
    as H by (vm_compute; reflexivity).
  pose proof (forall_seqZ_true _ _ H i Hi) as Hi'. cbv beta in Hi'. rewrite E in Hi'. done.
Qed.

Lemma read_dentry_by_name_refines_witness :
  ∃ m', read_dentry_by_name demo_mem demo_fs 200 65536 = Some (m', 0) ∧
        dentry_holds m' 65536 (mk_dent nm_frame0_txt 2 0) ∧
        only_dentry (λ _, True) demo_mem m' 65536.
Proof.
  pose proof (read_dentry_by_name_refines (λ _, True) demo_mem demo_fs demo_image 200 10 65536
    (flat_safe _ _) demo_rep (λ _ _, I) demo_str_frame0_txt ltac:(lia) (λ _ _, I)
    ltac:(simpl; lia)) as H.
  assert ((if decide (10 ≤ 32) then lookup_name (im_dents demo_image) (bytes demo_mem 200 10)
           else None) = Some 1) as E by (vm_compute; reflexivity).
  rewrite E in H. exact H.
Defined.

(** "frame0" is in the directory, but "frame0.txt" comes first. *)
Lemma read_dentry_by_name_first_witness :
  im_dents demo_image !! 2%nat = Some (mk_dent nm_frame0 2 1) ∧
  bytes demo_mem 100 6 = nm_frame0 ∧
  read_dentry_by_name demo_mem demo_fs 100 65536 = Some (demo_mem, -1).
Proof.
  split; [done|]. split; [vm_compute; reflexivity|].
  assert (bytes demo_mem 100 6 = nm_frame0) as E by (vm_compute; reflexivity).
  pose proof (read_dentry_by_name_first (λ _, True) demo_mem demo_fs demo_image 100 6 65536
    1 (mk_dent nm_frame0_txt 2 0) (flat_safe _ _) demo_rep (λ _ _, I) demo_str_frame0
    ltac:(lia) (λ _ _, I) ltac:(simpl; lia)) as H.
  cbv zeta in H. rewrite E in H. rewrite decide_False in H by done. apply H; [done|done|].
  intros k e' Hk He'. assert (k = 0%nat) as -> by lia. injection He' as <-. done.
Defined.

(** The same by running the code. *)
Example demo_frame0_shadowed :
  snd <$> read_dentry_by_name demo_mem demo_fs 100 65536 = Some (-1).
Proof. vm_compute. reflexivity. Qed.

Example demo_frame0_txt_found :
  (λ '(m, r), (r, dentry_type m 65536, dentry_inode m 65536, bytes m 65536 11)) <$>
    read_dentry_by_name demo_mem demo_fs 200 65536 = Some (0, 2, 0, nm_frame0_txt ++ [0]).
Proof. vm_compute. reflexivity. Qed.
