(* ===== verification/Ports.v ===== *)
(** * I/O ports

    The [inb] and [outb] of student-distrib/lib.h act on devices the kernel
    does not contain; [PortIO] is the interface the drivers are written
    against.  [TraceDev] records every byte written, in order, and answers
    reads with 0. *)

From S2P Require Import Prelude.
#[local] Open Scope Z_scope.

Class PortIO (D : Type) := {
  inb : D → Z → Z * D;
  outb : D → Z → Z → D;      (* device, data, port *)
  inb_range : ∀ d p, 0 ≤ (inb d p).1 < 256
}.

(** [%b1] in the inline assembly: the low byte of the operand is written. *)
Definition trace_out (d : list (Z * Z)) (data port : Z) : list (Z * Z) :=
  d ++ [(port, u8 data)].

#[export] Instance TraceDev : PortIO (list (Z * Z)).
Proof.
  refine {| inb d p := (0, d); outb := trace_out |}. simpl. lia.
Defined.
