(* ===== verification/I8259.v ===== *)
(** * The 8259 interrupt controllers (student-distrib/i8259.c)

    The driver keeps a copy of the two interrupt masks and writes it to the
    data ports whenever it changes. *)

From S2P Require Import Prelude Ports.
#[local] Open Scope Z_scope.

Definition MASTER_8259_COMMAND : Z := 0x20.
Definition MASTER_8259_DATA : Z := 0x21.
Definition SLAVE_8259_COMMAND : Z := 0xA0.
Definition SLAVE_8259_DATA : Z := 0xA1.
Definition ICW1 : Z := 0x11.
Definition ICW2_MASTER : Z := 0x20.
Definition ICW2_SLAVE : Z := 0x28.
Definition ICW3_MASTER : Z := 0x04.
Definition ICW3_SLAVE : Z := 0x02.
Definition ICW4 : Z := 0x01.
Definition BASE_MASK : Z := 0xff.
Definition PIC_SIZE : Z := 8.
Definition SLAVE_IRQ : Z := 2.
Definition EOI : Z := 0x60.

#[projections(primitive)] Record pic := mk_pic { master_mask : Z; slave_mask : Z }.
#[export] Instance set_master_mask : Setter master_mask. Proof. mk_setter. Defined.
#[export] Instance set_slave_mask : Setter slave_mask. Proof. mk_setter. Defined.

Section I8259.
Context {D : Type} `{!PortIO D}.
Implicit Types (p : pic) (d : D).

Definition i8259_init p d : pic * D :=
  let p := p <| master_mask := BASE_MASK |> in
  let p := p <| slave_mask := BASE_MASK |> in
  let d := outb d (master_mask p) MASTER_8259_DATA in
  let d := outb d (slave_mask p) SLAVE_8259_DATA in
  let d := outb d ICW1 MASTER_8259_COMMAND in
  let d := outb d ICW2_MASTER MASTER_8259_DATA in
  let d := outb d ICW3_MASTER MASTER_8259_DATA in
  let d := outb d ICW4 MASTER_8259_DATA in
  let d := outb d ICW1 SLAVE_8259_COMMAND in
  let d := outb d ICW2_SLAVE SLAVE_8259_DATA in
  let d := outb d ICW3_SLAVE SLAVE_8259_DATA in
  let d := outb d ICW4 SLAVE_8259_DATA in
  (p, d).

Definition enable_irq p d (irq_num : Z) : pic * D :=
  if irq_num <? PIC_SIZE then
    let p := p <| master_mask :=
                    u8 (Z.land (master_mask p) (Z.lnot (Z.shiftl 1 irq_num))) |> in
    (p, outb d (master_mask p) MASTER_8259_DATA)
  else
    let p := p <| slave_mask :=
                    u8 (Z.land (slave_mask p) (Z.lnot (Z.shiftl 1 (irq_num - PIC_SIZE)))) |> in
    (p, outb d (slave_mask p) SLAVE_8259_DATA).

Definition disable_irq p d (irq_num : Z) : pic * D :=
  if irq_num <? PIC_SIZE then
    let p := p <| master_mask := u8 (Z.lor (master_mask p) (Z.shiftl 1 irq_num)) |> in
    (p, outb d (master_mask p) MASTER_8259_DATA)
  else
    let p := p <| slave_mask :=
                    u8 (Z.lor (slave_mask p) (Z.shiftl 1 (irq_num - PIC_SIZE))) |> in
    (p, outb d (slave_mask p) SLAVE_8259_DATA).

Definition send_eoi d (irq_num : Z) : D :=
  if irq_num >=? PIC_SIZE then
    let d := outb d (Z.lor EOI SLAVE_IRQ) MASTER_8259_COMMAND in
    outb d (Z.lor EOI (irq_num - PIC_SIZE)) SLAVE_8259_COMMAND
  else outb d (Z.lor EOI irq_num) MASTER_8259_COMMAND.

End I8259.

(** ** Which lines are masked *)

Definition masked (p : pic) (irq : Z) : bool :=
  if irq <? PIC_SIZE then Z.testbit (master_mask p) irq
  else Z.testbit (slave_mask p) (irq - PIC_SIZE).

(** Both masks are bytes. *)
Definition pic_ok (p : pic) : Prop :=
  0 ≤ master_mask p < 256 ∧ 0 ≤ slave_mask p < 256.

(** The change to the mask of one controller. *)
Lemma testbit_u8 x j : 0 ≤ j < 8 → Z.testbit (u8 x) j = Z.testbit x j.
Proof.
  intros Hj. unfold u8. change 256 with (2 ^ 8). by rewrite Z.mod_pow2_bits_low by lia.
Qed.

Lemma mask_clear x i j :
  0 ≤ i < 8 → 0 ≤ j < 8 →
  Z.testbit (u8 (Z.land x (Z.lnot (Z.shiftl 1 i)))) j =
  if decide (j = i) then false else Z.testbit x j.
Proof.
  intros Hi Hj. rewrite testbit_u8, Z.land_spec, Z.lnot_spec, Z.shiftl_1_l by lia.
  case_decide; subst.
  - rewrite Z.pow2_bits_true by lia. by rewrite andb_false_r.
  - rewrite Z.pow2_bits_false by lia. by rewrite andb_true_r.
Qed.

Lemma mask_set x i j :
  0 ≤ i < 8 → 0 ≤ j < 8 →
  Z.testbit (u8 (Z.lor x (Z.shiftl 1 i))) j = if decide (j = i) then true else Z.testbit x j.
Proof.
  intros Hi Hj. rewrite testbit_u8, Z.lor_spec, Z.shiftl_1_l by lia.
  case_decide; subst.
  - rewrite Z.pow2_bits_true by lia. by rewrite orb_true_r.
  - rewrite Z.pow2_bits_false by lia. by rewrite orb_false_r.
Qed.

(** ** Properties *)

Section PicProperties.
Context {D : Type} `{!PortIO D}.

(** (interrupt masks). For every line 0..15, [enable_irq] unmasks exactly
    that line and [disable_irq] masks exactly that line: all other lines of
    both controllers keep their state, the masks stay bytes, and the byte
    written to the controller's data port is the new mask. *)
Theorem irq_mask_exact (p : pic) (d : D) irq j :
  pic_ok p → 0 ≤ irq < 16 → 0 ≤ j < 16 →
  let (p1, d1) := enable_irq p d irq in
  let (p2, d2) := disable_irq p d irq in
  masked p1 j = (if decide (j = irq) then false else masked p j) ∧
  masked p2 j = (if decide (j = irq) then true else masked p j) ∧
  pic_ok p1 ∧ pic_ok p2 ∧
  d1 = (if irq <? 8 then outb d (master_mask p1) MASTER_8259_DATA
        else outb d (slave_mask p1) SLAVE_8259_DATA) ∧
  d2 = (if irq <? 8 then outb d (master_mask p2) MASTER_8259_DATA
        else outb d (slave_mask p2) SLAVE_8259_DATA).
Proof.
  intros [Hm Hs] Hirq Hj. unfold enable_irq, disable_irq, PIC_SIZE.
  destruct (Z.ltb_spec irq 8); unfold masked, PIC_SIZE; simpl.
  - assert (∀ x, pic_ok (mk_pic (u8 x) (slave_mask p))) as Hok by (split; [apply u8_range|done]).
    split_and!; try done; try apply Hok.
    + destruct (Z.ltb_spec j 8); [rewrite mask_clear by lia|]; repeat case_decide; done || lia.
    + destruct (Z.ltb_spec j 8); [rewrite mask_set by lia|]; repeat case_decide; done || lia.
  - assert (∀ x, pic_ok (mk_pic (master_mask p) (u8 x))) as Hok by (split; [done|apply u8_range]).
    split_and!; try done; try apply Hok.
    + destruct (Z.ltb_spec j 8); [|rewrite mask_clear by lia]; repeat case_decide; done || lia.
    + destruct (Z.ltb_spec j 8); [|rewrite mask_set by lia]; repeat case_decide; done || lia.
Qed.
End PicProperties.

Lemma irq_mask_exact_witness :
  masked (enable_irq (mk_pic 255 255) [] 8).1 8 = false ∧
  masked (enable_irq (mk_pic 255 255) [] 8).1 2 = true.
Proof.
  pose proof (irq_mask_exact (mk_pic 255 255) ([] : list (Z * Z)) 8 8) as H1.
  pose proof (irq_mask_exact (mk_pic 255 255) ([] : list (Z * Z)) 8 2) as H2.
  cbv beta iota zeta in H1, H2. split.
  - apply H1; [by split|lia|lia].
  - apply H2; [by split|lia|lia].
Defined.

(** (end of interrupt). The acknowledgement is the specific EOI of the
    line: for a line of the master, one byte [0x60 + irq] to the master; for a
    line of the slave, first [0x62] (the cascade line 2) to the master, then
    [0x60 + (irq - 8)] to the slave. *)
Theorem send_eoi_bytes (d : list (Z * Z)) irq :
  0 ≤ irq < 16 →
  send_eoi d irq =
  if irq <? 8 then d ++ [(MASTER_8259_COMMAND, 0x60 + irq)]
  else d ++ [(MASTER_8259_COMMAND, 0x62); (SLAVE_8259_COMMAND, 0x60 + (irq - 8))].
Proof.
  intros Hirq. unfold send_eoi. rewrite Z.geb_leb. unfold PIC_SIZE.
  assert (∀ i, 0 ≤ i < 8 → u8 (Z.lor EOI i) = 0x60 + i) as Hlor.
  { intros i Hi. unfold EOI.
    assert (i = 0 ∨ i = 1 ∨ i = 2 ∨ i = 3 ∨ i = 4 ∨ i = 5 ∨ i = 6 ∨ i = 7)
      as [->|[->|[->|[->|[->|[->|[->| ->]]]]]]] by lia; reflexivity. }
  destruct (Z.ltb_spec irq 8), (Z.leb_spec 8 irq); try lia; simpl; unfold trace_out.
  - by rewrite Hlor by lia.
  - rewrite <- app_assoc. simpl. rewrite (Hlor (irq - 8)) by lia. done.
Qed.

Lemma send_eoi_bytes_witness :
  send_eoi [] 8 = [(0x20, 0x62); (0xA0, 0x60)].
Proof. apply (send_eoi_bytes [] 8). lia. Defined.

(** The initialisation: both masks closed, then the four command words of each
    controller with vectors 0x20 and 0x28. *)
Example i8259_init_bytes p :
  i8259_init p [] =
  (mk_pic 255 255,
   [(0x21, 0xff); (0xA1, 0xff); (0x20, 0x11); (0x21, 0x20); (0x21, 0x04); (0x21, 0x01);
    (0xA0, 0x11); (0xA1, 0x28); (0xA1, 0x02); (0xA1, 0x01)]).
Proof. reflexivity. Qed.
