(* ===== verification/RTC.v ===== *)
(** * The real-time clock driver (student-distrib/RTC.c)

    The CMOS chip behind ports 0x70 and 0x71 is not part of the sources:
    [CmosRtc] states what the driver relies on (selecting a register, reading
    it, writing its low seven bits), and [CmosDev] is a device with these
    laws.  [RTC_read] blocks until the handler sets the flag of its terminal,
    so it runs against the sequence of interrupts the processor takes while
    it spins. *)

From S2P Require Import Prelude Ports Memory Types I8259.
#[local] Open Scope Z_scope.

Definition REGISTER_A : Z := 0x8A.
Definition REGISTER_B : Z := 0x8B.
Definition REGISTER_C : Z := 0x8C.
Definition NMI : Z := 0x70.
Definition CMOS : Z := 0x71.
Definition MASKBIT6 : Z := 0x40.
Definition RATEMASK : Z := 0xF0.
Definition IRQ_NUM : Z := 8.
Definition BYTE4 : Z := 4.
Definition RTC_DEFAULT_RATE : Z := 0x0F.

Section RTC.
Context {D : Type} `{!PortIO D}.
Implicit Types (p : pic) (d : D).

(** Select a register, read it, select it again, write it back changed. *)
Definition cmos_update d (reg : Z) (f : Z → Z) : D :=
  let d := outb d reg NMI in
  let (v, d) := inb d CMOS in
  let val := s8 v in
  let d := outb d reg NMI in
  outb d (f val) CMOS.

Definition RTC_init p d : pic * D :=
  let rate := RTC_DEFAULT_RATE in
  let d := cmos_update d REGISTER_B (λ val, Z.lor val MASKBIT6) in
  let d := cmos_update d REGISTER_A (λ val, Z.lor (Z.land val RATEMASK) rate) in
  enable_irq p d IRQ_NUM.

(** The flags [rtc_interrupt_occured], one per terminal. *)
Definition rtc_irq_handler (rtc_interrupt_occured : list Z) d : list Z * D :=
  let d := outb d REGISTER_C NMI in
  let (_, d) := inb d CMOS in
  let fl := for_loop 3 0 (λ i fl, fl.[i <- 1]) rtc_interrupt_occured in
  (fl, send_eoi d IRQ_NUM).

Definition RTC_open p d (fp : file) : pic * D * Z := (RTC_init p d, 0).

(** The rate for a frequency; [rate0] is the indeterminate value of the local
    variable when no branch assigns it. *)
Definition rate_of (fq rate0 : Z) : Z :=
  if fq =? 1024 then 0x06
  else if fq =? 512 then 0x07
  else if fq =? 256 then 0x08
  else if fq =? 128 then 0x09
  else if fq =? 64 then 0x0A
  else if fq =? 32 then 0x0B
  else if fq =? 16 then 0x0C
  else if fq =? 8 then 0x0D
  else if fq =? 4 then 0x0E
  else if fq =? 2 then RTC_DEFAULT_RATE
  else rate0.

Definition RTC_write {M} `{!ByteMem M} (m : M) d (buff nbytes rate0 : Z) : D * Z :=
  if nbytes =? BYTE4 then
    let fq := s32 (load32 m buff) in
    let rate := rate_of fq rate0 in
    (cmos_update d REGISTER_A (λ val, Z.lor (Z.land val RATEMASK) rate), 0)
  else (d, -1).

Definition RTC_close (fp : file) : Z := 0.
End RTC.

(** ** Waiting for a tick

    What happens while the processor spins in [RTC_read]: an RTC interrupt
    runs [rtc_irq_handler], any other interrupt leaves the flags and the chip
    alone. *)

Inductive rtc_event := EvRTC | EvOther.

Section Wait.
Context {D : Type} `{!PortIO D}.
Implicit Types (d : D).

Definition rtc_take (e : rtc_event) (flags : list Z) d : list Z * D :=
  match e with
  | EvRTC => rtc_irq_handler flags d
  | EvOther => (flags, d)
  end.

(** [while (rtc_interrupt_occured[term] == 0);] against the events to come:
    [None] if they run out, otherwise the flags, the device and the remaining
    events. *)
Fixpoint RTC_wait (flags : list Z) d (term : Z) (evs : list rtc_event)
    : option (list Z * D * list rtc_event) :=
  if flags.[term] =? 0 then
    match evs with
    | [] => None
    | e :: evs => let (flags, d) := rtc_take e flags d in RTC_wait flags d term evs
    end
  else Some (flags, d, evs).

Definition RTC_read (flags : list Z) d (term : Z) (evs : list rtc_event)
    : option (list Z * D * list rtc_event * Z) :=
  (λ r, (r, 0)) <$> RTC_wait (flags.[term <- 0]) d term evs.
End Wait.

(** ** The chip *)

Class CmosRtc (D : Type) `{!PortIO D} := {
  cmos_index : D → Z;
  cmos_reg : D → Z → Z;
  cmos_index_out : ∀ d v, cmos_index (outb d v NMI) = Z.land v 0x7F;
  cmos_reg_select : ∀ d v r, cmos_reg (outb d v NMI) r = cmos_reg d r;
  cmos_in : ∀ d, (inb d CMOS).1 = cmos_reg d (cmos_index d);
  cmos_reg_in : ∀ d r, r ≠ 0x0C → cmos_reg (inb d CMOS).2 r = cmos_reg d r;
  cmos_out_bits : ∀ d v k, 0 ≤ k < 7 →
    Z.testbit (cmos_reg (outb d v CMOS) (cmos_index d)) k = Z.testbit v k;
  cmos_out_other : ∀ d v r, r ≠ cmos_index d → cmos_reg (outb d v CMOS) r = cmos_reg d r
}.

Record cmos_chip := mk_cmos { ch_index : Z; ch_regs : gmap Z Z }.

Definition chip_reg (c : cmos_chip) (r : Z) : Z := u8 (default 0 (ch_regs c !! r)).

#[export] Instance CmosPorts : PortIO cmos_chip.
Proof.
  refine {|
    inb c p := if p =? CMOS then (chip_reg c (ch_index c), c) else (0, c);
    outb c v p :=
      if p =? NMI then mk_cmos (Z.land v 0x7F) (ch_regs c)
      else if p =? CMOS then mk_cmos (ch_index c) (<[ch_index c := v]> (ch_regs c))
      else c
  |}.
  intros c p. destruct (p =? CMOS); [apply u8_range|simpl; lia].
Defined.

#[export] Instance CmosDev : CmosRtc cmos_chip.
Proof.
  refine {| cmos_index := ch_index; cmos_reg := chip_reg |}; try done.
  - intros c v k Hk. unfold chip_reg. simpl. rewrite lookup_insert_eq. simpl.
    apply testbit_u8. lia.
  - intros c v r Hr. unfold chip_reg. simpl. by rewrite lookup_insert_ne.
Defined.

Section RtcProofs.
Context {D : Type} `{!PortIO D, !CmosRtc D}.
Implicit Types (d : D).

Lemma testbit_s8 x k : 0 ≤ x < 256 → 0 ≤ k < 8 → Z.testbit (s8 x) k = Z.testbit x k.
Proof.
  intros Hx Hk. rewrite <- (testbit_u8 (s8 x)) by lia.
  replace (u8 (s8 x)) with x; [done|]. mlia.
Qed.

(** The bits of register [reg] after [cmos_update]. *)
Lemma cmos_update_bits d reg f k :
  0 ≤ k < 7 → Z.land reg 0x7F ≠ 0x0C →
  Z.testbit (cmos_reg (cmos_update d reg f) (Z.land reg 0x7F)) k =
  Z.testbit (f (s8 (cmos_reg d (Z.land reg 0x7F)))) k.
Proof.
  intros Hk Hc. unfold cmos_update.
  destruct (inb (outb d reg NMI) CMOS) as [v d1] eqn:E.
  pose proof (cmos_in (outb d reg NMI)) as Hv. rewrite E in Hv. simpl in Hv.
  rewrite cmos_index_out, cmos_reg_select in Hv. subst v.
  set (v := f _). pose proof (cmos_out_bits (outb d1 reg NMI) v k Hk) as H.
  by rewrite cmos_index_out in H.
Qed.

Lemma cmos_update_other d reg f r :
  r ≠ Z.land reg 0x7F → r ≠ 0x0C → cmos_reg (cmos_update d reg f) r = cmos_reg d r.
Proof.
  intros Hr Hc. unfold cmos_update.
  destruct (inb (outb d reg NMI) CMOS) as [v d1] eqn:E.
  rewrite cmos_out_other by by rewrite cmos_index_out.
  rewrite cmos_reg_select. change d1 with (v, d1).2. rewrite <- E.
  by rewrite cmos_reg_in, cmos_reg_select.
Qed.

(** Setting the rate: bits 0-3 are the rate's, bits 4-6 are kept. *)
Lemma rate_bits x rate k :
  0 ≤ x < 256 → 0 ≤ rate < 16 → 0 ≤ k < 7 →
  Z.testbit (Z.lor (Z.land (s8 x) RATEMASK) rate) k =
  if k <? 4 then Z.testbit rate k else Z.testbit x k.
Proof.
  intros Hx Hr Hk.
  assert (forallb (λ x, forallb (λ rate, forallb (λ k,
    Bool.eqb (Z.testbit (Z.lor (Z.land (s8 x) RATEMASK) rate) k)
             (if k <? 4 then Z.testbit rate k else Z.testbit x k))
    (seqZ 0 7)) (seqZ 0 16)) (seqZ 0 256) = true) as Hall by (vm_compute; reflexivity).
  pose proof (forall_seqZ_true _ _ Hall x Hx) as Hall1.
  pose proof (forall_seqZ_true _ _ Hall1 rate Hr) as Hall2.
  apply eqb_prop, (forall_seqZ_true _ _ Hall2 k Hk).
Qed.

(** The low four bits and the three bits above them, as numbers. *)
Lemma low_bits x y n :
  0 ≤ n → (∀ k, 0 ≤ k < n → Z.testbit x k = Z.testbit y k) → x mod 2 ^ n = y mod 2 ^ n.
Proof.
  intros Hn H. apply Z.bits_inj'. intros k Hk.
  destruct (decide (k < n)).
  - rewrite !Z.mod_pow2_bits_low by lia. apply H. lia.
  - by rewrite !Z.mod_pow2_bits_high by lia.
Qed.
End RtcProofs.

Section RtcRate.
Context {D : Type} `{!PortIO D, !CmosRtc D} {M : Type} `{!ByteMem M}.
Implicit Types (d : D) (m : M).

Lemma cmos_regA_range d : 0 ≤ cmos_reg d 0x0A < 256.
Proof.
  rewrite <- (cmos_reg_select d REGISTER_A 0x0A).
  change 0x0A with (Z.land REGISTER_A 0x7F) at 1 2.
  rewrite <- (cmos_index_out d REGISTER_A) at 1 2. rewrite <- cmos_in. apply inb_range.
Qed.

Lemma rate_written d rate :
  0 ≤ rate < 16 →
  let d' := cmos_update d REGISTER_A (λ val, Z.lor (Z.land val RATEMASK) rate) in
  cmos_reg d' 0x0A mod 16 = rate ∧
  (∀ k, 4 ≤ k < 7 → Z.testbit (cmos_reg d' 0x0A) k = Z.testbit (cmos_reg d 0x0A) k) ∧
  (∀ r, r ≠ 0x0A → r ≠ 0x0C → cmos_reg d' r = cmos_reg d r).
Proof.
  intros Hr d'.
  assert (∀ k, 0 ≤ k < 7 → Z.testbit (cmos_reg d' 0x0A) k =
            if k <? 4 then Z.testbit rate k else Z.testbit (cmos_reg d 0x0A) k) as Hbits.
  { intros k Hk. unfold d'. pose proof (cmos_regA_range d).
    change 0x0A with (Z.land REGISTER_A 0x7F) at 1.
    rewrite cmos_update_bits by done. by rewrite rate_bits. }
  split_and!.
  - change 16 with (2 ^ 4). rewrite (low_bits _ rate 4) by (lia || (intros k Hk;
      rewrite Hbits by lia; destruct (Z.ltb_spec k 4); done || lia)).
    by rewrite Z.mod_small by lia.
  - intros k Hk. rewrite Hbits by lia. destruct (Z.ltb_spec k 4); [lia|done].
  - intros r Hr1 Hr2. unfold d'. by rewrite cmos_update_other.
Qed.

(** (setting the frequency). Writing a 4-byte power of two from 2 to 1024
    returns 0 and programs the chip so that its rate divider gives exactly
    that frequency, 32768 >> (rate - 1); the divider-control bits 4-6 of
    register A and all other registers keep their values.  Any other length
    is refused with -1 and the chip is not touched. *)
Theorem RTC_write_frequency m d buff rate0 k :
  s32 (load32 m buff) = 2 ^ k → 1 ≤ k ≤ 10 →
  let '(d', ret) := RTC_write m d buff 4 rate0 in
  ret = 0 ∧
  Z.shiftr 32768 (cmos_reg d' 0x0A mod 16 - 1) = 2 ^ k ∧
  (∀ b, 4 ≤ b < 7 → Z.testbit (cmos_reg d' 0x0A) b = Z.testbit (cmos_reg d 0x0A) b) ∧
  (∀ r, r ≠ 0x0A → r ≠ 0x0C → cmos_reg d' r = cmos_reg d r) ∧
  ∀ n, n ≠ 4 → RTC_write m d buff n rate0 = (d, -1).
Proof.
  intros Hf Hk. unfold RTC_write, BYTE4. simpl. rewrite Hf.
  set (rate := rate_of (2 ^ k) rate0).
  assert (rate = 16 - k) as Hrate.
  { unfold rate. assert (k = 1 ∨ k = 2 ∨ k = 3 ∨ k = 4 ∨ k = 5 ∨ k = 6 ∨ k = 7 ∨ k = 8 ∨
      k = 9 ∨ k = 10) as [->|[->|[->|[->|[->|[->|[->|[->|[->| ->]]]]]]]]] by lia;
      reflexivity. }
  destruct (rate_written d rate) as (H1 & H2 & H3); [lia|].
  split_and!; try done.
  - rewrite H1, Hrate, Z.shiftr_div_pow2 by lia.
    change 32768 with (2 ^ 15). rewrite <- Z.pow_sub_r by lia. f_equal. lia.
  - intros n Hn. by destruct (Z.eqb_spec n 4).
Qed.

(** (unchecked frequencies). For any other 4-byte value, [RTC_write] still
    returns 0 and programs whatever value its uninitialised [rate] variable
    held into the rate bits. *)
Theorem RTC_write_unchecked m d buff rate0 :
  let fq := s32 (load32 m buff) in
  (∀ k, 1 ≤ k ≤ 10 → fq ≠ 2 ^ k) → 0 ≤ rate0 < 16 →
  let '(d', ret) := RTC_write m d buff 4 rate0 in
  ret = 0 ∧ cmos_reg d' 0x0A mod 16 = rate0.
Proof.
  intros fq Hf Hr. unfold RTC_write, BYTE4. simpl. split; [done|].
  fold fq. replace (rate_of fq rate0) with rate0; [by apply rate_written|].
  unfold rate_of.
  pose proof (Hf 1 ltac:(lia)). pose proof (Hf 2 ltac:(lia)). pose proof (Hf 3 ltac:(lia)).
  pose proof (Hf 4 ltac:(lia)). pose proof (Hf 5 ltac:(lia)). pose proof (Hf 6 ltac:(lia)).
  pose proof (Hf 7 ltac:(lia)). pose proof (Hf 8 ltac:(lia)). pose proof (Hf 9 ltac:(lia)).
  pose proof (Hf 10 ltac:(lia)). simpl in *. bool_cases; done.
Qed.
End RtcRate.

Section Tick.
Context {D : Type} `{!PortIO D}.
Implicit Types (d : D).

(** An RTC interrupt: register C is selected and read, so that the chip can
    interrupt again, all three flags are set, the interrupt is acknowledged. *)
Lemma rtc_irq_sets flags d :
  length flags = 3%nat →
  rtc_irq_handler flags d = ([1; 1; 1], send_eoi (inb (outb d REGISTER_C NMI) CMOS).2 IRQ_NUM).
Proof.
  intros Hl. destruct flags as [|x [|y [|z [|]]]]; try done. unfold rtc_irq_handler.
  by destruct (inb _ _).
Qed.

Lemma RTC_tick flags d term n rest :
  length flags = 3%nat → 0 ≤ term < 3 →
  RTC_read flags d term (replicate n EvOther ++ EvRTC :: rest) =
    Some ([1; 1; 1], send_eoi (inb (outb d REGISTER_C NMI) CMOS).2 IRQ_NUM, rest, 0) ∧
  RTC_read flags d term (replicate n EvOther) = None.
Proof.
  intros Hlen Hterm. unfold RTC_read.
  set (fl := flags.[term <- 0]).
  assert (fl.[term] = 0) as Hz by (apply aget_aset_eq; lia).
  assert (length fl = 3%nat) as Hl by (unfold fl; by rewrite length_aset).
  clearbody fl. induction n as [|n IH]; cbn [replicate app RTC_wait]; rewrite Hz; cbn [Z.eqb rtc_take].
  - split; [|done]. rewrite (rtc_irq_sets fl d Hl).
    assert (term = 0 ∨ term = 1 ∨ term = 2) as [->|[->| ->]] by lia; destruct rest; done.
  - exact IH.
Qed.

(** C38 (RTC_read waits for the next tick). Whatever the flags held before,
    a read by a process of terminal [term] returns 0 after exactly the first
    RTC interrupt that follows the call: earlier other interrupts do not
    wake it, and without an RTC interrupt it does not return.  The handler has
    then set the flags of all three terminals, selected and read the chip's
    register C, and acknowledged interrupt 8. *)
Theorem RTC_read_next_tick flags d term n rest :
  length flags = 3%nat → 0 ≤ term < 3 →
  RTC_read flags d term (replicate n EvOther ++ EvRTC :: rest) =
    Some ([1; 1; 1], send_eoi (inb (outb d REGISTER_C NMI) CMOS).2 IRQ_NUM, rest, 0) ∧
  RTC_read flags d term (replicate n EvOther) = None.
Proof. apply RTC_tick. Qed.
End Tick.

Definition demo_chip : cmos_chip := mk_cmos 0 {[0x0A := 0x26]}.

Lemma RTC_write_frequency_witness :
  let '(d', ret) := RTC_write (flat_of 1000 [32; 0; 0; 0]) demo_chip 1000 4 0 in
  ret = 0 ∧ Z.shiftr 32768 (cmos_reg d' 0x0A mod 16 - 1) = 2 ^ 5 ∧
  (∀ b, 4 ≤ b < 7 → Z.testbit (cmos_reg d' 0x0A) b = Z.testbit (cmos_reg demo_chip 0x0A) b) ∧
  (∀ r, r ≠ 0x0A → r ≠ 0x0C → cmos_reg d' r = cmos_reg demo_chip r) ∧
  ∀ n, n ≠ 4 → RTC_write (flat_of 1000 [32; 0; 0; 0]) demo_chip 1000 n 0 = (demo_chip, -1).
Proof.
  apply (RTC_write_frequency (flat_of 1000 [32; 0; 0; 0]) demo_chip 1000 0 5);
    [vm_compute; reflexivity|lia].
Defined.

(** 3 Hz is not a frequency of the table: the chip ends up at rate 3 (8 kHz). *)
Lemma RTC_write_unchecked_witness :
  let '(d', ret) := RTC_write (flat_of 1000 [3; 0; 0; 0]) demo_chip 1000 4 3 in
  ret = 0 ∧ cmos_reg d' 0x0A mod 16 = 3.
Proof.
  apply (RTC_write_unchecked (flat_of 1000 [3; 0; 0; 0]) demo_chip 1000 3); [|lia].
  change (s32 (load32 (flat_of 1000 [3; 0; 0; 0]) 1000)) with 3. intros k Hk E.
  pose proof (Z.pow_le_mono_r 2 2 k). assert (k = 1 ∨ 2 ≤ k) as [->|] by lia; simpl in *; lia.
Defined.

Lemma RTC_read_next_tick_witness :
  RTC_read [1; 0; 0] demo_chip 1 [EvOther; EvOther; EvRTC; EvOther] =
    Some ([1; 1; 1], mk_cmos 0x0C (ch_regs demo_chip), [EvOther], 0) ∧
  RTC_read [1; 0; 0] demo_chip 1 [EvOther; EvOther] = None.
Proof. exact (RTC_read_next_tick [1; 0; 0] demo_chip 1 2 [EvOther] eq_refl ltac:(lia)). Defined.
