(* ===== verification/Paging.v ===== *)
(** * Paging (student-distrib/paging.c, paging.h)

    The page directories and tables of the kernel, the address translation of
    the processor on them, and the machine whose memory accesses go through
    that translation.

    The tables are kernel arrays the code only accesses by name, so they are
    kept as arrays, next to the byte memory; a directory entry points to a
    table by the physical address the linker gave the array ([Layout]).

    Translations are cached by the processor: a change of a table need not be
    seen before the next load of CR3.  The machine keeps the tables as the
    processor saw them at the last load ([tlb]) and translates with those, so
    the theorems hold only because the code reloads CR3 after each change. *)

From S2P Require Import Prelude Memory Types.
#[local] Open Scope Z_scope.

Definition USER_MEM_LOCATION : Z := 128 * 0x00100000.
Definition USER_PROG_LOCATION : Z := 128 * 0x00100000 + 0x048000.
Definition FLAG_PRESENT : Z := 0x01.
Definition FLAG_WRITE_ENABLE : Z := 0x02.
Definition FLAG_USER : Z := 0x04.
Definition FLAG_4MB_PAGE : Z := 0x80.
Definition FLAG_GLOBAL : Z := 0x100.
Definition TABLE_SIZE : nat := 1024.
Definition DIRECTORY_SIZE : nat := 1024.
Definition VIDEO : Z := 0xB8000.
Definition USER_VIDEO : Z := 0x08400000.
Definition ALIGNED_4KB : Z := 4096.
Definition _4KB : Z := 4096.
Definition PAGE_4MB : Z := 0x400000.

(** The four arrays of paging.h. *)
#[projections(primitive)] Record tables := mk_tables {
  kernel_page_directory : list Z;
  video_page_table : list Z;
  proc_page_directory : list (list Z);
  term_video_tables : list (list Z)
}.
#[export] Instance set_kernel_page_directory : Setter kernel_page_directory.
Proof. mk_setter. Defined.
#[export] Instance set_video_page_table : Setter video_page_table. Proof. mk_setter. Defined.
#[export] Instance set_proc_page_directory : Setter proc_page_directory.
Proof. mk_setter. Defined.
#[export] Instance set_term_video_tables : Setter term_video_tables. Proof. mk_setter. Defined.

(** [a[i][j] = v] *)
Definition aset2 (a : list (list Z)) (i j v : Z) : list (list Z) := a.[i <- a.[i].[j <- v]].

(** Where the linker put the arrays: page-aligned, inside the kernel's 4 MB
    page, without overlap. *)
Class Layout := {
  kpd_addr : Z;
  vpt_addr : Z;
  ppd_addr : Z;
  tvt_addr : Z;
  layout_aligned :
    kpd_addr mod 4096 = 0 ∧ vpt_addr mod 4096 = 0 ∧
    ppd_addr mod 4096 = 0 ∧ tvt_addr mod 4096 = 0;
  layout_kernel :
    0x400000 ≤ kpd_addr ≤ 0x800000 - 4096 ∧ 0x400000 ≤ vpt_addr ≤ 0x800000 - 4096 ∧
    0x400000 ≤ ppd_addr ≤ 0x800000 - 6 * 4096 ∧ 0x400000 ≤ tvt_addr ≤ 0x800000 - 3 * 4096;
  layout_disjoint :
    kpd_addr ≠ vpt_addr ∧
    (kpd_addr < ppd_addr ∨ ppd_addr + 6 * 4096 ≤ kpd_addr) ∧
    (kpd_addr < tvt_addr ∨ tvt_addr + 3 * 4096 ≤ kpd_addr) ∧
    (vpt_addr < ppd_addr ∨ ppd_addr + 6 * 4096 ≤ vpt_addr) ∧
    (vpt_addr < tvt_addr ∨ tvt_addr + 3 * 4096 ≤ vpt_addr) ∧
    (ppd_addr + 6 * 4096 ≤ tvt_addr ∨ tvt_addr + 3 * 4096 ≤ ppd_addr)
}.

Create Rewrite HintDb paging.

Section Paging.
Context {HL : Layout}.

(** ** The code *)

Definition init_kernel_pd (T : tables) : tables :=
  let T := for_loop DIRECTORY_SIZE 0 (λ i T,
    T <| kernel_page_directory :=
           (kernel_page_directory T).[i <- FLAG_WRITE_ENABLE] |>) T in
  let T := for_loop TABLE_SIZE 0 (λ i T,
    T <| video_page_table := (video_page_table T).[i <- FLAG_WRITE_ENABLE] |>) T in
  let T := for_loop 3 0 (λ i T,
    let T := T <| term_video_tables :=
      aset2 (term_video_tables T) i 0
        (Z.lor (Z.lor (Z.lor (VIDEO + _4KB * (i + 1)) FLAG_WRITE_ENABLE) FLAG_PRESENT)
               FLAG_USER) |> in
    T <| video_page_table :=
      (video_page_table T).[Z.shiftr VIDEO 12 + i + 1 <-
        Z.lor (Z.lor (VIDEO + _4KB * (i + 1)) FLAG_WRITE_ENABLE) FLAG_PRESENT] |>) T in
  let T := T <| term_video_tables :=
    aset2 (term_video_tables T) 0 0
      (Z.lor (Z.lor (Z.lor VIDEO FLAG_WRITE_ENABLE) FLAG_PRESENT) FLAG_USER) |> in
  let T := T <| video_page_table :=
    (video_page_table T).[Z.shiftr VIDEO 12 <-
      Z.lor (Z.lor (Z.lor VIDEO FLAG_USER) FLAG_WRITE_ENABLE) FLAG_PRESENT] |> in
  let T := T <| video_page_table :=
    (video_page_table T).[Z.shiftr VIDEO 12 + 1 <-
      Z.lor (Z.lor VIDEO FLAG_WRITE_ENABLE) FLAG_PRESENT] |> in
  let T := T <| kernel_page_directory :=
    (kernel_page_directory T).[0 <-
      Z.lor (Z.lor vpt_addr FLAG_WRITE_ENABLE) FLAG_PRESENT] |> in
  T <| kernel_page_directory :=
    (kernel_page_directory T).[1 <-
      Z.lor (Z.lor (Z.lor (Z.lor PAGE_4MB FLAG_4MB_PAGE) FLAG_WRITE_ENABLE) FLAG_PRESENT)
            FLAG_GLOBAL] |>.

Definition is_kernel_ptr (ptr : Z) : bool := ptr <? 0x00800000.

(** The addresses of [proc_page_directory[pid]] and [term_video_tables[t]]. *)
Definition pd_addr (pid : Z) : Z := ppd_addr + 4096 * pid.
Definition tv_addr (t : Z) : Z := tvt_addr + 4096 * t.

(** The page-directory entries [execute] writes for a new process. *)
Definition execute_paging (T : tables) (pid : Z) : tables :=
  let set i v T := T <| proc_page_directory := aset2 (proc_page_directory T) pid i v |> in
  let T := set 0 (Z.lor (Z.lor vpt_addr FLAG_WRITE_ENABLE) FLAG_PRESENT) T in
  let T := set 1 (Z.lor (Z.lor (Z.lor (Z.lor PAGE_4MB FLAG_4MB_PAGE) FLAG_WRITE_ENABLE)
                        FLAG_PRESENT) FLAG_GLOBAL) T in
  set (Z.shiftr USER_MEM_LOCATION 22)
      (Z.lor (Z.lor (Z.lor (Z.lor (0x00800000 + 0x00400000 * pid) FLAG_4MB_PAGE)
                    FLAG_WRITE_ENABLE) FLAG_PRESENT) FLAG_USER) T.

(** The entry [vidmap] writes: [&(term_video_tables[terminal_id][pid])] is
    the address of element [pid] of the table. *)
Definition vidmap_paging (T : tables) (pid terminal_id : Z) : tables :=
  T <| proc_page_directory :=
    aset2 (proc_page_directory T) pid (Z.shiftr USER_VIDEO 22)
      (Z.lor (Z.lor (Z.lor (tv_addr terminal_id + 4 * pid) FLAG_WRITE_ENABLE) FLAG_PRESENT)
             FLAG_USER) |>.

(** ** The processor's translation *)

(** The array at a physical page address. *)
Definition page_at (T : tables) (b : Z) : option (list Z) :=
  if b =? kpd_addr then Some (kernel_page_directory T)
  else if b =? vpt_addr then Some (video_page_table T)
  else if (ppd_addr <=? b) && (b <? ppd_addr + 6 * 4096)
       then Some (proc_page_directory T).[(b - ppd_addr) / 4096]
  else if (tvt_addr <=? b) && (b <? tvt_addr + 3 * 4096)
       then Some (term_video_tables T).[(b - tvt_addr) / 4096]
  else None.

(** The walk: the physical address behind [va] and whether user mode may
    use it; [None] is a page fault. *)
Definition walk (T : tables) (dir va : Z) : option (Z * bool) :=
  d ← page_at T (4096 * (dir / 4096));
  let pde := d.[va / 4194304] in
  if negb (Z.testbit pde 0) then None
  else if Z.testbit pde 7 then
    Some (4194304 * (pde / 4194304) + va mod 4194304, Z.testbit pde 2)
  else
    t ← page_at T (4096 * (pde / 4096));
    let pte := t.[(va / 4096) mod 1024] in
    if negb (Z.testbit pte 0) then None
    else Some (4096 * (pte / 4096) + va mod 4096, Z.testbit pde 2 && Z.testbit pte 2).

(** ** The machine *)

#[projections(primitive)] Record mach := mk_mach {
  phys : gmap Z Z;       (* physical memory *)
  tabs : tables;         (* the arrays *)
  tlb : tables;          (* the arrays at the last load of CR3 *)
  cr3 : Z;
  cr0_pg : bool
}.
#[export] Instance set_phys : Setter phys. Proof. mk_setter. Defined.
#[export] Instance set_tabs : Setter tabs. Proof. mk_setter. Defined.
#[export] Instance set_tlb : Setter tlb. Proof. mk_setter. Defined.
#[export] Instance set_cr3 : Setter cr3. Proof. mk_setter. Defined.
#[export] Instance set_cr0_pg : Setter cr0_pg. Proof. mk_setter. Defined.

(** [enablePaging] sets the PG bit of CR0; translation starts from scratch. *)
Definition enablePaging (m : mach) : mach :=
  m <| cr0_pg := true |> <| tlb := tabs m |>.

Definition loadPageDirectory (m : mach) (pd : Z) : mach :=
  m <| cr3 := pd |> <| tlb := tabs m |>.

Definition translate (m : mach) (a : Z) : option Z :=
  if cr0_pg m then fst <$> walk (tlb m) (cr3 m) (u32 a) else Some (u32 a).

(** What user mode reaches. *)
Definition user_translate (m : mach) (a : Z) : option Z :=
  match walk (tlb m) (cr3 m) (u32 a) with
  | Some (p, true) => Some p
  | _ => None
  end.

Definition mach_rd (m : mach) (a : Z) : Z :=
  match translate m a with Some p => u8 (default 0 (phys m !! p)) | None => 0 end.

Definition mach_wr (m : mach) (a v : Z) : mach :=
  match translate m a with
  | Some p => m <| phys := <[p := v]> (phys m) |>
  | None => m
  end.

(** Everything but the physical memory. *)
Definition mach_ctl (m : mach) : tables * tables * Z * bool := (tabs m, tlb m, cr3 m, cr0_pg m).

Lemma mach_ctl_wr m a v : mach_ctl (mach_wr m a v) = mach_ctl m.
Proof. unfold mach_wr. by destruct (translate m a). Qed.

Lemma translate_ctl m m' a : mach_ctl m' = mach_ctl m → translate m' a = translate m a.
Proof. intros [= _ E1 E2 E3]. unfold translate. by rewrite E1, E2, E3. Qed.

Lemma translate_wr m a v b : translate (mach_wr m a v) b = translate m b.
Proof. unfold mach_wr. by destruct (translate m a). Qed.

Lemma mach_rd_range m a : 0 ≤ mach_rd m a < 256.
Proof. unfold mach_rd. destruct (translate m a); [apply u8_range|lia]. Qed.

Lemma mach_rd_wr m a v b :
  mach_rd (mach_wr m a v) b =
  if decide (is_Some (translate m a) ∧ translate m a = translate m b) then u8 v
  else mach_rd m b.
Proof.
  unfold mach_rd. rewrite translate_wr. unfold mach_wr.
  destruct (translate m a) as [p|] eqn:Ea, (translate m b) as [q|] eqn:Eb; simpl; try done.
  - destruct (decide (p = q)) as [->|Hne].
    + rewrite lookup_insert_eq. rewrite decide_True by (split; [by eexists|done]). done.
    + rewrite lookup_insert_ne by done. rewrite decide_False; [done|]. intros [_ [=]]. done.
Qed.

#[export] Instance PagedMem : ByteMem mach := {
  Ctl := tables * tables * Z * bool;
  ctl := mach_ctl;
  cell := translate;
  rd := mach_rd;
  wr := mach_wr;
  cell_ctl := translate_ctl;
  ctl_wr := mach_ctl_wr;
  rd_range := mach_rd_range;
  rd_wr := mach_rd_wr
}.

(** ** Entries

    An entry is a page address plus flags in its low twelve bits. *)

Lemma land_aligned n a f : 0 ≤ n → a mod 2 ^ n = 0 → 0 ≤ f < 2 ^ n → Z.land a f = 0.
Proof.
  intros Hn Ha Hf. apply Z.bits_inj'. intros k Hk. rewrite Z.land_spec, Z.bits_0.
  destruct (decide (k < n)).
  - rewrite <- (Z.mod_pow2_bits_low a n k), Ha, Z.bits_0 by lia. done.
  - rewrite <- (Z.mod_small f (2 ^ n)), Z.mod_pow2_bits_high by lia.
    apply andb_false_r.
Qed.

Lemma lor_aligned n a f : 0 ≤ n → a mod 2 ^ n = 0 → 0 ≤ f < 2 ^ n → Z.lor a f = a + f.
Proof.
  intros. pose proof (Z.add_lor_land a f). rewrite (land_aligned n a f) in * by done. lia.
Qed.

Lemma entry_bit a f k :
  a mod 4096 = 0 → 0 ≤ f < 4096 → 0 ≤ k < 12 → Z.testbit (a + f) k = Z.testbit f k.
Proof.
  intros Ha Hf Hk. rewrite <- (Z.mod_pow2_bits_low (a + f) 12 k) by lia.
  f_equal. change (2 ^ 12) with 4096. mlia.
Qed.

Lemma entry_page a f : a mod 4096 = 0 → 0 ≤ f < 4096 → 4096 * ((a + f) / 4096) = a.
Proof. intros. mlia. Qed.

Lemma entry_4mb a f :
  a mod 4194304 = 0 → 0 ≤ f < 4194304 → 4194304 * ((a + f) / 4194304) = a.
Proof. intros. mlia. Qed.

(** ** Finding the tables *)

Ltac layout :=
  pose proof layout_aligned as (?Hla1 & ?Hla2 & ?Hla3 & ?Hla4);
  pose proof layout_kernel as (?Hlk1 & ?Hlk2 & ?Hlk3 & ?Hlk4);
  pose proof layout_disjoint as (?Hld1 & ?Hld2 & ?Hld3 & ?Hld4 & ?Hld5 & ?Hld6).

Lemma page_at_kpd T : page_at T kpd_addr = Some (kernel_page_directory T).
Proof. unfold page_at. by rewrite Z.eqb_refl. Qed.

Lemma page_at_vpt T : page_at T vpt_addr = Some (video_page_table T).
Proof. layout. unfold page_at. bool_cases; lia || done. Qed.

Lemma page_at_pd T pid :
  0 ≤ pid < 6 → page_at T (pd_addr pid) = Some (proc_page_directory T).[pid].
Proof.
  intros. layout. unfold page_at, pd_addr. bool_cases; try lia; simpl; do 2 f_equal; mlia.
Qed.

Lemma page_at_tv T t :
  0 ≤ t < 3 → page_at T (tv_addr t) = Some (term_video_tables T).[t].
Proof.
  intros. layout. unfold page_at, tv_addr. bool_cases; try lia; simpl; do 2 f_equal; mlia.
Qed.

(** ** The invariant of the tables

    [cur] is the terminal on the screen: its page is the video memory itself,
    the other terminals have a page of their own.  (In the middle of a switch
    no terminal is on the screen: [cur] is then -1.) *)

Definition term_page (cur t : Z) : Z := if t =? cur then VIDEO else VIDEO + 4096 * (t + 1).

Record video_ok (T : tables) (cur : Z) : Prop := {
  vo_len : length (video_page_table T) = 1024%nat;
  vo_video : (video_page_table T).[0xB8] = VIDEO + 7;
  vo_term : ∀ t, 0 ≤ t < 3 → (video_page_table T).[0xB9 + t] = term_page cur t + 3;
  vo_rest : ∀ i, 0 ≤ i < 0xB8 ∨ 0xBB < i < 1024 →
              Z.testbit (video_page_table T).[i] 0 = false;
  vo_tlen : length (term_video_tables T) = 3%nat;
  vo_tlens : ∀ t, 0 ≤ t < 3 → length (term_video_tables T).[t] = 1024%nat;
  vo_user : ∀ t, 0 ≤ t < 3 → (term_video_tables T).[t].[0] = term_page cur t + 7;
  vo_urest : ∀ t i, 0 ≤ t < 3 → 1 ≤ i < 1024 →
               Z.testbit (term_video_tables T).[t].[i] 0 = false
}.

(** The entry of the user video page: absent, or the table of terminal [t]. *)
Definition vid_entry (d : list Z) (vid : option Z) : Prop :=
  match vid with
  | Some t => 0 ≤ t < 3 ∧ ∃ f, 0 ≤ f < 4096 ∧ d.[33] = tv_addr t + f ∧
              Z.testbit f 0 = true ∧ Z.testbit f 2 = true ∧ Z.testbit f 7 = false
  | None => Z.testbit d.[33] 0 = false
  end.

Definition rest_absent (d : list Z) : Prop :=
  ∀ i, 2 ≤ i < 1024 → i ≠ 32 → i ≠ 33 → Z.testbit d.[i] 0 = false.

(** A directory: the kernel's two entries, the user page of process [pid] if
    there is one, the user video page of terminal [t] if there is one. *)
Record dir_ok (d : list Z) (user vid : option Z) : Prop := {
  do_low : d.[0] = vpt_addr + 3;
  do_kernel : d.[1] = PAGE_4MB + 0x183;
  do_user : match user with
            | Some pid => 0 ≤ pid < 6 ∧ d.[32] = 0x800000 + 0x400000 * pid + 0x87
            | None => Z.testbit d.[32] 0 = false
            end;
  do_vid : vid_entry d vid;
  do_rest : rest_absent d
}.

(** The address space such a directory gives. *)
Definition addr_space (user vid : option Z) (cur va : Z) : option (Z * bool) :=
  if va / 4096 =? 0xB8 then Some (va, false)
  else if (0xB9 <=? va / 4096) && (va / 4096 <=? 0xBB) then
    Some (term_page cur (va / 4096 - 0xB9) + va mod 4096, false)
  else if va / 4194304 =? 1 then Some (va, false)
  else if va / 4194304 =? 32 then
    (λ pid, (0x800000 + 0x400000 * pid + va mod 4194304, true)) <$> user
  else if va / 4096 =? USER_VIDEO / 4096 then
    (λ t, (term_page cur t + va mod 4096, true)) <$> vid
  else None.

Lemma term_page_aligned cur t : 0 ≤ t < 3 → term_page cur t mod 4096 = 0.
Proof. intros. unfold term_page, VIDEO. bool_cases; mlia. Qed.

(** A table of 4 KB pages. *)
Definition walk_table (t : list Z) (user : bool) (va : Z) : option (Z * bool) :=
  let pte := t.[(va / 4096) mod 1024] in
  if negb (Z.testbit pte 0) then None
  else Some (4096 * (pte / 4096) + va mod 4096, user && Z.testbit pte 2).

Lemma walk_table_page t u va p f :
  t.[(va / 4096) mod 1024] = p + f → p mod 4096 = 0 → 0 ≤ f < 4096 →
  Z.testbit f 0 = true →
  walk_table t u va = Some (p + va mod 4096, u && Z.testbit f 2).
Proof.
  intros Ht Hp Hf H0. unfold walk_table. rewrite Ht, !entry_bit by lia.
  rewrite H0. simpl. by rewrite entry_page by done.
Qed.

Lemma walk_table_none t u va :
  Z.testbit t.[(va / 4096) mod 1024] 0 = false → walk_table t u va = None.
Proof. intros H. unfold walk_table. by rewrite H. Qed.

(** One step of the walk, by the kind of the directory entry. *)
Section Walk.
Context (T : tables) (dir va : Z) (d : list Z).
Hypothesis Hd : page_at T (4096 * (dir / 4096)) = Some d.

Lemma walk_none : Z.testbit d.[va / 4194304] 0 = false → walk T dir va = None.
Proof. intros H. unfold walk. rewrite Hd. cbn [mbind option_bind]. by rewrite H. Qed.

Lemma walk_big p f :
  d.[va / 4194304] = p + f → p mod 4194304 = 0 → 0 ≤ f < 4096 →
  Z.testbit f 0 = true → Z.testbit f 7 = true →
  walk T dir va = Some (p + va mod 4194304, Z.testbit f 2).
Proof.
  intros He Hp Hf H0 H7. unfold walk. rewrite Hd. cbn [mbind option_bind].
  rewrite He, !entry_bit by mlia. rewrite H0, H7. simpl. by rewrite entry_4mb by lia.
Qed.

Lemma walk_small p f t :
  d.[va / 4194304] = p + f → p mod 4096 = 0 → 0 ≤ f < 4096 →
  Z.testbit f 0 = true → Z.testbit f 7 = false → page_at T p = Some t →
  walk T dir va = walk_table t (Z.testbit f 2) va.
Proof.
  intros He Hp Hf H0 H7 Ht. unfold walk. rewrite Hd. cbn [mbind option_bind].
  rewrite He, !entry_bit by lia. rewrite H0, H7. simpl. by rewrite entry_page, Ht by done.
Qed.
End Walk.

(** The page number splits into directory and table index. *)
Lemma page_split va :
  va / 4194304 = va / 4096 / 1024 ∧
  (va / 4096) mod 1024 = va / 4096 - 1024 * (va / 4194304) ∧
  0 ≤ va / 4096 - 1024 * (va / 4194304) < 1024.
Proof. mlia. Qed.

(** Below 4 MB: the video pages. *)
Lemma walk_low_pages T cur va user vid :
  video_ok T cur → 0 ≤ va < 4194304 →
  walk_table (video_page_table T) false va = addr_space user vid cur va.
Proof.
  intros HT Hva. unfold addr_space. change (USER_VIDEO / 4096) with 33792.
  destruct (page_split va) as (_ & E & _).
  assert (va / 4194304 = 0) as E0 by mlia. rewrite E0 in *. simpl in E.
  rewrite Z.sub_0_r in E. assert (0 ≤ va / 4096 < 1024) by mlia.
  bool_cases; simpl; try lia.
  1: { rewrite (walk_table_page _ _ _ VIDEO 7); [|by rewrite E, e, (vo_video T cur)|done..].
       do 2 f_equal. clear - e. unfold VIDEO. mlia. }
  1: { rewrite (walk_table_page _ _ _ (term_page cur (va / 4096 - 0xB9)) 3);
         [done| |apply term_page_aligned; lia|done..].
       rewrite E, <- (vo_term T cur) by (done || lia). f_equal. lia. }
  all: apply walk_table_none; rewrite E; apply (vo_rest T cur HT); lia.
Qed.

(** The user video page. *)
Lemma walk_user_video T cur t va user :
  video_ok T cur → 0 ≤ t < 3 → va / 4194304 = 33 →
  walk_table (term_video_tables T).[t] true va = addr_space user (Some t) cur va.
Proof.
  intros HT Ht E33. unfold addr_space. change (USER_VIDEO / 4096) with (1024 * 33).
  destruct (page_split va) as (_ & E & Hr). rewrite E33 in *.
  bool_cases; simpl; try lia.
  1: { assert ((va / 4096) mod 1024 = 0) as E' by lia.
       rewrite (walk_table_page _ _ _ (term_page cur t) 7);
         [done|by rewrite E', (vo_user T cur)|by apply term_page_aligned|done..]. }
  all: apply walk_table_none; rewrite E; apply (vo_urest T cur HT); lia.
Qed.

(** Elsewhere an address space only depends on the directory index. *)
Lemma addr_space_index user vid cur va i :
  va / 4194304 = i → i ≠ 0 → (vid = None ∨ i ≠ 33) →
  addr_space user vid cur va =
  if i =? 1 then Some (va, false)
  else if i =? 32 then (λ pid, (0x800000 + 0x400000 * pid + va mod 4194304, true)) <$> user
  else None.
Proof.
  intros E Hi Hv. unfold addr_space. rewrite E. change (USER_VIDEO / 4096) with (1024 * 33).
  destruct (page_split va) as (_ & _ & Hr). rewrite E in Hr.
  bool_cases; simpl; try lia; try done.
  destruct Hv as [->|]; [done|lia].
Qed.

(** The translation of a directory of the invariant is its address space. *)
Lemma walk_addr_space T dir d user vid cur va :
  video_ok T cur → dir_ok d user vid → page_at T (4096 * (dir / 4096)) = Some d →
  0 ≤ va < 4294967296 →
  walk T dir va = addr_space user vid cur va.
Proof.
  intros HT [H0 H1 H32 H33 Hrest] Hd Hva.
  assert (0 ≤ va / 4194304 < 1024) as Hr by mlia. layout.
  destruct (decide (va / 4194304 = 0)) as [E|N0].
  { rewrite (walk_small T dir va d Hd vpt_addr 3 (video_page_table T))
      by (rewrite ?E, ?page_at_vpt; done || lia).
    apply walk_low_pages; [done|]. clear - E. mlia. }
  destruct (decide (va / 4194304 = 33)) as [E|N33].
  { destruct vid as [t|].
    - destruct H33 as (Ht & f & Hf & He & Hb0 & Hb2 & Hb7).
      rewrite (walk_small T dir va d Hd (tv_addr t) f (term_video_tables T).[t]);
        rewrite ?E; try done.
      + rewrite Hb2. by apply walk_user_video.
      + unfold tv_addr. rewrite Z.add_mod, Hla4 by lia. clear. mlia.
      + by apply page_at_tv.
    - rewrite (walk_none T dir va d Hd) by by rewrite E.
      by rewrite (addr_space_index _ _ _ _ 33) by auto. }
  rewrite (addr_space_index _ _ _ _ _ eq_refl) by auto.
  destruct (Z.eqb_spec (va / 4194304) 1) as [E|N1].
  { rewrite (walk_big T dir va d Hd PAGE_4MB 0x183) by (rewrite ?E; done).
    do 2 f_equal. clear - E. unfold PAGE_4MB. mlia. }
  destruct (Z.eqb_spec (va / 4194304) 32) as [E|N32].
  { destruct user as [pid|].
    - destruct H32 as [Hpid He].
      rewrite (walk_big T dir va d Hd (0x800000 + 0x400000 * pid) 0x87);
        rewrite ?E; try done. clear. mlia.
    - apply (walk_none T dir va d Hd). by rewrite E. }
  apply (walk_none T dir va d Hd). apply Hrest; lia.
Qed.

(** ** The operations on the tables *)

(** The arrays before initialisation: uninitialised globals are zero. *)
Definition zero_tables : tables :=
  mk_tables (replicate 1024 0) (replicate 1024 0) (replicate 6 (replicate 1024 0))
            (replicate 3 (replicate 1024 0)).

Record tables_ok (T : tables) (cur : Z) (vids : Z → option Z) : Prop := {
  to_video : video_ok T cur;
  to_plen : length (proc_page_directory T) = 6%nat;
  to_lens : ∀ pid, 0 ≤ pid < 6 → length (proc_page_directory T).[pid] = 1024%nat;
  to_vid : ∀ pid, 0 ≤ pid < 6 → vid_entry (proc_page_directory T).[pid] (vids pid);
  to_rest : ∀ pid, 0 ≤ pid < 6 → rest_absent (proc_page_directory T).[pid]
}.

Lemma forall_seqZ_from (p : Z → bool) a n :
  forallb p (seqZ a n) = true → ∀ j, a ≤ j < a + n → p j = true.
Proof.
  rewrite forallb_forall. intros Hp j Hj. apply Hp.
  rewrite <- list_elem_of_In, elem_of_seqZ. lia.
Qed.

Lemma video_ok_init : video_ok (init_kernel_pd zero_tables) 0.
Proof.
  set (T := init_kernel_pd zero_tables).
  assert (∃ kpd, T = mk_tables kpd
    (replicate 184 2 ++ [0xB8007; 0xB8003; 0xBA003; 0xBB003] ++ replicate 836 2)
    (replicate 6 (replicate 1024 0))
    [0xB8007 :: replicate 1023 0; 0xBA007 :: replicate 1023 0; 0xBB007 :: replicate 1023 0])
    as [kpd ->].
  { eexists. unfold T, init_kernel_pd. vm_compute. reflexivity. }
  split; try done; cbn [video_page_table term_video_tables].
  - intros t Ht. assert (t = 0 ∨ t = 1 ∨ t = 2) as [->|[->| ->]] by lia; reflexivity.
  - intros i Hi. destruct Hi as [Hi|Hi].
    + apply negb_true_iff. revert i Hi.
      apply (forall_seqZ_from (λ i, negb (Z.testbit _.[i] 0)) 0 184). vm_compute. reflexivity.
    + apply negb_true_iff. revert i Hi.
      intros i Hi. eapply (forall_seqZ_from (λ i, negb (Z.testbit _.[i] 0)) 0xBC 836); [|lia].
      vm_compute. reflexivity.
  - intros t Ht. assert (t = 0 ∨ t = 1 ∨ t = 2) as [->|[->| ->]] by lia; reflexivity.
  - intros t Ht. assert (t = 0 ∨ t = 1 ∨ t = 2) as [->|[->| ->]] by lia; reflexivity.
  - intros t i Ht Hi. apply negb_true_iff.
    assert (t = 0 ∨ t = 1 ∨ t = 2) as [->|[->| ->]] by lia;
      (eapply (forall_seqZ_from (λ i, negb (Z.testbit _.[i] 0)) 1 1023); [|lia];
       vm_compute; reflexivity).
Qed.

Lemma low_entry : Z.lor (Z.lor vpt_addr FLAG_WRITE_ENABLE) FLAG_PRESENT = vpt_addr + 3.
Proof.
  layout. rewrite <- Z.lor_assoc.
  change (Z.lor FLAG_WRITE_ENABLE FLAG_PRESENT) with 3.
  apply (lor_aligned 12); [lia|done|done].
Qed.

Lemma kernel_dir_ok : dir_ok (kernel_page_directory (init_kernel_pd zero_tables)) None None.
Proof.
  assert (kernel_page_directory (init_kernel_pd zero_tables) =
    (vpt_addr + 3) :: 0x400183 :: replicate 1022 2) as ->.
  { rewrite <- low_entry. unfold init_kernel_pd. vm_compute. reflexivity. }
  split; try done. intros i Hi _ _. apply negb_true_iff.
  unfold aget. rewrite (proj2 (Z.leb_le 0 i)) by lia.
  replace (Z.to_nat i) with (S (S (Z.to_nat (i - 2)))) by lia.
  change (((vpt_addr + 3) :: 0x400183 :: replicate 1022 2) !! S (S (Z.to_nat (i - 2))))
    with (replicate 1022 2 !! Z.to_nat (i - 2)).
  by rewrite lookup_replicate_2 by lia.
Qed.

Lemma zero_dir_rest : rest_absent (replicate 1024 0).
Proof.
  intros i Hi _ _. unfold aget. rewrite (proj2 (Z.leb_le 0 i)) by lia.
  by rewrite lookup_replicate_2 by lia.
Qed.

Lemma tables_ok_init : tables_ok (init_kernel_pd zero_tables) 0 (λ _, None).
Proof.
  assert (proc_page_directory (init_kernel_pd zero_tables) = replicate 6 (replicate 1024 0))
    as E by (vm_compute; reflexivity).
  assert (∀ pid, 0 ≤ pid < 6 →
    (proc_page_directory (init_kernel_pd zero_tables)).[pid] = replicate 1024 0) as Hd.
  { intros pid Hpid. rewrite E. apply aget_lookup; [lia|]. apply lookup_replicate_2. lia. }
  split; try (intros pid Hpid; rewrite Hd by done).
  - apply video_ok_init.
  - by rewrite E.
  - by rewrite length_replicate.
  - reflexivity.
  - apply zero_dir_rest.
Qed.

(** Writing one entry of one directory. *)
Lemma aset2_get a i j v k l :
  0 ≤ i < Z.of_nat (length a) → 0 ≤ j < Z.of_nat (length a.[i]) →
  (aset2 a i j v).[k].[l] = if decide (k = i ∧ l = j) then v else a.[k].[l].
Proof.
  intros Hi Hj. unfold aset2. rewrite aget_aset by lia.
  destruct (decide (i = k)) as [<-|Hne].
  - rewrite aget_aset by lia. repeat case_decide; intuition congruence.
  - rewrite decide_False; [done|]. by intros [-> _].
Qed.

Lemma aset2_len a i j v : length (aset2 a i j v) = length a.
Proof. unfold aset2. by rewrite length_aset. Qed.

Lemma aset2_lens a i j v k :
  0 ≤ i < Z.of_nat (length a) → length (aset2 a i j v).[k] = length a.[k].
Proof.
  intros Hi. unfold aset2. rewrite aget_aset by lia.
  case_decide as E; [|done]. by rewrite length_aset, E.
Qed.

(** Directories and their predicates only depend on the entries. *)
Lemma vid_entry_ext d d' vid : d'.[33] = d.[33] → vid_entry d vid → vid_entry d' vid.
Proof. unfold vid_entry. by intros ->. Qed.

Lemma rest_absent_ext d d' :
  (∀ i, 2 ≤ i → i ≠ 32 → i ≠ 33 → d'.[i] = d.[i]) → rest_absent d → rest_absent d'.
Proof. intros E Hr i Hi H1 H2. rewrite E by lia. by apply Hr. Qed.

Lemma video_ok_ext T T' cur :
  video_page_table T' = video_page_table T → term_video_tables T' = term_video_tables T →
  video_ok T cur → video_ok T' cur.
Proof. intros E1 E2 [???? ????]. split; rewrite ?E1, ?E2; done. Qed.
End Paging.

#[export] Hint Rewrite @page_at_kpd @page_at_vpt : paging.
