(* ===== verification/PagingProps.v ===== *)
(** * Properties of the address spaces (student-distrib/paging.c, syscall.c)

    What the page tables the kernel builds mean to the processor: the boot
    address space, the address space of a process, and the user video page. *)

From S2P Require Import Prelude Memory Types Paging.
#[local] Open Scope Z_scope.

Section Tables.
Context {HL : Layout}.
Implicit Types (T : tables) (m : mach).

(** [execute] gives process [pid] its directory and leaves the others and the
    video tables alone; the entry of the user video page is not touched. *)
Lemma execute_paging_get T cur vids pid k l :
  tables_ok T cur vids → 0 ≤ pid < 6 →
  (proc_page_directory (execute_paging T pid)).[k].[l] =
  if decide (k = pid ∧ l = 32) then 0x800000 + 0x400000 * pid + 0x87
  else if decide (k = pid ∧ l = 1) then PAGE_4MB + 0x183
  else if decide (k = pid ∧ l = 0) then vpt_addr + 3
  else (proc_page_directory T).[k].[l].
Proof.
  intros HT Hpid. pose proof (to_plen _ _ _ HT). pose proof (to_lens _ _ _ HT pid Hpid).
  unfold execute_paging. simpl. change (Z.shiftr USER_MEM_LOCATION 22) with 32.
  rewrite !aset2_get by (rewrite ?aset2_lens, ?aset2_len by (rewrite ?aset2_len; lia); lia).
  rewrite low_entry. rewrite <- !Z.lor_assoc.
  rewrite (lor_aligned 12 (0x800000 + 0x400000 * pid)); [reflexivity|lia| |vm_compute; done].
  change (2 ^ 12) with 4096. mlia.
Qed.

Lemma execute_paging_ok T cur vids pid :
  tables_ok T cur vids → 0 ≤ pid < 6 →
  tables_ok (execute_paging T pid) cur vids ∧
  dir_ok (proc_page_directory (execute_paging T pid)).[pid] (Some pid) (vids pid) ∧
  (∀ q, q ≠ pid → (proc_page_directory (execute_paging T pid)).[q] = (proc_page_directory T).[q]).
Proof.
  intros HT Hpid. pose proof (execute_paging_get T cur vids pid) as Hget.
  assert (∀ k l, l ≠ 0 → l ≠ 1 → l ≠ 32 →
    (proc_page_directory (execute_paging T pid)).[k].[l] =
    (proc_page_directory T).[k].[l]) as Hsame.
  { intros k l H0 H1 H2. rewrite Hget by done. repeat case_decide; done || lia. }
  assert (∀ k, 0 ≤ k < 6 →
    vid_entry (proc_page_directory (execute_paging T pid)).[k] (vids k)) as Hvid.
  { intros k Hk. apply (vid_entry_ext (proc_page_directory T).[k]);
      [apply Hsame; lia|by apply (to_vid _ _ _ HT)]. }
  assert (∀ k, 0 ≤ k < 6 → rest_absent (proc_page_directory (execute_paging T pid)).[k])
    as Hrest.
  { intros k Hk. apply (rest_absent_ext (proc_page_directory T).[k]);
      [intros; apply Hsame; lia|by apply (to_rest _ _ _ HT)]. }
  split_and!.
  - pose proof (to_plen _ _ _ HT). split; try done.
    + by apply (video_ok_ext T), HT.
    + simpl. by rewrite !aset2_len.
    + intros k Hk. simpl. rewrite !aset2_lens by (rewrite ?aset2_len; lia).
      by apply (to_lens _ _ _ HT).
  - split; [| | | by apply Hvid|by apply Hrest]; rewrite ?Hget by done.
    + repeat case_decide; done || lia.
    + repeat case_decide; done || lia.
    + split; [done|]. by rewrite decide_True.
  - intros q Hq. simpl. unfold aset2. by rewrite !aget_aset_ne.
Qed.

(** [vidmap] adds the user video page of the process' terminal. *)
Lemma vidmap_flags t pid :
  0 ≤ t < 3 → 0 ≤ pid < 6 →
  ∃ f, 0 ≤ f < 4096 ∧
    Z.lor (Z.lor (Z.lor (tv_addr t + 4 * pid) FLAG_WRITE_ENABLE) FLAG_PRESENT) FLAG_USER =
      tv_addr t + f ∧
    Z.testbit f 0 = true ∧ Z.testbit f 2 = true ∧ Z.testbit f 7 = false.
Proof.
  intros Ht Hpid. exists (Z.lor (4 * pid) 7).
  assert (tv_addr t mod 2 ^ 12 = 0) as Hal.
  { pose proof layout_aligned as (_ & _ & _ & Ha). unfold tv_addr.
    change (2 ^ 12) with 4096. mlia. }
  rewrite <- !Z.lor_assoc. change (Z.lor FLAG_WRITE_ENABLE (Z.lor FLAG_PRESENT FLAG_USER)) with 7.
  rewrite <- (lor_aligned 12 (tv_addr t) (4 * pid)) by lia.
  rewrite <- Z.lor_assoc.
  assert (pid = 0 ∨ pid = 1 ∨ pid = 2 ∨ pid = 3 ∨ pid = 4 ∨ pid = 5)
    as [->|[->|[->|[->|[->| ->]]]]] by lia;
    (split_and!; [done|done|apply (lor_aligned 12); done|done..]).
Qed.

Lemma vidmap_paging_get T cur vids pid t k l :
  tables_ok T cur vids → 0 ≤ pid < 6 → k ≠ pid ∨ l ≠ 33 →
  (proc_page_directory (vidmap_paging T pid t)).[k].[l] = (proc_page_directory T).[k].[l].
Proof.
  intros HT Hpid Hkl. pose proof (to_plen _ _ _ HT). pose proof (to_lens _ _ _ HT pid Hpid).
  unfold vidmap_paging. simpl. change (Z.shiftr USER_VIDEO 22) with 33.
  rewrite aset2_get by lia. case_decide; [lia|done].
Qed.

Lemma vidmap_paging_other T pid t q :
  q ≠ pid → (proc_page_directory (vidmap_paging T pid t)).[q] = (proc_page_directory T).[q].
Proof. intros Hq. unfold vidmap_paging, aset2. cbn. by rewrite aget_aset_ne by congruence. Qed.

Lemma vidmap_paging_ok T cur vids pid t :
  tables_ok T cur vids → 0 ≤ pid < 6 → 0 ≤ t < 3 →
  tables_ok (vidmap_paging T pid t) cur (λ q, if q =? pid then Some t else vids q).
Proof.
  intros HT Hpid Ht. pose proof (to_plen _ _ _ HT) as Hlen.
  pose proof (to_lens _ _ _ HT pid Hpid) as Hlens.
  split.
  - by apply (video_ok_ext T), HT.
  - simpl. by rewrite aset2_len.
  - intros k Hk. simpl. rewrite aset2_lens by lia. by apply (to_lens _ _ _ HT).
  - intros k Hk. destruct (Z.eqb_spec k pid) as [->|Hne].
    + split; [done|]. destruct (vidmap_flags t pid Ht Hpid) as (f & Hf & E & Hb).
      exists f. split; [done|]. split; [|done]. rewrite <- E.
      unfold vidmap_paging. simpl. change (Z.shiftr USER_VIDEO 22) with 33.
      rewrite aset2_get by lia. by rewrite decide_True.
    + apply (vid_entry_ext (proc_page_directory T).[k]); [|by apply (to_vid _ _ _ HT)].
      eapply vidmap_paging_get; eauto.
  - intros k Hk. apply (rest_absent_ext (proc_page_directory T).[k]);
      [|by apply (to_rest _ _ _ HT)].
    intros i _ _ Hi. eapply vidmap_paging_get; eauto.
Qed.

Lemma vidmap_paging_dir T cur vids pid t user vid :
  tables_ok T cur vids → 0 ≤ pid < 6 → 0 ≤ t < 3 →
  dir_ok (proc_page_directory T).[pid] user vid →
  dir_ok (proc_page_directory (vidmap_paging T pid t)).[pid] user (Some t).
Proof.
  intros HT Hpid Ht [H1 H2 H3 H4 H5].
  pose proof (vidmap_paging_ok T cur vids pid t HT Hpid Ht) as HT'.
  pose proof (vidmap_paging_get T cur vids pid t pid) as Hget.
  split.
  - rewrite Hget; auto; lia.
  - rewrite Hget; auto; lia.
  - by destruct user; rewrite Hget by (auto; lia).
  - pose proof (to_vid _ _ _ HT' pid Hpid) as Hv. cbv beta in Hv. by rewrite Z.eqb_refl in Hv.
  - by apply (to_rest _ _ _ HT').
Qed.

(** ** The machine running in an address space *)

Record space_ok m (cur : Z) (user vid : option Z) : Prop := {
  so_pg : cr0_pg m = true;
  so_video : video_ok (tlb m) cur;
  so_dir : ∃ d, page_at (tlb m) (4096 * (cr3 m / 4096)) = Some d ∧ dir_ok d user vid
}.

Lemma space_walk m cur user vid a :
  space_ok m cur user vid → walk (tlb m) (cr3 m) (u32 a) = addr_space user vid cur (u32 a).
Proof.
  intros [_ Hv (d & Hd & Hok)]. apply (walk_addr_space _ _ d); try done. apply u32_range.
Qed.

Lemma space_translate m cur user vid a :
  space_ok m cur user vid → translate m a = fst <$> addr_space user vid cur (u32 a).
Proof.
  intros Hs. unfold translate. rewrite (so_pg _ _ _ _ Hs). by rewrite (space_walk m cur user vid).
Qed.

Lemma space_user_translate m cur user vid a :
  space_ok m cur user vid →
  user_translate m a =
  match addr_space user vid cur (u32 a) with Some (p, true) => Some p | _ => None end.
Proof. intros Hs. unfold user_translate. by rewrite (space_walk m cur user vid). Qed.

Lemma pd_addr_page pid : 4096 * (pd_addr pid / 4096) = pd_addr pid.
Proof.
  pose proof layout_aligned as (_ & _ & Ha & _). unfold pd_addr. mlia.
Qed.

(** Loading the directory of a process enters its address space. *)
Lemma load_space m cur pid user vid :
  cr0_pg m = true → video_ok (tabs m) cur → 0 ≤ pid < 6 →
  dir_ok (proc_page_directory (tabs m)).[pid] user vid →
  space_ok (loadPageDirectory m (pd_addr pid)) cur user vid.
Proof.
  intros Hpg HT Hpid Hd. split; [done|done|].
  exists (proc_page_directory (tabs m)).[pid]. split; [|done].
  simpl. rewrite pd_addr_page. by apply page_at_pd.
Qed.

(** What user mode can reach at all. *)
Lemma addr_space_user user vid cur va p :
  addr_space user vid cur va = Some (p, true) →
  (∃ pid, user = Some pid ∧ 0x800000 + 0x400000 * pid ≤ p < 0x800000 + 0x400000 * (pid + 1)) ∨
  (∃ t, vid = Some t ∧ term_page cur t ≤ p < term_page cur t + 4096).
Proof.
  unfold addr_space.
  repeat case_match; try done;
    [destruct user as [pid|]|destruct vid as [t|]]; simpl; try done; intros [= <-];
    [left|right]; eexists; (split; [done|]); mlia.
Qed.

(** ** The kernel's view of memory

    The addresses the kernel's own code works with: the terminal pages, the
    kernel's 4 MB and the current process' 4 MB.  (The video page itself is
    left out: it is the page of the terminal on the screen once more.) *)

Definition kernel_view (a : Z) : Prop :=
  region (VIDEO + 4096) (3 * 4096) a ∨ region 0x400000 0x400000 a ∨
  region USER_MEM_LOCATION 0x400000 a.

(** The kernel view and the video page, while no terminal is on the screen. *)
Definition all_pages (a : Z) : Prop := region VIDEO 4096 a ∨ kernel_view a.

(** The cell behind an address of the view. *)
Definition view_cell (pid cur a : Z) : Z :=
  if a <? VIDEO + 4096 then a
  else if a <? VIDEO + 4 * 4096 then
    term_page cur ((a - (VIDEO + 4096)) / 4096) + a mod 4096
  else if a <? 0x800000 then a
  else 0x800000 + 0x400000 * pid + (a - USER_MEM_LOCATION).

Lemma view_cell_translate m cur pid vid a :
  space_ok m cur (Some pid) vid → all_pages a → translate m a = Some (view_cell pid cur a).
Proof.
  intros Hs Ha. unfold all_pages, kernel_view, region, VIDEO, USER_MEM_LOCATION in Ha.
  rewrite (space_translate _ cur (Some pid) vid), u32_small by (done || lia).
  unfold addr_space, view_cell, VIDEO, USER_MEM_LOCATION. change (USER_VIDEO / 4096) with 33792.
  assert (a = 4096 * (a / 4096) + a mod 4096 ∧ 0 ≤ a mod 4096 < 4096 ∧
    1024 * (a / 4194304) ≤ a / 4096 < 1024 * (a / 4194304) + 1024 ∧
    a mod 4194304 = a - 4194304 * (a / 4194304) ∧
    (a - (0xB8000 + 4096)) / 4096 = a / 4096 - 0xB9) as (E & Hm & Hd & El & Et).
  { clear. split_and!; mlia. }
  rewrite El, Et. clear El Et. revert E Hm Hd Ha. clear.
  generalize (a / 4096) (a mod 4096) (a / 4194304). intros p o q -> Hm Hd Ha.
  cases_lia; simpl; try done; f_equal; lia.
Qed.

Lemma view_cell_inj pid cur a b :
  0 ≤ pid < 6 → (kernel_view a ∧ kernel_view b) ∨ (cur = -1 ∧ all_pages a ∧ all_pages b) →
  view_cell pid cur a = view_cell pid cur b → a = b.
Proof.
  intros Hpid Hab. unfold view_cell, term_page, all_pages, kernel_view, region, VIDEO,
    USER_MEM_LOCATION in *.
  assert (a = 4096 * (a / 4096) + a mod 4096 ∧ 0 ≤ a mod 4096 < 4096 ∧
    (a - (0xB8000 + 4096)) / 4096 = a / 4096 - 0xB9) as (Ea & Hma & Eta)
    by (clear; split_and!; mlia).
  assert (b = 4096 * (b / 4096) + b mod 4096 ∧ 0 ≤ b mod 4096 < 4096 ∧
    (b - (0xB8000 + 4096)) / 4096 = b / 4096 - 0xB9) as (Eb & Hmb & Etb)
    by (clear; split_and!; mlia).
  rewrite Eta, Etb. revert Hab Ea Hma Eb Hmb. clear - Hpid.
  generalize (a / 4096) (a mod 4096) (b / 4096) (b mod 4096). intros p o q r Hab -> Ho -> Hr.
  cases_lia; lia.
Qed.

Lemma kernel_view_safe m cur pid vid :
  0 ≤ pid < 6 → space_ok m cur (Some pid) vid → safe m kernel_view.
Proof.
  intros Hpid Hs a b Ha Hb. simpl.
  rewrite !(view_cell_translate m cur pid vid) by (done || by right).
  split; [by eexists|]. intros [= E]. apply (view_cell_inj pid cur); auto.
Qed.

Lemma all_pages_safe m pid vid :
  0 ≤ pid < 6 → space_ok m (-1) (Some pid) vid → safe m all_pages.
Proof.
  intros Hpid Hs a b Ha Hb. simpl. rewrite !(view_cell_translate m (-1) pid vid) by done.
  split; [by eexists|]. intros [= E]. apply (view_cell_inj pid (-1)); auto.
Qed.

(** ** Properties *)

(** The paging part of the boot sequence in [entry] (kernel.c). *)
Definition boot_paging m : mach :=
  let m := m <| tabs := init_kernel_pd (tabs m) |> in
  let m := loadPageDirectory m kpd_addr in
  enablePaging m.

Lemma boot_space m : tabs m = zero_tables → space_ok (boot_paging m) 0 None None.
Proof.
  intros HT. unfold boot_paging. cbv zeta. rewrite HT.
  pose proof video_ok_init as Hv. pose proof kernel_dir_ok as Hd.
  generalize dependent (init_kernel_pd zero_tables). intros T Hv Hd.
  split; [done|done|]. eexists. split; [|exact Hd]. simpl.
  pose proof layout_aligned as (Ha & _). replace (4096 * (kpd_addr / 4096)) with kpd_addr by mlia.
  apply page_at_kpd.
Qed.

(** (boot address space). From zeroed tables, the boot sequence ends with
    paging on and exactly this supervisor address space: the 4 MB kernel page
    and the video page are mapped to themselves, the three terminal pages are
    mapped (terminal 0, the one on the screen, onto the video memory), every
    other address faults, and user mode reaches nothing. *)
Theorem boot_address_space m a :
  tabs m = zero_tables → 0 ≤ a < 4294967296 →
  translate (boot_paging m) a =
    (if decide (0x400000 ≤ a < 0x800000) then Some a
     else if decide (VIDEO ≤ a < VIDEO + 4096) then Some a
     else if decide (VIDEO + 4096 ≤ a < VIDEO + 2 * 4096) then Some (a - 4096)
     else if decide (VIDEO + 2 * 4096 ≤ a < VIDEO + 4 * 4096) then Some a
     else None) ∧
  user_translate (boot_paging m) a = None.
Proof.
  intros HT Ha. pose proof (boot_space m HT) as Hs.
  rewrite (space_translate _ 0 None None), (space_user_translate _ 0 None None) by done.
  rewrite u32_small by done. unfold addr_space, term_page, VIDEO.
  change (USER_VIDEO / 4096) with 33792.
  assert (a = 4096 * (a / 4096) + a mod 4096 ∧ 0 ≤ a mod 4096 < 4096 ∧
    1024 * (a / 4194304) ≤ a / 4096 < 1024 * (a / 4194304) + 1024) as (E & Hm & Hd) by mlia.
  clear - E Hm Hd Ha. revert E Hm Hd.
  generalize (a / 4096) (a mod 4096) (a / 4194304). intros p o q -> Hm Hd.
  split; [|by bool_cases].
  cases_lia; simpl; try done; f_equal; lia.
Qed.

(** The address space of a process, region by region. *)
Definition process_space (pid : Z) (vid : option Z) (cur a : Z) : option Z :=
  if decide (USER_MEM_LOCATION ≤ a < USER_MEM_LOCATION + 0x400000) then
    Some (0x800000 + 0x400000 * pid + (a - USER_MEM_LOCATION))
  else if decide (USER_VIDEO ≤ a < USER_VIDEO + 4096) then
    (λ t, term_page cur t + (a - USER_VIDEO)) <$> vid
  else None.

Lemma process_user_translate m pid vid cur a :
  space_ok m cur (Some pid) vid → 0 ≤ a < 4294967296 →
  user_translate m a = process_space pid vid cur a.
Proof.
  intros Hs Ha. rewrite (space_user_translate _ cur (Some pid) vid), u32_small by done.
  unfold addr_space, process_space, USER_MEM_LOCATION. change USER_VIDEO with (4096 * 33792).
  change (4096 * 33792 / 4096) with 33792.
  assert (a = 4096 * (a / 4096) + a mod 4096 ∧ 0 ≤ a mod 4096 < 4096 ∧
    1024 * (a / 4194304) ≤ a / 4096 < 1024 * (a / 4194304) + 1024 ∧
    a mod 4194304 = a - 4194304 * (a / 4194304)) as (E & Hm & Hd & El) by mlia.
  rewrite El. clear El. revert E Hm Hd. clear.
  generalize (a / 4096) (a mod 4096) (a / 4194304). intros p o q -> Hm Hd.
  destruct vid as [t|]; cases_lia; simpl; try done; f_equal; lia.
Qed.

Lemma kernel_identity m user vid cur a :
  space_ok m cur user vid → 0x400000 ≤ a < 0x800000 → translate m a = Some a.
Proof.
  intros Hs Ha. rewrite (space_translate _ cur user vid), u32_small by (done || lia).
  unfold addr_space.
  assert (a / 4194304 = 1 ∧ 1024 ≤ a / 4096) as [-> Hp] by mlia. by cases_lia.
Qed.

(** (address space of a process). After [execute] has written the directory
    of process [pid] and loaded it, user mode reaches exactly the 4 MB at
    128 MB, backed by the physical 4 MB of that pid, and the user video page if
    its directory entry was already there; the kernel stays mapped, for the
    kernel only, at its own addresses. *)
Theorem execute_address_space m cur vids pid a :
  cr0_pg m = true → tables_ok (tabs m) cur vids → 0 ≤ pid < 6 → 0 ≤ a < 4294967296 →
  let m' := loadPageDirectory (m <| tabs := execute_paging (tabs m) pid |>) (pd_addr pid) in
  user_translate m' a = process_space pid (vids pid) cur a ∧
  (0x400000 ≤ a < 0x800000 → translate m' a = Some a).
Proof.
  intros Hpg HT Hpid Ha m'.
  destruct (execute_paging_ok (tabs m) cur vids pid HT Hpid) as (HT' & Hd & _).
  assert (space_ok m' cur (Some pid) (vids pid)) as Hs by (apply load_space; try done; apply HT').
  split; [by apply process_user_translate|by apply kernel_identity with (Some pid) (vids pid) cur].
Qed.

(** (stale user video page). The directory entry a process got from [vidmap]
    is never removed: when the process is gone and [execute] reuses its pid, the
    new process can write the old terminal's video page without calling
    [vidmap], whatever its own terminal is. *)
Theorem stale_vidmap m cur vids pid t a :
  cr0_pg m = true → tables_ok (tabs m) cur vids → 0 ≤ pid < 6 → 0 ≤ t < 3 →
  USER_VIDEO ≤ a < USER_VIDEO + 4096 →
  let T := execute_paging (vidmap_paging (tabs m) pid t) pid in
  user_translate (loadPageDirectory (m <| tabs := T |>) (pd_addr pid)) a =
  Some (term_page cur t + (a - USER_VIDEO)).
Proof.
  intros Hpg HT Hpid Ht Ha T.
  pose proof (vidmap_paging_ok _ _ _ pid t HT Hpid Ht) as HT1.
  destruct (execute_paging_ok _ _ _ pid HT1 Hpid) as (HT2 & Hd & _).
  cbv beta in Hd. rewrite Z.eqb_refl in Hd.
  assert (space_ok (loadPageDirectory (m <| tabs := T |>) (pd_addr pid)) cur (Some pid) (Some t))
    as Hs by (apply load_space; try done; apply HT2).
  rewrite (process_user_translate _ pid (Some t) cur) by (done || (unfold USER_VIDEO in *; lia)).
  unfold process_space. rewrite decide_False by (unfold USER_MEM_LOCATION, USER_VIDEO in *; lia).
  by rewrite decide_True.
Qed.
End Tables.

(** ** Witnesses *)

#[export] Instance demo_layout : Layout.
Proof.
  refine {| kpd_addr := 0x410000; vpt_addr := 0x411000; ppd_addr := 0x412000;
            tvt_addr := 0x418000 |}; [done|lia|lia].
Defined.

(** The machine after the paging part of boot. *)
Definition demo_boot : mach := mk_mach ∅ zero_tables zero_tables 0 false.

Definition demo_mach : mach := boot_paging demo_boot.

Lemma demo_tables_ok : tables_ok (tabs demo_mach) 0 (λ _, None).
Proof. exact tables_ok_init. Qed.

(** Processes 0 and 3 in their address spaces. *)
Definition demo_proc (pid : Z) : mach :=
  loadPageDirectory (demo_mach <| tabs := execute_paging (tabs demo_mach) pid |>) (pd_addr pid).

Lemma demo_proc_space pid : 0 ≤ pid < 6 → space_ok (demo_proc pid) 0 (Some pid) None.
Proof.
  intros Hpid. pose proof demo_tables_ok as HT. unfold demo_proc.
  assert (cr0_pg demo_mach = true) as Hpg by done.
  generalize dependent demo_mach. intros m HT Hpg.
  destruct (execute_paging_ok _ _ _ pid HT Hpid) as (HT' & Hd & _).
  apply load_space; try done; apply HT'.
Qed.

Lemma boot_address_space_witness :
  translate (boot_paging demo_boot) 0xB9000 = Some 0xB8000 ∧
  user_translate (boot_paging demo_boot) 0xB9000 = None.
Proof. apply (boot_address_space demo_boot 0xB9000); [done|lia]. Defined.

Lemma demo_pg : cr0_pg demo_mach = true.
Proof. done. Qed.

#[local] Opaque demo_mach.

Lemma execute_address_space_witness :
  user_translate (demo_proc 3) USER_PROG_LOCATION =
    process_space 3 None 0 USER_PROG_LOCATION ∧
  (0x400000 ≤ USER_PROG_LOCATION < 0x800000 →
   translate (demo_proc 3) USER_PROG_LOCATION = Some USER_PROG_LOCATION).
Proof.
  pose proof (execute_address_space demo_mach 0 (λ _, None) 3 USER_PROG_LOCATION
    demo_pg demo_tables_ok ltac:(lia) ltac:(unfold USER_PROG_LOCATION; lia)) as Hw.
  cbv zeta in Hw. unfold demo_proc. exact Hw.
Defined.

Lemma stale_vidmap_witness :
  let T := execute_paging (vidmap_paging (tabs demo_mach) 4 1) 4 in
  user_translate (loadPageDirectory (demo_mach <| tabs := T |>) (pd_addr 4)) USER_VIDEO =
  Some (term_page 0 1 + (USER_VIDEO - USER_VIDEO)).
Proof.
  exact (stale_vidmap demo_mach 0 (λ _, None) 4 1 USER_VIDEO demo_pg demo_tables_ok
    ltac:(lia) ltac:(lia) ltac:(lia)).
Defined.
