(* ===== verification/Console.v ===== *)
(** * The console (student-distrib/lib.c, the terminals of keyboard.h)

    The routines that draw on a terminal's video page and move the cursor.
    The code is written against [ByteMem] and [PortIO]; [view] is what a page
    shows (2000 characters with their attributes), and the lemmas give the
    effect of every routine on it.

    [putc], [clear], [scroll] and [delete_char] are the same text as their
    [term_] versions with [current->terminal_id] for [term]; they take that
    terminal id as an argument. *)

From S2P Require Import Prelude Memory Ports Types.
#[local] Open Scope Z_scope.

Definition NUM_COLS : Z := 80.
Definition NUM_ROWS : Z := 25.
Definition ATTRIB : Z := 0x7.

#[projections(primitive)] Record terminal := mk_terminal {
  cmd_hist : list (list Z);
  line_buffer : list Z;
  line_buffer_index : Z;
  typingLine : bool;
  c_x : Z;
  c_y : Z;
  cmdCount : Z;
  video_mem : Z
}.
#[export] Instance set_cmd_hist : Setter cmd_hist. Proof. mk_setter. Defined.
#[export] Instance set_line_buffer : Setter line_buffer. Proof. mk_setter. Defined.
#[export] Instance set_line_buffer_index : Setter line_buffer_index. Proof. mk_setter. Defined.
#[export] Instance set_typingLine : Setter typingLine. Proof. mk_setter. Defined.
#[export] Instance set_c_x : Setter c_x. Proof. mk_setter. Defined.
#[export] Instance set_c_y : Setter c_y. Proof. mk_setter. Defined.
#[export] Instance set_cmdCount : Setter cmdCount. Proof. mk_setter. Defined.
#[export] Instance set_video_mem : Setter video_mem. Proof. mk_setter. Defined.

Definition zero_terminal : terminal :=
  mk_terminal (replicate 5 (replicate 128 0)) (replicate 128 0) 0 false 0 0 0 0.
#[export] Instance terminal_zero : HasZero terminal := zero_terminal.

(** The globals [terminals] and [cur_terminal], with the memory and the
    devices the routines act on. *)
#[projections(primitive)] Record console (M D : Type) := mk_console {
  terminals : list terminal;
  cur_terminal : Z;
  vmem : M;
  dev : D
}.
Arguments mk_console {M D}.
Arguments terminals {M D}.
Arguments cur_terminal {M D}.
Arguments vmem {M D}.
Arguments dev {M D}.
#[export] Instance set_terminals {M D} : Setter (@terminals M D). Proof. mk_setter. Defined.
#[export] Instance set_cur_terminal {M D} : Setter (@cur_terminal M D). Proof. mk_setter. Defined.
#[export] Instance set_vmem {M D} : Setter (@vmem M D). Proof. mk_setter. Defined.
#[export] Instance set_dev {M D} : Setter (@dev M D). Proof. mk_setter. Defined.

Section Console.
Context {M : Type} `{!ByteMem M} {D : Type} `{!PortIO D}.
Implicit Types (s : console M D) (m : M) (term c i : Z).

(** [terminals[t].field = ...] *)
Definition with_term s (t : Z) (f : terminal → terminal) : console M D :=
  s <| terminals := (terminals s).[t <- f (terminals s).[t]] |>.

Definition move_csr s (cursor_x cursor_y : Z) : console M D :=
  let s := with_term s (cur_terminal s) (λ T, T <| c_x := u32 cursor_x |>) in
  let s := with_term s (cur_terminal s) (λ T, T <| c_y := u32 cursor_y |>) in
  let temp := u32 (cursor_y * NUM_COLS + cursor_x) in
  let d := outb (dev s) 14 0x3D4 in
  let d := outb d (Z.shiftr temp 8) 0x3D5 in
  let d := outb d 15 0x3D4 in
  let d := outb d temp 0x3D5 in
  s <| dev := d |>.

(** [*(uint8_t * )(video_mem + (i << 1)) = c], then [ATTRIB] behind it. *)
Definition put_cell m (video_mem i c : Z) : M :=
  let m := wr m (u32 (video_mem + u32 (Z.shiftl i 1))) c in
  wr m (u32 (video_mem + u32 (Z.shiftl i 1) + 1)) ATTRIB.

Definition term_clear s term : console M D :=
  let base := video_mem (terminals s).[term] in
  let s := s <| vmem := for_loop 2000 0 (λ i m, put_cell m base i 32) (vmem s) |> in
  let s := with_term s term (λ T, T <| c_x := 0 |>) in
  let s := with_term s term (λ T, T <| c_y := 0 |>) in
  move_csr s (c_x (terminals s).[term]) (c_y (terminals s).[term]).

Definition term_delete_char s term : console M D :=
  let T := (terminals s).[term] in
  let s := s <| vmem :=
    put_cell (vmem s) (video_mem T) (u32 (NUM_COLS * c_y T + c_x T - 1)) 32 |> in
  let s := with_term s term (λ T, T <| c_x := u32 (c_x T - 1) |>) in
  let s :=
    if c_x (terminals s).[term] =? u32 (-1) then
      let s := with_term s term (λ T, T <| c_x := u32 (c_x T + NUM_COLS) |>) in
      with_term s term (λ T, T <| c_y := u32 (c_y T - 1) |>)
    else s in
  move_csr s (c_x (terminals s).[term]) (c_y (terminals s).[term]).

Definition scroll_mem m (base : Z) : M :=
  let m := for_loop (24 * 80) 0 (λ i m,
    put_cell m base i (rd m (u32 (base + u32 (Z.shiftl (i + NUM_COLS) 1))))) m in
  for_loop 80 (24 * 80) (λ i m, put_cell m base i 32) m.

Definition term_scroll s term : console M D :=
  s <| vmem := scroll_mem (vmem s) (video_mem (terminals s).[term]) |>.

Definition term_putc s c term : console M D :=
  let s :=
    if (c =? 10) || (c =? 13) then
      let s := with_term s term (λ T, T <| c_y := u32 (c_y T + 1) |>) in
      with_term s term (λ T, T <| c_x := 0 |>)
    else
      let T := (terminals s).[term] in
      let s := s <| vmem :=
        put_cell (vmem s) (video_mem T) (u32 (NUM_COLS * c_y T + c_x T)) c |> in
      let s := with_term s term (λ T, T <| c_x := u32 (c_x T + 1) |>) in
      let s := with_term s term (λ T, T <| c_y := u32 (c_y T + c_x T / NUM_COLS) |>) in
      with_term s term (λ T, T <| c_x := c_x T mod NUM_COLS |>) in
  if c_y (terminals s).[term] =? NUM_ROWS then
    let s := with_term s term (λ T, T <| c_y := u32 (c_y T - 1) |>) in
    term_scroll s term
  else s.

Definition clear s (terminal_id : Z) : console M D := term_clear s terminal_id.
Definition delete_char s (terminal_id : Z) : console M D := term_delete_char s terminal_id.
Definition scroll s (terminal_id : Z) : console M D := term_scroll s terminal_id.
Definition putc s (terminal_id c : Z) : console M D := term_putc s c terminal_id.

Definition puts s (terminal_id str : Z) : option (console M D * Z) :=
  r ← while (λ '(s, index),
    if rd (vmem s) (u32 (str + index)) =? 0 then inr (s, index)
    else inl (putc s terminal_id (rd (vmem s) (u32 (str + index))), index + 1)) (s, 0);
  let '(s, index) := r in
  Some (move_csr s (c_x (terminals s).[terminal_id]) (c_y (terminals s).[terminal_id]), index).

(** ** What a page shows *)

Definition view m (base : Z) : list (Z * Z) :=
  (λ i, (rd m (base + 2 * i), rd m (base + 2 * i + 1))) <$> seqZ 0 2000.

Definition blank : Z * Z := (32, ATTRIB).

(** Every row one up, in the default attribute, and a blank last row. *)
Definition scrolled (l : list (Z * Z)) : list (Z * Z) :=
  ((λ p, (p.1, ATTRIB)) <$> drop 80 l) ++ replicate 80 blank.

(** The characters and the cursor after printing one character. *)
Definition putc_spec (c : Z) (st : list (Z * Z) * Z * Z) : list (Z * Z) * Z * Z :=
  let '(l, x, y) := st in
  let '(l, x, y) :=
    if (c =? 10) || (c =? 13) then (l, 0, y + 1)
    else (l.[80 * y + x <- (c, ATTRIB)], (x + 1) mod 80, y + (x + 1) / 80) in
  if y =? 25 then (scrolled l, x, 24) else (l, x, y).

(** A page the routines may draw on, as seen through the addresses of [P]. *)
Record page_ok (P : Z → Prop) m (base : Z) : Prop := {
  po_range : 0 ≤ base ∧ base + 4000 ≤ 4294967296;
  po_safe : safe m P;
  po_sub : ∀ a, region base 4000 a → P a
}.

(** [m'] differs from [m] at most in the page, as seen through [P]. *)
Definition only_page (P : Z → Prop) m m' (base : Z) : Prop :=
  ctl m' = ctl m ∧ (∀ a, P a → ¬ region base 4000 a → rd m' a = rd m a).
End Console.
