(* ===== verification/ConsoleProofs.v ===== *)
(** * The console: effect of the drawing routines

    Every routine's effect on the page it draws on ([view]), on the cursor,
    and its frame: nothing outside the page changes. *)

From S2P Require Import Prelude Memory Ports Types Console.
#[local] Open Scope Z_scope.

Section Page.
Context {M : Type} `{!ByteMem M}.
Implicit Types (m : M) (base c i : Z) (P : Z → Prop).

Lemma view_length m base : length (view m base) = 2000%nat.
Proof. unfold view. by rewrite length_fmap, length_seqZ. Qed.

Lemma view_lookup m base (n : nat) :
  (n < 2000)%nat →
  view m base !! n =
    Some (rd m (base + 2 * Z.of_nat n), rd m (base + 2 * Z.of_nat n + 1)).
Proof.
  intros Hn. unfold view. rewrite list_lookup_fmap.
  rewrite lookup_seqZ_lt by lia. simpl. by rewrite Z.add_0_l.
Qed.

(** Two pages that read alike show the same. *)
Lemma view_ext m m' base base' :
  (∀ k, 0 ≤ k < 4000 → rd m' (base' + k) = rd m (base + k)) → view m' base' = view m base.
Proof.
  intros H. unfold view. apply list_fmap_ext. intros n i Hi.
  apply lookup_seqZ in Hi as [-> Hi]. rewrite <- !Z.add_assoc. by rewrite !H by lia.
Qed.

Lemma page_ok_cells P m m' base :
  ctl m' = ctl m → page_ok P m base → page_ok P m' base.
Proof. intros Hc [H1 H2 H3]. split; [done| |done]. by apply (safe_cells m). Qed.

Lemma put_cell_wr P m base i c :
  page_ok P m base → 0 ≤ i < 2000 →
  put_cell m base i c = wr (wr m (base + 2 * i) c) (base + 2 * i + 1) ATTRIB.
Proof.
  intros [Hr _ _] Hi. unfold put_cell. rewrite Z.shiftl_mul_pow2 by lia.
  change (2 ^ 1) with 2. rewrite (Z.mul_comm i 2).
  rewrite (u32_small (2 * i)), !u32_small by lia. done.
Qed.

Lemma put_cell_rd P m base i c b :
  page_ok P m base → 0 ≤ i < 2000 → P b →
  rd (put_cell m base i c) b =
  if decide (b = base + 2 * i) then u8 c
  else if decide (b = base + 2 * i + 1) then ATTRIB else rd m b.
Proof.
  intros Hp Hi Hb. rewrite (put_cell_wr P) by done. destruct Hp as [Hr Hs Hsub].
  assert (P (base + 2 * i) ∧ P (base + 2 * i + 1)) as [H1 H2].
  { split; apply Hsub; unfold region; lia. }
  rewrite (rd_wr_safe _ P) by (done || by apply safe_wr).
  rewrite (rd_wr_safe _ P) by done. change (u8 ATTRIB) with ATTRIB.
  repeat case_decide; subst; done || lia.
Qed.

Lemma put_cell_ctl m base i c : ctl (put_cell m base i c) = ctl m.
Proof. unfold put_cell. by rewrite !ctl_wr. Qed.

(** Drawing cells in order is a growing [written] region. *)
Lemma put_cell_written P m0 m base i c f :
  page_ok P m0 base → 0 ≤ i < 2000 → written P m0 m base (2 * i) f →
  u8 c = f (2 * i) → ATTRIB = f (2 * i + 1) →
  written P m0 (put_cell m base i c) base (2 * (i + 1)) f.
Proof.
  intros Hp Hi Hw Hc Ha.
  rewrite (put_cell_wr P) by (done || by apply (page_ok_cells P m0); [apply Hw|]).
  destruct Hp as [Hr Hs Hsub]. replace (2 * (i + 1)) with (2 * i + 1 + 1) by lia.
  rewrite <- (Z.add_assoc base).
  apply written_snoc; [done| |lia| |done].
  - intros a Hra. apply Hsub. unfold region in *. lia.
  - apply written_snoc; [done| |lia|done|done].
    intros a Hra. apply Hsub. unfold region in *. lia.
Qed.

Definition blank_page (k : Z) : Z := if Z.even k then 32 else ATTRIB.

Lemma even_2k k : Z.even (2 * k) = true ∧ Z.even (2 * k + 1) = false.
Proof. rewrite Z.even_add, Z.even_mul. done. Qed.

Lemma clear_written P m base :
  page_ok P m base →
  written P m (for_loop 2000 0 (λ i m, put_cell m base i 32) m) base 4000 blank_page.
Proof.
  intros Hp. change 4000 with (2 * (0 + Z.of_nat 2000)).
  apply (for_loop_inv (λ i m', written P m m' base (2 * i) blank_page)).
  - by apply written_0.
  - intros i m' Hi Hw. destruct (even_2k i) as [E1 E2].
    apply put_cell_written; try done; try lia; unfold blank_page; by rewrite ?E1, ?E2.
Qed.

(** The bytes of a scrolled page. *)
Definition scroll_byte m base (k : Z) : Z :=
  if Z.even k then (if k <? 3840 then rd m (base + k + 160) else 32) else ATTRIB.

Lemma scroll_written P m base :
  page_ok P m base → written P m (scroll_mem m base) base 4000 (scroll_byte m base).
Proof.
  intros Hp. unfold scroll_mem. set (f := scroll_byte m base).
  change 4000 with (2 * (24 * 80 + Z.of_nat 80)).
  apply (for_loop_inv (λ i m', written P m m' base (2 * i) f)).
  - change (24 * 80) with (0 + Z.of_nat (24 * 80)) at 1.
    apply (for_loop_inv (λ i m', written P m m' base (2 * i) f)); [by apply written_0|].
    intros i m' Hi Hw. destruct (even_2k i) as [E1 E2]. pose proof (po_range _ _ _ Hp).
    apply put_cell_written; try done; try lia; unfold f, scroll_byte; rewrite ?E1, ?E2; [|done].
    rewrite (proj2 (Z.ltb_lt (2 * i) 3840)) by lia.
    rewrite Z.shiftl_mul_pow2 by lia. change (2 ^ 1) with 2. unfold NUM_COLS.
    rewrite (u32_small ((i + 80) * 2)), u32_small by lia.
    rewrite (written_out _ _ _ _ _ _ _ Hw);
      [|apply Hp; unfold region; lia|lia].
    rewrite u8_small by apply rd_range. f_equal. lia.
  - intros i m' Hi Hw. destruct (even_2k i) as [E1 E2].
    apply put_cell_written; try done; try lia; unfold f, scroll_byte; rewrite ?E1, ?E2; [|done].
    rewrite (proj2 (Z.ltb_ge (2 * i) 3840)) by lia. done.
Qed.

Lemma written_only_page P m m' base f :
  written P m m' base 4000 f → only_page P m m' base.
Proof.
  intros Hw. split; [apply Hw|]. intros a Ha Hna. by apply (written_out _ _ _ _ _ _ _ Hw).
Qed.

Lemma written_view P m m' base f (n : nat) :
  page_ok P m base → written P m m' base 4000 f → (n < 2000)%nat →
  view m' base !! n = Some (f (2 * Z.of_nat n), f (2 * Z.of_nat n + 1)).
Proof.
  intros Hp Hw Hn. rewrite view_lookup by done.
  rewrite !(written_in _ _ _ _ _ _ _ Hw) by (lia || (apply Hp; unfold region; lia)).
  do 3 f_equal; lia.
Qed.

Lemma view_scroll P m base :
  page_ok P m base → view (scroll_mem m base) base = scrolled (view m base).
Proof.
  intros Hp. pose proof (scroll_written P m base Hp) as Hw.
  apply list_eq_same_length with 2000%nat.
  - unfold scrolled. rewrite length_app, length_fmap, length_drop, length_replicate.
    by rewrite view_length.
  - apply view_length.
  - intros n x y Hn. rewrite (written_view P m _ _ _ n Hp Hw Hn). intros [= <-] Hy.
    unfold scroll_byte. destruct (even_2k (Z.of_nat n)) as [-> ->].
    revert Hy. unfold scrolled. destruct (decide (n < 1920)%nat).
    + rewrite lookup_app_l by (rewrite length_fmap, length_drop, view_length; lia).
      rewrite list_lookup_fmap, lookup_drop, view_lookup by lia. simpl. intros [= <-].
      rewrite (proj2 (Z.ltb_lt _ _)) by lia. do 2 f_equal. lia.
    + rewrite lookup_app_r by (rewrite length_fmap, length_drop, view_length; lia).
      rewrite length_fmap, length_drop, view_length, lookup_replicate_2 by lia. intros [= <-].
      by rewrite (proj2 (Z.ltb_ge _ _)) by lia.
Qed.

Lemma view_clear P m base :
  page_ok P m base →
  view (for_loop 2000 0 (λ i m, put_cell m base i 32) m) base = replicate 2000 blank.
Proof.
  intros Hp. pose proof (clear_written P m base Hp) as Hw.
  apply list_eq_same_length with 2000%nat; [by rewrite length_replicate|apply view_length|].
  intros n x y Hn. rewrite (written_view P m _ _ _ n Hp Hw Hn). intros [= <-] Hy.
  rewrite lookup_replicate_2 in Hy by lia. injection Hy as <-.
  unfold blank_page. by destruct (even_2k (Z.of_nat n)) as [-> ->].
Qed.

Lemma view_put P m base i c :
  page_ok P m base → 0 ≤ i < 2000 → 0 ≤ c < 256 →
  view (put_cell m base i c) base = (view m base).[i <- (c, ATTRIB)].
Proof.
  intros Hp Hi Hc.
  apply list_eq_same_length with 2000%nat;
    [by rewrite length_aset, view_length|apply view_length|].
  intros n x y Hn. rewrite view_lookup by done. intros [= <-].
  rewrite !(put_cell_rd P) by (done || (apply Hp; unfold region; lia)).
  unfold aset. rewrite (proj2 (Z.leb_le 0 i)) by lia. rewrite list_lookup_insert.
  rewrite u8_small by done. repeat case_decide; try lia; rewrite ?view_lookup by lia;
    rewrite ?view_length in *; intros [= <-]; done || lia.
Qed.

Lemma put_only_page P m base i c :
  page_ok P m base → 0 ≤ i < 2000 → only_page P m (put_cell m base i c) base.
Proof.
  intros Hp Hi. split; [apply put_cell_ctl|]. intros a Ha Hna.
  rewrite (put_cell_rd P) by done. unfold region in Hna. repeat case_decide; lia || done.
Qed.

Lemma only_page_trans P m1 m2 m3 base :
  only_page P m1 m2 base → only_page P m2 m3 base → only_page P m1 m3 base.
Proof.
  intros [H1 H2] [H3 H4]. split; [by rewrite H3, H1|].
  intros a Ha Hn. by rewrite H4, H2.
Qed.

Lemma only_page_refl P m base : only_page P m m base.
Proof. by split. Qed.

Lemma only_page_ok P m m' base : only_page P m m' base → page_ok P m base → page_ok P m' base.
Proof. intros [Hc _]. by apply page_ok_cells. Qed.
End Page.

(** ** Terminals *)

Definition set_cursor (T : terminal) (x y : Z) : terminal := T <| c_x := x |> <| c_y := y |>.

Section Terminal.
Context {M : Type} `{!ByteMem M} {D : Type} `{!PortIO D}.
Implicit Types (s : console M D) (m : M) (t c x y : Z) (P : Z → Prop).

Definition page_of s t : Z := video_mem (terminals s).[t].

(** What terminal [t] shows, and its cursor. *)
Definition tview s t : list (Z * Z) * Z * Z :=
  (view (vmem s) (page_of s t), c_x (terminals s).[t], c_y (terminals s).[t]).

Record con_ok P s t : Prop := {
  co_term : 0 ≤ t < Z.of_nat (length (terminals s));
  co_page : page_ok P (vmem s) (page_of s t);
  co_x : 0 ≤ c_x (terminals s).[t] < 80;
  co_y : 0 ≤ c_y (terminals s).[t] < 25
}.

(** [s'] is [s] with the page of terminal [t] changed and its cursor at
    [(x, y)]. *)
Record drawn P s s' t x y : Prop := {
  dr_terms : terminals s' = (terminals s).[t <- set_cursor (terminals s).[t] x y];
  dr_cur : cur_terminal s' = cur_terminal s;
  dr_page : only_page P (vmem s) (vmem s') (page_of s t)
}.

Lemma drawn_get P s s' t x y :
  con_ok P s t → drawn P s s' t x y → (terminals s').[t] = set_cursor (terminals s).[t] x y.
Proof. intros [Ht _ _ _] [E _ _]. rewrite E. by apply aget_aset_eq. Qed.

Lemma drawn_other P s s' t x y u :
  drawn P s s' t x y → u ≠ t → (terminals s').[u] = (terminals s).[u].
Proof. intros [E _ _] Hu. rewrite E. by apply aget_aset_ne. Qed.

Lemma drawn_ok P s s' t x y :
  con_ok P s t → drawn P s s' t x y → 0 ≤ x < 80 → 0 ≤ y < 25 → con_ok P s' t.
Proof.
  intros Hc Hd Hx Hy. pose proof (drawn_get P s s' t x y Hc Hd) as E.
  destruct Hc as [Ht Hp _ _], Hd as [E1 _ Hop].
  split; unfold page_of; rewrite ?E; try done.
  - by rewrite E1, length_aset.
  - by apply (only_page_ok _ _ _ _ Hop).
Qed.

Lemma aset_with_term s t f g :
  0 ≤ t < Z.of_nat (length (terminals s)) →
  with_term (with_term s t f) t g = with_term s t (λ T, g (f T)).
Proof.
  intros Ht. unfold with_term. simpl. by rewrite aget_aset_eq, aset_aset by done.
Qed.

Lemma with_term_get s t f :
  0 ≤ t < Z.of_nat (length (terminals s)) →
  (terminals (with_term s t f)).[t] = f (terminals s).[t].
Proof. intros Ht. unfold with_term. simpl. by apply aget_aset_eq. Qed.

(** The cell at the cursor is on the page. *)
Lemma cursor_cell x y : 0 ≤ x < 80 → 0 ≤ y < 25 →
  u32 (NUM_COLS * y + x) = 80 * y + x ∧ 0 ≤ 80 * y + x < 2000.
Proof. intros. unfold NUM_COLS. rewrite u32_small; lia. Qed.

Lemma cursor_advance x y : 0 ≤ x < 80 → 0 ≤ y < 25 →
  u32 (x + 1) = x + 1 ∧ u32 (y + (x + 1) / 80) = y + (x + 1) / 80.
Proof. intros. rewrite !u32_small; mlia. Qed.

Lemma advance_fields T : 0 ≤ c_x T < 80 → 0 ≤ c_y T < 25 →
  let T1 := T <| c_x := u32 (c_x T + 1) |> in
  let T2 := T1 <| c_y := u32 (c_y T1 + c_x T1 / NUM_COLS) |> in
  T2 <| c_x := c_x T2 mod NUM_COLS |> =
  set_cursor T ((c_x T + 1) mod 80) (c_y T + (c_x T + 1) / 80).
Proof.
  intros Hx Hy T1 T2. destruct (cursor_advance _ _ Hx Hy) as [A1 A2].
  unfold T2, T1, set_cursor, NUM_COLS. destruct T; simpl in *. by rewrite A1, A2.
Qed.

(** The state after the first half of [term_putc]. *)
Definition putc_at s t (m : M) (x y : Z) : console M D :=
  s <| vmem := m |> <| terminals := (terminals s).[t <- set_cursor (terminals s).[t] x y] |>.

Lemma with_term_eq s t f T :
  f (terminals s).[t] = T → with_term s t f = s <| terminals := (terminals s).[t <- T] |>.
Proof. intros <-. done. Qed.

(** The second half: scroll if the cursor left the screen. *)
Lemma putc_finish P s t m x y :
  con_ok P s t → only_page P (vmem s) m (page_of s t) → 0 ≤ x < 80 → 0 ≤ y ≤ 25 →
  let s1 := putc_at s t m x y in
  let s' := if c_y (terminals s1).[t] =? NUM_ROWS
            then term_scroll (with_term s1 t (λ T, T <| c_y := u32 (c_y T - 1) |>)) t else s1 in
  drawn P s s' t x (if y =? 25 then 24 else y) ∧
  view (vmem s') (page_of s t) =
    (if y =? 25 then scrolled (view m (page_of s t)) else view m (page_of s t)) ∧
  dev s' = dev s.
Proof.
  intros Hc Hop Hx Hy s1 s'. destruct Hc as [Ht Hp _ _].
  assert ((terminals s1).[t] = set_cursor (terminals s).[t] x y) as E1.
  { unfold s1. simpl. by apply aget_aset_eq. }
  unfold s'. rewrite E1. change (c_y (set_cursor _ x y)) with y. unfold NUM_ROWS.
  destruct (Z.eqb_spec y 25) as [->|Hne]; [|done].
  assert (page_ok P m (page_of s t)) as Hp' by by apply (only_page_ok _ _ _ _ Hop).
  assert (video_mem (terminals (with_term s1 t (λ T, T <| c_y := u32 (c_y T - 1) |>))).[t] =
    page_of s t) as Ev.
  { rewrite with_term_get by (unfold s1; simpl; by rewrite length_aset). by rewrite E1. }
  unfold term_scroll. rewrite Ev. split_and!.
  - split; simpl; [|done|].
    + by rewrite aget_aset_eq, aset_aset by (rewrite ?length_aset; done).
    + apply (only_page_trans _ _ m); [done|]. by eapply written_only_page, scroll_written.
  - simpl. by apply (view_scroll P).
  - done.
Qed.

Lemma term_putc_drawn P s c t :
  con_ok P s t → 0 ≤ c < 256 →
  let '(l, x, y) := putc_spec c (tview s t) in
  let s' := term_putc s c t in
  drawn P s s' t x y ∧ view (vmem s') (page_of s t) = l ∧ 0 ≤ x < 80 ∧ 0 ≤ y < 25 ∧
  dev s' = dev s.
Proof.
  intros Hok Hc. pose proof Hok as [Ht Hp Hx Hy].
  unfold putc_spec, tview, term_putc.
  destruct ((c =? 10) || (c =? 13)).
  - rewrite aset_with_term by done.
    rewrite (with_term_eq s t _ (set_cursor (terminals s).[t] 0 (c_y (terminals s).[t] + 1))).
    2: { unfold set_cursor. simpl. by rewrite u32_small by lia. }
    destruct (putc_finish P s t (vmem s) 0 (c_y (terminals s).[t] + 1) Hok
      (only_page_refl _ _ _)) as (H1 & H2 & H3); [lia|lia|].
    destruct (Z.eqb_spec (c_y (terminals s).[t] + 1) 25); split_and!; done || lia.
  - destruct (cursor_cell _ _ Hx Hy) as [E Hcell]. rewrite E.
    set (m := put_cell _ _ _ _).
    set (s1 := with_term (with_term (with_term _ _ _) _ _) _ _).
    assert (s1 = putc_at s t m ((c_x (terminals s).[t] + 1) mod 80)
      (c_y (terminals s).[t] + (c_x (terminals s).[t] + 1) / 80)) as ->.
    { unfold s1. rewrite !aset_with_term by (simpl; by rewrite ?length_aset).
      rewrite (with_term_eq _ t _ (set_cursor (terminals s).[t]
        ((c_x (terminals s).[t] + 1) mod 80)
        (c_y (terminals s).[t] + (c_x (terminals s).[t] + 1) / 80))); [done|].
      exact (advance_fields _ Hx Hy). }
    assert (only_page P (vmem s) m (page_of s t)) as Hop by by apply put_only_page.
    destruct (putc_finish P s t m ((c_x (terminals s).[t] + 1) mod 80)
      (c_y (terminals s).[t] + (c_x (terminals s).[t] + 1) / 80) Hok Hop)
      as (H1 & H2 & H3); [clear; mlia|clear - Hx Hy; mlia|].
    rewrite <- (view_put P) by done.
    assert (0 ≤ (c_x (terminals s).[t] + 1) mod 80 < 80 ∧
      0 ≤ c_y (terminals s).[t] + (c_x (terminals s).[t] + 1) / 80 ≤ 25) by (clear - Hx Hy; mlia).
    destruct (Z.eqb_spec (c_y (terminals s).[t] + (c_x (terminals s).[t] + 1) / 80) 25);
      (split; [exact H1|split; [exact H2|]]); split_and!; try lia; exact H3.
Qed.

(** The four bytes that put the hardware cursor on cell [pos]. *)
Definition csr_out (d : D) (pos : Z) : D :=
  outb (outb (outb (outb d 14 0x3D4) (Z.shiftr pos 8) 0x3D5) 15 0x3D4) pos 0x3D5.

Lemma move_csr_spec P s x y :
  con_ok P s (cur_terminal s) → 0 ≤ x < 80 → 0 ≤ y < 25 →
  let s' := move_csr s x y in
  drawn P s s' (cur_terminal s) x y ∧ vmem s' = vmem s ∧
  dev s' = csr_out (dev s) (80 * y + x).
Proof.
  intros [Ht _ _ _] Hx Hy. unfold move_csr.
  rewrite (u32_small x), (u32_small y), (u32_small (y * NUM_COLS + x)) by (unfold NUM_COLS; lia).
  unfold NUM_COLS. rewrite (Z.mul_comm y 80). split_and!; try done.
  split; [|done|apply only_page_refl]. simpl.
  by rewrite aget_aset_eq, aset_aset by done.
Qed.

Lemma drawn_trans P s1 s2 s3 t x1 y1 x2 y2 :
  con_ok P s1 t → drawn P s1 s2 t x1 y1 → drawn P s2 s3 t x2 y2 → drawn P s1 s3 t x2 y2.
Proof.
  intros Hc H1 H2. pose proof (drawn_get _ _ _ _ _ _ Hc H1) as E.
  destruct Hc as [Ht _ _ _], H1 as [T1 C1 O1], H2 as [T2 C2 O2].
  assert (page_of s2 t = page_of s1 t) as Ep by (unfold page_of; by rewrite E).
  rewrite Ep in O2. split.
  - rewrite T2, E, T1. by rewrite aset_aset.
  - by rewrite C2.
  - by apply (only_page_trans _ _ (vmem s2)).
Qed.

(** Clearing the terminal on the screen. *)
Lemma term_clear_spec P s :
  con_ok P s (cur_terminal s) →
  let t := cur_terminal s in
  let s' := term_clear s t in
  drawn P s s' t 0 0 ∧ view (vmem s') (page_of s t) = replicate 2000 blank ∧
  dev s' = csr_out (dev s) 0.
Proof.
  intros Hok t. unfold term_clear. rewrite aset_with_term by apply Hok.
  set (m := for_loop _ _ _ _). set (s1 := with_term _ _ _).
  assert (only_page P (vmem s) m (page_of s t)) as Hop
    by (eapply written_only_page, clear_written, Hok).
  assert (drawn P s s1 t 0 0) as Hd by (by split).
  rewrite (drawn_get P s s1 t 0 0 Hok Hd).
  change (c_x (set_cursor _ 0 0)) with 0. change (c_y (set_cursor _ 0 0)) with 0.
  assert (con_ok P s1 t) as Hok1 by (apply (drawn_ok P s s1 t 0 0); done || lia).
  destruct (move_csr_spec P s1 0 0 Hok1) as (H1 & H2 & H3); [lia|lia|].
  split_and!.
  - by apply (drawn_trans P s s1 _ t 0 0).
  - rewrite H2. by apply (view_clear P), Hok.
  - done.
Qed.

Lemma retreat_row T : c_x T = 0 → 0 ≤ c_y T < 25 → 0 < 80 * c_y T + c_x T →
  let T1 := T <| c_x := u32 (c_x T - 1) |> in
  let T2 := T1 <| c_x := u32 (c_x T1 + NUM_COLS) |> in
  T2 <| c_y := u32 (c_y T2 - 1) |> = set_cursor T 79 (c_y T - 1).
Proof.
  intros Hx Hy Hpos T1 T2. unfold T2, T1, set_cursor, NUM_COLS.
  destruct T; simpl in *. subst. by rewrite (u32_small (_ - 1)) by lia.
Qed.

Lemma retreat_cell T : 0 ≤ c_x T < 80 → c_x T ≠ 0 →
  T <| c_x := u32 (c_x T - 1) |> = set_cursor T (c_x T - 1) (c_y T).
Proof. intros Hx H0. unfold set_cursor. destruct T; simpl in *. by rewrite u32_small by lia. Qed.

(** The cursor one cell back, over the end of the row above if need be. *)
Lemma delete_cursor P s s1 t m x y :
  0 ≤ t < Z.of_nat (length (terminals s)) → 0 ≤ x < 80 → 0 ≤ y < 25 → 0 < 80 * y + x →
  x = c_x (terminals s).[t] → y = c_y (terminals s).[t] →
  only_page P (vmem s) m (page_of s t) →
  s1 = with_term (s <| vmem := m |>) t (λ T, T <| c_x := u32 (c_x T - 1) |>) →
  let p := 80 * y + x - 1 in
  drawn P s
    (if u32 (x - 1) =? u32 (-1) then
       with_term (with_term s1 t (λ T, T <| c_x := u32 (c_x T + NUM_COLS) |>)) t
         (λ T, T <| c_y := u32 (c_y T - 1) |>)
     else s1) t (p mod 80) (p / 80).
Proof.
  intros Ht Hx Hy Hpos Ex Ey Hop -> p. destruct (Z.eqb_spec (u32 (x - 1)) (u32 (-1))) as [E|E].
  - assert (x = 0) as Ex0 by (clear - E Hx; mlia).
    rewrite !aset_with_term by (simpl; by rewrite ?length_aset).
    assert (p mod 80 = 79 ∧ p / 80 = y - 1) as [-> ->] by (unfold p; clear - Ex0; mlia).
    split; [|done|done]. unfold with_term. simpl. f_equal.
    subst x y. exact (retreat_row _ Ex0 Hy Hpos).
  - assert (x ≠ 0) as Ex0 by (intros ->; done).
    assert (p mod 80 = x - 1 ∧ p / 80 = y) as [-> ->] by (unfold p; clear - Ex0 Hx; mlia).
    split; [|done|done]. unfold with_term. simpl. f_equal.
    subst x y. exact (retreat_cell _ Hx Ex0).
Qed.

(** Deleting the character before the cursor of the terminal on the screen. *)
Lemma term_delete_char_spec P s :
  let t := cur_terminal s in
  let x := c_x (terminals s).[t] in
  let y := c_y (terminals s).[t] in
  con_ok P s t → 0 < 80 * y + x →
  let p := 80 * y + x - 1 in
  let s' := term_delete_char s t in
  drawn P s s' t (p mod 80) (p / 80) ∧
  view (vmem s') (page_of s t) = (view (vmem s) (page_of s t)).[p <- blank] ∧
  dev s' = csr_out (dev s) p.
Proof.
  intros t x y Hok Hpos p. pose proof Hok as [Ht Hp Hx Hy]. fold x in Hx. fold y in Hy.
  unfold term_delete_char. fold x y.
  assert (u32 (NUM_COLS * y + x - 1) = p) as -> by (unfold NUM_COLS; rewrite u32_small; lia).
  set (m := put_cell _ _ _ _).
  assert (0 ≤ p < 2000) as Hpr by lia.
  assert (only_page P (vmem s) m (page_of s t)) as Hop by by apply put_only_page.
  set (s1 := with_term _ _ _).
  assert ((terminals s1).[t] = (terminals s).[t] <| c_x := u32 (x - 1) |>) as E1
    by (unfold s1; by rewrite with_term_get by exact Ht).
  rewrite E1. change (c_x ((terminals s).[t] <| c_x := u32 (x - 1) |>)) with (u32 (x - 1)).
  match goal with |- context [if ?b then ?s3 else s1] => set (s2 := if b then s3 else s1) end.
  assert (drawn P s s2 t (p mod 80) (p / 80)) as Hd.
  { apply (delete_cursor P s s1 t m x y); done. }
  rewrite (drawn_get P s s2 t _ _ Hok Hd).
  change (c_x (set_cursor _ ?a ?b)) with a. change (c_y (set_cursor _ ?a ?b)) with b.
  assert (0 ≤ p mod 80 < 80 ∧ 0 ≤ p / 80 < 25) as [Hx' Hy'] by (clear - Hpr; mlia).
  assert (con_ok P s2 t) as Hok2 by by apply (drawn_ok P s s2 t (p mod 80) (p / 80)).
  assert (vmem s2 = m ∧ dev s2 = dev s) as [Em Ed].
  { unfold s2. by destruct (_ =? _). }
  assert (cur_terminal s2 = t) as Ec by apply Hd.
  rewrite <- Ec in Hok2.
  destruct (move_csr_spec P s2 (p mod 80) (p / 80) Hok2 Hx' Hy') as (H1 & H2 & H3).
  rewrite Ec in *. split_and!.
  - exact (drawn_trans P s s2 _ t _ _ _ _ Hok Hd H1).
  - etransitivity; [exact (f_equal (λ z, view z (page_of s t)) (eq_trans H2 Em))|].
    by apply (view_put P).
  - etransitivity; [exact H3|]. rewrite Ed. f_equal. clear. mlia.
Qed.
End Terminal.
