(* ===== verification/ConsoleProps.v ===== *)
(** * Properties of the console

    Printing a character against the abstract screen, strings, and undoing a
    character with the delete routine. *)

From S2P Require Import Prelude Memory Lib Ports Types Console ConsoleProofs.
#[local] Open Scope Z_scope.

(** A terminal's screen after printing a list of characters. *)
Definition print_spec (cs : list Z) (st : list (Z * Z) * Z * Z) : list (Z * Z) * Z * Z :=
  fold_left (λ st c, putc_spec c st) cs st.

Section ConsoleProps.
Context {M : Type} `{!ByteMem M} {D : Type} `{!PortIO D}.
Implicit Types (s : console M D) (m : M) (t c x y : Z) (P : Z → Prop).

(** Everything but the screen and the cursor of terminal [t] is kept. *)
Record only_term P s s' t : Prop := {
  ot_len : length (terminals s') = length (terminals s);
  ot_other : ∀ u, u ≠ t → (terminals s').[u] = (terminals s).[u];
  ot_fields : ∃ x y, (terminals s').[t] = set_cursor (terminals s).[t] x y;
  ot_cur : cur_terminal s' = cur_terminal s;
  ot_page : only_page P (vmem s) (vmem s') (page_of s t)
}.

Lemma drawn_only P s s' t x y : con_ok P s t → drawn P s s' t x y → only_term P s s' t.
Proof.
  intros Hok Hd. split.
  - rewrite (dr_terms _ _ _ _ _ _ Hd). apply length_aset.
  - intros u Hu. by apply (drawn_other P s s' t x y).
  - exists x, y. by apply (drawn_get P).
  - apply Hd.
  - apply Hd.
Qed.

Lemma only_term_refl P s t : only_term P s s t.
Proof.
  split; try done. exists (c_x (terminals s).[t]), (c_y (terminals s).[t]). done.
Qed.

Lemma only_term_page P s s' t : only_term P s s' t → page_of s' t = page_of s t.
Proof. intros [_ _ (x & y & E) _ _]. unfold page_of. by rewrite E. Qed.

Lemma only_term_trans P s1 s2 s3 t :
  only_term P s1 s2 t → only_term P s2 s3 t → only_term P s1 s3 t.
Proof.
  intros H1 H2. pose proof (only_term_page _ _ _ _ H1) as Ep.
  destruct H1 as [L1 O1 (x1 & y1 & F1) C1 P1], H2 as [L2 O2 (x2 & y2 & F2) C2 P2].
  rewrite Ep in P2. split.
  - by rewrite L2.
  - intros u Hu. by rewrite O2, O1.
  - exists x2, y2. rewrite F2, F1. done.
  - by rewrite C2.
  - by apply (only_page_trans _ _ (vmem s2)).
Qed.

Lemma term_putc_step P s c t :
  con_ok P s t → 0 ≤ c < 256 →
  tview (term_putc s c t) t = putc_spec c (tview s t) ∧
  con_ok P (term_putc s c t) t ∧ only_term P s (term_putc s c t) t ∧
  dev (term_putc s c t) = dev s.
Proof.
  intros Hok Hc. pose proof (term_putc_drawn P s c t Hok Hc) as H.
  destruct (putc_spec c (tview s t)) as [[l x] y]. destruct H as (Hd & Hv & Hx & Hy & Hdev).
  pose proof (drawn_get P _ _ _ _ _ Hok Hd) as E.
  split_and!; [|by apply (drawn_ok P s _ t x y)|by apply (drawn_only P s _ t x y)|done].
  unfold tview, page_of. rewrite E. f_equal. f_equal. exact Hv.
Qed.

(** Printing several characters. *)
Lemma print_steps P t cs s :
  con_ok P s t → Forall (λ c, 0 ≤ c < 256) cs →
  let s' := fold_left (λ s c, term_putc s c t) cs s in
  tview s' t = print_spec cs (tview s t) ∧ con_ok P s' t ∧ only_term P s s' t ∧ dev s' = dev s.
Proof.
  intros Hok Hcs. revert s Hok. induction Hcs as [|c cs Hc Hcs IH]; intros s Hok; simpl.
  - split_and!; try done. apply only_term_refl.
  - destruct (term_putc_step P s c t Hok Hc) as (E & Hok' & Ho & Hdev).
    destruct (IH _ Hok') as (E' & Hok'' & Ho' & Hdev'). split_and!; [|done| |].
    + by rewrite E', E.
    + by apply (only_term_trans _ _ (term_putc s c t)).
    + by rewrite Hdev'.
Qed.

(** C37 (printing a character). On a terminal whose cursor is on the screen,
    [term_putc] does to the terminal's page and cursor exactly what the
    character-grid specification says (place the character in the default
    attribute and advance, wrap at column 80, scroll at row 25; newline and
    return go to the start of the next row).  The cursor stays on the screen
    and no other terminal and no other memory changes. *)
Theorem term_putc_refines P s c t :
  con_ok P s t → 0 ≤ c < 256 →
  tview (term_putc s c t) t = putc_spec c (tview s t) ∧
  con_ok P (term_putc s c t) t ∧ only_term P s (term_putc s c t) t.
Proof. intros Hok Hc. by destruct (term_putc_step P s c t Hok Hc) as (? & ? & ? & _). Qed.

(** (backspace undoes typing). On the terminal on the screen, printing any
    character except newline and return anywhere but in the last cell and then
    deleting puts the cursor back where it was, blanks that cell, changes
    nothing else on the screen, and the hardware cursor is sent there. *)
Theorem delete_undoes_putc P s c :
  let t := cur_terminal s in
  let '(l, x, y) := tview s t in
  con_ok P s t → 0 ≤ c < 256 → c ≠ 10 → c ≠ 13 → 80 * y + x < 1999 →
  let s' := term_delete_char (term_putc s c t) t in
  tview s' t = (l.[80 * y + x <- blank], x, y) ∧ only_term P s s' t ∧
  dev s' = csr_out (dev s) (80 * y + x).
Proof.
  intros t. unfold tview at 1. intros Hok Hc H10 H13 Hlast.
  pose proof Hok as [Ht Hp Hx Hy]. set (x := c_x _) in *. set (y := c_y _) in *.
  destruct (term_putc_step P s c t Hok Hc) as (E & Hok' & Ho & Hdev).
  set (s1 := term_putc s c t) in *.
  unfold putc_spec, tview at 2 in E. rewrite (proj2 (Z.eqb_neq c 10)), (proj2 (Z.eqb_neq c 13)) in E
    by done. simpl in E. fold x y in E.
  assert (y + (x + 1) / 80 ≠ 25) as Hne by (clear - Hx Hy Hlast; mlia).
  rewrite (proj2 (Z.eqb_neq _ 25)) in E by done.
  unfold tview in E. injection E as Ev Ex Ey.
  rewrite (only_term_page _ _ _ _ Ho) in Ev.
  assert (80 * (y + (x + 1) / 80) + (x + 1) mod 80 - 1 = 80 * y + x) as Epos by (clear; mlia).
  pose proof (ot_cur _ _ _ _ Ho) as Ec.
  pose proof (term_delete_char_spec P s1) as Hdel. cbv zeta in Hdel.
  rewrite Ec in Hdel. fold t in Hdel. rewrite Ex, Ey in Hdel. rewrite Epos in Hdel.
  rewrite (only_term_page _ _ _ _ Ho), Ev in Hdel.
  destruct Hdel as (Hd & Hv & Hdv); [done|lia|].
  assert (((80 * y + x) mod 80 = x) ∧ (80 * y + x) / 80 = y) as [Em Eq] by (clear - Hx; mlia).
  rewrite Em, Eq in Hd. rewrite aset_aset in Hv. split_and!.
  - pose proof (drawn_get P s1 _ t x y Hok' Hd) as Eg.
    pose proof (only_term_page _ _ _ _ Ho) as Ep.
    unfold tview, page_of. rewrite Eg. cbn. f_equal. f_equal.
    etransitivity; [|exact Hv]. f_equal. exact Ep.
  - apply (only_term_trans _ _ s1); [done|]. by apply (drawn_only P s1 _ t x y).
  - by rewrite Hdv, Hdev.
Qed.

(** The bytes of a string outside the page while it is being printed. *)
Lemma bytes_range m a n : Forall (λ c, 0 ≤ c < 256) (bytes m a n).
Proof. apply Forall_fmap, Forall_true. intros i. apply rd_range. Qed.

Lemma bytes_lookup m a n (i : nat) :
  Z.of_nat i < n → bytes m a n !! i = Some (rd m (a + Z.of_nat i)).
Proof.
  intros Hi. unfold bytes. rewrite list_lookup_fmap, lookup_seqZ_lt by lia. done.
Qed.

Lemma print_rd P s t cs a :
  con_ok P s t → Forall (λ c, 0 ≤ c < 256) cs → P a → ¬ region (page_of s t) 4000 a →
  rd (vmem (fold_left (λ s c, term_putc s c t) cs s)) a = rd (vmem s) a.
Proof.
  intros Hok Hcs Ha Hn. destruct (print_steps P t cs s Hok Hcs) as (_ & _ & Ho & _).
  by apply (ot_page _ _ _ _ Ho).
Qed.

Lemma puts_loop P s t str n :
  con_ok P s t → str_at (vmem s) str n → 0 ≤ str → str + n < 4294967296 →
  (∀ a, region str (n + 1) a → P a ∧ ¬ region (page_of s t) 4000 a) →
  while (λ '(s, index),
    if rd (vmem s) (u32 (str + index)) =? 0 then inr (s, index)
    else inl (putc s t (rd (vmem s) (u32 (str + index))), index + 1)) (s, 0) =
  Some (fold_left (λ s c, term_putc s c t) (bytes (vmem s) str n) s, n).
Proof.
  intros Hok (Hn0 & Hne & Hnul) Hs0 Hs1 Hreg. set (cs := bytes (vmem s) str n).
  assert (length cs = Z.to_nat n) as Hlen by (unfold cs, bytes; by rewrite length_fmap, length_seqZ).
  apply (while_eq _ (λ '(s', i), 0 ≤ i ≤ n ∧
      s' = fold_left (λ s c, term_putc s c t) (take (Z.to_nat i) cs) s) (λ '(_, i), n - i)).
  - intros [s' i] [Hi _]. lia.
  - intros [s' i] [Hi ->]. rewrite u32_small by lia.
    destruct (Hreg (str + i)) as [HP Hout]; [unfold region; lia|].
    rewrite (print_rd P) by (done || apply Forall_take, bytes_range).
    destruct (decide (i = n)) as [->|Hin].
    + rewrite Hnul. simpl. by rewrite take_ge by lia.
    + rewrite (proj2 (Z.eqb_neq _ 0)) by (apply Hne; lia). split; [|lia]. split; [lia|].
      replace (Z.to_nat (i + 1)) with (S (Z.to_nat i)) by lia.
      rewrite (take_S_r _ _ (rd (vmem s) (str + i))).
      * by rewrite fold_left_app.
      * unfold cs. rewrite bytes_lookup by lia. by rewrite Z2Nat.id by lia.
  - split; [lia|]. done.
  - lia.
Qed.

(** (printing a string). [puts] of a string that is not on the page prints
    its characters in order on terminal [t] and returns their number; but the
    hardware cursor, and the stored cursor of the terminal on the screen, are
    moved to the cursor of [t], also when [t] is another terminal. *)
Theorem puts_prints P s t str n :
  con_ok P s t → con_ok P s (cur_terminal s) →
  str_at (vmem s) str n → 0 ≤ str → str + n < 4294967296 →
  (∀ a, region str (n + 1) a → P a ∧ ¬ region (page_of s t) 4000 a) →
  ∃ s', puts s t str = Some (s', n) ∧
    let '(l, x, y) := print_spec (bytes (vmem s) str n) (tview s t) in
    view (vmem s') (page_of s t) = l ∧
    c_x (terminals s').[t] = x ∧ c_y (terminals s').[t] = y ∧
    c_x (terminals s').[cur_terminal s] = x ∧ c_y (terminals s').[cur_terminal s] = y ∧
    dev s' = csr_out (dev s) (80 * y + x).
Proof.
  intros Hok Hcur Hstr Hs0 Hs1 Hreg. unfold puts.
  rewrite (puts_loop P s t str n) by done. cbn [mbind option_bind].
  pose proof (bytes_range (vmem s) str n) as Hcs. set (cs := bytes (vmem s) str n) in *.
  destruct (print_steps P t cs s Hok Hcs) as (E & Hok' & Ho & Hdev).
  set (s1 := fold_left _ cs s) in *. eexists. split; [done|].
  rewrite <- E. unfold tview.
  pose proof (ot_cur _ _ _ _ Ho) as Ec.
  assert (con_ok P s1 (cur_terminal s1)) as Hcur'.
  { rewrite Ec. destruct (decide (cur_terminal s = t)) as [->|Hne]; [done|].
    destruct Hcur as [H1 H2 H3 H4]. split; unfold page_of; rewrite ?(ot_len _ _ _ _ Ho),
      ?(ot_other _ _ _ _ Ho) by done; try done.
    by apply (page_ok_cells P (vmem s)); [apply Ho|]. }
  destruct (move_csr_spec P s1 (c_x (terminals s1).[t]) (c_y (terminals s1).[t]) Hcur')
    as (Hd & Hm & Hdv); [apply Hok'..|].
  pose proof (drawn_get P _ _ _ _ _ Hcur' Hd) as Eg. rewrite Ec in Eg, Hd.
  split_and!.
  - rewrite Hm. by rewrite (only_term_page _ _ _ _ Ho).
  - destruct (decide (t = cur_terminal s)) as [->|Hne]; [by rewrite Eg|].
    by rewrite (drawn_other P _ _ _ _ _ t Hd).
  - destruct (decide (t = cur_terminal s)) as [->|Hne]; [by rewrite Eg|].
    by rewrite (drawn_other P _ _ _ _ _ t Hd).
  - by rewrite Eg.
  - by rewrite Eg.
  - by rewrite Hdv, Hdev.
Qed.
End ConsoleProps.

(** ** Witnesses *)

(** Three terminals on flat memory, with a string at 0x1000. *)
Definition demo_terminal (i : Z) : terminal :=
  zero_terminal <| video_mem := 0xB8000 + 4096 * (i + 1) |>.

Definition demo_console : console (gmap Z Z) (list (Z * Z)) :=
  mk_console [demo_terminal 0; demo_terminal 1; demo_terminal 2] 0
             (flat_of 0x1000 [72; 105; 0]) [].

Lemma demo_con_ok t : 0 ≤ t < 3 → con_ok (λ _, True) demo_console t.
Proof.
  intros Ht. assert (t = 0 ∨ t = 1 ∨ t = 2) as [->|[->| ->]] by lia;
    (split; [simpl; lia| |change (0 ≤ 0 < 80); lia|change (0 ≤ 0 < 25); lia];
     split; [|apply flat_safe|done]; by vm_compute).
Qed.

Lemma term_putc_refines_witness :
  tview (term_putc demo_console 65 1) 1 = putc_spec 65 (tview demo_console 1) ∧
  con_ok (λ _, True) (term_putc demo_console 65 1) 1 ∧
  only_term (λ _, True) demo_console (term_putc demo_console 65 1) 1.
Proof.
  exact (term_putc_refines (λ _, True) demo_console 65 1 (demo_con_ok 1 ltac:(lia)) ltac:(lia)).
Defined.

Lemma delete_undoes_putc_witness :
  let s' := term_delete_char (term_putc demo_console 65 0) 0 in
  tview s' 0 = ((view (vmem demo_console) 0xB9000).[80 * 0 + 0 <- blank], 0, 0) ∧
  only_term (λ _, True) demo_console s' 0 ∧ dev s' = csr_out [] (80 * 0 + 0).
Proof.
  exact (delete_undoes_putc (λ _, True) demo_console 65 (demo_con_ok 0 ltac:(lia))
    ltac:(lia) ltac:(lia) ltac:(lia) eq_refl).
Defined.

(** Printing "Hi" on terminal 1 moves the cursor of terminal 0, which is on
    the screen, to column 2. *)
Lemma puts_prints_witness :
  ∃ s', puts demo_console 1 0x1000 = Some (s', 2) ∧
    let '(l, x, y) := print_spec (bytes (vmem demo_console) 0x1000 2) (tview demo_console 1) in
    view (vmem s') (page_of demo_console 1) = l ∧
    c_x (terminals s').[1] = x ∧ c_y (terminals s').[1] = y ∧
    c_x (terminals s').[0] = x ∧ c_y (terminals s').[0] = y ∧
    dev s' = csr_out [] (80 * y + x).
Proof.
  apply (puts_prints (λ _, True) demo_console 1 0x1000 2);
    [apply demo_con_ok; lia|apply demo_con_ok; change (0 ≤ 0 < 3); lia| |lia|lia|].
  - split; [lia|]. split; [|reflexivity]. intros i Hi.
    assert (i = 0 ∨ i = 1) as [->| ->] by lia; vm_compute; discriminate.
  - intros a Ha. split; [done|]. change (page_of demo_console 1) with 0xBA000. unfold region in *. lia.
Defined.

Example demo_hi_cursor : (print_spec [72; 105] (replicate 2000 blank, 0, 0)).1.2 = 2.
Proof. reflexivity. Qed.
