(* ===== verification/Printf.v ===== *)
(** * printf (student-distrib/lib.c)

    The formatted output of the kernel, on the terminal of the calling
    process.  The arguments lie behind the format pointer on the stack, the
    digits of a number are made in a local buffer, and the characters go out
    through [putc] and [puts].  The theorem compares it with a formatter on
    lists. *)

From S2P Require Import Prelude Memory Lib Ports Types Console ConsoleProofs ConsoleProps.
#[local] Open Scope Z_scope.

(** The addresses of the three local arrays [conv_buf]. *)
Record conv_bufs := mk_conv_bufs { cb_x : Z; cb_u : Z; cb_d : Z }.

Section Code.
Context {M : Type} `{!ByteMem M} {D : Type} `{!PortIO D}.
Implicit Types (s : console M D) (m : M) (t c i : Z).

(** [while(i < 8) { conv_buf[i] = '0'; i++; }] *)
Definition pad_step (cb : Z) (st : M * Z) : (M * Z) + M :=
  let '(m, i) := st in
  if i <? 8 then inl (wr m (u32 (cb + i)) 48, s32 (i + 1)) else inr m.

(** [%x] and [%#x] *)
Definition conv_x s t (alternate : bool) (value cb : Z) : option (console M D) :=
  if negb alternate then
    m ← itoa (vmem s) value cb 16;
    fst <$> puts (s <| vmem := m |>) t cb
  else
    m ← itoa (vmem s) value (cb + 8) 16;
    n ← strlen m (cb + 8);
    let starting_index := s32 n in
    m ← while (pad_step cb) (m, starting_index);
    fst <$> puts (s <| vmem := m |>) t (cb + starting_index).

(** [%u] *)
Definition conv_u s t (value cb : Z) : option (console M D) :=
  m ← itoa (vmem s) value cb 10;
  fst <$> puts (s <| vmem := m |>) t cb.

(** [%d] *)
Definition conv_d s t (word cb : Z) : option (console M D) :=
  let value := s32 word in
  m ← (if value <? 0 then itoa (wr (vmem s) cb 45) (u32 (- value)) (cb + 1) 10
       else itoa (vmem s) value cb 10);
  fst <$> puts (s <| vmem := m |>) t cb.

(** The inner switch: the new state and argument pointer. *)
Definition convert (L : conv_bufs) s t (alternate : bool) (c esp : Z)
    : option (console M D * Z) :=
  let word := load32 (vmem s) esp in
  if c =? 37 then Some (putc s t 37, esp)
  else if c =? 120 then s ← conv_x s t alternate word (cb_x L); Some (s, esp + 4)
  else if c =? 117 then s ← conv_u s t word (cb_u L); Some (s, esp + 4)
  else if c =? 100 then s ← conv_d s t word (cb_d L); Some (s, esp + 4)
  else if c =? 99 then Some (putc s t (u8 word), esp + 4)
  else if c =? 115 then '(s, _) ← puts s t word; Some (s, esp + 4)
  else Some (s, esp).

(** [case '#': alternate = 1; buf++; goto format_char_switch;] *)
Definition hash_step m (st : Z * bool) : (Z * bool) + (Z * bool) :=
  let '(buf, alternate) := st in
  if rd m (u32 buf) =? 35 then inl (buf + 1, true) else inr (buf, alternate).

Definition printf_step (L : conv_bufs) t (st : console M D * Z * Z)
    : (console M D * Z * Z) + option (console M D * Z) :=
  let '(s, buf, esp) := st in
  let c := rd (vmem s) (u32 buf) in
  if c =? 0 then inr (Some (s, buf))
  else if c =? 37 then
    match
      '(buf, alternate) ← while (hash_step (vmem s)) (buf + 1, false);
      '(s, esp) ← convert L s t alternate (rd (vmem s) (u32 buf)) esp;
      Some (s, buf, esp)
    with
    | None => inr None
    | Some (s, buf, esp) => inl (s, buf + 1, esp)
    end
  else inl (putc s t c, buf + 1, esp).

(** [esp] is the address behind the parameter [format]. *)
Definition printf (L : conv_bufs) s t (format esp : Z) : option (console M D * Z) :=
  r ← while (printf_step L t) (s, format, esp);
  '(s, buf) ← r;
  Some (s, buf - format).
End Code.

(** ** The reference formatter *)

(** The digits of [v] in base [r]; [n] bounds their number. *)
Fixpoint num_text (n : nat) (r v : Z) : list Z :=
  match n with
  | O => []
  | S n => if v <? r then [lookup_digits.[v]] else num_text n r (v / r) ++ [lookup_digits.[v mod r]]
  end.

Definition hex_text (v : Z) : list Z := num_text 32 16 v.
Definition dec_text (v : Z) : list Z := num_text 32 10 v.

(** Zeros in front, up to eight characters. *)
Definition pad8 (l : list Z) : list Z := replicate (8 - length l) 48 ++ l.

(** Which conversions take an argument. *)
Definition takes_arg (c : Z) : bool :=
  (c =? 120) || (c =? 117) || (c =? 100) || (c =? 99) || (c =? 115).

(** The text of a conversion; [strs a] is the string at address [a]. *)
Definition conv_text (strs : Z → list Z) (alternate : bool) (c word : Z) : list Z :=
  if c =? 37 then [37]
  else if c =? 120 then (if alternate then pad8 (hex_text word) else hex_text word)
  else if c =? 117 then dec_text word
  else if c =? 100 then (if s32 word <? 0 then 45 :: dec_text (- s32 word) else dec_text (s32 word))
  else if c =? 99 then [u8 word]
  else if c =? 115 then strs word
  else [].

(** [conv] is [Some alternate] inside a conversion. *)
Fixpoint format_text (strs : Z → list Z) (f : list Z) (conv : option bool) (args : list Z)
    : list Z :=
  match f with
  | [] => []
  | c :: f =>
      match conv with
      | None =>
          if c =? 37 then format_text strs f (Some false) args
          else c :: format_text strs f None args
      | Some alternate =>
          if c =? 35 then format_text strs f (Some true) args
          else conv_text strs alternate c args.[0]
               ++ format_text strs f None (if takes_arg c then drop 1 args else args)
      end
  end.

(** The format does not end inside a conversion, every conversion has its
    argument, and the arguments of [%s] satisfy [Q]. *)
Fixpoint format_ok (Q : Z → Prop) (f : list Z) (conv : option bool) (args : list Z) : Prop :=
  match f with
  | [] => conv = None
  | c :: f =>
      match conv with
      | None => if c =? 37 then format_ok Q f (Some false) args else format_ok Q f None args
      | Some alternate =>
          if c =? 35 then format_ok Q f (Some true) args
          else
            (takes_arg c = true → args ≠ []) ∧ (c = 115 → Q args.[0]) ∧
            format_ok Q f None (if takes_arg c then drop 1 args else args)
      end
  end.

Example format_text_ex :
  format_text (λ _, [104; 105]) [37; 35; 120; 32; 37; 100; 37; 37; 37; 115] None [0xBEEF; 0xFFFFFFFF; 7]
  = [48; 48; 48; 48; 66; 69; 69; 70; 32; 45; 49; 37; 104; 105].
Proof. reflexivity. Qed.

(** ** Proofs *)

Lemma num_text_digits n r v k :
  2 ≤ r ≤ 36 → 0 ≤ v < r ^ k → k = 1 ∨ r ^ (k - 1) ≤ v → 1 ≤ k ≤ Z.of_nat n →
  num_text n r v = (λ i, digit_char v r (k - 1 - i)) <$> seqZ 0 k.
Proof.
  intros Hr. revert v k. induction n as [|n IH]; intros v k Hv Hk Hn; [lia|]. simpl.
  destruct (Z.ltb_spec v r) as [Hlt|Hge].
  - assert (k = 1) as ->.
    { destruct Hk as [|Hk]; [done|]. destruct (decide (k = 1)) as [|Hne]; [done|exfalso].
      assert (r ^ 1 ≤ r ^ (k - 1)) by (apply Z.pow_le_mono_r; lia). lia. }
    change (seqZ 0 1) with [0]. simpl. unfold digit_char. rewrite Z.pow_0_r, Z.div_1_r.
    by rewrite Z.mod_small by lia.
  - assert (k ≠ 1) as Hk1 by (intros ->; rewrite Z.pow_1_r in Hv; lia).
    destruct Hk as [|Hk]; [done|].
    assert (r ^ k = r * r ^ (k - 1)) as Ek.
    { rewrite <- Z.pow_succ_r by lia. f_equal. lia. }
    rewrite (IH (v / r) (k - 1)).
    + assert (seqZ 0 k = seqZ 0 (k - 1) ++ [k - 1]) as ->.
      { replace k with ((k - 1) + 1) at 1 by lia. by rewrite seqZ_app by lia. }
      rewrite fmap_app. f_equal.
      * apply list_fmap_ext. intros j i Hi. apply lookup_seqZ in Hi as [-> Hi].
        unfold digit_char. do 2 f_equal. rewrite Z.div_div by nia.
        rewrite <- Z.pow_succ_r by lia. do 2 f_equal. lia.
      * simpl. unfold digit_char. rewrite Z.sub_diag, Z.pow_0_r, Z.div_1_r. done.
    + split; [apply Z.div_pos; lia|]. apply Z.div_lt_upper_bound; [lia|]. rewrite <- Ek. lia.
    + destruct (decide (k = 2)) as [->|]; [by left|right].
      apply Z.div_le_lower_bound; [lia|]. rewrite <- Z.pow_succ_r by lia.
      replace (Z.succ (k - 1 - 1)) with (k - 1) by lia. done.
    + lia.
Qed.

Section Proofs.
Context {M : Type} `{!ByteMem M} {D : Type} `{!PortIO D}.
Implicit Types (s : console M D) (m : M) (t c i a : Z) (P B : Z → Prop) (l : list Z).

(** The string [l] and its NUL lie at [a]. *)
Definition text_at m a l : Prop :=
  str_at m a (Z.of_nat (length l)) ∧ bytes m a (Z.of_nat (length l)) = l.

Lemma text_at_intro m a l :
  (∀ i, 0 ≤ i < Z.of_nat (length l) → rd m (a + i) = l.[i] ∧ l.[i] ≠ 0) →
  rd m (a + Z.of_nat (length l)) = 0 → text_at m a l.
Proof.
  intros Hl H0. split.
  - split; [lia|]. split; [|done]. intros i Hi. destruct (Hl i Hi) as [-> ?]. done.
  - apply aget_ext.
    + unfold bytes. rewrite length_fmap, length_seqZ. lia.
    + intros i Hi. unfold bytes in Hi. rewrite length_fmap, length_seqZ in Hi.
      replace i with (Z.of_nat (Z.to_nat i)) at 1 by lia.
      rewrite (aget_lookup _ _ (rd m (a + i))); [apply Hl; lia|lia|].
      rewrite bytes_lookup by lia. do 3 f_equal. lia.
Qed.

Lemma text_at_rd m a l i :
  text_at m a l → 0 ≤ i < Z.of_nat (length l) → rd m (a + i) = l.[i].
Proof.
  intros [_ Hb] Hi. rewrite <- Hb. symmetry. apply aget_lookup; [lia|].
  rewrite bytes_lookup by lia. do 2 f_equal. lia.
Qed.

Lemma text_at_ext m m' a l :
  (∀ i, 0 ≤ i ≤ Z.of_nat (length l) → rd m' (a + i) = rd m (a + i)) →
  text_at m a l → text_at m' a l.
Proof.
  intros Hr [(H0 & Hn & Hz) Hb]. split.
  - split; [done|]. split; [intros i Hi; rewrite Hr by lia; by apply Hn|]. by rewrite Hr by lia.
  - rewrite <- Hb at 2. unfold bytes. apply list_fmap_ext. intros j i Hi.
    apply lookup_seqZ in Hi as [-> Hi]. apply Hr. lia.
Qed.

(** [itoa] writes the digits of the number. *)
Lemma itoa_text_inv P I m value buf r :
  0 ≤ value < 4294967296 → 2 ≤ r ≤ 36 → safe m P → (∀ a, region buf 33 a → P a) →
  wr_closed (region buf 33) I → I m →
  ∃ m', itoa m value buf r = Some m' ∧ text_at m' buf (num_text 32 r value) ∧
    value < r ^ Z.of_nat (length (num_text 32 r value)) ∧
    1 ≤ Z.of_nat (length (num_text 32 r value)) ≤ 32 ∧
    (length (num_text 32 r value) = 1%nat ∨
      r ^ (Z.of_nat (length (num_text 32 r value)) - 1) ≤ value) ∧
    ctl m' = ctl m ∧
    (∀ b, P b → ¬ region buf 33 b → rd m' b = rd m b) ∧ I m'.
Proof.
  intros Hv Hr Hs HP HI HIm.
  destruct (itoa_written P I m value buf r Hv Hr Hs HP HI HIm) as (m' & k & E & Hk & Hlt & Hge & Hw & HI').
  exists m'. split; [done|].
  rewrite (num_text_digits 32 r value k) by (done || lia).
  rewrite length_fmap, length_seqZ, Z2Nat.id by lia. split_and!; try done; try lia.
  - apply text_at_intro; rewrite length_fmap, length_seqZ, Z2Nat.id by lia.
    + intros i Hi. rewrite (written_in _ _ _ _ _ _ _ Hw); [|apply HP; unfold region; lia|lia].
      rewrite (proj2 (Z.ltb_lt _ k)) by lia.
      rewrite (aget_lookup _ i (digit_char value r (k - 1 - i))); [|lia|].
      * replace (buf + i - buf) with i by lia. split; [done|].
        pose proof (digit_char_range value r (k - 1 - i) Hr). lia.
      * rewrite list_lookup_fmap, lookup_seqZ_lt by lia. simpl. do 2 f_equal. lia.
    + rewrite (written_in _ _ _ _ _ _ _ Hw); [|apply HP; unfold region; lia|lia].
      by rewrite (proj2 (Z.ltb_ge _ k)) by lia.
  - apply Hw.
  - intros b Hb Hn. apply (written_out _ _ _ _ _ _ _ Hw); [done|]. unfold region in Hn. lia.
Qed.

Lemma itoa_text P m value buf r :
  0 ≤ value < 4294967296 → 2 ≤ r ≤ 36 → safe m P → (∀ a, region buf 33 a → P a) →
  ∃ m', itoa m value buf r = Some m' ∧ text_at m' buf (num_text 32 r value) ∧
    value < r ^ Z.of_nat (length (num_text 32 r value)) ∧
    1 ≤ Z.of_nat (length (num_text 32 r value)) ≤ 32 ∧
    (length (num_text 32 r value) = 1%nat ∨
      r ^ (Z.of_nat (length (num_text 32 r value)) - 1) ≤ value) ∧
    ctl m' = ctl m ∧
    (∀ b, P b → ¬ region buf 33 b → rd m' b = rd m b).
Proof.
  intros Hv Hr Hs HP.
  destruct (itoa_text_inv P (λ _, True) m value buf r Hv Hr Hs HP) as (m' & H); [done|done|].
  exists m'. split_and!; apply H.
Qed.

(** [s'] is [s] with the text [out] printed on terminal [t]: memory outside
    the page and the local buffers [B] is kept, and so are all terminals but
    for the cursors of [t] and of the terminal on the screen. *)
Record printed P B s s' t (out : list Z) : Prop := {
  pr_view : tview s' t = print_spec out (tview s t);
  pr_ok : con_ok P s' t;
  pr_cur_ok : con_ok P s' (cur_terminal s');
  pr_cur : cur_terminal s' = cur_terminal s;
  pr_len : length (terminals s') = length (terminals s);
  pr_terms : ∀ u, ∃ x y, (terminals s').[u] = set_cursor (terminals s).[u] x y;
  pr_other : ∀ u, u ≠ t → u ≠ cur_terminal s → (terminals s').[u] = (terminals s).[u];
  pr_ctl : ctl (vmem s') = ctl (vmem s);
  pr_mem : ∀ a, P a → ¬ region (page_of s t) 4000 a → ¬ B a → rd (vmem s') a = rd (vmem s) a
}.

Lemma printed_page P B s s' t out u : printed P B s s' t out → page_of s' u = page_of s u.
Proof. intros Hp. destruct (pr_terms _ _ _ _ _ _ Hp u) as (x & y & E). unfold page_of. by rewrite E. Qed.

Lemma set_cursor_same T : set_cursor T (c_x T) (c_y T) = T.
Proof. done. Qed.

Lemma printed_refl P B s t :
  con_ok P s t → con_ok P s (cur_terminal s) → printed P B s s t [].
Proof.
  intros H1 H2. split; try done. intros u. eexists _, _. symmetry. apply set_cursor_same.
Qed.

Lemma printed_trans P B s1 s2 s3 t o1 o2 :
  printed P B s1 s2 t o1 → printed P B s2 s3 t o2 → printed P B s1 s3 t (o1 ++ o2).
Proof.
  intros H1 H2. split.
  - rewrite (pr_view _ _ _ _ _ _ H2), (pr_view _ _ _ _ _ _ H1). unfold print_spec.
    by rewrite fold_left_app.
  - apply H2.
  - apply H2.
  - by rewrite (pr_cur _ _ _ _ _ _ H2), (pr_cur _ _ _ _ _ _ H1).
  - by rewrite (pr_len _ _ _ _ _ _ H2), (pr_len _ _ _ _ _ _ H1).
  - intros u. destruct (pr_terms _ _ _ _ _ _ H1 u) as (x1 & y1 & E1).
    destruct (pr_terms _ _ _ _ _ _ H2 u) as (x2 & y2 & E2). exists x2, y2. by rewrite E2, E1.
  - intros u Ht Hu. rewrite (pr_other _ _ _ _ _ _ H2); [|done|by rewrite (pr_cur _ _ _ _ _ _ H1)].
    by apply (pr_other _ _ _ _ _ _ H1).
  - by rewrite (pr_ctl _ _ _ _ _ _ H2), (pr_ctl _ _ _ _ _ _ H1).
  - intros a HP Hp HB. rewrite (pr_mem _ _ _ _ _ _ H2); [by apply (pr_mem _ _ _ _ _ _ H1)|done| |done].
    by rewrite (printed_page _ _ _ _ _ _ _ H1).
Qed.

(** Drawing on one terminal keeps the one on the screen usable. *)
Lemma only_term_cur P s s' t :
  con_ok P s (cur_terminal s) → con_ok P s' t → only_term P s s' t →
  con_ok P s' (cur_terminal s').
Proof.
  intros Hcur Hok Ho. rewrite (ot_cur _ _ _ _ Ho).
  destruct (decide (cur_terminal s = t)) as [->|Hne]; [done|].
  destruct Hcur as [H1 H2 H3 H4]. split; unfold page_of;
    rewrite ?(ot_len _ _ _ _ Ho), ?(ot_other _ _ _ _ Ho) by done; try done.
  by apply (page_ok_cells P (vmem s)); [apply Ho|].
Qed.

Lemma only_term_printed P B s s' t out :
  con_ok P s (cur_terminal s) → con_ok P s' t → only_term P s s' t →
  tview s' t = print_spec out (tview s t) → printed P B s s' t out.
Proof.
  intros Hcur Hok Ho Hv. split; try done.
  - by apply (only_term_cur P s s' t).
  - apply Ho.
  - apply Ho.
  - intros u. destruct (decide (u = t)) as [->|Hne]; [apply Ho|].
    rewrite (ot_other _ _ _ _ Ho) by done. eexists _, _. symmetry. apply set_cursor_same.
  - intros u Ht _. by apply (ot_other _ _ _ _ Ho).
  - apply Ho.
  - intros a HP Hp _. by apply Ho.
Qed.

Lemma putc_printed P B s t c :
  con_ok P s t → con_ok P s (cur_terminal s) → 0 ≤ c < 256 → printed P B s (putc s t c) t [c].
Proof.
  intros Hok Hcur Hc. destruct (term_putc_step P s c t Hok Hc) as (E & Hok' & Ho & _).
  by apply only_term_printed.
Qed.

(** Moving the cursor to where terminal [t] has it. *)
Lemma move_csr_printed P B s t :
  con_ok P s t → con_ok P s (cur_terminal s) →
  printed P B s (move_csr s (c_x (terminals s).[t]) (c_y (terminals s).[t])) t [].
Proof.
  intros Hok Hcur.
  destruct (move_csr_spec P s (c_x (terminals s).[t]) (c_y (terminals s).[t]) Hcur)
    as (Hd & Hm & _); [apply Hok..|].
  set (s' := move_csr _ _ _) in *.
  assert ((terminals s').[t] = (terminals s).[t]) as Et.
  { destruct (decide (t = cur_terminal s)) as [E|Hne].
    - rewrite E at 1. rewrite (drawn_get P _ _ _ _ _ Hcur Hd). rewrite <- E. apply set_cursor_same.
    - by apply (drawn_other P _ _ _ _ _ t Hd). }
  assert (con_ok P s' (cur_terminal s)) as Hcur'
    by (apply (drawn_ok _ _ _ _ _ _ Hcur Hd); apply Hok).
  pose proof Hd as [Hts Hc Hop]. split.
  - unfold tview, page_of. by rewrite Et, Hm.
  - destruct Hok as [H1 H2 H3 H4]. split; unfold page_of; rewrite ?Et; try done.
    by rewrite Hts, length_aset.
  - by rewrite Hc.
  - done.
  - by rewrite Hts, length_aset.
  - intros u. destruct (decide (u = cur_terminal s)) as [->|Hne].
    + rewrite (drawn_get P _ _ _ _ _ Hcur Hd). by eexists _, _.
    + rewrite (drawn_other P _ _ _ _ _ u Hd) by done. eexists _, _. symmetry. apply set_cursor_same.
  - intros u _ Hu. by apply (drawn_other P _ _ _ _ _ u Hd).
  - by rewrite Hm.
  - intros a _ _ _. by rewrite Hm.
Qed.

Lemma puts_printed P B s t str l :
  con_ok P s t → con_ok P s (cur_terminal s) → text_at (vmem s) str l →
  0 ≤ str → str + Z.of_nat (length l) < 4294967296 →
  (∀ a, region str (Z.of_nat (length l) + 1) a → P a ∧ ¬ region (page_of s t) 4000 a) →
  ∃ s', puts s t str = Some (s', Z.of_nat (length l)) ∧ printed P B s s' t l.
Proof.
  intros Hok Hcur [Hstr Hl] H0 H1 Hreg. unfold puts.
  rewrite (puts_loop P s t str _ Hok Hstr H0 H1 Hreg), bind_some. rewrite Hl.
  eexists. split; [done|].
  assert (Forall (λ c, 0 ≤ c < 256) l) as Hr by (rewrite <- Hl; apply bytes_range).
  destruct (print_steps P t l s Hok Hr) as (E & Hok' & Ho & _).
  set (s1 := fold_left _ l s) in *.
  assert (printed P B s s1 t l) as Hp by by apply only_term_printed.
  rewrite <- (app_nil_r l). apply (printed_trans _ _ _ s1); [done|].
  apply move_csr_printed; apply Hp.
Qed.

(** A new content of the local buffers. *)
Lemma scratch_printed P B s t m :
  con_ok P s t → con_ok P s (cur_terminal s) →
  (∀ a, B a → ¬ region (page_of s t) 4000 a) →
  ctl m = ctl (vmem s) → (∀ a, P a → ¬ B a → rd m a = rd (vmem s) a) →
  printed P B s (s <| vmem := m |>) t [].
Proof.
  intros Hok Hcur HB Hc Hm.
  assert (∀ u, con_ok P s u → con_ok P (s <| vmem := m |>) u) as Hall.
  { intros u [H1 H2 H3 H4]. split; try done. by apply (page_ok_cells P (vmem s)). }
  split; try done; [|by apply Hall|by apply Hall| |].
  - unfold tview. cbn. f_equal. f_equal. apply view_ext. intros k Hk.
    assert (region (page_of s t) 4000 (page_of s t + k)) as Hr by (unfold region; lia).
    apply Hm; [by apply (po_sub _ _ _ (co_page _ _ _ Hok))|]. intros Hb. by apply (HB _ Hb).
  - intros u. eexists _, _. symmetry. apply set_cursor_same.
  - intros a HP _ Hb. by apply Hm.
Qed.

Lemma scratch_puts P B s t m a l :
  con_ok P s t → con_ok P s (cur_terminal s) →
  (∀ a, B a → P a ∧ ¬ region (page_of s t) 4000 a) →
  ctl m = ctl (vmem s) → (∀ a, P a → ¬ B a → rd m a = rd (vmem s) a) →
  text_at m a l → 0 ≤ a → a + Z.of_nat (length l) < 4294967296 →
  (∀ b, region a (Z.of_nat (length l) + 1) b → B b) →
  ∃ s', fst <$> puts (s <| vmem := m |>) t a = Some s' ∧ printed P B s s' t l.
Proof.
  intros Hok Hcur HB Hc Hm Ht H0 H1 Hreg.
  assert (printed P B s (s <| vmem := m |>) t []) as Hs.
  { apply scratch_printed; try done. intros b Hb. by apply HB. }
  destruct (puts_printed P B (s <| vmem := m |>) t a l) as (s' & E & Hp);
    [apply Hs|apply Hs|exact Ht|lia|lia|intros b Hb; apply HB, Hreg, Hb|].
  exists s'. rewrite E. split; [done|]. rewrite <- (app_nil_l l). by apply (printed_trans _ _ _ _ _ _ _ _ Hs).
Qed.

(** ** The conversions *)

Section Convert.
Context (P B : Z → Prop) (L : conv_bufs) (s : console M D) (t : Z).
Context (Hok : con_ok P s t) (Hcur : con_ok P s (cur_terminal s)).
Context (HB : ∀ a, B a → P a ∧ 0 ≤ a < 4294967296 ∧ ¬ region (page_of s t) 4000 a).
Context (Hx : ∀ a, region (cb_x L) 64 a → B a) (Hu : ∀ a, region (cb_u L) 36 a → B a)
  (Hd : ∀ a, region (cb_d L) 36 a → B a).

Local Lemma buf_range a n : 0 < n → (∀ b, region a n b → B b) → 0 ≤ a ∧ a + n ≤ 4294967296.
Proof using HB.
  intros Hn Ha. destruct (HB a) as (_ & H1 & _); [apply Ha; unfold region; lia|].
  destruct (HB (a + n - 1)) as (_ & H2 & _); [apply Ha; unfold region; lia|]. lia.
Qed.

Local Lemma safe_vmem : safe (vmem s) P.
Proof using Hok. apply Hok. Qed.

(** Digits of a number in a buffer of at least 34 bytes, printed. *)
Lemma number_printed value a r :
  0 ≤ value < 4294967296 → 2 ≤ r ≤ 36 → (∀ b, region a 33 b → B b) →
  ∃ s', (m ← itoa (vmem s) value a r; fst <$> puts (s <| vmem := m |>) t a) = Some s' ∧
        printed P B s s' t (num_text 32 r value).
Proof using Hok Hcur HB.
  intros Hv Hr Ha. destruct (buf_range a 33) as [H0 H1]; [lia|done|].
  destruct (itoa_text P (vmem s) value a r) as (m & E & Ht & _ & Hl & _ & Hc & Hm);
    [done|done|apply safe_vmem|intros b Hb; apply HB, Ha, Hb|].
  rewrite E, bind_some. apply scratch_puts; try done; try lia.
  - intros b Hb. destruct (HB b Hb) as (? & _ & ?). done.
  - intros b Hb Hn. apply Hm; [done|]. intros Hr'. by apply Hn, Ha.
  - intros b Hb. apply Ha. unfold region in *. lia.
Qed.

Lemma conv_u_printed value : 0 ≤ value < 4294967296 →
  ∃ s', conv_u s t value (cb_u L) = Some s' ∧ printed P B s s' t (dec_text value).
Proof using Hok Hcur HB Hu.
  intros Hv. apply number_printed; [done|lia|]. intros b Hb. apply Hu. unfold region in *. lia.
Qed.

Lemma conv_d_printed word : 0 ≤ word < 4294967296 →
  ∃ s', conv_d s t word (cb_d L) = Some s' ∧
    printed P B s s' t
      (if s32 word <? 0 then 45 :: dec_text (- s32 word) else dec_text (s32 word)).
Proof using Hok Hcur HB Hd.
  intros Hw. unfold conv_d. cbv zeta.
  assert (-2147483648 ≤ s32 word < 2147483648) as Hs by mlia. set (v := s32 word) in *.
  destruct (Z.ltb_spec v 0) as [Hneg|Hpos].
  2: { apply number_printed; [lia|lia|]. intros b Hb. apply Hd. unfold region in *. lia. }
  destruct (buf_range (cb_d L) 36) as [H0 H1]; [lia|done|].
  assert (∀ b, region (cb_d L) 36 b → P b) as HdP by (intros b Hb; apply HB, Hd, Hb).
  assert (P (cb_d L)) as HP0 by (apply HdP; unfold region; lia).
  rewrite u32_small by lia.
  destruct (itoa_text P (wr (vmem s) (cb_d L) 45) (- v) (cb_d L + 1) 10)
    as (m & E & Ht & _ & Hl & _ & Hc & Hm);
    [lia|lia|apply safe_wr, safe_vmem|intros b Hb; apply HdP; unfold region in *; lia|].
  rewrite E, bind_some. apply scratch_puts; try done; try (simpl length; unfold dec_text; lia).
  - intros b Hb. destruct (HB b Hb) as (? & _ & ?). done.
  - by rewrite Hc, ctl_wr.
  - intros b Hb Hn. rewrite Hm; [|done|intros Hr; apply Hn, Hd; unfold region in *; lia].
    rewrite (rd_wr_safe _ P) by (done || apply safe_vmem).
    rewrite decide_False; [done|]. intros <-. apply Hn, Hd. unfold region. lia.
  - fold (dec_text (- v)) in Ht, Hl. apply text_at_intro.
    + intros i Hi. simpl length in Hi. destruct (decide (i = 0)) as [->|Hi0].
      * rewrite Z.add_0_r, Hm; [|done|unfold region; lia].
        rewrite (rd_wr_safe _ P) by (done || apply safe_vmem). by rewrite decide_True.
      * replace (cb_d L + i) with (cb_d L + 1 + (i - 1)) by lia.
        assert ((45 :: dec_text (- v)).[i] = (dec_text (- v)).[i - 1]) as ->.
        { replace i with (1 + (i - 1)) at 1 by lia.
          rewrite (aget_app_r [45] (dec_text (- v))) by (simpl; lia). f_equal. simpl. lia. }
        rewrite <- (text_at_rd _ _ _ (i - 1) Ht) by lia. split; [done|].
        apply Ht. lia.
    + simpl length. replace (cb_d L + _) with (cb_d L + 1 + Z.of_nat (length (dec_text (- v)))) by lia.
      apply Ht.
  - intros b Hb. apply Hd. simpl length in Hb. unfold dec_text, region in *. lia.
Qed.

Lemma pad_loop m cb k :
  0 ≤ k ≤ 8 → safe m P → 0 ≤ cb → cb + 8 ≤ 4294967296 → (∀ b, region cb 8 b → P b) →
  ∃ m', while (pad_step cb) (m, k) = Some m' ∧ written P m m' (cb + k) (8 - k) (λ _, 48).
Proof using.
  intros Hk Hs H0 H1 HP.
  apply (while_total (pad_step cb)
    (λ '(m', i), k ≤ i ≤ 8 ∧ written P m m' (cb + k) (i - k) (λ _, 48)) (λ '(_, i), 8 - i)).
  - intros [m' i] [Hi _]. lia.
  - intros [m' i] [Hi Hw]. unfold pad_step. destruct (Z.ltb_spec i 8) as [Hlt|Hge].
    + rewrite u32_small, s32_small by lia. split; [|lia]. split; [lia|].
      replace (i + 1 - k) with (i - k + 1) by lia. replace (cb + i) with (cb + k + (i - k)) by lia.
      apply written_snoc; try done; [|lia]. intros b Hb. apply HP. unfold region in *. lia.
    + by replace i with 8 in * by lia.
  - split; [lia|]. apply written_0. lia.
  - lia.
Qed.

Lemma hex_length v : 0 ≤ v < 4294967296 →
  (length (hex_text v) = 1%nat ∨ 16 ^ (Z.of_nat (length (hex_text v)) - 1) ≤ v) →
  1 ≤ Z.of_nat (length (hex_text v)) → Z.of_nat (length (hex_text v)) ≤ 8.
Proof using.
  intros Hv [->|Hl] H1; [lia|]. destruct (Z.le_gt_cases (Z.of_nat (length (hex_text v))) 8); [done|].
  assert (16 ^ 8 ≤ 16 ^ (Z.of_nat (length (hex_text v)) - 1)) by (apply Z.pow_le_mono_r; lia). lia.
Qed.

Lemma conv_x_printed alternate value : 0 ≤ value < 4294967296 →
  ∃ s', conv_x s t alternate value (cb_x L) = Some s' ∧
    printed P B s s' t (if alternate then pad8 (hex_text value) else hex_text value).
Proof using Hok Hcur HB Hx.
  intros Hv. unfold conv_x. destruct alternate; cbv beta iota delta [negb].
  2: { apply number_printed; [done|lia|]. intros b Hb. apply Hx. unfold region in *. lia. }
  set (cb := cb_x L) in *. destruct (buf_range cb 64) as [H0 H1]; [lia|done|].
  assert (∀ b, region cb 64 b → P b) as HxP by (intros b Hb; apply HB, Hx, Hb).
  destruct (itoa_text P (vmem s) value (cb + 8) 16) as (m & E & Ht & _ & Hl & Hlen & Hc & Hm);
    [done|lia|apply safe_vmem|intros b Hb; apply HxP; unfold region in *; lia|].
  rewrite E, bind_some. fold (hex_text value) in Ht, Hl, Hlen.
  pose proof (hex_length value Hv Hlen ltac:(lia)) as H8.
  set (l := hex_text value) in *. set (k := Z.of_nat (length l)) in *.
  rewrite (strlen_str_at m (cb + 8) k) by (apply Ht || lia). rewrite bind_some. cbv zeta.
  rewrite s32_small by lia.
  destruct (pad_loop m cb k) as (m' & Ep & Hw);
    [lia|by apply (safe_cells (vmem s)), safe_vmem|lia|lia|intros b Hb; apply HxP; unfold region in *; lia|].
  rewrite Ep, bind_some.
  assert (length (pad8 l) = 8%nat) as Hp8
    by (unfold pad8; rewrite length_app, length_replicate; unfold k in *; lia).
  apply scratch_puts; try done; rewrite ?Hp8; try lia.
  - intros b Hb. destruct (HB b Hb) as (? & _ & ?). done.
  - rewrite (proj1 Hw). exact Hc.
  - intros b Hb Hn. assert (¬ region cb 64 b) as Hn' by (intros Hr; by apply Hn, Hx).
    unfold region in Hn'. rewrite (written_out _ _ _ _ _ _ _ Hw) by (done || lia).
    apply Hm; [done|]. unfold region. lia.
  - apply text_at_intro; rewrite Hp8.
    + intros i Hi. assert (P (cb + k + i)) as HPi by (apply HxP; unfold region; lia).
      assert (Z.of_nat (8 - length l) = 8 - k) as Hz by (unfold k in *; lia).
      unfold pad8. destruct (decide (i < 8 - k)) as [Hlt|Hge].
      * rewrite aget_app_l by (rewrite length_replicate; lia).
        rewrite (aget_lookup _ i 48) by (lia || apply lookup_replicate_2; lia).
        by rewrite (written_in _ _ _ _ _ _ _ Hw) by (done || lia).
      * rewrite aget_app_r by (rewrite length_replicate; lia). rewrite length_replicate, Hz.
        rewrite (written_out _ _ _ _ _ _ _ Hw) by (done || lia).
        rewrite <- (text_at_rd _ _ _ (i - (8 - k)) Ht) by (fold k; lia).
        replace (cb + k + i) with (cb + 8 + (i - (8 - k))) by lia. split; [done|].
        apply Ht. fold k. lia.
    + assert (P (cb + k + 8)) as HPi by (apply HxP; unfold region; lia).
      change (Z.of_nat 8) with 8.
      rewrite (written_out _ _ _ _ _ _ _ Hw) by (done || lia).
      replace (cb + k + 8) with (cb + 8 + k) by lia. apply Ht.
  - intros b Hb. apply Hx. unfold region in *. lia.
Qed.
End Convert.

(** ** The whole format *)

Lemma text_at_cons m a c l :
  text_at m a (c :: l) → rd m a = c ∧ c ≠ 0 ∧ text_at m (a + 1) l.
Proof.
  intros Ht. pose proof (text_at_rd m a _ 0 Ht ltac:(simpl; lia)) as Hc.
  rewrite Z.add_0_r in Hc. split; [done|].
  destruct Ht as [(H0 & Hn & Hz) Hb]. split.
  - specialize (Hn 0 ltac:(simpl; lia)). rewrite Z.add_0_r, Hc in Hn. done.
  - assert (text_at m a (c :: l)) as Ht by (split; [split|]; auto).
    apply text_at_intro.
    + intros i Hi. replace (a + 1 + i) with (a + (i + 1)) by lia.
      assert (l.[i] = (c :: l).[i + 1]) as ->.
      { rewrite (aget_app_r [c] l) by (simpl; lia). f_equal. simpl. lia. }
      split; [apply (text_at_rd _ _ _ _ Ht); simpl; lia|].
      rewrite <- (text_at_rd _ _ _ (i + 1) Ht) by (simpl; lia). apply Hn. simpl. lia.
    + replace (a + 1 + Z.of_nat (length l)) with (a + Z.of_nat (length (c :: l))) by (simpl; lia). done.
Qed.

(** The words of the argument list. *)
Definition words_at m a l : Prop :=
  ∀ i, 0 ≤ i < Z.of_nat (length l) → load32 m (a + 4 * i) = l.[i].

Lemma words_at_drop m a l : words_at m a l → words_at m (a + 4) (drop 1 l).
Proof.
  intros H i Hi. destruct l as [|w l]; [simpl in Hi; lia|]. rewrite skipn_cons, drop_0 in *.
  replace (a + 4 + 4 * i) with (a + 4 * (i + 1)) by lia. rewrite H by (simpl; lia).
  rewrite (aget_app_r [w] l) by (simpl; lia). f_equal. simpl. lia.
Qed.

Lemma words_at_head m a l : words_at m a l → l ≠ [] → load32 m a = l.[0].
Proof. intros H Hl. rewrite <- (H 0), Z.add_0_r by (destruct l; simpl; done || lia). done. Qed.

(** Bytes that printing on [t] with the buffers [B] leaves alone. *)
Definition apart P B s t a : Prop := P a ∧ ¬ region (page_of s t) 4000 a ∧ ¬ B a.

Definition string_arg P B s t (strs : Z → list Z) (a : Z) : Prop :=
  text_at (vmem s) a (strs a) ∧ 0 ≤ a ∧ a + Z.of_nat (length (strs a)) < 4294967296 ∧
  ∀ b, region a (Z.of_nat (length (strs a)) + 1) b → apart P B s t b.

Lemma convert_printed P B L s t strs alternate c esp :
  con_ok P s t → con_ok P s (cur_terminal s) →
  (∀ a, B a → P a ∧ 0 ≤ a < 4294967296 ∧ ¬ region (page_of s t) 4000 a) →
  (∀ a, region (cb_x L) 64 a ∨ region (cb_u L) 36 a ∨ region (cb_d L) 36 a → B a) →
  (c = 115 → string_arg P B s t strs (load32 (vmem s) esp)) →
  ∃ s', convert L s t alternate c esp = Some (s', if takes_arg c then esp + 4 else esp) ∧
        printed P B s s' t (conv_text strs alternate c (load32 (vmem s) esp)).
Proof.
  intros Hok Hcur HB HL Hstr. unfold convert, conv_text, takes_arg. cbv zeta.
  pose proof (load32_range (vmem s) esp) as Hw. set (w := load32 (vmem s) esp) in *.
  destruct (Z.eqb_spec c 37) as [->|_].
  { eexists. split; [done|]. apply putc_printed; (done || lia). }
  destruct (Z.eqb_spec c 120) as [->|_].
  { destruct (conv_x_printed P B L s t Hok Hcur HB ltac:(auto) alternate w Hw) as (s' & E & Hp).
    rewrite E. by exists s'. }
  destruct (Z.eqb_spec c 117) as [->|_].
  { destruct (conv_u_printed P B L s t Hok Hcur HB ltac:(auto) w Hw) as (s' & E & Hp).
    rewrite E. by exists s'. }
  destruct (Z.eqb_spec c 100) as [->|_].
  { destruct (conv_d_printed P B L s t Hok Hcur HB ltac:(auto) w Hw) as (s' & E & Hp).
    rewrite E. by exists s'. }
  destruct (Z.eqb_spec c 99) as [->|_].
  { eexists. split; [done|]. apply putc_printed; try done. apply u8_range. }
  destruct (Z.eqb_spec c 115) as [->|_].
  { destruct (Hstr eq_refl) as (Ht & H0 & H1 & Hr).
    destruct (puts_printed P B s t w (strs w) Hok Hcur Ht H0 H1) as (s' & E & Hp);
      [intros a Ha; split; by apply (Hr a Ha)|].
    rewrite E. by exists s'. }
  eexists. split; [done|]. by apply printed_refl.
Qed.

Lemma conv_text_noarg strs alternate c w w' :
  takes_arg c = false → conv_text strs alternate c w = conv_text strs alternate c w'.
Proof.
  unfold takes_arg, conv_text. destruct (c =? 37), (c =? 120), (c =? 117), (c =? 100), (c =? 99), (c =? 115); done.
Qed.

(** The rest [f] of the format at [buf], in a state of the scan, with the
    arguments left, the text [X] still to come and the end [E] of the format. *)
Record scan m strs Q (buf : Z) (conv : option bool) (args : list Z) (X : list Z) (E : Z) (f : list Z)
    : Prop := {
  sc_text : text_at m buf f;
  sc_ok : format_ok Q f conv args;
  sc_out : format_text strs f conv args = X;
  sc_end : buf + Z.of_nat (length f) = E
}.

Lemma hash_loop m strs Q buf args X E f :
  scan m strs Q buf (Some false) args X E f → 0 ≤ buf → E < 4294967296 →
  ∃ b', while (hash_step m) (buf, false) = Some b' ∧
    buf ≤ b'.1 ∧ ∃ c f', c ≠ 35 ∧ scan m strs Q b'.1 (Some b'.2) args X E (c :: f').
Proof.
  intros Hs H0 HE.
  apply (while_total (hash_step m)
    (λ st, buf ≤ st.1 ≤ E ∧ ∃ f', scan m strs Q st.1 (Some st.2) args X E f') (λ st, E - st.1)).
  - intros [b a] [Hb _]. simpl in *. lia.
  - intros [b a] [Hb (f' & [Ht Hk Ho He])]. simpl in *. unfold hash_step.
    destruct f' as [|c f']; [done|]. destruct (text_at_cons _ _ _ _ Ht) as (Hc & _ & Ht').
    rewrite u32_small by (simpl in He; lia). rewrite Hc. simpl in Hk, Ho, He.
    destruct (Z.eqb_spec c 35) as [->|Hne].
    + simpl. split; [|lia]. split; [lia|]. exists f'. split; try done. lia.
    + simpl. split; [lia|]. exists c, f'. split; [done|]. split; simpl; try done;
        by rewrite (proj2 (Z.eqb_neq c 35)).
  - simpl. pose proof (sc_end _ _ _ _ _ _ _ _ _ Hs). split; [lia|]. by exists f.
  - simpl. lia.
Qed.

(** A format without percent signs goes out character by character. *)
Lemma printf_plain P L s t format f esp :
  con_ok P s t → text_at (vmem s) format f → Forall (λ c, c ≠ 37) f →
  0 ≤ format → format + Z.of_nat (length f) < 4294967296 →
  (∀ a, region format (Z.of_nat (length f) + 1) a → P a ∧ ¬ region (page_of s t) 4000 a) →
  printf L s t format esp = Some (foldl (λ s c, putc s t c) s f, Z.of_nat (length f)).
Proof.
  intros Hok Ht Hf H0 H1 Hreg. unfold printf.
  assert (Forall (λ c, 0 ≤ c < 256) f) as Hr by (rewrite <- (proj2 Ht); apply bytes_range).
  assert (∀ l s, foldl (λ s c, putc s t c) s l = fold_left (λ s c, term_putc s c t) l s) as Efold.
  { intros l. induction l as [|c l IH]; intros s'; [done|]. simpl. apply IH. }
  rewrite (while_eq (printf_step L t)
    (λ '(s', buf, e), ∃ i, 0 ≤ i ≤ Z.of_nat (length f) ∧ buf = format + i ∧ e = esp ∧
       s' = fold_left (λ s c, term_putc s c t) (take (Z.to_nat i) f) s)
    (λ st, format + Z.of_nat (length f) - st.1.2)
    (Some (fold_left (λ s c, term_putc s c t) f s, format + Z.of_nat (length f)))).
  - rewrite bind_some, Efold. simpl. do 2 f_equal. lia.
  - intros [[s' buf] e] (i & Hi & -> & -> & ->). cbn [fst snd]. lia.
  - intros [[s' buf] e] (i & Hi & -> & -> & ->). unfold printf_step. rewrite u32_small by lia.
    destruct (Hreg (format + i)) as [HP Hout]; [unfold region; lia|].
    rewrite (print_rd P) by (done || by apply Forall_take).
    destruct (decide (i = Z.of_nat (length f))) as [->|Hin].
    + destruct Ht as [(_ & _ & ->) _]. rewrite Z.eqb_refl. by rewrite take_ge by lia.
    + rewrite (text_at_rd _ _ _ _ Ht) by lia.
      assert (f !! Z.to_nat i = Some f.[i]) as Hl by (rewrite lookup_aget by lia; do 2 f_equal; lia).
      rewrite (proj2 (Z.eqb_neq _ 0)) by (rewrite <- (text_at_rd _ _ _ _ Ht) by lia; apply Ht; lia).
      rewrite (proj2 (Z.eqb_neq _ 37)) by (by apply (proj1 (Forall_lookup _ _) Hf _ _ Hl)).
      split; [|cbn [fst snd]; lia]. exists (i + 1). split_and!; [lia|lia|lia|done|].
      replace (Z.to_nat (i + 1)) with (S (Z.to_nat i)) by lia.
      by rewrite (take_S_r _ _ _ Hl), fold_left_app.
  - exists 0. split_and!; try done; lia.
  - cbn [fst snd]. lia.
Qed.

Section Printf.
Context (P B : Z → Prop) (L : conv_bufs) (s : console M D) (t : Z) (strs : Z → list Z).
Context (Hok : con_ok P s t) (Hcur : con_ok P s (cur_terminal s)).
Context (HB : ∀ a, B a → P a ∧ 0 ≤ a < 4294967296 ∧ ¬ region (page_of s t) 4000 a).
Context (HL : ∀ a, region (cb_x L) 64 a ∨ region (cb_u L) 36 a ∨ region (cb_d L) 36 a → B a).
Context (format : Z) (f : list Z) (esp : Z) (args : list Z).
Context (Hf0 : 0 ≤ format) (Hf1 : format + Z.of_nat (length f) < 4294967296).
Context (Hformat : ∀ a, region format (Z.of_nat (length f) + 1) a → apart P B s t a).
Context (Hargs : ∀ a, region esp (4 * Z.of_nat (length args)) a → apart P B s t a).

#[local] Abbreviation Q := (string_arg P B s t strs).
#[local] Abbreviation E := (format + Z.of_nat (length f)).

(** Half way: the text [out] is printed, the rest of the format is at [buf]
    and the arguments left are at [e]. *)
Definition midway (st : console M D * Z * Z) : Prop :=
  let '(s', buf, e) := st in
  ∃ out f' args', printed P B s s' t out ∧ format ≤ buf ∧
    scan (vmem s) strs Q buf None args' (format_text strs f' None args') E f' ∧
    out ++ format_text strs f' None args' = format_text strs f None args ∧
    words_at (vmem s) e args' ∧ esp ≤ e ∧
    e + 4 * Z.of_nat (length args') ≤ esp + 4 * Z.of_nat (length args).

Local Lemma midway_text s' out buf f' :
  printed P B s s' t out → format ≤ buf → buf + Z.of_nat (length f') = E →
  text_at (vmem s) buf f' → text_at (vmem s') buf f'.
Proof using All.
  intros Hp Hb He. apply text_at_ext. intros i Hi.
  destruct (Hformat (buf + i)) as (H1 & H2 & H3); [unfold region; lia|].
  by apply (pr_mem _ _ _ _ _ _ Hp).
Qed.

Local Lemma midway_arg s' out e args' :
  printed P B s s' t out → words_at (vmem s) e args' → args' ≠ [] → esp ≤ e →
  e + 4 * Z.of_nat (length args') ≤ esp + 4 * Z.of_nat (length args) →
  load32 (vmem s') e = args'.[0].
Proof using All.
  intros Hp Hw Hn H0 H1. rewrite <- (words_at_head _ _ _ Hw Hn). apply load32_ext. intros b Hb.
  assert (1 ≤ Z.of_nat (length args')) by (destruct args'; simpl; done || lia).
  destruct (Hargs b) as (H2 & H3 & H4); [unfold region; lia|]. by apply (pr_mem _ _ _ _ _ _ Hp).
Qed.

Local Lemma midway_string s' out a :
  printed P B s s' t out → Q a → string_arg P B s' t strs a.
Proof using All.
  intros Hp (Ht & H0 & H1 & Hr). unfold string_arg, apart.
  rewrite (printed_page _ _ _ _ _ _ _ Hp). split_and!; try done.
  revert Ht. apply text_at_ext. intros i Hi.
  destruct (Hr (a + i)) as (H2 & H3 & H4); [unfold region; lia|]. by apply (pr_mem _ _ _ _ _ _ Hp).
Qed.

(** A conversion, from the character behind the percent sign on. *)
Local Lemma midway_convert s' out buf e c f' args' X alternate :
  printed P B s s' t out → format ≤ buf →
  scan (vmem s) strs Q buf (Some alternate) args' X E (c :: f') → c ≠ 35 →
  words_at (vmem s) e args' → esp ≤ e →
  e + 4 * Z.of_nat (length args') ≤ esp + 4 * Z.of_nat (length args) →
  out ++ X = format_text strs f None args →
  ∃ s2 e2, convert L s' t alternate c e = Some (s2, e2) ∧ midway (s2, buf + 1, e2).
Proof using All.
  intros Hp Hb [Ht Hk Ho He] Hne Hw H0 H1 HX. simpl in Hk, Ho, He.
  rewrite (proj2 (Z.eqb_neq c 35)) in Hk, Ho by done. destruct Hk as (Hta & Hs & Hk).
  destruct (convert_printed P B L s' t strs alternate c e) as (s2 & Ec & Hp2).
  - apply Hp.
  - apply Hp.
  - by rewrite (printed_page _ _ _ _ _ _ _ Hp).
  - done.
  - intros ->. rewrite (midway_arg s' out e args' Hp Hw) by auto.
    apply (midway_string s' out _ Hp). by apply Hs.
  - rewrite Ec. eexists _, _. split; [done|].
    pose proof (printed_trans _ _ _ _ _ _ _ _ Hp Hp2) as Hp3.
    exists (out ++ conv_text strs alternate c args'.[0]), f', (if takes_arg c then drop 1 args' else args').
    split.
    { revert Hp3. destruct (takes_arg c) eqn:Et.
      - by rewrite (midway_arg s' out e args' Hp Hw) by auto.
      - by rewrite (conv_text_noarg strs alternate c _ args'.[0]). }
    split; [lia|]. split; [|split; [|split; [|split]]].
    + destruct (text_at_cons _ _ _ _ Ht) as (_ & _ & Ht'). split; try done. lia.
    + rewrite <- app_assoc, <- HX. f_equal. exact Ho.
    + destruct (takes_arg c); [by apply words_at_drop|done].
    + destruct (takes_arg c); lia.
    + destruct (takes_arg c) eqn:Et; [|lia]. specialize (Hta eq_refl).
      rewrite length_drop. destruct args'; [done|]. simpl in *. lia.
Qed.

Lemma printf_midway st :
  midway st →
  match printf_step L t st with
  | inl st' => midway st' ∧ E - st'.1.2 < E - st.1.2
  | inr r => ∃ s', r = Some (s', E) ∧ printed P B s s' t (format_text strs f None args)
  end.
Proof using All.
  destruct st as [[s' buf] e]. intros (out & f' & args' & Hp & Hb & Hsc & HX & Hw & H0 & H1).
  pose proof Hsc as [Ht Hk _ He]. pose proof (midway_text s' out buf f' Hp Hb He Ht) as Ht'.
  unfold printf_step. rewrite u32_small by lia. cbn [fst snd].
  destruct f' as [|c f'].
  { assert (rd (vmem s') buf = 0) as ->.
    { destruct Ht' as [(_ & _ & Hz) _]. by rewrite Z.add_0_r in Hz. }
    simpl in He, HX. rewrite Z.eqb_refl. exists s'. rewrite app_nil_r in HX. rewrite <- HX.
    split; [|done]. do 2 f_equal. lia. }
  destruct (text_at_cons _ _ _ _ Ht') as (Hc & Hc0 & _). rewrite Hc.
  rewrite (proj2 (Z.eqb_neq c 0)) by done. destruct (text_at_cons _ _ _ _ Ht) as (_ & _ & Ht1).
  simpl in Hk, HX, He. destruct (Z.eqb_spec c 37) as [->|Hne].
  - assert (scan (vmem s) strs Q (buf + 1) (Some false) args'
      (format_text strs f' (Some false) args') E f') as Hs1 by (split; try done; lia).
    assert (scan (vmem s') strs Q (buf + 1) (Some false) args'
      (format_text strs f' (Some false) args') E f') as Hs2.
    { split; try done; [|lia]. apply (midway_text s' out); (done || lia). }
    destruct (hash_loop _ _ _ _ _ _ _ _ Hs2) as ([b alt] & Eh & Hbb & c & f2 & Hc35 & Hs3); [lia|lia|].
    rewrite Eh, bind_some. cbn [fst snd] in *.
    destruct (text_at_cons _ _ _ _ (sc_text _ _ _ _ _ _ _ _ _ Hs3)) as (Hrc & _ & _).
    assert (b < 4294967296) as Hb2
      by (pose proof (sc_end _ _ _ _ _ _ _ _ _ Hs3) as He3; simpl in He3; lia).
    rewrite u32_small, Hrc by lia.
    assert (text_at (vmem s) b (c :: f2)) as Ht3.
    { pose proof (sc_end _ _ _ _ _ _ _ _ _ Hs3) as He3.
      generalize (sc_text _ _ _ _ _ _ _ _ _ Hs3). apply text_at_ext. intros i Hi.
      destruct (Hformat (b + i)) as (H2 & H3 & H4); [unfold region; lia|].
      symmetry. by apply (pr_mem _ _ _ _ _ _ Hp). }
    destruct (midway_convert s' out b e c f2 args' _ alt Hp ltac:(lia)
      ltac:(split; [exact Ht3|apply Hs3|apply Hs3|apply Hs3]) Hc35 Hw H0 H1 HX) as (s2 & e2 & Ec & Hm).
    rewrite Ec, bind_some. split; [exact Hm|]. cbn [fst snd]. lia.
  - pose proof (rd_range (vmem s') buf) as Hrc. rewrite Hc in Hrc. split; [|cbn [fst snd]; lia].
    exists (out ++ [c]), f', args'. split_and!; try done; try lia.
    + apply (printed_trans _ _ _ s'); [done|]. by apply putc_printed; [apply Hp|apply Hp|].
    + split; try done. lia.
    + by rewrite <- app_assoc.
Qed.

Lemma printf_spec :
  text_at (vmem s) format f → words_at (vmem s) esp args → format_ok Q f None args →
  ∃ s', printf L s t format esp = Some (s', Z.of_nat (length f)) ∧
        printed P B s s' t (format_text strs f None args).
Proof using All.
  intros Ht Hw Hk. unfold printf.
  destruct (while_total (printf_step L t) (λ st, midway st ∧ 0 ≤ E - st.1.2) (λ st, E - st.1.2)
    (λ r, ∃ s', r = Some (s', E) ∧ printed P B s s' t (format_text strs f None args))
    (s, format, esp)) as (r & Er & s' & -> & Hp).
  - by intros st [_ H].
  - intros st [Hm H]. pose proof (printf_midway st Hm) as Hs.
    destruct (printf_step L t st) as [st'|r]; [|done]. destruct Hs as [Hm' Hlt].
    split; [|done]. split; [done|]. destruct st' as [[s1 b1] e1].
    destruct Hm' as (out & f' & args' & _ & _ & Hsc & _).
    pose proof (sc_end _ _ _ _ _ _ _ _ _ Hsc). cbn [fst snd]. lia.
  - cbn [fst snd]. split; [|lia]. exists [], f, args. split_and!; try done; try lia.
    by apply printed_refl.
  - cbn [fst snd]. lia.
  - rewrite Er, !bind_some. exists s'. split; [|done]. do 2 f_equal. lia.
Qed.
End Printf.

(** C36 (printf). For any format in memory that does not end inside a conversion
    and whose conversions have their arguments behind the format pointer,
    [printf] prints exactly the text of the reference formatter on the caller's
    terminal ([%%], [%x], [%#x] padded to eight digits, [%u], [%d] for every
    32-bit value, [%c] and [%s]; an unknown conversion prints nothing and takes
    no argument), returns the length of the format, and changes nothing but
    that terminal's page, the cursors and its own buffers. *)
Theorem printf_formats P B L s t strs format f esp args :
  con_ok P s t → con_ok P s (cur_terminal s) →
  (∀ a, B a → P a ∧ 0 ≤ a < 4294967296 ∧ ¬ region (page_of s t) 4000 a) →
  (∀ a, region (cb_x L) 64 a ∨ region (cb_u L) 36 a ∨ region (cb_d L) 36 a → B a) →
  0 ≤ format → format + Z.of_nat (length f) < 4294967296 →
  (∀ a, region format (Z.of_nat (length f) + 1) a → apart P B s t a) →
  (∀ a, region esp (4 * Z.of_nat (length args)) a → apart P B s t a) →
  text_at (vmem s) format f → words_at (vmem s) esp args →
  format_ok (string_arg P B s t strs) f None args →
  ∃ s', printf L s t format esp = Some (s', Z.of_nat (length f)) ∧
        printed P B s s' t (format_text strs f None args).
Proof. intros. by apply printf_spec. Qed.
End Proofs.

(** A percent sign in front of the NUL: the NUL is taken as an unknown
    conversion and the scan goes on behind the end of the format. *)
Theorem printf_trailing_percent {M} `{!ByteMem M} {D} `{!PortIO D} L (s : console M D) t buf esp :
  0 ≤ buf → buf + 1 < 4294967296 → rd (vmem s) buf = 37 → rd (vmem s) (buf + 1) = 0 →
  printf_step L t (s, buf, esp) = inl (s, buf + 2, esp).
Proof.
  intros H0 H1 Hp Hz. unfold printf_step. rewrite u32_small, Hp by lia. cbv beta iota delta [Z.eqb Pos.eqb].
  rewrite (while_exit _ _ (buf + 1, false)).
  - rewrite bind_some, u32_small, Hz by lia. cbn. do 3 f_equal. lia.
  - unfold hash_step. rewrite u32_small by lia. by rewrite Hz.
Qed.

(** ** Witness *)

(** A text in a concrete memory, by evaluation. *)
Lemma text_check {M} `{!ByteMem M} (m : M) a l :
  bool_decide (bytes m a (Z.of_nat (length l) + 1) = l ++ [0]) = true →
  forallb (λ c, negb (c =? 0)) l = true → text_at m a l.
Proof.
  intros Hb Hn. apply bool_decide_eq_true in Hb.
  assert (∀ i, 0 ≤ i ≤ Z.of_nat (length l) → rd m (a + i) = (l ++ [0]).[i]) as Hr.
  { intros i Hi. rewrite <- Hb. symmetry. apply aget_lookup; [lia|].
    rewrite bytes_lookup by lia. do 2 f_equal. lia. }
  apply text_at_intro.
  - intros i Hi. rewrite Hr, aget_app_l by lia. split; [done|].
    rewrite forallb_forall in Hn. specialize (Hn l.[i]).
    assert (l.[i] ∈ l) as Hin.
    { apply (list_elem_of_lookup_2 _ (Z.to_nat i)). rewrite lookup_aget by lia. do 2 f_equal. lia. }
    apply list_elem_of_In in Hin. specialize (Hn Hin). lia.
  - rewrite Hr, aget_app_r by lia. by rewrite Z.sub_diag.
Qed.

(** The format "%d-%#x %s%%" at 0x1000, its arguments -5, 0xBEEF and "hi". *)
Definition demo_format : list Z := [37; 100; 45; 37; 35; 120; 32; 37; 115; 37; 37].
Definition demo_words : list Z := [0xFFFFFFFB; 0xBEEF; 0x2000].
Definition demo_print : console (gmap Z Z) (list (Z * Z)) :=
  mk_console [demo_terminal 0; demo_terminal 1; demo_terminal 2] 0
    (flat_of 0x1000 (demo_format ++ [0]) ∪ flat_of 0x2000 [104; 105; 0]
     ∪ flat_of 0x2100 [0xFB; 0xFF; 0xFF; 0xFF; 0xEF; 0xBE; 0; 0; 0; 0x20; 0; 0]) [].

Lemma demo_print_ok t : 0 ≤ t < 3 → con_ok (λ _, True) demo_print t.
Proof.
  intros Ht. assert (t = 0 ∨ t = 1 ∨ t = 2) as [->|[->| ->]] by lia;
    (split; [simpl; lia| |change (0 ≤ 0 < 80); lia|change (0 ≤ 0 < 25); lia];
     split; [|apply flat_safe|done]; by vm_compute).
Qed.

Lemma demo_apart n a :
  0 ≤ n < 2 → 0x1000 ≤ a < 0x3000 → apart (λ _, True) (region 0x3000 64) demo_print n a.
Proof.
  intros Hn Ha. assert (n = 0 ∨ n = 1) as [->| ->] by lia; (split; [done|]; split;
    [|unfold region; lia]).
  - change (page_of demo_print 0) with 0xB9000. unfold region. lia.
  - change (page_of demo_print 1) with 0xBA000. unfold region. lia.
Qed.

Lemma printf_formats_witness :
  ∃ s', printf (mk_conv_bufs 0x3000 0x3000 0x3000) demo_print 1 0x1000 0x2100 = Some (s', 11) ∧
    printed (λ _, True) (region 0x3000 64) demo_print s' 1
      [45; 53; 45; 48; 48; 48; 48; 66; 69; 69; 70; 32; 104; 105; 37].
Proof.
  apply (printf_formats (λ _, True) (region 0x3000 64) (mk_conv_bufs 0x3000 0x3000 0x3000) demo_print 1
    (λ _, [104; 105]) 0x1000 demo_format 0x2100 demo_words).
  - apply demo_print_ok. lia.
  - apply demo_print_ok. change (0 ≤ 0 < 3). lia.
  - intros a Ha. change (page_of demo_print 1) with 0xBA000. unfold region in *. split; [done|]. lia.
  - intros a. unfold region. simpl. lia.
  - lia.
  - simpl. lia.
  - intros a Ha. apply demo_apart; unfold region in Ha; simpl in Ha; lia.
  - intros a Ha. apply demo_apart; unfold region in Ha; simpl in Ha; lia.
  - apply text_check; by vm_compute.
  - intros i Hi. simpl in Hi. assert (i = 0 ∨ i = 1 ∨ i = 2) as [->|[->| ->]] by lia; by vm_compute.
  - simpl. split_and!; try done. intros _. split; [apply text_check; by vm_compute|].
    split_and!; [by vm_compute..|]. intros b Hb. apply demo_apart; [lia|].
    unfold region in Hb. simpl in Hb. change (demo_words.[2]) with 0x2000 in Hb. unfold aget in Hb. simpl in Hb. lia.
Defined.

Example demo_format_text :
  format_text (λ _, [104; 105]) demo_format None demo_words
  = [45; 53; 45; 48; 48; 48; 48; 66; 69; 69; 70; 32; 104; 105; 37].
Proof. reflexivity. Qed.
