(* ===== verification/Keyboard.v ===== *)
(** * Keyboard and terminals (student-distrib/keyboard.c)

    The keyboard interrupt handler with its line editor and command history,
    the terminal driver behind standard input and output, and the switch
    between the three terminals.

    Characters are bytes (0..255).  The handler's argument [before] is the
    128 bytes that lie in front of [terminals[cur_terminal]] in memory: with
    [cmdCount = 0] the history code reads [cmd_hist[-1]]. *)

From S2P Require Import Prelude Memory Lib Ports Types I8259 Paging Console.
#[local] Open Scope Z_scope.

Definition KEYBOARD_ENCODER_IN_BUF : Z := 0x60.
Definition KEYBOARD_ENCODER_CMD_REG : Z := 0x60.
Definition KEYBOARD_CTRL_STATUS_REG : Z := 0x64.
Definition KEYBOARD_CTRL_CMD_REG : Z := 0x64.
Definition KEYBOARD_IRQ : Z := 1.
Definition KEYBOARD_CTRL_STATUS_MASK_IN_BUF : Z := 0x2.
Definition KEY_STATE_MASK : Z := 0x7F.
Definition KEY_STATUS_MASK : Z := 0x80.
Definition KEYBOARD_ENCODER_CMD_SET_LED : Z := 0xED.
Definition KEYBOARD_LEFT_SHIFT : Z := 0x2a.
Definition KEYBOARD_RIGHT_SHIFT : Z := 0x36.
Definition KEYBOARD_CAPS_LOCK : Z := 0x3a.
Definition KEYBOARD_ALT : Z := 0x38.
Definition KEYBOARD_NUM_LOCK : Z := 0x45.
Definition KEYBOARD_SCROLL_LOCK : Z := 0x46.
Definition KEYBOARD_ENTER : Z := 0x1C.
Definition KEYBOARD_LINEFEED : Z := 0x0A.
Definition KEYBOARD_BACKSPACE : Z := 0x0E.
Definition KEYBOARD_LEFT_CONTROL : Z := 0x1D.
Definition F1CODE : Z := 0x3B.
Definition F2CODE : Z := 0x3C.
Definition F3CODE : Z := 0x3D.
Definition UPCODE : Z := 0x48.
Definition DOWNCODE : Z := 0x50.
Definition MAX_COL_INDEX : Z := 79.
Definition MAX_ROW_INDEX : Z := 24.
Definition MAX_BUF_INDEX : Z := 127.

(** The character tables; 0 is an unprintable key. *)
Definition keyboard_chars : list Z :=
  [0; 0; 49; 50; 51; 52; 53; 54; 55; 56; 57; 48; 45; 61; 0; 0;
   113; 119; 101; 114; 116; 121; 117; 105; 111; 112; 91; 93; 0; 0; 97; 115;
   100; 102; 103; 104; 106; 107; 108; 59; 39; 96; 0; 92; 122; 120; 99; 118;
   98; 110; 109; 44; 46; 47; 0; 42; 0; 32; 0; 0; 0; 0; 0; 0;
   0; 0; 0; 0; 0; 0; 0; 0; 0; 0; 45; 0; 0; 0; 43; 0;
   0; 0; 0; 0; 0; 0; 0; 0; 0; 0; 0; 0; 0; 0; 0; 0] ++
  replicate 32 0.

Definition shift_keyboard_chars : list Z :=
  [0; 0; 33; 64; 35; 36; 37; 94; 38; 42; 40; 41; 95; 43; 0; 0;
   81; 87; 69; 82; 84; 89; 85; 73; 79; 80; 123; 125; 0; 0; 65; 83;
   68; 70; 71; 72; 74; 75; 76; 58; 34; 126; 0; 124; 90; 88; 67; 86;
   66; 78; 77; 60; 62; 63; 0; 42; 0; 32; 0; 0; 0; 0; 0; 0;
   0; 0; 0; 0; 0; 0; 0; 0; 0; 0; 45; 0; 0; 0; 43; 0;
   0; 0; 0; 0; 0; 0; 0; 0; 0; 0; 0; 0; 0; 0; 0; 0] ++
  replicate 32 0.

Definition caps_lock_chars : list Z :=
  [0; 0; 49; 50; 51; 52; 53; 54; 55; 56; 57; 48; 45; 61; 0; 0;
   81; 87; 69; 82; 84; 89; 85; 73; 79; 80; 91; 93; 0; 0; 65; 83;
   68; 70; 71; 72; 74; 75; 76; 59; 39; 96; 0; 92; 90; 88; 67; 86;
   66; 78; 77; 44; 46; 47; 0; 42; 0; 32; 0; 0; 0; 0; 0; 0;
   0; 0; 0; 0; 0; 0; 0; 0; 0; 0; 45; 0; 0; 0; 43; 0;
   0; 0; 0; 0; 0; 0; 0; 0; 0; 0; 0; 0; 0; 0; 0; 0] ++
  replicate 32 0.

Definition caps_lock_and_shift : list Z :=
  [0; 0; 33; 64; 35; 36; 37; 94; 38; 42; 40; 41; 95; 43; 0; 0;
   113; 119; 101; 114; 116; 121; 117; 105; 111; 112; 123; 125; 0; 0; 97; 115;
   100; 102; 103; 104; 106; 107; 108; 58; 34; 126; 0; 124; 122; 120; 99; 118;
   98; 110; 109; 60; 62; 63; 0; 42; 0; 32; 0; 0; 0; 0; 0; 0;
   0; 0; 0; 0; 0; 0; 0; 0; 0; 0; 45; 0; 0; 0; 43; 0;
   0; 0; 0; 0; 0; 0; 0; 0; 0; 0; 0; 0; 0; 0; 0; 0] ++
  replicate 32 0.

(** The modifier and lock keys. *)
#[projections(primitive)] Record kbd := mk_kbd {
  numlock : bool;
  scrolllock : bool;
  capslock : bool;
  left_shift : bool;
  right_shift : bool;
  alt : bool;
  ctrl : bool
}.
#[export] Instance set_numlock : Setter numlock. Proof. mk_setter. Defined.
#[export] Instance set_scrolllock : Setter scrolllock. Proof. mk_setter. Defined.
#[export] Instance set_capslock : Setter capslock. Proof. mk_setter. Defined.
#[export] Instance set_left_shift : Setter left_shift. Proof. mk_setter. Defined.
#[export] Instance set_right_shift : Setter right_shift. Proof. mk_setter. Defined.
#[export] Instance set_alt : Setter alt. Proof. mk_setter. Defined.
#[export] Instance set_ctrl : Setter ctrl. Proof. mk_setter. Defined.

(** ** The keyboard controller *)

Section Controller.
Context {D : Type} `{!PortIO D}.
Implicit Types (d : D).

Definition keyboard_ctrl_read_status d : Z * D := inb d KEYBOARD_CTRL_STATUS_REG.

(** [while(1) if ((status & IN_BUF) == 0) break;] *)
Definition wait_input d : option D :=
  while (λ d,
    let (st, d) := keyboard_ctrl_read_status d in
    if Z.land st KEYBOARD_CTRL_STATUS_MASK_IN_BUF =? 0 then inr d else inl d) d.

Definition keyboard_ctrl_send_cmd d (cmd : Z) : option D :=
  (λ d, outb d cmd KEYBOARD_CTRL_CMD_REG) <$> wait_input d.

Definition keyboard_encoder_read_buf d : Z * D := inb d KEYBOARD_ENCODER_IN_BUF.

Definition keyboard_encoder_send_cmd d (cmd : Z) : option D :=
  (λ d, outb d cmd KEYBOARD_ENCODER_CMD_REG) <$> wait_input d.

Definition keyboard_set_leds d (numlock scrolllock capslock : bool) : option D :=
  let data :=
    Z.lor (Z.lor (Z.land (Z.shiftl (Z.b2z capslock) 2) 4)
                 (Z.land (Z.shiftl (Z.b2z numlock) 1) 2))
          (Z.land (Z.b2z scrolllock) 1) in
  d ← keyboard_encoder_send_cmd d KEYBOARD_ENCODER_CMD_SET_LED;
  keyboard_encoder_send_cmd d data.
End Controller.

(** ** The terminal driver *)

Section Terminal.
Context {M : Type} `{!ByteMem M} {D : Type} `{!PortIO D}.
Implicit Types (s : console M D) (m : M).

Definition keyboard_install (p : pic) (k : kbd) s (irq : Z) : option (pic * kbd * console M D) :=
  let k := k <| ctrl := false |> <| alt := false |> <| right_shift := false |>
             <| left_shift := false |> in
  let s := for_loop 3 0 (λ i s,
    let s := with_term s i (λ T, T <| typingLine := true |>) in
    let s := with_term s i (λ T, T <| line_buffer_index := 0 |>) in
    let s := with_term s i (λ T, T <| c_x := 0 |>) in
    let s := with_term s i (λ T, T <| c_y := 0 |>) in
    let s := with_term s i (λ T, T <| cmdCount := 0 |>) in
    with_term s i (λ T, T <| video_mem := VIDEO + 4096 * (i + 1) |>)) s in
  let s := s <| cur_terminal := 0 |> in
  let k := k <| capslock := false |> <| scrolllock := false |> <| numlock := false |> in
  d ← keyboard_set_leds (dev s) (numlock k) (scrolllock k) (capslock k);
  let (p, d) := enable_irq p d irq in
  Some (p, k, s <| dev := d |>).

Definition terminal_open (f : file) : Z := -1.
Definition terminal_close (f : file) : Z := -1.

(** [for (i = 0; i < nbytes; i++) terminal_buffer[i] = line_buffer[i];] *)
Definition read_copy_step (terminal_id buf nbytes : Z) (st : console M D * Z)
    : (console M D * Z) + (console M D * Z) :=
  let '(s, i) := st in
  if u32 i <? nbytes then
    inl (s <| vmem := wr (vmem s) (u32 (buf + i))
                        (line_buffer (terminals s).[terminal_id]).[i] |>, s32 (i + 1))
  else inr (s, i).

(** [for (i = 0; i < nbytes; i++) line_buffer[i] = 0;] *)
Definition read_reset_step (terminal_id nbytes : Z) (st : console M D * Z)
    : (console M D * Z) + console M D :=
  let '(s, i) := st in
  if u32 i <? nbytes then
    inl (with_term s terminal_id (λ T, T <| line_buffer := (line_buffer T).[i <- 0] |>),
         s32 (i + 1))
  else inr s.

(** [terminal_read] once [typingLine] of the reader's terminal is false. *)
Definition terminal_read_line s (terminal_id buf nbytes : Z) : option (console M D * Z) :=
  let s := with_term s terminal_id (λ T, T <| typingLine := true |>) in
  let limit := u32 (line_buffer_index (terminals s).[terminal_id] + 1) in
  let nbytes := if nbytes >? limit then limit else nbytes in
  '(s, i) ← while (read_copy_step terminal_id buf nbytes) (s, 0);
  let s := s <| vmem := wr (vmem s) (u32 (buf + i)) 0 |> in
  s ← while (read_reset_step terminal_id nbytes) (s, 0);
  let s := with_term s terminal_id (λ T, T <| line_buffer_index := 0 |>) in
  len ← strlen (vmem s) buf;
  Some (s, len).

(** The loop of [terminal_write]. *)
Definition write_step (terminal_id buf nbytes : Z) (st : console M D * Z * Z)
    : (console M D * Z * Z) + (console M D * Z) :=
  let '(s, i, bytes_written) := st in
  if u32 i <? nbytes then
    let c := rd (vmem s) (u32 (buf + i)) in
    if c =? 0 then inr (s, bytes_written)
    else
      let s := if terminal_id =? cur_terminal s then term_putc s c (cur_terminal s)
               else putc s terminal_id c in
      inl (s, s32 (i + 1), s32 (bytes_written + 1))
  else inr (s, bytes_written).

Definition terminal_write s (terminal_id buf nbytes : Z) : option (console M D * Z) :=
  if buf =? 0 then Some (s, -1)
  else
    '(s, bytes_written) ← while (write_step terminal_id buf nbytes) (s, 0, 0);
    let s := if terminal_id =? cur_terminal s
             then move_csr s (c_x (terminals s).[terminal_id]) (c_y (terminals s).[terminal_id])
             else s in
    Some (s, bytes_written).

(** ** The line editor of the interrupt handler *)

(** [cmd_hist[row][i]] *)
Definition hist_at (before : Z → Z) (T : terminal) (row i : Z) : Z :=
  if row =? -1 then before i else (cmd_hist T).[row].[i].

(** The condition of the history loops: not at two blanks, not at two NULs,
    and [i + 1] below the end of the line. *)
Definition hist_more (before : Z → Z) (T : terminal) (row i : Z) : bool :=
  negb ((hist_at before T row i =? 32) && (hist_at before T row (i + 1) =? 32)) &&
  negb ((hist_at before T row i =? 0) && (hist_at before T row (i + 1) =? 0)) &&
  (i + 1 <? MAX_BUF_INDEX).

(** Delete as many characters as history line [row] has. *)
Definition erase_step (before : Z → Z) (row : Z) (st : console M D * Z)
    : (console M D * Z) + (console M D * Z) :=
  let '(s, i) := st in
  let cur := cur_terminal s in
  if hist_more before (terminals s).[cur] row i then
    let s := with_term s cur (λ T, T <| line_buffer := (line_buffer T).[i <- 32] |>) in
    let s := with_term s cur (λ T,
               T <| line_buffer_index := u32 (line_buffer_index T - 1) |>) in
    inl (term_delete_char s cur, i + 1)
  else inr (s, i).

Definition erase_line (before : Z → Z) s (row : Z) : option (console M D) :=
  '(s, i) ← while (erase_step before row) (s, 0);
  let cur := cur_terminal s in
  let s := with_term s cur (λ T, T <| line_buffer := (line_buffer T).[i <- 32] |>) in
  let s := with_term s cur (λ T, T <| line_buffer_index := u32 (line_buffer_index T + 1) |>) in
  Some (term_delete_char s cur).

(** Type history line [cmdCount]. *)
Definition recall_step (before : Z → Z) (st : console M D * Z)
    : (console M D * Z) + console M D :=
  let '(s, i) := st in
  let cur := cur_terminal s in
  let row := cmdCount (terminals s).[cur] in
  if hist_more before (terminals s).[cur] row i then
    let c := hist_at before (terminals s).[cur] row i in
    let s := with_term s cur (λ T, T <| line_buffer := (line_buffer T).[i <- c] |>) in
    let s := with_term s cur (λ T,
               T <| line_buffer_index := u32 (line_buffer_index T + 1) |>) in
    inl (term_putc s c cur, i + 1)
  else inr s.

Definition recall_line (before : Z → Z) s : option (console M D) :=
  while (recall_step before) (s, 0).

(** [move_csr(terminals[cur_terminal].c_x, terminals[cur_terminal].c_y)] *)
Definition show_csr s : console M D :=
  let T := (terminals s).[cur_terminal s] in move_csr s (c_x T) (c_y T).

Definition key_enter s : console M D :=
  let cur := cur_terminal s in
  let s := with_term s cur (λ T, T <| cmdCount := 0 |>) in
  let s := with_term s cur (λ T,
             T <| line_buffer := (line_buffer T).[line_buffer_index T <- KEYBOARD_LINEFEED] |>) in
  let s := with_term s cur (λ T, T <| typingLine := false |>) in
  if c_y (terminals s).[cur] =? MAX_ROW_INDEX then
    let s := term_scroll s cur in
    move_csr s 0 (c_y (terminals s).[cur])
  else move_csr s 0 (c_y (terminals s).[cur] + 1).

Definition key_backspace s : console M D :=
  let cur := cur_terminal s in
  if line_buffer_index (terminals s).[cur] >? 0 then
    let s := term_delete_char s cur in
    with_term s cur (λ T, T <| line_buffer_index := u32 (line_buffer_index T - 1) |>)
  else s.

Definition key_up (before : Z → Z) s : option (console M D) :=
  let cur := cur_terminal s in
  let s := term_putc s 32 cur in
  s ← erase_line before s (cmdCount (terminals s).[cur] - 1);
  s ← recall_line before s;
  let s := show_csr s in
  Some (if cmdCount (terminals s).[cur] <? 4
        then with_term s cur (λ T, T <| cmdCount := u8 (cmdCount T + 1) |>) else s).

Definition key_down (before : Z → Z) s : option (console M D) :=
  let cur := cur_terminal s in
  let s := term_putc s 32 cur in
  let s := if cmdCount (terminals s).[cur] =? 0
           then with_term s cur (λ T, T <| cmdCount := 1 |>) else s in
  s ← erase_line before s (cmdCount (terminals s).[cur] - 1);
  let s := with_term s cur (λ T, T <| cmdCount := u8 (cmdCount T - 1) |>) in
  s ← (if negb (cmdCount (terminals s).[cur] =? 0) && (cmdCount (terminals s).[cur] <? 4)
       then recall_line before s else Some s);
  Some (show_csr s).

(** [while (index > 0) line_buffer[index--] = 0;] *)
Definition clear_line_step (cur : Z) s : console M D + console M D :=
  if line_buffer_index (terminals s).[cur] >? 0 then
    inl (with_term s cur (λ T,
           T <| line_buffer := (line_buffer T).[line_buffer_index T <- 0] |>
             <| line_buffer_index := u32 (line_buffer_index T - 1) |>))
  else inr s.

Definition key_clear s : option (console M D) :=
  let cur := cur_terminal s in
  let s := term_clear s cur in
  let s := move_csr s 0 0 in
  s ← while (clear_line_step cur) s;
  Some (with_term s cur (λ T, T <| line_buffer_index := 0 |>)).

(** The character of a key under the modifiers. *)
Definition key_char (k : kbd) (keyboard_scancode : Z) : Z :=
  if capslock k && (left_shift k || right_shift k) then caps_lock_and_shift.[keyboard_scancode]
  else if left_shift k || right_shift k then shift_keyboard_chars.[keyboard_scancode]
  else if capslock k then caps_lock_chars.[keyboard_scancode]
  else keyboard_chars.[keyboard_scancode].

Definition key_plain (k : kbd) s (keyboard_scancode : Z) : console M D :=
  let cur := cur_terminal s in
  if line_buffer_index (terminals s).[cur] <? MAX_BUF_INDEX then
    let keyboard_character := key_char k keyboard_scancode in
    let s := with_term s cur (λ T,
      T <| line_buffer := (line_buffer T).[line_buffer_index T <- keyboard_character] |>) in
    let s := term_putc s keyboard_character cur in
    let s := show_csr s in
    let T := (terminals s).[cur] in
    let s := if (c_x T =? MAX_COL_INDEX) && (c_y T =? MAX_ROW_INDEX)
             then term_scroll s cur else s in
    with_term s cur (λ T, T <| line_buffer_index := u32 (line_buffer_index T + 1) |>)
  else s.

(** What the handler does with the byte of a key, given the terminal switch. *)
Definition handle_key (switch : console M D → Z → option (console M D)) (before : Z → Z)
    (k : kbd) s (keyboard_data : Z) : option (kbd * console M D) :=
  let keyboard_scancode := Z.land keyboard_data KEY_STATE_MASK in
  if Z.land keyboard_data KEY_STATUS_MASK =? 0 then
    if keyboard_scancode =? KEYBOARD_LEFT_SHIFT then Some (k <| left_shift := true |>, s)
    else if keyboard_scancode =? KEYBOARD_RIGHT_SHIFT then Some (k <| right_shift := true |>, s)
    else if keyboard_scancode =? KEYBOARD_ALT then Some (k <| alt := true |>, s)
    else if keyboard_scancode =? KEYBOARD_LEFT_CONTROL then Some (k <| ctrl := true |>, s)
    else if keyboard_scancode =? KEYBOARD_CAPS_LOCK then
      Some (k <| capslock := negb (capslock k) |>, s)
    else if keyboard_scancode =? KEYBOARD_NUM_LOCK then
      Some (k <| numlock := negb (numlock k) |>, s)
    else if keyboard_scancode =? KEYBOARD_SCROLL_LOCK then
      Some (k <| scrolllock := negb (scrolllock k) |>, s)
    else if keyboard_scancode =? KEYBOARD_ENTER then Some (k, key_enter s)
    else if keyboard_scancode =? KEYBOARD_BACKSPACE then Some (k, key_backspace s)
    else if keyboard_scancode =? UPCODE then (k,.) <$> key_up before s
    else if keyboard_scancode =? DOWNCODE then (k,.) <$> key_down before s
    else if ctrl k && (keyboard_chars.[keyboard_scancode] =? 108) then (k,.) <$> key_clear s
    else if alt k && (keyboard_scancode =? F1CODE) then (k,.) <$> switch s 0
    else if alt k && (keyboard_scancode =? F2CODE) then (k,.) <$> switch s 1
    else if alt k && (keyboard_scancode =? F3CODE) then (k,.) <$> switch s 2
    else Some (k, key_plain k s keyboard_scancode)
  else
    if keyboard_scancode =? KEYBOARD_LEFT_SHIFT then Some (k <| left_shift := false |>, s)
    else if keyboard_scancode =? KEYBOARD_RIGHT_SHIFT then
      Some (k <| right_shift := false |>, s)
    else if keyboard_scancode =? KEYBOARD_ALT then Some (k <| alt := false |>, s)
    else if keyboard_scancode =? KEYBOARD_LEFT_CONTROL then Some (k <| ctrl := false |>, s)
    else Some (k, s).

(** The handler: read the byte, act on it, acknowledge. *)
Definition key_irq_handler (switch : console M D → Z → option (console M D))
    (before : Z → Z) (k : kbd) s : option (kbd * console M D) :=
  let (keyboard_data, d) := inb (dev s) KEYBOARD_ENCODER_IN_BUF in
  '(k, s) ← handle_key switch before k (s <| dev := d |>) keyboard_data;
  Some (k, s <| dev := send_eoi (dev s) KEYBOARD_IRQ |>).

(** ** Reading a line

    [terminal_read] spins on [typingLine] while keyboard interrupts are
    served: it runs against the bytes of the keys to come. *)

Fixpoint terminal_wait (switch : console M D → Z → option (console M D)) (before : Z → Z)
    (k : kbd) s (terminal_id : Z) (keys : list Z) : option (kbd * console M D * list Z) :=
  if typingLine (terminals s).[terminal_id] then
    match keys with
    | [] => None
    | key :: keys =>
        '(k, s) ← handle_key switch before k s key;
        terminal_wait switch before k s terminal_id keys
    end
  else Some (k, s, keys).

Definition terminal_read (switch : console M D → Z → option (console M D)) (before : Z → Z)
    (k : kbd) s (terminal_id buf nbytes : Z) (keys : list Z)
    : option (kbd * console M D * list Z * Z) :=
  if buf =? 0 then Some (k, s, keys, -1)
  else
    '(k, s, keys) ← terminal_wait switch before k s terminal_id keys;
    '(s, len) ← terminal_read_line s terminal_id buf nbytes;
    Some (k, s, keys, len).
End Terminal.

(** ** Switching terminals *)

Section Switch.
Context {HL : Layout} {D : Type} `{!PortIO D}.
Implicit Types (s : console mach D).

(** The page-table entry of terminal [t]'s page, in the kernel's and in the
    user's table. *)
Definition set_term_page (m : mach) (t page : Z) : mach :=
  let T := tabs m in
  let T := T <| video_page_table :=
    (video_page_table T).[Z.shiftr VIDEO 12 + t + 1 <-
      Z.lor (Z.lor page FLAG_WRITE_ENABLE) FLAG_PRESENT] |> in
  let T := T <| term_video_tables :=
    aset2 (term_video_tables T) t 0
      (Z.lor (Z.lor (Z.lor page FLAG_WRITE_ENABLE) FLAG_PRESENT) FLAG_USER) |> in
  m <| tabs := T |>.

(** [pid] is [current->pid]. *)
Definition switch_terminals (pid : Z) s (term : Z) : option (console mach D) :=
  let cur := cur_terminal s in
  if (term <? 3) && negb (cur =? term) then
    let m := set_term_page (vmem s) cur (video_mem (terminals s).[cur]) in
    let m := loadPageDirectory m (pd_addr pid) in
    let oldTerminal := video_mem (terminals s).[cur] in
    m ← memcpy m oldTerminal VIDEO ALIGNED_4KB;
    let newTerminal := video_mem (terminals s).[term] in
    m ← memcpy m VIDEO newTerminal ALIGNED_4KB;
    let m := set_term_page m term VIDEO in
    let m := loadPageDirectory m (pd_addr pid) in
    let s := s <| vmem := m |> <| cur_terminal := term |> in
    Some (show_csr s)
  else Some s.
End Switch.
