(* ===== verification/KeyboardProofs.v ===== *)
(** * Keyboard and terminals: invariant and switching

    The invariant of the terminals and of the machine they are drawn on, the
    effect of [switch_terminals], and preservation of the invariant by the
    keyboard handler. *)

From S2P Require Import Prelude Memory Lib Ports Types I8259 Paging PagingProps.
From S2P Require Import Console ConsoleProofs ConsoleProps Keyboard.
#[local] Open Scope Z_scope.

Section Machine.
Context {HL : Layout}.
Implicit Types (m : mach).

(** The machine while process [pid] runs and terminal [cur] is on the screen. *)
Record mach_ok m (cur pid : Z) (vids : Z → option Z) : Prop := {
  mo_pg : cr0_pg m = true;
  mo_pid : 0 ≤ pid < 6;
  mo_tabs : tables_ok (tabs m) cur vids;
  mo_dir : dir_ok (proc_page_directory (tabs m)).[pid] (Some pid) (vids pid);
  mo_tlb : tlb m = tabs m;
  mo_cr3 : cr3 m = pd_addr pid
}.

Lemma mach_space m cur pid vids :
  mach_ok m cur pid vids → space_ok m cur (Some pid) (vids pid).
Proof.
  intros [H1 H2 H3 H4 H5 H6]. split; [done|rewrite H5; apply H3|].
  eexists. split; [|exact H4]. rewrite H5, H6, pd_addr_page. by apply page_at_pd.
Qed.

Lemma mach_safe m cur pid vids : mach_ok m cur pid vids → safe m kernel_view.
Proof.
  intros Hm. by apply (kernel_view_safe m cur pid (vids pid)); [apply Hm|apply mach_space].
Qed.

Lemma video_ok_fields T vpt tvt cur :
  video_page_table T = vpt → term_video_tables T = tvt →
  (∀ kpd ppd, video_ok (mk_tables kpd vpt ppd tvt) cur) → video_ok T cur.
Proof. intros E1 E2 H. by apply (video_ok_ext (mk_tables [] vpt [] tvt)). Qed.

(** Changing the page of one terminal. *)
Lemma set_term_page_ok m cur cur' t page vids :
  tables_ok (tabs m) cur vids → 0 ≤ t < 3 → page = term_page cur' t →
  (∀ u, 0 ≤ u < 3 → u ≠ t → term_page cur' u = term_page cur u) →
  tables_ok (tabs (set_term_page m t page)) cur' vids ∧
  proc_page_directory (tabs (set_term_page m t page)) = proc_page_directory (tabs m).
Proof.
  intros HT Ht -> Hother. split; [|done].
  destruct HT as [Hv H1 H2 H3 H4]. split; try done. clear H1 H2 H3 H4. revert Hv.
  pose proof (term_page_aligned cur' t Ht) as Hal.
  assert (∀ f, 0 ≤ f < 4096 → Z.lor (term_page cur' t) f = term_page cur' t + f) as Hlor.
  { intros f Hf. apply (lor_aligned 12); [lia|done|done]. }
  unfold set_term_page. rewrite <- !Z.lor_assoc.
  change (Z.lor FLAG_WRITE_ENABLE FLAG_PRESENT) with 3.
  change (Z.lor FLAG_WRITE_ENABLE (Z.lor FLAG_PRESENT FLAG_USER)) with 7.
  rewrite !Hlor by lia. change (Z.shiftr VIDEO 12) with 0xB8.
  set (v := term_page cur' t). set (T := tabs m).
  intros Hv. apply (video_ok_fields _ (video_page_table T).[0xB8 + t + 1 <- v + 3]
    (aset2 (term_video_tables T) t 0 (v + 7))); [done|done|].
  intros kpd ppd.
  destruct Hv as [Hlen Hvid Hterm Hrest Htl Htls Huser Hurest].
  generalize dependent (video_page_table T). generalize dependent (term_video_tables T).
  intros tvt Htl Htls Huser Hurest vpt Hlen Hvid Hterm Hrest.
  split; cbn [video_page_table term_video_tables].
  - by rewrite length_aset.
  - by rewrite aget_aset_ne by lia.
  - intros u Hu. destruct (decide (u = t)) as [->|Hne].
    + replace (0xB8 + t + 1) with (0xB9 + t) by lia. by rewrite aget_aset_eq by lia.
    + rewrite aget_aset_ne by lia. by rewrite Hother, Hterm.
  - intros i Hi. rewrite aget_aset_ne by lia. by apply Hrest.
  - by rewrite aset2_len.
  - intros u Hu. rewrite aset2_lens by lia. by apply Htls.
  - intros u Hu. rewrite aset2_get by (rewrite ?Htls by lia; lia).
    case_decide as E; [by destruct E as [-> _]|]. by rewrite Hother, Huser by lia.
  - intros u i Hu Hi. rewrite aset2_get by (rewrite ?Htls by lia; lia).
    rewrite decide_False by lia. by apply Hurest.
Qed.

Lemma load_mach_ok m cur pid vids :
  cr0_pg m = true → 0 ≤ pid < 6 → tables_ok (tabs m) cur vids →
  dir_ok (proc_page_directory (tabs m)).[pid] (Some pid) (vids pid) →
  mach_ok (loadPageDirectory m (pd_addr pid)) cur pid vids.
Proof. by split. Qed.

(** Steps that only change memory. *)
Lemma mach_ok_ctl m m' cur pid vids :
  ctl m' = ctl m → mach_ok m cur pid vids → mach_ok m' cur pid vids.
Proof.
  intros [= E1 E2 E3 E4] [H1 H2 H3 H4 H5 H6]. split; rewrite ?E1, ?E2, ?E3, ?E4; done.
Qed.
End Machine.

(** ** The contents of the pages *)

Section Contents.
Context {HL : Layout}.
Implicit Types (m : mach) (t k cur pid : Z) (vids : Z → option Z).

(** The address of terminal [t]'s page ([video_mem]). *)
Definition tpage (t : Z) : Z := VIDEO + 4096 * (t + 1).

Lemma tpage_view t k : 0 ≤ t < 3 → 0 ≤ k < 4096 → kernel_view (tpage t + k).
Proof. intros. left. unfold region, tpage. lia. Qed.

Lemma view_cell_tpage pid cur t k :
  0 ≤ t < 3 → 0 ≤ k < 4096 → view_cell pid cur (tpage t + k) = term_page cur t + k.
Proof.
  intros Ht Hk. unfold view_cell, tpage, VIDEO.
  assert ((0xB8000 + 4096 * (t + 1) + k - (0xB8000 + 4096)) / 4096 = t ∧
          (0xB8000 + 4096 * (t + 1) + k) mod 4096 = k) as [-> ->] by (split; mlia).
  by cases_lia.
Qed.

Lemma view_cell_video pid cur k : 0 ≤ k < 4096 → view_cell pid cur (VIDEO + k) = VIDEO + k.
Proof. intros. unfold view_cell. by rewrite (proj2 (Z.ltb_lt _ _)) by lia. Qed.

(** The byte of a physical cell. *)
Definition pbyte m (p : Z) : Z := u8 (default 0 (phys m !! p)).

Lemma rd_pbyte m cur pid vids a :
  mach_ok m cur pid vids → all_pages a → rd m a = pbyte m (view_cell pid cur a).
Proof.
  intros Hm Ha. simpl. unfold mach_rd.
  by rewrite (view_cell_translate m cur pid (vids pid)) by (done || by apply mach_space).
Qed.

Lemma rd_tpage m cur pid vids t k :
  mach_ok m cur pid vids → 0 ≤ t < 3 → 0 ≤ k < 4096 →
  rd m (tpage t + k) = pbyte m (term_page cur t + k).
Proof.
  intros Hm Ht Hk. rewrite (rd_pbyte m cur pid vids) by (done || by right; apply tpage_view).
  by rewrite view_cell_tpage.
Qed.

Lemma rd_video m cur pid vids k :
  mach_ok m cur pid vids → 0 ≤ k < 4096 → rd m (VIDEO + k) = pbyte m (VIDEO + k).
Proof.
  intros Hm Hk. rewrite (rd_pbyte m cur pid vids) by (done || (left; unfold region; lia)).
  by rewrite view_cell_video.
Qed.

(** What the terminals and the screen show when the terminal on the screen
    goes from [cur] to [term]: every terminal keeps its page, the screen is
    the page of [term], and the rest of memory is unchanged. *)
Record switched m m' (cur term : Z) : Prop := {
  sw_pages : ∀ t k, 0 ≤ t < 3 → 0 ≤ k < 4096 → rd m' (tpage t + k) = rd m (tpage t + k);
  sw_screen : ∀ k, 0 ≤ k < 4096 → rd m' (VIDEO + k) = rd m (tpage term + k);
  sw_rest : ∀ a, kernel_view a → ¬ region VIDEO (4 * 4096) a → rd m' a = rd m a
}.

(** The two copies, on a machine where no terminal is on the screen. *)
Lemma switch_copies m pid vids cur term :
  mach_ok m (-1) pid vids → 0 ≤ cur < 3 → 0 ≤ term < 3 → cur ≠ term →
  ∃ m1 m2, memcpy m (tpage cur) VIDEO ALIGNED_4KB = Some m1 ∧
    memcpy m1 VIDEO (tpage term) ALIGNED_4KB = Some m2 ∧ ctl m2 = ctl m ∧
    (∀ k, 0 ≤ k < 4096 → rd m2 (VIDEO + k) = rd m (tpage term + k)) ∧
    (∀ k, 0 ≤ k < 4096 → rd m2 (tpage cur + k) = rd m (VIDEO + k)) ∧
    (∀ a, all_pages a → ¬ region VIDEO 4096 a → ¬ region (tpage cur) 4096 a →
          rd m2 a = rd m a).
Proof.
  intros Hm Hc Ht Hne.
  assert (safe m all_pages) as Hs
    by (apply (all_pages_safe m pid (vids pid)); [apply Hm|by apply mach_space]).
  assert (∀ a, region VIDEO 4096 a → all_pages a) as Hvid by (intros; by left).
  assert (∀ t a, 0 ≤ t < 3 → region (tpage t) 4096 a → all_pages a) as Hpg.
  { intros t a Ht' Ha. right. left. unfold region, tpage in *. lia. }
  unfold ALIGNED_4KB.
  destruct (memcpy_forward all_pages m (tpage cur) VIDEO 4096) as (m1 & E1 & W1);
    [done|intros a; by apply Hpg|done|unfold tpage, VIDEO; lia..|].
  destruct (memcpy_forward all_pages m1 VIDEO (tpage term) 4096) as (m2 & E2 & W2);
    [by apply (written_safe all_pages m m1 _ _ _ Hs W1)|done|intros a; by apply Hpg
    |unfold tpage, VIDEO; lia..|].
  exists m1, m2. split; [exact E1|]. split; [exact E2|]. split_and!.
  - etransitivity; [exact (proj1 W2)|exact (proj1 W1)].
  - intros k Hk. rewrite (written_in _ _ _ _ _ _ _ W2) by (try apply Hvid; unfold region; lia).
    rewrite (written_out _ _ _ _ _ _ _ W1).
    + f_equal. lia.
    + apply (Hpg term); unfold region; lia.
    + unfold tpage. lia.
  - intros k Hk. rewrite (written_out _ _ _ _ _ _ _ W2).
    + rewrite (written_in _ _ _ _ _ _ _ W1); [f_equal; lia| |lia].
      apply (Hpg cur); unfold region; lia.
    + apply (Hpg cur); unfold region; lia.
    + unfold tpage. lia.
  - intros a Ha H1 H2. rewrite (written_out _ _ _ _ _ _ _ W2) by done.
    by rewrite (written_out _ _ _ _ _ _ _ W1).
Qed.

Lemma tpage_region t t' k : 0 ≤ k < 4096 → t ≠ t' → ¬ region (tpage t') 4096 (tpage t + k).
Proof. unfold region, tpage. lia. Qed.

Lemma tpage_video t k : 0 ≤ t → 0 ≤ k < 4096 → ¬ region VIDEO 4096 (tpage t + k).
Proof. unfold region, tpage. lia. Qed.

(** Both table changes and both copies together. *)
Lemma switch_mach m pid vids cur term :
  mach_ok m cur pid vids → 0 ≤ cur < 3 → 0 ≤ term < 3 → cur ≠ term →
  let m0 := loadPageDirectory (set_term_page m cur (tpage cur)) (pd_addr pid) in
  ∃ m1 m2, memcpy m0 (tpage cur) VIDEO ALIGNED_4KB = Some m1 ∧
    memcpy m1 VIDEO (tpage term) ALIGNED_4KB = Some m2 ∧
    let m3 := loadPageDirectory (set_term_page m2 term VIDEO) (pd_addr pid) in
    mach_ok m3 term pid vids ∧ switched m m3 cur term.
Proof.
  intros Hm Hc Ht Hne m0. pose proof Hm as [H1 H2 H3 H4 H5 H6].
  assert (∀ u, 0 ≤ u < 3 → term_page (-1) u = tpage u) as Hnone.
  { intros u Hu. unfold term_page, tpage. cases_lia. done. }
  destruct (set_term_page_ok m cur (-1) cur (tpage cur) vids) as [HT0 HP0];
    [exact H3|exact Hc|by rewrite Hnone| |].
  { intros u Hu Hn. rewrite Hnone by done. unfold term_page, tpage. by cases_lia. }
  assert (mach_ok m0 (-1) pid vids) as Hm0
    by (apply load_mach_ok; [exact H1|exact H2|exact HT0|rewrite HP0; exact H4]).
  destruct (switch_copies m0 pid vids cur term Hm0 Hc Ht Hne)
    as (m1 & m2 & E1 & E2 & Ec & Rv & Rc & Ro).
  exists m1, m2. split; [exact E1|]. split; [exact E2|]. intros m3.
  assert (mach_ok m2 (-1) pid vids) as Hm2 by (by apply (mach_ok_ctl m0)).
  destruct (set_term_page_ok m2 (-1) term term VIDEO vids) as [HT3 HP3];
    [exact (mo_tabs _ _ _ _ Hm2)|exact Ht|unfold term_page; by rewrite Z.eqb_refl| |].
  { intros u Hu Hn. rewrite Hnone by done. unfold term_page, tpage. by cases_lia. }
  assert (mach_ok m3 term pid vids) as Hm3
    by (apply load_mach_ok; [exact (mo_pg _ _ _ _ Hm2)|exact H2|exact HT3
       |rewrite HP3; exact (mo_dir _ _ _ _ Hm2)]).
  split; [exact Hm3|].
  assert (∀ u k, 0 ≤ u < 3 → u ≠ cur → term_page cur u + k = tpage u + k) as Hown.
  { intros u k Hu Hn. unfold term_page, tpage. by cases_lia. }
  assert (term_page cur cur = VIDEO) as Hcur by (unfold term_page; by rewrite Z.eqb_refl).
  assert (∀ p, pbyte m0 p = pbyte m p) as P0 by done.
  assert (∀ p, pbyte m3 p = pbyte m2 p) as P3 by done.
  split.
  - intros u k Hu Hk. rewrite (rd_tpage m3 term pid vids), P3 by done.
    rewrite (rd_tpage m cur pid vids) by done. rewrite <- P0.
    destruct (decide (u = term)) as [->|Hnt].
    + unfold term_page at 1. rewrite Z.eqb_refl, Hown by done.
      rewrite <- (rd_video m2 (-1) pid vids), Rv by done.
      by rewrite (rd_tpage m0 (-1) pid vids), Hnone by done.
    + assert (term_page term u = tpage u) as -> by (unfold term_page, tpage; by cases_lia).
      rewrite <- (Hnone u) at 1 by done. rewrite <- (rd_tpage m2 (-1) pid vids) by done.
      destruct (decide (u = cur)) as [->|Hnc].
      * rewrite Rc, Hcur by done. by apply (rd_video m0 (-1) pid vids).
      * rewrite Ro; [|by right; apply tpage_view|by apply tpage_video; [lia|]|by apply tpage_region].
        rewrite (rd_tpage m0 (-1) pid vids), Hnone, Hown by done. done.
  - intros k Hk. rewrite (rd_video m3 term pid vids), P3 by done.
    rewrite <- (rd_video m2 (-1) pid vids), Rv by done.
    rewrite (rd_tpage m0 (-1) pid vids), (rd_tpage m cur pid vids) by done.
    by rewrite P0, Hnone, Hown by done.
  - intros a Ha Hout. assert (all_pages a) as Hap by by right.
    assert (∀ c, view_cell pid c a = view_cell pid (-1) a) as Hvc.
    { intros c. unfold view_cell, region, VIDEO in *. destruct Ha as [Ha|[Ha|Ha]];
        unfold region, VIDEO, USER_MEM_LOCATION in *; cases_lia; done || lia. }
    rewrite (rd_pbyte m3 term pid vids), P3, Hvc by done.
    rewrite <- (rd_pbyte m2 (-1) pid vids) by done.
    rewrite Ro; [|done|unfold region in *; lia|unfold region, tpage in *; lia].
    rewrite (rd_pbyte m0 (-1) pid vids), (rd_pbyte m cur pid vids) by done.
    by rewrite P0, (Hvc cur).
Qed.
End Contents.
