(* ===== verification/Isolation.v ===== *)
(** * Isolation of the processes (student-distrib/paging.c, syscall.c, keyboard.c)

    The page tables of a machine that the kernel has brought up and worked on:
    [boot_paging], then any sequence of the paging operations of [execute],
    [vidmap], the terminal switch and the loads of a directory, with stores
    outside the tables in between. *)

From S2P Require Import Prelude Memory Types Paging PagingProps Keyboard KeyboardProofs.
#[local] Open Scope Z_scope.

Section Isolation.
Context {HL : Layout}.
Implicit Types (m : mach) (P : Z → Prop) (t p q pid : Z) (vids : Z → option Z).

(** The addresses of the tables, in the kernel's 4 MB page. *)
Definition table_addr (a : Z) : Prop :=
  region kpd_addr 4096 a ∨ region vpt_addr 4096 a ∨ region ppd_addr (6 * 4096) a ∨ region tvt_addr (3 * 4096) a.

(** [built m t P]: machine [m], with terminal [t] on the screen, after the
    directories of the processes in [P] have been set up. *)
Inductive built : mach → Z → (Z → Prop) → Prop :=
| built_boot m :
    tabs m = zero_tables → built (boot_paging m) 0 (λ _, False)
| built_store m t P a v :
    built m t P → ¬ table_addr (u32 a) → built (wr m a v) t P
| built_load m t P pid :
    built m t P → P pid → built (loadPageDirectory m (pd_addr pid)) t P
| built_execute m t P pid :
    built m t P → 0 ≤ pid < 6 →
    built (loadPageDirectory (m <| tabs := execute_paging (tabs m) pid |>) (pd_addr pid)) t
      (λ q, q = pid ∨ P q)
| built_vidmap m t P pid u :
    built m t P → P pid → 0 ≤ u < 3 →
    built (loadPageDirectory (m <| tabs := vidmap_paging (tabs m) pid u |>) (pd_addr pid)) t P
| built_switch m t P pid u :
    built m t P → P pid → 0 ≤ u < 3 → u ≠ t →
    built (loadPageDirectory (set_term_page (loadPageDirectory (set_term_page m t (tpage t)) (pd_addr pid))
                                u VIDEO) (pd_addr pid)) u P.

(** The tables are well formed, with the directory of every process in [P]. *)
Record tables_built m t P vids : Prop := {
  tb_pg : cr0_pg m = true;
  tb_term : 0 ≤ t < 3;
  tb_tabs : tables_ok (tabs m) t vids;
  tb_pids : ∀ q, P q → 0 ≤ q < 6;
  tb_dirs : ∀ q, P q → dir_ok (proc_page_directory (tabs m)).[q] (Some q) (vids q)
}.

Lemma switch_tables m t u pid vids :
  tables_ok (tabs m) t vids → 0 ≤ t < 3 → 0 ≤ u < 3 → u ≠ t →
  let T := tabs (set_term_page (loadPageDirectory (set_term_page m t (tpage t)) (pd_addr pid)) u VIDEO) in
  tables_ok T u vids ∧ proc_page_directory T = proc_page_directory (tabs m).
Proof.
  intros HT Ht Hu Hne T.
  destruct (set_term_page_ok m t (-1) t (tpage t) vids HT Ht) as [HT0 HP0];
    [unfold term_page, tpage; by cases_lia|intros v Hv Hn; unfold term_page; by cases_lia|].
  destruct (set_term_page_ok (loadPageDirectory (set_term_page m t (tpage t)) (pd_addr pid)) (-1) u u VIDEO vids HT0 Hu)
    as [HT1 HP1]; [unfold term_page; by cases_lia|intros v Hv Hn; unfold term_page; by cases_lia|].
  split; [exact HT1|]. unfold T. rewrite HP1. exact HP0.
Qed.

Lemma built_tables m t P : built m t P → ∃ vids, tables_built m t P vids.
Proof.
  induction 1 as [m HT|m t P a v _ [vids [H1 H2 H3 H4 H5]] _|m t P pid _ [vids [H1 H2 H3 H4 H5]] Hp
    |m t P pid _ [vids [H1 H2 H3 H4 H5]] Hp|m t P pid u _ [vids [H1 H2 H3 H4 H5]] Hp Hu
    |m t P pid u _ [vids [H1 H2 H3 H4 H5]] Hp Hu Hne].
  - exists (λ _, None). split; [done|lia| |done|done]. unfold boot_paging. cbv zeta. rewrite HT. exact tables_ok_init.
  - exists vids. pose proof (mach_ctl_wr m a v) as Ec. injection Ec as E1 _ _ E4.
    change (tables_built (mach_wr m a v) t P vids). split; rewrite ?E1, ?E4; done.
  - exists vids. by split.
  - destruct (execute_paging_ok _ _ _ pid H3 Hp) as (HT & Hd & Ho). exists vids. split; [done|done|exact HT| |].
    + intros q [->|Hq]; [done|by apply H4].
    + intros q Hq. destruct (decide (q = pid)) as [->|Hne]; [exact Hd|].
      change (dir_ok (proc_page_directory (execute_paging (tabs m) pid)).[q] (Some q) (vids q)).
      rewrite (Ho q Hne). apply H5. by destruct Hq.
  - exists (λ q, if q =? pid then Some u else vids q).
    split; [done|done|by apply vidmap_paging_ok; [|apply H4|]|done|].
    intros q Hq. destruct (Z.eqb_spec q pid) as [->|Hne].
    + by apply (vidmap_paging_dir _ t vids pid u _ (vids pid)); [|apply H4| |apply H5].
    + change (dir_ok (proc_page_directory (vidmap_paging (tabs m) pid u)).[q] (Some q) (vids q)).
      rewrite vidmap_paging_other by done. by apply H5.
  - destruct (switch_tables m t u pid vids H3 H2 Hu Hne) as [HT HP]. exists vids.
    split; [done|done|exact HT|done|]. intros q Hq.
    change (tabs (loadPageDirectory ?x _)) with (tabs x). rewrite HP. by apply H5.
Qed.

(** The address space of a process that has been set up. *)
Lemma built_space m t P p :
  built m t P → P p → ∃ vid, 0 ≤ p < 6 ∧ 0 ≤ t < 3 ∧ (∀ u, vid = Some u → 0 ≤ u < 3) ∧
    space_ok (loadPageDirectory m (pd_addr p)) t (Some p) vid.
Proof.
  intros Hb Hp. destruct (built_tables m t P Hb) as [vids [H1 H2 H3 H4 H5]]. exists (vids p).
  split; [by apply H4|]. split; [done|]. split.
  - intros u E. pose proof (do_vid _ _ _ (H5 p Hp)) as Hv. rewrite E in Hv. apply Hv.
  - apply load_space; [done|apply H3|by apply H4|by apply H5].
Qed.

(** The 4 MB of process [p], and the video pages. *)
Definition own_page p : Z → Prop := region (0x800000 + 0x400000 * p) 0x400000.
Definition video_pages : Z → Prop := region VIDEO (4 * 4096).

Lemma built_reach m t P p a x :
  built m t P → P p → user_translate (loadPageDirectory m (pd_addr p)) a = Some x →
  own_page p x ∨ video_pages x.
Proof.
  intros Hb Hp E. destruct (built_space m t P p Hb Hp) as (vid & Hpr & Ht & Hv & Hs).
  rewrite (space_user_translate _ t (Some p) vid) in E by done.
  destruct (addr_space (Some p) vid t (u32 a)) as [[y []]|] eqn:A; try discriminate. injection E as <-.
  unfold own_page, video_pages, region.
  apply addr_space_user in A as [(q & [= <-] & A)|(u & -> & A)]; [left; lia|right].
  assert (VIDEO ≤ term_page t u ≤ VIDEO + 3 * 4096)
    by (specialize (Hv u eq_refl); unfold term_page; bool_cases; unfold VIDEO; lia). lia.
Qed.

(** C4 (isolation). Take any machine the kernel has brought up ([boot_paging])
    and worked on by any sequence of its paging operations (those of
    [execute], [vidmap], a terminal switch, the loads of [sched] and [halt])
    and of stores outside the tables.  With its directory loaded, a process that was set up
    reaches from user mode its 4 MB at 128 MB, backed by its own 4 MB of
    physical memory, and besides that nothing but the video pages: no kernel
    memory and no memory of another process. *)
Theorem process_isolation m t P p1 p2 :
  built m t P → P p1 → P p2 → p1 ≠ p2 →
  let space p := loadPageDirectory m (pd_addr p) in
  (∀ a, region USER_MEM_LOCATION 0x400000 a →
     user_translate (space p1) a = Some (0x800000 + 0x400000 * p1 + (a - USER_MEM_LOCATION))) ∧
  (∀ a x, user_translate (space p1) a = Some x → own_page p1 x ∨ video_pages x) ∧
  (∀ a b x, user_translate (space p1) a = Some x → user_translate (space p2) b = Some x → video_pages x).
Proof.
  intros Hb H1 H2 Hne space. split; [|split].
  - intros a Ha. destruct (built_space m t P p1 Hb H1) as (vid & _ & _ & _ & Hs). unfold region, USER_MEM_LOCATION in Ha.
    unfold space. rewrite (process_user_translate _ p1 vid t a Hs) by lia. unfold process_space.
    by rewrite decide_True by (unfold USER_MEM_LOCATION; lia).
  - intros a x. by apply (built_reach m t P p1).
  - intros a b x E1 E2. apply (built_reach m t P p1 _ _ Hb H1) in E1. apply (built_reach m t P p2 _ _ Hb H2) in E2.
    destruct E1 as [E1|E1]; [|done]. destruct E2 as [E2|E2]; [|done].
    unfold own_page, region in E1, E2. lia.
Qed.
End Isolation.

(** ** Witness

    After boot, processes 0 and 3 are set up and get video pages of terminals 0
    and 1, and terminal 1 is brought to the screen: process 3 sees the screen
    at the user video page, process 0 its terminal's own page. *)

Definition iso_op (f : tables → tables) (pid : Z) (m : mach) : mach :=
  loadPageDirectory (m <| tabs := f (tabs m) |>) (pd_addr pid).

Definition iso_mach : mach :=
  let m := iso_op (λ T, execute_paging T 0) 0 (boot_paging demo_boot) in
  let m := iso_op (λ T, vidmap_paging T 0 0) 0 m in
  let m := iso_op (λ T, execute_paging T 3) 3 m in
  let m := wr m 0x8000000 7 in
  let m := iso_op (λ T, vidmap_paging T 3 1) 3 m in
  loadPageDirectory (set_term_page (loadPageDirectory (set_term_page m 0 (tpage 0)) (pd_addr 3)) 1 VIDEO) (pd_addr 3).

Lemma iso_built : built iso_mach 1 (λ q, q = 3 ∨ q = 0 ∨ False).
Proof.
  unfold iso_mach. cbv zeta. apply (built_switch _ 0 _ 3 1); [|by left|lia|lia].
  apply (built_vidmap _ _ _ 3 1); [|by left|lia]. apply built_store; [apply built_execute; [|lia]|unfold table_addr, region; change (u32 0x8000000) with 0x8000000; cbn; lia].
  apply (built_vidmap _ _ _ 0 0); [|by left|lia]. apply built_execute; [|lia]. by apply built_boot.
Qed.

Lemma process_isolation_witness :
  user_translate (loadPageDirectory iso_mach (pd_addr 3)) 0x8000010 = Some 0x1400010 ∧
  user_translate (loadPageDirectory iso_mach (pd_addr 0)) 0x8000010 = Some 0x800010 ∧
  (∀ a b x, user_translate (loadPageDirectory iso_mach (pd_addr 3)) a = Some x →
            user_translate (loadPageDirectory iso_mach (pd_addr 0)) b = Some x → video_pages x).
Proof.
  destruct (process_isolation iso_mach 1 _ 3 0 iso_built ltac:(by left) ltac:(by right; left) ltac:(lia)) as (H1 & _ & H2).
  destruct (process_isolation iso_mach 1 _ 0 3 iso_built ltac:(by right; left) ltac:(by left) ltac:(lia)) as (H3 & _ & _).
  split; [exact (H1 0x8000010 ltac:(unfold region, USER_MEM_LOCATION; lia))|].
  split; [exact (H3 0x8000010 ltac:(unfold region, USER_MEM_LOCATION; lia))|exact H2].
Defined.
