(* ===== verification/LineProofs.v ===== *)
(** * The line editor: effect of each key

    The exact effect of the plain keys, Enter, Backspace and Ctrl-L on the
    terminal on the screen, and the invariant they keep. *)

From S2P Require Import Prelude Memory Lib Ports Types I8259 Paging.
From S2P Require Import Console ConsoleProofs ConsoleProps Keyboard.
#[local] Open Scope Z_scope.

(** The line of a terminal: the index stays inside the buffer, and the typed
    characters are in front of the cursor (so that Backspace never leaves the
    screen). *)
Record line_ok (T : terminal) : Prop := {
  lo_x : 0 ≤ c_x T < 80;
  lo_y : 0 ≤ c_y T < 25;
  lo_len : length (line_buffer T) = 128%nat;
  lo_idx : 0 ≤ line_buffer_index T ≤ 127;
  lo_pos : line_buffer_index T ≤ 80 * c_y T + c_x T;
  lo_bytes : ∀ i, 0 ≤ (line_buffer T).[i] < 256
}.

Lemma aset_bytes (l : list Z) j c :
  (∀ i, 0 ≤ l.[i] < 256) → 0 ≤ c < 256 → ∀ i, 0 ≤ l.[j <- c].[i] < 256.
Proof.
  intros Hl Hc i. destruct (decide (0 ≤ j < Z.of_nat (length l))) as [Hj|Hj].
  - rewrite aget_aset by done. case_decide; [done|apply Hl].
  - destruct (decide (j = i)) as [<-|Hne]; [|rewrite aget_aset_ne by done; apply Hl].
    unfold aset. destruct (Z.leb_spec 0 j); [|apply Hl].
    rewrite list_insert_ge by lia. apply Hl.
Qed.

Section LineEditor.
Context {M : Type} `{!ByteMem M} {D : Type} `{!PortIO D}.
Implicit Types (s : console M D) (m : M) (P : Z → Prop) (T : terminal).

Record terms_ok P s : Prop := {
  to_len : length (terminals s) = 3%nat;
  to_cur : 0 ≤ cur_terminal s < 3;
  to_page : ∀ t, 0 ≤ t < 3 → page_ok P (vmem s) (page_of s t);
  to_line : ∀ t, 0 ≤ t < 3 → line_ok (terminals s).[t]
}.

Lemma terms_con_ok P s t : terms_ok P s → 0 ≤ t < 3 → con_ok P s t.
Proof.
  intros Hs Ht. pose proof (to_line _ _ Hs t Ht) as Hl. split.
  - rewrite (to_len _ _ Hs). lia.
  - by apply Hs.
  - apply Hl.
  - apply Hl.
Qed.

(** Terminal [t] becomes [T'] and only its page changes. *)
Record becomes P s s' (t : Z) T' : Prop := {
  be_terms : terminals s' = (terminals s).[t <- T'];
  be_cur : cur_terminal s' = cur_terminal s;
  be_page : only_page P (vmem s) (vmem s') (page_of s t);
  be_video : video_mem T' = page_of s t
}.

Lemma becomes_get P s s' t T' :
  0 ≤ t < Z.of_nat (length (terminals s)) → becomes P s s' t T' → (terminals s').[t] = T'.
Proof. intros Ht [E _ _ _]. rewrite E. by apply aget_aset_eq. Qed.

Lemma becomes_ok P s s' t T' :
  terms_ok P s → 0 ≤ t < 3 → becomes P s s' t T' → line_ok T' → terms_ok P s'.
Proof.
  intros Hs Ht Hb Hl. pose proof (to_len _ _ Hs) as Hlen.
  pose proof (becomes_get P s s' t T' ltac:(lia) Hb) as Eg.
  destruct Hb as [E Ec [Eq Hp] Ev].
  assert (∀ u, u ≠ t → (terminals s').[u] = (terminals s).[u]) as Eo.
  { intros u Hu. rewrite E. by apply aget_aset_ne. }
  split.
  - by rewrite E, length_aset.
  - rewrite Ec. apply Hs.
  - intros u Hu. unfold page_of. destruct (decide (u = t)) as [->|Hne].
    + rewrite Eg, Ev. by apply (page_ok_cells P (vmem s)), Hs.
    + rewrite Eo by done. by apply (page_ok_cells P (vmem s)), Hs.
  - intros u Hu. destruct (decide (u = t)) as [->|Hne].
    + by rewrite Eg.
    + rewrite Eo by done. by apply Hs.
Qed.

Lemma becomes_trans P s1 s2 s3 t T2 T3 :
  0 ≤ t < Z.of_nat (length (terminals s1)) →
  becomes P s1 s2 t T2 → becomes P s2 s3 t T3 → becomes P s1 s3 t T3.
Proof.
  intros Ht H1 H2. pose proof (becomes_get _ _ _ _ _ Ht H1) as Eg.
  destruct H1 as [E1 C1 P1 V1], H2 as [E2 C2 P2 V2].
  assert (page_of s2 t = page_of s1 t) as Ep by (unfold page_of at 1; by rewrite Eg).
  rewrite Ep in *. split.
  - by rewrite E2, E1, aset_aset.
  - by rewrite C2.
  - by apply (only_page_trans _ _ (vmem s2)).
  - done.
Qed.

(** Chains of steps on one terminal. *)
Lemma becomes_refl P s t :
  0 ≤ t < Z.of_nat (length (terminals s)) → becomes P s s t (terminals s).[t].
Proof.
  intros Ht. split; [|done|apply only_page_refl|done].
  unfold aset. destruct (Z.leb_spec 0 t); [|done]. symmetry. apply list_insert_id.
  rewrite lookup_aget by lia. by rewrite Z2Nat.id by lia.
Qed.

Lemma becomes_with P s s' t f T' :
  0 ≤ t < Z.of_nat (length (terminals s)) → (∀ T, video_mem (f T) = video_mem T) →
  becomes P s s' t T' → becomes P s (with_term s' t f) t (f T').
Proof.
  intros Ht Hv Hb. pose proof (becomes_get _ _ _ _ _ Ht Hb) as Eg.
  destruct Hb as [E C Hp V]. split; [|done|done|by rewrite Hv].
  unfold with_term. simpl. rewrite Eg, E. apply aset_aset.
Qed.

Lemma becomes_drawn P s s' s'' t x y T' :
  0 ≤ t < Z.of_nat (length (terminals s)) →
  becomes P s s' t T' → drawn P s' s'' t x y → becomes P s s'' t (set_cursor T' x y).
Proof.
  intros Ht Hb [E2 C2 P2]. pose proof (becomes_get _ _ _ _ _ Ht Hb) as Eg.
  apply (becomes_trans P s s' s'' t T'); [done|done|]. rewrite Eg in E2.
  split; [done|done|done|]. unfold page_of. by rewrite Eg.
Qed.

Lemma becomes_con_ok P s s' t T' :
  con_ok P s t → becomes P s s' t T' → 0 ≤ c_x T' < 80 → 0 ≤ c_y T' < 25 → con_ok P s' t.
Proof.
  intros [Ht Hp _ _] Hb Hx Hy. pose proof (becomes_get _ _ _ _ _ Ht Hb) as Eg.
  destruct Hb as [E C [Hc _] V]. split; unfold page_of; rewrite ?Eg; try done.
  - by rewrite E, length_aset.
  - rewrite V. by apply (page_ok_cells P (vmem s)).
Qed.

Lemma term_scroll_drawn P s t :
  con_ok P s t → drawn P s (term_scroll s t) t (c_x (terminals s).[t]) (c_y (terminals s).[t]).
Proof.
  intros [Ht Hp _ _]. split; [|done|by eapply written_only_page, scroll_written].
  exact (be_terms _ _ _ _ _ (becomes_refl P s t Ht)).
Qed.

(** ** The keys *)

(** Enter: the line ends in a linefeed and is ready to be read; the cursor is
    at the start of the next row (the screen scrolls under it on the last). *)
Lemma key_enter_becomes P s :
  let cur := cur_terminal s in
  let T := (terminals s).[cur] in
  con_ok P s cur →
  becomes P s (key_enter s) cur
    (set_cursor (T <| cmdCount := 0 |>
                   <| line_buffer := (line_buffer T).[line_buffer_index T <- KEYBOARD_LINEFEED] |>
                   <| typingLine := false |>)
                0 (if c_y T =? 24 then 24 else c_y T + 1)).
Proof.
  intros cur T Hok. pose proof Hok as [Ht Hp Hx Hy]. fold T in Hx, Hy.
  unfold key_enter. fold cur. set (s1 := with_term (with_term _ _ _) _ _).
  pose proof (becomes_refl P s cur Ht) as B. fold T in B.
  eapply (becomes_with _ _ _ _ (λ T, T <| cmdCount := 0 |>)) in B; [|done|done].
  eapply (becomes_with _ _ _ _ (λ T, T <| line_buffer :=
    (line_buffer T).[line_buffer_index T <- KEYBOARD_LINEFEED] |>)) in B; [|done|done].
  eapply (becomes_with _ _ _ _ (λ T, T <| typingLine := false |>)) in B; [|done|done].
  fold s1 in B. set (T1 := _ : terminal) in B.
  pose proof (becomes_get _ _ _ _ _ Ht B) as E1.
  assert (con_ok P s1 cur) as Hok1 by (apply (becomes_con_ok P s s1 cur T1); done).
  rewrite E1. change (c_y T1) with (c_y T). unfold MAX_ROW_INDEX.
  destruct (Z.eqb_spec (c_y T) 24) as [E24|Hne].
  - pose proof (term_scroll_drawn P s1 cur Hok1) as D2. rewrite E1 in D2.
    pose proof (becomes_drawn _ _ _ _ _ _ _ _ Ht B D2) as B2.
    pose proof (becomes_get _ _ _ _ _ Ht B2) as E2. rewrite E2.
    change (c_y (set_cursor T1 _ _)) with (c_y T). rewrite E24.
    assert (con_ok P (term_scroll s1 cur) cur) as Hok2
      by (apply (becomes_con_ok P s _ cur _ Hok B2); done).
    destruct (move_csr_spec P (term_scroll s1 cur) 0 24 Hok2) as (D3 & _ & _); [lia|lia|].
    exact (becomes_drawn _ _ _ _ _ _ _ _ Ht B2 D3).
  - destruct (move_csr_spec P s1 0 (c_y T + 1) Hok1) as (D2 & _ & _); [lia|lia|].
    exact (becomes_drawn _ _ _ _ _ _ _ _ Ht B D2).
Qed.

(** Backspace: one character back, nothing on an empty line. *)
Lemma key_backspace_becomes P s :
  let cur := cur_terminal s in
  let T := (terminals s).[cur] in
  let p := 80 * c_y T + c_x T - 1 in
  con_ok P s cur → line_ok T → 0 < line_buffer_index T →
  becomes P s (key_backspace s) cur
    ((set_cursor T (p mod 80) (p / 80)) <| line_buffer_index := line_buffer_index T - 1 |>).
Proof.
  intros cur T p Hok Hl Hi. pose proof Hok as [Ht _ _ _]. unfold key_backspace. fold cur T.
  rewrite (proj2 (Z.gtb_lt _ _)) by done.
  destruct (term_delete_char_spec P s Hok) as (Dd & _ & _);
    [pose proof (lo_pos _ Hl); fold cur T; lia|].
  fold cur T p in Dd.
  pose proof (becomes_refl P s cur Ht) as B. fold T in B.
  apply (becomes_drawn _ _ _ _ _ _ _ _ Ht) with (2 := Dd) in B.
  eapply (becomes_with _ _ _ _
    (λ T, T <| line_buffer_index := u32 (line_buffer_index T - 1) |>)) in B; [|done|done].
  change (line_buffer_index (set_cursor T (p mod 80) (p / 80))) with (line_buffer_index T) in B.
  rewrite u32_small in B by (pose proof (lo_idx _ Hl); lia). exact B.
Qed.

(** A plain key: the character goes to the end of the line and is printed. *)
Definition typed (T : terminal) (c x y : Z) : terminal :=
  (set_cursor (T <| line_buffer := (line_buffer T).[line_buffer_index T <- c] |>) x y)
    <| line_buffer_index := line_buffer_index T + 1 |>.

Lemma key_plain_becomes P k s code :
  let cur := cur_terminal s in
  let T := (terminals s).[cur] in
  con_ok P s cur → 0 ≤ line_buffer_index T < 127 → 0 ≤ key_char k code < 256 →
  let '(_, x, y) := putc_spec (key_char k code) (tview s cur) in
  becomes P s (key_plain k s code) cur (typed T (key_char k code) x y) ∧
  0 ≤ x < 80 ∧ 0 ≤ y < 25.
Proof.
  intros cur T Hok Hi Hc. pose proof Hok as [Ht _ _ _]. unfold key_plain. fold cur T.
  rewrite (proj2 (Z.ltb_lt _ _)) by (unfold MAX_BUF_INDEX; lia).
  set (c := key_char k code) in *. set (s1 := with_term s cur _).
  pose proof (becomes_refl P s cur Ht) as B. fold T in B.
  eapply (becomes_with _ _ _ _ (λ T, T <| line_buffer :=
    (line_buffer T).[line_buffer_index T <- c] |>)) in B; [|done|done].
  fold s1 in B. set (T1 := _ : terminal) in B. pose proof (becomes_get _ _ _ _ _ Ht B) as E1.
  assert (con_ok P s1 cur) as Hok1 by (apply (becomes_con_ok P s s1 cur T1 Hok B); apply Hok).
  assert (tview s1 cur = tview s cur) as Ev by (unfold tview, page_of; by rewrite E1).
  pose proof (term_putc_drawn P s1 c cur Hok1 Hc) as H2. rewrite Ev in H2.
  destruct (putc_spec c (tview s cur)) as [[l x] y]. destruct H2 as (D2 & _ & Hx & Hy & _).
  set (s2 := term_putc s1 c cur) in *. split; [|done].
  pose proof (becomes_drawn _ _ _ _ _ _ _ _ Ht B D2) as B2.
  pose proof (becomes_get _ _ _ _ _ Ht B2) as E2.
  assert (cur_terminal s2 = cur) as Ec2 by exact (be_cur _ _ _ _ _ B2).
  assert (con_ok P s2 cur) as Hok2 by by apply (becomes_con_ok P s s2 cur _ Hok B2).
  unfold show_csr. rewrite Ec2, E2.
  change (c_x (set_cursor T1 x y)) with x. change (c_y (set_cursor T1 x y)) with y.
  rewrite <- Ec2 in Hok2. destruct (move_csr_spec P s2 x y Hok2 Hx Hy) as (D3 & _ & _).
  rewrite Ec2 in D3. set (s3 := move_csr s2 x y) in *.
  pose proof (becomes_drawn _ _ _ _ _ _ _ _ Ht B2 D3) as B3.
  pose proof (becomes_get _ _ _ _ _ Ht B3) as E3.
  assert (con_ok P s3 cur) as Hok3 by by apply (becomes_con_ok P s s3 cur _ Hok B3).
  assert (becomes P s (if (x =? MAX_COL_INDEX) && (y =? MAX_ROW_INDEX)
                       then term_scroll s3 cur else s3) cur (set_cursor T1 x y)) as B4.
  { destruct (_ && _); [|exact B3].
    pose proof (term_scroll_drawn P s3 cur Hok3) as D4. rewrite E3 in D4.
    exact (becomes_drawn _ _ _ _ _ _ _ _ Ht B3 D4). }
  eapply (becomes_with _ _ _ _
    (λ T, T <| line_buffer_index := u32 (line_buffer_index T + 1) |>)) in B4; [|done|done].
  rewrite E3. change (line_buffer_index (set_cursor T1 x y)) with (line_buffer_index T) in B4.
  rewrite u32_small in B4 by lia. exact B4.
Qed.

(** Ctrl-L: blank screen, cursor home, empty line. *)
Lemma clear_line_loop P s s0 cur T :
  0 ≤ cur < Z.of_nat (length (terminals s)) → 0 ≤ line_buffer_index T ≤ 127 →
  becomes P s s0 cur T → (∀ j, 0 ≤ (line_buffer T).[j] < 256) →
  ∃ s', while (clear_line_step cur) s0 = Some s' ∧
  ∃ lb i, (length lb = length (line_buffer T) ∧ ∀ j, 0 ≤ lb.[j] < 256) ∧
    becomes P s s' cur (T <| line_buffer := lb |> <| line_buffer_index := i |>).
Proof.
  intros Ht Hi B0 Hby.
  apply (while_total _ (λ s1, ∃ lb i, 0 ≤ i ≤ 127 ∧
      (length lb = length (line_buffer T) ∧ ∀ j, 0 ≤ lb.[j] < 256) ∧
      becomes P s s1 cur (T <| line_buffer := lb |> <| line_buffer_index := i |>))
    (λ s1, line_buffer_index (terminals s1).[cur])).
  - intros s1 (lb & i & Hr & _ & B). rewrite (becomes_get _ _ _ _ _ Ht B). apply Hr.
  - intros s1 (lb & i & Hr & Hl & B). pose proof (becomes_get _ _ _ _ _ Ht B) as E.
    unfold clear_line_step. rewrite E. change (line_buffer_index (_ <| line_buffer_index := i |>)) with i.
    destruct (Z.gtb_spec i 0); [|exists lb, i; split; [exact Hl|exact B]].
    eapply (becomes_with _ _ _ _ (λ T,
             T <| line_buffer := (line_buffer T).[line_buffer_index T <- 0] |>
               <| line_buffer_index := u32 (line_buffer_index T - 1) |>)) in B; [|done|done].
    split.
    + exists lb.[i <- 0], (u32 (i - 1)). rewrite u32_small by lia.
      split; [lia|]. rewrite u32_small in B by (cbn; lia). split; [|exact B].
      split; [by rewrite length_aset; apply Hl|]. apply aset_bytes; [apply Hl|lia].
    + rewrite (becomes_get _ _ _ _ _ Ht B). cbn. rewrite u32_small by lia. lia.
  - exists (line_buffer T), (line_buffer_index T). split; [done|]. split; [by split|]. exact B0.
  - rewrite (becomes_get _ _ _ _ _ Ht B0). lia.
Qed.

Lemma key_clear_becomes P s :
  let cur := cur_terminal s in
  let T := (terminals s).[cur] in
  con_ok P s cur → 0 ≤ line_buffer_index T ≤ 127 → (∀ j, 0 ≤ (line_buffer T).[j] < 256) →
  ∃ s' lb, key_clear s = Some s' ∧
    (length lb = length (line_buffer T) ∧ ∀ j, 0 ≤ lb.[j] < 256) ∧
    becomes P s s' cur ((set_cursor T 0 0) <| line_buffer := lb |> <| line_buffer_index := 0 |>).
Proof.
  intros cur T Hok Hi Hby. pose proof Hok as [Ht _ _ _]. unfold key_clear. fold cur.
  destruct (term_clear_spec P s Hok) as (D1 & _ & _). fold cur in D1.
  pose proof (becomes_drawn _ _ _ _ _ _ _ _ Ht (becomes_refl P s cur Ht) D1) as B1. fold T in B1.
  set (s1 := term_clear s cur) in *.
  assert (cur_terminal s1 = cur) as Ec1 by exact (be_cur _ _ _ _ _ B1).
  assert (con_ok P s1 cur) as Hok1
    by (apply (becomes_con_ok P s s1 cur _ Hok B1); cbn; lia).
  rewrite <- Ec1 in Hok1. destruct (move_csr_spec P s1 0 0 Hok1) as (D2 & _ & _); [lia|lia|].
  rewrite Ec1 in D2. pose proof (becomes_drawn _ _ _ _ _ _ _ _ Ht B1 D2) as B2.
  destruct (clear_line_loop P s _ cur (set_cursor (set_cursor T 0 0) 0 0) Ht Hi B2 Hby) as (s3 & -> & lb & i & Hl & B3).
  cbn [mbind option_bind]. eexists _, lb. split; [reflexivity|]. split; [exact Hl|].
  eapply (becomes_with _ _ _ _ (λ T, T <| line_buffer_index := 0 |>)) in B3; [|done|done].
  exact B3.
Qed.
End LineEditor.

(** ** The invariant of the line *)

Lemma putc_pos c l x y :
  0 ≤ x < 80 → 0 ≤ y < 25 →
  let '(_, x', y') := putc_spec c (l, x, y) in
  Z.min (80 * y + x + 1) 1920 ≤ 80 * y' + x'.
Proof.
  intros Hx Hy. unfold putc_spec.
  assert (80 * ((x + 1) / 80) + (x + 1) mod 80 = x + 1 ∧ 0 ≤ (x + 1) mod 80) as [E Hm]
    by (clear; mlia).
  destruct ((c =? 10) || (c =? 13)); case_one; lia.
Qed.

Lemma key_char_range k code : 0 ≤ code < 128 → 0 ≤ key_char k code < 256.
Proof.
  intros Hc. unfold key_char.
  assert (∀ l, length l = 128%nat → forallb (λ c, (0 <=? c) && (c <? 256)) l = true →
    0 ≤ l.[code] < 256) as Hl.
  { intros l Hlen Hall. rewrite forallb_forall in Hall.
    assert (In l.[code] l) as Hin.
    { apply list_elem_of_In, list_elem_of_lookup. exists (Z.to_nat code).
      rewrite lookup_aget by lia. by rewrite Z2Nat.id by lia. }
    apply Hall in Hin. apply andb_true_iff in Hin as [H1 H2]. lia. }
  repeat case_match; apply Hl; done.
Qed.

Lemma enter_line_ok T lb :
  line_ok T → length lb = 128%nat → (∀ i, 0 ≤ lb.[i] < 256) →
  line_ok (set_cursor (T <| cmdCount := 0 |> <| line_buffer := lb |> <| typingLine := false |>)
             0 (if c_y T =? 24 then 24 else c_y T + 1)).
Proof.
  intros [Hx Hy Hl Hi Hp Hb] Hlb Hlb'. destruct T; cbn in *.
  split; cbn; try done; try case_one; lia.
Qed.

Lemma typed_line_ok T c l x y :
  line_ok T → line_buffer_index T < 127 → 0 ≤ x < 80 → 0 ≤ y < 25 → 0 ≤ c < 256 →
  (let '(_, x', y') := putc_spec c (l, c_x T, c_y T) in (x, y) = (x', y')) →
  line_ok (typed T c x y).
Proof.
  intros [Hx Hy Hl Hi Hp Hb] Hlt Hx' Hy' Hc E. pose proof (putc_pos c l _ _ Hx Hy) as Hpos.
  destruct (putc_spec c (l, c_x T, c_y T)) as [[l' x2] y2]. injection E as -> ->.
  unfold typed. destruct T; cbn in *. split; cbn; try done; [by rewrite length_aset|lia|lia|].
  by apply aset_bytes.
Qed.
