(* ===== verification/KeyboardProps.v ===== *)
(** * Properties of the keyboard and the terminals

    The invariant of the terminals while a process runs, and its preservation
    by the keys and by the switch of terminals. *)

From S2P Require Import Prelude Memory Lib Ports Types I8259 Paging PagingProps.
From S2P Require Import Console ConsoleProofs ConsoleProps Keyboard KeyboardProofs LineProofs.
#[local] Open Scope Z_scope.

Section KeyboardProps.
Context {HL : Layout} {D : Type} `{!PortIO D}.
Implicit Types (s : console mach D) (pid t : Z) (vids : Z → option Z).

(** The terminals and the machine while process [pid] runs. *)
Record kbd_inv pid vids s : Prop := {
  ki_terms : terms_ok kernel_view s;
  ki_mach : mach_ok (vmem s) (cur_terminal s) pid vids;
  ki_page : ∀ t, 0 ≤ t < 3 → page_of s t = tpage t
}.

Lemma tpage_ok m cur pid vids t :
  mach_ok m cur pid vids → 0 ≤ t < 3 → page_ok kernel_view m (tpage t).
Proof.
  intros Hm Ht. split.
  - unfold tpage, VIDEO. lia.
  - by apply (mach_safe m cur pid vids).
  - intros a Ha. left. unfold region, tpage in *. lia.
Qed.

Lemma becomes_inv pid vids s s' t T' :
  kbd_inv pid vids s → 0 ≤ t < 3 → becomes kernel_view s s' t T' → line_ok T' →
  kbd_inv pid vids s'.
Proof.
  intros [H1 H2 H3] Ht B Hl. split.
  - by apply (becomes_ok kernel_view s s' t T').
  - rewrite (be_cur _ _ _ _ _ B). apply (mach_ok_ctl (vmem s)); [|done].
    exact (proj1 (be_page _ _ _ _ _ B)).
  - intros u Hu. unfold page_of. destruct (decide (u = t)) as [->|Hne].
    + rewrite (becomes_get kernel_view s s' t T') by (done || (rewrite (to_len _ _ H1); lia)).
      rewrite (be_video _ _ _ _ _ B). by apply H3.
    + rewrite (be_terms _ _ _ _ _ B), aget_aset_ne by done. by apply H3.
Qed.

(** Showing the cursor of the terminal on the screen changes nothing in
    memory. *)
Lemma show_csr_same P s :
  con_ok P s (cur_terminal s) →
  let T := (terminals s).[cur_terminal s] in
  show_csr s = s <| dev := csr_out (dev s) (80 * c_y T + c_x T) |>.
Proof.
  intros Hok T. destruct (move_csr_spec P s (c_x T) (c_y T) Hok) as ([E C _] & Em & Ed);
    [apply Hok..|].
  pose proof (be_terms _ _ _ _ _ (becomes_refl P s (cur_terminal s) (co_term _ _ _ Hok))) as Er.
  change (set_cursor (terminals s).[cur_terminal s] (c_x T) (c_y T))
    with (terminals s).[cur_terminal s] in E. rewrite <- Er in E.
  unfold show_csr. fold T. destruct (move_csr s (c_x T) (c_y T)). cbn in *. by subst.
Qed.

Lemma switch_unfold pid s term m1 m2 :
  let cur := cur_terminal s in
  term < 3 → cur ≠ term →
  video_mem (terminals s).[cur] = tpage cur → video_mem (terminals s).[term] = tpage term →
  memcpy (loadPageDirectory (set_term_page (vmem s) cur (tpage cur)) (pd_addr pid))
    (tpage cur) VIDEO ALIGNED_4KB = Some m1 →
  memcpy m1 VIDEO (tpage term) ALIGNED_4KB = Some m2 →
  switch_terminals pid s term =
  Some (show_csr (s <| vmem := loadPageDirectory (set_term_page m2 term VIDEO) (pd_addr pid) |>
                    <| cur_terminal := term |>)).
Proof.
  intros cur Ht Hne V1 V2 E1 E2. unfold switch_terminals. fold cur.
  destruct (Z.ltb_spec term 3); [|lia]. destruct (Z.eqb_spec cur term); [contradiction|].
  rewrite V1, V2. simpl andb. cbv iota. rewrite E1, bind_some, E2, bind_some. reflexivity.
Qed.

(** The console after the switch. *)
Lemma switched_inv pid vids s m3 term :
  kbd_inv pid vids s → 0 ≤ term < 3 → mach_ok m3 term pid vids →
  kbd_inv pid vids (s <| vmem := m3 |> <| cur_terminal := term |>).
Proof.
  intros [H1 H2 H3] Ht Hm. split; [|done|done]. split; [apply H1|done| |apply H1].
  intros u Hu. change (page_of (s <| vmem := m3 |> <| cur_terminal := term |>) u) with (page_of s u).
  rewrite H3 by done. by apply (tpage_ok m3 term pid vids).
Qed.

Lemma dev_inv pid vids s d : kbd_inv pid vids s → kbd_inv pid vids (s <| dev := d |>).
Proof. intros [[] H2 H3]. by split. Qed.

Lemma switch_spec pid vids s term :
  kbd_inv pid vids s → 0 ≤ term < 3 → term ≠ cur_terminal s →
  ∃ s', switch_terminals pid s term = Some s' ∧ kbd_inv pid vids s' ∧
    cur_terminal s' = term ∧ terminals s' = terminals s ∧
    switched (vmem s) (vmem s') (cur_terminal s) term ∧
    dev s' = csr_out (dev s) (80 * c_y (terminals s).[term] + c_x (terminals s).[term]).
Proof.
  intros Hinv Ht Hne. pose proof Hinv as [H1 H2 H3]. pose proof (to_cur _ _ H1) as Hc.
  destruct (switch_mach (vmem s) pid vids (cur_terminal s) term H2 Hc Ht)
    as (m1 & m2 & E1 & E2 & Hm3 & Hsw); [done|].
  rewrite (switch_unfold pid s term m1 m2 (proj2 Ht) (not_eq_sym Hne) (H3 _ Hc) (H3 _ Ht) E1 E2).
  generalize dependent (loadPageDirectory (set_term_page m2 term VIDEO) (pd_addr pid)).
  intros m3 Hm3 Hsw. pose proof (switched_inv pid vids s m3 term Hinv Ht Hm3) as Hinv1.
  assert (con_ok kernel_view (s <| vmem := m3 |> <| cur_terminal := term |>) term) as Hok
    by (apply terms_con_ok; [apply Hinv1|done]).
  rewrite (show_csr_same kernel_view _ Hok). eexists. split; [reflexivity|].
  split; [by apply dev_inv|].
  split; [reflexivity|split; [reflexivity|split; [exact Hsw|reflexivity]]].
Qed.

(** ** Every key *)

Lemma pressed_code data :
  0 ≤ data < 256 → (Z.land data KEY_STATUS_MASK =? 0) = true →
  Z.land data KEY_STATE_MASK = data ∧ data < 128.
Proof.
  intros Hd Hp.
  assert (forallb (λ d, negb (Z.land d KEY_STATUS_MASK =? 0) ||
    ((Z.land d KEY_STATE_MASK =? d) && (d <? 128))) (seqZ 0 256) = true) as Hall
    by (vm_compute; reflexivity).
  pose proof (forall_seqZ_true _ _ Hall data Hd) as Hk. cbv beta in Hk. rewrite Hp in Hk.
  simpl in Hk. apply andb_true_iff in Hk as [H1 H2]. lia.
Qed.

Section Keys.
Context (pid : Z) (vids : Z → option Z) (s : console mach D).
Hypothesis Hinv : kbd_inv pid vids s.

Lemma cur_con_ok : con_ok kernel_view s (cur_terminal s).
Proof. apply terms_con_ok; [apply Hinv|apply Hinv]. Qed.

Lemma cur_line : line_ok (terminals s).[cur_terminal s].
Proof. apply (ki_terms _ _ _ Hinv), Hinv. Qed.

Lemma key_enter_inv : kbd_inv pid vids (key_enter s).
Proof.
  pose proof cur_line as Hl. eapply becomes_inv; [exact Hinv|apply Hinv|
    apply key_enter_becomes, cur_con_ok|].
  apply enter_line_ok; [done|rewrite length_aset; apply Hl|].
  apply aset_bytes; [apply Hl|unfold KEYBOARD_LINEFEED; lia].
Qed.

Lemma key_backspace_inv : kbd_inv pid vids (key_backspace s).
Proof.
  pose proof cur_line as Hl.
  destruct (decide (0 < line_buffer_index (terminals s).[cur_terminal s])) as [Hi|Hi].
  - eapply becomes_inv; [exact Hinv|apply Hinv|by apply key_backspace_becomes; [apply cur_con_ok| |]|].
    destruct Hl as [Hx Hy Hl Hi' Hp Hb]. destruct ((terminals s).[cur_terminal s]); cbn in *.
    split; cbn; try done; mlia.
  - unfold key_backspace. destruct (Z.gtb_spec (line_buffer_index (terminals s).[cur_terminal s]) 0);
      [lia|exact Hinv].
Qed.

Lemma key_plain_inv k code : 0 ≤ code < 128 → kbd_inv pid vids (key_plain k s code).
Proof.
  intros Hcode. pose proof cur_line as Hl.
  destruct (decide (line_buffer_index (terminals s).[cur_terminal s] < 127)) as [Hi|Hi].
  - pose proof (key_plain_becomes kernel_view k s code cur_con_ok) as Hk. cbv zeta in Hk.
    specialize (Hk (conj (proj1 (lo_idx _ Hl)) Hi) (key_char_range k code Hcode)).
    unfold tview in Hk.
    pose proof (typed_line_ok (terminals s).[cur_terminal s] (key_char k code)
      (view (vmem s) (page_of s (cur_terminal s)))) as Ht.
    destruct (putc_spec _ _) as [[l x] y]. destruct Hk as (B & Hx & Hy).
    eapply becomes_inv; [exact Hinv|apply Hinv|exact B|].
    apply Ht; try done. by apply key_char_range.
  - unfold key_plain, MAX_BUF_INDEX.
    destruct (Z.ltb_spec (line_buffer_index (terminals s).[cur_terminal s]) 127);
      [lia|exact Hinv].
Qed.

Lemma key_clear_inv : ∃ s', key_clear s = Some s' ∧ kbd_inv pid vids s'.
Proof.
  pose proof cur_line as Hl.
  destruct (key_clear_becomes kernel_view s cur_con_ok (lo_idx _ Hl) (lo_bytes _ Hl)) as (s' & lb & E & Hlb & B).
  exists s'. split; [exact E|]. eapply becomes_inv; [exact Hinv|apply Hinv|exact B|].
  destruct Hl as [Hx Hy Hl Hi' Hp Hb], Hlb as [Hlb1 Hlb2].
  destruct ((terminals s).[cur_terminal s]); cbn in *. split; cbn; done || lia.
Qed.

Lemma switch_inv term :
  0 ≤ term < 3 → ∃ s', switch_terminals pid s term = Some s' ∧ kbd_inv pid vids s'.
Proof.
  intros Ht. destruct (decide (term = cur_terminal s)) as [E|Hne].
  - exists s. split; [|exact Hinv]. unfold switch_terminals. rewrite E, Z.eqb_refl.
    by destruct (_ <? _).
  - destruct (switch_spec pid vids s term Hinv Ht Hne) as (s' & E & Hi & _). eauto.
Qed.
End Keys.

Definition handle pid (before : Z → Z) (k : kbd) s (data : Z) : option (kbd * console mach D) :=
  handle_key (switch_terminals pid) before k s data.

Lemma handle_key_inv pid vids before k s data :
  kbd_inv pid vids s → 0 ≤ data < 256 → data ≠ UPCODE → data ≠ DOWNCODE →
  ∃ k' s', handle pid before k s data = Some (k', s') ∧ kbd_inv pid vids s'.
Proof.
  intros Hinv Hd Hup Hdown. unfold handle, handle_key.
  destruct (Z.land data KEY_STATUS_MASK =? 0) eqn:Hp.
  - destruct (pressed_code data Hd Hp) as [-> Hlt].
    destruct (Z.eqb_spec data UPCODE); [contradiction|].
    destruct (Z.eqb_spec data DOWNCODE); [contradiction|].
    destruct (key_clear_inv pid vids s Hinv) as (sc & Ec & Hc).
    destruct (switch_inv pid vids s Hinv 0) as (s0 & E0 & H0); [lia|].
    destruct (switch_inv pid vids s Hinv 1) as (s1 & E1 & H1); [lia|].
    destruct (switch_inv pid vids s Hinv 2) as (s2 & E2 & H2); [lia|].
    rewrite Ec, E0, E1, E2.
    pose proof (key_enter_inv pid vids s Hinv).
    pose proof (key_backspace_inv pid vids s Hinv).
    pose proof (key_plain_inv pid vids s Hinv k data ltac:(lia)).
    repeat match goal with |- context [if ?b then _ else _] => destruct b end;
      (eexists _, _; split; [reflexivity|assumption]).
  - repeat match goal with |- context [if ?b then _ else _] => destruct b end;
      (eexists _, _; split; [reflexivity|assumption]).
Qed.
End KeyboardProps.
