(* ===== verification/TerminalProofs.v ===== *)
(** * The terminal driver: reading and writing

    The loops of [terminal_write] and [terminal_read], and the history loops
    of the keyboard handler. *)

From S2P Require Import Prelude Memory Lib Ports Types I8259 Paging.
From S2P Require Import Console ConsoleProofs ConsoleProps Keyboard LineProofs.
#[local] Open Scope Z_scope.

Section Driver.
Context {M : Type} `{!ByteMem M} {D : Type} `{!PortIO D}.
Implicit Types (s : console M D) (m : M) (P : Z → Prop) (t : Z).

(** The [n] bytes [terminal_write] prints: up to the length or the first NUL. *)
Record printable m (buf nbytes n : Z) : Prop := {
  pr_len : 0 ≤ n ≤ nbytes;
  pr_nz : ∀ i, 0 ≤ i < n → rd m (buf + i) ≠ 0;
  pr_end : n = nbytes ∨ rd m (buf + n) = 0
}.

Lemma write_loop P s t buf nbytes n :
  con_ok P s t → printable (vmem s) buf nbytes n → nbytes < 2147483648 →
  0 ≤ buf → buf + nbytes < 4294967296 →
  (∀ a, region buf nbytes a → P a ∧ ¬ region (page_of s t) 4000 a) →
  while (write_step t buf nbytes) (s, 0, 0) =
  Some (fold_left (λ s c, term_putc s c t) (bytes (vmem s) buf n) s, n).
Proof.
  intros Hok [Hn Hnz Hend] Hb Hb0 Hb1 Hreg. set (cs := bytes (vmem s) buf n).
  assert (length cs = Z.to_nat n) as Hlen
    by (unfold cs, bytes; by rewrite length_fmap, length_seqZ).
  apply (while_eq _ (λ '(s', i, w), 0 ≤ i ≤ n ∧ w = i ∧
      s' = fold_left (λ s c, term_putc s c t) (take (Z.to_nat i) cs) s)
    (λ '(_, i, _), n - i)).
  - intros [[s' i] w] (Hi & _). lia.
  - intros [[s' i] w] (Hi & -> & ->). unfold write_step.
    rewrite (u32_small i) by lia. destruct (Z.ltb_spec i nbytes) as [Hlt|Hge].
    + rewrite (u32_small (buf + i)) by lia.
      destruct (Hreg (buf + i)) as [HP Hout]; [unfold region; lia|].
      rewrite (print_rd P) by (done || apply Forall_take, bytes_range).
      destruct (Z.eqb_spec (rd (vmem s) (buf + i)) 0) as [E0|E0].
      * assert (i = n) as -> by (destruct (decide (i = n)); [done|];
          exfalso; apply (Hnz i); [lia|done]).
        by rewrite take_ge by lia.
      * assert (i < n) as Hin.
        { destruct Hend as [->|Hz]; [done|]. destruct (decide (i = n)) as [->|]; [done|lia]. }
        rewrite !s32_small by lia. split; [|lia]. split; [lia|]. split; [done|].
        replace (Z.to_nat (i + 1)) with (S (Z.to_nat i)) by lia.
        rewrite (take_S_r _ _ (rd (vmem s) (buf + i))).
        -- rewrite fold_left_app. simpl. unfold putc.
           destruct (Z.eqb_spec t (cur_terminal (fold_left (λ s c, term_putc s c t)
             (take (Z.to_nat i) cs) s))) as [<-|]; done.
        -- unfold cs. rewrite bytes_lookup by lia. by rewrite Z2Nat.id by lia.
    + assert (i = n) as -> by lia. by rewrite take_ge by lia.
  - split; [lia|]. done.
  - lia.
Qed.

(** [terminal_write] prints these bytes and returns their number. *)
Lemma terminal_write_spec P s t buf nbytes n :
  con_ok P s t → printable (vmem s) buf nbytes n → nbytes < 2147483648 →
  0 < buf → buf + nbytes < 4294967296 →
  (∀ a, region buf nbytes a → P a ∧ ¬ region (page_of s t) 4000 a) →
  ∃ s', terminal_write s t buf nbytes = Some (s', n) ∧
    tview s' t = print_spec (bytes (vmem s) buf n) (tview s t) ∧
    con_ok P s' t ∧ only_term P s s' t.
Proof.
  intros Hok Hpr Hb Hb0 Hb1 Hreg. unfold terminal_write.
  destruct (Z.eqb_spec buf 0); [lia|].
  rewrite (write_loop P s t buf nbytes n) by (done || lia). rewrite bind_some.
  pose proof (bytes_range (vmem s) buf n) as Hcs.
  destruct (print_steps P t (bytes (vmem s) buf n) s Hok Hcs) as (E & Hok' & Ho & _).
  cbv zeta in E, Hok', Ho.
  set (s1 := fold_left _ (bytes (vmem s) buf n) s) in *.
  destruct (Z.eqb_spec t (cur_terminal s1)) as [Ec|Hne]; [|by eauto 10].
  rewrite Ec in Hok'.
  destruct (move_csr_spec P s1 (c_x (terminals s1).[t]) (c_y (terminals s1).[t]) Hok')
    as (Dd & Hm & _); [rewrite Ec; apply Hok'..|].
  rewrite <- Ec in Dd, Hok'. eexists. split; [reflexivity|].
  pose proof (drawn_get P _ _ _ _ _ Hok' Dd) as Eg.
  split; [|split].
  - rewrite <- E. unfold tview, page_of. rewrite Eg. cbn. by repeat f_equal.
  - apply (drawn_ok P s1 _ t _ _ Hok' Dd); apply Hok'.
  - apply (only_term_trans _ _ s1); [done|]. by eapply drawn_only.
Qed.

(** ** Reading a line *)

Definition line_byte (lb : list Z) (k i : Z) : Z := if i <? k then lb.[i] else 0.

Lemma read_copy_loop P s t buf k :
  let lb := line_buffer (terminals s).[t] in
  safe (vmem s) P → (∀ a, region buf (k + 1) a → P a) →
  0 ≤ k ≤ 128 → 0 ≤ buf → buf + k < 4294967296 → (∀ i, 0 ≤ lb.[i] < 256) →
  ∃ m', while (read_copy_step t buf k) (s, 0) = Some (s <| vmem := m' |>, k) ∧
    written P (vmem s) m' buf k (line_byte lb k).
Proof.
  intros lb Hs HP Hk Hb0 Hb1 Hlb.
  destruct (while_total (read_copy_step t buf k)
    (λ '(s', i), 0 ≤ i ≤ k ∧ ∃ m', s' = s <| vmem := m' |> ∧
       written P (vmem s) m' buf i (line_byte lb k))
    (λ '(_, i), k - i)
    (λ '(s', i), i = k ∧ ∃ m', s' = s <| vmem := m' |> ∧
       written P (vmem s) m' buf k (line_byte lb k)) (s, 0))
    as ([s' i] & E & -> & m' & -> & Hw).
  - intros [s' i] [Hi _]. lia.
  - intros [s' i] (Hi & m' & -> & Hw). unfold read_copy_step. rewrite (u32_small i) by lia.
    destruct (Z.ltb_spec i k).
    + rewrite u32_small, s32_small by lia. split; [|lia]. split; [lia|]. eexists.
      split; [reflexivity|]. apply written_snoc; [done| |lia|exact Hw|].
      * intros a Ha. apply HP. unfold region in *. lia.
      * unfold line_byte. rewrite (proj2 (Z.ltb_lt i k)) by done. apply u8_small, Hlb.
    + assert (i = k) as -> by lia. split; [done|]. by exists m'.
  - split; [lia|]. exists (vmem s). split; [done|]. by apply written_0.
  - lia.
  - eauto.
Qed.

Lemma read_reset_loop s t k :
  0 ≤ t < Z.of_nat (length (terminals s)) → 0 ≤ k ≤ 128 →
  ∃ lb, length lb = length (line_buffer (terminals s).[t]) ∧
    while (read_reset_step t k) (s, 0) = Some (with_term s t (λ T, T <| line_buffer := lb |>)) ∧
    (∀ i, lb.[i] = if decide (0 ≤ i < k) then 0 else (line_buffer (terminals s).[t]).[i]).
Proof.
  intros Ht Hk. set (T := (terminals s).[t]). set (lb0 := line_buffer T).
  assert (∀ f, length (terminals (with_term s t f)) = length (terminals s)) as Hlen.
  { intros f. unfold with_term. simpl. by rewrite length_aset. }
  destruct (while_total (read_reset_step t k)
    (λ '(s', i), 0 ≤ i ≤ k ∧ ∃ lb, length lb = length lb0 ∧
       s' = with_term s t (λ T, T <| line_buffer := lb |>) ∧
       ∀ j, lb.[j] = if decide (0 ≤ j < i) then 0 else lb0.[j])
    (λ '(_, i), k - i)
    (λ s', ∃ lb, length lb = length lb0 ∧ s' = with_term s t (λ T, T <| line_buffer := lb |>) ∧
       ∀ j, lb.[j] = if decide (0 ≤ j < k) then 0 else lb0.[j]) (s, 0))
    as (s' & E & lb & Hl & -> & Hlb).
  - intros [s' i] [Hi _]. lia.
  - intros [s' i] (Hi & lb & Hl & -> & Hlb). unfold read_reset_step.
    rewrite (u32_small i) by lia. destruct (Z.ltb_spec i k).
    + rewrite s32_small by lia. split; [|lia]. split; [lia|].
      exists lb.[i <- 0]. split; [by rewrite length_aset|]. split.
      * rewrite aset_with_term by done. done.
      * intros j. destruct (decide (i = j)) as [<-|Hne].
        -- rewrite decide_True by lia. destruct (decide (i < Z.of_nat (length lb))).
           ++ apply aget_aset_eq. lia.
           ++ unfold aset, aget. rewrite (proj2 (Z.leb_le 0 i)) by lia.
              rewrite list_insert_ge, lookup_ge_None_2 by lia. done.
        -- rewrite aget_aset_ne, Hlb by done. repeat case_decide; done || lia.
    + assert (i = k) as -> by lia. eauto.
  - split; [lia|]. exists lb0. split; [done|]. split.
    + rewrite (with_term_eq s t _ T) by done.
      pose proof (be_terms _ _ _ _ _ (becomes_refl (λ _, False) s t Ht)) as Er. fold T in Er.
      destruct s. cbn in *. unfold set_field, set_terminals. cbn. f_equal. exact Er.
    + intros j. rewrite decide_False by lia. done.
  - lia.
  - exists lb. eauto.
Qed.

(** The length [terminal_read] returns: up to the first NUL of the copy. *)
Record line_len (lb : list Z) (k L : Z) : Prop := {
  ll_range : 0 ≤ L ≤ k;
  ll_nz : ∀ i, 0 ≤ i < L → lb.[i] ≠ 0;
  ll_end : L = k ∨ lb.[L] = 0
}.

Lemma terminal_read_line_spec P s t buf nbytes L :
  let T := (terminals s).[t] in
  let k := Z.min nbytes (line_buffer_index T + 1) in
  0 ≤ t < Z.of_nat (length (terminals s)) →
  safe (vmem s) P → (∀ a, region buf (k + 1) a → P a) → 0 ≤ nbytes →
  0 ≤ line_buffer_index T ≤ 127 → 0 ≤ buf → buf + 129 < 4294967296 →
  (∀ i, 0 ≤ (line_buffer T).[i] < 256) → line_len (line_buffer T) k L →
  ∃ s' lb, terminal_read_line s t buf nbytes = Some (s', L) ∧
    written P (vmem s) (vmem s') buf (k + 1) (line_byte (line_buffer T) k) ∧
    length lb = length (line_buffer T) ∧ (∀ i, 0 ≤ lb.[i] < 256) ∧
    terminals s' = (terminals s).[t <- T <| typingLine := true |> <| line_buffer := lb |>
                                         <| line_buffer_index := 0 |>] ∧
    cur_terminal s' = cur_terminal s ∧ dev s' = dev s.
Proof.
  intros T k Ht Hs HP Hn Hi Hb0 Hb1 Hlb [HL Hnz Hend]. unfold terminal_read_line.
  set (s1 := with_term s t (λ T, T <| typingLine := true |>)).
  assert ((terminals s1).[t] = T <| typingLine := true |>) as E1 by (unfold s1; by rewrite with_term_get).
  rewrite E1. change (line_buffer_index (T <| typingLine := true |>)) with (line_buffer_index T).
  rewrite (u32_small (line_buffer_index T + 1)) by lia.
  assert ((if nbytes >? line_buffer_index T + 1 then line_buffer_index T + 1 else nbytes) = k) as ->.
  { unfold k. destruct (Z.gtb_spec nbytes (line_buffer_index T + 1)); lia. }
  assert (line_buffer (terminals s1).[t] = line_buffer T) as El by by rewrite E1.
  destruct (read_copy_loop P s1 t buf k) as (m1 & E2 & W); [done|done|lia|lia|lia| |].
  { by rewrite El. }
  rewrite E2, bind_some. rewrite El in W.
  rewrite (u32_small (buf + k)) by lia. set (s2 := s1 <| vmem := m1 |> <| vmem := _ |>).
  assert (0 ≤ t < Z.of_nat (length (terminals s2))) as Ht2
    by (unfold s2, s1, with_term; simpl; by rewrite length_aset).
  destruct (read_reset_loop s2 t k Ht2) as (lb & Hl & E3 & Hlbs); [lia|].
  rewrite E3, bind_some.
  assert (written P (vmem s) (wr m1 (buf + k) 0) buf (k + 1) (line_byte (line_buffer T) k)) as W2.
  { apply written_snoc; [done|done|lia|exact W|]. unfold line_byte. by rewrite Z.ltb_irrefl. }
  match goal with |- context [strlen ?mm buf] => change mm with (wr m1 (buf + k) 0) end.
  rewrite (strlen_str_at _ buf L).
  - rewrite bind_some. eexists _, lb. split; [reflexivity|]. split; [exact W2|].
    split; [rewrite Hl; exact (f_equal length El)|].
    split; [intros i; rewrite Hlbs; change (terminals s2) with (terminals s1); rewrite El; case_decide; [lia|done]|].
    split; [|done].
    rewrite aset_with_term by done. unfold with_term. cbn [terminals].
    change (terminals s2) with (terminals s1). rewrite E1.
    unfold s1, with_term. cbn. by rewrite aset_aset.
  - assert (∀ i, 0 ≤ i ≤ k → rd (wr m1 (buf + k) 0) (buf + i) = line_byte (line_buffer T) k i) as Hr.
    { intros i Hik. rewrite (written_in _ _ _ _ _ _ _ W2); [f_equal; lia| |lia].
      apply HP. unfold region. lia. }
    split; [lia|]. split.
    + intros i HiL. rewrite Hr by lia. unfold line_byte.
      rewrite (proj2 (Z.ltb_lt i k)) by lia. by apply Hnz.
    + rewrite Hr by lia. unfold line_byte. destruct (Z.ltb_spec L k); [|done].
      destruct Hend; [lia|done].
  - lia.
Qed.

(** ** Erasing a line for the command history *)

(** Position of the cursor. *)
Definition pos (T : terminal) : Z := 80 * c_y T + c_x T.

Lemma delete_becomes P s s0 T :
  let t := cur_terminal s in
  con_ok P s t → becomes P s s0 t T → 0 ≤ c_x T < 80 → 0 ≤ c_y T < 25 → 0 < pos T →
  becomes P s (term_delete_char s0 t) t (set_cursor T ((pos T - 1) mod 80) ((pos T - 1) / 80)).
Proof.
  intros t Hok B Hx Hy Hp. pose proof (co_term _ _ _ Hok) as Ht.
  pose proof (becomes_get _ _ _ _ _ Ht B) as E. pose proof (be_cur _ _ _ _ _ B) as Ec.
  pose proof (becomes_con_ok P s s0 t T Hok B Hx Hy) as Hok0.
  pose proof (term_delete_char_spec P s0) as Hd. cbv zeta in Hd. rewrite Ec in Hd. fold t in Hd.
  rewrite E in Hd. destruct (Hd Hok0 Hp) as (Dd & _ & _).
  exact (becomes_drawn _ _ _ _ _ _ _ _ Ht B Dd).
Qed.

Lemma hist_more_ext before T T' row i :
  cmd_hist T' = cmd_hist T → hist_more before T' row i = hist_more before T row i.
Proof. intros E. unfold hist_more, hist_at. by rewrite E. Qed.

Definition erased (T0 T : terminal) (i : Z) : Prop :=
  cmd_hist T = cmd_hist T0 ∧ cmdCount T = cmdCount T0 ∧ video_mem T = video_mem T0 ∧
  line_buffer_index T = u32 (line_buffer_index T0 - i) ∧
  pos T = pos T0 - i ∧ 0 ≤ c_x T < 80 ∧ 0 ≤ c_y T < 25.

Lemma erased_step T0 T i lb :
  erased T0 T i → 0 < pos T →
  erased T0 (set_cursor (T <| line_buffer := lb |>
                           <| line_buffer_index := u32 (line_buffer_index T - 1) |>)
                        ((pos T - 1) mod 80) ((pos T - 1) / 80)) (i + 1).
Proof.
  intros (H1 & H2 & H3 & H4 & H5 & Hx & Hy) Hp. unfold pos in *.
  destruct T as [a1 a2 a3 a4 x y a5 a6], T0 as [b1 b2 b3 b4 x0 y0 b5 b6]; cbn in *.
  unfold erased, pos. cbn. split_and!; try done; subst; try mlia.
Qed.

Lemma erase_loop P s s0 before row n :
  let t := cur_terminal s in
  let T := (terminals s0).[t] in
  con_ok P s t → becomes P s s0 t T → 0 ≤ c_x T < 80 → 0 ≤ c_y T < 25 →
  0 ≤ line_buffer_index T < 4294967296 →
  0 ≤ n ≤ 126 → n < pos T →
  (∀ i, 0 ≤ i < n → hist_more before T row i = true) → hist_more before T row n = false →
  ∃ s' T', while (erase_step before row) (s0, 0) = Some (s', n) ∧
    becomes P s s' t T' ∧ erased T T' n.
Proof.
  intros t T Hok B Hx Hy Hi Hn Hpos Hmore Hstop.
  pose proof (co_term _ _ _ Hok) as Ht.
  destruct (while_total (erase_step before row)
    (λ '(s', i), 0 ≤ i ≤ n ∧ ∃ T', becomes P s s' t T' ∧ erased T T' i) (λ '(_, i), n - i)
    (λ '(s', i), i = n ∧ ∃ T', becomes P s s' t T' ∧ erased T T' n) (s0, 0))
    as ([s' i] & E & -> & T' & B' & He).
  - intros [s' i] [H _]. lia.
  - intros [s' i] (Hin & T' & B' & He). unfold erase_step.
    rewrite (be_cur _ _ _ _ _ B'). fold t. rewrite (becomes_get _ _ _ _ _ Ht B').
    rewrite (hist_more_ext before T T' row i) by apply He.
    destruct (decide (i = n)) as [->|Hne].
    + rewrite Hstop. eauto.
    + rewrite Hmore by lia.
      assert (0 < pos T') as Hp' by (destruct He as (_ & _ & _ & _ & -> & _); lia).
      pose proof (erased_step T T' i (line_buffer T').[i <- 32] He Hp') as He'.
      eapply (becomes_with _ _ _ _ (λ T, T <| line_buffer := (line_buffer T).[i <- 32] |>)) in B';
        [|exact Ht|done].
      eapply (becomes_with _ _ _ _ (λ T,
        T <| line_buffer_index := u32 (line_buffer_index T - 1) |>)) in B'; [|exact Ht|done].
      split; [|lia]. split; [lia|]. eexists. split; [|exact He'].
      apply (delete_becomes P s _ _ Hok B'); try apply He. exact Hp'.
  - split; [lia|]. exists T. split; [exact B|]. unfold erased. rewrite Z.sub_0_r, u32_small by lia.
    split_and!; try done; try lia; apply Hx || apply Hy.
  - lia.
  - eauto.
Qed.

Lemma erase_line_spec P s s0 before row n :
  let t := cur_terminal s in
  let T := (terminals s0).[t] in
  con_ok P s t → becomes P s s0 t T → 0 ≤ c_x T < 80 → 0 ≤ c_y T < 25 →
  0 ≤ line_buffer_index T < 4294967296 →
  0 ≤ n ≤ 126 → n < pos T →
  (∀ i, 0 ≤ i < n → hist_more before T row i = true) → hist_more before T row n = false →
  ∃ s' T', erase_line before s0 row = Some s' ∧ becomes P s s' t T' ∧
    cmdCount T' = cmdCount T ∧ 0 ≤ c_x T' < 80 ∧ 0 ≤ c_y T' < 25 ∧
    line_buffer_index T' = u32 (line_buffer_index T - n + 1).
Proof.
  intros t T Hok B Hx Hy Hi Hn Hpos Hmore Hstop. pose proof (co_term _ _ _ Hok) as Ht.
  destruct (erase_loop P s s0 before row n Hok B Hx Hy Hi Hn Hpos Hmore Hstop)
    as (s1 & T1 & E & B1 & He).
  unfold erase_line. rewrite E, bind_some. rewrite (be_cur _ _ _ _ _ B1). fold t.
  change (erased T T1 n) in He. pose proof He as (_ & He2 & _ & He4 & He5 & Hx1 & Hy1).
  eapply (becomes_with _ _ _ _ (λ T, T <| line_buffer := (line_buffer T).[n <- 32] |>)) in B1;
    [|exact Ht|done].
  eapply (becomes_with _ _ _ _ (λ T,
    T <| line_buffer_index := u32 (line_buffer_index T + 1) |>)) in B1; [|exact Ht|done].
  set (T2 := _ : terminal) in B1.
  assert (0 < pos T2) as Hp2 by (change (0 < pos T1); lia).
  pose proof (delete_becomes P s _ _ Hok B1 Hx1 Hy1 Hp2) as B2.
  eexists _, _. split; [reflexivity|]. split; [exact B2|].
  assert (0 ≤ (pos T2 - 1) mod 80 < 80 ∧ 0 ≤ (pos T2 - 1) / 80 < 25) as [Hx2 Hy2].
  { assert (0 ≤ pos T2 - 1 < 2000) as Hr by (change (pos T2) with (pos T1) in *; unfold pos in *; lia).
    clear - Hr. mlia. }
  split; [exact He2|]. split; [exact Hx2|]. split; [exact Hy2|].
  change (u32 (line_buffer_index T1 + 1) = u32 (line_buffer_index T - n + 1)).
  rewrite He4. fold T. mlia.
Qed.

Lemma putc_blank_pos l x y :
  0 ≤ x < 80 → 0 ≤ y < 25 → 80 * y + x < 1999 →
  let '(_, x', y') := putc_spec 32 (l, x, y) in 80 * y' + x' = 80 * y + x + 1.
Proof.
  intros Hx Hy Hp. unfold putc_spec. change ((32 =? 10) || (32 =? 13)) with false. cbv iota beta.
  assert (80 * ((x + 1) / 80) + (x + 1) mod 80 = x + 1) as E by (clear; mlia).
  assert (y + (x + 1) / 80 ≠ 25) as Hne by (clear - Hx Hy Hp; mlia).
  rewrite (proj2 (Z.eqb_neq _ 25)) by done. lia.
Qed.

Lemma key_down_spec P before s n :
  let t := cur_terminal s in
  let T := (terminals s).[t] in
  con_ok P s t → cmdCount T = 0 → 0 ≤ line_buffer_index T ≤ 127 →
  0 ≤ n ≤ 126 → n ≤ pos T < 1999 →
  (∀ i, 0 ≤ i < n → hist_more before T 0 i = true) → hist_more before T 0 n = false →
  ∃ s', key_down before s = Some s' ∧ cur_terminal s' = t ∧
    line_buffer_index (terminals s').[t] = u32 (line_buffer_index T - n + 1).
Proof.
  intros t T Hok Hcc Hi Hn Hpos Hmore Hstop. pose proof (co_term _ _ _ Hok) as Ht.
  pose proof (co_x _ _ _ Hok) as Hx0. pose proof (co_y _ _ _ Hok) as Hy0. fold t T in Hx0, Hy0.
  unfold key_down. fold t.
  pose proof (term_putc_drawn P s 32 t Hok ltac:(lia)) as H1. unfold tview in H1. fold T in H1.
  pose proof (putc_blank_pos (view (vmem s) (page_of s t)) _ _ Hx0 Hy0 (proj2 Hpos)) as Hp1.
  destruct (putc_spec 32 _) as [[l x] y]. destruct H1 as (D1 & _ & Hx & Hy & _).
  pose proof (becomes_drawn _ _ _ _ _ _ _ _ Ht (becomes_refl P s t Ht) D1) as B1. fold T in B1.
  rewrite (becomes_get _ _ _ _ _ Ht B1).
  change (cmdCount (set_cursor T x y)) with (cmdCount T). rewrite Hcc, Z.eqb_refl.
  eapply (becomes_with _ _ _ _ (λ T, T <| cmdCount := 1 |>)) in B1; [|exact Ht|done].
  set (s1 := with_term (term_putc s 32 t) t _) in *. set (T1 := _ : terminal) in B1.
  pose proof (becomes_get _ _ _ _ _ Ht B1) as E1. rewrite E1.
  change (cmdCount T1 - 1) with 0. rewrite <- E1 in B1.
  destruct (erase_line_spec P s s1 before 0 n Hok B1) as (s2 & T2 & E2 & B2 & C2 & Hx2 & Hy2 & I2);
    fold t; rewrite ?E1;
    [exact Hx|exact Hy|change (0 ≤ line_buffer_index T < 4294967296); lia|exact Hn
    |change (n < 80 * y + x); unfold pos in Hpos; lia|exact Hmore|exact Hstop|].
  rewrite E2, bind_some. fold t in B2, C2, I2. rewrite E1 in C2, I2. change (cmdCount T1) with 1 in C2.
  change (line_buffer_index T1) with (line_buffer_index T) in I2.
  eapply (becomes_with _ _ _ _ (λ T, T <| cmdCount := u8 (cmdCount T - 1) |>)) in B2;
    [|exact Ht|done].
  set (s3 := with_term s2 t _) in *. set (T3 := _ : terminal) in B2.
  pose proof (becomes_get _ _ _ _ _ Ht B2) as E3. rewrite E3.
  assert (cmdCount T3 = 0) as -> by (change (u8 (cmdCount T2 - 1) = 0); by rewrite C2).
  simpl negb. cbn [andb]. rewrite bind_some. eexists. split; [reflexivity|].
  pose proof (be_cur _ _ _ _ _ B2) as Ec. fold t in Ec.
  assert (con_ok P s3 (cur_terminal s3)) as Hok3
    by (rewrite Ec; by apply (becomes_con_ok P s s3 t T3 Hok B2)).
  unfold show_csr. rewrite Ec, E3. rewrite Ec in Hok3.
  destruct (move_csr_spec P s3 (c_x T3) (c_y T3)) as (D4 & _ & _); [by rewrite Ec|done|done|].
  rewrite Ec in D4. pose proof (becomes_drawn _ _ _ _ _ _ _ _ Ht B2 D4) as B4.
  split; [exact (be_cur _ _ _ _ _ B4)|]. rewrite (becomes_get _ _ _ _ _ Ht B4). exact I2.
Qed.
End Driver.
