(* ===== verification/Stores.v ===== *)
(** * Operations as sequences of stores

    The routines of the library and the drivers change memory only by stores: a
    property of memories that every store keeps, wherever it goes, is kept by
    each of them.  Used to show what a process cannot reach. *)

From S2P Require Import Prelude Memory Lib Types Filesystem Ports Console Keyboard.
#[local] Open Scope Z_scope.

Lemma for_loop_keeps {S} (P : S → Prop) n i (body : Z → S → S) s :
  (∀ j s, P s → P (body j s)) → P s → P (for_loop n i body s).
Proof. intros Hb. revert i s. induction n as [|n IH]; intros i s Hs; [done|]. cbn. by apply IH, Hb. Qed.

(** A property that every store keeps. *)
Definition stable {M} `{!ByteMem M} (I : M → Prop) : Prop := ∀ m a v, I m → I (wr m a v).

Section Memory.
Context {M : Type} `{!ByteMem M} (I : M → Prop) (HI : stable I).
Implicit Types (m : M).

Lemma store32_stable m a v : I m → I (store32 m a v).
Proof. intros H. unfold store32. by do 4 apply HI. Qed.

Lemma memset_stable m a c n m' : I m → memset m a c n = Some m' → I m'.
Proof.
  intros H. unfold memset. cbv zeta. destruct (memset_top _ _ _ _) as [r|] eqn:E1; [|discriminate].
  assert (match r with inl m1 => I m1 | inr (m1, _, _) => I m1 end) as H1.
  { apply (while_post _ (λ '(m, _, _), I m) (λ r, match r with inl m1 => I m1 | inr (m1, _, _) => I m1 end)) in E1;
      [done| |done].
    intros [[m1 x] y] H1. destruct (_ =? 0); [done|]. destruct (_ =? 0); [done|by apply HI]. }
  destruct r as [m1|[[m1 edi] ecx]]; [by intros [= <-]|].
  destruct (rep_stosl _ _ _ _) as [[m2 edi2]|] eqn:E2; [|discriminate].
  assert (I m2) as H2.
  { apply (while_post _ (λ '(m, _, _), I m) (λ '(m, _), I m)) in E2; [done| |done].
    intros [[m3 x] y] H3. destruct (_ =? 0); [done|by apply store32_stable]. }
  apply (while_post _ (λ '(m, _, _), I m) I); [|done].
  intros [[m3 x] y] H3. destruct (_ =? 0); [done|by apply HI].
Qed.

Lemma strncpy_stable m d s n m' : I m → strncpy m d s n = Some m' → I m'.
Proof.
  intros H. unfold strncpy. destruct (while _ (m, 0)) as [[m1 i]|] eqn:E1; [|discriminate].
  assert (I m1) as H1.
  { apply (while_post _ (λ '(m, _), I m) (λ '(m, _), I m) _ _) in E1; [done| |done].
    intros [m2 j] H2. destruct (_ && _); [by apply HI|done]. }
  apply (while_post _ (λ '(m, _), I m) I); [|done].
  intros [m2 j] H2. destruct (_ <? _); [by apply HI|done].
Qed.

Lemma read_data_stable m fs inode offset buf n m' r :
  I m → read_data m fs inode offset buf n = Some (m', r) → I m'.
Proof.
  intros H. unfold read_data. destruct (_ >=? _); [by intros [= <- _]|].
  intros E. apply (while_post _ (λ '(m, _, _, _, _, _), I m) (λ '(m, _), I m)) in E; [done| |done].
  intros [[[[[m1 x] y] z] u] a] H1. unfold read_data_step.
  destruct (_ <? _); [|done]. destruct (_ >=? _); [done|]. destruct (_ >=? _); [|by apply HI].
  destruct (_ >=? _); [done|by apply HI].
Qed.

Lemma read_dentry_by_name_stable m fs fname dentry m' r :
  I m → read_dentry_by_name m fs fname dentry = Some (m', r) → I m'.
Proof.
  intros H. unfold read_dentry_by_name. destruct (strlen m fname) as [len|]; [|discriminate].
  cbv zeta. destruct (_ >? _); [by intros [= <- _]|].
  destruct (while _ _) as [o|] eqn:E; [|discriminate]. intros ->. revert E.
  match goal with |- context [read_dentry_step fs fname dentry ?l] => generalize l end. intros fl E.
  apply (while_post _ (λ '(m, _), I m) (λ o, match o with Some (m, _) => I m | None => True end)) in E; [done| |done].
  intros [m1 i] H1. unfold read_dentry_step. destruct (_ <? _); [|done].
  destruct (strncmp _ _ _ _) as [x|]; [|done]. destruct (x =? 0); [|done]. destruct (_ && _); [done|].
  destruct (strncpy _ _ _ _) as [m2|] eqn:E2; [|done]. 
  do 2 apply store32_stable. by apply HI, (strncpy_stable _ _ _ _ _ H1 E2).
Qed.

Lemma file_read_stable m fs fp buf n m' fp' r :
  I m → file_read m fs fp buf n = Some (m', fp', r) → I m'.
Proof.
  intros H. unfold file_read. destruct (read_data _ _ _ _ _ _) as [[m1 x]|] eqn:E; [|discriminate].
  intros [= <- _ _]. by apply read_data_stable in E.
Qed.

Lemma dir_read_stable m fs fp buf n m' fp' r :
  I m → dir_read m fs fp buf n = Some (m', fp', r) → I m'.
Proof.
  intros H. unfold dir_read. cbv zeta. destruct (_ >? bb_num_entries _ _); [by intros [= <- _ _]|].
  destruct (while _ _) as [[m1 i]|] eqn:E; [|discriminate]. intros [= <- _ _].
  apply (while_post _ (λ '(m, _), I m) (λ '(m, _), I m)) in E; [done| |done].
  intros [m2 j] H2. destruct (_ || _); [done|by apply HI].
Qed.
End Memory.

Section Drawing.
Context {M : Type} `{!ByteMem M} {D : Type} `{!PortIO D} (I : M → Prop) (HI : stable I).
Implicit Types (s : console M D) (m : M).

Lemma put_cell_stable m base i c : I m → I (put_cell m base i c).
Proof. intros H. unfold put_cell. by do 2 apply HI. Qed.

Lemma scroll_mem_stable m base : I m → I (scroll_mem m base).
Proof.
  intros H. unfold scroll_mem. apply for_loop_keeps; [intros j m1; apply put_cell_stable|].
  apply for_loop_keeps; [intros j m1; apply put_cell_stable|done].
Qed.

Lemma term_putc_stable s c t : I (vmem s) → I (vmem (term_putc s c t)).
Proof.
  intros H. unfold term_putc.
  match goal with |- I (vmem (if _ =? _ then _ else ?x)) => set (s1 := x) end.
  assert (I (vmem s1)) as H1 by (unfold s1; destruct (_ || _); [exact H|by apply put_cell_stable]).
  clearbody s1. destruct (_ =? _); [by apply scroll_mem_stable|done].
Qed.

Lemma key_plain_stable k s code : I (vmem s) → I (vmem (key_plain k s code)).
Proof.
  intros H. unfold key_plain. destruct (_ <? _); [|done]. cbv zeta.
  set (s1 := with_term s _ _). set (s2 := term_putc s1 _ _).
  assert (I (vmem s2)) as H2 by by apply term_putc_stable. clearbody s2.
  assert (I (vmem (show_csr s2))) as H3 by exact H2. set (s3 := show_csr s2) in *. clearbody s3.
  destruct (_ && _); [|exact H3]. exact (scroll_mem_stable _ _ H3).
Qed.

Lemma key_enter_stable s : I (vmem s) → I (vmem (key_enter s)).
Proof.
  intros H. unfold key_enter. cbv zeta. destruct (_ =? _); [|exact H]. exact (scroll_mem_stable _ _ H).
Qed.

Lemma terminal_write_stable s t buf n s' r :
  I (vmem s) → terminal_write s t buf n = Some (s', r) → I (vmem s').
Proof.
  intros H. unfold terminal_write. destruct (buf =? 0); [by intros [= <- _]|].
  destruct (while _ _) as [[s1 w]|] eqn:E; [|discriminate]. rewrite bind_some. intros [= <- _].
  apply (while_post _ (λ '(s, _, _), I (vmem s)) (λ '(s, _), I (vmem s))) in E; [| |done].
  - by destruct (_ =? _).
  - intros [[s2 i] x] H2. unfold write_step. destruct (_ <? _); [|done]. cbv zeta. destruct (_ =? 0); [done|].
    destruct (_ =? _); by apply term_putc_stable.
Qed.

Lemma terminal_read_line_stable s t buf n s' r :
  I (vmem s) → terminal_read_line s t buf n = Some (s', r) → I (vmem s').
Proof.
  intros H. unfold terminal_read_line. cbv zeta.
  destruct (while (read_copy_step _ _ _) _) as [[s1 i]|] eqn:E1; [|discriminate]. rewrite bind_some.
  assert (I (vmem s1)) as H1.
  { apply (while_post _ (λ '(s, _), I (vmem s)) (λ '(s, _), I (vmem s))) in E1; [done| |done].
    intros [s2 j] H2. unfold read_copy_step. destruct (_ <? _); [by apply HI|done]. }
  set (s2 := s1 <| vmem := _ |>). assert (I (vmem s2)) as H2 by by apply HI. clearbody s2.
  destruct (while (read_reset_step _ _) _) as [s3|] eqn:E2; [|discriminate]. rewrite bind_some.
  assert (I (vmem s3)) as H3.
  { apply (while_post _ (λ '(s, _), I (vmem s)) (λ s, I (vmem s))) in E2; [done| |done].
    intros [s4 j] H4. unfold read_reset_step. by destruct (_ <? _). }
  destruct (strlen _ _); [|discriminate]. rewrite bind_some. by intros [= <- _].
Qed.
End Drawing.
