(* ===== verification/Typing.v ===== *)
(** * Typing a line

    What the keys of a line do to the terminal on the screen, view included,
    and what [terminal_read] returns when the line ends. *)

From S2P Require Import Prelude Memory Lib Ports Types I8259 Paging PagingProps.
From S2P Require Import Console ConsoleProofs ConsoleProps Keyboard KeyboardProofs LineProofs.
From S2P Require Import KeyboardProps TerminalProofs Stores.
#[local] Open Scope Z_scope.

(** A key that is typed into the line whatever the modifiers are. *)
Definition plain_code (c : Z) : bool :=
  (0 <=? c) && (c <? 128) &&
  negb (existsb (Z.eqb c)
    [KEYBOARD_LEFT_SHIFT; KEYBOARD_RIGHT_SHIFT; KEYBOARD_ALT; KEYBOARD_LEFT_CONTROL;
     KEYBOARD_CAPS_LOCK; KEYBOARD_NUM_LOCK; KEYBOARD_SCROLL_LOCK; KEYBOARD_ENTER;
     KEYBOARD_BACKSPACE; UPCODE; DOWNCODE]).

(** ** What typing shows *)

(** A typed character is printed; in the last column of the last row the page
    then scrolls under the cursor. *)
Definition key_echo (c : Z) (v : list (Z * Z) * Z * Z) : list (Z * Z) * Z * Z :=
  let '(l, x, y) := putc_spec c v in
  if (x =? MAX_COL_INDEX) && (y =? MAX_ROW_INDEX) then (scrolled l, x, y) else (l, x, y).

(** A typed line, ended by Enter. *)
Definition echo_spec (line : list Z) (v : list (Z * Z) * Z * Z) : list (Z * Z) * Z * Z :=
  putc_spec KEYBOARD_LINEFEED (fold_left (λ v c, key_echo c v) line v).

Section Echo.
Context {M : Type} `{!ByteMem M} {D : Type} `{!PortIO D}.
Implicit Types (s : console M D) (P : Z → Prop).

Lemma tview_with s t f :
  0 ≤ t < Z.of_nat (length (terminals s)) →
  (∀ T, video_mem (f T) = video_mem T ∧ c_x (f T) = c_x T ∧ c_y (f T) = c_y T) →
  tview (with_term s t f) t = tview s t.
Proof.
  intros Ht Hf. unfold tview, page_of. rewrite with_term_get by done.
  by destruct (Hf (terminals s).[t]) as (-> & -> & ->).
Qed.

Lemma move_csr_view P s t x y :
  cur_terminal s = t → con_ok P s t → 0 ≤ x < 80 → 0 ≤ y < 25 →
  tview (move_csr s x y) t = ((tview s t).1.1, x, y).
Proof.
  intros <- Hok Hx Hy. destruct (move_csr_spec P s x y Hok Hx Hy) as (Hd & Em & _).
  pose proof (drawn_get P _ _ _ _ _ Hok Hd) as E. unfold tview, page_of. by rewrite E, Em.
Qed.

Lemma term_scroll_view P s t :
  con_ok P s t →
  tview (term_scroll s t) t = (scrolled (tview s t).1.1, c_x (terminals s).[t], c_y (terminals s).[t]).
Proof.
  intros [Ht Hp _ _]. unfold tview at 1. change (terminals (term_scroll s t)) with (terminals s).
  change (page_of (term_scroll s t) t) with (page_of s t).
  change (vmem (term_scroll s t)) with (scroll_mem (vmem s) (page_of s t)).
  by rewrite (view_scroll P _ _ Hp).
Qed.

Lemma key_enter_view P s :
  con_ok P s (cur_terminal s) →
  tview (key_enter s) (cur_terminal s) = putc_spec KEYBOARD_LINEFEED (tview s (cur_terminal s)).
Proof.
  intros Hok. pose proof Hok as [Ht Hp Hx Hy]. unfold key_enter. set (t := cur_terminal s) in *.
  set (s1 := with_term (with_term _ _ _) _ _).
  assert (∀ f, Z.of_nat (length (terminals (with_term s t f))) = Z.of_nat (length (terminals s))) as Hl
    by (intros f; unfold with_term; cbn; by rewrite length_aset).
  assert (∀ s f, Z.of_nat (length (terminals (with_term s t f))) = Z.of_nat (length (terminals s))) as Hl'
    by (intros s' f; unfold with_term; cbn; by rewrite length_aset).
  assert (tview s1 t = tview s t) as Ev
    by (unfold s1; rewrite !tview_with by (rewrite ?Hl'; done); done).
  pose proof (becomes_refl P s t Ht) as B.
  eapply (becomes_with _ _ _ _ (λ T, T <| cmdCount := 0 |>)) in B; [|done|done].
  eapply (becomes_with _ _ _ _ (λ T, T <| line_buffer :=
    (line_buffer T).[line_buffer_index T <- KEYBOARD_LINEFEED] |>)) in B; [|done|done].
  eapply (becomes_with _ _ _ _ (λ T, T <| typingLine := false |>)) in B; [|done|done].
  fold s1 in B. pose proof (becomes_get _ _ _ _ _ Ht B) as E1.
  assert (con_ok P s1 t) as Hok1 by (eapply (becomes_con_ok P s s1 t); [exact Hok|exact B|exact Hx|exact Hy]).
  assert (c_y (terminals s1).[t] = c_y (terminals s).[t]) as Ey by by rewrite E1.
  assert (tview s1 t = (view (vmem s) (page_of s t), c_x (terminals s).[t], c_y (terminals s).[t])) as Ev1 by exact Ev.
  rewrite Ey. unfold MAX_ROW_INDEX. unfold tview at 2. cbn [putc_spec].
  change ((KEYBOARD_LINEFEED =? 10) || (KEYBOARD_LINEFEED =? 13)) with true. cbv iota.
  destruct (Z.eqb_spec (c_y (terminals s).[t]) 24) as [E24|Hne].
  - rewrite (proj2 (Z.eqb_eq _ 25)) by lia.
    assert (con_ok P (term_scroll s1 t) t) as Hok2
      by (apply (drawn_ok P s1 _ t _ _ Hok1 (term_scroll_drawn P s1 t Hok1)); apply Hok1).
    change (c_y (terminals (term_scroll s1 t)).[t]) with (c_y (terminals s1).[t]). rewrite Ey, E24.
    rewrite (move_csr_view P (term_scroll s1 t) t 0 24 eq_refl Hok2) by lia.
    rewrite (term_scroll_view P) by done.
    by rewrite Ev1.
  - rewrite (proj2 (Z.eqb_neq _ 25)) by lia.
    rewrite (move_csr_view P s1 t 0 _ eq_refl Hok1) by lia. by rewrite Ev1.
Qed.

Lemma key_plain_view P k s code :
  let t := cur_terminal s in
  con_ok P s t → 0 ≤ line_buffer_index (terminals s).[t] < 127 → 0 ≤ key_char k code < 256 →
  tview (key_plain k s code) t = key_echo (key_char k code) (tview s t).
Proof.
  intros t Hok Hi Hc. pose proof Hok as [Ht _ Hx Hy]. unfold key_plain. fold t.
  rewrite (proj2 (Z.ltb_lt _ _)) by (unfold MAX_BUF_INDEX; lia).
  set (c := key_char k code) in *. set (s1 := with_term s t _).
  assert (tview s1 t = tview s t) as Ev by (apply tview_with; [done|done]).
  pose proof (becomes_refl P s t Ht) as B.
  eapply (becomes_with _ _ _ _ (λ T, T <| line_buffer :=
    (line_buffer T).[line_buffer_index T <- c] |>)) in B; [|done|done].
  fold s1 in B.
  assert (con_ok P s1 t) as Hok1 by (eapply (becomes_con_ok P s s1 t); [exact Hok|exact B|exact Hx|exact Hy]).
  destruct (term_putc_step P s1 c t Hok1 Hc) as (E2 & Hok2 & Ho2 & _). rewrite Ev in E2.
  set (s2 := term_putc s1 c t) in *.
  assert (cur_terminal s2 = t) as Ec2 by exact (ot_cur _ _ _ _ Ho2).
  unfold show_csr. rewrite Ec2. set (x := c_x (terminals s2).[t]). set (y := c_y (terminals s2).[t]).
  pose proof (move_csr_view P s2 t x y Ec2 Hok2 (co_x _ _ _ Hok2) (co_y _ _ _ Hok2)) as E3.
  assert (drawn P s2 (move_csr s2 x y) t x y) as D3.
  { pose proof Hok2 as Hok2'. rewrite <- Ec2 in Hok2' |- *.
    apply (move_csr_spec P s2 x y Hok2'); apply Hok2. }
  set (s3 := move_csr s2 x y) in *.
  pose proof (drawn_get P _ _ _ _ _ Hok2 D3) as G3.
  assert (con_ok P s3 t) as Hok3 by (apply (drawn_ok P s2 s3 t x y Hok2 D3); apply Hok2).
  rewrite G3.
  change (c_x (set_cursor (terminals s2).[t] x y)) with x. change (c_y (set_cursor (terminals s2).[t] x y)) with y.
  assert (tview s2 t = ((tview s2 t).1.1, x, y)) as Es2 by done. rewrite <- Es2, E2 in E3.
  unfold key_echo. rewrite <- E2, Es2. set (l2 := (tview s2 t).1.1).
  assert (length (terminals s3) = length (terminals s)) as Hl3.
  { rewrite (dr_terms _ _ _ _ _ _ D3), length_aset, (ot_len _ _ _ _ Ho2). unfold s1, with_term. cbn. by rewrite length_aset. }
  destruct ((x =? MAX_COL_INDEX) && (y =? MAX_ROW_INDEX)).
  - rewrite (tview_with (term_scroll s3 t) t);
      [|change (terminals (term_scroll s3 t)) with (terminals s3); lia|intros T; by split_and!].
    rewrite (term_scroll_view P s3 t Hok3). rewrite G3, E3, <- E2, Es2. reflexivity.
  - rewrite (tview_with s3 t); [|lia|intros T; by split_and!]. rewrite E3, <- E2. exact Es2.
Qed.
End Echo.

Section Typing.
Context {HL : Layout} {D : Type} `{!PortIO D}.
Implicit Types (s : console mach D) (pid t : Z) (vids : Z → option Z) (k : kbd).

Lemma plain_range c : plain_code c = true → 0 ≤ c < 128.
Proof. unfold plain_code. rewrite !andb_true_iff. lia. Qed.

Lemma handle_plain pid before k s code :
  ctrl k = false → alt k = false → plain_code code = true →
  handle pid before k s code = Some (k, key_plain k s code).
Proof.
  intros Hc Ha Hp. pose proof (plain_range code Hp) as Hr. unfold handle, handle_key.
  assert (forallb (λ c, (Z.land c KEY_STATUS_MASK =? 0) && (Z.land c KEY_STATE_MASK =? c))
    (seqZ 0 128) = true) as Hall by (vm_compute; reflexivity).
  pose proof (forall_seqZ_true _ _ Hall code Hr) as Hk. cbv beta in Hk.
  apply andb_true_iff in Hk as [H1 H2]. apply Z.eqb_eq in H2. rewrite H1, H2, Hc, Ha.
  unfold plain_code in Hp. apply andb_true_iff in Hp as [_ Hp]. apply negb_true_iff in Hp.
  cbn [existsb] in Hp. rewrite !orb_false_iff in Hp.
  destruct Hp as (-> & -> & -> & -> & -> & -> & -> & -> & -> & -> & -> & _). reflexivity.
Qed.

Lemma handle_enter pid before k s :
  handle pid before k s KEYBOARD_ENTER = Some (k, key_enter s).
Proof. reflexivity. Qed.

Lemma key_plain_types pid vids k s code :
  kbd_inv pid vids s → 0 ≤ code < 128 →
  let t := cur_terminal s in
  let T := (terminals s).[t] in
  line_buffer_index T < 127 →
  let s' := key_plain k s code in
  let T' := (terminals s').[t] in
  kbd_inv pid vids s' ∧ cur_terminal s' = t ∧ typingLine T' = typingLine T ∧
  line_buffer T' = (line_buffer T).[line_buffer_index T <- key_char k code] ∧
  line_buffer_index T' = line_buffer_index T + 1 ∧
  tview s' t = key_echo (key_char k code) (tview s t) ∧ ∃ T1, becomes kernel_view s s' t T1.
Proof.
  intros Hinv Hcode t T Hi s' T'. split; [by apply key_plain_inv|].
  pose proof (cur_con_ok pid vids s Hinv) as Hok.
  pose proof (key_plain_becomes kernel_view k s code Hok) as Hk. cbv zeta in Hk. fold t T in Hk.
  pose proof (cur_line pid vids s Hinv) as Hl. fold t T in Hl.
  specialize (Hk (conj (proj1 (lo_idx _ Hl)) Hi) (key_char_range k code Hcode)).
  pose proof (key_plain_view kernel_view k s code Hok (conj (proj1 (lo_idx _ Hl)) Hi)
    (key_char_range k code Hcode)) as Hv.
  destruct (putc_spec (key_char k code) (tview s t)) as [[l x] y]. destruct Hk as (B & _ & _). fold s' in B.
  split; [exact (be_cur _ _ _ _ _ B)|].
  pose proof (becomes_get _ _ _ _ _ (co_term _ _ _ Hok) B) as E.
  fold t in E. unfold T'. rewrite E. split_and!; [done|done|done|exact Hv|by eexists].
Qed.

(** One more character behind the typed ones. *)
Lemma take_append (l chars : list Z) c :
  take (length chars) l = chars → (length chars < length l)%nat →
  take (length chars + 1) l.[Z.of_nat (length chars) <- c] = chars ++ [c].
Proof.
  intros Ht Hl. unfold aset. rewrite (proj2 (Z.leb_le 0 _)), Nat2Z.id by lia. rewrite Nat.add_1_r.
  rewrite (take_S_r _ _ c) by (apply list_lookup_insert_eq; lia).
  rewrite take_insert_ge by lia. by rewrite Ht.
Qed.

(** Typing [codes] and Enter after [chars] have been typed. *)
Lemma wait_types pid vids before k codes rest :
  ctrl k = false → alt k = false → Forall (λ c, plain_code c = true) codes →
  ∀ s chars, kbd_inv pid vids s →
  let t := cur_terminal s in
  let T := (terminals s).[t] in
  typingLine T = true → line_buffer_index T = Z.of_nat (length chars) →
  take (length chars) (line_buffer T) = chars → (length chars + length codes ≤ 127)%nat →
  ∃ s' T', terminal_wait (switch_terminals pid) before k s t (codes ++ KEYBOARD_ENTER :: rest) =
          Some (k, s', rest) ∧
    kbd_inv pid vids s' ∧ becomes kernel_view s s' t T' ∧
    tview s' t = echo_spec (key_char k <$> codes) (tview s t) ∧
    (∀ I, stable I → I (vmem s) → I (vmem s')) ∧
    let line := chars ++ (key_char k <$> codes) in
    line_buffer_index T' = Z.of_nat (length line) ∧
    take (length line + 1) (line_buffer T') = line ++ [KEYBOARD_LINEFEED].
Proof.
  intros Hctrl Halt Hcodes.
  induction Hcodes as [|code codes Hcode Hcodes IH]; intros s chars Hinv t T Hty Hidx Htake Hlen.
  - pose proof (cur_line pid vids s Hinv) as Hl. fold t T in Hl.
    simpl app. rewrite app_nil_r. cbn [terminal_wait]. fold T. rewrite Hty.
    change (handle_key (switch_terminals pid) before k s KEYBOARD_ENTER)
      with (handle pid before k s KEYBOARD_ENTER).
    rewrite handle_enter, bind_some.
    pose proof (cur_con_ok pid vids s Hinv) as Hok.
    pose proof (key_enter_becomes kernel_view s Hok) as B.
    cbv zeta in B. fold t T in B. pose proof (becomes_get _ _ _ _ _ (co_term _ _ _ Hok) B) as E. fold t in E.
    assert (typingLine (terminals (key_enter s)).[t] = false) as Ef by by rewrite E.
    eexists (key_enter s), _. split.
    { destruct rest; cbn [terminal_wait]; by rewrite Ef. }
    split; [by apply key_enter_inv|]. split; [exact B|].
    split; [exact (key_enter_view kernel_view s Hok)|].
    split; [intros I HI; by apply key_enter_stable|]. split; [exact Hidx|].
    change (take (length chars + 1) (line_buffer T).[line_buffer_index T <- KEYBOARD_LINEFEED] =
      chars ++ [KEYBOARD_LINEFEED]).
    rewrite Hidx. apply take_append; [exact Htake|]. rewrite (lo_len _ Hl). simpl in Hlen. lia.
  - pose proof (plain_range code Hcode) as Hr. pose proof (key_char_range k code Hr) as Hcr.
    pose proof (cur_line pid vids s Hinv) as Hl. fold t T in Hl. simpl in Hlen.
    destruct (key_plain_types pid vids k s code Hinv Hr) as (Hinv' & Ec & Ety & Elb & Eix & Ev & T1 & B1);
      [fold t T; rewrite Hidx; lia|].
    fold t T in Ec, Ety, Elb, Eix, Ev, B1.
    destruct (IH (key_plain k s code) (chars ++ [key_char k code]) Hinv')
      as (s' & T' & Ew & Hi' & B & Evw & Hst & Ei & Et).
    { by rewrite Ec, Ety. }
    { rewrite Ec, Eix, Hidx, length_app. simpl. lia. }
    { rewrite Ec, Elb, Hidx, length_app. simpl.
      apply take_append; [exact Htake|]. rewrite (lo_len _ Hl). lia. }
    { rewrite length_app. simpl. lia. }
    exists s', T'. rewrite Ec in Ew, B, Evw. rewrite <- app_assoc in Ei, Et. split.
    + simpl app. cbn [terminal_wait]. fold T. rewrite Hty.
      change (handle_key (switch_terminals pid) before k s code) with (handle pid before k s code).
      rewrite handle_plain, bind_some by done. exact Ew.
    + split; [exact Hi'|]. split; [|split; [|split; [|by split]]].
      * apply (becomes_trans _ s (key_plain k s code) s' t T1); [|done|done].
        apply (cur_con_ok pid vids s Hinv).
      * rewrite Evw, Ev. reflexivity.
      * intros I HI Hs. by apply Hst, key_plain_stable.
Qed.

(** The bytes of a line. *)
Lemma line_take_aget (l line : list Z) :
  take (length line) l = line → ∀ i, 0 ≤ i < Z.of_nat (length line) → l.[i] = line.[i].
Proof.
  intros E i Hi. unfold aget. rewrite (proj2 (Z.leb_le 0 i)) by lia.
  rewrite <- E. by rewrite lookup_take_lt by lia.
Qed.

Lemma Forall_aget_nz (l : list Z) i :
  Forall (λ c, c ≠ 0) l → 0 ≤ i < Z.of_nat (length l) → l.[i] ≠ 0.
Proof.
  intros Hall Hi E. rewrite Forall_lookup in Hall. apply (Hall (Z.to_nat i) 0); [|done].
  rewrite lookup_aget by lia. by rewrite Z2Nat.id, E by lia.
Qed.

Lemma take_ext_aget (f : Z → Z) (line : list Z) n :
  0 ≤ n ≤ Z.of_nat (length line) → (∀ i, 0 ≤ i < n → f i = line.[i]) →
  f <$> seqZ 0 n = take (Z.to_nat n) line.
Proof.
  intros Hn Hf. apply list_eq_same_length with (Z.to_nat n).
  - rewrite length_take. lia.
  - by rewrite length_fmap, length_seqZ.
  - intros i x y Hi. rewrite list_lookup_fmap, lookup_seqZ_lt by lia. simpl. intros [= <-].
    rewrite lookup_take_lt, lookup_aget by lia. intros [= <-]. apply Hf. lia.
Qed.

Lemma read_result P (m m' : mach) buf n lb :
  written P m m' buf (n + 1) (line_byte lb n) → (∀ a, region buf (n + 1) a → P a) → 0 ≤ n →
  bytes m' buf n = (λ i, lb.[i]) <$> seqZ 0 n ∧ rd m' (buf + n) = 0.
Proof.
  intros W HP Hn. split.
  - unfold bytes. apply list_fmap_ext. intros j i Hi. apply lookup_seqZ in Hi as [-> Hi].
    rewrite (written_in _ _ _ _ _ _ _ W) by (lia || (apply HP; unfold region; lia)).
    replace (buf + (0 + Z.of_nat j) - buf) with (0 + Z.of_nat j) by lia. unfold line_byte.
    by rewrite (proj2 (Z.ltb_lt _ n)) by lia.
  - rewrite (written_in _ _ _ _ _ _ _ W) by (lia || (apply HP; unfold region; lia)).
    replace (buf + n - buf) with n by lia. unfold line_byte. by rewrite Z.ltb_irrefl.
Qed.


(** [terminal_read] of a line that is typed and ended by Enter. *)
Record line_read pid vids s s' (t buf n : Z) (line : list Z) : Prop := {
  lr_inv : kbd_inv pid vids s';
  lr_cur : cur_terminal s' = cur_terminal s;
  lr_other : ∀ u, u ≠ t → (terminals s').[u] = (terminals s).[u];
  lr_view : tview s' t = echo_spec line (tview s t);
  lr_bytes : bytes (vmem s') buf n = take (Z.to_nat n) (line ++ [KEYBOARD_LINEFEED]);
  lr_nul : rd (vmem s') (buf + n) = 0;
  lr_mem : ∀ a, kernel_view a → ¬ region (page_of s t) 4000 a → ¬ region buf (n + 1) a →
             rd (vmem s') a = rd (vmem s) a;
  lr_idx : line_buffer_index (terminals s').[t] = 0;
  lr_typing : typingLine (terminals s').[t] = true;
  lr_stable : ∀ I, stable I → I (vmem s) → I (vmem s')
}.

Lemma read_types pid vids before k s codes rest buf nbytes :
  let t := cur_terminal s in
  let T := (terminals s).[t] in
  kbd_inv pid vids s → typingLine T = true → line_buffer_index T = 0 →
  ctrl k = false → alt k = false → Forall (λ c, plain_code c = true) codes →
  Forall (λ c, key_char k c ≠ 0) codes → (length codes ≤ 127)%nat →
  0 ≤ nbytes → region USER_MEM_LOCATION (0x400000 - 129) buf →
  let n := Z.min nbytes (Z.of_nat (length codes) + 1) in
  ∃ s', terminal_read (switch_terminals pid) before k s t buf nbytes
          (codes ++ KEYBOARD_ENTER :: rest) = Some (k, s', rest, n) ∧
    line_read pid vids s s' t buf n (key_char k <$> codes).
Proof.
  intros t T Hinv Hty Hix Hc Ha Hpl Hnz Hlen Hn0 Hbuf n. set (chars := key_char k <$> codes).
  destruct (wait_types pid vids before k codes rest Hc Ha Hpl s [] Hinv Hty Hix)
    as (s1 & T1 & Ew & Hi1 & B & Ev1 & Hst & Ei & Et); [done|simpl; lia|].
  cbn [app] in Ei, Et. fold t in Ew, B, Ev1. fold chars in Ev1, Ei, Et.
  assert (length chars = length codes) as Hlc by apply length_fmap.
  unfold terminal_read. destruct (Z.eqb_spec buf 0) as [E0|_];
    [unfold region, USER_MEM_LOCATION in Hbuf; lia|].
  rewrite Ew, bind_some. set (line := chars ++ [KEYBOARD_LINEFEED]) in *.
  assert (length line = S (length codes)) as Hll by (unfold line; rewrite length_app; simpl; lia).
  rewrite Hlc in Ei, Et. rewrite Nat.add_1_r, <- Hll in Et. pose proof (line_take_aget _ _ Et) as Hlb.
  pose proof (to_cur _ _ (ki_terms _ _ _ Hinv)) as Ht. fold t in Ht.
  pose proof (co_term _ _ _ (cur_con_ok pid vids s Hinv)) as Htl. fold t in Htl.
  pose proof (becomes_get _ _ _ _ _ Htl B) as Eg.
  pose proof (to_line _ _ (ki_terms _ _ _ Hi1) t Ht) as Hl1. rewrite Eg in Hl1.
  assert (Z.min nbytes (line_buffer_index T1 + 1) = n) as En by (rewrite Ei; unfold n; lia).
  assert (∀ a, region buf (n + 1) a → kernel_view a) as Hkv.
  { intros a Ha'. right. right. unfold region in *. lia. }
  assert (line_len (line_buffer T1) n n) as Hll1.
  { split; [lia| |by left]. intros i Hi. rewrite Hlb by lia.
    apply (Forall_aget_nz line); [|lia]. unfold line, chars. rewrite Forall_app, Forall_fmap.
    split; [done|by repeat constructor]. }
  unfold region, USER_MEM_LOCATION in Hbuf.
  assert (0 ≤ t < Z.of_nat (length (terminals s1))) as Ht1
    by (rewrite (be_terms _ _ _ _ _ B), length_aset; done).
  destruct (terminal_read_line_spec kernel_view s1 t buf nbytes n)
    as (s2 & lb & E2 & W & Hlb2 & Hlb3 & Et2 & Ec2 & _); rewrite ?Eg, ?En;
    [exact Ht1|by eapply mach_safe, Hi1|exact Hkv|exact Hn0|rewrite Ei; lia|lia|lia
    |apply Hl1|exact Hll1|].
  rewrite Eg in W, Hlb2, Et2. rewrite En in W. rewrite E2, bind_some. exists s2. split; [reflexivity|].
  destruct (read_result _ _ _ _ _ _ W Hkv ltac:(lia)) as [Hby Hend].
  assert (becomes kernel_view s s1 t T1) as B' by exact B. destruct B' as [Bt Bc [Bq Bp] Bv].
  assert (∀ a, kernel_view a → ¬ region buf (n + 1) a → rd (vmem s2) a = rd (vmem s1) a) as Hm2.
  { intros a Hka Hna. apply (written_out _ _ _ _ _ _ _ W); [done|]. unfold region in Hna. lia. }
  set (T2 := T1 <| typingLine := true |> <| line_buffer := lb |> <| line_buffer_index := 0 |>) in *.
  assert ((terminals s2).[t] = T2) as Eg2 by (rewrite Et2; by apply aget_aset_eq).
  split.
  - destruct Hi1 as [[I1 I2 I3 I4] I5 I6].
    assert (∀ u, 0 ≤ u < 3 → page_of s2 u = page_of s1 u) as Hpg.
    { intros u Hu. unfold page_of. rewrite Et2. destruct (decide (u = t)) as [->|Hne].
      - rewrite aget_aset_eq by done. by rewrite Eg.
      - by rewrite aget_aset_ne by done. }
    split; [split|..].
    + by rewrite Et2, length_aset.
    + by rewrite Ec2.
    + intros u Hu. rewrite Hpg by done. apply (page_ok_cells kernel_view (vmem s1)); [apply W|by apply I3].
    + intros u Hu. rewrite Et2. destruct (decide (u = t)) as [->|Hne].
      * rewrite aget_aset_eq by done. destruct Hl1 as [L1 L2 L3 L4 L5 L6].
        destruct T1; cbn in *. split; cbn; try done; lia.
      * rewrite aget_aset_ne by done. by apply I4.
    + rewrite Ec2. apply (mach_ok_ctl (vmem s1)); [apply W|exact I5].
    + intros u Hu. rewrite Hpg by done. by apply I6.
  - by rewrite Ec2.
  - intros u Hu. rewrite Et2, aget_aset_ne by congruence. rewrite Bt. by rewrite aget_aset_ne by congruence.
  - rewrite <- Ev1. unfold tview, page_of. rewrite Eg2, Eg. change (video_mem T2) with (video_mem T1).
    change (c_x T2) with (c_x T1). change (c_y T2) with (c_y T1). do 2 f_equal.
    apply view_ext. intros j Hj. rewrite Bv. rewrite (ki_page _ _ _ Hinv) by done. apply Hm2.
    + left. unfold region, tpage, VIDEO in *. lia.
    + unfold region, tpage, VIDEO in *. lia.
  - fold line. rewrite Hby. apply take_ext_aget; [lia|]. intros i Hi. apply Hlb. lia.
  - exact Hend.
  - intros a Hka Hnp Hnb. rewrite Hm2 by done. by apply Bp.
  - by rewrite Eg2.
  - by rewrite Eg2.
  - intros I HI Hs. by apply (terminal_read_line_stable I HI s1 t buf nbytes s2 n); [apply Hst|].
Qed.
End Typing.
