(* ===== verification/TerminalProps.v ===== *)
(** * Properties of the terminals

    Switching terminals, the invariant of the keyboard handler, typing a line
    and reading it, writing to a terminal, and two defects of the driver. *)

From S2P Require Import Prelude Memory Lib Ports Types I8259 Paging PagingProps.
From S2P Require Import Console ConsoleProofs ConsoleProps Keyboard KeyboardProofs LineProofs.
From S2P Require Import KeyboardProps TerminalProofs Typing.
#[local] Open Scope Z_scope.

Section Typing.
Context {HL : Layout} {D : Type} `{!PortIO D}.
Implicit Types (s : console mach D) (pid t : Z) (vids : Z → option Z) (k : kbd).

(** The screen shows the terminal that is on it. *)
Lemma screen_current m cur pid vids :
  mach_ok m cur pid vids → 0 ≤ cur < 3 → view m VIDEO = view m (tpage cur).
Proof.
  intros Hm Hc. apply view_ext. intros k Hk.
  rewrite (rd_video m cur pid vids), (rd_tpage m cur pid vids) by (done || lia).
  unfold term_page. by rewrite Z.eqb_refl.
Qed.

(** Printing never moves the cursor in front of the typed characters. *)
Lemma print_pos cs : ∀ l x y,
  0 ≤ x < 80 → 0 ≤ y < 25 →
  let '(_, x', y') := print_spec cs (l, x, y) in
  Z.min (80 * y + x) 1920 ≤ 80 * y' + x' ∧ 0 ≤ x' < 80 ∧ 0 ≤ y' < 25.
Proof.
  induction cs as [|c cs IH]; intros l x y Hx Hy; [cbn; lia|].
  pose proof (putc_pos c l x y Hx Hy) as Hp. unfold print_spec. cbn [fold_left].
  assert (let '(_, x1, y1) := putc_spec c (l, x, y) in 0 ≤ x1 < 80 ∧ 0 ≤ y1 < 25) as Hr.
  { unfold putc_spec. assert (0 ≤ (x + 1) mod 80 < 80 ∧ 0 ≤ (x + 1) / 80 ≤ 1) by (clear - Hx; mlia).
    destruct ((c =? 10) || (c =? 13)); case_one; lia. }
  destruct (putc_spec c (l, x, y)) as [[l1 x1] y1]. destruct Hr as [Hx1 Hy1].
  specialize (IH l1 x1 y1 Hx1 Hy1). unfold print_spec in IH.
  destruct (fold_left _ cs (l1, x1, y1)) as [[l2 x2] y2]. lia.
Qed.

Lemma write_inv pid vids s s' t cs :
  kbd_inv pid vids s → 0 ≤ t < 3 → only_term kernel_view s s' t →
  tview s' t = print_spec cs (tview s t) → kbd_inv pid vids s'.
Proof.
  intros Hinv Ht Ho E. pose proof (to_line _ _ (ki_terms _ _ _ Hinv) t Ht) as Hl.
  destruct Ho as [Hlen Hoth (x & y & Eg) Hcur Hpg].
  pose proof (print_pos cs (view (vmem s) (page_of s t)) _ _ (lo_x _ Hl) (lo_y _ Hl)) as Hp.
  unfold tview in E. rewrite Eg in E. cbn in E.
  destruct (print_spec cs _) as [[l x1] y1]. injection E as _ -> ->.
  pose proof (co_term _ _ _ (terms_con_ok _ s t (ki_terms _ _ _ Hinv) Ht)) as Htl.
  apply (becomes_inv pid vids s s' t (set_cursor (terminals s).[t] x1 y1)); [done|done| |].
  - split; [|done|done|done]. apply aget_ext; [by rewrite length_aset|].
    intros i Hi. destruct (decide (i = t)) as [->|Hne].
    + by rewrite aget_aset_eq, Eg.
    + rewrite aget_aset_ne by done. by apply Hoth.
  - destruct Hl as [H1 H2 H3 H4 H5 H6]. destruct ((terminals s).[t]); cbn in *.
    split; cbn; done || lia.
Qed.

(** ** Properties *)

(** C22 (switching terminals). Switching from the terminal on the screen to
    another one succeeds; every terminal's page still shows what it showed, the
    video memory shows the new terminal, whose cursor the hardware cursor is
    sent to, and the page tables again map exactly the new terminal onto the
    video memory (the invariant holds for it). *)
Theorem switch_terminals_preserves pid vids s term :
  kbd_inv pid vids s → 0 ≤ term < 3 → term ≠ cur_terminal s →
  ∃ s', switch_terminals pid s term = Some s' ∧ kbd_inv pid vids s' ∧
    cur_terminal s' = term ∧ terminals s' = terminals s ∧
    (∀ t, 0 ≤ t < 3 → tview s' t = tview s t) ∧
    view (vmem s') VIDEO = view (vmem s) (page_of s term) ∧
    dev s' = csr_out (dev s) (80 * c_y (terminals s).[term] + c_x (terminals s).[term]).
Proof.
  intros Hinv Ht Hne.
  destruct (switch_spec pid vids s term Hinv Ht Hne) as (s' & E & Hi & Ec & Et & [S1 S2 _] & Ed).
  exists s'. split; [exact E|]. split; [exact Hi|]. split; [exact Ec|]. split; [exact Et|].
  pose proof (ki_page _ _ _ Hinv) as Hp. split; [|split; [|exact Ed]].
  - intros t Ht'. unfold tview, page_of. rewrite Et. f_equal. f_equal.
    fold (page_of s t). rewrite Hp by done. apply view_ext. intros k Hk. apply S1; lia.
  - rewrite Hp by done. apply view_ext. intros k Hk. apply S2; lia.
Qed.

(** C34 (the keyboard handler keeps the terminals in order). Any key but Up and
    Down, pressed or released, under any modifiers, is handled without getting
    stuck and keeps the invariant: cursors on the screen, line indices inside
    the 128-byte line buffers and never ahead of the cursor, buffers holding
    bytes, and the page tables mapping the terminal on the screen onto the
    video memory and the others to their own pages. *)
Theorem key_handler_invariant pid vids before k s data :
  kbd_inv pid vids s → 0 ≤ data < 256 → data ≠ UPCODE → data ≠ DOWNCODE →
  ∃ k' s', handle_key (switch_terminals pid) before k s data = Some (k', s') ∧
    kbd_inv pid vids s'.
Proof. apply handle_key_inv. Qed.

(** C20 (typing a line and reading it). A process reading from its terminal,
    which is on the screen with an empty line, returns when Enter is pressed,
    and not before: it gets the characters of the keys typed (with the shift
    and caps-lock tables applied) followed by a linefeed, cut to [nbytes], with
    a NUL behind them, and the count; the terminal shows the characters as they
    were typed and the cursor on the next row; its line is empty again.  The keys
    pressed after Enter are still to come. *)
Theorem type_and_read pid vids before k s codes rest buf nbytes :
  let t := cur_terminal s in
  let T := (terminals s).[t] in
  kbd_inv pid vids s → typingLine T = true → line_buffer_index T = 0 →
  ctrl k = false → alt k = false → Forall (λ c, plain_code c = true) codes →
  Forall (λ c, key_char k c ≠ 0) codes → (length codes ≤ 127)%nat →
  0 ≤ nbytes → region USER_MEM_LOCATION (0x400000 - 129) buf →
  let line := (key_char k <$> codes) ++ [KEYBOARD_LINEFEED] in
  let n := Z.min nbytes (Z.of_nat (length line)) in
  ∃ s', terminal_read (switch_terminals pid) before k s t buf nbytes
          (codes ++ KEYBOARD_ENTER :: rest) = Some (k, s', rest, n) ∧
    bytes (vmem s') buf n = take (Z.to_nat n) line ∧ rd (vmem s') (buf + n) = 0 ∧
    tview s' t = echo_spec (key_char k <$> codes) (tview s t) ∧
    line_buffer_index (terminals s').[t] = 0 ∧ typingLine (terminals s').[t] = true.
Proof.
  intros t T Hinv Hty Hix Hc Ha Hpl Hnz Hlen Hn0 Hbuf line n.
  destruct (read_types pid vids before k s codes rest buf nbytes Hinv Hty Hix Hc Ha Hpl Hnz Hlen Hn0 Hbuf)
    as (s' & E & L).
  assert (Z.min nbytes (Z.of_nat (length codes) + 1) = n) as En
    by (unfold n, line; rewrite length_app, length_fmap; simpl; lia).
  rewrite En in E, L. exists s'. split; [exact E|]. split_and!; apply L.
Qed.

(** C21 (writing to a terminal). A process of terminal [t] that writes a buffer
    of its own memory prints the bytes up to [nbytes] or the first NUL on that
    terminal, exactly as the character-grid specification says, and gets their
    number; the pages and cursors of the other terminals are unchanged, the
    screen still shows the terminal that is on it, and the invariant holds. *)
Theorem terminal_write_prints pid vids s t buf nbytes n :
  kbd_inv pid vids s → 0 ≤ t < 3 → printable (vmem s) buf nbytes n → nbytes < 0x400000 →
  USER_MEM_LOCATION ≤ buf → buf + nbytes ≤ USER_MEM_LOCATION + 0x400000 →
  ∃ s', terminal_write s t buf nbytes = Some (s', n) ∧
    tview s' t = print_spec (bytes (vmem s) buf n) (tview s t) ∧
    (∀ u, 0 ≤ u < 3 → u ≠ t → tview s' u = tview s u) ∧
    view (vmem s') VIDEO = view (vmem s') (page_of s' (cur_terminal s)) ∧
    kbd_inv pid vids s'.
Proof.
  intros Hinv Ht Hpr Hn Hb0 Hb1. pose proof (pr_len _ _ _ _ Hpr) as Hlen.
  pose proof (terms_con_ok _ s t (ki_terms _ _ _ Hinv) Ht) as Hok.
  destruct (terminal_write_spec kernel_view s t buf nbytes n Hok Hpr)
    as (s' & E & Ev & _ & Ho); [lia|unfold USER_MEM_LOCATION in *; lia..| |].
  { intros a Ha. split; [right; right; unfold region in *; lia|].
    rewrite (ki_page _ _ _ Hinv) by done. unfold region, tpage, VIDEO, USER_MEM_LOCATION in *. lia. }
  pose proof (write_inv pid vids s s' t _ Hinv Ht Ho Ev) as Hinv'.
  exists s'. split; [exact E|]. split; [exact Ev|]. split; [|split; [|exact Hinv']].
  - intros u Hu Hne. unfold tview, page_of. rewrite (ot_other _ _ _ _ Ho) by done.
    f_equal. f_equal. fold (page_of s u). apply view_ext. intros k Hk.
    rewrite (ki_page _ _ _ Hinv) by done. apply (ot_page _ _ _ _ Ho).
    + apply tpage_view; lia.
    + rewrite (ki_page _ _ _ Hinv) by done. unfold region, tpage. lia.
  - pose proof (to_cur _ _ (ki_terms _ _ _ Hinv)) as Hc. rewrite (ki_page _ _ _ Hinv') by done.
    rewrite <- (ot_cur _ _ _ _ Ho). apply (screen_current _ _ pid vids); [apply Hinv'|].
    by rewrite (ot_cur _ _ _ _ Ho).
Qed.
End Typing.

Section Defects.
Context {M : Type} `{!ByteMem M} {D : Type} `{!PortIO D}.
Implicit Types (s : console M D).

(** (a read writes one byte too many). Reading a line of at least [nbytes]
    bytes with a buffer of [nbytes] bytes sets the byte behind the buffer,
    [buf[nbytes]], to 0. *)
Theorem terminal_read_overruns P s t buf nbytes L :
  let T := (terminals s).[t] in
  0 ≤ t < Z.of_nat (length (terminals s)) → safe (vmem s) P →
  (∀ a, region buf (nbytes + 1) a → P a) → 0 ≤ nbytes ≤ line_buffer_index T + 1 →
  0 ≤ line_buffer_index T ≤ 127 → 0 ≤ buf → buf + 129 < 4294967296 →
  (∀ i, 0 ≤ (line_buffer T).[i] < 256) → line_len (line_buffer T) nbytes L →
  ∃ s', terminal_read_line s t buf nbytes = Some (s', L) ∧ rd (vmem s') (buf + nbytes) = 0.
Proof.
  intros T Ht Hs HP Hn Hi Hb0 Hb1 Hlb Hll.
  assert (Z.min nbytes (line_buffer_index T + 1) = nbytes) as En by lia.
  destruct (terminal_read_line_spec P s t buf nbytes L) as (s' & lb & E & W & _);
    fold T; rewrite ?En; try done; [lia|].
  fold T in W. rewrite En in W. exists s'. split; [exact E|].
  rewrite (written_in _ _ _ _ _ _ _ W) by (lia || (apply HP; unfold region; lia)).
  replace (buf + nbytes - buf) with nbytes by lia. unfold line_byte. by rewrite Z.ltb_irrefl.
Qed.

(** (Down on a short line wraps the line index). When the last command had
    [n] characters and fewer than [n - 1] characters are on the line, pressing
    Down leaves a line index of [index - n + 1] modulo 2^32, far outside the
    128-byte buffer: every further character typed is ignored, and Enter would
    write through that index. *)
Theorem key_down_wraps P before s n :
  let t := cur_terminal s in
  let T := (terminals s).[t] in
  con_ok P s t → cmdCount T = 0 → 0 ≤ line_buffer_index T → line_buffer_index T + 1 < n ≤ 126 →
  n ≤ pos T < 1999 →
  (∀ i, 0 ≤ i < n → hist_more before T 0 i = true) → hist_more before T 0 n = false →
  ∃ s', key_down before s = Some s' ∧
    line_buffer_index (terminals s').[t] = 4294967296 + line_buffer_index T - n + 1 ∧
    ∀ k code, key_plain k s' code = s'.
Proof.
  intros t T Hok Hcc Hi Hn Hpos Hmore Hstop.
  destruct (key_down_spec P before s n Hok Hcc) as (s' & E & Ec & Ei);
    [fold t T; lia|lia|exact Hpos|exact Hmore|exact Hstop|].
  fold t T in Ei, Ec.
  assert (line_buffer_index (terminals s').[t] = 4294967296 + line_buffer_index T - n + 1) as Ei'
    by (rewrite Ei; mlia).
  exists s'. split; [exact E|]. split; [exact Ei'|].
  intros k code. unfold key_plain, MAX_BUF_INDEX. rewrite Ec.
  destruct (Z.ltb_spec (line_buffer_index (terminals s').[t]) 127); [lia|done].
Qed.
End Defects.

(** ** Witnesses *)

#[local] Opaque demo_mach.

Definition demo_term (i : Z) : terminal :=
  zero_terminal <| typingLine := true |> <| video_mem := tpage i |>.

(** Process 0 runs; terminal 0 is on the screen. *)
Definition demo_kcon : console mach (list (Z * Z)) :=
  mk_console [demo_term 0; demo_term 1; demo_term 2] 0 (demo_proc 0) [].

Definition demo_kbd : kbd := mk_kbd false false false true false false false.

Lemma demo_mach_ok : mach_ok (demo_proc 0) 0 0 (λ _, None).
Proof.
  pose proof demo_tables_ok as HT. pose proof demo_pg as Hpg. unfold demo_proc.
  generalize dependent demo_mach. intros m HT Hpg.
  destruct (execute_paging_ok _ _ _ 0 HT ltac:(lia)) as (HT' & Hd & _).
  apply load_mach_ok; try done.
Qed.

Lemma bytes_aget (l : list Z) i : Forall (λ c, 0 ≤ c < 256) l → 0 ≤ l.[i] < 256.
Proof.
  intros Hl. unfold aget, zero_val, Z_zero. destruct (0 <=? i); [|lia].
  destruct (l !! Z.to_nat i) as [x|] eqn:E; simpl; [|lia]. by apply (Forall_lookup_1 _ _ _ _ Hl E).
Qed.

Lemma zero_line i : line_ok (demo_term i).
Proof.
  split; try (cbn; lia). intros j. apply bytes_aget.
  change (Forall (λ c, 0 ≤ c < 256) (replicate 128 0)). apply Forall_replicate. lia.
Qed.

Lemma demo_inv : kbd_inv 0 (λ _, None) demo_kcon.
Proof.
  assert (∀ t, 0 ≤ t < 3 → (terminals demo_kcon).[t] = demo_term t) as Hg.
  { intros t Ht. assert (t = 0 ∨ t = 1 ∨ t = 2) as [->|[->| ->]] by lia; reflexivity. }
  assert (∀ t, 0 ≤ t < 3 → page_of demo_kcon t = tpage t) as Hp.
  { intros t Ht. unfold page_of. by rewrite Hg. }
  split; [split; [done|cbn; lia| |]|exact demo_mach_ok|exact Hp].
  - intros t Ht. rewrite Hp by done. exact (tpage_ok _ _ _ _ t demo_mach_ok Ht).
  - intros t Ht. rewrite Hg by done. apply zero_line.
Qed.

Lemma switch_terminals_preserves_witness :
  ∃ s', switch_terminals 0 demo_kcon 2 = Some s' ∧ kbd_inv 0 (λ _, None) s' ∧
    cur_terminal s' = 2 ∧ terminals s' = terminals demo_kcon ∧
    (∀ t, 0 ≤ t < 3 → tview s' t = tview demo_kcon t) ∧
    view (vmem s') VIDEO = view (vmem demo_kcon) (page_of demo_kcon 2) ∧
    dev s' = csr_out [] (80 * c_y (terminals demo_kcon).[2] + c_x (terminals demo_kcon).[2]).
Proof.
  exact (switch_terminals_preserves 0 (λ _, None) demo_kcon 2 demo_inv ltac:(lia) ltac:(cbn; lia)).
Defined.

Lemma key_handler_invariant_witness :
  ∃ k' s', handle_key (switch_terminals 0) (λ _, 0) demo_kbd demo_kcon 0x26 = Some (k', s') ∧
    kbd_inv 0 (λ _, None) s'.
Proof.
  exact (key_handler_invariant 0 (λ _, None) (λ _, 0) demo_kbd demo_kcon 0x26 demo_inv
    ltac:(lia) ltac:(discriminate) ltac:(discriminate)).
Defined.

(** With the left shift key down, the keys l, s and Enter are read as "LS"
    and a linefeed. *)
Lemma type_and_read_witness :
  ∃ s', terminal_read (switch_terminals 0) (λ _, 0) demo_kbd demo_kcon 0 0x8000000 32
          ([0x26; 0x1F] ++ KEYBOARD_ENTER :: [0x1E]) = Some (demo_kbd, s', [0x1E], 3) ∧
    bytes (vmem s') 0x8000000 3 = [76; 83; 10] ∧ rd (vmem s') (0x8000000 + 3) = 0 ∧
    tview s' 0 = echo_spec [76; 83] (tview demo_kcon 0) ∧
    line_buffer_index (terminals s').[0] = 0 ∧ typingLine (terminals s').[0] = true.
Proof.
  exact (type_and_read 0 (λ _, None) (λ _, 0) demo_kbd demo_kcon [0x26; 0x1F] [0x1E] 0x8000000 32
    demo_inv eq_refl eq_refl eq_refl eq_refl ltac:(repeat constructor)
    ltac:(repeat constructor; discriminate) ltac:(cbn; lia) ltac:(lia)
    ltac:(unfold region, USER_MEM_LOCATION; lia)).
Defined.

(** A terminal with the line "ls" and a linefeed, read with a 2-byte buffer. *)
Definition demo_typed : console (gmap Z Z) (list (Z * Z)) :=
  mk_console [zero_terminal <| line_buffer := [108; 115; 10] ++ replicate 125 0 |>
                            <| line_buffer_index := 2 |>] 0 (flat_of 0x1000 [7; 7; 7; 7]) [].

Lemma terminal_read_overruns_witness :
  ∃ s', terminal_read_line demo_typed 0 0x1000 2 = Some (s', 2) ∧ rd (vmem s') (0x1000 + 2) = 0.
Proof.
  apply (terminal_read_overruns (λ _, True) demo_typed 0 0x1000 2 2);
    [by vm_compute|apply flat_safe|done|by vm_compute|by vm_compute|lia|lia| |].
  - intros i. change (line_buffer (terminals demo_typed).[0])
      with ([108; 115; 10] ++ replicate 125 0).
    apply bytes_aget. repeat constructor; lia.
  - split; [lia| |by left]. intros i Hi. assert (i = 0 ∨ i = 1) as [->| ->] by lia; discriminate.
Defined.

(** After a 5-character command, Down on an empty line at column 7. *)
Definition demo_hist : console (gmap Z Z) (list (Z * Z)) :=
  mk_console [(set_cursor (demo_terminal 0) 7 3)
                <| cmd_hist := [[115; 104; 101; 108; 108] ++ replicate 123 0] ++
                               replicate 4 (replicate 128 0) |>] 0 ∅ [].

Lemma key_down_wraps_witness :
  ∃ s', key_down (λ _, 0) demo_hist = Some s' ∧
    line_buffer_index (terminals s').[0] = 4294967296 + 0 - 5 + 1 ∧
    ∀ k code, key_plain k s' code = s'.
Proof.
  apply (key_down_wraps (λ _, True) (λ _, 0) demo_hist 5);
    [|done|by vm_compute|by vm_compute|by vm_compute| |reflexivity].
  - split; [by vm_compute| |by vm_compute|by vm_compute].
    split; [by vm_compute|apply flat_safe|done].
  - intros i Hi. assert (i = 0 ∨ i = 1 ∨ i = 2 ∨ i = 3 ∨ i = 4)
      as [->|[->|[->|[->| ->]]]] by lia; reflexivity.
Defined.
