(* ===== verification/Idt.v ===== *)
(** * Segment and interrupt descriptors (student-distrib/x86_desc.h, idt.c)

    The descriptors as the C bit fields declare them, the macros that fill
    them in, [initialize_idt], and what the processor makes of the result:
    [deliver] is the processor's reading of the interrupt descriptor table
    (the gate types, privilege check and present bit of the IA-32 manual).
    The addresses of the handlers are the linker's choice ([haddr]). *)

From S2P Require Import Prelude.
#[local] Open Scope Z_scope.

Definition KERNEL_CS : Z := 0x0010.
Definition KERNEL_TSS : Z := 0x0030.
Definition KERNEL_LDT : Z := 0x0038.
Definition TSS_SIZE : Z := 104.
Definition NUM_VEC : Z := 256.

(** Bits [i .. i+n) of a word. *)
Definition bits (x i n : Z) : Z := (x / 2 ^ i) mod 2 ^ n.

(** Storing to a bit field of [n] bits. *)
Definition field (n x : Z) : Z := x mod 2 ^ n.

(** ** Segment descriptors *)

#[projections(primitive)] Record seg_desc := mk_seg_desc {
  seg_lim_15_00 : Z;
  base_15_00 : Z;
  base_23_16 : Z;
  s_type : Z;
  s_sys : Z;
  s_dpl : Z;
  s_present : Z;
  seg_lim_19_16 : Z;
  s_avail : Z;
  s_reserved : Z;
  s_opsize : Z;
  s_granularity : Z;
  base_31_24 : Z
}.
#[export] Instance set_seg_lim_15_00 : Setter seg_lim_15_00. Proof. mk_setter. Defined.
#[export] Instance set_base_15_00 : Setter base_15_00. Proof. mk_setter. Defined.
#[export] Instance set_base_23_16 : Setter base_23_16. Proof. mk_setter. Defined.
#[export] Instance set_s_type : Setter s_type. Proof. mk_setter. Defined.
#[export] Instance set_s_sys : Setter s_sys. Proof. mk_setter. Defined.
#[export] Instance set_s_dpl : Setter s_dpl. Proof. mk_setter. Defined.
#[export] Instance set_s_present : Setter s_present. Proof. mk_setter. Defined.
#[export] Instance set_seg_lim_19_16 : Setter seg_lim_19_16. Proof. mk_setter. Defined.
#[export] Instance set_s_avail : Setter s_avail. Proof. mk_setter. Defined.
#[export] Instance set_s_reserved : Setter s_reserved. Proof. mk_setter. Defined.
#[export] Instance set_s_opsize : Setter s_opsize. Proof. mk_setter. Defined.
#[export] Instance set_s_granularity : Setter s_granularity. Proof. mk_setter. Defined.
#[export] Instance set_base_31_24 : Setter base_31_24. Proof. mk_setter. Defined.

(** The other view of the union: [val[0]] and [val[1]]. *)
Definition seg_val (d : seg_desc) : Z * Z :=
  (seg_lim_15_00 d + 2 ^ 16 * base_15_00 d,
   base_23_16 d + 2 ^ 8 * s_type d + 2 ^ 12 * s_sys d + 2 ^ 13 * s_dpl d + 2 ^ 15 * s_present d
   + 2 ^ 16 * seg_lim_19_16 d + 2 ^ 20 * s_avail d + 2 ^ 21 * s_reserved d + 2 ^ 22 * s_opsize d
   + 2 ^ 23 * s_granularity d + 2 ^ 24 * base_31_24 d).

Definition SET_TSS_PARAMS (d : seg_desc) (addr lim : Z) : seg_desc :=
  let d := d <| base_31_24 := field 8 (Z.shiftr (Z.land (u32 addr) 0xFF000000) 24) |> in
  let d := d <| base_23_16 := field 8 (Z.shiftr (Z.land (u32 addr) 0x00FF0000) 16) |> in
  let d := d <| base_15_00 := field 16 (Z.land (u32 addr) 0x0000FFFF) |> in
  let d := d <| seg_lim_19_16 := field 4 (Z.shiftr (Z.land lim 0x000F0000) 16) |> in
  d <| seg_lim_15_00 := field 16 (Z.land lim 0x0000FFFF) |>.

(** The same text. *)
Definition SET_LDT_PARAMS (d : seg_desc) (addr lim : Z) : seg_desc := SET_TSS_PARAMS d addr lim.

(** [the_ldt_desc] of [entry]; [d] is the uninitialised local. *)
Definition the_ldt_desc (d : seg_desc) (ldt ldt_size : Z) : seg_desc :=
  let d := d <| s_granularity := 0 |> <| s_opsize := 1 |> <| s_reserved := 0 |> <| s_avail := 0 |>
             <| s_present := 1 |> <| s_dpl := 0 |> <| s_sys := 0 |> <| s_type := 2 |> in
  SET_LDT_PARAMS d ldt ldt_size.

(** [the_tss_desc] of [entry]. *)
Definition the_tss_desc (d : seg_desc) (tss tss_size : Z) : seg_desc :=
  let d := d <| s_granularity := 0 |> <| s_opsize := 0 |> <| s_reserved := 0 |> <| s_avail := 0 |>
             <| seg_lim_19_16 := field 4 (Z.land TSS_SIZE 0x000F0000) |>
             <| s_present := 1 |> <| s_dpl := 0 |> <| s_sys := 0 |> <| s_type := 9 |>
             <| seg_lim_15_00 := field 16 (Z.land TSS_SIZE 0x0000FFFF) |> in
  SET_TSS_PARAMS d tss tss_size.

(** What the processor reads from a descriptor. *)
Definition seg_base (v : Z * Z) : Z := bits v.1 16 16 + 2 ^ 16 * bits v.2 0 8 + 2 ^ 24 * bits v.2 24 8.
Definition seg_limit (v : Z * Z) : Z := bits v.1 0 16 + 2 ^ 16 * bits v.2 16 4.
Definition seg_flags (v : Z * Z) : Z * Z * Z * Z :=
  (bits v.2 8 4, bits v.2 12 1, bits v.2 13 2, bits v.2 15 1).

(** ** Interrupt descriptors *)

#[projections(primitive)] Record idt_desc := mk_idt_desc {
  offset_15_00 : Z;
  seg_selector : Z;
  reserved4 : Z;
  reserved3 : Z;
  reserved2 : Z;
  reserved1 : Z;
  i_size : Z;
  reserved0 : Z;
  i_dpl : Z;
  i_present : Z;
  offset_31_16 : Z
}.
#[export] Instance set_offset_15_00 : Setter offset_15_00. Proof. mk_setter. Defined.
#[export] Instance set_seg_selector : Setter seg_selector. Proof. mk_setter. Defined.
#[export] Instance set_reserved4 : Setter reserved4. Proof. mk_setter. Defined.
#[export] Instance set_reserved3 : Setter reserved3. Proof. mk_setter. Defined.
#[export] Instance set_reserved2 : Setter reserved2. Proof. mk_setter. Defined.
#[export] Instance set_reserved1 : Setter reserved1. Proof. mk_setter. Defined.
#[export] Instance set_i_size : Setter i_size. Proof. mk_setter. Defined.
#[export] Instance set_reserved0 : Setter reserved0. Proof. mk_setter. Defined.
#[export] Instance set_i_dpl : Setter i_dpl. Proof. mk_setter. Defined.
#[export] Instance set_i_present : Setter i_present. Proof. mk_setter. Defined.
#[export] Instance set_offset_31_16 : Setter offset_31_16. Proof. mk_setter. Defined.

Definition zero_idt_desc : idt_desc := mk_idt_desc 0 0 0 0 0 0 0 0 0 0 0.
#[export] Instance idt_desc_zero : HasZero idt_desc := zero_idt_desc.

Definition idt_val (d : idt_desc) : Z * Z :=
  (offset_15_00 d + 2 ^ 16 * seg_selector d,
   reserved4 d + 2 ^ 8 * reserved3 d + 2 ^ 9 * reserved2 d + 2 ^ 10 * reserved1 d + 2 ^ 11 * i_size d
   + 2 ^ 12 * reserved0 d + 2 ^ 13 * i_dpl d + 2 ^ 15 * i_present d + 2 ^ 16 * offset_31_16 d).

(** [SET_IDT_ENTRY], with the two halves of the address. *)
Definition entry_high (handler : Z) : Z := u16 (Z.shiftr (Z.land (u32 handler) 0xFFFF0000) 16).
Definition entry_low (handler : Z) : Z := u16 (Z.land (u32 handler) 0xFFFF).
Definition SET_IDT_ENTRY (d : idt_desc) (handler : Z) : idt_desc :=
  let d := d <| offset_31_16 := entry_high handler |> in
  d <| offset_15_00 := entry_low handler |>.

Inductive handler :=
| de_handler | db_handler | nmi_handler | bp_handler | of_handler | br_handler | ud_handler
| nm_handler | df_handler | co_segment_overrun_handler | ts_handler | np_handler | ss_handler
| gp_handler | pf_handler | mf_handler | ac_handler | mc_handler | xf_handler | generic_handler
| pit_irq | key_irq | rtc_irq | systemcall.

Section Init.
Context (haddr : handler → Z).

(** [SET_IDT_ENTRY(idt[i], &h)] *)
Definition set_handler_at (idt : list idt_desc) (i : Z) (h : handler) : list idt_desc :=
  idt.[i <- SET_IDT_ENTRY idt.[i] (haddr h)].

(** The nine fields of a gate. *)
Definition set_gate (r3 dpl : Z) (d : idt_desc) : idt_desc :=
  d <| i_present := 1 |> <| seg_selector := KERNEL_CS |> <| i_dpl := dpl |>
    <| reserved4 := 0 |> <| reserved3 := r3 |> <| reserved2 := 1 |> <| reserved1 := 1 |>
    <| i_size := 1 |> <| reserved0 := 0 |>.

(** The calls of [SET_IDT_ENTRY] behind the two loops. *)
Definition idt_entries : list (Z * handler) :=
  [(0, de_handler); (1, db_handler); (2, nmi_handler); (3, bp_handler); (4, of_handler);
   (5, br_handler); (6, ud_handler); (7, nm_handler); (8, df_handler);
   (9, co_segment_overrun_handler); (10, ts_handler); (11, np_handler); (12, ss_handler);
   (13, gp_handler); (14, pf_handler); (16, mf_handler); (17, ac_handler); (18, mc_handler);
   (19, xf_handler); (32, pit_irq); (33, key_irq); (40, rtc_irq); (128, systemcall)].

Definition initialize_idt (idt : list idt_desc) : list idt_desc :=
  let idt := for_loop 32 0 (λ i idt,
    let idt := idt.[i <- set_gate 1 0 idt.[i]] in set_handler_at idt i generic_handler) idt in
  let idt := for_loop (Z.to_nat (NUM_VEC - 32)) 32 (λ i idt, idt.[i <- set_gate 0 0 idt.[i]]) idt in
  let idt := foldl (λ idt '(i, h), set_handler_at idt i h) idt idt_entries in
  idt.[128 <- set_gate 1 3 idt.[128]].
End Init.

(** The table of x86_desc.S before that. *)
Definition idt_boot : list idt_desc := replicate 256 zero_idt_desc.

(** ** The processor *)

Inductive delivery :=
| Enter (selector offset : Z) (interrupts_stay_on : bool)
| GeneralProtection
| NotPresent.

(** [software]: an INT instruction, executed at privilege level [cpl]. *)
Definition deliver (idt : list idt_desc) (v : Z) (software : bool) (cpl : Z) : delivery :=
  let '(lo, hi) := idt_val idt.[v] in
  let type := bits hi 8 5 in
  if negb ((type =? 14) || (type =? 15)) || (software && (bits hi 13 2 <? cpl)) then GeneralProtection
  else if bits hi 15 1 =? 0 then NotPresent
  else Enter (bits lo 16 16) (bits lo 0 16 + 2 ^ 16 * bits hi 16 16) (type =? 15).

(** ** What the tables mean *)

Lemma land_ff a k n : 0 ≤ k → 0 ≤ n →
  Z.shiftr (Z.land a (Z.shiftl (Z.ones n) k)) k = bits a k n.
Proof.
  intros Hk Hn. unfold bits. rewrite <- (Z.land_ones _ n), <- Z.shiftr_div_pow2 by lia.
  rewrite Z.shiftr_land, Z.shiftr_shiftl_l by lia. by rewrite Z.sub_diag, Z.shiftl_0_r.
Qed.

Lemma bits_range x i n : 0 ≤ n → 0 ≤ bits x i n < 2 ^ n.
Proof. intros Hn. apply Z.mod_pos_bound. lia. Qed.

Lemma field_bits x i n : 0 ≤ n → field n (bits x i n) = bits x i n.
Proof. intros Hn. apply Z.mod_small, bits_range, Hn. Qed.

(** The macros store the bits of the address and of the limit. *)
Lemma SET_TSS_PARAMS_fields d addr lim :
  0 ≤ addr < 2 ^ 32 →
  SET_TSS_PARAMS d addr lim =
  d <| base_31_24 := bits addr 24 8 |> <| base_23_16 := bits addr 16 8 |>
    <| base_15_00 := bits addr 0 16 |> <| seg_lim_19_16 := bits lim 16 4 |>
    <| seg_lim_15_00 := bits lim 0 16 |>.
Proof.
  intros Ha. unfold SET_TSS_PARAMS. rewrite u32_small by lia.
  change 0xFF000000 with (Z.shiftl (Z.ones 8) 24). change 0x00FF0000 with (Z.shiftl (Z.ones 8) 16).
  change 0x000F0000 with (Z.shiftl (Z.ones 4) 16).
  rewrite !land_ff, !field_bits by lia.
  change 0x0000FFFF with (Z.shiftl (Z.ones 16) 0).
  rewrite <- (Z.shiftr_0_r (Z.land addr _)), <- (Z.shiftr_0_r (Z.land lim (Z.shiftl (Z.ones 16) 0))).
  by rewrite !land_ff, !field_bits by lia.
Qed.

Lemma SET_IDT_ENTRY_fields d h :
  0 ≤ h < 2 ^ 32 →
  SET_IDT_ENTRY d h = d <| offset_31_16 := bits h 16 16 |> <| offset_15_00 := bits h 0 16 |>.
Proof.
  intros Hh. unfold SET_IDT_ENTRY, entry_high, entry_low. rewrite u32_small by lia.
  change 0xFFFF0000 with (Z.shiftl (Z.ones 16) 16). rewrite land_ff by lia.
  change 0xFFFF with (Z.shiftl (Z.ones 16) 0).
  rewrite <- (Z.shiftr_0_r (Z.land h (Z.shiftl (Z.ones 16) 0))), land_ff by lia.
  rewrite !u16_small by (apply bits_range; lia). done.
Qed.

(** A field of a word put together from fields. *)
Lemma bits_word a b c k n : 0 ≤ k → 0 ≤ n → 0 ≤ a < 2 ^ k → 0 ≤ b < 2 ^ n →
  bits (a + 2 ^ k * (b + 2 ^ n * c)) k n = b.
Proof.
  intros Hk Hn Ha Hb. unfold bits. rewrite (Z.mul_comm (2 ^ k)), Z.div_add by lia.
  rewrite (Z.div_small a) by lia. rewrite Z.add_0_l, (Z.mul_comm (2 ^ n)), Z.mod_add by lia.
  by apply Z.mod_small.
Qed.

Ltac bits_lia :=
  unfold bits;
  repeat match goal with |- context [2 ^ ?k] => let v := eval vm_compute in (2 ^ k) in change (2 ^ k) with v end;
  Z.to_euclidean_division_equations; lia.

Lemma bits_split32 a : 0 ≤ a < 2 ^ 32 → bits a 0 16 + 2 ^ 16 * bits a 16 8 + 2 ^ 24 * bits a 24 8 = a.
Proof. change (2 ^ 32) with 4294967296. intros. bits_lia. Qed.

Lemma bits_split16 a : 0 ≤ a < 2 ^ 32 → bits a 0 16 + 2 ^ 16 * bits a 16 16 = a.
Proof. change (2 ^ 32) with 4294967296. intros. bits_lia. Qed.

Lemma bits_split20 a : 0 ≤ a < 2 ^ 20 → bits a 0 16 + 2 ^ 16 * bits a 16 4 = a.
Proof. change (2 ^ 20) with 1048576. intros. bits_lia. Qed.

Lemma bits_low a b n : 0 ≤ n → 0 ≤ a < 2 ^ n → bits (a + 2 ^ n * b) 0 n = a.
Proof.
  intros Hn Ha. unfold bits. rewrite Z.pow_0_r, Z.div_1_r, (Z.mul_comm (2 ^ n)), Z.mod_add by lia.
  by apply Z.mod_small.
Qed.

(** The halves of a descriptor with the flags [ty], [sys] and [dpl]. *)
Lemma seg_val_read b24 b16 b0 l16 l0 ty op :
  0 ≤ b24 < 2 ^ 8 → 0 ≤ b16 < 2 ^ 8 → 0 ≤ b0 < 2 ^ 16 → 0 ≤ l16 < 2 ^ 4 → 0 ≤ l0 < 2 ^ 16 →
  0 ≤ ty < 16 → 0 ≤ op < 2 →
  let v := seg_val (mk_seg_desc l0 b0 b16 ty 0 0 1 l16 0 0 op 0 b24) in
  seg_base v = b0 + 2 ^ 16 * b16 + 2 ^ 24 * b24 ∧ seg_limit v = l0 + 2 ^ 16 * l16 ∧
  seg_flags v = (ty, 0, 0, 1).
Proof.
  change (2 ^ 8) with 256. change (2 ^ 16) with 65536. change (2 ^ 4) with 16.
  intros H1 H2 H3 H4 H5 H6 H7. unfold seg_base, seg_limit, seg_flags, seg_val. cbn [fst snd].
  cbn [seg_lim_15_00 base_15_00 base_23_16 s_type s_sys s_dpl s_present seg_lim_19_16 s_avail
       s_reserved s_opsize s_granularity base_31_24].
  split_and!; [bits_lia|bits_lia|]. repeat f_equal; bits_lia.
Qed.

(** (descriptors of the TSS and the LDT). The descriptors that [entry] puts
    into the GDT decode, as the processor reads them, to the addresses and
    limits they were made from, present, for the kernel only, and of the types
    available 32-bit TSS (9) and LDT (2), whatever the uninitialised local held. *)
Theorem descriptors_decode d tss tss_size ldt ldt_size :
  0 ≤ tss < 2 ^ 32 → 0 ≤ tss_size < 2 ^ 20 → 0 ≤ ldt < 2 ^ 32 → 0 ≤ ldt_size < 2 ^ 20 →
  let t := seg_val (the_tss_desc d tss tss_size) in
  let l := seg_val (the_ldt_desc d ldt ldt_size) in
  seg_base t = tss ∧ seg_limit t = tss_size ∧ seg_flags t = (9, 0, 0, 1) ∧
  seg_base l = ldt ∧ seg_limit l = ldt_size ∧ seg_flags l = (2, 0, 0, 1).
Proof.
  intros Ht Hts Hl Hls. unfold the_tss_desc, the_ldt_desc, SET_LDT_PARAMS.
  rewrite !SET_TSS_PARAMS_fields by done.
  pose proof (seg_val_read (bits tss 24 8) (bits tss 16 8) (bits tss 0 16) (bits tss_size 16 4)
    (bits tss_size 0 16) 9 0 ltac:(apply bits_range; lia) ltac:(apply bits_range; lia)
    ltac:(apply bits_range; lia) ltac:(apply bits_range; lia) ltac:(apply bits_range; lia)
    ltac:(lia) ltac:(lia)) as (T1 & T2 & T3).
  pose proof (seg_val_read (bits ldt 24 8) (bits ldt 16 8) (bits ldt 0 16) (bits ldt_size 16 4)
    (bits ldt_size 0 16) 2 1 ltac:(apply bits_range; lia) ltac:(apply bits_range; lia)
    ltac:(apply bits_range; lia) ltac:(apply bits_range; lia) ltac:(apply bits_range; lia)
    ltac:(lia) ltac:(lia)) as (L1 & L2 & L3).
  rewrite bits_split32 in T1, L1 by done. rewrite bits_split20 in T2, L2 by done. auto 10.
Qed.

(** ** The interrupt table *)

(** The handler a vector is meant for: the exceptions by their numbers in the
    IA-32 manual, the interrupt lines 0, 1 and 8 behind the two interrupt
    controllers, whose vectors start at 0x20 and 0x28, and the system call. *)
Definition vector_handler (v : Z) : option handler :=
  match v with
  | 0 => Some de_handler   (* #DE, divide error *)
  | 1 => Some db_handler   (* #DB, debug *)
  | 2 => Some nmi_handler  (* non-maskable interrupt *)
  | 3 => Some bp_handler   (* #BP, breakpoint *)
  | 4 => Some of_handler   (* #OF, overflow *)
  | 5 => Some br_handler   (* #BR, bound range exceeded *)
  | 6 => Some ud_handler   (* #UD, invalid opcode *)
  | 7 => Some nm_handler   (* #NM, device not available *)
  | 8 => Some df_handler   (* #DF, double fault *)
  | 9 => Some co_segment_overrun_handler
  | 10 => Some ts_handler  (* #TS, invalid TSS *)
  | 11 => Some np_handler  (* #NP, segment not present *)
  | 12 => Some ss_handler  (* #SS, stack-segment fault *)
  | 13 => Some gp_handler  (* #GP, general protection *)
  | 14 => Some pf_handler  (* #PF, page fault *)
  | 16 => Some mf_handler  (* #MF, floating-point error *)
  | 17 => Some ac_handler  (* #AC, alignment check *)
  | 18 => Some mc_handler  (* #MC, machine check *)
  | 19 => Some xf_handler  (* #XF, SIMD floating-point exception *)
  | _ =>
      if v =? 0x20 + 0 then Some pit_irq             (* timer, line 0 *)
      else if v =? 0x20 + 1 then Some key_irq        (* keyboard, line 1 *)
      else if v =? 0x28 + (8 - 8) then Some rtc_irq  (* clock, line 8 *)
      else if v =? 0x80 then Some systemcall
      else if v <? 32 then Some generic_handler      (* reserved exceptions *)
      else None
  end.

Section Table.
Context (haddr : handler → Z).

Definition gate_of (v : Z) : idt_desc :=
  let d := match vector_handler v with
           | Some h => SET_IDT_ENTRY zero_idt_desc (haddr h)
           | None => zero_idt_desc
           end in
  set_gate (if (v <? 32) || (v =? 128) then 1 else 0) (if v =? 128 then 3 else 0) d.

Lemma initialize_idt_gates : initialize_idt haddr idt_boot = gate_of <$> seqZ 0 256.
Proof.
  unfold initialize_idt, set_handler_at, gate_of, SET_IDT_ENTRY.
  generalize entry_high entry_low. intros high low. vm_compute. reflexivity.
Qed.

Lemma initialize_idt_get v : 0 ≤ v < 256 → (initialize_idt haddr idt_boot).[v] = gate_of v.
Proof.
  intros Hv. rewrite initialize_idt_gates. apply aget_lookup; [lia|].
  rewrite list_lookup_fmap, lookup_seqZ_lt by lia. simpl. do 2 f_equal. lia.
Qed.

(** A gate as the processor reads it. *)
Lemma gate_read o16 o0 r3 dpl :
  0 ≤ o16 < 2 ^ 16 → 0 ≤ o0 < 2 ^ 16 → 0 ≤ r3 < 2 → 0 ≤ dpl < 4 →
  let '(lo, hi) := idt_val (mk_idt_desc o0 KERNEL_CS 0 r3 1 1 1 0 dpl 1 o16) in
  bits hi 8 5 = 14 + r3 ∧ bits hi 13 2 = dpl ∧ bits hi 15 1 = 1 ∧ bits lo 16 16 = KERNEL_CS ∧
  bits lo 0 16 = o0 ∧ bits hi 16 16 = o16.
Proof.
  change (2 ^ 16) with 65536. intros H1 H2 H3 H4. unfold idt_val, KERNEL_CS.
  cbn [offset_15_00 seg_selector reserved4 reserved3 reserved2 reserved1 i_size reserved0 i_dpl
       i_present offset_31_16]. split_and!; bits_lia.
Qed.

(** The table as the processor reads it. *)
Lemma idt_delivers v software cpl :
  (∀ h, 0 ≤ haddr h < 2 ^ 32) → 0 ≤ v < 256 → 0 ≤ cpl ≤ 3 →
  deliver (initialize_idt haddr idt_boot) v software cpl =
    if software && (0 <? cpl) && negb (v =? 128) then GeneralProtection
    else Enter KERNEL_CS (match vector_handler v with Some h => haddr h | None => 0 end)
           ((v <? 32) || (v =? 128)).
Proof.
  intros Hh Hv Hc. unfold deliver. rewrite initialize_idt_get by done. unfold gate_of.
  assert (∃ o16 o0, match vector_handler v with
    | Some h => SET_IDT_ENTRY zero_idt_desc (haddr h) | None => zero_idt_desc end
    = mk_idt_desc o0 0 0 0 0 0 0 0 0 0 o16 ∧ 0 ≤ o16 < 2 ^ 16 ∧ 0 ≤ o0 < 2 ^ 16 ∧
    o0 + 2 ^ 16 * o16 = match vector_handler v with Some h => haddr h | None => 0 end)
    as (o16 & o0 & -> & H16 & H0 & <-).
  { destruct (vector_handler v) as [h|]; [|by exists 0, 0].
    exists (bits (haddr h) 16 16), (bits (haddr h) 0 16). rewrite SET_IDT_ENTRY_fields by done.
    split; [done|]. split; [apply bits_range; lia|]. split; [apply bits_range; lia|].
    by apply bits_split16. }
  set (r3 := if (v <? 32) || (v =? 128) then 1 else 0). set (dpl := if v =? 128 then 3 else 0).
  pose proof (gate_read o16 o0 r3 dpl H16 H0 ltac:(unfold r3; destruct (_ || _); lia)
    ltac:(unfold dpl; destruct (_ =? _); lia)) as Hg.
  change (set_gate r3 dpl (mk_idt_desc o0 0 0 0 0 0 0 0 0 0 o16))
    with (mk_idt_desc o0 KERNEL_CS 0 r3 1 1 1 0 dpl 1 o16).
  destruct (idt_val _) as [lo hi]. destruct Hg as (-> & -> & -> & -> & -> & ->).
  unfold r3, dpl. destruct (Z.eqb_spec v 128) as [->|].
  - rewrite orb_true_r. cbn. rewrite (proj2 (Z.ltb_ge 3 cpl)) by lia. by rewrite !andb_false_r.
  - rewrite orb_false_r. cbn [negb]. rewrite andb_true_r.
    destruct (v <? 32), (software && (0 <? cpl)); done.
Qed.
(** C35 (interrupt dispatch). After [initialize_idt], every vector enters the
    kernel's code segment: each IA-32 exception goes to the handler of that
    exception (the generic one for the reserved vectors 15 and 20 to 31), the
    timer, keyboard and clock interrupts to theirs with interrupts turned off,
    and vector 128 to the system-call entry with interrupts left on.  User mode
    can raise only vector 128 by itself; any other INT is a protection fault.
    The other vectors (34 to 39, 41 to 127, 129 to 255) have no handler: their
    gates are present and lead to address 0. *)
Theorem idt_dispatch v software cpl :
  (∀ h, 0 ≤ haddr h < 2 ^ 32) → 0 ≤ v < 256 → 0 ≤ cpl ≤ 3 →
  deliver (initialize_idt haddr idt_boot) v software cpl =
    if software && (0 <? cpl) && negb (v =? 128) then GeneralProtection
    else Enter KERNEL_CS (match vector_handler v with Some h => haddr h | None => 0 end)
           ((v <? 32) || (v =? 128)).
Proof. apply idt_delivers. Qed.
End Table.

(** ** Witnesses *)

Lemma descriptors_decode_witness :
  let t := seg_val (the_tss_desc (mk_seg_desc 7 7 7 7 1 3 0 9 1 1 1 1 7) 0x412344 103) in
  let l := seg_val (the_ldt_desc (mk_seg_desc 7 7 7 7 1 3 0 9 1 1 1 1 7) 0x4123C0 31) in
  seg_base t = 0x412344 ∧ seg_limit t = 103 ∧ seg_flags t = (9, 0, 0, 1) ∧
  seg_base l = 0x4123C0 ∧ seg_limit l = 31 ∧ seg_flags l = (2, 0, 0, 1).
Proof.
  exact (descriptors_decode _ 0x412344 103 0x4123C0 31 ltac:(lia) ltac:(lia) ltac:(lia) ltac:(lia)).
Defined.

(** Handlers at different addresses. *)
Definition demo_haddr (h : handler) : Z :=
  match h with
  | de_handler => 0x401000 | db_handler => 0x401010 | nmi_handler => 0x401020 | bp_handler => 0x401030
  | of_handler => 0x401040 | br_handler => 0x401050 | ud_handler => 0x401060 | nm_handler => 0x401070
  | df_handler => 0x401080 | co_segment_overrun_handler => 0x401090 | ts_handler => 0x4010A0
  | np_handler => 0x4010B0 | ss_handler => 0x4010C0 | gp_handler => 0x4010D0 | pf_handler => 0x4010E0
  | mf_handler => 0x4010F0 | ac_handler => 0x401100 | mc_handler => 0x401110 | xf_handler => 0x401120
  | generic_handler => 0x401130 | pit_irq => 0x401140 | key_irq => 0x401150 | rtc_irq => 0x401160
  | systemcall => 0x401170
  end.

(** A page fault, a protection fault and a key; a user program that executes
    INT 0x80, and one that executes INT 0x21; an interrupt on line 2. *)
Lemma idt_dispatch_witness :
  let idt := initialize_idt demo_haddr idt_boot in
  deliver idt 14 false 3 = Enter KERNEL_CS 0x4010E0 true ∧
  deliver idt 13 false 0 = Enter KERNEL_CS 0x4010D0 true ∧
  deliver idt 33 false 3 = Enter KERNEL_CS 0x401150 false ∧
  deliver idt 128 true 3 = Enter KERNEL_CS 0x401170 true ∧
  deliver idt 33 true 3 = GeneralProtection ∧
  deliver idt 34 false 3 = Enter KERNEL_CS 0 false.
Proof.
  pose proof (λ v b c, idt_dispatch demo_haddr v b c ltac:(intros []; cbn; lia)) as H.
  split_and!; apply H; lia.
Defined.
