(* ===== verification/Kernel.v ===== *)
(** * System calls on files (student-distrib/syscall.c, syscall_linkage.h)

    The kernel's state and the system calls that work on the file
    descriptors, the arguments and the video page of the calling process;
    [execute] and [halt] are in [Process].

    PCBs lie at the bottom of the 8 KB kernel stacks below 8 MB, one per
    process id ([pcb_addr]); [cur_pcb] finds the caller's from the stack
    pointer.  The state keeps them as records, by process id; [cur] below is
    the process id of the caller.

    A call that reads or writes through an address that is not mapped, or calls
    through a null operations table, ends in a fault (the processor enters the
    exception handler, which halts the process): [Fault], or [None] under the
    result of [open], [close], [getargs] and [vidmap].  What the call did before
    the fault is not followed any further.

    The PCBs, the process table and the other variables of the kernel are fields
    of the state and not bytes of the memory.  The only call that stores through
    a pointer into the kernel's page is [getargs], which does not check it: with
    such a pointer the code overwrites its own variables, the model only the
    bytes.  The theorems about sequences of calls leave it out
    ([KernelProps.file_call]). *)

From S2P Require Import Prelude Memory Lib Ports Types Filesystem I8259 RTC Paging Console Keyboard.
#[local] Open Scope Z_scope.

Definition KERNEL_TOP : Z := 0x00800000.
Definition KB8 : Z := 0x2000.
Definition MB4 : Z := 0x00400000.

(** The macro [cur_pcb]: the stack pointer with its low 13 bits cleared. *)
Definition cur_pcb (esp : Z) : Z := Z.land esp PCB_MASK.

(** [(PCB_t * )(KERNEL_TOP - KB8 * (pid + 1))] *)
Definition pcb_addr (pid : Z) : Z := KERNEL_TOP - KB8 * (pid + 1).

#[projections(primitive)] Record kernel (D : Type) := mk_kernel {
  con : console mach D;
  kb : kbd;
  kpic : pic;
  rtc_interrupt_occured : list Z;
  fs : fs_globals;
  pcbs : list PCB;
  proc_id_used : list bool;
  active : list bool;
  tss_esp0 : Z;
  tss_ss0 : Z;
  shells_started : Z
}.
Arguments mk_kernel {D}.
Arguments con {D}.
Arguments kb {D}.
Arguments kpic {D}.
Arguments rtc_interrupt_occured {D}.
Arguments fs {D}.
Arguments pcbs {D}.
Arguments proc_id_used {D}.
Arguments active {D}.
Arguments tss_esp0 {D}.
Arguments tss_ss0 {D}.
Arguments shells_started {D}.
#[export] Instance set_con {D} : Setter (@con D). Proof. mk_setter. Defined.
#[export] Instance set_kb {D} : Setter (@kb D). Proof. mk_setter. Defined.
#[export] Instance set_kpic {D} : Setter (@kpic D). Proof. mk_setter. Defined.
#[export] Instance set_rtc {D} : Setter (@rtc_interrupt_occured D). Proof. mk_setter. Defined.
#[export] Instance set_fs {D} : Setter (@fs D). Proof. mk_setter. Defined.
#[export] Instance set_pcbs {D} : Setter (@pcbs D). Proof. mk_setter. Defined.
#[export] Instance set_proc_id_used {D} : Setter (@proc_id_used D). Proof. mk_setter. Defined.
#[export] Instance set_active {D} : Setter (@active D). Proof. mk_setter. Defined.
#[export] Instance set_tss_esp0 {D} : Setter (@tss_esp0 D). Proof. mk_setter. Defined.
#[export] Instance set_tss_ss0 {D} : Setter (@tss_ss0 D). Proof. mk_setter. Defined.
#[export] Instance set_shells_started {D} : Setter (@shells_started D). Proof. mk_setter. Defined.

(** How a call ends: a fault, or a new state and a return value (with the
    interrupts that are still to come). *)
Inductive outcome (D : Type) :=
| Fault
| Ret (k : kernel D) (val : Z) (keys : list Z) (ticks : list rtc_event).
Arguments Fault {D}.
Arguments Ret {D}.

Section Syscall.
Context {HL : Layout} {D : Type} `{!PortIO D}.
Implicit Types (k : kernel D) (cur fd buf nbytes : Z).

Definition kmem k : mach := vmem (con k).
Definition kdev k : D := dev (con k).
Definition with_mem k (m : mach) : kernel D := k <| con := (con k) <| vmem := m |> |>.
Definition with_dev k (d : D) : kernel D := k <| con := (con k) <| dev := d |> |>.

(** [pcb->fd[fd]] and its update. *)
Definition get_fd k cur fd : file := (p_fd (pcbs k).[cur]).[fd].

Definition with_pcb k cur (f : PCB → PCB) : kernel D :=
  k <| pcbs := (pcbs k).[cur <- f (pcbs k).[cur]] |>.

Definition set_fd k cur fd (f : file) : kernel D :=
  with_pcb k cur (λ p, p <| p_fd := (p_fd p).[fd <- f] |>).

(** The address of [pcb->fd[fd].flags]: the array is at offset 280 of the
    PCB, a [file_t] has 20 bytes and [flags] is at offset 12. *)
Definition flags_addr cur fd : Z := u32 (pcb_addr cur + 280 + 20 * fd + 12).

(** [pcb->fd[fd].flags == 0], evaluated before [fd] is checked: [None] is a
    fault; outside the array the value is some byte of the kernel stack, which
    does not matter because the next conditions reject [fd]. *)
Definition fd_unused k cur fd : option bool :=
  if bool_decide (is_Some (cell (kmem k) (flags_addr cur fd)))
  then Some (flags (get_fd k cur fd) =? 0) else None.

(** Whether all bytes are mapped that [terminal_read] stores once the line is
    there: the line, up to its limit, and the NUL. *)
Definition line_mapped k cur (term buf nbytes : Z) (before : Z → Z) (keys : list Z) : option bool :=
  '(_, s, _) ← terminal_wait (switch_terminals cur) before (kb k) (con k) term keys;
  let limit := u32 (line_buffer_index (terminals s).[term] + 1) in
  Some (all_mapped (vmem s) buf ((if nbytes >? limit then limit else nbytes) + 1)).

(** The driver's stores reach exactly the [val] bytes from [buf] on, if it returns
    [val] for a file or a directory. *)
Definition read k cur fd buf nbytes (before : Z → Z) (keys : list Z) (ticks : list rtc_event)
    : option (outcome D) :=
  match fd_unused k cur fd with
  | None => Some Fault
  | Some unused =>
      if unused || (fd >=? 8) || (fd <? 0) || is_kernel_ptr buf then Some (Ret k (-1) keys ticks)
      else
        let fp := get_fd k cur fd in
        let term := p_terminal_id (pcbs k).[cur] in
        match f_op fp with
        | FOPS_NULL => Some Fault
        | stdin_ops =>
            ok ← line_mapped k cur term buf (u32 nbytes) before keys;
            if negb ok then Some Fault else
            '(kb', s, keys, val) ←
              terminal_read (switch_terminals cur) before (kb k) (con k) term buf (u32 nbytes) keys;
            Some (Ret (k <| kb := kb' |> <| con := s |>) val keys ticks)
        | stdout_ops => Some (Ret k (-1) keys ticks)
        | RTC_ops =>
            '(fl, d, ticks, val) ← RTC_read (rtc_interrupt_occured k) (kdev k) term ticks;
            Some (Ret (with_dev (k <| rtc_interrupt_occured := fl |>) d) val keys ticks)
        | dir_ops =>
            '(m, fp, val) ← dir_read (kmem k) (fs k) fp buf (u32 nbytes);
            if negb (all_mapped (kmem k) buf val) then Some Fault else
            Some (Ret (set_fd (with_mem k m) cur fd fp) val keys ticks)
        | file_ops =>
            '(m, fp, val) ← file_read (kmem k) (fs k) fp buf (u32 nbytes);
            if negb (all_mapped (kmem k) buf val) then Some Fault else
            Some (Ret (set_fd (with_mem k m) cur fd fp) val keys ticks)
        end
  end.

(** [rate0]: the uninitialised local of [RTC_write].  [terminal_write] reads byte
    after byte up to a NUL; an address that is not mapped reads as 0, so that it
    is the byte at which the loop stopped. *)
Definition write k cur fd buf nbytes (rate0 : Z) (keys : list Z) (ticks : list rtc_event)
    : option (outcome D) :=
  match fd_unused k cur fd with
  | None => Some Fault
  | Some unused =>
      if unused || (buf =? 0) || (fd >? 7) || (fd <? 0) then Some (Ret k (-1) keys ticks)
      else if is_kernel_ptr buf then Some (Ret k (-1) keys ticks)
      else
        let fp := get_fd k cur fd in
        match f_op fp with
        | FOPS_NULL => Some Fault
        | stdin_ops => Some (Ret k (-1) keys ticks)
        | stdout_ops =>
            '(s, val) ← terminal_write (con k) (p_terminal_id (pcbs k).[cur]) buf (u32 nbytes);
            if (val <? u32 nbytes) && negb (mapped (kmem k) (buf + val)) then Some Fault else
            Some (Ret (k <| con := s |>) val keys ticks)
        | RTC_ops =>
            if (u32 nbytes =? 4) && negb (all_mapped (kmem k) buf 4) then Some Fault else
            let (d, val) := RTC_write (kmem k) (kdev k) buf (u32 nbytes) rate0 in
            Some (Ret (with_dev k d) val keys ticks)
        | dir_ops => Some (Ret k (dir_write fp buf (u32 nbytes)) keys ticks)
        | file_ops => Some (Ret k (file_write fp buf (u32 nbytes)) keys ticks)
        end
  end.

(** The open operation of a driver table: [None] for the null table. *)
Definition fop_open k (f : file) : option (kernel D * file * Z) :=
  match f_op f with
  | FOPS_NULL => None
  | stdin_ops | stdout_ops => Some (k, f, terminal_open f)
  | RTC_ops =>
      let '(p, d, ret) := RTC_open (kpic k) (kdev k) f in
      Some ((with_dev k d) <| kpic := p |>, f, ret)
  | dir_ops => let (f, ret) := dir_open f in Some (k, f, ret)
  | file_ops => let (f, ret) := file_open f in Some (k, f, ret)
  end.

(** The close operation. *)
Definition fop_close (f : file) : option Z :=
  match f_op f with
  | FOPS_NULL => None
  | stdin_ops | stdout_ops => Some (terminal_close f)
  | RTC_ops => Some (RTC_close f)
  | dir_ops => Some (snd (dir_close f))
  | file_ops => Some (snd (file_close f))
  end.

(** The fields [open] sets for a directory entry of type [type]. *)
Definition open_file (f : file) (type inode fd : Z) : file :=
  let f :=
    if type =? 0 then
      f <| f_inode := 0 |> <| f_pos := 0 |> <| flags := 1 |> <| f_op := RTC_ops |>
    else if type =? 1 then
      f <| f_inode := inode |> <| f_pos := 0 |> <| flags := 1 |> <| f_op := dir_ops |>
    else if type =? 2 then
      f <| f_inode := inode |> <| f_pos := 0 |> <| flags := 1 |> <| f_op := file_ops |>
    else f in
  f <| fd_index := fd |>.

(** The first unused descriptor from [i] on, of the [n] left. *)
Fixpoint free_fd (fds : list file) (n : nat) (i : Z) : option Z :=
  match n with
  | O => None
  | S n => if flags fds.[i] =? 0 then Some i else free_fd fds n (i + 1)
  end.

(** [dp] is the address of the local [dentry_t d] on the kernel stack.  [strlen]
    of the name is the access that may fault, at the byte where it stops. *)
Definition open k cur (filename dp : Z) : option (option (kernel D * Z)) :=
  if filename =? 0 then Some (Some (k, -1))
  else
    len ← strlen (kmem k) filename;
    if negb (mapped (kmem k) (filename + len)) then Some None else
    '(m, success) ← read_dentry_by_name (kmem k) (fs k) filename dp;
    let k := with_mem k m in
    if success =? 0 then
      match free_fd (p_fd (pcbs k).[cur]) 6 2 with
      | None => Some (Some (k, -1))
      | Some i =>
          let f := open_file (get_fd k cur i) (dentry_type m dp) (dentry_inode m dp) i in
          match fop_open k f with
          | None => Some None
          | Some (k, f, ret) =>
              let k := set_fd k cur i f in
              Some (Some (k, if ret =? -1 then -1 else i))
          end
      end
    else Some (Some (k, -1)).

Definition close k cur fd : option (kernel D * Z) :=
  if (fd >? 7) || (fd <? 2) then Some (k, -1)
  else if flags (get_fd k cur fd) =? 0 then Some (k, -1)
  else
    match fop_close (get_fd k cur fd) with
    | None => None
    | Some ret => Some (set_fd k cur fd zero_file, ret)
    end.

(** [strlen] of a NUL-terminated array. *)
Fixpoint strlen_list (l : list Z) : Z :=
  match l with
  | [] => 0
  | c :: l => if c =? 0 then 0 else 1 + strlen_list l
  end.

(** Copy [args] to [buf] up to and including the NUL, at most [n] bytes;
    [None] is a fault on a store. *)
Fixpoint getargs_copy (m : mach) (args : list Z) (buf : Z) (n : nat) (i : Z) : option mach :=
  match n with
  | O => Some m
  | S n =>
      if bool_decide (is_Some (cell m (u32 (buf + i)))) then
        let m := wr m (u32 (buf + i)) args.[i] in
        if args.[i] =? 0 then Some m else getargs_copy m args buf n (i + 1)
      else None
  end.

Definition getargs k cur buf nbytes : option (kernel D * Z) :=
  let args := p_args (pcbs k).[cur] in
  if strlen_list args >? u32 nbytes then Some (k, -1)
  else
    let nbytes := if nbytes >? LINE_BUF_SIZE then LINE_BUF_SIZE else nbytes in
    m ← getargs_copy (kmem k) args buf (Z.to_nat nbytes) 0;
    Some (with_mem k m, 0).

(** [None] is a fault on the store to [*screen_start]. *)
Definition vidmap k cur (screen_start : Z) : option (kernel D * Z) :=
  if (screen_start =? 0) || is_kernel_ptr screen_start then Some (k, -1)
  else if forallb (λ i, bool_decide (is_Some (cell (kmem k) (screen_start + i)))) (seqZ 0 4) then
    let m := store32 (kmem k) screen_start USER_VIDEO in
    let pcb := (pcbs k).[cur] in
    let m := m <| tabs := vidmap_paging (tabs m) (p_pid pcb) (p_terminal_id pcb) |> in
    let m := loadPageDirectory m (pd_addr (p_pid pcb)) in
    Some (with_mem k m, 0)
  else None.

Definition set_handler (signum handler_address : Z) : Z := 0.
Definition sigreturn : Z := 0.
End Syscall.

(** ** The system-call gate *)

Inductive syscall :=
| SysHalt | SysExecute | SysRead | SysWrite | SysOpen | SysClose
| SysGetargs | SysVidmap | SysSetHandler | SysSigreturn.

Definition syscall_jumptable : list syscall :=
  [SysHalt; SysExecute; SysRead; SysWrite; SysOpen; SysClose; SysGetargs; SysVidmap;
   SysSetHandler; SysSigreturn].

(** The call [systemcall_linkage] makes for the value in EAX: [None] is the
    [bad] label, which returns -1.  Entry 0 of the assembly table is unused. *)
Definition systemcall_linkage (eax : Z) : option syscall :=
  if s32 eax <? 1 then None
  else if s32 eax >? 10 then None
  else syscall_jumptable !! Z.to_nat (s32 eax - 1).
