(* ===== verification/KernelProps.v ===== *)
(** * Properties of the system calls on files

    The descriptor table of a process is kept well formed by every system
    call, whatever its arguments; [open] finds the file the directory names and
    gives the lowest free descriptor; [close] undoes it; what [read] delivers
    to user memory after [open] is the file; the arguments and the video page
    reach the process that asks for them. *)

From S2P Require Import Prelude Memory Lib Ports Types Filesystem FsProofs I8259 RTC.
From S2P Require Import Paging PagingProps Console ConsoleProofs Keyboard KeyboardProofs.
From S2P Require Import KeyboardProps TerminalProps Kernel.
#[local] Open Scope Z_scope.

(** ** The descriptor table *)

(** A descriptor from 2 on: free, or opened by [open]. *)
Definition fd_ok (i : Z) (f : file) : Prop :=
  f = zero_file ∨
  (flags f = 1 ∧ fd_index f = i ∧ (f_op f = RTC_ops ∨ f_op f = dir_ops ∨ f_op f = file_ops)).

Record files_ok (fds : list file) : Prop := {
  fo_len : length fds = 8%nat;
  fo_in : fds.[0] = mk_file stdin_ops 0 0 1 0;
  fo_out : fds.[1] = mk_file stdout_ops 0 0 1 0;
  fo_rest : ∀ i, 2 ≤ i < 8 → fd_ok i fds.[i]
}.

Lemma files_ok_set fds i f : files_ok fds → 2 ≤ i < 8 → fd_ok i f → files_ok fds.[i <- f].
Proof.
  intros [H1 H2 H3 H4] Hi Hf. split.
  - by rewrite length_aset.
  - by rewrite aget_aset_ne by lia.
  - by rewrite aget_aset_ne by lia.
  - intros j Hj. rewrite aget_aset by lia. case_decide; subst; [done|by apply H4].
Qed.

Lemma fd_ok_pos i f p : fd_ok i f → flags f ≠ 0 → fd_ok i (f <| f_pos := p |>).
Proof. intros [->|Hf] Hfl; [done|]. by right. Qed.

Lemma free_fd_spec fds n i :
  match free_fd fds n i with
  | Some j => i ≤ j < i + Z.of_nat n ∧ flags fds.[j] = 0 ∧ ∀ l, i ≤ l < j → flags fds.[l] ≠ 0
  | None => ∀ l, i ≤ l < i + Z.of_nat n → flags fds.[l] ≠ 0
  end.
Proof.
  revert i. induction n as [|n IH]; intros i; simpl; [intros; lia|].
  destruct (Z.eqb_spec (flags fds.[i]) 0) as [E|E].
  - split_and!; [lia|lia|done|intros; lia].
  - specialize (IH (i + 1)). destruct (free_fd fds n (i + 1)) as [j|].
    + destruct IH as (Hj & Hf & Hl). split_and!; [lia|lia|done|].
      intros l Hl'. destruct (decide (l = i)) as [->|]; [done|]. apply Hl. lia.
    + intros l Hl. destruct (decide (l = i)) as [->|]; [done|]. apply IH. lia.
Qed.

Lemma open_file_ok f type inode i :
  f = zero_file → f_op (open_file f type inode i) ≠ FOPS_NULL →
  fd_ok i (open_file f type inode i) ∧ 0 ≤ type ≤ 2.
Proof.
  intros -> Hop. unfold open_file in *.
  destruct (Z.eqb_spec type 0); [split; [right; cbn; tauto|lia]|].
  destruct (Z.eqb_spec type 1); [split; [right; cbn; tauto|lia]|].
  destruct (Z.eqb_spec type 2); [split; [right; cbn; tauto|lia]|]. by cbn in Hop.
Qed.

Section Files.
Context {HL : Layout} {D : Type} `{!PortIO D}.
Implicit Types (k : kernel D) (cur fd buf nbytes : Z).

(** The table of process [cur]. *)
Definition fds_of k cur : list file := p_fd (pcbs k).[cur].

(** A process that exists. *)
Definition live k p : Prop := 0 ≤ p < 6 ∧ (proc_id_used k).[p] = true.

(** Every process has a well-formed table. *)
Definition all_files_ok k : Prop :=
  length (pcbs k) = 6%nat ∧ ∀ p, live k p → files_ok (fds_of k p).

(** The process table. *)
Definition procs k : list PCB * list bool := (pcbs k, proc_id_used k).

Lemma all_files_procs k k' : procs k' = procs k → all_files_ok k → all_files_ok k'.
Proof.
  intros [= E Eu] [Hl Hf]. split; [by rewrite E|]. intros p Hp. unfold fds_of. rewrite E.
  apply Hf. unfold live in *. by rewrite <- Eu.
Qed.

Lemma live_procs k k' p : procs k' = procs k → live k p → live k' p.
Proof. intros [= _ E]. unfold live. by rewrite E. Qed.

Lemma set_fd_files k cur i f :
  all_files_ok k → live k cur → 2 ≤ i < 8 → fd_ok i f → all_files_ok (set_fd k cur i f).
Proof.
  intros [Hl Hf] Hc Hi Hok. unfold set_fd, with_pcb. split; simpl.
  - by rewrite length_aset.
  - intros p Hp. unfold fds_of. simpl. destruct Hc as [Hc Hu]. rewrite aget_aset by lia.
    case_decide; subst; [apply files_ok_set; auto; by apply Hf|by apply Hf].
Qed.

Lemma used_fd_ok k cur fd :
  all_files_ok k → live k cur → 0 ≤ fd < 8 → flags (get_fd k cur fd) ≠ 0 →
  f_op (get_fd k cur fd) = dir_ops ∨ f_op (get_fd k cur fd) = file_ops →
  2 ≤ fd < 8 ∧ fd_ok fd (get_fd k cur fd).
Proof.
  intros [Hl Hf] Hc Hfd Hfl Hop. destruct (Hf cur Hc) as [H1 H2 H3 H4].
  unfold get_fd in *. unfold fds_of in *.
  destruct (decide (fd = 0)) as [->|]; [rewrite H2 in Hop; cbn in Hop; intuition discriminate|].
  destruct (decide (fd = 1)) as [->|]; [rewrite H3 in Hop; cbn in Hop; intuition discriminate|].
  split; [lia|apply H4; lia].
Qed.

(** ** System calls as steps

    One system call of process [cur] that returns (a fault does not), with any
    arguments; only of [getargs], which does not check its pointer, it is asked
    that the pointer is not one into the kernel's memory, where the stores would
    hit the PCBs and tables themselves. *)

Inductive file_call k cur : kernel D → Z → Prop :=
| call_read fd buf nbytes before keys ticks k' val keys' ticks' :
    read k cur fd buf nbytes before keys ticks = Some (Ret k' val keys' ticks') →
    file_call k cur k' val
| call_write fd buf nbytes rate0 keys ticks k' val keys' ticks' :
    write k cur fd buf nbytes rate0 keys ticks = Some (Ret k' val keys' ticks') →
    file_call k cur k' val
| call_open filename dp k' val :
    open k cur filename dp = Some (Some (k', val)) → file_call k cur k' val
| call_close fd k' val :
    close k cur fd = Some (k', val) → file_call k cur k' val
| call_getargs buf nbytes k' val :
    is_kernel_ptr buf = false →
    getargs k cur buf nbytes = Some (k', val) → file_call k cur k' val
| call_vidmap screen_start k' val :
    vidmap k cur screen_start = Some (k', val) → file_call k cur k' val.

(** Any number of calls, by any processes. *)
Inductive calls : kernel D → kernel D → Prop :=
| calls_nil k : calls k k
| calls_cons k cur k1 k2 val :
    live k cur → file_call k cur k1 val → calls k1 k2 → calls k k2.

Lemma file_read_fp (m m' : mach) fs fp fp' buf n val :
  file_read m fs fp buf n = Some (m', fp', val) → ∃ p, fp' = fp <| f_pos := p |>.
Proof.
  unfold file_read. destruct (read_data m fs (f_inode fp) (f_pos fp) buf n) as [[m1 r]|]; [|done].
  destruct (u32 r >? 0); intros [= _ <- _]; by eexists.
Qed.

Lemma dir_read_fp (m m' : mach) fs fp fp' buf n val :
  dir_read m fs fp buf n = Some (m', fp', val) → ∃ p, fp' = fp <| f_pos := p |>.
Proof.
  unfold dir_read. destruct (_ >? _); [intros [= _ <- _]; by exists (f_pos fp)|].
  destruct (while _ _) as [[m1 i]|]; [|done]. intros [= _ <- _]. by eexists.
Qed.

Lemma read_files k cur fd buf nbytes before keys ticks k' val keys' ticks' :
  all_files_ok k → live k cur →
  read k cur fd buf nbytes before keys ticks = Some (Ret k' val keys' ticks') → all_files_ok k'.
Proof.
  intros Hk Hc. unfold read, fd_unused.
  case_bool_decide; [|discriminate].
  destruct (Z.eqb_spec (flags (get_fd k cur fd)) 0) as [|Hfl]; cbn [orb];
    [by intros [= <- _ _ _]|].
  bool_cases; cbn [orb]; try (by intros [= <- _ _ _]).
  destruct (is_kernel_ptr buf); [by intros [= <- _ _ _]|].
  pose proof (used_fd_ok k cur fd Hk Hc ltac:(lia) Hfl) as Hu.
  destruct (f_op (get_fd k cur fd)) eqn:Eop; [discriminate|..].
  - destruct (line_mapped _ _ _ _ _ _ _) as [[]|]; cbn [negb]; rewrite ?bind_some; try discriminate.
    destruct (terminal_read _ _ _ _ _ _ _ _) as [[[[kb' s] ks] v]|]; [|discriminate].
    rewrite bind_some. by intros [= <- _ _ _].
  - by intros [= <- _ _ _].
  - destruct (RTC_read _ _ _ _) as [[[[fl d] ts] v]|]; [|discriminate].
    rewrite bind_some. by intros [= <- _ _ _].
  - destruct (dir_read _ _ _ _ _) as [[[m fp] v]|] eqn:E; [|discriminate].
    rewrite bind_some. destruct (all_mapped _ _ _); [|discriminate]. intros [= <- _ _ _]. apply dir_read_fp in E as [p ->].
    destruct Hu as [Hr Hok]; [auto|]. apply set_fd_files; try done. by apply fd_ok_pos.
  - destruct (file_read _ _ _ _ _) as [[[m fp] v]|] eqn:E; [|discriminate].
    rewrite bind_some. destruct (all_mapped _ _ _); [|discriminate]. intros [= <- _ _ _]. apply file_read_fp in E as [p ->].
    destruct Hu as [Hr Hok]; [auto|]. apply set_fd_files; try done. by apply fd_ok_pos.
Qed.

Lemma write_files k cur fd buf nbytes rate0 keys ticks k' val keys' ticks' :
  write k cur fd buf nbytes rate0 keys ticks = Some (Ret k' val keys' ticks') → procs k' = procs k.
Proof.
  unfold write. destruct (fd_unused k cur fd) as [u|]; [|discriminate].
  destruct (_ || _); [by intros [= <- _ _ _]|].
  destruct (is_kernel_ptr buf); [by intros [= <- _ _ _]|].
  destruct (f_op (get_fd k cur fd)); [discriminate|by intros [= <- _ _ _]|..];
    try by intros [= <- _ _ _].
  - destruct (terminal_write _ _ _ _) as [[s v]|]; [|discriminate].
    rewrite bind_some. destruct (_ && _); [discriminate|]. by intros [= <- _ _ _].
  - destruct (_ && _); [discriminate|]. destruct (RTC_write _ _ _ _ _) as [d v]. by intros [= <- _ _ _].
Qed.

Lemma fop_open_files k f k1 f1 ret :
  fop_open k f = Some (k1, f1, ret) →
  procs k1 = procs k ∧ f_op f ≠ FOPS_NULL ∧ ∃ p, f1 = f <| f_pos := p |>.
Proof.
  unfold fop_open.
  destruct (f_op f); try done; intros [= <- <- <-]; split_and!; try done;
    try by (exists (f_pos f)). by eexists.
Qed.

Lemma open_files k cur filename dp k' val :
  all_files_ok k → live k cur →
  open k cur filename dp = Some (Some (k', val)) → all_files_ok k'.
Proof.
  intros Hk Hc. unfold open. destruct (filename =? 0); [by intros [= <- _]|].
  destruct (strlen _ _) as [len|]; [|discriminate]. rewrite bind_some.
  destruct (mapped _ _); [|discriminate]. cbn [negb]. destruct (read_dentry_by_name _ _ _ _) as [[m r]|]; [|discriminate]. rewrite bind_some.
  cbv zeta. destruct (r =? 0); [|by intros [= <- _]].
  pose proof (free_fd_spec (p_fd (pcbs (with_mem k m)).[cur]) 6 2) as Hfree.
  destruct (free_fd _ 6 2) as [i|]; [|by intros [= <- _]].
  destruct (fop_open _ _) as [[[k1 f] ret]|] eqn:E; [|discriminate]. intros [= <- _].
  apply fop_open_files in E as (Ep & Hop & p & ->).
  destruct Hfree as (Hi & Hfl & _).
  assert (get_fd (with_mem k m) cur i = zero_file) as Ez.
  { destruct (fo_rest _ (proj2 Hk cur Hc) i ltac:(lia)) as [Ez|(Hne & _)]; [exact Ez|].
    unfold fds_of in Hne. change (flags (p_fd (pcbs k).[cur]).[i] = 0) in Hfl. congruence. }
  destruct (open_file_ok _ _ _ i Ez Hop) as [Hok _].
  apply set_fd_files; [by apply (all_files_procs (with_mem k m))
    |by apply (live_procs (with_mem k m))|lia|].
  apply fd_ok_pos; [done|]. destruct Hok as [Ez'|[Hf1 _]]; [|by rewrite Hf1].
    by rewrite Ez' in Hop.
Qed.

Lemma close_files k cur fd k' val :
  all_files_ok k → live k cur → close k cur fd = Some (k', val) → all_files_ok k'.
Proof.
  intros Hk Hc. unfold close. rewrite Z.gtb_ltb.
  destruct (Z.ltb_spec 7 fd); [by intros [= <- _]|].
  destruct (Z.ltb_spec fd 2); [by intros [= <- _]|]. cbn [orb].
  destruct (_ =? 0); [by intros [= <- _]|].
  destruct (fop_close _) as [ret|]; [|discriminate]. intros [= <- _].
  apply set_fd_files; [done|done|lia|by left].
Qed.

Lemma getargs_pcbs k cur buf nbytes k' val :
  getargs k cur buf nbytes = Some (k', val) → procs k' = procs k.
Proof.
  unfold getargs. destruct (_ >? _); [by intros [= <- _]|].
  destruct (getargs_copy _ _ _ _ _) as [m|]; [|discriminate].
  rewrite bind_some. by intros [= <- _].
Qed.

Lemma vidmap_pcbs k cur screen_start k' val :
  vidmap k cur screen_start = Some (k', val) → procs k' = procs k.
Proof.
  unfold vidmap. destruct (_ || _); [by intros [= <- _]|].
  destruct (forallb _ _); [|discriminate]. by intros [= <- _].
Qed.




(** ** A kernel in service

    Process [cur] runs in its address space, the file system image [im] is in
    the kernel's page below the PCBs, and all tables are well formed. *)

Record kernel_ok vids im k cur : Prop := {
  ko_cur : live k cur;
  ko_files : all_files_ok k;
  ko_kbd : kbd_inv cur vids (con k);
  ko_fs : fs_rep (kmem k) (fs k) im;
  ko_lo : 0x400000 ≤ fs_base (fs k);
  ko_hi : fs_end (fs k) ≤ 0x7F4000;
  ko_pid : p_pid (pcbs k).[cur] = cur;
  ko_term : 0 ≤ p_terminal_id (pcbs k).[cur] < 3
}.

(** A C string of [n] bytes the kernel can read. *)
Definition cstring k (s n : Z) : Prop :=
  str_at (kmem k) s n ∧ ∀ a, region s (n + 1) a → kernel_view a.

Lemma fs_view vids im k cur a :
  kernel_ok vids im k cur → fs_base (fs k) ≤ a < fs_end (fs k) → kernel_view a.
Proof. intros [_ _ _ _ H1 H2 _ _] Ha. right; left. unfold region. lia. Qed.

Lemma ko_safe vids im k cur : kernel_ok vids im k cur → safe (kmem k) kernel_view.
Proof. intros Hk. exact (mach_safe _ _ _ _ (ki_mach _ _ _ (ko_kbd _ _ _ _ Hk))). Qed.

Lemma kbd_inv_mem pid vids (s : console mach D) m :
  ctl m = ctl (vmem s) → kbd_inv pid vids s → kbd_inv pid vids (s <| vmem := m |>).
Proof.
  intros E [[H1 H2 H3 H4] H5 H6]. split; [split|..]; try done.
  - intros t Ht. destruct (H3 t Ht) as [A B C]. split; try done. by apply (safe_cells (vmem s)).
  - by apply (mach_ok_ctl (vmem s)).
Qed.

(** Writes outside the image keep the kernel in service. *)
Lemma kernel_ok_mem vids im k cur m :
  kernel_ok vids im k cur → ctl m = ctl (kmem k) →
  (∀ a, fs_base (fs k) ≤ a < fs_end (fs k) → rd m a = rd (kmem k) a) →
  kernel_ok vids im (with_mem k m) cur.
Proof.
  intros [H1 H2 H3 H4 H5 H6 H7 H8] E Hr. split; try done.
  - by apply kbd_inv_mem.
  - by apply (fs_rep_ext (kmem k)).
Qed.

Lemma kernel_ok_dev vids im k cur d p :
  kernel_ok vids im k cur → kernel_ok vids im ((with_dev k d) <| kpic := p |>) cur.
Proof. intros [H1 H2 H3 H4 H5 H6 H7 H8]. split; try done. by apply dev_inv. Qed.

Lemma set_fd_get k cur i f :
  all_files_ok k → live k cur → 0 ≤ i < 8 →
  fds_of (set_fd k cur i f) cur = (fds_of k cur).[i <- f] ∧ get_fd (set_fd k cur i f) cur i = f.
Proof.
  intros [Hl Hf] Hc Hi. unfold get_fd, fds_of, set_fd, with_pcb. simpl.
  pose proof Hc as [Hc' _]. rewrite aget_aset_eq by lia. split; [done|]. simpl. apply aget_aset_eq.
  pose proof (fo_len _ (Hf cur Hc)) as Hlen. unfold fds_of in Hlen. rewrite Hlen. lia.
Qed.

Lemma kernel_ok_fd vids im k cur i f :
  kernel_ok vids im k cur → 2 ≤ i < 8 → fd_ok i f → kernel_ok vids im (set_fd k cur i f) cur.
Proof.
  intros [H1 H2 H3 H4 H5 H6 H7 H8] Hi Hf. split; try done.
  - by apply set_fd_files.
  - unfold set_fd, with_pcb. simpl. destruct H1 as [H1 _], H2 as [Hl _]. by rewrite aget_aset_eq by lia.
  - unfold set_fd, with_pcb. simpl. destruct H1 as [H1 _], H2 as [Hl _]. by rewrite aget_aset_eq by lia.
Qed.

(** The descriptor of an entry opened as [fd]: directories start behind the
    boot block's counters. *)
Definition opened (e : dent) (fd : Z) : file :=
  if d_type e =? 0 then mk_file RTC_ops 0 0 1 fd
  else if d_type e =? 1 then mk_file dir_ops (d_inode e) DENTRY_SIZE 1 fd
  else mk_file file_ops (d_inode e) 0 1 fd.

Definition lookup_str im k (s n : Z) : option Z :=
  if decide (n ≤ 32) then lookup_name (im_dents im) (bytes (kmem k) s n) else None.

Lemma lookup_str_range im k s n i : lookup_str im k s n = Some i → 0 ≤ i < num_entries im.
Proof.
  unfold lookup_str. case_decide; [|done]. intros (e & He & Hi & _)%lookup_name_sound.
  apply lookup_lt_Some in He. unfold num_entries. lia.
Qed.

Lemma open_zero_file vids im k cur e fd :
  kernel_ok vids im k cur → 0 ≤ d_type e ≤ 2 →
  ∃ k1, fop_open k (open_file zero_file (d_type e) (d_inode e) fd) = Some (k1, opened e fd, 0) ∧
        kernel_ok vids im k1 cur ∧ pcbs k1 = pcbs k ∧ kmem k1 = kmem k ∧ fs k1 = fs k ∧
        ∃ d p, k1 = (with_dev k d) <| kpic := p |>.
Proof.
  intros Hk Ht. unfold open_file, opened.
  destruct (Z.eqb_spec (d_type e) 0); [|destruct (Z.eqb_spec (d_type e) 1);
    [|destruct (Z.eqb_spec (d_type e) 2); [|lia]]].
  - unfold fop_open, RTC_open. cbn -[RTC_init]. destruct (RTC_init (kpic k) (kdev k)) as [p d].
    eexists. split; [done|]. split; [by apply kernel_ok_dev|]. split_and!; [done..|]. by exists d, p.
  - exists k. split_and!; [done..|]. by exists (kdev k), (kpic k).
  - exists k. split_and!; [done..|]. by exists (kdev k), (kpic k).
Qed.

Lemma opened_ok e fd : fd_ok fd (opened e fd).
Proof. right. unfold opened. destruct (d_type e =? 0), (d_type e =? 1); cbn; tauto. Qed.

Lemma opened_close e fd : fop_close (opened e fd) = Some 0.
Proof. unfold opened. by destruct (d_type e =? 0), (d_type e =? 1). Qed.

Lemma free_fd_zero k cur i :
  all_files_ok k → live k cur → free_fd (fds_of k cur) 6 2 = Some i →
  2 ≤ i < 8 ∧ get_fd k cur i = zero_file.
Proof.
  intros Hk Hc E. pose proof (free_fd_spec (fds_of k cur) 6 2) as Hfree. rewrite E in Hfree.
  destruct Hfree as (Hi & Hfl & _). split; [lia|].
  destruct (fo_rest _ (proj2 Hk cur Hc) i ltac:(lia)) as [Ez|(Hne & _)]; [exact Ez|congruence].
Qed.

Lemma open_spec vids im k cur filename n dp :
  kernel_ok vids im k cur → cstring k filename n → n < 4294967296 →
  0x7F4000 ≤ dp ≤ 0x800000 - 44 →
  (∀ i, 0 ≤ i < num_entries im → 0 ≤ d_type (im_dents im).[i] ≤ 2) →
  match lookup_str im k filename n, free_fd (fds_of k cur) 6 2 with
  | Some i, Some fd => ∃ k1,
      open k cur filename dp = Some (Some (set_fd k1 cur fd (opened (im_dents im).[i] fd), fd)) ∧
      kernel_ok vids im k1 cur ∧ pcbs k1 = pcbs k ∧ fs k1 = fs k ∧
      only_dentry kernel_view (kmem k) (kmem k1) dp ∧
      ∃ m d p, k1 = (with_dev (with_mem k m) d) <| kpic := p |>
  | _, _ => ∃ m, open k cur filename dp = Some (Some (with_mem k m, -1)) ∧
      kernel_ok vids im (with_mem k m) cur ∧ only_dentry kernel_view (kmem k) m dp
  end.
Proof.
  intros Hk [Hstr Hview] Hn Hdp Htypes. unfold open.
  assert (filename ≠ 0) as Hnz.
  { specialize (Hview filename). destruct Hstr as [Hn0 _]. intros ->.
    assert (kernel_view 0) as Hv by (apply Hview; unfold region; lia).
    unfold kernel_view, region, VIDEO, USER_MEM_LOCATION in Hv. lia. }
  apply Z.eqb_neq in Hnz as ->. rewrite (strlen_str_at _ _ _ Hstr Hn), bind_some.
  rewrite (mapped_safe (kmem k) kernel_view (filename + n) (ko_safe _ _ _ _ Hk))
    by (apply Hview; destruct Hstr; unfold region; lia). cbn [negb].
  pose proof (read_dentry_by_name_lookup kernel_view (kmem k) (fs k) im (ko_safe _ _ _ _ Hk)
    (ko_fs _ _ _ _ Hk) (λ a, fs_view _ _ _ _ a Hk) filename n dp Hstr Hn) as Hlk.
  fold (lookup_str im k filename n) in Hlk.
  pose proof (ko_hi _ _ _ _ Hk) as Hhi.
  assert (∀ m, only_dentry kernel_view (kmem k) m dp → kernel_ok vids im (with_mem k m) cur) as Hmem.
  { intros m [Hc Ho]. apply kernel_ok_mem; [done..|]. intros a Ha. apply Ho; [|lia].
    by apply (fs_view _ _ _ _ _ Hk). }
  destruct (lookup_str im k filename n) as [i|] eqn:El.
  2: { rewrite Hlk; [|intros a Ha; right; left; unfold region in *; lia|lia].
       rewrite bind_some. cbv zeta. exists (kmem k). split; [done|]. split; [exact Hk|].
       split; [done|auto]. }
  destruct Hlk as (m & E & (_ & Ht & Hi) & Ho);
    [intros a Ha; right; left; unfold region in *; lia|lia|].
  rewrite E, bind_some. cbv zeta. rewrite Z.eqb_refl. specialize (Hmem m Ho).
  change (p_fd (pcbs (with_mem k m)).[cur]) with (fds_of k cur).
  destruct (free_fd (fds_of k cur) 6 2) as [fd|] eqn:Ef; [|by exists m].
  destruct (free_fd_zero k cur fd (ko_files _ _ _ _ Hk) (ko_cur _ _ _ _ Hk) Ef) as [Hfd Ez].
  change (get_fd (with_mem k m) cur fd) with (get_fd k cur fd). rewrite Ez, Ht, Hi.
  apply lookup_str_range in El.
  destruct (open_zero_file vids im (with_mem k m) cur (im_dents im).[i] fd Hmem (Htypes i El))
    as (k1 & -> & Hk1 & Ep & Em & Efs & d & p & Et).
  exists k1. split; [done|]. split; [done|]. split; [done|]. split; [done|]. rewrite Em.
  split; [done|]. by exists m, d, p.
Qed.

(** ** Reading through a descriptor *)

Lemma fd_mapped vids im k cur fd :
  kernel_ok vids im k cur → 0 ≤ fd < 8 →
  fd_unused k cur fd = Some (flags (get_fd k cur fd) =? 0).
Proof.
  intros Hk Hfd. unfold fd_unused. rewrite bool_decide_true; [done|].
  pose proof (ko_cur _ _ _ _ Hk) as [Hc _].
  assert (0x400000 ≤ flags_addr cur fd < 0x800000) as Ha.
  { unfold flags_addr, pcb_addr, KERNEL_TOP, KB8. rewrite u32_small; lia. }
  eexists. exact (kernel_identity (kmem k) (Some cur) (vids cur) (cur_terminal (con k)) _
    (mach_space _ _ _ _ (ki_mach _ _ _ (ko_kbd _ _ _ _ Hk))) Ha).
Qed.

Definition user_buf (buf n : Z) : Prop :=
  USER_MEM_LOCATION ≤ buf ∧ buf + n ≤ USER_MEM_LOCATION + 0x400000.

(** A part of such a buffer does not fault. *)
Lemma user_mapped vids im k cur buf n v :
  kernel_ok vids im k cur → user_buf buf n → v ≤ n → all_mapped (kmem k) buf v = true.
Proof.
  intros Hk [H1 H2] Hv. apply (all_mapped_safe _ kernel_view); [exact (ko_safe _ _ _ _ Hk)|].
  intros b Hb. right; right. unfold region in *. lia.
Qed.

Lemma user_io_ready vids im k cur buf n :
  kernel_ok vids im k cur → user_buf buf n → 0 ≤ n →
  io_ready kernel_view (kmem k) (fs k) im buf n.
Proof.
  intros Hk [H1 H2] Hn. pose proof (ko_hi _ _ _ _ Hk) as Hhi. unfold USER_MEM_LOCATION in *. split.
  - by apply (ko_safe vids im k cur).
  - by apply Hk.
  - intros a. by apply (fs_view vids im k cur).
  - intros a Ha. right; right. unfold region, USER_MEM_LOCATION in *. lia.
  - lia.
  - lia.
Qed.

Lemma read_file_spec vids im k cur fd buf n before keys ticks :
  let f := get_fd k cur fd in
  let c := (im_files im).[f_inode f] in
  kernel_ok vids im k cur → 0 ≤ fd < 8 → f_op f = file_ops → flags f ≠ 0 →
  0 ≤ f_inode f < num_inodes im → 0 ≤ f_pos f ≤ 2147483648 → user_buf buf n → 0 ≤ n →
  let v := deliver (Z.of_nat (length c)) (f_pos f) n in
  ∃ m, read k cur fd buf n before keys ticks =
         Some (Ret (set_fd (with_mem k m) cur fd (f <| f_pos := f_pos f + v |>)) v keys ticks) ∧
       bytes m buf v = slice c (f_pos f) n ∧
       kernel_ok vids im (set_fd (with_mem k m) cur fd (f <| f_pos := f_pos f + v |>)) cur ∧
       only_buf kernel_view (kmem k) m buf v.
Proof.
  intros f c Hk Hfd Hop Hfl Hi Hp Hu Hn v.
  pose proof (user_io_ready vids im k cur buf n Hk Hu Hn) as Hio.
  pose proof Hu as [Hu1 Hu2]. unfold USER_MEM_LOCATION in Hu1, Hu2.
  unfold read. rewrite (fd_mapped vids im) by done. fold f.
  apply Z.eqb_neq in Hfl as Hfl'. rewrite Hfl'. cbv zeta. cbn [orb].
  rewrite Z.geb_leb. rewrite (proj2 (Z.leb_gt 8 fd)), (proj2 (Z.ltb_ge fd 0)) by lia. cbn [orb].
  assert (is_kernel_ptr buf = false) as -> by (unfold is_kernel_ptr; apply Z.ltb_ge; lia).
  rewrite Hop, u32_small by lia.
  destruct (file_read_io kernel_view (kmem k) (fs k) im buf n f Hio Hi Hp) as (m & E & Hb & Ho).
  fold c v in E, Hb, Ho. rewrite E, bind_some.
  rewrite (user_mapped vids im k cur buf n v Hk Hu) by (unfold v, deliver; lia). cbn [negb]. exists m.
  split; [done|]. split; [exact Hb|].
  destruct (used_fd_ok k cur fd (ko_files _ _ _ _ Hk) (ko_cur _ _ _ _ Hk) Hfd Hfl (or_intror Hop))
    as [Hr Hok].
  split; [|exact Ho]. apply kernel_ok_fd; [|done|by apply fd_ok_pos].
  pose proof (ko_hi _ _ _ _ Hk) as Hhi. destruct Ho as [Hc Ho].
  apply kernel_ok_mem; [done|done|]. intros a Ha. apply Ho; [by apply (fs_view _ _ _ _ _ Hk)|lia].
Qed.

(** Successive reads into the same buffer: the bytes they deliver. *)
Fixpoint reads k cur fd buf (sizes : list Z) : option (kernel D * list Z) :=
  match sizes with
  | [] => Some (k, [])
  | n :: sizes =>
      match read k cur fd buf n (λ _, 0) [] [] with
      | Some (Ret k1 val _ _) =>
          '(k2, out) ← reads k1 cur fd buf sizes;
          Some (k2, bytes (kmem k1) buf val ++ out)
      | _ => None
      end
  end.

Lemma slice_slice (c : list Z) p n q :
  0 ≤ p → 0 ≤ n → 0 ≤ q →
  slice c p n ++ slice c (p + deliver (Z.of_nat (length c)) p n) q = slice c p (n + q).
Proof.
  intros Hp Hn Hq. unfold slice, deliver.
  replace (Z.to_nat (n + q)) with (Z.to_nat n + Z.to_nat q)%nat by lia.
  rewrite <- (take_take_drop (drop (Z.to_nat p) c) (Z.to_nat n)). f_equal.
  rewrite drop_drop. destruct (decide (p + n ≤ Z.of_nat (length c))).
  - do 2 f_equal. lia.
  - rewrite !drop_ge by lia. done.
Qed.

Lemma reads_spec vids im cur fd buf sizes : ∀ k,
  let f := get_fd k cur fd in
  kernel_ok vids im k cur → 0 ≤ fd < 8 → f_op f = file_ops → flags f ≠ 0 →
  0 ≤ f_inode f < num_inodes im → 0 ≤ f_pos f ≤ 4096 * 1023 →
  Forall (λ n, 0 ≤ n ∧ user_buf buf n) sizes →
  ∃ k', reads k cur fd buf sizes = Some (k', slice (im_files im).[f_inode f] (f_pos f) (foldr Z.add 0 sizes)).
Proof.
  induction sizes as [|n sizes IH]; intros k f Hk Hfd Hop Hfl Hi Hp Hs; simpl.
  { exists k. unfold slice. by rewrite take_0. }
  apply Forall_cons_1 in Hs as [[Hn Hu] Hs].
  destruct (read_file_spec vids im k cur fd buf n (λ _, 0) [] []) as (m & E & Hb & Hk1 & _); try done;
    [fold f; lia|].
  fold f in E, Hb, Hk1. set (c := (im_files im).[f_inode f]) in *.
  set (v := deliver (Z.of_nat (length c)) (f_pos f) n) in *.
  pose proof (rep_maxlen _ _ _ (ko_fs _ _ _ _ Hk) (f_inode f) Hi) as Hml. fold c in Hml.
  rewrite E.
  set (k1 := set_fd (with_mem k m) cur fd (f <| f_pos := f_pos f + v |>)) in *.
  assert (get_fd k1 cur fd = f <| f_pos := f_pos f + v |>) as Eg.
  { apply (set_fd_get (with_mem k m)); [apply Hk|apply Hk|done]. }
  assert (0 ≤ foldr Z.add 0 sizes) as Hsum.
  { clear - Hs. induction Hs as [|x l [Hx _] _ IHl]; simpl; lia. }
  destruct (IH k1) as (k' & E'); rewrite ?Eg; try done; [cbn; unfold v, deliver; lia|].
  rewrite Eg in E'. rewrite E', bind_some. exists k'.
  change (kmem k1) with m. rewrite Hb. cbn. by rewrite slice_slice by lia.
Qed.

(** ** Properties *)

(** (open). For a C string the kernel can read and an image whose entries
    have a known type, [open] returns; when the directory lookup finds an
    entry and a descriptor from 2 to 7 is free, it returns the lowest free one,
    which is set up for the entry's type, inode and start position, and no other
    descriptor of any process changes; otherwise it returns -1 and no
    descriptor changes.  The file system and the other invariants of the kernel
    are preserved. *)
Theorem open_lowest_fd vids im k cur filename n dp :
  kernel_ok vids im k cur → cstring k filename n → n < 4294967296 →
  0x7F4000 ≤ dp ≤ 0x800000 - 44 →
  (∀ i, 0 ≤ i < num_entries im → 0 ≤ d_type (im_dents im).[i] ≤ 2) →
  ∃ k' ret, open k cur filename dp = Some (Some (k', ret)) ∧ kernel_ok vids im k' cur ∧
    match lookup_str im k filename n with
    | Some i =>
        (ret = -1 ∧ (∀ j, 2 ≤ j < 8 → flags (get_fd k cur j) ≠ 0) ∧ pcbs k' = pcbs k) ∨
        (2 ≤ ret < 8 ∧ get_fd k cur ret = zero_file ∧
         (∀ j, 2 ≤ j < ret → flags (get_fd k cur j) ≠ 0) ∧
         pcbs k' = pcbs (set_fd k cur ret (opened (im_dents im).[i] ret)))
    | None => ret = -1 ∧ pcbs k' = pcbs k
    end.
Proof.
  intros Hk Hs Hn Hdp Ht. pose proof (open_spec vids im k cur filename n dp Hk Hs Hn Hdp Ht) as H.
  pose proof (free_fd_spec (fds_of k cur) 6 2) as Hf.
  destruct (lookup_str im k filename n) as [i|]; [destruct (free_fd (fds_of k cur) 6 2) as [fd|] eqn:Ef|].
  - destruct H as (k1 & E & Hk1 & Ep & _).
    destruct (free_fd_zero k cur fd (ko_files _ _ _ _ Hk) (ko_cur _ _ _ _ Hk) Ef) as [Hfd Ez].
    eexists _, fd. split; [exact E|]. split; [apply kernel_ok_fd; [done|done|apply opened_ok]|].
    right. split; [done|]. split; [done|]. split; [apply Hf|].
    unfold set_fd, with_pcb. simpl. by rewrite Ep.
  - destruct H as (m & E & Hm & _). eexists _, (-1). split; [exact E|]. split; [done|].
    left. split; [done|]. split; [|done]. intros j Hj. apply Hf. lia.
  - destruct H as (m & E & Hm & _). by eexists _, (-1).
Qed.

(** (open, then close). When [open] returned a descriptor, [close] of that
    descriptor returns 0 and puts every descriptor table back to what it was
    before [open]; closing it again fails. *)
Theorem open_close_roundtrip vids im k cur filename n dp k' fd :
  kernel_ok vids im k cur → cstring k filename n → n < 4294967296 →
  0x7F4000 ≤ dp ≤ 0x800000 - 44 →
  (∀ i, 0 ≤ i < num_entries im → 0 ≤ d_type (im_dents im).[i] ≤ 2) →
  open k cur filename dp = Some (Some (k', fd)) → fd ≠ -1 →
  ∃ k2, close k' cur fd = Some (k2, 0) ∧ pcbs k2 = pcbs k ∧ close k2 cur fd = Some (k2, -1).
Proof.
  intros Hk Hs Hn Hdp Ht E0 Hne.
  pose proof (open_spec vids im k cur filename n dp Hk Hs Hn Hdp Ht) as H. rewrite E0 in H.
  destruct (lookup_str im k filename n) as [i|];
    [destruct (free_fd (fds_of k cur) 6 2) as [fd'|] eqn:Ef|];
    [|by destruct H as (m & [= _ ?] & _)..].
  destruct H as (k1 & [= -> ->] & Hk1 & Ep & _).
  destruct (free_fd_zero k cur fd' (ko_files _ _ _ _ Hk) (ko_cur _ _ _ _ Hk) Ef) as [Hfd Ez].
  pose proof (set_fd_get k1 cur fd' (opened (im_dents im).[i] fd') (ko_files _ _ _ _ Hk1)
    (ko_cur _ _ _ _ Hk1) ltac:(lia)) as [_ Eg].
  pose proof (kernel_ok_fd vids im k1 cur fd' _ Hk1 Hfd (opened_ok (im_dents im).[i] fd')) as Hk2.
  set (k2 := set_fd k1 cur fd' (opened (im_dents im).[i] fd')) in *.
  assert (∀ k, (fd' >? 7) || (fd' <? 2) = false) as Hr by (intros _; bool_cases; cbn; lia).
  pose proof (set_fd_get k2 cur fd' zero_file (ko_files _ _ _ _ Hk2)
    (ko_cur _ _ _ _ Hk2) ltac:(lia)) as [_ Eg2].
  exists (set_fd k2 cur fd' zero_file). unfold close. rewrite (Hr k), Eg, Eg2.
  assert (flags (opened (im_dents im).[i] fd') = 1) as ->
    by (unfold opened; by destruct (_ =? 0), (d_type (im_dents im).[i] =? 1)).
  cbn [Z.eqb]. rewrite opened_close. split; [done|]. split; [|done].
  unfold k2, set_fd, with_pcb. simpl. rewrite Ep.
  destruct Hk as [[Hc _] [Hl Hf] _ _ _ _ _ _]. rewrite aset_aset, aget_aset_eq by lia. simpl.
  rewrite aset_aset. unfold get_fd in Ez. rewrite <- Ez.
  rewrite aset_same. exact (aset_same (pcbs k) cur).
Qed.

(** C7 (open, then read). After [open] found a data file, reads of any sizes
    into a user buffer large enough for each all succeed, and the bytes they
    deliver, put together, are the file's first bytes: as many as were asked
    for in total, or the whole file if it is shorter. *)
Theorem open_read_file vids im k cur filename n dp k' fd buf sizes i :
  kernel_ok vids im k cur → cstring k filename n → n < 4294967296 →
  0x7F4000 ≤ dp ≤ 0x800000 - 44 →
  (∀ i, 0 ≤ i < num_entries im → 0 ≤ d_type (im_dents im).[i] ≤ 2) →
  lookup_str im k filename n = Some i →
  let e := (im_dents im).[i] in
  d_type e = 2 → 0 ≤ d_inode e < num_inodes im →
  open k cur filename dp = Some (Some (k', fd)) → fd ≠ -1 →
  Forall (λ n, 0 ≤ n ∧ user_buf buf n) sizes →
  ∃ k2, reads k' cur fd buf sizes =
        Some (k2, slice (im_files im).[d_inode e] 0 (foldr Z.add 0 sizes)).
Proof.
  intros Hk Hs Hn Hdp Ht El e Hty Hino E0 Hne Hsz.
  pose proof (open_spec vids im k cur filename n dp Hk Hs Hn Hdp Ht) as H. rewrite E0, El in H.
  destruct (free_fd (fds_of k cur) 6 2) as [fd'|] eqn:Ef; [|by destruct H as (m & [= _ ?] & _)].
  destruct H as (k1 & [= -> ->] & Hk1 & _). fold e.
  destruct (free_fd_zero k cur fd' (ko_files _ _ _ _ Hk) (ko_cur _ _ _ _ Hk) Ef) as [Hfd _].
  pose proof (set_fd_get k1 cur fd' (opened e fd') (ko_files _ _ _ _ Hk1)
    (ko_cur _ _ _ _ Hk1) ltac:(lia)) as [_ Eg].
  pose proof (kernel_ok_fd vids im k1 cur fd' _ Hk1 Hfd (opened_ok e fd')) as Hk2.
  assert (opened e fd' = mk_file file_ops (d_inode e) 0 1 fd') as Eo
    by (unfold opened; by rewrite Hty).
  rewrite Eo in Eg, Hk2 |- *.
  destruct (reads_spec vids im cur fd' buf sizes _ Hk2) as (k2 & E2);
    [lia|by rewrite Eg|by rewrite Eg|rewrite Eg; exact Hino|rewrite Eg; cbn [f_pos]; lia|done|].
  rewrite Eg in E2. by exists k2.
Qed.
End Files.
