(* ===== verification/KernelDemo.v ===== *)
(** * A concrete kernel

    A kernel in service with a small file system image in its page, used by
    the witnesses of the properties of the system calls: process 0 runs on
    terminal 0; the directory holds ".", "rtc", "shell" (an executable whose
    entry point is 0x080482A4) and "a.txt". *)

From S2P Require Import Prelude Memory Lib Ports Types Filesystem FsProofs FsProps I8259 RTC.
From S2P Require Import Paging PagingProps Console ConsoleProofs Keyboard KeyboardProofs.
From S2P Require Import LineProofs KeyboardProps TerminalProps Kernel KernelProps.
#[local] Open Scope Z_scope.

Definition nm_shell : list Z := [115; 104; 101; 108; 108].
Definition nm_rtc : list Z := [114; 116; 99].
Definition nm_a_txt : list Z := [97; 46; 116; 120; 116].

(** ELF magic, 20 bytes, the entry point, 12 more header bytes, code. *)
Definition demo_elf : list Z :=
  [0x7f; 69; 76; 70] ++ replicate 20 1 ++ [0xA4; 0x82; 0x04; 0x08] ++ replicate 12 2 ++
  [0x90; 0x90; 0xC3].

Definition kimage : fs_image :=
  mk_image [mk_dent nm_dot 1 0; mk_dent nm_rtc 0 0; mk_dent nm_shell 2 1; mk_dent nm_a_txt 2 2]
           [[]; demo_elf; [104; 105; 10]].

Definition kfs : fs_globals := mk_fs 0x500000 0x506000.

(** The image, the kernel's constant "shell", and three strings in the physical
    memory of process 0. *)
Definition kphys : gmap Z Z :=
  flat_of 0x500000 (le4 4 ++ le4 3 ++ le4 2 ++ replicate 52 0 ++ (im_dents kimage ≫= dent_bytes))
  ∪ flat_of 0x502000 (le4 43 ++ le4 0)
  ∪ flat_of 0x503000 (le4 3 ++ le4 1)
  ∪ flat_of 0x504000 demo_elf
  ∪ flat_of 0x505000 [104; 105; 10]
  ∪ flat_of 0x480000 (nm_shell ++ [0])
  ∪ flat_of 0x800100 (nm_a_txt ++ [0])
  ∪ flat_of 0x800200 (nm_shell ++ [32; 32; 120; 32; 121; 32; 0])
  ∪ flat_of 0x800300 [46; 0].

(** A flat memory that holds [kimage], by evaluation. *)
Ltac image_check :=
  split;
  [vm_compute; reflexivity || congruence..
  |let i := fresh in let Hi := fresh in
   intros i Hi; change (num_entries kimage) with 4 in Hi;
   assert (i = 0 ∨ i = 1 ∨ i = 2 ∨ i = 3) as [->|[->|[->| ->]]] by lia;
   (split; [apply name_ok_check; vm_compute; reflexivity
           |apply forall_seqZ; vm_compute; reflexivity
           |vm_compute; reflexivity|vm_compute; reflexivity])
  |let j := fresh in let Hj := fresh in
   intros j Hj; change (num_inodes kimage) with 3 in Hj;
   assert (j = 0 ∨ j = 1 ∨ j = 2) as [->|[->| ->]] by lia;
   (apply file_rep_check; vm_compute; reflexivity)
  |let j := fresh in let Hj := fresh in
   intros j Hj; change (num_inodes kimage) with 3 in Hj;
   assert (j = 0 ∨ j = 1 ∨ j = 2) as [->|[->| ->]] by lia; vm_compute; congruence].

Lemma kfs_rep_flat : fs_rep kphys kfs kimage.
Proof. image_check. Qed.

Definition kpcb (pid term : Z) : PCB :=
  zero_PCB <| p_pid := pid |> <| p_terminal_id := term |> <| p_parent := pid |>
    <| p_args := [120; 32; 121] ++ replicate 125 0 |>
    <| p_fd := mk_file stdin_ops 0 0 1 0 :: mk_file stdout_ops 0 0 1 0 :: replicate 6 zero_file |>.

Definition kmach : mach := (vmem demo_kcon) <| phys := kphys |>.

Definition kcon : console mach (list (Z * Z)) := demo_kcon <| vmem := kmach |>.

(** The three shells are running. *)
Definition demo_kernel : kernel (list (Z * Z)) :=
  mk_kernel kcon demo_kbd (mk_pic 0xFF 0xFF) [0; 0; 0] kfs
    [kpcb 0 0; kpcb 1 1; kpcb 2 2; zero_PCB; zero_PCB; zero_PCB]
    [true; true; true; false; false; false] [true; true; true; false; false; false]
    0x7FFFFC 0x18 3.

#[local] Opaque demo_mach kphys.

Lemma kbd_inv_phys pid vids (s : console mach (list (Z * Z))) g :
  kbd_inv pid vids s → kbd_inv pid vids (s <| vmem := (vmem s) <| phys := g |> |>).
Proof. intros H. apply kbd_inv_mem; [reflexivity|exact H]. Qed.

Lemma kcon_inv : kbd_inv 0 (λ _, None) kcon.
Proof. exact (kbd_inv_phys 0 (λ _, None) demo_kcon kphys demo_inv). Qed.

Lemma kmach_ok : mach_ok kmach 0 0 (λ _, None).
Proof. exact (ki_mach _ _ _ kcon_inv). Qed.

(** Reads of the kernel's page and of the user's page. *)
Lemma kmach_kernel a : 0x400000 ≤ a < 0x800000 → rd kmach a = rd kphys a.
Proof.
  intros Ha. pose proof (mach_space _ _ _ _ kmach_ok) as H. cbn [rd PagedMem FlatMem].
  unfold mach_rd, flat_rd. rewrite (kernel_identity kmach (Some 0) None 0 a H Ha).
  change (phys kmach) with kphys. reflexivity.
Qed.

Lemma kmach_user a : 0 ≤ a < 0x400000 → rd kmach (USER_MEM_LOCATION + a) = rd kphys (0x800000 + a).
Proof.
  intros Ha. rewrite (rd_pbyte kmach 0 0 _ _ kmach_ok).
  - unfold view_cell, USER_MEM_LOCATION, VIDEO. cases_lia.
    replace (0x800000 + 0x400000 * 0 + (128 * 1048576 + a - 128 * 1048576)) with (0x800000 + a)
      by lia. unfold pbyte. change (phys kmach) with kphys. reflexivity.
  - right; right; right. unfold region, USER_MEM_LOCATION. lia.
Qed.

Lemma kstr a n :
  0 ≤ a → 0 ≤ n → a + n < 0x400000 → str_at kphys (0x800000 + a) n →
  cstring demo_kernel (USER_MEM_LOCATION + a) n ∧
  bytes kmach (USER_MEM_LOCATION + a) n = bytes kphys (0x800000 + a) n.
Proof.
  intros Ha Hn Hb (_ & H1 & H2). split; [split|].
  - change (kmem demo_kernel) with kmach. split; [done|]. split.
    + intros i Hi. rewrite <- Z.add_assoc, kmach_user by lia. rewrite Z.add_assoc. by apply H1.
    + rewrite <- Z.add_assoc, kmach_user by lia. by rewrite Z.add_assoc.
  - intros x Hx. right; right. unfold region, USER_MEM_LOCATION in *. lia.
  - unfold bytes. apply list_fmap_ext. intros j i Hi. apply lookup_seqZ in Hi as [-> Hi].
    rewrite <- Z.add_assoc, kmach_user by lia. by rewrite Z.add_assoc.
Qed.

Lemma kfiles : all_files_ok demo_kernel.
Proof.
  split; [done|]. intros p [Hp Hu].
  assert (p = 0 ∨ p = 1 ∨ p = 2 ∨ p = 3 ∨ p = 4 ∨ p = 5) as [->|[->|[->|[->|[->| ->]]]]] by lia;
    try done.
  all: split; try done; intros i Hi; left;
    assert (i = 2 ∨ i = 3 ∨ i = 4 ∨ i = 5 ∨ i = 6 ∨ i = 7)
      as [->|[->|[->|[->|[->| ->]]]]] by lia; done.
Qed.

Lemma kfs_rep : fs_rep kmach kfs kimage.
Proof.
  apply (fs_rep_ext kphys); [|exact kfs_rep_flat].
  intros a Ha. cbn [kfs fs_base fs_end] in Ha. apply kmach_kernel. lia.
Qed.

Lemma demo_kernel_ok : kernel_ok (λ _, None) kimage demo_kernel 0.
Proof.
  refine {| ko_files := kfiles; ko_kbd := kcon_inv; ko_fs := kfs_rep |}.
  - split; [lia|reflexivity].
  - cbn. lia.
  - cbn. lia.
  - reflexivity.
  - vm_compute. split; [discriminate|reflexivity].
Qed.

Lemma kimage_types i : 0 ≤ i < num_entries kimage → 0 ≤ d_type (im_dents kimage).[i] ≤ 2.
Proof.
  intros Hi. change (num_entries kimage) with 4 in Hi.
  assert (i = 0 ∨ i = 1 ∨ i = 2 ∨ i = 3) as [->|[->|[->| ->]]] by lia; vm_compute; split; discriminate.
Qed.

(** "a.txt" at 0x8000100. *)
Lemma str_a_txt : str_at kphys 0x800100 5.
Proof.
  split; [lia|]. split; [|by vm_compute].
  intros i Hi. assert (i = 0 ∨ i = 1 ∨ i = 2 ∨ i = 3 ∨ i = 4)
    as [->|[->|[->|[->| ->]]]] by lia; by vm_compute.
Qed.

Lemma a_txt_str : cstring demo_kernel 0x8000100 5.
Proof. exact (proj1 (kstr 0x100 5 ltac:(lia) ltac:(lia) ltac:(lia) str_a_txt)). Qed.

Lemma a_txt_lookup : lookup_str kimage demo_kernel 0x8000100 5 = Some 3.
Proof.
  unfold lookup_str. rewrite decide_True by lia.
  change (kmem demo_kernel) with kmach. change 0x8000100 with (USER_MEM_LOCATION + 0x100).
  rewrite (proj2 (kstr 0x100 5 ltac:(lia) ltac:(lia) ltac:(lia) str_a_txt)). by vm_compute.
Qed.
