(* ===== verification/SyscallProps.v ===== *)
(** * Properties of the system calls: descriptors, arguments, video page

    The PCB a process finds from its stack pointer; what [read] and [write] do
    with a bad descriptor or pointer; [getargs] and [vidmap]; the range check
    of the system-call gate; and the witnesses of the properties of
    [KernelProps]. *)

From S2P Require Import Prelude Memory Lib Ports Types Filesystem FsProofs FsProps I8259 RTC.
From S2P Require Import Paging PagingProps Console ConsoleProofs ConsoleProps Keyboard KeyboardProofs.
From S2P Require Import LineProofs KeyboardProps TerminalProps Kernel KernelProps KernelDemo.
#[local] Open Scope Z_scope.

(** (the current PCB). Whenever the stack pointer is inside the 8 KB kernel
    stack of process [pid], [cur_pcb] yields the address of that process' PCB:
    the mask picks the bottom of the stack, for each of the six processes. *)
Theorem cur_pcb_slot pid esp :
  0 ≤ pid < 6 → pcb_addr pid ≤ esp < pcb_addr pid + KB8 → cur_pcb esp = pcb_addr pid.
Proof.
  unfold cur_pcb, pcb_addr, KERNEL_TOP, KB8, PCB_MASK. intros Hp He.
  assert (∀ x, 0 ≤ x < 4294967296 → Z.land x 0xFFFFE000 = x - x mod 8192) as Hland.
  { intros x Hx. change 0xFFFFE000 with (Z.ldiff (Z.ones 32) (Z.ones 13)).
    apply Z.bits_inj'. intros j Hj. rewrite Z.land_spec, Z.ldiff_spec.
    replace (x - x mod 8192) with (Z.shiftl (Z.shiftr x 13) 13).
    2: { rewrite Z.shiftl_mul_pow2, Z.shiftr_div_pow2 by lia. change (2 ^ 13) with 8192. mlia. }
    destruct (decide (j < 13)).
    - rewrite Z.shiftl_spec_low, (Z.ones_spec_low 13 j), andb_false_r by lia. by rewrite andb_false_r.
    - rewrite Z.shiftl_spec, Z.shiftr_spec by lia. replace (j - 13 + 13) with j by lia.
      rewrite (Z.ones_spec_high 13 j) by lia. destruct (decide (j < 32)).
      + rewrite Z.ones_spec_low by lia. by rewrite andb_true_r.
      + rewrite Z.ones_spec_high by lia. rewrite <- (Z.mod_small x (2 ^ 32)) by lia.
        by rewrite Z.mod_pow2_bits_high by lia. }
  rewrite Hland by lia. mlia.
Qed.

Lemma cur_pcb_slot_witness : cur_pcb 0x7FDFFC = pcb_addr 1.
Proof. apply (cur_pcb_slot 1); vm_compute; split; congruence. Defined.

(** The first [n] bytes of an array. *)
Definition bytes_of (l : list Z) (n : Z) : list Z := (λ j, l.[j]) <$> seqZ 0 n.

Section Calls.
Context {HL : Layout} {D : Type} `{!PortIO D}.
Implicit Types (k : kernel D) (cur fd buf nbytes : Z).

(** Printing on the terminal of the process keeps the kernel in service. *)
Lemma kernel_ok_print vids im k cur (s : console mach D) cs :
  kernel_ok vids im k cur →
  only_term kernel_view (con k) s (p_terminal_id (pcbs k).[cur]) →
  tview s (p_terminal_id (pcbs k).[cur]) = print_spec cs (tview (con k) (p_terminal_id (pcbs k).[cur])) →
  kernel_ok vids im (k <| con := s |>) cur.
Proof.
  intros Hk Ho E. pose proof (ko_term _ _ _ _ Hk) as Ht. pose proof (ko_kbd _ _ _ _ Hk) as Hinv.
  pose proof (write_inv cur vids (con k) s _ cs Hinv Ht Ho E) as Hinv'.
  pose proof (ko_lo _ _ _ _ Hk) as Hlo. pose proof (ko_hi _ _ _ _ Hk) as Hhi.
  assert (fs_rep (vmem s) (fs k) im) as Hf.
  { apply (fs_rep_ext (kmem k)); [|apply Hk]. intros a Ha.
    apply (ot_page _ _ _ _ Ho); [right; left; unfold region; lia|].
    rewrite (ki_page _ _ _ Hinv) by done. unfold region, tpage, VIDEO. lia. }
  destruct Hk as [H1 H2 _ _ _ _ H7 H8]. by split.
Qed.

(** ** Bad descriptors and pointers *)

(** (arguments checked). For a descriptor from 0 to 7, [read] and [write]
    never fault on a bad argument: an unused descriptor, a null pointer (write)
    or a pointer below the user's memory (the kernel's and the video page's
    addresses) makes them return -1, with nothing changed. *)
Theorem bad_argument_rejected vids im k cur fd buf nbytes before rate0 keys ticks :
  kernel_ok vids im k cur → 0 ≤ fd < 8 →
  flags (get_fd k cur fd) = 0 ∨ buf < 0x800000 →
  read k cur fd buf nbytes before keys ticks = Some (Ret k (-1) keys ticks) ∧
  write k cur fd buf nbytes rate0 keys ticks = Some (Ret k (-1) keys ticks).
Proof.
  intros Hk Hfd Hbad. unfold read, write. rewrite (fd_mapped vids im) by done.
  assert (flags (get_fd k cur fd) = 0 ∨ flags (get_fd k cur fd) ≠ 0 ∧ is_kernel_ptr buf = true)
    as [Hz|[Hnz Hp]].
  { destruct (decide (flags (get_fd k cur fd) = 0)); [by left|right]. split; [done|].
    unfold is_kernel_ptr. apply Z.ltb_lt. lia. }
  - by rewrite Hz.
  - apply Z.eqb_neq in Hnz. rewrite Hnz, Hp.
    split; bool_cases; cbn [orb]; done || lia.
Qed.

(** Between the kernel's page and the user's page nothing is mapped. *)
Lemma gap_unmapped m cur user vid a :
  space_ok m cur user vid → 0x800000 ≤ a < USER_MEM_LOCATION → translate m a = None.
Proof.
  intros Hs Ha. unfold USER_MEM_LOCATION in Ha.
  rewrite (space_translate _ cur user vid), u32_small by (done || lia).
  unfold addr_space. change (USER_VIDEO / 4096) with 33792.
  assert (2 ≤ a / 4194304 < 32 ∧ 2048 ≤ a / 4096 < 32768) as [H1 H2] by mlia.
  by cases_lia.
Qed.

(** (a large descriptor faults the kernel). [read] and [write] look at
    [pcb->fd[fd].flags] before they check [fd], so with a descriptor whose
    entry would lie above the kernel's memory, where nothing is mapped, they do
    not return -1: the kernel takes a page fault. *)
Theorem wild_fd_faults vids im k cur fd buf nbytes before rate0 keys ticks :
  kernel_ok vids im k cur → 0x800000 ≤ pcb_addr cur + 292 + 20 * fd < USER_MEM_LOCATION →
  read k cur fd buf nbytes before keys ticks = Some Fault ∧
  write k cur fd buf nbytes rate0 keys ticks = Some Fault.
Proof.
  intros Hk Hfd.
  assert (fd_unused k cur fd = None) as E.
  { unfold fd_unused. rewrite bool_decide_false; [done|].
    assert (flags_addr cur fd = pcb_addr cur + 292 + 20 * fd) as Ea.
    { unfold flags_addr. unfold USER_MEM_LOCATION in Hfd. rewrite u32_small; lia. }
    cbn [cell PagedMem].
    rewrite (gap_unmapped _ (cur_terminal (con k)) (Some cur) (vids cur)); [by intros [? [=]]|..].
    - exact (mach_space _ _ _ _ (ki_mach _ _ _ (ko_kbd _ _ _ _ Hk))).
    - by rewrite Ea. }
  unfold read, write. by rewrite E.
Qed.

(** ** Arguments *)

(** [n] is the length of the NUL-terminated [args]. *)
Record args_len (args : list Z) (n : Z) : Prop := {
  al_range : 0 ≤ n;
  al_nz : ∀ j, 0 ≤ j < n → args.[j] ≠ 0;
  al_end : args.[n] = 0;
  al_bytes : ∀ j, 0 ≤ args.[j] < 256
}.

Lemma strlen_list_spec args n : args_len args n → strlen_list args = n.
Proof.
  revert n. induction args as [|c args IH]; intros n [Hr Hnz Hend Hb]; simpl.
  - destruct (decide (n = 0)) as [->|]; [done|]. by destruct (Hnz 0); [lia|].
  - destruct (Z.eqb_spec c 0) as [->|Hc].
    + destruct (decide (n = 0)) as [->|]; [done|]. by destruct (Hnz 0); [lia|].
    + destruct (decide (n = 0)) as [->|]; [done|].
      assert (∀ j, 0 ≤ j → (c :: args).[j + 1] = args.[j]) as Hs.
      { intros j Hj. unfold aget. rewrite !(proj2 (Z.leb_le 0 _)) by lia.
        by replace (Z.to_nat (j + 1)) with (S (Z.to_nat j)) by lia. }
      rewrite (IH (n - 1)); [lia|]. split; [lia|..].
      * intros j Hj. rewrite <- Hs by lia. apply Hnz. lia.
      * rewrite <- Hs by lia. by replace (n - 1 + 1) with n by lia.
      * intros j. destruct (decide (0 ≤ j)); [rewrite <- Hs by lia; apply Hb|].
        unfold aget. rewrite (proj2 (Z.leb_gt 0 j)) by lia. unfold zero_val, Z_zero. lia.
Qed.

Lemma getargs_copy_spec P (m0 : mach) args len buf n : ∀ i m,
  args_len args len → safe m0 P →
  let cnt := Z.min (i + Z.of_nat n) (len + 1) in
  (∀ a, region buf cnt a → P a) → 0 ≤ buf → buf + cnt < 4294967296 → 0 ≤ i ≤ len →
  written P m0 m buf i (λ j, args.[j]) →
  ∃ m', getargs_copy m args buf n i = Some m' ∧ written P m0 m' buf cnt (λ j, args.[j]).
Proof.
  induction n as [|n IH]; intros i m Ha Hs cnt HP Hb0 Hb1 Hi Hw.
  { exists m. split; [done|]. by replace cnt with i by lia. }
  cbn [getargs_copy]. rewrite u32_small by lia.
  assert (safe m P) as Hs' by by apply (written_safe P m0 m buf i (λ j, args.[j])).
  rewrite bool_decide_true.
  2: { apply (Hs' (buf + i) (buf + i)); apply HP; unfold region; lia. }
  pose proof (al_bytes _ _ Ha i) as Hby.
  assert (written P m0 (wr m (buf + i) args.[i]) buf (i + 1) (λ j, args.[j])) as Hw'.
  { apply written_snoc; try done; [|lia|by apply u8_small].
    intros a Har. apply HP. unfold region in *. lia. }
  destruct (Z.eqb_spec args.[i] 0) as [E|E].
  - assert (i = len) as ->.
    { destruct (decide (i = len)); [done|]. by destruct (al_nz _ _ Ha i); [lia|]. }
    eexists. split; [done|]. by replace cnt with (len + 1) by lia.
  - assert (i ≠ len) by (intros ->; by rewrite (al_end _ _ Ha) in E).
    replace cnt with (Z.min (i + 1 + Z.of_nat n) (len + 1)) in * by lia.
    by apply IH; [..|lia|].
Qed.

Lemma getargs_spec k cur buf nbytes len P :
  args_len (p_args (pcbs k).[cur]) len → len < 128 → safe (kmem k) P →
  0 ≤ nbytes < 2147483648 →
  (∀ a, region buf (Z.min nbytes (len + 1)) a → P a) → 0 ≤ buf → buf + len + 1 < 4294967296 →
  if decide (len ≤ nbytes) then
    ∃ m', getargs k cur buf nbytes = Some (with_mem k m', 0) ∧
          written P (kmem k) m' buf (Z.min nbytes (len + 1)) (λ j, (p_args (pcbs k).[cur]).[j])
  else getargs k cur buf nbytes = Some (k, -1).
Proof.
  intros Ha Hl Hs Hn HP Hb0 Hb1. unfold getargs. cbv zeta.
  rewrite (strlen_list_spec _ _ Ha), u32_small, !Z.gtb_ltb by lia.
  case_decide; [rewrite (proj2 (Z.ltb_ge _ _)) by lia|by rewrite (proj2 (Z.ltb_lt _ _)) by lia].
  set (nb := if LINE_BUF_SIZE <? nbytes then LINE_BUF_SIZE else nbytes).
  assert (Z.min (0 + Z.of_nat (Z.to_nat nb)) (len + 1) = Z.min nbytes (len + 1)) as E.
  { unfold nb, LINE_BUF_SIZE. destruct (Z.ltb_spec 128 nbytes); lia. }
  pose proof (al_range _ _ Ha).
  destruct (getargs_copy_spec P (kmem k) _ len buf (Z.to_nat nb) 0 (kmem k) Ha Hs)
    as (m' & E' & W); rewrite ?E; [done|lia|lia|lia|by apply written_0|].
  rewrite E', bind_some. exists m'. split; [done|]. by rewrite E in W.
Qed.

(** (getargs). With a user buffer of [nbytes] bytes and arguments of [len]
    bytes: if [len > nbytes] the call returns -1 and changes nothing; otherwise
    it returns 0, the buffer holds the arguments and, if there is room, the
    final NUL, and every other byte of memory is unchanged. *)
Theorem getargs_copies vids im k cur buf nbytes len :
  kernel_ok vids im k cur → args_len (p_args (pcbs k).[cur]) len → len < 128 →
  0 ≤ nbytes < 2147483648 → user_buf buf nbytes →
  if decide (len ≤ nbytes) then
    ∃ m', getargs k cur buf nbytes = Some (with_mem k m', 0) ∧
      written kernel_view (kmem k) m' buf (Z.min nbytes (len + 1))
        (λ j, (p_args (pcbs k).[cur]).[j]) ∧
      kernel_ok vids im (with_mem k m') cur
  else getargs k cur buf nbytes = Some (k, -1).
Proof.
  intros Hk Ha Hl Hn [Hu1 Hu2]. pose proof (al_range _ _ Ha). unfold USER_MEM_LOCATION in *.
  pose proof (getargs_spec k cur buf nbytes len kernel_view Ha Hl (ko_safe _ _ _ _ Hk) Hn) as H0.
  case_decide; [|apply H0].
  - destruct H0 as (m' & E & W); [|lia|lia|].
    { intros a Har. right; right. unfold region, USER_MEM_LOCATION in *. lia. }
    exists m'. split; [done|]. split; [done|].
    apply kernel_ok_mem; [done|apply W|]. intros a Hfs. pose proof (ko_hi _ _ _ _ Hk).
    apply (written_out _ _ _ _ _ _ _ W); [by apply (fs_view _ _ _ _ _ Hk)|lia].
  - intros a Har. right; right. unfold region, USER_MEM_LOCATION in *. lia.
  - lia.
  - lia.
Qed.

(** (getargs writes where it is told). [getargs] does not check its pointer:
    given an address inside the kernel's own 4 MB page it returns 0 and has
    overwritten the kernel's memory there with the arguments. *)
Theorem getargs_overwrites_kernel vids im k cur buf len :
  kernel_ok vids im k cur → args_len (p_args (pcbs k).[cur]) len → len < 128 →
  0x400000 ≤ buf → buf + 128 ≤ 0x800000 →
  is_kernel_ptr buf = true ∧
  ∃ m', getargs k cur buf 128 = Some (with_mem k m', 0) ∧
    bytes m' buf (len + 1) = bytes_of (p_args (pcbs k).[cur]) (len + 1).
Proof.
  intros Hk Ha Hl Hb1 Hb2. pose proof (al_range _ _ Ha).
  split; [unfold is_kernel_ptr; apply Z.ltb_lt; lia|].
  pose proof (getargs_spec k cur buf 128 len kernel_view Ha Hl (ko_safe _ _ _ _ Hk)) as H0.
  rewrite decide_True in H0 by lia. rewrite Z.min_r in H0 by lia.
  destruct H0 as (m' & E & W); [lia| |lia|lia|].
  { intros a Har. right; left. unfold region in *. lia. }
  exists m'. split; [done|]. unfold bytes_of.
  apply (bytes_written kernel_view (kmem k)); [|done].
  intros a Har. right; left. unfold region in *. lia.
Qed.

(** ** The video page *)

Lemma rd_kernel m cur pid vids a :
  mach_ok m cur pid vids → 0x400000 ≤ a < 0x800000 → rd m a = pbyte m a.
Proof.
  intros Hm Ha. simpl. unfold mach_rd.
  by rewrite (kernel_identity m (Some pid) (vids pid) cur) by (done || by apply mach_space).
Qed.

Lemma kbd_inv_mach pid pid' vids vids' (s : console mach D) m :
  kbd_inv pid vids s → mach_ok m (cur_terminal s) pid' vids' →
  kbd_inv pid' vids' (s <| vmem := m |>).
Proof.
  intros [[H1 H2 H3 H4] H5 H6] Hm. split; [split|..]; try done.
  intros t Ht. change (page_of (s <| vmem := m |>) t) with (page_of s t).
  rewrite H6 by done. exact (tpage_ok _ _ _ _ t Hm Ht).
Qed.

(** The machine that [vidmap] leaves: the word stored, the new page tables loaded. *)
Definition vidmap_mach (m : mach) (cur t screen_start : Z) : mach :=
  let m1 := store32 m screen_start USER_VIDEO in
  loadPageDirectory (m1 <| tabs := vidmap_paging (tabs m1) cur t |>) (pd_addr cur).

Lemma vidmap_buf screen_start : user_buf screen_start 4 → ∀ b, region screen_start 4 b → kernel_view b.
Proof. intros [Hu1 Hu2] b Hb. right; right. unfold region, USER_MEM_LOCATION in *. lia. Qed.

Section Vidmap.
Context vids im k cur screen_start (Hk : kernel_ok vids im k cur) (Hu : user_buf screen_start 4).
Let t := p_terminal_id (pcbs k).[cur].
Let m1 := store32 (kmem k) screen_start USER_VIDEO.
Let m2 := vidmap_mach (kmem k) cur t screen_start.
Let vids' := λ p, if p =? cur then Some t else vids p.

Lemma vidmap_stored : written kernel_view (kmem k) m1 screen_start 4 (λ i, u8 (Z.shiftr USER_VIDEO (8 * i))).
Proof. exact (store32_written kernel_view (kmem k) screen_start USER_VIDEO (ko_safe _ _ _ _ Hk) (vidmap_buf _ Hu)). Qed.

Lemma vidmap_mach_ok :
  mach_ok m1 (cur_terminal (con k)) cur vids ∧ mach_ok m2 (cur_terminal (con k)) cur vids'.
Proof.
  assert (mach_ok m1 (cur_terminal (con k)) cur vids) as Hm1
    by (apply (mach_ok_ctl (kmem k)); [apply vidmap_stored|exact (ki_mach _ _ _ (ko_kbd _ _ _ _ Hk))]).
  pose proof (vidmap_paging_ok _ _ _ cur t (mo_tabs _ _ _ _ Hm1) (proj1 (ko_cur _ _ _ _ Hk))
    (ko_term _ _ _ _ Hk)) as HT.
  pose proof (vidmap_paging_dir _ _ _ cur t _ _ (mo_tabs _ _ _ _ Hm1) (proj1 (ko_cur _ _ _ _ Hk))
    (ko_term _ _ _ _ Hk) (mo_dir _ _ _ _ Hm1)) as Hd.
  split; [done|]. apply load_mach_ok; [apply Hm1|apply (ko_cur _ _ _ _ Hk)|exact HT|].
  unfold vids'. rewrite Z.eqb_refl. exact Hd.
Qed.

Lemma vidmap_returns : vidmap k cur screen_start = Some (with_mem k m2, 0).
Proof.
  destruct Hu as [Hu1 Hu2]. unfold USER_MEM_LOCATION in *. unfold vidmap, is_kernel_ptr.
  rewrite (proj2 (Z.eqb_neq screen_start 0)), (proj2 (Z.ltb_ge screen_start 0x00800000)) by lia.
  cbn [orb]. rewrite (proj2 (forallb_forall _ _)).
  - unfold m2, vidmap_mach, t. by rewrite (ko_pid _ _ _ _ Hk).
  - intros x Hx. apply bool_decide_eq_true. rewrite <- list_elem_of_In, elem_of_seqZ in Hx.
    apply (ko_safe _ _ _ _ Hk (screen_start + x) (screen_start + x));
      (apply (vidmap_buf screen_start); [by split|unfold region; lia]).
Qed.

Lemma vidmap_kernel_ok : kernel_ok vids' im (with_mem k m2) cur.
Proof.
  destruct vidmap_mach_ok as [Hm1 Hm2]. pose proof Hk as [H1 H2 H3 H4 H5 H6 H7 H8].
  destruct Hu as [Hu1 Hu2]. unfold USER_MEM_LOCATION in *. split; try done.
  - by apply (kbd_inv_mach cur cur vids).
  - apply (fs_rep_ext (kmem k)); [|done]. intros b Hb.
    change (kmem (with_mem k m2)) with m2. change (fs (with_mem k m2)) with (fs k) in Hb.
    rewrite (rd_kernel m2 _ _ _ _ Hm2), <- (written_out _ _ _ _ _ _ b vidmap_stored);
      [|by apply (fs_view _ _ _ _ _ Hk)|lia|lia].
    by rewrite (rd_kernel m1 _ _ _ _ Hm1) by lia.
Qed.
End Vidmap.

(** C31 (vidmap). For a pointer to four bytes of user memory, [vidmap] returns 0,
    stores the address of the user video page there, and from then on user
    accesses to that page go to the page of the caller's terminal, wherever it
    currently is (the screen or its own page); the kernel's invariants hold
    again.  A null pointer or one into the kernel's memory, below 8 MB, gives -1
    and no change; a pointer above that whose first byte is not mapped faults. *)
Theorem vidmap_maps_terminal vids im k cur screen_start a :
  kernel_ok vids im k cur → 0 ≤ a < 4096 →
  let t := p_terminal_id (pcbs k).[cur] in
  (user_buf screen_start 4 →
   ∃ k', vidmap k cur screen_start = Some (k', 0) ∧
     load32 (kmem k') screen_start = USER_VIDEO ∧
     user_translate (kmem k') (USER_VIDEO + a) = Some (term_page (cur_terminal (con k)) t + a) ∧
     kernel_ok (λ p, if p =? cur then Some t else vids p) im k' cur) ∧
  (screen_start < 0x800000 → vidmap k cur screen_start = Some (k, -1)) ∧
  (0x800000 ≤ screen_start → mapped (kmem k) screen_start = false → vidmap k cur screen_start = None).
Proof.
  intros Hk Ha t. split; [|split].
  2: { intros Hp. unfold vidmap, is_kernel_ptr.
       rewrite (proj2 (Z.ltb_lt screen_start 0x00800000)) by lia. by rewrite orb_true_r. }
  2: { intros Hp Hm. unfold vidmap, is_kernel_ptr.
       rewrite (proj2 (Z.ltb_ge screen_start 0x00800000)), (proj2 (Z.eqb_neq screen_start 0)) by lia. cbn [orb].
       change (seqZ 0 4) with ([0; 1; 2; 3]). cbn [forallb]. rewrite Z.add_0_r.
       fold (mapped (kmem k) screen_start). by rewrite Hm. }
  intros Hu. destruct (vidmap_mach_ok vids im k cur screen_start Hk Hu) as [Hm1 Hm2]. fold t in Hm2.
  set (m2 := vidmap_mach (kmem k) cur t screen_start) in *. exists (with_mem k m2).
  split; [exact (vidmap_returns vids im k cur screen_start Hk Hu)|]. split; [|split].
  - change (kmem (with_mem k m2)) with m2. rewrite (load32_eq (store32 (kmem k) screen_start USER_VIDEO) m2).
    + apply (load32_store32 kernel_view); [exact (ko_safe _ _ _ _ Hk)|exact (vidmap_buf _ Hu)|done].
    + intros b Hb. assert (all_pages b) as Hv by (right; exact (vidmap_buf _ Hu b Hb)).
      rewrite (rd_pbyte m2 _ _ _ _ Hm2 Hv), (rd_pbyte _ _ _ _ _ Hm1 Hv). done.
  - change (kmem (with_mem k m2)) with m2.
    rewrite (process_user_translate m2 cur (Some t) (cur_terminal (con k))).
    + unfold process_space, USER_MEM_LOCATION. rewrite decide_False by (unfold USER_VIDEO; lia).
      rewrite decide_True by lia. simpl. f_equal. lia.
    + pose proof (mach_space _ _ _ _ Hm2) as Hsp. cbn beta in Hsp. by rewrite Z.eqb_refl in Hsp.
    + unfold USER_VIDEO. lia.
  - exact (vidmap_kernel_ok vids im k cur screen_start Hk Hu).
Qed.
End Calls.

(** ** Witnesses *)

#[local] Opaque demo_mach kphys.

(** Terminal 1 gets the five bytes "a.txt" from the memory of process 0. *)
Lemma terminal_write_prints_witness :
  ∃ s', terminal_write kcon 1 0x8000100 5 = Some (s', 5) ∧
    tview s' 1 = print_spec nm_a_txt (tview kcon 1) ∧
    (∀ u, 0 ≤ u < 3 → u ≠ 1 → tview s' u = tview kcon u) ∧
    view (vmem s') VIDEO = view (vmem s') (page_of s' 0) ∧ kbd_inv 0 (λ _, None) s'.
Proof.
  destruct a_txt_str as [(_ & Hnz & Hz) _]. change (kmem demo_kernel) with kmach in Hnz, Hz.
  assert (bytes kmach 0x8000100 5 = nm_a_txt) as Eb.
  { change 0x8000100 with (USER_MEM_LOCATION + 0x100).
    rewrite (proj2 (kstr 0x100 5 ltac:(lia) ltac:(lia) ltac:(lia) str_a_txt)). by vm_compute. }
  destruct (terminal_write_prints 0 (λ _, None) kcon 1 0x8000100 5 5 kcon_inv) as (s' & E & Hv & H);
    [lia| |lia|unfold USER_MEM_LOCATION; lia|unfold USER_MEM_LOCATION; lia|].
  - split; [lia|exact Hnz|by left].
  - change (vmem kcon) with kmach in Hv. rewrite Eb in Hv. exists s'. split; [exact E|]. split; [exact Hv|exact H].
Defined.

Lemma open_lowest_fd_witness :
  ∃ k' ret, open demo_kernel 0 0x8000100 0x7FF000 = Some (Some (k', ret)) ∧
    kernel_ok (λ _, None) kimage k' 0 ∧
    match lookup_str kimage demo_kernel 0x8000100 5 with
    | Some i =>
        (ret = -1 ∧ (∀ j, 2 ≤ j < 8 → flags (get_fd demo_kernel 0 j) ≠ 0) ∧
         pcbs k' = pcbs demo_kernel) ∨
        (2 ≤ ret < 8 ∧ get_fd demo_kernel 0 ret = zero_file ∧
         (∀ j, 2 ≤ j < ret → flags (get_fd demo_kernel 0 j) ≠ 0) ∧
         pcbs k' = pcbs (set_fd demo_kernel 0 ret (opened (im_dents kimage).[i] ret)))
    | None => ret = -1 ∧ pcbs k' = pcbs demo_kernel
    end.
Proof.
  exact (open_lowest_fd (λ _, None) kimage demo_kernel 0 0x8000100 5 0x7FF000 demo_kernel_ok
    a_txt_str ltac:(lia) ltac:(lia) kimage_types).
Defined.

(** The same call as an equation, for the properties that start from it. *)
Lemma demo_opens : ∃ k', open demo_kernel 0 0x8000100 0x7FF000 = Some (Some (k', 2)).
Proof.
  pose proof (open_spec (λ _, None) kimage demo_kernel 0 0x8000100 5 0x7FF000 demo_kernel_ok
    a_txt_str ltac:(lia) ltac:(lia) kimage_types) as H.
  rewrite a_txt_lookup in H. change (free_fd (fds_of demo_kernel 0) 6 2) with (Some 2) in H.
  destruct H as (k1 & E & _). eexists. exact E.
Qed.


Lemma open_close_roundtrip_witness :
  ∃ k' k2, open demo_kernel 0 0x8000100 0x7FF000 = Some (Some (k', 2)) ∧
    close k' 0 2 = Some (k2, 0) ∧ pcbs k2 = pcbs demo_kernel ∧ close k2 0 2 = Some (k2, -1).
Proof.
  destruct demo_opens as [k' E]. exists k'.
  destruct (open_close_roundtrip (λ _, None) kimage demo_kernel 0 0x8000100 5 0x7FF000 k' 2
    demo_kernel_ok a_txt_str ltac:(lia) ltac:(lia) kimage_types E ltac:(lia)) as (k2 & H).
  exists k2. split; [exact E|exact H].
Defined.

Lemma open_read_file_witness :
  ∃ k' k2, open demo_kernel 0 0x8000100 0x7FF000 = Some (Some (k', 2)) ∧
    reads k' 0 2 0x8000400 [2; 5] = Some (k2, [104; 105; 10]).
Proof.
  destruct demo_opens as [k' E]. exists k'.
  destruct (open_read_file (λ _, None) kimage demo_kernel 0 0x8000100 5 0x7FF000 k' 2 0x8000400
    [2; 5] 3 demo_kernel_ok a_txt_str ltac:(lia) ltac:(lia) kimage_types a_txt_lookup eq_refl
    ltac:(vm_compute; split; [discriminate|reflexivity]) E ltac:(lia)
    ltac:(repeat constructor; unfold USER_MEM_LOCATION; lia)) as (k2 & H).
  exists k2. split; [exact E|exact H].
Defined.

Lemma bad_argument_rejected_witness :
  read demo_kernel 0 0 0x400000 10 (λ _, 0) [] [] = Some (Ret demo_kernel (-1) [] []) ∧
  write demo_kernel 0 0 0x400000 10 0 [] [] = Some (Ret demo_kernel (-1) [] []).
Proof.
  exact (bad_argument_rejected (λ _, None) kimage demo_kernel 0 0 0x400000 10 (λ _, 0) 0 [] []
    demo_kernel_ok ltac:(lia) (or_intror eq_refl)).
Defined.

Lemma wild_fd_faults_witness :
  read demo_kernel 0 1000 0x8000000 10 (λ _, 0) [] [] = Some Fault ∧
  write demo_kernel 0 1000 0x8000000 10 0 [] [] = Some Fault.
Proof.
  exact (wild_fd_faults (λ _, None) kimage demo_kernel 0 1000 0x8000000 10 (λ _, 0) 0 [] []
    demo_kernel_ok ltac:(vm_compute; split; [discriminate|reflexivity])).
Defined.

(** The arguments of process 0 are "x y". *)
Lemma demo_args : args_len (p_args (pcbs demo_kernel).[0]) 3.
Proof.
  change (p_args (pcbs demo_kernel).[0]) with ([120; 32; 121] ++ replicate 125 0).
  split; [lia| |done|].
  - intros j Hj. assert (j = 0 ∨ j = 1 ∨ j = 2) as [->|[->| ->]] by lia; discriminate.
  - intros j. apply bytes_aget. repeat constructor; lia.
Qed.

Lemma getargs_copies_witness :
  ∃ m', getargs demo_kernel 0 0x8000000 10 = Some (with_mem demo_kernel m', 0) ∧
    written kernel_view (kmem demo_kernel) m' 0x8000000 4
      (λ j, (p_args (pcbs demo_kernel).[0]).[j]) ∧
    kernel_ok (λ _, None) kimage (with_mem demo_kernel m') 0.
Proof.
  exact (getargs_copies (λ _, None) kimage demo_kernel 0 0x8000000 10 3 demo_kernel_ok demo_args
    ltac:(lia) ltac:(lia) ltac:(unfold user_buf, USER_MEM_LOCATION; lia)).
Defined.

Lemma getargs_overwrites_kernel_witness :
  is_kernel_ptr 0x400000 = true ∧
  ∃ m', getargs demo_kernel 0 0x400000 128 = Some (with_mem demo_kernel m', 0) ∧
    bytes m' 0x400000 4 = [120; 32; 121; 0].
Proof.
  exact (getargs_overwrites_kernel (λ _, None) kimage demo_kernel 0 0x400000 3 demo_kernel_ok
    demo_args ltac:(lia) ltac:(lia) ltac:(lia)).
Defined.

(** A pointer of process 0, one into the kernel's page, and one to nowhere. *)
Lemma vidmap_maps_terminal_witness :
  (∃ k', vidmap demo_kernel 0 0x8000000 = Some (k', 0) ∧
     load32 (kmem k') 0x8000000 = USER_VIDEO ∧
     user_translate (kmem k') (USER_VIDEO + 5) = Some (VIDEO + 5) ∧
     kernel_ok (λ p, if p =? 0 then Some 0 else None) kimage k' 0) ∧
  vidmap demo_kernel 0 0x500000 = Some (demo_kernel, -1) ∧
  vidmap demo_kernel 0 0x900000 = None.
Proof.
  pose proof (λ a, vidmap_maps_terminal (λ _, None) kimage demo_kernel 0 a 5 demo_kernel_ok ltac:(lia)) as H.
  split; [|split].
  - apply (proj1 (H 0x8000000)). unfold user_buf, USER_MEM_LOCATION. lia.
  - apply (proj1 (proj2 (H 0x500000))). lia.
  - apply (proj2 (proj2 (H 0x900000))); [lia|]. unfold mapped. change (kmem demo_kernel) with kmach.
    apply bool_decide_eq_false. cbn [cell PagedMem].
    rewrite (space_translate _ _ _ _ 0x900000 (mach_space _ _ _ _ kmach_ok)). intros [x Hx]. vm_compute in Hx. discriminate.
Defined.
