(* ===== verification/Process.v ===== *)
(** * Processes (student-distrib/syscall.c: execute and halt)

    [execute] allocates a process id, parses the command, loads the program
    into a new address space and enters user mode; [halt] takes the process
    away and continues its parent inside the parent's [execute].

    The name and the arguments are written byte by byte into the new PCB, in
    memory, as the code does (the index arithmetic there leaves the arrays);
    the record of the PCB gets them once they are complete.  Arguments that
    stand for the machine's state at the call: [esp] and [ebp], the addresses
    [dp] and [hp] of the locals [dentry_t d] and [uint8_t head[40]], and the
    address [shell] of the constant string.

    The command is the caller's pointer: reading it may fault, in the parser or,
    for a command that is found, in the copy of its first 127 bytes to the
    history, which does not stop at the end of the string.  [execute] is [None]
    then.  (The process id it has taken stays in use in that case.) *)

From S2P Require Import Prelude Memory Lib Ports Types Filesystem I8259 RTC Paging Console Keyboard.
From S2P Require Import Kernel.
Import (notations) Stdlib.Strings.String.
#[local] Open Scope Z_scope.

Definition ELF_MAGIC_0 : Z := 0x7f.
Definition KERNEL_DS : Z := 0x18.
Definition sizeof_PCB : Z := 444.
Definition ARGS_OFFSET : Z := 128.

(** ** The process id *)

(** The first unused id of the [n] from [i] on. *)
Fixpoint free_pid (used : list bool) (n : nat) (i : Z) : option Z :=
  match n with
  | O => None
  | S n => if used.[i] then free_pid used n (i + 1) else Some i
  end.

(** ** Parsing the command *)

Section Parse.
Context {M : Type} `{!ByteMem M}.
Implicit Types (m : M) (pcb command i : Z).

(** [for(i=0; i<=MAX_BUF_INDEX && command[i] != ' ' && command[i] != 0; i++)
      pcb->name[i] = command[i];] *)
Definition name_step pcb command (st : M * Z) : (M * Z) + (M * Z) :=
  let '(m, i) := st in
  let c := rd m (u32 (command + i)) in
  if (i <=? MAX_BUF_INDEX) && negb (c =? 32) && negb (c =? 0)
  then inl (wr m (u32 (pcb + i)) c, i + 1) else inr (m, i).

(** [while(command[i] == ' ') i++;] *)
Definition spaces_step m command (i : Z) : Z + Z :=
  if rd m (u32 (command + i)) =? 32 then inl (s32 (i + 1)) else inr i.

(** [for(; i<=MAX_BUF_INDEX && command[i] != 0; i++)
      pcb->args[i-offset] = command[i];] *)
Definition args_step pcb command (offset : Z) (st : M * Z) : (M * Z) + (M * Z) :=
  let '(m, i) := st in
  let c := rd m (u32 (command + i)) in
  if (i <=? MAX_BUF_INDEX) && negb (c =? 0)
  then inl (wr m (u32 (pcb + ARGS_OFFSET + (i - offset))) c, i + 1) else inr (m, i).

(** [while(pcb->args[i-offset] == ' ') pcb->args[(i--)-offset] = 0;] *)
Definition trim_step pcb (offset : Z) (st : M * Z) : (M * Z) + M :=
  let '(m, i) := st in
  let a := u32 (pcb + ARGS_OFFSET + (i - offset)) in
  if rd m a =? 32 then inl (wr m a 0, s32 (i - 1)) else inr m.

Definition parse_command m pcb command : option M :=
  '(m, i) ← while (name_step pcb command) (m, 0);
  let m := wr m (u32 (pcb + i)) 0 in
  i ← while (spaces_step m command) i;
  let offset := i in
  '(m, i) ← while (args_step pcb command offset) (m, i);
  let i := s32 (i - 1) in
  while (trim_step pcb offset) (m, i).

(** Whether all bytes of the command that these loops read are mapped.  An address
    that is not mapped reads as 0, where each of them stops; so it is enough to
    look at the bytes where the last two stop. *)
Definition command_mapped m command : option bool :=
  let c i := rd m (u32 (command + i)) in
  i ← while (λ i, if (i <=? MAX_BUF_INDEX) && negb (c i =? 32) && negb (c i =? 0)
                  then inl (i + 1) else inr i) 0;
  i ← while (spaces_step m command) i;
  j ← while (λ i, if (i <=? MAX_BUF_INDEX) && negb (c i =? 0) then inl (i + 1) else inr i) i;
  Some (mapped m (command + i) && ((j >? MAX_BUF_INDEX) || mapped m (command + j))).
End Parse.

(** ** Command history *)

Section Execute.
Context {HL : Layout} {D : Type} `{!PortIO D}.
Implicit Types (k : kernel D) (cur pid : Z).

(** Move the commands of the terminal up by one place. *)
Definition shift_history (h : list (list Z)) : list (list Z) :=
  for_loop 4 0 (λ n h,
    let i := 4 - n in
    for_loop 128 0 (λ j h, aset2 h i j h.[i - 1].[j]) h) h.

(** Copy the command to the first place, 127 bytes of it. *)
Definition store_command (m : mach) (command : Z) (h : list (list Z)) : list (list Z) :=
  for_loop 127 0 (λ i h, aset2 h 0 i (rd m (u32 (command + i)))) h.

Definition save_history k (terminal_id command : Z) : kernel D :=
  k <| con := with_term (con k) terminal_id (λ T,
    T <| cmd_hist := store_command (kmem k) command (shift_history (cmd_hist T)) |>) |>.

(** ** execute *)

(** How [execute] ends: it returns a value to its caller, or the processor is
    in user mode at [eip] with stack pointer [u_esp], in process [pid]. *)
Inductive exec_result :=
| ExRet (k : kernel D) (val : Z)
| ExUser (k : kernel D) (pid eip u_esp : Z).

(** A format without conversions is printed character by character
    ([Printf.printf_plain]). *)
Definition max_processes_msg : list Z :=
  text "Max processes used." ++ [10].

Definition print_msg k (terminal_id : Z) (msg : list Z) : kernel D :=
  k <| con := foldl (λ s c, putc s terminal_id c) (con k) msg |>.

(** The entry point: bytes 24 to 27 of the header, little endian. *)
Definition elf_entry (m : mach) (hp : Z) : Z :=
  u32 (Z.lor (Z.lor (Z.lor (Z.shiftl (rd m (hp + 27)) 24) (Z.shiftl (rd m (hp + 26)) 16))
                    (Z.shiftl (rd m (hp + 25)) 8)) (rd m (hp + 24))).

Definition is_elf (m : mach) (hp : Z) : bool :=
  (rd m hp =? ELF_MAGIC_0) && (rd m (hp + 1) =? 69) && (rd m (hp + 2) =? 76)
  && (rd m (hp + 3) =? 70).

(** [proc_id_used[pid] = b], [active[pid] = b] *)
Definition mark_used k pid (b : bool) : kernel D :=
  k <| proc_id_used := (proc_id_used k).[pid <- b] |>.
Definition mark_active k pid (b : bool) : kernel D :=
  k <| active := (active k).[pid <- b] |>.

(** The part behind the ELF check: the new process becomes the running one. *)
Definition enter_process k pid parent (terminal_id esp ebp eip inode : Z)
    : option exec_result :=
  let m := kmem k in
  let m := m <| tabs := execute_paging (tabs m) pid |> in
  let m := loadPageDirectory m (pd_addr pid) in
  '(m, _) ← read_data m (fs k) inode 0 USER_PROG_LOCATION MB4;
  let k := with_mem k m in
  let k := with_pcb k pid (λ p, p <| p_parent := parent |>) in
  let k := with_pcb k pid (λ p, p <| p_terminal_id := terminal_id |>) in
  let k := with_pcb k parent (λ p, p <| p_esp0 := tss_esp0 k |>) in
  let k := mark_active k (p_pid (pcbs k).[parent]) false in
  let k := mark_active k pid true in
  let k := with_pcb k parent (λ p,
    p <| p_esp := esp |> <| p_ebp := ebp |> <| p_ss0 := KERNEL_DS |>) in
  let u_esp := USER_MEM_LOCATION + MB4 - 4 in
  let k := with_pcb k pid (λ p,
    let f0 := (p_fd p).[0] in
    p <| p_fd := (p_fd p).[0 <- f0 <| f_op := stdin_ops |> <| flags := 1 |>] |>) in
  let k := with_pcb k pid (λ p,
    let f1 := (p_fd p).[1] in
    p <| p_fd := (p_fd p).[1 <- f1 <| f_op := stdout_ops |> <| flags := 1 |>] |>) in
  let k := k <| tss_esp0 := KERNEL_TOP - KB8 * pid - 4 |> <| tss_ss0 := KERNEL_DS |> in
  Some (ExUser k pid eip u_esp).

(** [memset(pcb,0,sizeof(PCB_t)); pcb->pid = pid; if (pid == 0) pcb->parent = pcb;]
    on the record. *)
Definition prepare_pcb k pid : kernel D :=
  let k := with_pcb k pid (λ _, zero_PCB) in
  let k := with_pcb k pid (λ p, p <| p_pid := pid |>) in
  if pid =? 0 then with_pcb k pid (λ p, p <| p_parent := pid |>) else k.

(** The parsed name and arguments enter the record. *)
Definition name_pcb k pid (m : mach) : kernel D :=
  let pcb := pcb_addr pid in
  with_pcb k pid (λ p,
    p <| p_name := bytes m pcb 128 |> <| p_args := bytes m (pcb + ARGS_OFFSET) 128 |>).

(** From the directory lookup on; [m] is the memory with the parsed PCB.  The copy
    to the history reads [command[0]] to [command[126]]. *)
Definition load_program k pid parent (terminal_id esp ebp command dp hp : Z) (m : mach)
    : option exec_result :=
  '(m, r) ← read_dentry_by_name m (fs k) (pcb_addr pid) dp;
  let k := with_mem k m in
  if r =? -1 then Some (ExRet (mark_used k pid false) (-1))
  else
    let inode := dentry_inode (kmem k) dp in
    if negb (all_mapped (kmem k) command 127) then None else
    let k := save_history k terminal_id command in
    '(m, _) ← read_data (kmem k) (fs k) inode 0 hp 40;
    let k := with_mem k m in
    if negb (is_elf m hp) then Some (ExRet (mark_used k pid false) (-1))
    else enter_process k pid parent terminal_id esp ebp (elf_entry m hp) inode.

Definition execute k cur (esp ebp command dp hp : Z) : option exec_result :=
  if command =? 0 then Some (ExRet k (-1))
  else
    match free_pid (proc_id_used k) (Z.to_nat MAX_USER_PROG) 0 with
    | None => Some (ExRet (print_msg k (p_terminal_id (pcbs k).[cur]) max_processes_msg) (-1))
    | Some pid =>
        let k := mark_used k pid true in
        let parent := cur in
        let terminal_id := p_terminal_id (pcbs k).[parent] in
        let pcb := pcb_addr pid in
        let parent := if pid <=? 2 then pid else parent in
        let terminal_id := if pid <=? 2 then pid else terminal_id in
        ok ← command_mapped (kmem k) command;
        if negb ok then None else
        m ← memset (kmem k) pcb 0 sizeof_PCB;
        let k := prepare_pcb k pid in
        m ← parse_command m pcb command;
        let k := name_pcb k pid m in
        load_program k pid parent terminal_id esp ebp command dp hp m
    end.

(** ** halt *)

(** How [halt] ends: in the parent's [execute], which returns [status] with the
    stack and frame pointers it had saved; or, for a root shell, in a new
    shell; [HFault] is a call through a null operations table or the use of a
    null parent pointer. *)
Inductive halt_result :=
| HFault
| HResume (k : kernel D) (parent esp ebp status : Z)
| HUser (k : kernel D) (pid eip u_esp : Z).

(** [for (i=0; i<8; i++) close(i);] *)
Definition close_all k cur : option (kernel D) :=
  for_loop 8 0 (λ i ok, k ← ok; fst <$> close k cur i) (Some k).

Definition halt k cur (status esp ebp shell dp hp : Z) : option halt_result :=
  let status := u8 status in
  let pcb := (pcbs k).[cur] in
  m ← memset (kmem k) USER_MEM_LOCATION 0 MB4;
  let parent := p_parent pcb in
  if parent =? -1 then Some HFault else
  let m := loadPageDirectory m (pd_addr (p_pid (pcbs k).[parent])) in
  match close_all (with_mem k m) cur with
  | None => Some HFault
  | Some k =>
      let k := mark_used k (p_pid (pcbs k).[cur]) false in
      let k := mark_active k (p_pid (pcbs k).[cur]) false in
      let k := mark_active k (p_pid (pcbs k).[parent]) true in
      let k := k <| tss_esp0 := p_esp0 (pcbs k).[parent] |>
                 <| tss_ss0 := p_ss0 (pcbs k).[parent] |> in
      let resume k :=
        let parent := p_parent (pcbs k).[cur] in
        if parent =? -1 then HFault else
        HResume k parent (p_esp (pcbs k).[parent]) (p_ebp (pcbs k).[parent]) status in
      if p_pid (pcbs k).[cur] =? p_pid (pcbs k).[parent] then
        r ← execute k cur esp ebp shell dp hp;
        match r with
        | ExUser k pid eip u_esp => Some (HUser k pid eip u_esp)
        | ExRet k _ => Some (resume k)
        end
      else Some (resume k)
  end.

(** The exception handlers (idt.c) end the process with [halt(-1)]. *)
Definition exception_halt k cur (esp ebp shell dp hp : Z) : option halt_result :=
  halt k cur (-1) esp ebp shell dp hp.
End Execute.
