(* ===== verification/ParseProofs.v ===== *)
(** * The command parser of execute

    What the four loops of [parse_command] leave in the new PCB: the first
    word of the command, and the rest without the blanks around it. *)

From S2P Require Import Prelude Memory Lib Ports Types Filesystem FsProofs Console Keyboard Process.
#[local] Open Scope Z_scope.

(** ** The reference parser *)

(** The text up to the first blank. *)
Fixpoint first_word (s : list Z) : list Z :=
  match s with
  | [] => []
  | c :: s => if c =? 32 then [] else c :: first_word s
  end.

(** The text without the blanks at its start. *)
Fixpoint skip_blanks (s : list Z) : list Z :=
  match s with
  | [] => []
  | c :: s' => if c =? 32 then skip_blanks s' else s
  end.

(** The text without the blanks at its end. *)
Fixpoint trim_end (s : list Z) : list Z :=
  match s with
  | [] => []
  | c :: s =>
      match trim_end s with
      | [] => if c =? 32 then [] else [c]
      | s => c :: s
      end
  end.

Definition command_name (s : list Z) : list Z := first_word s.
Definition command_args (s : list Z) : list Z :=
  trim_end (skip_blanks (drop (length (first_word s)) s)).

Lemma trim_end_blanks s n : trim_end (s ++ replicate n 32) = trim_end s.
Proof.
  induction s as [|c s IH]; simpl.
  - induction n as [|n IH]; simpl; [done|]. by rewrite IH.
  - by rewrite IH.
Qed.

Lemma trim_end_last s c : c ≠ 32 → trim_end (s ++ [c]) = s ++ [c].
Proof.
  intros Hc. induction s as [|d s IH]; simpl.
  - by rewrite (proj2 (Z.eqb_neq c 32)).
  - rewrite IH. by destruct (s ++ [c]) eqn:E; [destruct s|].
Qed.

(** How far the loops get. *)
Lemma first_word_spec s :
  ∃ r, s = first_word s ++ r ∧ Forall (λ c, c ≠ 32) (first_word s) ∧ (r = [] ∨ ∃ r', r = 32 :: r').
Proof.
  induction s as [|c s (r & E & Hf & Hr)]; simpl; [by exists []; auto|].
  destruct (Z.eqb_spec c 32) as [->|Hc].
  - exists (32 :: s). eauto.
  - exists r. split; [by rewrite <- app_comm_cons, <- E|]. auto.
Qed.

Lemma skip_blanks_spec s :
  ∃ n, s = replicate n 32 ++ skip_blanks s ∧
       (skip_blanks s = [] ∨ ∃ c r, skip_blanks s = c :: r ∧ c ≠ 32).
Proof.
  induction s as [|c s (n & E & Hr)]; simpl; [by exists 0%nat; auto|].
  destruct (Z.eqb_spec c 32) as [->|Hc].
  - exists (S n). simpl. by rewrite <- E.
  - exists 0%nat. split; [done|]. right. by exists c, s.
Qed.

Lemma trim_end_spec s :
  ∃ n, s = trim_end s ++ replicate n 32 ∧
       (trim_end s = [] ∨ ∃ r c, trim_end s = r ++ [c] ∧ c ≠ 32).
Proof.
  induction s as [|x s IH] using rev_ind.
  - exists 0%nat. auto.
  - destruct (decide (x = 32)) as [->|Hx].
    + change [32] with (replicate 1 32). rewrite (trim_end_blanks s 1). destruct IH as (n & E & Hr).
      exists (S n). split; [|done]. rewrite E at 1. rewrite <- app_assoc. f_equal.
      replace (S n) with (n + 1)%nat by lia. by rewrite replicate_add.
    + rewrite trim_end_last by done. exists 0%nat. rewrite app_nil_r.
      split; [done|]. right. by exists s, x.
Qed.

(** ** The loops *)

Lemma aget_replicate n (x : Z) i : 0 ≤ i < Z.of_nat n → (replicate n x).[i] = x.
Proof.
  intros Hi. apply aget_lookup; [lia|]. apply lookup_replicate_2. lia.
Qed.

Section Parser.
Context {M : Type} `{!ByteMem M}.
Context (P : Z → Prop) (m : M) (pcb command : Z) (s : list Z).
Let n : Z := Z.of_nat (length s).
Context (Hs : safe m P) (Hn : n ≤ 127).
Context (HPc : ∀ a, region command (n + 1) a → P a).
Context (HPp : ∀ a, region pcb 256 a → P a).
Context (Hdis : command + n + 1 ≤ pcb ∨ pcb + 256 ≤ command).
Context (Hc0 : 0 ≤ command) (Hc1 : command + 256 < 4294967296).
Context (Hp0 : 0 ≤ pcb) (Hp1 : pcb + 256 < 4294967296).
Context (Hcmd : ∀ i, 0 ≤ i ≤ n → rd m (command + i) = s.[i]).
Context (Hnz : ∀ i, 0 ≤ i < n → 0 < s.[i] < 256).
Context (Hzero : ∀ i, 0 ≤ i < 256 → rd m (pcb + i) = 0).

(** The 256 bytes of name and arguments are [g]. *)
Definition pcb_holds (m' : M) (g : Z → Z) : Prop := written P m m' pcb 256 g.

Lemma pcb_holds_command m' g i :
  pcb_holds m' g → 0 ≤ i ≤ n → rd m' (u32 (command + i)) = s.[i].
Proof using All.
  intros Hg Hi. rewrite u32_small by lia. rewrite (written_out _ _ _ _ _ _ _ Hg).
  - by apply Hcmd.
  - apply HPc. unfold region. lia.
  - lia.
Qed.

Lemma pcb_holds_rd m' g i : pcb_holds m' g → 0 ≤ i < 256 → rd m' (u32 (pcb + i)) = g i.
Proof using All.
  intros Hg Hi. rewrite u32_small by lia. rewrite (written_in _ _ _ _ _ _ _ Hg).
  - f_equal. lia.
  - apply HPp. unfold region. lia.
  - lia.
Qed.

Lemma pcb_holds_wr m' g g' i v :
  pcb_holds m' g → 0 ≤ i < 256 → u8 v = g' i → (∀ j, 0 ≤ j < 256 → j ≠ i → g' j = g j) →
  pcb_holds (wr m' (u32 (pcb + i)) v) g'.
Proof using All.
  intros Hg Hi Hv Hj. rewrite u32_small by lia.
  assert (P (pcb + i)) by (apply HPp; unfold region; lia).
  pose proof (written_safe P m m' pcb 256 g Hs Hg) as Hs'. destruct Hg as [Hc Hr].
  split; [by rewrite ctl_wr|]. intros b Hb. rewrite (rd_wr_safe m' P) by done.
  case_decide as E.
  - subst b. rewrite decide_True by lia. rewrite Hv. f_equal. lia.
  - rewrite Hr by done. case_decide; [|done]. symmetry. apply Hj; lia.
Qed.

Lemma s_past i : n ≤ i → s.[i] = 0.
Proof using. intros. by apply aget_past. Qed.

Lemma name_loop :
  ∃ m1, while (name_step pcb command) (m, 0) = Some (m1, Z.of_nat (length (first_word s))) ∧
        pcb_holds m1 (λ j, (first_word s).[j]).
Proof using All.
  destruct (first_word_spec s) as (r & E & Hw & Hr). set (w := first_word s) in *.
  assert (n = Z.of_nat (length w) + Z.of_nat (length r)) as Hlen
    by (unfold n; rewrite E, length_app; lia).
  destruct (while_total (name_step pcb command)
    (λ '(m', i), 0 ≤ i ≤ Z.of_nat (length w) ∧ pcb_holds m' (λ j, if j <? i then w.[j] else 0))
    (λ '(_, i), Z.of_nat (length w) - i)
    (λ '(m1, i), i = Z.of_nat (length w) ∧ pcb_holds m1 (λ j, w.[j])) (m, 0))
    as ([m1 i] & E1 & -> & Hm1); [..|by exists m1].
  - intros [m' i] [Hi _]. lia.
  - intros [m' i] [Hi Hg]. unfold name_step. cbv zeta.
    rewrite (pcb_holds_command m' _ i Hg) by lia.
    destruct (decide (i = Z.of_nat (length w))) as [->|Hne].
    + assert (s.[Z.of_nat (length w)] = 32 ∨ s.[Z.of_nat (length w)] = 0) as Hstop.
      { rewrite E at 1 2. rewrite !aget_app_r by lia. rewrite Z.sub_diag.
        destruct Hr as [->|[r' ->]]; [by right|by left]. }
      assert (pcb_holds m' (λ j, w.[j])) as Hd.
      { eapply written_ext; [|exact Hg]. intros j Hj. cbv beta.
        destruct (Z.ltb_spec j (Z.of_nat (length w))); [done|]. symmetry. by apply aget_past. }
      destruct Hstop as [-> | ->]; cbn [negb andb Z.eqb]; rewrite ?andb_false_r; done.
    + assert (s.[i] = w.[i]) as Ei by (rewrite E; apply aget_app_l; lia).
      assert (w.[i] ≠ 32) as Hn32.
      { apply (Forall_lookup_1 _ _ (Z.to_nat i) _ Hw). rewrite lookup_aget by lia.
        by rewrite Z2Nat.id by lia. }
      pose proof (Hnz i ltac:(lia)) as Hb.
      rewrite (proj2 (Z.leb_le i MAX_BUF_INDEX)) by (unfold MAX_BUF_INDEX; lia).
      rewrite (proj2 (Z.eqb_neq s.[i] 32)), (proj2 (Z.eqb_neq s.[i] 0)) by (rewrite ?Ei; lia).
      cbn [negb andb]. split; [|lia]. split; [lia|].
      apply (pcb_holds_wr m' _ _ i _ Hg); [lia|..].
      * rewrite (proj2 (Z.ltb_lt i (i + 1))) by lia. rewrite <- Ei. by apply u8_small; lia.
      * intros j Hj Hji. destruct (Z.ltb_spec j i), (Z.ltb_spec j (i + 1)); done || lia.
  - split; [lia|]. split; [done|]. intros b Hb. case_decide; [|done].
    destruct (Z.ltb_spec (b - pcb) 0); [lia|]. replace b with (pcb + (b - pcb)) by lia.
    apply Hzero. lia.
  - lia.
Qed.

Let w : list Z := first_word s.
Let rest : list Z := skip_blanks (drop (length w) s).

(** The command is its name, blanks, and [rest]. *)
Lemma command_split :
  ∃ b, s = w ++ replicate b 32 ++ rest ∧
       (rest = [] ∨ ∃ c r, rest = c :: r ∧ c ≠ 32) ∧ (b = 0%nat → rest = []).
Proof using.
  destruct (first_word_spec s) as (r & E & _ & Hr).
  assert (drop (length w) s = r) as Ed by (rewrite E; apply drop_app_length).
  destruct (skip_blanks_spec r) as (b & Eb & Hrest). exists b.
  unfold rest. rewrite Ed. split_and!; [by rewrite <- Eb|done|].
  intros ->. destruct Hrest as [E0|(c & r0 & Hc & Hne)]; [done|].
  rewrite Hc in Eb. simpl in Eb. rewrite Eb in Hr.
  destruct Hr as [|[r' [= ? _]]]; congruence.
Qed.

Lemma spaces_loop m1 :
  pcb_holds m1 (λ j, w.[j]) →
  while (spaces_step m1 command) (Z.of_nat (length w)) = Some (n - Z.of_nat (length rest)).
Proof using All.
  intros Hg. destruct command_split as (b & E & Hr & _).
  assert (n = Z.of_nat (length w) + Z.of_nat b + Z.of_nat (length rest)) as Hl.
  { unfold n. rewrite E at 1. rewrite !length_app, length_replicate. lia. }
  apply (while_eq _ (λ i, Z.of_nat (length w) ≤ i ≤ Z.of_nat (length w) + Z.of_nat b)
    (λ i, Z.of_nat (length w) + Z.of_nat b - i)); [intros; lia| |lia|lia].
  intros i Hi. unfold spaces_step. rewrite (pcb_holds_command m1 _ i Hg) by lia.
  rewrite E, aget_app_r by lia. destruct (decide (i < Z.of_nat (length w) + Z.of_nat b)).
  - rewrite aget_app_l by (rewrite length_replicate; lia). rewrite aget_replicate by lia.
    rewrite Z.eqb_refl, s32_small by lia. lia.
  - rewrite aget_app_r by (rewrite length_replicate; lia). rewrite length_replicate.
    replace (i - _ - _) with 0 by lia.
    assert (rest.[0] ≠ 32) as Hne by (destruct Hr as [->|(c & r & -> & Hc)]; [done|exact Hc]).
    rewrite (proj2 (Z.eqb_neq _ _) Hne). lia.
Qed.

(** Name in the first half, the bytes [a] in the second. *)
Definition halves (a : list Z) (j : Z) : Z := if j <? 128 then w.[j] else a.[j - 128].

Lemma w_short : Z.of_nat (length w) ≤ n.
Proof using.
  destruct command_split as (b & E & _). unfold n. rewrite E at 1. rewrite length_app. lia.
Qed.

Lemma rest_short : 0 ≤ n - Z.of_nat (length rest).
Proof using.
  destruct command_split as (b & E & _). unfold n. rewrite E at 1.
  rewrite !length_app, length_replicate. lia.
Qed.

Lemma rest_get i : n - Z.of_nat (length rest) ≤ i → s.[i] = rest.[i - (n - Z.of_nat (length rest))].
Proof using.
  intros Hi. destruct command_split as (b & E & _).
  assert (n = Z.of_nat (length w) + Z.of_nat b + Z.of_nat (length rest)) as Hl.
  { unfold n. rewrite E at 1. rewrite !length_app, length_replicate. lia. }
  rewrite E. rewrite aget_app_r by lia. rewrite aget_app_r by (rewrite length_replicate; lia).
  f_equal. rewrite length_replicate. lia.
Qed.

Lemma args_loop m1 :
  pcb_holds m1 (λ j, w.[j]) →
  let o := n - Z.of_nat (length rest) in
  ∃ m2, while (args_step pcb command o) (m1, o) = Some (m2, n) ∧ pcb_holds m2 (halves rest).
Proof using All.
  intros Hg o. pose proof w_short as Hw. pose proof rest_short as Hr. fold o in Hr.
  destruct (while_total (args_step pcb command o)
    (λ '(m', i), o ≤ i ≤ n ∧ pcb_holds m' (halves (take (Z.to_nat (i - o)) rest)))
    (λ '(_, i), n - i) (λ '(m2, i), i = n ∧ pcb_holds m2 (halves rest)) (m1, o))
    as ([m2 i] & E & -> & Hm2); [..|by exists m2].
  - intros [m' i] [Hi _]. lia.
  - intros [m' i] [Hi Hg']. unfold args_step. cbv zeta.
    rewrite (pcb_holds_command m' _ i Hg') by lia.
    destruct (decide (i = n)) as [->|Hne].
    + rewrite s_past by lia. rewrite andb_false_r. split; [done|].
      rewrite take_ge in Hg' by lia. done.
    + pose proof (Hnz i ltac:(lia)) as Hb.
      rewrite (proj2 (Z.leb_le i MAX_BUF_INDEX)) by (unfold MAX_BUF_INDEX; lia).
      rewrite (proj2 (Z.eqb_neq s.[i] 0)) by lia. cbn [negb andb]. split; [|lia]. split; [lia|].
      unfold ARGS_OFFSET. rewrite <- Z.add_assoc.
      assert (s.[i] = rest.[i - o]) as Ei by (apply rest_get; lia).
      apply (pcb_holds_wr m' _ _ _ _ Hg'); [lia|..].
      * unfold halves. rewrite (proj2 (Z.ltb_ge _ 128)) by lia.
        replace (128 + (i - o) - 128) with (i - o) by lia.
        rewrite u8_small, Ei by lia. unfold aget. destruct (0 <=? i - o); [|done].
        rewrite lookup_take_lt by lia. done.
      * intros j Hj Hji. unfold halves. destruct (Z.ltb_spec j 128); [done|].
        unfold aget. destruct (Z.leb_spec 0 (j - 128)); [|done].
        destruct (decide (j - 128 < i - o)).
        -- rewrite !lookup_take_lt by lia. done.
        -- rewrite !lookup_take_ge by lia. done.
  - split; [lia|]. eapply written_ext; [|exact Hg]. intros j Hj. unfold halves. cbv beta.
    replace (Z.to_nat (o - o)) with 0%nat by lia. rewrite take_0.
    destruct (Z.ltb_spec j 128); [done|]. rewrite aget_past by lia. unfold aget.
    by destruct (0 <=? j - 128).
  - lia.
Qed.

Lemma trim_loop m2 :
  pcb_holds m2 (halves rest) →
  let o := n - Z.of_nat (length rest) in
  ∃ m3, while (trim_step pcb o) (m2, n - 1) = Some m3 ∧ pcb_holds m3 (halves (trim_end rest)).
Proof using All.
  intros Hg o. pose proof w_short as Hw. pose proof rest_short as Hr. fold o in Hr.
  destruct (trim_end_spec rest) as (b & E & Ht). set (t := trim_end rest) in *.
  assert (Z.of_nat (length rest) = Z.of_nat (length t) + Z.of_nat b) as Hl.
  { rewrite E at 1. rewrite length_app, length_replicate. lia. }
  apply (while_total (trim_step pcb o)
    (λ '(m', i), o + Z.of_nat (length t) - 1 ≤ i ≤ n - 1 ∧
       pcb_holds m' (halves (take (Z.to_nat (i - o + 1)) rest)))
    (λ '(_, i), i + 1) (λ m3, pcb_holds m3 (halves t)) (m2, n - 1)).
  - intros [m' i] [Hi _]. lia.
  - intros [m' i] [Hi Hg']. unfold trim_step, ARGS_OFFSET. cbv zeta.
    rewrite <- Z.add_assoc. rewrite (pcb_holds_rd m' _ (128 + (i - o)) Hg') by lia.
    destruct (decide (i = o + Z.of_nat (length t) - 1)) as [->|Hne].
    + assert (take (Z.to_nat (o + Z.of_nat (length t) - 1 - o + 1)) rest = t) as Et.
      { replace (Z.to_nat _) with (length t) by lia. rewrite E. apply take_app_length. }
      rewrite Et in Hg' |- *. unfold halves at 1.
      destruct Ht as [Et0|(r & c & Er & Hc)].
      * rewrite Et0 in *. simpl length. rewrite (proj2 (Z.ltb_lt _ 128)) by lia.
        rewrite aget_past by (unfold n in *; lia). done.
      * assert (length t = S (length r)) as Hlt by (rewrite Er, length_app; simpl; lia).
        rewrite (proj2 (Z.ltb_ge _ 128)) by lia.
        replace (128 + (o + Z.of_nat (length t) - 1 - o) - 128) with (Z.of_nat (length r)) by lia.
        assert (t.[Z.of_nat (length r)] = c) as Ec
          by (rewrite Er; rewrite aget_app_r by lia; by rewrite Z.sub_diag).
        rewrite Ec. by rewrite (proj2 (Z.eqb_neq _ _) Hc).
    + assert ((take (Z.to_nat (i - o + 1)) rest).[i - o] = 32) as Eb.
      { unfold aget. rewrite (proj2 (Z.leb_le 0 (i - o))) by lia.
        rewrite lookup_take_lt by lia. rewrite E, lookup_app_r by lia.
        rewrite lookup_replicate_2 by lia. done. }
      unfold halves at 1. rewrite (proj2 (Z.ltb_ge _ 128)) by lia.
      replace (128 + (i - o) - 128) with (i - o) by lia. rewrite Eb, Z.eqb_refl.
      rewrite s32_small by lia. split; [|lia]. split; [lia|].
      apply (pcb_holds_wr m' _ _ _ _ Hg'); [lia|..].
      * unfold halves. rewrite (proj2 (Z.ltb_ge _ 128)) by lia.
        replace (128 + (i - o) - 128) with (i - o) by lia. symmetry. apply aget_past.
        rewrite length_take. lia.
      * intros j Hj Hji. unfold halves. destruct (Z.ltb_spec j 128); [done|].
        unfold aget. destruct (Z.leb_spec 0 (j - 128)); [|done].
        destruct (decide (j - 128 < i - o)).
        -- rewrite !lookup_take_lt by lia. done.
        -- rewrite !lookup_take_ge by lia. done.
  - split; [lia|]. rewrite take_ge by lia. done.
  - lia.
Qed.

Lemma parse_command_spec :
  ∃ m', parse_command m pcb command = Some m' ∧
        pcb_holds m' (λ j, if j <? 128 then (command_name s).[j] else (command_args s).[j - 128]).
Proof using All.
  destruct name_loop as (m1 & E1 & H1). fold w in E1, H1.
  pose proof w_short as Hw.
  set (m1' := wr m1 (u32 (pcb + Z.of_nat (length w))) 0).
  assert (pcb_holds m1' (λ j, w.[j])) as H1'.
  { apply (pcb_holds_wr m1 _ _ _ _ H1); [lia|by rewrite aget_past|done]. }
  pose proof (spaces_loop m1' H1') as E2.
  destruct (args_loop m1' H1') as (m2 & E3 & H2).
  destruct (trim_loop m2 H2) as (m3 & E4 & H3).
  exists m3. split; [|exact H3]. unfold parse_command.
  rewrite E1, bind_some. fold m1'. cbv zeta. rewrite E2, bind_some, E3, bind_some.
  rewrite s32_small by (unfold n; lia). exact E4.
Qed.
End Parser.

(** Reading a command that is mapped up to its end does not fault. *)
Lemma command_mapped_str {M} `{!ByteMem M} (P : Z → Prop) (m : M) command n :
  safe m P → str_at m command n → n ≤ 127 →
  (∀ a, region command (n + 1) a → P a ∧ 0 ≤ a < 4294967296) → command_mapped m command = Some true.
Proof.
  intros Hs (Hn0 & _ & Hz) Hn HP.
  assert (∀ i, 0 ≤ i ≤ n → P (command + i) ∧ u32 (command + i) = command + i) as Hin.
  { intros i Hi. destruct (HP (command + i)) as [H1 H2]; [unfold region; lia|].
    split; [done|]. by apply u32_small. }
  assert (rd m (u32 (command + n)) = 0) as Hend by (rewrite (proj2 (Hin n ltac:(lia))); exact Hz).
  assert (∀ (go : Z → bool) i, 0 ≤ i ≤ n → go n = false →
    ∃ j, while (λ i, if go i then inl (i + 1) else inr i) i = Some j ∧ 0 ≤ j ≤ n) as Hloop.
  { intros go i Hi Hgo. apply (while_total _ (λ i, 0 ≤ i ≤ n) (λ i, n - i)); [lia| |done|lia].
    intros j Hj. destruct (go j) eqn:Ej; [|done].
    assert (j ≠ n) by congruence. lia. }
  unfold command_mapped. cbv zeta.
  destruct (Hloop (λ i, (i <=? MAX_BUF_INDEX) && negb (rd m (u32 (command + i)) =? 32)
    && negb (rd m (u32 (command + i)) =? 0)) 0) as (i & -> & Hi); [lia|by rewrite Hend, andb_false_r|].
  rewrite bind_some.
  assert (∃ i', while (spaces_step m command) i = Some i' ∧ 0 ≤ i' ≤ n) as (i' & -> & Hi').
  { apply (while_total _ (λ i, 0 ≤ i ≤ n) (λ i, n - i)); [lia| |done|lia].
    intros j Hj. unfold spaces_step. destruct (Z.eqb_spec (rd m (u32 (command + j))) 32) as [E|]; [|done].
    assert (j ≠ n) by (intros ->; rewrite Hend in E; discriminate). rewrite s32_small by lia. lia. }
  rewrite bind_some.
  destruct (Hloop (λ i, (i <=? MAX_BUF_INDEX) && negb (rd m (u32 (command + i)) =? 0)) i') as (j & -> & Hj);
    [lia|by rewrite Hend, andb_false_r|].
  rewrite bind_some, (mapped_safe m P), (mapped_safe m P (command + j)) by (done || (apply Hin; lia)).
  by rewrite orb_true_r.
Qed.
