(* ===== verification/Scheduler.v ===== *)
(** * The scheduler (student-distrib/scheduler.c)

    On a timer interrupt, [sched] saves where the running process was
    interrupted and continues the next active one in round-robin order; the
    first two interrupts start the shells of terminals 1 and 2. *)

From S2P Require Import Prelude Memory Lib Ports Types Filesystem I8259 RTC Paging Console Keyboard.
From S2P Require Import Kernel Process.
#[local] Open Scope Z_scope.

(** The body of [do { ... } while(!active[curr]);] *)
Definition next_step (active : list bool) (curr : Z) : Z + Z :=
  let curr := u32 (curr + 1) in
  let curr := if curr >=? MAX_USER_PROG then curr - MAX_USER_PROG else curr in
  if active.[curr] then inr curr else inl curr.

Definition get_next_proc (active : list bool) (curr : Z) : option Z :=
  while (next_step active) curr.

Section Scheduler.
Context {HL : Layout} {D : Type} `{!PortIO D}.
Implicit Types (k : kernel D) (cur : Z).

Definition init_PIT (p : pic) (d : D) : pic * D := enable_irq p d 0.

(** The attribute byte of the cell of process [i] in the last columns of the
    first row. *)
Definition status_attr (used active : list bool) (i : Z) : Z :=
  if used.[i] then (if active.[i] then 0x20 else 0x40) else ATTRIB.

Definition status_addr (i : Z) : Z := VIDEO + Z.shiftl (NUM_COLS - MAX_USER_PROG + i) 1 + 1.

Definition show_status k : kernel D :=
  with_mem k (for_loop 6 0 (λ i m,
    wr m (status_addr i) (status_attr (proc_id_used k) (active k) i)) (kmem k)).

(** How [sched] ends: in a new shell, or in process [next] with the stack and
    frame pointers it had when it was interrupted. *)
Inductive sched_result :=
| SUser (k : kernel D) (pid eip u_esp : Z)
| SResume (k : kernel D) (next esp ebp : Z).

(** The switch to process [next]. *)
Definition switch_to k (next : Z) : sched_result :=
  let k := show_status k in
  let k := with_mem k (loadPageDirectory (kmem k) (pd_addr next)) in
  let k := k <| tss_ss0 := KERNEL_DS |> <| tss_esp0 := KERNEL_TOP - KB8 * next - 4 |> in
  SResume k next (p_esp (pcbs k).[next]) (p_ebp (pcbs k).[next]).

Definition sched k cur (esp ebp shell dp hp : Z) : option sched_result :=
  let pid := p_pid (pcbs k).[cur] in
  let k := mark_active k pid true in
  let k := with_pcb k cur (λ p, p <| p_esp := esp |> <| p_ebp := ebp |>) in
  let continue k := next ← get_next_proc (active k) pid; Some (switch_to k next) in
  if shells_started k <? 3 then
    let k := k <| shells_started := u8 (shells_started k + 1) |> in
    r ← execute k cur esp ebp shell dp hp;
    match r with
    | ExUser k pid eip u_esp => Some (SUser k pid eip u_esp)
    | ExRet k _ => continue k
    end
  else continue k.

(** [pit_irq_handler] (idt.c). *)
Definition pit_irq_handler k cur (esp ebp shell dp hp : Z) : option sched_result :=
  sched (with_dev k (send_eoi (kdev k) 0)) cur esp ebp shell dp hp.
End Scheduler.
