(* ===== verification/Forest.v ===== *)
(** * The process forest

    Every terminal has a stack of processes: the root shell at the bottom and,
    above it, the programs that were executed from each other; only the top
    one runs.  [execute] pushes a new process on the stack of its caller,
    [halt] pops the caller, the scheduler goes round the tops.  The concrete
    state ([proc_id_used], [active], the parent pointers and terminal ids of
    the PCBs) is related to the stacks by [forest].

    These facts hold for every memory and file system: they are obtained by
    inversion from the definitions of [execute], [halt] and [sched]. *)

From S2P Require Import Prelude Memory Lib Ports Types Filesystem I8259 RTC Paging Console Keyboard.
From S2P Require Import Kernel Process Scheduler.
#[local] Open Scope Z_scope.

Section Inversion.
Context {HL : Layout} {D : Type} `{!PortIO D}.
Implicit Types (k : kernel D) (cur pid q : Z).

(** ** What execute does to the process table *)

Lemma free_pid_spec (used : list bool) n i :
  match free_pid used n i with
  | Some p => i ≤ p < i + Z.of_nat n ∧ used.[p] = false ∧ ∀ l, i ≤ l < p → used.[l] = true
  | None => ∀ l, i ≤ l < i + Z.of_nat n → used.[l] = true
  end.
Proof.
  revert i. induction n as [|n IH]; intros i; simpl; [intros; lia|].
  destruct (used.[i]) eqn:E.
  - specialize (IH (i + 1)). destruct (free_pid used n (i + 1)) as [p|].
    + destruct IH as (Hp & Hu & Hl). split_and!; [lia|lia|done|].
      intros l Hl'. destruct (decide (l = i)) as [->|]; [done|]. apply Hl. lia.
    + intros l Hl. destruct (decide (l = i)) as [->|]; [done|]. apply IH. lia.
  - split_and!; [lia|lia|done|intros; lia].
Qed.

(** The part of a PCB that identifies the process. *)
Definition ident (p : PCB) : Z * Z * Z * list file :=
  (p_pid p, p_parent p, p_terminal_id p, p_fd p).

Lemma ident_eq (p : PCB) a b c d :
  p_pid p = a → p_parent p = b → p_terminal_id p = c → p_fd p = d → ident p = (a, b, c, d).
Proof. by intros <- <- <- <-. Qed.

(** The descriptors of a new process. *)
Definition initial_fds : list file :=
  mk_file stdin_ops 0 0 1 0 :: mk_file stdout_ops 0 0 1 0 :: replicate 6 zero_file.

Lemma initial_fds_ident (p : PCB) a b c :
  ident p = (a, b, c, replicate 8 zero_file) →
  let p1 := p <| p_fd := (p_fd p).[0 <- (p_fd p).[0] <| f_op := stdin_ops |> <| flags := 1 |>] |> in
  ident (p1 <| p_fd := (p_fd p1).[1 <- (p_fd p1).[1] <| f_op := stdout_ops |> <| flags := 1 |>] |>)
    = (a, b, c, initial_fds).
Proof. destruct p. unfold ident. cbn. by intros [= -> -> -> ->]. Qed.

Lemma ident_with_pcb k i f q :
  ident (f (pcbs k).[i]) = ident (pcbs k).[i] →
  ident (pcbs (with_pcb k i f)).[q] = ident (pcbs k).[q].
Proof.
  intros Hf. unfold with_pcb. simpl. destruct (decide (i = q)) as [<-|Hne].
  - destruct (decide (0 ≤ i < Z.of_nat (length (pcbs k)))) as [Hi|Hi].
    + by rewrite aget_aset_eq.
    + f_equal. unfold aset. destruct (Z.leb_spec 0 i); [|done].
      by rewrite list_insert_ge by lia.
  - by rewrite aget_aset_ne.
Qed.

Lemma length_with_pcb k i f : length (pcbs (with_pcb k i f)) = length (pcbs k).
Proof. unfold with_pcb. simpl. apply length_aset. Qed.

Lemma get_with_pcb k i f :
  0 ≤ i < Z.of_nat (length (pcbs k)) → (pcbs (with_pcb k i f)).[i] = f (pcbs k).[i].
Proof. intros. unfold with_pcb. simpl. by apply aget_aset_eq. Qed.

Lemma get_with_pcb_ne k i f q : i ≠ q → (pcbs (with_pcb k i f)).[q] = (pcbs k).[q].
Proof. intros. unfold with_pcb. simpl. by apply aget_aset_ne. Qed.

(** The new process and what stays of the others. *)
Record spawned k k' pid parent terminal_id : Prop := {
  sp_len : length (pcbs k') = length (pcbs k);
  sp_used : proc_id_used k' = (proc_id_used k).[pid <- true];
  sp_active : active k' = (active k).[parent <- false].[pid <- true];
  sp_new : ident (pcbs k').[pid] = (pid, parent, terminal_id, initial_fds);
  sp_other : ∀ q, q ≠ pid → ident (pcbs k').[q] = ident (pcbs k).[q];
  sp_shells : shells_started k' = shells_started k
}.

Lemma enter_process_spawned k pid parent terminal_id esp ebp eip inode r :
  0 ≤ pid < Z.of_nat (length (pcbs k)) →
  p_pid (pcbs k).[pid] = pid → p_fd (pcbs k).[pid] = replicate 8 zero_file →
  p_pid (pcbs k).[parent] = parent →
  enter_process k pid parent terminal_id esp ebp eip inode = Some r →
  ∃ k', r = ExUser k' pid eip (USER_MEM_LOCATION + MB4 - 4) ∧
    length (pcbs k') = length (pcbs k) ∧ proc_id_used k' = proc_id_used k ∧
    active k' = (active k).[parent <- false].[pid <- true] ∧
    ident (pcbs k').[pid] = (pid, parent, terminal_id, initial_fds) ∧
    (∀ q, q ≠ pid → ident (pcbs k').[q] = ident (pcbs k).[q]) ∧
    shells_started k' = shells_started k.
Proof.
  intros Hlen Hpid Hfd Hpar. unfold enter_process.
  destruct (read_data _ _ _ _ _ _) as [[m x]|]; [|discriminate]. rewrite bind_some.
  set (k1 := with_mem k m).
  set (k2 := with_pcb k1 pid (λ p, p <| p_parent := parent |>)).
  set (k3 := with_pcb k2 pid (λ p, p <| p_terminal_id := terminal_id |>)).
  set (k4 := with_pcb k3 parent (λ p, p <| p_esp0 := tss_esp0 k3 |>)).
  assert (length (pcbs k4) = length (pcbs k)) as L4 by (unfold k4, k3, k2; by rewrite !length_with_pcb).
  assert (∀ q, ident (pcbs k4).[q] = ident (pcbs k3).[q]) as I4
    by (intros q; by apply ident_with_pcb).
  assert (ident (pcbs k3).[pid] = (pid, parent, terminal_id, replicate 8 zero_file)) as I3.
  { unfold k3. rewrite get_with_pcb by (unfold k2; rewrite length_with_pcb; done).
    unfold k2. rewrite get_with_pcb by done. apply ident_eq; [exact Hpid|done|done|exact Hfd]. }
  assert (∀ q, q ≠ pid → (pcbs k3).[q] = (pcbs k).[q]) as O3.
  { intros q Hq. unfold k3, k2. by rewrite !get_with_pcb_ne. }
  assert (p_pid (pcbs k4).[parent] = parent) as P4.
  { change (p_pid (pcbs k4).[parent]) with (ident (pcbs k4).[parent]).1.1.1. rewrite I4.
    destruct (decide (parent = pid)) as [->|Hne]; [by rewrite I3|].
    rewrite O3 by done. exact Hpar. }
  cbv zeta. rewrite P4.
  set (k5 := mark_active (mark_active k4 parent false) pid true).
  set (k6 := with_pcb k5 parent _). set (k7 := with_pcb k6 pid _). set (k8 := with_pcb k7 pid _).
  intros [= <-]. eexists. split; [reflexivity|].
  assert (length (pcbs k6) = length (pcbs k)) as L6 by (unfold k6; by rewrite length_with_pcb).
  assert (∀ q, ident (pcbs k6).[q] = ident (pcbs k3).[q]) as I6.
  { intros q. rewrite <- I4. by apply (ident_with_pcb k5). }
  split_and!; try done.
  - change (length (pcbs k8) = length (pcbs k)). unfold k8, k7. by rewrite !length_with_pcb.
  - change (ident (pcbs k8).[pid] = (pid, parent, terminal_id, initial_fds)).
    unfold k8. rewrite get_with_pcb by (unfold k7; rewrite length_with_pcb; lia).
    unfold k7. rewrite get_with_pcb by lia.
    apply initial_fds_ident. by rewrite I6.
  - intros q Hq. change (ident (pcbs k8).[q] = ident (pcbs k).[q]).
    unfold k8, k7. rewrite !get_with_pcb_ne by done. rewrite I6. by rewrite O3.
Qed.

Lemma print_msg_same k t msg :
  pcbs (print_msg k t msg) = pcbs k ∧ proc_id_used (print_msg k t msg) = proc_id_used k ∧
  active (print_msg k t msg) = active k ∧ shells_started (print_msg k t msg) = shells_started k.
Proof. done. Qed.

(** How [execute] can end. *)
Lemma execute_inv k cur esp ebp command dp hp r :
  length (pcbs k) = 6%nat → length (proc_id_used k) = 6%nat → p_pid (pcbs k).[cur] = cur →
  execute k cur esp ebp command dp hp = Some r →
  match r with
  | ExRet k' val =>
      val = -1 ∧ length (pcbs k') = 6%nat ∧ proc_id_used k' = proc_id_used k ∧
      active k' = active k ∧ shells_started k' = shells_started k ∧
      (∀ q, (proc_id_used k).[q] = true → (pcbs k').[q] = (pcbs k).[q])
  | ExUser k' pid eip u_esp =>
      free_pid (proc_id_used k) 6 0 = Some pid ∧
      spawned k k' pid (if pid <=? 2 then pid else cur)
        (if pid <=? 2 then pid else p_terminal_id (pcbs k).[cur])
  end.
Proof.
  intros Hl Hlu Hcur. unfold execute, load_program, name_pcb, prepare_pcb. change (Z.to_nat MAX_USER_PROG) with 6%nat.
  destruct (command =? 0); [by intros [= <-]|].
  pose proof (free_pid_spec (proc_id_used k) 6 0) as Hfree.
  destruct (free_pid (proc_id_used k) 6 0) as [pid|] eqn:Ef; [|by intros [= <-]].
  destruct Hfree as (Hpid & Hun & _).
  destruct (command_mapped _ _) as [[]|]; rewrite ?bind_some; cbn [negb]; try discriminate.
  destruct (memset _ _ _ _) as [m1|]; [rewrite bind_some|discriminate]. cbv zeta.
  set (k0 := mark_used k pid true).
  set (k1 := with_pcb k0 pid (λ _, zero_PCB)).
  set (k2 := with_pcb k1 pid (λ p, p <| p_pid := pid |>)).
  set (k3 := if pid =? 0 then with_pcb k2 pid (λ p, p <| p_parent := pid |>) else k2).
  destruct (parse_command _ _ _) as [m2|]; [rewrite bind_some|discriminate].
  set (k4 := with_pcb k3 pid _).
  assert (length (pcbs k0) = 6%nat) as L0 by exact Hl.
  assert (length (pcbs k1) = 6%nat) as L1 by (unfold k1; by rewrite length_with_pcb).
  assert (length (pcbs k2) = 6%nat) as L2 by (unfold k2; by rewrite length_with_pcb).
  assert (length (pcbs k3) = 6%nat) as L3
    by (unfold k3; destruct (pid =? 0); rewrite ?length_with_pcb; done).
  assert (length (pcbs k4) = 6%nat) as L4 by (unfold k4; by rewrite length_with_pcb).
  assert ((pcbs k2).[pid] = zero_PCB <| p_pid := pid |>) as G2.
  { unfold k2. rewrite get_with_pcb by lia. unfold k1. by rewrite get_with_pcb by lia. }
  assert (p_pid (pcbs k4).[pid] = pid ∧ p_fd (pcbs k4).[pid] = replicate 8 zero_file) as [G4 F4].
  { unfold k4. rewrite get_with_pcb by lia. cbn [p_pid p_fd set_field set_p_name set_p_args].
    unfold k3. destruct (pid =? 0); [|by rewrite G2].
    rewrite get_with_pcb by lia. by rewrite G2. }
  assert (∀ q, q ≠ pid → (pcbs k4).[q] = (pcbs k).[q]) as O4.
  { intros q Hq. unfold k4. rewrite get_with_pcb_ne by done. unfold k3.
    destruct (pid =? 0); unfold k2, k1; rewrite ?get_with_pcb_ne by done; done. }
  assert (∀ q, (proc_id_used k).[q] = true → q ≠ pid) as Hne by congruence.
  assert (proc_id_used k4 = (proc_id_used k).[pid <- true] ∧ active k4 = active k ∧
          shells_started k4 = shells_started k) as (U4 & A4 & S4)
    by (unfold k4, k3; destruct (pid =? 0); done).
  assert ((proc_id_used k4).[pid <- false] = proc_id_used k) as Uback.
  { rewrite U4, aset_aset, <- Hun. apply aset_same. }
  destruct (read_dentry_by_name _ _ _ _) as [[m3 rr]|]; [rewrite bind_some|discriminate].
  destruct (rr =? -1).
  { intros [= <-]. split_and!;
      [done|exact L4|exact Uback|exact A4|exact S4|intros q Hq; apply O4; auto]. }
  set (k5 := with_mem k4 m3). destruct (all_mapped _ _ _); cbn [negb]; [|discriminate].
  set (terminal_id := if pid <=? 2 then pid else p_terminal_id (pcbs k).[cur]).
  set (k6 := save_history k5 terminal_id command).
  destruct (read_data _ _ _ _ _ _) as [[m4 x]|]; [rewrite bind_some|discriminate].
  destruct (negb (is_elf m4 hp)).
  { intros [= <-]. split_and!;
      [done|exact L4|exact Uback|exact A4|exact S4|intros q Hq; apply O4; auto]. }
  intros He. apply enter_process_spawned in He as (k' & -> & H1 & H2 & H3 & H4 & H5 & H6).
  - split; [done|]. split.
    + rewrite H1, Hl. exact L4.
    + rewrite H2. exact U4.
    + rewrite H3. f_equal. f_equal. exact A4.
    + exact H4.
    + intros q Hq. rewrite H5 by done. apply (f_equal ident). by apply O4.
    + rewrite H6. exact S4.
  - change (0 ≤ pid < Z.of_nat (length (pcbs k4))). lia.
  - exact G4.
  - exact F4.
  - change (p_pid (pcbs k4).[if pid <=? 2 then pid else cur] = if pid <=? 2 then pid else cur).
    destruct (Z.leb_spec pid 2); [exact G4|].
    destruct (decide (cur = pid)) as [->|Hc]; [exact G4|]. by rewrite O4.
Qed.

(** ** What the other calls do to the process table *)

(** Everything about a process but its descriptors and saved registers. *)
Definition who (p : PCB) : Z * Z * Z := (p_pid p, p_parent p, p_terminal_id p).

(** [k'] has the same processes, in the same states, as [k]; only descriptors
    of process [cur] differ. *)
Record keeps cur k k' : Prop := {
  ke_len : length (pcbs k') = length (pcbs k);
  ke_used : proc_id_used k' = proc_id_used k;
  ke_active : active k' = active k;
  ke_shells : shells_started k' = shells_started k;
  ke_who : who (pcbs k').[cur] = who (pcbs k).[cur];
  ke_other : ∀ q, q ≠ cur → (pcbs k').[q] = (pcbs k).[q]
}.

Lemma keeps_refl cur k : keeps cur k k.
Proof. done. Qed.

Lemma keeps_trans cur k1 k2 k3 : keeps cur k1 k2 → keeps cur k2 k3 → keeps cur k1 k3.
Proof.
  intros [A1 A2 A3 A4 A5 A6] [B1 B2 B3 B4 B5 B6]. split; try congruence.
  intros q Hq. by rewrite B6, A6.
Qed.

Lemma keeps_who cur k k' q : keeps cur k k' → who (pcbs k').[q] = who (pcbs k).[q].
Proof.
  intros [_ _ _ _ H1 H2]. destruct (decide (q = cur)) as [->|Hne]; [done|by rewrite H2].
Qed.

Lemma keeps_pcbs cur k k' :
  pcbs k' = pcbs k → proc_id_used k' = proc_id_used k → active k' = active k →
  shells_started k' = shells_started k → keeps cur k k'.
Proof. intros E1 E2 E3 E4. split; rewrite ?E1; done. Qed.

Lemma keeps_set_fd k cur i f : keeps cur k (set_fd k cur i f).
Proof.
  split; try done.
  - apply length_with_pcb.
  - unfold set_fd. destruct (decide (0 ≤ cur < Z.of_nat (length (pcbs k)))) as [Hc|Hc].
    + by rewrite get_with_pcb.
    + unfold with_pcb. simpl. unfold aset. destruct (Z.leb_spec 0 cur); [|done].
      by rewrite list_insert_ge by lia.
  - intros q Hq. by apply get_with_pcb_ne.
Qed.

Lemma close_keeps k cur fd k' v : close k cur fd = Some (k', v) → keeps cur k k'.
Proof.
  unfold close. destruct (_ || _); [by intros [= <- _]|].
  destruct (_ =? 0); [by intros [= <- _]|].
  destruct (fop_close _); [|discriminate]. intros [= <- _]. apply keeps_set_fd.
Qed.

Lemma close_all_keeps k cur k' : close_all k cur = Some k' → keeps cur k k'.
Proof.
  intros E. unfold close_all in E.
  pose proof (for_loop_inv (λ _ ok, ∀ k', ok = Some k' → keeps cur k k') 8 0
    (λ i ok, k ← ok; fst <$> close k cur i) (Some k)) as Hinv.
  apply Hinv in E; [done|by intros ? [= ->]|].
  intros j ok _ Hok k2. destruct ok as [k1|]; [|discriminate]. rewrite bind_some.
  destruct (close k1 cur j) as [[k3 v]|] eqn:Ec; [|discriminate]. intros [= <-].
  apply (keeps_trans cur k k1); [by apply Hok|by apply close_keeps in Ec].
Qed.

(** Process [cur] is gone and [parent] runs. *)
Record reaped k k1 cur parent : Prop := {
  re_len : length (pcbs k1) = length (pcbs k);
  re_used : proc_id_used k1 = (proc_id_used k).[cur <- false];
  re_active : active k1 = (active k).[cur <- false].[parent <- true];
  re_shells : shells_started k1 = shells_started k;
  re_who : who (pcbs k1).[cur] = who (pcbs k).[cur];
  re_other : ∀ q, q ≠ cur → (pcbs k1).[q] = (pcbs k).[q];
  re_tss : tss_esp0 k1 = p_esp0 (pcbs k1).[parent] ∧ tss_ss0 k1 = p_ss0 (pcbs k1).[parent]
}.

(** How [halt] can end. *)
Lemma halt_inv k cur status esp ebp shell dp hp r :
  let parent := p_parent (pcbs k).[cur] in
  p_pid (pcbs k).[cur] = cur → p_pid (pcbs k).[parent] = parent →
  halt k cur status esp ebp shell dp hp = Some r →
  match r with
  | HFault => True
  | HResume k' par sp bp st =>
      st = u8 status ∧
      (cur ≠ parent → reaped k k' cur parent ∧ par = parent ∧
         sp = p_esp (pcbs k).[parent] ∧ bp = p_ebp (pcbs k).[parent])
  | HUser k' pid eip u_esp =>
      cur = parent ∧
      ∃ k1, reaped k k1 cur parent ∧
            execute k1 cur esp ebp shell dp hp = Some (ExUser k' pid eip u_esp)
  end.
Proof.
  intros parent Hcur Hpar. unfold halt. cbv zeta. fold parent.
  destruct (memset _ _ _ _) as [m|]; [rewrite bind_some|discriminate].
  destruct (parent =? -1); [by intros [= <-]|].
  destruct (close_all _ cur) as [k0|] eqn:Ec; [|by intros [= <-]].
  apply close_all_keeps in Ec. pose proof (λ q, keeps_who _ _ _ q Ec) as Hw.
  assert (∀ q, p_pid (pcbs k0).[q] = p_pid (pcbs k).[q] ∧
               p_parent (pcbs k0).[q] = p_parent (pcbs k).[q]) as Hid.
  { intros q. specialize (Hw q). unfold who in Hw. by injection Hw. }
  change (pcbs (mark_used k0 _ _)) with (pcbs k0).
  change (pcbs (mark_active _ _ _)) with (pcbs k0).
  rewrite (proj1 (Hid cur)), Hcur, (proj1 (Hid parent)), Hpar.
  set (k1 := set_field _ _). 
  assert (reaped k k1 cur parent) as Hr.
  { destruct Ec as [A1 A2 A3 A4 A5 A6]. split; try done.
    - change (proc_id_used k1) with ((proc_id_used k0).[cur <- false]). by rewrite A2.
    - change (active k1) with ((active k0).[cur <- false].[parent <- true]). by rewrite A3. }
  change (pcbs k1) with (pcbs k0). rewrite (proj1 (Hid cur)), Hcur, (proj1 (Hid parent)), Hpar.
  destruct (Z.eqb_spec cur parent) as [Heq|Hne].
  - destruct (execute k1 cur esp ebp shell dp hp) as [[k2 v|k2 pid eip u]|] eqn:Ex;
      [rewrite bind_some|rewrite bind_some|discriminate].
    + destruct (_ =? -1); intros [= <-]; [done|]. by split.
    + intros [= <-]. split; [done|]. by exists k1.
  - rewrite (proj2 (Hid cur)). fold parent.
    destruct (parent =? -1); intros [= <-]; [done|]. split; [done|]. intros _.
    split; [exact Hr|]. split; [done|].
    by rewrite (ke_other _ _ _ Ec parent) by congruence.
Qed.

(** How [sched] can end once the three shells are started. *)
Lemma sched_inv k cur esp ebp shell dp hp r :
  p_pid (pcbs k).[cur] = cur → shells_started k = 3 →
  sched k cur esp ebp shell dp hp = Some r →
  ∃ k' next, r = SResume k' next (p_esp (pcbs k').[next]) (p_ebp (pcbs k').[next]) ∧
    get_next_proc (active k).[cur <- true] cur = Some next ∧
    length (pcbs k') = length (pcbs k) ∧ proc_id_used k' = proc_id_used k ∧
    active k' = (active k).[cur <- true] ∧ shells_started k' = 3 ∧
    (∀ q, ident (pcbs k').[q] = ident (pcbs k).[q]) ∧
    (∀ q, q ≠ cur → (pcbs k').[q] = (pcbs k).[q]).
Proof.
  intros Hcur Hs. unfold sched. cbv zeta. rewrite Hcur.
  set (upd := λ p : PCB, p <| p_esp := esp |> <| p_ebp := ebp |>).
  set (k1 := with_pcb _ cur upd).
  change (shells_started k1) with (shells_started k). rewrite Hs. cbn [Z.ltb Z.compare].
  change (3 <? 3) with false. cbv iota. change (active k1) with ((active k).[cur <- true]).
  destruct (get_next_proc _ cur) as [next|]; [rewrite bind_some|discriminate].
  unfold switch_to. cbv zeta. intros E. apply (inj Some) in E as <-.
  eexists _, next. split; [reflexivity|].
  split_and!; try done.
  - exact (length_with_pcb (mark_active k cur true) cur upd).
  - intros q. exact (ident_with_pcb (mark_active k cur true) cur upd q eq_refl).
  - intros q Hq. exact (get_with_pcb_ne (mark_active k cur true) cur upd q (not_eq_sym Hq)).
Qed.
End Inversion.
