(* ===== verification/System.v ===== *)
(** * The system as a state machine

    A state is the kernel and the process that runs; a step is a system call
    of that process or a timer interrupt.  Every step of the concrete kernel is
    a step of the abstract machine whose state is one stack of processes per
    terminal, and the relation between the two, with the descriptor tables, is
    an invariant of every execution. *)

From S2P Require Import Prelude Memory Lib Ports Types Filesystem I8259 RTC Paging Console Keyboard.
From S2P Require Import Kernel KernelProps Process Scheduler Forest.
#[local] Open Scope Z_scope.

(** ** The abstract machine *)

(** The processes of terminal [t], the running one first. *)
Definition stacks : Type := Z → list Z.

Definition stk_set (stk : stacks) (t : Z) (l : list Z) : stacks :=
  λ u, if u =? t then l else stk u.

(** Process [p] exists; [p] is on top of a stack. *)
Definition alive (stk : stacks) (p : Z) : Prop := ∃ t, 0 ≤ t < 3 ∧ p ∈ stk t.
Definition on_top (stk : stacks) (p : Z) : Prop := ∃ t, 0 ≤ t < 3 ∧ head (stk t) = Some p.

(** [q] is the first process after [p], in cyclic order, that satisfies [T]. *)
Definition next_after (T : Z → Prop) (p q : Z) : Prop :=
  T q ∧ ∃ d, 1 ≤ d ≤ 6 ∧ q = (p + d) mod 6 ∧ ∀ e, 1 ≤ e < d → ¬ T ((p + e) mod 6).

Inductive astep : stacks * Z → stacks * Z → Prop :=
| a_stay stk cur : astep (stk, cur) (stk, cur)
| a_push stk cur t pid :
    0 ≤ t < 3 → head (stk t) = Some cur → 0 ≤ pid < 6 → ¬ alive stk pid →
    (∀ p, 0 ≤ p < pid → alive stk p) →
    astep (stk, cur) (stk_set stk t (pid :: stk t), pid)
| a_pop stk cur t parent l :
    0 ≤ t < 3 → stk t = cur :: parent :: l →
    astep (stk, cur) (stk_set stk t (parent :: l), parent)
| a_restart stk t : 0 ≤ t < 3 → stk t = [t] → astep (stk, t) (stk, t)
| a_switch stk cur next :
    next_after (on_top stk) cur next → astep (stk, cur) (stk, next).

Lemma elem_mid (l : list Z) p r : p ∈ l ++ p :: r.
Proof. induction l as [|x l IH]; simpl; [left|by right]. Qed.

(** ** The next process *)

Lemma get_next_proc_spec (act : list bool) (cur : Z) :
  0 ≤ cur < 6 → (∃ q, 0 ≤ q < 6 ∧ act.[q] = true) →
  ∃ next, get_next_proc act cur = Some next ∧ 0 ≤ next < 6 ∧
          next_after (λ p, act.[p] = true) cur next.
Proof.
  intros Hc (q & Hq & Ha). unfold get_next_proc.
  assert (∃ dq, 1 ≤ dq ≤ 6 ∧ q = (cur + dq) mod 6) as (dq & Hdq & Eq).
  { destruct (decide (cur < q)); [exists (q - cur)|exists (q - cur + 6)];
      (split; [lia|]); Z.to_euclidean_division_equations; lia. }
  destruct (while_total (next_step act)
    (λ c, ∃ d, 0 ≤ d < 6 ∧ c = (cur + d) mod 6 ∧
               ∀ e, 1 ≤ e ≤ d → act.[(cur + e) mod 6] = false)
    (λ c, (cur - c - 1) mod 6)
    (λ next, 0 ≤ next < 6 ∧ next_after (λ p, act.[p] = true) cur next) cur)
    as (next & E & Hn); [..|by exists next].
  - intros c _. apply Z.mod_pos_bound. lia.
  - intros c (d & Hd & Ec & Hbefore). unfold next_step, MAX_USER_PROG. cbv zeta.
    assert ((if u32 (c + 1) >=? 6 then u32 (c + 1) - 6 else u32 (c + 1)) = (cur + (d + 1)) mod 6)
      as ->.
    { rewrite Z.geb_leb. rewrite u32_small by (Z.to_euclidean_division_equations; lia).
      destruct (Z.leb_spec 6 (c + 1)); Z.to_euclidean_division_equations; lia. }
    destruct (act.[(cur + (d + 1)) mod 6]) eqn:Ea.
    + split; [apply Z.mod_pos_bound; lia|]. split; [done|]. exists (d + 1).
      split; [lia|]. split; [done|]. intros e He. rewrite Hbefore by lia. done.
    + assert (d + 1 < 6) as Hd1.
      { destruct (decide (d + 1 < 6)); [done|]. exfalso.
        assert (dq ≤ d ∨ dq = d + 1) as [Hle| ->] by lia.
        - rewrite Eq, Hbefore in Ha by lia. done.
        - rewrite Eq, Ea in Ha. done. }
      split.
      * exists (d + 1). split; [lia|]. split; [done|]. intros e He.
        destruct (decide (e = d + 1)) as [->|]; [done|]. apply Hbefore. lia.
      * rewrite Ec. Z.to_euclidean_division_equations; lia.
  - exists 0. split; [lia|]. split; [Z.to_euclidean_division_equations; lia|]. intros. lia.
  - pose proof (Z.mod_pos_bound (cur - cur - 1) 6). lia.
Qed.

Lemma next_after_iff (T T' : Z → Prop) p q :
  (∀ x, 0 ≤ x < 6 → T x ↔ T' x) → 0 ≤ q < 6 → next_after T p q → next_after T' p q.
Proof.
  intros HT Hq (H1 & d & Hd & E & Hb). split; [by apply HT|]. exists d.
  split; [done|]. split; [done|]. intros e He Ht. apply (Hb e He), HT; [|done].
  apply Z.mod_pos_bound. lia.
Qed.

(** ** The relation *)

Section System.
Context {HL : Layout} {D : Type} `{!PortIO D}.
Implicit Types (k : kernel D) (cur pid p q t : Z) (stk : stacks).

Record forest k stk : Prop := {
  fo_pcbs : length (pcbs k) = 6%nat;
  fo_lused : length (proc_id_used k) = 6%nat;
  fo_lactive : length (active k) = 6%nat;
  fo_shells : shells_started k = 3;
  fo_range : ∀ t p, 0 ≤ t < 3 → p ∈ stk t → 0 ≤ p < 6;
  fo_used : ∀ p, 0 ≤ p < 6 → (proc_id_used k).[p] = true ↔ alive stk p;
  fo_active : ∀ p, 0 ≤ p < 6 → (active k).[p] = true ↔ on_top stk p;
  fo_root : ∀ t, 0 ≤ t < 3 → ∃ l, stk t = l ++ [t];
  fo_nodup : ∀ t, 0 ≤ t < 3 → NoDup (stk t);
  fo_disj : ∀ t u p, 0 ≤ t < 3 → 0 ≤ u < 3 → p ∈ stk t → p ∈ stk u → t = u;
  fo_pcb : ∀ t p, 0 ≤ t < 3 → p ∈ stk t →
    p_pid (pcbs k).[p] = p ∧ p_terminal_id (pcbs k).[p] = t;
  fo_parent : ∀ t l p q l', 0 ≤ t < 3 → stk t = l ++ p :: q :: l' → p_parent (pcbs k).[p] = q;
  fo_self : ∀ t, 0 ≤ t < 3 → p_parent (pcbs k).[t] = t
}.

(** ** The concrete machine *)

Inductive sys_step : kernel D * Z → kernel D * Z → Prop :=
| step_call k cur k' val :
    file_call k cur k' val → sys_step (k, cur) (k', cur)
| step_execute k cur esp ebp command dp hp k' pid eip u_esp :
    execute k cur esp ebp command dp hp = Some (ExUser k' pid eip u_esp) →
    sys_step (k, cur) (k', pid)
| step_execute_fails k cur esp ebp command dp hp k' val :
    execute k cur esp ebp command dp hp = Some (ExRet k' val) →
    sys_step (k, cur) (k', cur)
| step_halt k cur status esp ebp shell dp hp k' parent sp bp st :
    cur ≠ p_parent (pcbs k).[cur] →
    halt k cur status esp ebp shell dp hp = Some (HResume k' parent sp bp st) →
    sys_step (k, cur) (k', parent)
| step_halt_root k cur status esp ebp shell dp hp k' pid eip u_esp :
    halt k cur status esp ebp shell dp hp = Some (HUser k' pid eip u_esp) →
    sys_step (k, cur) (k', pid)
| step_tick k cur esp ebp shell dp hp k' next sp bp :
    pit_irq_handler k cur esp ebp shell dp hp = Some (SResume k' next sp bp) →
    sys_step (k, cur) (k', next).

(** The simulation relation: the stacks, the running process on top of one of
    them, and well-formed descriptor tables. *)
Record sim (s : kernel D * Z) (a : stacks * Z) : Prop := {
  sim_forest : forest s.1 a.1;
  sim_cur : s.2 = a.2;
  sim_top : on_top a.1 a.2;
  sim_files : all_files_ok s.1
}.

(** ** Consequences of the relation *)

Lemma top_alive stk p : on_top stk p → alive stk p.
Proof.
  intros (t & Ht & Hh). exists t. split; [done|]. apply head_Some_elem_of. done.
Qed.

Lemma forest_pcb k stk p : forest k stk → alive stk p → p_pid (pcbs k).[p] = p.
Proof. intros Hf (t & Ht & Hp). by apply (fo_pcb _ _ Hf t p). Qed.

Lemma alive_range k stk p : forest k stk → alive stk p → 0 ≤ p < 6.
Proof. intros Hf (t & Ht & Hp). by apply (fo_range _ _ Hf t). Qed.

(** The top of a stack is the root shell or has the next process as parent. *)
Lemma top_cases k stk t cur :
  forest k stk → 0 ≤ t < 3 → head (stk t) = Some cur →
  (stk t = [t] ∧ cur = t) ∨
  (∃ q l, stk t = cur :: q :: l ∧ p_parent (pcbs k).[cur] = q ∧ cur ≠ q).
Proof.
  intros Hf Ht Hh. pose proof (fo_root _ _ Hf t Ht) as [l0 Hr].
  pose proof (fo_nodup _ _ Hf t Ht) as Hd.
  destruct (stk t) as [|c [|q l]] eqn:E; simpl in Hh; simplify_eq/=.
  - left. destruct l0 as [|x [|y l0]]; by simplify_eq/=.
  - right. exists q, l. split; [done|]. split.
    + by apply (fo_parent _ _ Hf t [] cur q l).
    + intros ->. inversion Hd as [|? ? Hni _]. apply Hni. left.
Qed.

(** The parent of a process on top exists. *)
Lemma parent_alive k stk cur :
  forest k stk → on_top stk cur → alive stk (p_parent (pcbs k).[cur]).
Proof.
  intros Hf (t & Ht & Hh). exists t. split; [done|].
  destruct (top_cases k stk t cur Hf Ht Hh) as [[E ->]|(q & l & E & Hp & _)].
  - rewrite (fo_self _ _ Hf) by done. rewrite E. left.
  - rewrite Hp, E. right. left.
Qed.

(** ** Every step keeps the relation *)

Lemma who_fields (p q : PCB) :
  who p = who q → p_pid p = p_pid q ∧ p_parent p = p_parent q ∧ p_terminal_id p = p_terminal_id q.
Proof. unfold who. by intros [= -> -> ->]. Qed.

Lemma ident_who (p q : PCB) : ident p = ident q → who p = who q ∧ p_fd p = p_fd q.
Proof. unfold ident, who. by intros [= -> -> -> ->]. Qed.

(** The relation only looks at these parts of the kernel. *)
Lemma forest_ext k k' stk :
  length (pcbs k') = 6%nat → proc_id_used k' = proc_id_used k → active k' = active k →
  shells_started k' = shells_started k →
  (∀ q, alive stk q → who (pcbs k').[q] = who (pcbs k).[q]) →
  forest k stk → forest k' stk.
Proof.
  intros E1 E2 E3 E4 E5 [H1 H2 H3 H4 H5 H6 H7 H8 H9 H10 H11 H12 H13].
  assert (∀ t p, 0 ≤ t < 3 → p ∈ stk t → who (pcbs k').[p] = who (pcbs k).[p]) as Hw.
  { intros t p Ht Hp. apply E5. by exists t. }
  split; rewrite ?E2, ?E3, ?E4; try done.
  - intros t p Ht Hp. destruct (who_fields _ _ (Hw t p Ht Hp)) as (-> & _ & ->). by apply H11.
  - intros t l p q l' Ht Hs. destruct (who_fields _ _ (Hw t p Ht ltac:(rewrite Hs; apply elem_mid)))
      as (_ & -> & _). by apply (H12 t l p q l').
  - intros t Ht. destruct (H8 t Ht) as [l Hl].
    destruct (who_fields _ _ (Hw t t Ht ltac:(rewrite Hl; apply elem_mid))) as (_ & -> & _).
    by apply H13.
Qed.

Lemma forest_keeps cur k k' stk : keeps cur k k' → forest k stk → forest k' stk.
Proof.
  intros Hk Hf. apply (forest_ext k); try apply Hk; [|intros q _; by apply (keeps_who cur)|done].
  rewrite (ke_len _ _ _ Hk). apply Hf.
Qed.

Lemma getargs_keeps k cur buf n k' val : getargs k cur buf n = Some (k', val) → keeps cur k k'.
Proof.
  unfold getargs. destruct (_ >? _); [intros [= <- _]; apply keeps_refl|].
  destruct (getargs_copy _ _ _ _ _); [|discriminate]. rewrite bind_some.
  intros [= <- _]. by apply keeps_pcbs.
Qed.

Lemma file_call_keeps k cur k' val : file_call k cur k' val → keeps cur k k'.
Proof.
  intros Hc. destruct Hc as
    [fd buf n before keys ticks k' val keys' ticks' E|fd buf n rate0 keys ticks k' val keys' ticks' E
    |filename dp k' val E|fd k' val E|buf n k' val _ E|screen k' val E].
  - revert E. unfold read. destruct (fd_unused k cur fd); [|discriminate].
    destruct (_ || _); [intros [= <- _ _ _]; apply keeps_refl|].
    destruct (f_op (get_fd k cur fd)); [discriminate|..].
    + destruct (line_mapped _ _ _ _ _ _ _) as [[]|]; rewrite ?bind_some; cbn [negb]; try discriminate.
      destruct (terminal_read _ _ _ _ _ _ _ _) as [[[[? ?] ?] ?]|]; [|discriminate].
      rewrite bind_some. intros [= <- _ _ _]. by apply keeps_pcbs.
    + intros [= <- _ _ _]. apply keeps_refl.
    + destruct (RTC_read _ _ _ _) as [[[[? ?] ?] ?]|]; [|discriminate].
      rewrite bind_some. intros [= <- _ _ _]. by apply keeps_pcbs.
    + destruct (dir_read _ _ _ _ _) as [[[m ?] ?]|]; [|discriminate]. rewrite bind_some.
      destruct (all_mapped _ _ _); [|discriminate]. intros [= <- _ _ _]. apply (keeps_trans cur k (with_mem k m));
        [by apply keeps_pcbs|apply keeps_set_fd].
    + destruct (file_read _ _ _ _ _) as [[[m ?] ?]|]; [|discriminate]. rewrite bind_some.
      destruct (all_mapped _ _ _); [|discriminate]. intros [= <- _ _ _]. apply (keeps_trans cur k (with_mem k m));
        [by apply keeps_pcbs|apply keeps_set_fd].
  - revert E. unfold write. destruct (fd_unused k cur fd); [|discriminate].
    destruct (_ || _); [intros [= <- _ _ _]; apply keeps_refl|].
    destruct (is_kernel_ptr buf); [intros [= <- _ _ _]; apply keeps_refl|].
    destruct (f_op (get_fd k cur fd)); [discriminate|intros [= <- _ _ _]; apply keeps_refl|..];
      try (intros [= <- _ _ _]; apply keeps_refl).
    + destruct (terminal_write _ _ _ _) as [[? ?]|]; [|discriminate].
      rewrite bind_some. destruct (_ && _); [discriminate|]. intros [= <- _ _ _]. by apply keeps_pcbs.
    + destruct (_ && _); [discriminate|]. destruct (RTC_write _ _ _ _ _). intros [= <- _ _ _]. by apply keeps_pcbs.
  - revert E. unfold open. destruct (filename =? 0); [intros [= <- _]; apply keeps_refl|].
    destruct (strlen _ _) as [len|]; [|discriminate]. rewrite bind_some.
    destruct (mapped _ _); [|discriminate]. cbn [negb].
    destruct (read_dentry_by_name _ _ _ _) as [[m r]|]; [|discriminate]. rewrite bind_some.
    cbv zeta. assert (keeps cur k (with_mem k m)) as Hm by by apply keeps_pcbs.
    destruct (r =? 0); [|by intros [= <- _]].
    destruct (free_fd _ _ _) as [i|]; [|by intros [= <- _]].
    destruct (fop_open _ _) as [[[k1 f] ret]|] eqn:Eo; [|discriminate]. intros [= <- _].
    apply (keeps_trans cur k k1); [|apply keeps_set_fd]. apply (keeps_trans _ _ _ _ Hm).
    revert Eo. unfold fop_open. destruct (f_op _); try discriminate;
      try (intros [= <- _ _]; apply keeps_refl).
    destruct (RTC_open _ _ _) as [[p d] x]. intros [= <- _ _]. by apply keeps_pcbs.
  - by apply close_keeps in E.
  - by apply getargs_keeps in E.
  - revert E. unfold vidmap. destruct (_ || _); [intros [= <- _]; apply keeps_refl|].
    destruct (forallb _ _); [|discriminate]. intros [= <- _]. by apply keeps_pcbs.
Qed.

Lemma file_call_files k cur k' val :
  all_files_ok k → live k cur → file_call k cur k' val → all_files_ok k'.
Proof.
  intros Hk Hl Hc. destruct Hc as
    [fd buf n before keys ticks k' val keys' ticks' E|fd buf n rate0 keys ticks k' val keys' ticks' E
    |filename dp k' val E|fd k' val E|buf n k' val _ E|screen k' val E].
  - by apply read_files in E.
  - apply write_files in E. by apply (all_files_procs k).
  - by apply open_files in E.
  - by apply close_files in E.
  - apply getargs_pcbs in E. by apply (all_files_procs k).
  - apply vidmap_pcbs in E. by apply (all_files_procs k).
Qed.

Lemma initial_files : files_ok initial_fds.
Proof.
  split; try done. intros i Hi. left.
  assert (i = 2 ∨ i = 3 ∨ i = 4 ∨ i = 5 ∨ i = 6 ∨ i = 7) as [->|[->|[->|[->|[->| ->]]]]] by lia; done.
Qed.

Lemma spawned_files k k' pid parent terminal_id :
  length (pcbs k) = 6%nat → length (proc_id_used k) = 6%nat → 0 ≤ pid < 6 →
  spawned k k' pid parent terminal_id → all_files_ok k → all_files_ok k'.
Proof.
  intros Hl Hlu Hp [H1 H2 H3 H4 H5 H6] [_ Hf]. split; [congruence|].
  intros p [Hr Hu]. unfold fds_of. destruct (decide (p = pid)) as [->|Hne].
  - unfold ident in H4. injection H4 as _ _ _ ->. apply initial_files.
  - destruct (ident_who _ _ (H5 p Hne)) as [_ ->]. apply Hf. split; [done|].
    by rewrite H2, aget_aset_ne in Hu by congruence.
Qed.

(** ** Pushing and popping *)

Lemma stk_set_eq stk t l : stk_set stk t l t = l.
Proof. unfold stk_set. by rewrite Z.eqb_refl. Qed.

Lemma stk_set_ne stk t l u : u ≠ t → stk_set stk t l u = stk u.
Proof. intros. unfold stk_set. by rewrite (proj2 (Z.eqb_neq u t)). Qed.

Lemma alive_push stk t pid p :
  0 ≤ t < 3 → alive (stk_set stk t (pid :: stk t)) p ↔ p = pid ∨ alive stk p.
Proof.
  intros Ht. split.
  - intros (u & Hu & Hp). destruct (decide (u = t)) as [->|Hne].
    + rewrite stk_set_eq in Hp. apply elem_of_cons in Hp as [->|Hp]; [by left|].
      right. by exists t.
    + rewrite stk_set_ne in Hp by done. right. by exists u.
  - intros [->|(u & Hu & Hp)].
    + exists t. split; [done|]. rewrite stk_set_eq. left.
    + exists u. split; [done|]. destruct (decide (u = t)) as [->|Hne].
      * rewrite stk_set_eq. by right.
      * by rewrite stk_set_ne.
Qed.

Lemma top_push k stk t cur pid p :
  forest k stk → 0 ≤ t < 3 → head (stk t) = Some cur →
  on_top (stk_set stk t (pid :: stk t)) p ↔ p = pid ∨ (on_top stk p ∧ p ≠ cur).
Proof.
  intros Hf Ht Hc. split.
  - intros (u & Hu & Hp). destruct (decide (u = t)) as [->|Hne].
    + rewrite stk_set_eq in Hp. simpl in Hp. left. congruence.
    + rewrite stk_set_ne in Hp by done. right. split; [by exists u|]. intros ->. apply Hne.
      apply (fo_disj _ _ Hf u t cur); try done; by apply head_Some_elem_of.
  - intros [->|[(u & Hu & Hp) Hne]].
    + exists t. by rewrite stk_set_eq.
    + exists u. split; [done|]. rewrite stk_set_ne; [done|]. intros ->. congruence.
Qed.

Lemma root_alive k stk t : forest k stk → 0 ≤ t < 3 → t ∈ stk t.
Proof. intros Hf Ht. destruct (fo_root _ _ Hf t Ht) as [l ->]. apply elem_mid. Qed.

(** Processes beyond the root shells get ids from 3 on. *)
Lemma free_pid_3 k stk pid :
  forest k stk → free_pid (proc_id_used k) 6 0 = Some pid →
  3 ≤ pid < 6 ∧ ¬ alive stk pid ∧ ∀ p, 0 ≤ p < pid → alive stk p.
Proof.
  intros Hf E. pose proof (free_pid_spec (proc_id_used k) 6 0) as Hs. rewrite E in Hs.
  destruct Hs as (Hp & Hu & Hb).
  assert (¬ alive stk pid) as Hna.
  { intros Ha. apply (fo_used _ _ Hf pid) in Ha; [congruence|lia]. }
  split.
  - destruct (decide (3 ≤ pid)); [lia|]. destruct Hna. exists pid. split; [lia|].
    apply (root_alive k); [done|lia].
  - split; [done|]. intros p Hp'. apply (fo_used _ _ Hf p); [lia|]. apply Hb. lia.
Qed.

Lemma forest_push k k' stk t cur pid :
  forest k stk → 0 ≤ t < 3 → head (stk t) = Some cur →
  3 ≤ pid < 6 → ¬ alive stk pid → spawned k k' pid cur t →
  forest k' (stk_set stk t (pid :: stk t)).
Proof.
  intros Hf Ht Hc Hp Hna [S1 S2 S3 S4 S5 S6].
  pose proof Hf as [H1 H2 H3 H4 H5 H6 H7 H8 H9 H10 H11 H12 H13].
  assert (cur ∈ stk t) as Hct by by apply head_Some_elem_of.
  assert (0 ≤ cur < 6) as Hcr by by apply (H5 t).
  assert (∀ u p, 0 ≤ u < 3 → p ∈ stk u → p ≠ pid) as Hne.
  { intros u p Hu Hpu ->. apply Hna. by exists u. }
  assert (∀ u p, 0 ≤ u < 3 → p ∈ stk u → who (pcbs k').[p] = who (pcbs k).[p]) as Hwho.
  { intros u p Hu Hpu. apply ident_who, S5, (Hne u); done. }
  assert (p_pid (pcbs k').[pid] = pid ∧ p_parent (pcbs k').[pid] = cur ∧
          p_terminal_id (pcbs k').[pid] = t) as (N1 & N2 & N3).
  { unfold ident in S4. by injection S4. }
  assert (∀ u p, 0 ≤ u < 3 → p ∈ stk_set stk t (pid :: stk t) u →
            (u = t ∧ p = pid) ∨ p ∈ stk u) as Hin.
  { intros u p Hu Hpu. destruct (decide (u = t)) as [->|Hn].
    - rewrite stk_set_eq in Hpu. apply elem_of_cons in Hpu as [->|Hpu]; auto.
    - rewrite stk_set_ne in Hpu by done. by right. }
  split.
  - congruence.
  - by rewrite S2, length_aset.
  - by rewrite S3, !length_aset.
  - congruence.
  - intros u p Hu Hpu. destruct (Hin u p Hu Hpu) as [[_ ->]|Hpu']; [lia|by apply (H5 u)].
  - intros p Hpr. rewrite alive_push, S2, aget_aset by (done || lia).
    case_decide; [subst; tauto|]. rewrite H6 by done. split; [auto|]. by intros [->|].
  - intros p Hpr. rewrite (top_push k stk t cur) by done.
    rewrite S3, aget_aset by (rewrite length_aset; lia). case_decide; [subst; tauto|].
    rewrite aget_aset by lia. case_decide as Ed.
    + rewrite <- Ed. split; [done|]. intros [Hx|[_ Hx]]; congruence.
    + rewrite H7 by done. split; [auto|]. intros [->|[Hx _]]; [done|done].
  - intros u Hu. destruct (H8 u Hu) as [l Hl]. destruct (decide (u = t)) as [->|Hn].
    + exists (pid :: l). by rewrite stk_set_eq, Hl.
    + exists l. by rewrite stk_set_ne.
  - intros u Hu. destruct (decide (u = t)) as [->|Hn].
    + rewrite stk_set_eq. constructor; [|by apply H9]. intros Hx. by apply (Hne t pid).
    + rewrite stk_set_ne by done. by apply H9.
  - intros u v p Hu Hv Hpu Hpv. destruct (Hin u p Hu Hpu) as [[E1 E2]|Hpu'],
      (Hin v p Hv Hpv) as [[E3 E4]|Hpv'].
    + congruence.
    + by destruct (Hne v p Hv Hpv').
    + by destruct (Hne u p Hu Hpu').
    + by apply (H10 u v p).
  - intros u p Hu Hpu. destruct (Hin u p Hu Hpu) as [[-> ->]|Hpu']; [done|].
    destruct (who_fields _ _ (Hwho u p Hu Hpu')) as (-> & _ & ->). by apply H11.
  - intros u l p q l' Hu Hs. destruct (decide (u = t)) as [->|Hn].
    + rewrite stk_set_eq in Hs. destruct l as [|x l]; injection Hs as Ex Hs.
      * rewrite <- Ex. rewrite Hs in Hc. injection Hc as ->. exact N2.
      * assert (p ∈ stk t) as Hpt by (rewrite Hs; apply elem_mid).
        destruct (who_fields _ _ (Hwho t p Ht Hpt)) as (_ & -> & _). by apply (H12 t l p q l').
    + rewrite stk_set_ne in Hs by done.
      assert (p ∈ stk u) as Hpt by (rewrite Hs; apply elem_mid).
      destruct (who_fields _ _ (Hwho u p Hu Hpt)) as (_ & -> & _). by apply (H12 u l p q l').
  - intros u Hu. pose proof (root_alive k stk u Hf Hu) as Hr.
    destruct (who_fields _ _ (Hwho u u Hu Hr)) as (_ & -> & _). by apply H13.
Qed.

Lemma forest_pop k k' stk t cur parent l :
  forest k stk → 0 ≤ t < 3 → stk t = cur :: parent :: l → reaped k k' cur parent →
  forest k' (stk_set stk t (parent :: l)).
Proof.
  intros Hf Ht Es [S1 S2 S3 S4 S5 S6 _].
  pose proof Hf as [H1 H2 H3 H4 H5 H6 H7 H8 H9 H10 H11 H12 H13].
  assert (cur ∈ stk t) as Hct by (rewrite Es; left).
  assert (parent ∈ stk t) as Hpt by (rewrite Es; right; left).
  pose proof (H5 t cur Ht Hct) as Hcr. pose proof (H5 t parent Ht Hpt) as Hprr.
  pose proof (H9 t Ht) as Hnd. rewrite Es in Hnd. inversion Hnd as [|? ? Hcn Hnd' Ex]; subst.
  assert (∀ u p, 0 ≤ u < 3 → (p ∈ stk_set stk t (parent :: l) u ↔ p ∈ stk u ∧ p ≠ cur)) as Hin.
  { intros u p Hu. destruct (decide (u = t)) as [->|Hn].
    - rewrite stk_set_eq, Es. split.
      + intros Hp. split; [by right|]. by intros ->.
      + intros [Hp Hne]. apply elem_of_cons in Hp as [->|Hp]; done.
    - rewrite stk_set_ne by done. split; [|by intros []]. intros Hp. split; [done|].
      intros ->. apply Hn. by apply (H10 u t cur). }
  assert (∀ p, who (pcbs k').[p] = who (pcbs k).[p]) as Hwho.
  { intros p. destruct (decide (p = cur)) as [->|Hne]; [done|by rewrite S6]. }
  assert (∀ p, alive (stk_set stk t (parent :: l)) p ↔ alive stk p ∧ p ≠ cur) as Hal.
  { intros p. split.
    - intros (u & Hu & Hp). apply Hin in Hp as [Hp Hne]; [|done]. split; [by exists u|done].
    - intros [(u & Hu & Hp) Hne]. exists u. split; [done|]. by apply Hin. }
  assert (∀ p, on_top (stk_set stk t (parent :: l)) p ↔ p = parent ∨ (on_top stk p ∧ p ≠ cur))
    as Htop.
  { intros p. split.
    - intros (u & Hu & Hp). destruct (decide (u = t)) as [->|Hn].
      + rewrite stk_set_eq in Hp. simpl in Hp. left. congruence.
      + rewrite stk_set_ne in Hp by done. right. split; [by exists u|]. intros ->. apply Hn.
        apply (H10 u t cur); try done. by apply head_Some_elem_of.
    - intros [->|[(u & Hu & Hp) Hne]].
      + exists t. by rewrite stk_set_eq.
      + exists u. split; [done|]. rewrite stk_set_ne; [done|]. intros ->.
        rewrite Es in Hp. simpl in Hp. congruence. }
  split.
  - congruence.
  - by rewrite S2, length_aset.
  - by rewrite S3, !length_aset.
  - congruence.
  - intros u p Hu Hp. apply Hin in Hp as [Hp _]; [|done]. by apply (H5 u).
  - intros p Hp. rewrite Hal, S2, aget_aset by lia. case_decide; [subst; split; [done|by intros []]|].
    rewrite H6 by done. split; [auto|by intros []].
  - intros p Hp. rewrite Htop, S3, aget_aset by (rewrite length_aset; lia).
    case_decide; [subst; tauto|]. rewrite aget_aset by lia. case_decide as Ed.
    + rewrite <- Ed. split; [done|]. intros [Hx|[_ Hx]]; congruence.
    + rewrite H7 by done. split; [auto|]. intros [->|[Hx _]]; done.
  - intros u Hu. destruct (decide (u = t)) as [->|Hn].
    + destruct (H8 t Ht) as [l0 Hl]. rewrite stk_set_eq. rewrite Es in Hl.
      destruct l0 as [|x l0]; simplify_eq/=. eauto.
    + rewrite stk_set_ne by done. by apply H8.
  - intros u Hu. destruct (decide (u = t)) as [->|Hn].
    + by rewrite stk_set_eq.
    + rewrite stk_set_ne by done. by apply H9.
  - intros u v p Hu Hv Hpu Hpv. apply Hin in Hpu as [Hpu _], Hpv as [Hpv _]; try done.
    by apply (H10 u v p).
  - intros u p Hu Hp. apply Hin in Hp as [Hp _]; [|done].
    destruct (who_fields _ _ (Hwho p)) as (-> & _ & ->). by apply H11.
  - intros u l1 p q l' Hu Hs. destruct (who_fields _ _ (Hwho p)) as (_ & -> & _).
    destruct (decide (u = t)) as [->|Hn].
    + rewrite stk_set_eq in Hs. apply (H12 t (cur :: l1) p q l'); [done|].
      by rewrite Es, Hs.
    + rewrite stk_set_ne in Hs by done. by apply (H12 u l1 p q l').
  - intros u Hu. destruct (who_fields _ _ (Hwho u)) as (_ & -> & _). by apply H13.
Qed.

Lemma forest_restart k k1 k' stk t pid term :
  forest k stk → 0 ≤ t < 3 → stk t = [t] → reaped k k1 t t →
  free_pid (proc_id_used k1) 6 0 = Some pid →
  spawned k1 k' pid (if pid <=? 2 then pid else t) (if pid <=? 2 then pid else term) →
  pid = t ∧ forest k' stk.
Proof.
  intros Hf Ht Est R Efree S.
  assert (∀ p, 0 ≤ p < 3 → (proc_id_used k).[p] = true) as Hroots.
  { intros p Hp. apply (fo_used _ _ Hf); [lia|]. exists p. split; [done|]. by apply (root_alive k). }
  pose proof (fo_lused _ _ Hf) as Hlu.
  assert (pid = t) as ->.
  { pose proof (free_pid_spec (proc_id_used k1) 6 0) as Hs. rewrite Efree in Hs.
    destruct Hs as (Hp & Hu & Hb). rewrite (re_used _ _ _ _ R) in Hu, Hb.
    destruct (decide (pid = t)); [done|]. exfalso. destruct (decide (t < pid)).
    - specialize (Hb t ltac:(lia)). by rewrite aget_aset_eq in Hb by lia.
    - rewrite aget_aset_ne, Hroots in Hu by lia. done. }
  split; [done|]. rewrite (proj2 (Z.leb_le t 2)) in S by lia.
  assert ((active k).[t] = true) as Hact.
  { apply (fo_active _ _ Hf); [lia|]. exists t. by rewrite Est. }
  destruct R as [R1 R2 R3 R4 R5 R6 _], S as [S1 S2 S3 S4 S5 S6].
  apply (forest_ext k); [..|done].
  - rewrite S1, R1. apply Hf.
  - rewrite S2, R2, aset_aset, <- (Hroots t Ht). apply aset_same.
  - rewrite S3, R3, !aset_aset, <- Hact. apply aset_same.
  - congruence.
  - intros q _. destruct (decide (q = t)) as [->|Hne].
    + destruct (fo_pcb _ _ Hf t t Ht (root_alive k stk t Hf Ht)) as [E1 E2].
      pose proof (fo_self _ _ Hf t Ht) as E3. unfold ident in S4. injection S4 as F1 F2 F3 _.
      unfold who. congruence.
    + destruct (ident_who _ _ (S5 q Hne)) as [-> _]. by rewrite R6.
Qed.

Lemma reaped_files k k1 cur parent :
  0 ≤ cur < 6 → length (proc_id_used k) = 6%nat →
  reaped k k1 cur parent → all_files_ok k → all_files_ok k1.
Proof.
  intros Hc Hlu [R1 R2 R3 R4 R5 R6 _] [Hl Hf]. split; [congruence|].
  intros p [Hp Hu]. rewrite R2, aget_aset in Hu by lia. case_decide; [done|].
  unfold fds_of. rewrite R6 by congruence. by apply Hf.
Qed.

Lemma next_cur_top k stk cur next :
  forest k stk → on_top stk cur →
  get_next_proc (active k).[cur <- true] cur = Some next →
  next_after (on_top stk) cur next ∧ on_top stk next.
Proof.
  intros Hf Htop. pose proof (alive_range k stk cur Hf (top_alive _ _ Htop)) as Hc.
  assert ((active k).[cur] = true) as Ha by by apply (fo_active _ _ Hf).
  rewrite <- Ha, aset_same. intros E.
  destruct (get_next_proc_spec (active k) cur Hc) as (next' & E' & Hn & Hnext); [by eauto|].
  rewrite E in E'. injection E' as <-.
  assert (next_after (on_top stk) cur next) as HN.
  { apply (next_after_iff (λ p, (active k).[p] = true)); [|done|done].
    intros x Hx. by apply (fo_active _ _ Hf). }
  split; [done|apply HN].
Qed.

Lemma sim_live s a : sim s a → live s.1 s.2.
Proof.
  intros [Hf Hc Ht _]. rewrite Hc. apply top_alive in Ht.
  pose proof (alive_range _ _ _ Hf Ht). split; [done|]. by apply (fo_used _ _ Hf).
Qed.

Lemma execute_simulates k cur stk esp ebp command dp hp k' pid eip u_esp :
  sim (k, cur) (stk, cur) →
  execute k cur esp ebp command dp hp = Some (ExUser k' pid eip u_esp) →
  ∃ t, 0 ≤ t < 3 ∧ head (stk t) = Some cur ∧ 3 ≤ pid < 6 ∧ ¬ alive stk pid ∧
    (∀ p, 0 ≤ p < pid → alive stk p) ∧ sim (k', pid) (stk_set stk t (pid :: stk t), pid).
Proof.
  intros [Hf _ Htop Hfiles] E. cbn [fst snd] in *.
  destruct (execute_inv k cur esp ebp command dp hp _ (fo_pcbs _ _ Hf) (fo_lused _ _ Hf)
    (forest_pcb _ _ _ Hf (top_alive _ _ Htop)) E) as [Efree S].
  clear E. destruct (free_pid_3 _ _ _ Hf Efree) as (Hpid & Hna & Hbelow).
  rewrite (proj2 (Z.leb_gt pid 2)) in S by lia.
  destruct Htop as (t & Ht & Hh). exists t. split; [done|]. split; [done|]. split; [done|].
  split; [done|]. split; [done|].
  assert (cur ∈ stk t) as Hct by by apply head_Some_elem_of.
  destruct (fo_pcb _ _ Hf t cur Ht Hct) as [_ Eterm]. rewrite Eterm in S.
  split; cbn [fst snd].
  - by apply (forest_push k k' stk t cur).
  - done.
  - exists t. by rewrite stk_set_eq.
  - by apply (spawned_files k k' pid cur t); try apply Hf; [lia|..].
Qed.

Lemma halt_pop_simulates k cur stk status esp ebp shell dp hp k' par sp bp st :
  sim (k, cur) (stk, cur) → cur ≠ p_parent (pcbs k).[cur] →
  halt k cur status esp ebp shell dp hp = Some (HResume k' par sp bp st) →
  ∃ t l, 0 ≤ t < 3 ∧ stk t = cur :: par :: l ∧ sim (k', par) (stk_set stk t (par :: l), par).
Proof.
  intros [Hf _ Htop Hfiles] Hne E. cbn [fst snd] in *.
  pose proof (forest_pcb _ _ _ Hf (top_alive _ _ Htop)) as Hpid.
  pose proof (forest_pcb _ _ _ Hf (parent_alive _ _ _ Hf Htop)) as Hppid.
  pose proof (alive_range _ _ _ Hf (top_alive _ _ Htop)) as Hcr.
  destruct (halt_inv k cur status esp ebp shell dp hp _ Hpid Hppid E) as [_ Hr]. clear E.
  destruct (Hr Hne) as (R & -> & _). destruct Htop as (t & Ht & Hh).
  destruct (top_cases k stk t cur Hf Ht Hh) as [[Es ->]|(q & l & Es & Ep & _)].
  - destruct Hne. symmetry. by apply (fo_self _ _ Hf).
  - rewrite Ep in *. exists t, l. split; [done|]. split; [done|]. split; cbn [fst snd].
    + by apply (forest_pop k k' stk t cur q l).
    + done.
    + exists t. by rewrite stk_set_eq.
    + by apply (reaped_files k k' cur q); try apply Hf.
Qed.

Lemma halt_root_simulates k cur stk status esp ebp shell dp hp k' pid eip u_esp :
  sim (k, cur) (stk, cur) →
  halt k cur status esp ebp shell dp hp = Some (HUser k' pid eip u_esp) →
  ∃ t, 0 ≤ t < 3 ∧ stk t = [t] ∧ cur = t ∧ pid = t ∧ sim (k', pid) (stk, pid).
Proof.
  intros [Hf _ Htop Hfiles] E. cbn [fst snd] in *.
  pose proof (forest_pcb _ _ _ Hf (top_alive _ _ Htop)) as Hpid.
  pose proof (forest_pcb _ _ _ Hf (parent_alive _ _ _ Hf Htop)) as Hppid.
  pose proof (alive_range _ _ _ Hf (top_alive _ _ Htop)) as Hcr.
  destruct (halt_inv k cur status esp ebp shell dp hp _ Hpid Hppid E) as (Hroot & k1 & R & Ex).
  clear E.
  destruct Htop as (t & Ht & Hh).
  destruct (top_cases k stk t cur Hf Ht Hh) as [[Es ->]|(q & l & Es & Ep & Hne)]; [|congruence].
  rewrite <- Hroot in R. exists t. split; [done|]. split; [done|]. split; [done|].
  assert (p_pid (pcbs k1).[t] = t) as Hpid1.
  { by destruct (who_fields _ _ (re_who _ _ _ _ R)) as (-> & _). }
  apply execute_inv in Ex as [Efree S]; [|..|exact Hpid1].
  - destruct (forest_restart k k1 k' stk t pid (p_terminal_id (pcbs k1).[t]) Hf Ht Es R Efree S)
      as [-> Hf']. split; [done|]. split; cbn [fst snd]; try done; [by exists t|].
    apply (spawned_files k1 k' t _ _) in S; [done|..].
    + rewrite (re_len _ _ _ _ R). apply Hf.
    + rewrite (re_used _ _ _ _ R), length_aset. apply Hf.
    + lia.
    + apply (reaped_files k k1 t t); try done. apply Hf.
  - rewrite (re_len _ _ _ _ R). apply Hf.
  - rewrite (re_used _ _ _ _ R), length_aset. apply Hf.
Qed.

Lemma tick_simulates k cur stk esp ebp shell dp hp k' next sp bp :
  sim (k, cur) (stk, cur) →
  pit_irq_handler k cur esp ebp shell dp hp = Some (SResume k' next sp bp) →
  next_after (on_top stk) cur next ∧ sim (k', next) (stk, next).
Proof.
  intros [Hf _ Htop Hfiles] E. cbn [fst snd] in *.
  pose proof (forest_pcb _ _ _ Hf (top_alive _ _ Htop)) as Hpid.
  pose proof (alive_range _ _ _ Hf (top_alive _ _ Htop)) as Hcr.
  unfold pit_irq_handler in E. set (k0 := with_dev k _) in E.
  destruct (sched_inv k0 cur esp ebp shell dp hp _ Hpid (fo_shells _ _ Hf) E)
    as (k2 & next' & [= -> ->] & En & H1 & H2 & H3 & H4 & H5 & _).
  clear E. change (active k0) with (active k) in *. change (pcbs k0) with (pcbs k) in *.
  change (proc_id_used k0) with (proc_id_used k) in *.
  destruct (next_cur_top k stk cur next' Hf Htop En) as [Hn Htop'].
  split; [done|]. split; cbn [fst snd]; try done.
  - apply (forest_ext k); [..|done].
    + rewrite H1. apply Hf.
    + exact H2.
    + rewrite H3. rewrite <- (proj2 (fo_active _ _ Hf cur Hcr) Htop) at 1. apply aset_same.
    + rewrite H4. symmetry. apply Hf.
    + intros q _. apply ident_who, H5.
  - destruct Hfiles as [Hl Hfd]. split; [by rewrite H1|].
    intros p [Hp Hu]. unfold fds_of. destruct (ident_who _ _ (H5 p)) as [_ ->].
    apply Hfd. split; [done|]. by rewrite <- H2.
Qed.

Lemma step_simulates s s' a :
  sim s a → sys_step s s' → ∃ a', astep a a' ∧ sim s' a'.
Proof.
  intros Hs Hstep. pose proof (sim_live s a Hs) as Hlive. destruct a as [stk cur'].
  pose proof Hs as [Hf Hcur Htop Hfiles]. destruct Hstep as [k cur k' val E
    |k cur esp ebp command dp hp k' pid eip u E|k cur esp ebp command dp hp k' val E
    |k cur status esp ebp shell dp hp k' par sp bp st Hne E
    |k cur status esp ebp shell dp hp k' pid eip u E|k cur esp ebp shell dp hp k' next sp bp E];
    cbn [fst snd] in *; subst cur'.
  - exists (stk, cur). split; [constructor|]. split; cbn [fst snd]; try done.
    + apply (forest_keeps cur k); [by apply (file_call_keeps _ _ _ val)|done].
    + by apply (file_call_files k cur k' val).
  - destruct (execute_simulates k cur stk _ _ _ _ _ _ _ _ _ Hs E)
      as (t & Ht & Hh & Hp & Hna & Hb & Hsim).
    eexists. split; [|exact Hsim]. apply a_push; try done. lia.
  - exists (stk, cur). split; [constructor|].
    destruct (execute_inv k cur esp ebp command dp hp _ (fo_pcbs _ _ Hf) (fo_lused _ _ Hf)
      (forest_pcb _ _ _ Hf (top_alive _ _ Htop)) E) as (_ & H1 & H2 & H3 & H4 & H5).
    clear E.
    assert (∀ q, alive stk q → (pcbs k').[q] = (pcbs k).[q]) as Hp.
    { intros q Hq. apply H5. apply (fo_used _ _ Hf); [|done]. by apply (alive_range k stk). }
    split; cbn [fst snd]; try done.
    + apply (forest_ext k); try done. intros q Hq. by rewrite Hp.
    + split; [done|]. intros p [Hpr Hu]. rewrite H2 in Hu. unfold fds_of. rewrite H5 by done.
      by apply Hfiles.
  - destruct (halt_pop_simulates k cur stk _ _ _ _ _ _ _ _ _ _ _ Hs Hne E) as (t & l & Ht & Es & Hsim).
    eexists. split; [|exact Hsim]. by apply (a_pop stk cur t par l).
  - destruct (halt_root_simulates k cur stk _ _ _ _ _ _ _ _ _ _ Hs E)
      as (t & Ht & Es & -> & -> & Hsim).
    exists (stk, t). split; [by apply a_restart|done].
  - destruct (tick_simulates k cur stk _ _ _ _ _ _ _ _ _ Hs E) as [Hn Hsim].
    eexists. split; [|exact Hsim]. by apply a_switch.
Qed.

End System.
