(* ===== verification/SystemProps.v ===== *)
(** * Properties of executions of the system

    Consequences of the simulation of [System] for every reachable state,
    progress of the scheduler, and fairness of the round robin. *)

From stdpp Require Import relations.
From S2P Require Import Prelude Memory Lib Ports Types Filesystem I8259 RTC Paging PagingProps.
From S2P Require Import Console Keyboard TerminalProps Kernel KernelProps KernelDemo.
From S2P Require Import Process Scheduler Forest System.
#[local] Open Scope Z_scope.

Section Executions.
Context {HL : Layout} {D : Type} `{!PortIO D}.
Implicit Types (k : kernel D) (cur pid p q t : Z) (stk : stacks).

Lemma reachable_sim s s' a : rtc sys_step s s' → sim s a → ∃ a', rtc astep a a' ∧ sim s' a'.
Proof.
  intros Hr. revert a. induction Hr as [s|s s1 s2 Hs _ IH]; intros a Ha; [by exists a|].
  pose proof Ha as Ha'.
  assert (∃ a1, astep a a1 ∧ sim s1 a1) as (a1 & Hstep & Ha1) by exact (step_simulates s s1 a Ha Hs).
  destruct (IH a1 Ha1) as (a2 & Hr2 & Ha2). exists a2. split; [by eapply rtc_l|done].
Qed.


(** C32 (the timer always finds a process). With the three shells up, the timer
    handler returns: the search for the next process terminates, and some
    process that was waiting on top of a stack (possibly the same one) is
    continued with the stack and frame pointers that were saved for it, on its
    own kernel stack. *)
Theorem timer_progress k cur stk esp ebp shell dp hp :
  sim (k, cur) (stk, cur) →
  ∃ k' next, pit_irq_handler k cur esp ebp shell dp hp =
      Some (SResume k' next (p_esp (pcbs k').[next]) (p_ebp (pcbs k').[next])) ∧
    next_after (on_top stk) cur next ∧
    p_esp (pcbs k').[cur] = esp ∧ p_ebp (pcbs k').[cur] = ebp ∧
    (∀ q, q ≠ cur → (pcbs k').[q] = (pcbs k).[q]) ∧
    tss_esp0 k' = pcb_addr next + KB8 - 4 ∧ cr3 (kmem k') = pd_addr next.
Proof.
  intros [Hf _ Htop _]. cbn [fst snd] in *.
  pose proof (forest_pcb _ _ _ Hf (top_alive _ _ Htop)) as Hpid.
  pose proof (alive_range _ _ _ Hf (top_alive _ _ Htop)) as Hcr.
  destruct (get_next_proc_spec ((active k).[cur <- true]) cur Hcr) as (next & En & _).
  { exists cur. split; [done|]. rewrite aget_aset_eq; [done|]. rewrite (fo_lactive _ _ Hf). lia. }
  destruct (next_cur_top k stk cur next Hf Htop En) as [Hn _].
  unfold pit_irq_handler, sched. cbv zeta.
  set (k0 := with_dev k (send_eoi (kdev k) 0)).
  change (p_pid (pcbs k0).[cur]) with (p_pid (pcbs k).[cur]). rewrite Hpid.
  set (upd := λ p : PCB, p <| p_esp := esp |> <| p_ebp := ebp |>).
  set (k1 := with_pcb (mark_active k0 cur true) cur upd).
  change (shells_started k1) with (shells_started k). rewrite (fo_shells _ _ Hf).
  change (3 <? 3) with false. cbv iota. change (active k1) with ((active k).[cur <- true]).
  rewrite En, bind_some. unfold switch_to. cbv zeta. eexists _, next. split; [reflexivity|].
  pose proof (get_with_pcb (mark_active k0 cur true) cur upd) as Hg.
  pose proof (λ q, get_with_pcb_ne (mark_active k0 cur true) cur upd q) as Hne. fold k1 in Hg, Hne.
  change (length (pcbs (mark_active k0 cur true))) with (length (pcbs k)) in Hg.
  rewrite (fo_pcbs _ _ Hf) in Hg.
  split; [done|]. split; [|split; [|split; [|split]]].
  - change (p_esp (pcbs k1).[cur] = esp). by rewrite Hg by lia.
  - change (p_ebp (pcbs k1).[cur] = ebp). by rewrite Hg by lia.
  - intros q Hq. exact (Hne q (not_eq_sym Hq)).
  - unfold pcb_addr. cbn [tss_esp0 set_field set_tss_esp0]. lia.
  - reflexivity.
Qed.
End Executions.

(** ** Fairness *)

(** [n] timer interrupts, nothing else happening. *)
Fixpoint turns (act : list bool) (n : nat) (cur : Z) : option Z :=
  match n with
  | O => Some cur
  | S n => next ← get_next_proc act cur; turns act n next
  end.

(** C33 (round robin is fair). From any process, every active process gets its
    turn after at most six timer interrupts, whatever the others do with
    theirs. *)
Theorem round_robin_fair act cur q :
  0 ≤ cur < 6 → 0 ≤ q < 6 → act.[q] = true →
  ∃ n, (1 ≤ n ≤ 6)%nat ∧ turns act n cur = Some q.
Proof.
  intros Hc Hq Ha.
  assert (∀ (m : nat) c, (m < 6)%nat → 0 ≤ c < 6 → (q - c - 1) mod 6 = Z.of_nat m →
    ∃ n, (1 ≤ n ≤ S m)%nat ∧ turns act n c = Some q) as Hm.
  { induction m as [m IH] using lt_wf_ind. intros c Hm6 Hcr Hd.
    destruct (get_next_proc_spec act c Hcr) as (next & En & Hn & _ & d & Hd1 & Ed & Hbefore);
      [by exists q|].
    destruct (decide (next = q)) as [->|Hne].
    { exists 1%nat. split; [lia|]. simpl. by rewrite En. }
    assert (d ≤ Z.of_nat m + 1) as Hle.
    { destruct (decide (d ≤ Z.of_nat m + 1)); [done|]. exfalso.
      apply (Hbefore (Z.of_nat m + 1)); [lia|].
      replace ((c + (Z.of_nat m + 1)) mod 6) with q; [done|].
      Z.to_euclidean_division_equations; lia. }
    assert (d ≠ Z.of_nat m + 1) as Hne'.
    { intros ->. apply Hne. rewrite Ed. Z.to_euclidean_division_equations; lia. }
    destruct (IH (m - Z.to_nat d)%nat ltac:(lia) next ltac:(lia) Hn) as (n & Hnr & Ht).
    { rewrite Ed. Z.to_euclidean_division_equations; lia. }
    exists (S n). split; [lia|]. simpl. by rewrite En. }
  pose proof (Z.mod_pos_bound (q - cur - 1) 6 ltac:(lia)) as Hb.
  destruct (Hm (Z.to_nat ((q - cur - 1) mod 6)) cur) as (n & Hn & Ht); [lia|done|lia|].
  exists n. split; [lia|done].
Qed.

(** ** Witnesses *)

#[local] Opaque demo_mach kphys.

(** The three root shells, nothing else. *)
Definition demo_stk : stacks := λ t, [t].

Lemma three (t : Z) (Q : Z → Prop) : 0 ≤ t < 3 → Q 0 → Q 1 → Q 2 → Q t.
Proof. intros Ht H0 H1 H2. by assert (t = 0 ∨ t = 1 ∨ t = 2) as [->|[->| ->]] by lia. Qed.

Lemma demo_alive p : alive demo_stk p ↔ 0 ≤ p < 3.
Proof.
  split.
  - intros (t & Ht & Hp). unfold demo_stk in Hp. apply list_elem_of_singleton in Hp. lia.
  - intros Hp. exists p. split; [done|]. left.
Qed.

Lemma demo_top p : on_top demo_stk p ↔ 0 ≤ p < 3.
Proof.
  split.
  - intros (t & Ht & Hp). injection Hp as <-. done.
  - intros Hp. by exists p.
Qed.

Lemma demo_flags (p : Z) :
  0 ≤ p < 6 → [true; true; true; false; false; false].[p] = true ↔ 0 ≤ p < 3.
Proof.
  intros Hp. assert (p = 0 ∨ p = 1 ∨ p = 2 ∨ p = 3 ∨ p = 4 ∨ p = 5)
    as [->|[->|[->|[->|[->| ->]]]]] by lia; split; done || lia.
Qed.

Lemma demo_forest : forest demo_kernel demo_stk.
Proof.
  split; try reflexivity.
  - intros t p Ht Hp. apply list_elem_of_singleton in Hp. lia.
  - intros p Hp. rewrite demo_alive. by apply demo_flags.
  - intros p Hp. rewrite demo_top. by apply demo_flags.
  - intros t Ht. by exists [].
  - intros t Ht. constructor; [apply not_elem_of_nil|constructor].
  - intros t u p _ _ Hp Hq. apply list_elem_of_singleton in Hp, Hq. congruence.
  - intros t p Ht Hp. apply list_elem_of_singleton in Hp. subst p. revert t Ht.
    intros t Ht. apply (three t); done.
  - intros t l p q l' Ht Hs. destruct l as [|x [|y l]]; discriminate.
  - intros t Ht. apply (three t); done.
Qed.

Lemma demo_sim : sim (demo_kernel, 0) (demo_stk, 0).
Proof.
  split; cbn [fst snd]; [exact demo_forest|reflexivity|by apply demo_top|exact kfiles].
Qed.

(** The first timer interrupt continues process 1. *)
Lemma demo_tick :
  ∃ k' sp bp, pit_irq_handler demo_kernel 0 0x7FFF00 0x7FFF40 0 0 0 = Some (SResume k' 1 sp bp).
Proof.
  unfold pit_irq_handler, sched. cbv zeta.
  assert (get_next_proc [true; true; true; false; false; false].[0 <- true] 0 = Some 1) as E
    by by vm_compute.
  set (k1 := with_pcb _ 0 _). change (shells_started k1 <? 3) with false. cbv iota.
  change (active k1) with ([true; true; true; false; false; false].[0 <- true]).
  change (p_pid _) with 0 at 1. rewrite E, bind_some. unfold switch_to. cbv zeta.
  by eexists _, _, _.
Qed.



Lemma timer_progress_witness :
  ∃ k' next, pit_irq_handler demo_kernel 0 0x7FFF00 0x7FFF40 0 0 0 =
      Some (SResume k' next (p_esp (pcbs k').[next]) (p_ebp (pcbs k').[next])) ∧
    next_after (on_top demo_stk) 0 next ∧
    p_esp (pcbs k').[0] = 0x7FFF00 ∧ p_ebp (pcbs k').[0] = 0x7FFF40 ∧
    (∀ q, q ≠ 0 → (pcbs k').[q] = (pcbs demo_kernel).[q]) ∧
    tss_esp0 k' = pcb_addr next + KB8 - 4 ∧ cr3 (kmem k') = pd_addr next.
Proof. exact (timer_progress demo_kernel 0 demo_stk 0x7FFF00 0x7FFF40 0 0 0 demo_sim). Defined.

Lemma round_robin_fair_witness :
  ∃ n, (1 ≤ n ≤ 6)%nat ∧ turns [true; true; true; false; true; false] n 4 = Some 2.
Proof. apply (round_robin_fair [true; true; true; false; true; false] 4 2); [lia|lia|done]. Defined.
