(* ===== verification/Beside.v ===== *)
(** * What a process cannot change

    A running process reaches the kernel's memory and its own page, never the
    page of another process; its file system calls leave the process table
    alone apart from its own descriptors.  [beside] collects what the other
    processes keep while one runs. *)

From S2P Require Import Prelude Memory Lib Ports Types Filesystem I8259 RTC Paging PagingProps.
From S2P Require Import Console Keyboard KeyboardProofs LineProofs KeyboardProps Stores Kernel KernelProps SyscallProps Process Forest System.
#[local] Open Scope Z_scope.

(** ** The pages of the processes *)

Section Pages.
Context {HL : Layout}.
Implicit Types (m : mach) (q pid pa : Z).

(** The physical page of process [q]. *)
Definition proc_page q pa : Prop := region (0x800000 + 0x400000 * q) 0x400000 pa.
Definition same_page m m' q : Prop := ∀ pa, proc_page q pa → pbyte m' pa = pbyte m pa.

Lemma same_page_trans m1 m2 m3 q : same_page m1 m2 q → same_page m2 m3 q → same_page m1 m3 q.
Proof. intros H1 H2 pa Hp. by rewrite H2, H1. Qed.

(** An address of process [pid] is never in the page of another one. *)
Lemma translate_own m t pid vids a p q :
  mach_ok m t pid vids → translate m a = Some p → 0 ≤ q → q ≠ pid → ¬ proc_page q p.
Proof.
  intros Hm E Hq Hne Hp. pose proof (mach_space _ _ _ _ Hm) as Hs.
  rewrite (space_translate m t (Some pid) (vids pid) a Hs) in E.
  pose proof (do_vid _ _ _ (mo_dir _ _ _ _ Hm)) as Hv. pose proof (mo_pid _ _ _ _ Hm) as Hpid.
  assert (∀ u, vids pid = Some u → 0 ≤ u < 3) as Hu by (intros u Eu; rewrite Eu in Hv; apply Hv).
  unfold proc_page, region in Hp. revert E. unfold addr_space. change (USER_VIDEO / 4096) with 33792.
  generalize (u32 a). intros b. clear Hv Hs Hm.
  assert (0 ≤ b mod 4096 < 4096 ∧ 0 ≤ b mod 4194304 < 4194304 ∧
    b = 4096 * (b / 4096) + b mod 4096 ∧ b = 4194304 * (b / 4194304) + b mod 4194304) as (H1 & H2 & H3 & H4) by mlia.
  revert H1 H2 H3 H4. generalize (b mod 4096) (b mod 4194304) (b / 4096) (b / 4194304).
  intros o o' x y H1 H2 H3 H4.
  destruct (Z.eqb_spec x 0xB8); [intros [= <-]; lia|].
  destruct (Z.leb_spec 0xB9 x), (Z.leb_spec x 0xBB); cbn [andb];
    try (intros [= <-]; unfold term_page, VIDEO in Hp; destruct (_ =? _) in Hp; lia).
  all: destruct (Z.eqb_spec y 1); [intros [= <-]; lia|].
  all: destruct (Z.eqb_spec y 32); [intros [= <-]; lia|].
  all: destruct (Z.eqb_spec x 33792); [|done].
  all: destruct (vids pid) as [u|]; [|done].
  all: specialize (Hu u eq_refl); intros [= <-]; unfold term_page, VIDEO in Hp; destruct (_ =? _) in Hp; lia.
Qed.

Lemma pbyte_wr m a v pa : translate m a ≠ Some pa → pbyte (wr m a v) pa = pbyte m pa.
Proof.
  intros Hne. cbn [wr PagedMem]. unfold mach_wr, pbyte. destruct (translate m a) as [p|]; [|done].
  cbn. rewrite lookup_insert_ne by congruence. done.
Qed.

(** Whatever the process stores, the other pages are the same. *)
Definition others_kept m0 pid m : Prop :=
  mach_ctl m = mach_ctl m0 ∧ ∀ q, 0 ≤ q → q ≠ pid → same_page m0 m q.

Lemma others_stable m0 t pid vids : mach_ok m0 t pid vids → stable (others_kept m0 pid).
Proof.
  intros Hm m a v [Hc Hp]. split; [by etransitivity; [apply mach_ctl_wr|]|]. intros q Hq Hne pa Hpa.
  rewrite pbyte_wr; [by apply (Hp q)|]. intros E. rewrite (translate_ctl m0 m a Hc) in E.
  by apply (translate_own m0 t pid vids a pa q).
Qed.

Lemma others_refl m pid : others_kept m pid m.
Proof. by split. Qed.
End Pages.

(** ** Calls change memory by stores *)

Section Calls.
Context {HL : Layout} {D : Type} `{!PortIO D}.
Implicit Types (k : kernel D) (cur fd : Z).

Definition stores (m m' : mach) : Prop := ∀ I, stable I → I m → I m'.

Lemma stores_refl m : stores m m.
Proof. by intros I _. Qed.
Lemma stores_trans m1 m2 m3 : stores m1 m2 → stores m2 m3 → stores m1 m3.
Proof. intros H1 H2 I HI H. by apply H2, H1. Qed.

Lemma getargs_copy_stable (I : mach → Prop) m args buf n i m' :
  stable I → I m → getargs_copy m args buf n i = Some m' → I m'.
Proof.
  intros HI. revert m i. induction n as [|n IH]; intros m i Hm; cbn; [by intros [= <-]|].
  destruct (bool_decide _); [|discriminate]. destruct (_ =? 0); [intros [= <-]; by apply HI|].
  apply IH. by apply HI.
Qed.

Lemma parse_command_stable (I : mach → Prop) m pcb command m' :
  stable I → I m → parse_command m pcb command = Some m' → I m'.
Proof.
  intros HI Hm. unfold parse_command.
  destruct (while (name_step _ _) _) as [[m1 i1]|] eqn:E1; [|discriminate]. rewrite bind_some. cbv zeta.
  assert (I m1) as H1.
  { apply (while_post _ (λ '(m, _), I m) (λ '(m, _), I m)) in E1; [done| |done].
    intros [m2 j] H2. unfold name_step. destruct (_ && _ && _); [by apply HI|done]. }
  destruct (while (spaces_step _ _) _) as [i2|]; [|discriminate]. rewrite bind_some.
  destruct (while (args_step _ _ _) _) as [[m3 i3]|] eqn:E3; [|discriminate]. rewrite bind_some.
  assert (I m3) as H3.
  { apply (while_post _ (λ '(m, _), I m) (λ '(m, _), I m)) in E3; [done| |by apply HI].
    intros [m2 j] H2. unfold args_step. destruct (_ && _); [by apply HI|done]. }
  apply (while_post _ (λ '(m, _), I m) I); [|done].
  intros [m4 j] H4. unfold trim_step. destruct (_ =? _); [by apply HI|done].
Qed.

Lemma read_stores k cur fd buf n before keys ticks k' v keys' ticks' :
  (0 ≤ fd < 8 → f_op (get_fd k cur fd) ≠ stdin_ops ∨ flags (get_fd k cur fd) = 0) →
  read k cur fd buf n before keys ticks = Some (Ret k' v keys' ticks') → stores (kmem k) (kmem k').
Proof.
  intros Hop. unfold read. destruct (fd_unused k cur fd) as [u|] eqn:Eu; [|discriminate].
  destruct (u || _ || _ || _) eqn:Ec; [intros [= <- _ _ _]; apply stores_refl|].
  destruct (f_op (get_fd k cur fd)) eqn:Eo; [discriminate|..].
  - apply orb_false_elim in Ec as [Ec E0]. destruct Hop as [|Hf]; [|done|]; [destruct (fd >=? 8) eqn:?, (fd <? 0) eqn:?, u; try done; lia|].
    revert Eu Ec. unfold fd_unused. destruct (bool_decide _); [|discriminate].
    rewrite Hf. by intros [= <-].
  - intros [= <- _ _ _]. apply stores_refl.
  - destruct (RTC_read _ _ _ _) as [[[[? ?] ?] ?]|]; [|discriminate].
    rewrite bind_some. intros [= <- _ _ _]. apply stores_refl.
  - destruct (dir_read _ _ _ _ _) as [[[m ?] ?]|] eqn:E; [|discriminate]. rewrite bind_some.
    destruct (all_mapped _ _ _); [|discriminate]. intros [= <- _ _ _] I HI Hm. exact (dir_read_stable I HI _ _ _ _ _ _ _ _ Hm E).
  - destruct (file_read _ _ _ _ _) as [[[m ?] ?]|] eqn:E; [|discriminate]. rewrite bind_some.
    destruct (all_mapped _ _ _); [|discriminate]. intros [= <- _ _ _] I HI Hm. exact (file_read_stable I HI _ _ _ _ _ _ _ _ Hm E).
Qed.

Lemma write_stores k cur fd buf n rate0 keys ticks k' v keys' ticks' :
  write k cur fd buf n rate0 keys ticks = Some (Ret k' v keys' ticks') → stores (kmem k) (kmem k').
Proof.
  unfold write. destruct (fd_unused k cur fd); [|discriminate].
  destruct (_ || _); [intros [= <- _ _ _]; apply stores_refl|].
  destruct (is_kernel_ptr buf); [intros [= <- _ _ _]; apply stores_refl|].
  destruct (f_op (get_fd k cur fd)); [discriminate|intros [= <- _ _ _]; apply stores_refl|..];
    try (intros [= <- _ _ _]; apply stores_refl).
  - destruct (terminal_write _ _ _ _) as [[c ?]|] eqn:E; [|discriminate]. rewrite bind_some.
    destruct (_ && _); [discriminate|]. intros [= <- _ _ _] I HI Hm. exact (terminal_write_stable I HI _ _ _ _ _ _ Hm E).
  - destruct (_ && _); [discriminate|]. destruct (RTC_write _ _ _ _ _). intros [= <- _ _ _]. apply stores_refl.
Qed.

Lemma open_stores k cur filename dp k' v :
  open k cur filename dp = Some (Some (k', v)) → stores (kmem k) (kmem k').
Proof.
  unfold open. destruct (filename =? 0); [intros [= <- _]; apply stores_refl|].
  destruct (strlen _ _) as [len|]; [|discriminate]. rewrite bind_some.
  destruct (mapped _ _); [|discriminate]. cbn [negb]. destruct (read_dentry_by_name _ _ _ _) as [[m r]|] eqn:Er; [|discriminate]. rewrite bind_some. cbv zeta.
  assert (stores (kmem k) m) as Hm.
  { intros I HI H. exact (read_dentry_by_name_stable I HI _ _ _ _ _ _ H Er). }
  destruct (r =? 0); [|by intros [= <- _]].
  destruct (free_fd _ _ _) as [i|]; [|by intros [= <- _]].
  destruct (fop_open _ _) as [[[k1 f] ret]|] eqn:Eo; [|discriminate]. intros [= <- _].
  change (kmem (set_fd k1 cur i f)) with (kmem k1). assert (kmem k1 = m) as ->; [|done].
  revert Eo. unfold fop_open. destruct (f_op _); try discriminate; try (by intros [= <- _ _]).
Qed.

Lemma close_stores k cur fd k' v : close k cur fd = Some (k', v) → kmem k' = kmem k.
Proof.
  unfold close. destruct (_ || _); [by intros [= <- _]|]. destruct (_ =? 0); [by intros [= <- _]|].
  destruct (fop_close _); [|discriminate]. by intros [= <- _].
Qed.

Lemma getargs_stores k cur buf n k' v : getargs k cur buf n = Some (k', v) → stores (kmem k) (kmem k').
Proof.
  unfold getargs. destruct (_ >? _); [intros [= <- _]; apply stores_refl|].
  destruct (getargs_copy _ _ _ _ _) as [m|] eqn:E; [|discriminate]. rewrite bind_some.
  intros [= <- _] I HI Hm. exact (getargs_copy_stable I _ _ _ _ _ _ HI Hm E).
Qed.

(** ** The other processes *)

(** While process [cur] runs, from [k0] to [k], the other live processes keep
    their PCBs, their page directories and their pages. *)
Record beside cur k0 k : Prop := {
  be_used : proc_id_used k = proc_id_used k0;
  be_active : active k = active k0;
  be_who : who (pcbs k).[cur] = who (pcbs k0).[cur];
  be_other : ∀ q, q ≠ cur → live k0 q → (pcbs k).[q] = (pcbs k0).[q];
  be_dirs : ∀ q, q ≠ cur → live k0 q →
    (proc_page_directory (tabs (kmem k))).[q] = (proc_page_directory (tabs (kmem k0))).[q];
  be_pages : ∀ q, q ≠ cur → live k0 q → same_page (kmem k0) (kmem k) q
}.

Lemma beside_refl cur k : beside cur k k.
Proof. by split. Qed.

Lemma beside_trans cur k1 k2 k3 : beside cur k1 k2 → beside cur k2 k3 → beside cur k1 k3.
Proof.
  intros [A1 A2 A3 A4 A5 A6] [B1 B2 B3 B4 B5 B6].
  assert (∀ q, live k1 q → live k2 q) as Hl by (intros q [Hq Hu]; split; [done|by rewrite A1]).
  split; try congruence.
  - intros q Hq Hv. rewrite B4, A4 by auto. done.
  - intros q Hq Hv. rewrite B5, A5 by auto. done.
  - intros q Hq Hv. apply (same_page_trans _ (kmem k2)); auto.
Qed.

(** A call of the process. *)
Lemma call_beside vids im cur k k' :
  kernel_ok vids im k cur → keeps cur k k' → stores (kmem k) (kmem k') → beside cur k k'.
Proof.
  intros Hk [K1 K2 K3 K4 K5 K6] Hs. pose proof (ki_mach _ _ _ (ko_kbd _ _ _ _ Hk)) as Hm.
  destruct (Hs (others_kept (kmem k) cur) (others_stable _ _ _ _ Hm) (others_refl _ _)) as [Hc Hp].
  assert (tabs (kmem k') = tabs (kmem k)) as Et by (by injection Hc).
  split; try done.
  - intros q Hq _. by apply K6.
  - intros q _ _. by rewrite Et.
  - intros q Hq [Hr _]. apply Hp; [lia|done].
Qed.
End Calls.
