(* ===== verification/ProcessProofs.v ===== *)
(** * Starting a process: proofs

    What the stages of [execute] do, for a command in memory and a well-formed
    kernel: the PCB with the parsed command, the directory lookup, the header
    of the program, and the new process' memory, tables and registers. *)

From S2P Require Import Prelude Memory Lib Ports Types Filesystem FsProofs I8259 RTC Paging PagingProps.
From S2P Require Import Console ConsoleProofs Keyboard KeyboardProofs LineProofs KeyboardProps.
From S2P Require Import Kernel KernelProps SyscallProps Process ParseProofs Forest System Stores Beside.
#[local] Open Scope Z_scope.

(** Two writes to the start of one region. *)
Lemma written_prefix {M} `{!ByteMem M} P (m m1 m2 : M) d n n' f g :
  n' ≤ n → written P m m1 d n f → written P m1 m2 d n' g →
  written P m m2 d n (λ j, if j <? n' then g j else f j).
Proof.
  intros Hn [C1 R1] [C2 R2]. split; [by rewrite C2|]. intros b Hb. rewrite R2, R1 by done.
  repeat case_decide; try lia; try done.
  - rewrite (proj2 (Z.ltb_lt _ _)); [done|lia].
  - rewrite (proj2 (Z.ltb_ge _ _)); [done|lia].
Qed.

(** The bytes of a new PCB: name, arguments, and zeros. *)
Definition pcb_image (name args : list Z) (j : Z) : Z :=
  if j <? 256 then (if j <? 128 then name.[j] else args.[j - 128]) else 0.

Lemma pcb_addr_range pid : 0 ≤ pid < 6 → 0x7F4000 ≤ pcb_addr pid ∧ pcb_addr pid + 0x2000 ≤ 0x800000.
Proof. unfold pcb_addr, KERNEL_TOP, KB8. lia. Qed.

Lemma kernel_page_view a : 0x400000 ≤ a < 0x800000 → kernel_view a.
Proof. intros Ha. right; left. unfold region. lia. Qed.

Lemma first_word_length s : (length (first_word s) <= length s)%nat.
Proof. induction s as [|c s IH]; simpl; [lia|]. destruct (c =? 32); simpl; lia. Qed.

Lemma first_word_incl s : Forall (λ c, c ∈ s) (first_word s).
Proof.
  induction s as [|c s IH]; simpl; [done|]. destruct (c =? 32); constructor; [left|].
  eapply Forall_impl; [|exact IH]. intros x Hx. by right.
Qed.

(** ** Program headers *)

(** A program file: the four magic bytes, and the entry point in bytes 24 to
    27, little endian. *)
Definition elf_file (c : list Z) : bool := bool_decide (take 4 c = [0x7F; 69; 76; 70]).
Definition entry_of (c : list Z) : Z := c.[24] + 256 * c.[25] + 65536 * c.[26] + 16777216 * c.[27].

Lemma lor_bytes a b c d :
  0 ≤ a < 256 → 0 ≤ b < 256 → 0 ≤ c < 256 → 0 ≤ d < 256 →
  Z.lor (Z.lor (Z.lor (Z.shiftl d 24) (Z.shiftl c 16)) (Z.shiftl b 8)) a
  = a + 256 * b + 65536 * c + 16777216 * d.
Proof.
  intros Ha Hb Hc Hd. rewrite !Z.shiftl_mul_pow2 by lia.
  change (2 ^ 24) with 16777216. change (2 ^ 16) with 65536. change (2 ^ 8) with 256.
  rewrite (lor_aligned 24 (d * 16777216)); [|lia|change (2 ^ 24) with 16777216; apply Z.mod_mul; lia|].
  2: { change (2 ^ 24) with 16777216. lia. }
  rewrite (lor_aligned 16 (d * 16777216 + _)); [|lia|change (2 ^ 16) with 65536; mlia|].
  2: { change (2 ^ 16) with 65536. lia. }
  rewrite (lor_aligned 8 (d * 16777216 + _ + _)); [|lia|change (2 ^ 8) with 256; mlia|lia]. lia.
Qed.

Lemma is_elf_file {HL : Layout} (m : mach) hp c :
  (4 ≤ length c)%nat → (∀ j, 0 ≤ j < 4 → rd m (hp + j) = c.[j]) → is_elf m hp = elf_file c.
Proof.
  intros Hl Hr. unfold is_elf, elf_file. rewrite <- (Z.add_0_r hp) at 1. rewrite !Hr by lia.
  destruct c as [|c0 [|c1 [|c2 [|c3 c]]]]; simpl in Hl; try lia.
  change ((c0 :: c1 :: c2 :: c3 :: c).[0]) with c0. change ((c0 :: c1 :: c2 :: c3 :: c).[1]) with c1.
  change ((c0 :: c1 :: c2 :: c3 :: c).[2]) with c2. change ((c0 :: c1 :: c2 :: c3 :: c).[3]) with c3.
  change (take 4 (c0 :: c1 :: c2 :: c3 :: c)) with [c0; c1; c2; c3]. unfold ELF_MAGIC_0. symmetry.
  destruct (Z.eqb_spec c0 0x7F) as [->|], (Z.eqb_spec c1 69) as [->|], (Z.eqb_spec c2 76) as [->|],
    (Z.eqb_spec c3 70) as [->|]; cbn [andb];
    (apply bool_decide_eq_true; congruence) || (apply bool_decide_eq_false; congruence).
Qed.

Lemma elf_entry_file {HL : Layout} (m : mach) hp c :
  (∀ j, 24 ≤ j < 28 → rd m (hp + j) = c.[j]) → elf_entry m hp = entry_of c.
Proof.
  intros Hr. unfold elf_entry, entry_of. rewrite lor_bytes by apply rd_range.
  pose proof (rd_range m (hp + 24)). pose proof (rd_range m (hp + 25)).
  pose proof (rd_range m (hp + 26)). pose proof (rd_range m (hp + 27)).
  rewrite u32_small by lia. by rewrite !Hr by lia.
Qed.

(** ** The console apart from the page tables *)

Record con_base {D} (s : console mach D) : Prop := {
  cb_len : length (terminals s) = 3%nat;
  cb_cur : 0 ≤ cur_terminal s < 3;
  cb_line : ∀ t, 0 ≤ t < 3 → line_ok (terminals s).[t];
  cb_page : ∀ t, 0 ≤ t < 3 → page_of s t = tpage t
}.

Lemma con_base_mem {D} (s : console mach D) m : con_base s → con_base (s <| vmem := m |>).
Proof. by intros [H1 H2 H3 H4]. Qed.

Lemma kbd_con_base {HL : Layout} {D} pid vids (s : console mach D) : kbd_inv pid vids s → con_base s.
Proof. by intros [[H1 H2 H3 H4] H5 H6]. Qed.

Lemma con_base_kbd {HL : Layout} {D} pid vids (s : console mach D) :
  con_base s → mach_ok (vmem s) (cur_terminal s) pid vids → kbd_inv pid vids s.
Proof.
  intros [H1 H2 H3 H4] Hm. split; [split|..]; try done.
  intros t Ht. rewrite H4 by done. by apply (tpage_ok _ (cur_terminal s) pid vids).
Qed.

(** A new command history keeps the terminals well formed. *)
Lemma history_terms {D} (s : console mach D) t h u :
  ∃ g, (terminals (with_term s t (λ T, T <| cmd_hist := h T |>))).[u] = (terminals s).[u] <| cmd_hist := g |>.
Proof.
  unfold with_term. cbn [terminals set_field set_terminals]. destruct (decide (u = t)) as [->|Hne].
  - destruct (decide (0 ≤ t < Z.of_nat (length (terminals s)))) as [Ht|Ht].
    + rewrite aget_aset_eq by lia. by eexists.
    + exists (cmd_hist (terminals s).[t]). unfold aset.
      destruct (Z.leb_spec 0 t); [|done]. by rewrite list_insert_ge by lia.
  - exists (cmd_hist (terminals s).[u]). by rewrite aget_aset_ne.
Qed.

Lemma history_base {D} (s : console mach D) t h :
  con_base s → con_base (with_term s t (λ T, T <| cmd_hist := h T |>)).
Proof.
  intros [H1 H2 H4 H6].
  pose proof (history_terms s t h) as Hu.
  split; try done.
  - unfold with_term. simpl. by rewrite length_aset.
  - intros u Hr. destruct (Hu u) as [g ->]. by destruct (H4 u Hr).
  - intros u Hr. unfold page_of. destruct (Hu u) as [g ->]. by apply H6.
Qed.

(** ** Entering the process *)

Section Enter.
Context {HL : Layout} {D : Type} `{!PortIO D}.
Implicit Types (k : kernel D) (q pid parent : Z).

Lemma with_pcb_proj {A} (g : PCB → A) k i f q :
  g (f (pcbs k).[i]) = g (pcbs k).[i] → g (pcbs (with_pcb k i f)).[q] = g (pcbs k).[q].
Proof.
  intros Hf. unfold with_pcb. simpl. destruct (decide (i = q)) as [<-|Hne].
  - destruct (decide (0 ≤ i < Z.of_nat (length (pcbs k)))) as [Hi|Hi].
    + by rewrite aget_aset_eq.
    + f_equal. unfold aset. destruct (Z.leb_spec 0 i); [|done]. by rewrite list_insert_ge by lia.
  - by rewrite aget_aset_ne.
Qed.

(** The registers a process is left with. *)
Definition regs (p : PCB) : Z * Z * Z * Z := (p_esp p, p_ebp p, p_esp0 p, p_ss0 p).

Lemma enter_process_regs k pid parent tid esp ebp eip inode m x :
  let m' := loadPageDirectory ((kmem k) <| tabs := execute_paging (tabs (kmem k)) pid |>) (pd_addr pid) in
  read_data m' (fs k) inode 0 USER_PROG_LOCATION MB4 = Some (m, x) →
  0 ≤ parent < Z.of_nat (length (pcbs k)) →
  ∃ k', enter_process k pid parent tid esp ebp eip inode =
          Some (ExUser k' pid eip (USER_MEM_LOCATION + MB4 - 4)) ∧
    con k' = (con k) <| vmem := m |> ∧ fs k' = fs k ∧
    (kb k' = kb k ∧ rtc_interrupt_occured k' = rtc_interrupt_occured k) ∧
    (∀ q, p_name (pcbs k').[q] = p_name (pcbs k).[q] ∧ p_args (pcbs k').[q] = p_args (pcbs k).[q]) ∧
    regs (pcbs k').[parent] = (esp, ebp, tss_esp0 k, KERNEL_DS) ∧
    (∀ q, q ≠ pid → q ≠ parent → (pcbs k').[q] = (pcbs k).[q]) ∧
    tss_esp0 k' = pcb_addr pid + KB8 - 4 ∧ tss_ss0 k' = KERNEL_DS.
Proof.
  intros m' E Hpar. unfold enter_process. cbv zeta. fold m'. rewrite E, bind_some.
  set (k1 := with_mem k m).
  set (k2 := with_pcb k1 pid (λ p, p <| p_parent := parent |>)).
  set (k3 := with_pcb k2 pid (λ p, p <| p_terminal_id := tid |>)).
  set (k4 := with_pcb k3 parent (λ p, p <| p_esp0 := tss_esp0 k3 |>)).
  set (k5 := mark_active k4 (p_pid (pcbs k4).[parent]) false).
  set (k6 := mark_active k5 pid true).
  set (k7 := with_pcb k6 parent (λ p, p <| p_esp := esp |> <| p_ebp := ebp |> <| p_ss0 := KERNEL_DS |>)).
  set (k8 := with_pcb k7 pid _). set (k9 := with_pcb k8 pid _).
  eexists. split; [reflexivity|]. split; [done|]. split; [done|]. split; [done|].
  match goal with |- context [tss_esp0 ?x = _] => set (k' := x) end.
  change (pcbs k') with (pcbs k9).
  split; [|split; [|split; [|split; [|done]]]].
  - assert (∀ q, (p_name (pcbs k9).[q], p_args (pcbs k9).[q]) =
                 (p_name (pcbs k).[q], p_args (pcbs k).[q])) as Hn.
    { intros q. set (g := λ p, (p_name p, p_args p)).
      change (g (pcbs k9).[q] = g (pcbs k).[q]).
      unfold k9. rewrite (with_pcb_proj g) by done. unfold k8. rewrite (with_pcb_proj g) by done.
      unfold k7. rewrite (with_pcb_proj g) by done. change (pcbs k6) with (pcbs k4).
      unfold k4. rewrite (with_pcb_proj g) by done. unfold k3. rewrite (with_pcb_proj g) by done.
      unfold k2. by rewrite (with_pcb_proj g) by done. }
    intros q. by injection (Hn q).
  - unfold k9. rewrite (with_pcb_proj regs) by done. unfold k8. rewrite (with_pcb_proj regs) by done.
    assert (length (pcbs k6) = length (pcbs k)) as L6.
    { change (pcbs k6) with (pcbs k4). unfold k4, k3, k2. by rewrite !length_with_pcb. }
    unfold k7. rewrite get_with_pcb by lia.
    change (regs ((pcbs k6).[parent] <| p_esp := esp |> <| p_ebp := ebp |> <| p_ss0 := KERNEL_DS |>))
      with (esp, ebp, p_esp0 (pcbs k4).[parent], KERNEL_DS).
    assert (length (pcbs k3) = length (pcbs k)) as L3 by (unfold k3, k2; by rewrite !length_with_pcb).
    unfold k4. rewrite get_with_pcb by lia. reflexivity.
  - intros q Hq Hp. unfold k9. rewrite get_with_pcb_ne by done. unfold k8.
    rewrite get_with_pcb_ne by done. unfold k7. rewrite get_with_pcb_ne by done.
    change (pcbs k6) with (pcbs k4). unfold k4. rewrite get_with_pcb_ne by done.
    unfold k3, k2. rewrite !get_with_pcb_ne by done. done.
  - change (tss_esp0 k') with (KERNEL_TOP - KB8 * pid - 4). unfold pcb_addr. lia.
Qed.
End Enter.

(** ** What execute relies on

    The view [P] of memory is the kernel view of a running process, or, while
    the kernel boots, the kernel's page alone. *)

Record exec_base {HL : Layout} {D : Type} `{!PortIO D} (P : Z → Prop) (vids : Z → option Z)
    (im : fs_image) (k : kernel D) (cur : Z) : Prop := {
  eb_cur : 0 ≤ cur < 6;
  eb_files : all_files_ok k;
  eb_safe : safe (kmem k) P;
  eb_page : ∀ a, 0x400000 ≤ a < 0x800000 → P a;
  eb_range : ∀ a, P a → 0 < a < 0x8400000;
  eb_ident : ∀ m a, ctl m = ctl (kmem k) → 0x400000 ≤ a < 0x800000 → rd m a = pbyte m a;
  eb_pg : cr0_pg (kmem k) = true;
  eb_tabs : tables_ok (tabs (kmem k)) (cur_terminal (con k)) vids;
  eb_con : con_base (con k);
  eb_fs : fs_rep (kmem k) (fs k) im;
  eb_lo : 0x400000 ≤ fs_base (fs k);
  eb_hi : fs_end (fs k) ≤ 0x7F4000;
  eb_pid : p_pid (pcbs k).[cur] = cur;
  eb_term : 0 ≤ p_terminal_id (pcbs k).[cur] < 3
}.

Lemma kernel_ok_base {HL : Layout} {D : Type} `{!PortIO D} vids im (k : kernel D) cur :
  kernel_ok vids im k cur → exec_base kernel_view vids im k cur.
Proof.
  intros Hk. pose proof (ki_mach _ _ _ (ko_kbd _ _ _ _ Hk)) as Hm.
  pose proof (ko_safe _ _ _ _ Hk) as Hs. destruct Hk as [[H1 _] H2 H3 H4 H5 H6 H7 H8].
  split; try done.
  - apply kernel_page_view.
  - unfold kernel_view, region, VIDEO, USER_MEM_LOCATION. lia.
  - intros m a Hc Ha. apply (rd_kernel m (cur_terminal (con k)) cur vids); [|done].
    by apply (mach_ok_ctl (vmem (con k))).
  - apply Hm.
  - apply Hm.
  - by apply (kbd_con_base cur vids).
Qed.

Section Execute.
Context {HL : Layout} {D : Type} `{!PortIO D}.
Context (P : Z → Prop) (vids : Z → option Z) (im : fs_image) (k : kernel D) (cur pid : Z).
Context (command n dp hp : Z).
Context (Hk : exec_base P vids im k cur) (Hlu : length (proc_id_used k) = 6%nat).
Context (Hfree : free_pid (proc_id_used k) 6 0 = Some pid).
Context (Hcmd : str_at (kmem k) command n ∧ ∀ a, region command (n + 1) a → P a) (Hn : n ≤ 127).
Context (Hcdis : command + n + 1 ≤ pcb_addr pid ∨ pcb_addr pid + 444 ≤ command).
Context (Hdp : pcb_addr cur + 444 ≤ dp ∧ dp + 44 ≤ pcb_addr cur + 0x2000).
Context (Hhp : pcb_addr cur + 444 ≤ hp ∧ hp + 40 ≤ pcb_addr cur + 0x2000).
Context (Hlocals : dp + 44 ≤ hp ∨ hp + 40 ≤ dp).

Definition typed : list Z := bytes (kmem k) command n.
#[local] Abbreviation name := (command_name typed).
#[local] Abbreviation args := (command_args typed).
#[local] Abbreviation pcb := (pcb_addr pid).

Lemma pid_free : 0 ≤ pid < 6 ∧ (proc_id_used k).[pid] = false.
Proof using All.
  pose proof (free_pid_spec (proc_id_used k) 6 0) as H. rewrite Hfree in H.
  destruct H as (Hp & Hu & _). split; [lia|done].
Qed.

Lemma cur_range : 0 ≤ cur < 6.
Proof using All. exact (eb_cur _ _ _ _ _ Hk). Qed.

Lemma typed_length : Z.of_nat (length typed) = n.
Proof using All.
  unfold typed, bytes. rewrite length_fmap, length_seqZ. destruct Hcmd as [[H0 _] _]. lia.
Qed.

Lemma typed_get i : 0 ≤ i ≤ n → rd (kmem k) (command + i) = typed.[i].
Proof using All.
  intros Hi. pose proof typed_length as Hl. destruct Hcmd as [(H0 & _ & Hz) _].
  destruct (decide (i = n)) as [->|Hne].
  - by rewrite Hz, aget_past by lia.
  - symmetry. apply aget_lookup; [lia|]. unfold typed, bytes.
    rewrite list_lookup_fmap, lookup_seqZ_lt by lia. simpl. do 2 f_equal. lia.
Qed.

Lemma typed_range i : 0 ≤ i < n → 0 < typed.[i] < 256.
Proof using All.
  intros Hi. rewrite <- typed_get by lia. pose proof (rd_range (kmem k) (command + i)).
  destruct Hcmd as [(_ & Hnz & _) _]. specialize (Hnz i Hi). lia.
Qed.

Lemma name_length : Z.of_nat (length name) ≤ n.
Proof using All.
  pose proof (first_word_length typed). pose proof typed_length. unfold command_name. lia.
Qed.

Lemma name_nonzero i : 0 ≤ i < Z.of_nat (length name) → name.[i] ≠ 0.
Proof using All.
  intros Hi. pose proof (first_word_incl typed) as Hf. rewrite Forall_lookup in Hf.
  specialize (Hf (Z.to_nat i) name.[i]). unfold command_name in *.
  rewrite lookup_aget in Hf by lia. rewrite Z2Nat.id in Hf by lia. specialize (Hf eq_refl).
  apply list_elem_of_lookup in Hf as (j & Hj). pose proof (lookup_lt_Some _ _ _ Hj) as Hlt.
  rewrite lookup_aget in Hj by done. apply (inj Some) in Hj as <-. pose proof typed_length.
  pose proof (typed_range (Z.of_nat j)). lia.
Qed.

(** The new PCB in memory. *)
Lemma parse_stage :
  ∃ m0 m1, memset (kmem k) pcb 0 sizeof_PCB = Some m0 ∧ parse_command m0 pcb command = Some m1 ∧
           written P (kmem k) m1 pcb 444 (pcb_image name args) ∧ stores (kmem k) m1.
Proof using All.
  destruct pid_free as (Hpid & _). pose proof (pcb_addr_range pid Hpid) as Hp.
  pose proof (eb_safe _ _ _ _ _ Hk) as Hs. destruct Hcmd as [[Hn0 _] Hview].
  destruct (memset_correct P (kmem k) pcb 0 444) as (m0 & E0 & Hw0); try lia.
  { done. } { intros a Ha. apply (eb_page _ _ _ _ _ Hk). unfold region in Ha. lia. }
  assert (0 < command < 0x8400000) as Hc
    by (apply (eb_range _ _ _ _ _ Hk), Hview; unfold region; lia).
  destruct (parse_command_spec P m0 pcb command typed) as (m1 & E1 & Hw1);
    rewrite ?typed_length; try lia.
  - by apply (written_safe _ _ _ _ _ _ Hs Hw0).
  - exact Hview.
  - intros a Ha. apply (eb_page _ _ _ _ _ Hk). unfold region in Ha. lia.
  - intros i Hi. rewrite (written_out _ _ _ _ _ _ _ Hw0); [by apply typed_get| |lia].
    apply Hview. unfold region. lia.
  - intros i Hi. by apply typed_range.
  - intros i Hi. rewrite (written_in _ _ _ _ _ _ _ Hw0); [done| |lia].
    apply (eb_page _ _ _ _ _ Hk). lia.
  - exists m0, m1. split; [exact E0|]. split; [exact E1|]. split.
    + by eapply written_ext; [|exact (written_prefix P _ _ _ pcb 444 256 _ _ ltac:(lia) Hw0 Hw1)].
    + intros I HI Hm. apply (parse_command_stable I m0 pcb command m1 HI); [|exact E1].
      exact (memset_stable I HI _ _ _ _ _ Hm E0).
Qed.

(** The image and the command are where they were, in the memory of any later
    stage that keeps what lies outside the new PCB and the caller's stack. *)
Definition kept_mem (m : mach) : Prop :=
  ctl m = ctl (kmem k) ∧
  ∀ a, P a → ¬ region pcb 444 a →
       ¬ (pcb_addr cur + 444 ≤ a < pcb_addr cur + 0x2000) → rd m a = rd (kmem k) a.

Lemma kept_fs m a : kept_mem m → fs_base (fs k) ≤ a < fs_end (fs k) → rd m a = rd (kmem k) a.
Proof using All.
  intros [_ Hr] Ha. pose proof (eb_lo _ _ _ _ _ Hk). pose proof (eb_hi _ _ _ _ _ Hk).
  destruct pid_free as (Hpid & _). pose proof (pcb_addr_range pid Hpid).
  pose proof (pcb_addr_range cur cur_range).
  apply Hr; [apply (eb_page _ _ _ _ _ Hk); lia|unfold region; lia|lia].
Qed.

Lemma kept_rep m : kept_mem m → fs_rep m (fs k) im.
Proof using All. intros Hm. apply (fs_rep_ext (kmem k)); [|exact (eb_fs _ _ _ _ _ Hk)]. intros a Ha. by apply kept_fs. Qed.

Lemma kept_safe m : kept_mem m → safe m P.
Proof using All. intros [Hc _]. apply (safe_cells (kmem k)); [done|]. apply (eb_safe _ _ _ _ _ Hk). Qed.

Lemma fs_in_view a : fs_base (fs k) ≤ a < fs_end (fs k) → P a.
Proof using All. intros Ha. pose proof (eb_lo _ _ _ _ _ Hk). pose proof (eb_hi _ _ _ _ _ Hk). apply (eb_page _ _ _ _ _ Hk). lia. Qed.

(** The entry the first word names. *)
Definition program_entry : option Z :=
  if decide (Z.of_nat (length name) ≤ 32) then lookup_name (im_dents im) name else None.

Lemma lookup_stage m1 :
  written P (kmem k) m1 pcb 444 (pcb_image name args) →
  match program_entry with
  | None => read_dentry_by_name m1 (fs k) pcb dp = Some (m1, -1)
  | Some i => ∃ m2, read_dentry_by_name m1 (fs k) pcb dp = Some (m2, 0) ∧
      dentry_holds m2 dp (im_dents im).[i] ∧ kept_mem m2 ∧
      (∀ a, region pcb 444 a → rd m2 a = rd m1 a)
  end.
Proof using All.
  intros Hw. destruct pid_free as (Hpid & _). pose proof (pcb_addr_range pid Hpid) as Hp.
  pose proof (pcb_addr_range cur cur_range) as Hc. pose proof name_length as Hl.
  assert (pcb + 444 ≤ pcb_addr cur + 444 ∨ pcb_addr cur + 0x2000 ≤ pcb) as Hap
    by (unfold pcb_addr, KERNEL_TOP, KB8; lia).
  assert (kept_mem m1) as Hk1.
  { split; [apply Hw|]. intros a Ha Hn' _. apply (written_out _ _ _ _ _ _ _ Hw); [done|].
    unfold region in Hn'. lia. }
  assert (∀ j, 0 ≤ j < 444 → rd m1 (pcb + j) = pcb_image name args j) as Hr.
  { intros j Hj. rewrite (written_in _ _ _ _ _ _ _ Hw); [f_equal; lia| |lia].
    apply (eb_page _ _ _ _ _ Hk). lia. }
  assert (str_at m1 pcb (Z.of_nat (length name))) as Hstr.
  { split; [lia|]. split.
    - intros i Hi. rewrite Hr by lia. unfold pcb_image.
      rewrite (proj2 (Z.ltb_lt i 256)), (proj2 (Z.ltb_lt i 128)) by lia. by apply name_nonzero.
    - rewrite Hr by lia. unfold pcb_image.
      rewrite (proj2 (Z.ltb_lt _ 256)), (proj2 (Z.ltb_lt _ 128)) by lia. apply aget_past. lia. }
  assert (bytes m1 pcb (Z.of_nat (length name)) = name) as Hb.
  { apply aget_ext.
    - unfold bytes. rewrite length_fmap, length_seqZ. lia.
    - intros i Hi. unfold bytes in *. rewrite length_fmap, length_seqZ in Hi.
      rewrite (aget_lookup _ i (rd m1 (pcb + i))); [|lia|].
      + rewrite Hr by lia. unfold pcb_image.
        by rewrite (proj2 (Z.ltb_lt _ 256)), (proj2 (Z.ltb_lt _ 128)) by lia.
      + rewrite list_lookup_fmap, lookup_seqZ_lt by lia. simpl. do 2 f_equal. lia. }
  pose proof (eb_hi _ _ _ _ _ Hk) as Hhi.
  pose proof (read_dentry_by_name_lookup P m1 (fs k) im (kept_safe _ Hk1) (kept_rep _ Hk1)
    fs_in_view pcb _ dp Hstr ltac:(lia)) as Hlk.
  rewrite Hb in Hlk. fold program_entry in Hlk.
  destruct program_entry as [i|].
  - destruct Hlk as (m2 & E & Hd & [Co Ro]); [intros a Ha; apply (eb_page _ _ _ _ _ Hk); unfold region in Ha; lia|lia|].
    exists m2. split; [done|]. split; [done|]. split.
    + split; [by rewrite Co; apply Hk1|]. intros a Ha Ha1 Ha2. rewrite Ro by (done || lia).
      by apply Hk1.
    + intros a Ha. unfold region in Ha. apply Ro; [apply (eb_page _ _ _ _ _ Hk); lia|lia].
  - apply Hlk; [intros a Ha; apply (eb_page _ _ _ _ _ Hk); unfold region in Ha; lia|lia].
Qed.

(** The first forty bytes of the file, on the caller's stack. *)
Lemma header_stage m2 inode :
  kept_mem m2 → 0 ≤ inode < num_inodes im →
  let c := (im_files im).[inode] in
  ∃ m3 r, read_data m2 (fs k) inode 0 hp 40 = Some (m3, r) ∧ kept_mem m3 ∧
    (∀ j, 0 ≤ j < 40 → j < Z.of_nat (length c) → rd m3 (hp + j) = c.[j]) ∧
    (∀ a, region pcb 444 a → rd m3 a = rd m2 a).
Proof using All.
  intros Hm Hi c. destruct pid_free as (Hpid & _). pose proof (pcb_addr_range pid Hpid) as Hp.
  pose proof (pcb_addr_range cur cur_range) as Hc.
  assert (pcb + 444 ≤ pcb_addr cur + 444 ∨ pcb_addr cur + 0x2000 ≤ pcb) as Hap
    by (unfold pcb_addr, KERNEL_TOP, KB8; lia).
  pose proof (eb_hi _ _ _ _ _ Hk) as Hhi.
  assert (deliver (Z.of_nat (length c)) 0 40 ≤ 40) as Hd by (unfold deliver; lia).
  destruct (read_data_delivers P m2 (fs k) im inode 0 hp 40) as (m3 & E & Hw);
    [by apply kept_safe|by apply kept_rep|exact fs_in_view|done|lia|lia| |lia|].
  { intros a Ha. apply (eb_page _ _ _ _ _ Hk). fold c in Ha. unfold region in Ha. lia. }
  fold c in E, Hw. eexists m3, _. split; [exact E|]. split; [|split].
  - split; [rewrite (proj1 Hw); apply Hm|]. intros a Ha Ha1 Ha2.
    rewrite (written_out _ _ _ _ _ _ _ Hw) by (done || lia). by apply Hm.
  - intros j Hj Hjc. rewrite (written_in _ _ _ _ _ _ _ Hw).
    + f_equal. lia.
    + apply (eb_page _ _ _ _ _ Hk). lia.
    + unfold deliver. lia.
  - intros a Ha. unfold region in Ha. apply (written_out _ _ _ _ _ _ _ Hw); [apply (eb_page _ _ _ _ _ Hk); lia|lia].
Qed.

(** The new address space, and the program in it. *)
Lemma program_stage m3 inode :
  kept_mem m3 → 0 ≤ inode < num_inodes im →
  let c := (im_files im).[inode] in
  Z.of_nat (length c) ≤ 0x3B8000 →
  let m4 := loadPageDirectory (m3 <| tabs := execute_paging (tabs m3) pid |>) (pd_addr pid) in
  ∃ m5 r, read_data m4 (fs k) inode 0 USER_PROG_LOCATION MB4 = Some (m5, r) ∧
    mach_ok m5 (cur_terminal (con k)) pid vids ∧ fs_rep m5 (fs k) im ∧
    bytes m5 USER_PROG_LOCATION (Z.of_nat (length c)) = c ∧
    (∀ a, 0x400000 ≤ a < 0x800000 → rd m5 a = rd m3 a) ∧
    (∀ q, q ≠ pid →
       (proc_page_directory (tabs m5)).[q] = (proc_page_directory (tabs (kmem k))).[q]) ∧
    (∀ a, region (VIDEO + 4096) (3 * 4096) a → rd m5 a = pbyte m3 (view_cell pid (cur_terminal (con k)) a)) ∧
    (∀ q, 0 ≤ q → q ≠ pid → same_page m3 m5 q).
Proof using All.
  intros Hm Hi c Hc m4. destruct pid_free as (Hpid & _).
  assert (tabs m3 = tabs (kmem k) ∧ cr0_pg m3 = cr0_pg (kmem k)) as [Et3 Ep3]
    by (pose proof (proj1 Hm) as C; by injection C).
  destruct (execute_paging_ok _ _ _ pid (eb_tabs _ _ _ _ _ Hk) Hpid) as (HT & Hdir & Hdirs).
  rewrite <- Et3 in HT, Hdir, Hdirs.
  assert (mach_ok m4 (cur_terminal (con k)) pid vids) as Hm4.
  { apply load_mach_ok; try done. change (cr0_pg m3 = true). rewrite Ep3. apply (eb_pg _ _ _ _ _ Hk). }
  assert (∀ a, 0x400000 ≤ a < 0x800000 → rd m4 a = rd m3 a) as Hr.
  { intros a Ha. rewrite (rd_kernel _ _ _ _ _ Hm4 Ha), (eb_ident _ _ _ _ _ Hk m3 a (proj1 Hm) Ha). done. }
  pose proof (eb_lo _ _ _ _ _ Hk) as Hlo. pose proof (eb_hi _ _ _ _ _ Hk) as Hhi.
  assert (fs_rep m4 (fs k) im) as Hf4.
  { apply (fs_rep_ext m3); [|by apply kept_rep]. intros a Ha. apply Hr. lia. }
  assert (deliver (Z.of_nat (length c)) 0 MB4 = Z.of_nat (length c)) as Hd
    by (unfold deliver, MB4; lia).
  assert (∀ a, region USER_PROG_LOCATION (Z.of_nat (length c)) a → kernel_view a) as Hv.
  { intros a Ha. right; right. unfold region, USER_PROG_LOCATION, USER_MEM_LOCATION in *. lia. }
  destruct (read_data_delivers kernel_view m4 (fs k) im inode 0 USER_PROG_LOCATION MB4)
    as (m5 & E & Hw); [by apply (mach_safe _ _ _ _ Hm4)|done|intros a Ha; apply kernel_page_view; lia|done|lia|unfold MB4; lia|
      fold c; rewrite Hd; exact Hv|unfold USER_PROG_LOCATION; lia|].
  fold c in E, Hw. rewrite Hd in E, Hw.
  assert (∀ a, 0x400000 ≤ a < 0x800000 → rd m5 a = rd m4 a) as Hr5.
  { intros a Ha. apply (written_out _ _ _ _ _ _ _ Hw); [by apply kernel_page_view|].
    unfold USER_PROG_LOCATION. lia. }
  eexists m5, _. split; [exact E|]. split; [apply (mach_ok_ctl m4); [apply Hw|done]|]. split; [|split].
  - apply (fs_rep_ext m4); [|done]. intros a Ha. apply Hr5. lia.
  - rewrite (bytes_written kernel_view m4 m5 _ _ _ Hv Hw).
    apply aget_ext; rewrite length_fmap, length_seqZ; [lia|]. intros i Hi'.
    apply aget_lookup; [lia|]. rewrite list_lookup_fmap, lookup_seqZ_lt by lia.
    simpl. do 2 f_equal. lia.
  - split; [intros a Ha; by rewrite Hr5, Hr|]. split; [|split].
    + intros q Hq. assert (tabs m5 = tabs m4) as -> by (pose proof (proj1 Hw) as C; by injection C).
      change (tabs m4) with (execute_paging (tabs m3) pid). rewrite Hdirs by done.
      by rewrite Et3.
    + intros a Ha. rewrite (written_out _ _ _ _ _ _ _ Hw).
      * exact (rd_pbyte m4 _ _ _ a Hm4 (or_intror (or_introl Ha))).
      * by left.
      * unfold region, VIDEO, USER_PROG_LOCATION in *. lia.
    + intros q Hq Hne.
      destruct (read_data_stable (others_kept m4 pid) (others_stable _ _ _ _ Hm4) _ _ _ _ _ _ _ _ (others_refl _ _) E) as [_ Hp].
      exact (Hp q Hq Hne).
Qed.

(** The copy to the history does not fault. *)
Context (esp ebp : Z) (Hhist : ∀ i, program_entry = Some i → all_mapped (kmem k) command 127 = true).
#[local] Abbreviation parent := (if pid <=? 2 then pid else cur).
#[local] Abbreviation term := (if pid <=? 2 then pid else p_terminal_id (pcbs k).[cur]).

Definition parsed (m1 : mach) : kernel D := name_pcb (prepare_pcb (mark_used k pid true) pid) pid m1.

Lemma execute_parsed :
  ∃ m1, written P (kmem k) m1 pcb 444 (pcb_image name args) ∧ stores (kmem k) m1 ∧
    execute k cur esp ebp command dp hp =
    load_program (parsed m1) pid parent term esp ebp command dp hp m1.
Proof using All.
  destruct parse_stage as (m0 & m1 & E0 & E1 & Hw & Hst). exists m1. split; [exact Hw|]. split; [exact Hst|].
  assert (command ≠ 0) as Hnz.
  { destruct Hcmd as [[Hn0 _] Hview]. intros ->.
    specialize (eb_range _ _ _ _ _ Hk 0 (Hview 0 ltac:(unfold region; lia))). lia. }
  unfold execute. rewrite (proj2 (Z.eqb_neq _ _) Hnz). change (Z.to_nat MAX_USER_PROG) with 6%nat.
  rewrite Hfree. cbv zeta. change (kmem (mark_used k pid true)) with (kmem k).
  rewrite (command_mapped_str P (kmem k) command n (eb_safe _ _ _ _ _ Hk) (proj1 Hcmd) Hn), bind_some.
  2: { intros a Ha. pose proof (proj2 Hcmd a Ha) as Ha'. split; [done|]. pose proof (eb_range _ _ _ _ _ Hk a Ha'). lia. }
  cbn [negb]. rewrite E0, bind_some, E1, bind_some. reflexivity.
Qed.

(** What a later kernel state must keep for the caller to go on. *)
Lemma kernel_ok_back (k1 : kernel D) :
  kernel_ok vids im k cur → kept_mem (kmem k1) → con_base (con k1) →
  cur_terminal (con k1) = cur_terminal (con k) → fs k1 = fs k →
  proc_id_used k1 = proc_id_used k → length (pcbs k1) = 6%nat →
  (∀ q, (proc_id_used k).[q] = true → (pcbs k1).[q] = (pcbs k).[q]) → kernel_ok vids im k1 cur.
Proof using All.
  intros Hko Hm Hcon Hct Hf Hu Hl Hq. pose proof (kept_rep _ Hm) as Hrep.
  destruct Hko as [[H1 H1'] [_ H2] H3 H4 H5 H6 H7 H8]. split; rewrite ?Hf; try done.
  - split; [done|]. by rewrite Hu.
  - split; [done|]. intros p [Hp Hpu]. unfold fds_of. rewrite Hu in Hpu. rewrite Hq by done.
    by apply H2.
  - apply con_base_kbd; [done|]. rewrite Hct.
    apply (mach_ok_ctl (vmem (con k))); [apply Hm|apply H3].
  - by rewrite Hq.
  - by rewrite Hq.
Qed.

(** The state of the console and the file system through the stages. *)
Lemma parsed_con (m1 m : mach) : con (with_mem (parsed m1) m) = (con k) <| vmem := m |> ∧ fs (parsed m1) = fs k.
Proof using. unfold parsed, name_pcb, prepare_pcb. destruct (pid =? 0); done. Qed.

Lemma kept_con m : con_base ((con k) <| vmem := m |>).
Proof using All. apply con_base_mem, (eb_con _ _ _ _ _ Hk). Qed.

Definition hist (s : console mach D) (m : mach) : console mach D :=
  with_term s term (λ T, T <| cmd_hist := store_command m command (shift_history (cmd_hist T)) |>).

(** What a refused command leaves to the terminals and the processes. *)
Record declined (k' : kernel D) : Prop := {
  dc_mem : kept_mem (kmem k');
  dc_stores : stores (kmem k) (kmem k');
  dc_cur : cur_terminal (con k') = cur_terminal (con k);
  dc_terms : ∀ t, ∃ h, (terminals (con k')).[t] = (terminals (con k)).[t] <| cmd_hist := h |>;
  dc_input : kb k' = kb k ∧ rtc_interrupt_occured k' = rtc_interrupt_occured k
}.

Lemma parsed_input (m1 : mach) :
  kb (parsed m1) = kb k ∧ rtc_interrupt_occured (parsed m1) = rtc_interrupt_occured k.
Proof using. unfold parsed, name_pcb, prepare_pcb. by destruct (pid =? 0). Qed.

(** [execute] gives up: no such program, or not a program. *)
Lemma execute_refuses :
  kernel_ok vids im k cur →
  match program_entry with
  | None => True
  | Some i =>
      let inode := d_inode (im_dents im).[i] in
      let c := (im_files im).[inode] in
      0 ≤ inode < num_inodes im ∧ (4 ≤ length c)%nat ∧ elf_file c = false
  end →
  ∃ k', execute k cur esp ebp command dp hp = Some (ExRet k' (-1)) ∧ kernel_ok vids im k' cur ∧
    proc_id_used k' = proc_id_used k ∧ active k' = active k ∧
    (∀ q, (proc_id_used k).[q] = true → (pcbs k').[q] = (pcbs k).[q]) ∧ declined k'.
Proof using All.
  intros Hko Hp. destruct execute_parsed as (m1 & Hw & Hst1 & E).
  pose proof (lookup_stage m1 Hw) as Hlk.
  assert (∃ k', execute k cur esp ebp command dp hp = Some (ExRet k' (-1)) ∧
    declined k' ∧ con_base (con k') ∧ fs k' = fs k) as (k' & Ek & Hdc & Hc & Hf).
  { rewrite E. unfold load_program. destruct (parsed_con m1 m1) as [_ Ef]. rewrite Ef.
    revert Hp Hlk. case_eq program_entry; [intros i Hpe Hp Hlk|intros _ _ Hlk].
    - destruct Hlk as (m2 & E2 & Hd & Hk2 & _). rewrite E2, bind_some. cbv zeta.
      change (0 =? -1) with false. cbv iota.
      destruct (parsed_con m1 m2) as [Ec _].
      set (k2 := with_mem (parsed m1) m2) in *.
      assert (kmem k2 = m2) as Em2 by (unfold kmem; by rewrite Ec).
      rewrite Em2, (all_mapped_ctl (kmem k)), (Hhist i Hpe) by apply Hk2. cbn [negb].
      change (kmem (save_history k2 term command)) with (kmem k2).
      change (fs (save_history k2 term command)) with (fs (parsed m1)). rewrite Ef.
      rewrite !Em2. destruct Hd as (_ & _ & ->). destruct Hp as (Hi & H4 & He).
      destruct (header_stage m2 _ Hk2 Hi) as (m3 & r & E3 & Hk3 & Hh & _).
      rewrite E3, bind_some.
      rewrite (is_elf_file m3 hp _ H4), He by (intros j Hj; apply Hh; lia). cbn [negb].
      eexists. split; [reflexivity|]. split; [|split; [|exact Ef]].
      + split.
        * exact Hk3.
        * intros I HI H. apply (read_data_stable I HI _ _ _ _ _ _ _ _) in E3; [done|].
          apply (read_dentry_by_name_stable I HI _ _ _ _ _ _) in E2; [done|]. by apply Hst1.
        * change (cur_terminal (con k2) = cur_terminal (con k)). by rewrite Ec.
        * intros t. destruct (history_terms (con k2) term (λ T, store_command m2 command (shift_history (cmd_hist T))) t) as [g Eg].
          exists g. etransitivity; [exact Eg|]. by rewrite Ec.
        * exact (parsed_input m1).
      + apply (con_base_mem (hist (con k2) m2)). unfold hist. rewrite Ec. apply history_base, kept_con.
    - rewrite Hlk, bind_some. cbv zeta. change (-1 =? -1) with true. cbv iota.
      eexists. split; [reflexivity|]. destruct (parsed_con m1 m1) as [Ec _].
      assert (kept_mem m1) as Hk1.
      { split; [apply Hw|]. intros a Ha Hn' _. apply (written_out _ _ _ _ _ _ _ Hw); [done|].
        unfold region in Hn'. lia. }
      split; [split|split].
      + unfold kmem. change (con (mark_used ?x ?y ?z)) with (con x). rewrite Ec. exact Hk1.
      + unfold kmem. change (con (mark_used ?x ?y ?z)) with (con x). rewrite Ec. exact Hst1.
      + change (con (mark_used ?x ?y ?z)) with (con x). by rewrite Ec.
      + intros t. exists (cmd_hist (terminals (con k)).[t]).
        change (con (mark_used ?x ?y ?z)) with (con x). by rewrite Ec.
      + exact (parsed_input m1).
      + change (con (mark_used ?x ?y ?z)) with (con x). rewrite Ec. apply kept_con.
      + exact Ef. }
  exists k'. split; [done|].
  destruct (execute_inv _ _ _ _ _ _ _ _ (proj1 (eb_files _ _ _ _ _ Hk)) Hlu (eb_pid _ _ _ _ _ Hk) Ek)
    as (_ & L & U & A & _ & Q).
  split; [|done]. apply kernel_ok_back; try done; apply Hdc.
Qed.

(** A started process. *)
Record started (k' : kernel D) (c : list Z) : Prop := {
  st_ok : kernel_ok vids im k' pid;
  st_spawned : spawned k k' pid parent term;
  st_image : bytes (kmem k') USER_PROG_LOCATION (Z.of_nat (length c)) = c;
  st_name : p_name (pcbs k').[pid] = bytes_of name 128;
  st_args : p_args (pcbs k').[pid] = bytes_of args 128;
  st_saved : regs (pcbs k').[parent] = (esp, ebp, tss_esp0 k, KERNEL_DS);
  st_other : ∀ q, q ≠ pid → q ≠ parent → (pcbs k').[q] = (pcbs k).[q];
  st_dirs : ∀ q, q ≠ pid → (proc_page_directory (tabs (kmem k'))).[q] =
                           (proc_page_directory (tabs (kmem k))).[q];
  st_stack : tss_esp0 k' = pcb_addr pid + KB8 - 4 ∧ tss_ss0 k' = KERNEL_DS;
  st_allargs : ∀ q, q ≠ pid → p_args (pcbs k').[q] = p_args (pcbs k).[q];
  st_input : kb k' = kb k ∧ rtc_interrupt_occured k' = rtc_interrupt_occured k;
  st_cur : cur_terminal (con k') = cur_terminal (con k);
  st_terms : ∀ t, ∃ h, (terminals (con k')).[t] = (terminals (con k)).[t] <| cmd_hist := h |>;
  st_mem : ∃ m, kept_mem m ∧ stores (kmem k) m ∧
    (∀ a, region (VIDEO + 4096) (3 * 4096) a →
       rd (kmem k') a = pbyte m (view_cell pid (cur_terminal (con k)) a)) ∧
    (∀ q, 0 ≤ q → q ≠ pid → same_page m (kmem k') q)
}.

Lemma parsed_pcb m1 :
  written P (kmem k) m1 pcb 444 (pcb_image name args) →
  length (pcbs (parsed m1)) = 6%nat ∧
  p_name (pcbs (parsed m1)).[pid] = bytes_of name 128 ∧
  p_args (pcbs (parsed m1)).[pid] = bytes_of args 128 ∧
  (∀ q, q ≠ pid → (pcbs (parsed m1)).[q] = (pcbs k).[q]).
Proof using All.
  intros Hw. destruct pid_free as (Hpid & _). pose proof (pcb_addr_range pid Hpid) as Hp.
  pose proof (proj1 (eb_files _ _ _ _ _ Hk)) as Hl. unfold parsed.
  set (k3 := prepare_pcb _ _).
  assert (length (pcbs k3) = 6%nat) as L3.
  { unfold k3, prepare_pcb. destruct (pid =? 0); rewrite !length_with_pcb; done. }
  unfold name_pcb. split; [by rewrite length_with_pcb|].
  rewrite get_with_pcb by lia.
  assert (∀ b, region pcb 444 b → P b) as Hv
    by (intros b Hb; apply (eb_page _ _ _ _ _ Hk); unfold region in Hb; lia).
  split; [|split].
  - change (bytes m1 pcb 128 = bytes_of name 128). unfold bytes, bytes_of. apply list_fmap_ext.
    intros j i Hi. apply lookup_seqZ in Hi as [-> Hi].
    rewrite (written_in _ _ _ _ _ _ _ Hw) by (lia || (apply Hv; unfold region; lia)).
    unfold pcb_image. rewrite (proj2 (Z.ltb_lt _ 256)), (proj2 (Z.ltb_lt _ 128)) by lia.
    f_equal. lia.
  - change (bytes m1 (pcb + ARGS_OFFSET) 128 = bytes_of args 128). unfold bytes, bytes_of, ARGS_OFFSET.
    apply list_fmap_ext. intros j i Hi. apply lookup_seqZ in Hi as [-> Hi].
    rewrite (written_in _ _ _ _ _ _ _ Hw) by (lia || (apply Hv; unfold region; lia)).
    unfold pcb_image. rewrite (proj2 (Z.ltb_lt _ 256)), (proj2 (Z.ltb_ge _ 128)) by lia.
    f_equal. lia.
  - intros q Hq. rewrite get_with_pcb_ne by done. unfold k3, prepare_pcb.
    destruct (pid =? 0); rewrite !get_with_pcb_ne by done; done.
Qed.

Lemma execute_starts i :
  program_entry = Some i →
  let inode := d_inode (im_dents im).[i] in
  let c := (im_files im).[inode] in
  0 ≤ inode < num_inodes im → 28 ≤ Z.of_nat (length c) ≤ 0x3B8000 → elf_file c = true →
  ∃ k', execute k cur esp ebp command dp hp =
          Some (ExUser k' pid (entry_of c) (USER_MEM_LOCATION + MB4 - 4)) ∧ started k' c.
Proof using All.
  intros Hpe inode c Hi Hlen He. destruct execute_parsed as (m1 & Hw & Hst1 & E).
  destruct pid_free as (Hpid & Hun). pose proof cur_range as Hcr.
  pose proof (lookup_stage m1 Hw) as Hlk. rewrite Hpe in Hlk.
  destruct Hlk as (m2 & E2 & Hd & Hk2 & _). destruct (header_stage m2 inode Hk2 Hi) as (m3 & r & E3 & Hk3 & Hh & _).
  fold c in Hh. destruct (program_stage m3 inode Hk3 Hi) as (m5 & r5 & E5 & Hm5 & Hf5 & Hb5 & _ & Hd5 & Hv5 & Hp5); [fold c; lia|].
  fold c in Hb5. destruct (parsed_pcb m1 Hw) as (L1 & N1 & A1 & O1).
  destruct (parsed_con m1 m2) as [Ec Ef]. set (k2 := with_mem (parsed m1) m2) in *.
  assert (kmem k2 = m2) as Em2 by (unfold kmem; by rewrite Ec).
  set (kS := with_mem (save_history k2 term command) m3).
  destruct (enter_process_regs kS pid parent term esp ebp (entry_of c) inode m5 r5)
    as (k' & Ek & Ecn & Ef' & Ein & Enm & Er & Eo & Et1 & Et2).
  { change (kmem kS) with m3. change (fs kS) with (fs (parsed m1)). rewrite Ef. exact E5. }
  { change (pcbs kS) with (pcbs (parsed m1)). rewrite L1. destruct (Z.leb_spec pid 2); lia. }
  change (pcbs kS) with (pcbs (parsed m1)) in Enm, Eo. change (fs kS) with (fs (parsed m1)) in Ef'.
  rewrite Ef in Ef'.
  assert (execute k cur esp ebp command dp hp =
    Some (ExUser k' pid (entry_of c) (USER_MEM_LOCATION + MB4 - 4))) as Ex.
  { rewrite E. unfold load_program. rewrite Ef, E2, bind_some. cbv zeta.
    change (0 =? -1) with false. cbv iota. fold k2.
    rewrite Em2, (all_mapped_ctl (kmem k)), (Hhist i Hpe) by apply Hk2. cbn [negb].
    change (kmem (save_history k2 term command)) with (kmem k2).
    change (fs (save_history k2 term command)) with (fs (parsed m1)). rewrite Ef, !Em2.
    destruct Hd as (_ & _ & ->). fold inode. rewrite E3, bind_some.
    rewrite (is_elf_file m3 hp c), He by (lia || (intros j Hj; apply Hh; lia)). cbn [negb]. fold kS.
    rewrite (elf_entry_file m3 hp c) by (intros j Hj; apply Hh; lia). exact Ek. }
  exists k'. split; [exact Ex|].
  destruct (execute_inv _ _ _ _ _ _ _ _ (proj1 (eb_files _ _ _ _ _ Hk)) Hlu (eb_pid _ _ _ _ _ Hk) Ex)
    as [_ Hsp].
  pose proof (sp_new _ _ _ _ _ Hsp) as Hid. unfold ident in Hid. injection Hid as Hid1 Hid2 Hid3 Hid4.
  assert (tss_esp0 kS = tss_esp0 k) as Ets.
  { change (tss_esp0 kS) with (tss_esp0 (parsed m1)). unfold parsed, name_pcb, prepare_pcb.
    destruct (pid =? 0); done. }
  rewrite Ets in Er. assert (kmem k' = m5) as Em5 by (unfold kmem; by rewrite Ecn).
  split; try done.
  - split.
    + split; [done|]. rewrite (sp_used _ _ _ _ _ Hsp). by rewrite aget_aset_eq by lia.
    + apply (spawned_files k k' pid _ _ (proj1 (eb_files _ _ _ _ _ Hk)) Hlu Hpid Hsp), (eb_files _ _ _ _ _ Hk).
    + rewrite Ecn. change ((con kS) <| vmem := m5 |>) with ((hist (con k2) m2) <| vmem := m5 |>).
      apply con_base_kbd.
      * apply con_base_mem. unfold hist. rewrite Ec. apply history_base, kept_con.
      * change (cur_terminal ((hist (con k2) m2) <| vmem := m5 |>)) with (cur_terminal (con k2)).
        rewrite Ec. exact Hm5.
    + rewrite Em5, Ef'. exact Hf5.
    + rewrite Ef'. exact (eb_lo _ _ _ _ _ Hk).
    + rewrite Ef'. exact (eb_hi _ _ _ _ _ Hk).
    + done.
    + rewrite Hid3. destruct (Z.leb_spec pid 2); [lia|]. exact (eb_term _ _ _ _ _ Hk).
  - by rewrite Em5.
  - rewrite (proj1 (Enm pid)). exact N1.
  - rewrite (proj2 (Enm pid)). exact A1.
  - intros q Hq Hq2. rewrite Eo by done. by apply O1.
  - by rewrite Em5.
  - intros q Hq. rewrite (proj2 (Enm q)). change (p_args (pcbs (parsed m1)).[q] = p_args (pcbs k).[q]). by rewrite O1.
  - destruct Ein as [-> ->]. exact (parsed_input m1).
  - rewrite Ecn. change (cur_terminal (con k2) = cur_terminal (con k)). by rewrite Ec.
  - intros t. rewrite Ecn. change (terminals ((con kS) <| vmem := m5 |>)) with (terminals (hist (con k2) m2)).
    unfold hist. destruct (history_terms (con k2) term (λ T, store_command m2 command (shift_history (cmd_hist T))) t) as [g Eg].
    exists g. etransitivity; [exact Eg|]. by rewrite Ec.
  - exists m3. rewrite Em5. split; [exact Hk3|]. split; [|by split].
    intros I HI H. apply (read_data_stable I HI _ _ _ _ _ _ _ _) in E3; [done|].
    apply (read_dentry_by_name_stable I HI _ _ _ _ _ _) in E2; [done|]. by apply Hst1.
Qed.
End Execute.

(** ** Ending a process *)

(** The video pages are the same in every address space. *)
Lemma view_cell_any pid pid' t a :
  region (VIDEO + 4096) (3 * 4096) a → view_cell pid t a = view_cell pid' t a.
Proof. unfold region, view_cell, VIDEO. intros Ha. by cases_lia. Qed.

Section Halt.
Context {HL : Layout} {D : Type} `{!PortIO D}.
Implicit Types (k : kernel D) (cur parent : Z).

(** Closing every descriptor of a well-formed table succeeds. *)
Lemma close_total k cur i :
  0 ≤ cur < Z.of_nat (length (pcbs k)) → files_ok (fds_of k cur) → 0 ≤ i < 8 →
  ∃ k' v, close k cur i = Some (k', v) ∧ files_ok (fds_of k' cur) ∧
    length (pcbs k') = length (pcbs k) ∧ con k' = con k ∧ fs k' = fs k ∧
    kb k' = kb k ∧ rtc_interrupt_occured k' = rtc_interrupt_occured k.
Proof.
  intros Hc Hf Hi. unfold close. destruct ((i >? 7) || (i <? 2)) eqn:Er; [by eexists _, _|].
  destruct (Z.eqb_spec (flags (get_fd k cur i)) 0) as [|Hfl]; [by eexists _, _|].
  assert (2 ≤ i < 8) as Hr by lia.
  assert (∃ v, fop_close (get_fd k cur i) = Some v) as [v ->].
  { destruct (fo_rest _ Hf i Hr) as [E|(_ & _ & Ho)].
    - change (fds_of k cur).[i] with (get_fd k cur i) in E. rewrite E in Hfl. done.
    - change (fds_of k cur).[i] with (get_fd k cur i) in Ho. unfold fop_close.
      destruct Ho as [->|[->| ->]]; by eexists. }
  eexists _, _. split; [done|]. split; [|split; [apply length_with_pcb|done]].
  unfold fds_of, set_fd. rewrite get_with_pcb by done.
  change (files_ok (p_fd (pcbs k).[cur]).[i <- zero_file]). apply files_ok_set; [done|done|by left].
Qed.

Lemma close_all_total k cur :
  0 ≤ cur < Z.of_nat (length (pcbs k)) → files_ok (fds_of k cur) →
  ∃ k', close_all k cur = Some k' ∧ con k' = con k ∧ fs k' = fs k ∧
    kb k' = kb k ∧ rtc_interrupt_occured k' = rtc_interrupt_occured k.
Proof.
  intros Hc Hf. unfold close_all.
  destruct (for_loop_inv (λ _ ok, ∃ k', ok = Some k' ∧ files_ok (fds_of k' cur) ∧
      length (pcbs k') = length (pcbs k) ∧ con k' = con k ∧ fs k' = fs k ∧
      kb k' = kb k ∧ rtc_interrupt_occured k' = rtc_interrupt_occured k) 8 0
    (λ i ok, k ← ok; fst <$> close k cur i) (Some k)) as (k' & E & _ & _ & H3).
  - by exists k.
  - intros j ok Hj (k1 & -> & H1 & H2 & H3 & H4 & H5 & H6). rewrite bind_some.
    destruct (close_total k1 cur j) as (k2 & v & -> & ? & E2 & E3 & E4 & E5 & E6); [lia|done|lia|].
    exists k2. simpl. split; [done|]. split; [done|]. by rewrite E2, E3, E4, E5, E6.
  - by exists k'.
Qed.

(** The state once the process is taken away and the parent's tables are
    loaded. *)
Record taken vids k k1 cur parent : Prop := {
  tk_reaped : reaped k k1 cur parent;
  tk_con : con k1 = (con k) <| vmem := kmem k1 |>;
  tk_fs : fs k1 = fs k;
  tk_mach : mach_ok (kmem k1) (cur_terminal (con k)) parent vids;
  tk_kernel : ∀ a, 0x400000 ≤ a < 0x800000 → rd (kmem k1) a = rd (kmem k) a;
  tk_user : ∀ a, region USER_MEM_LOCATION 0x400000 a →
    pbyte (kmem k1) (0x800000 + 0x400000 * cur + (a - USER_MEM_LOCATION)) = 0;
  tk_tabs : tabs (kmem k1) = tabs (kmem k);
  tk_video : ∀ a, region (VIDEO + 4096) (3 * 4096) a → rd (kmem k1) a = rd (kmem k) a;
  tk_pages : ∀ q, 0 ≤ q → q ≠ cur → same_page (kmem k) (kmem k1) q;
  tk_input : kb k1 = kb k ∧ rtc_interrupt_occured k1 = rtc_interrupt_occured k
}.

(** The first half of [halt]: clear the memory, switch the tables, close the
    descriptors, free the process id. *)
Lemma halt_takes vids im k cur status esp ebp shell dp hp :
  let parent := p_parent (pcbs k).[cur] in
  kernel_ok vids im k cur → live k parent → p_pid (pcbs k).[parent] = parent →
  dir_ok (proc_page_directory (tabs (kmem k))).[parent] (Some parent) (vids parent) →
  ∃ k1, taken vids k k1 cur parent ∧
    halt k cur status esp ebp shell dp hp =
    (let resume k2 :=
       if p_parent (pcbs k2).[cur] =? -1 then HFault else
       HResume k2 (p_parent (pcbs k2).[cur]) (p_esp (pcbs k2).[p_parent (pcbs k2).[cur]])
         (p_ebp (pcbs k2).[p_parent (pcbs k2).[cur]]) (u8 status) in
     if cur =? parent then
       r ← execute k1 cur esp ebp shell dp hp;
       match r with
       | ExUser k pid eip u_esp => Some (HUser k pid eip u_esp)
       | ExRet k2 _ => Some (resume k2)
       end
     else Some (resume k1)).
Proof.
  intros parent Hk Hlive Hpp Hdir.
  pose proof (ki_mach _ _ _ (ko_kbd _ _ _ _ Hk)) as Hm.
  pose proof (ko_files _ _ _ _ Hk) as [Hlen Hfiles]. pose proof (ko_cur _ _ _ _ Hk) as Hcur.
  pose proof (ko_pid _ _ _ _ Hk) as Hpid.
  destruct (memset_correct kernel_view (kmem k) USER_MEM_LOCATION 0 MB4) as (m1 & E1 & Hw).
  { apply (ko_safe _ _ _ _ Hk). }
  { intros a Ha. right; right. exact Ha. }
  { unfold USER_MEM_LOCATION. lia. } { unfold MB4. lia. } { unfold USER_MEM_LOCATION, MB4. lia. }
  assert (mach_ok m1 (cur_terminal (con k)) cur vids) as Hm1
    by (apply (mach_ok_ctl (vmem (con k))); [apply Hw|done]).
  set (m2 := loadPageDirectory m1 (pd_addr parent)).
  assert (mach_ok m2 (cur_terminal (con k)) parent vids) as Hm2.
  { apply load_mach_ok; [apply Hm1|apply Hlive|apply Hm1|].
    assert (tabs m1 = tabs (kmem k)) as -> by (pose proof (proj1 Hw) as C; by injection C). done. }
  destruct (close_all_total (with_mem k m2) cur) as (k0 & Ec & Econ & Efs & Ein).
  { change (0 ≤ cur < Z.of_nat (length (pcbs k))). destruct Hcur. lia. }
  { exact (Hfiles cur Hcur). }
  pose proof (close_all_keeps _ _ _ Ec) as Hke.
  assert (∀ q, p_pid (pcbs k0).[q] = p_pid (pcbs k).[q] ∧
               p_parent (pcbs k0).[q] = p_parent (pcbs k).[q]) as Hid.
  { intros q. destruct (who_fields _ _ (keeps_who _ _ _ q Hke)) as (H1 & H2 & _).
    split; [exact H1|exact H2]. }
  unfold halt. cbv zeta. fold parent. rewrite E1, bind_some.
  assert (parent ≠ -1) as Hn1 by (destruct Hlive; lia). rewrite (proj2 (Z.eqb_neq _ _) Hn1).
  rewrite Hpp. fold m2. rewrite Ec.
  change (pcbs (mark_used k0 _ _)) with (pcbs k0).
  change (pcbs (mark_active _ _ _)) with (pcbs k0).
  rewrite (proj1 (Hid cur)), Hpid, (proj1 (Hid parent)), Hpp.
  set (k1 := set_field _ _). change (pcbs k1) with (pcbs k0).
  rewrite (proj1 (Hid cur)), Hpid, (proj1 (Hid parent)), Hpp.
  exists k1. split; [|reflexivity].
  assert (kmem k1 = m2) as Em by (unfold kmem; change (con k1) with (con k0); rewrite Econ; reflexivity).
  pose proof (memset_stable (others_kept (kmem k) cur) (others_stable _ _ _ _ Hm) _ _ _ _ _ (others_refl _ _) E1) as Hot.
  clear E1 Ec. destruct Hke as [A1 A2 A3 A4 A5 A6]. split.
  - split; try done.
    + change (proc_id_used k1) with ((proc_id_used k0).[cur <- false]). by rewrite A2.
    + change (active k1) with ((active k0).[cur <- false].[parent <- true]). by rewrite A3.
  - rewrite Em. change (con k1) with (con k0). rewrite Econ. reflexivity.
  - change (fs k1) with (fs k0). rewrite Efs. reflexivity.
  - by rewrite Em.
  - intros a Ha. rewrite Em, (rd_kernel m2 _ _ _ a Hm2 Ha). change (pbyte m2 a) with (pbyte m1 a).
    rewrite <- (rd_kernel m1 _ _ _ a Hm1 Ha).
    apply (written_out _ _ _ _ _ _ _ Hw); [by apply kernel_page_view|]. unfold USER_MEM_LOCATION. lia.
  - intros a Ha. rewrite Em. change (pbyte m2) with (pbyte m1).
    assert (kernel_view a) as Hv by (right; right; exact Ha).
    assert (view_cell cur (cur_terminal (con k)) a =
      0x800000 + 0x400000 * cur + (a - USER_MEM_LOCATION)) as Evc.
    { unfold region, view_cell, USER_MEM_LOCATION, VIDEO in *. cases_lia; lia. }
    rewrite <- Evc, <- (rd_pbyte m1 _ _ _ a Hm1) by (by right).
    rewrite (written_in _ _ _ _ _ _ _ Hw); [done|done|]. unfold region, MB4 in *. lia.
  - rewrite Em. change (tabs m2) with (tabs m1). pose proof (proj1 Hw) as C. by injection C.
  - intros a Ha. rewrite Em. assert (all_pages a) as Hv by (right; by left).
    rewrite (rd_pbyte m2 _ _ _ a Hm2 Hv). change (pbyte m2) with (pbyte m1).
    rewrite (view_cell_any parent cur) by done. rewrite <- (rd_pbyte m1 _ _ _ a Hm1 Hv).
    apply (written_out _ _ _ _ _ _ _ Hw); [by left|]. unfold region, USER_MEM_LOCATION, VIDEO in *. lia.
  - rewrite Em. exact (proj2 Hot).
  - exact Ein.
Qed.

(** The parts of the invariant that hold then, whoever the parent is. *)
Lemma taken_files vids im k k1 cur parent :
  kernel_ok vids im k cur → taken vids k k1 cur parent → all_files_ok k1.
Proof.
  intros Hk [Hr _ _ _ _ _ _ _ _ _]. pose proof (ko_files _ _ _ _ Hk) as [Hlen Hfiles].
  pose proof (ko_cur _ _ _ _ Hk) as Hcur. split; [rewrite (re_len _ _ _ _ Hr); exact Hlen|].
  intros p [Hp Hu]. rewrite (re_used _ _ _ _ Hr) in Hu. unfold fds_of.
  destruct (decide (p = cur)) as [->|Hpc].
  - destruct (decide (0 ≤ cur < Z.of_nat (length (proc_id_used k)))) as [Hin|Hout];
      [by rewrite aget_aset_eq in Hu by done|].
    exfalso. destruct Hcur as [_ Hcu]. revert Hcu. unfold aget. destruct (Z.leb_spec 0 cur); [|done].
    by rewrite lookup_ge_None_2 by lia.
  - rewrite (re_other _ _ _ _ Hr) by done. apply Hfiles. split; [done|].
    by rewrite aget_aset_ne in Hu by congruence.
Qed.

Lemma taken_rep vids im k k1 cur parent :
  kernel_ok vids im k cur → taken vids k k1 cur parent → fs_rep (kmem k1) (fs k1) im.
Proof.
  intros Hk Ht. pose proof (ko_lo _ _ _ _ Hk) as Hlo. pose proof (ko_hi _ _ _ _ Hk) as Hhi.
  rewrite (tk_fs _ _ _ _ _ Ht). apply (fs_rep_ext (kmem k)); [|apply Hk]. intros a Ha.
  apply (tk_kernel _ _ _ _ _ Ht). lia.
Qed.

Lemma taken_con vids im k k1 cur parent :
  kernel_ok vids im k cur → taken vids k k1 cur parent → kbd_inv parent vids (con k1).
Proof.
  intros Hk Ht. rewrite (tk_con _ _ _ _ _ Ht).
  apply (kbd_inv_mach cur parent vids vids); [apply Hk|]. apply Ht.
Qed.

Lemma halt_resumes vids im k cur status esp ebp shell dp hp :
  let parent := p_parent (pcbs k).[cur] in
  kernel_ok vids im k cur → parent ≠ cur → live k parent → p_pid (pcbs k).[parent] = parent →
  0 ≤ p_terminal_id (pcbs k).[parent] < 3 →
  dir_ok (proc_page_directory (tabs (kmem k))).[parent] (Some parent) (vids parent) →
  ∃ k', halt k cur status esp ebp shell dp hp =
          Some (HResume k' parent (p_esp (pcbs k).[parent]) (p_ebp (pcbs k).[parent]) (u8 status)) ∧
    taken vids k k' cur parent ∧ kernel_ok vids im k' parent.
Proof.
  intros parent Hk Hne Hlive Hpp Hterm Hdir.
  destruct (halt_takes vids im k cur status esp ebp shell dp hp Hk Hlive Hpp Hdir) as (k' & Ht & E).
  fold parent in Ht, E. cbv zeta in E. rewrite (proj2 (Z.eqb_neq cur parent)) in E by congruence.
  pose proof (tk_reaped _ _ _ _ _ Ht) as Hr.
  destruct (who_fields _ _ (re_who _ _ _ _ Hr)) as (_ & Epar & _). fold parent in Epar.
  rewrite Epar, (re_other _ _ _ _ Hr parent Hne) in E.
  rewrite (proj2 (Z.eqb_neq parent (-1))) in E by (destruct Hlive; lia).
  exists k'. split; [exact E|]. clear E. split; [exact Ht|].
  split.
  - split; [apply Hlive|]. rewrite (re_used _ _ _ _ Hr), aget_aset_ne by congruence. apply Hlive.
  - by apply (taken_files vids im k k' cur parent).
  - by apply (taken_con vids im k k' cur parent).
  - by apply (taken_rep vids im k k' cur parent).
  - rewrite (tk_fs _ _ _ _ _ Ht). apply Hk.
  - rewrite (tk_fs _ _ _ _ _ Ht). apply Hk.
  - by rewrite (re_other _ _ _ _ Hr) by done.
  - by rewrite (re_other _ _ _ _ Hr) by done.
Qed.

(** A root shell that ends starts again. *)
Lemma halt_restarts vids im k cur status esp ebp shell dp hp i :
  kernel_ok vids im k cur → p_parent (pcbs k).[cur] = cur → cur ≤ 2 →
  length (proc_id_used k) = 6%nat → (∀ p, 0 ≤ p < cur → (proc_id_used k).[p] = true) →
  str_at (kmem k) shell 5 → 0x400000 ≤ shell → shell + 6 ≤ 0x7F4000 →
  pcb_addr cur + 444 ≤ dp ∧ dp + 44 ≤ pcb_addr cur + 0x2000 →
  pcb_addr cur + 444 ≤ hp ∧ hp + 40 ≤ pcb_addr cur + 0x2000 →
  dp + 44 ≤ hp ∨ hp + 40 ≤ dp →
  program_entry im k shell 5 = Some i →
  let inode := d_inode (im_dents im).[i] in
  let c := (im_files im).[inode] in
  0 ≤ inode < num_inodes im → 28 ≤ Z.of_nat (length c) ≤ 0x3B8000 → elf_file c = true →
  ∃ k1 k', halt k cur status esp ebp shell dp hp =
      Some (HUser k' cur (entry_of c) (USER_MEM_LOCATION + MB4 - 4)) ∧
    taken vids k k1 cur cur ∧ started kernel_view vids im k1 cur cur shell 5 esp ebp k' c.
Proof.
  intros Hk Hpar Hc2 Hlu Hlow Hstr Hs0 Hs1 Hdp Hhp Hloc Hpe inode c Hi Hl He.
  pose proof (ko_cur _ _ _ _ Hk) as Hlive. pose proof (ki_mach _ _ _ (ko_kbd _ _ _ _ Hk)) as Hm.
  destruct (halt_takes vids im k cur status esp ebp shell dp hp Hk) as (k1 & Ht & E);
    rewrite ?Hpar; [exact Hlive|apply Hk|apply Hm|].
  rewrite Hpar in Ht, E. cbv zeta in E. rewrite Z.eqb_refl in E.
  pose proof (tk_reaped _ _ _ _ _ Ht) as Hr.
  destruct (who_fields _ _ (re_who _ _ _ _ Hr)) as (Epid & _ & Eterm).
  assert (exec_base kernel_view vids im k1 cur) as Hb.
  { pose proof (tk_mach _ _ _ _ _ Ht) as Hm1. pose proof (taken_con _ _ _ _ _ _ Hk Ht) as Hcon.
    split.
    - apply Hlive.
    - by apply (taken_files vids im k k1 cur cur).
    - by apply (mach_safe _ _ _ _ Hm1).
    - apply kernel_page_view.
    - unfold kernel_view, region, VIDEO, USER_MEM_LOCATION. lia.
    - intros m a Hct Ha. apply (rd_kernel m (cur_terminal (con k)) cur vids); [|done].
      by apply (mach_ok_ctl (kmem k1)).
    - apply Hm1.
    - rewrite (tk_con _ _ _ _ _ Ht). apply Hm1.
    - by apply (kbd_con_base cur vids).
    - by apply (taken_rep vids im k k1 cur cur).
    - rewrite (tk_fs _ _ _ _ _ Ht). apply Hk.
    - rewrite (tk_fs _ _ _ _ _ Ht). apply Hk.
    - rewrite Epid. apply Hk.
    - rewrite Eterm. apply Hk. }
  assert (free_pid (proc_id_used k1) 6 0 = Some cur) as Hfree.
  { pose proof (free_pid_spec (proc_id_used k1) 6 0) as Hf.
    assert ((proc_id_used k1).[cur] = false) as Hcf.
    { rewrite (re_used _ _ _ _ Hr), aget_aset_eq by (destruct Hlive; lia). done. }
    assert (∀ p, 0 ≤ p < cur → (proc_id_used k1).[p] = true) as Hlow1.
    { intros p Hp. rewrite (re_used _ _ _ _ Hr), aget_aset_ne by lia. by apply Hlow. }
    destruct (free_pid (proc_id_used k1) 6 0) as [p|].
    - destruct Hf as (Hp & Hu & Hbelow). f_equal.
      destruct (Z.lt_trichotomy p cur) as [Hlt|[Heq|Hgt]]; [|done|].
      + rewrite Hlow1 in Hu by lia. done.
      + rewrite Hbelow in Hcf; [done|]. destruct Hlive. lia.
    - rewrite Hf in Hcf; [done|]. destruct Hlive. lia. }
  assert (∀ j, 0 ≤ j ≤ 5 → rd (kmem k1) (shell + j) = rd (kmem k) (shell + j)) as Hsh.
  { intros j Hj. apply (tk_kernel _ _ _ _ _ Ht). lia. }
  assert (str_at (kmem k1) shell 5) as Hstr1.
  { destruct Hstr as (H0 & H1 & H2). split; [done|]. split.
    - intros j Hj. rewrite Hsh by lia. by apply H1.
    - by rewrite Hsh by lia. }
  assert (typed k1 shell 5 = typed k shell 5) as Ety.
  { unfold typed, bytes. apply list_fmap_ext. intros j x Hx. apply lookup_seqZ in Hx as [-> Hx].
    apply Hsh. lia. }
  destruct (execute_starts kernel_view vids im k1 cur cur shell 5 dp hp Hb) with (esp := esp) (ebp := ebp) (i := i)
    as (k' & Ex & Hst).
  - rewrite (re_used _ _ _ _ Hr), length_aset. exact Hlu.
  - exact Hfree.
  - split; [exact Hstr1|]. intros a Ha. apply kernel_page_view. unfold region in Ha. lia.
  - lia.
  - left. destruct Hlive as [Hcr _]. pose proof (pcb_addr_range cur Hcr). lia.
  - exact Hdp.
  - exact Hhp.
  - exact Hloc.
  - intros _ _. apply (all_mapped_safe _ kernel_view); [exact (eb_safe _ _ _ _ _ Hb)|].
    intros a Ha. apply kernel_page_view. unfold region in Ha. lia.
  - unfold program_entry in *. rewrite Ety. exact Hpe.
  - exact Hi.
  - exact Hl.
  - exact He.
  - exists k1, k'. rewrite E. fold inode c in Ex, Hst. rewrite Ex, bind_some. split; [reflexivity|].
    split; [exact Ht|exact Hst].
Qed.

(** The terminals show after the first half of [halt] what they showed before. *)
Lemma taken_shows vids im k k1 cur parent t :
  kernel_ok vids im k cur → taken vids k k1 cur parent → 0 ≤ t < 3 → tview (con k1) t = tview (con k) t.
Proof.
  intros Hk Ht Htr. rewrite (tk_con _ _ _ _ _ Ht). unfold tview.
  change (page_of ((con k) <| vmem := kmem k1 |>) t) with (page_of (con k) t). do 2 f_equal.
  apply view_ext. intros j Hj. apply (tk_video _ _ _ _ _ Ht).
  rewrite (ki_page _ _ _ (ko_kbd _ _ _ _ Hk)) by done. unfold region, tpage. lia.
Qed.
End Halt.
