(* ===== verification/ProcessProps.v ===== *)
(** * Properties of execute and halt

    Starting and refusing programs, the return to the parent, the restart of a
    root shell, and the command parser, with runs on the concrete kernel. *)

From S2P Require Import Prelude Memory Lib Ports Types Filesystem FsProofs I8259 RTC Paging PagingProps.
From S2P Require Import Console ConsoleProofs Keyboard KeyboardProofs LineProofs KeyboardProps.
From S2P Require Import Kernel KernelProps KernelDemo SyscallProps Process ParseProofs Forest System.
From S2P Require Import ProcessProofs.
#[local] Open Scope Z_scope.

Section Props.
Context {HL : Layout} {D : Type} `{!PortIO D}.
Implicit Types (k : kernel D) (cur pid : Z) (vids : Z → option Z) (im : fs_image).

(** Process [cur] calls [execute] with the command of [n] characters at
    [command]; [pid] is the lowest free process id, and the locals [d] and
    [head] are on the caller's kernel stack.  When the command is found, 127
    bytes of it are copied, so that these are mapped. *)
Record exec_ready vids im k cur pid (command n dp hp : Z) : Prop := {
  er_ok : kernel_ok vids im k cur;
  er_used : length (proc_id_used k) = 6%nat;
  er_free : free_pid (proc_id_used k) 6 0 = Some pid;
  er_cmd : cstring k command n;
  er_short : n ≤ 127;
  er_apart : command + n + 1 ≤ pcb_addr pid ∨ pcb_addr pid + 444 ≤ command;
  er_dp : pcb_addr cur + 444 ≤ dp ∧ dp + 44 ≤ pcb_addr cur + 0x2000;
  er_hp : pcb_addr cur + 444 ≤ hp ∧ hp + 40 ≤ pcb_addr cur + 0x2000;
  er_locals : dp + 44 ≤ hp ∨ hp + 40 ≤ dp;
  er_hist : ∀ i, program_entry im k command n = Some i → all_mapped (kmem k) command 127 = true
}.

(** C3 (starting a program). Let the command be readable, with 127 mapped bytes
    from its start on, which [execute] copies whatever its length.  If its first
    word names a file that starts with the ELF magic and fits the process'
    memory, [execute] enters user mode in the process with the lowest free id, at the entry point of the
    file's header, with the stack at the top of the process' 4 MB; the file
    lies at the program address; the new PCB holds the first word as the name
    and the rest without surrounding blanks as arguments, the standard
    descriptors, the caller as parent and its terminal (a process below 3 is its
    own parent and terminal); the caller's stack and frame pointers and the
    kernel stack are saved in the parent's PCB; no other PCB changes; the
    keyboard, the terminals (apart from the command history) and the pages of
    the other processes are as before; and the kernel is well formed for the new
    process. *)
Theorem execute_starts_program vids im k cur pid command n dp hp esp ebp i :
  exec_ready vids im k cur pid command n dp hp →
  program_entry im k command n = Some i →
  let inode := d_inode (im_dents im).[i] in
  let c := (im_files im).[inode] in
  0 ≤ inode < num_inodes im → 28 ≤ Z.of_nat (length c) ≤ 0x3B8000 → elf_file c = true →
  ∃ k', execute k cur esp ebp command dp hp =
          Some (ExUser k' pid (entry_of c) (USER_MEM_LOCATION + MB4 - 4)) ∧
        started kernel_view vids im k cur pid command n esp ebp k' c.
Proof.
  intros [H1 H2 H3 H4 H5 H6 H7 H8 H9 H10] Hp inode c Hi Hl He.
  exact (execute_starts kernel_view vids im k cur pid command n dp hp (kernel_ok_base _ _ _ _ H1) H2 H3 H4 H5 H6 H7 H8 H9 esp ebp H10 i Hp Hi Hl He).
Qed.


(** (halt). A process with another process as parent always ends: [halt]
    continues the parent inside its [execute], with the stack and frame
    pointers saved there and the low byte of the status as result; the process
    id is free, its memory is zeroed, the parent is active, and the kernel is
    well formed for the parent. *)
Theorem halt_returns_to_parent vids im k cur status esp ebp shell dp hp :
  let parent := p_parent (pcbs k).[cur] in
  kernel_ok vids im k cur → parent ≠ cur → live k parent → p_pid (pcbs k).[parent] = parent →
  0 ≤ p_terminal_id (pcbs k).[parent] < 3 →
  dir_ok (proc_page_directory (tabs (kmem k))).[parent] (Some parent) (vids parent) →
  ∃ k', halt k cur status esp ebp shell dp hp =
          Some (HResume k' parent (p_esp (pcbs k).[parent]) (p_ebp (pcbs k).[parent]) (u8 status)) ∧
    reaped k k' cur parent ∧ kernel_ok vids im k' parent ∧
    (∀ a, region USER_MEM_LOCATION 0x400000 a →
       pbyte (kmem k') (0x800000 + 0x400000 * cur + (a - USER_MEM_LOCATION)) = 0).
Proof.
  intros parent Hk Hne Hlive Hpp Hterm Hdir.
  destruct (halt_resumes vids im k cur status esp ebp shell dp hp Hk Hne Hlive Hpp Hterm Hdir) as (k' & E & Ht & Hok).
  exists k'. split; [exact E|]. split; [apply Ht|]. split; [exact Hok|apply Ht].
Qed.

(** C17 (a program that ends at once). [execute] of a program, by a command with 127
    mapped bytes from its start on, followed by [halt] of the new process comes back to the caller's [execute], with the caller's
    stack and frame pointers and the low byte of the status; the process ids in
    use, the active processes, the kernel stack of the caller, the descriptors,
    identity and arguments of every process, and the invariants are as before
    the call. *)
Theorem execute_halt_roundtrip vids im k cur pid command n dp hp esp ebp i status esp' ebp' shell dp' hp' :
  exec_ready vids im k cur pid command n dp hp → 3 ≤ pid →
  (active k).[cur] = true → (active k).[pid] = false → length (active k) = 6%nat →
  program_entry im k command n = Some i →
  let inode := d_inode (im_dents im).[i] in
  let c := (im_files im).[inode] in
  0 ≤ inode < num_inodes im → 28 ≤ Z.of_nat (length c) ≤ 0x3B8000 → elf_file c = true →
  ∃ k1 k2, execute k cur esp ebp command dp hp =
          Some (ExUser k1 pid (entry_of c) (USER_MEM_LOCATION + MB4 - 4)) ∧
    halt k1 pid status esp' ebp' shell dp' hp' = Some (HResume k2 cur esp ebp (u8 status)) ∧
    kernel_ok vids im k2 cur ∧ proc_id_used k2 = proc_id_used k ∧ active k2 = active k ∧
    tss_esp0 k2 = tss_esp0 k ∧
    (∀ q, q ≠ pid → ident (pcbs k2).[q] = ident (pcbs k).[q]).
Proof.
  intros Her Hp3 Hac Hap Hla Hpe inode c Hi Hl He. pose proof Her as [H1 H2 H3 H4 H5 H6 H7 H8 H9 H10].
  destruct (execute_starts kernel_view vids im k cur pid command n dp hp (kernel_ok_base _ _ _ _ H1) H2 H3 H4 H5 H6 H7 H8 H9 esp ebp H10 i Hpe Hi Hl He)
    as (k1 & E1 & Hst). fold inode c in E1, Hst. exists k1.
  assert ((if pid <=? 2 then pid else cur) = cur) as Epar by (by rewrite (proj2 (Z.leb_gt pid 2)) by lia).
  assert (0 ≤ pid < 6 ∧ (proc_id_used k).[pid] = false) as [Hpid Hfree].
  { pose proof (free_pid_spec (proc_id_used k) 6 0) as H. rewrite H3 in H.
    destruct H as (H & Hu & _). split; [lia|done]. }
  pose proof (ko_cur _ _ _ _ H1) as [Hcr Hcu].
  assert (pid ≠ cur) as Hne by congruence.
  destruct Hst as [Sok Ssp _ _ _ Ssv _ Sd _ _ _ _ _ _]. rewrite Epar in Ssp, Ssv.
  pose proof (sp_new _ _ _ _ _ Ssp) as Hid. unfold ident in Hid. injection Hid as _ Hpar _ _.
  destruct (ident_who _ _ (sp_other _ _ _ _ _ Ssp cur ltac:(congruence))) as [Hw _].
  apply who_fields in Hw as (Hw1 & _ & Hw3).
  pose proof (ki_mach _ _ _ (ko_kbd _ _ _ _ H1)) as Hm.
  destruct (halt_resumes vids im k1 pid status esp' ebp' shell dp' hp') as (k2 & E2 & Ht & Hok);
    rewrite ?Hpar.
  - exact Sok.
  - congruence.
  - split; [exact Hcr|]. rewrite (sp_used _ _ _ _ _ Ssp), aget_aset_ne by congruence. exact Hcu.
  - rewrite Hw1. exact (ko_pid _ _ _ _ H1).
  - rewrite Hw3. exact (ko_term _ _ _ _ H1).
  - rewrite Sd by congruence. exact (mo_dir _ _ _ _ Hm).
  - rewrite Hpar in E2, Ht, Hok. pose proof (tk_reaped _ _ _ _ _ Ht) as Hr. unfold regs in Ssv. injection Ssv as Q1 Q2 Q3 _.
    rewrite Q1, Q2 in E2. exists k2. split; [exact E1|]. split; [exact E2|]. clear E1 E2.
    split; [done|]. destruct Hr as [_ R2 R3 _ R5 R6 [R7 _]]. split; [|split; [|split]].
    + rewrite R2, (sp_used _ _ _ _ _ Ssp), aset_aset, <- Hfree. apply aset_same.
    + rewrite R3, (sp_active _ _ _ _ _ Ssp), aset_aset. apply aget_ext; [by rewrite !length_aset|].
      rewrite !length_aset. intros j Hj. rewrite aget_aset by (rewrite !length_aset; lia).
      case_decide as Hj1; [congruence|]. rewrite aget_aset by (rewrite !length_aset; lia).
      case_decide as Hj2; [congruence|]. by rewrite aget_aset_ne.
    + rewrite R7, R6 by congruence. exact Q3.
    + intros q Hq. rewrite R6 by done. by apply (sp_other _ _ _ _ _ Ssp).
Qed.

(** C19 (a root shell restarts). When the shell at the bottom of a terminal ends,
    [halt] clears it and starts the program "shell" again under the same process
    id, with fresh memory, PCB and descriptors; the kernel is well formed for it
    and no other process changes. *)
Theorem root_shell_restarts vids im k cur status esp ebp shell dp hp i :
  kernel_ok vids im k cur → p_parent (pcbs k).[cur] = cur → cur ≤ 2 →
  length (proc_id_used k) = 6%nat → (∀ p, 0 ≤ p < cur → (proc_id_used k).[p] = true) →
  str_at (kmem k) shell 5 → 0x400000 ≤ shell → shell + 6 ≤ 0x7F4000 →
  pcb_addr cur + 444 ≤ dp ∧ dp + 44 ≤ pcb_addr cur + 0x2000 →
  pcb_addr cur + 444 ≤ hp ∧ hp + 40 ≤ pcb_addr cur + 0x2000 →
  dp + 44 ≤ hp ∨ hp + 40 ≤ dp →
  program_entry im k shell 5 = Some i →
  let inode := d_inode (im_dents im).[i] in
  let c := (im_files im).[inode] in
  0 ≤ inode < num_inodes im → 28 ≤ Z.of_nat (length c) ≤ 0x3B8000 → elf_file c = true →
  ∃ k', halt k cur status esp ebp shell dp hp =
      Some (HUser k' cur (entry_of c) (USER_MEM_LOCATION + MB4 - 4)) ∧
    kernel_ok vids im k' cur ∧ bytes (kmem k') USER_PROG_LOCATION (Z.of_nat (length c)) = c ∧
    ident (pcbs k').[cur] = (cur, cur, cur, initial_fds) ∧
    tss_esp0 k' = pcb_addr cur + KB8 - 4 ∧
    (∀ q, q ≠ cur → (pcbs k').[q] = (pcbs k).[q]).
Proof.
  intros Hk Hpar Hc2 Hlu Hlow Hstr Hs0 Hs1 Hdp Hhp Hloc Hpe inode c Hi Hl He.
  destruct (halt_restarts vids im k cur status esp ebp shell dp hp i Hk Hpar Hc2 Hlu Hlow Hstr Hs0 Hs1
    Hdp Hhp Hloc Hpe Hi Hl He) as (k1 & k' & E & Ht & [Sok Ssp Sim _ _ _ Soth _ [Sst _]]).
  fold inode c in E, Sim. exists k'. split; [exact E|]. clear E. split; [exact Sok|].
  split; [exact Sim|]. pose proof (sp_new _ _ _ _ _ Ssp) as Hid.
  rewrite (proj2 (Z.leb_le cur 2) Hc2) in Hid, Soth. split; [exact Hid|]. split; [exact Sst|].
  intros q Hq. rewrite Soth by done. apply (re_other _ _ _ _ (tk_reaped _ _ _ _ _ Ht)). exact Hq.
Qed.
End Props.

(** C28 (parsing a command). For a command of at most 127 characters that does not
    overlap the PCB, the loops of [execute] terminate and leave in the cleared
    PCB exactly the first word and the rest without the blanks around it, each
    padded with zeros, and change nothing else. *)
Theorem parse_command_splits {M} `{!ByteMem M} (P : Z → Prop) (m : M) pcb command s :
  let n := Z.of_nat (length s) in
  safe m P → n ≤ 127 →
  (∀ a, region command (n + 1) a → P a) → (∀ a, region pcb 256 a → P a) →
  command + n + 1 ≤ pcb ∨ pcb + 256 ≤ command →
  0 ≤ command → command + 256 < 4294967296 → 0 ≤ pcb → pcb + 256 < 4294967296 →
  (∀ i, 0 ≤ i ≤ n → rd m (command + i) = s.[i]) → (∀ i, 0 ≤ i < n → 0 < s.[i] < 256) →
  (∀ i, 0 ≤ i < 256 → rd m (pcb + i) = 0) →
  ∃ m', parse_command m pcb command = Some m' ∧
    written P m m' pcb 256 (λ j, if j <? 128 then (command_name s).[j] else (command_args s).[j - 128]).
Proof. intros. by apply parse_command_spec. Qed.

(** ** Witnesses *)

(** "shell  x y " at 0x8000200, and its tail "x y " at 0x8000207. *)
Lemma str_shell : str_at kphys 0x800200 11.
Proof.
  split; [lia|]. split; [|by vm_compute]. intros i Hi.
  assert (forallb (λ i, negb (rd kphys (0x800200 + i) =? 0)) (seqZ 0 11) = true) as H by by vm_compute.
  pose proof (forall_seqZ_true _ _ H i Hi) as Hz. cbv beta in Hz. lia.
Qed.

Lemma str_tail : str_at kphys 0x800207 4.
Proof.
  destruct str_shell as (_ & H1 & H2). split; [lia|]. split; [|exact H2]. intros i Hi.
  replace (0x800207 + i) with (0x800200 + (i + 7)) by lia. apply H1. lia.
Qed.

Lemma const_shell : str_at kphys 0x480000 5 ∧ bytes kphys 0x480000 5 = nm_shell.
Proof.
  split; [|by vm_compute]. split; [lia|]. split; [|by vm_compute]. intros i Hi.
  assert (forallb (λ i, negb (rd kphys (0x480000 + i) =? 0)) (seqZ 0 5) = true) as H by by vm_compute.
  pose proof (forall_seqZ_true _ _ H i Hi) as Hz. cbv beta in Hz. lia.
Qed.

#[local] Opaque demo_mach kphys.

Lemma demo_exec_ready command n :
  cstring demo_kernel command n → n ≤ 127 → 0x8000000 ≤ command → command ≤ 0x8000000 + 0x400000 - 127 →
  exec_ready (λ _, None) kimage demo_kernel 0 3 command n 0x7FF000 0x7FF100.
Proof.
  intros Hc Hn Hlo Hhi. refine {| er_ok := demo_kernel_ok; er_cmd := Hc; er_short := Hn |}.
  - reflexivity.
  - reflexivity.
  - right. unfold pcb_addr, KERNEL_TOP, KB8. lia.
  - unfold pcb_addr, KERNEL_TOP, KB8. lia.
  - unfold pcb_addr, KERNEL_TOP, KB8. lia.
  - lia.
  - intros _ _. apply (user_mapped _ _ demo_kernel 0 command 127 127 demo_kernel_ok); [|lia].
    unfold user_buf, USER_MEM_LOCATION. lia.
Qed.

Lemma shell_str : cstring demo_kernel 0x8000200 11.
Proof. exact (proj1 (kstr 0x200 11 ltac:(lia) ltac:(lia) ltac:(lia) str_shell)). Qed.

Lemma tail_str : cstring demo_kernel 0x8000207 4.
Proof. exact (proj1 (kstr 0x207 4 ltac:(lia) ltac:(lia) ltac:(lia) str_tail)). Qed.

Lemma shell_entry : program_entry kimage demo_kernel 0x8000200 11 = Some 2.
Proof.
  unfold program_entry, typed. change (kmem demo_kernel) with kmach.
  change 0x8000200 with (USER_MEM_LOCATION + 0x200).
  rewrite (proj2 (kstr 0x200 11 ltac:(lia) ltac:(lia) ltac:(lia) str_shell)). by vm_compute.
Qed.

Lemma tail_entry : program_entry kimage demo_kernel 0x8000207 4 = None.
Proof.
  unfold program_entry, typed. change (kmem demo_kernel) with kmach.
  change 0x8000207 with (USER_MEM_LOCATION + 0x207).
  rewrite (proj2 (kstr 0x207 4 ltac:(lia) ltac:(lia) ltac:(lia) str_tail)). by vm_compute.
Qed.

(** The shell starts another shell. *)
Lemma execute_starts_program_witness :
  ∃ k', execute demo_kernel 0 0x7FFE00 0x7FFE40 0x8000200 0x7FF000 0x7FF100 =
          Some (ExUser k' 3 0x080482A4 (USER_MEM_LOCATION + MB4 - 4)) ∧
        started kernel_view (λ _, None) kimage demo_kernel 0 3 0x8000200 11 0x7FFE00 0x7FFE40 k' demo_elf.
Proof.
  exact (execute_starts_program (λ _, None) kimage demo_kernel 0 3 0x8000200 11 0x7FF000 0x7FF100
    0x7FFE00 0x7FFE40 2 (demo_exec_ready _ _ shell_str ltac:(lia) ltac:(lia) ltac:(lia)) shell_entry
    ltac:(vm_compute; split; [discriminate|reflexivity])
    ltac:(vm_compute; split; discriminate) eq_refl).
Defined.


Lemma execute_halt_roundtrip_witness :
  ∃ k1 k2, execute demo_kernel 0 0x7FFE00 0x7FFE40 0x8000200 0x7FF000 0x7FF100 =
          Some (ExUser k1 3 0x080482A4 (USER_MEM_LOCATION + MB4 - 4)) ∧
    halt k1 3 300 0x7F7000 0x7F7000 0 0 0 = Some (HResume k2 0 0x7FFE00 0x7FFE40 44) ∧
    kernel_ok (λ _, None) kimage k2 0 ∧ proc_id_used k2 = proc_id_used demo_kernel ∧
    active k2 = active demo_kernel ∧ tss_esp0 k2 = tss_esp0 demo_kernel ∧
    (∀ q, q ≠ 3 → ident (pcbs k2).[q] = ident (pcbs demo_kernel).[q]).
Proof.
  exact (execute_halt_roundtrip (λ _, None) kimage demo_kernel 0 3 0x8000200 11 0x7FF000 0x7FF100
    0x7FFE00 0x7FFE40 2 300 0x7F7000 0x7F7000 0 0 0
    (demo_exec_ready _ _ shell_str ltac:(lia) ltac:(lia) ltac:(lia)) ltac:(lia) eq_refl eq_refl eq_refl shell_entry
    ltac:(vm_compute; split; [discriminate|reflexivity])
    ltac:(vm_compute; split; discriminate) eq_refl).
Defined.

Lemma root_shell_restarts_witness :
  ∃ k', halt demo_kernel 0 0 0x7FFE00 0x7FFE40 0x480000 0x7FF000 0x7FF100 =
      Some (HUser k' 0 0x080482A4 (USER_MEM_LOCATION + MB4 - 4)) ∧
    kernel_ok (λ _, None) kimage k' 0 ∧ bytes (kmem k') USER_PROG_LOCATION 43 = demo_elf ∧
    ident (pcbs k').[0] = (0, 0, 0, initial_fds) ∧
    tss_esp0 k' = pcb_addr 0 + KB8 - 4 ∧ (∀ q, q ≠ 0 → (pcbs k').[q] = (pcbs demo_kernel).[q]).
Proof.
  destruct const_shell as [(_ & H1 & H2) H3].
  assert (str_at (kmem demo_kernel) 0x480000 5) as Hstr.
  { change (kmem demo_kernel) with kmach. split; [lia|]. split.
    - intros i Hi. rewrite kmach_kernel by lia. by apply H1.
    - rewrite kmach_kernel by lia. exact H2. }
  assert (program_entry kimage demo_kernel 0x480000 5 = Some 2) as Hpe.
  { unfold program_entry, typed. change (kmem demo_kernel) with kmach.
    assert (bytes kmach 0x480000 5 = nm_shell) as ->; [|by vm_compute].
    rewrite <- H3. unfold bytes. apply list_fmap_ext. intros j i Hi.
    apply lookup_seqZ in Hi as [-> Hi]. apply kmach_kernel. lia. }
  exact (root_shell_restarts (λ _, None) kimage demo_kernel 0 0 0x7FFE00 0x7FFE40 0x480000 0x7FF000 0x7FF100 2
    demo_kernel_ok eq_refl ltac:(lia) eq_refl ltac:(intros; lia) Hstr ltac:(lia) ltac:(lia)
    ltac:(unfold pcb_addr, KERNEL_TOP, KB8; lia) ltac:(unfold pcb_addr, KERNEL_TOP, KB8; lia) ltac:(lia) Hpe
    ltac:(vm_compute; split; [discriminate|reflexivity])
    ltac:(vm_compute; split; discriminate) eq_refl).
Defined.

(** The second shell, process 3, child of process 0. *)
Lemma demo_second_shell :
  ∃ k1 : kernel (list (Z * Z)), kernel_ok (λ _, None) kimage k1 3 ∧
    p_parent (pcbs k1).[3] = 0 ∧ p_terminal_id (pcbs k1).[3] = 0 ∧ live k1 0 ∧
    p_pid (pcbs k1).[0] = 0 ∧ p_terminal_id (pcbs k1).[0] = 0 ∧
    dir_ok (proc_page_directory (tabs (kmem k1))).[0] (Some 0) None ∧
    p_esp (pcbs k1).[0] = 0x7FFE00 ∧ p_ebp (pcbs k1).[0] = 0x7FFE40 ∧ cur_terminal (con k1) = 0.
Proof.
  pose proof (demo_exec_ready _ _ shell_str ltac:(lia) ltac:(lia) ltac:(lia)) as [R1 R2 R3 R4 R5 R6 R7 R8 R9 R10].
  destruct (execute_starts kernel_view (λ _, None) kimage demo_kernel 0 3 0x8000200 11 0x7FF000 0x7FF100
    (kernel_ok_base _ _ _ _ R1) R2 R3 R4 R5 R6 R7 R8 R9 0x7FFE00 0x7FFE40 R10 2 shell_entry
    ltac:(vm_compute; split; [discriminate|reflexivity])
    ltac:(vm_compute; split; discriminate) eq_refl) as (k1 & _ & [Sok Ssp _ _ _ Ssv _ Sd _ _ _ Sc _ _]).
  exists k1. split; [exact Sok|]. change (if 3 <=? 2 then 3 else 0) with 0 in *.
  pose proof (sp_new _ _ _ _ _ Ssp) as Hid. unfold ident in Hid. injection Hid as _ Hpar Htid _.
  destruct (ident_who _ _ (sp_other _ _ _ _ _ Ssp 0 ltac:(discriminate))) as [Hw _].
  apply who_fields in Hw as (Hw1 & _ & Hw3). unfold regs in Ssv. injection Ssv as Q1 Q2 _ _.
  split; [exact Hpar|]. split; [exact Htid|]. split; [|split; [exact Hw1|]].
  - split; [lia|]. rewrite (sp_used _ _ _ _ _ Ssp). reflexivity.
  - split; [exact Hw3|]. split; [|split; [exact Q1|split; [exact Q2|exact Sc]]].
    rewrite Sd by discriminate. exact (mo_dir _ _ _ _ kmach_ok).
Qed.

(** It ends with status 7. *)
Lemma halt_returns_to_parent_witness :
  ∃ k1 k' : kernel (list (Z * Z)),
    halt k1 3 7 0x7F7000 0x7F7000 0 0 0 = Some (HResume k' 0 0x7FFE00 0x7FFE40 7) ∧
    reaped k1 k' 3 0 ∧ kernel_ok (λ _, None) kimage k' 0.
Proof.
  destruct demo_second_shell as (k1 & Hok & Hpar & _ & Hl & Hpid & Ht & Hd & Q1 & Q2 & _). exists k1.
  destruct (halt_returns_to_parent (λ _, None) kimage k1 3 7 0x7F7000 0x7F7000 0 0 0)
    as (k' & E & Hr & Hok' & _); rewrite ?Hpar, ?Ht;
    [exact Hok|discriminate|exact Hl|exact Hpid|lia|exact Hd|].
  rewrite Hpar in E, Hr, Hok'. rewrite Q1, Q2 in E.
  exists k'. split; [exact E|]. split; [exact Hr|exact Hok'].
Defined.

Lemma parse_command_splits_witness :
  ∃ m', parse_command (flat_of 0x1000 [108; 115; 32; 32; 97; 32; 98; 32; 0]) 0x2000 0x1000 = Some m' ∧
    written (λ _, True) (flat_of 0x1000 [108; 115; 32; 32; 97; 32; 98; 32; 0]) m' 0x2000 256
      (λ j, if j <? 128 then [108; 115].[j] else [97; 32; 98].[j - 128]).
Proof.
  apply (parse_command_splits (λ _, True) (flat_of 0x1000 [108; 115; 32; 32; 97; 32; 98; 32; 0])
    0x2000 0x1000 [108; 115; 32; 32; 97; 32; 98; 32]); try (simpl; lia).
  - apply flat_safe.
  - intros i Hi. apply (forall_seqZ (λ i, rd (flat_of 0x1000 [108; 115; 32; 32; 97; 32; 98; 32; 0]) (0x1000 + i))
      (λ i, [108; 115; 32; 32; 97; 32; 98; 32].[i]) 9); [by vm_compute|]. simpl in Hi. lia.
  - intros i Hi. simpl in Hi.
    assert (forallb (λ i, (0 <? [108; 115; 32; 32; 97; 32; 98; 32].[i])
      && ([108; 115; 32; 32; 97; 32; 98; 32].[i] <? 256)) (seqZ 0 8) = true) as H by by vm_compute.
    pose proof (forall_seqZ_true _ _ H i Hi) as Hz. cbv beta in Hz. lia.
  - intros i Hi. apply (forall_seqZ (λ i, rd (flat_of 0x1000 [108; 115; 32; 32; 97; 32; 98; 32; 0]) (0x2000 + i))
      (λ _, 0) 256); [by vm_compute|done].
Defined.
