(* ===== verification/Exceptions.v ===== *)
(** * Exception handlers (student-distrib/idt.c)

    Every handler prints a message on the terminal of the process that caused
    the exception and ends it with [halt(-1)].  The messages have no
    conversions, so that [printf] is a sequence of [putc]
    ([Printf.printf_plain]); the page-fault handler prints two numbers. *)

From S2P Require Import Prelude Memory Lib Ports Types Filesystem FsProofs I8259 RTC Paging PagingProps.
From S2P Require Import Console ConsoleProofs ConsoleProps Printf Keyboard KeyboardProofs LineProofs.
From S2P Require Import KeyboardProps TerminalProps Idt Kernel KernelProps KernelDemo SyscallProps.
From S2P Require Import Process ParseProofs Forest System ProcessProofs ProcessProps.
Import (notations) Stdlib.Strings.String.
#[local] Open Scope Z_scope.

Definition exception_message (h : handler) : list Z :=
  match h with
  | de_handler => text "divide by zero exception"
  | db_handler => text "db exception"
  | nmi_handler => text "nmi exception"
  | bp_handler => text "bp exception"
  | of_handler => text "of exception"
  | br_handler => text "br exception"
  | ud_handler => text "ud exception"
  | nm_handler => text "nm exception"
  | df_handler => text "df exception"
  | co_segment_overrun_handler => text "co_segment_overrun exception"
  | ts_handler => text "ts exception"
  | np_handler => text "np exception"
  | ss_handler => text "ss exception"
  | gp_handler => text "gp exception"
  | pf_handler => text "pf exception at %x, %x" ++ [10]
  | mf_handler => text "mf exception"
  | ac_handler => text "ac exception"
  | mc_handler => text "mc exception"
  | xf_handler => text "xf exception"
  | generic_handler => text "Unknown exception"
  | _ => []
  end.

(** The handlers that are a message and [halt(-1)]. *)
Definition plain_exception (h : handler) : bool :=
  match h with
  | pf_handler | pit_irq | key_irq | rtc_irq | systemcall => false
  | _ => true
  end.

Section Exceptions.
Context {HL : Layout} {D : Type} `{!PortIO D}.
Implicit Types (k : kernel D) (cur : Z).

Definition exception_handler k cur (h : handler) (esp ebp shell dp hp : Z) : option halt_result :=
  let k := print_msg k (p_terminal_id (pcbs k).[cur]) (exception_message h) in
  exception_halt k cur esp ebp shell dp hp.

(** [pf_handler]: [fmt] is the address of the format, [arg_esp] the place of the
    two arguments on the stack, [eec] the word [popl] takes from the stack. *)
Definition pf_handler_body k cur (L : conv_bufs) (fmt arg_esp cr2 eec esp ebp shell dp hp : Z)
    : option halt_result :=
  let m := store32 (store32 (kmem k) arg_esp cr2) (arg_esp + 4) eec in
  '(s, _) ← printf L ((con k) <| vmem := m |>) (p_terminal_id (pcbs k).[cur]) fmt arg_esp;
  exception_halt (k <| con := s |>) cur esp ebp shell dp hp.

(** Printing a message keeps the invariants. *)
Lemma print_msg_ok vids im k cur msg :
  kernel_ok vids im k cur → Forall (λ c, 0 ≤ c < 256) msg →
  let t := p_terminal_id (pcbs k).[cur] in
  let k' := print_msg k t msg in
  kernel_ok vids im k' cur ∧ tview (con k') t = print_spec msg (tview (con k) t) ∧
  only_term kernel_view (con k) (con k') t.
Proof.
  intros Hk Hmsg t k'. pose proof (ko_term _ _ _ _ Hk) as Ht. fold t in Ht.
  pose proof (ko_kbd _ _ _ _ Hk) as Hinv.
  pose proof (terms_con_ok _ _ t (ki_terms _ _ _ Hinv) Ht) as Hok.
  assert (con k' = fold_left (λ s c, term_putc s c t) msg (con k)) as Ec.
  { unfold k', print_msg. cbn [con set_field set_con].
    generalize (con k). clear. induction msg as [|c msg IH]; intros s; [done|]. apply IH. }
  destruct (print_steps kernel_view t msg (con k) Hok Hmsg) as (E & _ & Ho & _).
  rewrite <- Ec in E, Ho. split; [|done].
  exact (kernel_ok_print vids im k cur (con k') msg Hk Ho E).
Qed.

(** Printing on one terminal leaves what the others show. *)
Lemma only_term_other vids im k k1 cur t u :
  kernel_ok vids im k cur → only_term kernel_view (con k) (con k1) t → 0 ≤ t < 3 → 0 ≤ u < 3 → u ≠ t →
  tview (con k1) u = tview (con k) u.
Proof.
  intros Hk Ho Ht Hu Hne. pose proof (ko_kbd _ _ _ _ Hk) as Hinv.
  assert ((terminals (con k1)).[u] = (terminals (con k)).[u]) as Eu by (by apply Ho).
  assert (page_of (con k1) u = page_of (con k) u) as Ep by (unfold page_of; by rewrite Eu).
  unfold tview. rewrite Ep, Eu. do 2 f_equal. apply view_ext. intros j Hj.
  rewrite (ki_page _ _ _ Hinv) by done. apply Ho; [left; unfold region, tpage, VIDEO; lia|].
  rewrite (ki_page _ _ _ Hinv) by done. unfold region, tpage, VIDEO. lia.
Qed.

Lemma reaped_con k c k' cur parent : reaped (k <| con := c |>) k' cur parent → reaped k k' cur parent.
Proof. intros [H1 H2 H3 H4 H5 H6 H7]. by split. Qed.

Lemma exception_message_bytes h : Forall (λ c, 0 ≤ c < 256) (exception_message h).
Proof. destruct h; vm_compute; repeat constructor; discriminate. Qed.

(** The whole handler, with the status the parent gets: [halt] takes a byte, so
    the handlers' -1 is 255. *)
Theorem exception_status vids im k cur h esp ebp shell dp hp :
  let parent := p_parent (pcbs k).[cur] in
  let t := p_terminal_id (pcbs k).[cur] in
  plain_exception h = true →
  kernel_ok vids im k cur → parent ≠ cur → live k parent → p_pid (pcbs k).[parent] = parent →
  0 ≤ p_terminal_id (pcbs k).[parent] < 3 →
  dir_ok (proc_page_directory (tabs (kmem k))).[parent] (Some parent) (vids parent) →
  ∃ k', exception_handler k cur h esp ebp shell dp hp =
          Some (HResume k' parent (p_esp (pcbs k).[parent]) (p_ebp (pcbs k).[parent]) 255) ∧
    tview (con k') t = print_spec (exception_message h) (tview (con k) t) ∧
    (∀ u, 0 ≤ u < 3 → u ≠ t → tview (con k') u = tview (con k) u) ∧
    reaped k k' cur parent ∧ kernel_ok vids im k' parent.
Proof.
  intros parent t _ Hk Hne Hl Hp Ht Hd.
  destruct (print_msg_ok vids im k cur (exception_message h) Hk (exception_message_bytes h))
    as (Hk1 & Hv & Ho). fold t in Hk1, Hv, Ho.
  set (k1 := print_msg k t (exception_message h)) in *.
  assert (tabs (kmem k1) = tabs (kmem k)) as Et.
  { pose proof (proj1 (ot_page _ _ _ _ Ho)) as C. by injection C. }
  destruct (halt_resumes vids im k1 cur (-1) esp ebp shell dp hp) as (k' & E & Htk & Hok);
    [exact Hk1|exact Hne|exact Hl|exact Hp|exact Ht|rewrite Et; exact Hd|].
  exists k'. split; [exact E|]. clear E. split; [|split; [|split; [exact (reaped_con k (con k1) k' cur _ (tk_reaped _ _ _ _ _ Htk))|exact Hok]]].
  - rewrite <- Hv. exact (taken_shows vids im k1 k' cur _ t Hk1 Htk (ko_term _ _ _ _ Hk)).
  - intros u Hu Hut. rewrite (taken_shows vids im k1 k' cur _ u Hk1 Htk Hu).
    exact (only_term_other vids im k k1 cur t u Hk Ho (ko_term _ _ _ _ Hk) Hu Hut).
Qed.

End Exceptions.

(** ** Witness *)

#[local] Opaque demo_mach kphys.

