(* ===== verification/Faults.v ===== *)
(** * Page faults (student-distrib/idt.c)

    The page-fault handler prints the address and a word of its stack with
    [printf], and ends the process like the other handlers. *)

From S2P Require Import Prelude Memory Lib Ports Types Filesystem FsProofs I8259 RTC Paging PagingProps.
From S2P Require Import Console ConsoleProofs ConsoleProps Printf Keyboard KeyboardProofs LineProofs.
From S2P Require Import KeyboardProps TerminalProps Idt Kernel KernelProps KernelDemo SyscallProps.
From S2P Require Import Process ParseProofs Forest System ProcessProofs ProcessProps Exceptions.
Import (notations) Stdlib.Strings.String.
#[local] Open Scope Z_scope.

Section Faults.
Context {HL : Layout} {D : Type} `{!PortIO D}.
Implicit Types (k : kernel D) (s : console mach D) (cur t : Z).

(** [printf] on the terminal on the screen keeps the invariant of the
    terminals. *)
Lemma printed_inv pid vids P B s s' out :
  kbd_inv pid vids s → printed P B s s' (cur_terminal s) out → kbd_inv pid vids s'.
Proof.
  intros Hinv Hp. pose proof (ki_terms _ _ _ Hinv) as Ht. set (t := cur_terminal s) in *.
  pose proof (to_cur _ _ Ht) as Hcur. pose proof (to_line _ _ Ht t Hcur) as Hl.
  destruct (pr_terms _ _ _ _ _ _ Hp t) as (x & y & Eg). pose proof (pr_view _ _ _ _ _ _ Hp) as E.
  pose proof (print_pos out (view (vmem s) (page_of s t)) _ _ (lo_x _ Hl) (lo_y _ Hl)) as Hpos.
  unfold tview in E. rewrite Eg in E. cbn in E.
  destruct (print_spec out _) as [[l x1] y1]. injection E as _ -> ->.
  assert (kbd_inv pid vids (s <| vmem := vmem s' |>)) as Hinv1 by (apply kbd_inv_mem; [apply Hp|done]).
  assert (0 ≤ t < Z.of_nat (length (terminals s))) as Htl by (rewrite (to_len _ _ Ht); lia).
  apply (becomes_inv pid vids (s <| vmem := vmem s' |>) s' t (set_cursor (terminals s).[t] x1 y1)); [done|done| |].
  - split; [|exact (pr_cur _ _ _ _ _ _ Hp)|done|done].
    apply aget_ext; [rewrite length_aset; exact (pr_len _ _ _ _ _ _ Hp)|].
    intros i Hi. destruct (decide (i = t)) as [->|Hne].
    + by rewrite aget_aset_eq, Eg.
    + rewrite aget_aset_ne by done. by apply (pr_other _ _ _ _ _ _ Hp).
  - destruct Hl as [H1 H2 H3 H4 H5 H6]. destruct ((terminals s).[t]); cbn in *.
    split; cbn; done || lia.
Qed.

Lemma kernel_ok_printed vids im k cur B s out :
  kernel_ok vids im k cur → printed kernel_view B (con k) s (cur_terminal (con k)) out →
  (∀ a, fs_base (fs k) ≤ a < fs_end (fs k) → ¬ B a) → kernel_ok vids im (k <| con := s |>) cur.
Proof.
  intros Hk Hp HB. pose proof (ko_kbd _ _ _ _ Hk) as Hinv.
  pose proof (printed_inv cur vids _ _ _ _ _ Hinv Hp) as Hinv'.
  pose proof (ko_lo _ _ _ _ Hk) as Hlo. pose proof (to_cur _ _ (ki_terms _ _ _ Hinv)) as Hc.
  assert (fs_rep (vmem s) (fs k) im) as Hf.
  { apply (fs_rep_ext (kmem k)); [|apply Hk]. intros a Ha.
    apply (pr_mem _ _ _ _ _ _ Hp); [by apply (fs_view _ _ _ _ _ Hk)| |by apply HB].
    rewrite (ki_page _ _ _ Hinv _ Hc). unfold region, tpage, VIDEO. lia. }
  destruct Hk as [H1 H2 _ _ H5 H6 H7 H8]. by split.
Qed.

(** The data of the handler in the kernel's page: its format, the two arguments
    on the stack, the buffers of [printf]. *)
Definition conv_area (L : conv_bufs) (a : Z) : Prop :=
  region (cb_x L) 64 a ∨ region (cb_u L) 36 a ∨ region (cb_d L) 36 a.

Definition kernel_data k (a : Z) : Prop :=
  region 0x400000 0x400000 a ∧ ¬ (fs_base (fs k) ≤ a < fs_end (fs k)).

Record pf_data k (L : conv_bufs) (fmt arg_esp : Z) : Prop := {
  pd_text : text_at (kmem k) fmt (exception_message pf_handler);
  pd_fmt : ∀ a, region fmt 24 a → kernel_data k a ∧ ¬ conv_area L a ∧ ¬ region arg_esp 8 a;
  pd_args : ∀ a, region arg_esp 8 a → kernel_data k a ∧ ¬ conv_area L a;
  pd_bufs : ∀ a, conv_area L a → kernel_data k a
}.

Definition pf_text (cr2 eec : Z) : list Z :=
  text "pf exception at " ++ hex_text cr2 ++ text ", " ++ hex_text eec ++ [10].

Lemma pf_format_text cr2 eec :
  format_text (λ _, []) (exception_message pf_handler) None [cr2; eec] = pf_text cr2 eec.
Proof. reflexivity. Qed.

Lemma pf_format_ok (Q : Z → Prop) cr2 eec : format_ok Q (exception_message pf_handler) None [cr2; eec].
Proof. vm_compute. repeat (split || discriminate || (intros; congruence)). Qed.

(** The message is printed. *)
Lemma pf_printed vids im k cur L fmt arg_esp cr2 eec :
  let t := p_terminal_id (pcbs k).[cur] in
  let m := store32 (store32 (kmem k) arg_esp cr2) (arg_esp + 4) eec in
  kernel_ok vids im k cur → pf_data k L fmt arg_esp → t = cur_terminal (con k) →
  0 ≤ cr2 < 4294967296 → 0 ≤ eec < 4294967296 →
  ∃ s, printf L ((con k) <| vmem := m |>) t fmt arg_esp = Some (s, 23) ∧
    kernel_ok vids im (k <| con := s |>) cur ∧
    tview s t = print_spec (pf_text cr2 eec) (tview (con k) t) ∧ tabs (vmem s) = tabs (kmem k).
Proof.
  intros t m Hk [Htext Hfmt Hargs Hbufs] Et H2 He. pose proof (ko_safe _ _ _ _ Hk) as Hsafe.
  pose proof (ko_term _ _ _ _ Hk) as Ht. fold t in Ht.
  assert (∀ a, kernel_data k a → kernel_view a ∧ 0 ≤ a < 4294967296 ∧ ¬ region (tpage t) 4000 a) as Hdata.
  { intros a [Ha _]. split; [by right; left|]. unfold region, tpage, VIDEO in *. lia. }
  assert (∀ a, region arg_esp 8 a → kernel_view a) as Hav by (intros a Ha; by apply Hdata, Hargs).
  set (m0 := store32 (kmem k) arg_esp cr2) in *.
  assert (written kernel_view (kmem k) m0 arg_esp 4 (λ i, u8 (Z.shiftr cr2 (8 * i)))) as W0.
  { apply store32_written; [done|]. intros a Ha. apply Hav. unfold region in *. lia. }
  assert (safe m0 kernel_view) as Hsafe0 by (apply (safe_cells (kmem k)); [apply W0|done]).
  assert (written kernel_view m0 m (arg_esp + 4) 4 (λ i, u8 (Z.shiftr eec (8 * i)))) as W1.
  { apply store32_written; [done|]. intros a Ha. apply Hav. unfold region in *. lia. }
  assert (ctl m = ctl (kmem k)) as Hctl by (etransitivity; [apply W1|apply W0]).
  assert (∀ a, kernel_view a → ¬ region arg_esp 8 a → rd m a = rd (kmem k) a) as Hrd.
  { intros a Ha Hn. rewrite (written_out _ _ _ _ _ _ _ W1), (written_out _ _ _ _ _ _ _ W0);
      try done; intros Hx; apply Hn; unfold region in *; lia. }
  assert (kernel_ok vids im (with_mem k m) cur) as Hkm.
  { apply kernel_ok_mem; [done|done|]. intros a Ha. apply Hrd; [by apply (fs_view _ _ _ _ _ Hk)|].
    intros Hx. destruct (Hargs a Hx) as [[_ Hn] _]. exact (Hn Ha). }
  set (s0 := (con k) <| vmem := m |>). pose proof (ko_kbd _ _ _ _ Hkm) as Hinv. change (con (with_mem k m)) with s0 in Hinv.
  assert (page_of s0 t = tpage t) as Epg by by apply (ki_page _ _ _ Hinv).
  destruct (printf_spec kernel_view (conv_area L) L s0 t (λ _, [])) with
    (format := fmt) (f := exception_message pf_handler) (esp := arg_esp) (args := [cr2; eec]) as (s & Es & Hp).
  - exact (terms_con_ok _ _ t (ki_terms _ _ _ Hinv) Ht).
  - exact (terms_con_ok _ _ _ (ki_terms _ _ _ Hinv) (to_cur _ _ (ki_terms _ _ _ Hinv))).
  - intros a Ha. rewrite Epg. by apply Hdata, Hbufs.
  - done.
  - pose proof (Hfmt fmt ltac:(unfold region; lia)) as [[Ha _] _]. unfold region in Ha. lia.
  - pose proof (Hfmt fmt ltac:(unfold region; lia)) as [[Ha _] _]. unfold region in Ha. change (length _) with 23%nat. lia.
  - intros a Ha. change (Z.of_nat (length _) + 1) with 24 in Ha. destruct (Hfmt a Ha) as (Hd & Hc & _).
    destruct (Hdata a Hd) as (Hv & _ & Hpg). unfold apart. by rewrite Epg.
  - intros a Ha. change (4 * Z.of_nat (length _)) with 8 in Ha. destruct (Hargs a Ha) as (Hd & Hc).
    destruct (Hdata a Hd) as (Hv & _ & Hpg). unfold apart. by rewrite Epg.
  - revert Htext. apply text_at_ext. intros i Hi. change (Z.of_nat (length _)) with 23 in Hi.
    destruct (Hfmt (fmt + i)) as (Hd & _ & Hn); [unfold region; lia|]. apply Hrd; [by apply Hdata|done].
  - assert (load32 m arg_esp = cr2 ∧ load32 m (arg_esp + 4) = eec) as [L0 L1].
    { split.
      - transitivity (load32 m0 arg_esp).
        + apply load32_eq. intros b Hb. apply (written_out _ _ _ _ _ _ _ W1); [apply Hav; unfold region; lia|lia].
        + apply (load32_store32 kernel_view); [done|intros a Ha; apply Hav; unfold region in *; lia|done].
      - apply (load32_store32 kernel_view); [done|intros a Ha; apply Hav; unfold region in *; lia|done]. }
    intros i Hi. cbn in Hi. assert (i = 0 ∨ i = 1) as [->| ->] by lia; [by rewrite Z.add_0_r|exact L1].
  - apply pf_format_ok.
  - rewrite pf_format_text in Hp. change (Z.of_nat (length _)) with 23 in Es. exists s. split; [exact Es|].
    rewrite Et in Hp. split; [|split].
    + apply (kernel_ok_printed vids im (with_mem k m) cur (conv_area L) s _ Hkm Hp).
      intros a Ha Hc. by destruct (Hbufs a Hc) as [_ Hn].
    + rewrite Et, (pr_view _ _ _ _ _ _ Hp). f_equal. unfold tview. rewrite <- Et.
      change (page_of s0 t) with (page_of (con k) t). f_equal. f_equal. apply view_ext. intros j Hj.
      change (page_of (con k) t) with (page_of s0 t). rewrite Epg. apply Hrd; [left; unfold region, tpage; lia|].
      intros Hx. destruct (Hargs _ Hx) as [[Ha _] _]. unfold region, tpage, VIDEO in Ha. lia.
    + assert (ctl (vmem s) = ctl (kmem k)) as C by (etransitivity; [apply Hp|exact Hctl]). by injection C.
Qed.

(** C30 (page faults). A page fault in a process that has another process as parent
    and whose terminal is on the screen prints "pf exception at" with the address
    and the word on top of the handler's stack in hexadecimal, and then continues
    the parent inside its [execute], with the stack and frame pointers it called
    with; the process id is free and the kernel is well formed for the parent. *)
Theorem page_fault_ends_process vids im k cur L fmt arg_esp cr2 eec esp ebp shell dp hp :
  let parent := p_parent (pcbs k).[cur] in
  let t := p_terminal_id (pcbs k).[cur] in
  kernel_ok vids im k cur → pf_data k L fmt arg_esp → t = cur_terminal (con k) →
  0 ≤ cr2 < 4294967296 → 0 ≤ eec < 4294967296 →
  parent ≠ cur → live k parent → p_pid (pcbs k).[parent] = parent →
  0 ≤ p_terminal_id (pcbs k).[parent] < 3 →
  dir_ok (proc_page_directory (tabs (kmem k))).[parent] (Some parent) (vids parent) →
  ∃ k' st, pf_handler_body k cur L fmt arg_esp cr2 eec esp ebp shell dp hp =
          Some (HResume k' parent (p_esp (pcbs k).[parent]) (p_ebp (pcbs k).[parent]) st) ∧
    tview (con k') t = print_spec (pf_text cr2 eec) (tview (con k) t) ∧
    reaped k k' cur parent ∧ kernel_ok vids im k' parent.
Proof.
  intros parent t Hk Hpd Et H2 He Hne Hl Hp Ht Hd.
  destruct (pf_printed vids im k cur L fmt arg_esp cr2 eec Hk Hpd Et H2 He) as (s & Es & Hk1 & Hv & Htabs). fold t in Es, Hv.
  set (k1 := k <| con := s |>) in *.
  destruct (halt_resumes vids im k1 cur (-1) esp ebp shell dp hp) as (k' & E & Htk & Hok);
    [exact Hk1|exact Hne|exact Hl|exact Hp|exact Ht|change (kmem k1) with (vmem s); rewrite Htabs; exact Hd|].
  exists k', (u8 (-1)). split; [|split; [|split; [exact (reaped_con k (con k1) k' cur _ (tk_reaped _ _ _ _ _ Htk))|exact Hok]]].
  - unfold pf_handler_body. fold t. rewrite Es, bind_some. exact E.
  - rewrite <- Hv. exact (taken_shows vids im k1 k' cur _ t Hk1 Htk (ko_term _ _ _ _ Hk)).
Qed.
End Faults.

(** ** Witness

    The second shell, with the data of the handler behind the image in the
    kernel's page, stores to a null pointer. *)

Definition put_text (m : mach) (a : Z) (l : list Z) : mach :=
  for_loop (length l) 0 (λ i m, wr m (a + i) l.[i]) m.

Lemma put_text_spec P m a l :
  safe m P → (∀ b, region a (Z.of_nat (length l)) b → P b) → Forall (λ c, 0 ≤ c < 256) l →
  written P m (put_text m a l) a (Z.of_nat (length l)) (λ i, l.[i]).
Proof.
  intros Hs HP Hl. unfold put_text.
  pose proof (for_loop_inv (λ i m', 0 ≤ i ≤ Z.of_nat (length l) ∧ written P m m' a i (λ i, l.[i])) (length l) 0
    (λ i m, wr m (a + i) l.[i]) m) as H. rewrite Z.add_0_l in H. apply H; clear H.
  - split; [lia|]. by apply written_0.
  - intros i m' Hi (_ & W). split; [lia|]. apply written_snoc; [done| |lia|done|].
    + intros b Hb. apply HP. unfold region in *. lia.
    + apply u8_small. apply (proj1 (Forall_lookup _ _) Hl (Z.to_nat i)). rewrite lookup_aget by lia. by rewrite Z2Nat.id by lia.
Qed.

#[local] Opaque demo_mach kphys.

Definition pf_bytes : list Z := exception_message pf_handler ++ [0].

Lemma pf_bytes_range : Forall (λ c, 0 ≤ c < 256) pf_bytes.
Proof. apply (bool_decide_unpack _). vm_compute. exact I. Qed.

Lemma pf_bytes_get i : 0 ≤ i < 23 → pf_bytes.[i] = (exception_message pf_handler).[i] ∧ (exception_message pf_handler).[i] ≠ 0.
Proof.
  intros Hi. assert (forallb (λ i, (pf_bytes.[i] =? (exception_message pf_handler).[i]) &&
    negb ((exception_message pf_handler).[i] =? 0)) (seqZ 0 23) = true) as H by by vm_compute.
  pose proof (forall_seqZ_true _ _ H i Hi) as Hb. cbv beta in Hb. apply andb_true_iff in Hb as [H1 H2].
  apply Z.eqb_eq in H1. apply negb_true_iff, Z.eqb_neq in H2. done.
Qed.

Definition pf_kernel (k : kernel (list (Z * Z))) : kernel (list (Z * Z)) :=
  with_mem k (put_text (kmem k) 0x7F4100 pf_bytes).
Definition pf_bufs : conv_bufs := mk_conv_bufs 0x7F4200 0x7F4200 0x7F4200.

(** The data of the handler, in any kernel in service. *)
Lemma pf_data_at vids im (k : kernel (list (Z * Z))) cur m :
  kernel_ok vids im k cur → written kernel_view (kmem k) m 0x7F4100 24 (λ i, pf_bytes.[i]) →
  kernel_ok vids im (with_mem k m) cur ∧ pf_data (with_mem k m) pf_bufs 0x7F4100 0x7F4300.
Proof.
  intros Hk W. pose proof (ko_hi _ _ _ _ Hk) as Hhi.
  assert (∀ a, region 0x7F4100 24 a → kernel_view a) as Hv by (intros a Ha; right; left; unfold region in *; lia).
  split.
  - apply kernel_ok_mem; [done|apply W|]. intros a Ha.
    apply (written_out _ _ _ _ _ _ _ W); [by apply (fs_view _ _ _ _ _ Hk)|lia].
  - assert (∀ a, region 0x7F4100 0x300 a → kernel_data (with_mem k m) a) as Hd.
    { intros a Ha. unfold kernel_data. change (fs (with_mem k m)) with (fs k). unfold region in *. lia. }
    assert (∀ i, 0 ≤ i < 24 → rd m (0x7F4100 + i) = pf_bytes.[i]) as Hr.
    { intros i Hi. rewrite (written_in _ _ _ _ _ _ _ W) by (lia || (apply Hv; unfold region; lia)). f_equal. lia. }
    split.
    + change (kmem (with_mem k m)) with m. apply text_at_intro.
      * intros i Hi. change (Z.of_nat (length (exception_message pf_handler))) with 23 in Hi.
        destruct (pf_bytes_get i Hi) as [E Hn]. by rewrite Hr, E by lia.
      * exact (Hr 23 ltac:(lia)).
    + intros a Ha. split; [apply Hd; unfold region in *; lia|]. unfold conv_area, pf_bufs. cbn [cb_x cb_u cb_d].
      unfold region in *. lia.
    + intros a Ha. split; [apply Hd; unfold region in *; lia|]. unfold conv_area, pf_bufs. cbn [cb_x cb_u cb_d].
      unfold region in *. lia.
    + intros a Ha. apply Hd. unfold conv_area, pf_bufs in Ha. cbn [cb_x cb_u cb_d] in Ha. unfold region in *. lia.
Qed.

Lemma pf_stored (m : mach) : safe m kernel_view →
  written kernel_view m (put_text m 0x7F4100 pf_bytes) 0x7F4100 24 (λ i, pf_bytes.[i]).
Proof.
  intros Hs. assert (Z.of_nat (length pf_bytes) = 24) as El by reflexivity. rewrite <- El.
  apply put_text_spec; [done| |exact pf_bytes_range]. rewrite El. intros a Ha. right; left. unfold region in *. lia.
Qed.

Lemma pf_data_put vids im (k : kernel (list (Z * Z))) cur :
  kernel_ok vids im k cur →
  kernel_ok vids im (pf_kernel k) cur ∧ pf_data (pf_kernel k) pf_bufs 0x7F4100 0x7F4300 ∧
  tabs (put_text (kmem k) 0x7F4100 pf_bytes) = tabs (kmem k).
Proof.
  intros Hk. pose proof (pf_stored (kmem k) (ko_safe _ _ _ _ Hk)) as W. unfold pf_kernel.
  revert W. generalize (put_text (kmem k) 0x7F4100 pf_bytes) as m. intros m W.
  destruct (pf_data_at vids im k cur m Hk W) as [H1 H2]. split; [exact H1|]. split; [exact H2|].
  pose proof (proj1 W) as C. by injection C.
Qed.

(** A write to address 0 (error code 6). *)
Lemma page_fault_ends_process_witness :
  ∃ (k0 k' : kernel (list (Z * Z))) st,
    pf_handler_body k0 3 pf_bufs 0x7F4100 0x7F4300 0 6 0x7F7000 0x7F7000 0 0 0 =
      Some (HResume k' 0 0x7FFE00 0x7FFE40 st) ∧
    tview (con k') 0 = print_spec (text "pf exception at 0, 6" ++ [10]) (tview (con k0) 0) ∧
    reaped k0 k' 3 0 ∧ kernel_ok (λ _, None) kimage k' 0.
Proof.
  destruct demo_second_shell as (k & Hok & Hpar & Htid & Hl & Hpid & Ht & Hd & Q1 & Q2 & Qc).
  destruct (pf_data_put _ _ k 3 Hok) as (Hok0 & Hdata & Htabs). exists (pf_kernel k).
  destruct (page_fault_ends_process (λ _, None) kimage (pf_kernel k) 3 pf_bufs 0x7F4100 0x7F4300 0 6 0x7F7000 0x7F7000 0 0 0)
    as (k' & st & E & Hv & Hr & Hok');
    change (pcbs (pf_kernel k)) with (pcbs k) in *;
    change (kmem (pf_kernel k)) with (put_text (kmem k) 0x7F4100 pf_bytes); rewrite ?Hpar, ?Ht, ?Htabs;
    [exact Hok0|exact Hdata|by rewrite Htid|lia|lia|discriminate|exact Hl|exact Hpid|lia|exact Hd|].
  rewrite Hpar in E, Hr, Hok'. rewrite Htid in Hv. rewrite Q1, Q2 in E.
  exists k', st. split; [exact E|]. split; [exact Hv|]. split; [exact Hr|exact Hok'].
Defined.
