(* ===== verification/Boot.v ===== *)
(** * Booting (student-distrib/kernel.c, multiboot.h)

    [entry]: print the boot loader's information, take the file system from
    the last module, set up the descriptors, the interrupt controller, the
    keyboard and paging, and execute the first shell.

    Until [keyboard_install] runs, no terminal has a video page: the field
    [video_mem] is 0 and everything printed goes to the bytes from address 0 on.
    [boot_env] holds what the linker and the compiler choose: the addresses of
    the format strings, of [printf]'s buffers and of its arguments on the boot
    stack.  [cur_pcb] gives the PCB of process 0, the one below 8 MB.
    Interrupts taken between [sti] and [execute] are not modelled. *)

From S2P Require Import Prelude Memory Lib Ports Types Filesystem I8259 RTC Paging Console Printf.
From S2P Require Import Keyboard Idt Kernel Process Scheduler.
Import (notations) Stdlib.Strings.String.
#[local] Open Scope Z_scope.

Definition MULTIBOOT_BOOTLOADER_MAGIC : Z := 0x2BADB002.

(** [CHECK_FLAG(flags, bit)] *)
Definition CHECK_FLAG (flags bit : Z) : bool := negb (Z.land flags (Z.shiftl 1 bit) =? 0).

(** A line with its linefeed. *)
Definition line (s : String.string) : list Z := text s ++ [10].

Record boot_env := mk_boot_env {
  be_fmt : list Z → Z;      (* the address of a format *)
  be_bufs : conv_bufs;
  be_args : Z               (* where the arguments are pushed *)
}.

(** ** The multiboot structures *)

Section Multiboot.
Context {M : Type} `{!ByteMem M}.
Implicit Types (m : M) (a : Z).

(** [multiboot_info_t] *)
Definition mbi_flags m a : Z := load32 m a.
Definition mbi_mem_lower m a : Z := load32 m (a + 4).
Definition mbi_mem_upper m a : Z := load32 m (a + 8).
Definition mbi_boot_device m a : Z := load32 m (a + 12).
Definition mbi_cmdline m a : Z := load32 m (a + 16).
Definition mbi_mods_count m a : Z := load32 m (a + 20).
Definition mbi_mods_addr m a : Z := load32 m (a + 24).
Definition mbi_elf_sec a : Z := a + 28.
Definition mbi_mmap_length m a : Z := load32 m (a + 44).
Definition mbi_mmap_addr m a : Z := load32 m (a + 48).

(** [elf_section_header_table_t] *)
Definition elf_num m a : Z := load32 m a.
Definition elf_size m a : Z := load32 m (a + 4).
Definition elf_addr m a : Z := load32 m (a + 8).
Definition elf_shndx m a : Z := load32 m (a + 12).

(** [module_t], of 16 bytes *)
Definition mod_start m a : Z := load32 m a.
Definition mod_end m a : Z := load32 m (a + 4).
Definition mod_string m a : Z := load32 m (a + 8).

(** [memory_map_t] *)
Definition mmap_size m a : Z := load32 m a.
Definition mmap_base_low m a : Z := load32 m (a + 4).
Definition mmap_base_high m a : Z := load32 m (a + 8).
Definition mmap_length_low m a : Z := load32 m (a + 12).
Definition mmap_length_high m a : Z := load32 m (a + 16).
Definition mmap_type m a : Z := load32 m (a + 20).

(** The arguments of a call, at [a] and upwards. *)
Fixpoint push_args m a (args : list Z) : M :=
  match args with
  | [] => m
  | w :: args => push_args (store32 m a w) (a + 4) args
  end.
End Multiboot.

(** ** The boot messages *)

Section Messages.
Context {M : Type} `{!ByteMem M} {D : Type} `{!PortIO D}.
Context (E : boot_env) (t : Z).
Implicit Types (s : console M D).

(** [printf(f, args)] *)
Definition say s (f : list Z) (args : list Z) : option (console M D) :=
  fst <$> printf (be_bufs E) (s <| vmem := push_args (vmem s) (be_args E) args |>) t
            (be_fmt E f) (be_args E).

Definition show_module s (mod_count md : Z) : option (console M D) :=
  s ← say s (line "Module %d has string: 0x%#x") [mod_count; mod_string (vmem s) md];
  s ← say s (line "Module %d loaded at address: 0x%#x") [mod_count; mod_start (vmem s) md];
  s ← say s (line "Module %d ends at address: 0x%#x") [mod_count; mod_end (vmem s) md];
  s ← say s (line "First few bytes of module:") [];
  s ← for_loop 16 0 (λ i os, s ← os;
        say s (text "0x%x ") [u32 (s8 (rd (vmem s) (u32 (mod_start (vmem s) md + i))))]) (Some s);
  say s (line "") [].

(** [while(mod_count < mbi->mods_count) { ... }] *)
Definition modules_step (mbi : Z) (st : console M D * fs_globals * Z * Z)
    : (console M D * fs_globals * Z * Z) + option (console M D * fs_globals) :=
  let '(s, g, mod_count, md) := st in
  if u32 mod_count <? mbi_mods_count (vmem s) mbi then
    let g := mk_fs (mod_start (vmem s) md) (mod_end (vmem s) md) in
    match show_module s mod_count md with
    | None => inr None
    | Some s => inl (s, g, s32 (mod_count + 1), u32 (md + 16))
    end
  else inr (Some (s, g)).

Definition show_modules s (g : fs_globals) (mbi : Z) : option (console M D * fs_globals) :=
  r ← while (modules_step mbi) (s, g, 0, mbi_mods_addr (vmem s) mbi);
  r.

(** The loop over the memory map. *)
Definition mmap_step (mbi : Z) (st : console M D * Z) : (console M D * Z) + option (console M D) :=
  let '(s, mmap) := st in
  let m := vmem s in
  if mmap <? u32 (mbi_mmap_addr m mbi + mbi_mmap_length m mbi) then
    match say s (line " size = 0x%x,     base_addr = 0x%#x%#x" ++
                 line "     type = 0x%x,  length    = 0x%#x%#x")
            [mmap_size m mmap; mmap_base_high m mmap; mmap_base_low m mmap; mmap_type m mmap;
             mmap_length_high m mmap; mmap_length_low m mmap] with
    | None => inr None
    | Some s => inl (s, u32 (mmap + mmap_size (vmem s) mmap + 4))
    end
  else inr (Some s).

Definition show_mmap s (mbi : Z) : option (console M D) :=
  let m := vmem s in
  s ← say s (line "mmap_addr = 0x%#x, mmap_length = 0x%x") [mbi_mmap_addr m mbi; mbi_mmap_length m mbi];
  r ← while (mmap_step mbi) (s, mbi_mmap_addr (vmem s) mbi);
  r.

(** A message printed when a flag is set. *)
Definition say_if (b : bool) s (f : list Z) (args : list Z) : option (console M D) :=
  if b then say s f args else Some s.

(** The messages up to the memory map; the last component is false when
    [entry] returns because flags 4 and 5 are both set. *)
Definition show_info s (g : fs_globals) (mbi : Z) : option (console M D * fs_globals * bool) :=
  let flag s bit := CHECK_FLAG (mbi_flags (vmem s) mbi) bit in
  s ← say s (line "flags = 0x%#x") [mbi_flags (vmem s) mbi];
  s ← say_if (flag s 0) s (line "mem_lower = %uKB, mem_upper = %uKB")
        [mbi_mem_lower (vmem s) mbi; mbi_mem_upper (vmem s) mbi];
  s ← say_if (flag s 1) s (line "boot_device = 0x%#x") [mbi_boot_device (vmem s) mbi];
  s ← say_if (flag s 2) s (line "cmdline = %s") [mbi_cmdline (vmem s) mbi];
  '(s, g) ← (if flag s 3 then show_modules s g mbi else Some (s, g));
  if flag s 4 && flag s 5 then
    s ← say s (line "Both bits 4 and 5 are set.") [];
    Some (s, g, false)
  else
    s ← say_if (flag s 5) s
          (text "elf_sec: num = %u, size = 0x%#x," ++ line " addr = 0x%#x, shndx = 0x%#x")
          (let e := mbi_elf_sec mbi in
           [elf_num (vmem s) e; elf_size (vmem s) e; elf_addr (vmem s) e; elf_shndx (vmem s) e]);
    s ← (if flag s 6 then show_mmap s mbi else Some s);
    Some (s, g, true).
End Messages.

(** ** The descriptor tables *)

(** [tss_t]: the padding and the fields the kernel never uses are left out of
    the record. *)
#[projections(primitive)] Record tss_t := mk_tss {
  esp0 : Z;
  ss0 : Z;
  ldt_segment_selector : Z
}.
#[export] Instance set_esp0 : Setter esp0. Proof. mk_setter. Defined.
#[export] Instance set_ss0 : Setter ss0. Proof. mk_setter. Defined.
#[export] Instance set_ldt_segment_selector : Setter ldt_segment_selector. Proof. mk_setter. Defined.

(** The addresses and sizes of x86_desc.S, and the registers that point to the
    tables. *)
Record desc_env := mk_desc_env {
  de_ldt : Z; de_ldt_size : Z; de_tss : Z; de_tss_size : Z;
  de_haddr : handler → Z;
  de_local : seg_desc        (* the uninitialised locals *)
}.

#[projections(primitive)] Record desc_tables := mk_desc_tables {
  ldt_desc_ptr : seg_desc;
  tss_desc_ptr : seg_desc;
  b_tss : tss_t;
  b_idt : list idt_desc;
  ldtr : Z;
  tr : Z;
  idt_loaded : bool
}.
#[export] Instance set_ldt_desc_ptr : Setter ldt_desc_ptr. Proof. mk_setter. Defined.
#[export] Instance set_tss_desc_ptr : Setter tss_desc_ptr. Proof. mk_setter. Defined.
#[export] Instance set_b_tss : Setter b_tss. Proof. mk_setter. Defined.
#[export] Instance set_b_idt : Setter b_idt. Proof. mk_setter. Defined.
#[export] Instance set_ldtr : Setter ldtr. Proof. mk_setter. Defined.
#[export] Instance set_tr : Setter tr. Proof. mk_setter. Defined.
#[export] Instance set_idt_loaded : Setter idt_loaded. Proof. mk_setter. Defined.

Definition init_descriptors (V : desc_env) (X : desc_tables) : desc_tables :=
  let X := X <| ldt_desc_ptr := the_ldt_desc (de_local V) (de_ldt V) (de_ldt_size V) |> in
  let X := X <| ldtr := KERNEL_LDT |> in
  let X := X <| tss_desc_ptr := the_tss_desc (de_local V) (de_tss V) (de_tss_size V) |> in
  let X := X <| b_tss := (b_tss X) <| ldt_segment_selector := KERNEL_LDT |> <| ss0 := KERNEL_DS |>
                           <| esp0 := 0x800000 |> |> in
  let X := X <| tr := KERNEL_TSS |> in
  let X := X <| b_idt := initialize_idt (de_haddr V) (b_idt X) |> in
  X <| idt_loaded := true |>.

(** ** entry *)

Section Entry.
Context {HL : Layout} {D : Type} `{!PortIO D}.
Implicit Types (k : kernel D).

(** [entry] returns to the assembly, which stops the processor, or the call of
    [execute] ends as [ex] says. *)
Inductive boot_result :=
| BootReturn (k : kernel D)
| BootShell (X : desc_tables) (ex : @exec_result D).

(** The devices, the keyboard and paging. *)
Definition init_devices k (X : desc_tables) : option (kernel D) :=
  let k := k <| tss_esp0 := esp0 (b_tss X) |> <| tss_ss0 := ss0 (b_tss X) |> in
  let (p, d) := i8259_init (kpic k) (kdev k) in
  let (p, d) := init_PIT p d in
  let (p, d) := enable_irq p d 2 in
  let k := (with_dev k d) <| kpic := p |> in
  '(p, kbd, s) ← keyboard_install (kpic k) (kb k) (con k) 1;
  let k := k <| kpic := p |> <| kb := kbd |> <| con := s |> in
  let m := kmem k in
  let m := m <| tabs := init_kernel_pd (tabs m) |> in
  let m := loadPageDirectory m kpd_addr in
  let m := enablePaging m in
  let k := with_mem k m in
  Some (k <| con := term_clear (con k) 0 |>).

Definition entry (E : boot_env) (V : desc_env) k (X : desc_tables)
    (magic addr esp ebp shell dp hp : Z) : option boot_result :=
  let t := p_terminal_id (pcbs k).[0] in
  let s := clear (con k) t in
  if negb (magic =? MULTIBOOT_BOOTLOADER_MAGIC) then
    s ← say E t s (line "Invalid magic number: 0x%#x") [magic];
    Some (BootReturn (k <| con := s |>))
  else
    '(s, g, go) ← show_info E t s (fs k) addr;
    let k := k <| con := s |> <| fs := g |> in
    if negb go then Some (BootReturn k)
    else
      let X := init_descriptors V X in
      k ← init_devices k X;
      ex ← execute k 0 esp ebp shell dp hp;
      Some (BootShell X ex).
End Entry.
