(* ===== verification/BootProofs.v ===== *)
(** * Booting: proofs

    The messages of [entry] print the text [boot_text] of the multiboot
    information, and change only the page they are printed on, the buffers of
    [printf] and its arguments; the loops over the modules and the memory map
    end. *)

From S2P Require Import Prelude Memory Lib Ports Types Filesystem FsProofs I8259 RTC Paging PagingProps.
From S2P Require Import Console ConsoleProofs ConsoleProps Printf Keyboard KeyboardProofs LineProofs.
From S2P Require Import KeyboardProps Idt Kernel KernelProps SyscallProps Process Scheduler ParseProofs.
From S2P Require Import Forest System ProcessProofs Boot.
Import (notations) Stdlib.Strings.String.
#[local] Open Scope Z_scope.

Section Say.
Context {M : Type} `{!ByteMem M} {D : Type} `{!PortIO D}.
Context (E : boot_env) (t : Z) (P : Z → Prop).
Implicit Types (s : console M D) (m : M) (a : Z) (f args : list Z).

(** The buffers of [printf] and the words of the longest argument list. *)
Definition bufs_of a : Prop :=
  region (cb_x (be_bufs E)) 64 a ∨ region (cb_u (be_bufs E)) 36 a ∨ region (cb_d (be_bufs E)) 36 a.
Definition scratch a : Prop := bufs_of a ∨ region (be_args E) 24 a.

Lemma printed_mono (B B' : Z → Prop) s s' out :
  (∀ a, B a → B' a) → printed P B s s' t out → printed P B' s s' t out.
Proof. intros HB [H1 H2 H3 H4 H5 H6 H7 H8 H9]. split; try done. intros a Ha Hp Hb. apply H9; auto. Qed.

Lemma push_args_spec m a args :
  safe m P → (∀ b, region a (4 * Z.of_nat (length args)) b → P b) →
  Forall (λ w, 0 ≤ w < 4294967296) args →
  ctl (push_args m a args) = ctl m ∧ words_at (push_args m a args) a args ∧
  ∀ b, P b → ¬ region a (4 * Z.of_nat (length args)) b → rd (push_args m a args) b = rd m b.
Proof.
  intros Hs HP Hw. revert m a Hs HP. induction Hw as [|w args Hw Hws IH]; intros m a Hs HP; simpl.
  { split; [done|]. split; [intros i Hi; simpl in Hi; lia|done]. }
  cbn [length] in HP.
  assert (∀ b, region a 4 b → P b) as HP4 by (intros b Hb; apply HP; unfold region in *; lia).
  pose proof (store32_written P m a w Hs HP4) as Hst.
  destruct (IH (store32 m a w) (a + 4)) as (C & W & R).
  { by apply (written_safe P m _ _ _ _ Hs Hst). }
  { intros b Hb. apply HP. unfold region in *. lia. }
  split; [|split].
  - rewrite C. apply Hst.
  - intros i Hi. cbn [length] in Hi. destruct (decide (i = 0)) as [->|Hne].
    + replace (a + 4 * 0) with a by lia. change ((w :: args).[0]) with w.
      rewrite <- (load32_store32 P m a w Hs HP4 Hw) at 2. apply load32_ext. intros b Hb.
      apply R; [apply HP4; unfold region; lia|unfold region; lia].
    + replace (a + 4 * i) with (a + 4 + 4 * (i - 1)) by lia. rewrite W by lia.
      rewrite (aget_app_r [w] args) by (simpl; lia). f_equal.
  - intros b Hb Hn. unfold region in Hn. rewrite R; [|done|unfold region; lia].
    apply (written_out _ _ _ _ _ _ _ Hst); [done|lia].
Qed.

(** What the messages need: a usable terminal, and buffers and arguments that
    lie apart from its page. *)
Record can_say s : Prop := {
  cs_ok : con_ok P s t;
  cs_cur : cur_terminal s = t;
  cs_scratch : ∀ a, scratch a → P a ∧ 0 ≤ a < 4294967296 ∧ ¬ region (page_of s t) 4000 a;
  cs_apart : ∀ a, bufs_of a → ¬ region (be_args E) 24 a
}.

(** A format in memory, out of the way of everything that is written. *)
Definition has_format s f : Prop :=
  text_at (vmem s) (be_fmt E f) f ∧ 0 ≤ be_fmt E f ∧ be_fmt E f + Z.of_nat (length f) < 4294967296 ∧
  ∀ a, region (be_fmt E f) (Z.of_nat (length f) + 1) a → apart P scratch s t a.

(** [s'] is [s] after some output: only the page, the cursors and the scratch
    memory may differ. *)
Record told s s' : Prop := {
  td_ok : con_ok P s' t;
  td_cur : cur_terminal s' = cur_terminal s;
  td_len : length (terminals s') = length (terminals s);
  td_terms : ∀ u, ∃ x y, (terminals s').[u] = set_cursor (terminals s).[u] x y;
  td_ctl : ctl (vmem s') = ctl (vmem s);
  td_mem : ∀ a, apart P scratch s t a → rd (vmem s') a = rd (vmem s) a
}.

Lemma printed_told s s' out : printed P scratch s s' t out → told s s'.
Proof. intros [H1 H2 H3 H4 H5 H6 H7 H8 H9]. split; try done. intros a (A & B & C). auto. Qed.

Lemma told_page s s' u : told s s' → page_of s' u = page_of s u.
Proof. intros T. destruct (td_terms _ _ T u) as (x & y & Eu). unfold page_of. by rewrite Eu. Qed.

Lemma told_refl s : can_say s → told s s.
Proof.
  intros [H1 H2 _ _]. split; try done. intros u. eexists _, _. symmetry. apply set_cursor_same.
Qed.

Lemma told_apart s s' a : told s s' → apart P scratch s t a → apart P scratch s' t a.
Proof. intros T. unfold apart. by rewrite (told_page _ _ _ T). Qed.

Lemma told_rd s s' a : told s s' → apart P scratch s t a → rd (vmem s') a = rd (vmem s) a.
Proof. intros T. apply (td_mem _ _ T). Qed.

Lemma told_trans s1 s2 s3 : told s1 s2 → told s2 s3 → told s1 s3.
Proof.
  intros T1 T2. split.
  - apply T2.
  - by rewrite (td_cur _ _ T2), (td_cur _ _ T1).
  - by rewrite (td_len _ _ T2), (td_len _ _ T1).
  - intros u. destruct (td_terms _ _ T1 u) as (x1 & y1 & E1).
    destruct (td_terms _ _ T2 u) as (x2 & y2 & E2). exists x2, y2. by rewrite E2, E1.
  - by rewrite (td_ctl _ _ T2), (td_ctl _ _ T1).
  - intros a Ha. rewrite (td_mem _ _ T2); [by apply (td_mem _ _ T1)|]. by apply (told_apart s1).
Qed.

Lemma told_load32 s s' a :
  told s s' → (∀ b, region a 4 b → apart P scratch s t b) → load32 (vmem s') a = load32 (vmem s) a.
Proof. intros T Ha. apply load32_ext. intros b Hb. by apply (told_rd _ _ _ T), Ha. Qed.

Lemma can_say_told s s' : can_say s → told s s' → can_say s'.
Proof.
  intros [H1 H2 H3 H4] T. split; [apply T|by rewrite (td_cur _ _ T)| |done].
  intros a Ha. rewrite (told_page _ _ _ T). by apply H3.
Qed.

Lemma has_format_told s s' f : told s s' → has_format s f → has_format s' f.
Proof.
  intros T (Ht & H0 & H1 & Ha). split; [|split; [done|split; [done|]]].
  - revert Ht. apply text_at_ext. intros i Hi. apply (told_rd _ _ _ T), Ha. unfold region. lia.
  - intros a Har. by apply (told_apart _ _ _ T), Ha.
Qed.

(** One message. *)
Lemma say_printed s f args strs :
  can_say s → has_format s f → Forall (λ w, 0 ≤ w < 4294967296) args → (length args <= 6)%nat →
  format_ok (string_arg P scratch s t strs) f None args →
  ∃ s', say E t s f args = Some s' ∧ printed P scratch s s' t (format_text strs f None args).
Proof.
  intros [Hok Hcur Hscr Hap] (Ht & Hf0 & Hf1 & Hfa) Hw Hlen Hfo. unfold say.
  assert (∀ b, region (be_args E) (4 * Z.of_nat (length args)) b → scratch b) as Hreg
    by (intros b Hb; right; unfold region in *; lia).
  destruct (push_args_spec (vmem s) (be_args E) args) as (C & W & R); [apply Hok| |done|].
  { intros b Hb. by apply Hscr, Hreg. }
  set (m := push_args (vmem s) (be_args E) args) in *.
  assert (con_ok P s (cur_terminal s)) as Hcok by by rewrite Hcur.
  assert (printed P scratch s (s <| vmem := m |>) t []) as Hp1.
  { apply scratch_printed; try done.
    - intros a Ha. by apply Hscr.
    - intros a Ha Hn. apply R; [done|]. intros Hr. by apply Hn, Hreg. }
  assert (∀ a, scratch a → P a ∧ 0 ≤ a < 4294967296 ∧ ¬ region (page_of (s <| vmem := m |>) t) 4000 a)
    as Hscr1 by done.
  destruct (printf_spec P bufs_of (be_bufs E) (s <| vmem := m |>) t strs) with
    (format := be_fmt E f) (f := f) (esp := be_args E) (args := args) as (s' & Ep & Hp2).
  - apply Hp1.
  - apply Hp1.
  - intros a Ha. apply Hscr1. by left.
  - done.
  - done.
  - done.
  - intros a Ha. destruct (Hfa a Ha) as (A1 & A2 & A3). split; [done|]. split; [done|].
    intros Hb. apply A3. by left.
  - intros a Ha. destruct (Hscr a (Hreg a Ha)) as (A1 & _ & A3). split; [done|]. split; [done|].
    intros Hb. apply (Hap a Hb). unfold region in *. lia.
  - revert Ht. apply text_at_ext. intros i Hi. apply (told_rd _ _ _ (printed_told _ _ _ Hp1)), Hfa. unfold region. lia.
  - exact W.
  - revert Hfo. generalize (@None bool) args. clear - Hp1.
    induction f as [|c f IH]; intros conv l; [done|]. cbn [format_ok].
    destruct conv as [alt|].
    + destruct (c =? 35); [apply IH|]. intros (A & B & C). split; [done|]. split; [|by apply IH].
      intros Hc. destruct (B Hc) as (T & B0 & B1 & B2). split; [|split; [done|split; [done|]]].
      * revert T. apply text_at_ext. intros i Hi. apply (told_rd _ _ _ (printed_told _ _ _ Hp1)), B2. unfold region. lia.
      * intros b Hb. destruct (B2 b Hb) as (X1 & X2 & X3). split; [done|]. split; [done|].
        intros Hbb. apply X3. by left.
    + destruct (c =? 37); apply IH.
  - rewrite Ep. exists s'. split; [done|]. rewrite <- (app_nil_l (format_text _ _ _ _)).
    apply (printed_trans _ _ _ _ _ _ _ _ Hp1). revert Hp2. apply printed_mono. intros a Ha. by left.
Qed.

(** ** The messages of entry *)

(** The formats of [entry]. *)
Definition boot_formats : list (list Z) :=
  [ line "Invalid magic number: 0x%#x"; line "flags = 0x%#x";
    line "mem_lower = %uKB, mem_upper = %uKB"; line "boot_device = 0x%#x"; line "cmdline = %s";
    line "Module %d has string: 0x%#x"; line "Module %d loaded at address: 0x%#x";
    line "Module %d ends at address: 0x%#x"; line "First few bytes of module:"; text "0x%x "; line "";
    line "Both bits 4 and 5 are set.";
    text "elf_sec: num = %u, size = 0x%#x," ++ line " addr = 0x%#x, shndx = 0x%#x";
    line "mmap_addr = 0x%#x, mmap_length = 0x%x";
    line " size = 0x%x,     base_addr = 0x%#x%#x" ++ line "     type = 0x%x,  length    = 0x%#x%#x" ].

Record ready s : Prop := {
  rd_say : can_say s;
  rd_fmt : ∀ f, f ∈ boot_formats → has_format s f
}.

Lemma ready_told s s' : ready s → told s s' → ready s'.
Proof.
  intros [H1 H2] T. split; [by apply (can_say_told s)|].
  intros f Hf. by apply (has_format_told s), H2.
Qed.

(** A format whose conversions are numbers, one for each of [n] arguments. *)
Fixpoint numeric (f : list Z) (conv : bool) (n : nat) : bool :=
  match f with
  | [] => negb conv
  | c :: f =>
      if conv then
        if c =? 35 then numeric f true n
        else if takes_arg c then
          match n with O => false | S n => negb (c =? 115) && numeric f false n end
        else negb (c =? 115) && numeric f false n
      else numeric f (c =? 37) n
  end.

Lemma numeric_ok Q f conv args :
  numeric f (bool_decide (is_Some conv)) (length args) = true → format_ok Q f conv args.
Proof.
  revert conv args. induction f as [|c f IH]; intros conv args; cbn [numeric format_ok].
  { destruct conv; [done|done]. }
  destruct conv as [alt|]; cbn.
  - destruct (c =? 35); [apply (IH (Some true))|]. destruct (takes_arg c).
    + destruct args as [|w args]; [done|]. cbn [length drop].
      intros [Hc Hn]%andb_prop. split; [done|]. split; [|by apply (IH None)].
      intros ->. done.
    + intros [Hc Hn]%andb_prop. split; [done|]. split; [|by apply (IH None)].
      intros ->. done.
  - destruct (c =? 37); [apply (IH (Some false))|apply (IH None)].
Qed.

(** [s'] is [s] after the output [out]. *)
Definition tells s s' (out : list Z) : Prop :=
  told s s' ∧ tview s' t = print_spec out (tview s t).

Lemma printed_tells s s' out : printed P scratch s s' t out → tells s s' out.
Proof. intros Hp. split; [by eapply printed_told|apply Hp]. Qed.

Lemma tells_refl s : can_say s → tells s s [].
Proof. intros H. split; [by apply told_refl|done]. Qed.

Lemma tells_trans s1 s2 s3 o1 o2 : tells s1 s2 o1 → tells s2 s3 o2 → tells s1 s3 (o1 ++ o2).
Proof.
  intros [T1 V1] [T2 V2]. split; [by apply (told_trans s1 s2)|].
  rewrite V2, V1. unfold print_spec. by rewrite fold_left_app.
Qed.

(** The text of a message of numbers. *)
Definition said f args : list Z := format_text (λ _, []) f None args.

Lemma say_tells s f args :
  ready s → f ∈ boot_formats → numeric f false (length args) = true →
  Forall (λ w, 0 ≤ w < 4294967296) args → (length args <= 6)%nat →
  ∃ s', say E t s f args = Some s' ∧ tells s s' (said f args).
Proof.
  intros [H1 H2] Hf Hn Hw Hl.
  destruct (say_printed s f args (λ _, [])) as (s' & Es & Hp); [done|by apply H2|done|done| |].
  - by apply (numeric_ok _ _ None).
  - exists s'. split; [done|]. by apply printed_tells.
Qed.

Lemma say_if_tells b s f args :
  ready s → f ∈ boot_formats → numeric f false (length args) = true →
  Forall (λ w, 0 ≤ w < 4294967296) args → (length args <= 6)%nat →
  ∃ s', say_if E t b s f args = Some s' ∧ tells s s' (if b then said f args else []).
Proof.
  intros Hr Hf Hn Hw Hl. destruct b; [by apply say_tells|]. exists s. split; [done|apply tells_refl, Hr].
Qed.
End Say.

(** A message of numbers: its format is one of [entry]'s and its arguments are
    words. *)
Ltac message :=
  solve [ assumption
        | apply bool_decide_unpack; vm_compute; exact I
        | reflexivity
        | repeat constructor; (apply load32_range || apply u32_range || lia)
        | simpl; lia ].

(** ** The text of the messages *)

(** A word in eight hexadecimal digits. *)
Definition hex8 (w : Z) : list Z := pad8 (hex_text w).

Section Texts.
Context {M : Type} `{!ByteMem M}.
Implicit Types (m : M) (mbi a e : Z).

Definition byte_text m (a : Z) : list Z := text "0x" ++ hex_text (u32 (s8 (rd m (u32 a)))) ++ [32].

(** Module number [i], described at [md]. *)
Definition module_text m (i md : Z) : list Z :=
  text "Module " ++ dec_text i ++ text " has string: 0x" ++ hex8 (mod_string m md) ++ [10] ++
  text "Module " ++ dec_text i ++ text " loaded at address: 0x" ++ hex8 (mod_start m md) ++ [10] ++
  text "Module " ++ dec_text i ++ text " ends at address: 0x" ++ hex8 (mod_end m md) ++ [10] ++
  text "First few bytes of module:" ++ [10] ++
  (seqZ 0 16 ≫= λ j, byte_text m (mod_start m md + j)) ++ [10].

Definition modules_text m mbi (n : Z) : list Z :=
  seqZ 0 n ≫= λ i, module_text m i (mbi_mods_addr m mbi + 16 * i).

(** The entry at [a] of the memory map. *)
Definition entry_text m a : list Z :=
  text " size = 0x" ++ hex_text (mmap_size m a) ++ text ",     base_addr = 0x" ++
  hex8 (mmap_base_high m a) ++ hex8 (mmap_base_low m a) ++ [10] ++
  text "     type = 0x" ++ hex_text (mmap_type m a) ++ text ",  length    = 0x" ++
  hex8 (mmap_length_high m a) ++ hex8 (mmap_length_low m a) ++ [10].

(** The entries from [a] up to [e]; each takes at least four bytes. *)
Fixpoint entries_text (n : nat) m e a : list Z :=
  match n with
  | O => []
  | S n => if a <? e then entry_text m a ++ entries_text n m e (a + mmap_size m a + 4) else []
  end.
Definition mmap_entries m e a : list Z := entries_text (Z.to_nat (e - a)) m e a.

Definition mmap_limit m mbi : Z := u32 (mbi_mmap_addr m mbi + mbi_mmap_length m mbi).

Definition mmap_text m mbi : list Z :=
  text "mmap_addr = 0x" ++ hex8 (mbi_mmap_addr m mbi) ++ text ", mmap_length = 0x" ++
  hex_text (mbi_mmap_length m mbi) ++ [10] ++ mmap_entries m (mmap_limit m mbi) (mbi_mmap_addr m mbi).

Definition elf_text m mbi : list Z :=
  let e := mbi_elf_sec mbi in
  text "elf_sec: num = " ++ dec_text (elf_num m e) ++ text ", size = 0x" ++ hex8 (elf_size m e) ++
  text ", addr = 0x" ++ hex8 (elf_addr m e) ++ text ", shndx = 0x" ++ hex8 (elf_shndx m e) ++ [10].

(** All of the boot information; [cmd] is the command line. *)
Definition boot_text m mbi (cmd : list Z) : list Z :=
  let fl := mbi_flags m mbi in
  let opt bit (l : list Z) := if CHECK_FLAG fl bit then l else [] in
  text "flags = 0x" ++ hex8 fl ++ [10] ++
  opt 0 (text "mem_lower = " ++ dec_text (mbi_mem_lower m mbi) ++ text "KB, mem_upper = " ++
         dec_text (mbi_mem_upper m mbi) ++ text "KB" ++ [10]) ++
  opt 1 (text "boot_device = 0x" ++ hex8 (mbi_boot_device m mbi) ++ [10]) ++
  opt 2 (text "cmdline = " ++ cmd ++ [10]) ++
  opt 3 (modules_text m mbi (mbi_mods_count m mbi)) ++
  if CHECK_FLAG fl 4 && CHECK_FLAG fl 5 then text "Both bits 4 and 5 are set." ++ [10]
  else opt 5 (elf_text m mbi) ++ opt 6 (mmap_text m mbi).

Lemma mmap_entries_past m e a : e ≤ a → mmap_entries m e a = [].
Proof. intros H. unfold mmap_entries. by rewrite Z2Nat.nonpos by lia. Qed.

Lemma entries_text_fuel m e n a :
  (Z.to_nat (e - a) ≤ n)%nat → entries_text n m e a = mmap_entries m e a.
Proof.
  unfold mmap_entries. revert a. induction n as [n IH] using lt_wf_ind. intros a Hn.
  destruct n as [|n].
  { assert (Z.to_nat (e - a) = 0%nat) as -> by lia. done. }
  destruct (Z.ltb_spec a e) as [Hlt|Hge].
  - destruct (Z.to_nat (e - a)) as [|k] eqn:Ek; [lia|]. cbn [entries_text].
    rewrite (proj2 (Z.ltb_lt a e)) by done. f_equal. assert (0 ≤ mmap_size m a) by apply load32_range.
    rewrite (IH n), (IH k) by lia. done.
  - cbn [entries_text]. rewrite (proj2 (Z.ltb_ge a e)) by done. by rewrite Z2Nat.nonpos by lia.
Qed.

Lemma mmap_entries_step m e a :
  a < e → mmap_entries m e a = entry_text m a ++ mmap_entries m e (a + mmap_size m a + 4).
Proof.
  intros Hlt. assert (0 ≤ mmap_size m a) by apply load32_range.
  rewrite <- (entries_text_fuel m e (S (Z.to_nat (e - a))) a) by lia. cbn [entries_text].
  rewrite (proj2 (Z.ltb_lt a e)) by done. f_equal. apply entries_text_fuel. lia.
Qed.
End Texts.

Section Info.
Context {M : Type} `{!ByteMem M} {D : Type} `{!PortIO D}.
Context (E : boot_env) (t : Z) (P : Z → Prop).
Implicit Types (s : console M D) (m : M) (a : Z).
#[local] Abbreviation Told := (told E t P).
#[local] Abbreviation Tells := (tells E t P).
#[local] Abbreviation Ready := (ready E t P).
#[local] Abbreviation Apart s := (apart P (scratch E) s t).

Lemma say_then {A} s f args (K : console M D → option A) (Q : A → Prop) :
  Ready s → f ∈ boot_formats → numeric f false (length args) = true →
  Forall (λ w, 0 ≤ w < 4294967296) args → (length args <= 6)%nat →
  (∀ s', Tells s s' (said f args) → Ready s' → ∃ r, K s' = Some r ∧ Q r) →
  ∃ r, (s ← say E t s f args; K s) = Some r ∧ Q r.
Proof.
  intros Hr Hf Hn Hw Hl HK. destruct (say_tells E t P s f args) as (s' & Es & Ht); try done.
  rewrite Es, bind_some. apply HK; [done|]. by apply (ready_told E t P s), Ht.
Qed.

Lemma tells_eq s s' o o' : Tells s s' o → o = o' → Tells s s' o'.
Proof. by intros H <-. Qed.

Lemma tells_ready s s' o : Ready s → Tells s s' o → Ready s'.
Proof. intros Hr [T _]. by apply (ready_told _ _ _ s). Qed.

(** The number of a module and an address. *)
Lemma said_module (f1 f2 : list Z) i w :
  0 ≤ i < 2147483648 → forallb (λ c, negb (c =? 37)) (f1 ++ f2) = true →
  said (f1 ++ text "%d" ++ f2 ++ text "%#x" ++ [10]) [i; w] = f1 ++ dec_text i ++ f2 ++ hex8 w ++ [10].
Proof.
  intros Hi Hf. unfold said. rewrite forallb_app in Hf. apply andb_prop in Hf as [H1 H2].
  assert (∀ g (l args : list Z), forallb (λ c, negb (c =? 37)) g = true →
    format_text (λ _, []) (g ++ l) None args = g ++ format_text (λ _, []) l None args) as Hg.
  { intros g l args. induction g as [|c g IH]; [done|]. cbn [forallb app format_text].
    intros [Hc Hr]%andb_prop. destruct (c =? 37); [done|]. by rewrite IH. }
  rewrite (Hg f1 _ _ H1). f_equal.
  change (format_text (λ _, []) (text "%d" ++ f2 ++ text "%#x" ++ [10]) None [i; w])
    with (conv_text (λ _, []) false 100 i ++ format_text (λ _, []) (f2 ++ text "%#x" ++ [10]) None [w]).
  rewrite (Hg f2 _ _ H2). unfold conv_text at 1. cbn [Z.eqb Pos.eqb]. rewrite s32_small by lia.
  rewrite (proj2 (Z.ltb_ge i 0)) by lia. done.
Qed.

Lemma show_module_tells s i md :
  Ready s → 0 ≤ i < 2147483648 → (∀ b, region md 16 b → Apart s b) →
  (∀ j, 0 ≤ j < 16 → Apart s (u32 (mod_start (vmem s) md + j))) →
  ∃ s', show_module E t s i md = Some s' ∧ Tells s s' (module_text (vmem s) i md).
Proof.
  intros Hr Hi Hmd Hby. unfold show_module.
  assert (∀ s', Told s s' → mod_string (vmem s') md = mod_string (vmem s) md ∧
    mod_start (vmem s') md = mod_start (vmem s) md ∧ mod_end (vmem s') md = mod_end (vmem s) md) as Hl.
  { intros s' T. unfold mod_string, mod_start, mod_end.
    split_and!; (apply (told_load32 E t P); [done|]; intros b Hb; apply Hmd; unfold region in *; lia). }
  apply say_then; [message..|]. intros s1 T1 R1.
  destruct (Hl s1 (proj1 T1)) as (_ & -> & _).
  apply say_then; [message..|]. intros s2 T2' R2.
  pose proof (tells_trans _ _ _ _ _ _ _ _ T1 T2') as T2. destruct (Hl s2 (proj1 T2)) as (_ & _ & ->).
  apply say_then; [message..|]. intros s3 T3' R3. pose proof (tells_trans _ _ _ _ _ _ _ _ T2 T3') as T3.
  apply say_then; [message..|]. intros s4 T4' R4. pose proof (tells_trans _ _ _ _ _ _ _ _ T3 T4') as T4.
  clear T1 T2 T3 T2' T3' T4' R1 R2 R3.
  match type of T4 with Tells s s4 ?o => set (out := o) in * end.
  set (body := λ (i : Z) (os : option (console M D)), _).
  pose proof (for_loop_inv (λ j os, ∃ s5, os = Some s5 ∧
    Tells s s5 (out ++ (seqZ 0 j ≫= λ j, byte_text (vmem s) (mod_start (vmem s) md + j)))) 16 0 body (Some s4)) as Hloop.
  destruct Hloop as (s5 & -> & T5).
  { exists s4. split; [done|]. apply (tells_eq _ _ _ _ T4). by rewrite app_nil_r. }
  { intros j os Hj (s5 & -> & T5). unfold body. rewrite bind_some.
    pose proof (tells_ready _ _ _ Hr T5). destruct (Hl s5 (proj1 T5)) as (_ & -> & _).
    rewrite (told_rd E t P s s5) by (apply T5 || apply Hby; lia).
    destruct (say_tells E t P s5 (text "0x%x ")
      [u32 (s8 (rd (vmem s) (u32 (mod_start (vmem s) md + j))))]) as (s6 & -> & T6); [message..|].
    exists s6. split; [done|]. apply (tells_eq _ _ _ _ (tells_trans _ _ _ _ _ _ _ _ T5 T6)).
    rewrite (seqZ_app 0 j 1), bind_app, app_assoc, Z.add_0_l by lia. f_equal.
    change (seqZ j 1) with [j]. cbn [mbind list_bind]. by rewrite app_nil_r. }
  rewrite bind_some. pose proof (tells_ready _ _ _ Hr T5).
  destruct (say_tells E t P s5 (line "") []) as (s6 & -> & T6); [message..|].
  exists s6. split; [done|]. apply (tells_eq _ _ _ _ (tells_trans _ _ _ _ _ _ _ _ T5 T6)).
  unfold out, module_text, mod_string, mod_start, mod_end.
  pose proof (said_module (text "Module ") (text " has string: 0x") i (load32 (vmem s) (md + 8)) Hi eq_refl) as E1.
  pose proof (said_module (text "Module ") (text " loaded at address: 0x") i (load32 (vmem s) md) Hi eq_refl) as E2.
  pose proof (said_module (text "Module ") (text " ends at address: 0x") i (load32 (vmem s) (md + 4)) Hi eq_refl) as E3.
  change (text "Module " ++ text "%d" ++ text " has string: 0x" ++ text "%#x" ++ [10])
    with (line "Module %d has string: 0x%#x") in E1.
  change (text "Module " ++ text "%d" ++ text " loaded at address: 0x" ++ text "%#x" ++ [10])
    with (line "Module %d loaded at address: 0x%#x") in E2.
  change (text "Module " ++ text "%d" ++ text " ends at address: 0x" ++ text "%#x" ++ [10])
    with (line "Module %d ends at address: 0x%#x") in E3.
  rewrite E1, E2, E3. change (said (line "") []) with [10].
  change (said (line "First few bytes of module:") []) with (text "First few bytes of module:" ++ [10]).
  by rewrite <- !app_assoc.
Qed.

(** The module table: readable, and out of the way of the messages. *)
Record modules_ok s (mbi : Z) : Prop := {
  mo_count : ∀ b, region (mbi + 20) 8 b → Apart s b;
  mo_table : ∀ b, region (mbi_mods_addr (vmem s) mbi) (16 * mbi_mods_count (vmem s) mbi) b → Apart s b;
  mo_end : mbi_mods_addr (vmem s) mbi + 16 * mbi_mods_count (vmem s) mbi ≤ 4294967295;
  mo_bytes : ∀ i j, 0 ≤ i < mbi_mods_count (vmem s) mbi → 0 ≤ j < 16 →
    Apart s (u32 (mod_start (vmem s) (mbi_mods_addr (vmem s) mbi + 16 * i) + j))
}.

(** The file system is the last module. *)
Definition last_module m (mbi : Z) (g : fs_globals) (n : Z) : fs_globals :=
  if n =? 0 then g
  else let md := mbi_mods_addr m mbi + 16 * (n - 1) in mk_fs (mod_start m md) (mod_end m md).

(** The text of a module depends on its description and its first bytes. *)
Lemma module_text_told s s' i md :
  Told s s' → (∀ b, region md 16 b → Apart s b) →
  (∀ j, 0 ≤ j < 16 → Apart s (u32 (mod_start (vmem s) md + j))) →
  module_text (vmem s') i md = module_text (vmem s) i md ∧
  mod_start (vmem s') md = mod_start (vmem s) md ∧ mod_end (vmem s') md = mod_end (vmem s) md.
Proof.
  intros T Hmd Hby.
  assert (mod_string (vmem s') md = mod_string (vmem s) md ∧ mod_start (vmem s') md = mod_start (vmem s) md ∧
    mod_end (vmem s') md = mod_end (vmem s) md) as (E1 & E2 & E3).
  { unfold mod_string, mod_start, mod_end.
    split_and!; (apply (told_load32 E t P); [done|]; intros b Hb; apply Hmd; unfold region in *; lia). }
  split; [|done]. unfold module_text. rewrite E1, E2, E3.
  assert (∀ l, Forall (λ j, 0 ≤ j < 16) l → (l ≫= λ j, byte_text (vmem s') (mod_start (vmem s) md + j)) =
    (l ≫= λ j, byte_text (vmem s) (mod_start (vmem s) md + j))) as Hb.
  { induction 1 as [|j l Hj _ IH]; [done|]. cbn [mbind list_bind]. fold (mbind (M := list) (A := Z) (B := Z)).
    rewrite IH. unfold byte_text. by rewrite (told_rd E t P s s' _ T) by (by apply Hby). }
  rewrite Hb; [done|]. repeat constructor; lia.
Qed.

Lemma show_modules_tells s g mbi :
  Ready s → modules_ok s mbi →
  ∃ s', show_modules E t s g mbi
          = Some (s', last_module (vmem s) mbi g (mbi_mods_count (vmem s) mbi)) ∧
    Tells s s' (modules_text (vmem s) mbi (mbi_mods_count (vmem s) mbi)).
Proof.
  intros Hr [Hc Ht He Hby]. unfold show_modules.
  set (n := mbi_mods_count (vmem s) mbi) in *. set (ma := mbi_mods_addr (vmem s) mbi) in *.
  assert (0 ≤ n < 4294967296) as Hn by apply load32_range.
  assert (0 ≤ ma < 4294967296) as Hma by apply load32_range.
  destruct (while_total (modules_step E t mbi)
    (λ '(s', g', i, md), Tells s s' (modules_text (vmem s) mbi i) ∧ 0 ≤ i ≤ n ∧ md = ma + 16 * i ∧
       g' = last_module (vmem s) mbi g i)
    (λ '(_, _, i, _), n - i)
    (λ r, ∃ s', r = Some (s', last_module (vmem s) mbi g n) ∧ Tells s s' (modules_text (vmem s) mbi n)) (s, g, 0, ma))
    as (r & -> & s' & -> & T).
  - intros [[[s' g'] i] md] (_ & Hi & _). lia.
  - intros [[[s' g'] i] md] (T & Hi & -> & ->). unfold modules_step.
    assert (mbi_mods_count (vmem s') mbi = n) as ->.
    { apply (told_load32 E t P); [apply T|]. intros b Hb. apply Hc. unfold region in *. lia. }
    rewrite u32_small by lia. destruct (Z.ltb_spec i n) as [Hlt|Hge].
    + assert (∀ b, region (ma + 16 * i) 16 b → Apart s b) as Hmd
        by (intros b Hb; apply Ht; unfold region in *; lia).
      destruct (module_text_told s s' i (ma + 16 * i) (proj1 T) Hmd) as (Ex & E1 & E2); [intros j Hj; apply Hby; lia|].
      destruct (show_module_tells s' i (ma + 16 * i)) as (s2 & Em & T2);
        [by apply (tells_ready s _ _ Hr T)|lia| | |].
      { intros b Hb. apply (told_apart E t P s); [apply T|by apply Hmd]. }
      { intros j Hj. rewrite E1. apply (told_apart E t P s); [apply T|apply Hby; lia]. }
      rewrite Em. replace (s32 (i + 1)) with (i + 1) by (symmetry; apply s32_small; lia).
      split; [|lia]. split; [|split; [lia|split; [rewrite u32_small by lia; lia|]]].
      * apply (tells_eq _ _ _ _ (tells_trans _ _ _ _ _ _ _ _ T T2)). rewrite Ex. unfold modules_text.
        rewrite (seqZ_app 0 i 1), bind_app, Z.add_0_l by lia. f_equal. change (seqZ i 1) with [i].
        cbn [mbind list_bind]. by rewrite app_nil_r.
      * unfold last_module. rewrite (proj2 (Z.eqb_neq (i + 1) 0)) by lia. cbv zeta. fold ma.
        replace (i + 1 - 1) with i by lia. by rewrite E1, E2.
    + assert (i = n) as -> by lia. by exists s'.
  - split; [apply tells_refl, Hr|]. split; [lia|]. split; [lia|]. done.
  - lia.
  - rewrite bind_some. by exists s'.
Qed.

(** The memory map from the entry at [a] up to [e]. *)
Inductive mmap_chain s (e : Z) : Z → Prop :=
| mmap_end a : e ≤ a → mmap_chain s e a
| mmap_entry a :
    a < e → (∀ b, region a 24 b → Apart s b) →
    a + mmap_size (vmem s) a + 4 < 4294967296 → mmap_chain s e (a + mmap_size (vmem s) a + 4) →
    mmap_chain s e a.

Lemma mmap_chain_inv s e a :
  mmap_chain s e a → a < e →
  (∀ b, region a 24 b → Apart s b) ∧ a + mmap_size (vmem s) a + 4 < 4294967296 ∧
  mmap_chain s e (a + mmap_size (vmem s) a + 4).
Proof. intros [a' Ha|a' Ha H1 H2 H3] Hlt; [lia|done]. Qed.

Record mmap_ok s (mbi : Z) : Prop := {
  mm_fields : ∀ b, region (mbi + 44) 8 b → Apart s b;
  mm_chain : mmap_chain s (mmap_limit (vmem s) mbi) (mbi_mmap_addr (vmem s) mbi)
}.

Lemma mmap_limit_told s s' mbi :
  Told s s' → (∀ b, region (mbi + 44) 8 b → Apart s b) →
  mmap_limit (vmem s') mbi = mmap_limit (vmem s) mbi ∧
  mbi_mmap_addr (vmem s') mbi = mbi_mmap_addr (vmem s) mbi.
Proof.
  intros T Ha. unfold mmap_limit, mbi_mmap_addr, mbi_mmap_length.
  assert (∀ j, 44 ≤ j ≤ 48 → load32 (vmem s') (mbi + j) = load32 (vmem s) (mbi + j)) as Hl.
  { intros j Hj. apply (told_load32 E t P); [done|]. intros b Hb. apply Ha. unfold region in *. lia. }
  by rewrite !Hl by lia.
Qed.

Lemma entry_text_told s s' a :
  Told s s' → (∀ b, region a 24 b → Apart s b) →
  entry_text (vmem s') a = entry_text (vmem s) a ∧ mmap_size (vmem s') a = mmap_size (vmem s) a.
Proof.
  intros T Ha. unfold entry_text, mmap_size, mmap_base_high, mmap_base_low, mmap_type, mmap_length_high, mmap_length_low.
  assert (∀ j, 0 ≤ j ≤ 20 → load32 (vmem s') (a + j) = load32 (vmem s) (a + j)) as Hl.
  { intros j Hj. apply (told_load32 E t P); [done|]. intros b Hb. apply Ha. unfold region in *. lia. }
  pose proof (Hl 0 ltac:(lia)) as H0. rewrite Z.add_0_r in H0. by rewrite H0, !Hl by lia.
Qed.

Lemma show_mmap_tells s mbi :
  Ready s → mmap_ok s mbi → ∃ s', show_mmap E t s mbi = Some s' ∧ Tells s s' (mmap_text (vmem s) mbi).
Proof.
  intros Hr [Hf Hch]. unfold show_mmap. cbv zeta.
  apply say_then; [message..|]. intros s1 T1 R1.
  destruct (mmap_limit_told s s1 mbi (proj1 T1) Hf) as [_ ->].
  unfold mmap_text.
  set (e := mmap_limit (vmem s) mbi) in *. set (a0 := mbi_mmap_addr (vmem s) mbi) in *.
  set (len := mbi_mmap_length (vmem s) mbi) in *.
  change (said (line "mmap_addr = 0x%#x, mmap_length = 0x%x") [a0; len])
    with (text "mmap_addr = 0x" ++ hex8 a0 ++ text ", mmap_length = 0x" ++ hex_text len ++ [10]) in T1.
  set (head := text "mmap_addr = 0x" ++ hex8 a0 ++ text ", mmap_length = 0x" ++ hex_text len ++ [10]) in *.
  replace (text "mmap_addr = 0x" ++ hex8 a0 ++ text ", mmap_length = 0x" ++ hex_text len ++ [10] ++ mmap_entries (vmem s) e a0)
    with (head ++ mmap_entries (vmem s) e a0) by (unfold head; by rewrite <- !app_assoc).
  assert (0 ≤ a0 < 4294967296) as Ha0 by apply load32_range.
  destruct (while_total (mmap_step E t mbi)
    (λ '(s', a), (∃ out, Tells s s' out ∧ out ++ mmap_entries (vmem s) e a = head ++ mmap_entries (vmem s) e a0) ∧
       0 ≤ a < 4294967296 ∧ mmap_chain s e a)
    (λ '(_, a), 4294967295 - a)
    (λ r, ∃ s', r = Some s' ∧ Tells s s' (head ++ mmap_entries (vmem s) e a0)) (s1, a0)) as (r & -> & s' & -> & T).
  - intros [s' a] (_ & Ha & _). lia.
  - intros [s' a] ((out & T & Eo) & Ha & Hc). unfold mmap_step. cbv zeta.
    fold (mmap_limit (vmem s') mbi). destruct (mmap_limit_told s s' mbi (proj1 T) Hf) as [-> _]. fold e.
    destruct (Z.ltb_spec a e) as [Hlt|Hge].
    2: { exists s'. split; [done|]. apply (tells_eq _ _ _ _ T). rewrite <- Eo, mmap_entries_past by done. by rewrite app_nil_r. }
    destruct (mmap_chain_inv s e a Hc Hlt) as (Hap & Hend & Hc').
    pose proof (tells_ready _ _ _ Hr T) as R. destruct (entry_text_told s s' a (proj1 T) Hap) as [Et Es].
    destruct (say_tells E t P s' (line " size = 0x%x,     base_addr = 0x%#x%#x" ++
                 line "     type = 0x%x,  length    = 0x%#x%#x")
      [mmap_size (vmem s') a; mmap_base_high (vmem s') a; mmap_base_low (vmem s') a;
       mmap_type (vmem s') a; mmap_length_high (vmem s') a; mmap_length_low (vmem s') a])
      as (s2 & -> & T2); [message..|].
    match type of T2 with Tells _ _ ?o => change o with (entry_text (vmem s') a) in T2 end. rewrite Et in T2.
    pose proof (tells_trans _ _ _ _ _ _ _ _ T T2) as T3.
    destruct (entry_text_told s s2 a (proj1 T3) Hap) as [_ ->].
    assert (0 ≤ mmap_size (vmem s) a) by apply load32_range.
    rewrite u32_small by lia. split; [|lia]. split; [|split; [lia|done]].
    eexists. split; [exact T3|]. rewrite <- app_assoc, <- mmap_entries_step by done. exact Eo.
  - split; [|split; [lia|exact Hch]]. exists head. split; [exact T1|done].
  - lia.
  - rewrite bind_some. by exists s'.
Qed.

(** ** All of the boot information *)

Record info_ok s (mbi : Z) (cmd : list Z) : Prop := {
  io_fields : ∀ b, region mbi 52 b → Apart s b;
  io_cmdline : CHECK_FLAG (mbi_flags (vmem s) mbi) 2 = true →
    string_arg P (scratch E) s t (λ _, cmd) (mbi_cmdline (vmem s) mbi);
  io_modules : CHECK_FLAG (mbi_flags (vmem s) mbi) 3 = true → modules_ok s mbi;
  io_mmap : CHECK_FLAG (mbi_flags (vmem s) mbi) 6 = true → mmap_ok s mbi
}.

Lemma told_field s s' mbi j :
  Told s s' → (∀ b, region mbi 52 b → Apart s b) → 0 ≤ j ≤ 48 →
  load32 (vmem s') (mbi + j) = load32 (vmem s) (mbi + j).
Proof.
  intros T Ha Hj. apply (told_load32 E t P); [done|]. intros b Hb. apply Ha. unfold region in *. lia.
Qed.

Lemma told_flags s s' mbi :
  Told s s' → (∀ b, region mbi 52 b → Apart s b) → mbi_flags (vmem s') mbi = mbi_flags (vmem s) mbi.
Proof.
  intros T Ha. unfold mbi_flags. rewrite <- (Z.add_0_r mbi). by apply told_field; [..|lia].
Qed.

Lemma last_module_told s s' mbi g :
  Told s s' → modules_ok s mbi →
  modules_ok s' mbi ∧
  last_module (vmem s') mbi g (mbi_mods_count (vmem s') mbi)
  = last_module (vmem s) mbi g (mbi_mods_count (vmem s) mbi).
Proof.
  intros T [Hc Ht He Hby].
  assert (mbi_mods_count (vmem s') mbi = mbi_mods_count (vmem s) mbi) as Ec.
  { apply (told_load32 E t P); [done|]. intros b Hb. apply Hc. unfold region in *. lia. }
  assert (mbi_mods_addr (vmem s') mbi = mbi_mods_addr (vmem s) mbi) as Ea.
  { apply (told_load32 E t P); [done|]. intros b Hb. apply Hc. unfold region in *. lia. }
  split.
  - split; rewrite ?Ec, ?Ea; [| |done|].
    + intros b Hb; apply (told_apart E t P s); auto.
    + intros b Hb; apply (told_apart E t P s); auto.
    + intros i j Hi Hj. destruct (module_text_told s s' i (mbi_mods_addr (vmem s) mbi + 16 * i) T) as (_ & -> & _);
        [intros b Hb; apply Ht; unfold region in *; lia|intros l Hl; apply Hby; lia|].
      apply (told_apart E t P s); auto.
  - rewrite Ec. unfold last_module. destruct (Z.eqb_spec (mbi_mods_count (vmem s) mbi) 0); [done|].
    cbv zeta. rewrite Ea. set (md := mbi_mods_addr (vmem s) mbi + _).
    assert (0 ≤ mbi_mods_count (vmem s) mbi) by apply load32_range.
    unfold mod_start, mod_end. f_equal;
      (apply (told_load32 E t P); [done|]; intros b Hb; apply Ht; unfold md, region in *; lia).
Qed.

Lemma mmap_chain_told s s' e a : Told s s' → mmap_chain s e a → mmap_chain s' e a.
Proof.
  intros T. induction 1 as [a Ha|a Ha Hap Hend _ IH]; [by apply mmap_end|].
  assert (mmap_size (vmem s') a = mmap_size (vmem s) a) as Es.
  { apply (told_load32 E t P); [done|]. intros b Hb. apply Hap. unfold region in *. lia. }
  apply mmap_entry; rewrite ?Es; try done. intros b Hb. apply (told_apart E t P s); auto.
Qed.

Lemma mmap_ok_told s s' mbi : Told s s' → mmap_ok s mbi → mmap_ok s' mbi.
Proof.
  intros T [Hf Hc]. destruct (mmap_limit_told s s' mbi T Hf) as [E1 E2]. split.
  - intros b Hb. apply (told_apart E t P s); auto.
  - rewrite E1, E2. by apply (mmap_chain_told s).
Qed.

(** Whether [entry] goes on after the messages, and its file system. *)
Definition boot_goes_on m (mbi : Z) : bool :=
  negb (CHECK_FLAG (mbi_flags m mbi) 4 && CHECK_FLAG (mbi_flags m mbi) 5).
Definition boot_fs m (mbi : Z) (g : fs_globals) : fs_globals :=
  if CHECK_FLAG (mbi_flags m mbi) 3 then last_module m mbi g (mbi_mods_count m mbi) else g.

Lemma say_if_then {A} (b : bool) s f args (K : console M D → option A) (Q : A → Prop) :
  Ready s → f ∈ boot_formats → numeric f false (length args) = true →
  Forall (λ w, 0 ≤ w < 4294967296) args → (length args <= 6)%nat →
  (∀ s', Tells s s' (if b then said f args else []) → Ready s' → ∃ r, K s' = Some r ∧ Q r) →
  ∃ r, (s ← say_if E t b s f args; K s) = Some r ∧ Q r.
Proof.
  intros Hr Hf Hn Hw Hl HK. destruct (say_if_tells E t P b s f args) as (s' & Es & Ht); try done.
  rewrite Es, bind_some. apply HK; [done|]. by apply (ready_told E t P s), Ht.
Qed.

Lemma string_arg_told s s' strs a :
  Told s s' → string_arg P (scratch E) s t strs a → string_arg P (scratch E) s' t strs a.
Proof.
  intros T (H1 & H2 & H3 & H4). split; [|split; [done|split; [done|]]].
  - revert H1. apply text_at_ext. intros i Hi. apply (told_rd E t P); [done|]. apply H4. unfold region. lia.
  - intros b Hb. apply (told_apart E t P s); auto.
Qed.

Lemma info_ok_told s s' mbi cmd : Told s s' → info_ok s mbi cmd → info_ok s' mbi cmd.
Proof.
  intros T [Ha Hc Hm Hmm]. split; rewrite ?(told_flags s s') by done.
  - intros b Hb. apply (told_apart E t P s); auto.
  - intros Hf. pose proof (Hc Hf) as Hs.
    assert (mbi_cmdline (vmem s') mbi = mbi_cmdline (vmem s) mbi) as -> by (apply told_field; [done..|lia]).
    by apply (string_arg_told s).
  - intros Hf. apply (last_module_told s s' mbi (mk_fs 0 0)); auto.
  - intros Hf. apply (mmap_ok_told s); auto.
Qed.

Lemma boot_fs_told s s' mbi cmd g :
  Told s s' → info_ok s mbi cmd →
  boot_fs (vmem s') mbi g = boot_fs (vmem s) mbi g ∧
  boot_goes_on (vmem s') mbi = boot_goes_on (vmem s) mbi.
Proof.
  intros T [Ha Hc Hm Hmm]. unfold boot_fs, boot_goes_on. rewrite (told_flags s s') by done.
  split; [|done]. destruct (CHECK_FLAG (mbi_flags (vmem s) mbi) 3); [|done].
  by apply last_module_told; [|apply Hm].
Qed.

(** Clearing the page first changes nothing of this. *)
Lemma clear_told s : can_say E t P s → Told s (clear s t).
Proof.
  intros [H1 H2 H3 H4]. unfold clear. rewrite <- H2.
  destruct (term_clear_spec P s) as (Hd & _ & _); [by rewrite H2|]. rewrite H2 in *.
  assert (con_ok P (term_clear s t) t) as Hok by (apply (drawn_ok P s _ t 0 0); done || lia).
  split; [done|apply Hd|by rewrite (dr_terms _ _ _ _ _ _ Hd), length_aset| |apply Hd|].
  - intros u. destruct (decide (u = t)) as [->|Hne].
    + exists 0, 0. by apply (drawn_get P).
    + rewrite (drawn_other P s _ t 0 0) by done. eexists _, _. symmetry. apply set_cursor_same.
  - intros a (A & B & _). by apply Hd.
Qed.

Lemma say_cmdline_tells s a c :
  Ready s → string_arg P (scratch E) s t (λ _, c) a →
  ∃ s', say E t s (line "cmdline = %s") [a] = Some s' ∧ Tells s s' (text "cmdline = " ++ c ++ [10]).
Proof.
  intros [H1 H2] Hs.
  destruct (say_printed E t P s (line "cmdline = %s") [a] (λ _, c)) as (s' & Es & Hp).
  - done.
  - apply H2. message.
  - destruct Hs as (_ & H3 & H4 & _). repeat constructor; lia.
  - simpl. lia.
  - cbv -[string_arg Z.le Z.lt]. split; [intros _ X; discriminate X|]. split; [intros _; exact Hs|reflexivity].
  - exists s'. split; [done|]. exact (printed_tells _ _ _ _ _ _ Hp).
Qed.

(** The fields of the information are read unchanged after every message. *)
Lemma told_info s s' mbi :
  Told s s' → (∀ b, region mbi 52 b → Apart s b) →
  mbi_flags (vmem s') mbi = mbi_flags (vmem s) mbi ∧ mbi_mem_lower (vmem s') mbi = mbi_mem_lower (vmem s) mbi ∧
  mbi_mem_upper (vmem s') mbi = mbi_mem_upper (vmem s) mbi ∧
  mbi_boot_device (vmem s') mbi = mbi_boot_device (vmem s) mbi ∧
  mbi_cmdline (vmem s') mbi = mbi_cmdline (vmem s) mbi ∧ elf_text (vmem s') mbi = elf_text (vmem s) mbi.
Proof.
  intros T Ha. pose proof (λ j, told_field s s' mbi j T Ha) as Hj.
  split; [by apply told_flags|].
  split; [exact (Hj 4 ltac:(lia))|]. split; [exact (Hj 8 ltac:(lia))|]. split; [exact (Hj 12 ltac:(lia))|].
  split; [exact (Hj 16 ltac:(lia))|].
  assert (∀ j, 0 ≤ j ≤ 20 → load32 (vmem s') (mbi + 28 + j) = load32 (vmem s) (mbi + 28 + j)) as Hk.
  { intros j Hj'. rewrite <- Z.add_assoc. apply Hj. lia. }
  pose proof (Hk 0 ltac:(lia)) as H0. rewrite Z.add_0_r in H0.
  unfold elf_text, elf_num, elf_size, elf_addr, elf_shndx, mbi_elf_sec. cbv zeta.
  by rewrite H0, (Hk 4), (Hk 8), (Hk 12) by lia.
Qed.

Lemma mmap_text_told s s' mbi :
  Told s s' → mmap_ok s mbi → mmap_text (vmem s') mbi = mmap_text (vmem s) mbi.
Proof.
  intros T [Hf Hc]. destruct (mmap_limit_told s s' mbi T Hf) as [El Ea]. unfold mmap_text. rewrite El, Ea.
  assert (mbi_mmap_length (vmem s') mbi = mbi_mmap_length (vmem s) mbi) as ->.
  { apply (told_load32 E t P); [done|]. intros b Hb. apply Hf. unfold region in *. lia. }
  do 5 f_equal. clear El Ea. induction Hc as [a Ha|a Ha Hap Hend _ IH]; [by rewrite !mmap_entries_past|].
  destruct (entry_text_told s s' a T Hap) as [Et Es]. rewrite (mmap_entries_step (vmem s') _ a), (mmap_entries_step (vmem s) _ a) by done. by rewrite Et, Es, IH.
Qed.

Lemma modules_text_told s s' mbi :
  Told s s' → modules_ok s mbi →
  modules_text (vmem s') mbi (mbi_mods_count (vmem s') mbi) = modules_text (vmem s) mbi (mbi_mods_count (vmem s) mbi).
Proof.
  intros T [Hc Ht He Hby].
  assert (mbi_mods_count (vmem s') mbi = mbi_mods_count (vmem s) mbi) as ->.
  { apply (told_load32 E t P); [done|]. intros b Hb. apply Hc. unfold region in *. lia. }
  assert (mbi_mods_addr (vmem s') mbi = mbi_mods_addr (vmem s) mbi) as Ea.
  { apply (told_load32 E t P); [done|]. intros b Hb. apply Hc. unfold region in *. lia. }
  unfold modules_text. rewrite Ea. set (n := mbi_mods_count (vmem s) mbi) in *.
  assert (Forall (λ i, 0 ≤ i < n) (seqZ 0 n)) as Hall.
  { apply Forall_lookup. intros i x Hx. apply lookup_seqZ in Hx. lia. }
  induction Hall as [|i l Hi _ IH]; [done|]. cbn [mbind list_bind]. fold (mbind (M := list) (A := Z) (B := Z)).
  rewrite IH. f_equal. apply (module_text_told s s'); [done| |intros j Hj; by apply Hby].
  intros b Hb. apply Ht. unfold region in *. lia.
Qed.

Lemma said_flags w : said (line "flags = 0x%#x") [w] = text "flags = 0x" ++ hex8 w ++ [10].
Proof. reflexivity. Qed.
Lemma said_mem v w :
  said (line "mem_lower = %uKB, mem_upper = %uKB") [v; w] =
  text "mem_lower = " ++ dec_text v ++ text "KB, mem_upper = " ++ dec_text w ++ text "KB" ++ [10].
Proof. reflexivity. Qed.
Lemma said_device w : said (line "boot_device = 0x%#x") [w] = text "boot_device = 0x" ++ hex8 w ++ [10].
Proof. reflexivity. Qed.

Lemma show_info_tells s g mbi cmd :
  Ready s → info_ok s mbi cmd →
  ∃ r, show_info E t s g mbi = Some r ∧
    ∃ s', r = (s', boot_fs (vmem s) mbi g, boot_goes_on (vmem s) mbi) ∧ Tells s s' (boot_text (vmem s) mbi cmd).
Proof.
  intros Hr [Ha Hc Hm Hmm]. unfold show_info, boot_text. cbv zeta. set (fl := mbi_flags (vmem s) mbi) in *.
  apply say_then; [message..|]. intros s1 T1 R1.
  destruct (told_info s s1 mbi (proj1 T1) Ha) as (-> & -> & -> & _). fold fl.
  apply say_if_then; [message..|]. intros s2 T2' R2.
  pose proof (tells_trans _ _ _ _ _ _ _ _ T1 T2') as T2. clear T2'.
  destruct (told_info s s2 mbi (proj1 T2) Ha) as (-> & _ & _ & -> & _). fold fl.
  apply say_if_then; [message..|]. intros s3 T3' R3.
  pose proof (tells_trans _ _ _ _ _ _ _ _ T2 T3') as T3. clear T1 T2 R1 R2 T3'.
  destruct (told_info s s3 mbi (proj1 T3) Ha) as (-> & _ & _ & _ & -> & _). fold fl.
  match type of T3 with Tells _ _ ?o => set (o3 := o) in * end.
  assert (∃ s4, say_if E t (CHECK_FLAG fl 2) s3 (line "cmdline = %s") [mbi_cmdline (vmem s) mbi] = Some s4 ∧
    Tells s s4 (o3 ++ if CHECK_FLAG fl 2 then text "cmdline = " ++ cmd ++ [10] else [])) as (s4 & -> & T4).
  { unfold say_if. destruct (CHECK_FLAG fl 2).
    - destruct (say_cmdline_tells s3 (mbi_cmdline (vmem s) mbi) cmd R3) as (s4 & Es & T4);
        [by apply (string_arg_told s); [apply T3|apply Hc]|].
      exists s4. split; [done|]. by apply (tells_trans _ _ _ _ s3).
    - exists s3. split; [done|]. by rewrite app_nil_r. }
  rewrite bind_some. clear T3 R3. rewrite (told_flags s s4) by (apply T4 || done). fold fl.
  match type of T4 with Tells _ _ ?o => set (o4 := o) in * end.
  assert (∃ s5, (if CHECK_FLAG fl 3 then show_modules E t s4 g mbi else Some (s4, g))
                = Some (s5, boot_fs (vmem s) mbi g) ∧
    Tells s s5 (o4 ++ if CHECK_FLAG fl 3 then modules_text (vmem s) mbi (mbi_mods_count (vmem s) mbi) else []))
    as (s5 & -> & T5).
  { unfold boot_fs. fold fl. destruct (CHECK_FLAG fl 3).
    - destruct (last_module_told s s4 mbi g (proj1 T4) (Hm eq_refl)) as [Hm4 E4].
      destruct (show_modules_tells s4 g mbi) as (s5 & Es & T5); [by apply (tells_ready s _ _ Hr T4)|done|].
      exists s5. rewrite Es, E4. split; [done|]. apply (tells_eq _ _ _ _ (tells_trans _ _ _ _ _ _ _ _ T4 T5)).
      f_equal. apply modules_text_told; [apply T4|by apply Hm].
    - exists s4. split; [done|]. by rewrite app_nil_r. }
  rewrite bind_some. clear T4. rewrite (told_flags s s5) by (apply T5 || done). fold fl.
  pose proof (tells_ready _ _ _ Hr T5) as R5. unfold boot_goes_on. fold fl.
  match type of T5 with Tells _ _ ?o => set (o5 := o) in * end.
  match goal with |- ∃ r, _ ∧ ∃ s', _ ∧ Tells s s' (_ ++ _ ++ _ ++ _ ++ _ ++ _ ++ _ ++ ?rest) => set (last := rest) end.
  match goal with |- ∃ r, _ ∧ ∃ s', _ ∧ Tells s s' ?o =>
    assert (o = o5 ++ last) as -> by (unfold o5, o4, o3; rewrite said_flags, said_mem, said_device;
      destruct (CHECK_FLAG fl 0), (CHECK_FLAG fl 1); rewrite <- ?app_assoc; reflexivity) end.
  unfold last. clear last. destruct (CHECK_FLAG fl 4 && CHECK_FLAG fl 5).
  { apply say_then; [message..|]. intros s6 T6 R6. eexists. split; [done|].
    exists s6. split; [done|]. by apply (tells_trans _ _ _ _ s5). }
  apply say_if_then; [message..|]. intros s6 T6' R6.
  assert (Tells s s6 (o5 ++ if CHECK_FLAG fl 5 then elf_text (vmem s) mbi else [])) as T6.
  { apply (tells_eq _ _ _ _ (tells_trans _ _ _ _ _ _ _ _ T5 T6')). f_equal.
    destruct (CHECK_FLAG fl 5); [|done].
    destruct (told_info s s5 mbi (proj1 T5) Ha) as (_ & _ & _ & _ & _ & <-). reflexivity. }
  clear T6'. rewrite (told_flags s s6) by (apply T6 || done). fold fl. destruct (CHECK_FLAG fl 6).
  - destruct (show_mmap_tells s6 mbi R6) as (s7 & -> & T7); [by apply (mmap_ok_told s); [apply T6|apply Hmm]|].
    rewrite bind_some. eexists. split; [done|]. exists s7. split; [done|]. rewrite app_assoc.
    apply (tells_eq _ _ _ _ (tells_trans _ _ _ _ _ _ _ _ T6 T7)). f_equal.
    apply mmap_text_told; [apply T6|by apply Hmm].
  - rewrite bind_some. eexists. split; [done|]. exists s6. split; [done|]. by rewrite app_nil_r.
Qed.

(** Output leaves the text to come as it is. *)
Lemma boot_text_kept s s' mbi cmd :
  Told s s' → info_ok s mbi cmd → boot_text (vmem s') mbi cmd = boot_text (vmem s) mbi cmd.
Proof.
  intros T [Ha Hc Hm Hmm]. unfold boot_text. cbv zeta.
  destruct (told_info s s' mbi T Ha) as (-> & -> & -> & -> & _ & ->). set (fl := mbi_flags (vmem s) mbi) in *.
  assert ((if CHECK_FLAG fl 3 then modules_text (vmem s') mbi (mbi_mods_count (vmem s') mbi) else []) =
    (if CHECK_FLAG fl 3 then modules_text (vmem s) mbi (mbi_mods_count (vmem s) mbi) else [])) as ->.
  { destruct (CHECK_FLAG fl 3); [|done]. by apply modules_text_told; [|apply Hm]. }
  assert ((if CHECK_FLAG fl 6 then mmap_text (vmem s') mbi else []) =
    (if CHECK_FLAG fl 6 then mmap_text (vmem s) mbi else [])) as ->; [|done].
  destruct (CHECK_FLAG fl 6); [|done]. by apply mmap_text_told; [|apply Hmm].
Qed.
End Info.
