(* ===== verification/FsDebug.v ===== *)
(** * The file system's debugging printers (student-distrib/filesystem.c)

    [show_fs_info] prints the counters of the boot block and one line for
    every directory entry; [test_read] looks a file up, prints what it found
    and reads from it.  Both print with [printf], as the messages of the boot
    sequence do ([Boot.say]); the arrays and structures they keep on the stack
    are at addresses the compiler chooses ([name], [dp]). *)

From S2P Require Import Prelude Memory Lib Ports Types Filesystem FsProofs FsProps.
From S2P Require Import Console ConsoleProofs ConsoleProps Printf Boot BootProofs.
Import (notations) Stdlib.Strings.String.
#[local] Open Scope Z_scope.

Definition FILE_RTC_TYPE : Z := 0.
Definition FILE_DIR_TYPE : Z := 1.
Definition FILE_DAT_TYPE : Z := 2.

Section Printers.
Context {M : Type} `{!ByteMem M} {D : Type} `{!PortIO D}.
Context (E : boot_env) (t : Z).
Implicit Types (s : console M D) (m : M) (fs : fs_globals).

(** [char name[33] = {0}] *)
Definition zero_name m (name : Z) : M := for_loop 33 0 (λ i m, wr m (name + i) 0) m.

(** The loop that replaces the NULs of the name by spaces. *)
Definition blank_name m (name : Z) : M :=
  for_loop 32 0 (λ i2 m, if rd m (name + i2) =? 0 then wr m (name + i2) 32 else m) m.

(** The line of entry [i]. *)
Definition show_entry s fs (name i : Z) : option (console M D) :=
  let d := dentry_int_addr fs i in
  m ← strncpy (zero_name (vmem s) name) name d 32;
  let m := blank_name m name in
  let type := load32 m (d + 32) in
  let inode := load32 m (d + 36) in
  say E t (s <| vmem := m |>) (line "%s type: #%u inode: #%u") [name; type; inode].

Definition show_entries_step fs (name : Z) (st : console M D * Z)
    : (console M D * Z) + option (console M D) :=
  let '(s, i) := st in
  if u32 i <? bb_num_entries (vmem s) fs then
    match show_entry s fs name i with
    | None => inr None
    | Some s => inl (s, s32 (i + 1))
    end
  else inr (Some s).

(** The difference of two [boot_block_t] pointers counts blocks. *)
Definition show_fs_info s fs (name : Z) : option (console M D) :=
  s ← say E t s (line "%d File Entries") [bb_num_entries (vmem s) fs];
  s ← say E t s (line "%d inodes") [bb_num_inodes (vmem s) fs];
  s ← say E t s (line "%d data blocks")
        [u32 (Z.shiftr (s32 (fs_end fs - fs_base fs)) 12 - bb_num_inodes (vmem s) fs - 1)];
  r ← while (show_entries_step fs name) (s, 0);
  r.

(** The tail of [test_read]: [f.f_op->open(&f)], then [f.f_op->read]. *)
Definition test_open_read s fs (f : file) (buf nbytes : Z)
    (open : file → file * Z) (read : M → fs_globals → file → Z → Z → option (M * file * Z))
    : option (console M D * Z) :=
  let (f, ret) := open f in
  if negb (ret =? 0) then Some (s, ret)
  else
    '(m, _, ret) ← read (vmem s) fs f buf (u32 nbytes);
    Some (s <| vmem := m |>, ret).

(** [test_read] once the entry is found.  A type other than the three leaves
    [f.f_op] null: the call through it has no meaning. *)
Definition test_found s fs (f : file) (filename buf nbytes dp : Z) : option (console M D * Z) :=
  s ← say E t s (line "File type: %d") [dentry_type (vmem s) dp];
  let type := dentry_type (vmem s) dp in
  if type =? FILE_RTC_TYPE then Some (s, -1)
  else
    let f := if type =? FILE_DIR_TYPE then f <| f_op := dir_ops |>
             else if type =? FILE_DAT_TYPE then f <| f_op := file_ops |> else f in
    s ← say E t s (line "File name: %s ") [filename];
    match f_op f with
    | dir_ops => test_open_read s fs f buf nbytes dir_open dir_read
    | file_ops => test_open_read s fs f buf nbytes file_open file_read
    | _ => None
    end.

Definition test_read s fs (filename buf nbytes dp : Z) : option (console M D * Z) :=
  '(m, ret) ← read_dentry_by_name (vmem s) fs filename dp;
  let s := s <| vmem := m |> in
  let f := mk_file FOPS_NULL (dentry_inode m dp) 0 0 0 in
  if negb (ret =? 0) then Some (s, ret)
  else test_found s fs f filename buf nbytes dp.
End Printers.

(** ** What is printed *)

(** A name in a field of 32 characters. *)
Definition pad32 (l : list Z) : list Z := l ++ replicate (32 - length l) 32.

Definition entry_text (e : dent) : list Z :=
  pad32 (d_name e) ++ text " type: #" ++ dec_text (d_type e) ++ text " inode: #" ++
  dec_text (d_inode e) ++ [10].

(** The blocks behind the boot block and the inodes. *)
Definition data_blocks fs im : Z := (fs_end fs - fs_base fs) / 4096 - 1 - num_inodes im.

Definition fs_listing fs im : list Z :=
  dec_text (num_entries im) ++ line " File Entries" ++
  dec_text (num_inodes im) ++ line " inodes" ++
  dec_text (data_blocks fs im) ++ line " data blocks" ++
  concat (entry_text <$> im_dents im).

(** ** The name buffer *)

Section Name.
Context {M : Type} `{!ByteMem M}.
Context (P : Z → Prop).
Implicit Types (m : M).

Lemma written_keep m m' d n f :
  written P m m' d n f → (P (d + n) → rd m (d + n) = f n) → written P m m' d (n + 1) f.
Proof.
  intros [C H] Hn. split; [done|]. intros b Hb. rewrite H by done.
  destruct (decide (b = d + n)) as [->|Hne]; [|by repeat case_decide; try lia].
  rewrite decide_False by lia. destruct (decide (d ≤ d + n < d + (n + 1))); [|done].
  rewrite Hn by done. f_equal. lia.
Qed.

Lemma zero_name_written m name :
  safe m P → (∀ a, region name 33 a → P a) → written P m (zero_name m name) name 33 (λ _, 0).
Proof.
  intros Hs HP. unfold zero_name.
  apply (for_loop_inv (λ j m', 0 ≤ j ≤ 33 ∧ written P m m' name j (λ _, 0)) 33 0).
  - split; [lia|]. by apply written_0.
  - intros j m' Hj [_ Hw]. split; [lia|]. apply written_snoc; try done; [|lia].
    intros a Ha. apply HP. unfold region in *. lia.
Qed.

Lemma blank_name_written m name :
  safe m P → (∀ a, region name 32 a → P a) →
  written P m (blank_name m name) name 32
    (λ i, if rd m (name + i) =? 0 then 32 else rd m (name + i)).
Proof.
  intros Hs HP. set (f := λ i : Z, _). unfold blank_name.
  apply (for_loop_inv (λ j m', 0 ≤ j ≤ 32 ∧ written P m m' name j f) 32 0).
  - split; [lia|]. by apply written_0.
  - intros j m' Hj [_ Hw]. split; [lia|].
    assert (rd m' (name + j) = rd m (name + j)) as ->.
    { apply (written_out _ _ _ _ _ _ _ Hw); [apply HP; unfold region; lia|lia]. }
    destruct (Z.eqb_spec (rd m (name + j)) 0) as [E|E].
    + apply written_snoc; try done; [|lia|].
      * intros a Ha. apply HP. unfold region in *. lia.
      * unfold f. by rewrite E.
    + apply written_keep; [done|]. intros _. unfold f. by rewrite (proj2 (Z.eqb_neq _ 0) E).
Qed.

Lemma pad32_length l : (length l <= 32)%nat → length (pad32 l) = 32%nat.
Proof. intros. unfold pad32. rewrite length_app, length_replicate. lia. Qed.

Lemma pad32_get (l : list Z) i :
  0 ≤ i < 32 → (pad32 l).[i] = if decide (i < Z.of_nat (length l)) then l.[i] else 32.
Proof.
  intros Hi. unfold pad32. case_decide.
  - by rewrite aget_app_l by lia.
  - rewrite aget_app_r by lia. apply aget_lookup; [lia|]. apply lookup_replicate. split; [done|lia].
Qed.

(** The buffer holds the padded name of the entry. *)
Lemma name_field m name d e :
  safe m P → (∀ a, region name 33 a → P a) → (∀ a, region d 33 a → P a) →
  (name + 33 ≤ d ∨ d + 33 ≤ name) → dent_rep m d e →
  ∃ m1, strncpy (zero_name m name) name d 32 = Some m1 ∧
    text_at (blank_name m1 name) name (pad32 (d_name e)) ∧
    ctl (blank_name m1 name) = ctl m ∧
    ∀ b, P b → ¬ region name 33 b → rd (blank_name m1 name) b = rd m b.
Proof.
  intros Hs HPn HPd Hdis [[Hlen Hnz] Hnm _ _].
  pose proof (zero_name_written m name Hs HPn) as W0. set (m0 := zero_name m name) in *.
  assert (safe m0 P) as Hs0 by by apply (written_safe P m _ _ _ _ Hs W0).
  assert (∀ a, region name 32 a → P a) as HP32 by (intros a Ha; apply HPn; unfold region in *; lia).
  destruct (strncpy_correct P m0 name d 32) as (m1 & k & Ec & Hk & Hk1 & Hk2 & W1);
    [lia|done|done|intros a Ha; apply HPd; unfold region in *; lia|lia|].
  exists m1. split; [done|].
  pose proof (blank_name_written m1 name (written_safe P m0 _ _ _ _ Hs0 W1) HP32) as W2.
  assert (∀ j, 0 ≤ j < 33 → rd m0 (d + j) = rd m (d + j)) as Hd.
  { intros j Hj. apply (written_out _ _ _ _ _ _ _ W0); [apply HPd; unfold region; lia|lia]. }
  assert (∀ i, 0 ≤ i < 32 → rd m1 (name + i) = (d_name e).[i]) as H1.
  { intros i Hi. rewrite (written_in _ _ _ _ _ _ _ W1) by (lia || (apply HP32; unfold region; lia)).
    replace (name + i - name) with i by lia. destruct (Z.ltb_spec i k) as [Hik|Hik].
    - rewrite Hd, Hnm by lia. done.
    - symmetry. apply aget_past. destruct (decide (k < Z.of_nat (length (d_name e)))); [|lia].
      specialize (Hk2 ltac:(lia)). rewrite Hd, Hnm in Hk2 by lia. specialize (Hnz k). lia. }
  split; [|split].
  - apply text_at_intro; rewrite pad32_length by lia.
    + intros i Hi. rewrite (written_in _ _ _ _ _ _ _ W2) by (lia || (apply HP32; unfold region; lia)).
      replace (name + i - name) with i by lia. rewrite H1, pad32_get by lia. case_decide as Hl.
      * specialize (Hnz i). destruct (Z.eqb_spec (d_name e).[i] 0); lia.
      * by rewrite aget_past by lia.
    + assert (P (name + 32)) by (apply HPn; unfold region; lia).
      rewrite (written_out _ _ _ _ _ _ _ W2), (written_out _ _ _ _ _ _ _ W1) by (done || lia).
      rewrite (written_in _ _ _ _ _ _ _ W0) by (done || lia). done.
  - by rewrite (proj1 W2), (proj1 W1), (proj1 W0).
  - intros b Hb Hn. unfold region in Hn. rewrite (written_out _ _ _ _ _ _ _ W2) by (done || lia).
    rewrite (written_out _ _ _ _ _ _ _ W1), (written_out _ _ _ _ _ _ _ W0) by (done || lia). done.
Qed.
End Name.

(** ** Printing *)

Section Listing.
Context {M : Type} `{!ByteMem M} {D : Type} `{!PortIO D}.
Context (E : boot_env) (t : Z) (P W : Z → Prop).
Implicit Types (s : console M D) (m : M) (a : Z) (fs : fs_globals).

(** [W] is the memory of the locals: apart from the page and from what
    [printf] uses. *)
Definition work a : Prop := scratch E a ∨ W a.

(** What a printer needs of the state: messages can be printed, its formats
    and the image are out of the way of everything it writes. *)
Record can_list (formats : list (list Z)) s fs im : Prop := {
  cl_say : can_say E t P s;
  cl_work : ∀ a, W a → apart P (scratch E) s t a;
  cl_fmt : ∀ f, f ∈ formats → has_format E t P s f ∧
    ∀ a, region (be_fmt E f) (Z.of_nat (length f) + 1) a → ¬ W a;
  cl_rep : fs_rep (vmem s) fs im;
  cl_fs : ∀ a, fs_base fs ≤ a < fs_end fs → apart P work s t a
}.

Lemma printed_apart (B B' : Z → Prop) s s' out a :
  printed P B s s' t out → apart P B' s t a → apart P B' s' t a.
Proof. intros Hp. unfold apart. by rewrite (printed_page _ _ _ _ _ _ _ Hp). Qed.

Lemma printed_rd (B : Z → Prop) s s' out a :
  printed P B s s' t out → apart P B s t a → rd (vmem s') a = rd (vmem s) a.
Proof. intros Hp (A1 & A2 & A3). by apply (pr_mem _ _ _ _ _ _ Hp). Qed.

Lemma printed_work s s' out : printed P (scratch E) s s' t out → printed P work s s' t out.
Proof. apply printed_mono. intros a Ha. by left. Qed.

Lemma work_apart s a : apart P (scratch E) s t a → ¬ W a → apart P work s t a.
Proof. intros (A1 & A2 & A3) Hw. split; [done|]. split; [done|]. by intros [?|?]. Qed.

Lemma can_list_printed formats s s' fs im out :
  printed P work s s' t out → can_list formats s fs im → can_list formats s' fs im.
Proof.
  intros Hp [[S1 S2 S3 S4] H2 H3 H4 H5].
  assert (∀ a, W a → apart P (scratch E) s' t a) as H2' by (intros a Ha; by apply (printed_apart _ _ _ _ _ _ Hp), H2).
  split; [|done| | |].
  - split; [apply Hp|by rewrite (pr_cur _ _ _ _ _ _ Hp)| |done].
    intros a Ha. rewrite (printed_page _ _ _ _ _ _ _ Hp). by apply S3.
  - intros f Hf. destruct (H3 f Hf) as [(F1 & F2 & F3 & F4) F5]. split; [|done].
    split; [|split; [done|split; [done|]]].
    + revert F1. apply text_at_ext. intros i Hi. apply (printed_rd _ _ _ _ _ Hp).
      apply work_apart; [apply F4|apply F5]; unfold region; lia.
    + intros a Ha. by apply (printed_apart _ _ _ _ _ _ Hp), F4.
  - revert H4. apply fs_rep_ext. intros a Ha. by apply (printed_rd _ _ _ _ _ Hp), H5.
  - intros a Ha. by apply (printed_apart _ _ _ _ _ _ Hp), H5.
Qed.

(** One message, in a state whose locals have been set to [m]. *)
Lemma say_listed formats s fs im f args strs :
  can_list formats s fs im → f ∈ formats → Forall (λ w, 0 ≤ w < 4294967296) args →
  (length args <= 6)%nat → format_ok (string_arg P (scratch E) s t strs) f None args →
  ∃ s', say E t s f args = Some s' ∧ printed P work s s' t (format_text strs f None args) ∧
        can_list formats s' fs im ∧ ∀ a, W a → rd (vmem s') a = rd (vmem s) a.
Proof.
  intros Hl Hf Hw Hn Ho.
  destruct (say_printed E t P s f args strs) as (s' & Es & Hp); try done;
    [apply Hl|by apply (cl_fmt _ _ _ _ Hl)|].
  exists s'. split; [done|]. split; [by apply printed_work|]. split.
  - eapply can_list_printed; [by apply printed_work|done].
  - intros a Ha. by apply (printed_rd _ _ _ _ _ Hp), (cl_work _ _ _ _ Hl).
Qed.

(** New contents of the locals print nothing. *)
Lemma locals_printed formats s fs im m :
  can_list formats s fs im → ctl m = ctl (vmem s) →
  (∀ a, P a → ¬ W a → rd m a = rd (vmem s) a) → printed P work s (s <| vmem := m |>) t [].
Proof.
  intros Hl Hc Hm. destruct Hl as [[S1 S2 S3 S4] H2 _ _ _].
  apply scratch_printed; [done|by rewrite S2| |done|].
  - intros a [Ha|Ha]; [by apply S3|by apply H2].
  - intros a HP Ha. apply Hm; [done|]. intros Hw. apply Ha. by right.
Qed.
End Listing.

(** ** The listing *)

Section Info.
Context {M : Type} `{!ByteMem M} {D : Type} `{!PortIO D}.
Context (E : boot_env) (t : Z) (P : Z → Prop) (name : Z).
Implicit Types (s : console M D) (m : M) (a : Z) (fs : fs_globals).

Definition info_formats : list (list Z) :=
  [line "%d File Entries"; line "%d inodes"; line "%d data blocks"; line "%s type: #%u inode: #%u"].

#[local] Abbreviation Ready := (can_list E t P (region name 33) info_formats).
#[local] Abbreviation Printed := (printed P (work E (region name 33))).

Lemma small_number strs f n :
  0 ≤ n < 2147483648 →
  format_text strs (37 :: 100 :: f) None [n] = dec_text n ++ format_text strs f None [].
Proof.
  intros Hn. cbn -[dec_text s32 Z.ltb aget]. change ([n].[0]) with n.
  rewrite s32_small by lia. destruct (Z.ltb_spec n 0); [lia|done].
Qed.

(** A line that starts with a number. *)
Lemma say_count s fs im n f :
  Ready s fs im → 37 :: 100 :: f ∈ info_formats → 0 ≤ n < 2147483648 →
  numeric (37 :: 100 :: f) false 1 = true → format_text (λ _, []) f None [] = f →
  ∃ s', say E t s (37 :: 100 :: f) [n] = Some s' ∧ Printed s s' t (dec_text n ++ f) ∧ Ready s' fs im.
Proof.
  intros Hr Hf Hn Hk Ht.
  destruct (say_listed E t P _ _ s fs im _ [n] (λ _, []) Hr Hf) as (s' & Es & Hp & Hr' & _).
  - by repeat constructor; lia.
  - simpl. lia.
  - by apply (numeric_ok _ _ None).
  - exists s'. split; [done|]. split; [|done]. by rewrite small_number, Ht in Hp.
Qed.

Lemma dents_bounds s fs im i :
  fs_rep (vmem s) fs im → 0 ≤ i < num_entries im →
  fs_base fs ≤ dentry_int_addr fs i ∧ dentry_int_addr fs i + 64 ≤ fs_end fs.
Proof.
  intros [R1 R2 R3 R4 _ _ _ _ _] Hi. unfold dentry_int_addr, num_inodes in *. lia.
Qed.

Lemma entry_format_ok (Q : Z → Prop) (w0 w1 w2 : Z) :
  Q w0 → format_ok Q (line "%s type: #%u inode: #%u") None [w0; w1; w2].
Proof. intros Hq. vm_compute. split_and!; (exact (λ _, Hq) || discriminate || done). Qed.

Lemma entry_format_text e w0 :
  format_text (λ _, pad32 (d_name e)) (line "%s type: #%u inode: #%u") None [w0; d_type e; d_inode e]
  = entry_text e.
Proof. reflexivity. Qed.

Lemma string_in_name s fs im l :
  0 ≤ name → name + 33 < 4294967296 → Ready s fs im → text_at (vmem s) name l → length l = 32%nat →
  string_arg P (scratch E) s t (λ _, l) name.
Proof.
  intros Hn0 Hn1 Hr Ht Hl. split; [exact Ht|]. rewrite Hl. split; [done|]. split; [lia|].
  intros b Hb. apply (cl_work _ _ _ _ _ _ _ _ Hr). unfold region in *. lia.
Qed.

(** The line, once the buffer holds the padded name. *)
Lemma say_entry s fs im i :
  let d := dentry_int_addr fs i in
  let e := (im_dents im).[i] in
  0 ≤ name → name + 33 < 4294967296 → Ready s fs im → 0 ≤ i < num_entries im →
  text_at (vmem s) name (pad32 (d_name e)) →
  ∃ s', say E t s (line "%s type: #%u inode: #%u") [name; load32 (vmem s) (d + 32); load32 (vmem s) (d + 36)]
          = Some s' ∧ Printed s s' t (entry_text e) ∧ Ready s' fs im.
Proof.
  intros d e Hn0 Hn1 Hr Hi Ht.
  pose proof (rep_dents _ _ _ (cl_rep _ _ _ _ _ _ _ _ Hr) i Hi) as [[Hlen _] _ Ty In].
  fold (dentry_int_addr fs i) in Ty, In. fold d e in Ty, In, Hlen.
  destruct (say_listed E t P _ _ s fs im (line "%s type: #%u inode: #%u")
    [name; load32 (vmem s) (d + 32); load32 (vmem s) (d + 36)] (λ _, pad32 (d_name e)) Hr)
    as (s2 & Es & Hp2 & Hr2 & _).
  - apply list_elem_of_lookup_2 with 3%nat. reflexivity.
  - repeat apply Forall_cons_2; [lia|apply load32_range..|constructor].
  - simpl. lia.
  - apply entry_format_ok, (string_in_name s fs im); try done. apply pad32_length. lia.
  - exists s2. split; [exact Es|]. split; [|exact Hr2]. rewrite Ty, In, entry_format_text in Hp2. exact Hp2.
Qed.

Lemma show_entry_printed s fs im i :
  0 ≤ name → name + 33 < 4294967296 → Ready s fs im → 0 ≤ i < num_entries im →
  ∃ s', show_entry E t s fs name i = Some s' ∧ Printed s s' t (entry_text (im_dents im).[i]) ∧
        Ready s' fs im.
Proof.
  intros Hn0 Hn1 Hr Hi. pose proof (cl_rep _ _ _ _ _ _ _ _ Hr) as Hrep.
  unfold show_entry. set (d := dentry_int_addr fs i).
  destruct (dents_bounds s fs im i Hrep Hi) as [Hd0 Hd1]. fold d in Hd0, Hd1.
  pose proof (rep_dents _ _ _ Hrep i Hi) as He. fold (dentry_int_addr fs i) in He. fold d in He.
  assert (∀ a, region d 64 a → apart P (work E (region name 33)) s t a) as Hda.
  { intros a Ha. apply (cl_fs _ _ _ _ _ _ _ _ Hr). unfold region in Ha. lia. }
  assert (name + 33 ≤ d ∨ d + 64 ≤ name) as Hdis.
  { destruct (decide (name + 33 ≤ d)); [by left|]. destruct (decide (d + 64 ≤ name)); [by right|].
    destruct (Hda (Z.max d name)) as (_ & _ & []); [unfold region; lia|]. right. unfold region. lia. }
  destruct (name_field P (vmem s) name d (im_dents im).[i]) as (m1 & Ec & Ht & C & R); [|..|done|].
  { apply (po_safe _ _ _ (co_page _ _ _ (cs_ok _ _ _ _ (cl_say _ _ _ _ _ _ _ _ Hr)))). }
  { intros a Ha. by apply (cl_work _ _ _ _ _ _ _ _ Hr). }
  { intros a Ha. apply Hda. unfold region in *. lia. }
  { lia. }
  rewrite Ec, bind_some. revert Ht C R. generalize (blank_name m1 name). clear m1 Ec. intros m Ht C R.
  assert (Printed s (s <| vmem := m |>) t []) as Hp1 by by apply (locals_printed E t P _ info_formats s fs im).
  pose proof (can_list_printed E t P _ _ _ _ _ _ _ Hp1 Hr) as Hr1.
  destruct (say_entry (s <| vmem := m |>) fs im i) as (s2 & Es & Hp2 & Hr2); [done..|exact Ht|].
  exists s2. split; [exact Es|]. split; [|exact Hr2]. exact (printed_trans _ _ _ _ _ _ _ _ Hp1 Hp2).
Qed.

Lemma show_entries_printed s fs im :
  0 ≤ name → name + 33 < 4294967296 → Ready s fs im →
  ∃ s', while (show_entries_step E t fs name) (s, 0) = Some (Some s') ∧
        Printed s s' t (concat (entry_text <$> im_dents im)) ∧ Ready s' fs im.
Proof.
  intros Hn0 Hn1 Hr. pose proof (rep_maxent _ _ _ (cl_rep _ _ _ _ _ _ _ _ Hr)) as Hmax.
  unfold num_entries in Hmax. set (n := num_entries im).
  destruct (while_total (show_entries_step E t fs name)
    (λ '(s', i), 0 ≤ i ≤ n ∧ Ready s' fs im ∧
       Printed s s' t (concat (entry_text <$> take (Z.to_nat i) (im_dents im))))
    (λ '(_, i), n - i)
    (λ r, ∃ s', r = Some s' ∧ Printed s s' t (concat (entry_text <$> im_dents im)) ∧ Ready s' fs im)
    (s, 0)) as (r & Er & s' & -> & H).
  - intros [s' i] (Hi & _). lia.
  - intros [s' i] (Hi & Hr' & Hp). unfold show_entries_step, bb_num_entries.
    rewrite (rep_nent _ _ _ (cl_rep _ _ _ _ _ _ _ _ Hr')). fold n.
    rewrite u32_small by (unfold n, num_entries in *; lia).
    destruct (Z.ltb_spec i n) as [Hlt|Hge].
    + destruct (show_entry_printed s' fs im i Hn0 Hn1 Hr') as (s2 & -> & Hp2 & Hr2); [unfold n in *; lia|].
      replace (s32 (i + 1)) with (i + 1) by (rewrite s32_small; unfold n, num_entries in *; lia).
      split; [|lia]. split; [lia|]. split; [done|].
      replace (Z.to_nat (i + 1)) with (S (Z.to_nat i)) by lia.
      rewrite (take_S_r _ _ (im_dents im).[i]).
      * rewrite fmap_app, concat_app. cbn [fmap list_fmap concat]. rewrite app_nil_r.
        by apply (printed_trans _ _ _ s').
      * rewrite lookup_aget by (unfold n, num_entries in *; lia). do 2 f_equal. lia.
    + exists s'. split; [done|]. split; [|done].
      rewrite take_ge in Hp by (unfold n, num_entries in *; lia). done.
  - split; [unfold n, num_entries; lia|]. split; [done|]. apply printed_refl; [apply Hr|].
    destruct Hr as [[S1 S2 _ _] _ _ _ _]. by rewrite S2.
  - unfold n, num_entries. lia.
  - exists s'. by rewrite Er.
Qed.

Lemma blocks_shift (x : Z) : 0 ≤ x < 2147483648 → Z.shiftr (s32 x) 12 = x / 4096.
Proof. intros Hx. rewrite s32_small by lia. by rewrite Z.shiftr_div_pow2 by lia. Qed.

(** C26 (the file system listing). For an image of less than 2 GB that lies apart
    from the screen and from what is written, [show_fs_info] terminates and
    prints the number of directory entries, of inodes and of the data blocks
    behind them, then for every entry, in order, its name padded with spaces
    to 32 characters, its type and its inode; it changes nothing but the page,
    the cursor, [printf]'s buffers and arguments and its own array [name]. *)
Theorem show_fs_info_lists s fs im :
  0 ≤ name → name + 33 < 4294967296 → fs_end fs - fs_base fs < 2147483648 →
  can_list E t P (region name 33) info_formats s fs im →
  ∃ s', show_fs_info E t s fs name = Some s' ∧
        printed P (work E (region name 33)) s s' t (fs_listing fs im).
Proof.
  intros Hn0 Hn1 Hsz Hr. unfold show_fs_info.
  pose proof (cl_rep _ _ _ _ _ _ _ _ Hr) as [R1 R2 R3 R4 R5 R6 _ _ _].
  assert (0 ≤ num_entries im ∧ 0 ≤ num_inodes im) as [Hne Hni] by (unfold num_entries, num_inodes; lia).
  unfold bb_num_entries. rewrite R5.
  destruct (say_count s fs im (num_entries im) (line " File Entries")) as (s1 & E1 & P1 & Hr1);
    [done|message|lia|done|reflexivity|].
  rewrite (E1 : say E t s (line "%d File Entries") _ = _), bind_some. unfold bb_num_inodes. rewrite (rep_nino _ _ _ (cl_rep _ _ _ _ _ _ _ _ Hr1)).
  destruct (say_count s1 fs im (num_inodes im) (line " inodes")) as (s2 & E2 & P2 & Hr2);
    [done|message|lia|done|reflexivity|].
  rewrite (E2 : say E t s1 (line "%d inodes") _ = _), bind_some. rewrite (rep_nino _ _ _ (cl_rep _ _ _ _ _ _ _ _ Hr2)), blocks_shift by lia.
  assert (0 ≤ data_blocks fs im < 2147483648) as Hdb by (unfold data_blocks; mlia).
  replace (u32 _) with (data_blocks fs im) by (rewrite u32_small; unfold data_blocks in *; lia).
  destruct (say_count s2 fs im (data_blocks fs im) (line " data blocks")) as (s3 & E3 & P3 & Hr3);
    [done|message|lia|done|reflexivity|].
  rewrite (E3 : say E t s2 (line "%d data blocks") _ = _), bind_some.
  destruct (show_entries_printed s3 fs im Hn0 Hn1 Hr3) as (s4 & -> & P4 & _). rewrite bind_some.
  exists s4. split; [done|]. unfold fs_listing.
  rewrite !(app_assoc (dec_text _)). by repeat (eapply printed_trans; [eassumption|]).
Qed.
End Info.

(** ** Reading a file by its name *)

Section TestRead.
Context {M : Type} `{!ByteMem M} {D : Type} `{!PortIO D}.
Context (E : boot_env) (t : Z) (P : Z → Prop) (dp buf n : Z).
Implicit Types (s : console M D) (m : M) (a : Z) (fs : fs_globals).

Definition read_formats : list (list Z) := [line "File type: %d"; line "File name: %s "].

(** The [dentry_t] on the stack and the buffer. *)
Definition read_locals a : Prop := region dp 44 a ∨ region buf n a.

#[local] Abbreviation Ready := (can_list E t P read_locals read_formats).
#[local] Abbreviation Printed := (printed P (work E read_locals)).

Definition type_text (ty : Z) : list Z := format_text (λ _, []) (line "File type: %d") None [ty].
Definition name_text (nm : list Z) : list Z := text "File name: " ++ nm ++ [32; 10].

(** The file name lies apart from all that is written. *)
Definition has_name s (filename : Z) (nm : list Z) : Prop :=
  text_at (vmem s) filename nm ∧ 0 ≤ filename ∧ filename + Z.of_nat (length nm) < 4294967296 ∧
  ∀ a, region filename (Z.of_nat (length nm) + 1) a → apart P (work E read_locals) s t a.

Lemma has_name_printed s s' filename nm out :
  Printed s s' t out → has_name s filename nm → has_name s' filename nm.
Proof.
  intros Hp (H1 & H2 & H3 & H4). split; [|split; [done|split; [done|]]].
  - revert H1. apply text_at_ext. intros i Hi. apply (printed_rd t P _ _ _ _ _ Hp), H4. unfold region. lia.
  - intros a Ha. by apply (printed_apart t P _ _ _ _ _ _ Hp), H4.
Qed.

Lemma name_format_ok (Q : Z → Prop) (w : Z) : Q w → format_ok Q (line "File name: %s ") None [w].
Proof. intros Hq. vm_compute. split_and!; (exact (λ _, Hq) || discriminate || done). Qed.

Lemma name_format_text nm (w : Z) : format_text (λ _, nm) (line "File name: %s ") None [w] = name_text nm.
Proof. reflexivity. Qed.

Lemma say_type s fs im ty :
  Ready s fs im → 0 ≤ ty < 4294967296 →
  ∃ s', say E t s (line "File type: %d") [ty] = Some s' ∧ Printed s s' t (type_text ty) ∧
        Ready s' fs im ∧ ∀ a, read_locals a → rd (vmem s') a = rd (vmem s) a.
Proof.
  intros Hr Hty. apply (say_listed E t P _ _ s fs im _ [ty] (λ _, []) Hr).
  - apply list_elem_of_lookup_2 with 0%nat. reflexivity.
  - by apply Forall_cons_2.
  - simpl. lia.
  - by apply (numeric_ok _ _ None).
Qed.

Lemma say_name s fs im filename nm :
  Ready s fs im → has_name s filename nm →
  ∃ s', say E t s (line "File name: %s ") [filename] = Some s' ∧ Printed s s' t (name_text nm) ∧
        Ready s' fs im ∧ ∀ a, read_locals a → rd (vmem s') a = rd (vmem s) a.
Proof.
  intros Hr (H1 & H2 & H3 & H4). rewrite <- (name_format_text nm filename).
  apply (say_listed E t P _ _ s fs im _ [filename] (λ _, nm) Hr).
  - apply list_elem_of_lookup_2 with 1%nat. reflexivity.
  - apply Forall_cons_2; [lia|constructor].
  - simpl. lia.
  - apply name_format_ok. split; [done|]. split; [done|]. split; [done|]. intros b Hb.
    destruct (H4 b Hb) as (A1 & A2 & A3). split; [done|]. split; [done|]. intros Hs. apply A3. by left.
Qed.

Lemma ready_io s fs im :
  Ready s fs im → 0 ≤ n < 2147483648 → (buf + n ≤ fs_base fs ∨ fs_end fs ≤ buf) →
  io_ready P (vmem s) fs im buf n.
Proof.
  intros Hr Hn Hd. split; try done.
  - apply (po_safe _ _ _ (co_page _ _ _ (cs_ok _ _ _ _ (cl_say _ _ _ _ _ _ _ _ Hr)))).
  - apply Hr.
  - intros a Ha. by apply (cl_fs _ _ _ _ _ _ _ _ Hr).
  - intros a Ha. apply (cl_work _ _ _ _ _ _ _ _ Hr). by right.
Qed.

(** What [test_read] must do with entry [e]; nothing is claimed when the inode
    of a data file is out of range or the type is unknown. *)
Definition read_outcome im e s s' (r : Z) : Prop :=
  if d_type e =? FILE_RTC_TYPE then r = -1 ∧ Printed s s' t (type_text (d_type e))
  else
    let contents := if d_type e =? FILE_DIR_TYPE then take 32 (d_name (im_dents im).[0])
                    else (im_files im).[d_inode e] in
    Printed s s' t (type_text (d_type e) ++ name_text (d_name e)) ∧
    r = Z.min n (Z.of_nat (length contents)) ∧ bytes (vmem s') buf r = slice contents 0 n.

Lemma buffer_filled s fs im m k :
  Ready s fs im → k ≤ n → only_buf P (vmem s) m buf k → Printed s (s <| vmem := m |>) t [].
Proof.
  intros Hr Hk [C R]. apply (locals_printed E t P _ read_formats s fs im); [done|done|].
  intros a Ha Hl. apply R; [done|]. intros Hb. apply Hl. right. unfold region. lia.
Qed.

(** The read, once both messages are printed. *)
Lemma test_dir_read s fs im f :
  Ready s fs im → 0 ≤ n < 2147483648 → (buf + n ≤ fs_base fs ∨ fs_end fs ≤ buf) →
  0 < num_entries im →
  let c := take 32 (d_name (im_dents im).[0]) in
  let r := Z.min n (Z.of_nat (length c)) in
  ∃ s', test_open_read s fs f buf n dir_open dir_read = Some (s', r) ∧ Printed s s' t [] ∧
        bytes (vmem s') buf r = slice c 0 n.
Proof.
  intros Hr Hn Hd He c r. pose proof (ready_io s fs im Hr Hn Hd) as Hio.
  unfold test_open_read, dir_open. cbn [negb Z.eqb]. rewrite u32_small by lia.
  destruct (dir_read_io P (vmem s) fs im buf n (f <| f_pos := DENTRY_SIZE |>) 0 Hio) as (m & Er & Hb & Ho);
    [done|lia|].
  set (nm := d_name (im_dents im).[0]) in *.
  assert (Z.min (Z.min n 32) (Z.of_nat (length nm)) = r) as Ek by (unfold r, c; rewrite length_take; lia).
  rewrite Ek in Er, Hb, Ho. rewrite Er, bind_some. eexists. split; [done|]. split.
  - eapply buffer_filled; [done| |done]. lia.
  - cbn [vmem]. change (vmem (s <| vmem := m |>)) with m. rewrite Hb. unfold slice, r, c. rewrite !drop_0.
    rewrite take_take, length_take.
    destruct (decide (Z.of_nat (length nm) < Z.min n 32)); [by rewrite !take_ge by lia|]. f_equal. lia.
Qed.

Lemma test_file_read s fs im f :
  Ready s fs im → 0 ≤ n < 2147483648 → (buf + n ≤ fs_base fs ∨ fs_end fs ≤ buf) →
  0 ≤ f_inode f < num_inodes im → f_pos f = 0 →
  let c := (im_files im).[f_inode f] in
  let r := Z.min n (Z.of_nat (length c)) in
  ∃ s', test_open_read s fs f buf n file_open file_read = Some (s', r) ∧ Printed s s' t [] ∧
        bytes (vmem s') buf r = slice c 0 n.
Proof.
  intros Hr Hn Hd He Hp c r. pose proof (ready_io s fs im Hr Hn Hd) as Hio.
  unfold test_open_read, file_open. cbn [negb Z.eqb]. rewrite u32_small by lia.
  destruct (file_read_io P (vmem s) fs im buf n f Hio He) as (m & Er & Hb & Ho); [lia|].
  fold c in Er, Hb, Ho. rewrite Hp in Er, Hb, Ho.
  assert (deliver (Z.of_nat (length c)) 0 n = r) as Ek by (unfold deliver, r; lia).
  rewrite Ek in Er, Hb, Ho. rewrite Er, bind_some. eexists. split; [done|]. split; [|done].
  eapply buffer_filled; [done| |done]. lia.
Qed.

(** The entry found by the lookup, through the stack's [dentry_t]. *)
Lemma dentry_kept m m' :
  (∀ a, read_locals a → rd m' a = rd m a) →
  dentry_type m' dp = dentry_type m dp ∧ dentry_inode m' dp = dentry_inode m dp.
Proof.
  intros H. split; apply load32_ext; intros b Hb; apply H; left; unfold region in *; lia.
Qed.

Lemma test_found_reports s s0 fs im filename e :
  Printed s s0 t [] → Ready s0 fs im → has_name s0 filename (d_name e) → 0 ≤ n < 2147483648 →
  (buf + n ≤ fs_base fs ∨ fs_end fs ≤ buf) → 0 < num_entries im → dentry_type (vmem s0) dp = d_type e →
  0 ≤ d_type e ≤ 2 → 0 ≤ d_inode e → (d_type e = 2 → d_inode e < num_inodes im) →
  ∃ s' r, test_found E t s0 fs (mk_file FOPS_NULL (d_inode e) 0 0 0) filename buf n dp = Some (s', r) ∧
          read_outcome im e s s' r.
Proof.
  intros P0 Hr0 N0 Hn Hbuf Hne HT Hty1 HIr Hty2. unfold test_found. rewrite HT.
  destruct (say_type s0 fs im (d_type e) Hr0) as (s1 & E1 & P1 & Hr1 & K1); [lia|].
  rewrite E1, bind_some. destruct (dentry_kept _ _ K1) as [T1 _]. rewrite T1, HT.
  assert (Printed s s1 t (type_text (d_type e))) as P01 by exact (printed_trans _ _ _ _ _ _ _ _ P0 P1).
  unfold read_outcome. destruct (Z.eqb_spec (d_type e) FILE_RTC_TYPE) as [Ht|Ht]; [by exists s1, (-1)|].
  destruct (say_name s1 fs im filename (d_name e) Hr1) as (s2 & E2 & P2 & Hr2 & _);
    [by apply (has_name_printed _ _ _ _ _ P1)|].
  rewrite E2, bind_some.
  assert (Printed s s2 t (type_text (d_type e) ++ name_text (d_name e))) as P02
    by exact (printed_trans _ _ _ _ _ _ _ _ P01 P2).
  destruct (Z.eqb_spec (d_type e) FILE_DIR_TYPE) as [Hd|Hd].
  - cbn [f_op]. change (f_op _) with dir_ops. cbv iota.
    edestruct (test_dir_read s2 fs im) as (s3 & E3 & P3 & B3); [done..|].
    rewrite E3. eexists s3, _. split; [done|]. split; [|done].
    rewrite <- (app_nil_r (_ ++ _)). exact (printed_trans _ _ _ _ _ _ _ _ P02 P3).
  - unfold FILE_RTC_TYPE, FILE_DIR_TYPE, FILE_DAT_TYPE in *.
    destruct (Z.eqb_spec (d_type e) 2) as [Hf|]; [|lia].
    change (f_op _) with file_ops. cbv iota.
    edestruct (test_file_read s2 fs im) as (s3 & E3 & P3 & B3); [done..| | |].
    3: rewrite E3; eexists s3, _; split; [done|]; split; [|exact (conj eq_refl B3)];
      rewrite <- (app_nil_r (_ ++ _)); exact (printed_trans _ _ _ _ _ _ _ _ P02 P3).
    + change (0 ≤ d_inode e < num_inodes im). split; [lia|by apply Hty2].
    + done.
Qed.

(** (reading a file by its name). [test_read] answers as the abstract lookup:
    -1, with nothing printed and memory untouched, when the name is not found;
    otherwise it prints the type of the entry, answers -1 for the clock's file,
    and for a directory or a data file prints the name and delivers the first
    [n] bytes of the first entry's name (at most 32) or of the file's contents,
    with their number as its result. *)
Theorem test_read_reports s fs im filename nm :
  Ready s fs im → has_name s filename nm → 0 ≤ n < 2147483648 →
  (dp + 44 ≤ fs_base fs ∨ fs_end fs ≤ dp) → (buf + n ≤ fs_base fs ∨ fs_end fs ≤ buf) →
  (∀ i, lookup_name (im_dents im) nm = Some i → 0 ≤ d_type (im_dents im).[i] ≤ 2 ∧
     (d_type (im_dents im).[i] = 2 → d_inode (im_dents im).[i] < num_inodes im)) →
  match (if decide (Z.of_nat (length nm) ≤ 32) then lookup_name (im_dents im) nm else None) with
  | None => test_read E t s fs filename buf n dp = Some (s, -1)
  | Some i => ∃ s' r, test_read E t s fs filename buf n dp = Some (s', r) ∧
                      read_outcome im (im_dents im).[i] s s' r
  end.
Proof.
  intros Hr Hname Hn Hdp Hbuf Hty. unfold test_read.
  pose proof (read_dentry_by_name_lookup P (vmem s) fs im) as Hl.
  specialize (Hl (po_safe _ _ _ (co_page _ _ _ (cs_ok _ _ _ _ (cl_say _ _ _ _ _ _ _ _ Hr))))
    (cl_rep _ _ _ _ _ _ _ _ Hr)).
  specialize (Hl ltac:(intros a Ha; by apply (cl_fs _ _ _ _ _ _ _ _ Hr)) filename (Z.of_nat (length nm)) dp).
  pose proof Hname as ((Hstr & Hbt) & Hnm). rewrite Hbt in Hl.
  specialize (Hl Hstr ltac:(lia) ltac:(intros a Ha; apply (cl_work _ _ _ _ _ _ _ _ Hr); by left) Hdp).
  destruct (if decide _ then _ else _) as [i|] eqn:Ei.
  2:{ rewrite Hl, bind_some. done. }
  case_decide as H32; [|done]. destruct (Hty i Ei) as [Hty1 Hty2]. clear Hty.
  destruct (lookup_name_sound _ _ _ Ei) as (e & He & Hi0 & Hen).
  rewrite (aget_lookup (im_dents im) i e) in * by done.
  destruct Hl as (m & Er & (_ & HT & HI) & C & R).
  rewrite Er, bind_some. cbn [negb Z.eqb].
  assert (Printed s (s <| vmem := m |>) t []) as P0.
  { apply (locals_printed E t P _ read_formats s fs im); [done|done|]. intros a Ha Hw. apply R; [done|].
    intros Hin. apply Hw. left. unfold region. lia. }
  assert (has_name (s <| vmem := m |>) filename nm) as N0 by exact (has_name_printed _ _ _ _ _ P0 Hname).
  pose proof (can_list_printed E t P _ _ _ _ _ _ _ P0 Hr) as Hr0.
  set (s0 := s <| vmem := m |>) in *. change m with (vmem s0) in HT, HI |- *. clearbody s0.
  clear m Er C R. 
  edestruct (test_found_reports s s0 fs im filename e) as (s' & r & E1 & Ho); try done.
  { by rewrite Hen. }
  { apply lookup_lt_Some in He. unfold num_entries. lia. }
  { rewrite <- HI. apply load32_range. }
  rewrite <- HI in E1. by exists s', r.
Qed.
End TestRead.

(** ** Witnesses

    The image of [FsProps.demo_mem] and the formats in flat memory. *)

Definition debug_formats : list (list Z) := info_formats ++ read_formats.

Definition debug_env : boot_env :=
  mk_boot_env (λ f, 0x40000 + 256 * default 0 (Z.of_nat ∘ fst <$> list_find (λ g, f = g) debug_formats))
    (mk_conv_bufs 0x50000 0x50040 0x50080) 0x500C0.

Definition debug_mem : gmap Z Z :=
  foldr (λ f m, flat_of (be_fmt debug_env f) (f ++ [0]) ∪ m) demo_mem debug_formats.

Definition debug_con : console (gmap Z Z) (list (Z * Z)) :=
  mk_console [demo_terminal 0; demo_terminal 1; demo_terminal 2] 0 debug_mem [].

Lemma debug_con_ok : con_ok (λ _, True) debug_con 0.
Proof.
  split; [simpl; lia| |change (0 ≤ 0 < 80); lia|change (0 ≤ 0 < 25); lia].
  split; [by vm_compute|apply flat_safe|done].
Qed.

(** Two memories agree on the image. *)
Definition same_image (m m' : gmap Z Z) : bool :=
  forallb (λ q, forallb (λ r, rd m (8192 + 256 * q + r) =? rd m' (8192 + 256 * q + r)) (seqZ 0 256)) (seqZ 0 96).

Lemma same_image_rd m m' a : same_image m m' = true → 8192 ≤ a < 32768 → rd m a = rd m' a.
Proof.
  intros H Ha. set (x := a - 8192).
  pose proof (forall_seqZ_true _ _ H (x / 256) ltac:(unfold x; mlia)) as Hq.
  pose proof (forall_seqZ _ _ _ Hq (x mod 256) ltac:(mlia)) as Hr. cbv beta in Hr.
  by replace (8192 + 256 * (x / 256) + x mod 256) with a in Hr by (unfold x; mlia).
Qed.

Lemma debug_rep : fs_rep debug_mem demo_fs demo_image.
Proof.
  apply (fs_rep_ext demo_mem); [|exact demo_rep]. intros a Ha.
  apply same_image_rd; [vm_compute; reflexivity|exact Ha].
Qed.

Definition debug_check (f : list Z) : bool :=
  bool_decide (bytes debug_mem (be_fmt debug_env f) (Z.of_nat (length f) + 1) = f ++ [0]) &&
  forallb (λ c, negb (c =? 0)) f && (0x40000 <=? be_fmt debug_env f) &&
  (be_fmt debug_env f + Z.of_nat (length f) <? 0x50000).

Lemma debug_checked : forallb debug_check debug_formats = true.
Proof. by vm_compute. Qed.

Lemma debug_can_list (W : Z → Prop) formats :
  (∀ a, W a → 0x50200 ≤ a < 0x60000) → (∀ f, f ∈ formats → f ∈ debug_formats) →
  can_list debug_env 0 (λ _, True) W formats debug_con demo_fs demo_image.
Proof.
  intros HW Hf.
  assert (∀ a, scratch debug_env a → 0x50000 ≤ a < 0x50200) as Hs
    by (intros a; unfold scratch, bufs_of, region; cbn; lia).
  assert (∀ a, region (page_of debug_con 0) 4000 a → 0xB9000 ≤ a) as Hpg
    by (intros a; change (page_of debug_con 0) with 0xB9000; unfold region; lia).
  split.
  - split; [apply debug_con_ok|done| |].
    + intros a Ha. split; [done|]. pose proof (Hs a Ha). split; [lia|]. intros X%Hpg. lia.
    + intros a. unfold bufs_of, region. cbn. lia.
  - intros a Ha%HW. split; [done|]. split; [intros X%Hpg; lia|intros X%Hs; lia].
  - intros f Hin%Hf. pose proof debug_checked as Hc. rewrite forallb_forall in Hc.
    specialize (Hc f (proj1 (list_elem_of_In _ f) Hin)). unfold debug_check in Hc.
    apply andb_prop in Hc as [[[H1 H2]%andb_prop H3]%andb_prop H4]. apply Z.leb_le in H3. apply Z.ltb_lt in H4.
    split.
    + split; [exact (text_check _ _ _ H1 H2)|]. split; [lia|]. split; [lia|].
      intros a Ha. unfold region in Ha. split; [done|]. split; [intros X%Hpg; lia|intros X%Hs; lia].
    + intros a Ha X%HW. unfold region in Ha. lia.
  - apply debug_rep.
  - intros a Ha. cbn in Ha. split; [done|]. split; [intros X%Hpg; lia|].
    intros [X%Hs|X%HW]; lia.
Qed.

Lemma show_fs_info_lists_witness :
  ∃ s', show_fs_info debug_env 0 debug_con demo_fs 0x50200 = Some s' ∧
    printed (λ _, True) (work debug_env (region 0x50200 33)) debug_con s' 0 (fs_listing demo_fs demo_image).
Proof.
  apply show_fs_info_lists; [lia|lia|cbn; lia|]. apply debug_can_list.
  - intros a. unfold region. lia.
  - intros f Hf. apply elem_of_app. by left.
Defined.

Example debug_listing :
  fs_listing demo_fs demo_image =
    line "3 File Entries" ++ line "2 inodes" ++ line "3 data blocks" ++
    line ".                                type: #1 inode: #0" ++
    line "frame0.txt                       type: #2 inode: #0" ++
    line "frame0                           type: #2 inode: #1".
Proof. by vm_compute. Qed.

(** The first two bytes of "frame0.txt". *)
Lemma test_read_reports_witness :
  ∃ s' r, test_read debug_env 0 debug_con demo_fs 200 0x50400 2 0x50300 = Some (s', r) ∧
    read_outcome debug_env 0 (λ _, True) 0x50300 0x50400 2 demo_image (mk_dent nm_frame0_txt 2 0) debug_con s' r.
Proof.
  pose proof (test_read_reports debug_env 0 (λ _, True) 0x50300 0x50400 2 debug_con demo_fs demo_image
    200 nm_frame0_txt) as H.
  replace (if decide (Z.of_nat (length nm_frame0_txt) ≤ 32)
    then lookup_name (im_dents demo_image) nm_frame0_txt else None) with (Some 1) in H by by vm_compute.
  apply H; clear H.
  - apply debug_can_list; [intros a; unfold read_locals, region; lia|].
    intros f Hf. apply elem_of_app. by right.
  - split; [apply text_check; by vm_compute|]. split; [lia|]. split; [by vm_compute|].
    intros a Ha. unfold region in Ha. simpl in Ha. split; [done|].
    change (page_of debug_con 0) with 0xB9000. unfold work, scratch, bufs_of, read_locals, region. cbn. lia.
  - lia.
  - cbn. lia.
  - cbn. lia.
  - intros i Hi. assert (lookup_name (im_dents demo_image) nm_frame0_txt = Some 1) as E by by vm_compute.
    rewrite E in Hi. injection Hi as <-. by vm_compute.
Defined.
