(* ===== verification/BootProps.v ===== *)
(** * Properties of the boot sequence

    From the state the loader leaves (zeroed data, paging off) and multiboot
    information that lies apart from what the messages overwrite, [entry] sets
    up the system and enters the first shell. *)

From S2P Require Import Prelude Memory Lib Ports Types Filesystem FsProofs FsProps I8259 RTC Paging PagingProps.
From S2P Require Import Console ConsoleProofs ConsoleProps Printf Keyboard KeyboardProofs LineProofs.
From S2P Require Import KeyboardProps TerminalProps Idt Kernel KernelProps KernelDemo SyscallProps Process Scheduler.
From S2P Require Import ParseProofs Forest System ProcessProofs Boot BootProofs.
Import (notations) Stdlib.Strings.String.
#[local] Open Scope Z_scope.

(** ** Memory before and after paging *)

Section Space.
Context {HL : Layout}.
Implicit Types (m : mach) (a : Z).

Definition unpaged a : Prop := 0 ≤ a < 4294967296.

Lemma unpaged_safe m : cr0_pg m = false → safe m unpaged.
Proof.
  intros Hp a b Ha Hb. cbn [cell PagedMem]. unfold translate. rewrite Hp.
  rewrite !u32_small by done. split; [by eexists|]. by intros [= ->].
Qed.

Lemma unpaged_rd m a : cr0_pg m = false → unpaged a → rd m a = pbyte m a.
Proof.
  intros Hp Ha. cbn [rd PagedMem]. unfold mach_rd, translate. rewrite Hp. by rewrite u32_small by done.
Qed.

(** The kernel's page and the page of terminal 0. *)
Definition boot_view a : Prop := 0x400000 ≤ a < 0x800000 ∨ region (tpage 0) 4096 a.
Definition boot_cell a : Z := if decide (a < 0x400000) then a - 4096 else a.

Lemma boot_translate m a :
  space_ok m 0 None None → boot_view a → translate m a = Some (boot_cell a).
Proof.
  intros Hs Ha. rewrite (space_translate _ 0 None None) by done.
  unfold boot_view, region, tpage, VIDEO in Ha. rewrite u32_small by lia.
  unfold addr_space, term_page, boot_cell, VIDEO. change (USER_VIDEO / 4096) with 33792.
  assert (a = 4096 * (a / 4096) + a mod 4096 ∧ 0 ≤ a mod 4096 < 4096 ∧
    1024 * (a / 4194304) ≤ a / 4096 < 1024 * (a / 4194304) + 1024) as (E & Hm & Hd) by mlia.
  revert E Hm Hd Ha. generalize (a / 4096) (a mod 4096) (a / 4194304). intros p o q -> Hm Hd Ha.
  cases_lia; simpl; try done; f_equal; lia.
Qed.

Lemma boot_view_safe m : space_ok m 0 None None → safe m boot_view.
Proof.
  intros Hs a b Ha Hb. cbn [cell PagedMem]. rewrite !boot_translate by done.
  split; [by eexists|]. unfold boot_cell, boot_view, region, tpage, VIDEO in *.
  intros [= E]. revert E. repeat case_decide; lia.
Qed.

Lemma boot_paging_tabs m : tabs (boot_paging m) = init_kernel_pd (tabs m).
Proof.
  unfold boot_paging. cbv zeta. generalize (init_kernel_pd (tabs m)). intros T. reflexivity.
Qed.

Lemma tabs_ctl m m' : ctl m' = ctl m → tabs m' = tabs m.
Proof. by intros [= E _ _ _]. Qed.

Lemma boot_rd m a : space_ok m 0 None None → 0x400000 ≤ a < 0x800000 → rd m a = pbyte m a.
Proof.
  intros Hs Ha. cbn [rd PagedMem]. unfold mach_rd. rewrite boot_translate by (done || by left).
  unfold boot_cell. rewrite decide_False by lia. done.
Qed.

Lemma space_ok_ctl m m' cur user vid : ctl m' = ctl m → space_ok m cur user vid → space_ok m' cur user vid.
Proof. intros C [H1 H2 H3]. injection C as _ E1 E2 E3. split; by rewrite ?E1, ?E2, ?E3. Qed.
End Space.

(** ** The devices *)

Section Devices.
Context {HL : Layout} {D : Type} `{!PortIO D}.
Implicit Types (k : kernel D) (s : console mach D).

(** The keyboard controller empties its input buffer, so that commands can be
    sent. *)
Definition controller_ready : Prop := ∀ d : D, is_Some (keyboard_set_leds d false false false).

(** A terminal after [keyboard_install]. *)
Definition installed (T : terminal) (i : Z) : terminal :=
  T <| typingLine := true |> <| line_buffer_index := 0 |> <| c_x := 0 |> <| c_y := 0 |>
    <| cmdCount := 0 |> <| video_mem := VIDEO + 4096 * (i + 1) |>.

Lemma keyboard_install_spec p kbd s :
  controller_ready → length (terminals s) = 3%nat →
  ∃ kbd' s', keyboard_install p kbd s 1 =
      Some (mk_pic (u8 (Z.land (master_mask p) (Z.lnot 2))) (slave_mask p), kbd', s') ∧
    vmem s' = vmem s ∧ cur_terminal s' = 0 ∧ length (terminals s') = 3%nat ∧
    (∀ i, 0 ≤ i < 3 → (terminals s').[i] = installed (terminals s).[i] i).
Proof.
  intros Hc Hl. unfold keyboard_install. cbv zeta.
  set (s1 := for_loop 3 0 _ s).
  assert (vmem s1 = vmem s ∧ length (terminals s1) = 3%nat ∧
    ∀ i, 0 ≤ i < 3 → (terminals s1).[i] = installed (terminals s).[i] i) as (E1 & E2 & E3).
  { destruct s as [Ts ct m d]. cbn in Hl. destruct Ts as [|T0 [|T1 [|T2 [|T3 Ts]]]]; try done.
    split; [done|]. split; [done|]. intros i Hi.
    assert (i = 0 ∨ i = 1 ∨ i = 2) as [->|[->| ->]] by lia; reflexivity. }
  clearbody s1. destruct (Hc (dev s1)) as (d & Ed).
  match goal with |- context [keyboard_set_leds ?x ?y ?z ?w] =>
    change (keyboard_set_leds x y z w) with (keyboard_set_leds (dev s1) false false false) end.
  rewrite Ed, bind_some. eexists _, _. split; [reflexivity|]. done.
Qed.

(** [k1] is [k] after the devices and paging have been set up. *)
Record devices_on k (X : desc_tables) k1 : Prop := {
  dv_space : space_ok (kmem k1) 0 None None;
  dv_tabs : tabs (kmem k1) = init_kernel_pd zero_tables;
  dv_mem : ∀ a, 0x400000 ≤ a < 0x800000 → rd (kmem k1) a = pbyte (kmem k) a;
  dv_cur : cur_terminal (con k1) = 0;
  dv_len : length (terminals (con k1)) = 3%nat;
  dv_terms : ∀ i, 0 ≤ i < 3 → (terminals (con k1)).[i] = installed (terminals (con k)).[i] i;
  dv_screen : tview (con k1) 0 = (replicate 2000 blank, 0, 0);
  dv_pic : kpic k1 = mk_pic 0xF8 0xFF;
  dv_fs : fs k1 = fs k;
  dv_pcbs : pcbs k1 = pcbs k;
  dv_used : proc_id_used k1 = proc_id_used k;
  dv_tss : tss_esp0 k1 = esp0 (b_tss X) ∧ tss_ss0 k1 = ss0 (b_tss X)
}.

Lemma init_devices_spec k X :
  controller_ready → length (terminals (con k)) = 3%nat → tabs (kmem k) = zero_tables →
  ∃ k1, init_devices k X = Some k1 ∧ devices_on k X k1.
Proof.
  intros Hc Hl HT. unfold init_devices. cbv zeta.
  destruct (i8259_init _ _) as [p0 d0] eqn:E0. assert (p0 = mk_pic 0xFF 0xFF) as -> by by injection E0.
  clear E0. destruct (init_PIT _ d0) as [p1 d1] eqn:E1. assert (p1 = mk_pic 0xFE 0xFF) as -> by by injection E1.
  clear E1. destruct (enable_irq _ d1 2) as [p2 d2] eqn:E2.
  assert (p2 = mk_pic 0xFA 0xFF) as -> by by injection E2. clear E2.
  set (k1 := (with_dev _ d2) <| kpic := _ |>).
  destruct (keyboard_install_spec (kpic k1) (kb k1) (con k1)) as (kbd' & s & E & Em & Ec & El & Ets); [done|done|].
  rewrite E, bind_some. clear E.
  set (m := boot_paging (vmem s)).
  assert (tabs (vmem s) = zero_tables) as HT1 by by rewrite Em.
  assert (space_ok m 0 None None) as Hs by by apply boot_space.
  match goal with |- context [term_clear ?c 0] => set (s2 := c) end.
  assert (vmem s2 = m) as Em2 by done.
  assert (page_of s2 0 = tpage 0) as Ep.
  { unfold page_of. change (terminals s2) with (terminals s). by rewrite Ets by lia. }
  assert (con_ok boot_view s2 (cur_terminal s2)) as Hok.
  { change (cur_terminal s2) with (cur_terminal s). rewrite Ec. split.
    - change (terminals s2) with (terminals s). lia.
    - rewrite Ep. split; [unfold tpage, VIDEO; lia|rewrite Em2; by apply boot_view_safe|].
      intros a Ha. right. unfold region in *. lia.
    - change (terminals s2) with (terminals s). rewrite Ets by lia. cbn. lia.
    - change (terminals s2) with (terminals s). rewrite Ets by lia. cbn. lia. }
  destruct (term_clear_spec boot_view s2 Hok) as (Hd & Hv & _).
  assert (cur_terminal s2 = 0) as Ec2 by exact Ec. rewrite Ec2 in Hd, Hv, Hok.
  eexists. split; [reflexivity|].
  destruct Hd as [Dt Dc [Do Dr]].
  assert (∀ a, 0x400000 ≤ a < 0x800000 → pbyte m a = pbyte (kmem k) a) as Hpb.
  { intros a _. change (pbyte m a) with (pbyte (vmem s) a). by rewrite Em. }
  set (s3 := term_clear s2 0) in *. clearbody s3. rewrite Ep in Hv. rewrite Em2 in Do, Dr.
  change (terminals s2) with (terminals s) in Dt.
  assert (length (terminals s3) = 3%nat) as L3 by (rewrite Dt, length_aset; exact El).
  assert (∀ i, 0 ≤ i < 3 → (terminals s3).[i] = installed (terminals (con k)).[i] i) as T3.
  { intros i Hi. rewrite Dt. destruct (decide (i = 0)) as [->|Hne].
    - rewrite aget_aset_eq by lia. rewrite Ets by lia. reflexivity.
    - rewrite aget_aset_ne by congruence. rewrite Ets by lia. reflexivity. }
  assert (space_ok (vmem s3) 0 None None) as Hs3 by exact (space_ok_ctl m _ _ _ _ Do Hs).
  split.
  - exact Hs3.
  - rewrite <- HT1, <- boot_paging_tabs. exact (tabs_ctl _ _ Do).
  - intros a Ha. change (rd (vmem s3) a = pbyte (kmem k) a). rewrite Dr.
    + rewrite (boot_rd m a Hs Ha). by apply Hpb.
    + by left.
    + rewrite Ep. unfold region, tpage, VIDEO. lia.
  - change (cur_terminal s3 = 0). rewrite Dc. exact Ec.
  - exact L3.
  - exact T3.
  - change (tview s3 0 = (replicate 2000 blank, 0, 0)). unfold tview, page_of. rewrite T3 by lia.
    change (video_mem (installed (terminals (con k)).[0] 0)) with (tpage 0). rewrite Hv. reflexivity.
  - reflexivity.
  - reflexivity.
  - reflexivity.
  - reflexivity.
  - split; reflexivity.
Qed.
End Devices.

(** ** entry *)

Section EntryProps.
Context {HL : Layout} {D : Type} `{!PortIO D}.
Implicit Types (k : kernel D) (im : fs_image) (E : boot_env).

(** The state the loader leaves: the kernel's data is zero, paging is off. *)
Record at_reset k : Prop := {
  ar_tabs : tabs (kmem k) = zero_tables;
  ar_pg : cr0_pg (kmem k) = false;
  ar_terms : terminals (con k) = replicate 3 zero_terminal;
  ar_cur : cur_terminal (con k) = 0;
  ar_pcbs : length (pcbs k) = 6%nat;
  ar_pid : p_pid (pcbs k).[0] = 0;
  ar_term : p_terminal_id (pcbs k).[0] = 0;
  ar_used : proc_id_used k = replicate 6 false
}.

(** A byte that the messages of [entry] leave alone. *)
Definition untouched E k (a : Z) : Prop := apart unpaged (scratch E) (con k) 0 a.

(** The boot information is readable, the file system module holds the image
    [im], and the constant "shell" and the locals of [execute] are in place. *)
Record boot_ok E k im (mbi : Z) (cmd : list Z) (shell dp hp : Z) : Prop := {
  bo_reset : at_reset k;
  bo_ready : ready E 0 unpaged (con k);
  bo_info : info_ok E 0 unpaged (con k) mbi cmd;
  bo_fs : fs_rep (kmem k) (boot_fs (kmem k) mbi (fs k)) im;
  bo_lo : 0x400000 ≤ fs_base (boot_fs (kmem k) mbi (fs k));
  bo_hi : fs_end (boot_fs (kmem k) mbi (fs k)) ≤ 0x7F4000;
  bo_image : ∀ a, fs_base (boot_fs (kmem k) mbi (fs k)) ≤ a < fs_end (boot_fs (kmem k) mbi (fs k)) →
             ¬ scratch E a;
  bo_shell : str_at (kmem k) shell 5;
  bo_const : 0x400000 ≤ shell ∧ shell + 6 ≤ 0x7F4000 ∧ ∀ a, region shell 6 a → ¬ scratch E a;
  bo_dp : pcb_addr 0 + 444 ≤ dp ∧ dp + 44 ≤ pcb_addr 0 + 0x2000;
  bo_hp : pcb_addr 0 + 444 ≤ hp ∧ hp + 40 ≤ pcb_addr 0 + 0x2000;
  bo_locals : dp + 44 ≤ hp ∨ hp + 40 ≤ dp
}.

(** A byte of the kernel's page outside the scratch memory. *)
Lemma untouched_kernel E k a :
  at_reset k → 0x400000 ≤ a < 0x800000 → ¬ scratch E a → untouched E k a.
Proof.
  intros Hr Ha Hs. split; [unfold unpaged; lia|]. split; [|done].
  unfold page_of. rewrite (ar_terms _ Hr). change (video_mem (replicate 3 zero_terminal).[0]) with 0.
  unfold region. lia.
Qed.

(** The terminals after the messages and [keyboard_install]. *)
Lemma installed_base E k k0 k1 X :
  at_reset k → told E 0 unpaged (con k) (con k0) → devices_on k0 X k1 → con_base (con k1).
Proof.
  intros Hr T Hd. split.
  - apply Hd.
  - rewrite (dv_cur _ _ _ Hd). lia.
  - intros t Ht. rewrite (dv_terms _ _ _ Hd) by done.
    destruct (td_terms _ _ _ _ _ T t) as (x & y & Et).
    rewrite Et, (ar_terms _ Hr).
    assert ((replicate 3 zero_terminal).[t] = zero_terminal) as ->
      by (assert (t = 0 ∨ t = 1 ∨ t = 2) as [->|[->| ->]] by lia; done).
    split; try (cbn; lia). intros i. apply bytes_aget.
    change (Forall (λ c, 0 ≤ c < 256) (replicate 128 0)). apply Forall_replicate. lia.
  - intros t Ht. unfold page_of. rewrite (dv_terms _ _ _ Hd) by done. reflexivity.
Qed.

(** What [execute] finds when [entry] calls it. *)
Lemma boot_exec_base E k im mbi cmd shell dp hp s X k1 :
  boot_ok E k im mbi cmd shell dp hp → told E 0 unpaged (con k) s →
  devices_on (k <| con := s |> <| fs := boot_fs (kmem k) mbi (fs k) |>) X k1 →
  (∀ a, 0x400000 ≤ a < 0x800000 → ¬ scratch E a → rd (kmem k1) a = rd (kmem k) a) ∧
  exec_base (λ a, 0x400000 ≤ a < 0x800000) (λ _, None) im k1 0.
Proof.
  intros [Hr Hrd Hin Hfs Hlo Hhi Him Hsh Hc Hdp Hhp Hloc] T Hd.
  set (g := boot_fs (kmem k) mbi (fs k)) in *. set (k0 := k <| con := s |> <| fs := g |>) in *.
  assert (cr0_pg (vmem s) = false) as Hpg.
  { rewrite <- (ar_pg _ Hr). exact (f_equal snd (td_ctl _ _ _ _ _ T)). }
  assert (∀ a, 0x400000 ≤ a < 0x800000 → ¬ scratch E a → rd (kmem k1) a = rd (kmem k) a) as Hmem.
  { intros a Ha Hs. rewrite (dv_mem _ _ _ Hd a Ha). change (kmem k0) with (vmem s).
    rewrite <- (unpaged_rd (vmem s) a Hpg) by (unfold unpaged; lia).
    exact (td_mem _ _ _ _ _ T a (untouched_kernel E k a Hr Ha Hs)). }
  split; [exact Hmem|]. pose proof (dv_space _ _ _ Hd) as Hsp.
  assert (fs k1 = g) as Eg by exact (dv_fs _ _ _ Hd).
  assert (pcbs k1 = pcbs k) as Ep by exact (dv_pcbs _ _ _ Hd).
  assert (proc_id_used k1 = proc_id_used k) as Eu by exact (dv_used _ _ _ Hd).
  split; rewrite ?Eg, ?Ep.
  - lia.
  - split; [rewrite Ep; apply Hr|]. intros p [Hp Hu]. rewrite Eu, (ar_used _ Hr) in Hu.
    assert (p = 0 ∨ p = 1 ∨ p = 2 ∨ p = 3 ∨ p = 4 ∨ p = 5) as
      [->|[->|[->|[->|[->| ->]]]]] by (unfold MAX_USER_PROG in *; lia); discriminate Hu.
  - intros a b Ha Hb. exact (boot_view_safe _ Hsp a b (or_introl Ha) (or_introl Hb)).
  - done.
  - lia.
  - intros m a C Ha. apply boot_rd; [|done]. by apply (space_ok_ctl (kmem k1)).
  - apply Hsp.
  - rewrite (dv_tabs _ _ _ Hd), (dv_cur _ _ _ Hd). apply tables_ok_init.
  - exact (installed_base E k k0 k1 X Hr T Hd).
  - apply (fs_rep_ext (kmem k)); [|exact Hfs]. intros a Ha. apply Hmem; [lia|]. by apply Him.
  - exact Hlo.
  - exact Hhi.
  - apply Hr.
  - rewrite (ar_term _ Hr). lia.
Qed.
(** The screen the messages are printed on: the page at address 0. *)
Lemma clear_blank E k :
  at_reset k → ready E 0 unpaged (con k) → tview (clear (con k) 0) 0 = (replicate 2000 blank, 0, 0).
Proof.
  intros Hr Hrd. pose proof (cs_ok _ _ _ _ (rd_say _ _ _ _ Hrd)) as Hok. pose proof (ar_cur _ Hr) as Ec.
  assert (con_ok unpaged (con k) (cur_terminal (con k))) as Hok' by (by rewrite Ec).
  destruct (term_clear_spec unpaged (con k) Hok') as (Hd & Hv & _). rewrite Ec in Hd, Hv.
  unfold clear, tview, page_of. rewrite (drawn_get unpaged (con k) _ 0 0 0 Hok Hd).
  change (video_mem (set_cursor ?T _ _)) with (video_mem T). fold (page_of (con k) 0). rewrite Hv. reflexivity.
Qed.

(** What the descriptor tables mean to the processor. *)
Record desc_env_ok (V : desc_env) (X : desc_tables) : Prop := {
  eo_tss : 0 ≤ de_tss V < 2 ^ 32 ∧ 0 ≤ de_tss_size V < 2 ^ 20;
  eo_ldt : 0 ≤ de_ldt V < 2 ^ 32 ∧ 0 ≤ de_ldt_size V < 2 ^ 20;
  eo_haddr : ∀ h, 0 ≤ de_haddr V h < 2 ^ 32;
  eo_idt : b_idt X = idt_boot
}.

Record descriptors_on (V : desc_env) (X : desc_tables) : Prop := {
  do_tss : let v := seg_val (tss_desc_ptr X) in
    seg_base v = de_tss V ∧ seg_limit v = de_tss_size V ∧ seg_flags v = (9, 0, 0, 1);
  do_ldt : let v := seg_val (ldt_desc_ptr X) in
    seg_base v = de_ldt V ∧ seg_limit v = de_ldt_size V ∧ seg_flags v = (2, 0, 0, 1);
  do_regs : tr X = KERNEL_TSS ∧ ldtr X = KERNEL_LDT ∧ idt_loaded X = true;
  do_stack : ss0 (b_tss X) = KERNEL_DS ∧ esp0 (b_tss X) = 0x800000 ∧ ldt_segment_selector (b_tss X) = KERNEL_LDT;
  do_idt : ∀ v software cpl, 0 ≤ v < 256 → 0 ≤ cpl ≤ 3 →
    deliver (b_idt X) v software cpl =
      if software && (0 <? cpl) && negb (v =? 128) then GeneralProtection
      else Enter KERNEL_CS (match vector_handler v with Some h => de_haddr V h | None => 0 end)
             ((v <? 32) || (v =? 128))
}.

Lemma init_descriptors_on V X : desc_env_ok V X → descriptors_on V (init_descriptors V X).
Proof.
  intros [[H1 H2] [H3 H4] Hh Hi].
  destruct (descriptors_decode (de_local V) _ _ _ _ H1 H2 H3 H4) as (T1 & T2 & T3 & L1 & L2 & L3).
  split; [done|done|done|done|]. intros v software cpl Hv Hc.
  change (b_idt (init_descriptors V X)) with (initialize_idt (de_haddr V) (b_idt X)). rewrite Hi.
  by apply idt_delivers.
Qed.

(** The state [s] of the console and [k1] of the kernel when the messages are
    printed and when [entry] calls [execute]. *)
Record boots E V k X (mbi : Z) (cmd : list Z) (s : console mach D) k1 : Prop := {
  bt_info : show_info E 0 (clear (con k) 0) (fs k) mbi = Some (s, boot_fs (kmem k) mbi (fs k), true);
  bt_text : tview s 0 = print_spec (boot_text (kmem k) mbi cmd) (replicate 2000 blank, 0, 0);
  bt_devices : init_devices (k <| con := s |> <| fs := boot_fs (kmem k) mbi (fs k) |>) (init_descriptors V X) = Some k1
}.

(** The messages and the devices. *)
Lemma entry_boots E V k X im mbi cmd shell dp hp esp ebp :
  boot_ok E k im mbi cmd shell dp hp → controller_ready (D := D) → boot_goes_on (kmem k) mbi = true →
  ∃ s k1, told E 0 unpaged (con k) s ∧ boots E V k X mbi cmd s k1 ∧
    devices_on (k <| con := s |> <| fs := boot_fs (kmem k) mbi (fs k) |>) (init_descriptors V X) k1 ∧
    entry E V k X MULTIBOOT_BOOTLOADER_MAGIC mbi esp ebp shell dp hp =
    (ex ← execute k1 0 esp ebp shell dp hp; Some (BootShell (init_descriptors V X) ex)).
Proof.
  intros Hb Hc Hgo. pose proof (bo_reset _ _ _ _ _ _ _ _ Hb) as Hr.
  pose proof (bo_ready _ _ _ _ _ _ _ _ Hb) as Hrd. pose proof (bo_info _ _ _ _ _ _ _ _ Hb) as Hin.
  pose proof (clear_told E 0 unpaged (con k) (rd_say _ _ _ _ Hrd)) as T1.
  destruct (show_info_tells E 0 unpaged (clear (con k) 0) (fs k) mbi cmd) as (r & Er & s & -> & T2 & Hv).
  { exact (ready_told _ _ _ _ _ Hrd T1). } { exact (info_ok_told _ _ _ _ _ _ _ T1 Hin). }
  destruct (boot_fs_told E 0 unpaged (con k) _ mbi cmd (fs k) T1 Hin) as [E1 E2].
  rewrite E1, E2 in Er. rewrite (boot_text_kept E 0 unpaged _ _ mbi cmd T1 Hin), (clear_blank E k Hr Hrd) in Hv.
  change (boot_goes_on (vmem (con k)) mbi) with (boot_goes_on (kmem k) mbi) in Er. rewrite Hgo in Er.
  change (boot_fs (vmem (con k)) mbi (fs k)) with (boot_fs (kmem k) mbi (fs k)) in Er.
  pose proof (told_trans E 0 unpaged _ _ _ T1 T2) as T.
  destruct (init_devices_spec (k <| con := s |> <| fs := boot_fs (kmem k) mbi (fs k) |>)
    (init_descriptors V X)) as (k1 & Ek & Hd).
  { exact Hc. }
  { change (length (terminals s) = 3%nat). rewrite (td_len _ _ _ _ _ T), (ar_terms _ Hr). reflexivity. }
  { change (tabs (vmem s) = zero_tables). rewrite <- (ar_tabs _ Hr). exact (tabs_ctl _ _ (td_ctl _ _ _ _ _ T)). }
  exists s, k1. split; [exact T|]. split; [|split; [exact Hd|]].
  - split; [exact Er|exact Hv|exact Ek].
  - unfold entry. cbv zeta. rewrite (ar_term _ Hr). rewrite Z.eqb_refl. cbn [negb].
    rewrite Er, bind_some. cbn [negb]. rewrite Ek, bind_some. reflexivity.
Qed.

(** Until [keyboard_install] the page of terminal 0 is the one at address 0. *)
Theorem boot_page_zero E k s : at_reset k → told E 0 unpaged (con k) s → page_of s 0 = 0.
Proof. intros Hr T. rewrite (told_page _ _ _ _ _ 0 T). unfold page_of. by rewrite (ar_terms _ Hr). Qed.

(** C6 (booting). From the state the loader leaves, with readable multiboot
    information and a file system image as the last module, [entry]
    - prints the text [boot_text] of that information, on the cleared page that
      terminal 0 has at that time;
    - leaves descriptors that decode to the TSS and the LDT, with their
      selectors and the interrupt table loaded, and every vector leading to its
      handler;
    - sets up the interrupt controllers (timer, keyboard and cascade lines
      open, all others masked), the terminals and paging, clears the screen;
    - and enters user mode in the program "shell" of the image as process 0:
      its own parent on terminal 0, with the standard descriptors, its file in
      memory, and the kernel's invariants in place. *)
Theorem entry_starts_shell E V k X im mbi cmd shell dp hp esp ebp i :
  boot_ok E k im mbi cmd shell dp hp → desc_env_ok V X →
  controller_ready (D := D) → boot_goes_on (kmem k) mbi = true →
  program_entry im k shell 5 = Some i →
  let inode := d_inode (im_dents im).[i] in
  let c := (im_files im).[inode] in
  0 ≤ inode < num_inodes im → 28 ≤ Z.of_nat (length c) ≤ 0x3B8000 → elf_file c = true →
  ∃ s k1 X' k',
    let shell_started := ExUser k' 0 (entry_of c) (USER_MEM_LOCATION + MB4 - 4) in
    entry E V k X MULTIBOOT_BOOTLOADER_MAGIC mbi esp ebp shell dp hp = Some (BootShell X' shell_started) ∧
    boots E V k X mbi cmd s k1 ∧ execute k1 0 esp ebp shell dp hp = Some shell_started ∧
    descriptors_on V X' ∧
    kpic k1 = mk_pic 0xF8 0xFF ∧ tview (con k1) 0 = (replicate 2000 blank, 0, 0) ∧
    fs k1 = boot_fs (kmem k) mbi (fs k) ∧
    kernel_ok (λ _, None) im k' 0 ∧ bytes (kmem k') USER_PROG_LOCATION (Z.of_nat (length c)) = c ∧
    ident (pcbs k').[0] = (0, 0, 0, initial_fds) ∧
    proc_id_used k' = [true; false; false; false; false; false] ∧
    tss_esp0 k' = pcb_addr 0 + KB8 - 4 ∧ tss_ss0 k' = KERNEL_DS.
Proof.
  intros Hb HV Hc Hgo Hpe inode c Hi Hl He.
  destruct (entry_boots E V k X im mbi cmd shell dp hp esp ebp Hb Hc Hgo) as (s & k1 & T & Hbt & Hd & Ee).
  destruct (boot_exec_base _ _ _ _ _ _ _ _ _ _ _ Hb T Hd) as [Hmem Hbase].
  destruct Hb as [Hr Hrd Hin Hfs Hlo Hhi Him Hsh (Hc1 & Hc2 & Hc3) Hdp Hhp Hloc].
  assert (∀ a, region shell 6 a → rd (kmem k1) a = rd (kmem k) a) as Hst.
  { intros a Ha. apply Hmem; [unfold region in Ha; lia|by apply Hc3]. }
  assert (str_at (kmem k1) shell 5) as Hsh1.
  { destruct Hsh as (_ & H1 & H2). split; [lia|]. split.
    - intros j Hj. rewrite Hst by (unfold region; lia). by apply H1.
    - rewrite Hst by (unfold region; lia). exact H2. }
  assert (program_entry im k1 shell 5 = Some i) as Hpe1.
  { rewrite <- Hpe. unfold program_entry, typed.
    assert (bytes (kmem k1) shell 5 = bytes (kmem k) shell 5) as ->; [|reflexivity].
    unfold bytes. apply list_fmap_ext. intros j x Hx. apply lookup_seqZ in Hx as [-> Hx].
    apply Hst. unfold region. lia. }
  assert (proc_id_used k1 = replicate 6 false) as Eu.
  { etransitivity; [exact (dv_used _ _ _ Hd)|]. exact (ar_used _ Hr). }
  destruct (execute_starts (λ a, 0x400000 ≤ a < 0x800000) (λ _, None) im k1 0 0 shell 5 dp hp Hbase)
    with (esp := esp) (ebp := ebp) (i := i) as (k' & Ex & [Sok Ssp Sim _ _ _ _ _ Sst]).
  { by rewrite Eu. } { by rewrite Eu. }
  { split; [exact Hsh1|]. intros a Ha. unfold region in Ha. lia. }
  { lia. } { left. unfold pcb_addr, KERNEL_TOP, KB8. lia. }
  { exact Hdp. } { exact Hhp. } { exact Hloc. }
  { intros _ _. apply (all_mapped_safe _ _ _ _ (eb_safe _ _ _ _ _ Hbase)). intros a Ha. unfold region in Ha. lia. }
  { exact Hpe1. } { exact Hi. } { exact Hl. } { exact He. }
  exists s, k1, (init_descriptors V X), k'. cbv zeta. rewrite Ee, Ex, bind_some.
  split; [reflexivity|]. split; [exact Hbt|]. split; [reflexivity|]. split; [exact (init_descriptors_on V X HV)|].
  split; [exact (dv_pic _ _ _ Hd)|]. split; [exact (dv_screen _ _ _ Hd)|].
  split; [exact (dv_fs _ _ _ Hd)|]. split; [exact Sok|]. split; [exact Sim|].
  split; [exact (sp_new _ _ _ _ _ Ssp)|]. split; [|exact Sst].
  rewrite (sp_used _ _ _ _ _ Ssp), Eu. reflexivity.
Qed.

(** Any other magic number makes [entry] return after its message. *)
Theorem entry_refuses_magic E V k X magic mbi shell dp hp esp ebp :
  ready E 0 unpaged (con k) → p_terminal_id (pcbs k).[0] = 0 →
  0 ≤ magic < 4294967296 → magic ≠ MULTIBOOT_BOOTLOADER_MAGIC →
  ∃ s, entry E V k X magic mbi esp ebp shell dp hp = Some (BootReturn (k <| con := s |>)) ∧
       told E 0 unpaged (con k) s.
Proof.
  intros Hrd Ht Hm Hne. unfold entry. cbv zeta. rewrite Ht, (proj2 (Z.eqb_neq _ _) Hne). cbn [negb].
  pose proof (clear_told E 0 unpaged (con k) (rd_say _ _ _ _ Hrd)) as T1.
  pose proof (ready_told _ _ _ _ _ Hrd T1) as R1.
  destruct (say_tells E 0 unpaged (clear (con k) 0) (line "Invalid magic number: 0x%#x") [magic])
    as (s & -> & T2 & _); [message..|].
  exists s. split; [reflexivity|]. exact (told_trans _ _ _ _ _ _ T1 T2).
Qed.
End EntryProps.

(** ** A concrete boot *)

Definition demo_boot_env : boot_env :=
  mk_boot_env (λ f, 0x490000 + 256 * default 0 (Z.of_nat ∘ fst <$> list_find (λ g, f = g) boot_formats))
    (mk_conv_bufs 0x7FFA00 0x7FFA40 0x7FFA80) 0x7FFAC0.

(** The formats, the multiboot information at 0x4A0000 with a command line, one
    module and a memory map of one entry, and the memory of [kphys]. *)
Definition bphys : gmap Z Z :=
  foldr (λ f m, flat_of (be_fmt demo_boot_env f) (f ++ [0]) ∪ m)
    (flat_of 0x4A0000 ([0x4F; 640; 64512; 0x8000FFFF; 0x4A0100; 1; 0x4A0200; 0; 0; 0; 0; 24; 0x4A0300] ≫= le4)
     ∪ flat_of 0x4A0100 (text "boot" ++ [0])
     ∪ flat_of 0x4A0200 ([0x500000; 0x506000; 0; 0] ≫= le4)
     ∪ flat_of 0x4A0300 ([20; 0; 0; 0xA0000; 0; 1] ≫= le4)
     ∪ kphys) boot_formats.

Definition bmach : mach := mk_mach bphys zero_tables zero_tables 0 false.

Definition reset_kernel : kernel (list (Z * Z)) :=
  mk_kernel (mk_console (replicate 3 zero_terminal) 0 bmach []) demo_kbd (mk_pic 0 0) [0; 0; 0] (mk_fs 0 0)
    (replicate 6 zero_PCB) (replicate 6 false) (replicate 6 false) 0 0 0.

Lemma bmach_rd a : 0 ≤ a < 4294967296 → rd bmach a = rd bphys a.
Proof.
  intros Ha. cbn [rd PagedMem FlatMem]. unfold mach_rd, flat_rd, translate, bmach. cbn [cr0_pg phys].
  by rewrite u32_small.
Qed.

Lemma boot_apart a :
  0x480000 ≤ a < 0x7FF000 → apart unpaged (scratch demo_boot_env) (con reset_kernel) 0 a.
Proof.
  intros Ha. split; [unfold unpaged; lia|]. split.
  - change (page_of (con reset_kernel) 0) with 0. unfold region. lia.
  - unfold scratch, bufs_of, region. cbn. lia.
Qed.

(** All formats are in place. *)
Definition format_check (f : list Z) : bool :=
  bool_decide (bytes bmach (be_fmt demo_boot_env f) (Z.of_nat (length f) + 1) = f ++ [0]) &&
  forallb (λ c, negb (c =? 0)) f && (0x490000 <=? be_fmt demo_boot_env f) &&
  (be_fmt demo_boot_env f + Z.of_nat (length f) <? 0x4A0000).

Lemma formats_checked : forallb format_check boot_formats = true.
Proof. by vm_compute. Qed.

(** The fields of the multiboot information. *)
Lemma boot_fields :
  mbi_flags bmach 0x4A0000 = 0x4F ∧ mbi_cmdline bmach 0x4A0000 = 0x4A0100 ∧
  mbi_mods_count bmach 0x4A0000 = 1 ∧ mbi_mods_addr bmach 0x4A0000 = 0x4A0200 ∧
  mbi_mmap_addr bmach 0x4A0000 = 0x4A0300 ∧ mmap_limit bmach 0x4A0000 = 0x4A0318 ∧
  mmap_size bmach 0x4A0300 = 20 ∧ boot_fs bmach 0x4A0000 (mk_fs 0 0) = kfs ∧
  mod_start bmach 0x4A0200 = 0x500000.
Proof. by vm_compute. Qed.

Lemma boot_cmdline : text_at bmach 0x4A0100 (text "boot").
Proof. apply text_check; by vm_compute. Qed.

Lemma boot_image : fs_rep bphys kfs kimage.
Proof. image_check. Qed.

Lemma boot_shell : str_at bphys 0x480000 5 ∧ bytes bphys 0x480000 5 = nm_shell.
Proof.
  split; [|by vm_compute]. split; [lia|]. split; [|by vm_compute]. intros i Hi.
  assert (forallb (λ i, negb (rd bphys (0x480000 + i) =? 0)) (seqZ 0 5) = true) as H by by vm_compute.
  pose proof (forall_seqZ_true _ _ H i Hi) as Hz. cbv beta in Hz. lia.
Qed.

(** What is printed. *)
Example demo_boot_text :
  boot_text bmach 0x4A0000 (text "boot") =
  line "flags = 0x0000004F" ++
  line "mem_lower = 640KB, mem_upper = 64512KB" ++
  line "boot_device = 0x8000FFFF" ++
  line "cmdline = boot" ++
  line "Module 0 has string: 0x00000000" ++
  line "Module 0 loaded at address: 0x00500000" ++
  line "Module 0 ends at address: 0x00506000" ++
  line "First few bytes of module:" ++
  line "0x4 0x0 0x0 0x0 0x3 0x0 0x0 0x0 0x2 0x0 0x0 0x0 0x0 0x0 0x0 0x0 " ++
  line "mmap_addr = 0x004A0300, mmap_length = 0x18" ++
  line " size = 0x14,     base_addr = 0x0000000000000000" ++
  line "     type = 0x1,  length    = 0x00000000000A0000".
Proof. by vm_compute. Qed.

#[local] Opaque bphys.

Lemma reset_ready : ready demo_boot_env 0 unpaged (con reset_kernel).
Proof.
  split.
  - split.
    + split; [change (0 ≤ 0 < 3); lia| |change (0 ≤ 0 < 80); lia|change (0 ≤ 0 < 25); lia]. change (page_of (con reset_kernel) 0) with 0.
      split; [lia|by apply unpaged_safe|]. intros a. unfold region, unpaged. lia.
    + done.
    + intros a Ha. change (page_of (con reset_kernel) 0) with 0.
      unfold scratch, bufs_of, region, unpaged in *. cbn in Ha. lia.
    + intros a Ha. unfold bufs_of, region in *. cbn in *. lia.
  - intros f Hf. pose proof formats_checked as Hc. rewrite forallb_forall in Hc.
    specialize (Hc f (proj1 (list_elem_of_In _ f) Hf)). unfold format_check in Hc.
    apply andb_prop in Hc as [[[H1 H2]%andb_prop H3]%andb_prop H4].
    split; [exact (text_check _ _ _ H1 H2)|]. split; [lia|]. split; [lia|].
    intros a Ha. apply boot_apart. unfold region in Ha. lia.
Qed.

Lemma reset_info : info_ok demo_boot_env 0 unpaged (con reset_kernel) 0x4A0000 (text "boot").
Proof.
  destruct boot_fields as (E1 & E2 & E3 & E4 & E5 & E6 & E7 & _ & E9).
  change (vmem (con reset_kernel)) with bmach. split.
  - intros b Hb. apply boot_apart. unfold region in Hb. lia.
  - intros _. change (vmem (con reset_kernel)) with bmach. rewrite E2.
    split; [exact boot_cmdline|]. split; [lia|]. split; [cbn; lia|].
    intros b Hb. apply boot_apart. unfold region in Hb. cbn in Hb. lia.
  - intros _. split; change (vmem (con reset_kernel)) with bmach; rewrite ?E3, ?E4; [| |lia|].
    + intros b Hb; apply boot_apart; unfold region in Hb; lia.
    + intros b Hb; apply boot_apart; unfold region in Hb; lia.
    + intros i j Hi Hj. assert (i = 0) as -> by lia. change (0x4A0200 + 16 * 0) with 0x4A0200.
      rewrite E9, u32_small by lia. apply boot_apart. lia.
  - intros _. split; [intros b Hb; apply boot_apart; unfold region in Hb; lia|].
    change (vmem (con reset_kernel)) with bmach. rewrite E5, E6.
    apply mmap_entry; change (vmem (con reset_kernel)) with bmach; rewrite ?E7; [lia| |lia|apply mmap_end; lia].
    intros b Hb. apply boot_apart. unfold region in Hb. lia.
Qed.

Lemma reset_boot_ok : boot_ok demo_boot_env reset_kernel kimage 0x4A0000 (text "boot") 0x480000 0x7FF000 0x7FF100.
Proof.
  destruct boot_fields as (_ & _ & _ & _ & _ & _ & _ & Ef & _). destruct boot_shell as [(H0 & H1 & H2) _].
  split.
  - split; reflexivity.
  - exact reset_ready.
  - exact reset_info.
  - change (boot_fs (kmem reset_kernel) 0x4A0000 (fs reset_kernel)) with (boot_fs bmach 0x4A0000 (mk_fs 0 0)).
    rewrite Ef. change (kmem reset_kernel) with bmach. apply (fs_rep_ext bphys); [|exact boot_image].
    intros a Ha. apply bmach_rd. cbn [kfs fs_base fs_end] in Ha. lia.
  - change (boot_fs _ _ (fs reset_kernel)) with (boot_fs bmach 0x4A0000 (mk_fs 0 0)). rewrite Ef. cbn. lia.
  - change (boot_fs _ _ (fs reset_kernel)) with (boot_fs bmach 0x4A0000 (mk_fs 0 0)). rewrite Ef. cbn. lia.
  - change (boot_fs _ _ (fs reset_kernel)) with (boot_fs bmach 0x4A0000 (mk_fs 0 0)). rewrite Ef.
    intros a Ha. cbn [kfs fs_base fs_end] in Ha. apply boot_apart. lia.
  - change (kmem reset_kernel) with bmach. split; [lia|]. split.
    + intros i Hi. rewrite bmach_rd by lia. by apply H1.
    + rewrite bmach_rd by lia. exact H2.
  - split; [lia|]. split; [lia|]. intros a Ha. apply boot_apart. unfold region in Ha. lia.
  - unfold pcb_addr, KERNEL_TOP, KB8. lia.
  - unfold pcb_addr, KERNEL_TOP, KB8. lia.
  - lia.
Qed.

Lemma trace_controller : controller_ready (D := list (Z * Z)).
Proof.
  intros d. unfold keyboard_set_leds, keyboard_encoder_send_cmd.
  assert (∀ d : list (Z * Z), wait_input d = Some d) as Hw
    by (intros d'; apply while_exit; reflexivity).
  rewrite Hw. cbn [fmap option_fmap option_map]. rewrite bind_some, Hw. by eexists.
Qed.

Lemma boot_program : program_entry kimage reset_kernel 0x480000 5 = Some 2.
Proof.
  unfold program_entry, typed. change (kmem reset_kernel) with bmach.
  assert (bytes bmach 0x480000 5 = nm_shell) as ->; [|by vm_compute].
  rewrite <- (proj2 boot_shell). unfold bytes. apply list_fmap_ext. intros j i Hi.
  apply lookup_seqZ in Hi as [-> Hi]. apply bmach_rd. lia.
Qed.

Definition demo_desc_env : desc_env :=
  mk_desc_env 0x4123C0 31 0x412344 103 demo_haddr (mk_seg_desc 7 7 7 7 1 3 0 9 1 1 1 1 7).
Definition demo_desc_tables : desc_tables :=
  mk_desc_tables (de_local demo_desc_env) (de_local demo_desc_env) (mk_tss 0 0 0) idt_boot 0 0 false.

Lemma demo_desc_ok : desc_env_ok demo_desc_env demo_desc_tables.
Proof. split; [cbn; lia|cbn; lia| |reflexivity]. intros []; cbn; lia. Qed.

Lemma entry_starts_shell_witness :
  ∃ s k1 X' k',
    let shell_started := ExUser k' 0 0x080482A4 (USER_MEM_LOCATION + MB4 - 4) in
    entry demo_boot_env demo_desc_env reset_kernel demo_desc_tables MULTIBOOT_BOOTLOADER_MAGIC 0x4A0000
      0x7FFE00 0x7FFE40 0x480000 0x7FF000 0x7FF100 = Some (BootShell X' shell_started) ∧
    boots demo_boot_env demo_desc_env reset_kernel demo_desc_tables 0x4A0000 (text "boot") s k1 ∧
    execute k1 0 0x7FFE00 0x7FFE40 0x480000 0x7FF000 0x7FF100 = Some shell_started ∧
    descriptors_on demo_desc_env X' ∧
    kpic k1 = mk_pic 0xF8 0xFF ∧ tview (con k1) 0 = (replicate 2000 blank, 0, 0) ∧
    fs k1 = boot_fs (kmem reset_kernel) 0x4A0000 (fs reset_kernel) ∧
    kernel_ok (λ _, None) kimage k' 0 ∧ bytes (kmem k') USER_PROG_LOCATION 43 = demo_elf ∧
    ident (pcbs k').[0] = (0, 0, 0, initial_fds) ∧
    proc_id_used k' = [true; false; false; false; false; false] ∧
    tss_esp0 k' = pcb_addr 0 + KB8 - 4 ∧ tss_ss0 k' = KERNEL_DS.
Proof.
  assert (boot_goes_on (kmem reset_kernel) 0x4A0000 = true) as Hgo.
  { change (kmem reset_kernel) with bmach. unfold boot_goes_on. by rewrite (proj1 boot_fields). }
  exact (entry_starts_shell demo_boot_env demo_desc_env reset_kernel demo_desc_tables kimage
    0x4A0000 (text "boot") 0x480000 0x7FF000 0x7FF100 0x7FFE00 0x7FFE40 2 reset_boot_ok demo_desc_ok trace_controller Hgo
    boot_program ltac:(vm_compute; split; [discriminate|reflexivity])
    ltac:(vm_compute; split; discriminate) eq_refl).
Defined.
