(* ===== verification/User.v ===== *)
(** * The user side: system calls and support library (src/syscalls)

    The system calls as user programs see them ([Syscalls]) and the support
    library ece391support.c.  The programs are in [Programs] and [Syserr].

    [FileService] is what the programs rely on: the contracts of the system
    calls, over an abstract view of the state (what each descriptor is, what
    the terminal shows, the arguments, the lines that will be typed, the clock
    ticks to come).  The kernel's system calls implement it in [UserKernel]. *)

From S2P Require Import Prelude Memory Lib Types Filesystem FsProofs Paging Console ConsoleProps Printf.
From S2P Require Import Keyboard TerminalProofs Typing.
Import (notations) Stdlib.Strings.String.
#[local] Open Scope Z_scope.

(** ece391syscall.h; [int80] is the instruction INT 0x80 with a number in EAX
    and arbitrary other registers.  [None]: the call does not return to the
    program. *)
Class Syscalls (S : Type) `{!ByteMem S} := {
  ece391_read : S → Z → Z → Z → option (S * Z);
  ece391_write : S → Z → Z → Z → option (S * Z);
  ece391_open : S → Z → option (S * Z);
  ece391_close : S → Z → option (S * Z);
  ece391_getargs : S → Z → Z → option (S * Z);
  ece391_vidmap : S → Z → option (S * Z);
  ece391_set_handler : S → Z → Z → option (S * Z);
  int80 : S → Z → option (S * Z)
}.

(** ** The support library *)

Section Support.
Context {S : Type} `{!ByteMem S}.
Implicit Types (s : S).

(** Count up to the NUL, with a running pointer. *)
Definition ece391_strlen s (str : Z) : option Z :=
  while (λ '(p, len), if rd s p =? 0 then inr len else inl (u32 (p + 1), u32 (len + 1))) (str, 0).

Definition ece391_fdputs `{!Syscalls S} s (fd str : Z) : option S :=
  n ← ece391_strlen s str;
  '(s, _) ← ece391_write s fd str (s32 n);
  Some s.

(** Copy up to and including the NUL. *)
Definition ece391_strcpy s (dst src : Z) : option S :=
  while (λ '(s, dst, src),
    let c := rd s src in
    let s := wr s dst c in
    if c =? 0 then inr s else inl (s, u32 (dst + 1), u32 (src + 1))) (s, dst, src).

Definition ece391_strcmp s (s1 s2 : Z) : option Z :=
  while (λ '(s1, s2),
    if rd s s1 =? rd s s2 then
      if rd s s1 =? 0 then inr 0 else inl (u32 (s1 + 1), u32 (s2 + 1))
    else inr (rd s s1 - rd s s2)) (s1, s2).

Definition ece391_strncmp s (s1 s2 n : Z) : option Z :=
  if n =? 0 then Some 0
  else
    while (λ '(s1, s2, n),
      if rd s s1 =? rd s s2 then
        if rd s s1 =? 0 then inr 0
        else
          let n := u32 (n - 1) in
          if n =? 0 then inr 0 else inl (u32 (s1 + 1), u32 (s2 + 1), n)
      else inr (rd s s1 - rd s s2)) (s1, s2, n).

(** In place, from both ends. *)
Definition ece391_strrev s (str : Z) : option S :=
  len ← ece391_strlen s str;
  let end_ := s32 (len - 1) in
  if end_ <=? 0 then Some s
  else
    while (λ '(s, beg, end_),
      if beg <? end_ then
        let tmp := rd s (str + end_) in
        let s := wr s (str + end_) (rd s (str + beg)) in
        let s := wr s (str + beg) tmp in
        inl (s, s32 (beg + 1), s32 (end_ - 1))
      else inr s) (s, 0, end_).

(** The digits of [value], lowest first, then reversed. *)
Definition ece391_itoa s (value buf radix : Z) : option S :=
  if value =? 0 then Some (wr (wr s buf 48) (buf + 1) 0)
  else
    '(s, newbuf) ← while (λ '(s, newbuf, newval),
      if newval >? 0 then
        let i := newval mod u32 radix in
        inl (wr s newbuf lookup_digits.[i], newbuf + 1, newval / u32 radix)
      else inr (s, newbuf)) (s, buf, value);
    ece391_strrev (wr s newbuf 0) buf.
End Support.

(** ** What the system promises *)

Definition user_page : Z → Prop := region USER_MEM_LOCATION 0x400000.

(** What a descriptor stands for. *)
Inductive handle :=
| Closed | Keys | Screen | Clock
| Dir (pos : Z)
| Data (inode pos : Z).
#[export] Instance handle_zero : HasZero handle := Closed.
#[export] Instance handle_eq_dec : EqDecision handle.
Proof. solve_decision. Defined.

Definition opens (e : dent) : handle :=
  if d_type e =? 0 then Clock else if d_type e =? 1 then Dir 64 else Data (d_inode e) 0.

(** Characters and cursor of a terminal. *)
Definition screen : Type := list (Z * Z) * Z * Z.

(** The view a program has of the system: its descriptors, terminal and
    arguments; [sv_lines s ls]: the next lines typed are [ls]; [sv_ticks s n]:
    at least [n] clock ticks are to come. *)
Class ServiceView (S : Type) := {
  sv_ok : S → Prop;
  sv_handle : S → Z → handle;
  sv_screen : S → screen;
  sv_args : S → list Z;
  sv_lines : S → list (list Z) → Prop;
  sv_ticks : S → nat → Prop
}.

Section Contract.
Context {S : Type} `{!ByteMem S, !ServiceView S}.
Implicit Types (s : S).

(** [s'] is [s] with descriptor [fd] changed to [h], the terminal changed by
    [f], the lines [dl] read and [dt] ticks passed. *)
Record does s s' (fd : Z) (h : handle) (f : screen → screen) (dl : list (list Z)) (dt : nat) : Prop := {
  se_ok : sv_ok s';
  se_handle : ∀ j, sv_handle s' j = if decide (j = fd) then h else sv_handle s j;
  se_screen : sv_screen s' = f (sv_screen s);
  se_args : sv_args s' = sv_args s;
  se_lines : ∀ ls, sv_lines s (dl ++ ls) → sv_lines s' ls;
  se_ticks : ∀ n, sv_ticks s (dt + n) → sv_ticks s' n
}.

(** Only [fd] changes, and [out] is printed. *)
Definition serves s s' (fd : Z) (h : handle) (out : list Z) : Prop :=
  does s s' fd h (print_spec out) [] 0.

(** User memory is kept outside of [A]. *)
Definition keeps s s' (A : Z → Prop) : Prop := ∀ a, user_page a → ¬ A a → rd s' a = rd s a.

(** The call changes nothing. *)
Definition quiet s s' : Prop := serves s s' 0 (sv_handle s 0) [] ∧ keeps s s' (λ _, False).

(** The call returns -1 and changes nothing. *)
Definition refused s (o : option (S * Z)) : Prop := ∃ s', o = Some (s', -1) ∧ quiet s s'.

(** A string of the program. *)
Definition user_string s (a : Z) (l : list Z) : Prop :=
  text_at s a l ∧ ∀ b, region a (Z.of_nat (length l) + 1) b → user_page b.

Definition lookup_file (im : fs_image) (name : list Z) : option Z :=
  if decide (Z.of_nat (length name) ≤ 32) then lookup_name (im_dents im) name else None.

(** The flags that [read] and [write] look at before they check [fd] are near
    the descriptor table (the multiplication by the size of an entry wraps). *)
Definition near_fd (fd : Z) : Prop := -2048 ≤ s32 (20 * fd) ≤ 2048.
End Contract.

(** The contracts, for the file system image [im]. *)
Class FileService (S : Type) `{!ByteMem S, !Syscalls S, !ServiceView S} (im : fs_image) := {
  fs_safe : ∀ s, sv_ok s → safe s user_page;
  fs_store : ∀ s a v, sv_ok s → user_page a →
    serves s (wr s a v) 0 (sv_handle s 0) [];
  fs_args : ∀ s, sv_ok s →
    Z.of_nat (length (sv_args s)) < 128 ∧ Forall (λ c, 0 < c < 256) (sv_args s);
  fs_getargs : ∀ s buf n,
    sv_ok s → Z.of_nat (length (sv_args s)) < n < 2147483648 →
    (∀ a, region buf n a → user_page a) →
    ∃ s', ece391_getargs s buf n = Some (s', 0) ∧ serves s s' 0 (sv_handle s 0) [] ∧
      user_string s' buf (sv_args s) ∧
      keeps s s' (region buf (Z.of_nat (length (sv_args s)) + 1));
  fs_open : ∀ s a name,
    sv_ok s → user_string s a name →
    match lookup_file im name with
    | Some i =>
        (∃ j, 2 ≤ j < 8 ∧ sv_handle s j = Closed) →
        ∃ s' fd, ece391_open s a = Some (s', fd) ∧ 2 ≤ fd < 8 ∧ sv_handle s fd = Closed ∧
          (∀ j, 2 ≤ j < fd → sv_handle s j ≠ Closed) ∧
          serves s s' fd (opens (im_dents im).[i]) [] ∧ keeps s s' (λ _, False)
    | None => refused s (ece391_open s a)
    end;
  fs_open_full : ∀ s a name,
    sv_ok s → user_string s a name → (∀ j, 2 ≤ j < 8 → sv_handle s j ≠ Closed) →
    refused s (ece391_open s a);
  fs_close : ∀ s fd,
    sv_ok s → 2 ≤ fd < 8 → sv_handle s fd ≠ Closed →
    ∃ s', ece391_close s fd = Some (s', 0) ∧ serves s s' fd Closed [] ∧ keeps s s' (λ _, False);
  fs_close_bad : ∀ s fd,
    sv_ok s → fd < 2 ∨ 8 ≤ fd ∨ sv_handle s fd = Closed → refused s (ece391_close s fd);
  fs_read_data : ∀ s fd buf n inode pos,
    sv_ok s → sv_handle s fd = Data inode pos →
    0 ≤ inode < num_inodes im → 0 ≤ pos ≤ 2147483648 →
    0 < n → (∀ a, region buf n a → user_page a) →
    let c := (im_files im).[inode] in
    let v := deliver (Z.of_nat (length c)) pos n in
    ∃ s', ece391_read s fd buf n = Some (s', v) ∧ serves s s' fd (Data inode (pos + v)) [] ∧
      bytes s' buf v = slice c pos n ∧ keeps s s' (region buf v);
  fs_read_dir : ∀ s fd buf n i,
    sv_ok s → sv_handle s fd = Dir (64 * (i + 1)) → 0 ≤ i →
    0 < n → (∀ a, region buf n a → user_page a) →
    if decide (i < num_entries im) then
      let nm := d_name (im_dents im).[i] in
      let v := Z.min (Z.min n 32) (Z.of_nat (length nm)) in
      ∃ s', ece391_read s fd buf n = Some (s', v) ∧ serves s s' fd (Dir (64 * (i + 2))) [] ∧
        bytes s' buf v = slice nm 0 v ∧ keeps s s' (region buf v)
    else
      ∃ s', ece391_read s fd buf n = Some (s', 0) ∧ serves s s' fd (Dir (64 * (i + 1))) [] ∧
        keeps s s' (λ _, False);
  fs_read_keys : ∀ s fd buf n line ls,
    sv_ok s → sv_handle s fd = Keys → sv_lines s (line :: ls) →
    0 ≤ n < 2147483648 → region USER_MEM_LOCATION (0x400000 - 129) buf →
    let v := Z.min n (Z.of_nat (length line) + 1) in
    ∃ s', ece391_read s fd buf n = Some (s', v) ∧ does s s' fd Keys (echo_spec line) [line] 0 ∧
      bytes s' buf v = take (Z.to_nat v) (line ++ [KEYBOARD_LINEFEED]) ∧ rd s' (buf + v) = 0 ∧
      keeps s s' (region buf (v + 1));
  fs_lines : ∀ s line ls,
    sv_lines s (line :: ls) → (length line ≤ 127)%nat ∧ Forall (λ c, 0 < c < 256) line;
  fs_read_clock : ∀ s fd buf n k,
    sv_ok s → sv_handle s fd = Clock → sv_ticks s (Datatypes.S k) → user_page buf →
    ∃ s', ece391_read s fd buf n = Some (s', 0) ∧ does s s' fd Clock (λ v, v) [] 1 ∧
      keeps s s' (λ _, False);
  fs_write_clock : ∀ s fd buf,
    sv_ok s → sv_handle s fd = Clock → (∀ a, region buf 4 a → user_page a) →
    ∃ s', ece391_write s fd buf 4 = Some (s', 0) ∧ serves s s' fd Clock [] ∧ keeps s s' (λ _, False);
  fs_write : ∀ s fd buf n k,
    sv_ok s → sv_handle s fd = Screen → printable s buf n k → n < 0x400000 →
    (∀ a, region buf n a → user_page a) → USER_MEM_LOCATION ≤ buf ≤ USER_MEM_LOCATION + 0x400000 →
    ∃ s', ece391_write s fd buf n = Some (s', k) ∧ serves s s' fd Screen (bytes s buf k) ∧
      keeps s s' (λ _, False);
  fs_bad_fd : ∀ s fd buf n,
    sv_ok s → sv_handle s fd = Closed → near_fd fd → user_page buf →
    refused s (ece391_read s fd buf n) ∧ refused s (ece391_write s fd buf n);
  fs_write_keys : ∀ s fd buf n,
    sv_ok s → sv_handle s fd = Keys → user_page buf → refused s (ece391_write s fd buf n);
  fs_read_screen : ∀ s fd buf n,
    sv_ok s → sv_handle s fd = Screen → user_page buf → refused s (ece391_read s fd buf n);
  fs_vidmap_bad : ∀ s a, sv_ok s → 0 ≤ a < 0x800000 → refused s (ece391_vidmap s a);
  fs_set_handler : ∀ s signum handler, sv_ok s →
    ∃ s', ece391_set_handler s signum handler = Some (s', 0) ∧ quiet s s';
  fs_bad_number : ∀ s n, sv_ok s → s32 n < 1 ∨ 10 < s32 n → refused s (int80 s n);
  fs_null : ∀ s, sv_ok s → cell s 0 = None;
  fs_names : ∀ s, sv_ok s → ∀ i, 0 ≤ i < num_entries im → name_ok (im_dents im).[i];
  fs_count : ∀ s, sv_ok s → num_entries im ≤ 63;
  fs_sizes : ∀ s, sv_ok s → ∀ i, 0 ≤ i < num_inodes im →
    Z.of_nat (length (im_files im).[i]) ≤ 4096 * 1023
}.
