(* ===== verification/Programs.v ===== *)
(** * User programs (src/syscalls)

    cat, ls, testprint, hello, counter, grep and pingpong.  A program is a
    function from the state in which it is entered to the state and the status
    with which its [main] returns; the addresses of its local arrays and string
    constants are parameters. *)

From S2P Require Import Prelude Memory Lib Printf User.
Import (notations) Stdlib.Strings.String.
#[local] Open Scope Z_scope.

Section Programs.
Context {S : Type} `{!ByteMem S} `{!Syscalls S}.
(** The address of a string constant. *)
Context (str : list Z → Z).
Implicit Types (s : S).

(** The loop of cat's [main]. *)
Definition cat_step (fd buf : Z) s : S + option (S * Z) :=
  match ece391_read s fd buf 1024 with
  | None => inr None
  | Some (s, cnt) =>
      if cnt =? 0 then inr (Some (s, 0))
      else if cnt =? -1 then
        inr (s ← ece391_fdputs s 1 (str (text "file read failed" ++ [10])); Some (s, 3))
      else
        match ece391_write s 1 buf cnt with
        | None => inr None
        | Some (s, r) => if r =? -1 then inr (Some (s, 3)) else inl s
        end
  end.

(** ece391cat.c *)
Definition cat (buf : Z) s : option (S * Z) :=
  '(s, r) ← ece391_getargs s buf 1024;
  if negb (r =? 0) then
    s ← ece391_fdputs s 1 (str (text "could not read arguments" ++ [10])); Some (s, 3)
  else
    '(s, fd) ← ece391_open s buf;
    if fd =? -1 then
      s ← ece391_fdputs s 1 (str (text "file not found" ++ [10])); Some (s, 2)
    else
      r ← while (cat_step fd buf) s;
      r.

(** The loop of ls's [main]. *)
Definition ls_step (fd buf : Z) s : S + option (S * Z) :=
  match ece391_read s fd buf 32 with
  | None => inr None
  | Some (s, cnt) =>
      if cnt =? 0 then inr (Some (s, 0))
      else if cnt =? -1 then
        inr (s ← ece391_fdputs s 1 (str (text "directory entry read failed" ++ [10])); Some (s, 3))
      else
        let s := wr s (u32 (buf + cnt)) 10 in
        match ece391_write s 1 buf (cnt + 1) with
        | None => inr None
        | Some (s, r) => if r =? -1 then inr (Some (s, 3)) else inl s
        end
  end.

(** ece391ls.c *)
Definition ls (buf : Z) s : option (S * Z) :=
  '(s, fd) ← ece391_open s (str (text "."));
  if fd =? -1 then
    s ← ece391_fdputs s 1 (str (text "directory open failed" ++ [10])); Some (s, 2)
  else
    r ← while (ls_step fd buf) s;
    r.

(** ece391testprint.c *)
Definition testprint s : option (S * Z) :=
  s ← ece391_fdputs s 1 (str (text "Hello, if this ran, the program was correct. Yay!" ++ [10]));
  Some (s, 0).

(** ece391hello.c *)
Definition hello (buf : Z) s : option (S * Z) :=
  s ← ece391_fdputs s 1 (str (text "Hi, what's your name? "));
  '(s, cnt) ← ece391_read s 0 buf 1023;
  if cnt =? -1 then
    s ← ece391_fdputs s 1 (str (text "Can't read name from keyboard." ++ [10])); Some (s, 3)
  else
    let s := wr s (u32 (buf + cnt)) 0 in
    s ← ece391_fdputs s 1 (str (text "Hello, "));
    s ← ece391_fdputs s 1 buf;
    Some (s, 0).

(** The counting loop of counter's [main]. *)
Definition count_step (max buf : Z) (st : S * Z) : (S * Z) + option S :=
  let '(s, i) := st in
  if i <? max then
    match
      s ← ece391_itoa s (u32 (i + 1)) buf 10;
      s ← ece391_fdputs s 1 buf;
      ece391_fdputs s 1 (str [10])
    with
    | None => inr None
    | Some s => inl (s, u32 (i + 1))
    end
  else inr (Some s).

(** The [switch] on the first character. *)
Definition count_max (c : Z) : Z :=
  if c =? 48 then 100 else if c =? 49 then 10000 else if c =? 50 then 100000 else 0.

(** Refuse the choice or count. *)
Definition counter_run (wrong : bool) (buf : Z) s : option (S * Z) :=
  if wrong then
    s ← ece391_fdputs s 1 (str (text "Wrong Choice!" ++ [10])); Some (s, 0)
  else
    o ← while (count_step (count_max (rd s buf)) buf) (s, 0);
    s ← o;
    Some (s, 0).

(** ece391counter.c; [cnt] is unsigned. *)
Definition counter (buf : Z) s : option (S * Z) :=
  s ← ece391_fdputs s 1
    (str (text "Enter the Test Number: (0): 100, (1): 10000, (2): 100000" ++ [10]));
  '(s, cnt) ← ece391_read s 0 buf 1023;
  let cnt := u32 cnt in
  if cnt =? u32 (-1) then
    s ← ece391_fdputs s 1 (str (text "Can't read the number from keyboard." ++ [10])); Some (s, 3)
  else
    let s := wr s (u32 (buf + cnt)) 0 in
    len ← ece391_strlen s buf;
    counter_run ((len >? 2) || ((len =? 2) && ((rd s buf <? 48) || (rd s buf >? 50)))) buf s.

(** ** grep *)

(** The end of the line that starts at [line_start]. *)
Definition grep_end (data last line_start : Z) s : option Z :=
  while (λ line_end,
    if (line_end <? last) && negb (rd s (data + line_end) =? 10) then inl (s32 (line_end + 1))
    else inr line_end) line_start.

(** [fname:line] *)
Definition grep_print (fname line : Z) s : option S :=
  s ← ece391_fdputs s 1 fname;
  s ← ece391_fdputs s 1 (str (text ":"));
  s ← ece391_fdputs s 1 line;
  ece391_fdputs s 1 (str [10]).

(** Search one line; [pat] has type [char*], so its first character is signed. *)
Definition grep_check (pat fname data line_start line_end s_len : Z) s : option S :=
  o ← while (λ check,
    if check <? line_end then
      if s8 (rd s pat) =? rd s (data + check) then
        match ece391_strncmp s (data + check) pat (u32 s_len) with
        | None => inr None
        | Some r =>
            if r =? 0 then inr (grep_print fname (data + line_start) s)
            else inl (s32 (check + 1))
        end
      else inl (s32 (check + 1))
    else inr (Some s)) line_start;
  o.

(** The loop over the lines in the buffer; it ends with the new [last]. *)
Definition grep_lines_step (pat fname data cnt s_len last : Z) (st : S * Z)
    : (S * Z) + option (S * Z) :=
  let '(s, line_start) := st in
  match grep_end data last line_start s with
  | None => inr None
  | Some line_end =>
      if negb (rd s (data + line_end) =? 10) && negb (cnt =? 0) && negb (line_start =? 0) then
        let s := wr s (data + line_end) 0 in
        inr (s ← ece391_strcpy s data (data + line_start); Some (s, s32 (last - line_start)))
      else
        let s := wr s (data + line_end) 0 in
        match grep_check pat fname data line_start line_end s_len s with
        | None => inr None
        | Some s =>
            let line_start := s32 (line_end + 1) in
            if line_start >=? last then inr (Some (s, 0)) else inl (s, line_start)
        end
  end.

(** The loop over the file; [false]: a read failed. *)
Definition grep_file_step (pat fname data fd s_len : Z) (st : S * Z) : (S * Z) + option (S * bool) :=
  let '(s, last) := st in
  match ece391_read s fd (data + last) (s32 (1024 - last)) with
  | None => inr None
  | Some (s, cnt) =>
      if cnt =? -1 then
        inr (s ← ece391_fdputs s 1 (str (text "file read failed" ++ [10])); Some (s, false))
      else
        match while (grep_lines_step pat fname data cnt s_len (s32 (last + cnt))) (s, 0) with
        | Some (Some (s, last)) => if cnt =? 0 then inr (Some (s, true)) else inl (s, last)
        | _ => inr None
        end
  end.

Definition do_one_file (data pat fname : Z) s : option (S * Z) :=
  s_len ← ece391_strlen s pat;
  let s_len := s32 s_len in
  '(s, fd) ← ece391_open s fname;
  if fd =? -1 then
    s ← ece391_fdputs s 1 (str (text "file open failed" ++ [10])); Some (s, -1)
  else
    o ← while (grep_file_step pat fname data fd s_len) (s, 0);
    '(s, ok) ← o;
    if negb ok then Some (s, -1)
    else
      '(s, r) ← ece391_close s fd;
      if r =? -1 then
        s ← ece391_fdputs s 1 (str (text "file close failed" ++ [10])); Some (s, -1)
      else Some (s, 0).

(** The loop over the directory. *)
Definition grep_step (data search buf fd : Z) s : S + option (S * Z) :=
  match ece391_read s fd buf 32 with
  | None => inr None
  | Some (s, cnt) =>
      if cnt =? 0 then inr (Some (s, 0))
      else if cnt =? -1 then
        inr (s ← ece391_fdputs s 1 (str (text "directory entry read failed" ++ [10])); Some (s, 3))
      else if rd s buf =? 46 then inl s
      else
        let s := wr s (u32 (buf + cnt)) 0 in
        match do_one_file data search buf s with
        | None => inr None
        | Some (s, r) => if negb (r =? 0) then inr (Some (s, 3)) else inl s
        end
  end.

(** ece391grep.c; [data] is the buffer of [do_one_file]. *)
Definition grep (data search buf : Z) s : option (S * Z) :=
  '(s, r) ← ece391_getargs s search 1024;
  if negb (r =? 0) then
    s ← ece391_fdputs s 1 (str (text "could not read argument" ++ [10])); Some (s, 3)
  else
    '(s, fd) ← ece391_open s (str (text "."));
    if fd =? -1 then
      s ← ece391_fdputs s 1 (str (text "directory open failed" ++ [10])); Some (s, 2)
    else
      r ← while (grep_step data search buf fd) s;
      r.

(** ** pingpong *)

(** [for (i = STARTLOOP; i < LOOPMAX; i++) buf[i] = ' ';] *)
Definition pp_clear (buf : Z) s : S := for_loop 76 2 (λ i s, wr s (buf + i) 32) s.

(** Draw the character in column [j] and wait for a tick. *)
Definition pp_frame (buf garbage rtc_fd curchar j : Z) s : option S :=
  let s := pp_clear buf s in
  let s := wr s (buf + j) curchar in
  s ← ece391_fdputs s 1 buf;
  '(s, _) ← ece391_read s rtc_fd garbage 4;
  Some s.

(** Once out and back. *)
Definition pp_round (buf garbage rtc_fd curchar : Z) s : option S :=
  s ← for_loop 76 2 (λ j o, s ← o; pp_frame buf garbage rtc_fd curchar j s) (Some s);
  for_loop 76 0 (λ n o, s ← o; pp_frame buf garbage rtc_fd curchar (77 - n) s) (Some s).

Definition next_char (curchar : Z) : Z := if curchar =? 90 then 65 else u8 (curchar + 1).

(** The first [n] rounds of the endless loop. *)
Fixpoint pp_rounds (buf garbage rtc_fd : Z) (n : nat) (curchar : Z) s : option S :=
  match n with
  | O => Some s
  | Datatypes.S n =>
      s ← pp_round buf garbage rtc_fd curchar s;
      pp_rounds buf garbage rtc_fd n (next_char curchar) s
  end.

(** ece391pingpong.c up to the end of round [n]. *)
Definition pingpong (buf ret_val garbage : Z) (n : nat) s : option S :=
  let s := for_loop 81 0 (λ i s, wr s (buf + i) 32) s in
  let s := wr s (buf + 80) 0 in
  let s := wr s (buf + 79) 10 in
  let s := wr s (buf + 78) 124 in
  let s := wr s (buf + 1) 124 in
  '(s, rtc_fd) ← ece391_open s (str (text "rtc"));
  let s := store32 s ret_val 32 in
  '(s, r) ← ece391_write s rtc_fd ret_val 4;
  let s := store32 s ret_val r in
  pp_rounds buf garbage rtc_fd n 65 s.
End Programs.

