(* ===== verification/Syserr.v ===== *)
(** * The system-call tests (src/syscalls/ece391syserr.c)

    Every test of the program syserr and its [main], as functions from the
    state to the state and the value returned (0 when the test passes, 2 when
    it fails). *)

From S2P Require Import Prelude Memory Lib Printf User.
Import (notations) Stdlib.Strings.String.
#[local] Open Scope Z_scope.

Definition NEG_FD : Z := -1073741823.
Definition BIG_FD : Z := 1073741823.
Definition BIG_NUM : Z := 1073741823.
Definition NEG_NUM : Z := -1073741823.

Section Tests.
Context {S : Type} `{!ByteMem S} `{!Syscalls S}.
(** The address of a string constant, and of the buffers. *)
Context (str : list Z → Z).
Implicit Types (s : S) (fail buf : Z).

Definition call_sys s (num : Z) : option (S * Z) := int80 s num.

(** [if (-1 != call) { fail = 2; ece391_fdputs(1, msg); }] *)
Definition expect (call : option (S * Z)) (msg : list Z) fail : option (S * Z) :=
  '(s, r) ← call;
  if negb (r =? -1) then s ← ece391_fdputs s 1 (str msg); Some (s, 2) else Some (s, fail).

(** The verdict at the end of a test. *)
Definition verdict (no yes : list Z) s fail : option (S * Z) :=
  if negb (fail =? 0) then s ← ece391_fdputs s 1 (str no); Some (s, fail)
  else s ← ece391_fdputs s 1 (str yes); Some (s, fail).

(** Test 1 *)
Definition err_neg_fd buf s : option (S * Z) :=
  '(s, fail) ← expect (ece391_read s NEG_FD buf 31) (text "read fail" ++ [10]) 0;
  '(s, fail) ← expect (ece391_write s NEG_FD buf 31) (text "write fail" ++ [10]) fail;
  '(s, fail) ← expect (ece391_close s NEG_FD) (text "close fail" ++ [10]) fail;
  verdict (text "err_neg_fd: FAIL" ++ [10]) (text "err_neg_fd: PASS" ++ [10]) s fail.

(** Test 2 *)
Definition err_big_fd buf s : option (S * Z) :=
  '(s, fail) ← expect (ece391_read s BIG_FD buf 31) (text "read fail" ++ [10]) 0;
  '(s, fail) ← expect (ece391_write s BIG_FD buf 31) (text "write fail" ++ [10]) fail;
  '(s, fail) ← expect (ece391_close s BIG_FD) (text "close fail" ++ [10]) fail;
  verdict (text "err_big_fd: FAIL" ++ [10]) (text "err_big_fd: PASS" ++ [10]) s fail.

(** Test 3: the two loops, and the verdict on the number of refused opens. *)
Definition open_seven s : option (S * Z) :=
  for_loop 7 0 (λ _ o,
    '(s, cnt) ← o;
    '(s, fd) ← ece391_open s (str (text "."));
    Some (s, if fd =? -1 then s32 (cnt + 1) else cnt)) (Some (s, 0)).

Definition close_six s : option S :=
  for_loop 6 2 (λ i o, s ← o; fst <$> ece391_close s i) (Some s).

Definition err_open_lots s : option (S * Z) :=
  '(s, cnt) ← open_seven s;
  s ← close_six s;
  if cnt =? 1 then s ← ece391_fdputs s 1 (str (text "err_open_lots: PASS" ++ [10])); Some (s, 0)
  else s ← ece391_fdputs s 1 (str (text "err_open_lots: FAIL" ++ [10])); Some (s, 2).

(** Test 4 *)
Definition err_open s : option (S * Z) :=
  '(s, fail) ← expect (ece391_open s (str (text "helloo"))) (text "'helloo' fail" ++ [10]) 0;
  '(s, fail) ← expect (ece391_open s (str (text "shel"))) (text "'shel' fail" ++ [10]) fail;
  '(s, fail) ← expect (ece391_open s (str [])) (text "empty string fail" ++ [10]) fail;
  verdict (text "err_open: FAIL" ++ [10]) (text "err_open: PASS" ++ [10]) s fail.

(** Test 5 *)
Definition err_unopened buf s : option (S * Z) :=
  '(s, fail) ← for_loop 8 0 (λ i o, '(s, fail) ← o;
    expect (ece391_close s i) (text "close unopened or invalid fd fail" ++ [10]) fail) (Some (s, 0));
  '(s, fail) ← for_loop 6 2 (λ i o, '(s, fail) ← o;
    expect (ece391_read s i buf 31) (text "read from unopened fd fail" ++ [10]) fail) (Some (s, fail));
  '(s, fail) ← for_loop 6 2 (λ i o, '(s, fail) ← o;
    expect (ece391_write s i buf 31) (text "write to unopened fd fail" ++ [10]) fail) (Some (s, fail));
  verdict (text "err_unopened: FAIL" ++ [10]) (text "err_unopened: PASS" ++ [10]) s fail.

(** Test 6 *)
Definition err_vidmap s : option (S * Z) :=
  '(s, fail) ← expect (ece391_vidmap s 0) (text "Null pointer fail" ++ [10]) 0;
  '(s, fail) ← expect (ece391_vidmap s 0x400000) (text "Kernel pointer fail fail" ++ [10]) fail;
  verdict (text "err_vidmap: FAIL" ++ [10]) (text "err_vidmap: PASS" ++ [10]) s fail.

(** Test 7 *)
Definition err_stdin_out buf s : option (S * Z) :=
  '(s, fail) ← expect (ece391_write s 0 buf 31) (text "write to stdin fail" ++ [10]) 0;
  '(s, fail) ← expect (ece391_read s 1 buf 31) (text "read from stdout fail" ++ [10]) fail;
  verdict (text "err_stdin_out: FAIL" ++ [10]) (text "err_stdin_out: PASS" ++ [10]) s fail.

(** Test 8 *)
Definition err_syscall_num s : option (S * Z) :=
  '(s, fail) ← expect (call_sys s BIG_NUM) (text "syscall 0 fail" ++ [10]) 0;
  '(s, fail) ← expect (call_sys s NEG_NUM) (text "big num syscall fail" ++ [10]) fail;
  '(s, fail) ← expect (call_sys s 0) (text "neg num syscall fail" ++ [10]) fail;
  verdict (text "err_syscall_num: FAIL" ++ [10]) (text "err_syscall_num: PASS" ++ [10]) s fail.

(** The choice 0 of [main]: all tests, added up. *)
Definition all_tests tbuf s : option (S * Z) :=
  '(s, f1) ← err_neg_fd tbuf s;
  '(s, f2) ← err_big_fd tbuf s;
  '(s, f3) ← err_open_lots s;
  '(s, f4) ← err_open s;
  '(s, f5) ← err_unopened tbuf s;
  '(s, f6) ← err_vidmap s;
  '(s, f7) ← err_stdin_out tbuf s;
  '(s, f8) ← err_syscall_num s;
  verdict ([10] ++ text "Overall Tests: FAIL" ++ [10]) ([10] ++ text "Overall Tests: PASS" ++ [10]) s
    (f1 + f2 + f3 + f4 + f5 + f6 + f7 + f8).

(** [tbuf]: the local buffer of the tests. *)
Definition syserr buf tbuf s : option (S * Z) :=
  s ← ece391_fdputs s 1 (str (text "Choose from tests 1-8. 0 to run all: "));
  '(s, cnt) ← ece391_read s 0 buf 127;
  if cnt =? -1 then
    s ← ece391_fdputs s 1 (str (text "Can't read test #" ++ [10])); Some (s, 2)
  else
    let select := rd s buf - 48 in
    if select =? 0 then all_tests tbuf s
    else if select =? 1 then err_neg_fd tbuf s
    else if select =? 2 then err_big_fd tbuf s
    else if select =? 3 then err_open_lots s
    else if select =? 4 then err_open s
    else if select =? 5 then err_unopened tbuf s
    else if select =? 6 then err_vidmap s
    else if select =? 7 then err_stdin_out tbuf s
    else if select =? 8 then err_syscall_num s
    else
      s ← ece391_fdputs s 1 (str (text "Invalid test number. Choose from tests 1-8 or 0"));
      Some (s, 0).
End Tests.
