(* ===== verification/UserLogic.v ===== *)
(** * Reasoning about user programs

    The support library's strings and output, and a small logic for programs
    that run on any system that keeps the contracts of [FileService]. *)

From S2P Require Import Prelude Memory Lib Types Filesystem FsProofs Paging Console ConsoleProps Printf.
From S2P Require Import Keyboard TerminalProofs Typing User.
Import (notations) Stdlib.Strings.String.
#[local] Open Scope Z_scope.

(** Decide membership in a list of constants. *)
Ltac lit := apply (bool_decide_unpack _); vm_compute; exact I.

(** A counting loop over a body that may not return. *)
Lemma for_loop_some {A} (g : Z → A → option A) n i a a' :
  g i a = Some a' →
  for_loop (Datatypes.S n) i (λ j o, x ← o; g j x) (Some a) = for_loop n (i + 1) (λ j o, x ← o; g j x) (Some a').
Proof. intros E. cbn. by rewrite E. Qed.

Lemma for_loop_app {A} (body : Z → A → A) (n1 n2 : nat) : ∀ i a,
  for_loop (n1 + n2) i body a = for_loop n2 (i + Z.of_nat n1) body (for_loop n1 i body a).
Proof.
  induction n1 as [|n1 IH]; intros i a; [by rewrite Z.add_0_r|].
  cbn [Nat.add for_loop]. rewrite IH. f_equal. lia.
Qed.

(** ** Texts *)

Lemma aget_take (l : list Z) n i : i < Z.of_nat n → (take n l).[i] = l.[i].
Proof. intros Hi. unfold aget. destruct (Z.leb_spec 0 i); [|done]. by rewrite lookup_take_lt by lia. Qed.

(** A buffer up to its first NUL, as [write] prints it. *)
Fixpoint upto_nul (l : list Z) : list Z :=
  match l with [] => [] | c :: l => if c =? 0 then [] else c :: upto_nul l end.

Lemma upto_nul_all l : Forall (λ c, c ≠ 0) l → upto_nul l = l.
Proof.
  induction 1 as [|c l Hc _ IH]; [done|]. cbn. rewrite (proj2 (Z.eqb_neq _ _) Hc). by rewrite IH.
Qed.

Lemma upto_nul_get l :
  let k := Z.of_nat (length (upto_nul l)) in
  k ≤ Z.of_nat (length l) ∧ take (length (upto_nul l)) l = upto_nul l ∧
  (∀ i, 0 ≤ i < k → l.[i] ≠ 0) ∧ (k = Z.of_nat (length l) ∨ l.[k] = 0).
Proof.
  induction l as [|c l IH]; cbn [upto_nul].
  { split; [done|]. split; [done|]. split; [cbn; intros; lia|by left]. }
  destruct (Z.eqb_spec c 0) as [->|Hc].
  { split; [cbn; lia|]. split; [done|]. split; [cbn; intros; lia|by right]. }
  destruct IH as (H1 & H2 & H3 & H4). cbn [length]. split; [lia|]. split; [cbn; by rewrite H2|]. split.
  - intros i Hi. destruct (decide (i = 0)) as [->|Hne]; [done|].
    rewrite (aget_app_r [c] l) by (cbn; lia). apply H3. cbn [length] in *. lia.
  - destruct H4 as [H4|H4]; [left; lia|right].
    rewrite (aget_app_r [c] l) by (cbn [length]; lia). rewrite <- H4.
    f_equal. cbn [length]. lia.
Qed.

Lemma print_spec_app o1 o2 v : print_spec o2 (print_spec o1 v) = print_spec (o1 ++ o2) v.
Proof. unfold print_spec. by rewrite fold_left_app. Qed.

(** ** Directories *)

(** What the first entries contribute, one entry further. *)
Lemma bind_take_snoc (f : dent → list Z) (l : list dent) i :
  0 ≤ i < Z.of_nat (length l) →
  (take (Z.to_nat i) l ≫= f) ++ f l.[i] = take (Z.to_nat (i + 1)) l ≫= f.
Proof.
  intros Hi. replace (Z.to_nat (i + 1)) with (Datatypes.S (Z.to_nat i)) by lia.
  rewrite (take_S_r _ _ l.[i]) by (rewrite lookup_aget by lia; do 2 f_equal; lia).
  rewrite bind_app. cbn. by rewrite app_nil_r.
Qed.

Lemma name_chars e : name_ok e → Forall (λ c, 0 < c < 256) (d_name e).
Proof.
  intros [_ H]. apply Forall_lookup. intros j x Hx.
  pose proof (lookup_lt_Some _ _ _ Hx) as Hlt. rewrite lookup_aget in Hx by done.
  apply (inj Some) in Hx as <-. apply H. lia.
Qed.

(** How far a directory still has to be read. *)
Definition left_entries (im : fs_image) (h : handle) : Z :=
  match h with Dir pos => 64 * (num_entries im + 2) - pos | _ => 0 end.

(** ** The support library: strings *)

Section Strings.
Context {S : Type} `{!ByteMem S}.
Implicit Types (s : S) (a b n : Z) (l : list Z).

(** The byte at offset [i] of a text, its NUL included. *)
Lemma text_at_get s a l i :
  text_at s a l → 0 ≤ i ≤ Z.of_nat (length l) →
  rd s (a + i) = l.[i] ∧ (l.[i] = 0 ↔ i = Z.of_nat (length l)).
Proof.
  intros [(_ & Hnz & Hz) Hb] Hi. destruct (decide (i = Z.of_nat (length l))) as [->|Hne].
  - rewrite Hz, aget_past by lia. done.
  - assert (l.[i] = rd s (a + i)) as El.
    { rewrite <- Hb at 1. apply aget_lookup; [lia|]. rewrite bytes_lookup by lia. do 2 f_equal. lia. }
    split; [done|]. specialize (Hnz i ltac:(lia)). split; intros; [congruence|lia].
Qed.

Lemma ece391_strlen_spec s a n :
  str_at s a n → 0 ≤ a → a + n < 4294967296 → ece391_strlen s a = Some n.
Proof.
  intros (Hn & Hnz & Hz) Ha Hb. unfold ece391_strlen.
  apply (while_eq _ (λ '(p, len), 0 ≤ len ≤ n ∧ p = a + len) (λ '(_, len), n - len)).
  - intros [p len] [H _]. lia.
  - intros [p len] [H ->]. destruct (decide (len = n)) as [->|Hne].
    + rewrite Hz. done.
    + rewrite (proj2 (Z.eqb_neq _ _) (Hnz len ltac:(lia))). rewrite !u32_small by lia. lia.
  - lia.
  - lia.
Qed.

(** A buffer with a NUL behind it. *)
Lemma text_of_bytes s a l :
  bytes s a (Z.of_nat (length l)) = l → Forall (λ c, c ≠ 0) l → rd s (a + Z.of_nat (length l)) = 0 →
  text_at s a l.
Proof.
  intros Hb Hnz Hz. apply text_at_intro; [|done]. intros i Hi. split; [|by apply Forall_aget_nz].
  rewrite <- Hb. symmetry. apply aget_lookup; [lia|]. rewrite bytes_lookup by lia. do 2 f_equal. lia.
Qed.

(** [ece391_strcmp] compares byte by byte and finds equality. *)
Lemma ece391_strcmp_spec s a b l1 l2 :
  text_at s a l1 → text_at s b l2 → 0 ≤ a → 0 ≤ b →
  a + Z.of_nat (length l1) < 4294967296 → b + Z.of_nat (length l2) < 4294967296 →
  ∃ r, ece391_strcmp s a b = Some r ∧ (r = 0 ↔ l1 = l2).
Proof.
  intros H1 H2 Ha Hb Ea Eb. unfold ece391_strcmp.
  apply (while_total _
    (λ '(p, q), ∃ i, p = a + i ∧ q = b + i ∧ 0 ≤ i ≤ Z.of_nat (length l1) ∧ i ≤ Z.of_nat (length l2) ∧
       ∀ j, 0 ≤ j < i → l1.[j] = l2.[j])
    (λ '(p, _), a + Z.of_nat (length l1) - p)).
  - intros [p q] (i & -> & -> & Hi & _). lia.
  - intros [p q] (i & -> & -> & Hi & Hi2 & Heq).
    destruct (text_at_get s a l1 i H1 Hi) as [R1 Z1]. destruct (text_at_get s b l2 i H2 ltac:(lia)) as [R2 Z2].
    rewrite R1, R2. destruct (Z.eqb_spec l1.[i] l2.[i]) as [E|Hne].
    + destruct (Z.eqb_spec l1.[i] 0) as [E0|Hn0].
      * split; [|done]. intros _. apply aget_ext; [lia|]. intros j Hj. apply Heq. lia.
      * assert (i ≠ Z.of_nat (length l1)) by tauto.
        assert (i ≠ Z.of_nat (length l2)) by (rewrite E in Hn0; tauto).
        rewrite !u32_small by lia. split; [|lia]. exists (i + 1). split; [lia|]. split; [lia|].
        split; [lia|]. split; [lia|]. intros j Hj. destruct (decide (j = i)) as [->|]; [done|]. apply Heq. lia.
    + split; [lia|]. intros ->. done.
  - exists 0. split; [lia|]. split; [lia|]. split; [lia|]. split; [lia|]. intros j Hj. lia.
  - lia.
Qed.

(** [ece391_strncmp] finds out whether two texts agree on their first [n]
    characters. *)
Lemma ece391_strncmp_spec s a b l1 l2 n :
  text_at s a l1 → text_at s b l2 → 0 ≤ a → 0 ≤ b → 0 ≤ n < 4294967296 →
  a + Z.of_nat (length l1) < 4294967296 → b + Z.of_nat (length l2) < 4294967296 →
  ∃ r, ece391_strncmp s a b n = Some r ∧ (r = 0 ↔ take (Z.to_nat n) l1 = take (Z.to_nat n) l2).
Proof.
  intros H1 H2 Ha Hb Hn Ea Eb. unfold ece391_strncmp. destruct (Z.eqb_spec n 0) as [->|Hn0]; [by exists 0|].
  apply (while_total _
    (λ '(p, q, k), ∃ i, p = a + i ∧ q = b + i ∧ k = n - i ∧ 0 < k ∧ 0 ≤ i ≤ Z.of_nat (length l1) ∧
       i ≤ Z.of_nat (length l2) ∧ ∀ j, 0 ≤ j < i → l1.[j] = l2.[j])
    (λ '(p, _, _), a + Z.of_nat (length l1) - p)).
  - intros [[p q] k] (i & -> & -> & _ & _ & Hi & _). lia.
  - intros [[p q] k] (i & -> & -> & -> & Hk & Hi & Hi2 & Heq).
    destruct (text_at_get s a l1 i H1 Hi) as [R1 Z1]. destruct (text_at_get s b l2 i H2 ltac:(lia)) as [R2 Z2].
    rewrite R1, R2. destruct (Z.eqb_spec l1.[i] l2.[i]) as [E|Hne].
    + assert (∀ j, 0 ≤ j < i + 1 → l1.[j] = l2.[j]) as Heq'.
      { intros j Hj. destruct (decide (j = i)) as [->|]; [done|]. apply Heq. lia. }
      destruct (Z.eqb_spec l1.[i] 0) as [E0|Hz].
      * split; [|done]. intros _. f_equal. apply aget_ext; [lia|]. intros j Hj. apply Heq. lia.
      * assert (i ≠ Z.of_nat (length l1)) by tauto.
        assert (i ≠ Z.of_nat (length l2)) by (rewrite E in Hz; tauto).
        cbv zeta. rewrite (u32_small (n - i - 1)) by lia. destruct (Z.eqb_spec (n - i - 1) 0).
        -- split; [|done]. intros _. apply aget_ext; rewrite ?length_take; [lia|].
           intros j Hj. rewrite !aget_take by lia. apply Heq'. lia.
        -- rewrite !u32_small by lia. split; [|lia]. exists (i + 1). split; [lia|]. split; [lia|].
           split; [lia|]. split; [lia|]. split; [lia|]. split; [lia|done].
    + split; [lia|]. intros E. contradict Hne. rewrite <- (aget_take l1 (Z.to_nat n)) by lia.
      rewrite E. apply aget_take. lia.
  - exists 0. split; [lia|]. split; [lia|]. split; [lia|]. split; [lia|]. split; [lia|]. split; [lia|].
    intros j Hj. lia.
  - lia.
Qed.

(** [ece391_strcpy] copies a text and its NUL, also downwards onto itself. *)
Lemma ece391_strcpy_spec P I s dst src l :
  safe s P → text_at s src l → 0 ≤ src → src + Z.of_nat (length l) < 4294967295 →
  0 ≤ dst → dst + Z.of_nat (length l) < 4294967295 →
  (∀ a, region src (Z.of_nat (length l) + 1) a → P a) →
  (∀ a, region dst (Z.of_nat (length l) + 1) a → P a) →
  dst ≤ src ∨ src + Z.of_nat (length l) < dst →
  wr_closed (region dst (Z.of_nat (length l) + 1)) I → I s →
  ∃ s', ece391_strcpy s dst src = Some s' ∧
        written P s s' dst (Z.of_nat (length l) + 1) (λ j, l.[j]) ∧ I s'.
Proof.
  intros Hs Ht Hs0 Hs1 Hd0 Hd1 HPs HPd Hdis HI HIs. unfold ece391_strcpy.
  apply (while_total _
    (λ '(s', d, p), ∃ i, d = dst + i ∧ p = src + i ∧ 0 ≤ i ≤ Z.of_nat (length l) ∧
       written P s s' dst i (λ j, l.[j]) ∧ I s')
    (λ '(_, _, p), src + Z.of_nat (length l) - p)).
  - intros [[s' d] p] (i & -> & -> & Hi & _). lia.
  - intros [[s' d] p] (i & -> & -> & Hi & Hw & HI'). cbv zeta.
    destruct (text_at_get s src l i Ht Hi) as [R Z0].
    rewrite (written_out _ _ _ _ _ _ _ Hw), R by (lia || (apply HPs; unfold region; lia)).
    assert (0 ≤ l.[i] < 256) as Hr by (rewrite <- R; apply rd_range).
    assert (written P s (wr s' (dst + i) l.[i]) dst (i + 1) (λ j, l.[j])) as Hw'.
    { apply written_snoc; [done| |lia|done|by rewrite u8_small].
      intros a Ha. apply HPd. unfold region in *. lia. }
    assert (I (wr s' (dst + i) l.[i])) as HIw by (apply HI; [done|unfold region; lia]).
    destruct (Z.eqb_spec l.[i] 0) as [E0|Hn0].
    + assert (i = Z.of_nat (length l)) as -> by tauto. by split.
    + assert (i ≠ Z.of_nat (length l)) by tauto. rewrite !u32_small by lia.
      split; [|lia]. exists (i + 1). split; [lia|]. split; [lia|]. split; [lia|done].
  - exists 0. split; [lia|]. split; [lia|]. split; [lia|]. split; [by apply written_0|done].
  - lia.
Qed.

(** ** The support library: numbers *)

(** On a string, [ece391_strrev] and the kernel's [strrev] are the same. *)
Lemma ece391_strrev_eq s a n :
  str_at s a n → 0 ≤ a → a + n < 4294967296 → n < 2147483648 → ece391_strrev s a = strrev s a.
Proof.
  intros Hs Ha Hb Hn. unfold ece391_strrev, strrev. assert (0 ≤ n) by apply Hs.
  rewrite (ece391_strlen_spec s a n Hs Ha Hb), bind_some, (strlen_str_at s a n Hs) by lia.
  rewrite s32_small by lia. destruct (Z.leb_spec (n - 1) 0) as [Hle|]; [|done].
  symmetry. apply while_exit. by rewrite (proj2 (Z.ltb_ge 0 (n - 1))) by lia.
Qed.

(** [ece391_itoa] writes the digits of the number and a NUL. *)
Lemma ece391_itoa_text P I s v buf r :
  0 ≤ v < 4294967296 → 2 ≤ r ≤ 36 → safe s P → (∀ a, region buf 33 a → P a) →
  0 ≤ buf → buf + 33 < 4294967296 → wr_closed (region buf 33) I → I s →
  ∃ s', ece391_itoa s v buf r = Some s' ∧ text_at s' buf (num_text 32 r v) ∧
    1 ≤ Z.of_nat (length (num_text 32 r v)) ≤ 32 ∧
    (∀ b, P b → ¬ region buf 33 b → rd s' b = rd s b) ∧ I s'.
Proof.
  intros Hv Hr Hs HP Hb0 Hb1 HI HIs.
  assert (ece391_itoa s v buf r = itoa s v buf r) as ->.
  { unfold ece391_itoa, itoa. destruct (Z.eqb_spec v 0) as [|Hv0]; [done|].
    change (while _ (s, buf, v)) with (while (itoa_loop r) (s, buf, v)).
    destruct (itoa_loop_digits P (λ _, True) s v buf r) as (s1 & k & -> & Hk & _ & Hw & _);
      [lia|done|done|done|done|done|]. rewrite bind_some.
    destruct (itoa_loop_string P s s1 v buf r k Hr Hs HP Hk Hw) as (_ & _ & Hstr).
    apply (ece391_strrev_eq _ _ k Hstr); lia. }
  destruct (itoa_text_inv P I s v buf r Hv Hr Hs HP HI HIs) as (s' & E & Ht & _ & Hl & _ & _ & Hk & HI').
  exists s'. split; [exact E|]. split; [exact Ht|]. split; [lia|]. by split.
Qed.
End Strings.

Section Clients.
Context {S : Type} `{!ByteMem S, !Syscalls S, !ServiceView S} {im : fs_image} `{!FileService S im}.
Implicit Types (s : S) (fd buf a n : Z).

(** ** Runs *)

(** [s'] is [s] after a program printed [out] and left descriptor 1 and the
    input to come alone. *)
Record ran s s' (out : list Z) : Prop := {
  ra_ok : sv_ok s';
  ra_out : sv_handle s' 1 = Screen;
  ra_screen : sv_screen s' = print_spec out (sv_screen s);
  ra_lines : ∀ ls, sv_lines s ls → sv_lines s' ls;
  ra_ticks : ∀ nt, sv_ticks s nt → sv_ticks s' nt
}.

Lemma serves_keep s s' h j out : serves s s' h (sv_handle s h) out → sv_handle s' j = sv_handle s j.
Proof. intros Hs. rewrite (se_handle _ _ _ _ _ _ _ Hs). case_decide; [by subst|done]. Qed.

Lemma serves_ran s0 s s' fd h out out' :
  ran s0 s out → serves s s' fd h out' → fd ≠ 1 ∨ h = Screen → ran s0 s' (out ++ out').
Proof.
  intros [H1 H2 H3 H4 H5] Hs Hfd. split; [apply Hs| | | |].
  - rewrite (se_handle _ _ _ _ _ _ _ Hs). case_decide as Hd; [|done]. destruct Hfd; [by subst|done].
  - by rewrite (se_screen _ _ _ _ _ _ _ Hs), H3, print_spec_app.
  - intros ls Hl. by apply (se_lines _ _ _ _ _ _ _ Hs), H4.
  - intros nt Hn. by apply (se_ticks _ _ _ _ _ _ _ Hs), H5.
Qed.

(** A call that changes no descriptor and prints nothing. *)
Lemma quiet_ran s0 s s' out : ran s0 s out → serves s s' 0 (sv_handle s 0) [] → ran s0 s' out.
Proof.
  intros Hr Hs. rewrite <- (app_nil_r out). apply (serves_ran s0 s s' 0 _ out [] Hr Hs). by left.
Qed.

(** ** The support library *)

Lemma user_string_range s a l :
  user_string s a l →
  USER_MEM_LOCATION ≤ a ∧ a + Z.of_nat (length l) + 1 ≤ USER_MEM_LOCATION + 0x400000.
Proof.
  intros [_ H]. pose proof (H a ltac:(unfold region; lia)) as H1.
  pose proof (H (a + Z.of_nat (length l)) ltac:(unfold region; lia)) as H2.
  unfold user_page, region in *. lia.
Qed.

Lemma user_string_keeps s s' A a l :
  keeps s s' A → (∀ b, region a (Z.of_nat (length l) + 1) b → ¬ A b) →
  user_string s a l → user_string s' a l.
Proof.
  intros Hk HA [Ht Hu]. split; [|done]. revert Ht. apply text_at_ext. intros i Hi. apply Hk.
  - apply Hu. unfold region. lia.
  - apply HA. unfold region. lia.
Qed.

Lemma user_string_same s s' a l : keeps s s' (λ _, False) → user_string s a l → user_string s' a l.
Proof. intros Hk. apply (user_string_keeps s s' (λ _, False)); [done|]. by intros b _ []. Qed.

Lemma keeps_chain s1 s2 s3 A : keeps s1 s2 A → keeps s2 s3 A → keeps s1 s3 A.
Proof. intros H1 H2 a Ha Hn. by rewrite H2, H1. Qed.

Lemma keeps_sub s s' (A A' : Z → Prop) : keeps s s' A → (∀ a, A a → A' a) → keeps s s' A'.
Proof. intros H HA a Ha Hn. apply H; [done|]. intros HAa. by apply Hn, HA. Qed.

Lemma fdputs_spec s fd a l :
  sv_ok s → sv_handle s fd = Screen → user_string s a l →
  ∃ s', ece391_fdputs s fd a = Some s' ∧ serves s s' fd Screen l ∧ keeps s s' (λ _, False).
Proof.
  intros Hok Hh Hu. pose proof (user_string_range _ _ _ Hu) as Hr. unfold USER_MEM_LOCATION in Hr.
  destruct Hu as [[Hs Hb] Hu]. unfold ece391_fdputs.
  rewrite (ece391_strlen_spec s a _ Hs) by lia. rewrite bind_some, s32_small by lia.
  destruct (fs_write s fd a (Z.of_nat (length l)) (Z.of_nat (length l))) as (s' & E & Hse & Hk);
    [done|done| |lia| |unfold USER_MEM_LOCATION; lia|].
  - split; [lia|apply Hs|by left].
  - intros b Hb'. apply Hu. unfold region in *. lia.
  - rewrite E, bind_some. exists s'. split; [done|]. by rewrite Hb in Hse.
Qed.

(** Writing a buffer prints it up to its first NUL. *)
Lemma write_buffer s fd buf n :
  sv_ok s → sv_handle s fd = Screen → 0 ≤ n < 0x400000 →
  (∀ a, region buf n a → user_page a) → USER_MEM_LOCATION ≤ buf ≤ USER_MEM_LOCATION + 0x400000 →
  ∃ s' k, ece391_write s fd buf n = Some (s', k) ∧ 0 ≤ k ∧
    serves s s' fd Screen (upto_nul (bytes s buf n)) ∧ keeps s s' (λ _, False).
Proof.
  intros Hok Hh Hn Hu Hb. set (l := bytes s buf n).
  assert (Z.of_nat (length l) = n) as Hl by (unfold l, bytes; rewrite length_fmap, length_seqZ; lia).
  assert (∀ i, 0 ≤ i < n → l.[i] = rd s (buf + i)) as Hg.
  { intros i Hi. apply aget_lookup; [lia|]. unfold l. rewrite bytes_lookup by lia. do 2 f_equal. lia. }
  destruct (upto_nul_get l) as (H1 & H2 & H3 & H4). set (k := Z.of_nat (length (upto_nul l))) in *.
  destruct (fs_write s fd buf n k) as (s' & E & Hse & Hk); [done|done| |lia|done|done|].
  - split; [lia| |].
    + intros i Hi. rewrite <- Hg by lia. by apply H3.
    + destruct H4 as [H4|H4]; [left; lia|]. destruct (decide (k = n)) as [|Hne]; [by left|right].
      rewrite <- Hg by lia. exact H4.
  - exists s', k. split; [done|]. split; [lia|]. split; [|done].
    assert (bytes s buf k = upto_nul l) as Eb; [|by rewrite Eb in Hse].
    rewrite <- H2. apply aget_ext.
    + unfold bytes. rewrite length_fmap, length_seqZ, length_take. lia.
    + intros i Hi. unfold bytes in Hi. rewrite length_fmap, length_seqZ in Hi.
      rewrite (aget_lookup _ i (rd s (buf + i))).
      * symmetry. apply aget_lookup; [lia|]. rewrite lookup_take_lt by lia.
        unfold l. rewrite bytes_lookup by lia. do 2 f_equal. lia.
      * lia.
      * rewrite bytes_lookup by lia. do 2 f_equal. lia.
Qed.
Lemma bytes_put s buf v c :
  safe s user_page → 0 ≤ v → (∀ a, region buf (v + 1) a → user_page a) → 0 ≤ c < 256 →
  bytes (wr s (buf + v) c) buf (v + 1) = bytes s buf v ++ [c].
Proof.
  intros Hs Hv Hu Hc. unfold bytes. rewrite (seqZ_app 0 v 1) by lia. rewrite fmap_app. f_equal.
  - apply list_fmap_ext. intros j a Ha. apply lookup_seqZ in Ha as [-> Ha].
    rewrite (rd_wr_safe s user_page) by (done || (apply Hu; unfold region; lia)).
    by rewrite decide_False by lia.
  - rewrite seqZ_cons, seqZ_nil, Z.add_0_l by lia. cbn [fmap list_fmap map].
    rewrite (rd_wr_safe s user_page) by (done || (apply Hu; unfold region; lia)).
    rewrite decide_True by lia. by rewrite u8_small.
Qed.

(** ** Worlds

    What a program knows of the system, as one value: a call that returns
    takes the state from one world to another. *)

Record world := mk_world {
  w_fds : list handle;
  w_screen : screen;
  w_args : list Z;
  w_lines : list (list Z);
  w_ticks : nat
}.

Record sees s (w : world) : Prop := {
  wo_ok : sv_ok s;
  wo_len : length (w_fds w) = 8%nat;
  wo_fds : ∀ j, sv_handle s j = (w_fds w).[j];
  wo_screen : sv_screen s = w_screen w;
  wo_args : sv_args s = w_args w;
  wo_lines : sv_lines s (w_lines w);
  wo_ticks : sv_ticks s (w_ticks w)
}.

(** The descriptors of a program that has opened nothing. *)
Definition std_fds : list handle := [Keys; Screen; Closed; Closed; Closed; Closed; Closed; Closed].

(** [out] is printed. *)
Definition w_print (out : list Z) (w : world) : world :=
  mk_world (w_fds w) (print_spec out (w_screen w)) (w_args w) (w_lines w) (w_ticks w).

(** Descriptor [fd] becomes [h]. *)
Definition w_set (fd : Z) (h : handle) (w : world) : world :=
  mk_world (w_fds w).[fd <- h] (w_screen w) (w_args w) (w_lines w) (w_ticks w).

(** The first line is typed and echoed, and [ls] are still to come. *)
Definition w_type (line : list Z) (ls : list (list Z)) (w : world) : world :=
  mk_world (w_fds w) (echo_spec line (w_screen w)) (w_args w) ls (w_ticks w).

(** [nt] ticks pass. *)
Definition w_wait (nt : nat) (w : world) : world :=
  mk_world (w_fds w) (w_screen w) (w_args w) (w_lines w) (w_ticks w - nt).

Lemma w_print_app o1 o2 w : w_print o2 (w_print o1 w) = w_print (o1 ++ o2) w.
Proof. unfold w_print. cbn. by rewrite print_spec_app. Qed.
Lemma w_print_nil w : w_print [] w = w.
Proof. by destruct w. Qed.
Lemma w_wait_wait (n1 n2 : nat) w : w_wait n1 (w_wait n2 w) = w_wait (n2 + n1) w.
Proof. unfold w_wait. cbn. f_equal. lia. Qed.
Lemma w_print_wait out (nt : nat) w : w_print out (w_wait nt w) = w_wait nt (w_print out w).
Proof. done. Qed.
Lemma w_wait_0 w : w_wait 0 w = w.
Proof. unfold w_wait. destruct w. cbn. f_equal. lia. Qed.
Lemma w_set_print fd h out w : w_set fd h (w_print out w) = w_print out (w_set fd h w).
Proof. done. Qed.
Lemma w_set_set fd h h' w : w_set fd h (w_set fd h' w) = w_set fd h w.
Proof. unfold w_set. cbn. by rewrite aset_aset. Qed.
Lemma w_set_same fd w : w_set fd (w_fds w).[fd] w = w.
Proof. unfold w_set. rewrite aset_same. by destruct w. Qed.

Lemma sees_does s s' w fd h f dl dt ls nt :
  sees s w → does s s' fd h f dl dt → 0 ≤ fd < 8 →
  w_lines w = dl ++ ls → w_ticks w = (dt + nt)%nat →
  sees s' (mk_world (w_fds w).[fd <- h] (f (w_screen w)) (w_args w) ls nt).
Proof.
  intros [H1 H2 H3 H4 H5 H6 H7] [D1 D2 D3 D4 D5 D6] Hfd El En. split; cbn.
  - done.
  - by rewrite length_aset.
  - intros j. rewrite D2. case_decide as Hj.
    + subst j. by rewrite aget_aset_eq by lia.
    + by rewrite aget_aset_ne by done.
  - by rewrite D3, H4.
  - by rewrite D4.
  - apply D5. by rewrite <- El.
  - apply D6. by rewrite <- En.
Qed.

Lemma sees_serves s s' w fd h out :
  sees s w → serves s s' fd h out → 0 ≤ fd < 8 → sees s' (w_print out (w_set fd h w)).
Proof. intros Hs Hd Hfd. by apply (sees_does s s' w fd h _ [] 0 (w_lines w) (w_ticks w)) in Hd. Qed.

Lemma sees_quiet s s' w : sees s w → serves s s' 0 (sv_handle s 0) [] → sees s' w.
Proof.
  intros Hs Hd. apply (sees_serves s s' w) in Hd; [|done|lia].
  by rewrite (wo_fds _ _ Hs), w_print_nil, w_set_same in Hd.
Qed.

(** ** A program with string constants [lits] and local variables in [B] *)

Section Running.
Context (str : list Z → Z) (lits : list (list Z)) (B : Z → Prop).

Record running s (w : world) : Prop := {
  ru_sees : sees s w;
  ru_lits : ∀ l, l ∈ lits → user_string s (str l) l;
  ru_apart : ∀ l, l ∈ lits → ∀ a, region (str l) (Z.of_nat (length l) + 1) a → ¬ B a
}.

Lemma running_step s s' w w' A :
  running s w → sees s' w' → keeps s s' A → (∀ a, A a → B a) → running s' w'.
Proof.
  intros [H1 H2 H3] Hs Hk HA. split; [done| |done]. intros l Hl.
  apply (user_string_keeps s s' A); [done| |by apply H2]. intros b Hb HAb. by apply (H3 l Hl b Hb), HA.
Qed.

Lemma running_still s s' w w' :
  running s w → sees s' w' → keeps s s' (λ _, False) → running s' w'.
Proof. intros Hr Hs Hk. by apply (running_step s s' w w' (λ _, False)). Qed.

(** Printing a string. *)
Lemma say_string s w a l :
  running s w → (w_fds w).[1] = Screen → user_string s a l →
  ∃ s', ece391_fdputs s 1 a = Some s' ∧ running s' (w_print l w) ∧ keeps s s' (λ _, False).
Proof.
  intros Hr H1 Hu. pose proof (ru_sees _ _ Hr) as Hs.
  destruct (fdputs_spec s 1 a l) as (s' & E & Hse & Hk);
    [apply Hs|by rewrite (wo_fds _ _ Hs)|done|].
  exists s'. split; [done|]. split; [|done]. apply (running_still s s' w); [done| |done].
  apply (sees_serves s s' w) in Hse; [|done|lia]. rewrite <- H1, w_set_same in Hse. exact Hse.
Qed.

Lemma say s w l :
  running s w → (w_fds w).[1] = Screen → l ∈ lits →
  ∃ s', ece391_fdputs s 1 (str l) = Some s' ∧ running s' (w_print l w) ∧ keeps s s' (λ _, False).
Proof. intros Hr H1 Hl. apply say_string; [done|done|by apply Hr]. Qed.

(** A call that is refused. *)
Lemma refused_running s w o :
  running s w → refused s o → ∃ s', o = Some (s', -1) ∧ running s' w ∧ keeps s s' (λ _, False).
Proof.
  intros Hr (s' & E & Hq & Hk). exists s'. split; [done|]. split; [|done].
  apply (running_still s s' w); [done| |done]. apply (sees_quiet s); [apply Hr|done].
Qed.

(** A file is opened at the lowest free descriptor, and closed. *)
Definition lowest (fd : Z) w : Prop :=
  2 ≤ fd < 8 ∧ (w_fds w).[fd] = Closed ∧ ∀ j, 2 ≤ j < fd → (w_fds w).[j] ≠ Closed.

Lemma serves_running s s' w fd h :
  running s w → serves s s' fd h [] → keeps s s' (λ _, False) → 0 ≤ fd < 8 → running s' (w_set fd h w).
Proof.
  intros Hr Hse Hk Hfd. apply (running_still s s' w); [done| |done].
  rewrite <- (w_print_nil (w_set fd h w)). apply (sees_serves s s'); [apply Hr|done|done].
Qed.

Lemma open_file s w a name i fd :
  running s w → user_string s a name → lookup_file im name = Some i → lowest fd w →
  ∃ s', ece391_open s a = Some (s', fd) ∧ running s' (w_set fd (opens (im_dents im).[i]) w) ∧
    keeps s s' (λ _, False).
Proof.
  intros Hr Hu Hl (Hfd & Hc & Hlow). pose proof (ru_sees _ _ Hr) as Hs.
  pose proof (fs_open s a name (wo_ok _ _ Hs) Hu) as Ho. rewrite Hl in Ho.
  destruct Ho as (s' & fd' & E & Hfd' & Hc' & Hlow' & Hse & Hk).
  { exists fd. split; [done|]. by rewrite (wo_fds _ _ Hs). }
  assert (fd' = fd) as ->.
  { rewrite (wo_fds _ _ Hs) in Hc'. destruct (Z.lt_trichotomy fd' fd) as [Hlt|[|Hlt]]; [|done|].
    - by destruct (Hlow fd' ltac:(lia)).
    - destruct (Hlow' fd ltac:(lia)). by rewrite (wo_fds _ _ Hs). }
  exists s'. split; [done|]. split; [|done]. apply (serves_running s s' w); [done|done|done|lia].
Qed.

Lemma open_missing s w a name :
  running s w → user_string s a name → lookup_file im name = None → refused s (ece391_open s a).
Proof.
  intros Hr Hu Hl. pose proof (fs_open s a name (wo_ok _ _ (ru_sees _ _ Hr)) Hu) as Ho. by rewrite Hl in Ho.
Qed.

Lemma close_file s w fd :
  running s w → 2 ≤ fd < 8 → (w_fds w).[fd] ≠ Closed →
  ∃ s', ece391_close s fd = Some (s', 0) ∧ running s' (w_set fd Closed w) ∧ keeps s s' (λ _, False).
Proof.
  intros Hr Hfd Hc. pose proof (ru_sees _ _ Hr) as Hs.
  destruct (fs_close s fd (wo_ok _ _ Hs)) as (s' & E & Hse & Hk); [done|by rewrite (wo_fds _ _ Hs)|].
  exists s'. split; [done|]. split; [|done]. apply (serves_running s s' w); [done|done|done|lia].
Qed.

(** A store to a local variable. *)
Lemma keeps_wr s a v : sv_ok s → user_page a → keeps s (wr s a v) (region a 1).
Proof.
  intros Hok Ha b Hb Hn. rewrite (rd_wr_safe s user_page) by (done || by apply fs_safe).
  rewrite decide_False; [done|]. intros ->. apply Hn. unfold region. lia.
Qed.

Lemma store_running s w a v :
  running s w → user_page a → B a → running (wr s a v) w ∧ keeps s (wr s a v) (region a 1).
Proof.
  intros Hr Ha HB. pose proof (wo_ok _ _ (ru_sees _ _ Hr)) as Hok.
  split; [|by apply keeps_wr]. apply (running_step s _ w w (region a 1)); [done| |by apply keeps_wr|].
  - apply (sees_quiet s); [apply Hr|by apply fs_store].
  - intros b Hb. assert (b = a) as -> by (unfold region in Hb; lia). done.
Qed.

Lemma running_wr_closed w : wr_closed (λ a, user_page a ∧ B a) (λ s, running s w).
Proof. intros s a v Hr [Ha HB]. by apply store_running. Qed.

(** A line is read from the keyboard into a local array. *)
Lemma read_line s w buf n line ls :
  running s w → (w_fds w).[0] = Keys → w_lines w = line :: ls →
  0 ≤ n < 2147483648 → region USER_MEM_LOCATION (0x400000 - 129) buf →
  (∀ a, region buf (Z.min n (Z.of_nat (length line) + 1) + 1) a → B a) →
  let v := Z.min n (Z.of_nat (length line) + 1) in
  ∃ s', ece391_read s 0 buf n = Some (s', v) ∧ running s' (w_type line ls w) ∧
    bytes s' buf v = take (Z.to_nat v) (line ++ [10]) ∧ rd s' (buf + v) = 0 ∧
    keeps s s' (region buf (v + 1)).
Proof.
  intros Hr H0 Hl Hn Hb HB v. pose proof (ru_sees _ _ Hr) as Hs.
  destruct (fs_read_keys s 0 buf n line ls) as (s' & E & Hd & Hby & Hz & Hk);
    [apply Hs|by rewrite (wo_fds _ _ Hs)|rewrite <- Hl; apply Hs|done|done|].
  exists s'. split; [done|]. split; [|done]. apply (running_step s s' w _ (region buf (v + 1))); [done| |done|done].
  apply (sees_does s s' w 0 Keys _ _ _ ls (w_ticks w)) in Hd; [|done|lia|done|done].
  unfold w_type. rewrite <- H0, aset_same in Hd. exact Hd.
Qed.

(** A file is read into a local array. *)
Lemma read_file s w fd buf n inode pos :
  running s w → 0 ≤ fd < 8 → (w_fds w).[fd] = Data inode pos → 0 ≤ inode < num_inodes im →
  0 ≤ pos ≤ 2147483648 → 0 < n → (∀ a, region buf n a → user_page a ∧ B a) →
  let c := (im_files im).[inode] in
  let v := deliver (Z.of_nat (length c)) pos n in
  ∃ s', ece391_read s fd buf n = Some (s', v) ∧ running s' (w_set fd (Data inode (pos + v)) w) ∧
    bytes s' buf v = slice c pos n ∧ keeps s s' (region buf v).
Proof.
  intros Hr Hfd Hh Hin Hpos Hn HB c v. pose proof (ru_sees _ _ Hr) as Hs.
  destruct (fs_read_data s fd buf n inode pos) as (s' & E & Hse & Hb & Hk);
    [apply Hs|by rewrite (wo_fds _ _ Hs)|done|done|done|intros a Ha; by apply HB|].
  exists s'. split; [exact E|]. split; [|by split].
  apply (running_step s s' w _ (region buf v)); [done| |done|].
  - rewrite <- (w_print_nil (w_set _ _ _)). by apply (sees_serves s s').
  - intros a Ha. apply HB. unfold region, v, deliver in *. lia.
Qed.

(** A directory entry is read into a local array of 32 bytes. *)
Lemma read_entry s w fd buf i :
  running s w → 0 ≤ fd < 8 → (w_fds w).[fd] = Dir (64 * (i + 1)) → 0 ≤ i →
  (∀ a, region buf 32 a → user_page a ∧ B a) →
  if decide (i < num_entries im) then
    let nm := d_name (im_dents im).[i] in
    let v := Z.of_nat (length nm) in
    ∃ s', ece391_read s fd buf 32 = Some (s', v) ∧ running s' (w_set fd (Dir (64 * (i + 2))) w) ∧
      bytes s' buf v = nm ∧ keeps s s' (region buf v)
  else ∃ s', ece391_read s fd buf 32 = Some (s', 0) ∧ running s' w ∧ keeps s s' (λ _, False).
Proof.
  intros Hr Hfd Hh Hi HB. pose proof (ru_sees _ _ Hr) as Hs.
  pose proof (fs_read_dir s fd buf 32 i (wo_ok _ _ Hs)) as H. rewrite (wo_fds _ _ Hs) in H.
  specialize (H Hh Hi ltac:(lia) (λ a Ha, proj1 (HB a Ha))). case_decide as Hd.
  - intros nm v. destruct (fs_names s (wo_ok _ _ Hs) i (conj Hi Hd)) as [Hl _]. fold nm in Hl. cbv zeta in H. fold nm v in H.
    replace (Z.min (Z.min 32 32) v) with v in H by lia. destruct H as (s' & E & Hse & Hb & Hk). exists s'. split; [done|].
    split; [|split; [|done]].
    + apply (running_step s s' w _ (region buf v)); [done| |done|].
      * rewrite <- (w_print_nil (w_set _ _ _)). by apply (sees_serves s s').
      * intros a Ha. apply HB. unfold region in *. lia.
    + rewrite Hb. unfold slice. rewrite Z2Nat.inj_0, drop_0. apply take_ge. lia.
  - destruct H as (s' & E & Hse & Hk). exists s'. split; [done|]. split; [|done].
    rewrite <- (w_set_same fd w), Hh. by apply (serves_running s s').
Qed.

(** A tick of the clock. *)
Lemma wait_tick s w fd buf n :
  running s w → 0 ≤ fd < 8 → (w_fds w).[fd] = Clock → (1 ≤ w_ticks w)%nat → user_page buf →
  ∃ s', ece391_read s fd buf n = Some (s', 0) ∧ running s' (w_wait 1 w) ∧ keeps s s' (λ _, False).
Proof.
  intros Hr Hfd Hc Ht Hu. pose proof (ru_sees _ _ Hr) as Hs.
  destruct (w_ticks w) as [|nt] eqn:Et; [lia|].
  destruct (fs_read_clock s fd buf n nt) as (s' & E & Hd & Hk);
    [apply Hs|by rewrite (wo_fds _ _ Hs)|rewrite <- Et; apply Hs|done|].
  exists s'. split; [done|]. split; [|done]. apply (running_still s s' w); [done| |done].
  apply (sees_does s s' w fd Clock _ _ _ (w_lines w) nt) in Hd; [|done|lia|done|done].
  unfold w_wait. rewrite Et. cbn. rewrite Nat.sub_0_r. rewrite <- Hc, aset_same in Hd. exact Hd.
Qed.
End Running.
End Clients.
