(* ===== verification/UserProps.v ===== *)
(** * cat, ls and testprint

    What the programs print and return, on every system that keeps the
    contracts of [FileService]. *)

From S2P Require Import Prelude Memory Lib Types Filesystem FsProofs Paging Console ConsoleProps Printf.
From S2P Require Import TerminalProofs User Programs UserLogic.
Import (notations) Stdlib.Strings.String.
#[local] Open Scope Z_scope.

(** The output of cat: the file in pieces of 1024 bytes, each up to its first
    NUL. *)
Fixpoint cat_pieces (n : nat) (c : list Z) : list Z :=
  match n, c with
  | O, _ | _, [] => []
  | S n, _ => upto_nul (take 1024 c) ++ cat_pieces n (drop 1024 c)
  end.
Definition cat_text (c : list Z) : list Z := cat_pieces (length c) c.

Lemma cat_pieces_fuel n c : (length c <= n)%nat → cat_pieces n c = cat_text c.
Proof.
  unfold cat_text. revert c. induction n as [n IH] using lt_wf_ind. intros c Hc.
  destruct n as [|n]; [by destruct c; [|cbn in Hc; lia]|].
  destruct c as [|x c]; [done|]. cbn [cat_pieces length]. f_equal.
  assert (length (drop 1024 (x :: c)) <= length c)%nat as Hl by (rewrite length_drop; cbn; lia).
  cbn in Hc. rewrite (IH n) by lia. symmetry. apply IH; lia.
Qed.

Lemma cat_text_step c :
  c ≠ [] → cat_text c = upto_nul (take 1024 c) ++ cat_text (drop 1024 c).
Proof.
  intros Hc. destruct c as [|x c]; [done|]. unfold cat_text at 1. cbn [length cat_pieces]. f_equal.
  apply cat_pieces_fuel. rewrite length_drop. cbn. lia.
Qed.

(** A text without NULs is printed as it is. *)
Lemma cat_text_plain c : Forall (λ x, x ≠ 0) c → cat_text c = c.
Proof.
  remember (length c) as n eqn:En. revert c En. induction n as [n IH] using lt_wf_ind.
  intros c -> Hc. destruct (decide (c = [])) as [->|Hne]; [done|]. rewrite cat_text_step by done.
  rewrite upto_nul_all by by apply Forall_take.
  rewrite (IH (length (drop 1024 c))); [apply take_drop| |done|by apply Forall_drop].
  rewrite length_drop. destruct c; [done|]. cbn. lia.
Qed.

Section Clients.
Context {S : Type} `{!ByteMem S, !Syscalls S, !ServiceView S} {im : fs_image} `{!FileService S im}.
Implicit Types (s : S) (fd buf a n : Z).

(** ** cat *)

Context (str : list Z → Z).

(** The bytes still to be read through a descriptor on a file of [len] bytes. *)
Definition left_in (len : Z) (h : handle) : Z := match h with Data _ pos => len - pos | _ => 0 end.

Lemma cat_run s0 s fd buf inode :
  let c := (im_files im).[inode] in
  0 ≤ inode < num_inodes im → fd ≠ 1 → (∀ a, region buf 1024 a → user_page a) →
  ran s0 s [] → sv_handle s fd = Data inode 0 →
  ∃ r, while (cat_step str fd buf) s = Some r ∧ ∃ s', r = Some (s', 0) ∧ ran s0 s' (cat_text c).
Proof.
  intros c Hi Hfd Hbuf Hrun Hh. set (len := Z.of_nat (length c)).
  assert (len ≤ 4096 * 1023) as Hlen by (apply (fs_sizes s); [apply Hrun|done]).
  pose proof (Hbuf buf ltac:(unfold region; lia)) as Hb0. unfold user_page, region in Hb0.
  apply (while_total _
    (λ s, ∃ pos out, ran s0 s out ∧ sv_handle s fd = Data inode pos ∧ 0 ≤ pos ≤ len ∧
       out ++ cat_text (drop (Z.to_nat pos) c) = cat_text c)
    (λ s, left_in len (sv_handle s fd))).
  - intros s1 (pos & out & _ & -> & Hp & _). cbn. lia.
  - intros s1 (pos & out & Hr & Hd & Hp & Ht). unfold cat_step.
    destruct (fs_read_data s1 fd buf 1024 inode pos) as (s2 & -> & Hse & Hb & _);
      [apply Hr|done|done|lia|lia|done|].
    fold c len in Hse, Hb. fold c len. set (v := deliver len pos 1024) in *.
    pose proof (serves_ran s0 s1 s2 fd _ out [] Hr Hse (or_introl Hfd)) as Hr2.
    rewrite app_nil_r in Hr2. pose proof (se_handle _ _ _ _ _ _ _ Hse fd) as Hd2.
    rewrite decide_True in Hd2 by done.
    destruct (Z.eqb_spec v 0) as [Ev|Hv].
    { exists s2. split; [done|]. assert (pos = len) as -> by (unfold v, deliver in Ev; lia).
      rewrite <- Ht. rewrite drop_ge by lia. by rewrite app_nil_r. }
    assert (0 < v ≤ 1024 ∧ pos + v ≤ len) as Hvr by (unfold v, deliver in *; lia).
    rewrite (proj2 (Z.eqb_neq v (-1))) by lia.
    destruct (write_buffer s2 1 buf v) as (s3 & k & -> & Hk & Hs3 & _);
      [apply Hr2|apply Hr2|lia|intros a Ha; apply Hbuf; unfold region in *; lia|lia|].
    rewrite (proj2 (Z.eqb_neq k (-1))) by lia.
    pose proof (serves_ran s0 s2 s3 1 _ out _ Hr2 Hs3 (or_intror eq_refl)) as Hr3.
    pose proof (se_handle _ _ _ _ _ _ _ Hs3 fd) as Hd3. rewrite decide_False in Hd3 by done.
    rewrite Hd2 in Hd3. split; [|rewrite Hd3, Hd; cbn; lia].
    exists (pos + v), (out ++ upto_nul (bytes s2 buf v)). split; [done|]. split; [done|]. split; [lia|].
    rewrite <- Ht, <- app_assoc. f_equal. rewrite Hb.
    rewrite (cat_text_step (drop (Z.to_nat pos) c)).
    + unfold slice. change (Z.to_nat 1024) with 1024%nat. f_equal. rewrite drop_drop.
      destruct (decide (v = 1024)) as [->|Hv1].
      * do 2 f_equal. lia.
      * assert (pos + v = len) by (unfold v, deliver in *; lia). rewrite !drop_ge by lia. done.
    + intros E. apply (f_equal length) in E. rewrite length_drop in E. cbn in E. lia.
  - exists 0, []. split; [done|]. split; [done|]. split; [lia|]. by rewrite Z2Nat.inj_0, drop_0.
  - rewrite Hh. cbn. lia.
Qed.

(** A descriptor is free. *)
Definition has_free s : Prop := ∃ j, 2 ≤ j < 8 ∧ sv_handle s j = Closed.

(** A program's first state, with descriptor 1 on the screen. *)
Record entered s buf n : Prop := {
  en_ok : sv_ok s;
  en_out : sv_handle s 1 = Screen;
  en_free : has_free s;
  en_buf : ∀ a, region buf n a → user_page a
}.

Lemma entered_ran s buf n : entered s buf n → ran s s [].
Proof. intros [H1 H2 _ _]. by split. Qed.

(** cat's arguments and the file they name. *)
Lemma cat_start s buf :
  entered s buf 1024 →
  ∃ s1, ece391_getargs s buf 1024 = Some (s1, 0) ∧ ran s s1 [] ∧ has_free s1 ∧
        user_string s1 buf (sv_args s) ∧
        keeps s s1 (region buf (Z.of_nat (length (sv_args s)) + 1)).
Proof.
  intros He. destruct (fs_args s (en_ok _ _ _ He)) as [Hl _].
  destruct (fs_getargs s buf 1024) as (s1 & E & Hse & Hu & Hk);
    [apply He|lia|apply He|].
  exists s1. split; [done|]. split; [|split; [|done]].
  - exact (quiet_ran s s s1 [] (entered_ran _ _ _ He) Hse).
  - destruct (en_free _ _ _ He) as (j & Hj & Hc). exists j. split; [done|].
    by rewrite (serves_keep _ _ _ j _ Hse).
Qed.

Lemma cat_file s buf i :
  entered s buf 1024 → lookup_file im (sv_args s) = Some i →
  let e := (im_dents im).[i] in
  d_type e = 2 → 0 ≤ d_inode e < num_inodes im →
  ∃ s', cat str buf s = Some (s', 0) ∧ ran s s' (cat_text (im_files im).[d_inode e]).
Proof.
  intros He Hlk e Hty Hin. destruct (cat_start s buf He) as (s1 & E1 & Hr1 & Hf1 & Hu1 & _).
  unfold cat. rewrite E1, bind_some. cbn [Z.eqb negb].
  pose proof (fs_open s1 buf (sv_args s) (ra_ok _ _ _ Hr1) Hu1) as Ho. rewrite Hlk in Ho.
  destruct (Ho Hf1) as (s2 & fd & -> & Hfd & Hc & _ & Hse & _). rewrite bind_some.
  rewrite (proj2 (Z.eqb_neq fd (-1))) by lia. fold e in Hse.
  assert (opens e = Data (d_inode e) 0) as Eo by (unfold opens; by rewrite Hty). rewrite Eo in Hse.
  assert (fd ≠ 1) as Hne by lia.
  pose proof (serves_ran s s1 s2 fd _ [] [] Hr1 Hse (or_introl Hne)) as Hr2.
  pose proof (se_handle _ _ _ _ _ _ _ Hse fd) as Hd. rewrite decide_True in Hd by done.
  destruct (cat_run s s2 fd buf (d_inode e)) as (r & -> & s' & -> & Hr');
    [done|done|apply He|exact Hr2|done|].
  rewrite bind_some. by exists s'.
Qed.

Lemma cat_missing s buf :
  entered s buf 1024 → lookup_file im (sv_args s) = None →
  user_string s (str (text "file not found" ++ [10])) (text "file not found" ++ [10]) →
  (∀ a, region (str (text "file not found" ++ [10])) 16 a → ¬ region buf 1024 a) →
  ∃ s', cat str buf s = Some (s', 2) ∧ ran s s' (text "file not found" ++ [10]).
Proof.
  intros He Hlk Hm Hap. destruct (cat_start s buf He) as (s1 & E1 & Hr1 & Hf1 & Hu1 & Hk1).
  destruct (fs_args s (en_ok _ _ _ He)) as [Hl _].
  unfold cat. rewrite E1, bind_some. cbn [Z.eqb negb].
  pose proof (fs_open s1 buf (sv_args s) (ra_ok _ _ _ Hr1) Hu1) as Ho. rewrite Hlk in Ho.
  destruct Ho as (s2 & -> & Hse & Hk2). rewrite bind_some. cbn [Z.eqb].
  pose proof (quiet_ran s s1 s2 [] Hr1 Hse) as Hr2.
  destruct (fdputs_spec s2 1 (str (text "file not found" ++ [10])) (text "file not found" ++ [10]))
    as (s3 & -> & Hs3 & _).
  - apply Hr2.
  - apply Hr2.
  - apply (user_string_keeps s1 s2 _ _ _ Hk2); [by intros b _ []|].
    apply (user_string_keeps s s1 _ _ _ Hk1); [|done]. intros b Hb Hr. apply (Hap b).
    + exact Hb.
    + unfold region in *. lia.
  - rewrite bind_some. exists s3. split; [done|].
    exact (serves_ran s s2 s3 1 _ [] _ Hr2 Hs3 (or_intror eq_refl)).
Qed.

(** ** ls *)

(** The names of the directory, a line each. *)
Definition ls_text (dents : list dent) : list Z := dents ≫= λ e, d_name e ++ [10].

Lemma ls_text_snoc l i :
  0 ≤ i < Z.of_nat (length l) →
  ls_text (take (Z.to_nat i) l) ++ d_name l.[i] ++ [10] = ls_text (take (Z.to_nat (i + 1)) l).
Proof.
  apply (bind_take_snoc (λ e, d_name e ++ [10])).
Qed.

(** One entry. *)
Lemma ls_entry s0 s fd buf i out :
  let nm := d_name (im_dents im).[i] in
  fd ≠ 1 → (∀ a, region buf 33 a → user_page a) → 0 ≤ i < num_entries im → nm ≠ [] →
  ran s0 s out → sv_handle s fd = Dir (64 * (i + 1)) →
  ∃ s', ls_step str fd buf s = inl s' ∧ ran s0 s' (out ++ nm ++ [10]) ∧
        sv_handle s' fd = Dir (64 * (i + 2)).
Proof.
  intros nm Hfd Hbuf Hi Hne Hr Hd. unfold ls_step.
  pose proof (Hbuf buf ltac:(unfold region; lia)) as Hb0. unfold user_page, region in Hb0.
  destruct (fs_names s (ra_ok _ _ _ Hr) i Hi) as [Hl _]. fold nm in Hl.
  pose proof (fs_read_dir s fd buf 32 i (ra_ok _ _ _ Hr) Hd) as H. rewrite decide_True in H by lia.
  destruct H as (s1 & -> & Hse & Hb & _);
    [lia|lia|intros a Ha; apply Hbuf; unfold region in *; lia|].
  fold nm in Hse, Hb |- *. rewrite Z.min_r in Hb |- * by lia. set (v := Z.of_nat (length nm)) in *.
  assert (0 < v) as Hv by (destruct nm; [done|cbn in v; lia]).
  rewrite (proj2 (Z.eqb_neq v 0)), (proj2 (Z.eqb_neq v (-1))) by lia. cbv zeta.
  pose proof (serves_ran s0 s s1 fd _ out [] Hr Hse (or_introl Hfd)) as Hr1. rewrite app_nil_r in Hr1.
  pose proof (se_handle _ _ _ _ _ _ _ Hse fd) as Hd1. rewrite decide_True in Hd1 by done.
  rewrite u32_small by (unfold USER_MEM_LOCATION in Hb0; lia).
  assert (user_page (buf + v)) as Hpv by (apply Hbuf; unfold region; lia).
  pose proof (fs_store s1 (buf + v) 10 (ra_ok _ _ _ Hr1) Hpv) as Hst.
  pose proof (quiet_ran _ _ _ _ Hr1 Hst) as Hr2.
  assert (bytes (wr s1 (buf + v) 10) buf (v + 1) = nm ++ [10]) as Eb.
  { rewrite bytes_put; [|apply fs_safe, Hr1|lia| |lia].
    - rewrite Hb. unfold slice. rewrite Z2Nat.inj_0, drop_0, take_ge by lia. done.
    - intros a Ha. apply Hbuf. unfold region in *. lia. }
  destruct (write_buffer (wr s1 (buf + v) 10) 1 buf (v + 1)) as (s3 & k & -> & Hk & Hs3 & _);
    [apply Hr2|apply Hr2|lia|intros a Ha; apply Hbuf; unfold region in *; lia|lia|].
  rewrite (proj2 (Z.eqb_neq k (-1))) by lia. exists s3. split; [done|].
  rewrite Eb, upto_nul_all in Hs3.
  2: { apply Forall_app_2; [|repeat constructor; lia].
       pose proof (name_chars _ (fs_names s (ra_ok _ _ _ Hr) i Hi)) as Hch. revert Hch. apply Forall_impl. lia. }
  split; [exact (serves_ran s0 _ s3 1 _ out _ Hr2 Hs3 (or_intror eq_refl))|].
  pose proof (se_handle _ _ _ _ _ _ _ Hs3 fd) as Hd3. rewrite decide_False in Hd3 by done.
  by rewrite Hd3, (serves_keep _ _ _ fd _ Hst).
Qed.

Lemma ls_run s0 s fd buf :
  fd ≠ 1 → (∀ a, region buf 33 a → user_page a) →
  (∀ i, 0 ≤ i < num_entries im → d_name (im_dents im).[i] ≠ []) →
  ran s0 s [] → sv_handle s fd = Dir 64 →
  ∃ r, while (ls_step str fd buf) s = Some r ∧ ∃ s', r = Some (s', 0) ∧ ran s0 s' (ls_text (im_dents im)).
Proof.
  intros Hfd Hbuf Hne Hrun Hh. pose proof (fs_count s (ra_ok _ _ _ Hrun)) as Hn.
  assert (0 ≤ num_entries im) as Hn0 by (unfold num_entries; lia).
  apply (while_total _
    (λ s, ∃ i, ran s0 s (ls_text (take (Z.to_nat i) (im_dents im))) ∧
       sv_handle s fd = Dir (64 * (i + 1)) ∧ 0 ≤ i ≤ num_entries im)
    (λ s, left_entries im (sv_handle s fd))).
  - intros s1 (i & _ & -> & Hi). cbn. lia.
  - intros s1 (i & Hr & Hd & Hi). destruct (decide (i < num_entries im)) as [Hlt|Hge].
    + destruct (ls_entry s0 s1 fd buf i _ Hfd Hbuf ltac:(lia) (Hne i ltac:(lia)) Hr Hd)
        as (s2 & -> & Hr2 & Hd2).
      split; [|rewrite Hd2, Hd; cbn; lia]. exists (i + 1).
      rewrite ls_text_snoc in Hr2 by (unfold num_entries in *; lia).
      split; [done|]. split; [rewrite Hd2; f_equal; lia|lia].
    + assert (i = num_entries im) as -> by lia. unfold ls_step.
      pose proof (Hbuf buf ltac:(unfold region; lia)) as Hb0. unfold user_page, region in Hb0.
      pose proof (fs_read_dir s1 fd buf 32 _ (ra_ok _ _ _ Hr) Hd) as H. rewrite decide_False in H by lia.
      destruct H as (s2 & -> & Hse & _);
        [lia|lia|intros a Ha; apply Hbuf; unfold region in *; lia|].
      cbn [Z.eqb]. exists s2. split; [done|].
      pose proof (serves_ran s0 s1 s2 fd _ _ [] Hr Hse (or_introl Hfd)) as Hr2. rewrite app_nil_r in Hr2.
      rewrite take_ge in Hr2 by (unfold num_entries; lia). exact Hr2.
  - exists 0. cbn. split; [done|]. split; [done|]. lia.
  - rewrite Hh. cbn. lia.
Qed.

Lemma ls_directory s buf i :
  entered s buf 33 → user_string s (str (text ".")) (text ".") →
  lookup_file im (text ".") = Some i → d_type (im_dents im).[i] = 1 →
  (∀ i, 0 ≤ i < num_entries im → d_name (im_dents im).[i] ≠ []) →
  ∃ s', ls str buf s = Some (s', 0) ∧ ran s s' (ls_text (im_dents im)).
Proof.
  intros He Hdot Hlk Hty Hne. unfold ls.
  pose proof (fs_open s (str (text ".")) (text ".") (en_ok _ _ _ He) Hdot) as Ho. rewrite Hlk in Ho.
  destruct (Ho (en_free _ _ _ He)) as (s2 & fd & -> & Hfd & Hc & _ & Hse & _). rewrite bind_some.
  rewrite (proj2 (Z.eqb_neq fd (-1))) by lia. assert (fd ≠ 1) as Hne1 by lia.
  assert (opens (im_dents im).[i] = Dir 64) as Eo by (unfold opens; by rewrite Hty). rewrite Eo in Hse.
  pose proof (serves_ran s s s2 fd _ [] [] (entered_ran _ _ _ He) Hse (or_introl Hne1)) as Hr2.
  pose proof (se_handle _ _ _ _ _ _ _ Hse fd) as Hd. rewrite decide_True in Hd by done.
  destruct (ls_run s s2 fd buf) as (r & -> & s' & -> & Hr');
    [done|apply He|done|exact Hr2|done|].
  rewrite bind_some. by exists s'.
Qed.

(** ** testprint *)

Lemma testprint_prints s :
  let msg := text "Hello, if this ran, the program was correct. Yay!" ++ [10] in
  sv_ok s → sv_handle s 1 = Screen → user_string s (str msg) msg →
  ∃ s', testprint str s = Some (s', 0) ∧ ran s s' msg.
Proof.
  intros msg Hok Hout Hm. unfold testprint. fold msg.
  destruct (fdputs_spec s 1 (str msg) msg Hok Hout Hm) as (s' & -> & Hse & _). rewrite bind_some.
  exists s'. split; [done|]. apply (serves_ran s s s' 1 Screen [] msg); [by split|done|by right].
Qed.
End Clients.
