(* ===== verification/InteractProps.v ===== *)
(** * hello, counter and pingpong

    What the programs that wait for the keyboard or the clock show, on every
    system that keeps the contracts of [FileService]. *)

From S2P Require Import Prelude Memory Lib Types Filesystem FsProofs Paging Console ConsoleProps Printf.
From S2P Require Import Keyboard TerminalProofs Typing User Programs UserLogic.
Import (notations) Stdlib.Strings.String.
#[local] Open Scope Z_scope.

Section Clients.
Context {S : Type} `{!ByteMem S, !Syscalls S, !ServiceView S} {im : fs_image} `{!FileService S im}.
Context (str : list Z → Z).
Implicit Types (s : S) (w : world) (buf n : Z).

(** The line read into a buffer, as a string: the store of the NUL changes
    nothing. *)
Lemma line_string lits B s w buf line ls :
  running str lits B s w → (w_fds w).[0] = Keys → w_lines w = line :: ls →
  (∀ a, region buf 1024 a → user_page a) → (∀ a, region buf 1024 a → B a) →
  ∃ s1, ece391_read s 0 buf 1023 = Some (s1, Z.of_nat (length line) + 1) ∧
    let s2 := wr s1 (u32 (buf + (Z.of_nat (length line) + 1))) 0 in
    running str lits B s2 (w_type line ls w) ∧ user_string s2 buf (line ++ [10]) ∧
    (length line ≤ 127)%nat ∧ rd s2 buf = (line ++ [10]).[0].
Proof.
  intros Hr H0 Hl Hu HB. pose proof (ru_sees _ _ _ _ _ Hr) as Hs.
  destruct (fs_lines s line ls) as [Hlen Hc]; [rewrite <- Hl; apply Hs|].
  pose proof (Hu buf ltac:(unfold region; lia)) as Hb0. pose proof (Hu (buf + 1023) ltac:(unfold region; lia)) as Hb1.
  unfold user_page, region, USER_MEM_LOCATION in Hb0, Hb1. set (v := Z.of_nat (length line) + 1).
  destruct (read_line str lits B s w buf 1023 line ls) as (s1 & E & R1 & Hb & Hz & _);
    [done|done|done|lia|unfold region, USER_MEM_LOCATION; lia
    |intros a Ha; apply HB; unfold region in *; lia|].
  rewrite Z.min_r in E, Hb, Hz by lia. fold v in E, Hb, Hz. exists s1. split; [done|].
  rewrite u32_small by lia. cbv zeta.
  assert (user_page (buf + v)) as Hv by (apply Hu; unfold region; lia).
  destruct (store_running str lits B s1 _ (buf + v) 0 R1 Hv) as [R2 K2]; [apply HB; unfold region; lia|].
  split; [done|]. assert (Z.of_nat (length (line ++ [10])) = v) as Ev by (rewrite length_app; cbn; lia).
  assert (bytes (wr s1 (buf + v) 0) buf v = line ++ [10]) as Eb.
  { rewrite (take_ge (line ++ [10])) in Hb by lia. rewrite <- Hb.
    unfold bytes. apply list_fmap_ext. intros j i Hi. apply lookup_seqZ in Hi as [-> Hi].
    apply K2; [apply Hu; unfold region; lia|unfold region; lia]. }
  split; [split|split; [done|]].
  - apply text_of_bytes; rewrite ?Ev; [done| |].
    + apply Forall_app_2; [|by repeat constructor]. revert Hc. apply Forall_impl. lia.
    + rewrite (rd_wr_safe s1 user_page); [by rewrite decide_True|apply fs_safe, R1|done|done].
  - rewrite Ev. intros b Hb'. apply Hu. unfold region in *. lia.
  - symmetry. rewrite <- Eb at 1. apply aget_lookup; [lia|]. rewrite bytes_lookup by lia.
    do 2 f_equal. lia.
Qed.

(** ** hello *)

Definition hello_lits : list (list Z) := [text "Hi, what's your name? "; text "Hello, "].

Lemma hello_greets s w buf line ls :
  running str hello_lits (region buf 1024) s w → (w_fds w).[0] = Keys → (w_fds w).[1] = Screen →
  w_lines w = line :: ls → (∀ a, region buf 1024 a → user_page a) →
  ∃ s', hello str buf s = Some (s', 0) ∧
    sees s' (w_print (text "Hello, " ++ line ++ [10])
              (w_type line ls (w_print (text "Hi, what's your name? ") w))).
Proof.
  intros Hr H0 H1 Hl Hu. unfold hello.
  destruct (say str hello_lits (region buf 1024) s w (text "Hi, what's your name? ")) as (s1 & -> & R1 & _);
    [done|done|lit|]. rewrite bind_some.
  destruct (line_string hello_lits (region buf 1024) s1 _ buf line ls R1) as (s2 & -> & R2 & U2 & _);
    [done|done|done|done|]. rewrite bind_some.
  rewrite (proj2 (Z.eqb_neq _ (-1))) by lia. set (s3 := wr s2 _ 0) in *.
  destruct (say str hello_lits (region buf 1024) s3 _ (text "Hello, ") R2) as (s4 & -> & R4 & K4);
    [done|lit|]. rewrite bind_some.
  destruct (say_string str hello_lits (region buf 1024) s4 _ buf (line ++ [10]) R4) as (s5 & -> & R5 & _);
    [done|by apply (user_string_same s3)|]. rewrite bind_some.
  exists s5. split; [done|]. rewrite w_print_app in R5. apply R5.
Qed.

(** ** counter *)

Definition counter_prompt : list Z :=
  text "Enter the Test Number: (0): 100, (1): 10000, (2): 100000" ++ [10].
Definition counter_lits : list (list Z) := [counter_prompt; text "Wrong Choice!" ++ [10]; [10]].

(** The numbers from 1 to [n], a line each. *)
Definition count_text n : list Z := seqZ 1 n ≫= λ i, dec_text i ++ [10].

(** What counter prints for a line. *)
Definition counter_text (line : list Z) : list Z :=
  match line with
  | [] => []
  | [c] =>
      if c =? 48 then count_text 100 else if c =? 49 then count_text 10000
      else if c =? 50 then count_text 100000 else text "Wrong Choice!" ++ [10]
  | _ => text "Wrong Choice!" ++ [10]
  end.

Lemma count_text_snoc i : 0 ≤ i → count_text (i + 1) = count_text i ++ dec_text (i + 1) ++ [10].
Proof.
  intros Hi. unfold count_text. rewrite (seqZ_app 1 i 1), bind_app by lia. f_equal.
  rewrite seqZ_cons, seqZ_nil by lia. cbn [mbind list_bind]. rewrite app_nil_r. do 2 f_equal. lia.
Qed.

Lemma count_loop s w buf max :
  running str counter_lits (region buf 1024) s w → (w_fds w).[1] = Screen →
  (∀ a, region buf 1024 a → user_page a) → 0 ≤ max < 4294967295 →
  ∃ o, while (count_step str max buf) (s, 0) = Some o ∧
    ∃ s', o = Some s' ∧ running str counter_lits (region buf 1024) s' (w_print (count_text max) w).
Proof.
  intros Hr H1 Hu Hm. pose proof (Hu buf ltac:(unfold region; lia)) as Hb0.
  unfold user_page, region, USER_MEM_LOCATION in Hb0.
  apply (while_total _
    (λ '(s, i), 0 ≤ i ≤ max ∧ running str counter_lits (region buf 1024) s (w_print (count_text i) w))
    (λ '(_, i), max - i)).
  - intros [s1 i] [Hi _]. lia.
  - intros [s1 i] [Hi R]. unfold count_step. destruct (Z.ltb_spec i max) as [Hlt|Hge].
    2: { exists s1. split; [done|]. by replace max with i by lia. }
    rewrite u32_small by lia.
    destruct (ece391_itoa_text user_page (λ s, running str counter_lits (region buf 1024) s (w_print (count_text i) w))
      s1 (i + 1) buf 10) as (s2 & -> & Ht & Hl & _ & R2);
      [lia|lia|apply fs_safe, R|intros a Ha; apply Hu; unfold region in *; lia|lia|lia| |done|].
    { apply (wr_closed_sub (λ a, user_page a ∧ region buf 1024 a)); [|apply running_wr_closed].
      intros a Ha. split; [apply Hu|]; unfold region in *; lia. }
    fold (dec_text (i + 1)) in Ht, Hl. rewrite bind_some.
    destruct (say_string str counter_lits (region buf 1024) s2 _ buf (dec_text (i + 1)) R2) as (s3 & -> & R3 & _);
      [done|split; [done|intros a Ha; apply Hu; unfold region in *; lia]|].
    rewrite bind_some.
    destruct (say str counter_lits (region buf 1024) s3 _ [10] R3) as (s4 & -> & R4 & _); [done|lit|].
    split; [|lia]. split; [lia|]. rewrite !w_print_app in R4.
    by rewrite count_text_snoc by lia.
  - split; [lia|]. by rewrite w_print_nil.
  - lia.
Qed.

Lemma counter_run_spec s w buf wrong c :
  running str counter_lits (region buf 1024) s w → (w_fds w).[1] = Screen →
  (∀ a, region buf 1024 a → user_page a) → rd s buf = c →
  ∃ s', counter_run str wrong buf s = Some (s', 0) ∧
    sees s' (w_print (if wrong then text "Wrong Choice!" ++ [10] else count_text (count_max c)) w).
Proof.
  intros Hr H1 Hu Hc. unfold counter_run. destruct wrong.
  - destruct (say str counter_lits (region buf 1024) s w (text "Wrong Choice!" ++ [10]) Hr) as (s' & -> & R & _);
      [done|lit|]. exists s'. split; [done|apply R].
  - rewrite Hc. destruct (count_loop s w buf (count_max c) Hr H1 Hu) as (o & -> & s' & -> & R);
      [unfold count_max; repeat case_match; lia|].
    rewrite !bind_some. exists s'. split; [done|apply R].
Qed.

Lemma counter_counts s w buf line ls :
  running str counter_lits (region buf 1024) s w → (w_fds w).[0] = Keys → (w_fds w).[1] = Screen →
  w_lines w = line :: ls → (∀ a, region buf 1024 a → user_page a) →
  ∃ s', counter str buf s = Some (s', 0) ∧
    sees s' (w_print (counter_text line) (w_type line ls (w_print counter_prompt w))).
Proof.
  intros Hr H0 H1 Hl Hu. unfold counter. fold counter_prompt.
  destruct (say str counter_lits (region buf 1024) s w counter_prompt) as (s1 & -> & R1 & _);
    [done|done|lit|]. rewrite bind_some.
  destruct (line_string counter_lits (region buf 1024) s1 _ buf line ls R1) as (s2 & -> & R2 & U2 & Hlen & E0);
    [done|done|done|done|]. rewrite bind_some.
  rewrite u32_small by lia. rewrite (proj2 (Z.eqb_neq _ _)) by (change (u32 (-1)) with 4294967295; lia).
  cbv zeta. set (s3 := wr s2 _ 0) in *. pose proof (user_string_range _ _ _ U2) as Hrg.
  unfold USER_MEM_LOCATION in Hrg. destruct U2 as [[Hstr _] _]. rewrite length_app in Hstr, Hrg. cbn [length] in Hstr, Hrg.
  rewrite (ece391_strlen_spec s3 buf _ Hstr), bind_some, E0 by lia.
  match goal with |- context [counter_run str ?wr buf s3] => set (wrong := wr) end.
  destruct (counter_run_spec s3 _ buf wrong (line ++ [10]).[0] R2) as (s4 & -> & Hs4); [done|done|exact E0|].
  exists s4. split; [done|].
  assert ((if wrong then text "Wrong Choice!" ++ [10] else count_text (count_max (line ++ [10]).[0]))
    = counter_text line) as <-; [|done].
  unfold wrong. rewrite !Z.gtb_ltb. clear. destruct line as [|c [|c' line]].
  - done.
  - change ([c] ++ [10]).[0] with c. cbn [length counter_text]. change (Z.of_nat (1 + 1)) with 2.
    change (2 <? 2) with false. change (2 =? 2) with true. cbn [orb andb].
    unfold count_max. destruct (Z.eqb_spec c 48) as [->|]; [done|]. destruct (Z.eqb_spec c 49) as [->|]; [done|].
    destruct (Z.eqb_spec c 50) as [->|]; [done|]. destruct (Z.ltb_spec c 48), (Z.ltb_spec 50 c); done || lia.
  - cbn [length counter_text]. rewrite (proj2 (Z.ltb_lt 2 _)) by lia. done.
Qed.

(** ** pingpong *)

Definition pp_line : list Z := [32; 124] ++ replicate 76 32 ++ [124; 10].

(** A frame: the character between the walls. *)
Definition frame_text (c j : Z) : list Z := pp_line.[j <- c].

(** Out and back. *)
Definition round_text (c : Z) : list Z :=
  (seqZ 2 76 ≫= frame_text c) ++ (seqZ 0 76 ≫= λ n, frame_text c (77 - n)).

(** The rounds, from the [k]-th letter on. *)
Definition pp_text (n k : Z) : list Z := seqZ k n ≫= λ i, round_text (65 + i mod 26).

Lemma next_char_letter k : next_char (65 + k mod 26) = 65 + (k + 1) mod 26.
Proof.
  unfold next_char. pose proof (Z.mod_pos_bound k 26 ltac:(lia)) as Hk.
  rewrite <- (Z.add_mod_idemp_l k 1) by lia. destruct (Z.eqb_spec (65 + k mod 26) 90) as [E|Hne].
  - by replace (k mod 26) with 25 by lia.
  - rewrite u8_small, (Z.mod_small (k mod 26 + 1)) by lia. lia.
Qed.

Section Pingpong.
Context (B : Z → Prop) (buf garbage rtc_fd : Z).
Context (Hbuf : ∀ a, region buf 81 a → user_page a ∧ B a) (Hg : user_page garbage).
#[local] Abbreviation running := (running str [text "rtc"] B).

(** The walls stand. *)
Definition walls s : Prop :=
  (∀ i, 0 ≤ i < 2 ∨ 78 ≤ i < 80 → rd s (buf + i) = pp_line.[i]) ∧ rd s (buf + 80) = 0.

(** A store to the buffer. *)
Lemma buf_wr s w i j v :
  running s w → 0 ≤ i < 81 → 0 ≤ j < 81 →
  running (wr s (buf + i) v) w ∧
  rd (wr s (buf + i) v) (buf + j) = if decide (j = i) then u8 v else rd s (buf + j).
Proof using Hbuf FileService0.
  intros Hr Hi Hj. assert (∀ j, 0 ≤ j < 81 → user_page (buf + j) ∧ B (buf + j)) as Hu
    by (intros j' Hj'; apply Hbuf; unfold region; lia).
  split; [by apply (store_running str [text "rtc"] B); [|apply Hu..]|].
  rewrite (rd_wr_safe s user_page); [|apply fs_safe, Hr|by apply Hu|by apply Hu].
  repeat case_decide; done || lia.
Qed.

Lemma walls_wr s w i v : running s w → 2 ≤ i < 78 → walls s → walls (wr s (buf + i) v).
Proof using Hbuf FileService0.
  intros Hr Hi [H1 H2]. split.
  - intros j Hj. rewrite (proj2 (buf_wr s w i j v Hr ltac:(lia) ltac:(lia))).
    rewrite decide_False by lia. by apply H1.
  - rewrite (proj2 (buf_wr s w i 80 v Hr ltac:(lia) ltac:(lia))). by rewrite decide_False by lia.
Qed.

Lemma walls_keeps s s' : keeps s s' (λ _, False) → walls s → walls s'.
Proof using Hbuf.
  intros Hk [H1 H2]. assert (∀ j, 0 ≤ j < 81 → rd s' (buf + j) = rd s (buf + j)) as Hr
    by (intros j Hj; apply Hk; [apply Hbuf; unfold region; lia|tauto]).
  split; [intros i Hi; rewrite Hr by lia; by apply H1|by rewrite Hr by lia].
Qed.

(** The cleared line. *)
Lemma pp_clear_spec s w :
  running s w → walls s →
  running (pp_clear buf s) w ∧ walls (pp_clear buf s) ∧
  ∀ i, 2 ≤ i < 78 → rd (pp_clear buf s) (buf + i) = 32.
Proof using Hbuf FileService0.
  intros Hr Hw. unfold pp_clear.
  change 78 with (2 + Z.of_nat 76).
  apply (for_loop_inv (λ n s, running s w ∧ walls s ∧ ∀ i, 2 ≤ i < n → rd s (buf + i) = 32)).
  - split; [done|]. split; [done|]. intros i Hi. lia.
  - intros n s1 Hn (R1 & W1 & H1). pose proof (λ j Hj, buf_wr s1 w n j 32 R1 ltac:(lia) Hj) as Hw1.
    split; [by apply (Hw1 0)|]. split; [by apply (walls_wr s1 w); [|lia|]|].
    intros i Hi. rewrite (proj2 (Hw1 i ltac:(lia))).
    case_decide; [done|]. apply H1. lia.
Qed.

Lemma pp_frame_spec s w c j :
  running s w → walls s → 0 ≤ rtc_fd < 8 → rtc_fd ≠ 1 → (w_fds w).[rtc_fd] = Clock → (w_fds w).[1] = Screen →
  (1 ≤ w_ticks w)%nat → 2 ≤ j < 78 → 0 < c < 256 →
  ∃ s', pp_frame buf garbage rtc_fd c j s = Some s' ∧
    running s' (w_wait 1 (w_print (frame_text c j) w)) ∧ walls s'.
Proof using Hbuf Hg FileService0.
  intros Hr Hw Hfd Hne Hc H1 Ht Hj Hcr. unfold pp_frame.
  destruct (pp_clear_spec s w Hr Hw) as (R1 & W1 & C1). set (s1 := pp_clear buf s) in *.
  pose proof (λ i Hi, buf_wr s1 w j i c R1 ltac:(lia) Hi) as Hw2. destruct (Hw2 0 ltac:(lia)) as [R2 _].
  pose proof (walls_wr s1 w j c R1 Hj W1) as W2. set (s2 := wr s1 (buf + j) c) in *.
  assert (length (frame_text c j) = 80%nat) as Hl by (unfold frame_text; by rewrite length_aset).
  assert (user_string s2 buf (frame_text c j)) as U2.
  { split; [|rewrite Hl; intros b Hb; apply Hbuf; exact Hb]. apply text_at_intro; rewrite Hl; [|apply W2].
    intros i Hi. change (Z.of_nat 80) with 80 in Hi. unfold frame_text.
    rewrite aget_aset by (change (Z.of_nat (length pp_line)) with 80; lia).
    case_decide as Ei; [subst i|].
    - rewrite (proj2 (Hw2 j ltac:(lia))).
      rewrite decide_True, u8_small by lia. lia.
    - destruct (decide (2 ≤ i < 78)) as [Hi2|Hi2].
      + assert (pp_line.[i] = 32) as ->.
        { assert (forallb (λ i, pp_line.[i] =? 32) (seqZ 2 76) = true) as Hall by by vm_compute.
          rewrite forallb_forall in Hall. apply Z.eqb_eq, Hall, list_elem_of_In, elem_of_seqZ. lia. }
        rewrite (proj2 (Hw2 i ltac:(lia))).
        rewrite decide_False by lia. rewrite C1 by lia. done.
      + rewrite (proj1 W2) by lia. split; [done|].
        assert (i = 0 ∨ i = 1 ∨ i = 78 ∨ i = 79) as [->|[->|[->| ->]]] by lia; by vm_compute. }
  destruct (say_string str [text "rtc"] B s2 w buf _ R2 H1 U2) as (s3 & -> & R3 & K3). rewrite bind_some.
  destruct (wait_tick str [text "rtc"] B s3 _ rtc_fd garbage 4 R3 Hfd) as (s4 & -> & R4 & K4); [done|done|done|].
  rewrite bind_some. exists s4. split; [done|]. split; [done|].
  apply (walls_keeps s3); [done|]. by apply (walls_keeps s2).
Qed.

(** Consecutive frames. *)
Lemma pp_frames c (f : Z → Z) (n : nat) : ∀ i s w,
  running s w → walls s → 0 ≤ rtc_fd < 8 → rtc_fd ≠ 1 → (w_fds w).[rtc_fd] = Clock → (w_fds w).[1] = Screen →
  (n ≤ w_ticks w)%nat → (∀ j, i ≤ j < i + Z.of_nat n → 2 ≤ f j < 78) → 0 < c < 256 →
  ∃ s', for_loop n i (λ j o, s ← o; pp_frame buf garbage rtc_fd c (f j) s) (Some s) = Some s' ∧
    running s' (w_wait n (w_print (seqZ i (Z.of_nat n) ≫= λ j, frame_text c (f j)) w)) ∧ walls s'.
Proof using Hbuf Hg FileService0.
  induction n as [|n IH]; intros i s w Hr Hw Hfd Hne Hc H1 Ht Hf Hcr.
  - exists s. split; [done|]. cbn. rewrite w_print_nil, w_wait_0. by split.
  - destruct (pp_frame_spec s w c (f i)) as (s1 & E1 & R1 & W1); try done; [lia|apply Hf; lia|].
    rewrite (for_loop_some (λ j s, pp_frame buf garbage rtc_fd c (f j) s) n i s s1 E1).
    destruct (IH (i + 1) s1 _ R1 W1) as (s2 & E2 & R2 & W2); try done.
    { cbn. lia. }
    { intros j Hj. apply Hf. lia. }
    exists s2. split; [done|]. split; [|done].
    rewrite (seqZ_cons i) by lia. cbn [mbind list_bind]. rewrite <- w_print_app, <- (w_wait_wait n 1).
    replace (Z.succ i) with (i + 1) by lia. replace (Z.pred (Z.of_nat (Datatypes.S n))) with (Z.of_nat n) by lia.
    by rewrite w_print_wait in R2.
Qed.

Lemma pp_round_spec s w c :
  running s w → walls s → 0 ≤ rtc_fd < 8 → rtc_fd ≠ 1 → (w_fds w).[rtc_fd] = Clock → (w_fds w).[1] = Screen →
  (152 ≤ w_ticks w)%nat → 0 < c < 256 →
  ∃ s', pp_round buf garbage rtc_fd c s = Some s' ∧
    running s' (w_wait 152 (w_print (round_text c) w)) ∧ walls s'.
Proof using Hbuf Hg FileService0.
  intros Hr Hw Hfd Hne Hc H1 Ht Hcr. unfold pp_round.
  destruct (pp_frames c (λ j, j) 76 2 s w) as (s1 & -> & R1 & W1); try done; [lia|]. rewrite bind_some.
  destruct (pp_frames c (λ n, 77 - n) 76 0 s1 _ R1 W1) as (s2 & -> & R2 & W2); try done; [cbn; lia|lia|].
  exists s2. split; [done|]. split; [|done]. change 152%nat with (76 + 76)%nat.
  rewrite <- w_wait_wait. unfold round_text. rewrite <- w_print_app. by rewrite w_print_wait in R2.
Qed.

Lemma pp_rounds_spec (n : nat) : ∀ s w k,
  running s w → walls s → 0 ≤ rtc_fd < 8 → rtc_fd ≠ 1 → (w_fds w).[rtc_fd] = Clock → (w_fds w).[1] = Screen →
  (152 * n ≤ w_ticks w)%nat →
  ∃ s', pp_rounds buf garbage rtc_fd n (65 + k mod 26) s = Some s' ∧
    running s' (w_wait (152 * n) (w_print (pp_text (Z.of_nat n) k) w)) ∧ walls s'.
Proof using Hbuf Hg FileService0.
  induction n as [|n IH]; intros s w k Hr Hw Hfd Hne Hc H1 Ht.
  - exists s. split; [done|]. rewrite Nat.mul_0_r. unfold pp_text. cbn. rewrite w_print_nil, w_wait_0. by split.
  - cbn [pp_rounds]. pose proof (Z.mod_pos_bound k 26 ltac:(lia)) as Hk.
    destruct (pp_round_spec s w (65 + k mod 26)) as (s1 & -> & R1 & W1); try done; [lia|lia|]. rewrite bind_some.
    rewrite next_char_letter. destruct (IH s1 _ (k + 1) R1 W1) as (s2 & -> & R2 & W2); try done.
    { cbn [w_wait w_print w_ticks]. lia. }
    exists s2. split; [done|]. split; [|done]. unfold pp_text. rewrite (seqZ_cons k) by lia. cbn [mbind list_bind].
    replace (Z.succ k) with (k + 1) by lia. replace (Z.pred (Z.of_nat (Datatypes.S n))) with (Z.of_nat n) by lia.
    replace (152 * Datatypes.S n)%nat with (152 + 152 * n)%nat by lia.
    rewrite <- w_wait_wait, <- w_print_app. by rewrite w_print_wait in R2.
Qed.

(** The walls are built. *)
Lemma pp_build s w :
  running s w →
  let s1 := for_loop 81 0 (λ i s, wr s (buf + i) 32) s in
  let s2 := wr (wr (wr (wr s1 (buf + 80) 0) (buf + 79) 10) (buf + 78) 124) (buf + 1) 124 in
  running s2 w ∧ walls s2.
Proof using Hbuf FileService0.
  intros Hr s1. assert (running s1 w ∧ ∀ i, 0 ≤ i < 81 → rd s1 (buf + i) = 32) as [R1 H1].
  { change 81 with (0 + Z.of_nat 81).
    apply (for_loop_inv (λ n s, running s w ∧ ∀ i, 0 ≤ i < n → rd s (buf + i) = 32)).
    - split; [done|]. intros i Hi. lia.
    - intros n s' Hn [R' H']. split; [by apply (buf_wr s' w n 0 32 R'); lia|]. intros i Hi.
      rewrite (proj2 (buf_wr s' w n i 32 R' ltac:(lia) ltac:(lia))). case_decide; [done|]. apply H'. lia. }
  pose proof (λ i Hi, buf_wr s1 w 80 i 0 R1 ltac:(lia) Hi) as W2. set (s2 := wr s1 (buf + 80) 0) in *.
  pose proof (λ i Hi, buf_wr s2 w 79 i 10 (proj1 (W2 0 ltac:(lia))) ltac:(lia) Hi) as W3.
  set (s3 := wr s2 (buf + 79) 10) in *.
  pose proof (λ i Hi, buf_wr s3 w 78 i 124 (proj1 (W3 0 ltac:(lia))) ltac:(lia) Hi) as W4.
  set (s4 := wr s3 (buf + 78) 124) in *.
  pose proof (λ i Hi, buf_wr s4 w 1 i 124 (proj1 (W4 0 ltac:(lia))) ltac:(lia) Hi) as W5.
  split; [by apply (W5 0)|]. split.
  - intros i Hi. rewrite (proj2 (W5 i ltac:(lia))), (proj2 (W4 i ltac:(lia))), (proj2 (W3 i ltac:(lia))),
      (proj2 (W2 i ltac:(lia))), H1 by lia.
    assert (i = 0 ∨ i = 1 ∨ i = 78 ∨ i = 79) as [->|[->|[->| ->]]] by lia; done.
  - rewrite (proj2 (W5 80 ltac:(lia))), (proj2 (W4 80 ltac:(lia))), (proj2 (W3 80 ltac:(lia))),
      (proj2 (W2 80 ltac:(lia))). done.
Qed.

(** A word stored beside the buffer. *)
Lemma store32_beside s w a v :
  running s w → walls s → (∀ b, region a 4 b → user_page b ∧ B b ∧ ¬ region buf 81 b) →
  running (store32 s a v) w ∧ walls (store32 s a v).
Proof using Hbuf FileService0.
  intros Hr Hw Ha. split.
  - unfold store32. do 4 (apply (store_running str [text "rtc"] B);
      [|apply Ha; unfold region; lia|apply Ha; unfold region; lia]). done.
  - pose proof (store32_written user_page s a v (fs_safe s (wo_ok _ _ (ru_sees _ _ _ _ _ Hr))) (λ b Hb, proj1 (Ha b Hb))) as Hst.
    assert (∀ j, 0 ≤ j < 81 → rd (store32 s a v) (buf + j) = rd s (buf + j)) as Hk.
    { intros j Hj. apply (written_out _ _ _ _ _ _ _ Hst); [apply Hbuf; unfold region; lia|].
      intros Hn. apply (Ha _ Hn). unfold region. lia. }
    destruct Hw as [H1 H2]. split; [intros i Hi; rewrite Hk by lia; by apply H1|by rewrite Hk by lia].
Qed.
End Pingpong.

(** The rounds of pingpong: the descriptor of the clock stays open. *)
Lemma pingpong_rallies s w buf ret_val garbage (n : nat) fd i :
  let B := λ a, region buf 81 a ∨ region ret_val 4 a in
  running str [text "rtc"] B s w → (w_fds w).[1] = Screen →
  lookup_file im (text "rtc") = Some i → d_type (im_dents im).[i] = 0 →
  lowest fd w → (152 * n ≤ w_ticks w)%nat →
  (∀ a, B a → user_page a) → (∀ a, region buf 81 a → ¬ region ret_val 4 a) → user_page garbage →
  ∃ s', pingpong str buf ret_val garbage n s = Some s' ∧
    sees s' (w_wait (152 * n) (w_print (pp_text (Z.of_nat n) 0) (w_set fd Clock w))).
Proof.
  intros B Hr H1 Hl Ht Hlow Hn HB Hd Hg. unfold pingpong.
  assert (∀ a, region buf 81 a → user_page a ∧ B a) as Hbuf by (intros a Ha; split; [apply HB|]; by left).
  destruct (pp_build B buf Hbuf s w Hr) as [R1 W1].
  set (s1 := wr (wr (wr (wr _ (buf + 80) 0) (buf + 79) 10) (buf + 78) 124) (buf + 1) 124) in *.
  destruct (open_file str [text "rtc"] B s1 w (str (text "rtc")) (text "rtc") i fd R1) as (s2 & -> & R2 & K2);
    [apply R1; lit|done|done|]. rewrite bind_some. unfold opens in R2. rewrite Ht in R2. destruct Hlow as (Hfd & _).
  pose proof (walls_keeps B buf Hbuf s1 s2 K2 W1) as W2.
  assert (∀ b, region ret_val 4 b → user_page b ∧ B b ∧ ¬ region buf 81 b) as Hrv.
  { intros b Hb. split; [apply HB; by right|]. split; [by right|]. intros Hb'. by apply (Hd b). }
  destruct (store32_beside B buf Hbuf s2 _ ret_val 32 R2 W2 Hrv) as [R3 W3].
  assert (length (w_fds w) = 8%nat) as Hlen by apply Hr.
  assert ((w_fds (w_set fd Clock w)).[fd] = Clock) as Hclock
    by (unfold w_set; cbn [w_fds]; by rewrite aget_aset_eq by lia).
  assert (fd ≠ 1) as Hne by lia.
  assert ((w_fds (w_set fd Clock w)).[1] = Screen) as H1'
    by (unfold w_set; cbn [w_fds]; by rewrite aget_aset_ne).
  destruct (fs_write_clock (store32 s2 ret_val 32) fd ret_val) as (s4 & -> & Hse4 & Hk4);
    [apply R3|by rewrite (wo_fds _ _ (ru_sees _ _ _ _ _ R3))|intros b Hb; by apply Hrv|].
  rewrite bind_some.
  pose proof (serves_running str [text "rtc"] B _ s4 _ fd Clock R3 Hse4 Hk4 ltac:(lia)) as R4. rewrite w_set_set in R4.
  pose proof (walls_keeps B buf Hbuf _ s4 Hk4 W3) as W4.
  destruct (store32_beside B buf Hbuf s4 _ ret_val 0 R4 W4 Hrv) as [R5 W5].
  destruct (pp_rounds_spec B buf garbage fd Hbuf Hg n _ _ 0 R5 W5) as (s6 & E6 & R6 & _);
    [lia|done|done|done|exact Hn|].
  exists s6. split; [exact E6|]. apply R6.
Qed.
End Clients.
