(* ===== verification/SyserrProps.v ===== *)
(** * The system-call tests pass

    On a system that keeps the contracts of [FileService], each test of syserr
    passes, and so does the whole program. *)

From S2P Require Import Prelude Memory Lib Types Filesystem FsProofs Paging Console ConsoleProps Printf.
From S2P Require Import Keyboard TerminalProofs Typing User Syserr UserLogic.
Import (notations) Stdlib.Strings.String.
#[local] Open Scope Z_scope.

(** The constants of the program that a run without failures uses. *)
Definition syserr_lits : list (list Z) :=
  [text "Choose from tests 1-8. 0 to run all: ";
   text "err_neg_fd: PASS" ++ [10]; text "err_big_fd: PASS" ++ [10];
   text "."; text "err_open_lots: PASS" ++ [10];
   text "helloo"; text "shel"; []; text "err_open: PASS" ++ [10];
   text "err_unopened: PASS" ++ [10]; text "err_vidmap: PASS" ++ [10];
   text "err_stdin_out: PASS" ++ [10]; text "err_syscall_num: PASS" ++ [10];
   [10] ++ text "Overall Tests: PASS" ++ [10];
   text "Invalid test number. Choose from tests 1-8 or 0"].

(** What each choice prints. *)
Definition test_text (n : Z) : list Z :=
  if n =? 1 then text "err_neg_fd: PASS" ++ [10]
  else if n =? 2 then text "err_big_fd: PASS" ++ [10]
  else if n =? 3 then text "err_open_lots: PASS" ++ [10]
  else if n =? 4 then text "err_open: PASS" ++ [10]
  else if n =? 5 then text "err_unopened: PASS" ++ [10]
  else if n =? 6 then text "err_vidmap: PASS" ++ [10]
  else if n =? 7 then text "err_stdin_out: PASS" ++ [10]
  else if n =? 8 then text "err_syscall_num: PASS" ++ [10]
  else text "Invalid test number. Choose from tests 1-8 or 0".

Definition syserr_text (n : Z) : list Z :=
  if n =? 0 then (seqZ 1 8 ≫= test_text) ++ [10] ++ text "Overall Tests: PASS" ++ [10]
  else test_text n.

Section Tests.
Context {S : Type} `{!ByteMem S, !Syscalls S, !ServiceView S} {im : fs_image} `{!FileService S im}.
Context (str : list Z → Z) (B : Z → Prop) (tbuf : Z) (Htbuf : user_page tbuf).
#[local] Abbreviation running := (running str syserr_lits B).
Implicit Types (s : S) (w : world).

(** The directory is there, and the misspelt names are not. *)
Context (dot : Z) (Hdot : lookup_file im (text ".") = Some dot) (Hdir : d_type (im_dents im).[dot] = 1).
Context (Hno : ∀ name, name ∈ [text "helloo"; text "shel"; []] → lookup_file im name = None).

(** The descriptors a program can open, one by one. *)
Ltac each_fd j :=
  assert (j = 2 ∨ j = 3 ∨ j = 4 ∨ j = 5 ∨ j = 6 ∨ j = 7) as [->|[->|[->|[->|[->| ->]]]]] by lia.

Definition passes (test : S → option (S * Z)) (out : list Z) : Prop :=
  ∀ s w, running s w → w_fds w = std_fds → ∃ s', test s = Some (s', 0) ∧ running s' (w_print out w).

(** One refused call of a test, and the rest of the test. *)
Lemma expect_refused s w call msg (rest : S * Z → option (S * Z)) (post : S → Prop) :
  running s w → refused s call →
  (∀ s1, running s1 w → ∃ s', rest (s1, 0) = Some (s', 0) ∧ post s') →
  ∃ s', (expect str call msg 0 ≫= rest) = Some (s', 0) ∧ post s'.
Proof.
  intros Hr Hc Hrest. destruct (refused_running str syserr_lits B s w call Hr Hc) as (s1 & -> & R & _).
  change (expect str (Some (s1, -1)) msg 0) with (Some (s1, 0)). rewrite bind_some. by apply Hrest.
Qed.

Lemma verdict_pass s w no yes :
  running s w → w_fds w = std_fds → yes ∈ syserr_lits →
  ∃ s', verdict str no yes s 0 = Some (s', 0) ∧ running s' (w_print yes w).
Proof.
  intros Hr Hw Hl. destruct (say str syserr_lits B s w yes Hr) as (s' & E & R & _); [by rewrite Hw|done|].
  exists s'. split; [|done]. unfold verdict. cbn [Z.eqb negb]. by rewrite E.
Qed.

(** Calls on descriptors that are not open. *)
Lemma unopened s w fd n :
  running s w → (w_fds w).[fd] = Closed → near_fd fd →
  refused s (ece391_read s fd tbuf n) ∧ refused s (ece391_write s fd tbuf n) ∧ refused s (ece391_close s fd).
Proof using Htbuf FileService0.
  intros Hr Hc Hn. pose proof (ru_sees _ _ _ _ _ Hr) as Hs.
  assert (sv_handle s fd = Closed) as Hh by by rewrite (wo_fds _ _ Hs).
  destruct (fs_bad_fd s fd tbuf n (wo_ok _ _ Hs) Hh Hn Htbuf) as [H1 H2].
  split; [done|]. split; [done|]. apply fs_close_bad; [apply Hs|by right; right].
Qed.

(** The refused calls of a test, one after the other, up to its verdict. *)
Ltac refuse tac :=
  match goal with R : running ?s ?w |- _ =>
    apply (expect_refused s w _ _ _ _ R); [tac s R|]; clear R; intros ? R
  end.
Ltac passed := apply verdict_pass; [assumption|assumption|lit].

Lemma err_neg_fd_passes : passes (err_neg_fd str tbuf) (text "err_neg_fd: PASS" ++ [10]).
Proof using Htbuf FileService0.
  intros s w R Hw. assert ((w_fds w).[NEG_FD] = Closed ∧ near_fd NEG_FD) as [Hc Hn] by by rewrite Hw.
  unfold err_neg_fd. do 3 refuse ltac:(fun s R => by apply (unopened s w _ 31)). passed.
Qed.

Lemma err_big_fd_passes : passes (err_big_fd str tbuf) (text "err_big_fd: PASS" ++ [10]).
Proof using Htbuf FileService0.
  intros s w R Hw. assert ((w_fds w).[BIG_FD] = Closed ∧ near_fd BIG_FD) as [Hc Hn] by by rewrite Hw.
  unfold err_big_fd. do 3 refuse ltac:(fun s R => by apply (unopened s w _ 31)). passed.
Qed.

Lemma err_open_passes : passes (err_open str) (text "err_open: PASS" ++ [10]).
Proof using Hno FileService0.
  intros s w R Hw. unfold err_open.
  do 3 refuse ltac:(fun s R => eapply (open_missing str syserr_lits B s w); [exact R|apply R; lit|apply Hno; lit]). passed.
Qed.

Lemma err_vidmap_passes : passes (err_vidmap str) (text "err_vidmap: PASS" ++ [10]).
Proof using FileService0.
  intros s w R Hw. unfold err_vidmap. do 2 refuse ltac:(fun s R => apply fs_vidmap_bad; [apply R|lia]). passed.
Qed.

Lemma err_syscall_num_passes : passes (err_syscall_num str) (text "err_syscall_num: PASS" ++ [10]).
Proof using FileService0.
  intros s w R Hw. unfold err_syscall_num, call_sys.
  do 3 refuse ltac:(fun s R => apply fs_bad_number; [apply R|vm_compute; tauto]). passed.
Qed.

Lemma err_stdin_out_passes : passes (err_stdin_out str tbuf) (text "err_stdin_out: PASS" ++ [10]).
Proof using Htbuf FileService0.
  intros s w R Hw. unfold err_stdin_out.
  refuse ltac:(fun s R => apply fs_write_keys; [apply R|by rewrite (wo_fds _ _ (ru_sees _ _ _ _ _ R)), Hw|done]).
  refuse ltac:(fun s R => apply fs_read_screen; [apply R|by rewrite (wo_fds _ _ (ru_sees _ _ _ _ _ R)), Hw|done]).
  passed.
Qed.

(** A loop of refused calls. *)
Lemma refuse_loop w (call : Z → S → option (S * Z)) msg n : ∀ i s,
  running s w →
  (∀ j s, i ≤ j < i + Z.of_nat n → running s w → refused s (call j s)) →
  ∃ s', for_loop n i (λ j o, '(s, fail) ← o; expect str (call j s) msg fail) (Some (s, 0)) = Some (s', 0) ∧
    running s' w.
Proof.
  induction n as [|n IH]; intros i s R Hc; [by exists s|].
  destruct (refused_running str syserr_lits B s w (call i s) R) as (s1 & E1 & R1 & _); [apply Hc; [lia|done]|].
  rewrite (for_loop_some (λ j '(s, fail), expect str (call j s) msg fail) n i (s, 0) (s1, 0)) by by rewrite E1.
  apply IH; [done|]. intros j s' Hj. apply Hc. lia.
Qed.

Lemma err_unopened_passes : passes (err_unopened str tbuf) (text "err_unopened: PASS" ++ [10]).
Proof using Htbuf FileService0.
  intros s w R Hw. unfold err_unopened.
  assert (∀ j, 2 ≤ j < 8 → (w_fds w).[j] = Closed ∧ near_fd j) as Hc.
  { intros j Hj. rewrite Hw. split.
    - each_fd j; done.
    - unfold near_fd. rewrite s32_small by lia. lia. }
  edestruct (refuse_loop w (λ j s, ece391_close s j)) as (s1 & -> & R1); [exact R| |].
  { intros j s1 Hj R1. apply fs_close_bad; [apply R1|]. destruct (decide (j < 2)); [by left|].
    right; right. rewrite (wo_fds _ _ (ru_sees _ _ _ _ _ R1)). apply Hc. lia. }
  rewrite bind_some.
  edestruct (refuse_loop w (λ j s, ece391_read s j tbuf 31)) as (s2 & -> & R2); [exact R1| |].
  { intros j s2 Hj R2. by apply (unopened s2 w j 31); [|apply Hc; lia..]. }
  rewrite bind_some.
  edestruct (refuse_loop w (λ j s, ece391_write s j tbuf 31)) as (s3 & -> & R3); [exact R2| |].
  { intros j s3 Hj R3. by apply (unopened s3 w j 31); [|apply Hc; lia..]. }
  rewrite bind_some. passed.
Qed.

(** *** Test 3 *)

(** [k] times the directory is open. *)
Definition w_dirs (k : nat) w : world :=
  mk_world ([Keys; Screen] ++ replicate k (Dir 64) ++ replicate (6 - k) Closed)
    (w_screen w) (w_args w) (w_lines w) (w_ticks w).

Lemma open_dir s w (k : nat) :
  running s (w_dirs k w) → (k < 6)%nat →
  ∃ s', ece391_open s (str (text ".")) = Some (s', 2 + Z.of_nat k) ∧ running s' (w_dirs (Datatypes.S k) w).
Proof using Hdot Hdir FileService0.
  intros R Hk. assert (lowest (2 + Z.of_nat k) (w_dirs k w)) as Hlow.
  { split; [lia|]. do 6 (destruct k as [|k]; [split; [done|]; intros j Hj; each_fd j; (done || lia)|]). lia. }
  destruct (open_file str syserr_lits B s _ (str (text ".")) (text ".") dot (2 + Z.of_nat k) R) as (s' & E & R' & _);
    [apply R; lit|exact Hdot|exact Hlow|].
  exists s'. split; [exact E|]. unfold opens in R'. rewrite Hdir in R'. clear -R' Hk.
  do 6 (destruct k as [|k]; [exact R'|]). lia.
Qed.

Lemma open_seven_counts s w :
  running s w → w_fds w = std_fds →
  ∃ s', open_seven str s = Some (s', 1) ∧ running s' (w_dirs 6 w).
Proof using Hdot Hdir FileService0.
  intros R Hw. assert (running s (w_dirs 0 w)) as R0 by (destruct w; cbn in Hw; by subst).
  set (g := λ (_ : Z) '(s, cnt), '(s, fd) ← ece391_open s (str (text "."));
    Some (s, if fd =? -1 then s32 (cnt + 1) else cnt)).
  assert (∀ (n k : nat) i s, running s (w_dirs k w) → (k + n = 6)%nat →
    ∃ s', for_loop n i (λ j o, x ← o; g j x) (Some (s, 0)) = Some (s', 0) ∧ running s' (w_dirs 6 w)) as Hopen.
  { induction n as [|n IH]; intros k i s1 R1 Hk; [exists s1; by replace 6%nat with k by lia|].
    destruct (open_dir s1 w k R1) as (s2 & E2 & R2); [lia|].
    rewrite (for_loop_some g n i (s1, 0) (s2, 0)); [|unfold g; rewrite E2, bind_some;
      by rewrite (proj2 (Z.eqb_neq _ (-1))) by lia].
    apply (IH (Datatypes.S k)); [done|lia]. }
  destruct (Hopen 6%nat 0%nat 0 s R0 eq_refl) as (s6 & E6 & R6).
  destruct (refused_running str syserr_lits B s6 _ (ece391_open s6 (str (text "."))) R6) as (s7 & E7 & R7 & _).
  { eapply fs_open_full; [apply R6|apply R6; lit|]. intros j Hj. rewrite (wo_fds _ _ (ru_sees _ _ _ _ _ R6)).
    each_fd j; done. }
  exists s7. split; [|done]. unfold open_seven.
  change (for_loop 7 0 (λ j o, x ← o; g j x) (Some (s, 0)) = Some (s7, 1)).
  change 7%nat with (6 + 1)%nat. rewrite for_loop_app, E6. cbn [for_loop]. rewrite bind_some.
  unfold g. by rewrite E7.
Qed.

Lemma close_six_closes s w :
  running s (w_dirs 6 w) → w_fds w = std_fds → ∃ s', close_six s = Some s' ∧ running s' w.
Proof using FileService0.
  intros R Hw. unfold close_six. set (g := λ i s, fst <$> ece391_close s i).
  assert (∀ (n : nat) i s w', running s w' → 2 ≤ i → i + Z.of_nat n ≤ 8 → (∀ j, i ≤ j < 8 → (w_fds w').[j] ≠ Closed) →
    ∃ s', for_loop n i (λ j o, x ← o; g j x) (Some s) = Some s' ∧
      running s' (for_loop n i (λ j, w_set j Closed) w')) as Hclose.
  { induction n as [|n IH]; intros i s1 w1 R1 Hi Hn Ho; [by exists s1|].
    destruct (close_file str syserr_lits B s1 w1 i R1) as (s2 & E2 & R2 & _); [lia|apply Ho; lia|].
    rewrite (for_loop_some g n i s1 s2) by (unfold g; by rewrite E2). cbn [for_loop].
    apply IH; [done|lia|lia|]. intros j Hj. unfold w_set. cbn [w_fds]. rewrite aget_aset_ne by lia. apply Ho. lia. }
  destruct (Hclose 6%nat 2 s (w_dirs 6 w) R) as (s' & E & R'); [lia|lia|intros j Hj; each_fd j; done|].
  exists s'. split; [exact E|]. destruct w. cbn in Hw. subst. exact R'.
Qed.

Lemma err_open_lots_passes : passes (err_open_lots str) (text "err_open_lots: PASS" ++ [10]).
Proof using Hdot Hdir FileService0.
  intros s w R Hw. unfold err_open_lots.
  destruct (open_seven_counts s w R Hw) as (s1 & -> & R1). rewrite bind_some.
  destruct (close_six_closes s1 w R1 Hw) as (s2 & -> & R2). rewrite bind_some. cbn [Z.eqb Pos.eqb].
  destruct (say str syserr_lits B s2 w (text "err_open_lots: PASS" ++ [10]) R2) as (s3 & -> & R3 & _);
    [by rewrite Hw|lit|]. by exists s3.
Qed.

(** *** The program *)

(** One test, and the rest of the program. *)
Lemma passes_then test out s w (rest : S * Z → option (S * Z)) (post : S → Prop) :
  passes test out → running s w → w_fds w = std_fds →
  (∀ s1, running s1 (w_print out w) → ∃ s', rest (s1, 0) = Some (s', 0) ∧ post s') →
  ∃ s', (test s ≫= rest) = Some (s', 0) ∧ post s'.
Proof.
  intros Hp R Hw Hrest. destruct (Hp s w R Hw) as (s1 & -> & R1). rewrite bind_some. by apply Hrest.
Qed.

Lemma all_tests_pass : passes (all_tests str tbuf) (syserr_text 0).
Proof using Hdot Hdir Hno Htbuf FileService0.
  intros s w R Hw. unfold all_tests.
  eapply passes_then; [apply err_neg_fd_passes|exact R|done|]. clear dependent s. intros s R.
  eapply passes_then; [apply err_big_fd_passes|exact R|done|]. clear dependent s. intros s R.
  eapply passes_then; [apply err_open_lots_passes|exact R|done|]. clear dependent s. intros s R.
  eapply passes_then; [apply err_open_passes|exact R|done|]. clear dependent s. intros s R.
  eapply passes_then; [apply err_unopened_passes|exact R|done|]. clear dependent s. intros s R.
  eapply passes_then; [apply err_vidmap_passes|exact R|done|]. clear dependent s. intros s R.
  eapply passes_then; [apply err_stdin_out_passes|exact R|done|]. clear dependent s. intros s R.
  eapply passes_then; [apply err_syscall_num_passes|exact R|done|]. clear dependent s. intros s R.
  change (0 + 0 + 0 + 0 + 0 + 0 + 0 + 0) with 0. rewrite !w_print_app in R.
  destruct (verdict_pass s _ ([10] ++ text "Overall Tests: FAIL" ++ [10]) ([10] ++ text "Overall Tests: PASS" ++ [10]) R)
    as (s' & -> & R'); [done|lit|].
  exists s'. split; [done|]. rewrite w_print_app in R'.
  match type of R' with running _ (w_print ?o _) => assert (o = syserr_text 0) as Eo by by vm_compute end.
  by rewrite Eo in R'.
Qed.

Lemma invalid_passes :
  passes (λ s, s ← ece391_fdputs s 1 (str (text "Invalid test number. Choose from tests 1-8 or 0")); Some (s, 0))
    (text "Invalid test number. Choose from tests 1-8 or 0").
Proof using FileService0.
  intros s w R Hw. destruct (say str syserr_lits B s w (text "Invalid test number. Choose from tests 1-8 or 0") R) as (s' & -> & R' & _); [by rewrite Hw|lit|]. by exists s'.
Qed.

(** Whatever the line typed, the tests it selects pass. *)
Lemma syserr_passes s w buf line ls :
  running s w → w_fds w = std_fds → w_lines w = line :: ls →
  (∀ a, region buf 128 a → user_page a ∧ B a) → region USER_MEM_LOCATION (0x400000 - 129) buf →
  ∃ s', syserr str buf tbuf s = Some (s', 0) ∧
    sees s' (w_print (syserr_text ((line ++ [10]).[0] - 48))
              (w_type line ls (w_print (text "Choose from tests 1-8. 0 to run all: ") w))).
Proof using Hdot Hdir Hno Htbuf FileService0.
  intros R Hw Hl Hbuf Hb. unfold syserr.
  destruct (say str syserr_lits B s w (text "Choose from tests 1-8. 0 to run all: ") R) as (s1 & -> & R1 & _);
    [by rewrite Hw|lit|]. rewrite bind_some.
  destruct (fs_lines s line ls) as [Hlen _]; [rewrite <- Hl; apply R|].
  destruct (read_line str syserr_lits B s1 _ buf 127 line ls R1) as (s2 & -> & R2 & Hby & _);
    [by cbn; rewrite Hw|done|lia|done|intros a Ha; apply Hbuf; unfold region in *; lia|]. rewrite bind_some.
  rewrite (proj2 (Z.eqb_neq _ (-1))) by lia. set (v := Z.min 127 (Z.of_nat (length line) + 1)) in *.
  assert (rd s2 buf = (line ++ [10]).[0]) as ->.
  { assert ((bytes s2 buf v).[0] = rd s2 buf) as <-.
    { apply aget_lookup; [lia|]. rewrite bytes_lookup by lia. do 2 f_equal. lia. }
    rewrite Hby. apply aget_take. lia. }
  cbv zeta. set (n := (line ++ [10]).[0] - 48). set (w2 := w_type line ls _) in *.
  assert (w_fds w2 = std_fds) as Hw2 by done. unfold syserr_text, test_text.
  repeat match goal with |- context [n =? ?k] => destruct (n =? k) eqn:? end;
    [destruct (all_tests_pass s2 w2 R2 Hw2) as (s' & E & R')
    |destruct (err_neg_fd_passes s2 w2 R2 Hw2) as (s' & E & R')
    |destruct (err_big_fd_passes s2 w2 R2 Hw2) as (s' & E & R')
    |destruct (err_open_lots_passes s2 w2 R2 Hw2) as (s' & E & R')
    |destruct (err_open_passes s2 w2 R2 Hw2) as (s' & E & R')
    |destruct (err_unopened_passes s2 w2 R2 Hw2) as (s' & E & R')
    |destruct (err_vidmap_passes s2 w2 R2 Hw2) as (s' & E & R')
    |destruct (err_stdin_out_passes s2 w2 R2 Hw2) as (s' & E & R')
    |destruct (err_syscall_num_passes s2 w2 R2 Hw2) as (s' & E & R')
    |destruct (invalid_passes s2 w2 R2 Hw2) as (s' & E & R')];
    (exists s'; split; [exact E|apply R']).
Qed.
End Tests.
