(* ===== verification/GrepProps.v ===== *)
(** * grep

    What grep prints for a directory of text files, on every system that keeps
    the contracts of [FileService]. *)

From S2P Require Import Prelude Memory Lib Types Filesystem FsProofs Paging Console ConsoleProps Printf.
From S2P Require Import Keyboard TerminalProofs Typing User Programs UserLogic.
Import (notations) Stdlib.Strings.String.
#[local] Open Scope Z_scope.

(** ** Specification *)

(** The lines of a text. *)
Fixpoint split_nl (l : list Z) : list (list Z) :=
  match l with
  | [] => [[]]
  | c :: l =>
      if c =? 10 then [] :: split_nl l
      else match split_nl l with x :: xs => (c :: x) :: xs | [] => [[c]] end
  end.

(** The pattern occurs in the line.  Its first character is compared as a
    signed [char], so a pattern that starts with a byte over 127 is never found. *)
Definition grep_match (pat line : list Z) : bool :=
  (0 <? pat.[0]) && (pat.[0] <? 128) &&
  existsb (λ i, bool_decide (take (length pat) (drop i line) = pat)) (seq 0 (length line)).

Definition grep_line (fname pat line : list Z) : list Z :=
  if grep_match pat line then fname ++ text ":" ++ line ++ [10] else [].

(** The output for one file. *)
Definition grep_out (fname pat c : list Z) : list Z := split_nl c ≫= grep_line fname pat.

Lemma split_nl_line l t : 10 ∉ l → split_nl (l ++ 10 :: t) = l :: split_nl t.
Proof.
  induction l as [|c l IH]; intros Hl; [done|]. cbn.
  rewrite (proj2 (Z.eqb_neq c 10)) by set_solver. rewrite IH by set_solver. done.
Qed.

Lemma split_nl_last l : 10 ∉ l → split_nl l = [l].
Proof.
  induction l as [|c l IH]; intros Hl; [done|]. cbn.
  rewrite (proj2 (Z.eqb_neq c 10)) by set_solver. rewrite IH by set_solver. done.
Qed.

(** The first line is at least as long as a beginning of it. *)
Lemma split_nl_head l t : 10 ∉ l → ∃ x xs, split_nl (l ++ t) = (l ++ x) :: xs.
Proof.
  intros Hl. destruct (decide (10 ∈ t)) as [Ht|Ht].
  - apply list_elem_of_split_l in Ht as (t1 & t2 & -> & Hn). exists t1, (split_nl t2).
    rewrite app_assoc. apply split_nl_line. set_solver.
  - exists t, []. apply split_nl_last. set_solver.
Qed.

Lemma grep_out_line fname pat l t :
  10 ∉ l → grep_out fname pat (l ++ 10 :: t) = grep_line fname pat l ++ grep_out fname pat t.
Proof. intros Hl. unfold grep_out. by rewrite split_nl_line. Qed.

Lemma grep_out_last fname pat l : 10 ∉ l → grep_out fname pat l = grep_line fname pat l.
Proof. intros Hl. unfold grep_out. rewrite split_nl_last by done. cbn. apply app_nil_r. Qed.

Lemma grep_out_nil fname pat : grep_out fname pat [] = [].
Proof. rewrite grep_out_last by set_solver. unfold grep_line, grep_match. by rewrite andb_false_r. Qed.

(** [grep_match] finds the pattern anywhere in the line. *)
Lemma grep_match_spec pat line :
  grep_match pat line = true ↔ 0 < pat.[0] < 128 ∧ ∃ l1 l2, line = l1 ++ pat ++ l2.
Proof.
  unfold grep_match. rewrite !andb_true_iff, Z.ltb_lt, Z.ltb_lt, existsb_exists. split.
  - intros [Hp (i & Hi & E)]. apply bool_decide_eq_true in E. split; [lia|].
    exists (take i line), (drop (length pat) (drop i line)).
    rewrite <- (take_drop i line) at 1. f_equal. rewrite <- (take_drop (length pat) (drop i line)) at 1. by rewrite E.
  - intros [Hp (l1 & l2 & ->)]. split; [lia|]. exists (length l1). split.
    + apply in_seq. assert (pat ≠ []) by (intros ->; change (0 < 0 ∧ 0 < 128) in Hp; lia).
      rewrite !length_app. destruct pat; cbn in *; [done|lia].
    + apply bool_decide_eq_true. rewrite drop_app_length. apply take_app_length.
Qed.

(** A text file: no NUL, and every line fits the buffer. *)
Definition text_file (c : list Z) : Prop :=
  Forall (λ x, 0 < x < 256) c ∧ Forall (λ l, (length l < 1024)%nat) (split_nl c).

(** An entry of the directory: names that start with a dot are skipped. *)
Definition grep_hidden (e : dent) : bool := (d_name e).[0] =? 46.

(** Its output. *)
Definition grep_entry (im : fs_image) (pat : list Z) (e : dent) : list Z :=
  if grep_hidden e then []
  else match lookup_file im (d_name e) with
       | Some i =>
           let e' := (im_dents im).[i] in
           if d_type e' =? 2 then grep_out (d_name e) pat (im_files im).[d_inode e'] else []
       | None => []
       end.

(** Reading the clock takes a tick. *)
Definition grep_tick (im : fs_image) (e : dent) : nat :=
  if grep_hidden e then 0
  else match lookup_file im (d_name e) with
       | Some i => if d_type (im_dents im).[i] =? 0 then 1 else 0
       | None => 0
       end.

Definition grep_text (im : fs_image) (pat : list Z) : list Z := im_dents im ≫= grep_entry im pat.
Definition grep_ticks (im : fs_image) : nat := sum_list_with (grep_tick im) (im_dents im).

(** grep handles the clock and text files. *)
Definition greppable (im : fs_image) (e : dent) : Prop :=
  d_name e ≠ [] ∧
  (grep_hidden e = true ∨
   ∃ i, lookup_file im (d_name e) = Some i ∧
     let e' := (im_dents im).[i] in
     d_type e' = 0 ∨
     d_type e' = 2 ∧ 0 ≤ d_inode e' < num_inodes im ∧ text_file (im_files im).[d_inode e']).

Lemma aget_drop (l : list Z) n i : 0 ≤ i → (drop n l).[i] = l.[Z.of_nat n + i].
Proof.
  intros Hi. unfold aget. rewrite (proj2 (Z.leb_le 0 i)), (proj2 (Z.leb_le 0 (Z.of_nat n + i))) by lia.
  rewrite lookup_drop. do 2 f_equal. lia.
Qed.

Lemma Forall_aget (P : Z → Prop) (l : list Z) i : Forall P l → 0 ≤ i < Z.of_nat (length l) → P l.[i].
Proof.
  intros Hl Hi. rewrite Forall_lookup in Hl. apply (Hl (Z.to_nat i)).
  destruct (lookup_lt_is_Some_2 l (Z.to_nat i)) as [x Hx]; [lia|]. by rewrite (aget_lookup l i x) by (done || lia).
Qed.

Lemma aget_elem (l : list Z) i : 0 ≤ i < Z.of_nat (length l) → l.[i] ∈ l.
Proof.
  intros Hi. apply (list_elem_of_lookup_2 _ (Z.to_nat i)). rewrite lookup_aget by lia. do 2 f_equal. lia.
Qed.

(** A signed character equals a positive byte. *)
Lemma s8_eq x y : 0 ≤ x < 256 → 0 < y → s8 x = y ↔ x = y ∧ 0 < x < 128.
Proof.
  intros Hx Hy. unfold s8. destruct (decide (x < 128)); [rewrite Z.mod_small; lia|].
  replace (x + 128) with (x - 128 + 1 * 256) by lia. rewrite Z.mod_add, Z.mod_small; lia.
Qed.

Section Grep.
Context {S : Type} `{!ByteMem S, !Syscalls S, !ServiceView S} {im : fs_image} `{!FileService S im}.
Context (str : list Z → Z).
Implicit Types (s : S) (w : world).

Definition grep_lits : list (list Z) := [text "."; text ":"; [10]].

(** ** One file *)

Section OneFile.
(** The buffer [data], the pattern [p] and the name [fn] of the file. *)
Context (B : Z → Prop) (data pat fname : Z) (p fn : list Z).
Context (Hdata : ∀ a, region data 1025 a → user_page a ∧ B a).
Context (Hpat : ∀ a, region pat (Z.of_nat (length p) + 1) a → ¬ region data 1025 a).
Context (Hname : ∀ a, region fname (Z.of_nat (length fn) + 1) a → ¬ region data 1025 a).
Context (Hp : Forall (λ c, 0 < c < 256) p) (Hpl : Z.of_nat (length p) < 1024).

Record ready s w : Prop := {
  re_run : running str grep_lits B s w;
  re_out : (w_fds w).[1] = Screen;
  re_pat : user_string s pat p;
  re_name : user_string s fname fn
}.

(** The buffer holds [l] from offset [i] on. *)
Definition hold s (i : Z) (l : list Z) : Prop := ∀ j, 0 ≤ j < Z.of_nat (length l) → rd s (data + (i + j)) = l.[j].

Lemma data_range : USER_MEM_LOCATION ≤ data ∧ data + 1025 ≤ USER_MEM_LOCATION + 0x400000.
Proof.
  destruct (Hdata data) as [H1 _]; [unfold region; lia|].
  destruct (Hdata (data + 1024)) as [H2 _]; [unfold region; lia|].
  unfold user_page, region in H1, H2. clear -H1 H2. lia.
Qed.

Lemma ready_step s s' w w' :
  ready s w → running str grep_lits B s' w' → (w_fds w').[1] = Screen → keeps s s' (region data 1025) → ready s' w'.
Proof.
  intros [H1 H2 H3 H4] R H1' Hk. split; [done|done| |].
  - by apply (user_string_keeps s s' (region data 1025)).
  - by apply (user_string_keeps s s' (region data 1025)).
Qed.

Lemma ready_wr s w i v :
  ready s w → 0 ≤ i ≤ 1024 →
  ready (wr s (data + i) v) w ∧
  ∀ j, 0 ≤ j ≤ 1024 → rd (wr s (data + i) v) (data + j) = if decide (j = i) then u8 v else rd s (data + j).
Proof.
  intros Hr Hi. assert (∀ j, 0 ≤ j ≤ 1024 → user_page (data + j) ∧ B (data + j)) as Hu
    by (intros j Hj; apply Hdata; unfold region; lia).
  destruct (store_running str grep_lits B s w (data + i) v (re_run _ _ Hr)) as [R K]; [by apply Hu|by apply Hu|].
  split.
  - apply (ready_step s _ w w); [done|done|apply Hr|]. apply (keeps_sub _ _ _ _ K). intros a Ha. unfold region in *. lia.
  - intros j Hj. rewrite (rd_wr_safe s user_page); [|apply fs_safe, Hr|by apply Hu|by apply Hu].
    repeat case_decide; done || lia.
Qed.

(** The end of the line. *)
Lemma grep_end_spec s ls k last :
  0 ≤ ls → 0 ≤ k → ls + k ≤ last ≤ 1024 →
  (∀ j, 0 ≤ j < k → rd s (data + (ls + j)) ≠ 10) →
  ls + k = last ∨ rd s (data + (ls + k)) = 10 →
  grep_end data last ls s = Some (ls + k).
Proof.
  intros Hls Hk Hl Hn He. unfold grep_end.
  apply (while_eq _ (λ e, ls ≤ e ≤ ls + k) (λ e, ls + k - e)).
  - lia.
  - intros e He'. destruct (decide (e = ls + k)) as [->|Hne].
    + destruct He as [->|He]; [by rewrite Z.ltb_irrefl|]. by rewrite He, andb_false_r.
    + rewrite (proj2 (Z.ltb_lt e last)) by lia. specialize (Hn (e - ls) ltac:(lia)).
      replace (ls + (e - ls)) with e in Hn by lia. rewrite (proj2 (Z.eqb_neq _ _) Hn). cbn [negb andb].
      rewrite s32_small by lia. lia.
  - lia.
  - lia.
Qed.

(** [fname:line] *)
Lemma grep_print_spec s w a line :
  ready s w → user_string s a line →
  ∃ s', grep_print str fname a s = Some s' ∧ ready s' (w_print (fn ++ text ":" ++ line ++ [10]) w) ∧
    keeps s s' (λ _, False).
Proof.
  intros [R H1 Hpt Hfn] Ha. unfold grep_print.
  destruct (say_string str grep_lits B s w fname fn R H1 Hfn) as (s1 & -> & R1 & K1). rewrite bind_some.
  destruct (say str grep_lits B s1 _ (text ":") R1) as (s2 & -> & R2 & K2); [done|lit|]. rewrite bind_some.
  pose proof (keeps_chain s s1 s2 _ K1 K2) as K12.
  destruct (say_string str grep_lits B s2 _ a line R2) as (s3 & -> & R3 & K3);
    [done|by apply (user_string_same s)|]. rewrite bind_some.
  destruct (say str grep_lits B s3 _ [10] R3) as (s4 & -> & R4 & K4); [done|lit|].
  pose proof (keeps_chain s s3 s4 _ (keeps_chain s s2 s3 _ K12 K3) K4) as K. exists s4. split; [done|].
  rewrite !w_print_app in R4. split; [|done].
  apply (ready_step s s4 w); [by split|exact R4|done|]. by apply (keeps_sub _ _ _ _ K).
Qed.

(** A line in the buffer, as a string. *)
Lemma hold_text s ls line :
  hold s ls line → Forall (λ c, 0 < c < 256) line → rd s (data + (ls + Z.of_nat (length line))) = 0 →
  text_at s (data + ls) line.
Proof.
  intros Hh Hc Hz. apply text_at_intro; [|by rewrite <- Z.add_assoc].
  intros i Hi. rewrite <- Z.add_assoc. split; [by apply Hh|].
  pose proof (Forall_aget _ _ i Hc Hi). cbn in *. lia.
Qed.

Lemma hold_drop s ls l (n : nat) : hold s ls l → hold s (ls + Z.of_nat n) (drop n l).
Proof.
  intros Hh j Hj. rewrite length_drop in Hj. rewrite aget_drop by lia. rewrite <- Z.add_assoc. apply Hh. lia.
Qed.

(** Does the pattern start at offset [i]? *)
Definition here (line : list Z) (i : nat) : Prop := 0 < p.[0] < 128 ∧ take (length p) (drop i line) = p.

Lemma here_char line (i : nat) : here line i → line.[Z.of_nat i] = p.[0].
Proof.
  intros [H0 E]. assert ((0 < length p)%nat) as Hl.
  { destruct p; [change (0 < 0 ∧ 0 < 128) in H0; lia|cbn; lia]. }
  rewrite <- E, aget_take, aget_drop by lia. f_equal. lia.
Qed.

Lemma grep_match_here line : grep_match p line = true ↔ ∃ i : nat, (i < length line)%nat ∧ here line i.
Proof.
  unfold grep_match, here. rewrite !andb_true_iff, Z.ltb_lt, Z.ltb_lt, existsb_exists.
  setoid_rewrite bool_decide_eq_true. split.
  - intros [H0 (i & Hi & E)]. apply in_seq in Hi. exists i. split; [lia|done].
  - intros (i & Hi & H0 & E). split; [done|]. exists i. split; [apply in_seq; lia|done].
Qed.

Lemma grep_check_spec s w ls line :
  ready s w → 0 ≤ ls → ls + Z.of_nat (length line) ≤ 1024 → hold s ls line →
  Forall (λ c, 0 < c < 256) line → rd s (data + (ls + Z.of_nat (length line))) = 0 →
  ∃ s', grep_check str pat fname data ls (ls + Z.of_nat (length line)) (Z.of_nat (length p)) s = Some s' ∧
    ready s' (w_print (grep_line fn p line) w) ∧ keeps s s' (λ _, False).
Proof.
  intros Hr Hls Hle Hh Hc Hz. pose proof data_range as Hd. unfold USER_MEM_LOCATION in Hd.
  pose proof (user_string_range _ _ _ (re_pat _ _ Hr)) as Hpr. unfold USER_MEM_LOCATION in Hpr.
  destruct (re_pat _ _ Hr) as [Hpt _].
  assert (rd s pat = p.[0]) as Hp0.
  { destruct (text_at_get s pat p 0 Hpt) as [E _]; [lia|]. by rewrite Z.add_0_r in E. }
  assert (0 ≤ p.[0] < 256) as Hp0r by (rewrite <- Hp0; apply rd_range).
  unfold grep_check. rewrite Hp0.
  match goal with |- context [while ?f ls] => set (step := f) end.
  destruct (while_total step
    (λ check, ∃ i : nat, check = ls + Z.of_nat i ∧ (i ≤ length line)%nat ∧ ∀ j : nat, (j < i)%nat → ¬ here line j)
    (λ check, ls + Z.of_nat (length line) - check)
    (λ o, ∃ s', o = Some s' ∧ ready s' (w_print (grep_line fn p line) w) ∧ keeps s s' (λ _, False)) ls)
    as (o & -> & s' & -> & Hs'); unfold step.
  5: { by exists s'. }
  - intros check (i & -> & Hi & _). lia.
  - intros check (i & -> & Hi & Hno). destruct (Z.ltb_spec (ls + Z.of_nat i) (ls + Z.of_nat (length line))) as [Hlt|Hge].
    + pose proof (Hh (Z.of_nat i) ltac:(lia)) as Hli. rewrite Hli.
      pose proof (Forall_aget _ _ (Z.of_nat i) Hc ltac:(lia)) as Hlr. cbn in Hlr.
      assert (¬ here line i → (∃ n : nat, s32 (ls + Z.of_nat i + 1) = ls + Z.of_nat n ∧ (n ≤ length line)%nat ∧
        ∀ j : nat, (j < n)%nat → ¬ here line j) ∧
        ls + Z.of_nat (length line) - s32 (ls + Z.of_nat i + 1) < ls + Z.of_nat (length line) - (ls + Z.of_nat i)) as Hnext.
      { intros Hi'. rewrite s32_small by lia. split; [|lia]. exists (i + 1)%nat. split; [lia|]. split; [lia|].
        intros j Hj. destruct (decide (j = i)) as [->|]; [done|]. apply Hno. lia. }
      destruct (Z.eqb_spec (s8 p.[0]) line.[Z.of_nat i]) as [E8|Hne].
      2: { apply Hnext. intros Hhere. apply Hne. rewrite (here_char _ _ Hhere).
           destruct Hhere as [H0 _]. apply s8_eq; lia. }
      apply s8_eq in E8 as [E0 H0]; [|done|lia].
      rewrite u32_small by lia.
      destruct (ece391_strncmp_spec s (data + (ls + Z.of_nat i)) pat (drop i line) p (Z.of_nat (length p)))
        as (r & -> & Hr0); [|done|lia|lia|lia|rewrite length_drop; lia|lia|].
      { apply (hold_text s (ls + Z.of_nat i)); [by apply hold_drop|by apply Forall_drop|].
        rewrite length_drop. rewrite <- Hz. do 2 f_equal. lia. }
      rewrite Nat2Z.id, (take_ge p) in Hr0 by lia.
      destruct (Z.eqb_spec r 0) as [->|Hr1].
      * destruct (grep_print_spec s w (data + ls) line Hr) as (s' & -> & R' & K').
        { split; [by apply hold_text|]. intros b Hb. apply Hdata. unfold region in *. lia. }
        exists s'. split; [done|]. split; [|done]. unfold grep_line.
        rewrite (proj2 (grep_match_here line)); [done|]. exists i. split; [lia|]. split; [done|]. tauto.
      * apply Hnext. intros [_ Hhere]. tauto.
    + exists s. split; [done|]. unfold grep_line.
      assert (grep_match p line = false) as ->.
      { apply not_true_is_false. rewrite grep_match_here. intros (j & Hj & Hhere). apply (Hno j); [lia|done]. }
      rewrite w_print_nil. split; [done|]. done.
  - exists 0%nat. split; [lia|]. split; [lia|]. intros j Hj. lia.
  - lia.
Qed.

(** *** The lines in the buffer *)

#[local] Abbreviation out_of := (grep_out fn p).
#[local] Abbreviation short := (Forall (λ l : list Z, (length l < 1024)%nat)).

(** What the loop over the lines knows: [b] was read into the buffer and
    [rest] is still in the file. *)
Record lines_inv w (b rest : list Z) s (ls : Z) : Prop := {
  li_ls : 0 ≤ ls ∧ (ls = 0 ∨ ls < Z.of_nat (length b));
  li_hold : hold s ls (drop (Z.to_nat ls) b);
  li_guard : rd s (data + 1024) ≠ 10;
  li_short : short (split_nl (drop (Z.to_nat ls) b ++ rest));
  li_out : ∃ out, ready s (w_print out w) ∧ out_of (b ++ rest) = out ++ out_of (drop (Z.to_nat ls) b ++ rest)
}.

(** What it leaves: the beginning [nc] of the next line. *)
Definition lines_post w (cnt : Z) (b rest : list Z) (o : option (S * Z)) : Prop :=
  ∃ s nc out, o = Some (s, Z.of_nat (length nc)) ∧ (length nc < 1024)%nat ∧ (cnt = 0 → nc = []) ∧
    hold s 0 nc ∧ Forall (λ c, 0 < c < 256) nc ∧ rd s (data + 1024) ≠ 10 ∧ short (split_nl (nc ++ rest)) ∧
    ready s (w_print out w) ∧ out_of (b ++ rest) = out ++ out_of (nc ++ rest).

(** The search of a line, and the line start behind it. *)
Lemma search_line s w ls line :
  ready s w → 0 ≤ ls → ls + Z.of_nat (length line) ≤ 1024 → hold s ls line →
  Forall (λ c, 0 < c < 256) line → rd s (data + 1024) ≠ 10 →
  let e := ls + Z.of_nat (length line) in
  ∃ s', grep_check str pat fname data ls e (Z.of_nat (length p)) (wr s (data + e) 0) = Some s' ∧
    ready s' (w_print (grep_line fn p line) w) ∧ rd s' (data + 1024) ≠ 10 ∧
    ∀ j, e < j ≤ 1024 → rd s' (data + j) = rd s (data + j).
Proof.
  intros Hr Hls Hle Hh Hc Hg e. destruct (ready_wr s w e 0 Hr) as [R1 W1]; [lia|].
  set (s1 := wr s (data + e) 0) in *.
  assert (∀ j, 0 ≤ j ≤ 1024 → user_page (data + j)) as Hu by (intros j Hj; apply Hdata; unfold region; lia).
  destruct (grep_check_spec s1 w ls line R1 Hls Hle) as (s' & E & R' & K').
  - intros j Hj. rewrite W1, decide_False by lia. by apply Hh.
  - done.
  - fold e. by rewrite W1, decide_True by lia.
  - exists s'. split; [exact E|]. split; [exact R'|]. split.
    + rewrite K' by (tauto || apply Hu; lia). rewrite W1 by lia. by case_decide.
    + intros j Hj. rewrite K' by (tauto || apply Hu; lia). rewrite W1 by lia. by rewrite decide_False by lia.
Qed.

Section Lines.
Context (w : world) (cnt : Z) (b rest : list Z).
Context (Hb : Forall (λ c, 0 < c < 256) b) (Hblen : Z.of_nat (length b) ≤ 1024).
#[local] Abbreviation step :=
  (grep_lines_step str pat fname data cnt (Z.of_nat (length p)) (Z.of_nat (length b))).

(** The loop goes on to a later line, or ends. *)
Definition lines_next (ls : Z) (r : (S * Z) + option (S * Z)) : Prop :=
  match r with
  | inl (s', ls') => lines_inv w b rest s' ls' ∧ ls < ls'
  | inr o => lines_post w cnt b rest o
  end.

(** A complete line. *)
Lemma step_line s ls l1 l2 :
  lines_inv w b rest s ls → drop (Z.to_nat ls) b = l1 ++ 10 :: l2 → 10 ∉ l1 → lines_next ls (step (s, ls)).
Proof.
  intros [Hls Hh Hg Hs (out & Hr & Ho)] Ed Hn. rewrite Ed in Hh, Hs, Ho.
  assert (Z.of_nat (length b) = ls + Z.of_nat (length l1) + 1 + Z.of_nat (length l2)) as Hlen.
  { apply (f_equal length) in Ed. rewrite length_drop, length_app in Ed. cbn in Ed. lia. }
  assert (Forall (λ c, 0 < c < 256) l1) as Hc1.
  { apply (Forall_drop _ (Z.to_nat ls)) in Hb. rewrite Ed in Hb. by apply Forall_app in Hb as [? _]. }
  assert (hold s ls l1) as Hh1.
  { intros j Hj. rewrite Hh by (rewrite length_app; lia). apply aget_app_l. lia. }
  set (e := ls + Z.of_nat (length l1)) in *.
  assert (rd s (data + e) = 10) as He.
  { unfold e. rewrite Hh by (rewrite length_app; cbn; lia). rewrite aget_app_r by lia. by rewrite Z.sub_diag. }
  unfold grep_lines_step. rewrite (grep_end_spec s ls (Z.of_nat (length l1))).
  2-3: lia. 2: lia.
  2: { intros j Hj. rewrite Hh1 by done. intros E. apply Hn. rewrite <- E. by apply aget_elem. }
  2: { by right. }
  fold e. rewrite He. cbn [Z.eqb Pos.eqb negb andb].
  destruct (search_line s _ ls l1 Hr) as (s' & E & R' & G' & K'); [lia|lia|done|done|done|]. fold e in E, K'. rewrite E.
  rewrite s32_small by lia. rewrite w_print_app in R'.
  rewrite <- app_assoc in Hs, Ho. cbn [app] in Hs, Ho. rewrite split_nl_line in Hs by done. rewrite grep_out_line in Ho by done.
  apply Forall_cons_iff in Hs as [_ Hs]. rewrite app_assoc in Ho.
  assert (drop (Z.to_nat (e + 1)) b = l2) as Ed2.
  { replace (Z.to_nat (e + 1)) with (Z.to_nat ls + (length l1 + 1))%nat by lia.
    rewrite <- drop_drop, Ed. rewrite (cons_middle 10 l1 l2), app_assoc.
    replace (length l1 + 1)%nat with (length (l1 ++ [10])) by (rewrite length_app; done). apply drop_app_length. }
  destruct (Z.geb_spec (e + 1) (Z.of_nat (length b))) as [Hge|Hlt].
  - assert (l2 = []) as -> by (destruct l2; [done|cbn in *; lia]).
    exists s', [], (out ++ grep_line fn p l1). 
    split; [done|]. split; [cbn; lia|]. split; [done|]. split; [intros j Hj; cbn in Hj; lia|]. by split_and!.
  - split; [|lia]. split; [lia| |done|by rewrite Ed2|].
    + rewrite Ed2. intros j Hj. rewrite K' by lia.
      replace (e + 1 + j) with (ls + (Z.of_nat (length l1) + (1 + j))) by lia.
      rewrite Hh by (rewrite length_app; cbn; lia). rewrite aget_app_r by lia.
      rewrite (aget_app_r [10] l2) by (cbn; lia). f_equal. cbn. lia.
    + exists (out ++ grep_line fn p l1). split; [done|]. by rewrite Ed2.
Qed.

(** The last bytes of the buffer are not a complete line. *)
Lemma part_end s ls :
  lines_inv w b rest s ls → 10 ∉ drop (Z.to_nat ls) b →
  ls + Z.of_nat (length (drop (Z.to_nat ls) b)) = Z.of_nat (length b) ∧
  grep_end data (Z.of_nat (length b)) ls s = Some (Z.of_nat (length b)) ∧
  Forall (λ c, 0 < c < 256) (drop (Z.to_nat ls) b).
Proof.
  intros [Hls Hh _ _ _] Hn. set (l := drop (Z.to_nat ls) b) in *.
  assert (ls + Z.of_nat (length l) = Z.of_nat (length b)) as Hlen by (unfold l; rewrite length_drop; lia).
  split; [done|]. split; [|by apply Forall_drop].
  rewrite (grep_end_spec s ls (Z.of_nat (length l))); [by rewrite Hlen|lia|lia|lia| |by left].
  intros j Hj. rewrite Hh by done. intros E. apply Hn. rewrite <- E. by apply aget_elem.
Qed.

(** It is carried over to the next read. *)
Lemma step_carry s ls :
  lines_inv w b rest s ls → 10 ∉ drop (Z.to_nat ls) b →
  rd s (data + Z.of_nat (length b)) ≠ 10 → cnt ≠ 0 → ls ≠ 0 → lines_next ls (step (s, ls)).
Proof.
  intros Hi Hn Hnl Hcnt Hls0. destruct (part_end s ls Hi Hn) as (Hlen & Hend & Hc).
  destruct Hi as [Hls Hh Hg Hs (out & Hr & Ho)]. set (l := drop (Z.to_nat ls) b) in *.
  unfold grep_lines_step. rewrite Hend. rewrite (proj2 (Z.eqb_neq _ _) Hnl), (proj2 (Z.eqb_neq _ _) Hcnt),
    (proj2 (Z.eqb_neq _ _) Hls0). cbn [negb andb]. set (last := Z.of_nat (length b)) in *.
  destruct (ready_wr s _ last 0 Hr) as [R1 W1]; [lia|]. set (s1 := wr s (data + last) 0) in *.
  pose proof data_range as Hd. unfold USER_MEM_LOCATION in Hd.
  assert (∀ j, 0 ≤ j ≤ 1024 → user_page (data + j)) as Hu by (intros j Hj; apply Hdata; unfold region; lia).
  destruct (ece391_strcpy_spec user_page (λ s, ready s (w_print out w)) s1 data (data + ls) l) as (s2 & -> & Hw & R2).
  - apply fs_safe, R1.
  - apply hold_text; [|done|rewrite Hlen, W1, decide_True by lia; done].
    intros j Hj. rewrite W1, decide_False by lia. by apply Hh.
  - lia.
  - lia.
  - lia.
  - lia.
  - intros a Ha. replace a with (data + (a - data)) by lia. apply Hu. unfold region in Ha. lia.
  - intros a Ha. replace a with (data + (a - data)) by lia. apply Hu. unfold region in Ha. lia.
  - left. lia.
  - intros s' a v Hr' Ha. replace a with (data + (a - data)) by lia.
    apply ready_wr; [done|]. unfold region in Ha. lia.
  - done.
  - rewrite bind_some, s32_small by lia.
    exists s2, l, out. split; [do 2 f_equal; lia|]. split; [lia|]. split; [done|]. split; [|split_and!; try done].
    + intros j Hj. rewrite Z.add_0_l, (written_in _ _ _ _ _ _ _ Hw); [f_equal; lia|apply Hu; lia|lia].
    + rewrite (written_out _ _ _ _ _ _ _ Hw); [|apply Hu; lia|lia]. rewrite W1 by lia. by case_decide.
Qed.

(** It is the last line of the file. *)
Lemma step_last s ls :
  lines_inv w b rest s ls → 10 ∉ drop (Z.to_nat ls) b →
  rd s (data + Z.of_nat (length b)) = 10 ∨ cnt = 0 ∨ ls = 0 → rest = [] → lines_next ls (step (s, ls)).
Proof.
  intros Hi Hn Hor Hrest. destruct (part_end s ls Hi Hn) as (Hlen & Hend & Hc).
  destruct Hi as [Hls Hh Hg Hs (out & Hr & Ho)]. set (l := drop (Z.to_nat ls) b) in *.
  unfold grep_lines_step. rewrite Hend. set (last := Z.of_nat (length b)) in *.
  assert (negb (rd s (data + last) =? 10) && negb (cnt =? 0) && negb (ls =? 0) = false) as ->.
  { destruct Hor as [->|[->| ->]]; [done|by rewrite andb_false_r|by rewrite andb_false_r]. }
  destruct (search_line s _ ls l Hr) as (s' & E & R' & G' & _); [lia|lia|done|done|done|].
  rewrite Hlen in E. rewrite E. rewrite s32_small by lia.
  rewrite (proj2 (Z.geb_le (last + 1) last)) by lia. rewrite w_print_app in R'.
  exists s', [], (out ++ grep_line fn p l).
  split; [done|]. split; [cbn; lia|]. split; [done|]. split; [intros j Hj; cbn in Hj; lia|].
  subst rest. rewrite !app_nil_r in *. rewrite (grep_out_last _ _ l Hn) in Ho.
  split_and!; try done; [by repeat constructor|]. rewrite Ho. cbn [app]. by rewrite grep_out_nil, app_nil_r.
Qed.
End Lines.

(** The lines of the buffer are searched; an incomplete one is kept for later. *)
Lemma grep_lines s w cnt b rest :
  ready s w → hold s 0 b → Forall (λ c, 0 < c < 256) b → Z.of_nat (length b) ≤ 1024 →
  rd s (data + 1024) ≠ 10 → short (split_nl (b ++ rest)) →
  (cnt = 0 ∨ Z.of_nat (length b) < 1024 → rest = []) →
  ∃ o, while (grep_lines_step str pat fname data cnt (Z.of_nat (length p)) (Z.of_nat (length b))) (s, 0) = Some o ∧
    lines_post w cnt b rest o.
Proof.
  intros Hr Hh Hb Hl Hg Hs Hrest.
  apply (while_total _ (λ '(s, ls), lines_inv w b rest s ls) (λ '(_, ls), 1024 - ls)).
  - intros [s1 ls] [H _ _ _ _]. lia.
  - intros [s1 ls] Hi. assert (lines_next w cnt b rest ls
      (grep_lines_step str pat fname data cnt (Z.of_nat (length p)) (Z.of_nat (length b)) (s1, ls))) as Hnext.
    { destruct (decide (10 ∈ drop (Z.to_nat ls) b)) as [Hin|Hn].
      - apply list_elem_of_split_l in Hin as (l1 & l2 & E & Hn). by apply (step_line w cnt b rest Hb Hl s1 ls l1 l2).
      - destruct (decide (rd s1 (data + Z.of_nat (length b)) = 10 ∨ cnt = 0 ∨ ls = 0)) as [Hor|Hno].
        + apply step_last; [done|done|done|done|done|]. apply Hrest.
          destruct (decide (Z.of_nat (length b) < 1024)) as [|Hfull]; [by right|].
          destruct Hor as [Hor|[Hor| ->]]; [|by left|].
          * destruct (li_guard _ _ _ _ _ Hi). by replace 1024 with (Z.of_nat (length b)) by lia.
          * exfalso. destruct (split_nl_head b rest Hn) as (x & xs & E). rewrite E in Hs.
            apply Forall_cons_iff in Hs as [Hs _]. rewrite length_app in Hs. lia.
        + apply step_carry; try done; tauto. }
    destruct (grep_lines_step _ _ _ _ _ _ _ _) as [[s' ls']|o]; [|done].
    destruct Hnext as [Hi' Hlt]. split; [done|lia].
  - split; [lia|done|done|done|]. exists []. by rewrite w_print_nil.
  - lia.
Qed.

(** *** The file *)

Section File.
Context (w : world) (fd inode : Z) (c : list Z).
Context (Hfd : 2 ≤ fd < 8) (Hfds : length (w_fds w) = 8%nat).
Context (Hinode : 0 ≤ inode < num_inodes im) (Hc : c = (im_files im).[inode]) (Htext : text_file c).

(** [pos] bytes are read; the buffer holds the beginning [nc] of a line. *)
Record file_inv s (nc : list Z) (pos : Z) (out : list Z) : Prop := {
  fi_len : (length nc < 1024)%nat;
  fi_pos : 0 ≤ pos ≤ Z.of_nat (length c);
  fi_hold : hold s 0 nc;
  fi_chars : Forall (λ x, 0 < x < 256) nc;
  fi_guard : rd s (data + 1024) ≠ 10;
  fi_short : short (split_nl (nc ++ drop (Z.to_nat pos) c));
  fi_ready : ready s (w_print out (w_set fd (Data inode pos) w));
  fi_out : out_of c = out ++ out_of (nc ++ drop (Z.to_nat pos) c)
}.

(** A read appends the next bytes of the file to the buffer. *)
Lemma grep_read s nc pos out :
  file_inv s nc pos out →
  let v := deliver (Z.of_nat (length c)) pos (1024 - Z.of_nat (length nc)) in
  let b := nc ++ slice c pos (1024 - Z.of_nat (length nc)) in
  ∃ s', ece391_read s fd (data + Z.of_nat (length nc)) (s32 (1024 - Z.of_nat (length nc))) = Some (s', v) ∧
    hold s' 0 b ∧ rd s' (data + 1024) ≠ 10 ∧ ready s' (w_print out (w_set fd (Data inode (pos + v)) w)).
Proof.
  intros [Hl Hpos Hh Hch Hg Hs Hr Ho] v b. set (n := 1024 - Z.of_nat (length nc)) in *.
  assert (Z.of_nat (length c) ≤ 4096 * 1023) as Hsize by (subst c; apply (fs_sizes s); [apply Hr|done]).
  assert (0 ≤ v ≤ n) as Hv by (unfold v, deliver; lia). rewrite s32_small by lia.
  destruct (read_file str grep_lits B s _ fd (data + Z.of_nat (length nc)) n inode pos (re_run _ _ Hr))
    as (s' & E & R' & Hb & K'); [lia| |done|lia|lia| |].
  { unfold w_print, w_set. cbn [w_fds]. by rewrite aget_aset_eq by lia. }
  { intros a Ha. apply Hdata. unfold region in *. lia. }
  rewrite <- Hc in E, R', Hb, K'. fold v in E, R', Hb, K'. rewrite w_set_print, w_set_set in R'.
  assert (∀ j, 0 ≤ j ≤ 1024 → user_page (data + j)) as Hu by (intros j Hj; apply Hdata; unfold region; lia).
  exists s'. split; [done|]. split; [|split].
  - intros j Hj. unfold b in Hj. rewrite length_app, Nat2Z.inj_add, length_slice in Hj by lia. fold v in Hj.
    unfold b. destruct (decide (j < Z.of_nat (length nc))) as [Hlt|Hge].
    + rewrite aget_app_l by lia. rewrite K'; [apply Hh; lia|apply Hu; lia|unfold region; lia].
    + rewrite aget_app_r by lia. rewrite <- Hb. symmetry. apply aget_lookup; [lia|].
      rewrite bytes_lookup by lia. do 2 f_equal. lia.
  - rewrite K'; [done|apply Hu; lia|unfold region; lia].
  - apply (ready_step s s' _ _ Hr); [exact R'| |].
    + destruct Hr as [_ H1 _ _]. unfold w_print, w_set in *. cbn [w_fds] in *.
      rewrite aget_aset_ne in H1 |- * by lia. exact H1.
    + apply (keeps_sub _ _ _ _ K'). intros a Ha. unfold region in *. lia.
Qed.

(** The bytes still to be read. *)
Definition to_read s : Z := match sv_handle s fd with Data _ pos => Z.of_nat (length c) - pos | _ => 0 end.

Lemma to_read_eq s out pos :
  ready s (w_print out (w_set fd (Data inode pos) w)) → to_read s = Z.of_nat (length c) - pos.
Proof.
  intros Hr. unfold to_read. rewrite (wo_fds _ _ (ru_sees _ _ _ _ _ (re_run _ _ Hr))).
  unfold w_print, w_set. cbn [w_fds]. by rewrite aget_aset_eq by lia.
Qed.

(** One read and the lines it completes. *)
Lemma grep_file_next s nc pos out :
  file_inv s nc pos out →
  match grep_file_step str pat fname data fd (Z.of_nat (length p)) (s, Z.of_nat (length nc)) with
  | inl (s', last) => ∃ nc' pos' out', last = Z.of_nat (length nc') ∧ file_inv s' nc' pos' out' ∧ pos < pos'
  | inr o => ∃ s' pos', o = Some (s', true) ∧ rd s' (data + 1024) ≠ 10 ∧
      ready s' (w_print (out_of c) (w_set fd (Data inode pos') w))
  end.
Proof.
  intros Hi. destruct (grep_read s nc pos out Hi) as (s1 & E1 & Hh1 & Hg1 & R1).
  destruct Hi as [Hl Hpos _ Hch _ Hs _ Ho]. unfold grep_file_step. rewrite E1.
  set (n := 1024 - Z.of_nat (length nc)) in *. set (v := deliver (Z.of_nat (length c)) pos n) in *.
  assert (0 ≤ v ≤ n ∧ pos + v ≤ Z.of_nat (length c)) as [Hv Hpv] by (unfold v, deliver; lia).
  rewrite (proj2 (Z.eqb_neq v (-1))) by lia. rewrite s32_small by lia.
  set (b := nc ++ slice c pos n) in *. set (rest := drop (Z.to_nat (pos + v)) c).
  assert (Z.of_nat (length b) = Z.of_nat (length nc) + v) as Hlb
    by (unfold b; rewrite length_app, Nat2Z.inj_add, length_slice; lia).
  assert (b ++ rest = nc ++ drop (Z.to_nat pos) c) as Eb.
  { unfold b, rest. rewrite <- app_assoc. f_equal. rewrite <- (slice_deliver c pos n) by lia. fold v. unfold slice.
    replace (Z.to_nat (pos + v)) with (Z.to_nat pos + Z.to_nat v)%nat by lia.
    rewrite <- drop_drop. apply take_drop. }
  rewrite <- Hlb.
  destruct (grep_lines s1 _ v b rest R1 Hh1) as (o & -> & s2 & nc' & out' & -> & Hl' & Hz & Hh' & Hch' & Hg' & Hs' & R' & Ho').
  - apply Forall_app_2; [done|]. by apply Forall_take, Forall_drop, Htext.
  - lia.
  - done.
  - by rewrite Eb.
  - intros Hend. apply drop_ge. unfold v, deliver in Hend, Hlb |- *. lia.
  - rewrite w_print_app in R'. rewrite <- Eb, Ho', app_assoc in Ho.
    destruct (Z.eqb_spec v 0) as [Ev|Hv0].
    + exists s2, (pos + v). split; [done|]. split; [done|]. rewrite (Hz Ev) in Ho.
      assert (rest = []) as Er by (apply drop_ge; unfold v, deliver in Ev |- *; lia).
      rewrite Er in Ho. cbn [app] in Ho. rewrite grep_out_nil, app_nil_r in Ho. by rewrite Ho.
    + exists nc', (pos + v), (out ++ out'). split; [done|]. split; [|lia]. by split; [|lia|..].
Qed.

Lemma grep_file_run s :
  ready s (w_set fd (Data inode 0) w) → rd s (data + 1024) ≠ 10 →
  ∃ o, while (grep_file_step str pat fname data fd (Z.of_nat (length p))) (s, 0) = Some o ∧
    ∃ s' pos, o = Some (s', true) ∧ rd s' (data + 1024) ≠ 10 ∧
      ready s' (w_print (out_of c) (w_set fd (Data inode pos) w)).
Proof.
  intros Hr Hg. assert (Z.of_nat (length c) ≤ 4096 * 1023) as Hsize by (subst c; apply (fs_sizes s); [apply Hr|done]).
  assert (file_inv s [] 0 []) as Hi0.
  { split; [cbn; lia|lia|intros j Hj; cbn in Hj; lia|done|done|apply Htext|by rewrite w_print_nil|done]. }
  apply (while_total _
    (λ '(s, last), ∃ nc pos out, last = Z.of_nat (length nc) ∧ file_inv s nc pos out)
    (λ '(s, _), to_read s)).
  - intros [s1 last] (nc & pos & out & _ & Hi). rewrite (to_read_eq s1 out pos) by apply Hi. destruct Hi. lia.
  - intros [s1 last] (nc & pos & out & -> & Hi). pose proof (grep_file_next s1 nc pos out Hi) as Hnext.
    destruct (grep_file_step _ _ _ _ _ _ _) as [[s2 last]|o]; [|done].
    destruct Hnext as (nc' & pos' & out' & E & Hi' & Hlt). split; [by exists nc', pos', out'|].
    rewrite (to_read_eq s1 out pos), (to_read_eq s2 out' pos') by (apply Hi || apply Hi'). lia.
  - by exists [], 0, [].
  - rewrite (to_read_eq s [] 0) by apply Hi0. lia.
Qed.
End File.

(** *** [do_one_file] *)

(** Opening and closing around the loop. *)
Lemma do_one_file_spec s w i fd w' :
  ready s w → rd s (data + 1024) ≠ 10 → lookup_file im fn = Some i → lowest fd w →
  (∀ s1, ready s1 (w_set fd (opens (im_dents im).[i]) w) → rd s1 (data + 1024) ≠ 10 →
    ∃ o, while (grep_file_step str pat fname data fd (Z.of_nat (length p))) (s1, 0) = Some o ∧
      ∃ s2 h, o = Some (s2, true) ∧ rd s2 (data + 1024) ≠ 10 ∧ h ≠ Closed ∧ ready s2 (w_set fd h w')) →
  length (w_fds w') = 8%nat → (w_fds w').[fd] = Closed →
  ∃ s', do_one_file str data pat fname s = Some (s', 0) ∧ rd s' (data + 1024) ≠ 10 ∧ ready s' w'.
Proof.
  intros Hr Hg Hlk Hlow Hrun Hlen Hcl. unfold do_one_file. pose proof (user_string_range _ _ _ (re_pat _ _ Hr)) as Hpr.
  unfold USER_MEM_LOCATION in Hpr. destruct (re_pat _ _ Hr) as [[Hps _] _]. pose proof (proj1 Hlow) as Hfd.
  rewrite (ece391_strlen_spec s pat _ Hps) by lia. rewrite bind_some, s32_small by lia.
  destruct (open_file str grep_lits B s w fname fn i fd (re_run _ _ Hr)) as (s1 & -> & R1 & K1); [apply Hr|done|done|].
  rewrite bind_some. rewrite (proj2 (Z.eqb_neq fd (-1))) by lia.
  assert (∀ h w0, (w_fds w0).[1] = Screen → (w_fds (w_set fd h w0)).[1] = Screen) as H1
    by (intros h w0 H1; unfold w_set; cbn [w_fds]; by rewrite aget_aset_ne by lia).
  assert (∀ s s', keeps s s' (λ _, False) → rd s (data + 1024) ≠ 10 → rd s' (data + 1024) ≠ 10) as Hkg.
  { intros s0 s0' K G. rewrite K; [done|apply Hdata; unfold region; lia|tauto]. }
  destruct (Hrun s1) as (o & -> & s2 & h & -> & Hg2 & Hh & R2).
  { apply (ready_step s s1 w); [done|exact R1|apply H1, Hr|]. by apply (keeps_sub _ _ _ _ K1). }
  { by apply (Hkg s). }
  rewrite !bind_some. cbn [negb].
  destruct (close_file str grep_lits B s2 _ fd (re_run _ _ R2)) as (s3 & -> & R3 & K3); [done| |].
  { unfold w_set. cbn [w_fds]. by rewrite aget_aset_eq by lia. }
  rewrite bind_some. cbn [Z.eqb]. exists s3. split; [done|]. split; [by apply (Hkg s2)|].
  rewrite w_set_set in R3. rewrite <- Hcl, w_set_same in R3.
  apply (ready_step s2 s3 _ _ R2); [exact R3| |by apply (keeps_sub _ _ _ _ K3)].
  destruct R2 as [_ H2 _ _]. unfold w_set in H2. cbn [w_fds] in H2. by rewrite aget_aset_ne in H2 by lia.
Qed.

(** A text file: its matching lines are printed, and it is closed again. *)
Lemma do_text_file s w i fd :
  ready s w → rd s (data + 1024) ≠ 10 → lookup_file im fn = Some i → lowest fd w →
  let e := (im_dents im).[i] in
  d_type e = 2 → 0 ≤ d_inode e < num_inodes im → text_file (im_files im).[d_inode e] →
  ∃ s', do_one_file str data pat fname s = Some (s', 0) ∧ rd s' (data + 1024) ≠ 10 ∧
    ready s' (w_print (out_of (im_files im).[d_inode e]) w).
Proof.
  intros Hr Hg Hlk Hlow e Hty Hin Htx. assert (length (w_fds w) = 8%nat) as Hlen by apply Hr.
  assert (opens e = Data (d_inode e) 0) as Eo by (unfold opens; by rewrite Hty).
  apply (do_one_file_spec s w i fd); try done; [|apply Hlow]. fold e. rewrite Eo. intros s1 R1 G1.
  destruct (grep_file_run w fd (d_inode e) _ (proj1 Hlow) Hlen Hin eq_refl Htx s1 R1 G1) as (o & E & s2 & pos & -> & G2 & R2).
  exists (Some (s2, true)). split; [exact E|]. by exists s2, (Data (d_inode e) pos).
Qed.

(** The clock: an empty file that takes a tick to read. *)
Lemma do_clock s w i fd :
  ready s w → rd s (data + 1024) ≠ 10 → lookup_file im fn = Some i → lowest fd w →
  d_type (im_dents im).[i] = 0 → (1 ≤ w_ticks w)%nat →
  ∃ s', do_one_file str data pat fname s = Some (s', 0) ∧ rd s' (data + 1024) ≠ 10 ∧ ready s' (w_wait 1 w).
Proof.
  intros Hr Hg Hlk Hlow Hty Ht. assert (length (w_fds w) = 8%nat) as Hlen by apply Hr. pose proof (proj1 Hlow) as Hfd.
  assert (opens (im_dents im).[i] = Clock) as Eo by (unfold opens; by rewrite Hty).
  apply (do_one_file_spec s w i fd); try done; [|apply Hlow]. rewrite Eo. intros s1 R1 G1.
  destruct (wait_tick str grep_lits B s1 _ fd (data + 0) (s32 (1024 - 0)) (re_run _ _ R1)) as (s2 & E2 & R2 & K2);
    [lia|unfold w_set; cbn [w_fds]; by rewrite aget_aset_eq by lia|done|apply Hdata; unfold region; lia|].
  assert (ready s2 (w_wait 1 (w_set fd Clock w))) as R2'
    by (apply (ready_step s1 s2 _ _ R1); [exact R2|apply R1|by apply (keeps_sub _ _ _ _ K2)]).
  destruct (grep_lines s2 _ 0 [] [] R2') as (o & E3 & s3 & nc & out & -> & _ & Hz & _ & _ & G3 & _ & R3 & Ho); try done.
  { intros j Hj. cbn in Hj. lia. }
  { rewrite K2; [done|apply Hdata; unfold region; lia|tauto]. }
  { by repeat constructor. }
  exists (Some (s3, true)). split.
  - apply while_exit. unfold grep_file_step. rewrite E2. cbn [Z.eqb].
    change (s32 (0 + 0)) with (Z.of_nat (length (@nil Z))). by rewrite E3.
  - exists s3, Clock. split; [done|]. split; [done|]. split; [done|].
    rewrite (Hz eq_refl) in Ho. cbn [app] in Ho. rewrite grep_out_nil, app_nil_r in Ho. subst out.
    by rewrite w_print_nil in R3.
Qed.
End OneFile.

(** ** The directory *)

Section Directory.
Context (data search buf : Z) (p : list Z) (w : world).
Definition grep_vars (a : Z) : Prop := region data 1025 a ∨ region search 1024 a ∨ region buf 33 a.
Context (Hvars : ∀ a, grep_vars a → user_page a).
Context (Hds : ∀ a, region data 1025 a → ¬ region search 1024 a).
Context (Hdb : ∀ a, region data 1025 a → ¬ region buf 33 a).
Context (Hsb : ∀ a, region search 1024 a → ¬ region buf 33 a).
Context (Hp : Forall (λ c, 0 < c < 256) p) (Hpl : Z.of_nat (length p) < 128).
Context (Hfds : w_fds w = std_fds).
Context (Hticks : (grep_ticks im ≤ w_ticks w)%nat).
Context (Hall : ∀ i, 0 ≤ i < num_entries im → greppable im (im_dents im).[i]).

(** The world when the first [i] entries are done. *)
Definition at_entry (i : Z) : world :=
  let l := take (Z.to_nat i) (im_dents im) in
  w_wait (sum_list_with (grep_tick im) l) (w_print (l ≫= grep_entry im p) (w_set 2 (Dir (64 * (i + 1))) w)).

Record dir_inv s (w' : world) : Prop := {
  di_run : running str grep_lits grep_vars s w';
  di_pat : user_string s search p;
  di_guard : rd s (data + 1024) ≠ 10
}.

Lemma at_entry_next i :
  0 ≤ i < num_entries im →
  let e := (im_dents im).[i] in
  at_entry (i + 1) = w_wait (grep_tick im e) (w_print (grep_entry im p e) (w_set 2 (Dir (64 * (i + 2))) (at_entry i))) ∧
  (grep_tick im e ≤ w_ticks (at_entry i))%nat.
Proof.
  intros Hi e. unfold num_entries in Hi.
  assert (sum_list_with (grep_tick im) (take (Z.to_nat (i + 1)) (im_dents im)) =
    sum_list_with (grep_tick im) (take (Z.to_nat i) (im_dents im)) + grep_tick im e)%nat as Et.
  { replace (Z.to_nat (i + 1)) with (Datatypes.S (Z.to_nat i)) by lia.
    rewrite (take_S_r _ _ e) by (unfold e; rewrite lookup_aget by lia; do 2 f_equal; lia).
    rewrite sum_list_with_app. cbn. lia. }
  assert (sum_list_with (grep_tick im) (take (Z.to_nat (i + 1)) (im_dents im)) ≤ grep_ticks im)%nat as Hle.
  { unfold grep_ticks. rewrite <- (take_drop (Z.to_nat (i + 1)) (im_dents im)) at 2.
    rewrite sum_list_with_app. lia. }
  split.
  - unfold at_entry. rewrite <- bind_take_snoc by done. fold e. rewrite Et.
    rewrite <- w_wait_wait, <- w_print_app. replace (i + 1 + 1) with (i + 2) by lia.
    rewrite <- (w_set_set 2 _ (Dir (64 * (i + 1))) w). done.
  - unfold at_entry. cbn [w_wait w_print w_set w_ticks]. lia.
Qed.

Lemma at_entry_fds i : w_fds (at_entry i) = [Keys; Screen; Dir (64 * (i + 1)); Closed; Closed; Closed; Closed; Closed].
Proof. unfold at_entry, w_wait, w_print, w_set. cbn [w_fds]. by rewrite Hfds. Qed.

(** The name of an entry, read into the buffer. *)
Lemma entry_name s i :
  dir_inv s (at_entry i) → 0 ≤ i < num_entries im →
  let e := (im_dents im).[i] in
  let v := Z.of_nat (length (d_name e)) in
  let w1 := w_set 2 (Dir (64 * (i + 2))) (at_entry i) in
  ∃ s1, ece391_read s 2 buf 32 = Some (s1, v) ∧ 0 < v ≤ 32 ∧ rd s1 buf = (d_name e).[0] ∧ dir_inv s1 w1 ∧
    dir_inv (wr s1 (buf + v) 0) w1 ∧ user_string (wr s1 (buf + v) 0) buf (d_name e).
Proof.
  intros [R Hpat Hg] Hi e v w1. set (nm := d_name e) in *.
  destruct (fs_names s (wo_ok _ _ (ru_sees _ _ _ _ _ R)) i Hi) as [Hl _]. fold e nm in Hl. fold v in Hl.
  assert (Forall (λ c, 0 < c < 256) nm) as Hch
    by apply (name_chars e), (fs_names s (wo_ok _ _ (ru_sees _ _ _ _ _ R)) i Hi).
  assert (0 < v) as Hv.
  { destruct (Hall i Hi) as [Hne _]. fold e nm in Hne. unfold v. destruct nm; [done|cbn; lia]. }
  assert (∀ a, region buf 33 a → user_page a ∧ grep_vars a) as Hbuf
    by (intros a Ha; split; [apply Hvars|]; by right; right).
  pose proof (Hvars buf ltac:(right; right; unfold region; lia)) as Hb0.
  pose proof (read_entry str grep_lits grep_vars s _ 2 buf i R ltac:(lia)) as H.
  rewrite at_entry_fds in H. specialize (H eq_refl ltac:(lia)). rewrite decide_True in H by lia.
  destruct H as (s1 & E & R1 & Hb & K1); [intros a Ha; apply Hbuf; unfold region in *; lia|].
  fold e nm v in E, R1, Hb, K1.
  assert (dir_inv s1 w1) as D1.
  { split; [exact R1| |].
    - apply (user_string_keeps s s1 (region buf v)); [done| |done]. intros a Ha Ha'.
      apply (Hsb a); unfold region in *; lia.
    - rewrite K1; [done|apply Hvars; left; unfold region; lia|]. intros Ha'.
      apply (Hdb (data + 1024)); unfold region in *; lia. }
  destruct (store_running str grep_lits grep_vars s1 _ (buf + v) 0 R1) as [R2 K2];
    [apply Hbuf; unfold region; lia|apply Hbuf; unfold region; lia|].
  assert (safe s1 user_page) as Hsafe by apply fs_safe, R1.
  exists s1. split; [exact E|]. split; [lia|]. split; [|split; [done|split]].
  - rewrite <- Hb. symmetry. apply aget_lookup; [lia|]. rewrite bytes_lookup by lia. do 2 f_equal. lia.
  - split; [exact R2| |].
    + apply (user_string_keeps s1 _ (region (buf + v) 1)); [done| |apply D1]. intros a Ha Ha'.
      apply (Hsb a); unfold region in *; lia.
    + rewrite K2; [apply D1|apply Hvars; left; unfold region; lia|]. intros Ha'.
      apply (Hdb (data + 1024)); unfold region in *; lia.
  - split; [|intros a Ha; apply Hbuf; unfold region in *; lia].
    apply text_of_bytes; fold v.
    + transitivity (bytes s1 buf v); [|exact Hb]. unfold bytes. apply list_fmap_ext. intros j a Ha. apply lookup_seqZ in Ha as [-> Ha].
      apply K2; [apply Hbuf; unfold region; lia|unfold region; lia].
    + revert Hch. apply Forall_impl. lia.
    + rewrite (rd_wr_safe s1 user_page); [by rewrite decide_True|done|apply Hbuf; unfold region; lia..].
Qed.

(** One entry of the directory. *)
Lemma grep_entry_step s i :
  dir_inv s (at_entry i) → 0 ≤ i < num_entries im →
  ∃ s', grep_step str data search buf 2 s = inl s' ∧ dir_inv s' (at_entry (i + 1)).
Proof.
  intros D Hi. destruct (at_entry_next i Hi) as [Enext Ht]. set (e := (im_dents im).[i]) in *.
  destruct (entry_name s i D Hi) as (s1 & E1 & Hv & Ec & D1 & D2 & U2). fold e in E1, Hv, Ec, D1, D2, U2.
  set (v := Z.of_nat (length (d_name e))) in *. set (w1 := w_set 2 (Dir (64 * (i + 2))) (at_entry i)) in *.
  pose proof (Hvars buf ltac:(right; right; unfold region; lia)) as Hb0.
  unfold user_page, region, USER_MEM_LOCATION in Hb0.
  unfold grep_step. rewrite E1, Ec. rewrite (proj2 (Z.eqb_neq v 0)), (proj2 (Z.eqb_neq v (-1))) by lia.
  fold (grep_hidden e). destruct (grep_hidden e) eqn:Eh.
  { exists s1. split; [done|]. rewrite Enext. unfold grep_tick, grep_entry. rewrite Eh.
    rewrite w_print_nil, w_wait_0. exact D1. }
  rewrite u32_small by lia. cbv zeta. set (s2 := wr s1 (buf + v) 0) in *.
  assert (∀ a, region data 1025 a → user_page a ∧ grep_vars a) as Hdata
    by (intros a Ha; split; [apply Hvars|]; by left).
  assert (∀ a, region search (Z.of_nat (length p) + 1) a → ¬ region data 1025 a) as Hpd
    by (intros a Ha Hd; apply (Hds a Hd); unfold region in *; lia).
  assert (∀ a, region buf (v + 1) a → ¬ region data 1025 a) as Hnd
    by (intros a Ha Hd; apply (Hdb a Hd); unfold region in *; lia).
  assert (w_fds w1 = [Keys; Screen; Dir (64 * (i + 2)); Closed; Closed; Closed; Closed; Closed]) as Ew1
    by (unfold w1, w_set; cbn [w_fds]; by rewrite at_entry_fds).
  assert (lowest 3 w1) as Hlow.
  { split; [lia|]. rewrite Ew1. split; [done|]. intros j Hj. by replace j with 2 by lia. }
  assert (ready grep_vars search buf p (d_name e) s2 w1) as R2
    by (split; [apply D2|by rewrite Ew1|apply D2|done]).
  destruct (Hall i Hi) as [_ [Hh|(k & Hk & Hty)]]; fold e in Hk || fold e in Hh; [congruence|].
  unfold grep_tick, grep_entry in Enext, Ht. rewrite Eh, Hk in Enext, Ht. fold w1 in Enext.
  destruct Hty as [Hty|(Hty & Hin & Htx)].
  - rewrite Hty in Enext, Ht. cbn [Z.eqb] in Enext, Ht.
    destruct (do_clock grep_vars data search buf p (d_name e) Hdata Hpd Hnd Hp ltac:(lia) s2 w1 k 3)
      as (s3 & E3 & G3 & [R3 _ P3 _]); [done|apply D2|done|done|done|exact Ht|].
    rewrite E3. exists s3. split; [done|]. rewrite Enext. by rewrite w_print_nil.
  - rewrite Hty in Enext, Ht. cbn [Z.eqb Pos.eqb] in Enext, Ht.
    destruct (do_text_file grep_vars data search buf p (d_name e) Hdata Hpd Hnd Hp ltac:(lia) s2 w1 k 3)
      as (s3 & E3 & G3 & [R3 _ P3 _]); [done|apply D2|done|done|done|done|done|].
    rewrite E3. exists s3. split; [done|]. rewrite Enext. by rewrite w_wait_0.
Qed.

Lemma grep_run s :
  dir_inv s (at_entry 0) →
  ∃ o, while (grep_step str data search buf 2) s = Some o ∧
    ∃ s', o = Some (s', 0) ∧ dir_inv s' (at_entry (num_entries im)).
Proof.
  intros D0. pose proof (fs_count s (wo_ok _ _ (ru_sees _ _ _ _ _ (di_run _ _ D0)))) as Hn.
  assert (0 ≤ num_entries im) as Hn0 by (unfold num_entries; lia).
  assert (∀ s i, dir_inv s (at_entry i) → sv_handle s 2 = Dir (64 * (i + 1))) as Hpos.
  { intros s1 i D. rewrite (wo_fds _ _ (ru_sees _ _ _ _ _ (di_run _ _ D))). by rewrite at_entry_fds. }
  apply (while_total _ (λ s, ∃ i, 0 ≤ i ≤ num_entries im ∧ dir_inv s (at_entry i))
    (λ s, left_entries im (sv_handle s 2))).
  - intros s1 (i & Hi & D). rewrite (Hpos s1 i D). cbn. lia.
  - intros s1 (i & Hi & D). destruct (decide (i < num_entries im)) as [Hlt|Hge].
    + destruct (grep_entry_step s1 i D) as (s2 & -> & D2); [lia|].
      split; [exists (i + 1); split; [lia|done]|]. rewrite (Hpos s1 i D), (Hpos s2 (i + 1) D2). cbn. lia.
    + assert (i = num_entries im) as -> by lia. unfold grep_step.
      pose proof (read_entry str grep_lits grep_vars s1 _ 2 buf (num_entries im) (di_run _ _ D) ltac:(lia)) as H.
      rewrite at_entry_fds in H. specialize (H eq_refl ltac:(lia)). rewrite decide_False in H by lia.
      destruct H as (s2 & -> & R2 & K2).
      { intros a Ha. assert (grep_vars a) as Hv by (right; right; unfold region in *; lia). split; [by apply Hvars|done]. }
      cbn [Z.eqb]. exists s2. split; [done|]. split; [exact R2| |].
      * by apply (user_string_same s1), D.
      * rewrite K2; [apply D|apply Hvars; left; unfold region; lia|tauto].
  - exists 0. split; [lia|done].
  - rewrite (Hpos s 0 D0). cbn. lia.
Qed.
End Directory.

(** The program: the matching lines of every file, in the order of the directory. *)
Lemma grep_prints s w data search buf i :
  running str grep_lits (grep_vars data search buf) s w → w_fds w = std_fds →
  (∀ a, grep_vars data search buf a → user_page a) →
  (∀ a, region data 1025 a → ¬ region search 1024 a) → (∀ a, region data 1025 a → ¬ region buf 33 a) →
  (∀ a, region search 1024 a → ¬ region buf 33 a) →
  lookup_file im (text ".") = Some i → d_type (im_dents im).[i] = 1 →
  (∀ i, 0 ≤ i < num_entries im → greppable im (im_dents im).[i]) →
  (grep_ticks im ≤ w_ticks w)%nat → rd s (data + 1024) ≠ 10 →
  ∃ s', grep str data search buf s = Some (s', 0) ∧
    sees s' (w_wait (grep_ticks im) (w_print (grep_text im (w_args w))
              (w_set 2 (Dir (64 * (num_entries im + 1))) w))).
Proof.
  intros R Hw Hvars Hds Hdb Hsb Hdot Hdir Hall Ht Hg. pose proof (ru_sees _ _ _ _ _ R) as Hs.
  destruct (fs_args s (wo_ok _ _ Hs)) as [Hal Hac]. rewrite (wo_args _ _ Hs) in Hal, Hac. set (p := w_args w) in *.
  unfold grep. destruct (fs_getargs s search 1024) as (s1 & -> & Hq & U1 & K1);
    [apply Hs|rewrite (wo_args _ _ Hs); fold p; lia|intros a Ha; apply Hvars; by right; left|].
  rewrite (wo_args _ _ Hs) in U1, K1. fold p in U1, K1. rewrite bind_some. cbn [Z.eqb negb].
  assert (running str grep_lits (grep_vars data search buf) s1 w) as R1.
  { apply (running_step str grep_lits _ s s1 w w (region search (Z.of_nat (length p) + 1))); [done| |done|].
    - by apply (sees_quiet s).
    - intros a Ha. right; left. unfold region in *. lia. }
  destruct (open_file str grep_lits _ s1 w (str (text ".")) (text ".") i 2 R1) as (s2 & -> & R2 & K2);
    [apply R1; lit|done|unfold lowest; split; [lia|]; rewrite Hw; split; [done|intros j Hj; lia]|].
  rewrite bind_some. cbn [Z.eqb]. unfold opens in R2. rewrite Hdir in R2. cbn [Z.eqb] in R2.
  destruct (grep_run data search buf p w Hvars Hds Hdb Hsb Hac Hal Hw Ht Hall s2) as (o & -> & s' & -> & [R' _ _]).
  - split; [|by apply (user_string_same s1)|].
    + unfold at_entry. cbn [take Z.to_nat sum_list_with mbind list_bind]. rewrite w_print_nil, w_wait_0. exact R2.
    + rewrite K2; [|apply Hvars; left; unfold region; lia|tauto].
      rewrite K1; [done|apply Hvars; left; unfold region; lia|]. intros Ha.
      apply (Hds (data + 1024)); unfold region in *; lia.
  - rewrite bind_some. exists s'. split; [done|]. unfold at_entry in R'.
    rewrite (take_ge (im_dents im)) in R' by (unfold num_entries; lia). apply R'.
Qed.
End Grep.
