(* ===== verification/Guard.v ===== *)
(** * Contracts with an invariant

    A system that keeps the contracts of [FileService] and whose calls keep an
    invariant [J] also keeps the contracts with [J] as part of what holds
    between the calls: whatever a program does, [J] holds when it ends. *)

From S2P Require Import Prelude Memory Lib Types Filesystem FsProofs Paging Keyboard Typing User UserLogic.
#[local] Open Scope Z_scope.

Section Guard.
Context {S : Type} `{!ByteMem S, !Syscalls S} (V : ServiceView S) (J : S → Prop).
Implicit Types (s : S) (fd buf a n : Z).

(** Stores and calls keep [J]. *)
Record guarded : Prop := {
  gd_store : ∀ s a v, sv_ok s → J s → user_page a → J (wr s a v);
  gd_open : ∀ s a s' v, sv_ok s → J s → ece391_open s a = Some (s', v) → J s';
  gd_close : ∀ s fd s' v, sv_ok s → J s → ece391_close s fd = Some (s', v) → J s';
  gd_getargs : ∀ s buf n s' v, sv_ok s → J s → ece391_getargs s buf n = Some (s', v) → J s';
  gd_write : ∀ s fd buf n s' v, sv_ok s → J s → ece391_write s fd buf n = Some (s', v) → J s';
  gd_read : ∀ s fd buf n s' v,
    sv_ok s → J s → sv_handle s fd ≠ Keys → ece391_read s fd buf n = Some (s', v) → J s';
  gd_keys : ∀ s fd buf n line ls s' v,
    sv_ok s → J s → sv_handle s fd = Keys → sv_lines s (line :: ls) →
    0 ≤ n < 2147483648 → region USER_MEM_LOCATION (0x400000 - 129) buf →
    ece391_read s fd buf n = Some (s', v) → J s';
  gd_vidmap : ∀ s a s' v,
    sv_ok s → J s → 0 ≤ a < 0x800000 → ece391_vidmap s a = Some (s', v) → J s';
  gd_handler : ∀ s signum h s' v,
    sv_ok s → J s → ece391_set_handler s signum h = Some (s', v) → J s';
  gd_number : ∀ s n s' v,
    sv_ok s → J s → s32 n < 1 ∨ 10 < s32 n → int80 s n = Some (s', v) → J s'
}.

Definition GuardView : ServiceView S := {|
  sv_ok s := sv_ok s ∧ J s;
  sv_handle := sv_handle;
  sv_screen := sv_screen;
  sv_args := sv_args;
  sv_lines := sv_lines;
  sv_ticks := sv_ticks
|}.

Lemma guard_does s s' fd h f dl dt :
  does (ServiceView0 := V) s s' fd h f dl dt → J s' → does (ServiceView0 := GuardView) s s' fd h f dl dt.
Proof. intros [D1 D2 D3 D4 D5 D6] HJ. by split. Qed.

Lemma guard_serves s s' fd h out :
  serves (ServiceView0 := V) s s' fd h out → J s' → serves (ServiceView0 := GuardView) s s' fd h out.
Proof. apply guard_does. Qed.

Lemma guard_refused s o :
  refused (ServiceView0 := V) s o → (∀ s' v, o = Some (s', v) → J s') → refused (ServiceView0 := GuardView) s o.
Proof.
  intros (s' & E & Hq & Hk) HJ. exists s'. split; [done|]. split; [|done].
  apply guard_serves; [done|]. by apply (HJ s' (-1)).
Qed.

Lemma guard_sees s w : sees (ServiceView0 := V) s w → J s → sees (ServiceView0 := GuardView) s w.
Proof. intros [H1 H2 H3 H4 H5 H6 H7] HJ. by split. Qed.

Lemma guard_sees_inv s w : sees (ServiceView0 := GuardView) s w → sees (ServiceView0 := V) s w ∧ J s.
Proof. intros [[H1 HJ] H2 H3 H4 H5 H6 H7]. by split. Qed.

Lemma not_keys (x h : handle) : x = h → h ≠ Keys → x ≠ Keys.
Proof. by intros ->. Qed.

Context {im : fs_image} (F : FileService S im) (G : guarded).

Definition GuardService : @FileService S _ _ GuardView im.
Proof using F G.
  split.
  - intros s [Hs _]. exact (fs_safe s Hs).
  - intros s a v [Hs HJ] Ha. apply guard_serves; [exact (fs_store s a v Hs Ha)|by apply G].
  - intros s [Hs _]. exact (fs_args s Hs).
  - intros s buf n [Hs HJ] Hn Hu. destruct (fs_getargs s buf n Hs Hn Hu) as (s' & E & Hse & H).
    exists s'. split; [done|]. split; [|done]. apply guard_serves; [done|]. exact (gd_getargs G _ _ _ _ _ Hs HJ E).
  - intros s a name [Hs HJ] Hu. pose proof (fs_open s a name Hs Hu) as H.
    destruct (lookup_file im name) as [i|].
    + intros Hfree. destruct (H Hfree) as (s' & fd & E & H1 & H2 & H3 & Hse & Hk).
      exists s', fd. split; [done|]. split; [done|]. split; [done|]. split; [done|]. split; [|done].
      apply guard_serves; [done|]. exact (gd_open G _ _ _ _ Hs HJ E).
    + apply guard_refused; [done|]. intros s' v. exact (gd_open G _ _ _ _ Hs HJ).
  - intros s a name [Hs HJ] Hu Hfull. apply guard_refused; [exact (fs_open_full s a name Hs Hu Hfull)|].
    intros s' v. exact (gd_open G _ _ _ _ Hs HJ).
  - intros s fd [Hs HJ] Hfd Hc. destruct (fs_close s fd Hs Hfd Hc) as (s' & E & Hse & Hk).
    exists s'. split; [done|]. split; [|done]. apply guard_serves; [done|]. exact (gd_close G _ _ _ _ Hs HJ E).
  - intros s fd [Hs HJ] Hb. apply guard_refused; [exact (fs_close_bad s fd Hs Hb)|].
    intros s' v. exact (gd_close G _ _ _ _ Hs HJ).
  - intros s fd buf n inode pos [Hs HJ] Hh Hi Hp Hn Hu. cbv zeta.
    destruct (fs_read_data s fd buf n inode pos Hs Hh Hi Hp Hn Hu) as (s' & E & Hse & H).
    exists s'. split; [done|]. split; [|done]. apply guard_serves; [done|].
    apply (gd_read G _ _ _ _ _ _ Hs HJ) in E; [done|]. exact (not_keys _ _ Hh ltac:(done)).
  - intros s fd buf n i [Hs HJ] Hh Hi Hn Hu. pose proof (fs_read_dir s fd buf n i Hs Hh Hi Hn Hu) as H.
    assert (sv_handle s fd ≠ Keys) as Hne by exact (not_keys _ _ Hh ltac:(done)).
    case_decide; cbv zeta in H |- *; destruct H as (s' & E & Hse & H); exists s'; (split; [done|]); (split; [|done]);
      (apply guard_serves; [done|]); exact (gd_read G _ _ _ _ _ _ Hs HJ Hne E).
  - intros s fd buf n line ls [Hs HJ] Hh Hl Hn Hb. cbv zeta.
    destruct (fs_read_keys s fd buf n line ls Hs Hh Hl Hn Hb) as (s' & E & Hd & H).
    exists s'. split; [done|]. split; [|done]. apply guard_does; [done|].
    exact (gd_keys G _ _ _ _ _ _ _ _ Hs HJ Hh Hl Hn Hb E).
  - exact (@fs_lines S _ _ V im F).
  - intros s fd buf n nt [Hs HJ] Hh Ht Hu. destruct (fs_read_clock s fd buf n nt Hs Hh Ht Hu) as (s' & E & Hd & Hk).
    exists s'. split; [done|]. split; [|done]. apply guard_does; [done|].
    apply (gd_read G _ _ _ _ _ _ Hs HJ) in E; [done|]. exact (not_keys _ _ Hh ltac:(done)).
  - intros s fd buf [Hs HJ] Hh Hu. destruct (fs_write_clock s fd buf Hs Hh Hu) as (s' & E & Hse & Hk).
    exists s'. split; [done|]. split; [|done]. apply guard_serves; [done|]. exact (gd_write G _ _ _ _ _ _ Hs HJ E).
  - intros s fd buf n k [Hs HJ] Hh Hp Hn Hu Hb. destruct (fs_write s fd buf n k Hs Hh Hp Hn Hu Hb) as (s' & E & Hse & Hk).
    exists s'. split; [done|]. split; [|done]. apply guard_serves; [done|]. exact (gd_write G _ _ _ _ _ _ Hs HJ E).
  - intros s fd buf n [Hs HJ] Hh Hn Hu. destruct (fs_bad_fd s fd buf n Hs Hh Hn Hu) as [H1 H2].
    split; (apply guard_refused; [done|]); intros s' v.
    + apply (gd_read G _ _ _ _ _ _ Hs HJ). exact (not_keys _ _ Hh ltac:(done)).
    + exact (gd_write G _ _ _ _ _ _ Hs HJ).
  - intros s fd buf n [Hs HJ] Hh Hu. apply guard_refused; [exact (fs_write_keys s fd buf n Hs Hh Hu)|].
    intros s' v. exact (gd_write G _ _ _ _ _ _ Hs HJ).
  - intros s fd buf n [Hs HJ] Hh Hu. apply guard_refused; [exact (fs_read_screen s fd buf n Hs Hh Hu)|].
    intros s' v. apply (gd_read G _ _ _ _ _ _ Hs HJ). exact (not_keys _ _ Hh ltac:(done)).
  - intros s a [Hs HJ] Ha. apply guard_refused; [exact (fs_vidmap_bad s a Hs Ha)|].
    intros s' v. exact (gd_vidmap G _ _ _ _ Hs HJ Ha).
  - intros s n h [Hs HJ]. destruct (fs_set_handler s n h Hs) as (s' & E & Hq & Hk). exists s'. split; [done|].
    split; [|done]. apply guard_serves; [done|]. exact (gd_handler G _ _ _ _ _ Hs HJ E).
  - intros s n [Hs HJ] Hn. apply guard_refused; [exact (fs_bad_number s n Hs Hn)|].
    intros s' v. exact (gd_number G _ _ _ _ Hs HJ Hn).
  - intros s [Hs _]. exact (fs_null s Hs).
  - intros s [Hs _]. exact (fs_names s Hs).
  - intros s [Hs _]. exact (fs_count s Hs).
  - intros s [Hs _]. exact (fs_sizes s Hs).
Qed.
End Guard.
