(* ===== verification/Shell.v ===== *)
(** * The shell (src/syscalls/ece391shell.c)

    The program, what [execute] promises it, and the sessions it runs: it
    prompts, reads a line and executes it until the line is "exit". *)

From S2P Require Import Prelude Memory Lib Types Filesystem FsProofs Paging Console ConsoleProps Printf.
From S2P Require Import Keyboard TerminalProofs Typing User UserLogic.
Import (notations) Stdlib.Strings.String.
#[local] Open Scope Z_scope.

(** The system call, as the user library calls it. *)
Class Executes (S : Type) := {
  ece391_execute : S → Z → option (S * Z)
}.

(** ** The program *)

Section Program.
Context {S : Type} `{!ByteMem S, !Syscalls S, !Executes S}.
(** The address of a string constant. *)
Context (str : list Z → Z).
Implicit Types (s : S).

(** The message for the value [execute] returned. *)
Definition shell_report s (rval : Z) : option S :=
  if -1 =? rval then ece391_fdputs s 1 (str (text "no such command" ++ [10]))
  else if 256 =? rval then ece391_fdputs s 1 (str (text "program terminated by exception" ++ [10]))
  else if negb (0 =? rval) then ece391_fdputs s 1 (str (text "program terminated abnormally" ++ [10]))
  else Some s.

(** One round of the loop: [inr] when [main] returns. *)
Definition shell_line (buf : Z) s : option (S + S * Z) :=
  s ← ece391_fdputs s 1 (str (text "391OS> "));
  '(s, cnt) ← ece391_read s 0 buf 1023;
  if -1 =? cnt then
    s ← ece391_fdputs s 1 (str (text "read from keyboard failed" ++ [10])); Some (inr (s, 3))
  else
    let cnt := if (cnt >? 0) && (10 =? rd s (u32 (buf + (cnt - 1)))) then cnt - 1 else cnt in
    let s := wr s (u32 (buf + cnt)) 0 in
    c ← ece391_strcmp s buf (str (text "exit"));
    if 0 =? c then Some (inr (s, 0))
    else if 0 =? rd s buf then Some (inl s)
    else
      '(s, rval) ← ece391_execute s buf;
      s ← shell_report s rval;
      Some (inl s).

Definition shell_step (buf : Z) s : S + option (S * Z) :=
  match shell_line buf s with
  | None => inr None
  | Some (inl s) => inl s
  | Some (inr r) => inr (Some r)
  end.

Definition shell (buf : Z) s : option (S * Z) :=
  s ← ece391_fdputs s 1 (str (text "Starting 391 Shell" ++ [10]));
  r ← while (shell_step buf) s;
  r.
End Program.

(** ** What execute promises *)

(** [ex_runs cmd w w' r]: in world [w], the command [cmd] ends in world [w']
    and [execute] returns [r].  The caller's memory and descriptors are its
    own. *)
Class ExecService (S : Type) `{!ByteMem S, !ServiceView S, !Executes S} := {
  ex_runs : list Z → world → world → Z → Prop;
  ex_fds : ∀ cmd w w' r, ex_runs cmd w w' r → w_fds w' = w_fds w;
  ex_execute : ∀ s w a cmd w' r,
    sees s w → user_string s a cmd → (length cmd ≤ 127)%nat → (∀ b, region a 127 b → user_page b) →
    ex_runs cmd w w' r →
    ∃ s', ece391_execute s a = Some (s', r) ∧ sees s' w' ∧ keeps s s' (λ _, False)
}.

(** ** Sessions *)

Definition prompt : list Z := text "391OS> ".
Definition exit_cmd : list Z := text "exit".

(** What the shell says about a value of [execute]. *)
Definition report_text (r : Z) : list Z :=
  if r =? -1 then text "no such command" ++ [10]
  else if r =? 256 then text "program terminated by exception" ++ [10]
  else if r =? 0 then []
  else text "program terminated abnormally" ++ [10].

(** [session runs n w w']: [n] lines are read from [w] on, the last is "exit",
    and then the world is [w']. *)
Inductive session (runs : list Z → world → world → Z → Prop) : nat → world → world → Prop :=
| ses_exit w ls :
    w_lines w = exit_cmd :: ls →
    session runs 1 w (w_type exit_cmd ls (w_print prompt w))
| ses_empty n w ls w' :
    w_lines w = [] :: ls →
    session runs n (w_type [] ls (w_print prompt w)) w' → session runs (Datatypes.S n) w w'
| ses_run n w line ls w1 r w' :
    w_lines w = line :: ls → line ≠ [] → line ≠ exit_cmd →
    runs line (w_type line ls (w_print prompt w)) w1 r →
    session runs n (w_print (report_text r) w1) w' → session runs (Datatypes.S n) w w'.

Section Clients.
Context {S : Type} `{!ByteMem S, !Syscalls S, !ServiceView S} {im : fs_image} `{!FileService S im}.
Context `{!Executes S, !ExecService S}.
Context (str : list Z → Z).
Implicit Types (s : S) (w : world) (buf : Z).

Definition shell_lits : list (list Z) :=
  [text "Starting 391 Shell" ++ [10]; prompt; exit_cmd; text "no such command" ++ [10];
   text "program terminated by exception" ++ [10]; text "program terminated abnormally" ++ [10]].

Section Running.
Context (buf : Z) (Hu : ∀ a, region buf 1024 a → user_page a).
#[local] Abbreviation at_work := (running str shell_lits (region buf 1024)).

Lemma shell_buf_range : 0x8000000 ≤ buf ≤ 0x8400000 - 1024.
Proof using Hu.
  pose proof (Hu buf ltac:(unfold region; lia)) as H0. pose proof (Hu (buf + 1023) ltac:(unfold region; lia)) as H1.
  unfold user_page, region, USER_MEM_LOCATION in H0, H1. lia.
Qed.

(** The prompt, and the line with its end replaced by a NUL. *)
Lemma shell_reads s w line ls :
  at_work s w → (w_fds w).[0] = Keys → (w_fds w).[1] = Screen → w_lines w = line :: ls →
  ∃ s1, shell_line str buf s =
      (let s2 := wr s1 (buf + Z.of_nat (length line)) 0 in
       c ← ece391_strcmp s2 buf (str (text "exit"));
       if 0 =? c then Some (inr (s2, 0))
       else if 0 =? rd s2 buf then Some (inl s2)
       else
         '(s, rval) ← ece391_execute s2 buf;
         s ← shell_report str s rval;
         Some (inl s)) ∧
    at_work (wr s1 (buf + Z.of_nat (length line)) 0) (w_type line ls (w_print prompt w)) ∧
    user_string (wr s1 (buf + Z.of_nat (length line)) 0) buf line ∧ (length line ≤ 127)%nat.
Proof using All.
  intros Hr H0 H1 Hl. pose proof shell_buf_range as Hb. unfold shell_line.
  destruct (say str shell_lits (region buf 1024) s w prompt Hr H1 ltac:(lit)) as (s0 & E0 & R0 & _).
  change (str (text "391OS> ")) with (str prompt). rewrite E0, bind_some.
  destruct (fs_lines s line ls) as [Hlen Hc]; [rewrite <- Hl; apply Hr|].
  destruct (read_line str shell_lits (region buf 1024) s0 _ buf 1023 line ls R0) as (s1 & E1 & R1 & Hby & _ & _);
    [done|done|lia|unfold region, USER_MEM_LOCATION; lia|intros a Ha; unfold region in *; lia|].
  rewrite Z.min_r in E1, Hby by lia. rewrite E1, bind_some.
  set (v := Z.of_nat (length line)) in *. rewrite (take_ge (line ++ [10])) in Hby by (rewrite length_app; cbn; lia).
  assert (∀ i, 0 ≤ i ≤ v → rd s1 (buf + i) = (line ++ [10]).[i]) as Hget.
  { intros i Hi. symmetry. rewrite <- Hby. apply aget_lookup; [lia|]. rewrite bytes_lookup by lia. do 2 f_equal. lia. }
  rewrite (proj2 (Z.eqb_neq (-1) (v + 1))) by lia. rewrite Z.gtb_ltb, (proj2 (Z.ltb_lt 0 (v + 1))) by lia.
  replace (v + 1 - 1) with v by lia. rewrite (u32_small (buf + v)) by lia. rewrite Hget by lia.
  assert ((line ++ [10]).[v] = 10) as ->.
  { rewrite aget_app_r by (unfold v; lia). fold v. by rewrite Z.sub_diag. }
  change (10 =? 10) with true. cbn [andb]. rewrite (u32_small (buf + v)) by lia.
  exists s1. split; [done|].
  assert (user_page (buf + v)) as Hv by (apply Hu; unfold region; lia).
  destruct (store_running str shell_lits (region buf 1024) s1 _ (buf + v) 0 R1 Hv) as [R2 K2]; [unfold region; lia|].
  split; [done|]. split; [|done]. split; [|intros b Hb'; apply Hu; unfold region, v in *; lia].
  apply text_at_intro.
  - intros i Hi. fold v in Hi. split; [|apply Forall_aget_nz; [|lia]; revert Hc; apply Forall_impl; lia].
    rewrite K2 by (first [apply Hu|idtac]; unfold region; lia). rewrite Hget by lia.
    by rewrite aget_app_l by (unfold v in *; lia).
  - fold v. rewrite (rd_wr_safe s1 user_page); [by rewrite decide_True|apply fs_safe, R1|done|done].
Qed.

(** The report. *)
Lemma shell_says s w r :
  at_work s w → (w_fds w).[1] = Screen →
  ∃ s', shell_report str s r = Some s' ∧ at_work s' (w_print (report_text r) w).
Proof using All.
  intros Hr H1. unfold shell_report, report_text. rewrite (Z.eqb_sym (-1)), (Z.eqb_sym 256), (Z.eqb_sym 0).
  destruct (r =? -1); [|destruct (r =? 256); [|destruct (r =? 0); cbn [negb]]].
  - destruct (say str shell_lits (region buf 1024) s w (text "no such command" ++ [10]) Hr H1 ltac:(lit))
      as (s' & E & R & _). by exists s'.
  - destruct (say str shell_lits (region buf 1024) s w (text "program terminated by exception" ++ [10]) Hr H1 ltac:(lit))
      as (s' & E & R & _). by exists s'.
  - exists s. by rewrite w_print_nil.
  - destruct (say str shell_lits (region buf 1024) s w (text "program terminated abnormally" ++ [10]) Hr H1 ltac:(lit))
      as (s' & E & R & _). by exists s'.
Qed.

(** The comparison with "exit". *)
Lemma shell_compares s w line :
  at_work s w → user_string s buf line → (length line ≤ 127)%nat →
  ∃ c, ece391_strcmp s buf (str (text "exit")) = Some c ∧ (0 =? c) = bool_decide (line = exit_cmd) ∧
    (0 =? rd s buf) = bool_decide (line = []).
Proof using All.
  intros Hr Hs Hlen. pose proof shell_buf_range as Hb. pose proof (ru_lits _ _ _ _ _ Hr exit_cmd ltac:(lit)) as He.
  destruct (user_string_range _ _ _ He) as [He1 He2]. unfold USER_MEM_LOCATION in He1, He2.
  destruct (ece391_strcmp_spec s buf (str exit_cmd) line exit_cmd (proj1 Hs) (proj1 He)) as (c & E & Hc);
    [lia|lia|lia|lia|].
  exists c. split; [exact E|]. split.
  - destruct (Z.eqb_spec 0 c) as [<-|Hne].
    + symmetry. apply bool_decide_true. by apply Hc.
    + symmetry. apply bool_decide_false. intros ->. by apply Hne; symmetry; apply Hc.
  - destruct (text_at_get s buf line 0 (proj1 Hs) ltac:(lia)) as [R0 Z0]. rewrite Z.add_0_r in R0. rewrite R0.
    destruct (Z.eqb_spec 0 line.[0]) as [E0|Hne].
    + symmetry. apply bool_decide_true. apply length_zero_iff_nil. symmetry in E0. apply Z0 in E0. lia.
    + symmetry. apply bool_decide_false. intros ->. by apply Hne.
Qed.

(** One round of a session is one round of the loop. *)
Lemma shell_exit s w ls :
  at_work s w → (w_fds w).[0] = Keys → (w_fds w).[1] = Screen → w_lines w = exit_cmd :: ls →
  ∃ s', shell_step str buf s = inr (Some (s', 0)) ∧ at_work s' (w_type exit_cmd ls (w_print prompt w)).
Proof using All.
  intros Hr H0 H1 Hl. destruct (shell_reads s w exit_cmd ls Hr H0 H1 Hl) as (s1 & E & R & U & Hn).
  set (s2 := wr s1 _ 0) in *. destruct (shell_compares s2 _ exit_cmd R U Hn) as (c & Ec & Hc & _).
  exists s2. split; [|exact R]. unfold shell_step. rewrite E. cbv zeta. rewrite Ec, bind_some, Hc. reflexivity.
Qed.

Lemma shell_empty s w ls :
  at_work s w → (w_fds w).[0] = Keys → (w_fds w).[1] = Screen → w_lines w = [] :: ls →
  ∃ s', shell_step str buf s = inl s' ∧ at_work s' (w_type [] ls (w_print prompt w)).
Proof using All.
  intros Hr H0 H1 Hl. destruct (shell_reads s w [] ls Hr H0 H1 Hl) as (s1 & E & R & U & Hn).
  set (s2 := wr s1 _ 0) in *. destruct (shell_compares s2 _ [] R U Hn) as (c & Ec & Hc & Hz).
  exists s2. split; [|exact R]. unfold shell_step. rewrite E. cbv zeta. rewrite Ec, bind_some, Hc, Hz. reflexivity.
Qed.

Lemma shell_runs s w line ls w1 r :
  at_work s w → (w_fds w).[0] = Keys → (w_fds w).[1] = Screen → w_lines w = line :: ls →
  line ≠ [] → line ≠ exit_cmd → ex_runs line (w_type line ls (w_print prompt w)) w1 r →
  ∃ s', shell_step str buf s = inl s' ∧ at_work s' (w_print (report_text r) w1).
Proof using All.
  intros Hr H0 H1 Hl Hne Hnx Hx. destruct (shell_reads s w line ls Hr H0 H1 Hl) as (s1 & E & R & U & Hn).
  set (s2 := wr s1 _ 0) in *. destruct (shell_compares s2 _ line R U Hn) as (c & Ec & Hc & Hz).
  destruct (ex_execute s2 _ buf line w1 r (ru_sees _ _ _ _ _ R) U Hn
    ltac:(intros b Hb; apply Hu; unfold region in *; lia) Hx) as (s3 & E3 & S3 & K3).
  pose proof (running_still str shell_lits (region buf 1024) s2 s3 _ w1 R S3 K3) as R3.
  destruct (shell_says s3 w1 r R3) as (s4 & E4 & R4).
  { rewrite (ex_fds _ _ _ _ Hx). exact H1. }
  exists s4. split; [|exact R4]. unfold shell_step. rewrite E. cbv zeta. rewrite Ec, bind_some, Hc, Hz.
  rewrite (bool_decide_false _ Hnx), (bool_decide_false _ Hne). by rewrite E3, bind_some, E4, bind_some.
Qed.

Lemma session_runs n w w' s :
  session ex_runs n w w' → at_work s w → (w_fds w).[0] = Keys → (w_fds w).[1] = Screen →
  ∃ s', run (shell_step str buf) n s = inr (Some (s', 0)) ∧ at_work s' w'.
Proof using All.
  intros Hses. revert s. induction Hses as [w ls Hl|n w ls w' Hl _ IH|n w line ls w1 r w' Hl Hne Hnx Hx _ IH];
    intros s Hr H0 H1; cbn [run].
  - destruct (shell_exit s w ls Hr H0 H1 Hl) as (s' & -> & R). by exists s'.
  - destruct (shell_empty s w ls Hr H0 H1 Hl) as (s1 & -> & R). by apply IH.
  - destruct (shell_runs s w line ls w1 r Hr H0 H1 Hl Hne Hnx Hx) as (s1 & -> & R).
    pose proof (ex_fds _ _ _ _ Hx) as Ef. apply IH; [done| |]; cbn [w_fds w_print]; rewrite Ef; done.
Qed.
End Running.

(** The shell runs every session of fewer than 2^32 lines. *)
Lemma shell_session s w buf n w' :
  running str shell_lits (region buf 1024) s w → (w_fds w).[0] = Keys → (w_fds w).[1] = Screen →
  (∀ a, region buf 1024 a → user_page a) → Z.of_nat n ≤ 4294967296 →
  session ex_runs n (w_print (text "Starting 391 Shell" ++ [10]) w) w' →
  ∃ s', shell str buf s = Some (s', 0) ∧ sees s' w'.
Proof.
  intros Hr H0 H1 Hu Hn Hses. unfold shell.
  destruct (say str shell_lits (region buf 1024) s w (text "Starting 391 Shell" ++ [10]) Hr H1 ltac:(lit))
    as (s1 & -> & R1 & _). rewrite bind_some.
  destruct (session_runs buf Hu n _ w' s1 Hses R1 H0 H1) as (s' & E & R).
  rewrite (while_run _ n s1 _ E Hn), bind_some. exists s'. split; [done|apply R].
Qed.
End Clients.
