(* ===== verification/UserKernel.v ===== *)
(** * The kernel serves its user programs

    Process [cur] in user mode: its memory is what the page tables let user mode
    reach, its system calls are those of [Kernel].  The contracts of
    [FileService] hold in every state that satisfies [kernel_ok]. *)

From S2P Require Import Prelude Memory Lib Ports Types Filesystem FsProofs FsProps I8259 RTC.
From S2P Require Import Paging PagingProps Console ConsoleProofs ConsoleProps Printf Keyboard.
From S2P Require Import KeyboardProofs LineProofs KeyboardProps TerminalProofs Typing TerminalProps.
From S2P Require Import Kernel KernelProps SyscallProps User UserLogic.
Import (notations) Stdlib.Strings.String.
#[local] Open Scope Z_scope.

(** A process in user mode, with the keys and clock ticks still to come. *)
#[projections(primitive)] Record ustate (D : Type) := mk_ustate {
  uk : kernel D;
  ukeys : list Z;
  uticks : list rtc_event
}.
Arguments mk_ustate {D}.
Arguments uk {D}.
Arguments ukeys {D}.
Arguments uticks {D}.

(** ** User memory *)

Section Memory.
Context {HL : Layout} {D : Type} `{!PortIO D}.
Implicit Types (s : ustate D) (a v : Z).

Definition with_kernel s (k : kernel D) : ustate D := mk_ustate k (ukeys s) (uticks s).

Definition user_rd s a : Z :=
  match user_translate (kmem (uk s)) a with Some p => pbyte (kmem (uk s)) p | None => 0 end.

Definition user_wr s a v : ustate D :=
  match user_translate (kmem (uk s)) a with
  | Some p => with_kernel s (with_mem (uk s) ((kmem (uk s)) <| phys := <[p := v]> (phys (kmem (uk s))) |>))
  | None => s
  end.

Lemma user_translate_ctl (m m' : mach) a :
  mach_ctl m' = mach_ctl m → user_translate m' a = user_translate m a.
Proof. intros [= _ E1 E2 E3]. unfold user_translate. by rewrite E1, E2. Qed.

Lemma user_ctl_wr s a v : mach_ctl (kmem (uk (user_wr s a v))) = mach_ctl (kmem (uk s)).
Proof. unfold user_wr. by destruct (user_translate _ a). Qed.

Lemma user_rd_wr s a v b :
  user_rd (user_wr s a v) b =
  if decide (is_Some (user_translate (kmem (uk s)) a) ∧
             user_translate (kmem (uk s)) a = user_translate (kmem (uk s)) b) then u8 v
  else user_rd s b.
Proof.
  unfold user_rd. rewrite (user_translate_ctl _ _ b (user_ctl_wr s a v)). unfold user_wr.
  destruct (user_translate (kmem (uk s)) a) as [p|] eqn:Ea;
    [|by rewrite decide_False by (intros [[? [=]] _])].
  destruct (user_translate (kmem (uk s)) b) as [q|] eqn:Eb;
    [|by rewrite decide_False by (intros [_ [=]])].
  unfold pbyte, with_kernel, with_mem, kmem. cbn. destruct (decide (p = q)) as [->|Hne].
  - rewrite lookup_insert_eq, decide_True by (split; [by eexists|done]). done.
  - rewrite lookup_insert_ne by done. rewrite decide_False; [done|]. intros [_ [=]]. done.
Qed.

#[export] Instance UserMem : ByteMem (ustate D).
Proof.
  refine {|
    Ctl := tables * tables * Z * bool;
    ctl s := mach_ctl (kmem (uk s));
    cell s a := user_translate (kmem (uk s)) a;
    rd := user_rd;
    wr := user_wr
  |}.
  - intros s s' a. apply user_translate_ctl.
  - apply user_ctl_wr.
  - intros s a. unfold user_rd. destruct (user_translate _ a); [apply u8_range|lia].
  - apply user_rd_wr.
Defined.
End Memory.

(** ** The system calls of a process *)

Section Service.
Context {HL : Layout} {D : Type} `{!PortIO D}.
(** The process, its [dentry_t] local in [open], the uninitialised local of
    [RTC_write], the bytes in front of the terminals, and the effect of a
    system call whose registers the program does not control. *)
Context (cur dp rate0 : Z) (before : Z → Z) (vids : Z → option Z) (im : fs_image).
Context (other : syscall → ustate D → option (ustate D * Z)).
Implicit Types (s : ustate D) (k : kernel D).

Definition of_outcome (o : option (outcome D)) : option (ustate D * Z) :=
  match o with
  | Some (Ret k val keys ticks) => Some (mk_ustate k keys ticks, val)
  | _ => None
  end.

Definition of_call s (o : option (kernel D * Z)) : option (ustate D * Z) :=
  '(k, val) ← o; Some (with_kernel s k, val).

#[local] Instance KernelCalls : Syscalls (ustate D) := {
  ece391_read s fd buf n := of_outcome (read (uk s) cur fd buf n before (ukeys s) (uticks s));
  ece391_write s fd buf n := of_outcome (write (uk s) cur fd buf n rate0 (ukeys s) (uticks s));
  ece391_open s a := of_call s (o ← open (uk s) cur a dp; o);
  ece391_close s fd := of_call s (close (uk s) cur fd);
  ece391_getargs s buf n := of_call s (getargs (uk s) cur buf n);
  ece391_vidmap s a := of_call s (vidmap (uk s) cur a);
  ece391_set_handler s signum h := Some (s, set_handler signum h);
  int80 s n := match systemcall_linkage n with None => Some (s, -1) | Some c => other c s end
}.

(** ** The view of the process *)

Definition fd_handle (f : file) : handle :=
  if flags f =? 0 then Closed
  else
    match f_op f with
    | FOPS_NULL => Closed
    | stdin_ops => Keys
    | stdout_ops => Screen
    | RTC_ops => Clock
    | dir_ops => Dir (f_pos f)
    | file_ops => Data (f_inode f) (f_pos f)
    end.

(** The arguments are a string of less than 128 bytes. *)
Definition args_of k : list Z :=
  take (Z.to_nat (strlen_list (p_args (pcbs k).[cur]))) (p_args (pcbs k).[cur]).
Definition args_ok k : Prop :=
  ∃ len, args_len (p_args (pcbs k).[cur]) len ∧ len < 128 ∧
         len ≤ Z.of_nat (length (p_args (pcbs k).[cur])).

(** The keys type the lines [ls], a line ending with Enter. *)
Fixpoint types (b : kbd) (keys : list Z) (ls : list (list Z)) : Prop :=
  match ls with
  | [] => True
  | l :: ls => ∃ codes rest, keys = codes ++ KEYBOARD_ENTER :: rest ∧
      Forall (λ c, plain_code c = true) codes ∧ Forall (λ c, key_char b c ≠ 0) codes ∧
      (length codes ≤ 127)%nat ∧ l = key_char b <$> codes ∧ types b rest ls
  end.

(** What decides where keys and ticks go. *)
Definition inputs k : kbd * Z * bool * Z * nat :=
  let T := (terminals (con k)).[p_terminal_id (pcbs k).[cur]] in
  (kb k, cur_terminal (con k), typingLine T, line_buffer_index T, length (rtc_interrupt_occured k)).

Lemma inputs_ext k k' :
  kb k' = kb k → con k' = con k → rtc_interrupt_occured k' = rtc_interrupt_occured k →
  p_terminal_id (pcbs k').[cur] = p_terminal_id (pcbs k).[cur] → inputs k' = inputs k.
Proof. intros E1 E2 E3 E4. unfold inputs. by rewrite E1, E2, E3, E4. Qed.

(** The terminal of the process is on the screen with an empty line. *)
Definition at_prompt k : Prop :=
  let T := (terminals (con k)).[p_terminal_id (pcbs k).[cur]] in
  cur_terminal (con k) = p_terminal_id (pcbs k).[cur] ∧ typingLine T = true ∧
  line_buffer_index T = 0 ∧ ctrl (kb k) = false ∧ alt (kb k) = false.

Definition is_tick (e : rtc_event) : bool := match e with EvRTC => true | EvOther => false end.

#[local] Instance KernelView : ServiceView (ustate D) := {
  sv_ok s := kernel_ok vids im (uk s) cur ∧ args_ok (uk s);
  sv_handle s fd :=
    if (0 <=? fd) && (fd <? 8) then fd_handle (get_fd (uk s) cur fd) else Closed;
  sv_screen s := tview (con (uk s)) (p_terminal_id (pcbs (uk s)).[cur]);
  sv_args s := args_of (uk s);
  sv_lines s ls := ls = [] ∨ (at_prompt (uk s) ∧ types (kb (uk s)) (ukeys s) ls);
  sv_ticks s n := n = 0%nat ∨
    (length (rtc_interrupt_occured (uk s)) = 3%nat ∧ (n ≤ length (List.filter is_tick (uticks s)))%nat)
}.

(** Inside the user page, user mode and the kernel see the same bytes. *)
Lemma user_cell k a :
  kernel_ok vids im k cur → user_page a →
  user_translate (kmem k) a = Some (view_cell cur (cur_terminal (con k)) a).
Proof.
  intros Hk Ha. pose proof (mach_space _ _ _ _ (ki_mach _ _ _ (ko_kbd _ _ _ _ Hk))) as Hs.
  unfold user_page, region, USER_MEM_LOCATION in Ha.
  rewrite (process_user_translate _ cur (vids cur) _ _ Hs) by lia.
  unfold process_space, view_cell, VIDEO, USER_MEM_LOCATION. by cases_lia.
Qed.

Lemma user_view a : user_page a → kernel_view a.
Proof. intros Ha. right; right. exact Ha. Qed.

Lemma user_rd_kernel s a :
  kernel_ok vids im (uk s) cur → user_page a → rd s a = rd (kmem (uk s)) a.
Proof.
  intros Hk Ha. pose proof (ki_mach _ _ _ (ko_kbd _ _ _ _ Hk)) as Hm.
  rewrite (rd_pbyte _ _ _ _ _ Hm) by (right; by apply user_view).
  cbn [rd UserMem]. unfold user_rd. by rewrite (user_cell _ _ Hk Ha).
Qed.

Lemma user_wr_kernel s a v :
  kernel_ok vids im (uk s) cur → user_page a →
  wr s a v = with_kernel s (with_mem (uk s) (wr (kmem (uk s)) a v)).
Proof.
  intros Hk Ha. pose proof (mach_space _ _ _ _ (ki_mach _ _ _ (ko_kbd _ _ _ _ Hk))) as Hs.
  cbn [wr UserMem PagedMem]. unfold user_wr, mach_wr.
  rewrite (user_cell _ _ Hk Ha), (view_cell_translate _ _ _ _ _ Hs) by (right; by apply user_view).
  done.
Qed.

Lemma user_bytes s buf n :
  kernel_ok vids im (uk s) cur → (∀ a, region buf n a → user_page a) →
  bytes s buf n = bytes (kmem (uk s)) buf n.
Proof.
  intros Hk Hu. unfold bytes. apply list_fmap_ext. intros j i Hi. apply lookup_seqZ in Hi as [-> Hi].
  apply user_rd_kernel; [done|]. apply Hu. unfold region. lia.
Qed.

(** What a page shows does not depend on user memory or the kernel's page. *)
Lemma tview_mem k m t :
  kernel_ok vids im k cur → 0 ≤ t < 3 →
  (∀ a, region (VIDEO + 4096) (3 * 4096) a → rd m a = rd (kmem k) a) →
  tview ((con k) <| vmem := m |>) t = tview (con k) t.
Proof.
  intros Hk Ht Hm. unfold tview. change (page_of (_ <| vmem := m |>) t) with (page_of (con k) t).
  f_equal. f_equal. apply view_ext. intros j Hj. apply Hm.
  rewrite (ki_page _ _ _ (ko_kbd _ _ _ _ Hk)) by done. unfold region, tpage. lia.
Qed.

(** A new kernel state does to the process what [does] says. *)
Lemma does_intro s k' keys ticks fd h f dl dt :
  sv_ok s → kernel_ok vids im k' cur →
  p_args (pcbs k').[cur] = p_args (pcbs (uk s)).[cur] →
  p_terminal_id (pcbs k').[cur] = p_terminal_id (pcbs (uk s)).[cur] →
  (∀ j, 0 ≤ j < 8 → fd_handle (get_fd k' cur j) = if decide (j = fd) then h else fd_handle (get_fd (uk s) cur j)) →
  (0 ≤ fd < 8) →
  tview (con k') (p_terminal_id (pcbs (uk s)).[cur])
    = f (tview (con (uk s)) (p_terminal_id (pcbs (uk s)).[cur])) →
  (∀ ls, sv_lines s (dl ++ ls) → sv_lines (mk_ustate k' keys ticks) ls) →
  (∀ n, sv_ticks s (dt + n) → sv_ticks (mk_ustate k' keys ticks) n) →
  does s (mk_ustate k' keys ticks) fd h f dl dt.
Proof.
  intros [Hk Ha] Hk' Ea Et Hh Hfd Hv Hl Hn. split; [| | | |exact Hl|exact Hn].
  - split; [done|]. destruct Ha as (len & H). exists len. cbn [uk]. by rewrite Ea.
  - intros j. cbn [sv_handle KernelView uk]. destruct (decide (j = fd)) as [->|Hne].
    + rewrite (proj2 (Z.leb_le 0 fd)), (proj2 (Z.ltb_lt fd 8)) by lia. cbn [andb].
      rewrite Hh by lia. by rewrite decide_True.
    + destruct (Z.leb_spec 0 j), (Z.ltb_spec j 8); cbn [andb]; try done.
      rewrite Hh by lia. by rewrite decide_False.
  - cbn [sv_screen KernelView uk]. by rewrite Et.
  - cbn [sv_args KernelView uk]. unfold args_of. by rewrite Ea.
Qed.

(** The input to come is the same. *)
Lemma same_inputs s k' :
  p_terminal_id (pcbs k').[cur] = p_terminal_id (pcbs (uk s)).[cur] →
  inputs k' = inputs (uk s) →
  (∀ ls, sv_lines s ls → sv_lines (with_kernel s k') ls) ∧
  (∀ n, sv_ticks s n → sv_ticks (with_kernel s k') n).
Proof.
  intros Et E. unfold inputs in E. rewrite Et in E. injection E as E1 E2 E3 E4 E5.
  cbn [sv_lines sv_ticks KernelView uk with_kernel ukeys uticks]. unfold at_prompt.
  rewrite Et, E1, E2, E3, E4, E5. by split.
Qed.

Lemma serves_intro s k' fd h out :
  sv_ok s → kernel_ok vids im k' cur →
  p_args (pcbs k').[cur] = p_args (pcbs (uk s)).[cur] →
  p_terminal_id (pcbs k').[cur] = p_terminal_id (pcbs (uk s)).[cur] →
  inputs k' = inputs (uk s) →
  (∀ j, 0 ≤ j < 8 → fd_handle (get_fd k' cur j) = if decide (j = fd) then h else fd_handle (get_fd (uk s) cur j)) →
  (0 ≤ fd < 8) →
  tview (con k') (p_terminal_id (pcbs (uk s)).[cur])
    = print_spec out (tview (con (uk s)) (p_terminal_id (pcbs (uk s)).[cur])) →
  serves s (with_kernel s k') fd h out.
Proof.
  intros Hok Hk' Ea Et Ei Hh Hfd Hv. destruct (same_inputs s k' Et Ei) as [Hl Hn].
  by apply does_intro.
Qed.

Lemma keeps_intro s s' A :
  kernel_ok vids im (uk s) cur → kernel_ok vids im (uk s') cur →
  (∀ a, user_page a → ¬ A a → rd (kmem (uk s')) a = rd (kmem (uk s)) a) → keeps s s' A.
Proof. intros H1 H2 Hr a Ha HA. rewrite !user_rd_kernel by done. by apply Hr. Qed.

(** New memory contents outside the terminals and the image. *)
Lemma mem_serves s m :
  sv_ok s → ctl m = ctl (kmem (uk s)) →
  (∀ a, region (VIDEO + 4096) (3 * 4096) a ∨ fs_base (fs (uk s)) ≤ a < fs_end (fs (uk s)) →
        rd m a = rd (kmem (uk s)) a) →
  serves s (with_kernel s (with_mem (uk s) m)) 0 (sv_handle s 0) [].
Proof.
  intros Hok Hc Hr. pose proof Hok as [Hk _].
  apply serves_intro; [done| |done|done|done| |lia|].
  - apply kernel_ok_mem; [done|done|]. intros a Ha. apply Hr. by right.
  - intros j Hj. case_decide; [by subst|done].
  - apply tview_mem; [done|apply Hk|]. intros a Ha. apply Hr. by left.
Qed.

(** One descriptor is replaced. *)
Lemma set_fd_serves s k1 fd f :
  sv_ok s → 0 ≤ fd < 8 → kernel_ok vids im k1 cur → kernel_ok vids im (set_fd k1 cur fd f) cur →
  pcbs k1 = pcbs (uk s) → inputs k1 = inputs (uk s) →
  (∀ t, 0 ≤ t < 3 → tview (con k1) t = tview (con (uk s)) t) →
  serves s (with_kernel s (set_fd k1 cur fd f)) fd (fd_handle f) [].
Proof.
  intros Hok Hfd Hk1 Hk2 Ep Ei Hv. pose proof Hok as [Hk _].
  destruct (set_fd_get k1 cur fd f (ko_files _ _ _ _ Hk1) (ko_cur _ _ _ _ Hk1) Hfd) as [Ef Eg].
  assert (∀ (A : Type) (g : PCB → A), (∀ p l, g (p <| p_fd := l |>) = g p) →
    g (pcbs (set_fd k1 cur fd f)).[cur] = g (pcbs (uk s)).[cur]) as Hg.
  { intros A g Hp. unfold set_fd, with_pcb. cbn [pcbs set_field set_pcbs].
    rewrite <- Ep. destruct (ko_cur _ _ _ _ Hk1) as [Hc _], (ko_files _ _ _ _ Hk1) as [Hl _].
    rewrite aget_aset_eq by lia. apply Hp. }
  pose proof (Hg _ p_terminal_id ltac:(done)) as Et.
  apply serves_intro; [done|done|by apply (Hg _ p_args)|done| | |done|].
  - rewrite <- Ei. apply inputs_ext; [done|done|done|]. etransitivity; [exact Et|]. by rewrite Ep.
  - intros j Hj. case_decide as Hd; [subst j; by rewrite Eg|].
    unfold get_fd in *. change (p_fd (pcbs (set_fd k1 cur fd f)).[cur]) with (fds_of (set_fd k1 cur fd f) cur).
    rewrite Ef. rewrite aget_aset_ne by congruence. unfold fds_of. by rewrite Ep.
  - change (con (set_fd k1 cur fd f)) with (con k1). apply Hv, Hk.
Qed.

(** A descriptor in use. *)
Lemma handle_used s fd h :
  sv_handle s fd = h → h ≠ Closed →
  0 ≤ fd < 8 ∧ flags (get_fd (uk s) cur fd) ≠ 0 ∧ fd_handle (get_fd (uk s) cur fd) = h.
Proof.
  cbn [sv_handle KernelView]. destruct (Z.leb_spec 0 fd), (Z.ltb_spec fd 8); cbn [andb]; try congruence.
  intros <- Hne. split; [lia|]. split; [|done]. intros E. apply Hne. unfold fd_handle. by rewrite E.
Qed.

Lemma handle_range s j : 0 ≤ j < 8 → sv_handle s j = fd_handle (get_fd (uk s) cur j).
Proof.
  intros Hj. cbn [sv_handle KernelView].
  by rewrite (proj2 (Z.leb_le 0 j)), (proj2 (Z.ltb_lt j 8)) by lia.
Qed.

Lemma closed_flags s j :
  sv_ok s → 0 ≤ j < 8 → sv_handle s j = Closed → flags (get_fd (uk s) cur j) = 0.
Proof.
  intros [Hk _] Hj Hc. rewrite handle_range in Hc by done.
  pose proof (proj2 (ko_files _ _ _ _ Hk) cur (ko_cur _ _ _ _ Hk)) as [_ F0 F1 F2].
  unfold get_fd in *. change (p_fd (pcbs (uk s)).[cur]) with (fds_of (uk s) cur) in *.
  destruct (decide (j = 0)) as [->|]; [by rewrite F0 in Hc|].
  destruct (decide (j = 1)) as [->|]; [by rewrite F1 in Hc|].
  destruct (F2 j ltac:(lia)) as [Ez|(Hf & _ & Ho)]; [by rewrite Ez|].
  exfalso. unfold fd_handle in Hc. rewrite Hf in Hc. cbn in Hc.
  destruct Ho as [Ho|[Ho|Ho]]; rewrite Ho in Hc; discriminate.
Qed.

(** A descriptor in use from 2 on. *)
Lemma open_ops s j :
  sv_ok s → 2 ≤ j < 8 → sv_handle s j ≠ Closed →
  flags (get_fd (uk s) cur j) = 1 ∧
  (f_op (get_fd (uk s) cur j) = RTC_ops ∨ f_op (get_fd (uk s) cur j) = dir_ops ∨
   f_op (get_fd (uk s) cur j) = file_ops).
Proof.
  intros [Hk _] Hj Hc. rewrite handle_range in Hc by lia.
  pose proof (proj2 (ko_files _ _ _ _ Hk) cur (ko_cur _ _ _ _ Hk)) as [_ _ _ F2].
  destruct (F2 j Hj) as [Ez|(Hf & _ & Ho)]; [|done]. exfalso. apply Hc.
  unfold get_fd. change (p_fd (pcbs (uk s)).[cur]) with (fds_of (uk s) cur). by rewrite Ez.
Qed.

(** The call changed nothing. *)
Lemma quiet_refl s : sv_ok s → quiet s s.
Proof.
  intros Hok. split; [|by intros a]. split; [done| |done|done|done|done].
  intros j. case_decide; [by subst|done].
Qed.

Lemma refused_same s o : sv_ok s → o = Some (s, -1) → refused s o.
Proof. intros Hok ->. exists s. split; [done|by apply quiet_refl]. Qed.

(** Reads and writes through a user buffer leave the terminals and the image. *)
Lemma user_buf_view s buf n :
  kernel_ok vids im (uk s) cur → (∀ a, region buf n a → user_page a) →
  ∀ a, region (VIDEO + 4096) (3 * 4096) a ∨ fs_base (fs (uk s)) ≤ a < fs_end (fs (uk s)) →
  kernel_view a ∧ ¬ (buf ≤ a < buf + n).
Proof.
  intros Hk Hu a Ha. split.
  - destruct Ha as [Ha|Ha]; [by left|]. by apply (fs_view vids im (uk s) cur).
  - intros Hb. pose proof (Hu a Hb) as H1. pose proof (ko_hi _ _ _ _ Hk) as Hhi.
    unfold user_page, region, USER_MEM_LOCATION, VIDEO in *. lia.
Qed.

(** ** The contracts *)

Lemma kernel_safe s : sv_ok s → safe s user_page.
Proof.
  intros [Hk _] a b Ha Hb. cbn [cell UserMem]. rewrite !user_cell by done. split; [by eexists|].
  intros [= E]. unfold user_page, region, USER_MEM_LOCATION in Ha, Hb. revert E.
  unfold view_cell, VIDEO, USER_MEM_LOCATION. cases_lia. lia.
Qed.

Lemma kernel_store s a v : sv_ok s → user_page a → serves s (wr s a v) 0 (sv_handle s 0) [].
Proof.
  intros Hok Ha. pose proof Hok as [Hk _]. rewrite user_wr_kernel by done.
  apply mem_serves; [done|apply mach_ctl_wr|]. intros b Hb.
  destruct (user_buf_view s a 1 Hk) with (a := b) as [Hv Hn]; [|done|].
  { intros c Hc. assert (c = a) as -> by (unfold region in Hc; lia). done. }
  rewrite (rd_wr_safe _ kernel_view) by (done || by apply user_view || by apply (ko_safe vids im _ cur)).
  rewrite decide_False by lia. done.
Qed.

Lemma kernel_args s :
  sv_ok s → Z.of_nat (length (sv_args s)) < 128 ∧ Forall (λ c, 0 < c < 256) (sv_args s).
Proof.
  intros [_ (len & Hl & Hlen & Hle)]. cbn [sv_args KernelView]. unfold args_of.
  rewrite (strlen_list_spec _ _ Hl). split; [rewrite length_take; lia|].
  apply Forall_lookup. intros j x Hx. apply lookup_take_Some in Hx as [Hx Hj].
  pose proof (lookup_lt_Some _ _ _ Hx) as Hlt. rewrite lookup_aget in Hx by done.
  apply (inj Some) in Hx as <-. destruct Hl as [H0 H1 H2 H3].
  specialize (H1 (Z.of_nat j)). specialize (H3 (Z.of_nat j)). lia.
Qed.

Lemma kernel_getargs s buf n :
  sv_ok s → Z.of_nat (length (sv_args s)) < n < 2147483648 →
  (∀ a, region buf n a → user_page a) →
  ∃ s', ece391_getargs s buf n = Some (s', 0) ∧ serves s s' 0 (sv_handle s 0) [] ∧
    user_string s' buf (sv_args s) ∧ keeps s s' (region buf (Z.of_nat (length (sv_args s)) + 1)).
Proof.
  intros Hok Hn Hu. pose proof Hok as [Hk (len & Hl & Hlen & Hle)].
  assert (Z.of_nat (length (sv_args s)) = len) as El.
  { cbn [sv_args KernelView]. unfold args_of. rewrite (strlen_list_spec _ _ Hl), length_take.
    destruct Hl. lia. }
  rewrite El in Hn |- *. pose proof (al_range _ _ Hl) as Hl0.
  pose proof (Hu buf ltac:(unfold region; lia)) as Hb. unfold user_page, region, USER_MEM_LOCATION in Hb.
  pose proof (getargs_spec (uk s) cur buf n len kernel_view Hl Hlen (ko_safe _ _ _ _ Hk)) as H.
  rewrite decide_True, Z.min_r in H by lia.
  destruct H as (m & E & W); [lia| |lia|lia|].
  { intros a Ha. apply user_view, Hu. unfold region in *. lia. }
  exists (with_kernel s (with_mem (uk s) m)). cbn [ece391_getargs KernelCalls]. unfold of_call.
  rewrite E, bind_some. split; [done|].
  assert (serves s (with_kernel s (with_mem (uk s) m)) 0 (sv_handle s 0) []) as Hs.
  { apply mem_serves; [done|apply W|]. intros a Ha.
    destruct (user_buf_view s buf n Hk Hu a Ha) as [Hv Hnb].
    apply (written_out _ _ _ _ _ _ _ W); [done|lia]. }
  split; [done|]. pose proof (proj1 (se_ok _ _ _ _ _ _ _ Hs)) as Hk'.
  assert (∀ j, 0 ≤ j ≤ len → rd (with_kernel s (with_mem (uk s) m)) (buf + j) = (p_args (pcbs (uk s)).[cur]).[j]) as Hr.
  { intros j Hj. rewrite user_rd_kernel; [|done|apply Hu; unfold region; lia].
    change (kmem (uk (with_kernel s (with_mem (uk s) m)))) with m.
    rewrite (written_in _ _ _ _ _ _ _ W); [f_equal; lia|apply user_view, Hu; unfold region; lia|lia]. }
  split; [split|].
  - apply text_at_intro; rewrite El; [|rewrite Hr by lia; apply Hl].
    intros i Hi. cbn [sv_args KernelView]. unfold args_of. rewrite (strlen_list_spec _ _ Hl).
    rewrite aget_take by lia. split; [apply Hr; lia|by apply Hl].
  - rewrite El. intros b Hb'. apply Hu. unfold region in *. lia.
  - apply keeps_intro; [done|done|]. intros a Ha Hna.
    change (kmem (uk (with_kernel s (with_mem (uk s) m)))) with m.
    apply (written_out _ _ _ _ _ _ _ W); [by apply user_view|]. unfold region in Hna. lia.
Qed.

Lemma user_string_kernel s a name :
  kernel_ok vids im (uk s) cur → user_string s a name →
  cstring (uk s) a (Z.of_nat (length name)) ∧
  lookup_str im (uk s) a (Z.of_nat (length name)) = lookup_file im name.
Proof.
  intros Hk [[(H0 & H1 & H2) Hb] Hu].
  assert (∀ i, 0 ≤ i ≤ Z.of_nat (length name) → rd (kmem (uk s)) (a + i) = rd s (a + i)) as Hr.
  { intros i Hi. symmetry. apply user_rd_kernel; [done|]. apply Hu. unfold region. lia. }
  split; [split|].
  - split; [done|]. split; [intros i Hi; rewrite Hr by lia; by apply H1|by rewrite Hr by lia].
  - intros b Hb'. apply user_view, Hu. done.
  - unfold lookup_str, lookup_file. rewrite <- (user_bytes s); [by rewrite Hb|done|].
    intros b Hb'. apply Hu. unfold region in *. lia.
Qed.

Context (Hdp : 0x7F4000 ≤ dp ≤ 0x800000 - 44).
Context (Htypes : ∀ i, 0 ≤ i < num_entries im → 0 ≤ d_type (im_dents im).[i] ≤ 2).

Lemma opened_handle e fd : fd_handle (opened e fd) = opens e.
Proof. unfold opened, opens. by destruct (d_type e =? 0), (d_type e =? 1). Qed.

Lemma dentry_tview k k1 t :
  kernel_ok vids im k cur → terminals (con k1) = terminals (con k) →
  only_dentry kernel_view (kmem k) (kmem k1) dp → 0 ≤ t < 3 → tview (con k1) t = tview (con k) t.
Proof using Hdp.
  intros Hk Et [_ Hm] Ht. unfold tview, page_of. rewrite Et. f_equal. f_equal.
  apply view_ext. intros j Hj. fold (page_of (con k) t).
  rewrite (ki_page _ _ _ (ko_kbd _ _ _ _ Hk)) by done. apply Hm.
  - left. unfold region, tpage. lia.
  - unfold tpage, VIDEO. lia.
Qed.

(** [open] that returned -1 wrote its local [dentry_t] at most. *)
Lemma open_refused s a m :
  sv_ok s → open (uk s) cur a dp = Some (Some (with_mem (uk s) m, -1)) →
  kernel_ok vids im (with_mem (uk s) m) cur → only_dentry kernel_view (kmem (uk s)) m dp →
  refused s (ece391_open s a).
Proof using Hdp.
  intros Hok E Hk1 Hod. pose proof Hok as [Hk _]. cbn [ece391_open KernelCalls].
  rewrite E, bind_some. unfold of_call. rewrite bind_some.
  exists (with_kernel s (with_mem (uk s) m)). split; [done|]. split.
  - apply mem_serves; [done|apply Hod|]. intros b Hb. apply Hod.
    + destruct Hb as [Hb|Hb]; [by left|]. by apply (fs_view vids im (uk s) cur).
    + pose proof (ko_hi _ _ _ _ Hk). unfold region, VIDEO in Hb. lia.
  - apply keeps_intro; [done|done|]. intros b Hb _. apply Hod; [by apply user_view|].
    unfold user_page, region, USER_MEM_LOCATION in Hb. lia.
Qed.

Lemma kernel_open s a name :
  sv_ok s → user_string s a name →
  match lookup_file im name with
  | Some i =>
      (∃ j, 2 ≤ j < 8 ∧ sv_handle s j = Closed) →
      ∃ s' fd, ece391_open s a = Some (s', fd) ∧ 2 ≤ fd < 8 ∧ sv_handle s fd = Closed ∧
        (∀ j, 2 ≤ j < fd → sv_handle s j ≠ Closed) ∧
        serves s s' fd (opens (im_dents im).[i]) [] ∧ keeps s s' (λ _, False)
  | None => refused s (ece391_open s a)
  end.
Proof using Hdp Htypes.
  intros Hok Hu. pose proof Hok as [Hk _]. destruct (user_string_kernel s a name Hk Hu) as [Hc El].
  assert (Z.of_nat (length name) < 4294967296) as Hn.
  { destruct (user_string_range _ _ _ Hu). unfold USER_MEM_LOCATION in *. lia. }
  pose proof (open_spec vids im (uk s) cur a _ dp Hk Hc Hn Hdp Htypes) as H. rewrite El in H.
  assert (∀ b, user_page b → ¬ (dp ≤ b < dp + 44)) as Hdu
    by (intros b; unfold user_page, region, USER_MEM_LOCATION; lia).
  cbn [ece391_open KernelCalls]. destruct (lookup_file im name) as [i|].
  - intros (j & Hj & Hcl).
    assert (flags (get_fd (uk s) cur j) = 0) as Hfj by (apply closed_flags; [done|lia|done]).
    pose proof (free_fd_spec (fds_of (uk s) cur) 6 2) as Hff.
    destruct (free_fd (fds_of (uk s) cur) 6 2) as [fd|] eqn:Ef.
    2: { exfalso. apply (Hff j ltac:(lia)). exact Hfj. }
    destruct H as (k1 & E & Hk1 & Ep & _ & Hod & Ek).
    assert (inputs k1 = inputs (uk s) ∧ terminals (con k1) = terminals (con (uk s))) as [Ei Et]
      by (destruct Ek as (m1 & d1 & p1 & ->); done).
    destruct (free_fd_zero (uk s) cur fd (ko_files _ _ _ _ Hk) (ko_cur _ _ _ _ Hk) Ef) as [Hfd Ez].
    rewrite E, bind_some. unfold of_call. rewrite bind_some.
    pose proof (kernel_ok_fd vids im k1 cur fd _ Hk1 Hfd (opened_ok (im_dents im).[i] fd)) as Hk2.
    eexists _, fd. split; [done|]. split; [done|]. split; [|split; [|split]].
    + cbn [sv_handle KernelView]. rewrite Ez.
      rewrite (proj2 (Z.leb_le 0 fd)), (proj2 (Z.ltb_lt fd 8)) by lia. done.
    + intros j' Hj' Hcl'. apply (proj2 (proj2 Hff) j' Hj'). apply closed_flags; [done|lia|done].
    + rewrite <- (opened_handle _ fd). apply set_fd_serves; [done|lia|done|done|done|done|].
      intros t Ht. by apply dentry_tview.
    + apply keeps_intro; [done|done|]. intros b Hb _. apply Hod; [by apply user_view|by apply Hdu].
  - destruct H as (m & E & Hk1 & Hod). by apply (open_refused s a m).
Qed.

Lemma kernel_open_full s a name :
  sv_ok s → user_string s a name → (∀ j, 2 ≤ j < 8 → sv_handle s j ≠ Closed) →
  refused s (ece391_open s a).
Proof using Hdp Htypes.
  intros Hok Hu Hfull. pose proof Hok as [Hk _]. destruct (user_string_kernel s a name Hk Hu) as [Hc El].
  assert (Z.of_nat (length name) < 4294967296) as Hn.
  { destruct (user_string_range _ _ _ Hu). unfold USER_MEM_LOCATION in *. lia. }
  pose proof (open_spec vids im (uk s) cur a _ dp Hk Hc Hn Hdp Htypes) as H.
  pose proof (free_fd_spec (fds_of (uk s) cur) 6 2) as Hff.
  destruct (free_fd (fds_of (uk s) cur) 6 2) as [fd|].
  - exfalso. destruct Hff as (Hfd & Hfl & _). destruct (open_ops s fd Hok) as [Hf1 _]; [lia|apply Hfull; lia|].
    unfold get_fd in Hf1. unfold fds_of in Hfl. congruence.
  - assert (∃ m, open (uk s) cur a dp = Some (Some (with_mem (uk s) m, -1)) ∧
      kernel_ok vids im (with_mem (uk s) m) cur ∧ only_dentry kernel_view (kmem (uk s)) m dp)
      as (m & E & Hk1 & Hod) by by destruct (lookup_str _ _ _ _).
    by apply (open_refused s a m).
Qed.

Lemma user_buf_range buf n : 0 < n → (∀ a, region buf n a → user_page a) → user_buf buf n.
Proof.
  intros Hn Hu. pose proof (Hu buf ltac:(unfold region; lia)) as H1.
  pose proof (Hu (buf + n - 1) ltac:(unfold region; lia)) as H2.
  unfold user_page, region, user_buf in *. lia.
Qed.

(** A read that filled [v] bytes of the buffer and moved the descriptor. *)
Lemma read_serves s m fd f buf n v :
  sv_ok s → 0 ≤ fd < 8 → (∀ a, region buf n a → user_page a) → v ≤ n →
  kernel_ok vids im (set_fd (with_mem (uk s) m) cur fd f) cur → only_buf kernel_view (kmem (uk s)) m buf v →
  serves s (with_kernel s (set_fd (with_mem (uk s) m) cur fd f)) fd (fd_handle f) [] ∧
  keeps s (with_kernel s (set_fd (with_mem (uk s) m) cur fd f)) (region buf v) ∧
  bytes (with_kernel s (set_fd (with_mem (uk s) m) cur fd f)) buf v = bytes m buf v.
Proof.
  intros Hok Hfd Hu Hv Hk2 [Hc Ho]. pose proof Hok as [Hk _].
  assert (∀ a, region (VIDEO + 4096) (3 * 4096) a ∨ fs_base (fs (uk s)) ≤ a < fs_end (fs (uk s)) →
    rd m a = rd (kmem (uk s)) a) as Hr.
  { intros a Ha. destruct (user_buf_view s buf n Hk Hu a Ha) as [Hw Hn]. apply Ho; [done|lia]. }
  split; [|split].
  - apply set_fd_serves; [done|done| |done|done|done|].
    + apply kernel_ok_mem; [done|done|]. intros a Ha. apply Hr. by right.
    + intros t Ht. apply tview_mem; [done|done|]. intros a Ha. apply Hr. by left.
  - apply keeps_intro; [done|done|]. intros a Ha Hn. apply Ho; [by apply user_view|exact Hn].
  - rewrite user_bytes; [done|done|]. intros a Ha. apply Hu. unfold region in *. lia.
Qed.

Lemma fd_handle_pos f p :
  flags f ≠ 0 →
  fd_handle (f <| f_pos := p |>) =
  match f_op f with
  | FOPS_NULL => Closed | stdin_ops => Keys | stdout_ops => Screen | RTC_ops => Clock
  | dir_ops => Dir p | file_ops => Data (f_inode f) p
  end.
Proof.
  intros Hf. unfold fd_handle. change (flags (f <| f_pos := p |>)) with (flags f).
  by rewrite (proj2 (Z.eqb_neq _ _) Hf).
Qed.

Lemma kernel_read_data s fd buf n inode pos :
  sv_ok s → sv_handle s fd = Data inode pos →
  0 ≤ inode < num_inodes im → 0 ≤ pos ≤ 2147483648 →
  0 < n → (∀ a, region buf n a → user_page a) →
  let c := (im_files im).[inode] in
  let v := deliver (Z.of_nat (length c)) pos n in
  ∃ s', ece391_read s fd buf n = Some (s', v) ∧ serves s s' fd (Data inode (pos + v)) [] ∧
    bytes s' buf v = slice c pos n ∧ keeps s s' (region buf v).
Proof.
  intros Hok Hh Hi Hp Hn Hu c v. pose proof Hok as [Hk _].
  destruct (handle_used s fd _ Hh) as (Hfd & Hfl & Hf); [done|].
  set (f := get_fd (uk s) cur fd) in *. unfold fd_handle in Hf.
  rewrite (proj2 (Z.eqb_neq _ _) Hfl) in Hf.
  destruct (f_op f) eqn:Eop; try discriminate. injection Hf as Ei Ep.
  destruct (read_file_spec vids im (uk s) cur fd buf n before (ukeys s) (uticks s))
    as (m & E & Hb & Hk2 & Ho); fold f; rewrite ?Ei, ?Ep; try done; [by apply user_buf_range|lia|].
  fold f in E, Hb, Hk2, Ho. rewrite Ei, Ep in E, Hb, Hk2, Ho. fold c in E, Hb, Hk2, Ho. fold v in E, Hb, Hk2, Ho.
  cbn [ece391_read KernelCalls]. rewrite E. cbn [of_outcome].
  exists (with_kernel s (set_fd (with_mem (uk s) m) cur fd (f <| f_pos := pos + v |>))). split; [done|].
  destruct (read_serves s m fd _ buf n v Hok Hfd Hu
    ltac:(unfold v, deliver; lia) Hk2 Ho) as (Hs & Hkp & Hby).
  split; [|split; [by rewrite Hby|done]].
  assert (fd_handle (f <| f_pos := pos + v |>) = Data inode (pos + v)) as <-; [|done].
  rewrite fd_handle_pos by done. rewrite Eop. by rewrite Ei.
Qed.

Lemma kernel_read_dir s fd buf n i :
  sv_ok s → sv_handle s fd = Dir (64 * (i + 1)) → 0 ≤ i →
  0 < n → (∀ a, region buf n a → user_page a) →
  if decide (i < num_entries im) then
    let nm := d_name (im_dents im).[i] in
    let v := Z.min (Z.min n 32) (Z.of_nat (length nm)) in
    ∃ s', ece391_read s fd buf n = Some (s', v) ∧ serves s s' fd (Dir (64 * (i + 2))) [] ∧
      bytes s' buf v = slice nm 0 v ∧ keeps s s' (region buf v)
  else
    ∃ s', ece391_read s fd buf n = Some (s', 0) ∧ serves s s' fd (Dir (64 * (i + 1))) [] ∧
      keeps s s' (λ _, False).
Proof.
  intros Hok Hh Hi Hn Hu. pose proof Hok as [Hk _].
  destruct (handle_used s fd _ Hh) as (Hfd & Hfl & Hf); [done|].
  set (f := get_fd (uk s) cur fd) in *. unfold fd_handle in Hf.
  rewrite (proj2 (Z.eqb_neq _ _) Hfl) in Hf.
  destruct (f_op f) eqn:Eop; try discriminate. injection Hf as Ep.
  pose proof (user_buf_range buf n Hn Hu) as Hub. pose proof Hub as [Hu1 Hu2]. unfold USER_MEM_LOCATION in Hu1, Hu2.
  pose proof (user_io_ready vids im (uk s) cur buf n Hk Hub ltac:(lia)) as Hio.
  assert (∀ p, fd_handle (f <| f_pos := p |>) = Dir p) as Hhd.
  { intros p. rewrite fd_handle_pos by done. by rewrite Eop. }
  assert (ece391_read s fd buf n = of_outcome ('(m, fp, val) ← dir_read (kmem (uk s)) (fs (uk s)) f buf n;
    if negb (all_mapped (kmem (uk s)) buf val) then Some Fault else Some (Ret (set_fd (with_mem (uk s) m) cur fd fp) val (ukeys s) (uticks s)))) as E.
  { cbn [ece391_read KernelCalls]. unfold read. rewrite (fd_mapped vids im) by done. fold f.
    rewrite (proj2 (Z.eqb_neq _ _) Hfl). cbn [orb].
    rewrite Z.geb_leb, (proj2 (Z.leb_gt 8 fd)), (proj2 (Z.ltb_ge fd 0)) by lia. cbn [orb].
    assert (is_kernel_ptr buf = false) as -> by (unfold is_kernel_ptr; apply Z.ltb_ge; lia).
    rewrite Eop, u32_small by lia. done. }
  rewrite E. destruct (used_fd_ok (uk s) cur fd (ko_files _ _ _ _ Hk) (ko_cur _ _ _ _ Hk) Hfd Hfl (or_introl Eop))
    as [Hfd2 Hfok].
  assert (∀ m v p, only_buf kernel_view (kmem (uk s)) m buf v → v ≤ n →
    kernel_ok vids im (set_fd (with_mem (uk s) m) cur fd (f <| f_pos := p |>)) cur) as Hkok.
  { intros m v p [Hc Ho] Hv. apply kernel_ok_fd; [|done|by apply fd_ok_pos].
    apply kernel_ok_mem; [done|done|]. intros a Ha.
    destruct (user_buf_view s buf n Hk Hu a (or_intror Ha)) as [Hw Hnb]. apply Ho; [done|lia]. }
  case_decide as Hlt.
  - intros nm v. destruct (dir_read_io kernel_view (kmem (uk s)) (fs (uk s)) im buf n f i Hio Ep ltac:(lia))
      as (m & -> & Hb & Ho). rewrite bind_some. fold nm v in Hb, Ho |- *.
    rewrite (user_mapped vids im (uk s) cur buf n v Hk Hub) by (unfold v; lia). cbn [negb of_outcome].
    exists (with_kernel s (set_fd (with_mem (uk s) m) cur fd (f <| f_pos := 64 * (i + 2) |>))). split; [done|].
    destruct (read_serves s m fd (f <| f_pos := 64 * (i + 2) |>) buf n v Hok Hfd Hu
      ltac:(unfold v; lia) (Hkok m v _ Ho ltac:(unfold v; lia)) Ho) as (Hs & Hkp & Hby).
    rewrite Hhd in Hs. split; [done|]. split; [by rewrite Hby|done].
  - rewrite (dir_read_end kernel_view _ _ im buf n f i Hio Ep) by lia. rewrite bind_some.
    rewrite (user_mapped vids im (uk s) cur buf n 0 Hk Hub) by lia. cbn [negb of_outcome].
    exists (with_kernel s (set_fd (with_mem (uk s) (kmem (uk s))) cur fd f)). split; [done|].
    assert (f = f <| f_pos := 64 * (i + 1) |>) as Ef by (destruct f; cbn in *; by subst).
    assert (only_buf kernel_view (kmem (uk s)) (kmem (uk s)) buf 0) as Ho by by split.
    destruct (read_serves s (kmem (uk s)) fd (f <| f_pos := 64 * (i + 1) |>) buf n 0 Hok Hfd Hu
      ltac:(lia) (Hkok _ 0 _ Ho ltac:(lia)) Ho) as (Hs & Hkp & _).
    rewrite Hhd in Hs. rewrite <- Ef in Hs, Hkp. split; [done|]. intros a Ha _. apply Hkp; [done|].
    unfold region. lia.
Qed.

Lemma kernel_write s fd buf n v :
  sv_ok s → sv_handle s fd = Screen → printable s buf n v → n < 0x400000 →
  (∀ a, region buf n a → user_page a) → USER_MEM_LOCATION ≤ buf ≤ USER_MEM_LOCATION + 0x400000 →
  ∃ s', ece391_write s fd buf n = Some (s', v) ∧ serves s s' fd Screen (bytes s buf v) ∧
    keeps s s' (λ _, False).
Proof.
  intros Hok Hh Hpr Hn Hu Hb. pose proof Hok as [Hk _].
  destruct (handle_used s fd _ Hh) as (Hfd & Hfl & Hf); [done|].
  set (f := get_fd (uk s) cur fd) in *. pose proof Hf as Hf'. unfold fd_handle in Hf'.
  rewrite (proj2 (Z.eqb_neq _ _) Hfl) in Hf'.
  destruct (f_op f) eqn:Eop; try discriminate. clear Hf'.
  pose proof (ko_kbd _ _ _ _ Hk) as Hinv. pose proof (ko_term _ _ _ _ Hk) as Ht.
  set (t := p_terminal_id (pcbs (uk s)).[cur]) in *. unfold USER_MEM_LOCATION in Hb.
  pose proof (TerminalProofs.pr_len _ _ _ _ Hpr) as Hpl.
  assert (∀ i, 0 ≤ i < n → rd s (buf + i) = rd (kmem (uk s)) (buf + i)) as Hrd.
  { intros i Hi. apply user_rd_kernel; [done|]. apply Hu. unfold region. lia. }
  assert (printable (kmem (uk s)) buf n v) as Hpk.
  { destruct Hpr as [P1 P2 P3]. split; [done| |].
    - intros i Hi. rewrite <- Hrd by lia. by apply P2.
    - destruct P3 as [P3|P3]; [by left|]. destruct (decide (v = n)) as [|Hne]; [by left|right].
      rewrite <- Hrd by lia. exact P3. }
  destruct (terminal_write_spec kernel_view (con (uk s)) t buf n v) as (c & E & Ev & _ & Ho);
    [apply terms_con_ok; [apply Hinv|done]|exact Hpk|lia|lia|lia| |].
  { intros a Ha. split; [by apply user_view, Hu|]. pose proof (Hu a Ha) as Ha'.
    rewrite (ki_page _ _ _ Hinv) by done. unfold user_page, region, tpage, VIDEO, USER_MEM_LOCATION in *. lia. }
  set (k' := (uk s) <| con := c |>).
  assert (ece391_write s fd buf n = Some (mk_ustate k' (ukeys s) (uticks s), v)) as ->.
  { cbn [ece391_write KernelCalls]. unfold write. rewrite (fd_mapped vids im) by done. fold f.
    rewrite (proj2 (Z.eqb_neq _ _) Hfl). cbn [orb]. rewrite Z.gtb_ltb.
    rewrite (proj2 (Z.eqb_neq buf 0)), (proj2 (Z.ltb_ge 7 fd)), (proj2 (Z.ltb_ge fd 0)) by lia. cbn [orb].
    assert (is_kernel_ptr buf = false) as -> by (unfold is_kernel_ptr; apply Z.ltb_ge; lia).
    rewrite Eop, u32_small by lia. fold t. rewrite E, bind_some.
    destruct (Z.ltb_spec v n) as [Hv|Hv]; [|done]. cbn [andb].
    by rewrite (mapped_safe _ kernel_view) by (apply (ko_safe _ _ _ _ Hk) || (apply user_view, Hu; unfold region; lia)). }
  eexists. split; [done|].
  assert (kernel_ok vids im k' cur) as Hk'.
  { apply (kernel_ok_print vids im (uk s) cur c (bytes (kmem (uk s)) buf v)); done. }
  split.
  - rewrite (user_bytes s); [|done|intros a Ha; apply Hu; unfold region in *; lia].
    apply (serves_intro s k'); [done|done|done|done| | |done|done].
    + destruct (ot_fields _ _ _ _ Ho) as (x & y & E').
      transitivity (kb (uk s), cur_terminal c, typingLine (terminals c).[t],
        line_buffer_index (terminals c).[t], length (rtc_interrupt_occured (uk s))); [reflexivity|].
      rewrite (ot_cur _ _ _ _ Ho), E'. reflexivity.
    + intros j Hj. case_decide; [subst j; exact Hf|done].
  - apply keeps_intro; [done|done|]. intros a Ha _. apply (ot_page _ _ _ _ Ho); [by apply user_view|].
    rewrite (ki_page _ _ _ Hinv) by done. unfold user_page, region, tpage, VIDEO, USER_MEM_LOCATION in *. lia.
Qed.

Lemma kernel_close s fd :
  sv_ok s → 2 ≤ fd < 8 → sv_handle s fd ≠ Closed →
  ∃ s', ece391_close s fd = Some (s', 0) ∧ serves s s' fd Closed [] ∧ keeps s s' (λ _, False).
Proof.
  intros Hok Hfd Hh. pose proof Hok as [Hk _]. destruct (open_ops s fd Hok Hfd Hh) as [Hf Ho].
  exists (with_kernel s (set_fd (uk s) cur fd zero_file)).
  assert (kernel_ok vids im (set_fd (uk s) cur fd zero_file) cur) as Hk2
    by (apply kernel_ok_fd; [done|done|by left]).
  split; [|split].
  - cbn [ece391_close KernelCalls]. unfold close. rewrite Z.gtb_ltb.
    rewrite (proj2 (Z.ltb_ge 7 fd)), (proj2 (Z.ltb_ge fd 2)) by lia. cbn [orb]. rewrite Hf. cbn [Z.eqb].
    assert (fop_close (get_fd (uk s) cur fd) = Some 0) as ->; [|done].
    unfold fop_close. by destruct Ho as [Ho|[Ho|Ho]]; rewrite Ho.
  - apply (set_fd_serves s (uk s) fd zero_file); [done|lia|done|done|done|done|done].
  - apply keeps_intro; done.
Qed.

Lemma kernel_close_bad s fd :
  sv_ok s → fd < 2 ∨ 8 ≤ fd ∨ sv_handle s fd = Closed → refused s (ece391_close s fd).
Proof.
  intros Hok Hbad. apply refused_same; [done|]. cbn [ece391_close KernelCalls]. unfold close.
  rewrite Z.gtb_ltb. destruct (Z.ltb_spec 7 fd); [done|]. destruct (Z.ltb_spec fd 2); [done|]. cbn [orb].
  destruct Hbad as [|[|Hc]]; [lia|lia|]. by rewrite (closed_flags s fd Hok ltac:(lia) Hc).
Qed.

(** The flags that are looked at first are in the kernel's page. *)
Lemma near_mapped k fd :
  kernel_ok vids im k cur → near_fd fd → fd_unused k cur fd = Some (flags (get_fd k cur fd) =? 0).
Proof.
  intros Hk Hn. unfold fd_unused. rewrite bool_decide_true; [done|].
  pose proof (ko_cur _ _ _ _ Hk) as [Hc _]. unfold near_fd in Hn.
  assert (0x400000 ≤ flags_addr cur fd < 0x800000) as Ha.
  { assert (flags_addr cur fd = pcb_addr cur + 292 + s32 (20 * fd)) as ->;
      [|unfold pcb_addr, KERNEL_TOP, KB8; lia].
    unfold flags_addr. rewrite <- (u32_small (pcb_addr cur + 292 + s32 (20 * fd)))
      by (unfold pcb_addr, KERNEL_TOP, KB8; lia).
    unfold s32, u32. mlia. }
  eexists. exact (kernel_identity (kmem k) (Some cur) (vids cur) (cur_terminal (con k)) _
    (mach_space _ _ _ _ (ki_mach _ _ _ (ko_kbd _ _ _ _ Hk))) Ha).
Qed.

Lemma kernel_bad_fd s fd buf n :
  sv_ok s → sv_handle s fd = Closed → near_fd fd → user_page buf →
  refused s (ece391_read s fd buf n) ∧ refused s (ece391_write s fd buf n).
Proof.
  intros Hok Hh Hn Hu. pose proof Hok as [Hk _].
  assert (flags (get_fd (uk s) cur fd) = 0 ∨ fd < 0 ∨ 8 ≤ fd) as Hb.
  { destruct (decide (0 ≤ fd < 8)); [left; by apply closed_flags|right; lia]. }
  split; apply refused_same; try done; cbn [ece391_read ece391_write KernelCalls];
    unfold read, write; rewrite near_mapped by done.
  - assert ((flags (get_fd (uk s) cur fd) =? 0) || (fd >=? 8) || (fd <? 0) || is_kernel_ptr buf = true) as ->;
      [|done]. destruct Hb as [->|Hb]; [done|]. destruct (_ =? 0), (is_kernel_ptr buf); lia.
  - assert ((flags (get_fd (uk s) cur fd) =? 0) || (buf =? 0) || (fd >? 7) || (fd <? 0) = true) as ->;
      [|done]. destruct Hb as [->|Hb]; [done|]. destruct (_ =? 0), (buf =? 0); lia.
Qed.

(** The checks of [read] and [write] let a used descriptor and a user buffer
    pass. *)
Lemma checks_pass s fd buf h :
  sv_ok s → sv_handle s fd = h → h ≠ Closed → user_page buf →
  fd_unused (uk s) cur fd = Some false ∧ (fd >=? 8) = false ∧ (fd >? 7) = false ∧ (fd <? 0) = false ∧
  is_kernel_ptr buf = false ∧ (buf =? 0) = false ∧ fd_handle (get_fd (uk s) cur fd) = h ∧ 0 ≤ fd < 8.
Proof.
  intros [Hk _] Hh Hne Hu. destruct (handle_used s fd h Hh Hne) as (Hfd & Hfl & Hf).
  rewrite (fd_mapped vids im) by done. rewrite (proj2 (Z.eqb_neq _ _) Hfl).
  unfold user_page, region, USER_MEM_LOCATION in Hu. unfold is_kernel_ptr. rewrite Z.geb_leb, Z.gtb_ltb.
  split_and!; (done || lia).
Qed.

(** The operations behind a handle. *)
Lemma handle_ops f h :
  fd_handle f = h → h ≠ Closed →
  match h with
  | Closed => True | Keys => f_op f = stdin_ops | Screen => f_op f = stdout_ops
  | Clock => f_op f = RTC_ops | Dir _ => f_op f = dir_ops | Data _ _ => f_op f = file_ops
  end.
Proof. intros <-. unfold fd_handle. destruct (flags f =? 0); [done|]. by destruct (f_op f). Qed.

Lemma kernel_write_keys s fd buf n :
  sv_ok s → sv_handle s fd = Keys → user_page buf → refused s (ece391_write s fd buf n).
Proof.
  intros Hok Hh Hu. destruct (checks_pass s fd buf _ Hok Hh ltac:(done) Hu)
    as (E1 & _ & E3 & E4 & E5 & E6 & E7 & _).
  apply refused_same; [done|]. cbn [ece391_write KernelCalls]. unfold write.
  rewrite E1, E3, E4, E5, E6. cbn [orb]. by rewrite (handle_ops _ _ E7).
Qed.

Lemma kernel_read_screen s fd buf n :
  sv_ok s → sv_handle s fd = Screen → user_page buf → refused s (ece391_read s fd buf n).
Proof.
  intros Hok Hh Hu. destruct (checks_pass s fd buf _ Hok Hh ltac:(done) Hu)
    as (E1 & E2 & _ & E4 & E5 & _ & E7 & _).
  apply refused_same; [done|]. cbn [ece391_read KernelCalls]. unfold read.
  rewrite E1, E2, E4, E5. cbn [orb]. by rewrite (handle_ops _ _ E7).
Qed.

Lemma kernel_vidmap_bad s a : sv_ok s → 0 ≤ a < 0x800000 → refused s (ece391_vidmap s a).
Proof.
  intros Hok Ha. apply refused_same; [done|]. cbn [ece391_vidmap KernelCalls]. unfold vidmap, is_kernel_ptr.
  by rewrite (proj2 (Z.ltb_lt a 0x800000)), orb_true_r by lia.
Qed.

Lemma kernel_bad_number s n : sv_ok s → s32 n < 1 ∨ 10 < s32 n → refused s (int80 s n).
Proof.
  intros Hok Hn. apply refused_same; [done|]. cbn [int80 KernelCalls]. unfold systemcall_linkage.
  rewrite Z.gtb_ltb. destruct (Z.ltb_spec (s32 n) 1); [done|]. by rewrite (proj2 (Z.ltb_lt 10 (s32 n))) by lia.
Qed.

(** ** The clock *)

Lemma kernel_write_clock s fd buf :
  sv_ok s → sv_handle s fd = Clock → (∀ a, region buf 4 a → user_page a) →
  ∃ s', ece391_write s fd buf 4 = Some (s', 0) ∧ serves s s' fd Clock [] ∧ keeps s s' (λ _, False).
Proof.
  intros Hok Hh Hu. pose proof Hok as [Hk _].
  destruct (checks_pass s fd buf _ Hok Hh ltac:(done) (Hu buf ltac:(unfold region; lia)))
    as (E1 & _ & E3 & E4 & E5 & E6 & E7 & Hfd).
  assert (all_mapped (kmem (uk s)) buf BYTE4 = true) as Em.
  { apply (all_mapped_safe _ kernel_view); [exact (ko_safe _ _ _ _ Hk)|]. intros b Hb. by apply user_view, Hu. }
  cbn [ece391_write KernelCalls]. unfold write.
  rewrite E1, E3, E4, E5, E6. cbn [orb]. rewrite (handle_ops _ _ E7) by done.
  change (u32 4) with 4. change BYTE4 with 4 in Em. rewrite Em, andb_false_r. change 4 with BYTE4. unfold RTC_write. rewrite Z.eqb_refl. cbv zeta. cbn [of_outcome].
  set (d := cmos_update _ _ _).
  assert (kernel_ok vids im (with_dev (uk s) d) cur) as Hk2 by exact (kernel_ok_dev vids im (uk s) cur d (kpic (uk s)) Hk).
  exists (with_kernel s (with_dev (uk s) d)). split; [done|]. split.
  - apply serves_intro; [done|done|done|done|done| |done|done].
    intros j Hj. case_decide as Ej; [subst j; exact E7|done].
  - by apply keeps_intro.
Qed.

(** The events up to the first tick. *)
Lemma first_tick evs n :
  (Datatypes.S n ≤ length (List.filter is_tick evs))%nat →
  ∃ i rest, evs = replicate i EvOther ++ EvRTC :: rest ∧ (n ≤ length (List.filter is_tick rest))%nat.
Proof.
  induction evs as [|[] evs IH]; cbn; intros Hn.
  - lia.
  - exists 0%nat, evs. split; [done|lia].
  - destruct (IH Hn) as (i & rest & -> & Hr). by exists (Datatypes.S i), rest.
Qed.

Lemma kernel_read_clock s fd buf n nt :
  sv_ok s → sv_handle s fd = Clock → sv_ticks s (Datatypes.S nt) → user_page buf →
  ∃ s', ece391_read s fd buf n = Some (s', 0) ∧ does s s' fd Clock (λ v, v) [] 1 ∧
    keeps s s' (λ _, False).
Proof.
  intros Hok Hh [|[Hl Ht]] Hu; [done|]. pose proof Hok as [Hk _].
  destruct (checks_pass s fd buf _ Hok Hh ltac:(done) Hu) as (E1 & E2 & _ & E4 & E5 & _ & E7 & Hfd).
  destruct (first_tick (uticks s) nt Ht) as (i & rest & Ev & Hr).
  set (t := p_terminal_id (pcbs (uk s)).[cur]) in *.
  destruct (RTC_tick (rtc_interrupt_occured (uk s)) (kdev (uk s)) t i rest Hl (ko_term _ _ _ _ Hk)) as [Er _].
  cbn [ece391_read KernelCalls]. unfold read.
  rewrite E1, E2, E4, E5. cbn [orb]. rewrite (handle_ops _ _ E7) by done. fold t.
  rewrite Ev, Er, bind_some. cbn [of_outcome].
  set (d := send_eoi _ _). set (k' := with_dev ((uk s) <| rtc_interrupt_occured := [1; 1; 1] |>) d).
  assert (kernel_ok vids im ((uk s) <| rtc_interrupt_occured := [1; 1; 1] |>) cur) as Hk1 by (destruct Hk; by split).
  assert (kernel_ok vids im k' cur) as Hk2 by exact (kernel_ok_dev vids im _ cur d (kpic (uk s)) Hk1).
  exists (mk_ustate k' (ukeys s) rest). split; [done|]. split.
  - apply does_intro; [done|done|done|done| |done|done|done|].
    + intros j Hj. case_decide as Ej; [subst j; exact E7|done].
    + intros m [Hm|[_ Hm]]; [done|]. right. split; [done|]. cbn [uticks].
      rewrite Ev in Hm. revert Hm. clear. induction i as [|i IH]; cbn; [lia|exact IH].
  - by apply keeps_intro.
Qed.

(** ** The keyboard *)

(** The keys of the first line are determined by the keys to come. *)
Lemma enter_split (c1 c2 r1 r2 : list Z) :
  Forall (λ c, plain_code c = true) c1 → Forall (λ c, plain_code c = true) c2 →
  c1 ++ KEYBOARD_ENTER :: r1 = c2 ++ KEYBOARD_ENTER :: r2 → c1 = c2 ∧ r1 = r2.
Proof.
  intros H1. revert c2. induction H1 as [|x c1 Hx H1 IH]; intros [|y c2] H2 E; cbn in E.
  - by injection E.
  - injection E as <- _. by apply Forall_inv in H2.
  - injection E as -> _. done.
  - injection E as <- E. apply Forall_inv_tail in H2. by destruct (IH c2 H2 E) as [<- <-].
Qed.

Lemma kernel_lines s line ls :
  sv_lines s (line :: ls) → (length line ≤ 127)%nat ∧ Forall (λ c, 0 < c < 256) line.
Proof.
  intros [|[_ (codes & rest & _ & H1 & H2 & H3 & -> & _)]]; [done|]. rewrite length_fmap. split; [done|].
  rewrite Forall_fmap. apply Forall_forall. intros c Hc. cbn.
  pose proof (proj1 (Forall_forall _ _) H1 c Hc) as P1. pose proof (proj1 (Forall_forall _ _) H2 c Hc) as P2.
  pose proof (key_char_range (kb (uk s)) c (plain_range c P1)). cbn in P2. lia.
Qed.

(** The bytes of the user's line are mapped. *)
Lemma line_mapped_types k codes rest t buf n :
  kernel_ok vids im k cur → t = cur_terminal (con k) →
  let T := (terminals (con k)).[t] in
  typingLine T = true → line_buffer_index T = 0 → ctrl (kb k) = false → alt (kb k) = false →
  Forall (λ c, plain_code c = true) codes → (length codes ≤ 127)%nat →
  0 ≤ n → region USER_MEM_LOCATION (0x400000 - 129) buf →
  line_mapped k cur t buf n before (codes ++ KEYBOARD_ENTER :: rest) = Some true.
Proof.
  intros Hk -> T Hty Hix Hc Ha Hpl Hlen Hn Hb.
  destruct (wait_types cur vids before (kb k) codes rest Hc Ha Hpl (con k) [] (ko_kbd _ _ _ _ Hk) Hty Hix)
    as (s1 & T1 & Ew & Hi1 & B & _ & _ & Ei & _); [done|simpl; lia|].
  cbn [app] in Ei. rewrite length_fmap in Ei.
  pose proof (co_term _ _ _ (cur_con_ok cur vids _ (ko_kbd _ _ _ _ Hk))) as Htl.
  unfold line_mapped. rewrite Ew, bind_some. rewrite (becomes_get _ _ _ _ _ Htl B), Ei, u32_small by lia.
  f_equal. apply (all_mapped_safe _ kernel_view); [by eapply mach_safe, Hi1|].
  intros b Hb'. right; right. unfold region, USER_MEM_LOCATION in *. rewrite Z.gtb_ltb in Hb'.
  destruct (Z.ltb_spec (Z.of_nat (length codes) + 1) n); lia.
Qed.

Lemma kernel_read_keys s fd buf n line ls :
  sv_ok s → sv_handle s fd = Keys → sv_lines s (line :: ls) →
  0 ≤ n < 2147483648 → region USER_MEM_LOCATION (0x400000 - 129) buf →
  let v := Z.min n (Z.of_nat (length line) + 1) in
  ∃ s', ece391_read s fd buf n = Some (s', v) ∧ does s s' fd Keys (echo_spec line) [line] 0 ∧
    bytes s' buf v = take (Z.to_nat v) (line ++ [KEYBOARD_LINEFEED]) ∧ rd s' (buf + v) = 0 ∧
    keeps s s' (region buf (v + 1)).
Proof.
  intros Hok Hh [|[Hp (codes & rest & Ek & H1 & H2 & H3 & El & _)]] Hn Hb v; [done|].
  pose proof Hok as [Hk _]. pose proof (ko_kbd _ _ _ _ Hk) as Hinv.
  assert (user_page buf) as Hu by (unfold user_page, region, USER_MEM_LOCATION in *; lia).
  destruct (checks_pass s fd buf _ Hok Hh ltac:(done) Hu) as (E1 & E2 & _ & E4 & E5 & _ & E7 & Hfd).
  destruct Hp as (P1 & P2 & P3 & P4 & P5).
  set (t := p_terminal_id (pcbs (uk s)).[cur]) in *. rewrite <- P1 in P2, P3.
  destruct (read_types cur vids before (kb (uk s)) (con (uk s)) codes rest buf n Hinv P2 P3 P4 P5 H1 H2 H3
    ltac:(lia) Hb) as (c & Er & L).
  rewrite P1 in Er, L. rewrite <- El in L.
  assert (Z.min n (Z.of_nat (length codes) + 1) = v) as Ev by (unfold v; rewrite El, length_fmap; done).
  rewrite Ev in Er, L. set (k' := (uk s) <| kb := kb (uk s) |> <| con := c |>).
  assert (0 ≤ v ≤ 128) as Hv by (unfold v; rewrite El, length_fmap; lia).
  unfold region, USER_MEM_LOCATION in Hb.
  assert (∀ a, region buf (v + 1) a → user_page a) as Hub.
  { intros a Ha. unfold user_page, region, USER_MEM_LOCATION in *. lia. }
  assert (kernel_ok vids im k' cur) as Hk2.
  { pose proof (ko_hi _ _ _ _ Hk) as Hhi. pose proof (ko_lo _ _ _ _ Hk) as Hlo.
    assert (fs_rep (vmem c) (fs (uk s)) im) as Hf.
    { apply (fs_rep_ext (kmem (uk s))); [|apply Hk]. intros a Ha. apply (lr_mem _ _ _ _ _ _ _ _ L).
      - right; left. unfold region. lia.
      - rewrite (ki_page _ _ _ Hinv) by apply Hk. unfold region, tpage, VIDEO.
        pose proof (ko_term _ _ _ _ Hk). lia.
      - unfold region. lia. }
    destruct Hk as [K1 K2 _ _ _ _ K7 K8]. split; try done. apply L. }
  assert (∀ a, user_page a → rd (mk_ustate k' rest (uticks s)) a = rd (vmem c) a) as Hrd
    by (intros a Ha; exact (user_rd_kernel (mk_ustate k' rest (uticks s)) a Hk2 Ha)).
  exists (mk_ustate k' rest (uticks s)). split; [|split; [|split; [|split]]].
  - cbn [ece391_read KernelCalls]. unfold read.
    rewrite E1, E2, E4, E5. cbn [orb]. rewrite (handle_ops _ _ E7) by done. fold t.
    rewrite u32_small by lia.
    rewrite Ek, (line_mapped_types (uk s) codes rest t buf n Hk (eq_sym P1)), bind_some
      by (done || lia || by rewrite <- P1).
    cbn [negb]. by rewrite Er, bind_some.
  - apply does_intro; [done|done|done|done| |done|exact (lr_view _ _ _ _ _ _ _ _ L)| |].
    + intros j Hj. case_decide as Ej; [subst j; exact E7|done].
    + intros ls' Hls. cbn [app] in Hls.
      destruct Hls as [|[_ (codes' & rest' & Ek' & H1' & _ & _ & _ & Ht)]]; [done|].
      rewrite Ek in Ek'. destruct (enter_split _ _ _ _ H1 H1' Ek') as [<- <-]. right. split; [|done].
      unfold at_prompt. change (con (uk (mk_ustate k' rest (uticks s)))) with c.
      change (p_terminal_id (pcbs (uk (mk_ustate k' rest (uticks s)))).[cur]) with t.
      change (kb (uk (mk_ustate k' rest (uticks s)))) with (kb (uk s)).
      rewrite (lr_cur _ _ _ _ _ _ _ _ L), (lr_typing _ _ _ _ _ _ _ _ L), (lr_idx _ _ _ _ _ _ _ _ L).
      by split_and!.
    + by intros m Hm.
  - rewrite <- (lr_bytes _ _ _ _ _ _ _ _ L). unfold bytes. apply list_fmap_ext. intros j i Hi.
    apply lookup_seqZ in Hi as [-> Hi]. apply Hrd, Hub. unfold region. lia.
  - rewrite Hrd by (apply Hub; unfold region; lia). exact (lr_nul _ _ _ _ _ _ _ _ L).
  - apply keeps_intro; [done|done|]. intros a Ha Hna. apply (lr_mem _ _ _ _ _ _ _ _ L); [by apply user_view| |done].
    rewrite (ki_page _ _ _ Hinv) by apply Hk. pose proof (ko_term _ _ _ _ Hk).
    unfold user_page, region, tpage, VIDEO, USER_MEM_LOCATION in *. lia.
Qed.

(** The kernel implements the contracts. *)
(** Signals are not implemented: the call does nothing. *)
Lemma kernel_set_handler s signum h :
  sv_ok s → ∃ s', ece391_set_handler s signum h = Some (s', 0) ∧ quiet s s'.
Proof. intros Hok. exists s. split; [done|]. by apply quiet_refl. Qed.

(** Nothing is mapped at address 0 for the process. *)
Lemma kernel_null s : sv_ok s → cell s 0 = None.
Proof.
  intros [Hk _]. pose proof (mach_space _ _ _ _ (ki_mach _ _ _ (ko_kbd _ _ _ _ Hk))) as Hs.
  exact (process_user_translate _ cur (vids cur) _ 0 Hs ltac:(lia)).
Qed.

#[local] Instance KernelService : FileService (ustate D) im.
Proof using Hdp Htypes.
  split.
  - exact kernel_safe.
  - exact kernel_store.
  - exact kernel_args.
  - exact kernel_getargs.
  - exact kernel_open.
  - exact kernel_open_full.
  - exact kernel_close.
  - exact kernel_close_bad.
  - exact kernel_read_data.
  - exact kernel_read_dir.
  - exact kernel_read_keys.
  - exact kernel_lines.
  - exact kernel_read_clock.
  - exact kernel_write_clock.
  - exact kernel_write.
  - exact kernel_bad_fd.
  - exact kernel_write_keys.
  - exact kernel_read_screen.
  - exact kernel_vidmap_bad.
  - exact kernel_set_handler.
  - exact kernel_bad_number.
  - exact kernel_null.
  - intros s [Hk _] i Hi. apply (rep_dents _ _ _ (ko_fs _ _ _ _ Hk) i Hi).
  - intros s [Hk _]. exact (rep_maxent _ _ _ (ko_fs _ _ _ _ Hk)).
  - intros s [Hk _] i Hi. exact (rep_maxlen _ _ _ (ko_fs _ _ _ _ Hk) i Hi).
Qed.
End Service.
