(* ===== verification/UserSystem.v ===== *)
(** * User programs on the kernel

    The theorems about the user programs, for a process of the kernel: what
    its terminal shows when the program has run, with runs on the concrete
    kernel. *)

From S2P Require Import Prelude Memory Lib Ports Types Filesystem FsProofs FsProps I8259 RTC.
From S2P Require Import Paging PagingProps Console ConsoleProofs ConsoleProps Printf Keyboard.
From S2P Require Import KeyboardProofs LineProofs KeyboardProps TerminalProofs Typing TerminalProps.
From S2P Require Import Kernel KernelProps KernelDemo SyscallProps User Programs Syserr UserLogic UserProps.
From S2P Require Import InteractProps SyserrProps GrepProps UserKernel.
Import (notations) Stdlib.Strings.String.
#[local] Open Scope Z_scope.

Section Service.
Context {HL : Layout} {D : Type} `{!PortIO D}.
(** As in [UserKernel]. *)
Context (cur dp rate0 : Z) (before : Z → Z) (vids : Z → option Z) (im : fs_image).
Context (other : syscall → ustate D → option (ustate D * Z)).
Context (Hdp : 0x7F4000 ≤ dp ≤ 0x800000 - 44).
Context (Htypes : ∀ i, 0 ≤ i < num_entries im → 0 ≤ d_type (im_dents im).[i] ≤ 2).
Implicit Types (s : ustate D) (k : kernel D).

#[local] Instance calls : Syscalls (ustate D) := KernelCalls cur dp rate0 before other.
#[local] Instance kview : ServiceView (ustate D) := KernelView cur vids im.
#[local] Instance service : FileService (ustate D) im :=
  KernelService cur dp rate0 before vids im other Hdp Htypes.

(** A process that has just been entered. *)
Lemma kernel_entered s buf n :
  kernel_ok vids im (uk s) cur → args_ok cur (uk s) →
  (∃ j, 2 ≤ j < 8 ∧ get_fd (uk s) cur j = zero_file) → (∀ a, region buf n a → user_page a) →
  entered s buf n.
Proof.
  intros Hk Ha (j & Hj & Hz) Hu. split; [by split| | |done].
  - change (fd_handle (get_fd (uk s) cur 1) = Screen).
    pose proof (fo_out _ (proj2 (ko_files _ _ _ _ Hk) cur (ko_cur _ _ _ _ Hk))) as E.
    unfold get_fd. unfold fds_of in E. by rewrite E.
  - exists j. split; [done|]. etransitivity; [apply handle_range; lia|]. by rewrite Hz.
Qed.

(** C8 (cat). A process whose arguments name a data file runs cat: [main]
    returns 0, and the terminal of the process shows the file, printed after what
    it showed before (in each piece of 1024 bytes, the bytes up to the first NUL;
    a file without NULs is printed whole, [cat_text_plain]).  The kernel stays
    in service. *)
Theorem cat_prints_file s str buf i :
  let t := p_terminal_id (pcbs (uk s)).[cur] in
  kernel_ok vids im (uk s) cur → args_ok cur (uk s) →
  (∃ j, 2 ≤ j < 8 ∧ get_fd (uk s) cur j = zero_file) → (∀ a, region buf 1024 a → user_page a) →
  lookup_file im (args_of cur (uk s)) = Some i →
  let e := (im_dents im).[i] in
  d_type e = 2 → 0 ≤ d_inode e < num_inodes im →
  ∃ s', cat str buf s = Some (s', 0) ∧ kernel_ok vids im (uk s') cur ∧
    tview (con (uk s')) (p_terminal_id (pcbs (uk s')).[cur])
    = print_spec (cat_text (im_files im).[d_inode e]) (tview (con (uk s)) t).
Proof using Hdp Htypes.
  intros t Hk Ha Hfree Hu Hlk e Hty Hin.
  destruct (cat_file str s buf i (kernel_entered s buf 1024 Hk Ha Hfree Hu) Hlk Hty Hin)
    as (s' & E & [[Hk' _] _ Hv _ _]).
  exists s'. split; [exact E|]. split; [exact Hk'|exact Hv].
Qed.

(** (cat, no such file). When the arguments name nothing in the directory,
    cat prints its message and returns 2. *)
Theorem cat_reports_missing s str buf :
  let t := p_terminal_id (pcbs (uk s)).[cur] in
  let msg := text "file not found" ++ [10] in
  kernel_ok vids im (uk s) cur → args_ok cur (uk s) →
  (∃ j, 2 ≤ j < 8 ∧ get_fd (uk s) cur j = zero_file) → (∀ a, region buf 1024 a → user_page a) →
  lookup_file im (args_of cur (uk s)) = None →
  user_string s (str msg) msg → (∀ a, region (str msg) 16 a → ¬ region buf 1024 a) →
  ∃ s', cat str buf s = Some (s', 2) ∧ kernel_ok vids im (uk s') cur ∧
    tview (con (uk s')) (p_terminal_id (pcbs (uk s')).[cur]) = print_spec msg (tview (con (uk s)) t).
Proof using Hdp Htypes.
  intros t msg Hk Ha Hfree Hu Hlk Hm Hap.
  destruct (cat_missing str s buf (kernel_entered s buf 1024 Hk Ha Hfree Hu) Hlk Hm Hap)
    as (s' & E & [[Hk' _] _ Hv _ _]).
  exists s'. split; [exact E|]. split; [exact Hk'|exact Hv].
Qed.

(** C9 (ls). ls prints the name of every entry of the directory, in order and
    each on a line of its own, and returns 0. *)
Theorem ls_lists_directory s str buf i :
  let t := p_terminal_id (pcbs (uk s)).[cur] in
  kernel_ok vids im (uk s) cur → args_ok cur (uk s) →
  (∃ j, 2 ≤ j < 8 ∧ get_fd (uk s) cur j = zero_file) → (∀ a, region buf 33 a → user_page a) →
  user_string s (str (text ".")) (text ".") →
  lookup_file im (text ".") = Some i → d_type (im_dents im).[i] = 1 →
  (∀ i, 0 ≤ i < num_entries im → d_name (im_dents im).[i] ≠ []) →
  ∃ s', ls str buf s = Some (s', 0) ∧ kernel_ok vids im (uk s') cur ∧
    tview (con (uk s')) (p_terminal_id (pcbs (uk s')).[cur])
    = print_spec (ls_text (im_dents im)) (tview (con (uk s)) t).
Proof using Hdp Htypes.
  intros t Hk Ha Hfree Hu Hdot Hlk Hty Hne.
  destruct (ls_directory str s buf i (kernel_entered s buf 33 Hk Ha Hfree Hu) Hdot Hlk Hty Hne)
    as (s' & E & [[Hk' _] _ Hv _ _]).
  exists s'. split; [exact E|]. split; [exact Hk'|exact Hv].
Qed.

(** ** Programs that wait for input

    [process str lits B ls nt s]: the process has just been entered with its
    string constants [lits] in place, apart from its variables [B]; the keys to
    come type the lines [ls], and [nt] clock ticks are to come. *)
Record process (str : list Z → Z) (lits : list (list Z)) (B : Z → Prop) (ls : list (list Z)) (nt : nat) s : Prop := {
  pr_ok : kernel_ok vids im (uk s) cur;
  pr_args : args_ok cur (uk s);
  pr_fds : ∀ j, 2 ≤ j < 8 → get_fd (uk s) cur j = zero_file;
  pr_lines : ls = [] ∨ at_prompt cur (uk s) ∧ types (kb (uk s)) (ukeys s) ls;
  pr_ticks : nt = 0%nat ∨ length (rtc_interrupt_occured (uk s)) = 3%nat ∧
    (nt ≤ length (List.filter is_tick (uticks s)))%nat;
  pr_lits : ∀ l, l ∈ lits → user_string s (str l) l;
  pr_apart : ∀ l, l ∈ lits → ∀ a, region (str l) (Z.of_nat (length l) + 1) a → ¬ B a
}.

(** What the terminal of the process shows. *)
Definition shown s : screen := tview (con (uk s)) (p_terminal_id (pcbs (uk s)).[cur]).

Lemma process_running str lits B ls nt s :
  process str lits B ls nt s →
  running str lits B s (mk_world std_fds (shown s) (args_of cur (uk s)) ls nt).
Proof.
  intros [H1 H2 H3 H4 H5 H6 H7]. split; [|done|done]. split; [by split|done| |done|done|done|done].
  intros j. cbn [w_fds].
  pose proof (proj2 (ko_files _ _ _ _ H1) cur (ko_cur _ _ _ _ H1)) as [_ F0 F1 _].
  destruct (decide (0 ≤ j < 8)) as [Hj|Hj].
  - rewrite (handle_range cur vids im s j Hj).
    destruct (decide (j = 0)) as [->|]; [unfold get_fd; unfold fds_of in F0; by rewrite F0|].
    destruct (decide (j = 1)) as [->|]; [unfold get_fd; unfold fds_of in F1; by rewrite F1|].
    rewrite H3 by lia.
    assert (j = 2 ∨ j = 3 ∨ j = 4 ∨ j = 5 ∨ j = 6 ∨ j = 7) as [->|[->|[->|[->|[->| ->]]]]] by lia; done.
  - cbn [sv_handle kview KernelView]. assert ((0 <=? j) && (j <? 8) = false) as -> by lia.
    unfold aget. destruct (Z.leb_spec 0 j); [|done]. by rewrite lookup_ge_None_2 by (cbn; lia).
Qed.

(** A run of a program whose final world is known. *)
Lemma sees_shown s w : sees s w → kernel_ok vids im (uk s) cur ∧ shown s = w_screen w.
Proof. intros [[Hk _] _ _ Hv _ _ _]. by split. Qed.

(** hello greets whoever types a name. *)
Theorem hello_greets_user s str buf line ls :
  process str hello_lits (region buf 1024) (line :: ls) 0 s → (∀ a, region buf 1024 a → user_page a) →
  ∃ s', hello str buf s = Some (s', 0) ∧ kernel_ok vids im (uk s') cur ∧
    shown s' = print_spec (text "Hello, " ++ line ++ [10])
      (echo_spec line (print_spec (text "Hi, what's your name? ") (shown s))).
Proof using Hdp Htypes.
  intros Hp Hu. destruct (hello_greets str s _ buf line ls (process_running _ _ _ _ _ _ Hp)) as (s' & E & Hs'); [done..|].
  exists s'. split; [exact E|]. exact (sees_shown _ _ Hs').
Qed.

(** (counter). counter prompts, reads a line and counts: for the choices 0, 1
    and 2 it prints the numbers 1 to 100, 10000 or 100000, a line each; an empty
    line prints nothing, any other line "Wrong Choice!".  It returns 0. *)
Theorem counter_counts_up s str buf line ls :
  process str counter_lits (region buf 1024) (line :: ls) 0 s → (∀ a, region buf 1024 a → user_page a) →
  ∃ s', counter str buf s = Some (s', 0) ∧ kernel_ok vids im (uk s') cur ∧
    shown s' = print_spec (counter_text line) (echo_spec line (print_spec counter_prompt (shown s))).
Proof using Hdp Htypes.
  intros Hp Hu. destruct (counter_counts str s _ buf line ls (process_running _ _ _ _ _ _ Hp)) as (s' & E & Hs'); [done..|].
  exists s'. split; [exact E|]. exact (sees_shown _ _ Hs').
Qed.

(** C14 (pingpong). When the clock ticks 152 times for each of [n] rounds, pingpong
    completes the rounds: it prints a frame per tick, the letter moving out and
    back between the walls, the letters in order from A to Z and again. *)
Theorem pingpong_bounces s str buf ret_val garbage n i :
  let B := λ a, region buf 81 a ∨ region ret_val 4 a in
  process str [text "rtc"] B [] (152 * n) s →
  lookup_file im (text "rtc") = Some i → d_type (im_dents im).[i] = 0 →
  (∀ a, B a → user_page a) → (∀ a, region buf 81 a → ¬ region ret_val 4 a) → user_page garbage →
  ∃ s', pingpong str buf ret_val garbage n s = Some s' ∧ kernel_ok vids im (uk s') cur ∧
    shown s' = print_spec (pp_text (Z.of_nat n) 0) (shown s).
Proof using Hdp Htypes.
  intros B Hp Hlk Hty HB Hd Hg.
  destruct (pingpong_rallies str s _ buf ret_val garbage n 2 i (process_running _ _ _ _ _ _ Hp)) as (s' & E & Hs'); try done.
  - split; [lia|]. split; [done|]. intros j Hj. lia.
  - exists s'. split; [exact E|]. exact (sees_shown _ _ Hs').
Qed.

(** C11 (system-call tests). syserr, the test program for the error behaviour of the
    system calls, passes on this kernel: whatever test the typed line selects,
    and for all of them at once (0), it prints PASS for each and returns 0. *)
Theorem syserr_tests_pass s str buf tbuf line ls dot :
  process str syserr_lits (region buf 128) (line :: ls) 0 s →
  (∀ a, region buf 128 a → user_page a) → region USER_MEM_LOCATION (0x400000 - 129) buf → user_page tbuf →
  lookup_file im (text ".") = Some dot → d_type (im_dents im).[dot] = 1 →
  (∀ name, name ∈ [text "helloo"; text "shel"; []] → lookup_file im name = None) →
  ∃ s', syserr str buf tbuf s = Some (s', 0) ∧ kernel_ok vids im (uk s') cur ∧
    shown s' = print_spec (syserr_text ((line ++ [10]).[0] - 48))
      (echo_spec line (print_spec (text "Choose from tests 1-8. 0 to run all: ") (shown s))).
Proof using Hdp Htypes.
  intros Hp Hu Hb Ht Hdot Hdir Hno.
  destruct (syserr_passes str (region buf 128) tbuf Ht dot Hdot Hdir Hno s _ buf line ls
    (process_running _ _ _ _ _ _ Hp)) as (s' & E & Hs'); try done.
  { intros a Ha. split; [by apply Hu|done]. }
  exists s'. split; [exact E|]. exact (sees_shown _ _ Hs').
Qed.

(** C10 (grep). In a directory of text files (and the clock), grep prints
    [name:line] for every line that contains the argument ([grep_match_spec]),
    file by file in the order of the directory, and returns 0. *)
Theorem grep_prints_matches s str data search buf i :
  process str grep_lits (grep_vars data search buf) [] (grep_ticks im) s →
  (∀ a, grep_vars data search buf a → user_page a) →
  (∀ a, region data 1025 a → ¬ region search 1024 a) → (∀ a, region data 1025 a → ¬ region buf 33 a) →
  (∀ a, region search 1024 a → ¬ region buf 33 a) →
  lookup_file im (text ".") = Some i → d_type (im_dents im).[i] = 1 →
  (∀ i, 0 ≤ i < num_entries im → greppable im (im_dents im).[i]) → rd s (data + 1024) ≠ 10 →
  ∃ s', grep str data search buf s = Some (s', 0) ∧ kernel_ok vids im (uk s') cur ∧
    shown s' = print_spec (grep_text im (args_of cur (uk s))) (shown s).
Proof using Hdp Htypes.
  intros Hp Hu Hds Hdb Hsb Hdot Hdir Hall Hg.
  destruct (grep_prints str s _ data search buf i (process_running _ _ _ _ _ _ Hp)) as (s' & E & Hs'); try done.
  exists s'. split; [exact E|]. exact (sees_shown _ _ Hs').
Qed.
End Service.

(** ** Witnesses

    Process 0 of the demonstration kernel, started with the argument "a.txt",
    and with the constant "." of ls in its memory. *)

(** New arguments keep the kernel in service. *)
Lemma kernel_ok_args {HL : Layout} {D : Type} `{!PortIO D} vids im (k : kernel D) cur l :
  kernel_ok vids im k cur → kernel_ok vids im (with_pcb k cur (λ p, p <| p_args := l |>)) cur.
Proof.
  intros [[Hc Hu] [Hl Hf] H3 H4 H5 H6 H7 H8].
  assert (∀ p, p_fd (pcbs (with_pcb k cur (λ p, p <| p_args := l |>))).[p] = p_fd (pcbs k).[p]) as Hfd.
  { intros p. unfold with_pcb. cbn [pcbs set_field set_pcbs]. destruct (decide (cur = p)) as [->|Hne].
    - by rewrite aget_aset_eq by lia.
    - by rewrite aget_aset_ne. }
  split; try done.
  - split; [unfold with_pcb; cbn [pcbs set_field set_pcbs]; by rewrite length_aset|]. intros p Hp. unfold fds_of. rewrite Hfd. by apply Hf.
  - unfold with_pcb. cbn [pcbs set_field set_pcbs]. by rewrite aget_aset_eq by lia.
  - unfold with_pcb. cbn [pcbs set_field set_pcbs]. by rewrite aget_aset_eq by lia.
Qed.

Definition cat_args : list Z := nm_a_txt ++ replicate 123 0.
Definition cat_kernel : kernel (list (Z * Z)) := with_pcb demo_kernel 0 (λ p, p <| p_args := cat_args |>).
Definition cat_state : ustate (list (Z * Z)) := mk_ustate cat_kernel [] [].

Lemma str_dot : rd kphys 0x800300 = 46 ∧ rd kphys 0x800301 = 0.
Proof. by vm_compute. Qed.

Definition demo_calls : Syscalls (ustate (list (Z * Z))) :=
  KernelCalls 0 0x7FF000 0 (λ _, 0) (λ _ s, Some (s, 0)).

#[local] Opaque demo_mach kphys.

Lemma cat_kernel_ok : kernel_ok (λ _, None) kimage cat_kernel 0.
Proof. exact (kernel_ok_args _ _ demo_kernel 0 cat_args demo_kernel_ok). Qed.

Lemma cat_args_ok : args_ok 0 cat_kernel.
Proof.
  exists 5. change (p_args (pcbs cat_kernel).[0]) with cat_args. split; [split|].
  - lia.
  - intros j Hj. assert (j = 0 ∨ j = 1 ∨ j = 2 ∨ j = 3 ∨ j = 4) as [->|[->|[->|[->| ->]]]] by lia; done.
  - done.
  - intros j. apply bytes_aget. apply Forall_app_2; [repeat constructor; discriminate|].
    apply Forall_replicate. lia.
  - split; [lia|]. cbn. lia.
Qed.

Lemma cat_free : ∃ j, 2 ≤ j < 8 ∧ get_fd cat_kernel 0 j = zero_file.
Proof. exists 2. split; [lia|reflexivity]. Qed.

Lemma cat_lookup : lookup_file kimage (args_of 0 cat_kernel) = Some 3.
Proof.
  unfold args_of. change (p_args (pcbs cat_kernel).[0]) with cat_args. by vm_compute.
Qed.

Lemma cat_dot : user_string cat_state 0x8000300 (text ".").
Proof.
  assert (∀ i, 0 ≤ i ≤ 1 → rd cat_state (0x8000300 + i) = rd kphys (0x800300 + i)) as Hr.
  { intros i Hi. rewrite (user_rd_kernel 0 (λ _, None) kimage cat_state); [|exact cat_kernel_ok|].
    - change (kmem (uk cat_state)) with kmach. change 0x8000300 with (USER_MEM_LOCATION + 0x300).
      rewrite <- Z.add_assoc, kmach_user by lia. f_equal. lia.
    - unfold user_page, region, USER_MEM_LOCATION. lia. }
  split.
  - destruct str_dot as [H1 H2]. apply (text_at_intro cat_state 0x8000300 [46]).
    + intros i Hi. change (Z.of_nat (length [46])) with 1 in Hi. assert (i = 0) as -> by lia.
      split; [|done]. rewrite Hr by lia. exact H1.
    + change (Z.of_nat (length [46])) with 1. rewrite Hr by lia. exact H2.
  - intros b Hb. change (Z.of_nat (length (text "."))) with 1 in Hb.
    unfold user_page, region, USER_MEM_LOCATION in *. lia.
Qed.

(** "cat a.txt" shows "hi". *)
Lemma cat_prints_file_witness :
  ∃ s', @cat _ _ demo_calls (λ _, 0) 0x8000400 cat_state = Some (s', 0) ∧
    kernel_ok (λ _, None) kimage (uk s') 0 ∧
    tview (con (uk s')) (p_terminal_id (pcbs (uk s')).[0]) = print_spec [104; 105; 10] (tview (con cat_kernel) 0).
Proof.
  exact (cat_prints_file 0 0x7FF000 0 (λ _, 0) (λ _, None) kimage (λ _ s, Some (s, 0)) ltac:(lia) kimage_types cat_state
    (λ _, 0) 0x8000400 3 cat_kernel_ok cat_args_ok cat_free
    ltac:(intros a; unfold user_page, region, USER_MEM_LOCATION; lia) cat_lookup eq_refl
    ltac:(vm_compute; split; [discriminate|reflexivity])).
Defined.

(** "ls" shows the four names. *)
Lemma ls_lists_directory_witness :
  ∃ s', @ls _ _ demo_calls (λ _, 0x8000300) 0x8000400 cat_state = Some (s', 0) ∧
    kernel_ok (λ _, None) kimage (uk s') 0 ∧
    tview (con (uk s')) (p_terminal_id (pcbs (uk s')).[0]) =
      print_spec (nm_dot ++ [10] ++ nm_rtc ++ [10] ++ nm_shell ++ [10] ++ nm_a_txt ++ [10])
        (tview (con cat_kernel) 0).
Proof.
  refine (ls_lists_directory 0 0x7FF000 0 (λ _, 0) (λ _, None) kimage (λ _ s, Some (s, 0)) ltac:(lia) kimage_types cat_state
    (λ _, 0x8000300) 0x8000400 0 cat_kernel_ok cat_args_ok cat_free
    ltac:(intros a; unfold user_page, region, USER_MEM_LOCATION; lia) cat_dot eq_refl eq_refl _).
  intros i Hi. change (num_entries kimage) with 4 in Hi.
  assert (i = 0 ∨ i = 1 ∨ i = 2 ∨ i = 3) as [->|[->|[->| ->]]] by lia; discriminate.
Defined.

(** *** Programs with constants

    Process 0 with the constants [lits] from 0x8001000 on, 128 bytes each, the
    arguments [args], and no key held down. *)

Fixpoint lit_phys (a : Z) (lits : list (list Z)) : gmap Z Z :=
  match lits with [] => ∅ | l :: lits => flat_of a (l ++ [0]) ∪ lit_phys (a + 128) lits end.

Fixpoint lit_index (lits : list (list Z)) (l : list Z) : Z :=
  match lits with [] => 0 | x :: lits => if decide (x = l) then 0 else 1 + lit_index lits l end.

Definition lit_addr (lits : list (list Z)) (l : list Z) : Z := 0x8001000 + 128 * lit_index lits l.

Definition prog_mach (lits : list (list Z)) : mach := (vmem demo_kcon) <| phys := lit_phys 0x801000 lits ∪ kphys |>.

Definition prog_kernel (lits : list (list Z)) (args : list Z) : kernel (list (Z * Z)) :=
  (with_mem (with_pcb demo_kernel 0 (λ p, p <| p_args := args |>)) (prog_mach lits))
    <| kb := mk_kbd false false false false false false false |>.

(** The constants fit, and are where they should be. *)
Definition lits_check (lits : list (list Z)) : bool :=
  (Z.of_nat (length lits) <=? 24) &&
  forallb (λ l, (Z.of_nat (length l) <=? 126) && (lit_index lits l <? 24) && (0 <=? lit_index lits l) &&
    forallb (λ i, bool_decide (lit_phys 0x801000 lits !! (lit_addr lits l - 0x8000000 + 0x800000 + i) = Some (l ++ [0]).[i]) &&
                  ((0 <? (l ++ [0]).[i]) && ((l ++ [0]).[i] <? 256) || (i =? Z.of_nat (length l))))
      (seqZ 0 (Z.of_nat (length l) + 1))) lits.

Lemma flat_of_outside a l b : b < a ∨ a + Z.of_nat (length l) ≤ b → flat_of a l !! b = None.
Proof.
  revert a. induction l as [|v l IH]; intros a Hb; [done|]. cbn [flat_of length] in *.
  rewrite lookup_insert_ne by lia. apply IH. lia.
Qed.

Lemma lit_phys_outside lits b : ∀ a,
  Forall (λ l, Z.of_nat (length l) ≤ 126) lits → b < a ∨ a + 128 * Z.of_nat (length lits) ≤ b →
  lit_phys a lits !! b = None.
Proof.
  induction lits as [|l lits IH]; intros a Hl Hb; [done|]. apply Forall_cons_iff in Hl as [Hl1 Hl].
  cbn [lit_phys length] in *. apply lookup_union_None_2.
  - apply flat_of_outside. rewrite length_app. cbn [length]. lia.
  - apply IH; [done|lia].
Qed.

Lemma prog_inv lits : kbd_inv 0 (λ _, None) (demo_kcon <| vmem := prog_mach lits |>).
Proof. exact (kbd_inv_phys 0 (λ _, None) demo_kcon _ demo_inv). Qed.

Lemma lits_short lits :
  lits_check lits = true → Z.of_nat (length lits) ≤ 24 ∧ Forall (λ l, Z.of_nat (length l) ≤ 126) lits.
Proof.
  unfold lits_check. rewrite andb_true_iff, Z.leb_le, forallb_forall. intros [Hn Hl]. split; [done|].
  apply List.Forall_forall. intros l Hin. specialize (Hl l Hin). rewrite !andb_true_iff in Hl. lia.
Qed.

Lemma prog_ok lits args : lits_check lits = true → kernel_ok (λ _, None) kimage (prog_kernel lits args) 0.
Proof.
  intros Hc. apply lits_short in Hc as [Hn Hl].
  assert (kernel_ok (λ _, None) kimage
    (with_mem (with_pcb demo_kernel 0 (λ p, p <| p_args := args |>)) (prog_mach lits)) 0) as [H1 H2 H3 H4 H5 H6 H7 H8].
  { apply kernel_ok_mem; [exact (kernel_ok_args _ _ demo_kernel 0 args demo_kernel_ok)|reflexivity|].
    intros a Ha. change (0x500000 ≤ a < 0x506000) in Ha.
    change (kmem (with_pcb demo_kernel 0 _)) with kmach. rewrite kmach_kernel by lia.
    pose proof (mach_space _ _ _ _ (ki_mach _ _ _ (prog_inv lits))) as H. change (vmem (_ <| vmem := _ |>)) with (prog_mach lits) in H.
    cbn [rd PagedMem FlatMem]. unfold mach_rd, flat_rd. rewrite (kernel_identity (prog_mach lits) (Some 0) None 0 a H) by lia.
    change (phys (prog_mach lits)) with (lit_phys 0x801000 lits ∪ kphys).
    rewrite lookup_union_r; [done|]. apply lit_phys_outside; [done|lia]. }
  split; done.
Qed.

Lemma prog_rd lits args keys ticks a :
  lits_check lits = true → 0 ≤ a < 0x400000 →
  rd (mk_ustate (prog_kernel lits args) keys ticks) (USER_MEM_LOCATION + a)
  = u8 (default 0 ((lit_phys 0x801000 lits ∪ kphys) !! (0x800000 + a))).
Proof.
  intros Hc Ha. pose proof (prog_ok lits args Hc) as Hk.
  rewrite (user_rd_kernel 0 (λ _, None) kimage); [|exact Hk|unfold user_page, region, USER_MEM_LOCATION; lia].
  change (kmem (uk (mk_ustate (prog_kernel lits args) keys ticks))) with (prog_mach lits).
  rewrite (rd_pbyte (prog_mach lits) 0 0 _ _ (ki_mach _ _ _ (prog_inv lits))).
  - unfold view_cell, USER_MEM_LOCATION, VIDEO. cases_lia.
    replace (0x800000 + 0x400000 * 0 + (128 * 1048576 + a - 128 * 1048576)) with (0x800000 + a) by lia.
    unfold pbyte. change (phys (prog_mach lits)) with (lit_phys 0x801000 lits ∪ kphys). reflexivity.
  - right; right; right. unfold region, USER_MEM_LOCATION. lia.
Qed.

Lemma prog_string lits args keys ticks l :
  lits_check lits = true → l ∈ lits →
  user_string (mk_ustate (prog_kernel lits args) keys ticks) (lit_addr lits l) l ∧
  0x8001000 ≤ lit_addr lits l ∧ lit_addr lits l + Z.of_nat (length l) + 1 ≤ 0x8002000.
Proof.
  intros Hc Hl. pose proof Hc as Hc'. unfold lits_check in Hc'. rewrite andb_true_iff, forallb_forall in Hc'.
  destruct Hc' as [_ Hc']. specialize (Hc' l (proj1 (list_elem_of_In _ _) Hl)).
  rewrite !andb_true_iff, Z.leb_le, Z.leb_le, Z.ltb_lt in Hc'. destruct Hc' as [[[Hlen Hi1] Hi2] Hb].
  rewrite forallb_forall in Hb. set (a := lit_addr lits l) in *.
  assert (0x8001000 ≤ a ∧ a + Z.of_nat (length l) + 1 ≤ 0x8002000) as Ha by (unfold a, lit_addr; lia).
  split; [|done].
  assert (∀ i, 0 ≤ i ≤ Z.of_nat (length l) →
    rd (mk_ustate (prog_kernel lits args) keys ticks) (a + i) = (l ++ [0]).[i] ∧
    (i < Z.of_nat (length l) → (l ++ [0]).[i] ≠ 0)) as Hr.
  { intros i Hi. specialize (Hb i ltac:(apply list_elem_of_In, elem_of_seqZ; lia)).
    rewrite andb_true_iff, bool_decide_eq_true in Hb. destruct Hb as [Hb Hv].
    assert (0 ≤ (l ++ [0]).[i] < 256 ∧ (i < Z.of_nat (length l) → (l ++ [0]).[i] ≠ 0)) as [Hv1 Hv2].
    { rewrite orb_true_iff, andb_true_iff, !Z.ltb_lt, Z.eqb_eq in Hv. destruct Hv as [Hv| ->]; [lia|].
      rewrite aget_app_r, Z.sub_diag by lia. change ([0].[0]) with 0. lia. }
    split; [|done]. replace (a + i) with (USER_MEM_LOCATION + (a - 0x8000000 + i)) by (unfold USER_MEM_LOCATION; lia).
    rewrite prog_rd by (done || lia).
    replace (0x800000 + (a - 0x8000000 + i)) with (a - 0x8000000 + 0x800000 + i) by lia.
    rewrite (lookup_union_Some_l _ _ _ _ Hb). by apply u8_small. }
  split.
  - apply text_at_intro.
    + intros i Hi. destruct (Hr i ltac:(lia)) as [E Hn]. rewrite aget_app_l in E, Hn by lia. split; [done|]. apply Hn. lia.
    + destruct (Hr (Z.of_nat (length l)) ltac:(lia)) as [E _]. rewrite aget_app_r, Z.sub_diag in E by lia. exact E.
  - intros b Hb'. unfold user_page, region, USER_MEM_LOCATION in *. lia.
Qed.

Lemma prog_args_ok lits a :
  (length a < 128)%nat → Forall (λ c, 0 < c < 256) a → args_ok 0 (prog_kernel lits (a ++ replicate (128 - length a) 0)).
Proof.
  intros Hl Ha. exists (Z.of_nat (length a)).
  change (p_args (pcbs (prog_kernel lits (a ++ replicate (128 - length a) 0))).[0]) with (a ++ replicate (128 - length a) 0).
  split; [split|].
  - lia.
  - intros j Hj. rewrite aget_app_l by lia. apply Forall_aget_nz; [|done]. revert Ha. apply Forall_impl. lia.
  - rewrite aget_app_r, Z.sub_diag by lia. destruct (128 - length a)%nat eqn:E; [lia|done].
  - intros j. apply bytes_aget. apply Forall_app_2; [|apply Forall_replicate; lia]. revert Ha. apply Forall_impl. lia.
  - rewrite length_app, length_replicate. lia.
Qed.

(** The process is ready to run a program whose variables are not among the
    constants. *)
Lemma prog_process lits a keys ticks (B : Z → Prop) ls nt :
  lits_check lits = true → (length a < 128)%nat → Forall (λ c, 0 < c < 256) a →
  types (mk_kbd false false false false false false false) keys ls →
  (nt ≤ length (List.filter is_tick ticks))%nat → (∀ b, region 0x8001000 0x1000 b → ¬ B b) →
  process 0 (λ _, None) kimage (lit_addr lits) lits B ls nt
    (mk_ustate (prog_kernel lits (a ++ replicate (128 - length a) 0)) keys ticks).
Proof.
  intros Hc Hl Ha Ht Hn HB. split.
  - by apply prog_ok.
  - by apply prog_args_ok.
  - intros j Hj. assert (j = 2 ∨ j = 3 ∨ j = 4 ∨ j = 5 ∨ j = 6 ∨ j = 7) as [->|[->|[->|[->|[->| ->]]]]] by lia; reflexivity.
  - right. split; [|exact Ht]. split; [reflexivity|]. split; [reflexivity|]. split; [reflexivity|]. by split.
  - right. by split.
  - intros l Hin. by apply prog_string.
  - intros l Hin b Hb. apply HB. destruct (prog_string lits [] [] [] l Hc Hin) as [_ H]. unfold region in *. lia.
Qed.

(** The keys 0 and Enter type the line "0". *)
Lemma types_zero : types (mk_kbd false false false false false false false) [11; KEYBOARD_ENTER] [[48]].
Proof. exists [11], []. split_and!; try done; [by repeat constructor..|cbn; lia]. Qed.

Ltac in_user_page := intros a; unfold user_page, region, USER_MEM_LOCATION; lia.

(** The variables, below 0x8001000 or from 0x8002000 on, are apart from the constants. *)
Ltac ready_to_run types :=
  apply (prog_process _ []); [vm_compute; reflexivity|cbn; lia|constructor|exact types|cbn; lia
                             |unfold region; intros b Hb; lia].

(** counter, with the line "0" typed. *)
Lemma counter_counts_up_witness :
  let s := mk_ustate (prog_kernel counter_lits (replicate 128 0)) [11; KEYBOARD_ENTER] [] in
  ∃ s', @counter _ _ demo_calls (lit_addr counter_lits) 0x8000400 s = Some (s', 0) ∧
    kernel_ok (λ _, None) kimage (uk s') 0 ∧
    shown 0 s' = print_spec (count_text 100) (echo_spec [48] (print_spec counter_prompt (shown 0 s))).
Proof.
  intros s.
  apply (counter_counts_up 0 0x7FF000 0 (λ _, 0) (λ _, None) kimage (λ _ s, Some (s, 0)) ltac:(lia) kimage_types
    s (lit_addr counter_lits) 0x8000400 [48] []); [|in_user_page].
  ready_to_run types_zero.
Defined.

(** hello, with the name "0" typed. *)
Lemma hello_greets_user_witness :
  let s := mk_ustate (prog_kernel hello_lits (replicate 128 0)) [11; KEYBOARD_ENTER] [] in
  ∃ s', @hello _ _ demo_calls (lit_addr hello_lits) 0x8000400 s = Some (s', 0) ∧
    kernel_ok (λ _, None) kimage (uk s') 0 ∧
    shown 0 s' = print_spec (text "Hello, 0" ++ [10])
      (echo_spec [48] (print_spec (text "Hi, what's your name? ") (shown 0 s))).
Proof.
  intros s.
  apply (hello_greets_user 0 0x7FF000 0 (λ _, 0) (λ _, None) kimage (λ _ s, Some (s, 0)) ltac:(lia) kimage_types
    s (lit_addr hello_lits) 0x8000400 [48] []); [|in_user_page].
  ready_to_run types_zero.
Defined.

(** All the tests of syserr. *)
Lemma syserr_tests_pass_witness :
  let s := mk_ustate (prog_kernel syserr_lits (replicate 128 0)) [11; KEYBOARD_ENTER] [] in
  ∃ s', @syserr _ _ demo_calls (lit_addr syserr_lits) 0x8000400 0x8000500 s = Some (s', 0) ∧
    kernel_ok (λ _, None) kimage (uk s') 0 ∧
    shown 0 s' = print_spec (syserr_text 0)
      (echo_spec [48] (print_spec (text "Choose from tests 1-8. 0 to run all: ") (shown 0 s))).
Proof.
  intros s.
  apply (syserr_tests_pass 0 0x7FF000 0 (λ _, 0) (λ _, None) kimage (λ _ s, Some (s, 0)) ltac:(lia) kimage_types
    s (lit_addr syserr_lits) 0x8000400 0x8000500 [48] [] 0);
    [ready_to_run types_zero|in_user_page|unfold region, USER_MEM_LOCATION; lia
    |unfold user_page, region, USER_MEM_LOCATION; lia|reflexivity|reflexivity|].
  intros name Hn. rewrite !elem_of_cons, elem_of_nil in Hn. destruct Hn as [->|[->|[->|[]]]]; reflexivity.
Defined.

(** A round of pingpong. *)
Lemma pingpong_bounces_witness :
  let s := mk_ustate (prog_kernel [text "rtc"] (replicate 128 0)) [] (replicate 152 EvRTC) in
  ∃ s', @pingpong _ _ demo_calls (lit_addr [text "rtc"]) 0x8000400 0x8000500 0x8000600 1 s = Some s' ∧
    kernel_ok (λ _, None) kimage (uk s') 0 ∧ shown 0 s' = print_spec (round_text 65) (shown 0 s).
Proof.
  intros s. rewrite <- (app_nil_r (round_text 65)).
  apply (pingpong_bounces 0 0x7FF000 0 (λ _, 0) (λ _, None) kimage (λ _ s, Some (s, 0)) ltac:(lia) kimage_types
    s (lit_addr [text "rtc"]) 0x8000400 0x8000500 0x8000600 1 1);
    [ready_to_run I|reflexivity|reflexivity|in_user_page|intros a; unfold region; lia
    |unfold user_page, region, USER_MEM_LOCATION; lia].
Defined.

(** "grep h" finds the line of a.txt. *)
Lemma kimage_greppable i : 0 ≤ i < num_entries kimage → greppable kimage (im_dents kimage).[i].
Proof.
  intros Hi. change (num_entries kimage) with 4 in Hi.
  assert (i = 0 ∨ i = 1 ∨ i = 2 ∨ i = 3) as [->|[->|[->| ->]]] by lia; (split; [discriminate|]).
  - by left.
  - right. exists 1. split; [reflexivity|by left].
  - right. exists 2. split; [reflexivity|]. right. split; [reflexivity|]. split; [vm_compute; split; [discriminate|reflexivity]|].
    split; [by repeat (constructor; [lia|])|by repeat (constructor; [vm_compute; lia|])].
  - right. exists 3. split; [reflexivity|]. right. split; [reflexivity|]. split; [vm_compute; split; [discriminate|reflexivity]|].
    split; [by repeat (constructor; [lia|])|by repeat (constructor; [vm_compute; lia|])].
Qed.

Lemma grep_prints_matches_witness :
  let s := mk_ustate (prog_kernel grep_lits (text "h" ++ replicate 127 0)) [] [EvRTC] in
  ∃ s', @grep _ _ demo_calls (lit_addr grep_lits) 0x8004000 0x8005000 0x8006000 s = Some (s', 0) ∧
    kernel_ok (λ _, None) kimage (uk s') 0 ∧ shown 0 s' = print_spec (text "a.txt:hi" ++ [10]) (shown 0 s).
Proof.
  intros s. assert (grep_text kimage (text "h") = text "a.txt:hi" ++ [10]) as <- by by vm_compute.
  apply (grep_prints_matches 0 0x7FF000 0 (λ _, 0) (λ _, None) kimage (λ _ s, Some (s, 0)) ltac:(lia) kimage_types
    s (lit_addr grep_lits) 0x8004000 0x8005000 0x8006000 0);
    [|unfold grep_vars; in_user_page|intros a; unfold region; lia..|reflexivity|reflexivity|exact kimage_greppable|].
  - apply (prog_process _ (text "h")); [vm_compute; reflexivity|cbn; lia|by repeat constructor|exact I|vm_compute; lia|].
    unfold grep_vars, region. intros b Hb. lia.
  - unfold s. change (0x8004000 + 1024) with (USER_MEM_LOCATION + 0x4400). rewrite prog_rd; [|vm_compute; reflexivity|lia].
    rewrite lookup_union_r; [|apply lit_phys_outside; [by repeat (constructor; [vm_compute; discriminate|])|vm_compute; right; discriminate]].
    assert (kphys !! (0x800000 + 0x4400) = None) as -> by by vm_compute. done.
Defined.
