(* ===== verification/Sigtest.v ===== *)
(** * sigtest (src/syscalls/ece391sigtest.c)

    The test program for signals: it installs handlers when its argument begins
    with 1, asks for a name and stores to a null pointer.  Without handlers the
    program ends in a page fault.  This kernel does not implement signals: it
    accepts the handlers and does not call them. *)

From S2P Require Import Prelude Memory Lib Ports Types Filesystem FsProofs FsProps I8259 RTC.
From S2P Require Import Paging PagingProps Console ConsoleProofs ConsoleProps Printf Keyboard.
From S2P Require Import KeyboardProofs LineProofs KeyboardProps TerminalProofs Typing TerminalProps.
From S2P Require Import Kernel KernelProps KernelDemo SyscallProps User UserLogic UserKernel UserSystem.
Import (notations) Stdlib.Strings.String.
#[local] Open Scope Z_scope.

Definition SEGFAULT : Z := 1.
Definition ALARM : Z := 3.

(** How the program ends: [main] returns, or an access faults. *)
Inductive sig_end := Exits (status : Z) | Faults (a : Z).

Record sig_env := mk_sig_env {
  sg_str : list Z → Z;        (* the string constants *)
  sg_charbuf : Z;
  sg_badbuf : Z;              (* a pointer *)
  sg_buf : Z;                 (* [buf] of main, 1024 bytes *)
  sg_key : Z;                 (* [buf] of segfault_sighandler *)
  sg_segfault : Z; sg_alarm : Z   (* the addresses of the handlers *)
}.

Section Program.
Context {S : Type} `{!ByteMem S, !Syscalls S}.
Context (E : sig_env).
Implicit Types (s : S).
#[local] Abbreviation str := (sg_str E).

(** The case distinction of both handlers. *)
Definition signum_line (signum : Z) : list Z :=
  (if signum =? 0 then text "0" else if signum =? 1 then text "1" else if signum =? 2 then text "2"
   else if signum =? 3 then text "3" else text "invalid") ++ [10].

(** [a] is the address of the parameter; seven words above it, the saved EAX. *)
Definition segfault_sighandler s (signum a : Z) : option S :=
  s ← ece391_fdputs s 1 (str (text "Segfault signal handler called, signum: "));
  s ← ece391_fdputs s 1 (str (signum_line signum));
  s ← ece391_fdputs s 1 (str (text "Press enter to continue..." ++ [10]));
  '(s, _) ← ece391_read s 0 (sg_key E) 1;
  let s := store32 s (sg_badbuf E) (sg_charbuf E) in
  let s := store32 s (a + 28) (sg_charbuf E) in
  ece391_fdputs s 1 (str (text "Signal handler returning" ++ [10])).

Definition alarm_sighandler s (signum : Z) : option S :=
  s ← ece391_fdputs s 1 (str (text "Alarm signal handler called, signum: "));
  ece391_fdputs s 1 (str (signum_line signum)).

Definition install s : option S :=
  s ← ece391_fdputs s 1 (str (text "Installing signal handlers" ++ [10]));
  '(s, _) ← ece391_set_handler s SEGFAULT (sg_segfault E);
  '(s, _) ← ece391_set_handler s ALARM (sg_alarm E);
  Some s.

(** [main] after a store that has not faulted. *)
Definition greet s (cnt : Z) : option (S * sig_end) :=
  let s := wr s (sg_buf E + cnt) 0 in
  s ← ece391_fdputs s 1 (str (text "Hello, "));
  s ← ece391_fdputs s 1 (sg_buf E);
  s ← ece391_fdputs s 1 (str (if rd s (sg_charbuf E) =? 1 then text "success" ++ [10] else text "failure" ++ [10]));
  Some (s, Exits 0).

Definition sigtest s : option (S * sig_end) :=
  '(s, r) ← ece391_getargs s (sg_buf E) 1024;
  if negb (r =? 0) then
    s ← ece391_fdputs s 1 (str (text "could not read argument" ++ [10]));
    Some (s, Exits 3)
  else
    s ← (if rd s (sg_buf E) =? 49 then install s else Some s);
    s ← ece391_fdputs s 1 (str (text "Hi, what's your name? "));
    '(s, cnt) ← ece391_read s 0 (sg_buf E) 1023;
    if cnt =? -1 then
      s ← ece391_fdputs s 1 (str (text "Can't read name from keyboard." ++ [10]));
      Some (s, Exits 3)
    else
      let p := load32 s (sg_badbuf E) in
      match cell s p with
      | None => Some (s, Faults p)
      | Some _ => greet (wr s p 1) cnt
      end.
End Program.

(** ** On the contracts *)

Definition sig_lits : list (list Z) :=
  [text "Installing signal handlers" ++ [10]; text "Hi, what's your name? "].

Definition installing (args : list Z) : list Z :=
  if args.[0] =? 49 then text "Installing signal handlers" ++ [10] else [].

Section Client.
Context {S : Type} `{!ByteMem S, !Syscalls S, !ServiceView S} {im : fs_image} `{!FileService S im}.
Context (E : sig_env) (Hbuf : ∀ a, region (sg_buf E) 1024 a → user_page a).
Context (Hbad : ∀ a, region (sg_badbuf E) 4 a → user_page a ∧ ¬ region (sg_buf E) 1024 a).
Implicit Types (s : S) (w : world).
#[local] Abbreviation running := (running (sg_str E) sig_lits (region (sg_buf E) 1024)).

Lemma handler_running s w n h :
  running s w → ∃ s', ece391_set_handler s n h = Some (s', 0) ∧ running s' w ∧ keeps s s' (λ _, False).
Proof.
  intros Hr. destruct (fs_set_handler s n h (wo_ok _ _ (ru_sees _ _ _ _ _ Hr))) as (s' & E1 & Hq & Hk).
  exists s'. split; [done|]. split; [|done]. apply (running_still _ _ _ s s' w); [done| |done].
  by apply (sees_quiet s); [apply Hr|].
Qed.

Lemma install_spec s w :
  running s w → (w_fds w).[1] = Screen →
  ∃ s', install E s = Some s' ∧ running s' (w_print (text "Installing signal handlers" ++ [10]) w) ∧ keeps s s' (λ _, False).
Proof using FileService0.
  intros Hr H1. unfold install.
  destruct (say _ _ _ s w (text "Installing signal handlers" ++ [10]) Hr H1) as (s1 & -> & R1 & K1); [lit|]. rewrite bind_some.
  destruct (handler_running s1 _ SEGFAULT (sg_segfault E) R1) as (s2 & -> & R2 & K2). rewrite bind_some.
  destruct (handler_running s2 _ ALARM (sg_alarm E) R2) as (s3 & -> & R3 & K3). rewrite bind_some.
  exists s3. split; [done|]. split; [done|]. apply (keeps_chain s s1); [done|]. by apply (keeps_chain s1 s2).
Qed.

Lemma first_char s a l : text_at s a l → rd s a = l.[0].
Proof.
  intros Ht. rewrite <- (Z.add_0_r a). by apply (text_at_get s a l 0); [|lia].
Qed.

Lemma sigtest_runs s w line ls :
  running s w → (w_fds w).[0] = Keys → (w_fds w).[1] = Screen → w_lines w = line :: ls →
  load32 s (sg_badbuf E) = 0 →
  ∃ s', sigtest E s = Some (s', Faults 0) ∧
    running s' (w_type line ls (w_print (installing (w_args w) ++ text "Hi, what's your name? ") w)).
Proof using All.
  intros Hr H0 H1 Hl Hz. pose proof (ru_sees _ _ _ _ _ Hr) as Hs.
  destruct (fs_args s (wo_ok _ _ Hs)) as [Hal Hac]. rewrite (wo_args _ _ Hs) in Hal, Hac. set (p := w_args w) in *.
  unfold sigtest. destruct (fs_getargs s (sg_buf E) 1024) as (s1 & -> & Hq & U1 & K1);
    [apply Hs|rewrite (wo_args _ _ Hs); fold p; lia|exact Hbuf|].
  rewrite (wo_args _ _ Hs) in U1, K1. fold p in U1, K1. rewrite bind_some. cbn [Z.eqb negb].
  assert (keeps s s1 (region (sg_buf E) 1024)) as K1' by (apply (keeps_sub _ _ _ _ K1); intros a; unfold region; lia).
  assert (running s1 w) as R1.
  { apply (running_step _ _ _ s s1 w w (region (sg_buf E) 1024)); [done| |done|done]. by apply (sees_quiet s). }
  assert (∃ s2, (if rd s1 (sg_buf E) =? 49 then install E s1 else Some s1) = Some s2 ∧
    running s2 (w_print (installing p) w) ∧ keeps s1 s2 (λ _, False)) as (s2 & -> & R2 & K2).
  { unfold installing. rewrite (first_char s1 _ p (proj1 U1)). destruct (p.[0] =? 49); [by apply install_spec|].
    exists s1. rewrite w_print_nil. by split. }
  rewrite bind_some.
  destruct (say _ _ _ s2 _ (text "Hi, what's your name? ") R2 H1) as (s3 & -> & R3 & K3); [lit|]. rewrite bind_some, w_print_app in *.
  pose proof (Hbuf (sg_buf E) ltac:(unfold region; lia)) as Hb0. pose proof (Hbuf (sg_buf E + 1023) ltac:(unfold region; lia)) as Hb1.
  unfold user_page, region, USER_MEM_LOCATION in Hb0, Hb1.
  destruct (fs_lines s line ls) as [Hlen _]; [rewrite <- Hl; apply Hs|].
  destruct (read_line _ _ _ s3 _ (sg_buf E) 1023 line ls R3 H0 Hl) as (s4 & -> & R4 & _ & _ & K4);
    [lia|unfold region, USER_MEM_LOCATION; lia|intros a; unfold region; lia|].
  rewrite bind_some. rewrite (proj2 (Z.eqb_neq (Z.min _ _) (-1))) by lia.
  assert (load32 s4 (sg_badbuf E) = 0) as ->.
  { rewrite <- Hz. apply load32_eq. intros b Hb. destruct (Hbad b) as [Hu Hn]; [unfold region; lia|].
    rewrite (K4 b Hu), (K3 b Hu), (K2 b Hu), (K1' b Hu); try done || tauto.
    intros Hx. apply Hn. unfold region in *. lia. }
  rewrite (fs_null s4) by apply R4. exists s4. by split.
Qed.
End Client.

(** ** On the kernel *)

Section Run.
Context {HL : Layout} {D : Type} `{!PortIO D}.
(** As in [UserKernel]. *)
Context (cur dp rate0 : Z) (before : Z → Z) (vids : Z → option Z) (im : fs_image).
Context (other : syscall → ustate D → option (ustate D * Z)).
Context (Hdp : 0x7F4000 ≤ dp ≤ 0x800000 - 44).
Context (Htypes : ∀ i, 0 ≤ i < num_entries im → 0 ≤ d_type (im_dents im).[i] ≤ 2).
Implicit Types (s : ustate D).

#[local] Instance scalls : Syscalls (ustate D) := KernelCalls cur dp rate0 before other.

(** sigtest with any argument: the handlers that it installs when its argument
    begins with 1 are accepted and ignored. *)
Theorem sigtest_ends s (E : sig_env) line ls :
  process cur vids im (sg_str E) sig_lits (region (sg_buf E) 1024) (line :: ls) 0 s →
  (∀ a, region (sg_buf E) 1024 a → user_page a) →
  (∀ a, region (sg_badbuf E) 4 a → user_page a ∧ ¬ region (sg_buf E) 1024 a) →
  load32 s (sg_badbuf E) = 0 →
  ∃ s', sigtest E s = Some (s', Faults 0) ∧ kernel_ok vids im (uk s') cur ∧
    shown cur s' = echo_spec line
      (print_spec (installing (args_of cur (uk s)) ++ text "Hi, what's your name? ") (shown cur s)).
Proof using Hdp Htypes.
  intros Hp Hbuf Hbad Hz.
  destruct (sigtest_runs (ServiceView0 := KernelView cur vids im)
    (FileService0 := KernelService cur dp rate0 before vids im other Hdp Htypes) E Hbuf Hbad s _ line ls
    (process_running cur vids im _ _ _ _ _ s Hp)) as (s' & Es & Hr); [done..|].
  exists s'. split; [exact Es|]. exact (sees_shown cur vids im _ _ (ru_sees _ _ _ _ _ Hr)).
Qed.

(** C12 (sigtest without handlers). sigtest, entered with its pointer null and an
    argument that does not begin with 1, so that it installs no handlers, prints
    the prompt, reads a name, and then faults at address 0 in its store through
    the pointer; the kernel is in service. *)
Theorem sigtest_faults s (E : sig_env) line ls :
  process cur vids im (sg_str E) sig_lits (region (sg_buf E) 1024) (line :: ls) 0 s →
  (args_of cur (uk s)).[0] ≠ 49 →
  (∀ a, region (sg_buf E) 1024 a → user_page a) →
  (∀ a, region (sg_badbuf E) 4 a → user_page a ∧ ¬ region (sg_buf E) 1024 a) →
  load32 s (sg_badbuf E) = 0 →
  ∃ s', sigtest E s = Some (s', Faults 0) ∧ kernel_ok vids im (uk s') cur ∧
    shown cur s' = echo_spec line (print_spec (text "Hi, what's your name? ") (shown cur s)).
Proof using Hdp Htypes.
  intros Hp Ha Hbuf Hbad Hz. destruct (sigtest_ends s E line ls Hp Hbuf Hbad Hz) as (s' & Es & Hk & Hs).
  exists s'. split; [exact Es|]. split; [exact Hk|]. rewrite Hs. unfold installing.
  by rewrite (proj2 (Z.eqb_neq _ _) Ha).
Qed.
End Run.

(** ** Witness: the argument "0", the name "0" *)

#[local] Opaque demo_mach kphys.

Definition demo_sig : sig_env :=
  mk_sig_env (lit_addr sig_lits) 0x8000900 0x8000800 0x8000400 0x8000910 0x8048100 0x8048200.

Definition sig_state : ustate (list (Z * Z)) :=
  mk_ustate (prog_kernel sig_lits ([48] ++ replicate (128 - length [48]) 0)) [11; KEYBOARD_ENTER] [].

Lemma sig_zero (i : Z) : i ∈ [0; 1; 2; 3] → rd sig_state (0x8000800 + i) = 0.
Proof.
  intros Hi. assert (0 ≤ i < 4) as Hr by (rewrite !elem_of_cons, elem_of_nil in Hi; lia).
  replace (0x8000800 + i) with (USER_MEM_LOCATION + (0x800 + i)) by (unfold USER_MEM_LOCATION; lia).
  etransitivity; [apply prog_rd; [vm_compute; reflexivity|lia]|].
  assert (i = 0 ∨ i = 1 ∨ i = 2 ∨ i = 3) as [->|[->|[->| ->]]] by lia; vm_compute; reflexivity.
Qed.

Lemma sigtest_faults_witness :
  ∃ s', @sigtest _ _ demo_calls demo_sig sig_state = Some (s', Faults 0) ∧
    kernel_ok (λ _, None) kimage (uk s') 0 ∧
    shown 0 s' = echo_spec [48] (print_spec (text "Hi, what's your name? ") (shown 0 sig_state)).
Proof.
  apply (sigtest_faults 0 0x7FF000 0 (λ _, 0) (λ _, None) kimage (λ _ s, Some (s, 0)) ltac:(lia) kimage_types
    sig_state demo_sig [48] []).
  - apply (prog_process _ [48]); [vm_compute; reflexivity|cbn; lia|repeat constructor; lia|exact types_zero|cbn; lia
                             |unfold region; cbn; intros b Hb; lia].
  - vm_compute. discriminate.
  - cbn. in_user_page.
  - cbn. intros a. unfold user_page, region, USER_MEM_LOCATION. lia.
  - unfold load32. cbn [sg_badbuf demo_sig].
    pose proof (sig_zero 0 ltac:(repeat constructor)) as E0. rewrite Z.add_0_r in E0.
    rewrite E0, (sig_zero 1), (sig_zero 2), (sig_zero 3) by repeat constructor. reflexivity.
Defined.
