(* ===== verification/ShellKernel.v ===== *)
(** * The shell on the kernel

    [execute] as a system call of a user program: the kernel loads the program,
    the program runs, [halt] comes back to the caller.  The caller gets its
    memory, descriptors and terminal back, so the kernel keeps the contract the
    shell relies on, and the shell runs its sessions. *)

From S2P Require Import Prelude Memory Lib Ports Types Filesystem FsProofs FsProps I8259 RTC.
From S2P Require Import Paging PagingProps Console ConsoleProofs ConsoleProps Printf Keyboard.
From S2P Require Import KeyboardProofs LineProofs KeyboardProps TerminalProofs Stores Typing TerminalProps.
From S2P Require Import Kernel KernelProps KernelDemo SyscallProps Process ParseProofs Scheduler Forest System Beside ProcessProofs.
From S2P Require Import User Programs UserLogic UserProps Guard Shell UserKernel UserSystem.
Import (notations) Stdlib.Strings.String.
#[local] Open Scope Z_scope.

(** ** A process keeps the others as they are *)

Section Guard.
Context {HL : Layout} {D : Type} `{!PortIO D}.
Context (cur dp rate0 : Z) (before : Z → Z) (vids : Z → option Z) (im : fs_image).
Context (other : syscall → ustate D → option (ustate D * Z)).
Implicit Types (s : ustate D) (k : kernel D).

#[local] Instance calls_of : Syscalls (ustate D) := KernelCalls cur dp rate0 before other.
#[local] Instance view_of : ServiceView (ustate D) := KernelView cur vids im.

Definition beside_since (k0 : kernel D) s : Prop := beside cur k0 (uk s).

(** A call that keeps the process table and changes memory by stores. *)
Lemma since_call k0 s s' :
  sv_ok s → beside_since k0 s → Forest.keeps cur (uk s) (uk s') → stores (kmem (uk s)) (kmem (uk s')) →
  beside_since k0 s'.
Proof.
  intros [Hk _] Hb Hke Hst. apply (beside_trans cur k0 (uk s)); [exact Hb|].
  exact (call_beside vids im cur (uk s) (uk s') Hk Hke Hst).
Qed.

Lemma of_outcome_inv (o : option (outcome D)) s' v :
  of_outcome o = Some (s', v) → o = Some (Ret (uk s') v (ukeys s') (uticks s')).
Proof. destruct o as [[]|]; try discriminate. by intros [= <- <-]. Qed.

Lemma of_call_inv s (o : option (kernel D * Z)) s' v :
  of_call s o = Some (s', v) → o = Some (uk s', v).
Proof. destruct o as [[k val]|]; [|discriminate]. by intros [= <- <-]. Qed.

(** The keyboard: the line that is read changes memory by stores. *)
Lemma keys_stores s fd buf n line ls s' v :
  sv_ok s → sv_handle s fd = Keys → sv_lines s (line :: ls) →
  0 ≤ n < 2147483648 → region USER_MEM_LOCATION (0x400000 - 129) buf →
  ece391_read s fd buf n = Some (s', v) → stores (kmem (uk s)) (kmem (uk s')).
Proof.
  intros Hok Hh [|[(P1 & P2 & P3 & P4 & P5) (codes & rest & Ek & H1 & H2 & H3 & _ & _)]] Hn Hb E; [done|].
  pose proof Hok as [Hk _]. apply of_outcome_inv in E. revert E.
  assert (user_page buf) as Hu by (unfold user_page, region, USER_MEM_LOCATION in *; lia).
  destruct (checks_pass cur vids im s fd buf _ Hok Hh ltac:(done) Hu) as (E1 & E2 & _ & E4 & E5 & _ & E7 & Hfd).
  unfold read. rewrite E1, E2, E4, E5. cbn [orb]. rewrite (handle_ops _ _ E7) by done.
  rewrite <- P1 in P2, P3.
  destruct (read_types cur vids before (kb (uk s)) (con (uk s)) codes rest buf n (ko_kbd _ _ _ _ Hk) P2 P3 P4 P5 H1 H2 H3
    ltac:(lia) Hb) as (c & Er & L).
  rewrite u32_small, Ek, <- P1 by lia.
  destruct (line_mapped _ _ _ _ _ _ _) as [[]|]; rewrite ?bind_some; cbn [negb]; try discriminate.
  rewrite Er, bind_some. intros [= <- _ _ _]. exact (lr_stable _ _ _ _ _ _ _ _ L).
Qed.

(** Whatever an invariant says that descriptors and stores of the process do not
    change is kept by its calls. *)
Lemma calls_guarded (J : ustate D → Prop) :
  (∀ s s', sv_ok s → J s → Forest.keeps cur (uk s) (uk s') → stores (kmem (uk s)) (kmem (uk s')) → J s') →
  guarded view_of J.
Proof.
  intros since. split.
  - intros s a v Hok Hb Ha. rewrite (user_wr_kernel cur vids im) by (done || apply Hok).
    apply (since s); [done|done|by apply keeps_pcbs|]. intros I HI H. by apply HI.
  - intros s a s' v Hok Hb E. apply of_call_inv in E.
    destruct (open (uk s) cur a dp) as [o|] eqn:Eo; [|discriminate]. rewrite bind_some in E. subst o.
    apply (since s); [done|done|apply (file_call_keeps _ _ _ v)|by apply open_stores in Eo].
    by apply (call_open _ _ a dp).
  - intros s fd s' v Hok Hb E. apply of_call_inv in E.
    apply (since s); [done|done|by apply close_keeps in E|]. rewrite (close_stores _ _ _ _ _ E). apply stores_refl.
  - intros s buf n s' v Hok Hb E. apply of_call_inv in E.
    apply (since s); [done|done|by apply getargs_keeps in E|by apply getargs_stores in E].
  - intros s fd buf n s' v Hok Hb E. apply of_outcome_inv in E.
    apply (since s); [done|done|apply (file_call_keeps _ _ _ v)|by apply write_stores in E].
    by eapply call_write.
  - intros s fd buf n s' v Hok Hb Hh E. apply of_outcome_inv in E.
    apply (since s); [done|done|apply (file_call_keeps _ _ _ v); by eapply call_read|].
    revert E. apply read_stores. intros Hfd. rewrite (handle_range cur vids im s fd Hfd) in Hh. unfold fd_handle in Hh.
    destruct (Z.eqb_spec (flags (get_fd (uk s) cur fd)) 0); [by right|left]. intros Eo. by rewrite Eo in Hh.
  - intros s fd buf n line ls s' v Hok Hb Hh Hl Hn Hbuf E.
    pose proof (keys_stores s fd buf n line ls s' v Hok Hh Hl Hn Hbuf E) as Hst. apply of_outcome_inv in E.
    apply (since s); [done|done|apply (file_call_keeps _ _ _ v); by eapply call_read|done].
  - intros s a s' v Hok Hb Ha E. apply of_call_inv in E. revert E. unfold vidmap, is_kernel_ptr.
    rewrite (proj2 (Z.ltb_lt a 0x800000)), orb_true_r by lia. intros [= E _].
    apply (since s); [done|done|by apply keeps_pcbs; rewrite <- E|]. rewrite <- E. apply stores_refl.
  - intros s n h s' v Hok Hb [= <- _]. exact Hb.
  - intros s n s' v Hok Hb Hn E. revert E. cbn [int80 calls_of KernelCalls]. unfold systemcall_linkage.
    rewrite Z.gtb_ltb. destruct (Z.ltb_spec (s32 n) 1); [by intros [= <- _]|].
    rewrite (proj2 (Z.ltb_lt 10 (s32 n))) by lia. by intros [= <- _].
Qed.

Lemma kernel_guarded k0 : guarded view_of (beside_since k0).
Proof. apply calls_guarded. exact (since_call k0). Qed.
End Guard.

(** ** Arguments of a command *)

(** The arguments are a piece of the command. *)
Lemma command_args_infix l : ∃ pre post, l = pre ++ command_args l ++ post.
Proof.
  destruct (first_word_spec l) as (r & E & _ & _). unfold command_args.
  assert (drop (length (first_word l)) l = r) as -> by (rewrite E at 2; apply drop_app_length).
  destruct (skip_blanks_spec r) as (n & Er & _). destruct (trim_end_spec (skip_blanks r)) as (n' & Et & _).
  exists (first_word l ++ replicate n 32), (replicate n' 32). rewrite E at 1. rewrite Er at 1. rewrite Et at 1.
  by rewrite app_assoc.
Qed.

Lemma command_args_chars l :
  Forall (λ c, 0 < c < 256) l →
  Forall (λ c, 0 < c < 256) (command_args l) ∧ (length (command_args l) ≤ length l)%nat.
Proof.
  destruct (command_args_infix l) as (pre & post & E). intros Hl. split.
  - rewrite E in Hl. apply Forall_app in Hl as [_ Hl]. by apply Forall_app in Hl as [Hl _].
  - rewrite E at 2. rewrite !length_app. lia.
Qed.

Lemma bytes_of_get (l : list Z) n j : 0 ≤ j → (bytes_of l n).[j] = if decide (j < n) then l.[j] else 0.
Proof.
  intros Hj. unfold bytes_of. case_decide.
  - apply aget_lookup; [done|]. rewrite list_lookup_fmap, lookup_seqZ_lt by lia. cbn. do 2 f_equal. lia.
  - apply aget_past. rewrite length_fmap, length_seqZ. lia.
Qed.

(** The argument array of a new process. *)
Lemma new_args l :
  Forall (λ c, 0 < c < 256) l → (length l ≤ 127)%nat →
  args_len (bytes_of l 128) (Z.of_nat (length l)) ∧ length (bytes_of l 128) = 128%nat ∧
  take (length l) (bytes_of l 128) = l.
Proof.
  intros Hc Hl. assert (length (bytes_of l 128) = 128%nat) as Hlen
    by (unfold bytes_of; by rewrite length_fmap, length_seqZ).
  assert (∀ j, 0 ≤ j < Z.of_nat (length l) → 0 < l.[j] < 256) as Hg.
  { intros j Hj. apply (proj1 (Forall_lookup _ _) Hc (Z.to_nat j)).
    rewrite lookup_aget by lia. by rewrite Z2Nat.id by lia. }
  assert (∀ j, Z.of_nat (length l) ≤ j → l.[j] = 0) as Hp by (intros j Hj; by apply aget_past).
  split; [split|split; [done|]].
  - lia.
  - intros j Hj. rewrite bytes_of_get, decide_True by lia. specialize (Hg j Hj). lia.
  - rewrite bytes_of_get, decide_True by lia. by apply Hp.
  - intros j. destruct (decide (0 ≤ j)) as [Hj|Hj]; [|unfold aget; by rewrite (proj2 (Z.leb_gt 0 j)) by lia].
    rewrite bytes_of_get by done. case_decide; [|lia].
    destruct (decide (j < Z.of_nat (length l))) as [Hlt|]; [specialize (Hg j ltac:(lia))|rewrite Hp by lia]; lia.
  - apply aget_ext; [rewrite length_take, Hlen; lia|]. rewrite length_take, Hlen. intros j Hj.
    rewrite aget_take by lia. by rewrite bytes_of_get, decide_True by lia.
Qed.

(** ** execute as a call of a process *)

Section Execute.
Context {HL : Layout} {D : Type} `{!PortIO D}.
(** As in [UserKernel]; the kernel stacks of the processes hold the locals of
    [open] and [execute] at [dp p] and [hp p]; [shell_str] is the constant of
    [halt]. *)
Context (dp hp : Z → Z) (esp ebp rate0 shell_str : Z) (before : Z → Z) (vids : Z → option Z) (im : fs_image).
Context (other : syscall → ustate D → option (ustate D * Z)).
(** What the processor does in user mode: the program in the memory of process
    [pid], entered at an address with a stack pointer, up to its call of
    [halt] with a status. *)
Context (code : Z → Z → Z → ustate D → option (ustate D * Z)).
Context (Hdp : ∀ p, 0 ≤ p < 6 → pcb_addr p + 444 ≤ dp p ∧ dp p + 44 ≤ pcb_addr p + 0x2000).
Context (Hhp : ∀ p, 0 ≤ p < 6 → pcb_addr p + 444 ≤ hp p ∧ hp p + 40 ≤ pcb_addr p + 0x2000).
Context (Hlocals : ∀ p, dp p + 44 ≤ hp p ∨ hp p + 40 ≤ dp p).
Context (Htypes : ∀ i, 0 ≤ i < num_entries im → 0 ≤ d_type (im_dents im).[i] ≤ 2).
Implicit Types (s : ustate D) (k : kernel D) (w : world).

(** [execute] of process [cur] with everything that happens until it returns. *)
Definition kernel_execute (cur : Z) s (command : Z) : option (ustate D * Z) :=
  r ← execute (uk s) cur esp ebp command (dp cur) (hp cur);
  match r with
  | ExRet k val => Some (with_kernel s k, val)
  | ExUser k pid eip u_esp =>
      '(s, status) ← code pid eip u_esp (with_kernel s k);
      h ← halt (uk s) pid status esp ebp shell_str (dp pid) (hp pid);
      match h with
      | HResume k parent sp bp status =>
          if (parent =? cur) && (sp =? esp) && (bp =? ebp) then Some (with_kernel s k, status) else None
      | _ => None
      end
  end.

(** The view of process [cur] that also says what it has left alone. *)
Definition gview (cur : Z) (k0 : kernel D) : ServiceView (ustate D) :=
  GuardView (KernelView cur vids im) (beside_since cur k0).
#[local] Abbreviation psees cur k0 := (sees (ServiceView0 := gview cur k0)).

(** ** What the terminal and the input are *)

(** [k'] shows on terminal [t] what [k] shows. *)
Lemma tview_same (c c' : console mach D) t :
  0 ≤ t < 3 → page_of c t = tpage t → (∃ h, (terminals c').[t] = (terminals c).[t] <| cmd_hist := h |>) →
  (∀ a, region (VIDEO + 4096) (3 * 4096) a → rd (vmem c') a = rd (vmem c) a) → tview c' t = tview c t.
Proof.
  intros Ht Hp [h Eh] Hv. assert (page_of c' t = page_of c t) as Ep by (unfold page_of; by rewrite Eh).
  assert (view (vmem c') (page_of c' t) = view (vmem c) (page_of c t)) as Evw.
  { apply view_ext. intros j Hj. rewrite Ep, Hp. apply Hv. unfold region, tpage. lia. }
  unfold tview. by rewrite Evw, Eh.
Qed.

(** Two processes on one terminal see the same keys and ticks to come. *)
Lemma lines_same p q s s' ls :
  p_terminal_id (pcbs (uk s')).[q] = p_terminal_id (pcbs (uk s)).[p] →
  cur_terminal (con (uk s')) = cur_terminal (con (uk s)) →
  (∀ t, ∃ h, (terminals (con (uk s'))).[t] = (terminals (con (uk s))).[t] <| cmd_hist := h |>) →
  kb (uk s') = kb (uk s) → ukeys s' = ukeys s →
  sv_lines (ServiceView := KernelView p vids im) s ls → sv_lines (ServiceView := KernelView q vids im) s' ls.
Proof.
  intros Et Ec Hh Ek Eq [->|[Hp Hy]]; [by left|right]. rewrite Ek, Eq. split; [|exact Hy].
  unfold at_prompt in *. rewrite Et, Ec, Ek. destruct (Hh (p_terminal_id (pcbs (uk s)).[p])) as [h ->]. exact Hp.
Qed.

Lemma ticks_same p q s s' n :
  rtc_interrupt_occured (uk s') = rtc_interrupt_occured (uk s) → uticks s' = uticks s →
  sv_ticks (ServiceView := KernelView p vids im) s n → sv_ticks (ServiceView := KernelView q vids im) s' n.
Proof. intros E1 E2 H. cbn [sv_ticks KernelView] in *. by rewrite E1, E2. Qed.

(** The process is back: its own part of the world is as it was. *)
Lemma sees_back cur k0 s s' w sc ls nt :
  psees cur k0 s w → kernel_ok vids im (uk s') cur → beside cur (uk s) (uk s') →
  p_args (pcbs (uk s')).[cur] = p_args (pcbs (uk s)).[cur] →
  p_fd (pcbs (uk s')).[cur] = p_fd (pcbs (uk s)).[cur] →
  shown cur s' = sc → sv_lines (ServiceView := KernelView cur vids im) s' ls →
  sv_ticks (ServiceView := KernelView cur vids im) s' nt →
  psees cur k0 s' (mk_world (w_fds w) sc (w_args w) ls nt).
Proof.
  intros Hs Hk Hb Ea Ef Hsc Hl Hn. apply guard_sees_inv in Hs as [Hs HJ]. destruct Hs as [[_ Ha] H2 H3 H4 H5 _ _].
  apply guard_sees; [|by apply (beside_trans cur k0 (uk s))]. split; try done.
  - split; [done|]. destruct Ha as (len & H). exists len. by rewrite Ea.
  - intros j. cbn [w_fds]. rewrite <- H3. cbn [sv_handle KernelView]. unfold get_fd. by rewrite Ef.
  - cbn [w_args]. rewrite <- H5. cbn [sv_args KernelView]. unfold args_of. by rewrite Ea.
Qed.

(** ** The program that is started *)

Definition USER_ESP : Z := USER_MEM_LOCATION + MB4 - 4.

(** The world of the new process, and of the caller afterwards. *)
Definition child_world (cmd : list Z) w : world :=
  mk_world std_fds (w_screen w) (command_args cmd) (w_lines w) (w_ticks w).
Definition caller_world w (wc : world) : world :=
  mk_world (w_fds w) (w_screen wc) (w_args w) (w_lines wc) (w_ticks wc).

(** A program ends with the screen and the input of world [wc]. *)
Record ended (pid : Z) k1 s (wc : world) : Prop := {
  ed_ok : sv_ok (ServiceView := gview pid k1) s;
  ed_screen : shown pid s = w_screen wc;
  ed_lines : sv_lines (ServiceView := KernelView pid vids im) s (w_lines wc);
  ed_ticks : sv_ticks (ServiceView := KernelView pid vids im) s (w_ticks wc)
}.

Lemma sees_ended pid k1 s wc : psees pid k1 s wc → ended pid k1 s wc.
Proof. intros [H1 _ _ H2 _ H3 H4]. by split. Qed.

(** The program file [c] runs from world [wc] to [wc'] and halts with
    [status], whichever process it is loaded into. *)
Definition program_runs (c : list Z) (wc wc' : world) (status : Z) : Prop :=
  ∀ pid s, 3 ≤ pid < 6 → psees pid (uk s) s wc → bytes s USER_PROG_LOCATION (Z.of_nat (length c)) = c →
    ∃ s', code pid (entry_of c) USER_ESP s = Some (s', status) ∧ ended pid (uk s) s' wc'.

(** A process id is free for a child of [cur]. *)
Record room (cur pid : Z) k : Prop := {
  rm_used : length (proc_id_used k) = 6%nat;
  rm_free : free_pid (proc_id_used k) 6 0 = Some pid;
  rm_pid : 3 ≤ pid;
  rm_len : length (active k) = 6%nat;
  rm_cur : (active k).[cur] = true;
  rm_new : (active k).[pid] = false
}.

Lemma room_beside cur pid k k' : beside cur k k' → room cur pid k → room cur pid k'.
Proof. intros [Hu Ha _ _ _ _] [H1 H2 H3 H4 H5 H6]. split; by rewrite ?Hu, ?Ha. Qed.

Lemma room_pid cur pid k : room cur pid k → 0 ≤ pid < 6 ∧ (proc_id_used k).[pid] = false.
Proof.
  intros H. pose proof (free_pid_spec (proc_id_used k) 6 0) as Hs. rewrite (rm_free _ _ _ H) in Hs.
  destruct Hs as (Hp & Hu & _). split; [lia|done].
Qed.

(** A command in the memory of the caller, for [execute]. *)
Lemma command_ready cur k0 s w a cmd :
  psees cur k0 s w → user_string s a cmd →
  kernel_ok vids im (uk s) cur ∧ cstring (uk s) a (Z.of_nat (length cmd)) ∧
  typed (uk s) a (Z.of_nat (length cmd)) = cmd ∧ Forall (λ c, 0 < c < 256) cmd ∧
  0x8000000 ≤ a ∧ a + Z.of_nat (length cmd) < 0x8400000.
Proof.
  intros Hs Hu. apply guard_sees_inv in Hs as [Hs _]. destruct (wo_ok _ _ Hs) as [Hk _].
  destruct (user_string_kernel cur vids im s a cmd Hk Hu) as [Hc _].
  pose proof (user_string_range _ _ _ Hu) as Hr. unfold USER_MEM_LOCATION in Hr.
  assert (bytes (kmem (uk s)) a (Z.of_nat (length cmd)) = cmd) as Hb.
  { rewrite <- (user_bytes cur vids im s); [apply Hu|done|]. intros b Hb. apply Hu. unfold region in *. lia. }
  split; [done|]. split; [done|]. split; [exact Hb|]. split; [|lia].
  apply Forall_lookup. intros j x Hx. pose proof (lookup_lt_Some _ _ _ Hx) as Hlt.
  rewrite <- Hb, bytes_lookup in Hx by lia. apply (inj Some) in Hx as <-.
  pose proof (rd_range (kmem (uk s)) (a + Z.of_nat j)). destruct Hc as [(_ & Hnz & _) _].
  specialize (Hnz (Z.of_nat j) ltac:(lia)). lia.
Qed.

(** ** From the call to the return *)

Section Command.
Context (cur pid : Z) (k0 : kernel D) (s : ustate D) (w : world) (a : Z) (cmd : list Z).
Context (Hs : psees cur k0 s w) (Hu : user_string s a cmd) (Hlen : (length cmd ≤ 127)%nat).
Context (Hhis : ∀ b, region a 127 b → user_page b).
Context (Hroom : room cur pid (uk s)).
#[local] Abbreviation k := (uk s).
#[local] Abbreviation n := (Z.of_nat (length cmd)).
#[local] Abbreviation kept := (kept_mem kernel_view k cur pid).
#[local] Abbreviation start := (started kernel_view vids im k cur pid a n esp ebp).

Lemma command_kernel : kernel_ok vids im k cur.
Proof using Hs Hu. apply (command_ready cur k0 s w a cmd Hs Hu). Qed.

Lemma command_cur : cur ≠ pid ∧ live k cur ∧ 0 ≤ pid < 6.
Proof using Hs Hu Hlen Hroom.
  destruct (room_pid cur pid k Hroom) as [Hp Hf]. pose proof (ko_cur _ _ _ _ command_kernel) as Hc.
  split; [|done]. intros ->. destruct Hc as [_ Hc]. congruence.
Qed.

(** The bytes copied to the history are mapped. *)
Lemma command_history : all_mapped (kmem k) a 127 = true.
Proof using Hs Hu Hhis.
  apply (all_mapped_safe _ kernel_view); [exact (ko_safe _ _ _ _ command_kernel)|].
  intros b Hb. by apply user_view, Hhis.
Qed.

(** The memory [execute] leaves before the new tables are loaded. *)
Lemma kept_pages m b :
  kept m → region (VIDEO + 4096) (3 * 4096) b ∨ user_page b →
  pbyte m (view_cell cur (cur_terminal (con k)) b) = rd (kmem k) b.
Proof using Hs Hu Hlen Hroom.
  intros [Hc Hm] Hb. pose proof command_kernel as Hk. destruct command_cur as (_ & [Hcr _] & Hp).
  pose proof (ki_mach _ _ _ (ko_kbd _ _ _ _ Hk)) as Hmo.
  assert (kernel_view b) as Hv by (destruct Hb as [Hb|Hb]; [by left|by apply user_view]).
  rewrite <- (rd_pbyte m _ _ _ b (mach_ok_ctl _ m _ _ _ Hc Hmo)) by (by right).
  pose proof (pcb_addr_range pid Hp). pose proof (pcb_addr_range cur Hcr).
  apply Hm; [done| |]; unfold user_page, region, VIDEO, USER_MEM_LOCATION in *; lia.
Qed.

Lemma kept_others m q : stores (kmem k) m → 0 ≤ q → q ≠ cur → same_page (kmem k) m q.
Proof using Hs Hu.
  intros Hst Hq Hne. pose proof (ki_mach _ _ _ (ko_kbd _ _ _ _ command_kernel)) as Hmo.
  destruct (Hst _ (others_stable _ _ _ _ Hmo) (others_refl _ _)) as [_ Hp]. by apply Hp.
Qed.

Lemma start_screen k1 c t :
  start k1 c → 0 ≤ t < 3 → tview (con k1) t = tview (con k) t.
Proof using Hs Hu Hlen Hroom.
  intros Hst Ht. pose proof command_kernel as Hk. apply tview_same; [done|by apply (ki_page _ _ _ (ko_kbd _ _ _ _ Hk))|apply Hst|].
  destruct (st_mem _ _ _ _ _ _ _ _ _ _ _ _ Hst) as (m & Hm & _ & Hv & _).
  intros b Hb. etransitivity; [exact (Hv b Hb)|]. rewrite (view_cell_any pid cur) by done.
  apply kept_pages; [done|by left].
Qed.

(** The new process sees the world of a child. *)
Lemma start_sees k1 c :
  start k1 c → psees pid k1 (with_kernel s k1) (child_world cmd w).
Proof using Hs Hu Hlen Hroom.
  intros Hst. destruct (command_ready cur k0 s w a cmd Hs Hu) as (Hk & _ & Ety & Hch & _).
  destruct (command_args_chars cmd Hch) as [Hac Hal]. destruct (new_args (command_args cmd) Hac ltac:(lia)) as (Hna & Hnl & Hnt).
  pose proof (st_args _ _ _ _ _ _ _ _ _ _ _ _ Hst) as Ear. rewrite Ety in Ear.
  pose proof (sp_new _ _ _ _ _ (st_spawned _ _ _ _ _ _ _ _ _ _ _ _ Hst)) as Hid. unfold ident in Hid. injection Hid as _ _ Htm Hfd.
  pose proof (rm_pid _ _ _ Hroom) as Hp3. rewrite (proj2 (Z.leb_gt pid 2)) in Htm by lia.
  destruct (guard_sees_inv _ _ _ _ Hs) as [[_ _ _ Hsc _ Hl Hn] _].
  apply guard_sees; [|apply beside_refl].
  assert (args_of pid k1 = command_args cmd) as Eargs.
  { unfold args_of. rewrite Ear, (strlen_list_spec _ _ Hna), Nat2Z.id. exact Hnt. }
  unfold child_world. rewrite <- Eargs, <- Hsc.
  assert (sv_screen (ServiceView := KernelView cur vids im) s = shown pid (with_kernel s k1)) as ->.
  { cbn [sv_screen KernelView]. unfold shown. cbn [uk with_kernel]. rewrite Htm. symmetry.
    apply (start_screen k1 c); [done|apply Hk]. }
  apply (process_running pid vids im (λ _, 0) [] (λ _, False) (w_lines w) (w_ticks w) (with_kernel s k1)).
  split.
  - exact (st_ok _ _ _ _ _ _ _ _ _ _ _ _ Hst).
  - exists (Z.of_nat (length (command_args cmd))). cbn [uk with_kernel]. rewrite Ear. split; [done|]. lia.
  - intros j Hj. unfold get_fd. cbn [uk with_kernel]. rewrite Hfd.
    assert (j = 2 ∨ j = 3 ∨ j = 4 ∨ j = 5 ∨ j = 6 ∨ j = 7) as [->|[->|[->|[->|[->| ->]]]]] by lia; done.
  - apply (lines_same cur pid s); [exact Htm|apply Hst|apply Hst|apply Hst|done|done].
  - apply (ticks_same cur pid s); [apply Hst|done|done].
  - intros l Hl'. by apply elem_of_nil in Hl'.
  - intros l Hl'. by apply elem_of_nil in Hl'.
Qed.

(** What the other processes are, from the call to the end of the program. *)
Lemma start_live k1 c q : start k1 c → live k q → live k1 q ∧ q ≠ pid.
Proof using Hs Hu Hlen Hroom.
  intros Hst [Hq Hl]. assert (q ≠ pid) as Hne.
  { intros ->. destruct (room_pid cur pid k Hroom) as [_ Hf]. congruence. }
  split; [|done]. split; [done|].
  rewrite (sp_used _ _ _ _ _ (st_spawned _ _ _ _ _ _ _ _ _ _ _ _ Hst)), aget_aset_ne by congruence. exact Hl.
Qed.

(** The caller's PCB. *)
Lemma start_caller k1 c :
  start k1 c →
  p_pid (pcbs k1).[cur] = cur ∧ p_terminal_id (pcbs k1).[cur] = p_terminal_id (pcbs k).[cur] ∧
  p_fd (pcbs k1).[cur] = p_fd (pcbs k).[cur] ∧ who (pcbs k1).[cur] = who (pcbs k).[cur] ∧
  p_esp (pcbs k1).[cur] = esp ∧ p_ebp (pcbs k1).[cur] = ebp ∧
  p_parent (pcbs k1).[pid] = cur ∧ p_terminal_id (pcbs k1).[pid] = p_terminal_id (pcbs k).[cur].
Proof using Hs Hu Hlen Hroom.
  intros Hst. pose proof (st_spawned _ _ _ _ _ _ _ _ _ _ _ _ Hst) as Hsp.
  pose proof (st_saved _ _ _ _ _ _ _ _ _ _ _ _ Hst) as Hsv. destruct command_cur as (Hne & _ & _).
  pose proof (rm_pid _ _ _ Hroom) as Hp3. pose proof (sp_new _ _ _ _ _ Hsp) as Hid.
  rewrite (proj2 (Z.leb_gt pid 2)) in Hsv, Hid by lia. unfold ident in Hid. injection Hid as _ Hpar Htm _.
  unfold regs in Hsv. injection Hsv as E1 E2 _ _.
  destruct (ident_who _ _ (sp_other _ _ _ _ _ Hsp cur Hne)) as [Hw Hf].
  destruct (who_fields _ _ Hw) as (W1 & _ & W3).
  split; [rewrite W1; apply command_kernel|]. by split_and!.
Qed.

(** The entry of the program, as [execute] looks it up. *)
Lemma command_entry : program_entry im k a n = lookup_file im (command_name cmd).
Proof using Hs Hu.
  destruct (command_ready cur k0 s w a cmd Hs Hu) as (_ & _ & Ety & _). unfold program_entry. by rewrite Ety.
Qed.

(** A command that is no program changes nothing for the caller. *)
Lemma command_refused :
  match lookup_file im (command_name cmd) with
  | None => True
  | Some i =>
      let inode := d_inode (im_dents im).[i] in
      let c := (im_files im).[inode] in
      0 ≤ inode < num_inodes im ∧ (4 ≤ length c)%nat ∧ elf_file c = false
  end →
  ∃ k', execute k cur esp ebp a (dp cur) (hp cur) = Some (ExRet k' (-1)) ∧
    psees cur k0 (with_kernel s k') w ∧ keeps s (with_kernel s k') (λ _, False).
Proof using All.
  intros Hp. destruct (command_ready cur k0 s w a cmd Hs Hu) as (Hk & Hc & _ & _ & Ha0 & Ha1).
  destruct command_cur as (Hne & Hl & Hpid). destruct Hl as [Hcr Hcu]. pose proof (pcb_addr_range pid Hpid) as Hpr.
  rewrite <- command_entry in Hp.
  destruct (execute_refuses kernel_view vids im k cur pid a n (dp cur) (hp cur) (kernel_ok_base _ _ _ _ Hk)
    (rm_used _ _ _ Hroom) (rm_free _ _ _ Hroom) Hc ltac:(lia) ltac:(lia) (Hdp cur Hcr) (Hhp cur Hcr) (Hlocals cur) esp ebp
    (λ _ _, command_history) Hk Hp)
    as (k' & E & Hk' & Eu & Ea & Hq & Hdc).
  exists k'. split; [exact E|]. clear E.
  assert (∀ b, region (VIDEO + 4096) (3 * 4096) b ∨ user_page b → rd (kmem k') b = rd (kmem k) b) as Hr.
  { intros b Hb. rewrite <- (kept_pages (kmem k') b (dc_mem _ _ _ _ _ Hdc) Hb), <- (dc_cur _ _ _ _ _ Hdc).
    apply (rd_pbyte (kmem k') _ _ _ b (ki_mach _ _ _ (ko_kbd _ _ _ _ Hk'))).
    right. destruct Hb as [Hb|Hb]; [by left|by apply user_view]. }
  assert (beside cur k k') as Hb.
  { split; [done|done|by rewrite Hq|intros q _ [_ Hlq]; by apply Hq| |].
    - intros q _ _. pose proof (proj1 (dc_mem _ _ _ _ _ Hdc)) as C. by injection C as -> _ _ _.
    - intros q Hqc [Hqr _]. apply kept_others; [apply Hdc|apply Hqr|done]. }
  destruct (guard_sees_inv _ _ _ _ Hs) as [[_ _ _ Hsc _ Hln Htk] _].
  destruct (dc_input _ _ _ _ _ Hdc) as [Ek Er]. split.
  - assert (w = mk_world (w_fds w) (w_screen w) (w_args w) (w_lines w) (w_ticks w)) as Ew by (by destruct w).
    rewrite Ew. apply (sees_back cur k0 s); [exact Hs|exact Hk'|exact Hb|by cbn [uk with_kernel]; rewrite Hq|by cbn [uk with_kernel]; rewrite Hq| | |].
    + rewrite <- Hsc. cbn [sv_screen KernelView]. unfold shown. cbn [uk with_kernel]. rewrite Hq by done.
      apply tview_same; [apply Hk|apply (ki_page _ _ _ (ko_kbd _ _ _ _ Hk)); apply Hk|apply Hdc|].
      intros b Hbv. apply Hr. by left.
    + apply (lines_same cur cur s); [by cbn [uk with_kernel]; rewrite Hq|apply Hdc|apply Hdc|exact Ek|done|exact Hln].
    + by apply (ticks_same cur cur s).
  - intros b Hb' _. rewrite (user_rd_kernel cur vids im (with_kernel s k') b Hk' Hb'), (user_rd_kernel cur vids im s b Hk Hb').
    apply Hr. by right.
Qed.

(** A program is entered. *)
Lemma command_starts i :
  lookup_file im (command_name cmd) = Some i →
  let inode := d_inode (im_dents im).[i] in
  let c := (im_files im).[inode] in
  0 ≤ inode < num_inodes im → 28 ≤ Z.of_nat (length c) ≤ 0x3B8000 → elf_file c = true →
  ∃ k1, execute k cur esp ebp a (dp cur) (hp cur) = Some (ExUser k1 pid (entry_of c) USER_ESP) ∧ start k1 c.
Proof using All.
  intros Hlk inode c Hi Hl He. destruct (command_ready cur k0 s w a cmd Hs Hu) as (Hk & Hc & _ & _ & Ha0 & Ha1).
  destruct command_cur as (Hne & [Hcr _] & Hpid). pose proof (pcb_addr_range pid Hpid) as Hpr.
  rewrite <- command_entry in Hlk.
  exact (execute_starts kernel_view vids im k cur pid a n (dp cur) (hp cur) (kernel_ok_base _ _ _ _ Hk)
    (rm_used _ _ _ Hroom) (rm_free _ _ _ Hroom) Hc ltac:(lia) ltac:(lia) (Hdp cur Hcr) (Hhp cur Hcr) (Hlocals cur) esp ebp
    (λ _ _, command_history) i Hlk Hi Hl He).
Qed.

Context (k1 : kernel D) (c : list Z) (s2 : ustate D) (wc : world) (status : Z).
Context (Hst : start k1 c) (Hs2 : ended pid k1 s2 wc).

Lemma child_beside : kernel_ok vids im (uk s2) pid ∧ beside pid k1 (uk s2).
Proof using Hs2. destruct (ed_ok _ _ _ _ Hs2) as [[Hk _] Hb]. by split. Qed.

Lemma child_parent : p_parent (pcbs (uk s2)).[pid] = cur ∧
  p_terminal_id (pcbs (uk s2)).[pid] = p_terminal_id (pcbs k).[cur] ∧ (pcbs (uk s2)).[cur] = (pcbs k1).[cur].
Proof using All.
  destruct child_beside as [_ Hb]. destruct (start_caller k1 c Hst) as (_ & _ & _ & _ & _ & _ & Hpar & Htm).
  destruct (who_fields _ _ (be_who _ _ _ Hb)) as (_ & W2 & W3). destruct command_cur as (Hne & Hl & _).
  rewrite W2, W3. split_and!; [done|done|]. apply (be_other _ _ _ Hb); [done|]. by apply (start_live k1 c).
Qed.

Lemma child_halts :
  ∃ k3, halt (uk s2) pid status esp ebp shell_str (dp pid) (hp pid) = Some (HResume k3 cur esp ebp (u8 status)) ∧
    taken vids (uk s2) k3 pid cur ∧ kernel_ok vids im k3 cur.
Proof using All.
  destruct child_beside as [Hk2 Hb]. destruct child_parent as (Hpar & _ & Epcb). destruct command_cur as (Hne & Hl & _).
  destruct (start_caller k1 c Hst) as (C1 & C2 & _ & _ & C5 & C6 & _). pose proof command_kernel as Hk.
  destruct (start_live k1 c cur Hst Hl) as [Hl1 _].
  destruct (halt_resumes vids im (uk s2) pid status esp ebp shell_str (dp pid) (hp pid)) as (k3 & E & Ht & Hk3);
    rewrite ?Hpar, ?Epcb.
  - exact Hk2.
  - exact Hne.
  - destruct Hl1 as [Hr Hl1]. split; [done|]. by rewrite (be_used _ _ _ Hb).
  - exact C1.
  - rewrite C2. apply Hk.
  - rewrite (be_dirs _ _ _ Hb cur Hne Hl1), (st_dirs _ _ _ _ _ _ _ _ _ _ _ _ Hst cur Hne).
    exact (mo_dir _ _ _ _ (ki_mach _ _ _ (ko_kbd _ _ _ _ Hk))).
  - rewrite Hpar, Epcb, C5, C6 in E. rewrite Hpar in Ht, Hk3. exists k3. split; [exact E|]. split; [exact Ht|exact Hk3].
Qed.

Context (k3 : kernel D) (Ht : taken vids (uk s2) k3 pid cur) (Hk3 : kernel_ok vids im k3 cur).

(** The page of a live process other than the caller and the program. *)
Lemma back_page q : live k q → same_page (kmem k1) (kmem k3) q.
Proof using All.
  intros Hl. destruct (start_live k1 c q Hst Hl) as [Hl1 Hne]. destruct child_beside as [_ Hb].
  apply (same_page_trans _ (kmem (uk s2))); [by apply (be_pages _ _ _ Hb)|].
  apply (tk_pages _ _ _ _ _ Ht); [apply Hl1|done].
Qed.

Lemma back_used : proc_id_used k3 = proc_id_used k ∧ active k3 = active k.
Proof using All.
  pose proof (tk_reaped _ _ _ _ _ Ht) as Hr. destruct child_beside as [_ Hb].
  pose proof (st_spawned _ _ _ _ _ _ _ _ _ _ _ _ Hst) as Hsp. destruct (room_pid cur pid k Hroom) as [Hp Hf].
  pose proof (rm_pid _ _ _ Hroom) as Hp3. rewrite (proj2 (Z.leb_gt pid 2)) in Hsp by lia.
  destruct command_cur as (Hne & [Hcr _] & _). split.
  - rewrite (re_used _ _ _ _ Hr), (be_used _ _ _ Hb), (sp_used _ _ _ _ _ Hsp), aset_aset, <- Hf. apply aset_same.
  - rewrite (re_active _ _ _ _ Hr), (be_active _ _ _ Hb), (sp_active _ _ _ _ _ Hsp), aset_aset.
    destruct Hroom as [_ _ _ H4 H5 H6]. apply aget_ext; [by rewrite !length_aset|].
    rewrite !length_aset. intros j Hj. rewrite aget_aset by (rewrite !length_aset; lia).
    case_decide as Hj1; [congruence|]. rewrite aget_aset by (rewrite !length_aset; lia).
    case_decide as Hj2; [congruence|]. by rewrite aget_aset_ne.
Qed.

(** The others' PCBs, and the caller's. *)
Lemma back_pcb q : live k q → (pcbs k3).[q] = (pcbs k1).[q].
Proof using All.
  intros Hl. destruct (start_live k1 c q Hst Hl) as [Hl1 Hne]. destruct child_beside as [_ Hb].
  rewrite (re_other _ _ _ _ (tk_reaped _ _ _ _ _ Ht)) by done. by apply (be_other _ _ _ Hb).
Qed.

Lemma back_beside : beside cur k k3.
Proof using All.
  destruct back_used as [Eu Ea]. destruct command_cur as (Hne & Hl & _). destruct child_beside as [_ Hb].
  destruct (start_caller k1 c Hst) as (_ & _ & _ & Hw & _).
  destruct (st_mem _ _ _ _ _ _ _ _ _ _ _ _ Hst) as (m & _ & Hsm & _ & Hpg).
  pose proof (rm_pid _ _ _ Hroom) as Hp3. split.
  - exact Eu.
  - exact Ea.
  - by rewrite back_pcb.
  - intros q Hq Hlq. rewrite back_pcb by done. apply (st_other _ _ _ _ _ _ _ _ _ _ _ _ Hst).
    + by apply (start_live k1 c q Hst).
    + by rewrite (proj2 (Z.leb_gt pid 2)) by lia.
  - intros q Hq Hlq. destruct (start_live k1 c q Hst Hlq) as [Hl1 Hqp].
    rewrite (tk_tabs _ _ _ _ _ Ht), (be_dirs _ _ _ Hb q Hqp Hl1).
    exact (st_dirs _ _ _ _ _ _ _ _ _ _ _ _ Hst q Hqp).
  - intros q Hq Hlq. destruct (start_live k1 c q Hst Hlq) as [Hl1 Hqp].
    apply (same_page_trans _ m); [by apply kept_others; [|apply Hlq|]|].
    apply (same_page_trans _ (kmem k1)); [apply Hpg; [apply Hlq|done]|]. by apply back_page.
Qed.

(** The memory of the caller. *)
Lemma back_keeps : keeps s (with_kernel s2 k3) (λ _, False).
Proof using All.
  intros b Hb _. pose proof command_kernel as Hk. destruct command_cur as (Hne & Hl & _).
  destruct (st_mem _ _ _ _ _ _ _ _ _ _ _ _ Hst) as (m & Hm & _ & _ & Hpg).
  rewrite (user_rd_kernel cur vids im (with_kernel s2 k3) b Hk3 Hb), (user_rd_kernel cur vids im s b Hk Hb).
  cbn [uk with_kernel]. rewrite (rd_pbyte (kmem k3) _ _ _ b (ki_mach _ _ _ (ko_kbd _ _ _ _ Hk3))) by (right; by apply user_view).
  assert (∀ t, view_cell cur t b = 0x800000 + 0x400000 * cur + (b - USER_MEM_LOCATION)) as Hvc.
  { intros t. unfold user_page, region, view_cell, USER_MEM_LOCATION, VIDEO in *. cases_lia; lia. }
  assert (proc_page cur (view_cell cur (cur_terminal (con k)) b)) as Hpp.
  { rewrite Hvc. unfold proc_page, user_page, region in *. lia. }
  rewrite <- (kept_pages m b Hm (or_intror Hb)). rewrite (Hvc (cur_terminal (con k3))), <- (Hvc (cur_terminal (con k))).
  rewrite (back_page cur Hl _ Hpp). apply (Hpg cur); [apply Hl|exact Hne|exact Hpp].
Qed.

Lemma back_sees : psees cur k0 (with_kernel s2 k3) (caller_world w wc).
Proof using All.
  destruct command_cur as (Hne & Hl & _). pose proof command_kernel as Hk.
  destruct (start_caller k1 c Hst) as (_ & C2 & C3 & _). destruct child_parent as (_ & Htm & _).
  destruct Hs2 as [[[Hk2 _] _] Hsc Hln Htk].
  pose proof (tk_con _ _ _ _ _ Ht) as Ec. destruct (tk_input _ _ _ _ _ Ht) as [Ek Er].
  assert (p_terminal_id (pcbs k3).[cur] = p_terminal_id (pcbs k).[cur]) as Et by (by rewrite back_pcb).
  assert (∀ t, ∃ h, (terminals (con k3)).[t] = (terminals (con (uk s2))).[t] <| cmd_hist := h |>) as Hh.
  { intros t. exists (cmd_hist (terminals (con (uk s2))).[t]). by rewrite Ec. }
  apply (sees_back cur k0 s).
  - exact Hs.
  - exact Hk3.
  - exact back_beside.
  - cbn [uk with_kernel]. rewrite back_pcb by done. exact (st_allargs _ _ _ _ _ _ _ _ _ _ _ _ Hst cur Hne).
  - cbn [uk with_kernel]. rewrite back_pcb by done. exact C3.
  - rewrite <- Hsc. unfold shown. cbn [uk with_kernel]. rewrite Et, Htm.
    apply tview_same; [apply Hk|apply (ki_page _ _ _ (ko_kbd _ _ _ _ Hk2)); apply Hk|apply Hh|].
    exact (tk_video _ _ _ _ _ Ht).
  - apply (lines_same pid cur s2); [|cbn [uk with_kernel]; by rewrite Ec|exact Hh|exact Ek|done|exact Hln].
    cbn [uk with_kernel]. by rewrite Et, Htm.
  - by apply (ticks_same pid cur s2).
Qed.
End Command.

(** ** The contract of execute *)

(** What the command [cmd] does to the caller's world, and the value
    [execute] returns. *)
Inductive cmd_runs (cmd : list Z) w : world → Z → Prop :=
| cr_missing :
    lookup_file im (command_name cmd) = None → cmd_runs cmd w w (-1)
| cr_no_program i :
    let inode := d_inode (im_dents im).[i] in
    let c := (im_files im).[inode] in
    lookup_file im (command_name cmd) = Some i → 0 ≤ inode < num_inodes im →
    (4 ≤ length c)%nat → elf_file c = false → cmd_runs cmd w w (-1)
| cr_program i wc status :
    let inode := d_inode (im_dents im).[i] in
    let c := (im_files im).[inode] in
    lookup_file im (command_name cmd) = Some i → 0 ≤ inode < num_inodes im →
    28 ≤ Z.of_nat (length c) ≤ 0x3B8000 → elf_file c = true →
    program_runs c (child_world cmd w) wc status →
    cmd_runs cmd w (caller_world w wc) (u8 status).

Section Service.
Context (cur pid : Z) (k0 : kernel D) (Hroom : room cur pid k0).

#[local] Instance kcalls : Syscalls (ustate D) := KernelCalls cur (dp cur) rate0 before other.
#[local] Instance kexec : Executes (ustate D) := {| ece391_execute := kernel_execute cur |}.
#[local] Instance kgview : ServiceView (ustate D) := gview cur k0.

Lemma kernel_executes s w a cmd w' r :
  sees s w → user_string s a cmd → (length cmd ≤ 127)%nat → (∀ b, region a 127 b → user_page b) →
  cmd_runs cmd w w' r →
  ∃ s', ece391_execute s a = Some (s', r) ∧ sees s' w' ∧ keeps s s' (λ _, False).
Proof using All.
  intros Hs Hu Hl Hh Hr. assert (room cur pid (uk s)) as Hrm.
  { apply (room_beside cur pid k0); [|done]. apply (guard_sees_inv _ _ _ _ Hs). }
  cbn [ece391_execute kexec]. unfold kernel_execute. destruct Hr as [Hlk|i inode c Hlk Hi H4 He|i wc status inode c Hlk Hi Hc He Hrun].
  - destruct (command_refused cur pid k0 s w a cmd Hs Hu Hl Hh Hrm) as (k' & E & Hs' & Hk'); [by rewrite Hlk|].
    rewrite E, bind_some. exists (with_kernel s k'). split; [reflexivity|]. by split.
  - destruct (command_refused cur pid k0 s w a cmd Hs Hu Hl Hh Hrm) as (k' & E & Hs' & Hk'); [by rewrite Hlk|].
    rewrite E, bind_some. exists (with_kernel s k'). split; [reflexivity|]. by split.
  - destruct (command_starts cur pid k0 s w a cmd Hs Hu Hl Hh Hrm i Hlk Hi Hc He) as (k1 & E & Hst). fold inode c in E, Hst.
    rewrite E, bind_some. clear E. destruct (room_pid cur pid _ Hrm) as [Hp _]. pose proof (rm_pid _ _ _ Hrm) as Hp3.
    pose proof (start_sees cur pid k0 s w a cmd Hs Hu Hl Hrm k1 c Hst) as Hs1.
    destruct (Hrun pid (with_kernel s k1) ltac:(lia) Hs1) as (s2 & E2 & Hs2).
    { rewrite (user_bytes pid vids im); [apply Hst|apply Hst|].
      intros b Hb. unfold user_page, region, USER_PROG_LOCATION, USER_MEM_LOCATION in *. lia. }
    rewrite E2, bind_some.
    destruct (child_halts cur pid k0 s w a cmd Hs Hu Hl Hh Hrm k1 c s2 wc status Hst Hs2) as (k3 & E3 & Ht & Hk3).
    rewrite E3, bind_some, !Z.eqb_refl. cbn [andb]. exists (with_kernel s2 k3). split; [reflexivity|].
    split; [exact (back_sees cur pid k0 s w a cmd Hs Hu Hl Hh Hrm k1 c s2 wc status Hst Hs2 k3 Ht Hk3)|].
    exact (back_keeps cur pid k0 s w a cmd Hs Hu Hl Hh Hrm k1 c s2 wc status Hst Hs2 k3 Ht Hk3).
Qed.

#[local] Instance kernel_exec_service : ExecService (ustate D).
Proof using All.
  refine {| ex_runs := cmd_runs |}.
  - intros cmd w w' r H. by destruct H.
  - exact kernel_executes.
Defined.
End Service.

(** ** Sessions on the kernel *)

Lemma dp_range cur : 0 ≤ cur < 6 → 0x7F4000 ≤ dp cur ≤ 0x800000 - 44.
Proof using Hdp. intros Hc. pose proof (Hdp cur Hc). pose proof (pcb_addr_range cur Hc). lia. Qed.

(** The file calls of a process, with what it leaves alone. *)
Definition guarded_service cur k0 (Hcur : 0 ≤ cur < 6) :
    @FileService (ustate D) _ (KernelCalls cur (dp cur) rate0 before other) (gview cur k0) im :=
  @GuardService _ _ (KernelCalls cur (dp cur) rate0 before other) (KernelView cur vids im) (beside_since cur k0) im
    (KernelService cur (dp cur) rate0 before vids im other (dp_range cur Hcur) Htypes)
    (kernel_guarded cur (dp cur) rate0 before vids im other k0).

(** C1 (the shell). The shell of a process with room for a child runs every
    session of at most 2^32 lines and returns 0 at "exit".  A line is echoed
    after the prompt; an empty line is skipped; the first word of another line
    is looked up in the directory: "no such command" is printed if it names no
    program; otherwise the program is loaded into a new process, runs with the
    rest of the line as arguments on the same terminal and with the same input,
    and when it halts the shell goes on with its memory, descriptors and
    terminal, and reports a status other than 0.  At the end the other
    processes are as they were. *)
Theorem shell_serves_user cur pid s str buf ls nt n w' :
  let calls := KernelCalls cur (dp cur) rate0 before other in
  let exec : Executes (ustate D) := {| ece391_execute := kernel_execute cur |} in
  process cur vids im str shell_lits (region buf 1024) ls nt s → room cur pid (uk s) →
  (∀ a, region buf 1024 a → user_page a) → Z.of_nat n ≤ 4294967296 →
  session cmd_runs n
    (w_print (text "Starting 391 Shell" ++ [10]) (mk_world std_fds (shown cur s) (args_of cur (uk s)) ls nt)) w' →
  ∃ s', shell str buf s = Some (s', 0) ∧ kernel_ok vids im (uk s') cur ∧
    shown cur s' = w_screen w' ∧ beside cur (uk s) (uk s').
Proof using All.
  intros calls exec Hp Hroom Hu Hn Hses. pose proof (ko_cur _ _ _ _ (pr_ok _ _ _ _ _ _ _ _ _ Hp)) as [Hc _].
  pose proof (process_running _ _ _ _ _ _ _ _ _ Hp) as [R1 R2 R3].
  destruct (@shell_session (ustate D) _ calls (gview cur (uk s)) im (guarded_service cur (uk s) Hc) exec
    (kernel_exec_service cur pid (uk s) Hroom) str s (mk_world std_fds (shown cur s) (args_of cur (uk s)) ls nt) buf n w')
    as (s' & E & Hs').
  - split; [|exact R2|exact R3]. by apply guard_sees; [|apply beside_refl].
  - reflexivity.
  - reflexivity.
  - exact Hu.
  - exact Hn.
  - exact Hses.
  - exists s'. split; [exact E|]. destruct (guard_sees_inv _ _ _ _ Hs') as [[[Hk _] _ _ Hsc _ _ _] Hb]. by split.
Qed.

(** *** Programs under the shell *)

Definition cat_code (str : list Z → Z) (buf : Z) (pid : Z) s : option (ustate D * Z) :=
  @cat _ _ (KernelCalls pid (dp pid) rate0 before other) str buf s.

(** A program file whose code is cat. *)
Lemma cat_program str buf c (wc : world) i :
  (∀ pid s, code pid (entry_of c) USER_ESP s = cat_code str buf pid s) →
  (∀ a, region buf 1024 a → user_page a) → w_fds wc = std_fds →
  lookup_file im (w_args wc) = Some i → d_type (im_dents im).[i] = 2 → 0 ≤ d_inode (im_dents im).[i] < num_inodes im →
  program_runs c wc (w_print (cat_text (im_files im).[d_inode (im_dents im).[i]]) wc) 0.
Proof using All.
  intros Hcode Hu Hf Hlk Hty Hin pid s Hpid Hs _. rewrite Hcode. unfold cat_code.
  pose proof (guarded_service pid (uk s) ltac:(lia)) as F.
  destruct (@cat_file (ustate D) _ (KernelCalls pid (dp pid) rate0 before other) (gview pid (uk s)) im F str s buf i)
    as (s' & E & [R1 _ R3 R4 R5]).
  - split; [apply Hs| | |exact Hu].
    + rewrite (wo_fds _ _ Hs), Hf. reflexivity.
    + exists 2. split; [lia|]. rewrite (wo_fds _ _ Hs), Hf. reflexivity.
  - rewrite (wo_args _ _ Hs). exact Hlk.
  - exact Hty.
  - exact Hin.
  - exists s'. split; [exact E|]. split; [exact R1| | |].
    + etransitivity; [exact R3|]. exact (f_equal (print_spec _) (wo_screen _ _ Hs)).
    + exact (R4 _ (wo_lines _ _ Hs)).
    + exact (R5 _ (wo_ticks _ _ Hs)).
Qed.
End Execute.

(** ** Witness

    Process 0 of the demonstration kernel runs the shell; the program file
    "shell" of the image stands for cat.  The lines typed are "shell a.txt",
    "x", an empty line and "exit". *)

Definition demo_dp (p : Z) : Z := pcb_addr p + 0x1000.
Definition demo_hp (p : Z) : Z := pcb_addr p + 0x1100.
Definition demo_code (pid _ _ : Z) (s : ustate (list (Z * Z))) : option (ustate (list (Z * Z)) * Z) :=
  cat_code demo_dp 0 (λ _, 0) (λ _ s, Some (s, 0)) (λ _, 0) 0x8000400 pid s.

Definition demo_keys : list Z :=
  [0x1F; 0x23; 0x12; 0x26; 0x26; 0x39; 0x1E; 0x34; 0x14; 0x2D; 0x14; KEYBOARD_ENTER;
   0x2D; KEYBOARD_ENTER; KEYBOARD_ENTER; 0x12; 0x2D; 0x17; 0x14; KEYBOARD_ENTER].
Definition demo_lines : list (list Z) := [text "shell a.txt"; text "x"; []; exit_cmd].

Lemma demo_types : types (mk_kbd false false false false false false false) demo_keys demo_lines.
Proof.
  exists (take 11 demo_keys), (drop 12 demo_keys). split_and!; [done|by repeat constructor|by repeat (constructor; [done|])|cbn; lia|done|].
  exists [0x2D], (drop 14 demo_keys). split_and!; [done|by repeat constructor|by repeat (constructor; [done|])|cbn; lia|done|].
  exists [], (drop 15 demo_keys). split_and!; [done|done|done|cbn; lia|done|].
  exists [0x12; 0x2D; 0x17; 0x14], []. split_and!; [done|by repeat constructor|by repeat (constructor; [done|])|cbn; lia|done|done].
Qed.

Definition demo_shell_state : ustate (list (Z * Z)) :=
  mk_ustate (prog_kernel shell_lits ([] ++ replicate (128 - 0) 0)) demo_keys [].

#[local] Abbreviation demo_runs :=
  (cmd_runs (λ _, None) kimage demo_code).

(** The world behind each line. *)
Definition after_line (line : list Z) (ls : list (list Z)) (w : world) : world := w_type line ls (w_print prompt w).
Definition after_cat (w : world) : world :=
  w_print [] (caller_world w (w_print (cat_text [104; 105; 10]) (child_world (text "shell a.txt") w))).

Lemma demo_session fds sc args nt :
  session demo_runs 4 (mk_world fds sc args demo_lines nt)
    (after_line exit_cmd [] (after_line [] [exit_cmd] (w_print (text "no such command" ++ [10])
      (after_line (text "x") [[]; exit_cmd] (after_cat
        (after_line (text "shell a.txt") [text "x"; []; exit_cmd] (mk_world fds sc args demo_lines nt))))))).
Proof.
  eapply ses_run; [reflexivity|discriminate|discriminate| |].
  { eapply (cr_program _ _ _ _ _ 2 (w_print (cat_text [104; 105; 10]) (child_world (text "shell a.txt") _)) 0);
      [by vm_compute|vm_compute; split; [discriminate|reflexivity]|vm_compute; split; discriminate|by vm_compute|].
    apply (cat_program demo_dp demo_hp 0 0 0 0 (λ _, 0) (λ _, None) kimage (λ _ s, Some (s, 0)) demo_code)
      with (str := λ _, 0) (buf := 0x8000400) (i := 3);
      [intros p Hp; unfold demo_dp; lia|intros p Hp; unfold demo_hp; lia|intros p; unfold demo_dp, demo_hp; lia
      |exact kimage_types|reflexivity|in_user_page|reflexivity|by vm_compute|by vm_compute
      |vm_compute; split; [discriminate|reflexivity]]. }
  eapply ses_run; [reflexivity|discriminate|discriminate|apply cr_missing; by vm_compute|].
  eapply ses_empty; [reflexivity|]. apply ses_exit. reflexivity.
Qed.

Lemma demo_room : room 0 3 (uk demo_shell_state).
Proof. by split. Qed.

Lemma shell_serves_user_witness :
  let calls := KernelCalls 0 (demo_dp 0) 0 (λ _, 0) (λ _ s, Some (s, 0)) in
  let exec : Executes (ustate (list (Z * Z))) := {| ece391_execute := kernel_execute demo_dp demo_hp 0 0 0 demo_code 0 |} in
  ∃ s', shell (lit_addr shell_lits) 0x8002000 demo_shell_state = Some (s', 0) ∧
    kernel_ok (λ _, None) kimage (uk s') 0 ∧
    shown 0 s' =
      echo_spec (text "exit") (print_spec (text "391OS> ") (echo_spec [] (print_spec (text "391OS> ")
      (print_spec (text "no such command" ++ [10]) (echo_spec (text "x") (print_spec (text "391OS> ")
      (print_spec [104; 105; 10] (echo_spec (text "shell a.txt") (print_spec (text "391OS> ")
      (print_spec (text "Starting 391 Shell" ++ [10]) (shown 0 demo_shell_state))))))))))) ∧
    beside 0 (uk demo_shell_state) (uk s').
Proof.
  intros calls exec.
  exact (shell_serves_user demo_dp demo_hp 0 0 0 0 (λ _, 0) (λ _, None) kimage (λ _ s, Some (s, 0)) demo_code
    ltac:(intros p Hp; unfold demo_dp; lia) ltac:(intros p Hp; unfold demo_hp; lia)
    ltac:(intros p; unfold demo_dp, demo_hp; lia) kimage_types 0 3 demo_shell_state (lit_addr shell_lits) 0x8002000
    demo_lines 0 4 _
    ltac:(apply (prog_process _ []); [vm_compute; reflexivity|cbn; lia|constructor|exact demo_types|cbn; lia
                                     |unfold region; intros b Hb; lia])
    demo_room ltac:(in_user_page) ltac:(lia) (demo_session _ _ _ _)).
Defined.
