(* ===== verification/Timeshare.v ===== *)
(** * Processes share the machine

    Processes on different terminals run in turn: each stores to its page and
    makes system calls until the timer interrupts it, and the keyboard changes
    the terminal on the screen.  Every process that is continued finds the
    kernel's promises in force ([shared_ok]), and finds itself as it was
    interrupted: its memory, descriptors, arguments, video page and registers.

    The hypotheses of [act] are those of the contracts of [FileService]: strings
    and buffers lie in the page of the caller, reads of the keyboard and the
    clock have a line or a tick to come. *)

From S2P Require Import Prelude Memory Lib Ports Types Filesystem FsProofs FsProps I8259 RTC.
From S2P Require Import Paging PagingProps Console ConsoleProofs ConsoleProps Printf Keyboard.
From S2P Require Import KeyboardProofs LineProofs KeyboardProps TerminalProofs Stores Typing TerminalProps.
From S2P Require Import Kernel KernelProps KernelDemo SyscallProps Process ParseProofs Scheduler Forest System SystemProps.
From S2P Require Import Beside ProcessProofs ProcessProps User UserLogic Guard UserKernel ShellKernel.
#[local] Open Scope Z_scope.

(** ** What a process does *)

Section Acts.
Context {HL : Layout} {D : Type} `{!PortIO D}.
Context (cur dp rate0 : Z) (before : Z → Z) (vids : Z → option Z) (im : fs_image).
Context (other : syscall → ustate D → option (ustate D * Z)).
Context (Hdp : 0x7F4000 ≤ dp ≤ 0x800000 - 44) (Htypes : ∀ i, 0 ≤ i < num_entries im → 0 ≤ d_type (im_dents im).[i] ≤ 2).
Implicit Types (s : ustate D) (k : kernel D).

#[local] Instance act_calls : Syscalls (ustate D) := KernelCalls cur dp rate0 before other.
#[local] Instance act_view : ServiceView (ustate D) := KernelView cur vids im.
#[local] Instance act_service : FileService (ustate D) im :=
  KernelService cur dp rate0 before vids im other Hdp Htypes.

(** Arguments a program may pass, by what the descriptor stands for. *)
Definition read_ready s (fd buf n : Z) : Prop :=
  match sv_handle s fd with
  | Data inode pos =>
      0 ≤ inode < num_inodes im ∧ 0 ≤ pos ≤ 2147483648 ∧ 0 < n ∧ ∀ a, region buf n a → user_page a
  | Dir pos => (∃ i, pos = 64 * (i + 1) ∧ 0 ≤ i) ∧ 0 < n ∧ ∀ a, region buf n a → user_page a
  | Keys =>
      (∃ line ls, sv_lines s (line :: ls)) ∧ 0 ≤ n < 2147483648 ∧
      region USER_MEM_LOCATION (0x400000 - 129) buf
  | Clock => sv_ticks s 1 ∧ user_page buf
  | Screen => user_page buf
  | Closed => near_fd fd ∧ user_page buf
  end.

Definition write_ready s (fd buf n : Z) : Prop :=
  match sv_handle s fd with
  | Screen =>
      (∃ v, printable s buf n v) ∧ n < 0x400000 ∧ (∀ a, region buf n a → user_page a) ∧
      USER_MEM_LOCATION ≤ buf ≤ USER_MEM_LOCATION + 0x400000
  | Clock => n = 4 ∧ ∀ a, region buf 4 a → user_page a
  | Keys => user_page buf
  | Closed => near_fd fd ∧ user_page buf
  | Dir _ | Data _ _ => False
  end.

(** A store to the process' page, or a system call. *)
Inductive act : ustate D → ustate D → Prop :=
| act_store s a v : user_page a → act s (wr s a v)
| act_open s a name s' v : user_string s a name → ece391_open s a = Some (s', v) → act s s'
| act_close s fd s' v : ece391_close s fd = Some (s', v) → act s s'
| act_read s fd buf n s' v : read_ready s fd buf n → ece391_read s fd buf n = Some (s', v) → act s s'
| act_write s fd buf n s' v : write_ready s fd buf n → ece391_write s fd buf n = Some (s', v) → act s s'
| act_getargs s buf n s' v :
    Z.of_nat (length (sv_args s)) < n < 2147483648 → (∀ a, region buf n a → user_page a) →
    ece391_getargs s buf n = Some (s', v) → act s s'
| act_vidmap s a s' v : 0 ≤ a < 0x800000 → ece391_vidmap s a = Some (s', v) → act s s'
| act_handler s signum h s' v : ece391_set_handler s signum h = Some (s', v) → act s s'
| act_number s n s' v : s32 n < 1 ∨ 10 < s32 n → int80 s n = Some (s', v) → act s s'.

(** The process table keeps all but the process' own entry; memory changes by
    stores. *)
Lemma act_frame s s' :
  sv_ok s → act s s' → Forest.keeps cur (uk s) (uk s') ∧ stores (kmem (uk s)) (kmem (uk s')).
Proof using All.
  intros Hok Ha. set (J := λ x : ustate D, Forest.keeps cur (uk s) (uk x) ∧ stores (kmem (uk s)) (kmem (uk x))).
  change (J s'). assert (J s) as HJ by (split; [apply keeps_refl|apply stores_refl]).
  assert (guarded act_view J) as G.
  { apply (calls_guarded cur dp rate0 before vids im other). intros x x' _ [K1 S1] K2 S2.
    split; [by apply (keeps_trans cur _ (uk x))|by apply (stores_trans _ (kmem (uk x)))]. }
  clearbody J. destruct Ha as [s a v Hu|s a name s' v _ E|s fd s' v E|s fd buf n s' v Hr E|s fd buf n s' v _ E
    |s buf n s' v _ _ E|s a s' v H E|s x h s' v E|s n s' v H E].
  - exact (gd_store _ _ G _ _ _ Hok HJ Hu).
  - exact (gd_open _ _ G _ _ _ _ Hok HJ E).
  - exact (gd_close _ _ G _ _ _ _ Hok HJ E).
  - destruct (decide (sv_handle s fd = Keys)) as [Hk|Hk]; [|exact (gd_read _ _ G _ _ _ _ _ _ Hok HJ Hk E)].
    unfold read_ready in Hr. rewrite Hk in Hr. destruct Hr as ((line & ls & Hl) & Hn & Hb).
    exact (gd_keys _ _ G _ _ _ _ _ _ _ _ Hok HJ Hk Hl Hn Hb E).
  - exact (gd_write _ _ G _ _ _ _ _ _ Hok HJ E).
  - exact (gd_getargs _ _ G _ _ _ _ _ Hok HJ E).
  - exact (gd_vidmap _ _ G _ _ _ _ Hok HJ H E).
  - exact (gd_handler _ _ G _ _ _ _ _ Hok HJ E).
  - exact (gd_number _ _ G _ _ _ _ Hok HJ H E).
Qed.

Lemma refused_ok s o s' v : refused s o → o = Some (s', v) → sv_ok s'.
Proof. intros (s1 & -> & [Hs _]) [= <- _]. apply Hs. Qed.

Lemma served_ok s s1 s' r v fd h f dl dt (o : option (ustate D * Z)) :
  o = Some (s1, r) → does s s1 fd h f dl dt → o = Some (s', v) → sv_ok s'.
Proof. intros -> Hd [= <- _]. apply Hd. Qed.

Lemma free_or_full s : (∃ j, 2 ≤ j < 8 ∧ sv_handle s j = Closed) ∨ (∀ j, 2 ≤ j < 8 → sv_handle s j ≠ Closed).
Proof.
  destruct (decide (Exists (λ j, sv_handle s j = Closed) (seqZ 2 6))) as [H|H].
  - left. apply Exists_exists in H as (j & Hj & E). exists j. apply list_elem_of_In, elem_of_seqZ in Hj. split; [lia|done].
  - right. intros j Hj E. apply H, Exists_exists. exists j. split; [apply list_elem_of_In, elem_of_seqZ; lia|done].
Qed.

Lemma read_ok s fd buf n s' v :
  sv_ok s → read_ready s fd buf n → ece391_read s fd buf n = Some (s', v) → sv_ok s'.
Proof using Hdp Htypes.
  intros Hok Hr. unfold read_ready in Hr. destruct (sv_handle s fd) as [| | | |pos|inode pos] eqn:Hh.
  - destruct Hr as [H1 H2]. apply (refused_ok s), (fs_bad_fd s fd buf n Hok Hh H1 H2).
  - destruct Hr as ((line & ls & Hl) & Hn & Hb).
    destruct (fs_read_keys s fd buf n line ls Hok Hh Hl Hn Hb) as (s1 & E & Hd & _). by eapply served_ok.
  - apply (refused_ok s), (fs_read_screen s fd buf n Hok Hh Hr).
  - destruct Hr as [H1 H2]. destruct (fs_read_clock s fd buf n 0 Hok Hh H1 H2) as (s1 & E & Hd & _). by eapply served_ok.
  - destruct Hr as ((i & -> & Hi) & Hn & Hb). pose proof (fs_read_dir s fd buf n i Hok Hh Hi Hn Hb) as H.
    case_decide; cbv zeta in H; destruct H as (s1 & E & Hd & _); by eapply served_ok.
  - destruct Hr as (H1 & H2 & H3 & H4).
    destruct (fs_read_data s fd buf n inode pos Hok Hh H1 H2 H3 H4) as (s1 & E & Hd & _). by eapply served_ok.
Qed.

Lemma write_ok s fd buf n s' v :
  sv_ok s → write_ready s fd buf n → ece391_write s fd buf n = Some (s', v) → sv_ok s'.
Proof using Hdp Htypes.
  intros Hok Hr. unfold write_ready in Hr. destruct (sv_handle s fd) as [| | | |pos|inode pos] eqn:Hh; [..|done|done].
  - destruct Hr as [H1 H2]. apply (refused_ok s), (fs_bad_fd s fd buf n Hok Hh H1 H2).
  - apply (refused_ok s), (fs_write_keys s fd buf n Hok Hh Hr).
  - destruct Hr as ((k & Hp) & H1 & H2 & H3).
    destruct (fs_write s fd buf n k Hok Hh Hp H1 H2 H3) as (s1 & E & Hd & _). by eapply served_ok.
  - destruct Hr as [-> H2]. destruct (fs_write_clock s fd buf Hok Hh H2) as (s1 & E & Hd & _). by eapply served_ok.
Qed.

(** The promises hold after it. *)
Lemma act_ok s s' : sv_ok s → act s s' → sv_ok s'.
Proof using Hdp Htypes.
  intros Hok Ha. revert Hok. destruct Ha as [s1 a v Hu|s1 a name s2 v Hu E|s1 fd s2 v E|s1 fd buf n s2 v Hr E|s1 fd buf n s2 v Hw E
    |s1 buf n s2 v Hn Hb E|s1 a s2 v H E|s1 x h s2 v E|s1 n s2 v H E]; intros Hok.
  - exact (se_ok _ _ _ _ _ _ _ (fs_store s1 a v Hok Hu)).
  - destruct (free_or_full s1) as [Hf|Hf]; [|by apply (refused_ok s1 _ _ _ (fs_open_full s1 a name Hok Hu Hf) E)].
    pose proof (fs_open s1 a name Hok Hu) as H. destruct (lookup_file im name).
    + destruct (H Hf) as (s3 & fd & E1 & _ & _ & _ & Hd & _). by eapply served_ok.
    + by apply (refused_ok s1 _ _ _ H E).
  - destruct (decide (2 ≤ fd < 8 ∧ sv_handle s1 fd ≠ Closed)) as [[H1 H2]|Hn].
    + destruct (fs_close s1 fd Hok H1 H2) as (s3 & E1 & Hd & _). by eapply served_ok.
    + assert (fd < 2 ∨ 8 ≤ fd ∨ sv_handle s1 fd = Closed) as Hb.
      { destruct (decide (sv_handle s1 fd = Closed)); [tauto|]. destruct (decide (2 ≤ fd < 8)); [tauto|lia]. }
      by apply (refused_ok s1 _ _ _ (fs_close_bad s1 fd Hok Hb) E).
  - by apply (read_ok s1 fd buf n s2 v).
  - by apply (write_ok s1 fd buf n s2 v).
  - destruct (fs_getargs s1 buf n Hok Hn Hb) as (s3 & E1 & Hd & _). by eapply served_ok.
  - by apply (refused_ok s1 _ _ _ (fs_vidmap_bad s1 a Hok H) E).
  - destruct (fs_set_handler s1 x h Hok) as (s3 & E1 & [Hd _]). by eapply served_ok.
  - by apply (refused_ok s1 _ _ _ (fs_bad_number s1 n Hok H) E).
Qed.
End Acts.

(** What a process may do does not depend on the video pages. *)
Lemma act_any_vids {HL : Layout} {D : Type} `{!PortIO D} cur dp rate0 before vids vids' im other (s s' : ustate D) :
  act cur dp rate0 before vids im other s s' → act cur dp rate0 before vids' im other s s'.
Proof.
  intros Ha. destruct Ha as [s a v Hu|s a name s' v Hu E|s fd s' v E|s fd buf n s' v Hr E|s fd buf n s' v Hr E
    |s buf n s' v H1 H2 E|s a s' v H E|s x h s' v E|s n s' v H E].
  - exact (act_store cur dp rate0 before vids' im other s a v Hu).
  - exact (act_open cur dp rate0 before vids' im other s a name s' v Hu E).
  - exact (act_close cur dp rate0 before vids' im other s fd s' v E).
  - exact (act_read cur dp rate0 before vids' im other s fd buf n s' v Hr E).
  - exact (act_write cur dp rate0 before vids' im other s fd buf n s' v Hr E).
  - exact (act_getargs cur dp rate0 before vids' im other s buf n s' v H1 H2 E).
  - exact (act_vidmap cur dp rate0 before vids' im other s a s' v H E).
  - exact (act_handler cur dp rate0 before vids' im other s x h s' v E).
  - exact (act_number cur dp rate0 before vids' im other s n s' v H E).
Qed.

(** ** The timer *)

Section Timer.
Context {HL : Layout} {D : Type} `{!PortIO D}.
Context (vids : Z → option Z) (im : fs_image).
Implicit Types (s : ustate D) (k : kernel D) (cur p q t : Z).

(** Every process has its own page directory and its arguments. *)
Definition dirs_ok k : Prop :=
  ∀ q, live k q → dir_ok (proc_page_directory (tabs (kmem k))).[q] (Some q) (vids q).
Definition all_args_ok k : Prop := ∀ q, live k q → args_ok q k.

(** What the kernel promises to process [cur], and keeps ready for the others. *)
Record shared_ok k cur : Prop := {
  sh_stk : ∃ stk, sim (k, cur) (stk, cur);
  sh_ok : kernel_ok vids im k cur;
  sh_dirs : dirs_ok k;
  sh_args : all_args_ok k
}.

(** Stores to the first row of the screen. *)
Lemma status_pages k t pid :
  mach_ok (kmem k) t pid vids →
  mach_ctl (kmem (show_status k)) = mach_ctl (kmem k) ∧
  ∀ pa, ¬ region VIDEO 4096 pa → pbyte (kmem (show_status k)) pa = pbyte (kmem k) pa.
Proof.
  intros Hm. unfold show_status. set (body := λ i m, _).
  change (kmem (with_mem k (for_loop 6 0 body (kmem k)))) with (for_loop 6 0 body (kmem k)).
  apply (for_loop_inv (λ _ m, mach_ctl m = mach_ctl (kmem k) ∧
    ∀ pa, ¬ region VIDEO 4096 pa → pbyte m pa = pbyte (kmem k) pa)); [done|].
  intros i m Hi [Hc Hp]. unfold body. split; [by etransitivity; [apply mach_ctl_wr|]|].
  intros pa Hpa. rewrite pbyte_wr; [by apply Hp|]. rewrite (translate_ctl (kmem k) m _ Hc).
  assert (0 ≤ status_addr i - VIDEO < 4096) as Ha
    by (unfold status_addr; rewrite Z.shiftl_mul_pow2 by lia; change NUM_COLS with 80; change MAX_USER_PROG with 6; lia).
  rewrite (view_cell_translate _ t pid (vids pid)); [|by apply mach_space|left; unfold region; lia].
  replace (status_addr i) with (VIDEO + (status_addr i - VIDEO)) by lia. rewrite view_cell_video by done.
  intros [= <-]. apply Hpa. unfold region. lia.
Qed.

(** What a timer interrupt of process [cur] leaves for process [next]. *)
Record ticked k k' cur next esp ebp : Prop := {
  ti_shared : shared_ok k' next;
  ti_tabs : tabs (kmem k') = tabs (kmem k);
  ti_pages : ∀ q, 0 ≤ q → same_page (kmem k) (kmem k') q;
  ti_other : ∀ q, q ≠ cur → (pcbs k').[q] = (pcbs k).[q];
  ti_cur : (pcbs k').[cur] = ((pcbs k).[cur] <| p_esp := esp |> <| p_ebp := ebp |>);
  ti_used : proc_id_used k' = proc_id_used k;
  ti_stack : tss_esp0 k' = pcb_addr next + KB8 - 4
}.

Lemma args_ok_ext q k k' : p_args (pcbs k').[q] = p_args (pcbs k).[q] → args_ok q k → args_ok q k'.
Proof. intros E (len & H). exists len. by rewrite E. Qed.

(** The state in which [sched] continues process [next]. *)
Definition saved k cur esp ebp : kernel D :=
  with_pcb (mark_active k (p_pid (pcbs k).[cur]) true) cur (λ P, P <| p_esp := esp |> <| p_ebp := ebp |>).

Lemma sched_switches k cur stk esp ebp shell dp hp k' next sp bp :
  sim (k, cur) (stk, cur) →
  pit_irq_handler k cur esp ebp shell dp hp = Some (SResume k' next sp bp) →
  let k1 := saved (with_dev k (send_eoi (kdev k) 0)) cur esp ebp in
  let k2 := with_mem (show_status k1) (loadPageDirectory (kmem (show_status k1)) (pd_addr next)) in
  k' = k2 <| tss_ss0 := KERNEL_DS |> <| tss_esp0 := KERNEL_TOP - KB8 * next - 4 |> ∧
  sp = p_esp (pcbs k1).[next] ∧ bp = p_ebp (pcbs k1).[next].
Proof.
  intros [Hf _ _ _] E k1 k2. cbn [fst snd] in Hf.
  unfold pit_irq_handler, sched in E. cbv zeta in E.
  change (with_pcb (mark_active (with_dev k (send_eoi (kdev k) 0)) _ true) cur _) with k1 in E.
  change (shells_started k1) with (shells_started k) in E. rewrite (fo_shells _ _ Hf) in E.
  change (3 <? 3) with false in E. cbv iota in E.
  destruct (get_next_proc _ _) as [n|]; [|discriminate]. rewrite bind_some in E. unfold switch_to in E.
  cbv zeta in E. apply (inj Some) in E. injection E as E1 E2 E3 E4. subst n.
  split; [by rewrite <- E1|]. split; [by rewrite <- E3|by rewrite <- E4].
Qed.

(** The machine of the process that is continued. *)
Lemma loaded_mach k t cur next :
  mach_ok (kmem k) t cur vids → dirs_ok k → live k next →
  let m' := loadPageDirectory (kmem (show_status k)) (pd_addr next) in
  mach_ok m' t next vids ∧ tabs m' = tabs (kmem k) ∧
  (∀ pa, ¬ region VIDEO 4096 pa → pbyte m' pa = pbyte (kmem k) pa).
Proof.
  intros Hm Hd Hl m'. destruct (status_pages k t cur Hm) as [Hc Hp].
  assert (mach_ok (kmem (show_status k)) t cur vids) as Hm1 by (by apply (mach_ok_ctl (kmem k))).
  assert (tabs (kmem (show_status k)) = tabs (kmem k)) as Et by (by injection Hc).
  split; [|by split]. apply load_mach_ok; [apply Hm1|apply Hl|apply Hm1|].
  rewrite Et. by apply Hd.
Qed.

Lemma tick_continues k cur esp ebp shell dp hp k' next sp bp :
  shared_ok k cur → pit_irq_handler k cur esp ebp shell dp hp = Some (SResume k' next sp bp) →
  ticked k k' cur next esp ebp ∧ sp = p_esp (pcbs k').[next] ∧ bp = p_ebp (pcbs k').[next].
Proof.
  intros [[stk Hsim] Hk Hd Ha] E.
  destruct (tick_simulates k cur stk esp ebp shell dp hp k' next sp bp Hsim E) as [Hnext Hsim'].
  destruct (sched_switches k cur stk esp ebp shell dp hp k' next sp bp Hsim E) as (Ek & Esp & Ebp). clear E.
  set (k1 := saved _ cur esp ebp) in *. pose proof (sim_forest _ _ Hsim) as Hf. cbn [fst snd] in Hf.
  pose proof (sim_forest _ _ Hsim') as Hf'. cbn [fst snd] in Hf'.
  pose proof (top_alive _ _ (sim_top _ _ Hsim)) as Hal. cbn [fst snd] in Hal.
  pose proof (top_alive _ _ (sim_top _ _ Hsim')) as Hal'. cbn [fst snd] in Hal'.
  pose proof (alive_range _ _ _ Hf Hal) as Hcr. pose proof (alive_range _ _ _ Hf Hal') as Hnr.
  pose proof (ko_kbd _ _ _ _ Hk) as Hkbd. pose proof (ki_mach _ _ _ Hkbd) as Hm.
  assert (live k next) as Hlive by (split; [done|by apply (fo_used _ _ Hf)]).
  destruct (loaded_mach k1 (cur_terminal (con k)) cur next Hm Hd Hlive) as (Hm' & Et & Hp).
  set (m' := loadPageDirectory _ _) in *.
  assert (kmem k' = m') as Em by by rewrite Ek.
  assert (pcbs k' = pcbs k1) as Epc by by rewrite Ek.
  assert (proc_id_used k' = proc_id_used k) as Eu by by rewrite Ek.
  assert (con k' = (con k) <| vmem := m' |> <| dev := dev (con k') |>) as Ec by by rewrite Ek.
  assert (fs k' = fs k) as Efs by by rewrite Ek.
  assert (tss_esp0 k' = KERNEL_TOP - KB8 * next - 4) as Ets by by rewrite Ek.
  clear Ek.
  assert ((pcbs k').[cur] = ((pcbs k).[cur] <| p_esp := esp |> <| p_ebp := ebp |>)) as Ecur.
  { rewrite Epc. unfold k1, saved. rewrite get_with_pcb; [done|].
    change (length (pcbs (mark_active _ _ _))) with (length (pcbs k)). rewrite (fo_pcbs _ _ Hf). lia. }
  assert (∀ q, q ≠ cur → (pcbs k').[q] = (pcbs k).[q]) as Eoth.
  { intros q Hq. rewrite Epc. unfold k1, saved. by rewrite get_with_pcb_ne. }
  split; [|by rewrite Epc].
  split; [|by rewrite Em| |done|done|done|by rewrite Ets; unfold pcb_addr; lia].
  - split.
    + by exists stk.
    + split.
      * split; [done|]. rewrite Eu. apply Hlive.
      * exact (sim_files _ _ Hsim').
      * rewrite Ec. apply dev_inv. by apply (kbd_inv_mach cur next vids vids).
      * rewrite Efs, Em. apply (fs_rep_ext (kmem k)); [|apply Hk]. intros a Hia.
        pose proof (ko_lo _ _ _ _ Hk). pose proof (ko_hi _ _ _ _ Hk).
        rewrite (rd_kernel m' _ _ _ a Hm'), (rd_kernel (kmem k) _ _ _ a Hm) by lia. apply Hp.
        unfold region, VIDEO. lia.
      * rewrite Efs. apply Hk.
      * rewrite Efs. apply Hk.
      * by apply (forest_pcb k' stk).
      * destruct Hal' as (t & Ht & Hin). by rewrite (proj2 (fo_pcb _ _ Hf' t next Ht Hin)).
    + intros q [Hq Hu]. rewrite Em, Et. apply Hd. split; [done|]. by rewrite <- Eu.
    + intros q [Hq Hu]. apply (args_ok_ext q k); [|apply Ha; split; [done|by rewrite <- Eu]].
      destruct (decide (q = cur)) as [->|Hne]; [by rewrite Ecur|by rewrite Eoth].
  - intros q Hq pa Hpa. rewrite Em. apply Hp. unfold proc_page, region, VIDEO in *. lia.
Qed.
End Timer.

(** ** The terminal on the screen *)

Section Screen.
Context {HL : Layout} {D : Type} `{!PortIO D}.
Context (vids : Z → option Z) (im : fs_image).
Implicit Types (s : ustate D) (k : kernel D) (cur p q t : Z).

Lemma memcpy_stable {M} `{!ByteMem M} (I : M → Prop) (m : M) d src n m' :
  stable I → I m → memcpy m d src n = Some m' → I m'.
Proof.
  intros HI H. unfold memcpy. destruct (memcpy_top _ _ _ _) as [r|] eqn:E1; [|discriminate].
  assert (match r with inl m1 => I m1 | inr (m1, _, _, _) => I m1 end) as H1.
  { apply (while_post _ (λ '(m, _, _, _), I m) (λ r, match r with inl m1 => I m1 | inr (m1, _, _, _) => I m1 end)) in E1;
      [done| |done].
    intros [[[m1 x] y] z] H1. destruct (_ =? 0); [done|]. destruct (_ =? 0); [done|by apply HI]. }
  destruct r as [m1|[[[m1 esi] edi] ecx]]; [by intros [= <-]|]. cbv zeta.
  destruct (rep_movsl _ _ _ _) as [[[m2 esi2] edi2]|] eqn:E2; [|discriminate].
  assert (I m2) as H2.
  { apply (while_post _ (λ '(m, _, _, _), I m) (λ '(m, _, _), I m)) in E2; [done| |done].
    intros [[[m3 x] y] z] H3. destruct (_ =? 0); [done|by apply store32_stable]. }
  apply (while_post _ (λ '(m, _, _, _), I m) I); [|done].
  intros [[[m3 x] y] z] H3. destruct (_ =? 0); [done|by apply HI].
Qed.

Lemma switch_kept pid (c c' : console mach D) term :
  kbd_inv pid vids c → 0 ≤ term < 3 → term ≠ cur_terminal c → switch_terminals pid c term = Some c' →
  proc_page_directory (tabs (vmem c')) = proc_page_directory (tabs (vmem c)) ∧
  ∀ q, 0 ≤ q → q ≠ pid → same_page (vmem c) (vmem c') q.
Proof.
  intros Hinv Ht Hne E. pose proof Hinv as [H1 Hm H3]. pose proof (to_cur _ _ H1) as Hc.
  destruct (switch_mach (vmem c) pid vids (cur_terminal c) term Hm Hc Ht) as (m1 & m2 & E1 & E2 & Hm3 & _); [done|].
  rewrite (switch_unfold pid c term m1 m2 (proj2 Ht) (not_eq_sym Hne) (H3 _ Hc) (H3 _ Ht) E1 E2) in E.
  set (m0 := loadPageDirectory (set_term_page (vmem c) _ _) _) in *.
  set (m3 := loadPageDirectory (set_term_page m2 term VIDEO) (pd_addr pid)) in *.
  assert (con_ok kernel_view (c <| vmem := m3 |> <| cur_terminal := term |>) term) as Hok
    by (apply terms_con_ok; [by apply (switched_inv pid vids)|done]).
  rewrite (show_csr_same kernel_view _ Hok) in E. apply (inj Some) in E. subst c'.
  assert (mach_ok m0 (-1) pid vids) as Hm0.
  { pose proof Hm as [G1 G2 G3 G4 _ _].
    destruct (set_term_page_ok (vmem c) (cur_terminal c) (-1) (cur_terminal c) (tpage (cur_terminal c)) vids) as [HT0 HP0];
      [exact G3|exact Hc| | |].
    - unfold term_page, tpage. by cases_lia.
    - intros u Hu Hn. unfold term_page, tpage. by cases_lia.
    - apply load_mach_ok; [exact G1|exact G2|exact HT0|rewrite HP0; exact G4]. }
  pose proof (others_stable m0 (-1) pid vids Hm0) as Hst.
  pose proof (memcpy_stable _ _ _ _ _ _ Hst (others_refl m0 pid) E1) as O1.
  pose proof (memcpy_stable _ _ _ _ _ _ Hst O1 E2) as [Oc Op].
  split.
  - change (proc_page_directory (tabs m2) = proc_page_directory (tabs m0)).
    assert (tabs m2 = tabs m0) as -> by (by injection Oc). done.
  - intros q Hq Hqp. exact (Op q Hq Hqp).
Qed.
End Screen.

(** ** Turns *)

Section Turns.
Context {HL : Layout} {D : Type} `{!PortIO D}.
(** The kernel stacks of the processes hold the locals of [open] and [execute]
    at [dp p] and [hp p]. *)
Context (dp hp : Z → Z) (rate0 : Z) (before : Z → Z) (im : fs_image).
Context (other : Z → syscall → ustate D → option (ustate D * Z)).
Context (Hdp : ∀ p, 0 ≤ p < 6 → pcb_addr p + 444 ≤ dp p ∧ dp p + 44 ≤ pcb_addr p + 0x2000).
Context (Hhp : ∀ p, 0 ≤ p < 6 → pcb_addr p + 444 ≤ hp p ∧ hp p + 40 ≤ pcb_addr p + 0x2000).
Context (Hlocals : ∀ p, dp p + 44 ≤ hp p ∨ hp p + 40 ≤ dp p).
Context (Htypes : ∀ i, 0 ≤ i < num_entries im → 0 ≤ d_type (im_dents im).[i] ≤ 2).
Implicit Types (s : ustate D) (k : kernel D) (cur p q t : Z) (vids : Z → option Z).
#[local] Abbreviation shared_ok := (λ vids, shared_ok vids im).

Definition does_act cur s s' : Prop := act cur (dp cur) rate0 before (λ _, None) im (other cur) s s'.

(** The kernel with another terminal on the screen. *)
Definition with_con k (c : console mach D) : kernel D := k <| con := c |>.

(** A command that [execute] can read, and its file if it names a program. *)
Record command_at k pid command n : Prop := {
  ca_free : free_pid (proc_id_used k) 6 0 = Some pid;
  ca_cmd : cstring k command n;
  ca_short : n ≤ 127;
  ca_apart : command + n + 1 ≤ pcb_addr pid ∨ pcb_addr pid + 444 ≤ command;
  ca_hist : ∀ i, program_entry im k command n = Some i → all_mapped (kmem k) command 127 = true
}.

Definition program_file (c : list Z) : Prop := 28 ≤ Z.of_nat (length c) ≤ 0x3B8000 ∧ elf_file c = true.

Definition no_program (entry : option Z) : Prop :=
  match entry with
  | None => True
  | Some i =>
      let inode := d_inode (im_dents im).[i] in
      let c := (im_files im).[inode] in
      0 ≤ inode < num_inodes im ∧ (4 ≤ length c)%nat ∧ elf_file c = false
  end.

(** The constant "shell" in kernel memory, the command of [halt]. *)
Record shell_at k shell i : Prop := {
  sa_str : str_at (kmem k) shell 5;
  sa_lo : 0x400000 ≤ shell;
  sa_hi : shell + 6 ≤ 0x7F4000;
  sa_entry : program_entry im k shell 5 = Some i
}.

(** A step of the machine while process [cur] runs: the process acts, gets its
    video page, starts a program or tries to, or ends (a root shell is started
    again); the keyboard changes the terminal on the screen; the timer goes on
    to the next process. *)
Inductive turn : ustate D * Z → ustate D * Z → Prop :=
| turn_act cur s s' : does_act cur s s' → turn (s, cur) (s', cur)
| turn_vidmap cur s a k' :
    user_buf a 4 → vidmap (uk s) cur a = Some (k', 0) → turn (s, cur) (with_kernel s k', cur)
| turn_execute cur s pid command n i esp ebp k' eip u_esp :
    command_at (uk s) pid command n → program_entry im (uk s) command n = Some i →
    0 ≤ d_inode (im_dents im).[i] < num_inodes im → program_file (im_files im).[d_inode (im_dents im).[i]] →
    execute (uk s) cur esp ebp command (dp cur) (hp cur) = Some (ExUser k' pid eip u_esp) →
    turn (s, cur) (with_kernel s k', pid)
| turn_refused cur s pid command n esp ebp k' v :
    command_at (uk s) pid command n → no_program (program_entry im (uk s) command n) →
    execute (uk s) cur esp ebp command (dp cur) (hp cur) = Some (ExRet k' v) →
    turn (s, cur) (with_kernel s k', cur)
| turn_halt cur s status esp ebp shell k' parent sp bp st :
    cur ≠ p_parent (pcbs (uk s)).[cur] →
    halt (uk s) cur status esp ebp shell (dp cur) (hp cur) = Some (HResume k' parent sp bp st) →
    turn (s, cur) (with_kernel s k', parent)
| turn_restart cur s status esp ebp shell i k' pid eip u_esp :
    cur = p_parent (pcbs (uk s)).[cur] → shell_at (uk s) shell i →
    0 ≤ d_inode (im_dents im).[i] < num_inodes im → program_file (im_files im).[d_inode (im_dents im).[i]] →
    halt (uk s) cur status esp ebp shell (dp cur) (hp cur) = Some (HUser k' pid eip u_esp) →
    turn (s, cur) (with_kernel s k', pid)
| turn_screen cur s term c :
    0 ≤ term < 3 → term ≠ cur_terminal (con (uk s)) →
    switch_terminals cur (con (uk s)) term = Some c →
    turn (s, cur) (with_kernel s (with_con (uk s) c), cur)
| turn_tick cur s esp ebp shell k' next sp bp :
    pit_irq_handler (uk s) cur esp ebp shell (dp cur) (hp cur) = Some (SResume k' next sp bp) →
    turn (s, cur) (with_kernel s k', next).

(** A step during which process [p] does not run. *)
Definition away p (x y : ustate D * Z) : Prop := x.2 ≠ p ∧ turn x y.

(** What process [p] leaves behind when it is interrupted. *)
Record kept_for p k k' : Prop := {
  kf_pcb : (pcbs k').[p] = (pcbs k).[p];
  kf_live : live k' p;
  kf_page : same_page (kmem k) (kmem k') p
}.

Lemma kept_for_trans p k1 k2 k3 : kept_for p k1 k2 → kept_for p k2 k3 → kept_for p k1 k3.
Proof.
  intros [A1 A2 A3] [B1 B2 B3]. split; [congruence|done|]. by apply (same_page_trans _ (kmem k2)).
Qed.

Lemma shared_sv_ok vids s cur : shared_ok vids (uk s) cur → sv_ok (ServiceView := KernelView cur vids im) s.
Proof. intros [_ Hk _ Ha]. split; [done|]. apply Ha, Hk. Qed.

Lemma dp_low cur : 0 ≤ cur < 6 → 0x7F4000 ≤ dp cur ≤ 0x800000 - 44.
Proof using Hdp. intros Hc. pose proof (Hdp cur Hc). pose proof (pcb_addr_range cur Hc). lia. Qed.

Lemma act_shared vids cur s s' :
  shared_ok vids (uk s) cur → does_act cur s s' →
  shared_ok vids (uk s') cur ∧ ∀ p, p ≠ cur → live (uk s) p → kept_for p (uk s) (uk s').
Proof using Hdp Htypes.
  intros Hsh Ha. pose proof (shared_sv_ok vids s cur Hsh) as Hok. apply (act_any_vids _ _ _ _ _ vids) in Ha. destruct Hsh as [[stk Hsim] Hk Hd Hargs].
  pose proof (ko_cur _ _ _ _ Hk) as Hc.
  pose proof (act_ok cur (dp cur) rate0 before vids im (other cur) (dp_low cur (proj1 Hc)) Htypes s s' Hok Ha) as [Hk' Ha'].
  destruct (act_frame cur (dp cur) rate0 before vids im (other cur) (dp_low cur (proj1 Hc)) Htypes s s' Hok Ha) as [Hke Hst].
  pose proof (call_beside vids im cur (uk s) (uk s') Hk Hke Hst) as Hb.
  assert (∀ q, live (uk s') q → live (uk s) q) as Hl.
  { intros q [H1 H2]. split; [done|]. by rewrite <- (be_used _ _ _ Hb). }
  split.
  - split; [|done| |].
    + exists stk. destruct Hsim as [Hf H2 H3 H4]. split; cbn [fst snd] in *; [|done|done|apply Hk'].
      by apply (forest_keeps cur (uk s)).
    + intros q Hq. destruct (decide (q = cur)) as [->|Hne].
      * exact (mo_dir _ _ _ _ (ki_mach _ _ _ (ko_kbd _ _ _ _ Hk'))).
      * rewrite (be_dirs _ _ _ Hb q Hne (Hl q Hq)). apply Hd, Hl, Hq.
    + intros q Hq. destruct (decide (q = cur)) as [->|Hne]; [done|].
      apply (args_ok_ext q (uk s)); [by rewrite (be_other _ _ _ Hb q Hne (Hl q Hq))|apply Hargs, Hl, Hq].
  - intros p Hne Hp. split; [by apply (be_other _ _ _ Hb)| |by apply (be_pages _ _ _ Hb)].
    destruct Hp. split; [done|]. by rewrite (be_used _ _ _ Hb).
Qed.

Lemma screen_shared vids cur k term c :
  shared_ok vids k cur → 0 ≤ term < 3 → term ≠ cur_terminal (con k) →
  switch_terminals cur (con k) term = Some c →
  shared_ok vids (with_con k c) cur ∧ ∀ p, p ≠ cur → live k p → kept_for p k (with_con k c).
Proof.
  intros [[stk Hsim] Hk Hd Hargs] Ht Hne E. pose proof (ko_kbd _ _ _ _ Hk) as Hkbd.
  destruct (switch_kept vids cur (con k) c term Hkbd Ht Hne E) as [Ed Ep].
  destruct (switch_spec cur vids (con k) term Hkbd Ht Hne) as (c' & E' & Hkbd' & _ & _ & Hsw & _).
  rewrite E in E'. apply (inj Some) in E'. subst c'. split.
  - split.
    + exists stk. destruct Hsim as [Hf H2 H3 H4]. split; [|done|done|exact H4]. by apply (forest_ext k); try apply Hf.
    + destruct Hk as [H1 H2 H3 H4 H5 H6 H7 H8]. split; try done.
      apply (fs_rep_ext (kmem k)); [|done]. intros a Ha.
      assert (0x400000 ≤ a < 0x800000) as Ha'
        by (change (fs (with_con k c)) with (fs k) in Ha; lia).
      apply (sw_rest _ _ _ _ Hsw); [by apply kernel_page_view|unfold region, VIDEO; lia].
    + intros q Hq. change (dir_ok (proc_page_directory (tabs (vmem c))).[q] (Some q) (vids q)).
      rewrite Ed. by apply Hd.
    + exact Hargs.
  - intros p Hp [Hr Hu]. split; [done|by split|]. apply Ep; [lia|done].
Qed.

Lemma command_at_ready vids k cur pid command n :
  shared_ok vids k cur → command_at k pid command n → exec_ready vids im k cur pid command n (dp cur) (hp cur).
Proof using PortIO0 Hdp Hhp Hlocals.
  intros [[stk Hsim] Hk Hd Ha] [H1 H2 H3 H4 H5]. pose proof (ko_cur _ _ _ _ Hk) as [Hc _].
  pose proof (sim_forest _ _ Hsim) as Hf. 
  exact {| er_ok := Hk; er_used := fo_lused _ _ Hf; er_free := H1; er_cmd := H2; er_short := H3; er_apart := H4;
          er_dp := Hdp cur Hc; er_hp := Hhp cur Hc; er_locals := Hlocals cur; er_hist := H5 |}.
Qed.

(** The arguments of a started program. *)
Lemma typed_args k command n :
  str_at (kmem k) command n → n ≤ 127 →
  args_len (bytes_of (command_args (typed k command n)) 128) (Z.of_nat (length (command_args (typed k command n)))) ∧
  Z.of_nat (length (command_args (typed k command n))) < 128.
Proof.
  intros Hs H5. assert (0 ≤ n) as Hn by apply Hs.
  assert (length (typed k command n) = Z.to_nat n) as El
    by (unfold typed, bytes; by rewrite length_fmap, length_seqZ).
  assert (Forall (λ c, 0 < c < 256) (typed k command n)) as Hall.
  { apply Forall_lookup. intros j x Hx. unfold typed, bytes in Hx.
    apply list_lookup_fmap_Some in Hx as (i & -> & Hi). apply lookup_seqZ in Hi as [-> Hi].
    destruct Hs as (_ & Hnz & _). pose proof (rd_range (kmem k) (command + (0 + Z.of_nat j))).
    specialize (Hnz (0 + Z.of_nat j) ltac:(lia)). lia. }
  destruct (command_args_chars _ Hall) as [Hc Hl]. rewrite El in Hl.
  destruct (new_args _ Hc ltac:(lia)) as (Hlen & _ & _). split; [done|lia].
Qed.

Lemma execute_shared vids k cur pid command n i esp ebp k' eip u_esp :
  shared_ok vids k cur → command_at k pid command n → program_entry im k command n = Some i →
  0 ≤ d_inode (im_dents im).[i] < num_inodes im → program_file (im_files im).[d_inode (im_dents im).[i]] →
  execute k cur esp ebp command (dp cur) (hp cur) = Some (ExUser k' pid eip u_esp) →
  shared_ok vids k' pid ∧ ∀ p, p ≠ cur → live k p → kept_for p k k'.
Proof using PortIO0 Hdp Hhp Hlocals.
  intros Hsh Hca Hi Hin [Hl He] E. pose proof (command_at_ready vids k cur pid command n Hsh Hca) as Hr.
  destruct Hsh as [[stk Hsim] Hk Hd Ha].
  destruct (execute_simulates k cur stk _ _ _ _ _ _ _ _ _ Hsim E) as (t & Ht & _ & Hpid & Hna & _ & Hsim').
  destruct (execute_starts kernel_view vids im k cur pid command n (dp cur) (hp cur) (kernel_ok_base _ _ _ _ Hk)
    (er_used _ _ _ _ _ _ _ _ _ Hr) (ca_free _ _ _ _ Hca) (ca_cmd _ _ _ _ Hca) (ca_short _ _ _ _ Hca) (ca_apart _ _ _ _ Hca)
    (er_dp _ _ _ _ _ _ _ _ _ Hr) (er_hp _ _ _ _ _ _ _ _ _ Hr) (er_locals _ _ _ _ _ _ _ _ _ Hr) esp ebp (ca_hist _ _ _ _ Hca) i Hi Hin Hl He)
    as (k2 & E2 & Hst).
  rewrite E in E2. apply (inj Some) in E2. injection E2 as E2 _ _. subst k2. clear E.
  pose proof (sim_forest _ _ Hsim) as Hf. pose proof (sim_forest _ _ Hsim') as Hf'. cbn [fst snd] in Hf, Hf'.
  assert (∀ q, live k' q → q ≠ pid → live k q) as Hlq.
  { intros q [Hq Hu] Hne. split; [done|]. apply (fo_used _ _ Hf q Hq).
    apply (fo_used _ _ Hf' q Hq) in Hu. apply alive_push in Hu as [->|Hu]; done. }
  split.
  - split; [by eexists|apply Hst| |].
    + intros q Hq. destruct (decide (q = pid)) as [->|Hne].
      * exact (mo_dir _ _ _ _ (ki_mach _ _ _ (ko_kbd _ _ _ _ (st_ok _ _ _ _ _ _ _ _ _ _ _ _ Hst)))).
      * rewrite (st_dirs _ _ _ _ _ _ _ _ _ _ _ _ Hst q Hne). by apply Hd, Hlq.
    + intros q Hq. destruct (decide (q = pid)) as [->|Hne].
      * destruct (typed_args k command n (proj1 (ca_cmd _ _ _ _ Hca)) (ca_short _ _ _ _ Hca)) as [A1 A2]. eexists.
        rewrite (st_args _ _ _ _ _ _ _ _ _ _ _ _ Hst). split; [exact A1|]. split; [exact A2|].
        unfold bytes_of. rewrite length_fmap, length_seqZ. lia.
      * apply (args_ok_ext q k); [apply (st_allargs _ _ _ _ _ _ _ _ _ _ _ _ Hst q Hne)|by apply Ha, Hlq].
  - intros p Hne Hp. assert (p ≠ pid) as Hpp.
    { intros ->. apply Hna. destruct Hp as [Hr' Hu]. exact (proj1 (fo_used _ _ Hf pid Hr') Hu). }
    assert (p ≠ if pid <=? 2 then pid else cur) as Hpa by (by rewrite (proj2 (Z.leb_gt pid 2)) by lia).
    split; [exact (st_other _ _ _ _ _ _ _ _ _ _ _ _ Hst p Hpp Hpa)| |].
    + destruct Hp as [Hp Hu]. split; [done|]. apply (fo_used _ _ Hf' p Hp). apply alive_push.
      { done. }
      right. exact (proj1 (fo_used _ _ Hf p Hp) Hu).
    + destruct (st_mem _ _ _ _ _ _ _ _ _ _ _ _ Hst) as (m & _ & Hms & _ & Hpg). destruct Hp as [Hp _].
      apply (same_page_trans _ m); [|apply Hpg; lia].
      destruct (Hms _ (others_stable _ _ _ _ (ki_mach _ _ _ (ko_kbd _ _ _ _ Hk))) (others_refl _ _)) as [_ Ho].
      apply Ho; [lia|done].
Qed.

Lemma refused_shared vids k cur pid command n esp ebp k' v :
  shared_ok vids k cur → command_at k pid command n → no_program (program_entry im k command n) →
  execute k cur esp ebp command (dp cur) (hp cur) = Some (ExRet k' v) →
  shared_ok vids k' cur ∧ ∀ p, p ≠ cur → live k p → kept_for p k k'.
Proof using PortIO0 Hdp Hhp Hlocals.
  intros Hsh Hca Hi E. pose proof (command_at_ready vids k cur pid command n Hsh Hca) as Hr.
  destruct Hsh as [[stk Hsim] Hk Hd Ha].
  destruct (step_simulates (k, cur) (k', cur) (stk, cur) Hsim (step_execute_fails _ _ _ _ _ _ _ _ _ E))
    as ([stk' c'] & _ & Hsim'). pose proof (sim_cur _ _ Hsim') as Ec. cbn in Ec. subst c'.
  destruct (execute_refuses kernel_view vids im k cur pid command n (dp cur) (hp cur) (kernel_ok_base _ _ _ _ Hk)
    (er_used _ _ _ _ _ _ _ _ _ Hr) (ca_free _ _ _ _ Hca) (ca_cmd _ _ _ _ Hca) (ca_short _ _ _ _ Hca) (ca_apart _ _ _ _ Hca)
    (er_dp _ _ _ _ _ _ _ _ _ Hr) (er_hp _ _ _ _ _ _ _ _ _ Hr) (er_locals _ _ _ _ _ _ _ _ _ Hr) esp ebp (ca_hist _ _ _ _ Hca) Hk Hi)
    as (k2 & E2 & Hk2 & Hu & _ & Hq & Hdc).
  rewrite E in E2. apply (inj Some) in E2. injection E2 as E2 _. subst k2. clear E.
  assert (∀ q, live k' q → live k q) as Hl by (intros q [H1 H2]; split; [done|by rewrite <- Hu]).
  split.
  - split; [by eexists|done| |].
    + intros q Hq'. assert (tabs (kmem k') = tabs (kmem k)) as ->
        by (pose proof (proj1 (dc_mem _ _ _ _ _ Hdc)) as C; by injection C). by apply Hd, Hl.
    + intros q Hq'. apply (args_ok_ext q k); [|by apply Ha, Hl]. by rewrite (Hq q (proj2 (Hl q Hq'))).
  - intros p Hne [Hp Hup]. split; [by apply Hq|split; [done|by rewrite Hu]|].
    destruct (dc_stores _ _ _ _ _ Hdc _ (others_stable _ _ _ _ (ki_mach _ _ _ (ko_kbd _ _ _ _ Hk))) (others_refl _ _)) as [_ Ho].
    apply Ho; [lia|done].
Qed.

Lemma halt_shared vids k cur status esp ebp shell k' parent sp bp st :
  shared_ok vids k cur → cur ≠ p_parent (pcbs k).[cur] →
  halt k cur status esp ebp shell (dp cur) (hp cur) = Some (HResume k' parent sp bp st) →
  shared_ok vids k' parent ∧ ∀ p, p ≠ cur → live k p → kept_for p k k'.
Proof.
  intros [[stk Hsim] Hk Hd Ha] Hne E.
  destruct (halt_pop_simulates k cur stk _ _ _ _ _ _ _ _ _ _ _ Hsim Hne E) as (t & l & Ht & Es & Hsim').
  revert E. pose proof (sim_forest _ _ Hsim) as Hf. cbn [fst snd] in Hf.
  assert (p_parent (pcbs k).[cur] = parent) as Epar by (exact (fo_parent _ _ Hf t [] cur parent l Ht Es)).
  assert (parent ∈ stk t) as Hpin by (rewrite Es; apply list_elem_of_further, list_elem_of_here).
  assert (live k parent) as Hpl.
  { pose proof (fo_range _ _ Hf t parent Ht Hpin). split; [done|]. apply (fo_used _ _ Hf); [done|by exists t]. }
  destruct (fo_pcb _ _ Hf t parent Ht Hpin) as [Hpp Hpt].
  pose proof (halt_resumes vids im k cur status esp ebp shell (dp cur) (hp cur) Hk) as H. cbv zeta in H.
  rewrite Epar in H, Hne. assert (0 ≤ p_terminal_id (pcbs k).[parent] < 3) as Hpt' by (by rewrite Hpt).
  destruct (H (not_eq_sym Hne) Hpl Hpp Hpt' (Hd parent Hpl)) as (k2 & E2 & Htk & Hk2).
  intros E. rewrite E in E2. apply (inj Some) in E2. injection E2 as E2 _ _ _. subst k2. clear E H.
  pose proof (tk_reaped _ _ _ _ _ Htk) as R.
  assert (∀ q, live k' q → q ≠ cur ∧ live k q) as Hl.
  { intros q [Hq Hu]. rewrite (re_used _ _ _ _ R) in Hu. rewrite aget_aset in Hu.
    - case_decide as Hd'; [done|]. split; [congruence|by split].
    - rewrite (fo_lused _ _ Hf). pose proof (ko_cur _ _ _ _ Hk) as [Hc _]. lia. }
  split.
  - split; [by eexists|done| |].
    + intros q Hq. rewrite (tk_tabs _ _ _ _ _ Htk). by apply Hd, Hl.
    + intros q Hq. destruct (Hl q Hq) as [Hq1 Hq2]. apply (args_ok_ext q k); [|by apply Ha].
      by rewrite (re_other _ _ _ _ R q Hq1).
  - intros p Hpc [Hp Hu]. split; [by apply (re_other _ _ _ _ R)| |apply (tk_pages _ _ _ _ _ Htk); [lia|done]].
    split; [done|]. by rewrite (re_used _ _ _ _ R), aget_aset_ne by congruence.
Qed.

(** [vidmap] gives the process a page of its terminal. *)
Lemma vidmap_shared vids k cur a k' :
  shared_ok vids k cur → user_buf a 4 → vidmap k cur a = Some (k', 0) →
  let vids' := λ q, if q =? cur then Some (p_terminal_id (pcbs k).[cur]) else vids q in
  shared_ok vids' k' cur ∧ ∀ p, p ≠ cur → live k p → kept_for p k k'.
Proof.
  intros [[stk Hsim] Hk Hd Ha] Hu E vids'. rewrite (vidmap_returns vids im k cur a Hk Hu) in E.
  apply (inj Some) in E. injection E as E. set (t := p_terminal_id (pcbs k).[cur]) in *.
  set (m2 := vidmap_mach (kmem k) cur t a) in *. subst k'.
  pose proof (vidmap_kernel_ok vids im k cur a Hk Hu) as Hk2. fold t m2 vids' in Hk2.
  pose proof (ki_mach _ _ _ (ko_kbd _ _ _ _ Hk)) as Hm.
  destruct (store32_stable (others_kept (kmem k) cur) (others_stable _ _ _ _ Hm) (kmem k) a USER_VIDEO (others_refl _ _)) as [Hc Hp].
  split.
  - split; [|exact Hk2| |exact Ha].
    + exists stk. destruct Hsim as [Hf H2 H3 H4]. split; [|done|done|exact H4]. by apply (forest_ext k); try apply Hf.
    + intros q Hq. destruct (decide (q = cur)) as [->|Hne].
      * exact (mo_dir _ _ _ _ (ki_mach _ _ _ (ko_kbd _ _ _ _ Hk2))).
      * unfold vids'. rewrite (proj2 (Z.eqb_neq q cur) Hne).
        assert (tabs (store32 (kmem k) a USER_VIDEO) = tabs (kmem k)) as Et by (by injection Hc).
        change (dir_ok (proc_page_directory (vidmap_paging (tabs (store32 (kmem k) a USER_VIDEO)) cur t)).[q]
          (Some q) (vids q)).
        rewrite Et, vidmap_paging_other by done. by apply Hd.
  - intros p Hne Hp'. split; [done|exact Hp'|]. apply (Hp p); [|done]. destruct Hp'. lia.
Qed.

(** A root shell that ends is started again. *)
Lemma restart_shared vids k cur status esp ebp shell i k' pid eip u_esp :
  shared_ok vids k cur → cur = p_parent (pcbs k).[cur] → shell_at k shell i →
  0 ≤ d_inode (im_dents im).[i] < num_inodes im → program_file (im_files im).[d_inode (im_dents im).[i]] →
  halt k cur status esp ebp shell (dp cur) (hp cur) = Some (HUser k' pid eip u_esp) →
  shared_ok vids k' pid ∧ ∀ p, p ≠ cur → live k p → kept_for p k k'.
Proof using PortIO0 Hdp Hhp Hlocals.
  intros [[stk Hsim] Hk Hd Ha] Hpar [S1 S2 S3 S4] Hin [Hl He] E.
  destruct (halt_root_simulates k cur stk _ _ _ _ _ _ _ _ _ _ Hsim E) as (t & Ht & Es & -> & -> & Hsim').
  pose proof (sim_forest _ _ Hsim) as Hf. cbn [fst snd] in Hf.
  assert (∀ p, 0 ≤ p < t → (proc_id_used k).[p] = true) as Hlow.
  { intros p Hp. apply (fo_used _ _ Hf); [lia|]. destruct (fo_root _ _ Hf p ltac:(lia)) as [l El].
    exists p. split; [lia|]. rewrite El. apply elem_of_app. right. by apply list_elem_of_singleton. }
  destruct (halt_restarts vids im k t status esp ebp shell (dp t) (hp t) i Hk (eq_sym Hpar) ltac:(lia) (fo_lused _ _ Hf) Hlow
    S1 S2 S3 (Hdp t ltac:(lia)) (Hhp t ltac:(lia)) (Hlocals t) S4 Hin Hl He) as (k1 & k2 & E2 & Htk & Hst).
  rewrite E in E2. apply (inj Some) in E2. injection E2 as E2 _ _. subst k2. clear E.
  pose proof (tk_reaped _ _ _ _ _ Htk) as R. pose proof (st_spawned _ _ _ _ _ _ _ _ _ _ _ _ Hst) as Hsp.
  assert (proc_id_used k' = proc_id_used k) as Eu.
  { rewrite (sp_used _ _ _ _ _ Hsp), (re_used _ _ _ _ R), aset_aset.
    rewrite <- (proj2 (ko_cur _ _ _ _ Hk)). apply aset_same. }
  assert (∀ q, live k' q → live k q) as Hlq by (intros q [Hq Hu]; split; [done|by rewrite <- Eu]).
  split.
  - split; [by eexists|apply Hst| |].
    + intros q Hq. destruct (decide (q = t)) as [->|Hne].
      * exact (mo_dir _ _ _ _ (ki_mach _ _ _ (ko_kbd _ _ _ _ (st_ok _ _ _ _ _ _ _ _ _ _ _ _ Hst)))).
      * rewrite (st_dirs _ _ _ _ _ _ _ _ _ _ _ _ Hst q Hne), (tk_tabs _ _ _ _ _ Htk). by apply Hd, Hlq.
    + intros q Hq. destruct (decide (q = t)) as [->|Hne].
      * assert (str_at (kmem k1) shell 5) as S1'.
        { destruct S1 as (Z1 & Z2 & Z3). split; [done|]. split; [intros j Hj|];
            rewrite (tk_kernel _ _ _ _ _ Htk) by lia; [by apply Z2|done]. }
        destruct (typed_args k1 shell 5 S1' ltac:(lia)) as [A1 A2]. eexists.
        rewrite (st_args _ _ _ _ _ _ _ _ _ _ _ _ Hst). split; [exact A1|]. split; [exact A2|].
        unfold bytes_of. rewrite length_fmap, length_seqZ. lia.
      * apply (args_ok_ext q k); [|by apply Ha, Hlq].
        by rewrite (st_allargs _ _ _ _ _ _ _ _ _ _ _ _ Hst q Hne), (re_other _ _ _ _ R q Hne).
  - intros p Hne [Hp Hu]. split; [|split; [done|by rewrite Eu]|].
    + rewrite (st_other _ _ _ _ _ _ _ _ _ _ _ _ Hst p Hne); [by apply (re_other _ _ _ _ R)|].
      by destruct (t <=? 2).
    + destruct (st_mem _ _ _ _ _ _ _ _ _ _ _ _ Hst) as (m & _ & Hms & _ & Hpg).
      apply (same_page_trans _ (kmem k1)); [apply (tk_pages _ _ _ _ _ Htk); [lia|done]|].
      apply (same_page_trans _ m); [|apply Hpg; [lia|done]].
      destruct (Hms _ (others_stable _ _ _ _ (tk_mach _ _ _ _ _ Htk)) (others_refl _ _)) as [_ Ho].
      apply Ho; [lia|done].
Qed.

(** Process [p] keeps what it left behind, and its video page. *)
Definition left_alone vids vids' p k k' : Prop := kept_for p k k' ∧ vids' p = vids p.

Lemma turn_shared vids x y :
  turn x y → shared_ok vids (uk x.1) x.2 →
  ∃ vids', shared_ok vids' (uk y.1) y.2 ∧
    ∀ p, p ≠ x.2 → live (uk x.1) p → left_alone vids vids' p (uk x.1) (uk y.1).
Proof using PortIO0 Hdp Hhp Hlocals Htypes.
  intros Ht Hsh.
  assert ((shared_ok vids (uk y.1) y.2 ∧ ∀ p, p ≠ x.2 → live (uk x.1) p → kept_for p (uk x.1) (uk y.1)) →
    ∃ vids', shared_ok vids' (uk y.1) y.2 ∧
      ∀ p, p ≠ x.2 → live (uk x.1) p → left_alone vids vids' p (uk x.1) (uk y.1)) as Hsame.
  { intros [H1 H2]. exists vids. split; [done|]. intros p Hp Hlp. split; [by apply H2|done]. }
  destruct Ht as [cur s s' Ha|cur s a k' Hu E|cur s pid cmd n i esp ebp k' eip u Hc Hi Hin Hf E
    |cur s pid cmd n esp ebp k' v Hc Hi E|cur s st esp ebp shell k' par sp bp r Hne E
    |cur s st esp ebp shell i k' pid eip u Hpar Hs Hin Hf E
    |cur s term c H1 H2 E|cur s esp ebp shell k' next sp bp E]; cbn [fst snd uk with_kernel] in *.
  - by apply Hsame, act_shared.
  - destruct (vidmap_shared vids _ cur a k' Hsh Hu E) as [H1 H2]. eexists. split; [exact H1|].
    intros p Hp Hlp. split; [by apply H2|]. by rewrite (proj2 (Z.eqb_neq p cur) Hp).
  - by apply Hsame, (execute_shared vids _ cur pid cmd n i esp ebp k' eip u).
  - by apply Hsame, (refused_shared vids _ cur pid cmd n esp ebp k' v).
  - by apply Hsame, (halt_shared vids _ cur st esp ebp shell k' par sp bp r).
  - by apply Hsame, (restart_shared vids _ cur st esp ebp shell i k' pid eip u).
  - by apply Hsame, (screen_shared vids cur _ term).
  - apply Hsame. destruct (tick_continues vids im _ _ _ _ _ _ _ _ _ _ _ Hsh E) as [Hti _].
    split; [exact (ti_shared _ _ _ _ _ _ _ _ Hti)|]. intros p Hp [Hr Hu].
    split; [by apply (ti_other _ _ _ _ _ _ _ _ Hti)|split; [done|by rewrite (ti_used _ _ _ _ _ _ _ _ Hti)]|].
    apply (ti_pages _ _ _ _ _ _ _ _ Hti). lia.
Qed.

Lemma away_shared p x y :
  rtc (away p) x y → ∀ vids, shared_ok vids (uk x.1) x.2 → live (uk x.1) p →
  ∃ vids', shared_ok vids' (uk y.1) y.2 ∧ left_alone vids vids' p (uk x.1) (uk y.1).
Proof using PortIO0 Hdp Hhp Hlocals Htypes.
  induction 1 as [x|x y z [Hne Ht] _ IH]; intros vids Hsh Hp; [exists vids; by split|].
  destruct (turn_shared vids x y Ht Hsh) as (v1 & Hsh' & Hk). destruct (Hk p (not_eq_sym Hne) Hp) as [Hk1 Hv1].
  destruct (IH v1 Hsh' (kf_live _ _ _ Hk1)) as (v2 & Hz & Hk2 & Hv2).
  exists v2. split; [done|]. split; [by apply (kept_for_trans _ _ (uk y.1))|congruence].
Qed.

(** Process [p], interrupted in [s] with its registers [esp] and [ebp], runs on
    in [s'] with [sp] and [bp]. *)
Record runs_on vids p s (esp ebp : Z) s' (sp bp : Z) : Prop := {
  ro_regs : (sp : Z) = esp ∧ (bp : Z) = ebp;
  ro_shared : ∃ vids', shared_ok vids' (uk s') p ∧ vids' p = vids p;
  ro_stack : tss_esp0 (uk s') = pcb_addr p + KB8 - 4;
  ro_mem : ∀ a, user_page a → rd s' a = rd s a;
  ro_handle : ∀ fd, sv_handle (ServiceView := KernelView p vids im) s' fd =
                    sv_handle (ServiceView := KernelView p vids im) s fd;
  ro_args : sv_args (ServiceView := KernelView p vids im) s' =
            sv_args (ServiceView := KernelView p vids im) s
}.

(** The process' page as it sees it. *)
Lemma same_page_rd vids vids' p s s' a :
  kernel_ok vids im (uk s) p → kernel_ok vids' im (uk s') p →
  same_page (kmem (uk s)) (kmem (uk s')) p → user_page a → rd s' a = rd s a.
Proof.
  intros Hk Hk' Hp Ha. cbn [rd UserMem]. unfold user_rd.
  rewrite (user_cell p vids im _ a Hk Ha), (user_cell p vids' im _ a Hk' Ha).
  assert (∀ t, view_cell p t a = 0x800000 + 0x400000 * p + (a - USER_MEM_LOCATION)) as E.
  { intros t. unfold user_page, region, view_cell, USER_MEM_LOCATION, VIDEO in *. cases_lia; lia. }
  rewrite !E. apply Hp. unfold proc_page, region, user_page, region in *. lia.
Qed.

Lemma continued vids vids' p s s1 s2 s3 q r esp ebp e b sp bp :
  shared_ok vids (uk s) p → ticked vids im (uk s) (uk s1) p q esp ebp →
  left_alone vids vids' p (uk s1) (uk s2) → ticked vids' im (uk s2) (uk s3) r p e b →
  r ≠ p → sp = p_esp (pcbs (uk s3)).[p] → bp = p_ebp (pcbs (uk s3)).[p] →
  runs_on vids p s esp ebp s3 sp bp.
Proof.
  intros Hsh T1 [K Hv] T2 Hr -> ->. pose proof (ko_cur _ _ _ _ (sh_ok _ _ _ _ Hsh)) as [Hp _].
  assert ((pcbs (uk s3)).[p] = ((pcbs (uk s)).[p] <| p_esp := esp |> <| p_ebp := ebp |>)) as E.
  { rewrite (ti_other _ _ _ _ _ _ _ _ T2 p (not_eq_sym Hr)), (kf_pcb _ _ _ K). apply (ti_cur _ _ _ _ _ _ _ _ T1). }
  split.
  - by rewrite E.
  - exists vids'. split; [exact (ti_shared _ _ _ _ _ _ _ _ T2)|done].
  - exact (ti_stack _ _ _ _ _ _ _ _ T2).
  - intros a. apply (same_page_rd vids vids' p); [exact (sh_ok _ _ _ _ Hsh)|exact (sh_ok _ _ _ _ (ti_shared _ _ _ _ _ _ _ _ T2))|].
    apply (same_page_trans _ (kmem (uk s1))); [apply (ti_pages _ _ _ _ _ _ _ _ T1); lia|].
    apply (same_page_trans _ (kmem (uk s2))); [exact (kf_page _ _ _ K)|apply (ti_pages _ _ _ _ _ _ _ _ T2); lia].
  - intros fd. cbn [sv_handle KernelView]. unfold get_fd. by rewrite E.
  - cbn [sv_args KernelView]. unfold args_of. by rewrite E.
Qed.

End Turns.

(** ** Witness

    The three shells of the demonstration kernel: process 0 is interrupted,
    process 1 stores a byte at an address both can use and is interrupted,
    process 2 is interrupted, and process 0 runs on. *)

#[local] Opaque demo_mach kphys.

Definition share_tabs : tables := execute_paging (execute_paging (tabs kmach) 1) 2.
Definition share_mach : mach := kmach <| tabs := share_tabs |> <| tlb := share_tabs |>.
Definition share_kernel : kernel (list (Z * Z)) := with_mem demo_kernel share_mach.
Definition share_state : ustate (list (Z * Z)) := mk_ustate share_kernel [] [].

#[local] Abbreviation no_vids := (λ _ : Z, @None Z).

Lemma share_dirs :
  tables_ok share_tabs 0 no_vids ∧
  ∀ q, 0 ≤ q < 3 → dir_ok (proc_page_directory share_tabs).[q] (Some q) None.
Proof.
  destruct kmach_ok as [_ _ HT HD _ _].
  destruct (execute_paging_ok _ 0 no_vids 1 HT ltac:(lia)) as (HT1 & D1 & O1).
  destruct (execute_paging_ok _ 0 no_vids 2 HT1 ltac:(lia)) as (HT2 & D2 & O2).
  split; [exact HT2|]. intros q Hq. apply (three q); [exact Hq| | |exact D2].
  - unfold share_tabs. rewrite O2, O1 by lia. exact HD.
  - unfold share_tabs. rewrite O2 by lia. exact D1.
Qed.

Lemma share_mach_ok : mach_ok share_mach 0 0 no_vids.
Proof.
  destruct kmach_ok as [H1 H2 _ _ _ H6]. destruct share_dirs as [HT HD].
  split; [exact H1|exact H2|exact HT|exact (HD 0 ltac:(lia))|reflexivity|exact H6].
Qed.

Lemma share_kernel_ok : kernel_ok no_vids kimage share_kernel 0.
Proof.
  destruct demo_kernel_ok as [H1 H2 H3 H4 H5 H6 H7 H8]. split; [exact H1|exact H2| | |exact H5|exact H6|exact H7|exact H8].
  - exact (kbd_inv_mach 0 0 no_vids no_vids kcon share_mach kcon_inv share_mach_ok).
  - change (fs_rep share_mach kfs kimage). apply (fs_rep_ext kphys); [|exact kfs_rep_flat].
    intros a Ha. cbn [kfs fs_base fs_end] in Ha. rewrite <- (kmach_kernel a) by lia.
    by rewrite (rd_kernel share_mach _ _ _ a share_mach_ok), (rd_kernel kmach _ _ _ a kmach_ok) by lia.
Qed.

Lemma share_live q : live share_kernel q → 0 ≤ q < 3.
Proof. intros [Hq Hu]. by apply (demo_flags q Hq). Qed.

Lemma share_args q : p_args (pcbs share_kernel).[q] = [120; 32; 121] ++ replicate 125 0 → args_ok q share_kernel.
Proof.
  intros E. exists 3. rewrite E. split; [split|].
  - lia.
  - intros j Hj. by assert (j = 0 ∨ j = 1 ∨ j = 2) as [->|[->| ->]] by lia.
  - reflexivity.
  - intros j. apply bytes_aget. apply Forall_app_2; [repeat constructor; discriminate|].
    apply Forall_replicate. lia.
  - split; [lia|]. rewrite length_app, length_replicate. cbn. lia.
Qed.

Lemma share_ok : shared_ok no_vids kimage share_kernel 0.
Proof.
  split.
  - exists demo_stk. split; cbn [fst snd]; [|reflexivity|by apply demo_top|exact kfiles].
    apply (forest_ext demo_kernel); try reflexivity. exact demo_forest.
  - exact share_kernel_ok.
  - intros q Hq. apply (proj2 share_dirs q), share_live, Hq.
  - intros q Hq. apply share_args. apply share_live in Hq. by apply (three q).
Qed.

(** A timer interrupt with the three shells active. *)
Definition three_shells (k : kernel (list (Z * Z))) (q : Z → Prop) : Prop :=
  active k = active demo_kernel ∧ shells_started k = 3 ∧ ∀ p, q p → p_pid (pcbs k).[p] = p.

Lemma share_tick k (Q : Z → Prop) cur esp ebp dp hp next :
  three_shells k Q → Q cur → (active demo_kernel).[cur <- true] = active demo_kernel →
  get_next_proc (active demo_kernel) cur = Some next →
  ∃ k' sp bp, pit_irq_handler k cur esp ebp 0 dp hp = Some (SResume k' next sp bp) ∧
    three_shells k' (λ p, Q p ∧ p ≠ cur).
Proof.
  intros (Ea & Es & Ep) Hq Ec En. unfold pit_irq_handler, sched. cbv zeta. set (k1 := with_pcb _ cur _).
  change (shells_started k1) with (shells_started k).
  assert (active k1 = active demo_kernel) as Ea1
    by (rewrite <- Ec, <- Ea, <- (Ep cur Hq) at 1; reflexivity).
  assert (p_pid (pcbs (with_dev k (send_eoi (kdev k) 0))).[cur] = cur) as -> by exact (Ep cur Hq).
  rewrite Es. change (3 <? 3) with false. cbv iota. rewrite Ea1, En, bind_some.
  unfold switch_to. cbv zeta. eexists _, _, _. split; [reflexivity|]. split; [exact Ea1|]. split; [exact Es|].
  intros p [Hp Hne]. change ((pcbs _).[p]) with ((pcbs k1).[p]). unfold k1. rewrite get_with_pcb_ne by done.
  exact (Ep p Hp).
Qed.

Lemma store_three_shells s a v Q : three_shells (uk s) Q → three_shells (uk (wr s a v)) Q.
Proof. cbn [wr UserMem]. unfold user_wr. by destruct (user_translate _ _). Qed.

