(* ===== verification/Fish.v ===== *)
(** * The fish animation (src/fish)

    fish.c draws two frames on the user video page and lets the characters
    blink between them.  The blinking characters are a linked list of 16-byte
    structures ([mp1_blink_struct]) in a static array, which blink.S inserts
    into ([RTC_ADD]), removes from, searches and synchronises, and walks at
    every tick of the clock ([mp1_rtc_tasklet]).

    [fish_env] holds the addresses of the program's static data and of its
    locals; a pointer is an address, null is 0.  [None]: the program does not
    get further. *)

From S2P Require Import Prelude Memory Lib Printf User.
Import (notations) Stdlib.Strings.String.
#[local] Open Scope Z_scope.

Definition RTC_ADD : Z := 0.
Definition RTC_REMOVE : Z := 1.
Definition RTC_FIND : Z := 2.
Definition RTC_SYNC : Z := 3.

(** [sizeof(struct mp1_blink_struct)] *)
Definition STRUCT_SIZE : Z := 16.

(** The value of a signed 16-bit word. *)
Definition s16 (x : Z) : Z := (x + 32768) mod 65536 - 32768.

Record fish_env := mk_fish_env {
  fe_str : list Z → Z;      (* the string constants, [file0] and [file1] *)
  fe_vmem : Z;              (* vmem_base_addr *)
  fe_head : Z;              (* mp1_list_head *)
  fe_array : Z;             (* blink_array *)
  fe_frame : Z;             (* the temporary of mp1_ioctl_add, 16 bytes *)
  fe_loc : Z;               (* the temporary of mp1_ioctl_find, 2 bytes *)
  fe_blink : Z;             (* [blink_struct] of main *)
  fe_fblink : Z;            (* [blink_struct] of add_frames *)
  fe_c0 : Z; fe_c1 : Z;     (* [c0], [c1] of add_frames *)
  fe_ret : Z; fe_garbage : Z (* [ret_val], [garbage] of main *)
}.

Section Fish.
Context {S : Type} `{!ByteMem S}.
Context (E : fish_env).
Implicit Types (s : S) (a p : Z).

(** A 16-bit load. *)
Definition load16 s a : Z := rd s a + 256 * rd s (a + 1).

(** The fields of [struct mp1_blink_struct]. *)
Definition f_location s p : Z := load16 s p.
Definition f_on_char s p : Z := rd s (p + 2).
Definition f_off_char s p : Z := rd s (p + 3).
Definition f_on_length s p : Z := load16 s (p + 4).
Definition f_off_length s p : Z := load16 s (p + 6).
Definition f_countdown s p : Z := load16 s (p + 8).
Definition f_status s p : Z := load16 s (p + 10).
Definition f_next s p : Z := load32 s (p + 12).

Definition set_location s p v : S := store16 s p v.
Definition set_on_char s p v : S := wr s (p + 2) v.
Definition set_off_char s p v : S := wr s (p + 3) v.
Definition set_on_length s p v : S := store16 s (p + 4) v.
Definition set_off_length s p v : S := store16 s (p + 6) v.
Definition set_countdown s p v : S := store16 s (p + 8) v.
Definition set_status s p v : S := store16 s (p + 10) v.
Definition set_next s p v : S := store32 s (p + 12) v.

(** ** fish.c: memory *)

Definition ece391_memset s (memory c n : Z) : S :=
  for_loop (Z.to_nat n) 0 (λ i s, wr s (memory + i) c) s.

Definition ece391_memcpy s (dest src n : Z) : S :=
  for_loop (Z.to_nat n) 0 (λ i s, wr s (dest + i) (rd s (src + i))) s.

(** [&blink_array[i]] *)
Definition slot (i : Z) : Z := fe_array E + STRUCT_SIZE * i.

(** The first element whose location is 0. *)
Definition mp1_malloc s : option Z :=
  while (λ i,
    if i <? 80 * 25 then
      if f_location s (slot i) =? 0 then inr (slot i) else inl (i + 1)
    else inr 0) 0.

Definition mp1_free s (memory : Z) : S := ece391_memset s memory 0 STRUCT_SIZE.

(** ** blink.S *)

(** The byte [cl] at offset [eax] of the video page. *)
Definition mp1_poke s (cl eax : Z) : S := wr s (u32 (load32 s (fe_vmem E) + eax)) cl.

(** One element of the list in [mp1_rtc_tasklet]. *)
Definition tasklet_element s (ebx : Z) : S :=
  let s := set_countdown s ebx (u16 (f_countdown s ebx - 1)) in
  if s16 (f_countdown s ebx) >? 0 then s
  else
    let eax := 2 * f_location s ebx in
    let '(s, dx) :=
      if Z.testbit (f_status s ebx) 0 then
        let s := mp1_poke s (f_off_char s ebx) eax in (s, f_off_length s ebx)
      else
        let s := mp1_poke s (f_on_char s ebx) eax in (s, f_on_length s ebx) in
    let s := set_countdown s ebx dx in
    set_status s ebx (Z.lxor (f_status s ebx) 1).

Definition mp1_rtc_tasklet s : option S :=
  while (λ '(s, ebx),
    if ebx =? 0 then inr s
    else let s := tasklet_element s ebx in inl (s, f_next s ebx)) (s, load32 s (fe_head E)).

(** The element at a location, 0 when there is none. *)
Definition mp1_find_helper s (ax : Z) : option Z :=
  while (λ ebx,
    if ebx =? 0 then inr 0
    else if f_location s ebx =? u16 ax then inr ebx
    else inl (f_next s ebx)) (load32 s (fe_head E)).

Definition mp1_ioctl_add s (arg : Z) : option (S * Z) :=
  let ebx := fe_frame E in
  let s := ece391_memcpy s ebx arg 16 in
  if f_location s ebx >=? 80 * 25 then Some (s, -1)
  else
    let s := set_status s ebx 1 in
    let s := set_countdown s ebx (f_on_length s ebx) in
    edx ← mp1_malloc s;
    if edx =? 0 then Some (s, -1)
    else
      let s := ece391_memcpy s edx ebx 16 in
      let s := set_next s edx (load32 s (fe_head E)) in
      let s := store32 s (fe_head E) edx in
      let s := mp1_poke s (f_on_char s edx) (2 * f_location s edx) in
      Some (s, 0).

(** [edx] runs over the places that hold a pointer to an element. *)
Definition mp1_ioctl_remove s (arg : Z) : option (S * Z) :=
  eax ← mp1_find_helper s arg;
  if eax =? 0 then Some (s, -1)
  else
    edx ← while (λ edx, if load32 s edx =? eax then inr edx else inl (u32 (load32 s edx + 12))) (fe_head E);
    let s := store32 s edx (f_next s eax) in
    Some (mp1_free s eax, 0).

(** [testb $1, STATUS] leaves the sign and overflow flags clear, so that
    [cmovl] (move if less, SF ≠ OF) keeps [OFF_CHAR]. *)
Definition sync_char s (edi : Z) : Z :=
  let SF := Z.testbit (Z.land (f_status s edi) 1) 7 in
  let OF := false in
  if xorb SF OF then f_on_char s edi else f_off_char s edi.

Definition mp1_ioctl_sync s (arg : Z) : option (S * Z) :=
  esi ← mp1_find_helper s (Z.shiftr arg 16);
  if esi =? 0 then Some (s, -1)
  else
    edi ← mp1_find_helper s (Z.land arg 0xFFFF);
    if edi =? 0 then Some (s, -1)
    else
      let s := set_on_length s edi (f_on_length s esi) in
      let s := set_off_length s edi (f_off_length s esi) in
      let s := set_countdown s edi (f_countdown s esi) in
      let s := set_status s edi (f_status s esi) in
      Some (mp1_poke s (sync_char s edi) (2 * f_location s edi), 0).

Definition mp1_ioctl_find s (arg : Z) : option (S * Z) :=
  let edi := fe_loc E in
  let s := ece391_memcpy s edi arg 2 in
  eax ← mp1_find_helper s (load16 s edi);
  if eax =? 0 then Some (s, -1)
  else Some (ece391_memcpy s arg eax 16, 0).

(** The jump through [call_table]. *)
Definition mp1_ioctl s (arg cmd : Z) : option (S * Z) :=
  if cmd =? RTC_ADD then mp1_ioctl_add s arg
  else if cmd =? RTC_REMOVE then mp1_ioctl_remove s arg
  else if cmd =? RTC_FIND then mp1_ioctl_find s arg
  else if cmd =? RTC_SYNC then mp1_ioctl_sync s arg
  else None.

(** ** fish.c: the frames *)

Context `{!Syscalls S}.

(** [if(c != '\n') { ... }] for one of the two files; [eof] is its flag. *)
Definition frame_char s (fd c : Z) (eof : bool) : option (S * bool) :=
  if rd s c =? 10 then Some (s, eof)
  else
    '(s, num_bytes) ← ece391_read s fd c 1;
    if num_bytes =? 0 then Some (wr s c 10, true) else Some (s, eof).

(** A character that blinks. *)
Definition visible (c : Z) : bool := negb (c =? 32) && negb (c =? 10).

Definition add_blink s (row col : Z) : option S :=
  let c0 := rd s (fe_c0 E) in
  let c1 := rd s (fe_c1 E) in
  let bs := fe_fblink E in
  let s := set_on_char s bs (if c0 =? 10 then 32 else c0) in
  let s := set_off_char s bs (if c1 =? 10 then 32 else c1) in
  let s := set_location s bs (row * 80 + col + 40) in
  fst <$> mp1_ioctl s bs RTC_ADD.

(** One column; the last component tells whether the loop is left. *)
Definition frame_body s (fd0 fd1 row col : Z) (eof0 eof1 : bool) : option (S * bool * bool * bool) :=
  '(s, eof0) ← frame_char s fd0 (fe_c0 E) eof0;
  '(s, eof1) ← frame_char s fd1 (fe_c1 E) eof1;
  let c0 := rd s (fe_c0 E) in
  let c1 := rd s (fe_c1 E) in
  if (c0 =? 10) && (c1 =? 10) then Some (s, eof0, eof1, true)
  else
    s ← (if visible c0 || visible c1 then add_blink s row col else Some s);
    Some (s, eof0, eof1, false).

(** The inner loop. *)
Definition frame_col (fd0 fd1 row : Z) (st : S * Z * bool * bool)
    : (S * Z * bool * bool) + option (S * bool * bool) :=
  let '(s, col, eof0, eof1) := st in
  match frame_body s fd0 fd1 row col eof0 eof1 with
  | None => inr None
  | Some (s, eof0, eof1, true) => inr (Some (s, eof0, eof1))
  | Some (s, eof0, eof1, false) => inl (s, s32 (col + 1), eof0, eof1)
  end.

(** After a row: a file at its end is closed (again), the other goes on. *)
Definition frame_next s (fd c : Z) (eof : bool) : option S :=
  if eof then fst <$> ece391_close (wr s c 10) fd else Some (wr s c 48).

(** A whole row. *)
Definition frame_line s (fd0 fd1 row : Z) (eof0 eof1 : bool) : option (S * bool * bool) :=
  r ← while (frame_col fd0 fd1 row) (s, 0, eof0, eof1);
  '(s, eof0, eof1) ← r;
  s ← frame_next s fd0 (fe_c0 E) eof0;
  s ← frame_next s fd1 (fe_c1 E) eof1;
  Some (s, eof0, eof1).

(** The outer loop. *)
Definition frame_row (fd0 fd1 : Z) (st : S * Z * bool * bool) : (S * Z * bool * bool) + option S :=
  let '(s, row, eof0, eof1) := st in
  if negb eof0 || negb eof1 then
    match frame_line s fd0 fd1 row eof0 eof1 with
    | None => inr None
    | Some (s, eof0, eof1) => inl (s, s32 (row + 1), eof0, eof1)
    end
  else inr (Some s).

(** [Some status] in the result: the program has halted. *)
Definition add_frames s (f0 f1 : Z) : option (S * option Z) :=
  let s := wr (wr s (fe_c0 E) 48) (fe_c1 E) 48 in
  let s := set_on_length s (fe_fblink E) 15 in
  let s := set_off_length s (fe_fblink E) 15 in
  '(s, fd0) ← ece391_open s f0;
  if fd0 <? 0 then Some (s, Some (-1))
  else
    '(s, fd1) ← ece391_open s f1;
    if fd1 <? 0 then Some (s, Some (-1))
    else
      r ← while (frame_row fd0 fd1) (s, 0, false, false);
      s ← r;
      Some (s, None).

(** ** fish.c: main *)

(** Null when the call fails. *)
Definition mp1_set_video_mode s : option (S * Z) :=
  '(s, r) ← ece391_vidmap s (fe_vmem E);
  Some (s, if r =? -1 then 0 else load32 s (fe_vmem E)).

(** [n] ticks of the clock. *)
Definition wait_ticks (rtc_fd : Z) (n : nat) s : option S :=
  for_loop n 0 (λ _ o, s ← o; '(s, _) ← ece391_read s rtc_fd (fe_garbage E) 4; mp1_rtc_tasklet s) (Some s).

(** [main] after the frames are drawn. *)
Definition fish_swim (rtc_fd : Z) s : option (S * Z) :=
  let s := store32 s (fe_ret E) 32 in
  '(s, r) ← ece391_write s rtc_fd (fe_ret E) 4;
  let s := store32 s (fe_ret E) r in
  s ← wait_ticks rtc_fd 200 s;
  let bs := fe_blink E in
  let s := set_on_char s bs 73 in
  let s := set_off_char s bs 77 in
  let s := set_on_length s bs 7 in
  let s := set_off_length s bs 6 in
  let s := set_location s bs (6 * 80 + 60) in
  '(s, _) ← mp1_ioctl s bs RTC_ADD;
  s ← wait_ticks rtc_fd 200 s;
  '(s, _) ← mp1_ioctl s (Z.lor (Z.shiftl 40 16) (6 * 80 + 60)) RTC_SYNC;
  s ← wait_ticks rtc_fd 200 s;
  let s := set_location s bs 60 in
  '(s, _) ← mp1_ioctl s 200 RTC_REMOVE;
  s ← wait_ticks rtc_fd 2000 s;
  '(s, _) ← ece391_close s rtc_fd;
  Some (s, 0).

(** [main] after the video page is mapped. *)
Definition fish_show s : option (S * Z) :=
  '(s, rtc_fd) ← ece391_open s (fe_str E (text "rtc"));
  '(s, halted) ← add_frames s (fe_str E (text "frame0.txt")) (fe_str E (text "frame1.txt"));
  match halted with
  | Some status => Some (s, status)
  | None => fish_swim rtc_fd s
  end.

Definition fish s : option (S * Z) :=
  let s := ece391_memset s (fe_array E) 0 (STRUCT_SIZE * 80 * 25) in
  '(s, video) ← mp1_set_video_mode s;
  if video =? 0 then Some (s, -1) else fish_show s.
End Fish.
