(* ===== verification/FishProofs.v ===== *)
(** * The fish animation: proofs

    The blinking characters as a list: the representation of the linked list of
    blink.S in the memory of the program, and what each operation does to it
    and to the screen, on every system that keeps the contracts of
    [FileService] and maps the terminal's page for the program
    ([VideoService]). *)

From S2P Require Import Prelude Memory Lib Types Filesystem FsProofs Paging Console ConsoleProps Printf.
From S2P Require Import Keyboard TerminalProofs Typing User UserLogic Fish.
Import (notations) Stdlib.Strings.String.
#[local] Open Scope Z_scope.

(** The element at an index in range. *)
Lemma get_in {A} `{!HasZero A} (l : list A) k : 0 ≤ k < Z.of_nat (length l) → l !! Z.to_nat k = Some l.[k].
Proof. intros Hk. rewrite lookup_aget by lia. do 2 f_equal. lia. Qed.

(** ** Memory *)

Section Memory.
Context {S : Type} `{!ByteMem S}.
Context (P : Z → Prop).
Implicit Types (s : S) (a p : Z).

Lemma load16_range s a : 0 ≤ load16 s a < 65536.
Proof. unfold load16. pose proof (rd_range s a). pose proof (rd_range s (a + 1)). lia. Qed.

Lemma load16_ext s s' a : (∀ b, region a 2 b → rd s' b = rd s b) → load16 s' a = load16 s a.
Proof. intros H. unfold load16. rewrite !H by (unfold region; lia). done. Qed.

Lemma store16_written s a v :
  safe s P → (∀ b, region a 2 b → P b) → written P s (store16 s a v) a 2 (λ i, u8 (Z.shiftr v (8 * i))).
Proof.
  intros Hs HP. set (f := λ i : Z, u8 (Z.shiftr v (8 * i))).
  assert (written P s (wr s (a + 0) v) a (0 + 1) f) as W.
  { apply written_snoc; [done| |lia|by apply written_0|done].
    intros b Hb. apply HP. unfold region in *. lia. }
  rewrite Z.add_0_r, Z.add_0_l in W. exact (written_snoc P s _ a 1 f _ Hs HP ltac:(lia) W eq_refl).
Qed.

Lemma load16_store16 s a v :
  safe s P → (∀ b, region a 2 b → P b) → load16 (store16 s a v) a = u16 v.
Proof.
  intros Hs HP. pose proof (store16_written s a v Hs HP) as W. unfold load16.
  rewrite !(written_in _ _ _ _ _ _ _ W) by (lia || (apply HP; unfold region; lia)).
  replace (a - a) with 0 by lia. replace (a + 1 - a) with 1 by lia.
  rewrite !Z.shiftr_div_pow2 by lia. change (2 ^ (8 * 0)) with 1. change (2 ^ (8 * 1)) with 256. mlia.
Qed.

Lemma memset_written I s a c n :
  0 ≤ n → safe s P → (∀ b, region a n b → P b) → wr_closed (region a n) I → I s →
  written P s (ece391_memset s a c n) a n (λ _, u8 c) ∧ I (ece391_memset s a c n).
Proof.
  intros Hn Hs HP HI HIs. unfold ece391_memset.
  pose proof (for_loop_inv (λ i s', 0 ≤ i ≤ n ∧ written P s s' a i (λ _, u8 c) ∧ I s') (Z.to_nat n) 0
    (λ i s, wr s (a + i) c) s) as H. rewrite Z2Nat.id, Z.add_0_l in H by lia. apply H; clear H.
  - split; [lia|]. split; [by apply written_0|done].
  - intros i s' Hi (_ & W & HI'). split; [lia|]. split; [|apply HI; [done|unfold region; lia]].
    apply written_snoc; [done| |lia|done|done]. intros b Hb. apply HP. unfold region in *. lia.
Qed.

Lemma memcpy_written I s d src n :
  0 ≤ n → safe s P → (∀ b, region d n b → P b) → (∀ b, region src n b → P b) →
  (d + n ≤ src ∨ src + n ≤ d) → wr_closed (region d n) I → I s →
  written P s (ece391_memcpy s d src n) d n (λ i, rd s (src + i)) ∧ I (ece391_memcpy s d src n).
Proof.
  intros Hn Hs HPd HPs Hdis HI HIs. unfold ece391_memcpy.
  pose proof (for_loop_inv (λ i s', 0 ≤ i ≤ n ∧ written P s s' d i (λ i, rd s (src + i)) ∧ I s') (Z.to_nat n) 0
    (λ i s, wr s (d + i) (rd s (src + i))) s) as H. rewrite Z2Nat.id, Z.add_0_l in H by lia. apply H; clear H.
  - split; [lia|]. split; [by apply written_0|done].
  - intros i s' Hi (_ & W & HI'). split; [lia|]. split; [|apply HI; [done|unfold region; lia]].
    rewrite (written_out _ _ _ _ _ _ _ W) by (lia || (apply HPs; unfold region; lia)).
    apply written_snoc; [done| |lia|done|].
    + intros b Hb. apply HPd. unfold region in *. lia.
    + apply u8_small, rd_range.
Qed.
End Memory.

(** ** Blinking characters *)

Record blink := mk_blink {
  b_loc : Z; b_on : Z; b_off : Z;
  b_onlen : Z; b_offlen : Z;
  b_count : Z; b_status : Z
}.
#[export] Instance blink_zero : HasZero blink := mk_blink 0 0 0 0 0 0 0.

Definition with_count b c : blink :=
  mk_blink (b_loc b) (b_on b) (b_off b) (b_onlen b) (b_offlen b) c (b_status b).
Definition with_status b st : blink :=
  mk_blink (b_loc b) (b_on b) (b_off b) (b_onlen b) (b_offlen b) (b_count b) st.

(** One character of a screen. *)
Definition poke_char (loc c : Z) (v : screen) : screen :=
  let '(cells, x, y) := v in (alter (λ cell, (c, snd cell)) (Z.to_nat loc) cells, x, y).

(** A tick: what is drawn, if anything, and the new element. *)
Definition tick_due b : bool := negb (s16 (b_count b - 1) >? 0).
Definition tick_char b : Z := if Z.testbit (b_status b) 0 then b_off b else b_on b.
Definition tick_blink b : blink :=
  if tick_due b then
    with_status (with_count b (if Z.testbit (b_status b) 0 then b_offlen b else b_onlen b))
      (Z.lxor (b_status b) 1)
  else with_count b (u16 (b_count b - 1)).
Definition tick_draw b (v : screen) : screen :=
  if tick_due b then poke_char (b_loc b) (tick_char b) v else v.
Definition tick_draws (l : list blink) (v : screen) : screen := fold_left (λ v b, tick_draw b v) l v.

(** A new element, as [RTC_ADD] enters it. *)
Definition new_blink b : blink := with_count (with_status b 1) (b_onlen b).

(** The first element at a location. *)
Definition find_blink (loc : Z) (l : list blink) : option nat :=
  fst <$> list_find (λ b, b_loc b = loc) l.

(** [RTC_SYNC]: the second takes over lengths, countdown and status. *)
Definition sync_blink b b' : blink :=
  mk_blink (b_loc b') (b_on b') (b_off b') (b_onlen b) (b_offlen b) (b_count b) (b_status b).

(** ** A structure in memory *)

Section Node.
Context {S : Type} `{!ByteMem S}.
Context (P : Z → Prop).
Implicit Types (s : S) (a p : Z).

Record node_at s p b next : Prop := {
  nd_loc : f_location s p = b_loc b;
  nd_on : f_on_char s p = b_on b;
  nd_off : f_off_char s p = b_off b;
  nd_onlen : f_on_length s p = b_onlen b;
  nd_offlen : f_off_length s p = b_offlen b;
  nd_count : f_countdown s p = b_count b;
  nd_status : f_status s p = b_status b;
  nd_next : f_next s p = next
}.

Lemma node_at_move s s' p p' b next :
  (∀ i, 0 ≤ i < 16 → rd s' (p' + i) = rd s (p + i)) → node_at s p b next → node_at s' p' b next.
Proof.
  intros H. assert (rd s' p' = rd s p) as H0 by (rewrite <- (Z.add_0_r p), <- (Z.add_0_r p'); apply H; lia).
  assert (∀ i, 0 ≤ i < 15 → load16 s' (p' + i) = load16 s (p + i)) as H16.
  { intros i Hi. unfold load16. rewrite <- !Z.add_assoc, !H by lia. done. }
  assert (load16 s' p' = load16 s p) as L0.
  { rewrite <- (Z.add_0_r p), <- (Z.add_0_r p'). apply H16. lia. }
  intros [N1 N2 N3 N4 N5 N6 N7 N8].
  unfold f_location, f_on_char, f_off_char, f_on_length, f_off_length, f_countdown, f_status, f_next in *.
  split; unfold f_location, f_on_char, f_off_char, f_on_length, f_off_length, f_countdown, f_status, f_next;
    rewrite ?L0, ?H16, ?H by lia; try done.
  rewrite <- N8. unfold load32. rewrite <- !Z.add_assoc, !H by lia. done.
Qed.

Lemma node_at_ext s s' p b next :
  (∀ a, region p 16 a → rd s' a = rd s a) → node_at s p b next → node_at s' p b next.
Proof. intros H. apply node_at_move. intros i Hi. apply H. unfold region. lia. Qed.

(** Every structure holds some element. *)
Lemma node_any s p : node_at s p (mk_blink (f_location s p) (f_on_char s p) (f_off_char s p)
  (f_on_length s p) (f_off_length s p) (f_countdown s p) (f_status s p)) (f_next s p).
Proof. by split. Qed.

(** Storing a field leaves the others. *)
Context (p : Z) (HP : ∀ a, region p 16 a → P a).

Lemma keep8 s s' i n f j :
  written P s s' (p + i) n f → 0 ≤ j < 16 → i + n ≤ j ∨ j < i → rd s' (p + j) = rd s (p + j).
Proof using HP. intros W Hj Hd. apply (written_out _ _ _ _ _ _ _ W); [apply HP; unfold region; lia|lia]. Qed.

Lemma keep16 s s' i n f j :
  written P s s' (p + i) n f → 0 ≤ j < 15 → i + n ≤ j ∨ j + 2 ≤ i → load16 s' (p + j) = load16 s (p + j).
Proof using HP.
  intros W Hj Hd. apply load16_ext. intros b Hb.
  apply (written_out _ _ _ _ _ _ _ W); [apply HP|]; unfold region in *; lia.
Qed.

Lemma keep32 s s' i n f j :
  written P s s' (p + i) n f → 0 ≤ j < 13 → i + n ≤ j ∨ j + 4 ≤ i → load32 s' (p + j) = load32 s (p + j).
Proof using HP.
  intros W Hj Hd. apply load32_ext. intros b Hb.
  apply (written_out _ _ _ _ _ _ _ W); [apply HP|]; unfold region in *; lia.
Qed.

Lemma field16 s i v :
  safe s P → 0 ≤ i < 15 →
  written P s (store16 s (p + i) v) (p + i) 2 (λ i, u8 (Z.shiftr v (8 * i))) ∧
  load16 (store16 s (p + i) v) (p + i) = u16 v.
Proof using HP.
  intros Hs Hi. assert (∀ b, region (p + i) 2 b → P b) as H by (intros b Hb; apply HP; unfold region in *; lia).
  split; [by apply store16_written|by apply (load16_store16 P)].
Qed.

Lemma field8 s i v :
  safe s P → 0 ≤ i < 16 →
  written P s (wr s (p + i) v) (p + i) 1 (λ _, u8 v) ∧ rd (wr s (p + i) v) (p + i) = u8 v.
Proof using HP.
  intros Hs Hi. assert (P (p + i)) by (apply HP; unfold region; lia). split.
  - split; [apply ctl_wr|]. intros b Hb. rewrite (rd_wr_safe s P) by done. repeat case_decide; done || lia.
  - rewrite (rd_wr_safe s P) by done. by rewrite decide_True.
Qed.

Lemma field32 s i v :
  safe s P → 0 ≤ i < 13 → 0 ≤ v < 4294967296 →
  written P s (store32 s (p + i) v) (p + i) 4 (λ k, u8 (Z.shiftr v (8 * k))) ∧
  load32 (store32 s (p + i) v) (p + i) = v.
Proof using HP.
  intros Hs Hi Hv. assert (∀ b, region (p + i) 4 b → P b) as H by (intros b Hb; apply HP; unfold region in *; lia).
  split; [by apply store32_written|by apply (load32_store32 P)].
Qed.

Lemma node_at_intro s b next :
  load16 s (p + 0) = b_loc b → rd s (p + 2) = b_on b → rd s (p + 3) = b_off b →
  load16 s (p + 4) = b_onlen b → load16 s (p + 6) = b_offlen b → load16 s (p + 8) = b_count b →
  load16 s (p + 10) = b_status b → load32 s (p + 12) = next → node_at s p b next.
Proof. rewrite Z.add_0_r. by split. Qed.

Lemma node_at_fields s b next :
  node_at s p b next →
  load16 s (p + 0) = b_loc b ∧ rd s (p + 2) = b_on b ∧ rd s (p + 3) = b_off b ∧
  load16 s (p + 4) = b_onlen b ∧ load16 s (p + 6) = b_offlen b ∧ load16 s (p + 8) = b_count b ∧
  load16 s (p + 10) = b_status b ∧ load32 s (p + 12) = next.
Proof. rewrite Z.add_0_r. by intros []. Qed.

(** The fields after a store to one of them: [F] is the lemma of that store. *)
#[local] Ltac fields F :=
  let W := fresh in let L := fresh in
  intros (N1 & N2 & N3 & N4 & N5 & N6 & N7 & N8)%node_at_fields;
  destruct F as [W L]; [done|lia|try lia..|];
  apply node_at_intro;
  first [exact L | rewrite (keep16 _ _ _ _ _ _ W) by lia; assumption
    | rewrite (keep8 _ _ _ _ _ _ W) by lia; assumption
    | rewrite (keep32 _ _ _ _ _ _ W) by lia; assumption].

Lemma node_location s b next v :
  safe s P → node_at s p b next → node_at (set_location s p v) p
    (mk_blink (u16 v) (b_on b) (b_off b) (b_onlen b) (b_offlen b) (b_count b) (b_status b)) next.
Proof using HP.
  intros Hs. unfold set_location. rewrite <- (Z.add_0_r p) at 2. fields (field16 s 0 v).
Qed.

Lemma node_on_char s b next v :
  safe s P → node_at s p b next → node_at (set_on_char s p v) p
    (mk_blink (b_loc b) (u8 v) (b_off b) (b_onlen b) (b_offlen b) (b_count b) (b_status b)) next.
Proof using HP. intros Hs. fields (field8 s 2 v). Qed.

Lemma node_off_char s b next v :
  safe s P → node_at s p b next → node_at (set_off_char s p v) p
    (mk_blink (b_loc b) (b_on b) (u8 v) (b_onlen b) (b_offlen b) (b_count b) (b_status b)) next.
Proof using HP. intros Hs. fields (field8 s 3 v). Qed.

Lemma node_on_length s b next v :
  safe s P → node_at s p b next → node_at (set_on_length s p v) p
    (mk_blink (b_loc b) (b_on b) (b_off b) (u16 v) (b_offlen b) (b_count b) (b_status b)) next.
Proof using HP. intros Hs. fields (field16 s 4 v). Qed.

Lemma node_off_length s b next v :
  safe s P → node_at s p b next → node_at (set_off_length s p v) p
    (mk_blink (b_loc b) (b_on b) (b_off b) (b_onlen b) (u16 v) (b_count b) (b_status b)) next.
Proof using HP. intros Hs. fields (field16 s 6 v). Qed.

Lemma node_count s b next v :
  safe s P → node_at s p b next → node_at (set_countdown s p v) p (with_count b (u16 v)) next.
Proof using HP. intros Hs. fields (field16 s 8 v). Qed.

Lemma node_status s b next v :
  safe s P → node_at s p b next → node_at (set_status s p v) p (with_status b (u16 v)) next.
Proof using HP. intros Hs. fields (field16 s 10 v). Qed.

Lemma node_next s b next v :
  safe s P → 0 ≤ v < 4294967296 → node_at s p b next → node_at (set_next s p v) p b v.
Proof using HP. intros Hs Hv. fields (field32 s 12 v). Qed.
End Node.

(** ** The system under the program *)

(** The page of the program's terminal is mapped at [USER_VIDEO]: a store to
    a character is a change of the screen. *)
Class VideoService (S : Type) `{!ByteMem S, !ServiceView S} := {
  fs_poke : ∀ (s : S) loc c, sv_ok s → 0 ≤ loc < 2000 → 0 ≤ c < 256 →
    does s (wr s (USER_VIDEO + 2 * loc) c) 0 (sv_handle s 0) (poke_char loc c) [] 0 ∧
    keeps s (wr s (USER_VIDEO + 2 * loc) c) (λ _, False)
}.

Definition fish_lits : list (list Z) := [text "rtc"; text "frame0.txt"; text "frame1.txt"].

(** The static data and the locals the program writes. *)
Definition fish_regions (E : fish_env) : list (Z * Z) :=
  [(fe_array E, 32000); (fe_head E, 4); (fe_vmem E, 4); (fe_frame E, 16); (fe_blink E, 16);
   (fe_fblink E, 16); (fe_c0 E, 1); (fe_c1 E, 1); (fe_ret E, 4); (fe_loc E, 2)].

Definition owned (E : fish_env) (a : Z) : Prop := ∃ r, r ∈ fish_regions E ∧ region r.1 r.2 a.

Record fish_layout (E : fish_env) : Prop := {
  fl_page : ∀ a, owned E a → user_page a;
  fl_apart : ∀ (i j : nat) r r', i ≠ j → fish_regions E !! i = Some r → fish_regions E !! j = Some r' →
    r.1 + r.2 ≤ r'.1 ∨ r'.1 + r'.2 ≤ r.1;
  fl_garbage : user_page (fe_garbage E)
}.

(** The screen changes by [f]. *)
Definition w_draw (f : screen → screen) (w : world) : world :=
  mk_world (w_fds w) (f (w_screen w)) (w_args w) (w_lines w) (w_ticks w).

Lemma w_draw_id w : w_draw (λ v, v) w = w.
Proof. by destruct w. Qed.

Section Swim.
Context {S : Type} `{!ByteMem S, !Syscalls S, !ServiceView S} {im : fs_image} `{!FileService S im}.
Context `{!VideoService S}.
Context (E : fish_env) (HE : fish_layout E).
Implicit Types (s : S) (w : world) (a p : Z) (ix : list Z) (l : list blink).

#[local] Abbreviation running := (running (fe_str E) fish_lits (owned E)).
#[local] Abbreviation slot := (slot E).

(** The list of blinking characters. *)
Definition heap a : Prop := region (fe_array E) 32000 a ∨ region (fe_head E) 4 a ∨ region (fe_vmem E) 4 a.

Definition link ix (k : Z) : Z := match ix !! Z.to_nat k with Some i => slot i | None => 0 end.

(** The elements of [l] are in the slots [ix] of the array, linked in this
    order; the other slots are free. *)
Record fish_mem s ix l : Prop := {
  fm_vmem : load32 s (fe_vmem E) = USER_VIDEO;
  fm_head : load32 s (fe_head E) = link ix 0;
  fm_nodup : NoDup ix;
  fm_range : ∀ i, i ∈ ix → 0 ≤ i < 2000;
  fm_len : length l = length ix;
  fm_node : ∀ k, 0 ≤ k < Z.of_nat (length l) → node_at s (slot ix.[k]) l.[k] (link ix (k + 1));
  fm_free : ∀ i, 0 ≤ i < 2000 → i ∉ ix → f_location s (slot i) = 0;
  fm_used : ∀ k, 0 ≤ k < Z.of_nat (length l) → 0 < b_loc l.[k] < 2000
}.

Lemma slot_heap i a : 0 ≤ i < 2000 → region (slot i) 16 a → heap a.
Proof. intros Hi Ha. left. unfold Fish.slot, STRUCT_SIZE, region in *. lia. Qed.

Lemma in_region r a : r ∈ fish_regions E → region r.1 r.2 a → owned E a.
Proof. intros Hr Ha. by exists r. Qed.

Lemma heap_owned a : heap a → owned E a.
Proof.
  intros [H|[H|H]].
  - by apply (in_region (fe_array E, 32000)); [apply list_elem_of_lookup_2 with 0%nat|].
  - by apply (in_region (fe_head E, 4)); [apply list_elem_of_lookup_2 with 1%nat|].
  - by apply (in_region (fe_vmem E, 4)); [apply list_elem_of_lookup_2 with 2%nat|].
Qed.

Lemma heap_page a : heap a → user_page a.
Proof using HE. intros Ha. by apply HE, heap_owned. Qed.

Lemma slot_page i a : 0 ≤ i < 2000 → region (slot i) 16 a → user_page a.
Proof using HE. intros Hi Ha. by apply heap_page, (slot_heap i). Qed.

(** Memory that agrees on the data holds the same list. *)
Lemma fish_mem_ext s s' ix l :
  (∀ a, heap a → rd s' a = rd s a) → fish_mem s ix l → fish_mem s' ix l.
Proof.
  intros Hr [H1 H2 H3 H4 H5 H6 H7 H8]. split; try done.
  - rewrite (load32_ext s s'); [done|]. intros b Hb. apply Hr. right; right. unfold region. lia.
  - rewrite (load32_ext s s'); [done|]. intros b Hb. apply Hr. right; left. unfold region. lia.
  - intros k Hk. apply (node_at_ext s); [|by apply H6]. intros a. intros Ha. apply Hr.
    apply (slot_heap ix.[k]); [|done]. apply H4, (list_elem_of_lookup_2 _ (Z.to_nat k)), get_in. lia.
  - intros i Hi Hn. unfold f_location. rewrite (load16_ext s s'); [by apply H7|].
    intros b Hb. apply Hr, (slot_heap i); [done|]. unfold region in *. lia.
Qed.

Lemma fish_mem_keeps s s' ix l : keeps s s' (λ _, False) → fish_mem s ix l → fish_mem s' ix l.
Proof using HE. intros Hk. apply fish_mem_ext. intros a Ha. apply Hk; [by apply heap_page|tauto]. Qed.

(** Slots apart from each other. *)
Lemma slot_of_mem s ix l k :
  fish_mem s ix l → 0 ≤ k < Z.of_nat (length l) →
  ix !! Z.to_nat k = Some ix.[k] ∧ 0 ≤ ix.[k] < 2000 ∧ link ix k = slot ix.[k].
Proof.
  intros Hm Hk. pose proof (fm_len _ _ _ Hm) as Hl.
  assert (ix !! Z.to_nat k = Some ix.[k]) as Hk' by (apply get_in; lia).
  split; [done|]. split; [|unfold link; by rewrite Hk'].
  by apply (fm_range _ _ _ Hm), (list_elem_of_lookup_2 _ (Z.to_nat k)).
Qed.

Lemma slot_ne s ix l j k :
  fish_mem s ix l → 0 ≤ j < Z.of_nat (length l) → 0 ≤ k < Z.of_nat (length l) → j ≠ k → ix.[j] ≠ ix.[k].
Proof.
  intros Hm Hj Hk Hne E'. destruct (slot_of_mem s ix l j Hm Hj) as [Lj _].
  destruct (slot_of_mem s ix l k Hm Hk) as [Lk _]. rewrite E' in Lj.
  pose proof (NoDup_lookup _ _ _ _ (fm_nodup _ _ _ Hm) Lj Lk). lia.
Qed.

Lemma slots_apart i j a : i ≠ j → region (slot i) 16 a → ¬ region (slot j) 16 a.
Proof. unfold Fish.slot, STRUCT_SIZE, region. lia. Qed.

(** One element is changed, but not moved. *)
Lemma fish_mem_node s s' ix l k b :
  fish_mem s ix l → 0 ≤ k < Z.of_nat (length l) →
  (∀ a, heap a → ¬ region (slot ix.[k]) 16 a → rd s' a = rd s a) →
  node_at s' (slot ix.[k]) b (link ix (k + 1)) → b_loc b = b_loc l.[k] →
  fish_mem s' ix l.[k <- b].
Proof using HE.
  intros Hm Hk Hr Hn Hb. pose proof Hm as [H1 H2 H3 H4 H5 H6 H7 H8].
  destruct (slot_of_mem s ix l k Hm Hk) as (Lk & Rk & _).
  assert (∀ a, region (fe_head E) 4 a ∨ region (fe_vmem E) 4 a → rd s' a = rd s a) as Hr2.
  { intros a Ha. pose proof (fl_apart E HE 0 1 _ _ ltac:(done) eq_refl eq_refl).
    pose proof (fl_apart E HE 0 2 _ _ ltac:(done) eq_refl eq_refl). cbn [fst snd] in *.
    apply Hr; [destruct Ha; [right; by left|right; by right]|]. unfold Fish.slot, STRUCT_SIZE, region in *. lia. }
  split; try done.
  - rewrite (load32_ext s s'); [done|]. intros b' Hb'. apply Hr2. right. unfold region. lia.
  - rewrite (load32_ext s s'); [done|]. intros b' Hb'. apply Hr2. left. unfold region. lia.
  - by rewrite length_aset.
  - intros j Hj. rewrite length_aset in Hj. rewrite aget_aset by done. case_decide as Hjk; [by subst j|].
    apply (node_at_ext s); [|by apply H6]. intros a Ha.
    destruct (slot_of_mem s ix l j Hm Hj) as (_ & Rj & _).
    apply Hr; [by apply (slot_heap ix.[j])|]. apply (slots_apart ix.[j]); [|done].
    by apply (slot_ne s ix l); [..|congruence].
  - intros i Hi Hni. unfold f_location. rewrite (load16_ext s s'); [by apply H7|].
    intros a Ha. assert (region (slot i) 16 a) as Ha' by (unfold region in *; lia).
    apply Hr; [by apply (slot_heap i)|]. apply (slots_apart i); [|done].
    intros ->. by apply Hni, (list_elem_of_lookup_2 _ (Z.to_nat k)).
  - intros j Hj. rewrite length_aset in Hj. rewrite aget_aset by done. case_decide as Hjk; [|by apply H8].
    subst j. rewrite Hb. by apply H8.
Qed.

(** ** Stores of the program *)

Lemma run_safe s w : running s w → safe s user_page.
Proof using FileService0. intros Hr. apply fs_safe, Hr. Qed.

Lemma run_wr s w a v : running s w → owned E a → running (wr s a v) w.
Proof using HE FileService0. intros Hr Ha. apply store_running; [done|by apply HE|done]. Qed.

Lemma run_wr_closed w (A : Z → Prop) : (∀ a, A a → owned E a) → wr_closed A (λ s, running s w).
Proof using HE FileService0. intros HA s a v Hr Ha. apply run_wr; auto. Qed.

Lemma run_store16 s w a v : running s w → (∀ b, region a 2 b → owned E b) → running (store16 s a v) w.
Proof using HE FileService0.
  intros Hr Ha. unfold store16. by repeat (apply run_wr; [|apply Ha; unfold region; lia]).
Qed.

Lemma run_store32 s w a v : running s w → (∀ b, region a 4 b → owned E b) → running (store32 s a v) w.
Proof using HE FileService0.
  intros Hr Ha. unfold store32. by repeat (apply run_wr; [|apply Ha; unfold region; lia]).
Qed.

Lemma slot_owned i a : 0 ≤ i < 2000 → region (slot i) 16 a → owned E a.
Proof. intros Hi Ha. by apply heap_owned, (slot_heap i). Qed.

(** A field of an element. *)
Lemma fish_mem_store s s' ix l k b i n f :
  fish_mem s ix l → 0 ≤ k < Z.of_nat (length l) →
  written user_page s s' (slot ix.[k] + i) n f → 0 ≤ i → i + n ≤ 16 →
  node_at s' (slot ix.[k]) b (link ix (k + 1)) → b_loc b = b_loc l.[k] →
  fish_mem s' ix l.[k <- b].
Proof using HE.
  intros Hm Hk W Hi Hn Hnd Hb. apply (fish_mem_node s); try done. intros a Ha Hr.
  apply (written_out _ _ _ _ _ _ _ W); [by apply heap_page|]. unfold region in Hr. lia.
Qed.

(** A character is drawn. *)
Lemma poke_spec s w ix l loc c :
  running s w → fish_mem s ix l → 0 ≤ loc < 2000 → 0 ≤ c < 256 →
  running (mp1_poke E s c (2 * loc)) (w_draw (poke_char loc c) w) ∧
  keeps s (mp1_poke E s c (2 * loc)) (λ _, False).
Proof using HE FileService0 VideoService0.
  intros Hr Hm Hl Hc. unfold mp1_poke. rewrite (fm_vmem _ _ _ Hm).
  rewrite u32_small by (unfold USER_VIDEO; lia). pose proof (ru_sees _ _ _ _ _ Hr) as Hs.
  destruct (fs_poke s loc c) as [Hd Hk]; [apply Hs|done|done|]. split; [|done].
  apply (running_still _ _ _ s _ w); [done| |done].
  apply (sees_does s _ w 0 _ _ [] 0 (w_lines w) (w_ticks w)) in Hd; [|done|lia|done|done].
  rewrite (wo_fds _ _ Hs), aset_same in Hd. exact Hd.
Qed.

Lemma u16_lxor x : 0 ≤ x < 65536 → u16 (Z.lxor x 1) = Z.lxor x 1.
Proof.
  intros Hx. unfold u16. change 65536 with (2 ^ 16). apply Z.bits_inj'. intros n Hn.
  destruct (decide (n < 16)); [by rewrite Z.mod_pow2_bits_low by lia|].
  rewrite Z.mod_pow2_bits_high by lia. rewrite Z.lxor_spec.
  replace x with (x mod 2 ^ 16) by (apply Z.mod_small; lia). rewrite Z.mod_pow2_bits_high by lia.
  change 1 with (1 mod 2 ^ 16). by rewrite Z.mod_pow2_bits_high by lia.
Qed.

Lemma u16_u16 x : u16 (u16 x) = u16 x.
Proof. mlia. Qed.
Lemma s16_u16 x : s16 (u16 x) = s16 x.
Proof. unfold s16. mlia. Qed.

(** ** A tick *)

(** The ranges of the fields. *)
Lemma node_ranges s p b next :
  node_at s p b next →
  (0 ≤ b_on b < 256 ∧ 0 ≤ b_off b < 256) ∧ (0 ≤ b_onlen b < 65536 ∧ 0 ≤ b_offlen b < 65536) ∧
  (0 ≤ b_loc b < 65536 ∧ 0 ≤ b_status b < 65536).
Proof.
  intros [N1 N2 N3 N4 N5 N6 N7 _]. rewrite <- N1, <- N2, <- N3, <- N4, <- N5, <- N7.
  split_and!; (apply rd_range || apply load16_range).
Qed.

Lemma field_store s w ix l k i v b :
  running s w → fish_mem s ix l → 0 ≤ k < Z.of_nat (length l) → 0 ≤ i < 15 →
  let s' := store16 s (slot ix.[k] + i) v in
  node_at s' (slot ix.[k]) b (link ix (k + 1)) → b_loc b = b_loc l.[k] →
  running s' w ∧ fish_mem s' ix l.[k <- b] ∧ keeps s s' heap.
Proof using HE FileService0.
  intros Hr Hm Hk Hi s' Hn Hb. destruct (slot_of_mem s ix l k Hm Hk) as (_ & Rk & _).
  assert (∀ a, region (slot ix.[k]) 16 a → user_page a) as HP by (intros a; by apply slot_page).
  destruct (field16 user_page (slot ix.[k]) HP s i v (run_safe s w Hr) Hi) as [W _]. split; [|split].
  - apply run_store16; [done|]. intros a Ha. apply (slot_owned ix.[k]); [done|]. unfold region in *. lia.
  - by apply (fish_mem_store s s' ix l k b i 2 _ Hm Hk W); [lia|lia|..].
  - intros a Ha Hh. apply (written_out _ _ _ _ _ _ _ W); [done|]. intros Hx. apply Hh, (slot_heap ix.[k]); [done|].
    unfold region. lia.
Qed.

(** [field_store] for the fields the operations change. *)
#[local] Ltac by_field_store NL i :=
  let Hr := fresh in let Hm := fresh in let Hk := fresh in intros Hr Hm Hk ?;
  let Rk := fresh in destruct (slot_of_mem _ _ _ _ Hm Hk) as (_ & Rk & _);
  apply (field_store _ _ _ _ _ i); [done|done|done|lia| |done];
  apply (NL user_page); [intros ?; by apply slot_page|by apply (run_safe _ _ Hr)|by apply (fm_node _ _ _ Hm)].

Lemma count_store s w ix l k v :
  running s w → fish_mem s ix l → 0 ≤ k < Z.of_nat (length l) →
  let s' := set_countdown s (slot ix.[k]) v in
  running s' w ∧ fish_mem s' ix l.[k <- with_count l.[k] (u16 v)] ∧ keeps s s' heap.
Proof using HE FileService0. by_field_store (@node_count S _) 8. Qed.

Lemma status_store s w ix l k v :
  running s w → fish_mem s ix l → 0 ≤ k < Z.of_nat (length l) →
  let s' := set_status s (slot ix.[k]) v in
  running s' w ∧ fish_mem s' ix l.[k <- with_status l.[k] (u16 v)] ∧ keeps s s' heap.
Proof using HE FileService0. by_field_store (@node_status S _) 10. Qed.

Lemma on_length_store s w ix l k v :
  running s w → fish_mem s ix l → 0 ≤ k < Z.of_nat (length l) →
  let s' := set_on_length s (slot ix.[k]) v in
  let b := l.[k] in
  running s' w ∧ fish_mem s' ix l.[k <- mk_blink (b_loc b) (b_on b) (b_off b) (u16 v) (b_offlen b) (b_count b) (b_status b)] ∧
  keeps s s' heap.
Proof using HE FileService0. by_field_store (@node_on_length S _) 4. Qed.

Lemma off_length_store s w ix l k v :
  running s w → fish_mem s ix l → 0 ≤ k < Z.of_nat (length l) →
  let s' := set_off_length s (slot ix.[k]) v in
  let b := l.[k] in
  running s' w ∧ fish_mem s' ix l.[k <- mk_blink (b_loc b) (b_on b) (b_off b) (b_onlen b) (u16 v) (b_count b) (b_status b)] ∧
  keeps s s' heap.
Proof using HE FileService0. by_field_store (@node_off_length S _) 6. Qed.

(** The second half of a tick: the character is drawn, the countdown starts
    again and the state flips. *)
Lemma element_flips s w ix l k :
  running s w → fish_mem s ix l → 0 ≤ k < Z.of_nat (length l) →
  let p := slot ix.[k] in
  let b := l.[k] in
  let on := Z.testbit (b_status b) 0 in
  let s1 := mp1_poke E s (if on then b_off b else b_on b) (2 * b_loc b) in
  let s2 := set_countdown s1 p (if on then b_offlen b else b_onlen b) in
  let s3 := set_status s2 p (Z.lxor (f_status s2 p) 1) in
  running s3 (w_draw (poke_char (b_loc b) (tick_char b)) w) ∧
  fish_mem s3 ix l.[k <- with_status (with_count b (if on then b_offlen b else b_onlen b)) (Z.lxor (b_status b) 1)].
Proof using HE FileService0 VideoService0.
  intros Hr Hm Hk p b on s1 s2 s3. pose proof (fm_node _ _ _ Hm k Hk) as Hn. fold p b in Hn.
  destruct (node_ranges _ _ _ _ Hn) as ((R1 & R2) & (R3 & R4) & (R5 & R6)).
  pose proof (fm_used _ _ _ Hm k Hk) as Hloc. fold b in Hloc.
  destruct (poke_spec s w ix l (b_loc b) (if on then b_off b else b_on b) Hr Hm) as [Hr1 Hk1];
    [lia|by destruct on|]. fold s1 in Hr1, Hk1.
  pose proof (fish_mem_keeps _ _ _ _ Hk1 Hm) as Hm1.
  destruct (count_store s1 _ ix l k (if on then b_offlen b else b_onlen b) Hr1 Hm1 Hk) as (Hr2 & Hm2 & _).
  fold p s2 b in Hr2, Hm2. rewrite u16_small in Hm2 by by destruct on.
  set (v := if on then b_offlen b else b_onlen b) in *.
  destruct (status_store s2 _ ix _ k (Z.lxor (f_status s2 p) 1) Hr2 Hm2) as (Hr3 & Hm3 & _); [by rewrite length_aset|].
  fold p s3 in Hr3, Hm3. split; [exact Hr3|].
  assert (f_status s2 p = b_status b) as Est.
  { pose proof (fm_node _ _ _ Hm2 k ltac:(by rewrite length_aset)) as Hn2. rewrite aget_aset_eq in Hn2 by done.
    exact (nd_status _ _ _ _ Hn2). }
  rewrite Est, aset_aset, aget_aset_eq, u16_lxor in Hm3 by done. exact Hm3.
Qed.

Lemma poke_node s w ix l k c :
  running s w → fish_mem s ix l → 0 ≤ k < Z.of_nat (length l) → 0 ≤ c < 256 →
  node_at (mp1_poke E s c (2 * b_loc l.[k])) (slot ix.[k]) l.[k] (link ix (k + 1)).
Proof using HE FileService0 VideoService0.
  intros Hr Hm Hk Hc. pose proof (fm_used _ _ _ Hm k Hk) as Hl.
  destruct (poke_spec s w ix l (b_loc l.[k]) c Hr Hm) as [_ Hkp]; [lia|done|].
  apply (fm_node _ _ _ (fish_mem_keeps _ _ _ _ Hkp Hm) k Hk).
Qed.

Lemma tasklet_element_spec s w ix l k :
  running s w → fish_mem s ix l → 0 ≤ k < Z.of_nat (length l) →
  running (tasklet_element E s (slot ix.[k])) (w_draw (tick_draw l.[k]) w) ∧
  fish_mem (tasklet_element E s (slot ix.[k])) ix l.[k <- tick_blink l.[k]].
Proof using HE FileService0 VideoService0.
  intros Hr Hm Hk. unfold tasklet_element. set (p := slot ix.[k]). set (b := l.[k]).
  pose proof (fm_node _ _ _ Hm k Hk) as Hn. fold p b in Hn. rewrite (nd_count _ _ _ _ Hn).
  destruct (count_store s w ix l k (u16 (b_count b - 1)) Hr Hm Hk) as (Hr1 & Hm1 & _). fold p b in Hr1, Hm1.
  rewrite u16_u16 in Hm1. set (s1 := set_countdown s p _) in *.
  set (b1 := with_count b (u16 (b_count b - 1))) in *.
  assert (0 ≤ k < Z.of_nat (length l.[k <- b1])) as Hk1 by by rewrite length_aset.
  pose proof (fm_node _ _ _ Hm1 k Hk1) as Hn1. rewrite aget_aset_eq in Hn1 by done. fold p in Hn1.
  rewrite (nd_count _ _ _ _ Hn1). change (b_count b1) with (u16 (b_count b - 1)). rewrite s16_u16.
  unfold tick_draw, tick_blink, tick_due. fold b1.
  destruct (s16 (b_count b - 1) >? 0); cbv [negb].
  { split; [|exact Hm1]. change (w_draw _ w) with (w_draw (λ v, v) w). by rewrite w_draw_id. }
  destruct (element_flips s1 w ix _ k Hr1 Hm1 Hk1) as [Hr3 Hm3].
  rewrite !aget_aset_eq in Hr3, Hm3 by done. rewrite aset_aset in Hm3. fold p in Hr3, Hm3.
  change (b_status b1) with (b_status b) in *. change (b_loc b1) with (b_loc b) in *.
  rewrite (nd_status _ _ _ _ Hn1), (nd_loc _ _ _ _ Hn1), (nd_on _ _ _ _ Hn1), (nd_off _ _ _ _ Hn1).
  change (b_status b1) with (b_status b). change (b_loc b1) with (b_loc b).
  destruct (node_ranges _ _ _ _ Hn1) as ((R1 & R2) & _).
  pose proof (λ c Hc, poke_node s1 w ix _ k c Hr1 Hm1 Hk1 Hc) as Hn2. rewrite aget_aset_eq in Hn2 by done.
  fold p in Hn2. change (b_loc b1) with (b_loc b) in Hn2. destruct (Z.testbit (b_status b) 0); cbv beta iota zeta in Hr3, Hm3 |- *.
  - rewrite (nd_offlen _ _ _ _ (Hn2 _ R2)). by split.
  - rewrite (nd_onlen _ _ _ _ (Hn2 _ R1)). by split.
Qed.

(** ** Along the list *)

Lemma slot_pos i : 0 ≤ i → 0 < slot i.
Proof using HE.
  intros Hi. assert (user_page (fe_array E)) as Ha by (apply heap_page; left; unfold region; lia).
  unfold user_page, region, USER_MEM_LOCATION in Ha. unfold Fish.slot, STRUCT_SIZE. lia.
Qed.

Lemma link_end s ix l k : fish_mem s ix l → Z.of_nat (length l) ≤ k → link ix k = 0.
Proof.
  intros Hm Hk. pose proof (fm_len _ _ _ Hm). unfold link. by rewrite lookup_ge_None_2 by lia.
Qed.

Lemma link_zero s ix l k : fish_mem s ix l → 0 ≤ k ≤ Z.of_nat (length l) → (link ix k = 0 ↔ k = Z.of_nat (length l)).
Proof using HE.
  intros Hm Hk. split; [|intros ->; by apply (link_end s ix l)]. intros E0.
  destruct (decide (k = Z.of_nat (length l))); [done|].
  destruct (slot_of_mem s ix l k Hm) as (_ & Rk & Ek); [lia|]. rewrite Ek in E0.
  pose proof (slot_pos ix.[k]). lia.
Qed.

(** The place of a pointer in the list. *)
Definition place ix (p : Z) : Z := default (Z.of_nat (length ix)) (Z.of_nat ∘ fst <$> list_find (λ i, slot i = p) ix).

Lemma place_link s ix l k : fish_mem s ix l → 0 ≤ k ≤ Z.of_nat (length l) → place ix (link ix k) = k.
Proof using HE.
  intros Hm Hk. pose proof (fm_len _ _ _ Hm) as Hl. unfold place.
  destruct (decide (k = Z.of_nat (length l))) as [->|Hne].
  - rewrite (link_end s ix l) by done. rewrite (proj2 (list_find_None _ _)); [cbn; lia|].
    apply Forall_lookup. intros j i Hj. pose proof (fm_range _ _ _ Hm i (list_elem_of_lookup_2 _ _ _ Hj)).
    pose proof (slot_pos i). lia.
  - destruct (slot_of_mem s ix l k Hm) as (Lk & Rk & ->); [lia|].
    rewrite (proj2 (list_find_Some _ _ (Z.to_nat k) ix.[k])); [cbn; lia|].
    split; [done|]. split; [done|]. intros j y Hj Hlt E'.
    assert (y = ix.[k]) as -> by (unfold Fish.slot, STRUCT_SIZE in E'; lia).
    pose proof (NoDup_lookup _ _ _ _ (fm_nodup _ _ _ Hm) Hj Lk). lia.
Qed.

Lemma place_range ix p : 0 ≤ place ix p ≤ Z.of_nat (length ix).
Proof.
  unfold place. destruct (list_find _ ix) as [[j y]|] eqn:El; cbn; [|lia].
  apply list_find_Some in El as (Hj & _). apply lookup_lt_Some in Hj. lia.
Qed.

Lemma count_slots s ix l : fish_mem s ix l → (length ix <= 2000)%nat.
Proof.
  intros Hm. assert (ix ⊆+ seqZ 0 2000) as Hs.
  { apply NoDup_submseteq; [apply Hm|]. intros i Hi. apply elem_of_seqZ. apply (fm_range _ _ _ Hm) in Hi. lia. }
  apply submseteq_length in Hs. by rewrite length_seqZ in Hs.
Qed.

(** The first [k] elements have had their tick. *)
Definition ticked (k : Z) l : list blink := (tick_blink <$> take (Z.to_nat k) l) ++ drop (Z.to_nat k) l.

Lemma ticked_length k l : length (ticked k l) = length l.
Proof. unfold ticked. rewrite length_app, length_fmap, length_take, length_drop. lia. Qed.

Lemma ticked_get k l : 0 ≤ k < Z.of_nat (length l) → (ticked k l).[k] = l.[k].
Proof.
  intros Hk. unfold ticked. apply aget_lookup; [lia|]. rewrite lookup_app_r by (rewrite length_fmap, length_take; lia).
  rewrite length_fmap, length_take, lookup_drop. replace (Z.to_nat k + _)%nat with (Z.to_nat k) by lia. by apply get_in.
Qed.

Lemma ticked_step k l :
  0 ≤ k < Z.of_nat (length l) → (ticked k l).[k <- tick_blink l.[k]] = ticked (k + 1) l.
Proof.
  intros Hk. unfold ticked, aset. rewrite (proj2 (Z.leb_le 0 k)) by lia.
  replace (Z.to_nat (k + 1)) with (Datatypes.S (Z.to_nat k)) by lia.
  rewrite (take_S_r _ _ l.[k]) by by apply get_in.
  rewrite (drop_S l l.[k]) by by apply get_in.
  rewrite insert_app_r_alt by (rewrite length_fmap, length_take; lia).
  rewrite length_fmap, length_take. replace (Z.to_nat k - _)%nat with 0%nat by lia. cbn [insert list_insert].
  rewrite fmap_app, <- app_assoc. done.
Qed.

Lemma tick_draws_step k l v :
  0 ≤ k < Z.of_nat (length l) →
  tick_draws (take (Z.to_nat (k + 1)) l) v = tick_draw l.[k] (tick_draws (take (Z.to_nat k) l) v).
Proof.
  intros Hk. replace (Z.to_nat (k + 1)) with (Datatypes.S (Z.to_nat k)) by lia.
  rewrite (take_S_r _ _ l.[k]) by by apply get_in. unfold tick_draws. by rewrite fold_left_app.
Qed.

(** A tick: every element counts down and the due ones are drawn, in the
    order of the list. *)
Lemma mp1_rtc_tasklet_spec s w ix l :
  running s w → fish_mem s ix l →
  ∃ s', mp1_rtc_tasklet E s = Some s' ∧ running s' (w_draw (tick_draws l) w) ∧
        fish_mem s' ix (tick_blink <$> l).
Proof using HE FileService0 VideoService0.
  intros Hr Hm. set (n := Z.of_nat (length l)). pose proof (fm_len _ _ _ Hm) as Hl.
  pose proof (count_slots _ _ _ Hm) as Hc.
  unfold mp1_rtc_tasklet. apply (while_total _
    (λ '(s', p), ∃ k, 0 ≤ k ≤ n ∧ p = link ix k ∧ fish_mem s' ix (ticked k l) ∧
       running s' (w_draw (tick_draws (take (Z.to_nat k) l)) w))
    (λ '(_, p), n - place ix p)).
  - intros [s' p] (k & Hk & -> & Hm' & _). pose proof (place_range ix (link ix k)). lia.
  - intros [s' p] (k & Hk & -> & Hm' & Hr'). rewrite (place_link s' ix _ k Hm') by (rewrite ticked_length; lia).
    destruct (Z.eqb_spec (link ix k) 0) as [E0|E0].
    + apply (link_zero s' ix _ k Hm') in E0; rewrite ticked_length in *; [|lia]. subst k.
      unfold ticked in Hm'. unfold n in *. rewrite take_ge, drop_ge, app_nil_r in Hm' by lia.
      rewrite take_ge in Hr' by lia. by split.
    + assert (k < n) as Hkn.
      { destruct (decide (k = n)); [|lia]. destruct E0. apply (link_end s' ix _ k Hm'). rewrite ticked_length. lia. }
      assert (0 ≤ k < Z.of_nat (length (ticked k l))) as Hk' by (rewrite ticked_length; lia).
      destruct (slot_of_mem s' ix _ k Hm' Hk') as (_ & _ & ->).
      destruct (tasklet_element_spec s' _ ix _ k Hr' Hm' Hk') as [Hr2 Hm2].
      rewrite ticked_get, ticked_step in * by (unfold n in *; lia).
      set (s2 := tasklet_element E s' (slot ix.[k])) in *. cbv zeta.
      assert (f_next s2 (slot ix.[k]) = link ix (k + 1)) as ->.
      { apply (nd_next _ _ _ _ (fm_node _ _ _ Hm2 k ltac:(rewrite ticked_length; lia))). }
      rewrite (place_link s2 ix _ (k + 1) Hm2) by (rewrite ticked_length; lia). split; [|lia].
      exists (k + 1). split; [lia|]. split; [done|]. split; [done|].
      assert (w_draw (tick_draws (take (Z.to_nat (k + 1)) l)) w
        = w_draw (tick_draw l.[k]) (w_draw (tick_draws (take (Z.to_nat k) l)) w)) as ->; [|done].
      unfold w_draw. cbn [w_fds w_screen w_args w_lines w_ticks]. by rewrite tick_draws_step by (unfold n in *; lia).
  - exists 0. split; [lia|]. split; [by apply Hm|]. split; [done|]. by rewrite w_draw_id.
  - rewrite (fm_head _ _ _ Hm). pose proof (place_range ix (link ix 0)). lia.
Qed.

(** The search. *)
Lemma mp1_find_helper_spec s ix l ax :
  fish_mem s ix l →
  mp1_find_helper E s ax = Some (match find_blink (u16 ax) l with Some k => link ix (Z.of_nat k) | None => 0 end).
Proof using HE.
  intros Hm. set (n := Z.of_nat (length l)). pose proof (fm_len _ _ _ Hm) as Hl.
  pose proof (count_slots _ _ _ Hm) as Hc. unfold mp1_find_helper.
  apply (while_eq _ (λ p, ∃ k, 0 ≤ k ≤ n ∧ p = link ix k ∧ ∀ j, 0 ≤ j < k → b_loc l.[j] ≠ u16 ax)
    (λ p, n - place ix p)).
  - intros p (k & Hk & -> & _). pose proof (place_range ix (link ix k)). lia.
  - intros p (k & Hk & -> & Hno). rewrite (place_link s ix l k Hm) by lia.
    destruct (Z.eqb_spec (link ix k) 0) as [E0|E0].
    + apply (link_zero s ix l k Hm) in E0; [|lia]. unfold find_blink.
      rewrite (proj2 (list_find_None _ _)); [done|]. apply Forall_lookup. intros j b Hj.
      pose proof (lookup_lt_Some _ _ _ Hj). rewrite <- (aget_lookup l (Z.of_nat j) b) by (lia || by rewrite Nat2Z.id).
      apply Hno. lia.
    + assert (0 ≤ k < Z.of_nat (length l)) as Hkn.
      { unfold n in Hk. destruct (decide (k = Z.of_nat (length l))); [|lia]. destruct E0. apply (link_end s ix l k Hm). lia. }
      destruct (slot_of_mem s ix l k Hm Hkn) as (_ & _ & Ek). pose proof (fm_node _ _ _ Hm k Hkn) as Hn.
      rewrite Ek, (nd_loc _ _ _ _ Hn). destruct (Z.eqb_spec (b_loc l.[k]) (u16 ax)) as [Ea|Ea].
      * unfold find_blink. rewrite (proj2 (list_find_Some _ _ (Z.to_nat k) l.[k])).
        -- cbn. by rewrite Z2Nat.id, Ek by lia.
        -- split; [by apply get_in|]. split; [done|]. intros j y Hj Hlt Ey.
           apply (Hno (Z.of_nat j)); [lia|]. rewrite (aget_lookup l (Z.of_nat j) y); [done|lia|by rewrite Nat2Z.id].
      * rewrite (nd_next _ _ _ _ Hn), (place_link s ix l (k + 1) Hm) by lia. split; [|lia].
        exists (k + 1). split; [lia|]. split; [done|]. intros j Hj.
        destruct (decide (j = k)) as [->|]; [done|]. apply Hno. lia.
  - exists 0. split; [lia|]. split; [by apply Hm|]. intros j Hj. lia.
  - rewrite (fm_head _ _ _ Hm). pose proof (place_range ix (link ix 0)). lia.
Qed.

(** ** Allocation *)

Lemma mp1_malloc_spec s ix l :
  fish_mem s ix l →
  if decide (length ix < 2000)%nat then ∃ i, mp1_malloc E s = Some (slot i) ∧ 0 ≤ i < 2000 ∧ i ∉ ix
  else mp1_malloc E s = Some 0.
Proof.
  intros Hm. unfold mp1_malloc.
  destruct (while_total (λ i, if i <? 80 * 25 then
      if f_location s (slot i) =? 0 then inr (slot i) else inl (i + 1) else inr 0)
    (λ i, 0 ≤ i ≤ 2000 ∧ ∀ j, 0 ≤ j < i → j ∈ ix) (λ i, 2000 - i)
    (λ r, (∃ i, r = slot i ∧ 0 ≤ i < 2000 ∧ i ∉ ix) ∨ (r = 0 ∧ ∀ j, 0 ≤ j < 2000 → j ∈ ix)) 0)
    as (r & -> & Hr).
  - intros i [Hi _]. lia.
  - intros i [Hi Hin]. change (80 * 25) with 2000. destruct (Z.ltb_spec i 2000) as [Hlt|Hge].
    + destruct (Z.eqb_spec (f_location s (slot i)) 0) as [E0|E0].
      * left. exists i. split; [done|]. split; [lia|]. intros Hi'. apply list_elem_of_lookup_1 in Hi' as [k Hk].
        pose proof (fm_len _ _ _ Hm). pose proof (lookup_lt_Some _ _ _ Hk).
        pose proof (fm_node _ _ _ Hm (Z.of_nat k) ltac:(lia)) as Hn. pose proof (fm_used _ _ _ Hm (Z.of_nat k) ltac:(lia)).
        rewrite (aget_lookup ix (Z.of_nat k) i) in Hn by (lia || by rewrite Nat2Z.id).
        rewrite (nd_loc _ _ _ _ Hn) in E0. lia.
      * split; [|lia]. split; [lia|]. intros j Hj. destruct (decide (j = i)) as [->|]; [|apply Hin; lia].
        destruct (decide (i ∈ ix)); [done|]. destruct E0. by apply (fm_free _ _ _ Hm); [lia|].
    + right. split; [done|]. intros j Hj. apply Hin. lia.
  - split; [lia|]. intros j Hj. lia.
  - lia.
  - pose proof (count_slots _ _ _ Hm) as Hc. case_decide as Hlt; destruct Hr as [(i & -> & Hi & Hni)|[-> Hall]].
    + by exists i.
    + assert (seqZ 0 2000 ⊆+ ix) as Hs.
      { apply NoDup_submseteq; [apply NoDup_seqZ|]. intros i Hi. apply elem_of_seqZ in Hi. apply Hall. lia. }
      apply submseteq_length in Hs. rewrite length_seqZ in Hs. lia.
    + assert (i :: ix ⊆+ seqZ 0 2000) as Hs.
      { apply NoDup_submseteq; [by constructor; [|apply Hm]|]. intros j Hj. apply elem_of_seqZ.
        apply elem_of_cons in Hj as [->|Hj]; [lia|]. apply (fm_range _ _ _ Hm) in Hj. lia. }
      apply submseteq_length in Hs. rewrite length_seqZ in Hs. cbn in Hs. lia.
    + done.
Qed.

(** ** Insertion *)

Lemma local_heap (j : nat) r a :
  (3 <= j)%nat → fish_regions E !! j = Some r → region r.1 r.2 a → ¬ heap a.
Proof using HE.
  intros Hj Hr Ha. pose proof (fl_apart E HE j 0 _ _ ltac:(lia) Hr eq_refl).
  pose proof (fl_apart E HE j 1 _ _ ltac:(lia) Hr eq_refl). pose proof (fl_apart E HE j 2 _ _ ltac:(lia) Hr eq_refl).
  cbn [fst snd] in *. unfold heap, region in *. lia.
Qed.

Lemma region_owned (j : nat) r a : fish_regions E !! j = Some r → region r.1 r.2 a → owned E a.
Proof. intros Hr. by apply in_region, (list_elem_of_lookup_2 _ j). Qed.

(** Stores to the locals. *)
Lemma fish_mem_out s s' ix l a n f :
  written user_page s s' a n f → (∀ b, region a n b → ¬ heap b) → fish_mem s ix l → fish_mem s' ix l.
Proof using HE.
  intros W Ha. apply fish_mem_ext. intros b Hb. apply (written_out _ _ _ _ _ _ _ W); [by apply heap_page|].
  intros Hr. by apply (Ha b Hr).
Qed.

Lemma link_cons i ix k : 0 ≤ k → link (i :: ix) (k + 1) = link ix k.
Proof. intros Hk. unfold link. by replace (Z.to_nat (k + 1)) with (Datatypes.S (Z.to_nat k)) by lia. Qed.

Lemma aget_cons {A} `{!HasZero A} (x : A) (l : list A) k : 0 ≤ k → (x :: l).[k + 1] = l.[k].
Proof.
  intros Hk. rewrite (aget_app_r [x] l) by (cbn; lia). f_equal. cbn. lia.
Qed.

(** A free slot becomes the first element. *)
Lemma fish_mem_cons s s' ix l i b :
  fish_mem s ix l → 0 ≤ i < 2000 → i ∉ ix →
  (∀ a, heap a → ¬ region (slot i) 16 a → ¬ region (fe_head E) 4 a → rd s' a = rd s a) →
  node_at s' (slot i) b (link ix 0) → load32 s' (fe_head E) = slot i → 0 < b_loc b < 2000 →
  fish_mem s' (i :: ix) (b :: l).
Proof using HE.
  intros Hm Hi Hni Hr Hn Hh Hb. pose proof Hm as [H1 H2 H3 H4 H5 H6 H7 H8].
  pose proof (fl_apart E HE 0 1 _ _ ltac:(done) eq_refl eq_refl) as A1.
  pose proof (fl_apart E HE 0 2 _ _ ltac:(done) eq_refl eq_refl) as A2.
  pose proof (fl_apart E HE 1 2 _ _ ltac:(done) eq_refl eq_refl) as A3. cbn [fst snd] in *.
  assert (∀ j a, 0 ≤ j < 2000 → j ≠ i → region (slot j) 16 a → rd s' a = rd s a) as Hslots.
  { intros j a Hj Hne Ha. apply Hr; [by apply (slot_heap j)|by apply (slots_apart j)|].
    unfold Fish.slot, STRUCT_SIZE, region in *. lia. }
  split; try done.
  - rewrite (load32_ext s s'); [done|]. intros a Ha.
    apply Hr; [right; right; unfold region; lia|unfold Fish.slot, STRUCT_SIZE, region in *; lia|unfold region; lia].
  - by constructor.
  - intros j Hj. apply elem_of_cons in Hj as [->|Hj]; auto.
  - cbn. lia.
  - intros k Hk. cbn [length] in Hk. destruct (decide (k = 0)) as [->|Hne].
    + rewrite link_cons by lia. exact Hn.
    + replace k with (k - 1 + 1) by lia. rewrite !aget_cons, link_cons by lia.
      apply (node_at_ext s); [|apply H6; lia]. intros a Ha.
      destruct (slot_of_mem s ix l (k - 1) Hm ltac:(lia)) as (Lk & Rk & _).
      apply (Hslots ix.[k - 1]); [done| |done]. intros E'. apply Hni. rewrite <- E'. by apply (list_elem_of_lookup_2 _ _ _ Lk).
  - intros j Hj Hnj. apply not_elem_of_cons in Hnj as [Hne Hnj]. unfold f_location.
    rewrite (load16_ext s s'); [by apply H7|]. intros a Ha. apply (Hslots j); [done|done|]. unfold region in *. lia.
  - intros k Hk. cbn [length] in Hk. destruct (decide (k = 0)) as [->|Hne]; [exact Hb|].
    replace k with (k - 1 + 1) by lia. rewrite aget_cons by lia. apply H8. lia.
Qed.

Definition frame_area : Z → Prop := region (fe_frame E) 16.

Lemma frame_owned a : frame_area a → owned E a ∧ user_page a ∧ ¬ heap a.
Proof using HE.
  intros Ha. assert (owned E a) as Ho by by apply (region_owned 3 (fe_frame E, 16)).
  split; [done|]. split; [by apply HE|]. by apply (local_heap 3 (fe_frame E, 16)); [lia|done|].
Qed.

Lemma written_keeps s s' a n f (A : Z → Prop) :
  written user_page s s' a n f → (∀ b, region a n b → A b) → keeps s s' A.
Proof.
  intros W HA b Hb Hn. apply (written_out _ _ _ _ _ _ _ W); [done|]. intros Hr. by apply Hn, HA.
Qed.

(** The temporary of [mp1_ioctl_add]. *)
Lemma frame_filled s w ix l arg b next :
  running s w → fish_mem s ix l → node_at s arg b next → (∀ a, region arg 16 a → user_page a) →
  arg + 16 ≤ fe_frame E ∨ fe_frame E + 16 ≤ arg →
  let s1 := ece391_memcpy s (fe_frame E) arg 16 in
  let s2 := set_status s1 (fe_frame E) 1 in
  let s3 := set_countdown s2 (fe_frame E) (f_on_length s2 (fe_frame E)) in
  (running s1 w ∧ fish_mem s1 ix l ∧ node_at s1 (fe_frame E) b next ∧ keeps s s1 frame_area) ∧
  (running s3 w ∧ fish_mem s3 ix l ∧ node_at s3 (fe_frame E) (new_blink b) next ∧ keeps s s3 frame_area).
Proof using HE FileService0.
  intros Hr Hm Hn HP Hd s1 s2 s3.
  assert (∀ a, region (fe_frame E) 16 a → user_page a) as HPf by (intros a Ha; by apply frame_owned).
  destruct (memcpy_written user_page (λ s, running s w) s (fe_frame E) arg 16) as [W1 Hr1];
    [lia|exact (run_safe s w Hr)|done|done|lia|apply run_wr_closed; intros a Ha; by apply frame_owned|done|].
  fold s1 in W1, Hr1.
  assert (fish_mem s1 ix l) as Hm1 by (apply (fish_mem_out s s1 ix l _ _ _ W1); [|done]; intros a Ha; by apply frame_owned).
  assert (node_at s1 (fe_frame E) b next) as Hn1.
  { apply (node_at_move s s1 arg); [|done]. intros i Hi.
    rewrite (written_in _ _ _ _ _ _ _ W1) by (lia || (apply HPf; unfold region; lia)). do 2 f_equal. lia. }
  assert (keeps s s1 frame_area) as K1 by by apply (written_keeps _ _ _ _ _ _ W1).
  split; [done|].
  assert (∀ s0 i v, running s0 w → fish_mem s0 ix l → 0 ≤ i < 15 → let s' := store16 s0 (fe_frame E + i) v in
    running s' w ∧ fish_mem s' ix l ∧ keeps s0 s' frame_area) as Hst.
  { intros s0 i v Hr0 Hm0 Hi s'. destruct (field16 user_page (fe_frame E) HPf s0 i v (run_safe s0 w Hr0) Hi) as [W _].
    assert (∀ a, region (fe_frame E + i) 2 a → frame_area a) as Hin by (intros a Ha; unfold frame_area, region in *; lia).
    split; [|split].
    - apply run_store16; [done|]. intros a Ha. by apply frame_owned, Hin.
    - apply (fish_mem_out s0 s' ix l _ _ _ W); [|done]. intros a Ha. by apply frame_owned, Hin.
    - by apply (written_keeps _ _ _ _ _ _ W). }
  destruct (Hst s1 10 1 Hr1 Hm1 ltac:(lia)) as (Hr2 & Hm2 & K2). fold (set_status s1 (fe_frame E) 1) in Hr2, Hm2, K2.
  pose proof (node_status user_page _ HPf s1 b next 1 (run_safe s1 w Hr1) Hn1) as Hn2. fold s2 in Hr2, Hm2, K2, Hn2.
  destruct (Hst s2 8 (f_on_length s2 (fe_frame E)) Hr2 Hm2 ltac:(lia)) as (Hr3 & Hm3 & K3).
  fold (set_countdown s2 (fe_frame E) (f_on_length s2 (fe_frame E))) in Hr3, Hm3, K3. fold s3 in Hr3, Hm3, K3.
  pose proof (node_count user_page _ HPf s2 _ next (f_on_length s2 (fe_frame E)) (run_safe s2 w Hr2) Hn2) as Hn3.
  fold s3 in Hn3. split; [done|]. split; [done|]. split; [|by apply (keeps_chain s s1), (keeps_chain s1 s2)].
  rewrite (nd_onlen _ _ _ _ Hn2) in Hn3. change (b_onlen (with_status b (u16 1))) with (b_onlen b) in Hn3.
  destruct (node_ranges _ _ _ _ Hn) as (_ & (R & _) & _). rewrite (u16_small (b_onlen b)) in Hn3 by lia. exact Hn3.
Qed.

(** The element in its slot, at the head of the list. *)
Lemma element_linked s w ix l i b next :
  running s w → fish_mem s ix l → 0 ≤ i < 2000 → i ∉ ix → node_at s (fe_frame E) b next → 0 < b_loc b < 2000 →
  let s1 := ece391_memcpy s (slot i) (fe_frame E) 16 in
  let s2 := set_next s1 (slot i) (load32 s1 (fe_head E)) in
  let s3 := store32 s2 (fe_head E) (slot i) in
  running s3 w ∧ fish_mem s3 (i :: ix) (b :: l) ∧ keeps s s3 heap.
Proof using HE FileService0.
  intros Hr Hm Hi Hni Hn Hb s1. cbv zeta.
  assert (∀ a, region (slot i) 16 a → user_page a) as HPs by (intros a; by apply slot_page).
  assert (∀ a, region (fe_head E) 4 a → user_page a) as HPh by (intros a Ha; apply heap_page; right; by left).
  pose proof (fl_apart E HE 0 1 _ _ ltac:(done) eq_refl eq_refl) as A1.
  pose proof (fl_apart E HE 0 3 _ _ ltac:(done) eq_refl eq_refl) as A3. cbn [fst snd] in *.
  destruct (memcpy_written user_page (λ s, running s w) s (slot i) (fe_frame E) 16) as [W1 Hr1];
    [lia|exact (run_safe s w Hr)|done|intros a Ha; by apply frame_owned|unfold Fish.slot, STRUCT_SIZE; lia
    |apply run_wr_closed; intros a; by apply slot_owned|done|].
  fold s1 in W1, Hr1.
  assert (node_at s1 (slot i) b next) as Hn1.
  { apply (node_at_move s s1 (fe_frame E)); [|done]. intros j Hj.
    rewrite (written_in _ _ _ _ _ _ _ W1) by (lia || (apply HPs; unfold region; lia)). do 2 f_equal. lia. }
  assert (load32 s1 (fe_head E) = link ix 0) as Eh.
  { rewrite <- (fm_head _ _ _ Hm). apply (written_load32_out _ _ _ _ _ _ _ W1 HPh).
    unfold Fish.slot, STRUCT_SIZE. lia. }
  assert (∀ k, 0 ≤ link ix k < 4294967296) as Hlr.
  { intros k. unfold link. destruct (ix !! Z.to_nat k) as [j|] eqn:Ej; [|lia].
    assert (0 ≤ j < 2000) as Hj by by apply (fm_range _ _ _ Hm), (list_elem_of_lookup_2 _ _ _ Ej).
    assert (user_page (slot j)) as Hu by (apply (slot_page j); [done|unfold region; lia]).
    unfold user_page, region, USER_MEM_LOCATION in Hu. lia. }
  rewrite Eh. set (s2 := set_next s1 (slot i) (link ix 0)). set (s3 := store32 s2 (fe_head E) (slot i)).
  pose proof (field32 user_page (slot i) HPs s1 12 (link ix 0) (run_safe s1 w Hr1) ltac:(lia) (Hlr 0)) as [W2 _].
  pose proof (node_next user_page (slot i) HPs s1 b next (link ix 0) (run_safe s1 w Hr1) (Hlr 0) Hn1) as Hn2.
  fold (set_next s1 (slot i) (link ix 0)) in W2. fold s2 in W2, Hn2.
  assert (running s2 w) as Hr2.
  { apply run_store32; [done|]. intros a Ha. apply (slot_owned i); [done|]. unfold region in *. lia. }
  pose proof (store32_written user_page s2 (fe_head E) (slot i) (run_safe s2 w Hr2) HPh) as W3. fold s3 in W3.
  assert (∀ a, user_page a → ¬ region (slot i) 16 a → ¬ region (fe_head E) 4 a → rd s3 a = rd s a) as Hk.
  { intros a Ha H1 H2. unfold region in H1, H2.
    rewrite (written_out _ _ _ _ _ _ _ W3), (written_out _ _ _ _ _ _ _ W2), (written_out _ _ _ _ _ _ _ W1)
      by (done || lia). done. }
  split; [|split].
  - apply run_store32; [done|]. intros a Ha. apply heap_owned. right; by left.
  - apply (fish_mem_cons s s3); try done.
    + intros a Ha. apply Hk. by apply heap_page.
    + apply (node_at_ext s2); [|done]. intros a Ha. apply (written_out _ _ _ _ _ _ _ W3); [by apply HPs|].
      unfold Fish.slot, STRUCT_SIZE, region in *. lia.
    + apply (load32_store32 user_page); [exact (run_safe s2 w Hr2)|done|].
      pose proof (slot_page i (slot i) Hi ltac:(unfold region; lia)) as Hu.
      unfold user_page, region, USER_MEM_LOCATION in Hu. lia.
  - intros a Ha Hh. apply Hk; [done| |]; intros Hx; apply Hh; [by apply (slot_heap i)|right; by left].
Qed.

(** [RTC_ADD]: a location on the screen and a free slot, or -1. *)
Lemma mp1_ioctl_add_spec s w ix l arg b next :
  running s w → fish_mem s ix l → node_at s arg b next → (∀ a, region arg 16 a → user_page a) →
  arg + 16 ≤ fe_frame E ∨ fe_frame E + 16 ≤ arg → b_loc b ≠ 0 →
  if decide (b_loc b < 2000 ∧ (length l < 2000)%nat) then
    ∃ s' i, mp1_ioctl_add E s arg = Some (s', 0) ∧ running s' (w_draw (poke_char (b_loc b) (b_on b)) w) ∧
      fish_mem s' (i :: ix) (new_blink b :: l) ∧ keeps s s' (λ a, frame_area a ∨ heap a)
  else
    ∃ s', mp1_ioctl_add E s arg = Some (s', -1) ∧ running s' w ∧ fish_mem s' ix l ∧ keeps s s' frame_area.
Proof using HE FileService0 VideoService0.
  intros Hr Hm Hn HP Hd Hb0. destruct (frame_filled s w ix l arg b next Hr Hm Hn HP Hd)
    as [(Hr1 & Hm1 & Hn1 & K1) (Hr3 & Hm3 & Hn3 & K3)].
  unfold mp1_ioctl_add. set (s1 := ece391_memcpy s (fe_frame E) arg 16) in *. cbv zeta.
  rewrite (nd_loc _ _ _ _ Hn1). change (80 * 25) with 2000. rewrite Z.geb_leb.
  destruct (node_ranges _ _ _ _ Hn) as ((R1 & _) & _ & (R5 & _)).
  destruct (Z.leb_spec 2000 (b_loc b)) as [Hge|Hlt].
  { rewrite decide_False by lia. by exists s1. }
  set (s3 := set_countdown (set_status s1 _ 1) _ _) in *. rewrite (fm_len _ _ _ Hm).
  pose proof (mp1_malloc_spec s3 ix l Hm3) as Hmal. case_decide as Hfree.
  2: { rewrite decide_False by tauto. rewrite Hmal, bind_some. by exists s3. }
  destruct Hmal as (i & -> & Hi & Hni). rewrite decide_True by done. rewrite bind_some.
  pose proof (slot_pos i). rewrite (proj2 (Z.eqb_neq _ 0)) by lia.
  destruct (element_linked s3 w ix l i (new_blink b) next Hr3 Hm3 Hi Hni Hn3) as (Hr4 & Hm4 & K4);
    [change (b_loc (new_blink b)) with (b_loc b); lia|].
  match type of Hr4 with running ?x _ => set (s4 := x) in * end.
  pose proof (fm_node _ _ _ Hm4 0 ltac:(cbn [length]; lia)) as Hn4. change ((i :: ix).[0]) with i in Hn4.
  change ((new_blink b :: l).[0]) with (new_blink b) in Hn4.
  rewrite (nd_loc _ _ _ _ Hn4), (nd_on _ _ _ _ Hn4). change (b_loc (new_blink b)) with (b_loc b).
  change (b_on (new_blink b)) with (b_on b).
  destruct (poke_spec s4 w _ _ (b_loc b) (b_on b) Hr4 Hm4) as [Hr5 K5]; [lia|done|].
  eexists _, i. split; [done|]. split; [done|]. split; [by apply (fish_mem_keeps s4)|].
  apply (keeps_chain s s3); [apply (keeps_sub _ _ _ _ K3); by left|].
  apply (keeps_chain s3 s4); [apply (keeps_sub _ _ _ _ K4); by right|].
  by apply (keeps_sub _ _ _ _ K5).
Qed.

(** ** Removal *)

(** The old index of element [j] once element [k] is gone. *)
Definition skip (k j : Z) : Z := if j <? k then j else j + 1.

Lemma skip_range k j n : 0 ≤ k < n → 0 ≤ j < n - 1 → 0 ≤ skip k j < n ∧ skip k j ≠ k.
Proof. unfold skip. intros. destruct (Z.ltb_spec j k); lia. Qed.

Lemma aget_delete {A} `{!HasZero A} (l : list A) (k : nat) j :
  0 ≤ j → (delete k l).[j] = l.[skip (Z.of_nat k) j].
Proof.
  intros Hj. unfold aget, skip. rewrite (proj2 (Z.leb_le 0 j)) by lia. destruct (Z.ltb_spec j (Z.of_nat k)).
  - rewrite (proj2 (Z.leb_le 0 j)) by lia. by rewrite list_lookup_delete_lt by lia.
  - rewrite (proj2 (Z.leb_le 0 (j + 1))) by lia. rewrite list_lookup_delete_ge by lia. do 2 f_equal. lia.
Qed.

Lemma link_delete ix (k : nat) j : 0 ≤ j → link (delete k ix) j = link ix (skip (Z.of_nat k) j).
Proof.
  intros Hj. unfold link, skip. destruct (Z.ltb_spec j (Z.of_nat k)).
  - by rewrite list_lookup_delete_lt by lia.
  - rewrite list_lookup_delete_ge by lia. by replace (Z.to_nat (j + 1)) with (Datatypes.S (Z.to_nat j)) by lia.
Qed.

(** Where the pointer to element [j] is kept. *)
Definition hook ix j : Z := if j =? 0 then fe_head E else slot ix.[j - 1] + 12.

Lemma hook_load s ix l j :
  fish_mem s ix l → 0 ≤ j ≤ Z.of_nat (length l) → load32 s (hook ix j) = link ix j.
Proof.
  intros Hm Hj. unfold hook. destruct (Z.eqb_spec j 0) as [->|Hne]; [apply Hm|].
  pose proof (nd_next _ _ _ _ (fm_node _ _ _ Hm (j - 1) ltac:(lia))) as Hn.
  by replace (j - 1 + 1) with j in Hn by lia.
Qed.

Lemma hook_region s ix l j a :
  fish_mem s ix l → 0 ≤ j ≤ Z.of_nat (length l) → region (hook ix j) 4 a →
  (j = 0 ∧ region (fe_head E) 4 a) ∨ (0 < j ∧ 0 ≤ ix.[j - 1] < 2000 ∧ region (slot ix.[j - 1]) 16 a ∧ slot ix.[j - 1] + 12 ≤ a).
Proof.
  intros Hm Hj. unfold hook. destruct (Z.eqb_spec j 0) as [->|Hne]; [by left|]. intros Ha. right.
  destruct (slot_of_mem s ix l (j - 1) Hm ltac:(lia)) as (_ & R & _). unfold region in *. lia.
Qed.

Lemma hook_heap s ix l j a :
  fish_mem s ix l → 0 ≤ j ≤ Z.of_nat (length l) → region (hook ix j) 4 a → heap a.
Proof.
  intros Hm Hj Ha. destruct (hook_region s ix l j a Hm Hj Ha) as [[_ Hh]|(_ & R & Hs & _)]; [right; by left|].
  by apply (slot_heap ix.[j - 1]).
Qed.

Lemma fish_mem_delete s s' ix l (k : nat) :
  fish_mem s ix l → (k < length l)%nat →
  (∀ a, heap a → ¬ region (hook ix (Z.of_nat k)) 4 a → ¬ region (slot ix.[Z.of_nat k]) 16 a → rd s' a = rd s a) →
  load32 s' (hook ix (Z.of_nat k)) = link ix (Z.of_nat k + 1) → f_location s' (slot ix.[Z.of_nat k]) = 0 →
  fish_mem s' (delete k ix) (delete k l).
Proof using HE.
  intros Hm Hk Hr Hh Hz. set (kz := Z.of_nat k) in *. set (n := Z.of_nat (length l)).
  pose proof Hm as [H1 H2 H3 H4 H5 H6 H7 H8]. assert (0 ≤ kz < n) as Hkz by (unfold kz, n; lia).
  pose proof (fl_apart E HE 0 1 _ _ ltac:(done) eq_refl eq_refl) as A1.
  pose proof (fl_apart E HE 0 2 _ _ ltac:(done) eq_refl eq_refl) as A2.
  pose proof (fl_apart E HE 1 2 _ _ ltac:(done) eq_refl eq_refl) as A3. cbn [fst snd] in *.
  destruct (slot_of_mem s ix l kz Hm Hkz) as (Lk & Rk & _).
  assert (ix !! k = Some ix.[kz]) as Lk' by (unfold kz in *; by rewrite Nat2Z.id in Lk).
  assert (is_Some (l !! k)) as Ll by (apply lookup_lt_is_Some; lia).
  assert (∀ a, region (hook ix kz) 4 a → (kz = 0 ∧ region (fe_head E) 4 a) ∨
    (0 < kz ∧ 0 ≤ ix.[kz - 1] < 2000 ∧ region (slot ix.[kz - 1]) 16 a ∧ slot ix.[kz - 1] + 12 ≤ a)) as Hhr
    by (intros a; apply (hook_region s ix l kz a Hm); lia).
  assert (∀ a, region (fe_vmem E) 4 a → rd s' a = rd s a) as Hv.
  { intros a Ha. apply Hr; [by right; right| |].
    - intros [[_ Hx]|(_ & R & Hx & _)]%Hhr; unfold Fish.slot, STRUCT_SIZE, region in *; lia.
    - unfold Fish.slot, STRUCT_SIZE, region in *. lia. }
  (* another slot *)
  assert (∀ j a, 0 ≤ j < 2000 → j ≠ ix.[kz] → region (slot j) 16 a →
    kz = 0 ∨ j ≠ ix.[kz - 1] ∨ a < slot j + 12 → rd s' a = rd s a) as Hslots.
  { intros j a Hj Hne Ha Hc. apply Hr; [by apply (slot_heap j)| |by apply (slots_apart j)].
    intros [[E0 Hx]|(Hp & R & Hx & Hx2)]%Hhr; [unfold Fish.slot, STRUCT_SIZE, region in *; lia|].
    destruct (decide (j = ix.[kz - 1])) as [->|Hj2]; [lia|]. by apply (slots_apart j ix.[kz - 1] a). }
  split.
  - rewrite (load32_ext s s'); [done|exact Hv].
  - rewrite link_delete by lia. fold kz. unfold skip. destruct (Z.ltb_spec 0 kz) as [Hp|Hp].
    + rewrite <- H2. apply load32_ext. intros a Ha. apply Hr; [right; left; exact Ha| |].
      * intros [[E0 _]|(_ & R & Hx & _)]%Hhr; unfold Fish.slot, STRUCT_SIZE, region in *; lia.
      * unfold Fish.slot, STRUCT_SIZE, region in *. lia.
    + assert (kz = 0) as E0 by lia. rewrite E0 in Hh. exact Hh.
  - eapply sublist_NoDup; [exact H3|apply sublist_delete].
  - intros i Hi. apply H4. by apply list_elem_of_delete_inv in Hi.
  - rewrite !length_delete by (done || by eexists). lia.
  - intros j Hj. rewrite length_delete in Hj by done.
    destruct (skip_range kz j n Hkz ltac:(unfold n; lia)) as [Hsr Hsk].
    rewrite !aget_delete, link_delete by lia. fold kz.
    destruct (slot_of_mem s ix l _ Hm Hsr) as (Ls & Rs & _).
    assert (ix.[skip kz j] ≠ ix.[kz]) as Hne by (by apply (slot_ne s ix l)).
    pose proof (H6 _ Hsr) as Hn. destruct (decide (j + 1 = kz)) as [Ej|Ej].
    + assert (skip kz j = kz - 1) as Es by (unfold skip; destruct (Z.ltb_spec j kz); lia). rewrite Es in *.
      assert (skip kz (j + 1) = kz + 1) as -> by (unfold skip; destruct (Z.ltb_spec (j + 1) kz); lia).
      assert (hook ix kz = slot ix.[kz - 1] + 12) as Eh by (unfold hook; destruct (Z.eqb_spec kz 0); [lia|done]).
      apply node_at_fields in Hn as (F1 & F2 & F3 & F4 & F5 & F6 & F7 & _).
      assert (∀ a, region (slot ix.[kz - 1]) 12 a → rd s' a = rd s a) as Hlow.
      { intros a Ha. apply (Hslots ix.[kz - 1]); [done|done|unfold region in *; lia|]. right; right. unfold region in Ha. lia. }
      apply node_at_intro.
      all: try (rewrite (load16_ext s s'); [assumption|]; intros a Ha; apply Hlow; unfold region in *; lia).
      * rewrite Hlow; [done|unfold region; lia].
      * rewrite Hlow; [done|unfold region; lia].
      * rewrite <- Eh. exact Hh.
    + assert (skip kz (j + 1) = skip kz j + 1) as ->.
      { unfold skip. destruct (Z.ltb_spec j kz), (Z.ltb_spec (j + 1) kz); lia. }
      apply (node_at_ext s); [|done]. intros a Ha. apply (Hslots ix.[skip kz j]); try done.
      destruct (decide (kz = 0)); [by left|]. right; left. apply (slot_ne s ix l); [done|done|lia|].
      unfold skip. destruct (Z.ltb_spec j kz); lia.
  - intros i Hi Hni. destruct (decide (i = ix.[kz])) as [->|Hne]; [exact Hz|].
    assert (i ∉ ix) as Hni'.
    { intros Hin. apply list_elem_of_lookup_1 in Hin as [m Hm']. apply Hni.
      destruct (Nat.lt_trichotomy m k) as [Hlt|[->|Hgt]].
      - apply (list_elem_of_lookup_2 _ m). by rewrite list_lookup_delete_lt.
      - destruct Hne. rewrite Hm' in Lk'. by injection Lk'.
      - apply (list_elem_of_lookup_2 _ (m - 1)%nat). rewrite list_lookup_delete_ge by lia.
        by replace (Datatypes.S (m - 1)) with m by lia. }
    unfold f_location. rewrite (load16_ext s s'); [by apply H7|]. intros a Ha.
    apply (Hslots i); [done|done|unfold region in *; lia|].
    destruct (decide (kz = 0)); [by left|]. right; left. intros ->.
    apply Hni', (list_elem_of_lookup_2 _ (Z.to_nat (kz - 1))), get_in. lia.
  - intros j Hj. rewrite length_delete in Hj by done.
    rewrite aget_delete by lia. apply H8. fold kz. apply (skip_range kz j n); [done|unfold n; lia].
Qed.

Lemma link_range s ix l k : fish_mem s ix l → 0 ≤ link ix k < USER_MEM_LOCATION + 0x400000.
Proof using HE.
  intros Hm. unfold link. destruct (ix !! Z.to_nat k) as [i|] eqn:Ei; [|unfold USER_MEM_LOCATION; lia].
  assert (0 ≤ i < 2000) as Hi by by apply (fm_range _ _ _ Hm), (list_elem_of_lookup_2 _ _ _ Ei).
  pose proof (slot_page i (slot i) Hi ltac:(unfold region; lia)) as Hu.
  unfold user_page, region, USER_MEM_LOCATION in *. lia.
Qed.

Lemma find_blink_lt loc l k : find_blink loc l = Some k → (k < length l)%nat ∧ b_loc l.[Z.of_nat k] = loc.
Proof.
  unfold find_blink. intros ([j b] & Hj & ->)%fmap_Some. apply list_find_Some in Hj as (Hj & Hb & _).
  split; [by apply lookup_lt_Some in Hj|]. cbn.
  by rewrite (aget_lookup l (Z.of_nat j) b) by (lia || by rewrite Nat2Z.id).
Qed.

(** The walk over the places that hold a pointer. *)
Lemma remove_walk s ix l k :
  fish_mem s ix l → 0 ≤ k < Z.of_nat (length l) →
  while (λ edx, if load32 s edx =? link ix k then inr edx else inl (u32 (load32 s edx + 12))) (fe_head E)
  = Some (hook ix k).
Proof using HE.
  intros Hm Hk. pose proof (fm_len _ _ _ Hm) as Hl. pose proof (count_slots _ _ _ Hm) as Hc.
  pose proof (fl_apart E HE 0 1 _ _ ltac:(done) eq_refl eq_refl) as A1. cbn [fst snd] in *.
  set (placeh := λ p, if p =? fe_head E then 0 else 1 + place ix (p - 12)).
  assert (∀ j, 0 ≤ j ≤ Z.of_nat (length l) → placeh (hook ix j) = j) as Hph.
  { intros j Hj. unfold placeh, hook. destruct (Z.eqb_spec j 0) as [->|Hne]; [by rewrite Z.eqb_refl|].
    destruct (slot_of_mem s ix l (j - 1) Hm ltac:(lia)) as (_ & R & Elk).
    rewrite (proj2 (Z.eqb_neq _ (fe_head E))) by (unfold Fish.slot, STRUCT_SIZE in *; lia).
    replace (slot ix.[j - 1] + 12 - 12) with (link ix (j - 1)) by lia.
    rewrite (place_link s ix l) by (done || lia). lia. }
  apply (while_eq _ (λ p, ∃ j, 0 ≤ j ≤ k ∧ p = hook ix j) (λ p, Z.of_nat (length l) - placeh p)).
  - intros p (j & Hj & ->). rewrite Hph by lia. lia.
  - intros p (j & Hj & ->). rewrite Hph, (hook_load s ix l j Hm) by lia.
    destruct (Z.eqb_spec (link ix j) (link ix k)) as [Elk|Hne].
    + f_equal. rewrite <- (place_link s ix l j), <- (place_link s ix l k) by (done || lia). by rewrite Elk.
    + assert (j ≠ k) by (intros ->; done).
      pose proof (link_range s ix l j Hm) as Hlr. unfold USER_MEM_LOCATION in Hlr. rewrite u32_small by lia.
      destruct (slot_of_mem s ix l j Hm ltac:(lia)) as (_ & R & Ej).
      assert (link ix j + 12 = hook ix (j + 1)) as ->.
      { unfold hook. destruct (Z.eqb_spec (j + 1) 0); [lia|]. by replace (j + 1 - 1) with j by lia; rewrite Ej. }
      rewrite Hph by lia. split; [|lia]. exists (j + 1). split; [lia|done].
  - exists 0. split; [lia|]. done.
  - change (fe_head E) with (hook ix 0). rewrite Hph by lia. lia.
Qed.

(** [RTC_REMOVE]: the first element at the location leaves the list and its
    slot is free again; its character stays on the screen. *)
Lemma mp1_ioctl_remove_spec s w ix l arg :
  running s w → fish_mem s ix l →
  match find_blink (u16 arg) l with
  | None => mp1_ioctl_remove E s arg = Some (s, -1)
  | Some k => ∃ s', mp1_ioctl_remove E s arg = Some (s', 0) ∧ running s' w ∧
                    fish_mem s' (delete k ix) (delete k l) ∧ keeps s s' heap
  end.
Proof using HE FileService0.
  intros Hr Hm. unfold mp1_ioctl_remove. rewrite (mp1_find_helper_spec s ix l arg Hm), bind_some.
  destruct (find_blink (u16 arg) l) as [k|] eqn:Ef; [|done].
  destruct (find_blink_lt _ _ _ Ef) as [Hk _]. assert (0 ≤ Z.of_nat k < Z.of_nat (length l)) as Hkz by lia.
  destruct (slot_of_mem s ix l _ Hm Hkz) as (_ & R & Ek). pose proof (slot_pos _ (proj1 R)) as Hp.
  rewrite (proj2 (Z.eqb_neq (link ix (Z.of_nat k)) 0)) by lia.
  rewrite (remove_walk s ix l _ Hm Hkz), bind_some, Ek.
  rewrite (nd_next _ _ _ _ (fm_node _ _ _ Hm _ Hkz)). set (kz := Z.of_nat k) in *.
  assert (∀ a, region (hook ix kz) 4 a → heap a) as Hh by (intros a; apply (hook_heap s ix l kz a Hm); lia).
  pose proof (link_range s ix l (kz + 1) Hm) as Hlr. unfold USER_MEM_LOCATION in Hlr.
  set (s1 := store32 s (hook ix kz) (link ix (kz + 1))).
  assert (∀ a, region (hook ix kz) 4 a → user_page a) as HPh by (intros a Ha; by apply heap_page, Hh).
  pose proof (store32_written user_page s _ (link ix (kz + 1)) (run_safe s w Hr) HPh) as W1. fold s1 in W1.
  assert (running s1 w) as Hr1 by (apply run_store32; [done|]; intros a Ha; by apply heap_owned, Hh).
  assert (∀ a, region (slot ix.[kz]) 16 a → user_page a) as HPs by (intros a; by apply slot_page).
  unfold mp1_free, STRUCT_SIZE.
  destruct (memset_written user_page (λ s, running s w) s1 (slot ix.[kz]) 0 16) as [W2 Hr2];
    [lia|exact (run_safe s1 w Hr1)|done|apply run_wr_closed; intros a; by apply slot_owned|done|].
  set (s2 := ece391_memset s1 (slot ix.[kz]) 0 16) in *. exists s2. split; [done|]. split; [done|].
  assert (∀ a, user_page a → ¬ region (hook ix kz) 4 a → ¬ region (slot ix.[kz]) 16 a → rd s2 a = rd s a) as Hout.
  { intros a Ha H1 H2. unfold region in H1, H2.
    by rewrite (written_out _ _ _ _ _ _ _ W2), (written_out _ _ _ _ _ _ _ W1) by (done || lia). }
  split; [|intros a Ha Hn; apply Hout; [done|by intros ?%Hh|by intros ?%(slot_heap ix.[kz] a R)]].
  apply (fish_mem_delete s s2); [done|done|..].
  - intros a Ha. apply Hout. by apply heap_page.
  - fold kz. assert (∀ a, region (hook ix kz) 4 a → rd s2 a = rd s1 a) as Hsame.
    { intros a Ha. apply (written_out _ _ _ _ _ _ _ W2); [by apply HPh|].
      pose proof (fl_apart E HE 0 1 _ _ ltac:(done) eq_refl eq_refl) as A1. cbn [fst snd] in *.
      destruct (hook_region s ix l kz a Hm ltac:(lia) Ha) as [[E0 Hx]|(Hp0 & R' & Hx & _)];
        [unfold Fish.slot, STRUCT_SIZE, region in *; lia|].
      apply (slots_apart ix.[kz - 1]); [|done]. apply (slot_ne s ix l); (done || lia). }
    rewrite (load32_ext s1 s2) by (intros a Ha; apply Hsame; unfold region; lia).
    apply (load32_store32 user_page); [exact (run_safe s w Hr)|exact HPh|lia].
  - fold kz. unfold f_location, load16.
    rewrite !(written_in _ _ _ _ _ _ _ W2) by (lia || (apply HPs; unfold region; lia)). done.
Qed.

(** ** Synchronisation *)

Lemma sync_char_off s p b next : node_at s p b next → sync_char s p = b_off b.
Proof.
  intros Hn. unfold sync_char. rewrite Z.land_spec. change (Z.testbit 1 7) with false.
  rewrite andb_false_r. cbv [xorb]. apply Hn.
Qed.

(** The four assignments. *)
Lemma sync_fields s w ix l j k :
  running s w → fish_mem s ix l → 0 ≤ j < Z.of_nat (length l) → 0 ≤ k < Z.of_nat (length l) →
  let esi := slot ix.[j] in
  let edi := slot ix.[k] in
  let s1 := set_on_length s edi (f_on_length s esi) in
  let s2 := set_off_length s1 edi (f_off_length s1 esi) in
  let s3 := set_countdown s2 edi (f_countdown s2 esi) in
  let s4 := set_status s3 edi (f_status s3 esi) in
  running s4 w ∧ fish_mem s4 ix l.[k <- sync_blink l.[j] l.[k]] ∧ keeps s s4 heap.
Proof using HE FileService0.
  intros Hr Hm Hj Hk esi edi s1 s2 s3 s4.
  pose proof (fm_node _ _ _ Hm j Hj) as Hn. fold esi in Hn.
  destruct (node_ranges _ _ _ _ Hn) as (_ & (R1 & R2) & (_ & R3)).
  assert (0 ≤ b_count l.[j] < 65536) as R4 by (rewrite <- (nd_count _ _ _ _ Hn); apply load16_range).
  destruct (on_length_store s w ix l k (f_on_length s esi) Hr Hm Hk) as (Hr1 & Hm1 & K1).
  fold edi s1 in Hr1, Hm1, K1. rewrite (nd_onlen _ _ _ _ Hn), u16_small in Hm1 by lia.
  match type of Hm1 with fish_mem _ _ ?x => set (l1 := x) in * end.
  assert (Z.of_nat (length l1) = Z.of_nat (length l)) as L1 by by (unfold l1; rewrite length_aset).
  pose proof (fm_node _ _ _ Hm1 j ltac:(lia)) as Hn1. fold esi in Hn1.
  destruct (off_length_store s1 w ix l1 k (f_off_length s1 esi) Hr1 Hm1 ltac:(lia)) as (Hr2 & Hm2 & K2).
  fold edi s2 in Hr2, Hm2, K2. rewrite (nd_offlen _ _ _ _ Hn1) in Hm2.
  assert (b_offlen l1.[j] = b_offlen l.[j]) as E1.
  { unfold l1. rewrite aget_aset by done. case_decide as Hd; [by rewrite <- Hd|done]. }
  rewrite E1, u16_small in Hm2 by lia. unfold l1 in Hm2. rewrite aget_aset_eq, aset_aset in Hm2 by done. clear l1 L1 Hn1 E1 Hm1.
  match type of Hm2 with fish_mem _ _ ?x => set (l2 := x) in * end.
  assert (Z.of_nat (length l2) = Z.of_nat (length l)) as L2 by by (unfold l2; rewrite length_aset).
  pose proof (fm_node _ _ _ Hm2 j ltac:(lia)) as Hn2. fold esi in Hn2.
  destruct (count_store s2 w ix l2 k (f_countdown s2 esi) Hr2 Hm2 ltac:(lia)) as (Hr3 & Hm3 & K3).
  fold edi s3 in Hr3, Hm3, K3. rewrite (nd_count _ _ _ _ Hn2) in Hm3.
  assert (b_count l2.[j] = b_count l.[j]) as E2.
  { unfold l2. rewrite aget_aset by done. case_decide as Hd; [by rewrite <- Hd|done]. }
  rewrite E2, u16_small in Hm3 by lia. unfold l2 in Hm3. rewrite aget_aset_eq, aset_aset in Hm3 by done. clear l2 L2 Hn2 E2 Hm2.
  match type of Hm3 with fish_mem _ _ ?x => set (l3 := x) in * end.
  assert (Z.of_nat (length l3) = Z.of_nat (length l)) as L3 by by (unfold l3; rewrite length_aset).
  pose proof (fm_node _ _ _ Hm3 j ltac:(lia)) as Hn3. fold esi in Hn3.
  destruct (status_store s3 w ix l3 k (f_status s3 esi) Hr3 Hm3 ltac:(lia)) as (Hr4 & Hm4 & K4).
  fold edi s4 in Hr4, Hm4, K4. rewrite (nd_status _ _ _ _ Hn3) in Hm4.
  assert (b_status l3.[j] = b_status l.[j]) as E3.
  { unfold l3. rewrite aget_aset by done. case_decide as Hd; [by rewrite <- Hd|done]. }
  rewrite E3, u16_small in Hm4 by lia. unfold l3 in Hm4. rewrite aget_aset_eq, aset_aset in Hm4 by done.
  split; [done|]. split; [exact Hm4|].
  by apply (keeps_chain s s1), (keeps_chain s1 s2), (keeps_chain s2 s3).
Qed.

(** [RTC_SYNC]: the element at the second location gets the lengths, the
    countdown and the state of the one at the first; what is drawn is its
    [off_char], whatever the state. *)
Lemma mp1_ioctl_sync_spec s w ix l arg :
  running s w → fish_mem s ix l →
  match find_blink (u16 (Z.shiftr arg 16)) l, find_blink (u16 (Z.land arg 0xFFFF)) l with
  | Some j, Some k =>
      let b := sync_blink l.[Z.of_nat j] l.[Z.of_nat k] in
      ∃ s', mp1_ioctl_sync E s arg = Some (s', 0) ∧
        running s' (w_draw (poke_char (b_loc b) (b_off b)) w) ∧ fish_mem s' ix l.[Z.of_nat k <- b] ∧ keeps s s' heap
  | _, _ => mp1_ioctl_sync E s arg = Some (s, -1)
  end.
Proof using HE FileService0 VideoService0.
  intros Hr Hm. unfold mp1_ioctl_sync.
  rewrite (mp1_find_helper_spec s ix l (Z.shiftr arg 16) Hm), bind_some.
  destruct (find_blink (u16 (Z.shiftr arg 16)) l) as [j|] eqn:Ej; [|done].
  destruct (find_blink_lt _ _ _ Ej) as [Hj _]. assert (0 ≤ Z.of_nat j < Z.of_nat (length l)) as Hjz by lia.
  destruct (slot_of_mem s ix l _ Hm Hjz) as (_ & Rj & Elj). rewrite Elj.
  rewrite (proj2 (Z.eqb_neq (slot ix.[Z.of_nat j]) 0)) by (pose proof (slot_pos ix.[Z.of_nat j]); lia).
  rewrite (mp1_find_helper_spec s ix l (Z.land arg 0xFFFF) Hm), bind_some.
  destruct (find_blink (u16 (Z.land arg 0xFFFF)) l) as [k|] eqn:Ek; [|done].
  destruct (find_blink_lt _ _ _ Ek) as [Hk _]. assert (0 ≤ Z.of_nat k < Z.of_nat (length l)) as Hkz by lia.
  destruct (slot_of_mem s ix l _ Hm Hkz) as (_ & Rk & Elk). rewrite Elk.
  rewrite (proj2 (Z.eqb_neq (slot ix.[Z.of_nat k]) 0)) by (pose proof (slot_pos ix.[Z.of_nat k]); lia).
  set (jz := Z.of_nat j) in *. set (kz := Z.of_nat k) in *. cbv zeta.
  destruct (sync_fields s w ix l jz kz Hr Hm Hjz Hkz) as (Hr4 & Hm4 & K4).
  match type of Hr4 with running ?x _ => set (s4 := x) in * end.
  set (b := sync_blink l.[jz] l.[kz]) in *. assert (0 ≤ kz < Z.of_nat (length l.[kz <- b])) as Hk4 by by rewrite length_aset.
  pose proof (fm_node _ _ _ Hm4 kz Hk4) as Hn4. rewrite aget_aset_eq in Hn4 by done.
  rewrite (sync_char_off _ _ _ _ Hn4), (nd_loc _ _ _ _ Hn4).
  destruct (node_ranges _ _ _ _ Hn4) as ((_ & R2) & _).
  pose proof (fm_used _ _ _ Hm4 kz Hk4) as Hu. rewrite aget_aset_eq in Hu by done.
  destruct (poke_spec s4 w ix _ (b_loc b) (b_off b) Hr4 Hm4) as [Hr5 K5]; [lia|done|].
  eexists. split; [done|]. split; [done|]. split; [by apply (fish_mem_keeps s4)|].
  apply (keeps_chain s s4); [done|]. by apply (keeps_sub _ _ _ _ K5).
Qed.

(** [RTC_FIND] copies the element out. *)
Lemma mp1_ioctl_find_spec s w ix l arg b next :
  running s w → fish_mem s ix l → node_at s arg b next →
  (∀ a, region arg 16 a → owned E a ∧ ¬ heap a) → arg + 16 ≤ fe_loc E ∨ fe_loc E + 2 ≤ arg →
  match find_blink (b_loc b) l with
  | None => ∃ s', mp1_ioctl_find E s arg = Some (s', -1) ∧ running s' w ∧ fish_mem s' ix l ∧ node_at s' arg b next
  | Some k => ∃ s', mp1_ioctl_find E s arg = Some (s', 0) ∧ running s' w ∧ fish_mem s' ix l ∧
      node_at s' arg l.[Z.of_nat k] (link ix (Z.of_nat k + 1))
  end.
Proof using HE FileService0.
  intros Hr Hm Hn Ha Hd. unfold mp1_ioctl_find.
  assert (∀ a, region (fe_loc E) 2 a → owned E a ∧ ¬ heap a) as Hloc.
  { intros a Hla. split; [by apply (region_owned 9 (fe_loc E, 2))|by apply (local_heap 9 (fe_loc E, 2)); [lia|..]]. }
  assert (∀ a, region arg 16 a → user_page a) as HPa by (intros a Hx; by apply HE, Ha).
  assert (∀ a, region (fe_loc E) 2 a → user_page a) as HPl by (intros a Hx; by apply HE, Hloc).
  destruct (memcpy_written user_page (λ s, running s w) s (fe_loc E) arg 2) as [W1 Hr1];
    [lia|exact (run_safe s w Hr)|done|intros a Hx; apply HPa; unfold region in *; lia|lia
    |apply run_wr_closed; intros a Hx; by apply Hloc|done|].
  set (s1 := ece391_memcpy s (fe_loc E) arg 2) in *.
  assert (fish_mem s1 ix l) as Hm1 by (apply (fish_mem_out s s1 ix l _ _ _ W1); [|done]; intros a Hx; by apply Hloc).
  assert (node_at s1 arg b next) as Hn1.
  { apply (node_at_ext s); [|done]. intros a Hx. apply (written_out _ _ _ _ _ _ _ W1); [by apply HPa|].
    unfold region in Hx. lia. }
  assert (load16 s1 (fe_loc E) = b_loc b) as ->.
  { rewrite <- (nd_loc _ _ _ _ Hn). unfold f_location, load16.
    rewrite !(written_in _ _ _ _ _ _ _ W1) by (lia || (apply HPl; unfold region; lia)).
    replace (fe_loc E - fe_loc E) with 0 by lia. replace (fe_loc E + 1 - fe_loc E) with 1 by lia. by rewrite Z.add_0_r. }
  destruct (node_ranges _ _ _ _ Hn) as (_ & _ & (R5 & _)).
  rewrite (mp1_find_helper_spec s1 ix l _ Hm1), bind_some, u16_small by lia.
  destruct (find_blink (b_loc b) l) as [k|] eqn:Ef; [|by exists s1].
  destruct (find_blink_lt _ _ _ Ef) as [Hk _]. assert (0 ≤ Z.of_nat k < Z.of_nat (length l)) as Hkz by lia.
  destruct (slot_of_mem s1 ix l _ Hm1 Hkz) as (_ & R & Ek). rewrite Ek.
  rewrite (proj2 (Z.eqb_neq (slot ix.[Z.of_nat k]) 0)) by (pose proof (slot_pos _ (proj1 R)); lia).
  assert (∀ a, region (slot ix.[Z.of_nat k]) 16 a → user_page a) as HPs by (intros a; by apply slot_page).
  assert (arg + 16 ≤ slot ix.[Z.of_nat k] ∨ slot ix.[Z.of_nat k] + 16 ≤ arg) as Hd2.
  { set (p := slot ix.[Z.of_nat k]) in *.
    destruct (decide (arg + 16 ≤ p)); [by left|]. destruct (decide (p + 16 ≤ arg)); [by right|].
    destruct (Ha (Z.max arg p)) as [_ []]; [unfold region; lia|].
    apply (slot_heap ix.[Z.of_nat k]); [done|]. fold p. unfold region. lia. }
  destruct (memcpy_written user_page (λ s, running s w) s1 arg (slot ix.[Z.of_nat k]) 16) as [W2 Hr2];
    [lia|exact (run_safe s1 w Hr1)|done|done|lia|apply run_wr_closed; intros a Hx; by apply Ha|done|].
  set (s2 := ece391_memcpy s1 arg _ 16) in *. exists s2. split; [done|]. split; [done|]. split.
  - apply (fish_mem_out s1 s2 ix l _ _ _ W2); [|done]. intros a Hx. by apply Ha.
  - apply (node_at_move s1 s2 (slot ix.[Z.of_nat k])); [|by apply (fm_node _ _ _ Hm1)]. intros i Hi.
    rewrite (written_in _ _ _ _ _ _ _ W2) by (lia || (apply HPa; unfold region; lia)). do 2 f_equal. lia.
Qed.
End Swim.
