(* ===== verification/FishFrames.v ===== *)
(** * The fish animation: the frames

    [add_frames] reads the two files side by side, character by character, and
    adds a blinking character for every position where one of the frames is
    not blank: the first frame's character while it is on, the second's while
    it is off. *)

From S2P Require Import Prelude Memory Lib Types Filesystem FsProofs Paging Console ConsoleProps Printf.
From S2P Require Import Keyboard TerminalProofs Typing User UserLogic Fish FishProofs.
Import (notations) Stdlib.Strings.String.
#[local] Open Scope Z_scope.

(** ** The frames as pictures *)

(** The lines of a text; there is one more than linefeeds. *)
Fixpoint rows (c : list Z) : list (list Z) :=
  match c with
  | [] => [[]]
  | x :: c =>
      if x =? 10 then [] :: rows c
      else match rows c with r :: rs => (x :: r) :: rs | [] => [[x]] end
  end.

(** The character in a column, blank behind the end of the line. *)
Definition cell_char (r : list Z) (col : Z) : Z := if col <? Z.of_nat (length r) then r.[col] else 32.

(** The blinking characters of a column, a line and a pair of frames, in the
    order in which they are added. *)
Definition col_blinks (row : Z) (r0 r1 : list Z) (col : Z) : list blink :=
  let c0 := cell_char r0 col in
  let c1 := cell_char r1 col in
  if (c0 =? 32) && (c1 =? 32) then []
  else [mk_blink (u16 (row * 80 + col + 40)) c0 c1 15 15 15 1].

Definition width (r0 r1 : list Z) : Z := Z.max (Z.of_nat (length r0)) (Z.of_nat (length r1)).

Definition row_blinks (row : Z) (r0 r1 : list Z) : list blink :=
  seqZ 0 (width r0 r1) ≫= col_blinks row r0 r1.

Definition height (rs0 rs1 : list (list Z)) : Z := Z.max (Z.of_nat (length rs0)) (Z.of_nat (length rs1)).

Definition frame_blinks (f0 f1 : list Z) : list blink :=
  seqZ 0 (height (rows f0) (rows f1)) ≫= λ row, row_blinks row (rows f0).[row] (rows f1).[row].

(** Drawing them one after the other. *)
Definition draw_on (l : list blink) (v : screen) : screen :=
  fold_left (λ v b, poke_char (b_loc b) (b_on b) v) l v.

Lemma draw_on_app l1 l2 v : draw_on (l1 ++ l2) v = draw_on l2 (draw_on l1 v).
Proof. unfold draw_on. by rewrite fold_left_app. Qed.

Lemma rows_inv c :
  ∃ r rs, rows c = r :: rs ∧ Forall (λ x, x ≠ 10) r ∧
    match rs with [] => c = r | _ => ∃ c', c = r ++ 10 :: c' ∧ rows c' = rs end.
Proof.
  induction c as [|x c (r & rs & E & Hr & IH)]; [by exists [], []|]. cbn [rows]. rewrite E.
  destruct (Z.eqb_spec x 10) as [->|Hx].
  - exists [], (r :: rs). split; [done|]. split; [constructor|]. by exists c.
  - exists (x :: r), rs. split; [done|]. split; [by constructor|]. destruct rs as [|r' rs]; [by subst|].
    destruct IH as (c' & -> & IH). by exists c'.
Qed.

Lemma rows_length c : (1 <= length (rows c) <= length c + 1)%nat.
Proof.
  induction c as [|x c IH]; [cbn; lia|]. cbn [rows length]. destruct (x =? 10); [cbn [length]; lia|].
  destruct (rows c); cbn [length] in *; lia.
Qed.

(** ** A file read line by line *)

Record lines_in := mk_lines_in {
  li_row : list Z;       (* the line *)
  li_fin : bool;         (* the file was at its end before this line *)
  li_last : bool;        (* this is its last line *)
  li_inode : Z;
  li_pos : Z;            (* where the line starts *)
  li_end : handle        (* the descriptor behind the line *)
}.

(** Whether the end of the line has been seen before column [col]. *)
Definition li_done (F : lines_in) (col : Z) : bool := li_fin F || (Z.of_nat (length (li_row F)) <? col).

Definition li_handle (F : lines_in) (col : Z) : handle :=
  if li_done F col then li_end F else Data (li_inode F) (li_pos F + col).

Record lines_ok (im : fs_image) (F : lines_in) : Prop := {
  lo_fin : li_fin F = true → li_row F = [] ∧ li_last F = true;
  lo_closed : li_fin F = true → li_end F = Closed;
  lo_inode : li_fin F = false → 0 ≤ li_inode F < num_inodes im;
  lo_pos : 0 ≤ li_pos F;
  lo_bound : li_fin F = false → li_pos F + Z.of_nat (length (li_row F)) ≤ Z.of_nat (length (im_files im).[li_inode F]);
  lo_text : li_fin F = false →
    drop (Z.to_nat (li_pos F)) (im_files im).[li_inode F]
    = li_row F ++ (if li_last F then [] else [10] ++ drop (Z.to_nat (li_pos F + Z.of_nat (length (li_row F)) + 1)) (im_files im).[li_inode F]);
  lo_row : Forall (λ x, x ≠ 10) (li_row F);
  lo_end : li_fin F = false →
    li_end F = Data (li_inode F) (li_pos F + Z.of_nat (length (li_row F)) + (if li_last F then 0 else 1))
}.

(** The next character: what one byte read at column [col] delivers. *)
Lemma next_byte im F col :
  lines_ok im F → li_done F col = false → 0 ≤ col →
  slice (im_files im).[li_inode F] (li_pos F + col) 1 =
    if decide (col < Z.of_nat (length (li_row F))) then [(li_row F).[col]]
    else if li_last F then [] else [10].
Proof.
  intros [H1 _ H2 H3 _ H4 H5 H6] Hd Hc. unfold li_done in Hd. apply orb_false_iff in Hd as [Hf Hl]. specialize (H4 Hf).
  apply Z.ltb_ge in Hl. unfold slice.
  replace (Z.to_nat (li_pos F + col)) with (Z.to_nat (li_pos F) + Z.to_nat col)%nat by lia.
  rewrite <- drop_drop, H4. change (Z.to_nat 1) with 1%nat. case_decide as Hlt.
  - rewrite drop_app_le by lia. rewrite (drop_S _ (li_row F).[col]) by (apply get_in; lia). done.
  - rewrite drop_ge_app || rewrite drop_app_ge by lia. replace (Z.to_nat col - length (li_row F))%nat with 0%nat by lia.
    rewrite drop_0. by destruct (li_last F).
Qed.

(** The lines of a file, one after the other. *)
Definition row_start (rs : list (list Z)) (k : nat) : Z :=
  foldr (λ r n, Z.of_nat (length r) + 1 + n) 0 (take k rs).

Lemma row_start_next rs (k : nat) r :
  rs !! k = Some r → row_start rs (S k) = row_start rs k + Z.of_nat (length r) + 1.
Proof.
  intros Hk. unfold row_start. rewrite (take_S_r _ _ r Hk). generalize (take k rs). intros l.
  induction l as [|x l IH]; cbn [app foldr]; [lia|]. rewrite IH. lia.
Qed.

Lemma row_start_pos rs k : 0 ≤ row_start rs k.
Proof. unfold row_start. generalize (take k rs). intros l. induction l; cbn [foldr]; lia. Qed.

Lemma rows_drop f (k : nat) :
  (k < length (rows f))%nat →
  rows (drop (Z.to_nat (row_start (rows f) k)) f) = drop k (rows f) ∧ row_start (rows f) k ≤ Z.of_nat (length f).
Proof.
  induction k as [|k IH]; intros Hk.
  { change (row_start (rows f) 0) with 0. rewrite drop_0. split; [done|lia]. }
  destruct IH as [IH Hb]; [lia|].
  destruct (lookup_lt_is_Some_2 (rows f) k) as [r Hr]; [lia|].
  pose proof (row_start_pos (rows f) k) as Hp. rewrite (row_start_next _ _ r Hr).
  rewrite (drop_S _ r _ Hr) in IH. set (t := drop (Z.to_nat (row_start (rows f) k)) f) in *.
  destruct (rows_inv t) as (r' & rs & E & _ & Hcase). rewrite IH in E. injection E as <- <-.
  destruct (drop (S k) (rows f)) as [|r2 rs] eqn:Ed.
  { apply (f_equal length) in Ed. rewrite length_drop in Ed. cbn in Ed. lia. }
  destruct Hcase as (c' & Et & Hc'). assert (Z.of_nat (length t) = Z.of_nat (length f) - row_start (rows f) k) as Hl
    by (unfold t; rewrite length_drop; lia).
  rewrite Et, length_app in Hl. cbn [length] in Hl. split; [|lia].
  replace (Z.to_nat _) with (Z.to_nat (row_start (rows f) k) + S (length r))%nat by lia.
  rewrite <- drop_drop. fold t. rewrite Et.
  replace (S (length r)) with (length (r ++ [10])) by (rewrite length_app; cbn; lia).
  rewrite (app_assoc r [10] c' : r ++ 10 :: c' = (r ++ [10]) ++ c'), drop_app_length. exact Hc'.
Qed.

(** Line [k] of a file. *)
Definition line_of (im : fs_image) (inode : Z) (k : nat) : lines_in :=
  let rs := rows (im_files im).[inode] in
  let fin := bool_decide (length rs <= k)%nat in
  let last := bool_decide (length rs <= S k)%nat in
  let pos := row_start rs k in
  let r := rs.[Z.of_nat k] in
  mk_lines_in r fin last inode pos
    (if fin then Closed else Data inode (pos + Z.of_nat (length r) + (if last then 0 else 1))).

Lemma line_of_ok im inode k : 0 ≤ inode < num_inodes im → lines_ok im (line_of im inode k).
Proof.
  intros Hi. set (f := (im_files im).[inode]). unfold line_of. fold f.
  destruct (rows_length f) as [Hrl _].
  destruct (decide (length (rows f) <= k)%nat) as [Hf|Hf].
  - rewrite (bool_decide_true (length (rows f) <= k)%nat), (bool_decide_true (length (rows f) <= S k)%nat) by lia.
    assert ((rows f).[Z.of_nat k] = []) as ->.
    { unfold aget. rewrite (proj2 (Z.leb_le 0 _)) by lia. by rewrite lookup_ge_None_2 by lia. }
    split; try done; cbn. apply row_start_pos.
  - rewrite (bool_decide_false (length (rows f) <= k)%nat) by lia.
    destruct (rows_drop f k ltac:(lia)) as [Hd Hb].
    destruct (lookup_lt_is_Some_2 (rows f) k) as [r Hr]; [lia|].
    assert ((rows f).[Z.of_nat k] = r) as -> by (apply aget_lookup; [lia|by rewrite Nat2Z.id]).
    rewrite (drop_S _ r _ Hr) in Hd. set (p := row_start (rows f) k) in *. set (t := drop (Z.to_nat p) f) in *.
    pose proof (row_start_pos (rows f) k) as Hp. fold p in Hp.
    assert (Z.of_nat (length t) = Z.of_nat (length f) - p) as Hl by (unfold t; rewrite length_drop; lia).
    destruct (rows_inv t) as (r' & rs & E & Hnl & Hcase). rewrite Hd in E. injection E as <- <-.
    destruct (decide (length (rows f) <= S k)%nat) as [Hla|Hla].
    + rewrite bool_decide_true by done. rewrite drop_ge in Hcase by lia.
      split; try done; cbn; intros _; fold f; fold p; fold t; [rewrite <- Hcase; lia|by rewrite app_nil_r].
    + rewrite bool_decide_false by done.
      destruct (drop (S k) (rows f)) as [|r2 rs] eqn:Ed.
      { apply (f_equal length) in Ed. rewrite length_drop in Ed. cbn in Ed. lia. }
      destruct Hcase as (c' & Et & _). rewrite Et, length_app in Hl. cbn [length] in Hl.
      split; try done; cbn; intros _; fold f; [lia|].
      replace (Z.to_nat (p + Z.of_nat (length r) + 1)) with (Z.to_nat p + S (length r))%nat by lia.
      rewrite <- drop_drop. fold t. rewrite Et at 1. f_equal. f_equal. rewrite Et.
      replace (S (length r)) with (length (r ++ [10])) by (rewrite length_app; cbn; lia).
      by rewrite (app_assoc r [10] c' : r ++ 10 :: c' = (r ++ [10]) ++ c'), drop_app_length.
Qed.

(** What the descriptor becomes behind a line. *)
Definition li_next (F : lines_in) : handle := if li_last F then Closed else li_end F.

Lemma line_of_next im inode k : li_next (line_of im inode k) = li_handle (line_of im inode (S k)) 0.
Proof.
  set (f := (im_files im).[inode]). unfold li_next, li_handle, li_done, line_of. fold f. cbn.
  destruct (decide (length (rows f) <= S k)%nat) as [Hl|Hl].
  - by rewrite bool_decide_true.
  - rewrite !(bool_decide_false (length (rows f) <= S k)%nat), (bool_decide_false (length (rows f) <= k)%nat) by lia.
    rewrite (proj2 (Z.ltb_ge _ 0)) by lia. cbn.
    destruct (lookup_lt_is_Some_2 (rows f) k) as [r Hr]; [lia|].
    assert ((rows f).[Z.of_nat k] = r) as -> by (apply aget_lookup; [lia|by rewrite Nat2Z.id]).
    rewrite (row_start_next _ _ r Hr). f_equal. lia.
Qed.

Section Frames.
Context {S : Type} `{!ByteMem S, !Syscalls S, !ServiceView S} {im : fs_image} `{!FileService S im}.
Context `{!VideoService S}.
Context (E : fish_env) (HE : fish_layout E).
Implicit Types (s : S) (w : world) (l : list blink).

#[local] Abbreviation running := (running (fe_str E) fish_lits (owned E)).

(** One byte of a file into a local. *)
Lemma read_byte s w fd c inode pos :
  running s w → 0 ≤ fd < 8 → (w_fds w).[fd] = Data inode pos → 0 ≤ inode < num_inodes im →
  0 ≤ pos ≤ Z.of_nat (length (im_files im).[inode]) → owned E c →
  let bs := slice (im_files im).[inode] pos 1 in
  ∃ s', ece391_read s fd c 1 = Some (s', Z.of_nat (length bs)) ∧
    running s' (w_set fd (Data inode (pos + Z.of_nat (length bs))) w) ∧ keeps s s' (region c 1) ∧
    ∀ x, bs = [x] → rd s' c = x.
Proof using HE FileService0.
  intros Hr Hfd Hh Hi Hp Hc bs.
  pose proof (fs_sizes s (wo_ok _ _ (ru_sees _ _ _ _ _ Hr)) inode Hi) as Hsz.
  assert (Z.of_nat (length bs) = deliver (Z.of_nat (length (im_files im).[inode])) pos 1) as Hl
    by (unfold bs; rewrite length_slice; lia).
  assert (∀ a, region c 1 a → user_page a ∧ owned E a) as Hu.
  { intros a Ha. assert (a = c) as -> by (unfold region in Ha; lia). split; [by apply HE|done]. }
  destruct (read_file _ _ _ s w fd c 1 inode pos Hr Hfd Hh Hi) as (s' & Er & Hr' & Hb & Hk); [lia|lia|done|].
  rewrite <- Hl in Er, Hr', Hb, Hk. fold bs in Hb.
  exists s'. split; [exact Er|]. split; [exact Hr'|]. split.
  - apply (keeps_sub _ _ _ _ Hk). intros a Ha. unfold region, deliver in *. lia.
  - intros x Ex. rewrite Ex in Hb. cbn [length] in Hb. change (Z.of_nat 1) with 1 in Hb.
    unfold bytes in Hb. rewrite seqZ_cons, seqZ_nil in Hb by lia. cbn in Hb. injection Hb as Hb. by rewrite Z.add_0_r in Hb.
Qed.

Definition line_state s (c : Z) (F : lines_in) (col : Z) : Prop := rd s c = 10 ↔ li_done F col = true.

Lemma li_done_next F col : li_done F col = true → li_done F (col + 1) = true.
Proof. unfold li_done. destruct (li_fin F); [done|]. cbn. intros H. lia. Qed.

Lemma done_blank F col :
  lines_ok im F → li_done F col = true → Z.of_nat (length (li_row F)) ≤ col ∨ (li_fin F = true ∧ li_row F = []).
Proof.
  intros Hok Hd. unfold li_done in Hd. destruct (li_fin F) eqn:Ef.
  - right. split; [done|]. by apply (lo_fin _ _ Hok).
  - left. cbn in Hd. lia.
Qed.

Lemma frame_char_spec s w fd c F col :
  running s w → owned E c → lines_ok im F → 0 ≤ col → 0 ≤ fd < 8 → (w_fds w).[fd] = li_handle F col →
  line_state s c F col →
  ∃ s', frame_char s fd c (li_done F col && li_last F) = Some (s', li_done F (col + 1) && li_last F) ∧
    running s' (w_set fd (li_handle F (col + 1)) w) ∧ keeps s s' (region c 1) ∧
    rd s' c = (if col <? Z.of_nat (length (li_row F)) then (li_row F).[col] else 10).
Proof using HE FileService0.
  intros Hr Hc Hok Hcol Hfd Hh Hst. unfold frame_char. destruct (li_done F col) eqn:Ed.
  - rewrite (proj2 (Z.eqb_eq _ _) (proj2 Hst Ed)). exists s. rewrite (li_done_next F col Ed). split; [done|].
    assert (li_handle F (col + 1) = li_handle F col) as Ehd by (unfold li_handle; by rewrite Ed, (li_done_next F col Ed)).
    rewrite Ehd, <- Hh, w_set_same. split; [done|]. split; [intros a _ _; done|].
    rewrite (proj2 (Z.ltb_ge _ _)); [by apply Hst|].
    destruct (done_blank F col Hok Ed) as [|[_ ->]]; [done|cbn; lia].
  - rewrite (proj2 (Z.eqb_neq (rd s c) 10)) by (intros E0; apply Hst in E0; congruence).
    pose proof (next_byte im F col Hok Ed Hcol) as Hnb.
    assert (li_handle F col = Data (li_inode F) (li_pos F + col)) as Ehd by (unfold li_handle; by rewrite Ed).
    unfold li_done in Ed. apply orb_false_iff in Ed as [Ef El]. apply Z.ltb_ge in El.
    rewrite Ehd in Hh. pose proof (lo_bound _ _ Hok Ef). pose proof (lo_pos _ _ Hok).
    destruct (read_byte s w fd c (li_inode F) (li_pos F + col) Hr Hfd Hh) as (s1 & Er & Hr1 & Hk1 & Hb1);
      [by apply (lo_inode _ _ Hok)|lia|done|].
    rewrite Er, bind_some. cbn [andb]. rewrite Hnb in Hr1, Hb1 |- *. case_decide as Hlt.
    + change (Z.of_nat (length [(li_row F).[col]])) with 1 in *. cbv [Z.eqb]. exists s1.
      assert (li_done F (col + 1) = false) as Ed1 by (unfold li_done; rewrite Ef; cbn; lia).
      rewrite Ed1, (proj2 (Z.ltb_lt _ _) Hlt). split; [done|]. split; [|split; [done|by apply Hb1]].
      unfold li_handle. rewrite Ed1, Z.add_assoc. exact Hr1.
    + assert (col = Z.of_nat (length (li_row F))) as -> by lia.
      assert (li_done F (Z.of_nat (length (li_row F)) + 1) = true) as Ed1 by (unfold li_done; rewrite Ef; cbn; lia).
      unfold li_handle. rewrite Ed1, (lo_end _ _ Hok Ef). rewrite Z.ltb_irrefl. destruct (li_last F).
      * change (Z.of_nat (length (@nil Z))) with 0 in *. cbv [Z.eqb]. exists (wr s1 c 10). split; [done|].
        split; [by apply (run_wr E HE)|]. assert (user_page c) as Hcu by by apply HE. split.
        -- apply (keeps_chain s s1); [done|]. apply keeps_wr; [apply Hr1|done].
        -- rewrite (rd_wr_safe s1 user_page) by (done || by apply (run_safe E s1 _ Hr1)). by rewrite decide_True.
      * change (Z.of_nat (length [10])) with 1 in *. cbv [Z.eqb]. exists s1. split; [done|].
        split; [exact Hr1|]. split; [done|by apply Hb1].
Qed.

Lemma line_state_next s c F col :
  lines_ok im F → 0 ≤ col → rd s c = (if col <? Z.of_nat (length (li_row F)) then (li_row F).[col] else 10) →
  line_state s c F (col + 1).
Proof.
  intros Hok Hc Hrd. unfold line_state, li_done. rewrite Hrd.
  destruct (Z.ltb_spec col (Z.of_nat (length (li_row F)))) as [Hlt|Hge].
  - destruct (li_fin F) eqn:Ef; [destruct (lo_fin _ _ Hok Ef) as [E0 _]; rewrite E0 in Hlt; cbn in Hlt; lia|].
    rewrite (proj2 (Z.ltb_ge _ _)) by lia. split; [|done]. intros E0. exfalso.
    by apply (proj1 (Forall_lookup _ _) (lo_row _ _ Hok) (Z.to_nat col) (li_row F).[col]); [apply get_in|].
  - rewrite (proj2 (Z.ltb_lt _ _)) by lia. by rewrite orb_true_r.
Qed.

(** ** One blinking character *)

Definition fblink_area : Z → Prop := region (fe_fblink E) 16.

Lemma fblink_owned a : fblink_area a → owned E a ∧ user_page a ∧ ¬ heap E a.
Proof using HE.
  intros Ha. assert (owned E a) as Ho by by apply (region_owned E 5 (fe_fblink E, 16)).
  split; [done|]. split; [by apply HE|]. by apply (local_heap E HE 5 (fe_fblink E, 16)); [lia|..].
Qed.

(** The lengths [add_frames] gives all its characters. *)
Definition lengths s : Prop :=
  f_on_length s (fe_fblink E) = 15 ∧ f_off_length s (fe_fblink E) = 15.

Lemma lengths_keeps s s' A : keeps s s' A → (∀ a, A a → ¬ fblink_area a) → lengths s → lengths s'.
Proof using HE.
  intros Hk HA [H1 H2].
  assert (∀ a, fblink_area a → rd s' a = rd s a) as Hr.
  { intros a Ha. apply Hk; [by apply fblink_owned|]. intros Hx. by apply (HA a Hx). }
  unfold lengths, f_on_length, f_off_length in *.
  rewrite !(load16_ext s s') by (intros a Ha; apply Hr; unfold fblink_area, region in *; lia). done.
Qed.

Lemma fblink_apart a : frame_area E a ∨ heap E a → ¬ fblink_area a.
Proof using HE.
  intros [Ha|Ha] Hf.
  - pose proof (fl_apart E HE 3 5 _ _ ltac:(done) eq_refl eq_refl) as A. cbn [fst snd] in A.
    unfold frame_area, fblink_area, region in *. lia.
  - by apply fblink_owned in Hf as (_ & _ & []).
Qed.

(** The fields of the local structure. *)
Lemma fblink_set s w ix l c0 c1 v :
  running s w → fish_mem E s ix l → lengths s → 0 ≤ c0 < 256 → 0 ≤ c1 < 256 →
  let bs := fe_fblink E in
  let s' := set_location (set_off_char (set_on_char s bs c0) bs c1) bs v in
  running s' w ∧ fish_mem E s' ix l ∧ keeps s s' fblink_area ∧
  ∃ cnt st next, node_at s' bs (mk_blink (u16 v) c0 c1 15 15 cnt st) next.
Proof using HE FileService0.
  intros Hr Hm [L1 L2] H0 H1 bs s'.
  assert (∀ a, region bs 16 a → user_page a) as HP by (intros a Ha; by apply fblink_owned).
  pose proof (node_any s bs) as N0. fold bs in L1, L2. rewrite L1, L2 in N0.
  pose proof (node_on_char user_page bs HP s _ _ c0 (run_safe E s w Hr) N0) as N1.
  set (s1 := set_on_char s bs c0) in *.
  assert (running s1 w) as Hr1 by (apply (run_wr E HE); [done|]; apply fblink_owned; unfold fblink_area, region, bs; lia).
  pose proof (node_off_char user_page bs HP s1 _ _ c1 (run_safe E s1 w Hr1) N1) as N2.
  set (s2 := set_off_char s1 bs c1) in *.
  assert (running s2 w) as Hr2 by (apply (run_wr E HE); [done|]; apply fblink_owned; unfold fblink_area, region, bs; lia).
  pose proof (node_location user_page bs HP s2 _ _ v (run_safe E s2 w Hr2) N2) as N3. fold s' in N3.
  assert (running s' w) as Hr3.
  { apply (run_store16 E HE); [done|]. intros a Ha. apply fblink_owned. unfold fblink_area, region, bs in *. lia. }
  assert (keeps s s' fblink_area) as Hk.
  { intros a Ha Hn. unfold fblink_area in Hn. fold bs in Hn.
    destruct (field8 user_page bs HP s 2 c0 (run_safe E s w Hr) ltac:(lia)) as [W1 _].
    destruct (field8 user_page bs HP s1 3 c1 (run_safe E s1 w Hr1) ltac:(lia)) as [W2 _].
    destruct (field16 user_page bs HP s2 0 v (run_safe E s2 w Hr2) ltac:(lia)) as [W3 _].
    rewrite Z.add_0_r in W3. unfold region in Hn.
    rewrite (written_out _ _ _ _ _ _ _ W3), (written_out _ _ _ _ _ _ _ W2), (written_out _ _ _ _ _ _ _ W1) by (done || lia).
    done. }
  split; [done|]. split; [|split; [done|]].
  - apply (fish_mem_ext E s); [|done]. intros a Ha. apply Hk; [by apply (heap_page E HE)|]. intros Hf.
    by apply fblink_owned in Hf as (_ & _ & []).
  - rewrite !u8_small in N3 by done. by eexists _, _, _.
Qed.

Lemma add_blink_spec s w ix l row col :
  running s w → fish_mem E s ix l → lengths s →
  let ch := λ c, if c =? 10 then 32 else c in
  let b := mk_blink (u16 (row * 80 + col + 40)) (ch (rd s (fe_c0 E))) (ch (rd s (fe_c1 E))) 15 15 15 1 in
  0 < b_loc b < 2000 → (length l < 2000)%nat →
  ∃ s' i, add_blink E s row col = Some s' ∧ running s' (w_draw (poke_char (b_loc b) (b_on b)) w) ∧
    fish_mem E s' (i :: ix) (b :: l) ∧ lengths s' ∧
    keeps s s' (λ a, fblink_area a ∨ frame_area E a ∨ heap E a).
Proof using HE FileService0 VideoService0.
  intros Hr Hm Hl ch b Hb Hlen. unfold add_blink.
  assert (∀ c, 0 ≤ c < 256 → 0 ≤ ch c < 256) as Hch by (intros c Hc; unfold ch; destruct (c =? 10); lia).
  destruct (fblink_set s w ix l (ch (rd s (fe_c0 E))) (ch (rd s (fe_c1 E))) (row * 80 + col + 40) Hr Hm Hl)
    as (Hr1 & Hm1 & K1 & cnt & st & next & Hn1); [apply Hch, rd_range..|].
  match type of Hr1 with UserLogic.running _ _ _ ?x _ => set (s1 := x) in * end.
  pose proof (fl_apart E HE 3 5 _ _ ltac:(done) eq_refl eq_refl) as A. cbn [fst snd] in A.
  pose proof (mp1_ioctl_add_spec E HE s1 w ix l (fe_fblink E) _ next Hr1 Hm1 Hn1) as Ha.
  specialize (Ha ltac:(intros x Hx; by apply fblink_owned) ltac:(lia)). cbn [b_loc b_on] in Ha.
  specialize (Ha ltac:(unfold b in Hb; cbn [b_loc] in Hb; lia)).
  rewrite decide_True in Ha by (split; [unfold b in Hb; cbn [b_loc] in Hb; lia|done]).
  destruct Ha as (s2 & i & Ea & Hr2 & Hm2 & K2).
  exists s2, i. unfold mp1_ioctl. cbn [Z.eqb RTC_ADD]. 
  split; [change (fst <$> mp1_ioctl_add E s1 (fe_fblink E) = Some s2); by rewrite Ea|].
  split; [exact Hr2|]. split; [exact Hm2|]. split.
  - apply (lengths_keeps s1 s2 _ K2); [apply fblink_apart|].
    split; [apply (nd_onlen _ _ _ _ Hn1)|apply (nd_offlen _ _ _ _ Hn1)].
  - apply (keeps_chain s s1); [apply (keeps_sub _ _ _ _ K1); by left|apply (keeps_sub _ _ _ _ K2); by right].
Qed.

(** The character before the next line, and the descriptor. *)
Lemma frame_next_spec s w fd c F :
  running s w → owned E c → lines_ok im F → 2 ≤ fd < 8 → (w_fds w).[fd] = li_end F →
  ∃ s', frame_next s fd c (li_last F) = Some s' ∧ running s' (w_set fd (li_next F) w) ∧
    keeps s s' (region c 1) ∧ rd s' c = (if li_last F then 10 else 48).
Proof using HE FileService0.
  intros Hr Hc Hok Hfd Hh. assert (user_page c) as Hu by by apply HE.
  assert (∀ v, running (wr s c v) w ∧ keeps s (wr s c v) (region c 1) ∧ rd (wr s c v) c = u8 v) as Hwr.
  { intros v. split; [by apply (run_wr E HE)|]. split; [apply keeps_wr; [apply Hr|done]|].
    rewrite (rd_wr_safe s user_page) by (done || by apply (run_safe E s w Hr)). by rewrite decide_True. }
  unfold frame_next, li_next. destruct (li_last F) eqn:El.
  - destruct (Hwr 10) as (Hr1 & K1 & V1). set (s1 := wr s c 10) in *.
    destruct (decide (li_end F = Closed)) as [Ec|Ec].
    + pose proof (fs_close_bad s1 fd (wo_ok _ _ (ru_sees _ _ _ _ _ Hr1))) as Hb.
      rewrite (wo_fds _ _ (ru_sees _ _ _ _ _ Hr1)), Hh in Hb. specialize (Hb ltac:(tauto)).
      destruct (refused_running _ _ _ s1 w _ Hr1 Hb) as (s2 & E2 & Hr2 & K2). exists s2. rewrite E2.
      split; [done|]. rewrite <- Ec, <- Hh, w_set_same. split; [done|]. split.
      * apply (keeps_chain s s1); [done|]. by apply (keeps_sub _ _ _ _ K2).
      * rewrite (K2 c Hu ltac:(tauto)). exact V1.
    + destruct (close_file _ _ _ s1 w fd Hr1 Hfd) as (s2 & E2 & Hr2 & K2); [by rewrite Hh|]. exists s2. rewrite E2.
      split; [done|]. split; [done|]. split.
      * apply (keeps_chain s s1); [done|]. by apply (keeps_sub _ _ _ _ K2).
      * rewrite (K2 c Hu ltac:(tauto)). exact V1.
  - destruct (Hwr 48) as (Hr1 & K1 & V1). exists (wr s c 48). split; [done|]. rewrite <- Hh, w_set_same. by split.
Qed.

(** ** One line of both frames *)

Section Row.
Context (w : world) (fd0 fd1 : Z) (Hw : length (w_fds w) = 8%nat).
Context (Hfd0 : 2 ≤ fd0 < 8) (Hfd1 : 2 ≤ fd1 < 8) (Hne : fd0 ≠ fd1).

(** The world in which [D] has been drawn and the two files stand at [h0] and
    [h1]. *)
Definition fworld (D : list blink) (h0 h1 : handle) : world :=
  mk_world (w_fds w).[fd0 <- h0].[fd1 <- h1] (draw_on D (w_screen w)) (w_args w) (w_lines w) (w_ticks w).

Lemma fworld_fd0 D h0 h1 : (w_fds (fworld D h0 h1)).[fd0] = h0.
Proof using All. cbn. rewrite aget_aset_ne by done. apply aget_aset_eq. lia. Qed.

Lemma fworld_fd1 D h0 h1 : (w_fds (fworld D h0 h1)).[fd1] = h1.
Proof using All. cbn. apply aget_aset_eq. rewrite length_aset. lia. Qed.

Lemma fworld_set0 D h0 h1 h : w_set fd0 h (fworld D h0 h1) = fworld D h h1.
Proof using All.
  unfold w_set, fworld. cbn. f_equal. apply aget_ext; [by rewrite !length_aset|].
  intros i Hi. rewrite !length_aset in Hi.
  rewrite !aget_aset by (rewrite ?length_aset; lia). repeat case_decide; congruence.
Qed.

Lemma fworld_set1 D h0 h1 h : w_set fd1 h (fworld D h0 h1) = fworld D h0 h.
Proof using All. unfold w_set, fworld. cbn. by rewrite aset_aset. Qed.

Lemma fworld_draw D h0 h1 b :
  w_draw (poke_char (b_loc b) (b_on b)) (fworld D h0 h1) = fworld (D ++ [b]) h0 h1.
Proof using All. unfold w_draw, fworld. cbn. f_equal. by rewrite draw_on_app. Qed.

(** All that is known between two steps. *)
Record drawn s (D : list blink) (h0 h1 : handle) : Prop := {
  dw_run : running s (fworld D h0 h1);
  dw_mem : ∃ ix, fish_mem E s ix (rev D);
  dw_len : lengths s
}.

Lemma char_apart (j : nat) c a :
  (6 <= j <= 7)%nat → fish_regions E !! j = Some (c, 1) → region c 1 a → ¬ heap E a ∧ ¬ fblink_area a.
Proof using All.
  intros Hj Hc Ha. split; [by apply (local_heap E HE j (c, 1)); [lia|..]|].
  pose proof (fl_apart E HE j 5 _ _ ltac:(lia) Hc eq_refl) as A. cbn [fst snd] in A.
  unfold fblink_area, region in *. lia.
Qed.

Lemma drawn_keeps s s' D h0 h1 h0' h1' A :
  drawn s D h0 h1 → running s' (fworld D h0' h1') → keeps s s' A →
  (∀ a, A a → ¬ heap E a ∧ ¬ fblink_area a) → drawn s' D h0' h1'.
Proof using All.
  intros [H1 [ix H2] H3] Hr Hk HA. split; [done| |].
  - exists ix. apply (fish_mem_ext E s); [|done]. intros a Ha. apply Hk; [by apply (heap_page E HE)|].
    intros Hx. destruct (HA a Hx) as [Hnh _]. exact (Hnh Ha).
  - apply (lengths_keeps s s' A); [done| |done]. intros a Ha. exact (proj2 (HA a Ha)).
Qed.

Context (F0 F1 : lines_in) (Hok0 : lines_ok im F0) (Hok1 : lines_ok im F1) (row : Z) (pre : list blink).
#[local] Abbreviation r0 := (li_row F0).
#[local] Abbreviation r1 := (li_row F1).
Context (Hrow : Forall (λ b, 0 < b_loc b < 2000) (row_blinks row r0 r1)).
Context (Hcount : (length pre + length (row_blinks row r0 r1) <= 2000)%nat).

(** What the columns before [col] add. *)
Definition upto col : list blink := seqZ 0 col ≫= col_blinks row r0 r1.

Lemma upto_next col : 0 ≤ col → upto (col + 1) = upto col ++ col_blinks row r0 r1 col.
Proof using All.
  intros Hc. unfold upto. rewrite (seqZ_app 0 col 1), bind_app by lia. f_equal.
  rewrite seqZ_cons, seqZ_nil by lia. cbn [mbind list_bind]. by rewrite app_nil_r.
Qed.

Lemma upto_prefix col : 0 ≤ col ≤ width r0 r1 → ∃ rest, row_blinks row r0 r1 = upto col ++ rest.
Proof using All.
  intros Hc. unfold row_blinks, upto. replace (width r0 r1) with (col + (width r0 r1 - col)) by lia.
  rewrite (seqZ_app 0 col), bind_app by lia. by eexists.
Qed.

(** A character read, as it is drawn. *)
Lemma cell_of F col x :
  lines_ok im F → 0 ≤ col → x = (if col <? Z.of_nat (length (li_row F)) then (li_row F).[col] else 10) →
  (if x =? 10 then 32 else x) = cell_char (li_row F) col ∧
  visible x = negb (cell_char (li_row F) col =? 32) ∧ (x = 10 ↔ Z.of_nat (length (li_row F)) ≤ col).
Proof using All.
  intros Hok Hc ->. unfold cell_char, visible. destruct (Z.ltb_spec col (Z.of_nat (length (li_row F)))) as [Hlt|Hge].
  - assert ((li_row F).[col] ≠ 10) as Hx
      by (apply (proj1 (Forall_lookup _ _) (lo_row _ _ Hok) (Z.to_nat col)); by apply get_in).
    rewrite (proj2 (Z.eqb_neq _ _) Hx). rewrite andb_true_r. split; [done|]. split; [done|]. split; [done|lia].
  - split; [done|]. split; [done|]. split; [lia|done].
Qed.

Record at_column s col : Prop := {
  ac_drawn : drawn s (pre ++ upto col) (li_handle F0 col) (li_handle F1 col);
  ac_state0 : line_state s (fe_c0 E) F0 col;
  ac_state1 : line_state s (fe_c1 E) F1 col
}.

(** Both characters are read. *)
Lemma chars_read s col :
  at_column s col → 0 ≤ col →
  ∃ s1 s2, frame_char s fd0 (fe_c0 E) (li_done F0 col && li_last F0) = Some (s1, li_done F0 (col + 1) && li_last F0) ∧
    frame_char s1 fd1 (fe_c1 E) (li_done F1 col && li_last F1) = Some (s2, li_done F1 (col + 1) && li_last F1) ∧
    drawn s2 (pre ++ upto col) (li_handle F0 (col + 1)) (li_handle F1 (col + 1)) ∧
    rd s2 (fe_c0 E) = (if col <? Z.of_nat (length r0) then r0.[col] else 10) ∧
    rd s2 (fe_c1 E) = (if col <? Z.of_nat (length r1) then r1.[col] else 10).
Proof using All.
  intros [Hd H0 H1] Hc. pose proof (dw_run _ _ _ _ Hd) as Hr.
  assert (owned E (fe_c0 E)) as Ho0 by (apply (region_owned E 6 (fe_c0 E, 1)); [done|unfold region; cbn; lia]).
  assert (owned E (fe_c1 E)) as Ho1 by (apply (region_owned E 7 (fe_c1 E, 1)); [done|unfold region; cbn; lia]).
  destruct (frame_char_spec s _ fd0 (fe_c0 E) F0 col Hr Ho0 Hok0 Hc) as (s1 & E1 & Hr1 & K1 & V1);
    [lia|by apply fworld_fd0|done|]. rewrite fworld_set0 in Hr1.
  assert (drawn s1 (pre ++ upto col) (li_handle F0 (col + 1)) (li_handle F1 col)) as Hd1.
  { apply (drawn_keeps s s1 _ _ _ _ _ _ Hd Hr1 K1). intros a Ha. by apply (char_apart 6 (fe_c0 E)); [lia|..]. }
  pose proof (fl_apart E HE 6 7 _ _ ltac:(done) eq_refl eq_refl) as A. cbn [fst snd] in A.
  assert (rd s1 (fe_c1 E) = rd s (fe_c1 E)) as Es1.
  { apply K1; [by apply HE|]. unfold region. lia. }
  destruct (frame_char_spec s1 _ fd1 (fe_c1 E) F1 col Hr1 Ho1 Hok1 Hc) as (s2 & E2 & Hr2 & K2 & V2);
    [lia|by apply fworld_fd1|by unfold line_state; rewrite Es1|]. rewrite fworld_set1 in Hr2.
  exists s1, s2. split; [done|]. split; [done|]. split; [|split; [|done]].
  - apply (drawn_keeps s1 s2 _ _ _ _ _ _ Hd1 Hr2 K2). intros a Ha. by apply (char_apart 7 (fe_c1 E)); [lia|..].
  - rewrite <- V1. apply K2; [by apply HE|]. unfold region. lia.
Qed.

Lemma char_state s s' (j : nat) c :
  (6 <= j <= 7)%nat → fish_regions E !! j = Some (c, 1) →
  keeps s s' (λ a, fblink_area a ∨ frame_area E a ∨ heap E a) → rd s' c = rd s c.
Proof using All.
  intros Hj Hc Hk. pose proof (fl_apart E HE j 3 _ _ ltac:(lia) Hc eq_refl) as A. cbn [fst snd] in A.
  assert (region c 1 c) as Hin by (unfold region; lia).
  destruct (char_apart j c c Hj Hc Hin) as [A1 A2]. apply Hk.
  - apply HE. by apply (region_owned E j (c, 1)).
  - intros [Hx|[Hx|Hx]]; [done| |done]. unfold frame_area, region in *. lia.
Qed.

(** What is added in a column. *)
Lemma column_drawn s col :
  drawn s (pre ++ upto col) (li_handle F0 (col + 1)) (li_handle F1 (col + 1)) → 0 ≤ col < width r0 r1 →
  rd s (fe_c0 E) = (if col <? Z.of_nat (length r0) then r0.[col] else 10) →
  rd s (fe_c1 E) = (if col <? Z.of_nat (length r1) then r1.[col] else 10) →
  ∃ s', (if visible (rd s (fe_c0 E)) || visible (rd s (fe_c1 E)) then add_blink E s row col else Some s) = Some s' ∧
    at_column s' (col + 1).
Proof using All.
  intros Hd Hc V0 V1. destruct (cell_of F0 col _ Hok0 (proj1 Hc) V0) as (C0 & W0 & _).
  destruct (cell_of F1 col _ Hok1 (proj1 Hc) V1) as (C1 & W1 & _).
  destruct (upto_prefix (col + 1) ltac:(lia)) as [rest Erest]. rewrite upto_next in Erest by lia.
  pose proof Hrow as Hrow'. pose proof Hcount as Hcount'. rewrite Erest in Hrow', Hcount'.
  unfold col_blinks in Erest, Hrow', Hcount'. rewrite W0, W1.
  assert (∀ s', rd s' (fe_c0 E) = rd s (fe_c0 E) → rd s' (fe_c1 E) = rd s (fe_c1 E) →
    line_state s' (fe_c0 E) F0 (col + 1) ∧ line_state s' (fe_c1 E) F1 (col + 1)) as Hls.
  { intros s' E0 E1. split; apply line_state_next; try done; try lia; congruence. }
  destruct (cell_char r0 col =? 32) eqn:B0, (cell_char r1 col =? 32) eqn:B1; cbn [negb orb andb] in *.
  { exists s. split; [done|]. destruct (Hls s eq_refl eq_refl). split; [|done|done].
    rewrite upto_next by lia. unfold col_blinks. rewrite B0, B1. cbn [andb]. by rewrite app_nil_r. }
  all: destruct Hd as [Hr [ix Hm] Hl];
    apply Forall_app in Hrow' as [Hrow' _]; apply Forall_app in Hrow' as [_ Hb];
    apply (Forall_inv (P := λ b, 0 < b_loc b < 2000)) in Hb;
    rewrite !length_app in Hcount'; cbn [length] in Hcount';
    destruct (add_blink_spec s _ ix _ row col Hr Hm Hl) as (s' & i & Ea & Hr' & Hm' & Hl' & Hk');
      [exact Hb|rewrite length_rev, length_app; lia|];
    cbv zeta in Hr', Hm'; rewrite C0, C1 in Hr', Hm'; rewrite fworld_draw in Hr';
    exists s'; (split; [exact Ea|]);
    destruct (Hls s' (char_state s s' 6 (fe_c0 E) ltac:(lia) eq_refl Hk')
      (char_state s s' 7 (fe_c1 E) ltac:(lia) eq_refl Hk')) as [Hs0 Hs1];
    (split; [|exact Hs0|exact Hs1]);
    rewrite upto_next by lia; unfold col_blinks; rewrite B0, B1; cbn [andb]; rewrite app_assoc;
    (split; [exact Hr'|exists (i :: ix); rewrite rev_app_distr; exact Hm'|exact Hl']).
Qed.

#[local] Abbreviation eof F col := (li_done F col && li_last F).

Lemma frame_body_spec s col :
  at_column s col → 0 ≤ col →
  if decide (col < width r0 r1) then
    ∃ s', frame_body E s fd0 fd1 row col (eof F0 col) (eof F1 col) = Some (s', eof F0 (col + 1), eof F1 (col + 1), false) ∧
      at_column s' (col + 1)
  else
    ∃ s', frame_body E s fd0 fd1 row col (eof F0 col) (eof F1 col) = Some (s', eof F0 (col + 1), eof F1 (col + 1), true) ∧
      drawn s' (pre ++ upto col) (li_handle F0 (col + 1)) (li_handle F1 (col + 1)).
Proof using All.
  intros Ha Hc. destruct (chars_read s col Ha Hc) as (s1 & s2 & E1 & E2 & Hd & V0 & V1). unfold frame_body.
  rewrite E1, bind_some, E2, bind_some.
  destruct (cell_of F0 col _ Hok0 Hc V0) as (_ & _ & X0). destruct (cell_of F1 col _ Hok1 Hc V1) as (_ & _ & X1).
  unfold width. case_decide as Hlt.
  - assert ((rd s2 (fe_c0 E) =? 10) && (rd s2 (fe_c1 E) =? 10) = false) as ->.
    { apply andb_false_iff. destruct (decide (col < Z.of_nat (length r0))).
      - left. apply Z.eqb_neq. intros E0. apply X0 in E0. lia.
      - right. apply Z.eqb_neq. intros E0. apply X1 in E0. lia. }
    destruct (column_drawn s2 col Hd ltac:(unfold width; lia) V0 V1) as (s3 & -> & Ha3).
    rewrite bind_some. by exists s3.
  - rewrite (proj2 (Z.eqb_eq _ _) (proj2 X0 ltac:(lia))), (proj2 (Z.eqb_eq _ _) (proj2 X1 ltac:(lia))).
    cbn [andb]. by exists s2.
Qed.

Lemma li_done_end F : Z.of_nat (length (li_row F)) ≤ width r0 r1 → li_done F (width r0 r1 + 1) = true.
Proof using All. intros H. unfold li_done. rewrite (proj2 (Z.ltb_lt _ _)) by lia. apply orb_true_r. Qed.

(** The line to its end. *)
Lemma frame_cols_spec s :
  at_column s 0 → width r0 r1 < 2147483647 →
  ∃ s', while (frame_col E fd0 fd1 row) (s, 0, eof F0 0, eof F1 0) = Some (Some (s', li_last F0, li_last F1)) ∧
    drawn s' (pre ++ row_blinks row r0 r1) (li_end F0) (li_end F1).
Proof using All.
  intros Ha Hn. set (n := width r0 r1) in *. assert (0 ≤ n) as Hn0 by (unfold n, width; lia).
  destruct (while_total (frame_col E fd0 fd1 row)
    (λ '(s, col, e0, e1), 0 ≤ col ≤ n ∧ at_column s col ∧ e0 = eof F0 col ∧ e1 = eof F1 col)
    (λ '(_, col, _, _), n - col)
    (λ r, ∃ s', r = Some (s', li_last F0, li_last F1) ∧ drawn s' (pre ++ row_blinks row r0 r1) (li_end F0) (li_end F1))
    (s, 0, eof F0 0, eof F1 0)) as (r & -> & s' & -> & Hs').
  - intros [[[s' col] e0] e1] (Hc & _). lia.
  - intros [[[s' col] e0] e1] (Hc & Hac & -> & ->). unfold frame_col.
    pose proof (frame_body_spec s' col Hac (proj1 Hc)) as Hb. fold n in Hb. case_decide as Hlt.
    + destruct Hb as (s2 & -> & Ha2). rewrite s32_small by lia. split; [|lia]. split; [lia|]. by split.
    + destruct Hb as (s2 & -> & Hd2). assert (col = n) as -> by lia.
      rewrite !li_done_end by (unfold width; lia). cbn [andb]. exists s2. split; [done|].
      unfold li_handle in Hd2. rewrite !li_done_end in Hd2 by (unfold width; lia). exact Hd2.
  - split; [lia|]. by split.
  - lia.
  - by exists s'.
Qed.

Lemma frame_line_spec s :
  at_column s 0 → width r0 r1 < 2147483647 →
  ∃ s', frame_line E s fd0 fd1 row (eof F0 0) (eof F1 0) = Some (s', li_last F0, li_last F1) ∧
    drawn s' (pre ++ row_blinks row r0 r1) (li_next F0) (li_next F1) ∧
    rd s' (fe_c0 E) = (if li_last F0 then 10 else 48) ∧ rd s' (fe_c1 E) = (if li_last F1 then 10 else 48).
Proof using All.
  intros Ha Hn. destruct (frame_cols_spec s Ha Hn) as (s1 & E1 & Hd1). unfold frame_line.
  rewrite E1, !bind_some. pose proof (dw_run _ _ _ _ Hd1) as Hr1.
  assert (owned E (fe_c0 E)) as Ho0 by (apply (region_owned E 6 (fe_c0 E, 1)); [done|unfold region; cbn; lia]).
  assert (owned E (fe_c1 E)) as Ho1 by (apply (region_owned E 7 (fe_c1 E, 1)); [done|unfold region; cbn; lia]).
  destruct (frame_next_spec s1 _ fd0 (fe_c0 E) F0 Hr1 Ho0 Hok0 Hfd0) as (s2 & E2 & Hr2 & K2 & V2); [by apply fworld_fd0|].
  rewrite fworld_set0 in Hr2. rewrite E2, bind_some.
  assert (drawn s2 (pre ++ row_blinks row r0 r1) (li_next F0) (li_end F1)) as Hd2.
  { apply (drawn_keeps s1 s2 _ _ _ _ _ _ Hd1 Hr2 K2). intros a Hx. by apply (char_apart 6 (fe_c0 E)); [lia|..]. }
  destruct (frame_next_spec s2 _ fd1 (fe_c1 E) F1 Hr2 Ho1 Hok1 Hfd1) as (s3 & E3 & Hr3 & K3 & V3); [by apply fworld_fd1|].
  rewrite fworld_set1 in Hr3. rewrite E3, bind_some. exists s3. split; [done|]. split; [|split; [|done]].
  - apply (drawn_keeps s2 s3 _ _ _ _ _ _ Hd2 Hr3 K3). intros a Hx. by apply (char_apart 7 (fe_c1 E)); [lia|..].
  - pose proof (fl_apart E HE 6 7 _ _ ltac:(done) eq_refl eq_refl) as A. cbn [fst snd] in A.
    rewrite <- V2. apply K3; [by apply HE|]. unfold region. lia.
Qed.
End Row.

(** ** All lines *)

Section Rows.
Context (w : world) (fd0 fd1 : Z) (Hw : length (w_fds w) = 8%nat).
Context (Hfd0 : 2 ≤ fd0 < 8) (Hfd1 : 2 ≤ fd1 < 8) (Hne : fd0 ≠ fd1).
Context (i0 i1 : Z) (Hi0 : 0 ≤ i0 < num_inodes im) (Hi1 : 0 ≤ i1 < num_inodes im).
#[local] Abbreviation f0 := (im_files im).[i0].
#[local] Abbreviation f1 := (im_files im).[i1].
#[local] Abbreviation L0 k := (line_of im i0 k).
#[local] Abbreviation L1 k := (line_of im i1 k).
Context (Hloc : Forall (λ b, 0 < b_loc b < 2000) (frame_blinks f0 f1)).
Context (Hcount : (length (frame_blinks f0 f1) <= 2000)%nat).
Context (Hsize : Z.of_nat (length f0) ≤ 4096 * 1023 ∧ Z.of_nat (length f1) ≤ 4096 * 1023).

(** What the lines before line [k] add. *)
Definition above (k : Z) : list blink := seqZ 0 k ≫= λ row, row_blinks row (rows f0).[row] (rows f1).[row].

Lemma above_next (k : nat) :
  above (Z.of_nat k + 1) = above (Z.of_nat k) ++ row_blinks (Z.of_nat k) (li_row (L0 k)) (li_row (L1 k)).
Proof using All.
  unfold above. rewrite (seqZ_app 0 (Z.of_nat k) 1), bind_app by lia. f_equal.
  rewrite seqZ_cons, seqZ_nil by lia. cbn [mbind list_bind]. by rewrite app_nil_r.
Qed.

Lemma above_prefix k : 0 ≤ k ≤ height (rows f0) (rows f1) → ∃ rest, frame_blinks f0 f1 = above k ++ rest.
Proof using All.
  intros Hk. unfold frame_blinks, above.
  replace (height (rows f0) (rows f1)) with (k + (height (rows f0) (rows f1) - k)) by lia.
  rewrite (seqZ_app 0 k), bind_app by lia. by eexists.
Qed.

(** The state in front of line [k]. *)
Record at_row s (k : nat) : Prop := {
  ar_drawn : drawn w fd0 fd1 s (above (Z.of_nat k)) (li_handle (L0 k) 0) (li_handle (L1 k) 0);
  ar_state0 : line_state s (fe_c0 E) (L0 k) 0;
  ar_state1 : line_state s (fe_c1 E) (L1 k) 0
}.

Definition eof_at (inode : Z) (k : nat) : bool := bool_decide (length (rows (im_files im).[inode]) <= k)%nat.

Lemma li_done_start inode k : li_done (line_of im inode k) 0 = eof_at inode k.
Proof using.
  clear.
  unfold li_done, line_of, eof_at. cbn. rewrite (proj2 (Z.ltb_ge _ 0)) by lia. by rewrite orb_false_r.
Qed.

Lemma eof_start inode k : li_done (line_of im inode k) 0 && li_last (line_of im inode k) = eof_at inode k.
Proof using.
  clear.
  rewrite li_done_start. unfold line_of, eof_at. cbn. destruct (decide (length (rows (im_files im).[inode]) <= k)%nat).
  - by rewrite !bool_decide_true by lia.
  - by rewrite bool_decide_false by lia.
Qed.

Lemma line_state_start s c inode k :
  rd s c = (if li_last (line_of im inode k) then 10 else 48) → line_state s c (line_of im inode (Datatypes.S k)) 0.
Proof using.
  clear.
  intros V. unfold line_state. rewrite li_done_start, V. unfold line_of, eof_at. cbn.
  case_bool_decide; split; done || lia.
Qed.

Lemma row_length f k : Z.of_nat (length (rows f).[k]) ≤ Z.of_nat (length f).
Proof using All.
  clear. unfold aget. destruct (0 <=? k); [|cbn; lia]. destruct (rows f !! Z.to_nat k) as [r|] eqn:Er; [|cbn; lia].
  cbn. destruct (rows_drop f (Z.to_nat k)) as [Hd Hb]; [by apply lookup_lt_Some in Er|].
  rewrite (drop_S _ r _ Er) in Hd. set (t := drop (Z.to_nat (row_start (rows f) (Z.to_nat k))) f) in *.
  assert (length t <= length f)%nat by (unfold t; rewrite length_drop; lia).
  destruct (rows_inv t) as (r' & rs & E' & _ & Hc). rewrite Hd in E'. injection E' as <- <-.
  destruct (drop _ (rows f)) as [|r2 rs]; [rewrite <- Hc; lia|]. destruct Hc as (c' & Et & _).
  rewrite Et, length_app in H. lia.
Qed.

Lemma frame_row_spec s (k : nat) :
  at_row s k → Z.of_nat k < height (rows f0) (rows f1) →
  ∃ s', frame_line E s fd0 fd1 (Z.of_nat k) (eof_at i0 k) (eof_at i1 k) = Some (s', eof_at i0 (Datatypes.S k), eof_at i1 (Datatypes.S k)) ∧
    at_row s' (Datatypes.S k).
Proof using All.
  intros [Hd H0 H1] Hk.
  destruct (above_prefix (Z.of_nat k + 1) ltac:(lia)) as [rest Erest]. rewrite above_next in Erest.
  pose proof Hloc as Hloc'. pose proof Hcount as Hcount'. rewrite Erest in Hloc', Hcount'.
  apply Forall_app in Hloc' as [Hloc' _]. apply Forall_app in Hloc' as [_ Hloc']. rewrite !length_app in Hcount'.
  pose proof (row_length f0 (Z.of_nat k)). pose proof (row_length f1 (Z.of_nat k)).
  destruct (frame_line_spec w fd0 fd1 Hw Hfd0 Hfd1 Hne (L0 k) (L1 k) (line_of_ok im i0 k Hi0) (line_of_ok im i1 k Hi1)
    (Z.of_nat k) (above (Z.of_nat k)) Hloc' ltac:(lia) s) as (s' & E1 & Hd' & V0 & V1).
  - split; [|done|done]. unfold upto. rewrite seqZ_nil by lia. cbn [mbind list_bind]. by rewrite app_nil_r.
  - unfold width, line_of. cbn [li_row]. destruct Hsize. lia.
  - rewrite !eof_start in E1. exists s'. split; [exact E1|].
    rewrite <- above_next, !line_of_next in Hd'. split.
    + by replace (Z.of_nat (Datatypes.S k)) with (Z.of_nat k + 1) by lia.
    + by apply line_state_start.
    + by apply line_state_start.
Qed.

Lemma handle_end inode (k : nat) : eof_at inode k = true → li_handle (line_of im inode k) 0 = Closed.
Proof using.
  clear.
  intros He. unfold li_handle. rewrite li_done_start, He. unfold line_of, eof_at in *. cbn. by rewrite He.
Qed.

Lemma frame_rows_spec s :
  at_row s 0 →
  ∃ s', while (frame_row E fd0 fd1) (s, 0, false, false) = Some (Some s') ∧
    drawn w fd0 fd1 s' (frame_blinks f0 f1) Closed Closed.
Proof using All.
  intros H0. destruct (rows_length f0) as [A0 B0]. destruct (rows_length f1) as [A1 B1]. destruct Hsize as [S0 S1].
  set (n := height (rows f0) (rows f1)). assert (1 ≤ n ≤ 4096 * 1023 + 1) as Hn by (unfold n, height; lia).
  assert (∀ k : nat, negb (eof_at i0 k) || negb (eof_at i1 k) = bool_decide (Z.of_nat k < n)) as Heof.
  { intros k. unfold eof_at, n, height. repeat case_bool_decide; cbn; done || lia. }
  destruct (while_total (frame_row E fd0 fd1)
    (λ '(s, row, e0, e1), ∃ k : nat, row = Z.of_nat k ∧ row ≤ n ∧ at_row s k ∧ e0 = eof_at i0 k ∧ e1 = eof_at i1 k)
    (λ '(_, row, _, _), n - row)
    (λ r, ∃ s', r = Some s' ∧ drawn w fd0 fd1 s' (frame_blinks f0 f1) Closed Closed)
    (s, 0, false, false)) as (r & -> & s' & -> & Hs').
  - intros [[[s' row] e0] e1] (k & -> & Hk & _). lia.
  - intros [[[s' row] e0] e1] (k & -> & Hk & Ha & -> & ->). unfold frame_row. rewrite Heof.
    case_bool_decide as Hlt.
    + destruct (frame_row_spec s' k Ha Hlt) as (s2 & -> & Ha2). rewrite s32_small by lia. split; [|lia].
      exists (Datatypes.S k). split; [lia|]. split; [lia|]. done.
    + exists s'. split; [done|]. pose proof (Heof k) as He. rewrite bool_decide_false in He by done.
      apply orb_false_iff in He as [E0%negb_false_iff E1%negb_false_iff].
      pose proof (ar_drawn _ _ Ha) as Hd. rewrite (handle_end i0 k E0), (handle_end i1 k E1) in Hd.
      replace (Z.of_nat k) with n in Hd by lia. exact Hd.
  - exists 0%nat. split; [done|]. split; [lia|]. split; [done|]. unfold eof_at. by rewrite !bool_decide_false by lia.
  - lia.
  - by exists s'.
Qed.
End Rows.

(** ** add_frames *)

Lemma char_written s w (j : nat) c v ix l :
  running s w → fish_mem E s ix l → (6 <= j <= 7)%nat → fish_regions E !! j = Some (c, 1) →
  running (wr s c v) w ∧ fish_mem E (wr s c v) ix l ∧ keeps s (wr s c v) (region c 1) ∧ rd (wr s c v) c = u8 v.
Proof using HE FileService0.
  intros Hr Hm Hj Hc. assert (owned E c) as Ho by (apply (region_owned E j (c, 1)); [done|unfold region; cbn; lia]).
  assert (user_page c) as Hu by by apply HE.
  assert (keeps s (wr s c v) (region c 1)) as Hk by (apply keeps_wr; [apply Hr|done]).
  split; [by apply (run_wr E HE)|]. split; [|split; [done|]].
  - apply (fish_mem_ext E s); [|done]. intros a Ha. apply Hk; [by apply (heap_page E HE)|].
    intros Hx. by apply (local_heap E HE j (c, 1) a ltac:(lia) Hc Hx).
  - rewrite (rd_wr_safe s user_page) by (done || by apply (run_safe E s w Hr)). by rewrite decide_True.
Qed.

(** The locals before the files are opened. *)
Lemma frames_locals s w ix l :
  running s w → fish_mem E s ix l →
  let s2 := set_off_length (set_on_length (wr (wr s (fe_c0 E) 48) (fe_c1 E) 48) (fe_fblink E) 15) (fe_fblink E) 15 in
  running s2 w ∧ fish_mem E s2 ix l ∧ lengths s2 ∧ rd s2 (fe_c0 E) = 48 ∧ rd s2 (fe_c1 E) = 48.
Proof using HE FileService0.
  intros Hr Hm s2.
  destruct (char_written s w 6 (fe_c0 E) 48 ix l Hr Hm) as (Hr1 & Hm1 & K1 & V1); [lia|done|].
  set (s0 := wr s (fe_c0 E) 48) in *.
  destruct (char_written s0 w 7 (fe_c1 E) 48 ix l Hr1 Hm1) as (Hr2 & Hm2 & K2 & V2); [lia|done|].
  set (s1 := wr s0 (fe_c1 E) 48) in *.
  assert (∀ a, region (fe_fblink E) 16 a → user_page a) as HP by (intros a Ha; by apply fblink_owned).
  assert (∀ s3 i v, running s3 w → 0 ≤ i < 15 → running (store16 s3 (fe_fblink E + i) v) w) as Hrun.
  { intros s3 i v Hr3 Hi. apply (run_store16 E HE); [done|]. intros a Ha. apply fblink_owned.
    unfold fblink_area, region in *. lia. }
  pose proof (Hrun s1 4 15 Hr2 ltac:(lia)) as Hr3. change (store16 s1 (fe_fblink E + 4) 15) with (set_on_length s1 (fe_fblink E) 15) in Hr3.
  pose proof (node_on_length user_page _ HP s1 _ _ 15 (run_safe E s1 w Hr2) (node_any s1 (fe_fblink E))) as N3.
  destruct (field16 user_page _ HP s1 4 15 (run_safe E s1 w Hr2) ltac:(lia)) as [W3 _].
  change (store16 s1 (fe_fblink E + 4) 15) with (set_on_length s1 (fe_fblink E) 15) in W3.
  set (s3 := set_on_length s1 (fe_fblink E) 15) in *.
  pose proof (Hrun s3 6 15 Hr3 ltac:(lia)) as Hr4. change (store16 s3 (fe_fblink E + 6) 15) with s2 in Hr4.
  pose proof (node_off_length user_page _ HP s3 _ _ 15 (run_safe E s3 w Hr3) N3) as N4.
  destruct (field16 user_page _ HP s3 6 15 (run_safe E s3 w Hr3) ltac:(lia)) as [W4 _].
  change (set_off_length s3 (fe_fblink E) 15) with s2 in N4. change (store16 s3 (fe_fblink E + 6) 15) with s2 in W4.
  assert (∀ a, user_page a → ¬ fblink_area a → rd s2 a = rd s1 a) as Hk.
  { intros a Ha Hn. unfold fblink_area, region in Hn.
    rewrite (written_out _ _ _ _ _ _ _ W4), (written_out _ _ _ _ _ _ _ W3) by (done || lia). done. }
  assert (∀ (j : nat) c, (6 <= j <= 7)%nat → fish_regions E !! j = Some (c, 1) → rd s2 c = rd s1 c) as Hch.
  { intros j c Hj Hc. assert (region c 1 c) as Hin by (unfold region; lia).
    apply Hk; [by apply HE, (region_owned E j (c, 1))|].
    pose proof (fl_apart E HE j 5 _ _ ltac:(lia) Hc eq_refl) as A. cbn [fst snd] in A.
    unfold fblink_area, region in *. lia. }
  split; [exact Hr4|]. split; [|split; [|split]].
  - apply (fish_mem_ext E s1); [|done]. intros a Ha. apply Hk; [by apply (heap_page E HE)|].
    intros Hf. by apply fblink_owned in Hf as (_ & _ & []).
  - split; [exact (nd_onlen _ _ _ _ N4)|exact (nd_offlen _ _ _ _ N4)].
  - rewrite (Hch 6%nat) by (lia || done). etransitivity; [apply K2|exact V1].
    + apply HE, (region_owned E 6 (fe_c0 E, 1)); [done|unfold region; cbn; lia].
    + pose proof (fl_apart E HE 6 7 _ _ ltac:(done) eq_refl eq_refl) as A. cbn [fst snd] in A. unfold region. lia.
  - rewrite (Hch 7%nat) by (lia || done). exact V2.
Qed.

(** The picture is on the screen, and the descriptors are as before. *)
Definition w_frames (D : list blink) (w : world) : world := w_draw (draw_on D) w.

Lemma add_frames_spec s w ix fd0 fd1 e0 e1 i0 i1 :
  running s w → fish_mem E s ix [] →
  lookup_file im (text "frame0.txt") = Some e0 → opens (im_dents im).[e0] = Data i0 0 → 0 ≤ i0 < num_inodes im →
  lookup_file im (text "frame1.txt") = Some e1 → opens (im_dents im).[e1] = Data i1 0 → 0 ≤ i1 < num_inodes im →
  lowest fd0 w → lowest fd1 (w_set fd0 (Data i0 0) w) →
  let D := frame_blinks (im_files im).[i0] (im_files im).[i1] in
  Forall (λ b, 0 < b_loc b < 2000) D → (length D <= 2000)%nat →
  ∃ s' ix', add_frames E s (fe_str E (text "frame0.txt")) (fe_str E (text "frame1.txt")) = Some (s', None) ∧
    running s' (w_frames D w) ∧ fish_mem E s' ix' (rev D).
Proof using HE FileService0 VideoService0.
  intros Hr Hm Hl0 Ho0 Hi0 Hl1 Ho1 Hi1 Hlow0 Hlow1 D HD Hlen. unfold add_frames.
  destruct (frames_locals s w ix [] Hr Hm) as (Hr1 & Hm1 & L1 & V0 & V1).
  match type of Hr1 with UserLogic.running _ _ _ ?x _ => set (s1 := x) in * end.
  destruct (open_file _ _ _ s1 w (fe_str E (text "frame0.txt")) (text "frame0.txt") e0 fd0 Hr1) as (s2 & E2 & Hr2 & K2);
    [apply Hr1; lit|exact Hl0|done|]. rewrite E2, bind_some. rewrite Ho0 in Hr2.
  pose proof (proj1 Hlow0) as Hfd0. rewrite (proj2 (Z.ltb_ge fd0 0)) by lia.
  destruct (open_file _ _ _ s2 _ (fe_str E (text "frame1.txt")) (text "frame1.txt") e1 fd1 Hr2) as (s3 & E3 & Hr3 & K3);
    [apply Hr2; lit|exact Hl1|done|]. rewrite E3, bind_some. rewrite Ho1 in Hr3.
  pose proof (proj1 Hlow1) as Hfd1. rewrite (proj2 (Z.ltb_ge fd1 0)) by lia.
  assert (length (w_fds w) = 8%nat) as Hw by apply Hr.
  assert (fd0 ≠ fd1) as Hne.
  { intros <-. destruct Hlow1 as (_ & Hc & _). cbn in Hc. by rewrite aget_aset_eq in Hc by lia. }
  assert (keeps s1 s3 (λ _, False)) as K13 by by apply (keeps_chain s1 s2).
  assert (∀ c, owned E c → rd s3 c = rd s1 c) as Hrd by (intros c Hc; apply K13; [by apply HE|tauto]).
  assert (owned E (fe_c0 E)) as Hoc0 by (apply (region_owned E 6 (fe_c0 E, 1)); [done|unfold region; cbn; lia]).
  assert (owned E (fe_c1 E)) as Hoc1 by (apply (region_owned E 7 (fe_c1 E, 1)); [done|unfold region; cbn; lia]).
  pose proof (fs_sizes s1 (wo_ok _ _ (ru_sees _ _ _ _ _ Hr1))) as Hsz.
  assert (∀ inode, 0 ≤ inode → eof_at inode 0 = false) as He0.
  { intros inode _. unfold eof_at. apply bool_decide_false. destruct (rows_length (im_files im).[inode]). lia. }
  assert (∀ inode, 0 ≤ inode → li_handle (line_of im inode 0) 0 = Data inode 0) as Hh0.
  { intros inode Hi. unfold li_handle. rewrite li_done_start, He0 by done. done. }
  destruct (frame_rows_spec w fd0 fd1 Hw Hfd0 Hfd1 Hne i0 i1 Hi0 Hi1 HD Hlen (conj (Hsz i0 Hi0) (Hsz i1 Hi1)) s3)
    as (s4 & E4 & Hd4).
  { split.
    - rewrite !Hh0 by lia. split; [exact Hr3| |by apply (lengths_keeps s1 s3 _ K13)].
      exists ix. by apply (fish_mem_keeps E HE s1).
    - unfold line_state. rewrite li_done_start, He0, (Hrd _ Hoc0), V0 by lia. by split.
    - unfold line_state. rewrite li_done_start, He0, (Hrd _ Hoc1), V1 by lia. by split. }
  rewrite E4, !bind_some. destruct (dw_mem _ _ _ _ _ _ _ Hd4) as [ix' Hm4]. exists s4, ix'. split; [done|]. split; [|done].
  pose proof (dw_run _ _ _ _ _ _ _ Hd4) as Hr4. unfold fworld in Hr4.
  assert (w_fds w = (w_fds w).[fd0 <- Closed].[fd1 <- Closed]) as Efds.
  { destruct Hlow0 as (_ & Hc0 & _), Hlow1 as (_ & Hc1 & _). cbn in Hc1. rewrite aget_aset_ne in Hc1 by done.
    rewrite <- Hc0 at 1. rewrite aset_same. rewrite <- Hc1 at 1. by rewrite aset_same. }
  rewrite <- Efds in Hr4. exact Hr4.
Qed.

(** A missing frame: the program halts. *)
Lemma add_frames_missing s w ix :
  running s w → fish_mem E s ix [] → lookup_file im (text "frame0.txt") = None →
  ∃ s', add_frames E s (fe_str E (text "frame0.txt")) (fe_str E (text "frame1.txt")) = Some (s', Some (-1)) ∧ running s' w.
Proof using HE FileService0.
  intros Hr Hm Hl. unfold add_frames. destruct (frames_locals s w ix [] Hr Hm) as (Hr1 & Hm1 & _).
  match type of Hr1 with UserLogic.running _ _ _ ?x _ => set (s1 := x) in * end.
  assert (user_string s1 (fe_str E (text "frame0.txt")) (text "frame0.txt")) as Hu by (apply Hr1; lit).
  destruct (refused_running _ _ _ s1 w _ Hr1 (open_missing _ _ _ s1 w _ _ Hr1 Hu Hl)) as (s2 & -> & Hr2 & _).
  rewrite bind_some. exists s2. by split.
Qed.
End Frames.
