(* ===== verification/FishSwim.v ===== *)
(** * The fish animation: the program

    After the frames are drawn, [fish] waits for the clock; at every tick the
    characters that are due change.  In between it adds a character, asks to
    synchronise it with the one at location 40, and to remove the one at
    location 200.  The animation is a function of the two frames. *)

From S2P Require Import Prelude Memory Lib Types Filesystem FsProofs Paging Console ConsoleProps Printf.
From S2P Require Import Keyboard TerminalProofs Typing User UserLogic Fish FishProofs FishFrames.
Import (notations) Stdlib.Strings.String.
#[local] Open Scope Z_scope.

(** ** The animation *)

(** The list of blinking characters and the screen. *)
Definition show : Type := list blink * screen.

(** A clock tick. *)
Definition tick_show (st : show) : show := (tick_blink <$> st.1, tick_draws st.1 st.2).
Definition ticks_show (n : nat) (st : show) : show := Nat.iter n tick_show st.

(** The character that is added, and the two further requests. *)
Definition IM : blink := mk_blink 540 73 77 7 6 7 1.
Definition add_im (st : show) : show := (IM :: st.1, poke_char 540 73 st.2).

Definition sync_im (st : show) : show :=
  match find_blink 40 st.1, find_blink 540 st.1 with
  | Some j, Some k =>
      let b := sync_blink st.1.[Z.of_nat j] st.1.[Z.of_nat k] in
      (st.1.[Z.of_nat k <- b], poke_char (b_loc b) (b_off b) st.2)
  | _, _ => st
  end.

Definition remove_200 (st : show) : show :=
  match find_blink 200 st.1 with
  | Some k => (delete k st.1, st.2)
  | None => st
  end.

(** The characters of the frames [D] on the screen [v], and what becomes of them. *)
Definition swim (D : list blink) (v : screen) : show :=
  ticks_show 2000 (remove_200 (ticks_show 200 (sync_im (ticks_show 200 (add_im
    (ticks_show 200 (rev D, draw_on D v))))))).

Lemma ticks_length n st : length (ticks_show n st).1 = length st.1.
Proof.
  induction n as [|n IH]; [done|]. exact (eq_trans (length_fmap tick_blink _) IH).
Qed.

Section Swim.
Context {S : Type} `{!ByteMem S, !Syscalls S, !ServiceView S} {im : fs_image}.
Context `{!FileService S im, !VideoService S}.
Context (E : fish_env) (HE : fish_layout E).
Implicit Types (s : S) (a : Z) (w : world) (ix : list Z) (l : list blink).

#[local] Abbreviation running := (running (fe_str E) fish_lits (owned E)).

(** The world with screen [v] and [n] ticks to come. *)
Definition w_at (v : screen) (n : nat) w : world :=
  mk_world (w_fds w) v (w_args w) (w_lines w) n.

(** Stores to the variables keep the list of blinking characters. *)
Lemma local_closed (j : nat) r w ix l :
  (3 <= j)%nat → fish_regions E !! j = Some r →
  wr_closed (region r.1 r.2) (λ s, running s w ∧ fish_mem E s ix l).
Proof using HE FileService0.
  intros Hj Hr s a v [H1 H2] Ha. assert (owned E a) as Ho by by apply (region_owned E j r).
  split; [by apply (run_wr E HE)|]. apply (fish_mem_ext E s); [|done]. intros b Hb.
  assert (keeps s (wr s a v) (region a 1)) as Hk by (apply keeps_wr; [apply H1|by apply HE]).
  apply Hk; [by apply (heap_page E HE)|]. intros Hx.
  apply (local_heap E HE j r a Hj Hr Ha). by replace a with b by (unfold region in Hx; lia).
Qed.

Lemma local_store16 (j : nat) r w ix l s a v :
  (3 <= j)%nat → fish_regions E !! j = Some r → (∀ b, region a 2 b → region r.1 r.2 b) →
  running s w ∧ fish_mem E s ix l → running (store16 s a v) w ∧ fish_mem E (store16 s a v) ix l.
Proof using HE FileService0.
  intros Hj Hr Ha H. unfold store16.
  repeat (apply (local_closed j r w ix l Hj Hr); [|apply Ha; unfold region; lia]). exact H.
Qed.

Lemma local_store32 (j : nat) r w ix l s a v :
  (3 <= j)%nat → fish_regions E !! j = Some r → (∀ b, region a 4 b → region r.1 r.2 b) →
  running s w ∧ fish_mem E s ix l → running (store32 s a v) w ∧ fish_mem E (store32 s a v) ix l.
Proof using HE FileService0.
  intros Hj Hr Ha H. unfold store32.
  repeat (apply (local_closed j r w ix l Hj Hr); [|apply Ha; unfold region; lia]). exact H.
Qed.

(** ** Waiting *)

Lemma wait_ticks_spec fd ix (n : nat) : ∀ s w st m,
  running s (w_at st.2 (n + m) w) → fish_mem E s ix st.1 → 2 ≤ fd < 8 → (w_fds w).[fd] = Clock →
  ∃ s', wait_ticks E fd n s = Some s' ∧ running s' (w_at (ticks_show n st).2 m w) ∧
        fish_mem E s' ix (ticks_show n st).1.
Proof using HE FileService0 VideoService0.
  intros s w st m. unfold wait_ticks. generalize 0 as i. revert s st.
  induction n as [|n IH]; intros s st i Hr Hm Hfd Hc; [by exists s|].
  destruct (wait_tick _ _ _ s _ fd (fe_garbage E) 4 Hr ltac:(lia) Hc ltac:(cbn; lia)) as (s1 & E1 & Hr1 & K1); [exact (fl_garbage E HE)|].
  destruct (mp1_rtc_tasklet_spec E HE s1 _ ix st.1 Hr1) as (s2 & E2 & Hr2 & Hm2).
  { by apply (fish_mem_keeps E HE s). }
  rewrite (for_loop_some _ n i s s2) by by rewrite E1, bind_some.
  replace (ticks_show (Datatypes.S n) st) with (ticks_show n (tick_show st)) by (unfold ticks_show; by rewrite Nat.iter_succ_r).
  apply IH; [|done|done|done].
  unfold w_wait, w_draw, w_at in Hr2. cbn in Hr2. rewrite Nat.sub_0_r in Hr2. exact Hr2.
Qed.

(** ** The requests *)

(** The structure on the stack of [main]. *)
Lemma im_stored s w ix l :
  running s w → fish_mem E s ix l →
  let bs := fe_blink E in
  let s' := set_location (set_off_length (set_on_length (set_off_char (set_on_char s bs 73) bs 77) bs 7) bs 6) bs 540 in
  running s' w ∧ fish_mem E s' ix l ∧ ∃ cnt st next, node_at s' bs (mk_blink 540 73 77 7 6 cnt st) next.
Proof using HE FileService0.
  intros Hr Hm bs s'.
  assert (∀ a, region bs 16 a → user_page a) as HP
    by (intros a Ha; by apply HE, (region_owned E 4 (bs, 16))).
  assert (∀ i, 0 ≤ i < 15 → ∀ b, region (bs + i) 2 b → region bs 16 b) as Hin by (intros i Hi b Hb; unfold region in *; lia).
  assert (∀ s i v, 0 ≤ i < 16 → running s w ∧ fish_mem E s ix l → running (wr s (bs + i) v) w ∧ fish_mem E (wr s (bs + i) v) ix l) as H8.
  { intros s0 i v Hi H. apply (local_closed 4 (bs, 16) w ix l); [lia|done|done|]. unfold region. cbn. lia. }
  assert (∀ s i v, 0 ≤ i < 15 → running s w ∧ fish_mem E s ix l → running (store16 s (bs + i) v) w ∧ fish_mem E (store16 s (bs + i) v) ix l) as H16.
  { intros s0 i v Hi H. apply (local_store16 4 (bs, 16) w ix l); [lia|done|by apply Hin|done]. }
  pose proof (node_any s bs) as N0.
  pose proof (H8 s 2 73 ltac:(lia) (conj Hr Hm)) as Q1. change (wr s (bs + 2) 73) with (set_on_char s bs 73) in Q1.
  pose proof (node_on_char user_page bs HP s _ _ 73 (run_safe E s w Hr) N0) as N1. set (s1 := set_on_char s bs 73) in *.
  pose proof (H8 s1 3 77 ltac:(lia) Q1) as Q2. change (wr s1 (bs + 3) 77) with (set_off_char s1 bs 77) in Q2.
  pose proof (node_off_char user_page bs HP s1 _ _ 77 (run_safe E s1 w (proj1 Q1)) N1) as N2. set (s2 := set_off_char s1 bs 77) in *.
  pose proof (H16 s2 4 7 ltac:(lia) Q2) as Q3. change (store16 s2 (bs + 4) 7) with (set_on_length s2 bs 7) in Q3.
  pose proof (node_on_length user_page bs HP s2 _ _ 7 (run_safe E s2 w (proj1 Q2)) N2) as N3. set (s3 := set_on_length s2 bs 7) in *.
  pose proof (H16 s3 6 6 ltac:(lia) Q3) as Q4. change (store16 s3 (bs + 6) 6) with (set_off_length s3 bs 6) in Q4.
  pose proof (node_off_length user_page bs HP s3 _ _ 6 (run_safe E s3 w (proj1 Q3)) N3) as N4. set (s4 := set_off_length s3 bs 6) in *.
  pose proof (H16 s4 0 540 ltac:(lia) Q4) as Q5. rewrite Z.add_0_r in Q5. change (store16 s4 bs 540) with s' in Q5.
  pose proof (node_location user_page bs HP s4 _ _ 540 (run_safe E s4 w (proj1 Q4)) N4) as N5.
  change (set_location s4 bs 540) with s' in N5.
  split; [apply Q5|]. split; [apply Q5|]. by eexists _, _, _.
Qed.

Lemma add_im_spec s w ix st n :
  running s (w_at st.2 n w) → fish_mem E s ix st.1 → (length st.1 < 2000)%nat →
  let bs := fe_blink E in
  let s1 := set_location (set_off_length (set_on_length (set_off_char (set_on_char s bs 73) bs 77) bs 7) bs 6) bs (6 * 80 + 60) in
  ∃ s' i r, mp1_ioctl E s1 bs RTC_ADD = Some (s', r) ∧ running s' (w_at (add_im st).2 n w) ∧
    fish_mem E s' (i :: ix) (add_im st).1.
Proof using HE FileService0 VideoService0.
  intros Hr Hm Hlen bs s1. destruct (im_stored s _ ix st.1 Hr Hm) as (Hr1 & Hm1 & cnt & stt & next & Hn1).
  pose proof (fl_apart E HE 3 4 _ _ ltac:(done) eq_refl eq_refl) as A. cbn [fst snd] in A.
  pose proof (mp1_ioctl_add_spec E HE s1 _ ix st.1 bs _ next Hr1 Hm1 Hn1) as Ha.
  specialize (Ha ltac:(intros x Hx; by apply HE, (region_owned E 4 (bs, 16))) ltac:(unfold bs; lia) ltac:(done)).
  rewrite decide_True in Ha by done. destruct Ha as (s' & i & Ea & Hr' & Hm' & _).
  exists s', i, 0. split; [exact Ea|]. by split.
Qed.

Lemma sync_im_spec s w ix st n :
  running s (w_at st.2 n w) → fish_mem E s ix st.1 →
  ∃ s' r, mp1_ioctl E s (Z.lor (Z.shiftl 40 16) (6 * 80 + 60)) RTC_SYNC = Some (s', r) ∧
    running s' (w_at (sync_im st).2 n w) ∧ fish_mem E s' ix (sync_im st).1.
Proof using HE FileService0 VideoService0.
  intros Hr Hm. set (arg := Z.lor (Z.shiftl 40 16) (6 * 80 + 60)).
  pose proof (mp1_ioctl_sync_spec E HE s _ ix st.1 arg Hr Hm) as H.
  change (u16 (Z.shiftr arg 16)) with 40 in H. change (u16 (Z.land arg 0xFFFF)) with 540 in H. unfold sync_im.
  destruct (find_blink 40 st.1) as [j|]; [|by exists s, (-1)]. destruct (find_blink 540 st.1) as [k|]; [|by exists s, (-1)].
  destruct H as (s' & Ea & Hr' & Hm' & _). exists s', 0. split; [exact Ea|]. by split.
Qed.

Lemma remove_200_spec s w ix st n :
  running s (w_at st.2 n w) → fish_mem E s ix st.1 →
  ∃ s' ix' r, mp1_ioctl E s 200 RTC_REMOVE = Some (s', r) ∧
    running s' (w_at (remove_200 st).2 n w) ∧ fish_mem E s' ix' (remove_200 st).1.
Proof using HE FileService0.
  intros Hr Hm. pose proof (mp1_ioctl_remove_spec E HE s _ ix st.1 200 Hr Hm) as H.
  change (u16 200) with 200 in H. unfold remove_200.
  destruct (find_blink 200 st.1) as [k|]; [|by exists s, ix, (-1)].
  destruct H as (s' & Ea & Hr' & Hm' & _). exists s', (delete k ix), 0. split; [exact Ea|]. by split.
Qed.

(** The word [main] hands to the clock. *)
Lemma ret_stored s w ix l v :
  running s w → fish_mem E s ix l →
  running (store32 s (fe_ret E) v) w ∧ fish_mem E (store32 s (fe_ret E) v) ix l.
Proof using HE FileService0.
  intros Hr Hm. apply (local_store32 8 (fe_ret E, 4)); [lia|done| |by split]. intros b Hb. exact Hb.
Qed.

Lemma location_stored s w ix l v :
  running s w → fish_mem E s ix l →
  running (set_location s (fe_blink E) v) w ∧ fish_mem E (set_location s (fe_blink E) v) ix l.
Proof using HE FileService0.
  intros Hr Hm. apply (local_store16 4 (fe_blink E, 16)); [lia|done| |by split].
  intros b Hb. cbn [fst snd]. unfold region in *. lia.
Qed.

(** ** main *)

Lemma fish_swim_spec s w ix D v fd m :
  running s (w_at (draw_on D v) (2600 + m) w) → fish_mem E s ix (rev D) → (length D < 2000)%nat →
  2 ≤ fd < 8 → (w_fds w).[fd] = Clock →
  ∃ s', fish_swim E fd s = Some (s', 0) ∧ running s' (w_set fd Closed (w_at (swim D v).2 m w)).
Proof using HE FileService0 VideoService0.
  intros Hr Hm Hlen Hfd Hc. unfold fish_swim. set (st0 := (rev D, draw_on D v) : show).
  destruct (ret_stored s _ ix _ 32 Hr Hm) as [Hr1 Hm1]. set (s1 := store32 s (fe_ret E) 32) in *.
  destruct (fs_write_clock s1 fd (fe_ret E)) as (s2 & -> & Hse & K2);
    [apply Hr1|by rewrite (wo_fds _ _ (ru_sees _ _ _ _ _ Hr1))|
     intros b Hb; apply HE, (region_owned E 8 (fe_ret E, 4)); [done|unfold region in *; cbn; lia]|].
  rewrite bind_some. pose proof (serves_running _ _ _ s1 s2 _ fd Clock Hr1 Hse K2 ltac:(lia)) as Hr2.
  rewrite <- Hc in Hr2. change (w_fds w) with (w_fds (w_at (draw_on D v) (2600 + m) w)) in Hr2. rewrite w_set_same in Hr2.
  destruct (ret_stored s2 _ ix _ 0 Hr2 (fish_mem_keeps E HE _ _ _ _ K2 Hm1)) as [Hr3 Hm3].
  destruct (wait_ticks_spec fd ix 200 _ w st0 (2400 + m) Hr3 Hm3 Hfd Hc) as (s4 & -> & Hr4 & Hm4).
  rewrite bind_some. cbv zeta.
  destruct (add_im_spec s4 w ix (ticks_show 200 st0) _ Hr4 Hm4) as (s5 & i & r5 & E5 & Hr5 & Hm5);
    [rewrite ticks_length; cbn [fst st0]; by rewrite length_rev|].
  rewrite E5, bind_some.
  destruct (wait_ticks_spec fd _ 200 s5 w (add_im (ticks_show 200 st0)) (2200 + m) Hr5 Hm5 Hfd Hc)
    as (s6 & -> & Hr6 & Hm6). rewrite bind_some.
  destruct (sync_im_spec s6 w _ _ _ Hr6 Hm6) as (s7 & r7 & -> & Hr7 & Hm7). rewrite bind_some.
  destruct (wait_ticks_spec fd _ 200 s7 w _ (2000 + m) Hr7 Hm7 Hfd Hc) as (s8 & -> & Hr8 & Hm8). rewrite bind_some.
  destruct (location_stored s8 _ _ _ 60 Hr8 Hm8) as [Hr9 Hm9].
  destruct (remove_200_spec _ w _ _ _ Hr9 Hm9) as (s10 & ix' & r10 & -> & Hr10 & Hm10). rewrite bind_some.
  destruct (wait_ticks_spec fd _ 2000 s10 w _ m Hr10 Hm10 Hfd Hc) as (s11 & -> & Hr11 & _). rewrite bind_some.
  destruct (close_file _ _ _ s11 _ fd Hr11 Hfd) as (s12 & -> & Hr12 & _); [change ((w_fds w).[fd] ≠ Closed); by rewrite Hc|].
  rewrite bind_some. exists s12. split; [done|exact Hr12].
Qed.

Lemma fish_show_spec s w ix rtc e0 e1 i0 i1 :
  running s w → fish_mem E s ix [] → w_fds w = std_fds → (2600 <= w_ticks w)%nat →
  lookup_file im (text "rtc") = Some rtc → d_type (im_dents im).[rtc] = 0 →
  lookup_file im (text "frame0.txt") = Some e0 → opens (im_dents im).[e0] = Data i0 0 → 0 ≤ i0 < num_inodes im →
  lookup_file im (text "frame1.txt") = Some e1 → opens (im_dents im).[e1] = Data i1 0 → 0 ≤ i1 < num_inodes im →
  let D := frame_blinks (im_files im).[i0] (im_files im).[i1] in
  Forall (λ b, 0 < b_loc b < 2000) D → (length D < 2000)%nat →
  ∃ s', fish_show E s = Some (s', 0) ∧ running s' (w_at (swim D (w_screen w)).2 (w_ticks w - 2600) w).
Proof using HE FileService0 VideoService0.
  intros Hr Hm Hf Ht Hl Hty Hl0 Ho0 Hi0 Hl1 Ho1 Hi1 D HD Hlen. unfold fish_show.
  assert (lowest 2 w) as Hlow. { split; [lia|]. rewrite Hf. split; [done|]. intros j Hj. lia. }
  destruct (open_file _ _ _ s w (fe_str E (text "rtc")) (text "rtc") rtc 2 Hr) as (s1 & -> & Hr1 & K1);
    [apply Hr; lit|done|done|]. rewrite bind_some. assert (opens (im_dents im).[rtc] = Clock) as Eo by (unfold opens; by rewrite Hty). rewrite Eo in Hr1.
  destruct (add_frames_spec E HE s1 _ ix 3 4 e0 e1 i0 i1 Hr1 (fish_mem_keeps E HE _ _ _ _ K1 Hm) Hl0 Ho0 Hi0 Hl1 Ho1 Hi1)
    as (s2 & ix2 & -> & Hr2 & Hm2).
  - split; [lia|]. unfold w_set. cbn [w_fds]. rewrite Hf. split; [done|]. intros j Hj. by replace j with 2 by lia.
  - split; [lia|]. unfold w_set. cbn [w_fds]. rewrite Hf. split; [done|]. intros j Hj.
    assert (j = 2 ∨ j = 3) as [->| ->] by lia; done.
  - exact HD.
  - fold D. lia.
  - fold D in Hr2, Hm2. rewrite bind_some.
    assert (w_frames D (w_set 2 Clock w) = w_at (draw_on D (w_screen w)) (2600 + (w_ticks w - 2600)) (w_set 2 Clock w)) as Ew.
    { unfold w_frames, w_draw, w_at, w_set. cbn [w_fds w_screen w_args w_lines w_ticks]. f_equal. lia. }
    rewrite Ew in Hr2.
    destruct (fish_swim_spec s2 _ ix2 D _ 2 _ Hr2 Hm2 Hlen) as (s3 & -> & Hr3); [lia|unfold w_set; cbn [w_fds]; by rewrite Hf|].
    exists s3. split; [done|].
    assert (w_set 2 Closed (w_at (swim D (w_screen w)).2 (w_ticks w - 2600) (w_set 2 Clock w))
      = w_at (swim D (w_screen w)).2 (w_ticks w - 2600) w) as Ew3; [|by rewrite Ew3 in Hr3].
    unfold w_at, w_set. cbn [w_fds w_screen w_args w_lines w_ticks]. by rewrite Hf.
Qed.

(** Without the first frame the program stops. *)
Lemma fish_show_missing s w ix rtc :
  running s w → fish_mem E s ix [] → lowest 2 w →
  lookup_file im (text "rtc") = Some rtc → lookup_file im (text "frame0.txt") = None →
  ∃ s', fish_show E s = Some (s', -1) ∧ running s' (w_set 2 (opens (im_dents im).[rtc]) w).
Proof using HE FileService0.
  intros Hr Hm Hlow Hl Hl0. unfold fish_show.
  destruct (open_file _ _ _ s w (fe_str E (text "rtc")) (text "rtc") rtc 2 Hr) as (s1 & -> & Hr1 & K1);
    [apply Hr; lit|done|done|]. rewrite bind_some.
  destruct (add_frames_missing E HE s1 _ ix Hr1 (fish_mem_keeps E HE _ _ _ _ K1 Hm) Hl0) as (s2 & -> & Hr2).
  rewrite bind_some. by exists s2.
Qed.
End Swim.
