(* ===== verification/FishKernel.v ===== *)
(** * The fish animation on the kernel

    After [vidmap], a store of the program to the user video page changes the
    page of its terminal, wherever that is; so the kernel provides what the
    animation needs, and [fish] runs on it. *)

From S2P Require Import Prelude Memory Lib Ports Types Filesystem FsProofs FsProps I8259 RTC.
From S2P Require Import Paging PagingProps Console ConsoleProofs ConsoleProps Printf Keyboard.
From S2P Require Import KeyboardProofs LineProofs KeyboardProps TerminalProofs Stores Typing TerminalProps.
From S2P Require Import Kernel KernelProps KernelDemo SyscallProps Process ParseProofs Scheduler Forest System Beside ProcessProofs.
From S2P Require Import User Programs UserLogic UserProps Guard Shell UserKernel UserSystem ShellKernel.
From S2P Require Import Fish FishProofs FishFrames FishSwim.
Import (notations) Stdlib.Strings.String.
#[local] Open Scope Z_scope.

(** ** A character of a page *)

Section View.
Context {M : Type} `{!ByteMem M}.

Lemma view_poke (P : Z → Prop) (m : M) base loc c :
  safe m P → (∀ a, region base 4000 a → P a) → 0 ≤ loc < 2000 → 0 ≤ c < 256 →
  view (wr m (base + 2 * loc) c) base = alter (λ cell, (c, snd cell)) (Z.to_nat loc) (view m base).
Proof.
  intros Hs HP Hl Hc. apply list_eq. intros n. destruct (decide (n < 2000)%nat) as [Hn|Hn].
  2: { rewrite !lookup_ge_None_2; [done|rewrite length_alter, view_length; lia|rewrite view_length; lia]. }
  assert (∀ a, region base 4000 a → rd (wr m (base + 2 * loc) c) a = if decide (a = base + 2 * loc) then c else rd m a) as Hr.
  { intros a Ha. rewrite (rd_wr_safe m P) by (done || apply HP; unfold region in *; lia).
    rewrite u8_small by done. repeat case_decide; done || lia. }
  rewrite view_lookup, !Hr by (done || unfold region; lia). rewrite (decide_False (P := _ + 1 = _)) by lia.
  destruct (decide (n = Z.to_nat loc)) as [->|Hne].
  - rewrite list_lookup_alter_eq, view_lookup by done. cbn. rewrite decide_True by lia. done.
  - rewrite list_lookup_alter_ne, view_lookup by done. rewrite decide_False by lia. done.
Qed.
End View.

(** ** The user video page *)

Section Video.
Context {HL : Layout} {D : Type} `{!PortIO D}.
(** As in [UserKernel]; the process has the video page of terminal [t]. *)
Context (cur dp rate0 : Z) (before : Z → Z) (vids : Z → option Z) (im : fs_image).
Context (other : syscall → ustate D → option (ustate D * Z)).
Context (t : Z) (Hvid : vids cur = Some t) (Ht : 0 ≤ t < 3).
Context (Hdp : 0x7F4000 ≤ dp ≤ 0x800000 - 44).
Context (Htypes : ∀ i, 0 ≤ i < num_entries im → 0 ≤ d_type (im_dents im).[i] ≤ 2).
Implicit Types (s : ustate D) (k : kernel D).

Definition home s : Prop := p_terminal_id (pcbs (uk s)).[cur] = t.

#[local] Instance vcalls : Syscalls (ustate D) := KernelCalls cur dp rate0 before other.

Lemma home_guarded : guarded (Syscalls0 := vcalls) (KernelView cur vids im) home.
Proof.
  apply calls_guarded. intros s s' _ Hh Hk _. unfold home in *.
  pose proof (ke_who _ _ _ Hk) as E. unfold who in E. injection E as _ _ E. by rewrite E.
Qed.

#[local] Instance vview : ServiceView (ustate D) := GuardView (KernelView cur vids im) home.
#[local] Instance vservice : FileService (ustate D) im :=
  GuardService (KernelView cur vids im) home (KernelService cur dp rate0 before vids im other Hdp Htypes) home_guarded.

Lemma video_cell k i :
  kernel_ok vids im k cur → 0 ≤ i < 4096 →
  user_translate (kmem k) (USER_VIDEO + i) = Some (view_cell cur (cur_terminal (con k)) (tpage t + i)).
Proof using All.
  intros Hk Hi. pose proof (mach_space _ _ _ _ (ki_mach _ _ _ (ko_kbd _ _ _ _ Hk))) as Hs.
  rewrite (process_user_translate _ cur (vids cur) _ _ Hs) by (unfold USER_VIDEO; lia).
  unfold process_space. rewrite Hvid, decide_False by (unfold USER_VIDEO, USER_MEM_LOCATION; lia).
  rewrite decide_True by lia. cbn [fmap option_fmap option_map]. f_equal.
  unfold view_cell, tpage, VIDEO. rewrite (proj2 (Z.ltb_ge _ _)) by lia. rewrite (proj2 (Z.ltb_lt _ _)) by lia.
  replace ((0xB8000 + 4096 * (t + 1) + i - (0xB8000 + 4096)) / 4096) with t by mlia.
  replace ((0xB8000 + 4096 * (t + 1) + i) mod 4096) with i by mlia. lia.
Qed.

(** A store to the video page is a store to the page of the terminal. *)
Lemma video_wr s i v :
  kernel_ok vids im (uk s) cur → 0 ≤ i < 4096 →
  wr s (USER_VIDEO + i) v = with_kernel s (with_mem (uk s) (wr (kmem (uk s)) (tpage t + i) v)).
Proof using All.
  intros Hk Hi. pose proof (mach_space _ _ _ _ (ki_mach _ _ _ (ko_kbd _ _ _ _ Hk))) as Hs.
  cbn [wr UserMem PagedMem]. unfold user_wr, mach_wr. rewrite (video_cell _ _ Hk Hi), (view_cell_translate _ _ _ _ _ Hs); [done|].
  right; left. unfold region, tpage. lia.
Qed.

Lemma poke_kernel s loc c :
  sv_ok s → 0 ≤ loc < 2000 → 0 ≤ c < 256 →
  does s (wr s (USER_VIDEO + 2 * loc) c) 0 (sv_handle s 0) (poke_char loc c) [] 0 ∧
  keeps s (wr s (USER_VIDEO + 2 * loc) c) (λ _, False).
Proof using All.
  intros [Hok Hh] Hl Hc. pose proof Hok as [Hk _]. rewrite video_wr by (done || lia).
  set (m := wr (kmem (uk s)) (tpage t + 2 * loc) c).
  assert (∀ a, kernel_view a → a ≠ tpage t + 2 * loc → rd m a = rd (kmem (uk s)) a) as Hm.
  { intros a Ha Hne. unfold m. rewrite (rd_wr_safe _ kernel_view) by
      (done || (left; unfold region, tpage in *; lia) || by apply (ko_safe vids im _ cur)). by rewrite decide_False by congruence. }
  assert (kernel_ok vids im (with_mem (uk s) m) cur) as Hk'.
  { apply kernel_ok_mem; [done|apply mach_ctl_wr|]. intros a Ha. apply Hm; [by apply (fs_view _ _ _ _ _ Hk)|].
    pose proof (ko_lo _ _ _ _ Hk). unfold tpage, VIDEO. lia. }
  destruct (same_inputs cur vids im s (with_mem (uk s) m) eq_refl eq_refl) as [Hsl Hst]. split.
  - apply guard_does; [|exact Hh]. apply does_intro; [done|done|done|done| |lia| |exact Hsl|exact Hst].
    + intros j Hj. case_decide; [by subst|done].
    + rewrite Hh. unfold tview, poke_char.
      change (page_of (con (with_mem (uk s) m)) t) with (page_of (con (uk s)) t).
      change (vmem (con (with_mem (uk s) m))) with m. change (terminals (con (with_mem (uk s) m))) with (terminals (con (uk s))).
      rewrite (ki_page _ _ _ (ko_kbd _ _ _ _ Hk)) by done. unfold m.
      rewrite (view_poke kernel_view) by (done || (intros a Ha; left; unfold region, tpage in *; lia) || by apply (ko_safe vids im _ cur)).
      done.
  - apply (keeps_intro cur vids im); [done|exact Hk'|]. intros a Ha _. apply Hm; [by apply user_view|].
    unfold user_page, region, USER_MEM_LOCATION, tpage, VIDEO in *. lia.
Qed.

#[local] Instance video_service : VideoService (ustate D).
Proof using All. split. exact poke_kernel. Qed.

(** Between the two views. *)
Lemma home_running str lits B s w :
  UserLogic.running (ServiceView0 := KernelView cur vids im) str lits B s w → home s → running str lits B s w.
Proof. intros [H1 H2 H3] Hh. split; [by apply guard_sees|done|done]. Qed.

Lemma home_running_inv str lits B s w :
  running str lits B s w → UserLogic.running (ServiceView0 := KernelView cur vids im) str lits B s w ∧ home s.
Proof. intros [H1 H2 H3]. apply guard_sees_inv in H1 as [H1 Hh]. by split. Qed.

Lemma home_shown str lits B s w v n :
  running str lits B s (w_at v n w) → kernel_ok vids im (uk s) cur ∧ shown cur s = v.
Proof. intros [[[[Hk _] _] _ _ Hv _ _ _] _ _]. by split. Qed.
End Video.

(** ** From [vidmap] on *)

Section Map.
Context {HL : Layout} {D : Type} `{!PortIO D}.
(** As in [UserKernel]. *)
Context (cur dp rate0 : Z) (before : Z → Z) (vids : Z → option Z) (im : fs_image).
Context (other : syscall → ustate D → option (ustate D * Z)).
Implicit Types (s : ustate D) (k : kernel D).

#[local] Instance mcalls : Syscalls (ustate D) := KernelCalls cur dp rate0 before other.
#[local] Instance mview : ServiceView (ustate D) := KernelView cur vids im.

(** Process [cur] has mapped the page of terminal [t]. *)
Definition mapped (t : Z) (p : Z) : option Z := if p =? cur then Some t else vids p.

Lemma mapped_cur t : mapped t cur = Some t.
Proof. unfold mapped. by rewrite Z.eqb_refl. Qed.

Lemma vidmap_runs s str lits B w a :
  let t := p_terminal_id (pcbs (uk s)).[cur] in
  running str lits B s w → user_buf a 4 → (∀ b, region a 4 b → B b) →
  ∃ s', ece391_vidmap s a = Some (s', 0) ∧ uk s' = with_mem (uk s) (vidmap_mach (kmem (uk s)) cur t a) ∧
    UserLogic.running (ServiceView0 := vview cur (mapped t) im t) str lits B s' w ∧
    keeps s s' (region a 4) ∧ load32 s' a = USER_VIDEO.
Proof.
  intros t Hr Hu HB. pose proof (ru_sees _ _ _ _ _ Hr) as Hs. destruct (wo_ok _ _ Hs) as [Hk Ha].
  destruct (vidmap_mach_ok vids im (uk s) cur a Hk Hu) as [Hm1 Hm2]. fold t in Hm2.
  pose proof (vidmap_stored vids im (uk s) cur a Hk Hu) as W.
  pose proof (vidmap_kernel_ok vids im (uk s) cur a Hk Hu) as Hk2. fold t in Hk2.
  pose proof (vidmap_returns vids im (uk s) cur a Hk Hu) as Ev. fold t in Ev.
  set (m1 := store32 (kmem (uk s)) a USER_VIDEO) in *. set (m2 := vidmap_mach (kmem (uk s)) cur t a) in *.
  assert (∀ b, kernel_view b → rd m2 b = rd m1 b) as H21.
  { intros b Hb. rewrite (rd_pbyte m2 _ _ _ _ Hm2), (rd_pbyte m1 _ _ _ _ Hm1) by by right. done. }
  assert (∀ b, kernel_view b → ¬ region a 4 b → rd m2 b = rd (kmem (uk s)) b) as H20.
  { intros b Hb Hn. rewrite H21 by done. by apply (written_out _ _ _ _ _ _ _ W). }
  set (s' := with_kernel s (with_mem (uk s) m2)).
  assert (kernel_ok (mapped t) im (uk s') cur) as Hk' by exact Hk2.
  assert (keeps s s' (region a 4)) as Hkeep.
  { intros b Hb Hn. rewrite (user_rd_kernel cur (mapped t) im s') by done.
    rewrite (user_rd_kernel cur vids im s) by done. apply H20; [by apply user_view|done]. }
  exists s'. split; [|split; [done|split; [|split; [done|]]]].
  - cbn [ece391_vidmap mcalls KernelCalls]. rewrite Ev. done.
  - destruct Hr as [_ Hlits Hap]. split.
    + destruct Hs as [_ H2 H3 H4 H5 H6 H7]. split; [|exact H2|exact H3| |exact H5|exact H6|exact H7].
      * split; [|done]. split; [exact Hk'|exact Ha].
      * rewrite <- H4. apply (tview_mem cur vids im (uk s) m2 t Hk (ko_term _ _ _ _ Hk)). intros b Hb. apply H20; [by left|].
        destruct Hu. unfold region, USER_MEM_LOCATION, VIDEO in *. lia.
    + intros l Hl. apply (user_string_keeps s s' (region a 4)); [done| |by apply Hlits].
      intros b Hb Hx. by apply (Hap l Hl b Hb), HB.
    + exact Hap.
  - assert (∀ b, region a 4 b → user_page b) as Hup by (destruct Hu; unfold user_page, region in *; intros; lia).
    assert (load32 s' a = load32 m1 a) as ->.
    { apply load32_eq. intros b Hb. rewrite (user_rd_kernel cur (mapped t) im s') by (done || apply Hup; unfold region; lia).
      apply H21, user_view, Hup. unfold region. lia. }
    apply (load32_store32 kernel_view); [by apply (ko_safe vids im _ cur)|by apply vidmap_buf|done].
Qed.
End Map.

(** ** The program *)

(** The array is cleared. *)
Lemma fish_cleared {S : Type} `{!ByteMem S, !Syscalls S, !ServiceView S} {im} `{!FileService S im} E (HE : fish_layout E) s w :
  running (fe_str E) fish_lits (owned E) s w →
  let s1 := ece391_memset s (fe_array E) 0 (STRUCT_SIZE * 80 * 25) in
  running (fe_str E) fish_lits (owned E) s1 w ∧ keeps s s1 (region (fe_array E) 32000) ∧
  ∀ i, 0 ≤ i < 2000 → f_location s1 (slot E i) = 0.
Proof.
  intros Hr s1. assert (∀ a, region (fe_array E) 32000 a → owned E a) as Ho
    by (intros a Ha; by apply (region_owned E 0 (fe_array E, 32000))).
  destruct (memset_written user_page (λ s, running (fe_str E) fish_lits (owned E) s w) s (fe_array E) 0 32000) as [W Hr1];
    [lia|apply fs_safe, Hr|intros a Ha; by apply HE, Ho|by apply (run_wr_closed E HE)|done|].
  change (ece391_memset s (fe_array E) 0 32000) with s1 in W, Hr1. split; [done|]. split.
  - intros a Ha Hn. by apply (written_out _ _ _ _ _ _ _ W).
  - intros i Hi. unfold f_location, load16, slot, STRUCT_SIZE. rewrite <- Z.add_assoc.
    by rewrite !(written_in _ _ _ _ _ _ _ W) by (lia || (apply HE, Ho; unfold region; lia)).
Qed.

(** Two is the first free descriptor of a new program. *)
Lemma std_lowest v args ls nt : lowest 2 (mk_world std_fds v args ls nt).
Proof. split; [lia|]. split; [done|]. intros j Hj. lia. Qed.

Section Run.
Context {HL : Layout} {D : Type} `{!PortIO D}.
(** As in [UserKernel]. *)
Context (cur dp rate0 : Z) (before : Z → Z) (vids : Z → option Z) (im : fs_image).
Context (other : syscall → ustate D → option (ustate D * Z)).
Context (Hdp : 0x7F4000 ≤ dp ≤ 0x800000 - 44).
Context (Htypes : ∀ i, 0 ≤ i < num_entries im → 0 ≤ d_type (im_dents im).[i] ≤ 2).
Context (E : fish_env) (HE : fish_layout E).
Implicit Types (s : ustate D).

#[local] Instance fcalls : Syscalls (ustate D) := KernelCalls cur dp rate0 before other.

(** A process that starts [fish]: no list yet. *)
Record fish_process (nt : nat) s : Prop := {
  fp_process : process cur vids im (fe_str E) fish_lits (owned E) [] nt s;
  fp_head : load32 s (fe_head E) = 0
}.

Lemma one_lt_two : (1 < 2)%nat.
Proof. lia. Qed.

Lemma zero_lt_two : (0 < 2)%nat.
Proof. lia. Qed.

Lemma slot_array i b : 0 ≤ i < 2000 → region (slot E i) 2 b → region (fe_array E) 32000 b.
Proof. clear. unfold region, slot, STRUCT_SIZE. lia. Qed.

Lemma fish_started nt s :
  let t := p_terminal_id (pcbs (uk s)).[cur] in
  fish_process nt s →
  ∃ s2, fish E s = fish_show E s2 ∧ fish_mem E s2 [] [] ∧
    UserLogic.running (ServiceView0 := vview cur (mapped cur vids t) im t) (fe_str E) fish_lits (owned E) s2
      (mk_world std_fds (shown cur s) (args_of cur (uk s)) [] nt).
Proof using Hdp Htypes HE.
  intros t [Hp Hh]. pose proof (process_running cur vids im _ _ _ _ _ s Hp) as Hr. set (w := mk_world _ _ _ _ _) in *.
  apply (home_running cur vids im t) in Hr; [|done].
  destruct (fish_cleared (ServiceView0 := vview cur vids im t)
    (FileService0 := vservice cur dp rate0 before vids im other t Hdp Htypes) E HE s _ Hr) as (Hr1 & K1 & Hz).
  set (s1 := ece391_memset s (fe_array E) 0 (STRUCT_SIZE * 80 * 25)) in *.
  apply home_running_inv in Hr1 as [Hr1 Et1]. unfold home in Et1.
  assert (∀ (i : nat) r, fish_regions E !! i = Some r → ∀ a, region r.1 r.2 a → user_page a) as Hu
    by (intros i r Hi a Ha; by apply HE, (region_owned E i r)).
  assert (∀ (i : nat) r, (1 <= i)%nat → fish_regions E !! i = Some r → ∀ a, region r.1 r.2 a → ¬ region (fe_array E) 32000 a) as Ha.
  { intros i r Hi1 Hi a Ha. pose proof (fl_apart E HE i 0 _ _ ltac:(lia) Hi eq_refl) as A. cbn [fst snd] in A. unfold region in *. lia. }
  assert (user_buf (fe_vmem E) 4) as Hb.
  { pose proof (Hu 2%nat _ eq_refl (fe_vmem E) ltac:(unfold region; cbn; lia)).
    pose proof (Hu 2%nat _ eq_refl (fe_vmem E + 3) ltac:(unfold region; cbn; lia)). unfold user_page, user_buf, region in *. lia. }
  destruct (vidmap_runs cur dp rate0 before vids im other s1 _ _ _ w (fe_vmem E) Hr1 Hb) as (s2 & E2 & _ & Hr2 & K2 & V2);
    [intros b; by apply (region_owned E 2 (fe_vmem E, 4))|]. rewrite Et1 in Hr2.
  exists s2. split; [|split; [|exact Hr2]].
  - unfold fish. fold s1. unfold mp1_set_video_mode. change (ece391_vidmap s1 (fe_vmem E) = Some (s2, 0)) in E2. rewrite E2, !bind_some, V2. done.
  - assert (∀ (i : nat) r a, (i < 2)%nat → fish_regions E !! i = Some r → region r.1 r.2 a → rd s2 a = rd s1 a) as R2.
    { intros i r a Hi Hr0 Hin. apply K2; [by apply (Hu i r)|]. pose proof (fl_apart E HE i 2 _ _ ltac:(lia) Hr0 eq_refl) as A.
      cbn [fst snd] in A. unfold region in *. lia. }
    split; [exact V2| |constructor|intros i []%elem_of_nil|done|cbn; lia| |cbn; lia].
    + transitivity (load32 s (fe_head E)); [|exact Hh]. transitivity (load32 s1 (fe_head E)).
      * apply load32_eq. intros b Hb'. exact (R2 1%nat _ b one_lt_two eq_refl Hb').
      * apply load32_eq. intros b Hb'. exact (K1 b (Hu 1%nat _ eq_refl b Hb') (Ha 1%nat _ (le_n 1) eq_refl b Hb')).
    + intros i Hi _. rewrite <- (Hz i Hi). apply load16_ext. intros b Hb'.
      exact (R2 0%nat _ b zero_lt_two eq_refl (slot_array i b Hi Hb')).
Qed.

(** C13 (the fish). On a system with the clock and both frames in its directory, the
    program [fish] clears its array, maps the video page, reads the two frames,
    and animates them for 2600 ticks of the clock: it returns 0, its terminal
    shows the animation [swim] of the two pictures, and the kernel is in
    service with the video page of the process mapped. *)
Theorem fish_animates s rtc e0 e1 i0 i1 :
  let t := p_terminal_id (pcbs (uk s)).[cur] in
  fish_process 2600 s →
  lookup_file im (text "rtc") = Some rtc → d_type (im_dents im).[rtc] = 0 →
  lookup_file im (text "frame0.txt") = Some e0 → opens (im_dents im).[e0] = Data i0 0 → 0 ≤ i0 < num_inodes im →
  lookup_file im (text "frame1.txt") = Some e1 → opens (im_dents im).[e1] = Data i1 0 → 0 ≤ i1 < num_inodes im →
  let F := frame_blinks (im_files im).[i0] (im_files im).[i1] in
  Forall (λ b, 0 < b_loc b < 2000) F → (length F < 2000)%nat →
  ∃ s', fish E s = Some (s', 0) ∧ kernel_ok (mapped cur vids t) im (uk s') cur ∧
    shown cur s' = (swim F (shown cur s)).2.
Proof using Hdp Htypes HE.
  intros t Hp Hl Hty Hl0 Ho0 Hi0 Hl1 Ho1 Hi1 F HD Hlen.
  pose proof (ko_term _ _ _ _ (pr_ok _ _ _ _ _ _ _ _ _ (fp_process _ _ Hp))) as Ht. fold t in Ht.
  destruct (fish_started 2600 s Hp) as (s2 & -> & Hm & Hr). fold t in Hr.
  destruct (fish_show_spec (ServiceView0 := vview cur (mapped cur vids t) im t)
    (FileService0 := vservice cur dp rate0 before _ im other t Hdp Htypes)
    (VideoService0 := video_service cur dp rate0 before (mapped cur vids t) im other t (mapped_cur cur vids t) Ht Hdp Htypes)
    E HE s2 _ [] rtc e0 e1 i0 i1 Hr Hm eq_refl (le_n 2600) Hl Hty Hl0 Ho0 Hi0 Hl1 Ho1 Hi1 HD Hlen) as (s3 & E3 & Hr3).
  exists s3. split; [exact E3|]. exact (home_shown _ _ _ _ _ _ _ _ _ _ _ Hr3).
Qed.

(** (the fish, no frames). When the first frame is not in the directory, [fish]
    halts with status -1 and has drawn nothing. *)
Theorem fish_without_frames s nt rtc :
  let t := p_terminal_id (pcbs (uk s)).[cur] in
  fish_process nt s →
  lookup_file im (text "rtc") = Some rtc → lookup_file im (text "frame0.txt") = None →
  ∃ s', fish E s = Some (s', -1) ∧ kernel_ok (mapped cur vids t) im (uk s') cur ∧ shown cur s' = shown cur s.
Proof using Hdp Htypes HE.
  intros t Hp Hl Hl0. destruct (fish_started nt s Hp) as (s2 & -> & Hm & Hr). fold t in Hr.
  destruct (fish_show_missing (ServiceView0 := vview cur (mapped cur vids t) im t)
    (FileService0 := vservice cur dp rate0 before _ im other t Hdp Htypes) E HE s2 _ [] rtc Hr Hm (std_lowest _ _ _ _) Hl Hl0)
    as (s3 & E3 & Hr3).
  exists s3. split; [exact E3|]. by apply home_running_inv in Hr3 as [[[[Hk _] _ _ Hv _ _ _] _ _] _].
Qed.
End Run.

(** ** Witnesses

    The demonstration kernel with another image at 0x600000: the clock and two
    small frames. *)

Definition frame_a : list Z := text "ab" ++ [10] ++ text " c".
Definition frame_b : list Z := text "x".

Definition fish_image : fs_image :=
  mk_image [mk_dent nm_dot 1 0; mk_dent nm_rtc 0 0; mk_dent (text "frame0.txt") 2 1; mk_dent (text "frame1.txt") 2 2]
           [[]; frame_a; frame_b].

Definition fish_fs : fs_globals := mk_fs 0x600000 0x606000.

Definition fish_phys : gmap Z Z :=
  flat_of 0x600000 (le4 4 ++ le4 3 ++ le4 2 ++ replicate 52 0 ++ (im_dents fish_image ≫= dent_bytes))
  ∪ flat_of 0x602000 (le4 5 ++ le4 0)
  ∪ flat_of 0x603000 (le4 1 ++ le4 1)
  ∪ flat_of 0x604000 frame_a
  ∪ flat_of 0x605000 frame_b.

Definition fish_mach : mach := (vmem demo_kcon) <| phys := fish_phys ∪ (lit_phys 0x801000 fish_lits ∪ kphys) |>.

Definition fish_kernel : kernel (list (Z * Z)) :=
  (with_mem (prog_kernel fish_lits (replicate 128 0)) fish_mach) <| fs := fish_fs |>.

Definition fish_state (nt : nat) : ustate (list (Z * Z)) := mk_ustate fish_kernel [] (replicate nt EvRTC).

Definition demo_fish : fish_env :=
  mk_fish_env (lit_addr fish_lits) 0x8110000 0x8110010 0x8100000 0x8110020 0x8110030
    0x8110040 0x8110050 0x8110060 0x8110061 0x8110064 0x8110068.

Lemma fish_image_flat : fs_rep (fish_phys ∪ (lit_phys 0x801000 fish_lits ∪ kphys)) fish_fs fish_image.
Proof.
  split;
  [vm_compute; reflexivity || congruence..
  |intros i Hi; change (num_entries fish_image) with 4 in Hi;
   assert (i = 0 ∨ i = 1 ∨ i = 2 ∨ i = 3) as [->|[->|[->| ->]]] by lia;
   (split; [apply name_ok_check; vm_compute; reflexivity
           |apply forall_seqZ; vm_compute; reflexivity
           |vm_compute; reflexivity|vm_compute; reflexivity])
  |intros j Hj; change (num_inodes fish_image) with 3 in Hj;
   assert (j = 0 ∨ j = 1 ∨ j = 2) as [->|[->| ->]] by lia; (apply file_rep_check; vm_compute; reflexivity)
  |intros j Hj; change (num_inodes fish_image) with 3 in Hj;
   assert (j = 0 ∨ j = 1 ∨ j = 2) as [->|[->| ->]] by lia; vm_compute; congruence].
Qed.

Lemma fish_image_types i : 0 ≤ i < num_entries fish_image → 0 ≤ d_type (im_dents fish_image).[i] ≤ 2.
Proof.
  intros Hi. change (num_entries fish_image) with 4 in Hi.
  assert (i = 0 ∨ i = 1 ∨ i = 2 ∨ i = 3) as [->|[->|[->| ->]]] by lia; vm_compute; split; discriminate.
Qed.

Lemma fish_phys_outside b : 0x800000 ≤ b → fish_phys !! b = None.
Proof.
  intros Hb. unfold fish_phys. repeat apply lookup_union_None_2; apply flat_of_outside; right;
    match goal with |- ?a + Z.of_nat ?n ≤ _ => let v := eval vm_compute in n in change n with v end; lia.
Qed.

#[local] Opaque demo_mach kphys fish_phys.

Lemma fish_inv : kbd_inv 0 (λ _, None) (con fish_kernel).
Proof.
  exact (kbd_inv_mem 0 (λ _, None) (con (prog_kernel fish_lits (replicate 128 0))) fish_mach eq_refl
    (ko_kbd _ _ _ _ (prog_ok fish_lits (replicate 128 0) eq_refl))).
Qed.

Lemma fish_mach_ok : mach_ok fish_mach 0 0 (λ _, None).
Proof. exact (ki_mach _ _ _ fish_inv). Qed.

Lemma base_ok : 0x400000 ≤ 0x600000.
Proof. lia. Qed.
Lemma end_ok : 0x606000 ≤ 0x7F4000.
Proof. lia. Qed.

Lemma fish_kernel_ok : kernel_ok (λ _, None) fish_image fish_kernel 0.
Proof.
  destruct (prog_ok fish_lits (replicate 128 0) ltac:(vm_compute; reflexivity)) as [H1 H2 H3 H4 H5 H6 H7 H8].
  split; [exact H1|exact H2|exact fish_inv| |exact base_ok|exact end_ok|exact H7|exact H8].
  apply (fs_rep_ext (fish_phys ∪ (lit_phys 0x801000 fish_lits ∪ kphys))); [|exact fish_image_flat].
  intros a Ha. change (0x600000 ≤ a < 0x606000) in Ha.
  pose proof (mach_space _ _ _ _ fish_mach_ok) as H.
  change (kmem fish_kernel) with fish_mach.
  cbn [rd PagedMem FlatMem]. unfold mach_rd, flat_rd. rewrite (kernel_identity fish_mach (Some 0) None 0 a H) by lia.
  reflexivity.
Qed.

(** User memory is that of the process without the image. *)
Lemma fish_rd nt a :
  0 ≤ a < 0x400000 →
  rd (fish_state nt) (USER_MEM_LOCATION + a) = u8 (default 0 ((lit_phys 0x801000 fish_lits ∪ kphys) !! (0x800000 + a))).
Proof.
  intros Ha. rewrite (user_rd_kernel 0 (λ _, None) fish_image);
    [|exact fish_kernel_ok|unfold user_page, region, USER_MEM_LOCATION; lia].
  change (kmem (uk (fish_state nt))) with fish_mach.
  rewrite (rd_pbyte fish_mach 0 0 _ _ fish_mach_ok).
  - unfold view_cell, USER_MEM_LOCATION, VIDEO. cases_lia.
    replace (0x800000 + 0x400000 * 0 + (128 * 1048576 + a - 128 * 1048576)) with (0x800000 + a) by lia.
    unfold pbyte. change (phys fish_mach) with (fish_phys ∪ (lit_phys 0x801000 fish_lits ∪ kphys)).
    rewrite lookup_union_r by (apply fish_phys_outside; lia). reflexivity.
  - right; right; right. unfold region, USER_MEM_LOCATION. lia.
Qed.

Lemma user_offset a : USER_MEM_LOCATION ≤ a < USER_MEM_LOCATION + 0x400000 → 0 ≤ a - USER_MEM_LOCATION < 0x400000.
Proof. lia. Qed.

Lemma fish_zero nt a :
  0 ≤ a < 0x400000 - 3 →
  (∀ i, i ∈ [0; 1; 2; 3] → (lit_phys 0x801000 fish_lits ∪ kphys) !! (0x800000 + (a + i)) = None) →
  load32 (fish_state nt) (USER_MEM_LOCATION + a) = 0.
Proof.
  intros Ha Hn. unfold load32. rewrite <- !Z.add_assoc.
  pose proof (fish_rd nt a ltac:(lia)) as E0. pose proof (fish_rd nt (a + 1) ltac:(lia)) as E1.
  pose proof (fish_rd nt (a + 2) ltac:(lia)) as E2. pose proof (fish_rd nt (a + 3) ltac:(lia)) as E3.
  pose proof (Hn 0 ltac:(repeat constructor)) as N0. rewrite Z.add_0_r in N0. rewrite N0 in E0. rewrite (Hn 1 ltac:(repeat constructor)) in E1.
  rewrite (Hn 2 ltac:(repeat constructor)) in E2. rewrite (Hn 3 ltac:(repeat constructor)) in E3.
  rewrite E0, E1, E2, E3. reflexivity.
Qed.

Lemma demo_fish_layout : fish_layout demo_fish.
Proof.
  split.
  - intros a (r & Hr & Ha). unfold fish_regions in Hr. rewrite !elem_of_cons, elem_of_nil in Hr.
    destruct_or! Hr; subst; try done; cbn [fst snd fe_array fe_head fe_vmem fe_frame fe_blink fe_fblink fe_c0 fe_c1 fe_ret fe_loc demo_fish] in Ha;
      unfold user_page, region, USER_MEM_LOCATION in *; lia.
  - intros i j r r' Hne Hi Hj.
    assert (∀ (i j : nat), (i < 10)%nat → (j < 10)%nat → i ≠ j →
      let r := nth i (fish_regions demo_fish) (0, 0) in let r' := nth j (fish_regions demo_fish) (0, 0) in
      r.1 + r.2 ≤ r'.1 ∨ r'.1 + r'.2 ≤ r.1) as H.
    { clear. intros i j Hi Hj Hne.
      do 10 (destruct i as [|i]; [do 10 (destruct j as [|j]; [vm_compute; (left; congruence) || (right; congruence) || congruence|]); lia|]). lia. }
    pose proof (lookup_lt_Some _ _ _ Hi) as Li. pose proof (lookup_lt_Some _ _ _ Hj) as Lj.
    specialize (H i j Li Lj Hne). rewrite !(nth_lookup_Some _ _ _ _ Hi), !(nth_lookup_Some _ _ _ _ Hj) in H. exact H.
  - unfold user_page, region, USER_MEM_LOCATION. cbn. lia.
Qed.

Lemma demo_fish_process nt : fish_process 0 (λ _, None) fish_image demo_fish nt (fish_state nt).
Proof.
  assert (∀ b, region 0x8001000 0x1000 b → ¬ owned demo_fish b) as Hap.
  { intros b Hb (r & Hr & Ha). unfold fish_regions in Hr. rewrite !elem_of_cons, elem_of_nil in Hr.
    destruct_or! Hr; subst; try done; cbn [fst snd fe_array fe_head fe_vmem fe_frame fe_blink fe_fblink fe_c0 fe_c1 fe_ret fe_loc demo_fish] in Ha;
      unfold region in *; lia. }
  assert (nt ≤ length (List.filter is_tick (replicate nt EvRTC)))%nat as Hnt.
  { induction nt as [|nt IH]; [done|]. cbn [replicate List.filter is_tick length]. lia. }
  destruct (prog_process fish_lits [] [] (replicate nt EvRTC) (owned demo_fish) [] nt) as [P1 P2 P3 P4 P5 P6 P7];
    [vm_compute; reflexivity|cbn; lia|constructor|exact I|exact Hnt|exact Hap|].
  split.
  - split; [exact fish_kernel_ok|exact P2|exact P3|by left|exact P5| |exact P7].
    intros l Hl. apply (user_string_same (mk_ustate (prog_kernel fish_lits ([] ++ replicate (128 - length (@nil Z)) 0)) [] (replicate nt EvRTC)));
      [|by apply P6].
    intros a Ha _. unfold user_page, region in Ha. replace a with (USER_MEM_LOCATION + (a - USER_MEM_LOCATION)) by lia.
    exact (eq_trans (fish_rd nt _ (user_offset a Ha)) (eq_sym (prog_rd fish_lits _ [] _ _ eq_refl (user_offset a Ha)))).
  - apply (fish_zero nt 0x110010); [lia|]. intros i Hi. rewrite !elem_of_cons, elem_of_nil in Hi.
    destruct_or! Hi; subst; try done; vm_compute; reflexivity.
Qed.

Lemma frames_inside : Forall (λ b, 0 < b_loc b < 2000) (frame_blinks frame_a frame_b).
Proof. apply (bool_decide_unpack _). vm_compute. exact I. Qed.
Lemma frames_few : (length (frame_blinks frame_a frame_b) < 2000)%nat.
Proof. apply Nat.ltb_lt. reflexivity. Qed.

(** The two frames, animated. *)
Lemma fish_animates_witness :
  let s := fish_state 2600 in
  ∃ s', @fish _ _ demo_fish demo_calls s = Some (s', 0) ∧
    kernel_ok (mapped 0 (λ _, None) 0) fish_image (uk s') 0 ∧
    shown 0 s' = (swim (frame_blinks frame_a frame_b) (shown 0 s)).2.
Proof.
  exact (fish_animates 0 0x7FF000 0 (λ _, 0) (λ _, None) fish_image (λ _ s, Some (s, 0)) ltac:(lia) fish_image_types
    demo_fish demo_fish_layout (fish_state 2600) 1 2 3 1 2 (demo_fish_process 2600)
    eq_refl eq_refl eq_refl eq_refl ltac:(vm_compute; split; congruence) eq_refl eq_refl ltac:(vm_compute; split; congruence)
    frames_inside frames_few).
Defined.
