(* ===== verification/FishLoop.v ===== *)
(** * A list that never ends (src/fish)

    mp1_malloc takes an element whose location is 0 for a free one.  A second
    character at location 0 therefore overwrites the first, and becomes its
    own successor: the walk of mp1_rtc_tasklet does not end. *)

From S2P Require Import Prelude Memory Lib Printf User Fish FishProofs.
#[local] Open Scope Z_scope.

Section Loop.
Context {S : Type} `{!ByteMem S}.
Context (P : Z → Prop) (E : fish_env) (p : Z).
Context (HPp : ∀ a, region p 16 a → P a) (HPv : ∀ a, region (fe_vmem E) 4 a → P a).
Context (Hvp : ∀ a, region (fe_vmem E) 4 a → ¬ region p 16 a).
Implicit Types (s : S).

(** The element at [p] is its own successor, and its place on the screen is
    neither in the element nor in the pointer to the screen. *)
Record circular s : Prop := {
  ci_safe : safe s P;
  ci_next : f_next s p = p;
  ci_screen : let a := u32 (load32 s (fe_vmem E) + 2 * f_location s p) in
              P a ∧ ¬ region p 16 a ∧ ¬ region (fe_vmem E) 4 a
}.

(** Writes elsewhere, or to the fields between the characters and the
    successor, keep it so. *)
Lemma circular_written s s' a n f :
  circular s → written P s s' a n f →
  (∀ b, region a n b → ¬ region (fe_vmem E) 4 b ∧ (¬ region p 16 b ∨ region (p + 8) 4 b)) → circular s'.
Proof using All.
  intros [H1 H2 H3] W Ha.
  assert (∀ b, P b → region (fe_vmem E) 4 b ∨ (region p 16 b ∧ ¬ region (p + 8) 4 b) → rd s' b = rd s b) as Hk.
  { intros b Hb Hr. apply (written_out _ _ _ _ _ _ _ W Hb). intros Hin. destruct (Ha b Hin) as [N1 N2]. tauto. }
  assert (load32 s' (fe_vmem E) = load32 s (fe_vmem E)) as Ev.
  { apply load32_ext. intros b Hb. apply Hk; [by apply HPv|by left]. }
  assert (f_location s' p = f_location s p) as El.
  { apply load16_ext. intros b Hb. apply Hk; [apply HPp|right]; unfold region in *; lia. }
  split.
  - by apply (written_safe P s s' a n f).
  - rewrite <- H2 at 2. apply load32_ext. intros b Hb. apply Hk; [apply HPp|right]; unfold region in *; lia.
  - cbv zeta. by rewrite Ev, El.
Qed.

Lemma circular_store16 s a v :
  circular s → region (p + 8) 3 a → circular (store16 s a v).
Proof using All.
  intros Hc Ha. assert (∀ b, region a 2 b → region (p + 8) 4 b) as Hr by (unfold region in *; lia).
  eapply (circular_written s _ a 2).
  - exact Hc.
  - apply store16_written; [apply Hc|]. intros b Hb. apply HPp. specialize (Hr b Hb). unfold region in *. lia.
  - intros b Hb. specialize (Hr b Hb). split; [|by right]. intros Hv. apply (Hvp b Hv). unfold region in *. lia.
Qed.

Lemma circular_poke s c : circular s → circular (mp1_poke E s c (2 * f_location s p)).
Proof using All.
  intros Hc. destruct (ci_screen s Hc) as (H1 & H2 & H3). unfold mp1_poke.
  set (a := u32 _) in *. apply (circular_written s _ a 1 (λ _, u8 c) Hc).
  - split; [apply ctl_wr|]. intros b Hb. rewrite (rd_wr_safe s P) by (done || apply Hc).
    destruct (decide (a = b)) as [->|Hne]; [by rewrite decide_True by lia|by rewrite decide_False by lia].
  - intros b Hb. assert (b = a) as -> by (unfold region in Hb; lia). tauto.
Qed.

Lemma circular_element s : circular s → circular (tasklet_element E s p).
Proof using All.
  intros Hc. unfold tasklet_element.
  assert (circular (set_countdown s p (u16 (f_countdown s p - 1)))) as Hc1
    by (apply circular_store16; [done|unfold region; lia]).
  set (s1 := set_countdown s p _) in *. destruct (s16 (f_countdown s1 p) >? 0); [done|].
  destruct (Z.testbit (f_status s1 p) 0); (apply circular_store16; [|unfold region; lia]);
    (apply circular_store16; [|unfold region; lia]); by apply circular_poke.
Qed.

(** The walk over a list whose head is its own successor does not end. *)
Lemma tasklet_never_ends s :
  circular s → load32 s (fe_head E) = p → p ≠ 0 → mp1_rtc_tasklet E s = None.
Proof using All.
  intros Hc Hh Hp. unfold mp1_rtc_tasklet. rewrite Hh.
  apply (while_diverges _ (λ '(s, q), circular s ∧ q = p)); [|done]. intros [s' q] [Hc' ->].
  rewrite (proj2 (Z.eqb_neq p 0) Hp). eexists. split; [reflexivity|].
  pose proof (circular_element s' Hc') as Hc2. split; [done|]. apply (ci_next _ Hc2).
Qed.
End Loop.

(** ** Two characters at location 0 *)

Definition zero_env : fish_env :=
  mk_fish_env (λ _, 0) 0x100 0x104 0x1000 0x200 0x210 0x220 0x230 0x240 0x241 0x250 0x254.

(** The screen at 0xB8000, an empty list, and a character "a" at location 0. *)
Definition zero_mem : gmap Z Z :=
  set_on_length (set_on_char (store32 ∅ 0x100 0xB8000) 0x220 97) 0x220 10.

Definition add_zero (s : gmap Z Z) : option (gmap Z Z * Z) := mp1_ioctl zero_env s 0x220 RTC_ADD.

Lemma zero_adds_run :
  (match add_zero zero_mem with
   | Some (s1, r1) =>
       match add_zero s1 with
       | Some (s2, r2) =>
           (r1 =? 0) && (r2 =? 0) && (load32 s2 0x100 =? 0xB8000) && (load32 s2 0x104 =? 0x1000) &&
           (f_location s2 0x1000 =? 0) && (f_next s2 0x1000 =? 0x1000)
       | None => false
       end
   | None => false
   end) = true.
Proof. vm_compute. reflexivity. Qed.

(** (location 0). [mp1_ioctl_add] accepts a second character at location 0,
    because mp1_malloc takes the first one for a free element; the next tick
    never returns from the walk over the list. *)
Theorem location_zero_loops :
  ∃ s1 s2, add_zero zero_mem = Some (s1, 0) ∧ add_zero s1 = Some (s2, 0) ∧
    mp1_rtc_tasklet zero_env s2 = None.
Proof.
  pose proof zero_adds_run as H. destruct (add_zero zero_mem) as [[s1 r1]|]; [|discriminate].
  destruct (add_zero s1) as [[s2 r2]|] eqn:E2; [|discriminate].
  rewrite !andb_true_iff, !Z.eqb_eq in H. destruct H as [[[[[-> ->] Hv] Hh] Hl] Hn].
  exists s1, s2. split; [done|]. split; [done|].
  apply (tasklet_never_ends (λ _, True) zero_env 0x1000); [done|done| | |done|done].
  - cbn [fe_vmem zero_env]. unfold region. intros a Ha. lia.
  - split; [apply flat_safe|done|]. cbn [fe_vmem zero_env]. rewrite Hv, Hl.
    change (u32 (0xB8000 + 2 * 0)) with 0xB8000. unfold region. split; [done|]. lia.
Qed.
