(* ===== verification/Emulate.v ===== *)
(** * The emulation of the system calls on Linux (src/syscalls/ece391emulate.c)

    The programs can be linked against a version of the system calls that runs
    them on a Linux host.  What Linux and its C library do is a parameter, the
    class [Host]; the code in between splits commands into arguments, joins
    arguments into a line, and turns directory entries into 32-byte names. *)

From S2P Require Import Prelude Memory Lib Types Filesystem FsProofs Console ConsoleProps Printf.
From S2P Require Import Keyboard TerminalProofs Typing User UserLogic.
Import (notations) Stdlib.Strings.String.
#[local] Open Scope Z_scope.

(** How a child ends. *)
Inductive wait_status := Exited (status : Z) | Killed (signal : Z).

(** Linux: the C library's calls on directories and files, [readdir] with the
    address of [d_name] (or 0), [fork], [execv] and [wait] together, [mmap] of
    the low megabyte, and the instruction INT 0x80 with its result in EAX. *)
Class Host (S : Type) `{!ByteMem S} := {
  h_opendir : S → Z → S * Z;
  h_readdir : S → Z → S * Z;
  h_closedir : S → Z → S;
  h_open : S → Z → Z → S * Z;
  h_close : S → Z → S;
  h_run : S → Z → Z → S * wait_status;
  h_mmap : S → Z → S * Z;
  h_perror : S → Z → S;
  h_int80 : S → Z → Z → Z → Z → S * Z
}.

Record emu_env := mk_emu_env {
  em_str : list Z → Z;    (* the string constants *)
  em_start_esp : Z;       (* start_esp *)
  em_dir : Z;             (* dir *)
  em_dir_fd : Z;          (* dir_fd *)
  em_mem_fd : Z;          (* mem_fd of vidmap *)
  em_buf : Z;             (* [buf] of execute, 1026 bytes *)
  em_args : Z             (* [args] of execute, 1024 pointers *)
}.

Definition O_RDONLY : Z := 0.
Definition O_RDWR : Z := 2.

(** [CMP $0xFFFFC000,%EAX; JBE 1f; MOVL $-1,%EAX] *)
Definition call_result (eax : Z) : Z := if 0xFFFFC000 <? eax then -1 else s32 eax.

(** ** Arguments of the process *)

Section Args.
Context {S : Type} `{!ByteMem S}.
Implicit Types (s : S) (buf : Z).

(** [Some (s, None)]: it returns -1. *)
Definition em_args_step (argc argv : Z) (st : S * Z * Z * Z)
    : (S * Z * Z * Z) + option (S * option (Z * Z)) :=
  let '(s, buf, nbytes, idx) := st in
  if idx <? argc then
    let a := load32 s (argv + 4 * idx) in
    match ece391_strlen s a with
    | None => inr None
    | Some len =>
        let len := s32 len in
        if nbytes <? len then inr (Some (s, None))
        else
          match ece391_strcpy s buf a with
          | None => inr None
          | Some s =>
              let buf := buf + len in
              let nbytes := nbytes - len in
              let idx := idx + 1 in
              if argc <=? idx then inr (Some (s, Some (buf, nbytes)))
              else if nbytes <? 1 then inr (Some (s, None))
              else inl (wr s buf 32, buf + 1, nbytes - 1, idx)
          end
    end
  else inr (Some (s, Some (buf, nbytes))).

Definition em_getargs (E : emu_env) s (buf nbytes : Z) : option (S * Z) :=
  let esp := load32 s (em_start_esp E) in
  r ← while (em_args_step (s32 (load32 s esp)) (esp + 4)) (s, buf, nbytes, 1);
  '(s, e) ← r;
  match e with
  | None => Some (s, -1)
  | Some (buf, nbytes) => if nbytes <? 1 then Some (s, -1) else Some (wr s buf 0, 0)
  end.

(** ** Directory entries *)

(** [inr (s, n)]: the call returns [n]; otherwise the name ended. *)
Definition em_copy_step (nbytes : Z) (st : S * Z * Z * Z)
    : (S * Z * Z * Z) + (S * (Z + Z * Z)) :=
  let '(s, to, from, copied) := st in
  if rd s from =? 0 then inr (s, inr (to, copied))
  else
    let s := wr s to (rd s from) in
    let copied := copied + 1 in
    if copied =? nbytes then inr (s, inl nbytes)
    else if 32 =? copied then inr (s, inl 32)
    else inl (s, to + 1, from + 1, copied).

Definition em_pad_step (nbytes : Z) (st : S * Z * Z) : (S * Z * Z) + (S * Z) :=
  let '(s, to, copied) := st in
  if (copied <? nbytes) && (copied <? 32) then inl (wr s to 0, to + 1, copied + 1)
  else inr (s, copied).

Definition em_entry s (name buf nbytes : Z) : option (S * Z) :=
  '(s, r) ← while (em_copy_step nbytes) (s, buf, name, 0);
  match r with
  | inl n => Some (s, n)
  | inr (to, copied) => while (em_pad_step nbytes) (s, to, copied)
  end.

(** ** Commands *)

Definition em_blanks s (scan : Z) : option Z :=
  while (λ p, if rd s p =? 32 then inl (p + 1) else inr p) scan.

Definition em_word s (scan : Z) : option Z :=
  while (λ p, let c := rd s p in
    if negb (c =? 0) && negb (c =? 32) && negb (c =? 10) then inl (p + 1) else inr p) scan.

(** [while (1)] *)
Definition em_parse_step (args : Z) (st : S * Z * Z) : (S * Z * Z) + option (S * Z) :=
  let '(s, scan, n_arg) := st in
  match em_blanks s scan with
  | None => inr None
  | Some scan =>
      if (rd s scan =? 0) || (rd s scan =? 10) then inr (Some (wr s scan 0, n_arg))
      else
        let s := store32 s (args + 4 * n_arg) scan in
        match em_word s scan with
        | None => inr None
        | Some scan =>
            if rd s scan =? 0 then inl (s, scan, n_arg + 1)
            else inl (wr s scan 0, scan + 1, n_arg + 1)
        end
  end.

(** [buf] and [args] for the command; [None] in the result: it is too long. *)
Definition em_split (E : emu_env) s (command : Z) : option (S * bool) :=
  let buf := em_buf E in
  n ← ece391_strlen s command;
  if 1023 <? n then Some (s, false)
  else
    let s := wr (wr s buf 46) (buf + 1) 47 in
    s ← ece391_strcpy s (buf + 2) command;
    scan ← em_word s (buf + 2);
    let s := store32 s (em_args E) buf in
    '(s, n_arg) ← (if rd s scan =? 0 then Some (s, 1)
                   else r ← while (em_parse_step (em_args E)) (wr s scan 0, scan + 1, 1); r);
    Some (store32 s (em_args E + 4 * n_arg) 0, true).

(** ** The calls *)

Context `{!Host S}.

Definition em_status (status : wait_status) : Z :=
  match status with
  | Exited n => n
  | Killed n => if 9 =? n then -1 else 256
  end.

Definition em_execute (E : emu_env) s (command : Z) : option (S * Z) :=
  '(s, ok) ← em_split E s command;
  if negb ok then Some (s, -1)
  else let (s, status) := h_run s (em_buf E) (em_args E) in Some (s, em_status status).

Definition em_open (E : emu_env) s (filename : Z) : option (S * Z) :=
  r ← ece391_strcmp s filename (em_str E (text "."));
  if r =? 0 then
    let (s, d) := h_opendir s (em_str E (text ".")) in
    let s := store32 s (em_dir E) d in
    let (s, fd) := h_open s (em_str E (text "/dev/null")) O_RDONLY in
    Some (store32 s (em_dir_fd E) (u32 fd), fd)
  else
    let (s, rval) := h_int80 s 5 filename O_RDONLY 0 in Some (s, call_result rval).

(** [NULL == dir || dir_fd != fd] *)
Definition em_plain (E : emu_env) s (fd : Z) : bool :=
  (load32 s (em_dir E) =? 0) || negb (s32 (load32 s (em_dir_fd E)) =? fd).

Definition em_read (E : emu_env) s (fd buf nbytes : Z) : option (S * Z) :=
  if em_plain E s fd then
    let (s, eax) := h_int80 s 3 (u32 fd) buf (u32 nbytes) in Some (s, call_result eax)
  else
    let (s, name) := h_readdir s (load32 s (em_dir E)) in
    if name =? 0 then Some (s, 0) else em_entry s name buf nbytes.

Definition em_write (E : emu_env) s (fd buf nbytes : Z) : S * Z :=
  if em_plain E s fd then
    let (s, eax) := h_int80 s 4 (u32 fd) buf (u32 nbytes) in (s, call_result eax)
  else (s, -1).

Definition em_close (E : emu_env) s (fd : Z) : S * Z :=
  if em_plain E s fd then
    let (s, eax) := h_int80 s 6 (u32 fd) 0 0 in (s, call_result eax)
  else
    let s := store32 (h_closedir s (load32 s (em_dir E))) (em_dir E) 0 in
    let s := h_close s (s32 (load32 s (em_dir_fd E))) in
    (store32 s (em_dir_fd E) 0xFFFFFFFF, 0).

Definition em_vidmap (E : emu_env) s (screen_start : Z) : S * Z :=
  let s := if load32 s (em_mem_fd E) =? 0xFFFFFFFF then
             let (s, fd) := h_open s (em_str E (text "/dev/mem")) O_RDWR in store32 s (em_mem_fd E) (u32 fd)
           else s in
  let (s, mem_image) := h_mmap s (s32 (load32 s (em_mem_fd E))) in
  if mem_image =? 0xFFFFFFFF then (h_perror s (em_str E (text "mmap low memory")), -1)
  else (store32 s screen_start (u32 (mem_image + 0xB8000)), 0).
End Args.
