(* ===== verification/EmulateProofs.v ===== *)
(** * The emulation's arguments, directory names and commands are right

    Theorems about [Emulate]: the argument line of a process, the names of a
    directory, and the words of a command. *)

From S2P Require Import Prelude Memory Lib Types Filesystem FsProofs Console ConsoleProps Printf.
From S2P Require Import Keyboard TerminalProofs Typing User UserLogic Emulate.
Import (notations) Stdlib.Strings.String.
#[local] Open Scope Z_scope.

(** Words with one space between them. *)
Fixpoint spaced (ws : list (list Z)) : list Z :=
  match ws with
  | [] => []
  | [w] => w
  | w :: ws => w ++ 32 :: spaced ws
  end.

Lemma spaced_cons w v ws : spaced (w :: v :: ws) = w ++ 32 :: spaced (v :: ws).
Proof. done. Qed.

Abbreviation zlen l := (Z.of_nat (length l)).

Lemma spaced_length w v ws : zlen (spaced (w :: v :: ws)) = zlen w + 1 + zlen (spaced (v :: ws)).
Proof. rewrite spaced_cons, length_app. cbn [length]. lia. Qed.

Lemma spaced_nz ws : Forall (Forall (λ c, c ≠ 0)) ws → Forall (λ c, c ≠ 0) (spaced ws).
Proof.
  induction 1 as [|w ws Hw Hws IH]; [done|]. destruct ws as [|v ws]; [done|].
  rewrite spaced_cons. apply Forall_app. split; [done|]. by constructor.
Qed.

(** The blanks that start a text, and the word that starts it. *)
Fixpoint blanks (l : list Z) : list Z :=
  match l with [] => [] | c :: l => if c =? 32 then c :: blanks l else [] end.

Fixpoint word (l : list Z) : list Z :=
  match l with [] => [] | c :: l => if (c =? 32) || (c =? 10) then [] else c :: word l end.

(** The words of a text, the first of them after [cur] if there is one: spaces
    separate them, a newline behind a word is a separator too, and a newline
    where a word should start ends the list. *)
Fixpoint words (cur : option (list Z)) (l : list Z) : list (list Z) :=
  match cur, l with
  | None, [] => []
  | Some w, [] => [w]
  | None, c :: l => if c =? 32 then words None l else if c =? 10 then [] else words (Some [c]) l
  | Some w, c :: l => if (c =? 32) || (c =? 10) then w :: words None l else words (Some (w ++ [c])) l
  end.

Lemma words_blanks l r : r = drop (length (blanks l)) l →
  words None l = match r with [] => [] | c :: _ => if c =? 10 then [] else words (Some []) r end.
Proof.
  intros ->. induction l as [|c l IH]; [done|]. cbn [words blanks].
  destruct (Z.eqb_spec c 32) as [->|Hne]; [by rewrite IH|]. cbn.
  destruct (c =? 10); [done|]. by rewrite (proj2 (Z.eqb_neq c 32) Hne).
Qed.

Lemma words_word l : ∀ w,
  words (Some w) l = (w ++ word l) :: match drop (length (word l)) l with [] => [] | _ :: r => words None r end.
Proof.
  induction l as [|c l IH]; intros w; cbn [words word]; [by rewrite app_nil_r|].
  destruct ((c =? 32) || (c =? 10)); cbn [length drop]; [by rewrite app_nil_r|].
  rewrite IH. by rewrite <- app_assoc.
Qed.

Lemma blanks_drop l c r : drop (length (blanks l)) l = c :: r → c ≠ 32.
Proof.
  induction l as [|x l IH]; [done|]. cbn [blanks]. destruct (Z.eqb_spec x 32); [apply IH|]. by intros [= -> ->].
Qed.

Lemma blanks_prefix l : l = blanks l ++ drop (length (blanks l)) l.
Proof.
  induction l as [|c l IH]; [done|]. cbn [blanks]. destruct (c =? 32); [|done].
  cbn. by rewrite <- IH.
Qed.

Lemma word_prefix l : l = word l ++ drop (length (word l)) l.
Proof.
  induction l as [|c l IH]; [done|]. cbn [word]. destruct ((c =? 32) || (c =? 10)); [done|].
  cbn. by rewrite <- IH.
Qed.

Lemma words_bound l : (2 * length (words None l) ≤ length l + 1)%nat ∧
  ∀ w, (2 * length (words (Some w) l) ≤ length l + 2)%nat.
Proof.
  induction l as [|c l [IH1 IH2]]; [split; [|intros w]; cbn; lia|]. cbn [words length]. split.
  - destruct (c =? 32); [lia|]. destruct (c =? 10); [cbn; lia|]. specialize (IH2 [c]). lia.
  - intros w. destruct ((c =? 32) || (c =? 10)); [cbn [length]; lia|]. specialize (IH2 (w ++ [c])). lia.
Qed.

(** Words joined by spaces are found again. *)
Definition proper_word (w : list Z) : Prop := w ≠ [] ∧ Forall (λ c, c ≠ 32 ∧ c ≠ 10) w.

Lemma words_in w l : Forall (λ c, c ≠ 32 ∧ c ≠ 10) w → ∀ v, words (Some v) (w ++ l) = words (Some (v ++ w)) l.
Proof.
  induction 1 as [|c w [H1 H2] _ IH]; intros v; [by rewrite app_nil_r|]. cbn [app words].
  rewrite (proj2 (Z.eqb_neq c 32) H1), (proj2 (Z.eqb_neq c 10) H2). cbn [orb].
  by rewrite IH, <- app_assoc.
Qed.

Lemma words_spaced w ws v :
  Forall proper_word (w :: ws) → words (Some v) (spaced (w :: ws)) = (v ++ w) :: ws.
Proof.
  revert w v. induction ws as [|x ws IH]; intros w v H; apply Forall_cons_1 in H as [[Hne Hw] H].
  { cbn [spaced]. rewrite <- (app_nil_r w) at 1. by rewrite words_in. }
  rewrite spaced_cons, words_in by done. cbn [words]. replace ((32 =? 32) || (32 =? 10)) with true by done.
  f_equal. etransitivity; [|exact (IH x [] H)]. apply Forall_cons_1 in H as [[Hx Hx2] _].
  destruct x as [|c x]; [done|]. apply Forall_cons_1 in Hx2 as [[H1 H2] _].
  assert (∃ r, spaced ((c :: x) :: ws) = c :: r) as [r ->] by (destruct ws; by eexists).
  cbn [words]. by rewrite (proj2 (Z.eqb_neq c 32) H1), (proj2 (Z.eqb_neq c 10) H2).
Qed.

(** What the parser finds next. *)
Lemma next_end l : words None l = [] → ∃ r, l = blanks l ++ r ∧ (r = [] ∨ ∃ r', r = 10 :: r').
Proof.
  intros Hw. exists (drop (length (blanks l)) l). split; [apply blanks_prefix|].
  rewrite (words_blanks l _ eq_refl) in Hw. destruct (drop _ l) as [|c r]; [by left|right].
  destruct (Z.eqb_spec c 10) as [->|]; [by eexists|]. by rewrite words_word in Hw.
Qed.

Lemma next_word l :
  words None l = [] ∨
  ∃ w r, l = blanks l ++ w ++ r ∧ w ≠ [] ∧ w = word (w ++ r) ∧
         words None l = w :: words None (match r with [] => [] | _ :: t => t end).
Proof.
  rewrite (words_blanks l _ eq_refl). pose proof (blanks_prefix l) as El.
  destruct (drop (length (blanks l)) l) as [|c r] eqn:E; [by left|].
  pose proof (blanks_drop l c r E) as Hc32. destruct (Z.eqb_spec c 10) as [->|Hc10]; [by left|right].
  exists (word (c :: r)), (drop (length (word (c :: r))) (c :: r)). rewrite <- word_prefix.
  split; [done|]. split.
  - cbn [word]. by rewrite (proj2 (Z.eqb_neq c 32)), (proj2 (Z.eqb_neq c 10)).
  - split; [done|]. rewrite words_word. cbn [app].
    destruct (drop (length (word (c :: r))) (c :: r)); reflexivity.
Qed.

Lemma run_S {T R : Type} (f : T → T + R) n x :
  run f (Datatypes.S n) x = match f x with inl x => run f n x | inr r => inr r end.
Proof. done. Qed.

Section Proofs.
Context {S : Type} `{!ByteMem S}.
Implicit Types (s : S) (a b n buf nbytes : Z) (l w : list Z) (ws : list (list Z)) (P A : Z → Prop).

(** Nothing but [A] changes. *)
Definition kept P A s s' : Prop := ctl s' = ctl s ∧ ∀ b, P b → ¬ A b → rd s' b = rd s b.

Lemma kept_refl P A s : kept P A s s.
Proof. by split. Qed.

Lemma kept_trans P A1 A2 A s1 s2 s3 :
  (∀ b, A1 b → A b) → (∀ b, A2 b → A b) → kept P A1 s1 s2 → kept P A2 s2 s3 → kept P A s1 s3.
Proof.
  intros H1 H2 [C1 K1] [C2 K2]. split; [congruence|]. intros b Hb HA.
  rewrite K2, K1 by auto. done.
Qed.

Lemma em_kept_safe P A s s' : kept P A s s' → safe s P → safe s' P.
Proof. intros [C _]. by apply safe_cells. Qed.

Lemma kept_wr P A s a v : safe s P → P a → A a → kept P A s (wr s a v).
Proof.
  intros Hs HP HA. split; [apply ctl_wr|]. intros b Hb Hn.
  rewrite (rd_wr_safe s P) by done. by case_decide; subst.
Qed.

Lemma written_kept P A s s' d n f : written P s s' d n f → (∀ b, region d n b → A b) → kept P A s s'.
Proof.
  intros W HA. split; [apply W|]. intros b Hb Hn. apply (written_out _ _ _ _ _ _ _ W Hb).
  intros Hr. by apply Hn, HA.
Qed.

Lemma kept_store32 P A s a v :
  safe s P → (∀ b, region a 4 b → P b) → (∀ b, region a 4 b → A b) → kept P A s (store32 s a v).
Proof. intros Hs HP. apply written_kept with (1 := store32_written P s a v Hs HP). Qed.

Lemma kept_load32 P A s s' a :
  kept P A s s' → (∀ b, region a 4 b → P b ∧ ¬ A b) → load32 s' a = load32 s a.
Proof. intros [_ K] H. apply load32_ext. intros b Hb. by apply K; apply H. Qed.

Lemma kept_text P A s s' a l :
  kept P A s s' → (∀ b, region a (zlen l + 1) b → P b ∧ ¬ A b) → text_at s a l → text_at s' a l.
Proof.
  intros [_ K] H Ht. apply text_at_intro.
  - intros i Hi. destruct (text_at_get s a l i Ht ltac:(lia)) as [R Z0].
    rewrite K by (apply H; unfold region; lia). split; [done|]. intros E. apply Z0 in E. lia.
  - rewrite K by (apply H; unfold region; lia). apply Ht.
Qed.

Lemma text_nz s a l : text_at s a l → Forall (λ c, c ≠ 0) l.
Proof.
  intros Ht. apply Forall_lookup. intros i x Hx. pose proof (lookup_lt_Some _ _ _ Hx).
  rewrite lookup_aget in Hx by done. apply (inj Some) in Hx as <-. intros E.
  apply (text_at_get s a l _ Ht) in E; lia.
Qed.

(** ** The argument line *)

(** The pointers from [p] on point to the words, all of it within [A]. *)
Fixpoint arg_ptrs A s (p : Z) ws : Prop :=
  match ws with
  | [] => True
  | w :: ws =>
      (∀ b, region p 4 b → A b) ∧ text_at s (load32 s p) w ∧
      (∀ b, region (load32 s p) (zlen w + 1) b → A b) ∧
      load32 s p + zlen w < 4294967295 ∧ zlen w < 2147483648 ∧ arg_ptrs A s (p + 4) ws
  end.

Lemma arg_ptrs_kept P A B s s' ws : ∀ p,
  kept P B s s' → (∀ b, A b → P b ∧ ¬ B b) → arg_ptrs A s p ws → arg_ptrs A s' p ws.
Proof.
  induction ws as [|w ws IH]; [done|]. intros p K H (H1 & H2 & H3 & H4 & H5 & H6). cbn.
  assert (load32 s' p = load32 s p) as -> by (apply (kept_load32 P B _ _ _ K); auto).
  split; [done|]. split; [apply (kept_text P B s); auto|]. split; [done|]. split; [done|]. split; [done|].
  by apply IH.
Qed.

Lemma arg_ptrs_sub A B s ws : ∀ p, (∀ b, A b → B b) → arg_ptrs A s p ws → arg_ptrs B s p ws.
Proof.
  induction ws as [|w ws IH]; [done|]. intros p H (H1 & H2 & H3 & H4 & H5 & H6).
  split; [auto|]. split; [done|]. split; [auto|]. split; [done|]. split; [done|]. by apply IH.
Qed.

Lemma arg_ptrs_nz A s ws : ∀ p, arg_ptrs A s p ws → Forall (Forall (λ c, c ≠ 0)) ws.
Proof.
  induction ws as [|w ws IH]; [done|]. intros p (_ & H & _ & _ & _ & Hp).
  constructor; [by apply (text_nz _ _ _ H)|by apply (IH (p + 4))].
Qed.

(** One round of the loop: a word that does not fit, and a word that does. *)
Lemma em_args_refused P A argc argv w ws s buf nbytes idx :
  0 ≤ nbytes < zlen w → idx < argc → arg_ptrs A s (argv + 4 * idx) (w :: ws) →
  em_args_step argc argv (s, buf, nbytes, idx) = inr (Some (s, None)).
Proof.
  intros Hn Hi (_ & H2 & _ & H4 & H5 & _). pose proof (load32_range s (argv + 4 * idx)).
  unfold em_args_step. rewrite (proj2 (Z.ltb_lt idx argc)) by lia.
  rewrite (ece391_strlen_spec s _ (zlen w)) by (apply H2 || lia). cbv zeta.
  by rewrite s32_small, (proj2 (Z.ltb_lt _ _)) by lia.
Qed.

Lemma em_args_copy P A argc argv w ws s buf nbytes idx :
  safe s P → (∀ b, region buf (nbytes + 1) b → P b ∧ ¬ A b) → (∀ b, A b → P b) →
  zlen w ≤ nbytes < 2147483648 → 0 ≤ buf → buf + nbytes < 4294967295 → idx < argc →
  arg_ptrs A s (argv + 4 * idx) (w :: ws) →
  ∃ s1, em_args_step argc argv (s, buf, nbytes, idx) =
      (if argc <=? idx + 1 then inr (Some (s1, Some (buf + zlen w, nbytes - zlen w)))
       else if nbytes - zlen w <? 1 then inr (Some (s1, None))
       else inl (wr s1 (buf + zlen w) 32, buf + zlen w + 1, nbytes - zlen w - 1, idx + 1)) ∧
    kept P (region buf (nbytes + 1)) s s1 ∧ ∀ i, 0 ≤ i ≤ zlen w → rd s1 (buf + i) = w.[i].
Proof.
  intros Hs HB HA Hn Hb0 Hb1 Hi (H1 & H2 & H3 & H4 & H5 & _). set (a := load32 s (argv + 4 * idx)) in *.
  pose proof (load32_range s (argv + 4 * idx)) as Ha. fold a in Ha.
  destruct (ece391_strcpy_spec P (λ _, True) s buf a w) as (s1 & E1 & W & _); try done; try lia.
  { intros b Hb. apply HA, H3, Hb. }
  { intros b Hb. apply HB. unfold region in *. lia. }
  { destruct (decide (a < buf ≤ a + zlen w)) as [Hd|]; [|lia]. exfalso.
    apply (HB buf); [unfold region; lia|]. apply H3. unfold region; lia. }
  exists s1. split; [|split].
  - unfold em_args_step. rewrite (proj2 (Z.ltb_lt idx argc)) by lia. fold a.
    rewrite (ece391_strlen_spec s a (zlen w)) by (apply H2 || lia).
    cbv zeta. by rewrite s32_small, (proj2 (Z.ltb_ge _ _)), E1 by lia.
  - apply (written_kept _ _ _ _ _ _ _ W). unfold region. lia.
  - intros i Hw. rewrite (written_in _ _ _ _ _ _ _ W) by (lia || (apply HB; unfold region; lia)).
    f_equal. lia.
Qed.

(** The line so far, with the rest behind it. *)
Lemma em_args_glue P s1 s' buf nbytes w r :
  safe s1 P → (∀ b, region buf (nbytes + 1) b → P b) → zlen w + 1 ≤ nbytes →
  (∀ i, 0 ≤ i ≤ zlen w → rd s1 (buf + i) = w.[i]) →
  kept P (region (buf + zlen w + 1) (nbytes - zlen w)) (wr s1 (buf + zlen w) 32) s' →
  (∀ i, 0 ≤ i < zlen r → rd s' (buf + zlen w + 1 + i) = r.[i]) →
  ∀ i, 0 ≤ i < zlen w + 1 + zlen r → rd s' (buf + i) = (w ++ 32 :: r).[i].
Proof.
  intros Hs HB Hn R1 [_ K'] R' i Hi. destruct (decide (i < zlen w + 1)) as [Hlt|].
  - rewrite K' by (first [apply HB|idtac]; unfold region; lia).
    rewrite (rd_wr_safe s1 P) by (first [done|apply HB; unfold region; lia]). case_decide as Hd.
    + rewrite aget_app_r by lia. by replace (i - zlen w) with 0 by lia.
    + rewrite aget_app_l by lia. apply R1. lia.
  - replace (w ++ 32 :: r) with ((w ++ [32]) ++ r) by by rewrite <- app_assoc.
    rewrite aget_app_r by (rewrite length_app; cbn [length]; lia).
    replace (buf + i) with (buf + zlen w + 1 + (i - zlen w - 1)) by lia.
    rewrite length_app. cbn [length] in *. destruct (decide (i - zlen w - 1 < zlen r)); [|lia].
    rewrite R' by lia. f_equal. lia.
Qed.

Lemma em_args_run P A argc argv : ∀ ws s buf nbytes idx,
  safe s P → (∀ b, region buf (nbytes + 1) b → P b ∧ ¬ A b) → (∀ b, A b → P b) →
  0 ≤ nbytes < 2147483648 → 0 ≤ buf → buf + nbytes < 4294967295 →
  idx + zlen ws = argc → arg_ptrs A s (argv + 4 * idx) ws →
  ∃ s', run (em_args_step argc argv) (Datatypes.S (length ws)) (s, buf, nbytes, idx)
        = inr (Some (s', if zlen (spaced ws) <=? nbytes
                         then Some (buf + zlen (spaced ws), nbytes - zlen (spaced ws)) else None)) ∧
    kept P (region buf (nbytes + 1)) s s' ∧
    (zlen (spaced ws) ≤ nbytes → ∀ i, 0 ≤ i < zlen (spaced ws) → rd s' (buf + i) = (spaced ws).[i]) ∧
    (ws ≠ [] → zlen (spaced ws) = nbytes → rd s' (buf + nbytes) = 0).
Proof.
  induction ws as [|w ws IH]; intros s buf nbytes idx Hs HB HA Hn Hb0 Hb1 Hi Hp.
  { exists s. cbn [length run em_args_step spaced] in *. rewrite (proj2 (Z.ltb_ge idx argc)) by lia.
    rewrite (proj2 (Z.leb_le _ _)), Z.add_0_r, Z.sub_0_r by lia.
    split; [done|]. split; [apply kept_refl|]. split; [intros; lia|done]. }
  cbn [length] in Hi. rewrite run_S.
  assert (zlen w ≤ zlen (spaced (w :: ws))) as Hlen.
  { destruct ws as [|v ws]; [done|]. rewrite spaced_length. lia. }
  destruct (Z.ltb_spec nbytes (zlen w)) as [Hlt|Hge].
  { exists s. rewrite (em_args_refused P A argc argv w ws), (proj2 (Z.leb_gt _ _)) by (done || lia).
    split; [done|]. split; [apply kept_refl|]. split; intros; lia. }
  destruct (em_args_copy P A argc argv w ws s buf nbytes idx) as (s1 & -> & K1 & R1); try done; try lia.
  destruct ws as [|v ws].
  { cbn [length spaced] in *. rewrite (proj2 (Z.leb_le argc _)), (proj2 (Z.leb_le (zlen w) nbytes)) by lia.
    exists s1. split; [done|]. split; [done|]. split; [intros _ i Hw; apply R1; lia|].
    intros _ <-. rewrite R1 by lia. by apply aget_past. }
  cbn [length] in Hi. rewrite (proj2 (Z.leb_gt argc _)) by lia.
  rewrite spaced_length in Hlen |- *.
  destruct (Z.ltb_spec (nbytes - zlen w) 1) as [Hlt|Hge1].
  { exists s1. rewrite (proj2 (Z.leb_gt _ _)) by lia. split; [done|]. split; [done|]. split; intros; lia. }
  assert (kept P (region buf (nbytes + 1)) s1 (wr s1 (buf + zlen w) 32)) as K2.
  { apply kept_wr; [by apply (em_kept_safe _ _ _ _ K1)|apply HB|]; unfold region; lia. }
  pose proof (kept_trans P _ _ _ _ _ _ (λ _ H, H) (λ _ H, H) K1 K2) as K12.
  destruct (IH (wr s1 (buf + zlen w) 32) (buf + zlen w + 1) (nbytes - zlen w - 1) (idx + 1))
    as (s' & E' & K' & R' & B'); try done; try lia.
  { by apply (em_kept_safe _ _ _ _ K12). }
  { intros b Hb. apply HB. unfold region in *. lia. }
  { cbn [length]. lia. }
  { replace (argv + 4 * (idx + 1)) with (argv + 4 * idx + 4) by lia.
    apply (arg_ptrs_kept P A _ s _ _ _ K12); [|apply Hp]. intros b Hb. split; [by apply HA|].
    intros Hr. by apply (HB b). }
  exists s'. change (length (w :: v :: ws)) with (Datatypes.S (length (v :: ws))). rewrite E'. clear E'.
  split; [|split; [|split]].
  - do 3 f_equal. destruct (Z.leb_spec (zlen (spaced (v :: ws))) (nbytes - zlen w - 1)).
    + rewrite (proj2 (Z.leb_le _ _)) by lia. do 2 f_equal; lia.
    + by rewrite (proj2 (Z.leb_gt _ _)) by lia.
  - apply (kept_trans _ _ _ _ _ _ _ (λ _ H, H)) with (2 := K12) (3 := K'). unfold region. lia.
  - intros HL. rewrite spaced_cons.
    apply (em_args_glue P s1 _ _ nbytes); [by apply (em_kept_safe _ _ _ _ K1)|intros b Hb; by apply HB|lia|done| |].
    + by replace (nbytes - zlen w) with (nbytes - zlen w - 1 + 1) by lia.
    + intros i Hi'. apply R'; lia.
  - intros _ HL. replace (buf + nbytes) with (buf + zlen w + 1 + (nbytes - zlen w - 1)) by lia.
    apply B'; [done|lia].
Qed.

(** C16 (emulated arguments). On Linux, where the arguments of a process lie on its
    stack, [ece391_getargs] gives the program the line the kernel would give
    it: the words with one space between them and a NUL, if that fits into
    the buffer, and -1 if it does not; a line of exactly [nbytes] characters
    is refused only after its NUL was stored behind the buffer. *)
Theorem emulated_arguments P A (E : emu_env) s buf nbytes ws :
  let esp := load32 s (em_start_esp E) in
  let line := spaced ws in
  safe s P → (∀ b, region buf (nbytes + 1) b → P b ∧ ¬ A b) → (∀ b, A b → P b) →
  0 ≤ nbytes < 2147483648 → 0 ≤ buf → buf + nbytes < 4294967295 →
  load32 s esp = 1 + zlen ws → zlen ws < 2147483647 → arg_ptrs A s (esp + 8) ws →
  ∃ s', em_getargs E s buf nbytes = Some (s', if zlen line <? nbytes then 0 else -1) ∧
    kept P (region buf (nbytes + 1)) s s' ∧
    (zlen line < nbytes → text_at s' buf line) ∧
    (zlen line = nbytes → ws ≠ [] → rd s' (buf + nbytes) = 0).
Proof.
  cbv zeta. intros Hs HB HA Hn Hb0 Hb1 Hargc Hws Hp. unfold em_getargs.
  set (esp := load32 s (em_start_esp E)) in *. rewrite Hargc, s32_small by lia.
  destruct (em_args_run P A (1 + zlen ws) (esp + 4) ws s buf nbytes 1) as (s1 & E1 & K & R & B);
    try done; try lia.
  { by replace (esp + 4 + 4 * 1) with (esp + 8) by lia. }
  rewrite (while_run _ _ _ _ E1), !bind_some by lia. set (L := zlen (spaced ws)) in *.
  destruct (Z.leb_spec L nbytes) as [HL|HL].
  - destruct (Z.ltb_spec (nbytes - L) 1) as [Hlt|Hlt].
    + exists s1. rewrite (proj2 (Z.ltb_ge _ _)) by lia. split; [done|]. split; [done|].
      split; [intros; lia|]. intros HLn Hne. by apply B.
    + assert (safe s1 P) as Hs1 by (by apply (em_kept_safe _ _ _ _ K)).
      exists (wr s1 (buf + L) 0). rewrite (proj2 (Z.ltb_lt L _)) by lia. split; [done|]. split.
      { apply (kept_trans P (region buf (nbytes + 1)) (region buf (nbytes + 1)) _ _ s1); try done.
        apply kept_wr; [done|apply HB|]; unfold region; lia. }
      split; [|intros; lia]. intros _. apply text_at_intro.
      * intros i Hi. rewrite (rd_wr_safe s1 P) by (first [done|apply HB; unfold region; lia]).
        rewrite decide_False by lia. rewrite R by lia. split; [done|].
        apply Forall_aget_nz; [|lia]. by apply spaced_nz, (arg_ptrs_nz A s ws (esp + 8)).
      * rewrite (rd_wr_safe s1 P) by (first [done|apply HB; unfold region; lia]).
        by rewrite decide_True.
  - exists s1. rewrite (proj2 (Z.ltb_ge _ _)) by lia. split; [done|]. split; [done|]. split; intros; lia.
Qed.

(** ** The names of a directory *)

(** The two loops: the name up to its NUL or the limit, then the padding. *)
Lemma em_copy_loop P s name buf nbytes l :
  let N := if 0 <? nbytes then Z.min nbytes 32 else 32 in
  safe s P → text_at s name l → (∀ b, region name (zlen l + 1) b → P b ∧ ¬ region buf (Z.min (zlen l) N) b) →
  (∀ b, region buf (Z.min (zlen l) N) b → P b) →
  ∃ s', while (em_copy_step nbytes) (s, buf, name, 0) =
        Some (s', if zlen l <? N then inr (buf + zlen l, zlen l) else inl N) ∧
    written P s s' buf (Z.min (zlen l) N) (λ i, l.[i]).
Proof.
  intros N Hs Ht HN HB. assert (0 < N ≤ 32 ∧ (N = nbytes ∨ N = 32 ∧ ¬ 0 < nbytes < 32)) as HNr
    by (unfold N; destruct (Z.ltb_spec 0 nbytes); lia).
  clearbody N. destruct (while_total (em_copy_step nbytes)
    (λ '(s', to, from, i), to = buf + i ∧ from = name + i ∧ 0 ≤ i ≤ zlen l ∧ i < N ∧
       written P s s' buf i (λ i, l.[i]))
    (λ '(_, _, _, i), N - i)
    (λ '(s', r), r = (if zlen l <? N then inr (buf + zlen l, zlen l) else inl N) ∧
       written P s s' buf (Z.min (zlen l) N) (λ i, l.[i]))
    (s, buf, name, 0)) as ([s1 r] & E1 & -> & W1).
  - intros [[[s' to] from] i] H. lia.
  - intros [[[s' to] from] i] (-> & -> & Hi & HiN & W). unfold em_copy_step.
    destruct (text_at_get s name l i Ht Hi) as [R Z0].
    assert (rd s' (name + i) = l.[i]) as ->.
    { destruct (HN (name + i)) as [HP Hn]; [unfold region; lia|].
      rewrite (written_out _ _ _ _ _ _ _ W) by (done || (unfold region in Hn; lia)). done. }
    destruct (Z.eqb_spec l.[i] 0) as [E0|Hn0].
    { apply Z0 in E0 as ->. rewrite (proj2 (Z.ltb_lt _ _)), Z.min_l by lia. done. }
    assert (i ≠ zlen l) as Hne by tauto. cbv zeta.
    assert (written P s (wr s' (buf + i) l.[i]) buf (i + 1) (λ i, l.[i])) as W'.
    { apply written_snoc; [done| |lia|done|apply u8_small; rewrite <- R; apply rd_range].
      intros b Hb. apply HB. unfold region in *. lia. }
    destruct (Z.eqb_spec (i + 1) nbytes) as [En|Hn1].
    { assert (N = i + 1) as -> by lia. rewrite (proj2 (Z.ltb_ge _ _)), Z.min_r, En by lia.
      by rewrite En in W'. }
    destruct (Z.eqb_spec 32 (i + 1)) as [E32|Hn32].
    { assert (N = 32) as -> by lia. rewrite (proj2 (Z.ltb_ge _ _)), Z.min_r by lia. by rewrite <- E32 in W'. }
    split; [|lia]. by split_and!; try lia.
  - split_and!; try lia. by apply written_0.
  - lia.
  - by exists s1.
Qed.

Lemma em_pad_loop P s s1 buf nbytes l k :
  safe s P → (∀ b, region buf k b → P b) → k = (if 0 <? nbytes then Z.min nbytes 32 else zlen l) →
  zlen l ≤ k ≤ 32 → written P s s1 buf (zlen l) (λ i, l.[i]) →
  ∃ s', while (em_pad_step nbytes) (s1, buf + zlen l, zlen l) = Some (s', k) ∧
        written P s s' buf k (λ i, l.[i]).
Proof.
  intros Hs HB Ek Hk W. destruct (while_total (em_pad_step nbytes)
    (λ '(s', to, i), to = buf + i ∧ zlen l ≤ i ≤ k ∧ written P s s' buf i (λ i, l.[i]))
    (λ '(_, _, i), k - i) (λ '(s', n), n = k ∧ written P s s' buf k (λ i, l.[i])) (s1, buf + zlen l, zlen l))
    as ([s2 n] & E2 & -> & W2).
  - intros [[s' to] i] H. lia.
  - intros [[s' to] i] (-> & Hi & Wi). unfold em_pad_step.
    destruct (decide (i < nbytes ∧ i < 32)) as [[Hn H32]|Hn].
    + rewrite (proj2 (Z.ltb_lt i nbytes)), (proj2 (Z.ltb_lt i 32)) by done. cbn [andb].
      assert (i < k) by (rewrite Ek, (proj2 (Z.ltb_lt 0 nbytes)) by lia; lia).
      split; [|lia]. split; [lia|]. split; [lia|]. apply written_snoc; [done| |lia|done|by rewrite aget_past by lia].
      intros b Hb. apply HB. unfold region in *. lia.
    + replace ((i <? nbytes) && (i <? 32)) with false
        by (destruct (Z.ltb_spec i nbytes), (Z.ltb_spec i 32); cbn; lia || done).
      assert (i = k) as -> by (destruct (Z.ltb_spec 0 nbytes); lia). done.
  - split; [done|]. split; [lia|done].
  - lia.
  - by exists s2.
Qed.

Lemma em_entry_spec P s name buf nbytes l :
  let k := if 0 <? nbytes then Z.min nbytes 32 else Z.min (zlen l) 32 in
  safe s P → text_at s name l → (∀ b, region name (zlen l + 1) b → P b ∧ ¬ region buf k b) →
  (∀ b, region buf k b → P b) →
  ∃ s', em_entry s name buf nbytes = Some (s', k) ∧ written P s s' buf k (λ i, l.[i]).
Proof.
  intros k Hs Ht HN HB. unfold em_entry.
  set (N := if 0 <? nbytes then Z.min nbytes 32 else 32).
  assert (0 ≤ k ≤ 32 ∧ Z.min (zlen l) N ≤ k) as Hk by (unfold k, N; destruct (Z.ltb_spec 0 nbytes); lia).
  destruct (em_copy_loop P s name buf nbytes l) as (s1 & -> & W); [done|done| | |].
  { intros b Hb. destruct (HN b Hb) as [HP Hn]. split; [done|]. intros Hr. apply Hn. fold N in Hr.
    unfold region in *. lia. }
  { intros b Hb. apply HB. fold N in Hb. unfold region in *. lia. }
  fold N in W |- *. rewrite bind_some. destruct (Z.ltb_spec (zlen l) N) as [Hlt|Hge].
  - rewrite Z.min_l in W by lia. apply (em_pad_loop P s); [done|done| |lia|done].
    unfold k, N in *. destruct (Z.ltb_spec 0 nbytes); lia.
  - assert (N = k) as EN by (unfold k, N in *; destruct (Z.ltb_spec 0 nbytes); lia).
    rewrite Z.min_r, EN in W by lia. exists s1. by rewrite EN.
Qed.

(** ** Commands *)

Lemma text_app s a l1 l2 : text_at s a (l1 ++ l2) → text_at s (a + zlen l1) l2.
Proof.
  intros Ht. assert (∀ i, 0 ≤ i ≤ zlen l2 → rd s (a + zlen l1 + i) = l2.[i] ∧ (l2.[i] = 0 ↔ i = zlen l2)) as H.
  { intros i Hi. destruct (text_at_get s a (l1 ++ l2) (zlen l1 + i) Ht) as [R Z0].
    { rewrite length_app. lia. }
    rewrite aget_app_r, Z.add_simpl_l in R, Z0 by lia. rewrite length_app in Z0.
    split; [by rewrite <- Z.add_assoc|]. split; intros; [|apply Z0; lia].
    enough (zlen l1 + i = Z.of_nat (length l1 + length l2)) by lia. by apply Z0. }
  apply text_at_intro.
  - intros i Hi. destruct (H i ltac:(lia)) as [-> Z0]. split; [done|]. intros E. apply Z0 in E. lia.
  - destruct (H (zlen l2) ltac:(lia)) as [-> Z0]. by apply Z0.
Qed.

(** Cut off by a NUL. *)
Lemma text_cut s s' a l1 l2 :
  text_at s a (l1 ++ l2) → (∀ i, 0 ≤ i < zlen l1 → rd s' (a + i) = rd s (a + i)) →
  rd s' (a + zlen l1) = 0 → text_at s' a l1.
Proof.
  intros Ht Hk H0. apply text_at_intro; [|done]. intros i Hi. rewrite Hk by done.
  destruct (text_at_get s a (l1 ++ l2) i Ht) as [R Z0]; [rewrite length_app; lia|].
  rewrite aget_app_l in R, Z0 by lia. split; [done|]. intros E. apply Z0 in E. rewrite length_app in E. lia.
Qed.

Lemma text_head s a c l : text_at s a (c :: l) → rd s a = c ∧ c ≠ 0 ∧ text_at s (a + 1) l.
Proof.
  intros Ht. destruct (text_at_get s a (c :: l) 0 Ht ltac:(cbn; lia)) as [R Z0].
  rewrite Z.add_0_r in R. change ((c :: l).[0]) with c in *. cbn [length] in Z0.
  split; [done|]. split; [intros E; apply Z0 in E; lia|]. by apply (text_app s a [c]).
Qed.

Lemma text_end s a : text_at s a [] → rd s a = 0.
Proof. intros [(_ & _ & H) _]. by rewrite Z.add_0_r in H. Qed.

Lemma em_blanks_spec s a l :
  text_at s a l → zlen l < 4294967295 →
  em_blanks s a = Some (a + zlen (blanks l)).
Proof.
  intros Ht Hl. unfold em_blanks. apply (while_run _ (Datatypes.S (length l))); [|lia].
  clear Hl. revert a Ht. induction l as [|c l IH]; intros a Ht; cbn [blanks length]; rewrite run_S.
  { rewrite (text_end s a Ht). cbn. by rewrite Z.add_0_r. }
  apply text_head in Ht as (R & Hc & Ht). rewrite R.
  destruct (Z.eqb_spec c 32) as [->|Hne]; [|cbn; by rewrite Z.add_0_r].
  cbn [length] in *. rewrite (IH (a + 1)) by done. f_equal. lia.
Qed.

Lemma em_word_spec s a l :
  text_at s a l → zlen l < 4294967295 → em_word s a = Some (a + zlen (word l)).
Proof.
  intros Ht Hl. unfold em_word. apply (while_run _ (Datatypes.S (length l))); [|lia].
  clear Hl. revert a Ht. induction l as [|c l IH]; intros a Ht; cbn [word length]; rewrite run_S.
  { rewrite (text_end s a Ht). cbn. by rewrite Z.add_0_r. }
  apply text_head in Ht as (R & Hc & Ht). cbv zeta. rewrite R. rewrite (proj2 (Z.eqb_neq c 0) Hc).
  cbn [negb andb]. rewrite <- negb_orb. destruct ((c =? 32) || (c =? 10)); cbn [negb length].
  { by rewrite Z.add_0_r. }
  cbn [length] in *. rewrite (IH (a + 1)) by done. f_equal. lia.
Qed.

(** One round of the parser at a text without another word. *)
Lemma em_parse_last P args l s scan n :
  safe s P → text_at s scan l → zlen l < 4294967295 → (∀ b, region scan (zlen l + 1) b → P b) →
  words None l = [] →
  ∃ s', em_parse_step args (s, scan, n) = inr (Some (s', n)) ∧ kept P (region scan (zlen l + 1)) s s' ∧
    rd s' (scan + zlen l) = 0.
Proof.
  intros Hs Ht Hl HP Hw. assert (rd s (scan + zlen l) = 0) as Hz by apply Ht. pose proof (next_end l Hw) as (r & El & Hr).
  exists (wr s (scan + zlen (blanks l)) 0). unfold em_parse_step.
  rewrite (em_blanks_spec s scan l Ht Hl). rewrite El in Ht at 1. apply text_app in Ht.
  assert (zlen (blanks l) ≤ zlen l) by (rewrite El at 2; rewrite length_app; lia).
  split; [|split; [apply kept_wr; [done|apply HP|]; unfold region; lia|]].
  2: { rewrite (rd_wr_safe s P) by (first [done|apply HP; unfold region; lia]). by case_decide. }
  destruct Hr as [->|[r' ->]]; [by rewrite (text_end _ _ Ht)|].
  destruct (text_head _ _ _ _ Ht) as (R & _ & _). by rewrite R.
Qed.

(** One round of the parser at a word. *)
Lemma em_parse_word P args l s scan n w r :
  let b := scan + zlen (blanks l) in
  safe s P → text_at s scan l → 0 ≤ scan → scan + zlen l < 4294967295 →
  (∀ b, region scan (zlen l + 1) b → P b ∧ ¬ region (args + 4 * n) 4 b) →
  (∀ b, region (args + 4 * n) 4 b → P b) →
  l = blanks l ++ w ++ r → w ≠ [] → w = word (w ++ r) →
  ∃ s' t, em_parse_step args (s, scan, n) = inl (s', b + zlen w + zlen r - zlen t, n + 1) ∧
    t = (match r with [] => [] | _ :: t => t end) ∧
    text_at s' (b + zlen w + zlen r - zlen t) t ∧ text_at s' b w ∧ load32 s' (args + 4 * n) = b ∧
    kept P (λ a, region b (zlen w + 1) a ∨ region (args + 4 * n) 4 a) s s'.
Proof.
  intros b Hs Ht H0 Hend HP HPa El Hw Ew. unfold em_parse_step.
  rewrite (em_blanks_spec s scan l Ht) by lia. fold b.
  assert (text_at s b (w ++ r)) as Htb by (apply text_app; by rewrite <- El).
  assert (zlen l = zlen (blanks l) + zlen w + zlen r) as Elen by (rewrite El at 1; rewrite !length_app; lia).
  assert (rd s b ≠ 0 ∧ rd s b ≠ 10) as [Hn0 Hn10].
  { destruct w as [|c w]; [done|]. destruct (text_head s b c (w ++ r) Htb) as (-> & Hc & _).
    split; [done|]. intros ->. discriminate Ew. }
  rewrite (proj2 (Z.eqb_neq _ _) Hn0), (proj2 (Z.eqb_neq _ _) Hn10). cbn [orb].
  assert (kept P (λ a, region b (zlen w + 1) a ∨ region (args + 4 * n) 4 a) s (store32 s (args + 4 * n) b)) as K1
    by (apply kept_store32; auto).
  assert (text_at (store32 s (args + 4 * n) b) b (w ++ r)) as Ht1.
  { apply (kept_text P (region (args + 4 * n) 4) s); [by apply kept_store32| |done].
    intros a Ha. apply HP. rewrite length_app in Ha. unfold region, b in *. lia. }
  assert (load32 (store32 s (args + 4 * n) b) (args + 4 * n) = b) as L1
    by (apply (load32_store32 P); [done|done|lia]).
  set (s1 := store32 s (args + 4 * n) b) in *.
  assert (safe s1 P) as Hs1 by (by apply (em_kept_safe _ _ _ _ K1)).
  rewrite (em_word_spec s1 b (w ++ r) Ht1) by (rewrite length_app; lia). rewrite <- Ew.
  pose proof (text_app _ _ _ _ Ht1) as Htr. destruct r as [|c r].
  - rewrite (text_end _ _ Htr). cbn [Z.eqb]. exists s1, []. rewrite app_nil_r in Ht1.
    replace (b + zlen w + Z.of_nat (@length Z []) - Z.of_nat (@length Z [])) with (b + zlen w) by lia.
    by split_and!.
  - destruct (text_head _ _ _ _ Htr) as (R & Hc & Htt). rewrite R, (proj2 (Z.eqb_neq c 0) Hc).
    assert (P (b + zlen w)) as HPb by (apply HP; unfold region, b; cbn [length] in *; lia).
    exists (wr s1 (b + zlen w) 0), r. cbn [length] in *.
    replace (b + zlen w + Z.of_nat (Datatypes.S (length r)) - zlen r) with (b + zlen w + 1) by lia.
    assert (∀ a, P a → rd (wr s1 (b + zlen w) 0) a = if decide (b + zlen w = a) then 0 else rd s1 a) as Hrd
      by (intros a Ha; by apply (rd_wr_safe s1 P)).
    split; [done|]. split; [done|]. split.
    { apply (kept_text P (region (b + zlen w) 1) s1); [| |done].
      - apply kept_wr; [done|done|]. unfold region; lia.
      - intros a Ha. split; [apply HP|]; unfold region, b in *; lia. }
    split.
    { apply (text_cut s1 _ _ _ (c :: r)); [done| |].
      - intros i Hi. rewrite Hrd by (apply HP; unfold region, b in *; lia). by rewrite decide_False by lia.
      - rewrite Hrd by done. by rewrite decide_True. }
    split.
    { rewrite <- L1 at 2. apply load32_ext. intros a Ha. rewrite Hrd by (apply HPa; exact Ha).
      rewrite decide_False; [done|]. intros <-. apply (HP (b + zlen w)); [unfold region, b; lia|exact Ha]. }
    apply (kept_trans _ _ (region b (zlen w + 1)) _ _ _ _ (λ _ H, H) (λ _ H, or_introl H) K1).
    apply kept_wr; [done|done|]. unfold region; lia.
Qed.

Lemma em_parse_run P args : ∀ (m : nat) l s scan n,
  (length l ≤ m)%nat → safe s P → text_at s scan l → 0 ≤ scan → scan + zlen l < 4294967295 →
  zlen l < 2147483648 →
  let area := λ b, region scan (zlen l + 1) b ∨ region (args + 4 * n) (4 * zlen (words None l)) b in
  (∀ b, area b → P b) → (∀ b, region scan (zlen l + 1) b → ¬ region (args + 4 * n) (4 * zlen (words None l)) b) →
  ∃ s' k, run (em_parse_step args) k (s, scan, n) = inr (Some (s', n + zlen (words None l))) ∧
    (k ≤ length l + 1)%nat ∧ kept P area s s' ∧ rd s' (scan + zlen l) = 0 ∧
    arg_ptrs area s' (args + 4 * n) (words None l).
Proof.
  induction m as [|m IH]; cbv zeta in *; intros l s scan n Hm Hs Ht H0 Hend Hl31 HP Hdis.
  all: destruct (next_word l) as [Ew|(w & r & El & Hw & Ew & Ews)].
  1, 3: destruct (em_parse_last P args l s scan n) as (s1 & E1 & K1 & Z1); [done|done|lia|intros b Hb; apply HP; by left|done|].
  1, 2: exists s1, 1%nat; rewrite run_S, E1, Ew, Z.add_0_r; split; [done|]; split; [lia|]; split; [|done].
  1, 2: apply (kept_trans _ (region scan (zlen l + 1)) _ _ _ _ _ (λ _ H, or_introl H) (λ _ H, H) K1), kept_refl.
  { apply (f_equal length) in El. rewrite !length_app in El. destruct w; [done|]. cbn in *. lia. }
  assert (zlen l = zlen (blanks l) + zlen w + zlen r) as Elen by (rewrite El at 1; rewrite !length_app; lia).
  assert (0 < zlen w) as Hw0 by (destruct w; [done|cbn; lia]).
  rewrite Ews in *. cbn [length] in *.
  destruct (em_parse_word P args l s scan n w r) as (s1 & t & E1 & Et & Ht1 & Hw1 & L1 & K1); try done.
  { intros b Hb. split; [apply HP; by left|]. intros Ha. apply (Hdis b Hb). unfold region in *. lia. }
  { intros b Hb. apply HP. right. unfold region in *. lia. }
  rewrite <- Et in *. assert (zlen t ≤ zlen r ∧ (length t < length l)%nat) as [Hlt Hlt2].
  { destruct r; subst t; cbn [length] in *; lia. }
  set (b := scan + zlen (blanks l)) in *. set (scan' := b + zlen w + zlen r - zlen t) in *.
  assert (safe s1 P) as Hs1 by (by apply (em_kept_safe _ _ _ _ K1)).
  destruct (IH t s1 scan' (n + 1)) as (s2 & k & E2 & Hk & K2 & Z2 & A2);
    [lia|done|done|unfold scan', b; lia|unfold scan', b; lia|lia| | |].
  { intros a [Ha|Ha]; apply HP; [left|right]; unfold region, scan', b in *; lia. }
  { intros a Ha Ha'. apply (Hdis a); unfold region, scan', b in *; lia. }
  exists s2, (Datatypes.S k). rewrite run_S, E1. split.
  { rewrite E2. do 3 f_equal. lia. }
  split; [lia|]. split.
  { eapply (kept_trans _ _ _ _ _ _ _ _ _ K1 K2). Unshelve.
    - intros a [Ha|Ha]; [left|right]; unfold region, b in *; lia.
    - intros a [Ha|Ha]; [left|right]; unfold region, scan', b in *; lia. }
  replace (scan' + zlen t) with (scan + zlen l) in Z2 by (unfold scan', b; lia). split; [done|].
  cbn [arg_ptrs].
  assert (load32 s2 (args + 4 * n) = b) as ->.
  { rewrite <- L1. apply (kept_load32 P _ _ _ _ K2). intros a Ha. split.
    - apply HP. right. unfold region in *. lia.
    - intros [Hb|Hb]; [|unfold region in *; lia]. apply (Hdis a); unfold region, scan', b in *; lia. }
  split; [intros a Ha; right; unfold region in *; lia|]. split.
  { assert (∀ a, region b (zlen w) a → rd s2 a = rd s1 a) as Hk2.
    { intros a Ha. apply K2; [apply HP; left; unfold region, b in *; lia|].
      intros [Hb|Hb]; [unfold region, scan' in *; lia|]. apply (Hdis a); unfold region, b in *; lia. }
    apply (text_cut s1 _ _ _ []); [by rewrite app_nil_r|intros i Hi; apply Hk2; unfold region; lia|].
    destruct r as [|c r]; [subst t; cbn [length] in *; rewrite <- Z2; f_equal; unfold b; lia|].
    assert (rd s1 (b + zlen w) = 0) as <- by apply Hw1. subst t. cbn [length] in *.
    apply K2; [apply HP; left; unfold region, b in *; lia|].
    intros [Hb|Hb]; [unfold region, scan' in *; lia|]. apply (Hdis (b + zlen w)); unfold region, b in *; lia. }
  split; [intros a Ha; left; unfold region, b in *; lia|].
  split; [unfold b; lia|]. split; [lia|].
  replace (args + 4 * n + 4) with (args + 4 * (n + 1)) by lia. apply arg_ptrs_sub with (2 := A2).
  intros a [Ha|Ha]; [left|right]; unfold region, scan', b in *; lia.
Qed.

(** [buf] holds the command behind "./". *)
Lemma em_command P s buf command c :
  safe s P → text_at s command c → 0 ≤ command → command + zlen c < 4294967295 → zlen c ≤ 1023 →
  0 ≤ buf → buf + 1026 < 4294967295 →
  (∀ b, region command (zlen c + 1) b → P b ∧ ¬ region buf 1026 b) → (∀ b, region buf 1026 b → P b) →
  ∃ s', ece391_strcpy (wr (wr s buf 46) (buf + 1) 47) (buf + 2) command = Some s' ∧
    kept P (region buf 1026) s s' ∧ text_at s' buf (text "./" ++ c).
Proof.
  intros Hs Ht Hc0 Hc1 Hc Hb0 Hb1 HC HP.
  assert (P buf ∧ P (buf + 1)) as [Pb0 Pb1] by (split; apply HP; unfold region; lia).
  assert (safe (wr s buf 46) P) as Hs0 by by apply safe_wr.
  assert (kept P (region buf 1026) s (wr (wr s buf 46) (buf + 1) 47)) as K1.
  { apply (kept_trans P _ _ _ _ _ _ (λ _ H, H) (λ _ H, H) (kept_wr P (region buf 1026) s buf 46 Hs Pb0 ltac:(unfold region; lia))).
    apply kept_wr; [done|done|unfold region; lia]. }
  assert (rd (wr (wr s buf 46) (buf + 1) 47) buf = 46 ∧ rd (wr (wr s buf 46) (buf + 1) 47) (buf + 1) = 47) as [R0 R1].
  { rewrite !(rd_wr_safe (wr s buf 46) P), decide_False, (rd_wr_safe s P) by (done || lia).
    by rewrite !decide_True. }
  set (s1 := wr (wr s buf 46) (buf + 1) 47) in *.
  assert (safe s1 P) as Hs1 by (by apply (em_kept_safe _ _ _ _ K1)).
  assert (text_at s1 command c) as Ht1 by (by apply (kept_text P _ s _ _ _ K1)).
  destruct (ece391_strcpy_spec P (λ _, True) s1 (buf + 2) command c) as (s2 & E2 & W & _); try done; try lia.
  { intros a Ha. by apply HC. }
  { intros a Ha. apply HP. unfold region in *. lia. }
  { destruct (decide (command < buf + 2 ≤ command + zlen c)) as [Hd|]; [|lia]. exfalso.
    apply (HC (buf + 1)); unfold region; lia. }
  exists s2. split; [done|]. split.
  { apply (kept_trans P _ _ _ _ _ _ (λ _ H, H) (λ _ H, H) K1). apply (written_kept _ _ _ _ _ _ _ W).
    unfold region. lia. }
  assert (∀ i, 0 ≤ i ≤ zlen c → rd s2 (buf + 2 + i) = c.[i]) as R.
  { intros i Hi. rewrite (written_in _ _ _ _ _ _ _ W) by (lia || (apply HP; unfold region; lia)). f_equal. lia. }
  assert (∀ a, a = buf ∨ a = buf + 1 → rd s2 a = rd s1 a) as R2.
  { intros a Ha. apply (written_out _ _ _ _ _ _ _ W); [by destruct Ha as [-> | ->]|lia]. }
  pose proof (text_nz _ _ _ Ht) as Hnz.
  apply text_at_intro; rewrite length_app; change (length (text "./")) with 2%nat.
  - intros i Hi. destruct (decide (i = 0)) as [->|]; [rewrite Z.add_0_r, R2 by (by left); by rewrite R0|].
    destruct (decide (i = 1)) as [->|]; [rewrite R2 by (by right); by rewrite R1|].
    rewrite aget_app_r by (cbn; lia). change (zlen (text "./")) with 2.
    replace (buf + i) with (buf + 2 + (i - 2)) by lia. rewrite R by lia. split; [done|].
    apply Forall_aget_nz; [done|lia].
  - replace (buf + _) with (buf + 2 + zlen c) by lia. rewrite R by lia. apply aget_past. lia.
Qed.

(** The NUL pointer behind the arguments. *)
Lemma em_split_end P s0 s buf args ws :
  let area := λ b, region buf 1026 b ∨ region args 4096 b in
  (∀ b, area b → P b) → (∀ b, region buf 1026 b → ¬ region args 4096 b) → safe s P →
  kept P area s0 s → zlen ws ≤ 1023 →
  arg_ptrs (λ b, region buf 1026 b ∨ region args (4 * zlen ws) b) s args ws →
  kept P area s0 (store32 s (args + 4 * zlen ws) 0) ∧
  arg_ptrs area (store32 s (args + 4 * zlen ws) 0) args ws ∧
  load32 (store32 s (args + 4 * zlen ws) 0) (args + 4 * zlen ws) = 0.
Proof.
  intros area HP Hdis Hs K Hws A.
  assert (∀ b, region (args + 4 * zlen ws) 4 b → P b) as HP4
    by (intros b Hb; apply HP; right; unfold region in *; lia).
  pose proof (kept_store32 P (region (args + 4 * zlen ws) 4) s _ 0 Hs HP4 (λ _ H, H)) as K'.
  split.
  { apply (kept_trans P area (region (args + 4 * zlen ws) 4) _ _ s); try done.
    intros b Hb. right. unfold region in *. lia. }
  split; [|apply (load32_store32 P); [done|done|lia]].
  apply (arg_ptrs_sub (λ b, region buf 1026 b ∨ region args (4 * zlen ws) b)).
  { intros b [Hb|Hb]; [by left|right]. unfold region in *. lia. }
  apply (arg_ptrs_kept P _ (region (args + 4 * zlen ws) 4) s); [done| |done].
  intros b [Hb|Hb]; (split; [apply HP|]).
  - by left.
  - intros Hb'. apply (Hdis b Hb). unfold region in *. lia.
  - right. unfold region in *. lia.
  - unfold region in *. lia.
Qed.

Section Split.
Context (P : Z → Prop) (E : emu_env) (s : S) (command : Z) (c : list Z).
Let buf := em_buf E.
Let args := em_args E.
Let area b := region buf 1026 b ∨ region args 4096 b.
Context (Hs : safe s P) (Ht : text_at s command c) (Hc0 : 0 ≤ command) (Hc1 : command + zlen c < 4294967295).
Context (Hb0 : 0 ≤ buf) (Hb1 : buf + 1026 < 4294967295).
Context (HC : ∀ b, region command (zlen c + 1) b → P b ∧ ¬ region buf 1026 b).
Context (HP : ∀ b, area b → P b) (Hdis : ∀ b, region buf 1026 b → ¬ region args 4096 b).

Lemma em_args_view b : region args 4 b → P b.
Proof using HP. intros Hb. apply HP. right. clear - Hb. unfold region in *. lia. Qed.

(** The command and the pointer to the program's name. *)
Lemma em_split_start :
  zlen c ≤ 1023 →
  ∃ s3, em_split E s command =
      ('(s, n) ← (if rd s3 (buf + 2 + zlen (word c)) =? 0 then Some (s3, 1)
                  else r ← while (em_parse_step args) (wr s3 (buf + 2 + zlen (word c)) 0, buf + 2 + zlen (word c) + 1, 1); r);
       Some (store32 s (args + 4 * n) 0, true)) ∧
    kept P area s s3 ∧ text_at s3 buf (text "./" ++ c) ∧ load32 s3 args = buf.
Proof using All.
  intros Hc. unfold em_split. fold buf. fold args.
  rewrite (ece391_strlen_spec s command (zlen c)) by (apply Ht || lia).
  rewrite bind_some, (proj2 (Z.ltb_ge 1023 _)) by lia. cbv zeta.
  destruct (em_command P s buf command c) as (s2 & E2 & K2 & Ht2); try done.
  { intros b Hb. apply HP. by left. }
  rewrite E2, bind_some. pose proof (em_kept_safe _ _ _ _ K2 Hs) as Hs2.
  rewrite (em_word_spec s2 (buf + 2) c), bind_some; [|by apply (text_app s2 buf (text "./"))|lia].
  exists (store32 s2 args buf). split; [done|]. split; [|split].
  - apply (kept_trans P _ _ _ _ _ _ (λ _ H, or_introl H) (λ _ H, H) K2), kept_store32; [done|apply em_args_view|].
    intros b Hb. right. unfold region in *. lia.
  - apply (kept_text P (region args 4) s2); [apply kept_store32; [done|apply em_args_view|done]| |done].
    intros b Hb. rewrite length_app in Hb. change (length (text "./")) with 2%nat in Hb.
    split; [apply HP; left; unfold region in *; lia|].
    intros Hb'. apply (Hdis b); unfold region in *; lia.
  - apply (load32_store32 P); [done|apply em_args_view|lia].
Qed.

(** The rest of the command, behind the name [w0] and a separator. *)
Lemma em_split_rest s3 w0 x t :
  kept P area s s3 → text_at s3 buf (w0 ++ x :: t) → load32 s3 args = buf → zlen w0 + zlen t ≤ 1024 →
  let scan := buf + zlen w0 in
  ∃ s5, while (em_parse_step args) (wr s3 scan 0, scan + 1, 1) = Some (Some (s5, 1 + zlen (words None t))) ∧
    kept P area s s5 ∧
    arg_ptrs (λ b, region buf 1026 b ∨ region args (4 * (1 + zlen (words None t))) b) s5 args (w0 :: words None t).
Proof using All.
  intros K3 Ht3 L3 Hlen scan. pose proof (em_kept_safe _ _ _ _ K3 Hs) as Hs3.
  assert (P scan) as HPs by (apply HP; left; unfold region, scan; lia).
  pose proof (kept_wr P (region scan 1) s3 scan 0 Hs3 HPs ltac:(unfold region; lia)) as K4.
  assert (text_at (wr s3 scan 0) buf w0) as Hw4.
  { apply (text_cut s3 _ _ _ (x :: t)); [done| |].
    - intros i Hi. apply K4; [apply HP; left|]; unfold region, scan; lia.
    - rewrite (rd_wr_safe s3 P) by done. by rewrite decide_True. }
  assert (text_at (wr s3 scan 0) (scan + 1) t) as Ht4.
  { apply (kept_text P _ s3 _ _ _ K4); [|apply (text_head _ _ _ _ (text_app _ _ _ _ Ht3))]. intros b Hb.
    split; [apply HP; left|]; unfold region, scan in *; lia. }
  assert (load32 (wr s3 scan 0) args = buf) as L4.
  { etransitivity; [|exact L3]. apply (kept_load32 P _ _ _ _ K4). intros b Hb. split; [by apply em_args_view|].
    intros Hb'. apply (Hdis b); unfold region, scan in *; lia. }
  set (s4 := wr s3 scan 0) in *. pose proof (proj1 (words_bound t)) as Hwb.
  destruct (em_parse_run P args (length t) t s4 (scan + 1) 1) as (s5 & k & E5 & Hk & K5 & _ & A5);
    [done|by apply (em_kept_safe _ _ _ _ K4)|done|unfold scan; lia|unfold scan; lia|lia| | |].
  { intros b [Hb|Hb]; apply HP; [left|right]; unfold region, scan in *; lia. }
  { intros b Hb Hb'. apply (Hdis b); unfold region, scan in *; lia. }
  assert (load32 s5 args = buf) as L5.
  { rewrite <- L4. apply (kept_load32 P _ _ _ _ K5). intros b Hb. split; [by apply em_args_view|].
    intros [Hb'|Hb']; [|unfold region in *; lia]. apply (Hdis b); unfold region, scan in *; lia. }
  exists s5. rewrite (while_run _ _ _ _ E5) by lia. split; [done|]. split.
  - assert (kept P area s s4) as K04.
    { apply (kept_trans P _ _ _ _ _ _ (λ _ H, H)) with (2 := K3) (3 := K4).
      intros b Hb. left. unfold region, scan in *. lia. }
    apply (kept_trans P _ _ _ _ _ _ (λ _ H, H)) with (2 := K04) (3 := K5).
    intros b [Hb|Hb]; [left|right]; unfold region, scan in *; lia.
  - cbn [arg_ptrs]. rewrite L5. split_and!.
    + intros b Hb. right. unfold region in *. lia.
    + apply (kept_text P _ s4 _ _ _ K5); [|done]. intros b Hb. split; [apply HP; left; unfold region in *; lia|].
      intros [Hb'|Hb']; [unfold region, scan in *; lia|]. apply (Hdis b); unfold region in *; lia.
    + intros b Hb. left. unfold region in *. lia.
    + lia.
    + lia.
    + replace (args + 4 * 1) with (args + 4) in A5 by lia. apply arg_ptrs_sub with (2 := A5).
      intros b [Hb|Hb]; [left|right]; unfold region, scan in *; lia.
Qed.

(** The program's name and the arguments in [buf], with the pointers in
    [args]: a NUL pointer behind the last one. *)
Lemma em_split_spec :
  let ws := words (Some (text "./")) c in
  zlen c ≤ 1023 →
  ∃ s', em_split E s command = Some (s', true) ∧ kept P area s s' ∧
    arg_ptrs area s' args ws ∧ load32 s' (args + 4 * zlen ws) = 0.
Proof using All.
  intros ws Hc. destruct (em_split_start Hc) as (s3 & -> & K3 & Ht3 & L3).
  pose proof (words_word c (text "./")) as Ews. fold ws in Ews. pose proof (word_prefix c) as Ec.
  set (w0 := text "./" ++ word c) in *.
  assert (zlen w0 = 2 + zlen (word c)) as Lw0
    by (unfold w0; rewrite length_app; change (length (text "./")) with 2%nat; lia).
  replace (buf + 2 + zlen (word c)) with (buf + zlen w0) by lia.
  rewrite Ec, app_assoc in Ht3. fold w0 in Ht3. apply (f_equal length) in Ec. rewrite length_app in Ec.
  destruct (drop (length (word c)) c) as [|x t].
  - rewrite app_nil_r in Ht3. cbn [length] in Ec.
    assert (rd s3 (buf + zlen w0) = 0) as -> by apply Ht3. cbn [Z.eqb]. rewrite bind_some.
    destruct (em_split_end P s s3 buf args [w0]) as (K & A & L); try done.
    { by apply (em_kept_safe _ _ _ _ K3). }
    { cbn [arg_ptrs length]. rewrite L3. split_and!; try lia; try done.
      - intros b Hb. right. unfold region in *. lia.
      - intros b Hb. left. unfold region in *. lia. }
    rewrite Ews. exists (store32 s3 (args + 4 * 1) 0). by split_and!.
  - cbn [length] in Ec. destruct (text_head _ _ _ _ (text_app _ _ _ _ Ht3)) as (-> & Hx & _).
    rewrite (proj2 (Z.eqb_neq x 0) Hx).
    destruct (em_split_rest s3 w0 x t K3 Ht3 L3) as (s5 & -> & K5 & A5); [lia|]. rewrite !bind_some.
    pose proof (proj1 (words_bound t)) as Hwb.
    assert (zlen ws = 1 + zlen (words None t)) as Lws by (rewrite Ews; cbn [length]; lia).
    rewrite <- Lws in *. rewrite <- Ews in A5.
    destruct (em_split_end P s s5 buf args ws) as (K & A & L); try done; [by apply (em_kept_safe _ _ _ _ K5)|lia|].
    exists (store32 s5 (args + 4 * zlen ws) 0). by split_and!.
Qed.
End Split.

(** ** The calls *)

Context `{!Host S}.

(** C15 (emulated commands). [ece391_execute] on Linux runs the file named by the
    first word of the command, in the current directory, with the words of the
    command as its arguments and a NULL pointer behind them; a command of more
    than 1023 characters is refused.  The result is the exit status, -1 when
    the file could not be run, and 256 when the program was killed.  Words
    joined by single spaces, as [ece391_getargs] joins them, are found again. *)
Theorem emulated_commands P (E : emu_env) s command c :
  let buf := em_buf E in
  let args := em_args E in
  let area := λ b, region buf 1026 b ∨ region args 4096 b in
  let ws := words (Some (text "./")) c in
  safe s P → text_at s command c → 0 ≤ command → command + zlen c < 4294967295 →
  0 ≤ buf → buf + 1026 < 4294967295 →
  (∀ b, region command (zlen c + 1) b → P b ∧ ¬ region buf 1026 b) →
  (∀ b, area b → P b) → (∀ b, region buf 1026 b → ¬ region args 4096 b) →
  (1023 < zlen c → em_execute E s command = Some (s, -1)) ∧
  (zlen c ≤ 1023 →
    ∃ s', kept P area s s' ∧ arg_ptrs area s' args ws ∧ load32 s' (args + 4 * zlen ws) = 0 ∧
      em_execute E s command =
        let (s2, status) := h_run s' buf args in
        Some (s2, match status with Exited n => n | Killed 9 => -1 | Killed _ => 256 end)) ∧
  (∀ (file : list Z) (more : list (list Z)), Forall proper_word (file :: more) →
     c = spaced (file :: more) → ws = (text "./" ++ file) :: more).
Proof.
  cbv zeta. intros Hs Ht Hc0 Hc1 Hb0 Hb1 HC HP Hdis. split_and!.
  - intros Hc. unfold em_execute, em_split.
    rewrite (ece391_strlen_spec s command (zlen c)) by (apply Ht || lia).
    by rewrite bind_some, (proj2 (Z.ltb_lt 1023 _)) by lia.
  - intros Hc. destruct (em_split_spec P E s command c Hs Ht Hc0 Hc1 Hb0 Hb1 HC HP Hdis Hc) as (s' & Es & K & A & L).
    exists s'. split; [done|]. split; [done|]. split; [done|].
    unfold em_execute. rewrite Es, bind_some. cbn [negb].
    destruct (h_run s' (em_buf E) (em_args E)) as [s2 [n|n]]; [done|].
    unfold em_status. destruct (Z.eqb_spec 9 n) as [<-|Hn]; [done|].
    destruct n as [|[[|[|[]|]|]|[|[]|]|]|]; done.
  - intros file more Hl ->. by apply words_spaced.
Qed.

(** What the calls below rely on: the host's directory and file calls leave
    the program's variables and strings alone. *)
Definition host_keeps (P : Z → Prop) : Prop :=
  ∀ s a b, kept P (λ _, False) s (h_opendir s a).1 ∧ kept P (λ _, False) s (h_open s a b).1 ∧
           kept P (λ _, False) s (h_closedir s a) ∧ kept P (λ _, False) s (h_close s a) ∧
           kept P (λ _, False) s (h_readdir s a).1.

Lemma em_plain_false (E : emu_env) s fd :
  em_plain E s fd = false ↔ load32 s (em_dir E) ≠ 0 ∧ s32 (load32 s (em_dir_fd E)) = fd.
Proof.
  unfold em_plain. rewrite orb_false_iff, negb_false_iff, Z.eqb_neq, Z.eqb_eq. done.
Qed.

(** (emulated directory). After the directory was opened on Linux, its
    descriptor is the one that reads names: each read gives the next name in
    the first [nbytes] of 32 bytes, cut or padded with NULs, and 0 at the end
    (a count of 0 or less is not respected, the name is copied up to 32
    bytes); writes are refused; and after it is closed every descriptor is a
    plain one again, whose calls go to the system. *)
Theorem emulated_directory P (E : emu_env) :
  host_keeps P →
  (∀ b, region (em_dir E) 4 b → P b) → (∀ b, region (em_dir_fd E) 4 b → P b) →
  (∀ b, region (em_dir E) 4 b → ¬ region (em_dir_fd E) 4 b) →
  (∀ s filename, safe s P → text_at s filename (text ".") → text_at s (em_str E (text ".")) (text ".") →
     0 ≤ filename < 4294967290 → 0 ≤ em_str E (text ".") < 4294967290 →
     0 < (h_opendir s (em_str E (text "."))).2 < 4294967296 → (∀ s a b, -1 ≤ (h_open s a b).2 < 2147483648) →
     ∃ s' fd, em_open E s filename = Some (s', fd) ∧ ∀ fd', em_plain E s' fd' = false ↔ fd' = fd) ∧
  (∀ s fd buf nbytes s1 name l,
     let k := if 0 <? nbytes then Z.min nbytes 32 else Z.min (zlen l) 32 in
     em_plain E s fd = false → h_readdir s (load32 s (em_dir E)) = (s1, name) → safe s1 P →
     (name = 0 → em_read E s fd buf nbytes = Some (s1, 0)) ∧
     (name ≠ 0 → text_at s1 name l → (∀ b, region name (zlen l + 1) b → P b ∧ ¬ region buf k b) →
        (∀ b, region buf k b → P b) →
        ∃ s', em_read E s fd buf nbytes = Some (s', k) ∧ written P s1 s' buf k (λ i, l.[i]))) ∧
  (∀ s fd, em_plain E s fd = false → safe s P →
     (∀ buf nbytes, em_write E s fd buf nbytes = (s, -1)) ∧
     ∃ s', em_close E s fd = (s', 0) ∧ ∀ fd', em_plain E s' fd' = true) ∧
  (∀ s fd buf nbytes, em_plain E s fd = true →
     em_read E s fd buf nbytes =
       let (s', eax) := h_int80 s 3 (u32 fd) buf (u32 nbytes) in Some (s', call_result eax)).
Proof.
  intros HK HPd HPf Hdis. split_and!.
  - intros s filename Hs Hf Hd Hf0 Hd0 Ho1 Ho2. unfold em_open.
    destruct (ece391_strcmp_spec s filename (em_str E (text ".")) (text ".") (text ".")) as (r & -> & Hr);
      try done; try (change (zlen (text ".")) with 1; lia); try lia.
    rewrite bind_some, (proj2 Hr eq_refl), Z.eqb_refl.
    destruct (HK s (em_str E (text ".")) 0) as (Kd & _).
    destruct (h_opendir s _) as [s1 d]. cbn [fst snd] in *.
    pose proof (em_kept_safe _ _ _ _ Kd Hs) as Hs1.
    pose proof (load32_store32 P s1 (em_dir E) d Hs1 HPd ltac:(lia)) as Ld.
    pose proof (kept_store32 P (region (em_dir E) 4) s1 (em_dir E) d Hs1 HPd (λ _ H, H)) as K1.
    set (s2 := store32 s1 (em_dir E) d) in *. pose proof (em_kept_safe _ _ _ _ K1 Hs1) as Hs2.
    destruct (HK s2 (em_str E (text "/dev/null")) O_RDONLY) as (_ & Ko & _).
    specialize (Ho2 s2 (em_str E (text "/dev/null")) O_RDONLY).
    destruct (h_open s2 _ _) as [s3 fd]. cbn [fst snd] in *.
    pose proof (em_kept_safe _ _ _ _ Ko Hs2) as Hs3. exists (store32 s3 (em_dir_fd E) (u32 fd)), fd.
    split; [done|]. intros fd'. rewrite em_plain_false.
    rewrite (load32_store32 P s3) by (done || apply u32_range).
    pose proof (kept_store32 P (region (em_dir_fd E) 4) s3 (em_dir_fd E) (u32 fd) Hs3 HPf (λ _ H, H)) as K3.
    rewrite (kept_load32 P _ s3 _ _ K3) by auto.
    rewrite (kept_load32 P _ s2 _ _ Ko) by auto. rewrite Ld.
    assert (s32 (u32 fd) = fd) as -> by mlia. split; [by intros [_ ->]|]. intros ->. split; [lia|done].
  - intros s fd buf nbytes s1 name l k Hp Er Hs1. unfold em_read. rewrite Hp, Er. split.
    + by intros ->.
    + intros Hn Ht HN HB. rewrite (proj2 (Z.eqb_neq name 0) Hn). by apply (em_entry_spec P).
  - intros s fd Hp Hs. unfold em_write, em_close. rewrite Hp. split; [done|]. eexists. split; [done|].
    intros fd'. apply not_false_iff_true. rewrite em_plain_false. intros [Hd _]. apply Hd. clear Hd.
    destruct (HK s (load32 s (em_dir E)) 0) as (_ & _ & Kc & _ & _).
    set (s1 := h_closedir s _) in *. pose proof (em_kept_safe _ _ _ _ Kc Hs) as Hs1.
    pose proof (kept_store32 P (region (em_dir E) 4) s1 (em_dir E) 0 Hs1 HPd (λ _ H, H)) as K1.
    pose proof (load32_store32 P s1 (em_dir E) 0 Hs1 HPd ltac:(lia)) as Ld.
    set (s2 := store32 s1 (em_dir E) 0) in *. pose proof (em_kept_safe _ _ _ _ K1 Hs1) as Hs2.
    destruct (HK s2 (s32 (load32 s2 (em_dir_fd E))) 0) as (_ & _ & _ & Ko & _).
    set (s3 := h_close s2 _) in *. pose proof (em_kept_safe _ _ _ _ Ko Hs2) as Hs3.
    pose proof (kept_store32 P (region (em_dir_fd E) 4) s3 (em_dir_fd E) 0xFFFFFFFF Hs3 HPf (λ _ H, H)) as K3.
    rewrite (kept_load32 P _ s3 _ _ K3) by auto. rewrite (kept_load32 P _ s2 _ _ Ko) by auto. done.
  - intros s fd buf nbytes Hp. unfold em_read. by rewrite Hp.
Qed.
End Proofs.

(** ** A small host *)

(** Everything at its own address: the stack with two arguments, a command, a
    directory with one name. *)
Definition demo_env : emu_env :=
  mk_emu_env (λ l, if bool_decide (l = text ".") then 0x700 else 0x710) 0x100 0x110 0x114 0x118 0x1000 0x2000.

#[local] Instance demo_host : Host (gmap Z Z) := {
  h_opendir m _ := (m, 0x5000);
  h_readdir m _ := (m, 0x720);
  h_closedir m _ := m;
  h_open m _ _ := (m, 3);
  h_close m _ := m;
  h_run m _ _ := (m, Exited 7);
  h_mmap m _ := (m, 0);
  h_perror m _ := m;
  h_int80 m _ _ _ _ := (m, 0)
}.

Definition demo_mem : gmap Z Z :=
  let put32 := λ a v m, store32 m a v in
  put32 0x100 0x200 (put32 0x200 3 (put32 0x204 0x310 (put32 0x208 0x300 (put32 0x20c 0x304
    (flat_of 0x300 (text "ab" ++ [0; 0] ++ text "c" ++ [0]) ∪ flat_of 0x600 (text "cat a" ++ [0]) ∪
     flat_of 0x700 (text "." ++ [0]) ∪ flat_of 0x720 (text "fish" ++ [0])))))).

Lemma demo_text a l :
  bytes demo_mem a (zlen l) = l → forallb (λ c, negb (c =? 0)) l = true → rd demo_mem (a + zlen l) = 0 →
  text_at demo_mem a l.
Proof.
  intros Hb Hl Hz. apply text_of_bytes; [done| |done]. clear Hb Hz. induction l as [|c l IH]; [done|].
  cbn in Hl. apply andb_true_iff in Hl as [H1 H2]. constructor; [|by apply IH].
  by apply Z.eqb_neq, negb_true_iff.
Qed.

Lemma demo_ptrs :
  arg_ptrs (λ b, region 0x208 8 b ∨ region 0x300 16 b) demo_mem 0x208 [text "ab"; text "c"].
Proof.
  assert (load32 demo_mem 0x208 = 0x300) as E1 by (vm_compute; reflexivity).
  assert (load32 demo_mem (0x208 + 4) = 0x304) as E2 by (vm_compute; reflexivity).
  cbn [arg_ptrs]. rewrite E1, E2.
  change (zlen (text "ab")) with 2. change (zlen (text "c")) with 1. unfold region.
  split_and!; try lia; apply demo_text; vm_compute; reflexivity.
Qed.

Lemma emulated_arguments_witness :
  ∃ s', em_getargs demo_env demo_mem 0x400 16 = Some (s', 0) ∧ text_at s' 0x400 (text "ab c").
Proof.
  destruct (emulated_arguments (λ _, True) (λ b, region 0x208 8 b ∨ region 0x300 16 b) demo_env demo_mem
              0x400 16 [text "ab"; text "c"]) as (s' & E & _ & T & _).
  - apply flat_safe.
  - intros b Hb. split; [exact I|]. unfold region in *. lia.
  - intros b _. exact I.
  - lia.
  - lia.
  - lia.
  - vm_compute. reflexivity.
  - vm_compute. reflexivity.
  - exact demo_ptrs.
  - exists s'. split; [exact E|]. apply T. vm_compute. reflexivity.
Defined.

Lemma emulated_commands_witness :
  ∃ s', em_execute demo_env demo_mem 0x600 = Some (s', 7) ∧
        arg_ptrs (λ b, region 0x1000 1026 b ∨ region 0x2000 4096 b) s' 0x2000 [text "./cat"; text "a"].
Proof.
  destruct (emulated_commands (λ _, True) demo_env demo_mem 0x600 (text "cat a")) as (_ & H & _).
  - apply flat_safe.
  - apply demo_text; vm_compute; reflexivity.
  - lia.
  - vm_compute. reflexivity.
  - vm_compute. discriminate.
  - vm_compute. reflexivity.
  - change (zlen (text "cat a")) with 5. cbn. unfold region. intros b Hb. split; [exact I|]. lia.
  - intros b _. exact I.
  - cbn. unfold region. lia.
  - destruct H as (s' & _ & A & _ & E); [vm_compute; discriminate|]. exists s'. split; [exact E|exact A].
Defined.

Lemma emulated_directory_witness :
  ∃ s' fd, em_open demo_env demo_mem 0x700 = Some (s', fd) ∧ ∀ fd', em_plain demo_env s' fd' = false ↔ fd' = fd.
Proof.
  destruct (emulated_directory (λ _, True) demo_env) as [H _].
  - intros s a b. cbn. split_and!; apply kept_refl.
  - intros b _. exact I.
  - intros b _. exact I.
  - cbn. unfold region. lia.
  - apply (H demo_mem 0x700).
    + apply flat_safe.
    + apply demo_text; vm_compute; reflexivity.
    + apply demo_text; vm_compute; reflexivity.
    + lia.
    + vm_compute. split; [discriminate|reflexivity].
    + cbn. lia.
    + intros s a b. cbn. lia.
Defined.
